(* ===== verification/_CoqProject ===== *)
-Q . S2P
Prelude.v
Utility.v
Text.v
BitMap.v
Lists.v
Stacks.v
Interrupt.v
Machine.v
Mips.v
Disasm.v
Disk.v
Debug.v
OpenFile.v
Directory.v
FileSys.v
FileSysSpec.v
AddrSpace.v
SysDep.v
Host.v
Interp.v
InterpSpec.v
InterpStats.v
Loader.v
Out.v
Threads.v
ThreadsInv.v
ThreadsSafe.v
Quiet.v
ThreadsSpec.v
ThreadsRuns.v
Exclusion.v
SyncDisk.v
Switch.v
SwitchRisc.v
UserRun.v
System.v
Console.v
ConsoleSpec.v
UserProg.v
Process.v
ProcessSpec.v
UserProgSpec.v
STableSpec.v
Syscall.v
SyscallSpec.v
Boot.v
TestPrograms.v
Coff.v
Flat.v
Whole.v
UserPrograms.v
Network.v
NetworkSpec.v
NetworkRuns.v
