(* ===== verification/Prelude.v ===== *)
(** * A verification library for the Nachos 3.4 operating system

    ** The program

    Nachos is an operating system kernel that runs, with a simulator of the
    machine below it, as one UNIX process. The sources are in
    src/nachos/nachos-3.4/code (all file names below are relative to it):
    machine/ is the simulator, which delivers interrupts and interprets MIPS
    instructions; threads/ the thread system, the process and semaphore tables
    and the start of the system; filesys/ the file system on the simulated
    disk; userprog/ address spaces, system calls and exceptions; network/ the
    mail system. The kernel calls the devices to start a transfer; a device
    schedules an interrupt; each tick of simulated time (Interrupt::OneTick)
    runs the handlers that are due, which signal the semaphores on which
    threads wait. User programs enter the kernel through exceptions.

    ** How the code is represented

    Code that is not interrupted is a function of the state that returns, fails
    an ASSERT or calls Abort ([Aborted]), ends the simulation ([Halted]), or
    meets undefined behaviour of C++ ([Undef]): the monad [M] of this file. C++
    objects live in heaps ([gmap loc]) when their pointers are shared, in
    records otherwise; [new] takes an address that is not in use, following a
    pointer that is not there is [Undef]. Integers are [Z], wrapped around
    ([i32], [u32], [i8], ...) where the code computes at machine width: signed
    overflow wraps, as on the hosts the code was written for, except for the
    division of the smallest int by -1. Uninitialised memory is an argument of
    the definitions that allocate it ([Garbage], [NetGarbage], ...). Loops with
    a bound are [for_]; [while_] takes fuel, and the lemmas about the loops
    show that the fuel written at the loop is enough. Code that gives the CPU
    away is a program ([prog] of Threads.v), a tree of atomic steps, loops
    without a bound ([Until]), ticks and context switches; [step] and [run]
    execute the running thread and keep the continuations of the others. Runs
    take a number of steps; the theorems about runs either hold for every
    number, give the number, or are about the step at which the machine halts.
    The handlers of the devices, UNIX, and the instruction DelayedLoad(0,0)
    that the interrupt simulation executes are parameters with contracts
    (classes [Devices], [Unix], [UnixSpec], [InterpUnix], [Sockets],
    [SocketsSpec], [SectorDisk]), each with an instance.

    ** The files and what they show

    This file: integers, the monad, arrays, loops, lenses, tactics and their
    lemmas; divRoundUp and divRoundDown of threads/utility.h. Utility.v
    (threads/utility.cc; bounded arrays, signals and Delay of
    machine/sysdep.cc): which debugging messages are printed, and
    [BoundedArray_roundtrip]. Text.v: C strings
    and numbers as printf writes them.

    BitMap.v (userprog/bitmap.cc): the operations on packed words refine a list
    of booleans ([BitMap_operations_refine_bits]); Find allocates the first
    clear bit ([BitMap_Find_allocates]). FetchFrom and WriteBack: FileSys.v.

    Lists.v (threads/list.cc): the pointer operations on a heap refine a queue
    ([List_queue_refinement]) and sorted insertion ([List_SortedInsert_sorts]).

    Stacks.v (c++example/): the tutorial's abstract class of stacks, a type class
    with a contract, its array and list, and the programs that test them
    ([SelfTest_any_stack], [stack_programs_run]).

    Interrupt.v (machine/interrupt.cc, timer.cc, stats.cc): OneTick terminates,
    calls the handlers of exactly the interrupts that are due, once each, and
    keeps the others ([OneTick_returns]); Idle halts or advances the clock
    ([Idle_halts_or_advances]); for all devices that keep their contract.

    Machine.v (machine/machine.cc, translate.cc): translation stays inside the
    memory ([Translate_safe]); what is written is read back on hosts of both
    byte orders ([WriteMem_ReadMem]). Mips.v (machine/mipssim.cc): decoding,
    the 64-bit product, overflow, and that no instruction breaks the simulator
    except the ones named ([Decode_assembled], [Mult_product],
    [overflow_exact], [OneInstruction_safe]). UserRun.v: Machine::Run in a
    thread, where the exception handler is a program; handling the exception
    after the instruction is the same as in its middle ([execute_then_handle]).
    Debug.v: the interactive debugger of the machine with what the user types,
    and what the simulator prints of its state ([Debugger_obeys]).

    Disasm.v (bin/d.c, disasm.c, opstrings.c, instr.h, encode.h; opStrings of
    machine/mipssim.h): the text the disassembler prints and the debugging
    line of the simulator give the same operation and operands, with the
    instructions for which they do not ([disassemblers_agree]). Interp.v with InterpSpec.v
    (bin/execute.c, int.h, system.c): the other MIPS interpreter of the
    repository; any number of its steps is as many of OneInstruction, for the
    instructions to which both give one meaning ([interpreters_agree]);
    InterpStats.v: its logarithm and histograms ([ilog2_bits]). Loader.v
    (bin/main.c, disasm.c): the command line and the loading of object files,
    in the interpreter and in the disassembler ([loaders_agree],
    [load_program_memory]). Out.v (bin/out.c): the dump of an object file
    ([symbol_table_aligned]).

    Disk.v (machine/disk.cc), OpenFile.v (filesys/synchdisk.cc, filehdr.cc,
    openfile.cc), Directory.v (filesys/directory.cc), FileSys.v with
    FileSysSpec.v (filesys/filesys.cc, fstest.cc): requests and their latency
    ([Disk_requests]); open files are byte arrays ([OpenFile_refines_bytes]);
    allocation ([Allocate_Deallocate]); directories are maps
    ([Directory_refines_map]); Create, Remove, Open, Copy, formatting and
    restarting keep the disk consistent and do what they should
    ([FileSystem_Create_correct] and the other theorems of FileSysSpec.v).
    OpenFile.v takes a transfer of a sector for one step; SyncDisk.v has the
    synchronous disk as it runs under the scheduler, waiting for a semaphore
    until the disk interrupts, and shows that it does just that
    ([SynchDisk_implements_transfers]).

    AddrSpace.v (userprog/addrspace.cc, bin/noff.h): NOFF headers, allocation of
    frames, loading, and that the accesses of a program whose space was
    restored act on a private array of bytes, the memory of its own frames
    ([AddrSpace_private_memory]). UserProg.v: the constructor, which waits for
    a lock between the parts, and StartProcess; UserProgSpec.v: a new process
    comes to the interpreter with its program loaded ([StartProcess_2_loads]).

    Threads.v (threads/thread.cc, scheduler.cc, synch.cc, synchlist.cc,
    threadtest.cc), with the invariant in ThreadsInv.v, its preservation in
    ThreadsSafe.v and the theorems in ThreadsSpec.v and ThreadsRuns.v: no run
    fails, and at every switch each thread is ready, waits, is just created or
    has finished ([Threads_safe]); P and V
    ([Semaphore_P_takes_or_waits], [Semaphore_V_wakes_first]), the registers
    across a switch ([switch_restores_user_state]), the thread test to its end
    ([ThreadTest_alternates]). Exclusion.v: a logic of tokens for programs of
    threads, and mutual exclusion by semaphores in every run
    ([Semaphore_excludes]). Quiet.v: rules for programs that run without
    being interrupted, used for the process table, and for runs of one thread.

    Switch.v (threads/switch.c, switch.h, StackAllocate of thread.cc): the
    assembly of the context switch on the Intel 386, the host of the Makefile.
    It is what [Switch] of Threads.v stands for: it ends where the new thread was
    suspended, in its registers, and suspends the old one
    ([SWITCH_is_coroutine]); a new thread enables interrupts, calls its
    function and finishes ([new_thread_calls]). SwitchRisc.v: the same code for
    MIPS and PA-RISC, with delay slots ([SWITCH_on_risc_hosts]).

    SysDep.v (machine/sysdep.cc; the file system stub of filesys/filesys.h and
    openfile.h) with Host.v: an open file of the stub is a byte sequence with a
    position, for Read, Write, Length and Seek ([StubFile_is_sequential]); a small UNIX.

    System.v, Console.v, Process.v, Syscall.v, Boot.v (threads/system.cc,
    machine/console.cc, threads/synchcons.cc, pcb.cc, ptable.cc, stable.cc,
    userprog/exception.cc, threads/main.cc): the kernel that runs user programs.
    ProcessSpec.v: Exec starts a process or refuses
    ([PTable_ExecUpdate_starts], [PTable_ExecUpdate_refuses]). STableSpec.v:
    the named semaphores are a map ([STable_refines_map]). SyscallSpec.v:
    numbers printed are read back as far as nine characters go
    ([PrintNum_then_ReadNum]). ConsoleSpec.v: a user thread that reads a line
    waits for every key and gets the line ([SynchConsole_Read_line]). Whole.v: the whole
    system from boot to halt on user programs in machine code
    ([Exec_Join_Exit_run], [CreateSemaphore_dangling]) and on executables that
    the repository ships, whose bytes are in TestPrograms.v
    ([shipped_programs_run]). UserPrograms.v (test/*.c): the sources of the
    test programs as the system calls they make ([sort_program_sorts]).

    Coff.v (bin/coff2noff.c, coff.h): the executables are made of COFF files
    section by section ([coff2noff_correct]); the shipped ones are those it
    makes ([shipped_programs_run]). Flat.v (bin/coff2flat.c): the other
    converter ([coff2flat_layout]).

    Network.v (machine/network.cc, network/post.cc, nettest.cc) with
    NetworkSpec.v and NetworkRuns.v: the interface is a queue
    ([Network_is_queue]), messages arrive ([mail_delivered]), the mail test on
    two machines ([MailTest_run]).

    ** Bounds and fuel

    Simulated time is an int: the theorems about time assume that it stays
    below 2^31. [Threads_safe] holds for every number of steps while a horizon
    of simulated time is left. CheckIfDue is repeated at most once more than
    there are pending interrupts, since handlers schedule in the future. The
    loop that prints a number divides by ten at most ten times (fuel 11). In
    ConsoleSpec.v the number of polls that a line takes is given by the keys. The
    runs of Whole.v end within the number of steps they are given: they are
    about the state in which the machine halts.

    ** Not modelled

    The part of the assembly that is for the SPARC, which flushes its register
    windows by a trap that system headers define, and the copies of switch.c in
    switch.s, switch-old.s and swtch.s. The steps of Threads.v do not execute
    the assembly: of a stack they keep the fence post, and the continuation of
    the thread stands for the rest; Switch.v is about the real one.
    Messages for the user of the simulator (DEBUG, printf) inside the kernel,
    except where the text is the result; Debug.v has the larger ones, which the
    runs do not call. The order in which the host interleaves the processes of
    several machines is an argument of the runs. Cleanup of
    threads/system.cc is the outcome [Halted].
    stdarg.h. Of the host tools in bin/: the structures of the headers and the
    object-file library of Ultrix, which are not in the repository, are
    parameters of coff2flat.c, main.c and disasm.c, and the part of out.c that
    reads a file into them is left out, as are the percentages of execute.c,
    which are doubles. *)

From Stdlib Require Import ZArith Lia.
From stdpp Require Import base tactics list gmap.

#[global] Open Scope Z_scope.

(** * Machine integers

    C++ [int], [unsigned int] and [char] are represented by [Z]; these functions
    wrap a mathematical integer around into the range of the type (hosts are
    two's complement, [char] is signed). *)

Definition u32 (z : Z) : Z := z mod 2 ^ 32.
Definition i32 (z : Z) : Z := (z + 2 ^ 31) mod 2 ^ 32 - 2 ^ 31.
Definition u8 (z : Z) : Z := z mod 2 ^ 8.
Definition i8 (z : Z) : Z := (z + 2 ^ 7) mod 2 ^ 8 - 2 ^ 7.

Definition is_u32 (z : Z) : Prop := 0 <= z < 2 ^ 32.
Definition is_i32 (z : Z) : Prop := - 2 ^ 31 <= z < 2 ^ 31.
Definition is_char (z : Z) : Prop := - 2 ^ 7 <= z < 2 ^ 7.

#[export] Instance is_i32_dec z : Decision (is_i32 z).
Proof. unfold is_i32. apply _. Defined.
#[export] Instance is_u32_dec z : Decision (is_u32 z).
Proof. unfold is_u32. apply _. Defined.
#[export] Instance is_char_dec z : Decision (is_char z).
Proof. unfold is_char. apply _. Defined.

(** [divRoundDown] and [divRoundUp] of threads/utility.h; [/] and [%] of C++
    truncate towards zero. *)
Definition divRoundDown (n s : Z) : Z := Z.quot n s.
Definition divRoundUp (n s : Z) : Z :=
  Z.quot n s + (if Z.rem n s >? 0 then 1 else 0).

(** A bit field test such as [x & SIGN_BIT] used as a condition. *)
Definition flag (x mask : Z) : bool := negb (Z.land x mask =? 0).

(** * Outcomes

    What a call can do besides returning: [Aborted] is a failed ASSERT
    (utility.h prints and calls Abort), [Halted] is Interrupt::Halt, whose
    Cleanup ends in Exit(0), and [Undef] is undefined behaviour of C++ (an index
    outside an array, a null or dangling pointer, a division overflow). *)

Inductive outcome (A : Type) : Type :=
| Ok (a : A)
| Aborted
| Halted
| Undef.
Arguments Ok {A} a.
Arguments Aborted {A}.
Arguments Halted {A}.
Arguments Undef {A}.

#[export] Instance outcome_eq_dec {A} `{EqDecision A} : EqDecision (outcome A).
Proof. solve_decision. Defined.

Definition obind {A B} (m : outcome A) (k : A -> outcome B) : outcome B :=
  match m with
  | Ok a => k a
  | Aborted => Aborted
  | Halted => Halted
  | Undef => Undef
  end.

(** * The state and outcome monad *)

Definition M (S A : Type) : Type := S -> outcome (A * S).

Definition ret {S A} (a : A) : M S A := fun s => Ok (a, s).
Definition bind {S A B} (m : M S A) (k : A -> M S B) : M S B :=
  fun s => obind (m s) (fun '(a, s') => k a s').
Definition get {S} : M S S := fun s => Ok (s, s).
Definition gets {S A} (f : S -> A) : M S A := fun s => Ok (f s, s).
Definition put {S} (s : S) : M S unit := fun _ => Ok (tt, s).
Definition modify {S} (f : S -> S) : M S unit := fun s => Ok (tt, f s).
Definition abort {S A} : M S A := fun _ => Aborted.
Definition halt {S A} : M S A := fun _ => Halted.
Definition undef {S A} : M S A := fun _ => Undef.

(** ASSERT of threads/utility.h. *)
Definition ASSERT {S} (b : bool) : M S unit := if b then ret tt else abort.

(** Reading something that must be there, such as an array cell. *)
Definition must {S A} (o : option A) : M S A :=
  match o with Some a => ret a | None => undef end.

Declare Scope nachos_scope.
Delimit Scope nachos_scope with nachos.
Notation "x <- m ;; k" := (bind m (fun x => k))
  (at level 20, m at level 99, k at level 200) : nachos_scope.
Notation "' p <- m ;; k" := (bind m (fun p => k))
  (at level 20, p pattern, m at level 99, k at level 200) : nachos_scope.
Notation "m ;;; k" := (bind m (fun _ => k))
  (at level 100, k at level 200, right associativity) : nachos_scope.
#[global] Open Scope nachos_scope.

(** ** C loops *)

(** [for (i = lo; i < lo + n; i++) body(i)] *)
Fixpoint for_ {S} (lo : Z) (n : nat) (body : Z -> M S unit) : M S unit :=
  match n with
  | O => ret tt
  | Datatypes.S n' => body lo ;;; for_ (lo + 1) n' body
  end.

(** The same loop when the body may return from the enclosing function. *)
Fixpoint for_ret {S R} (lo : Z) (n : nat) (body : Z -> M S (option R)) :
    M S (option R) :=
  match n with
  | O => ret None
  | Datatypes.S n' =>
      r <- body lo ;;
      match r with
      | Some _ => ret r
      | None => for_ret (lo + 1) n' body
      end
  end.

(** The loop with an accumulator, for the local variables the body assigns. *)
Fixpoint for_acc {S A} (lo : Z) (n : nat) (a : A) (body : Z -> A -> M S A) : M S A :=
  match n with
  | O => ret a
  | Datatypes.S n' => a' <- body lo a ;; for_acc (lo + 1) n' a' body
  end.

(** [while (cond) body], with fuel: the loop gives [None] when the fuel runs
    out before the body says that it is done. *)
Fixpoint while_ {S A} (fuel : nat) (a : A) (body : A -> M S (A * bool)) :
    M S (option A) :=
  match fuel with
  | O => ret None
  | Datatypes.S fuel' =>
      '(a', more) <- body a ;;
      if more then while_ fuel' a' body else ret (Some a')
  end.

(** ** Running an operation on a part of the state *)

Class Lens (S T : Type) := {
  lget : T -> S;
  lset : S -> T -> T;
  lget_lset : forall s t, lget (lset s t) = s;
  lset_lget : forall t, lset (lget t) t = t;
  lset_lset : forall s s' t, lset s (lset s' t) = lset s t
}.

Definition zoom {S T A} `{Lens S T} (m : M S A) : M T A :=
  fun t => obind (m (lget t)) (fun '(a, s) => Ok (a, lset s t)).

(** * Arrays indexed by C integers *)

Definition zlookup {A} (l : list A) (i : Z) : option A :=
  if i <? 0 then None else l !! Z.to_nat i.
Definition zinsert {A} (i : Z) (x : A) (l : list A) : list A :=
  if i <? 0 then l else <[Z.to_nat i := x]> l.
Definition zlength {A} (l : list A) : Z := Z.of_nat (length l).

(** [a[i] = x], undefined outside the array. *)
Definition store {A} (i : Z) (x : A) (l : list A) : option (list A) :=
  if (0 <=? i) && (i <? zlength l) then Some (zinsert i x l) else None.

(** [n] elements from index [i] on. *)
Definition slice {A} (i n : Z) (l : list A) : list A :=
  take (Z.to_nat n) (drop (Z.to_nat i) l).
(** [bcopy(src, &dst[i], ...)]: overwrite a part of an array. *)
Definition splice {A} (i : Z) (src dst : list A) : list A :=
  take (Z.to_nat i) dst ++ src ++ drop (Z.to_nat i + length src) dst.

(** * Proof automation *)

(** [lia] on goals with division and remainder. *)
Ltac dlia := zify; Z.to_euclidean_division_equations; lia.
Ltac dnia := zify; Z.to_euclidean_division_equations; nia.

Create HintDb nachos.
Create Rewrite HintDb nachos.

(** Unfold the monad operations and compute. *)
Ltac munfold :=
  unfold must, ASSERT in *;
  unfold bind, ret, get, gets, put, modify, abort, halt, undef, obind in *;
  cbn beta iota in *.

(** Split every boolean test of the goal, keep its meaning in [Z]. *)
Ltac bool_case :=
  repeat match goal with
  | |- context [?x <? ?y] => destruct (Z.ltb_spec x y)
  | |- context [?x <=? ?y] => destruct (Z.leb_spec x y)
  | |- context [?x =? ?y] => destruct (Z.eqb_spec x y)
  | |- context [?x >? ?y] => rewrite (Z.gtb_ltb x y)
  | |- context [?x >=? ?y] => rewrite (Z.geb_leb x y)
  end; simpl; try lia.

(** * Lemmas *)

(** ** Wrap-around *)

Lemma i32_range z : is_i32 (i32 z).
Proof. unfold is_i32, i32. dlia. Qed.
Lemma u32_range z : is_u32 (u32 z).
Proof. unfold is_u32, u32. dlia. Qed.
Lemma i8_range z : is_char (i8 z).
Proof. unfold is_char, i8. dlia. Qed.
Lemma u8_range z : 0 <= u8 z < 256.
Proof. unfold u8. dlia. Qed.
Lemma i32_id z : is_i32 z -> i32 z = z.
Proof. unfold is_i32, i32. dlia. Qed.
Lemma u32_id z : is_u32 z -> u32 z = z.
Proof. unfold is_u32, u32. dlia. Qed.
Lemma i8_id z : is_char z -> i8 z = z.
Proof. unfold is_char, i8. dlia. Qed.
Lemma i32_u32 z : i32 (u32 z) = i32 z.
Proof. unfold i32, u32. dlia. Qed.
Lemma u32_i32 z : u32 (i32 z) = u32 z.
Proof. unfold i32, u32. dlia. Qed.
Lemma i8_u8 z : i8 (u8 z) = i8 z.
Proof. unfold i8, u8. dlia. Qed.
Lemma u8_i8 z : u8 (i8 z) = u8 z.
Proof. unfold i8, u8. dlia. Qed.
#[export] Hint Resolve i32_range u32_range i8_range u8_range : nachos.
#[export] Hint Rewrite i32_u32 u32_i32 i8_u8 u8_i8 : nachos.

(** A test of a single bit. *)
Lemma flag_pow2 x n : 0 <= n -> flag x (2 ^ n) = Z.testbit x n.
Proof.
  intros. unfold flag. destruct (Z.testbit x n) eqn:E.
  - apply negb_true_iff, Z.eqb_neq. intros H0.
    apply (f_equal (fun z => Z.testbit z n)) in H0.
    by rewrite Z.land_spec, E, Z.pow2_bits_true, Z.bits_0 in H0.
  - apply negb_false_iff, Z.eqb_eq, Z.bits_inj_0. intros k.
    rewrite Z.land_spec, Z.pow2_bits_eqb by lia.
    destruct (Z.eqb_spec n k) as [->|]; [by rewrite E | apply andb_false_r].
Qed.

Lemma testbit_sign x : is_i32 x -> Z.testbit x 31 = (x <? 0).
Proof.
  intros Hx. rewrite Z.testbit_odd, Z.shiftr_div_pow2 by lia. unfold is_i32 in Hx.
  destruct (Z.ltb_spec x 0).
  - by replace (x / 2 ^ 31) with (-1) by dlia.
  - by replace (x / 2 ^ 31) with 0 by dlia.
Qed.

Lemma divRoundUp_spec n s :
  0 <= n -> 0 < s -> s * divRoundUp n s - s < n <= s * divRoundUp n s.
Proof.
  intros. unfold divRoundUp. rewrite Z.gtb_ltb.
  destruct (Z.ltb_spec 0 (Z.rem n s)); dnia.
Qed.

Lemma divRoundUp_nonneg n s : 0 <= n -> 0 < s -> 0 <= divRoundUp n s.
Proof. intros ? ?. pose proof (divRoundUp_spec n s). nia. Qed.

(** ** Arrays *)

Section Arrays.
Context {A : Type}.
Implicit Types (l : list A) (i j : Z) (x : A).

Lemma zlookup_Some l i x :
  zlookup l i = Some x <-> 0 <= i /\ l !! Z.to_nat i = Some x.
Proof. unfold zlookup. destruct (Z.ltb_spec i 0); split; intuition (try lia; congruence). Qed.

Lemma zlookup_lt_Some l i x : zlookup l i = Some x -> 0 <= i < zlength l.
Proof.
  rewrite zlookup_Some. intros [? Hl]. apply lookup_lt_Some in Hl.
  unfold zlength. lia.
Qed.

Lemma zlookup_is_Some l i : is_Some (zlookup l i) <-> 0 <= i < zlength l.
Proof.
  split.
  - intros [x Hx]. by eapply zlookup_lt_Some.
  - intros ?. unfold zlookup, zlength in *.
    destruct (Z.ltb_spec i 0); [lia|]. apply lookup_lt_is_Some. lia.
Qed.

Lemma zlookup_None l i : zlookup l i = None <-> i < 0 \/ zlength l <= i.
Proof.
  rewrite eq_None_not_Some, zlookup_is_Some. lia.
Qed.

Lemma zlength_zinsert l i x : zlength (zinsert i x l) = zlength l.
Proof. unfold zlength, zinsert. case_match; [done|]. by rewrite length_insert. Qed.

Lemma length_zinsert l i x : length (zinsert i x l) = length l.
Proof. unfold zinsert. case_match; [done|]. by rewrite length_insert. Qed.

Lemma zlookup_zinsert_eq l i x :
  0 <= i < zlength l -> zlookup (zinsert i x l) i = Some x.
Proof.
  unfold zlookup, zinsert, zlength. intros ?.
  destruct (Z.ltb_spec i 0); [lia|]. apply list_lookup_insert_eq. lia.
Qed.

Lemma zlookup_zinsert_ne l i j x :
  i <> j -> zlookup (zinsert i x l) j = zlookup l j.
Proof.
  unfold zlookup, zinsert. intros ?.
  destruct (Z.ltb_spec i 0), (Z.ltb_spec j 0); try done.
  apply list_lookup_insert_ne. lia.
Qed.

Lemma zlookup_zinsert l i j x :
  zlookup (zinsert i x l) j =
  if decide (i = j /\ 0 <= i < zlength l) then Some x else zlookup l j.
Proof.
  case_decide as Hd.
  - destruct Hd as [<- ?]. by apply zlookup_zinsert_eq.
  - destruct (decide (i = j)) as [<-|]; [|by apply zlookup_zinsert_ne].
    transitivity (@None A); [|symmetry]; apply zlookup_None;
      rewrite ?zlength_zinsert; lia.
Qed.

Lemma zlookup_app_l l1 l2 i :
  i < zlength l1 -> zlookup (l1 ++ l2) i = zlookup l1 i.
Proof.
  unfold zlookup, zlength. intros. destruct (Z.ltb_spec i 0); [done|].
  apply lookup_app_l. lia.
Qed.

Lemma zlookup_app_r l1 l2 i :
  zlength l1 <= i -> zlookup (l1 ++ l2) i = zlookup l2 (i - zlength l1).
Proof.
  unfold zlookup, zlength. intros.
  destruct (Z.ltb_spec i 0), (Z.ltb_spec (i - Z.of_nat (length l1)) 0); try lia.
  rewrite lookup_app_r by lia. f_equal. lia.
Qed.

Lemma zlength_nonneg l : 0 <= zlength l.
Proof. unfold zlength. lia. Qed.

Lemma zlength_app l1 l2 : zlength (l1 ++ l2) = zlength l1 + zlength l2.
Proof. unfold zlength. rewrite length_app. lia. Qed.

Lemma store_Some l i x l' :
  store i x l = Some l' <-> 0 <= i < zlength l /\ l' = zinsert i x l.
Proof.
  unfold store. destruct (Z.leb_spec 0 i), (Z.ltb_spec i (zlength l)); simpl;
    split; intuition (try lia; congruence).
Qed.

Lemma zlookup_ext (l1 l2 : list A) :
  (forall i, 0 <= i -> zlookup l1 i = zlookup l2 i) -> l1 = l2.
Proof.
  intros H. apply list_eq. intros i. specialize (H (Z.of_nat i) ltac:(lia)).
  unfold zlookup in H. destruct (Z.ltb_spec (Z.of_nat i) 0); [lia|].
  by rewrite Nat2Z.id in H.
Qed.

Lemma zlength_splice l i src :
  0 <= i -> i + zlength src <= zlength l -> zlength (splice i src l) = zlength l.
Proof.
  unfold splice, zlength. intros.
  rewrite !length_app, length_take, length_drop. lia.
Qed.

Lemma zlookup_splice l i src j :
  0 <= i -> i + zlength src <= zlength l ->
  zlookup (splice i src l) j =
  if decide (i <= j < i + zlength src) then zlookup src (j - i) else zlookup l j.
Proof.
  intros Hi Hl. unfold splice, zlookup, zlength in *.
  destruct (Z.ltb_spec j 0).
  { case_decide; [lia|done]. }
  case_decide as Hd.
  - destruct (Z.ltb_spec (j - i) 0); [lia|].
    rewrite lookup_app_r by (rewrite length_take; lia).
    rewrite length_take, lookup_app_l by lia. f_equal. lia.
  - destruct (decide (j < i)).
    + rewrite lookup_app_l by (rewrite length_take; lia).
      by rewrite lookup_take_lt by lia.
    + rewrite lookup_app_r by (rewrite length_take; lia).
      rewrite length_take, lookup_app_r by lia.
      rewrite lookup_drop. f_equal. lia.
Qed.

Lemma zlength_slice l i n :
  0 <= i -> 0 <= n -> i + n <= zlength l -> zlength (slice i n l) = n.
Proof. unfold slice, zlength. intros. rewrite length_take, length_drop. lia. Qed.

Lemma zlookup_slice l i n j :
  0 <= i -> 0 <= j < n -> zlookup (slice i n l) j = zlookup l (i + j).
Proof.
  unfold slice, zlookup. intros.
  destruct (Z.ltb_spec j 0), (Z.ltb_spec (i + j) 0); try lia.
  rewrite lookup_take_lt by lia. rewrite lookup_drop. f_equal. lia.
Qed.
End Arrays.

#[export] Hint Rewrite @zlength_zinsert @length_zinsert @zlength_app : nachos.
#[export] Hint Resolve zlength_nonneg : nachos.

(** ** Total correctness triples

    [runs P m Q]: from a state satisfying [P] the operation returns (it does
    not abort, halt or meet undefined behaviour) and [Q] holds of its result
    and of the state it leaves. *)

Definition runs {S A} (P : S -> Prop) (m : M S A) (Q : A -> S -> Prop) : Prop :=
  forall s, P s -> exists a s', m s = Ok (a, s') /\ Q a s'.

Section Runs.
Context {S : Type}.

Lemma bind_Ok {A B} (m : M S A) (k : A -> M S B) s a s' :
  m s = Ok (a, s') -> bind m k s = k a s'.
Proof. unfold bind. by intros ->. Qed.

Lemma bind_inv {A B} (m : M S A) (k : A -> M S B) s r :
  bind m k s = Ok r -> exists a s', m s = Ok (a, s') /\ k a s' = Ok r.
Proof. unfold bind, obind. destruct (m s) as [[a s']| | |]; naive_solver. Qed.

Lemma runs_bind {A B} P (m : M S A) R (k : A -> M S B) Q :
  runs P m R -> (forall a, runs (R a) (k a) Q) -> runs P (bind m k) Q.
Proof.
  intros Hm Hk s Hs. destruct (Hm s Hs) as (a & s' & E & HR).
  destruct (Hk a s' HR) as (b & s'' & E' & HQ).
  exists b, s''. split; [|done]. by rewrite (bind_Ok _ _ _ _ _ E).
Qed.

Lemma runs_weaken {A} (P P' : S -> Prop) (m : M S A) (Q Q' : A -> S -> Prop) :
  runs P' m Q' -> (forall s, P s -> P' s) -> (forall a s, Q' a s -> Q a s) ->
  runs P m Q.
Proof. intros Hm HP HQ s Hs. destruct (Hm s (HP s Hs)) as (a & s' & ? & ?). eauto. Qed.

(** A loop keeps an invariant indexed by the counter. *)
Lemma for_inv (I : Z -> S -> Prop) lo n body :
  (forall i s, lo <= i < lo + Z.of_nat n -> I i s ->
     exists s', body i s = Ok (tt, s') /\ I (i + 1) s') ->
  forall s, I lo s -> exists s', for_ lo n body s = Ok (tt, s') /\ I (lo + Z.of_nat n) s'.
Proof.
  revert lo. induction n as [|n IH]; intros lo Hbody s Hs.
  - exists s. split; [done|]. by replace (lo + Z.of_nat 0) with lo by lia.
  - destruct (Hbody lo s ltac:(lia) Hs) as (s1 & E & H1).
    destruct (IH (lo + 1)) with (s := s1) as (s2 & E2 & H2); [|done|].
    { intros i s' ? ?. apply Hbody; [lia|done]. }
    exists s2. split; [cbn; by rewrite (bind_Ok _ _ _ _ _ E)|].
    by replace (lo + Z.of_nat (Datatypes.S n)) with (lo + 1 + Z.of_nat n) by lia.
Qed.

Lemma for_acc_inv {A} (I : Z -> A -> S -> Prop) lo n body :
  (forall i a s, lo <= i < lo + Z.of_nat n -> I i a s ->
     exists a' s', body i a s = Ok (a', s') /\ I (i + 1) a' s') ->
  forall a s, I lo a s ->
  exists a' s', for_acc lo n a body s = Ok (a', s') /\ I (lo + Z.of_nat n) a' s'.
Proof.
  revert lo. induction n as [|n IH]; intros lo Hbody a s Hs.
  - exists a, s. split; [done|]. by replace (lo + Z.of_nat 0) with lo by lia.
  - destruct (Hbody lo a s ltac:(lia) Hs) as (a1 & s1 & E & H1).
    destruct (IH (lo + 1)) with (a := a1) (s := s1) as (a2 & s2 & E2 & H2); [|done|].
    { intros i a' s' ? ?. apply Hbody; [lia|done]. }
    exists a2, s2. split; [cbn; by rewrite (bind_Ok _ _ _ _ _ E)|].
    by replace (lo + Z.of_nat (Datatypes.S n)) with (lo + 1 + Z.of_nat n) by lia.
Qed.

(** A search loop stops at the first index whose body returns. *)
Lemma for_ret_inv {R} (I : Z -> S -> Prop) (Q : Z -> R -> S -> Prop) lo n body :
  (forall i s, lo <= i < lo + Z.of_nat n -> I i s ->
     exists r s', body i s = Ok (r, s') /\
       match r with None => I (i + 1) s' | Some v => Q i v s' end) ->
  forall s, I lo s ->
  exists r s', for_ret lo n body s = Ok (r, s') /\
    match r with
    | None => I (lo + Z.of_nat n) s'
    | Some v => exists i, lo <= i < lo + Z.of_nat n /\ Q i v s'
    end.
Proof.
  revert lo. induction n as [|n IH]; intros lo Hbody s Hs.
  - exists None, s. split; [done|]. by replace (lo + Z.of_nat 0) with lo by lia.
  - destruct (Hbody lo s ltac:(lia) Hs) as (r & s1 & E & H1). destruct r as [v|].
    + exists (Some v), s1. split; [cbn; by rewrite (bind_Ok _ _ _ _ _ E)|].
      exists lo. split; [lia|done].
    + destruct (IH (lo + 1)) with (s := s1) as (r & s2 & E2 & H2); [|done|].
      { intros i s' ? ?. apply Hbody; [lia|done]. }
      exists r, s2. split; [cbn; by rewrite (bind_Ok _ _ _ _ _ E)|].
      destruct r as [v|].
      * destruct H2 as (i & ? & ?). exists i. split; [lia|done].
      * by replace (lo + Z.of_nat (Datatypes.S n)) with (lo + 1 + Z.of_nat n) by lia.
Qed.
End Runs.

#[export] Hint Resolve runs_bind : nachos.

(** The first loop of the goal, by its invariant (and, for a search loop, by what
    holds at the index it returns at): the loop's premises come first. *)
Tactic Notation "loop_for" constr(I) "as" simple_intropattern(p) :=
  match goal with
  | |- context [for_ ?lo ?n ?body] => edestruct (for_inv I lo n body) as p
  end.
Tactic Notation "loop_acc" constr(I) "as" simple_intropattern(p) :=
  match goal with
  | |- context [for_acc ?lo ?n ?acc0 ?body] =>
      edestruct (for_acc_inv I lo n body) with (a := acc0) as p
  end.
Tactic Notation "loop_ret" constr(I) constr(Q) "as" simple_intropattern(p) :=
  match goal with
  | |- context [for_ret ?lo ?n ?body] => edestruct (for_ret_inv I Q lo n body) as p
  end.

(** Run the first operation of a sequence by what is known of it. *)
Ltac mrun H := rewrite (bind_Ok _ _ _ _ _ H); cbn beta iota.

#[export, refine] Instance lens_id {S} : Lens S S := {| lget s := s; lset s _ := s |}.
Proof. all: done. Defined.

Lemma zoom_Ok {S T A} `{Lens S T} (m : M S A) t a s :
  m (lget t) = Ok (a, s) -> zoom m t = Ok (a, lset s t).
Proof. unfold zoom. by intros ->. Qed.

#[export, refine] Instance lens_fst {A B} : Lens A (A * B) :=
  {| lget p := p.1; lset a p := (a, p.2) |}.
Proof. all: by repeat intros []. Defined.
#[export, refine] Instance lens_snd {A B} : Lens B (A * B) :=
  {| lget p := p.2; lset b p := (p.1, b) |}.
Proof. all: by repeat intros []. Defined.

Lemma bind_assoc {S A B C} (m : M S A) (f : A -> M S B) (g : B -> M S C) s :
  bind m (fun a => bind (f a) g) s = bind (bind m f) g s.
Proof. unfold bind, obind. by destruct (m s) as [[a s']| | |]. Qed.

Lemma bind_ext {S A B} (m : M S A) (f g : A -> M S B) s :
  (forall a s', f a s' = g a s') -> bind m f s = bind m g s.
Proof. intros Hfg. unfold bind, obind. destruct (m s) as [[a s']| | |]; auto. Qed.

Lemma for_split {S} (body : Z -> M S unit) n m lo s :
  for_ lo (n + m) body s = (for_ lo n body ;;; for_ (lo + Z.of_nat n) m body) s.
Proof.
  revert lo s. induction n as [|n IH]; intros lo s.
  - cbn [for_ Nat.add]. rewrite (bind_Ok (ret tt) _ s tt s) by done.
    change (Z.of_nat 0) with 0. by rewrite Z.add_0_r.
  - cbn [for_ Nat.add]. rewrite <- bind_assoc. apply bind_ext. intros _ s'.
    rewrite IH. by replace (lo + Z.of_nat (Datatypes.S n)) with (lo + 1 + Z.of_nat n) by lia.
Qed.
