(* ===== verification/Utility.v ===== *)
(** * threads/utility.cc and a part of machine/sysdep.cc

    Which debugging messages are enabled; arrays with a page before and behind
    them; signals and delays. *)

From stdpp Require Import base tactics list numbers gmap.
From S2P Require Import Prelude.

Local Open Scope Z_scope.

(** ** Debugging flags

    [enableFlags] is NULL or a string. *)

Definition Flags : Type := option (list Z).

Definition DebugInit (flagList : list Z) : M Flags unit := put (Some flagList).

(** strchr(s, c) != 0: the terminating zero belongs to the string. *)
Definition strchr_found (s : list Z) (c : Z) : bool := bool_decide (c ∈ s ++ [0]).

Definition DebugIsEnabled (flag : Z) : M Flags bool :=
  enableFlags <- get ;;
  ret match enableFlags with
      | Some s => strchr_found s flag || strchr_found s 43
      | None => false
      end.

(** The message, or nothing. [vfprintf] gives the text of a format with its
    arguments. *)
Definition DEBUG {A} (vfprintf : list Z -> A -> list Z) (flag : Z) (format : list Z) (ap : A) : M Flags (list Z) :=
  enabled <- DebugIsEnabled flag ;;
  ret (if enabled : bool then vfprintf format ap else []).

(** ** Bounded arrays

    The heap of the host: the address and the length of each array, and the
    pages whose protection was set. *)

Record HostHeap := mkHeap { arrays : gmap Z Z; protections : list (Z * Z) }.

Section Bounded.
(** getpagesize, and the address that [new char[n]] gives. *)
Context (getpagesize : Z) (allocate : gmap Z Z -> Z -> Z).
Hypothesis allocate_fresh : forall h n, h !! allocate h n = None.

Definition new_chars (n : Z) : M HostHeap Z :=
  s <- get ;;
  let p := allocate (arrays s) n in
  put (mkHeap (<[p := n]> (arrays s)) (protections s)) ;;; ret p.
Definition delete_chars (p : Z) : M HostHeap unit :=
  s <- get ;;
  _ <- must (arrays s !! p) ;;
  put (mkHeap (delete p (arrays s)) (protections s)).
Definition mprotect (addr len : Z) : M HostHeap unit :=
  modify (fun s => mkHeap (arrays s) (protections s ++ [(addr, len)])).

(** The calls of mprotect are comments in the source. *)
Definition AllocBoundedArray (size : Z) : M HostHeap Z :=
  let pgSize := getpagesize in
  ptr <- new_chars (i32 (pgSize * 2 + size)) ;;
  ret (ptr + pgSize).

Definition DeallocBoundedArray (ptr size : Z) : M HostHeap unit :=
  let pgSize := getpagesize in
  mprotect (ptr - pgSize) pgSize ;;;
  mprotect (ptr + size) pgSize ;;;
  delete_chars (ptr - pgSize).

(** The array has a page on both sides, and deallocating it deletes what was
    allocated and makes exactly these two pages accessible. *)
Theorem BoundedArray_roundtrip size h pr : 0 <= size -> 0 <= getpagesize -> getpagesize * 2 + size < 2 ^ 31 ->
  exists ptr p, AllocBoundedArray size (mkHeap h pr) = Ok (ptr, mkHeap (<[p := getpagesize * 2 + size]> h) pr) /\
    p + getpagesize = ptr /\ h !! p = None /\
    DeallocBoundedArray ptr size (mkHeap (<[p := getpagesize * 2 + size]> h) pr) =
      Ok (tt, mkHeap h (pr ++ [(p, getpagesize); (p + getpagesize + size, getpagesize)])).
Proof using allocate_fresh.
  intros Hs Hp Hmax. exists (allocate h (getpagesize * 2 + size) + getpagesize), (allocate h (getpagesize * 2 + size)).
  pose proof (allocate_fresh h (getpagesize * 2 + size)) as Hf. split_and!; [|done|done|].
  - unfold AllocBoundedArray, new_chars. munfold. cbn [arrays]. by rewrite i32_id by (unfold is_i32; lia).
  - unfold DeallocBoundedArray, mprotect, delete_chars. munfold. cbn [arrays protections].
    rewrite Z.add_simpl_r, lookup_insert_eq, delete_insert_id by done. by rewrite <- app_assoc.
Qed.
End Bounded.

(** ["d+"] enables everything; without flags nothing is. *)
Lemma DebugIsEnabled_plus s flag : 43 ∈ s -> DebugIsEnabled flag (Some s) = Ok (true, Some s).
Proof.
  intros H. unfold DebugIsEnabled, strchr_found. munfold. rewrite (bool_decide_eq_true_2 (43 ∈ s ++ [0])), orb_true_r; [done|].
  apply elem_of_app. by left.
Qed.

Lemma DebugIsEnabled_flag s flag : 43 ∉ s -> flag <> 0 -> DebugIsEnabled flag (Some s) = Ok (bool_decide (flag ∈ s), Some s).
Proof.
  intros H H0. unfold DebugIsEnabled, strchr_found. munfold. do 2 f_equal.
  rewrite (bool_decide_eq_false_2 (43 ∈ s ++ [0])), orb_false_r.
  - apply bool_decide_ext. rewrite elem_of_app, list_elem_of_singleton. tauto.
  - rewrite elem_of_app, list_elem_of_singleton. intros [|]; [done|lia].
Qed.

(** ** The user and the clock of the host

    What UNIX keeps of the process for machine/sysdep.cc: the routine that is
    called when the user interrupts Nachos, and the seconds it has slept, when
    no signal wakes it. *)

Section HostProcess.
Context {F : Type}.

Record HostProcess := mkHostProcess { on_SIGINT : option F; slept : Z }.

Definition CallOnUserAbort (func : F) : M HostProcess unit := modify (fun p => mkHostProcess (Some func) (slept p)).
(** sleep takes an unsigned number. *)
Definition Delay (seconds : Z) : M HostProcess unit := modify (fun p => mkHostProcess (on_SIGINT p) (slept p + u32 seconds)).

(** A negative delay is one of 136 years. *)
Lemma Delay_negative p : Delay (-1) p = Ok (tt, mkHostProcess (on_SIGINT p) (slept p + 4294967295)).
Proof. done. Qed.
End HostProcess.
