(* ===== verification/Text.v ===== *)
(** * Characters and numbers as the C library prints them

    Strings are lists of character codes. [%d], [%x] and [%08x] of printf. *)

From Stdlib Require Import Ascii String.
From stdpp Require Import base list numbers.

Local Open Scope Z_scope.

(** The characters of a literal. *)
Definition text (s : string) : list Z := (fun c => Z.of_N (N_of_ascii c)) <$> list_ascii_of_string s.

(** [%d] of an [int] *)
Fixpoint decimal_digits (fuel : nat) (n : Z) : list Z :=
  match fuel with
  | O => []
  | S f => (if n <? 10 then [] else decimal_digits f (n / 10)) ++ [48 + n mod 10]
  end.
Definition decimal (n : Z) : list Z := if n <? 0 then 45 :: decimal_digits 10 (- n) else decimal_digits 10 n.

(** [%x] and [%08x] of a word *)
Definition hex_digit (d : Z) : Z := if d <? 10 then 48 + d else 87 + d.
Fixpoint hex_digits (fuel : nat) (n : Z) : list Z :=
  match fuel with
  | O => []
  | S f => (if n <? 16 then [] else hex_digits f (n / 16)) ++ [hex_digit (n mod 16)]
  end.
Definition hex (n : Z) : list Z := hex_digits 8 (n mod 2 ^ 32).
Definition hex8 (n : Z) : list Z := let ds := hex n in replicate (8 - length ds) 48 ++ ds.

Example hex8_example : hex8 (-16) = text "fffffff0" /\ hex8 0x1a = text "0000001a" /\ hex 0 = text "0".
Proof. done. Qed.

(** printf of [fmt], whose only conversions are [%d]. *)
Fixpoint printf_d (fmt : list Z) (args : list Z) : list Z :=
  match fmt with
  | 37 :: 100 :: fmt' =>
      match args with
      | a :: args' => decimal a ++ printf_d fmt' args'
      | [] => printf_d fmt' []
      end
  | c :: fmt' => c :: printf_d fmt' args
  | [] => []
  end.
