(* ===== verification/BitMap.v ===== *)
(** * userprog/bitmap.cc: bit maps

    A [BitMap] is an array of bits packed into 32-bit words; it allocates disk
    sectors, physical pages, process slots and semaphore slots. The file gives
    every operation on the packed words and proves that each one implements the
    obvious operation on a list of booleans ([rep]). *)

From stdpp Require Import base tactics list numbers.
From S2P Require Import Prelude.

Local Open Scope Z_scope.

Definition BitsInByte : Z := 8.
Definition BitsInWord : Z := 32.

Record BitMap := mkBitMap {
  numBits : Z;
  numWords : Z;
  bm_map : list Z
}.

Definition set_map (m : list Z) (bm : BitMap) : BitMap :=
  mkBitMap (numBits bm) (numWords bm) m.

(** The [unsigned] value of [1 << n]. *)
Definition bit (n : Z) : Z := u32 (i32 (Z.shiftl 1 n)).

Definition in_range (bm : BitMap) (which : Z) : bool :=
  (0 <=? which) && (which <? numBits bm).

Definition BitMap_Mark (which : Z) : M BitMap unit :=
  bm <- get ;;
  ASSERT (in_range bm which) ;;;
  w <- must (zlookup (bm_map bm) (Z.quot which BitsInWord)) ;;
  m <- must (store (Z.quot which BitsInWord)
               (Z.lor w (bit (Z.rem which BitsInWord))) (bm_map bm)) ;;
  put (set_map m bm).

Definition BitMap_Clear (which : Z) : M BitMap unit :=
  bm <- get ;;
  ASSERT (in_range bm which) ;;;
  w <- must (zlookup (bm_map bm) (Z.quot which BitsInWord)) ;;
  m <- must (store (Z.quot which BitsInWord)
               (Z.land w (u32 (Z.lnot (i32 (Z.shiftl 1 (Z.rem which BitsInWord))))))
               (bm_map bm)) ;;
  put (set_map m bm).

Definition BitMap_Test (which : Z) : M BitMap bool :=
  bm <- get ;;
  ASSERT (in_range bm which) ;;;
  w <- must (zlookup (bm_map bm) (Z.quot which BitsInWord)) ;;
  ret (flag w (bit (Z.rem which BitsInWord))).

(** The constructor: [mem] is what the freshly allocated words contain before
    the bits are cleared. *)
Definition BitMap_init (nitems : Z) : M BitMap unit :=
  for_ 0 (Z.to_nat nitems) (fun i => BitMap_Clear i).

Definition BitMap_new (nitems : Z) (mem : Z -> Z) : outcome BitMap :=
  let words := divRoundUp nitems BitsInWord in
  let raw := (fun i => u32 (mem i)) <$> seqZ 0 words in
  obind (BitMap_init nitems (mkBitMap nitems words raw)) (fun '(_, bm) => Ok bm).

Definition BitMap_Find : M BitMap Z :=
  bm <- get ;;
  r <- for_ret 0 (Z.to_nat (numBits bm)) (fun i =>
         b <- BitMap_Test i ;;
         if negb b then (BitMap_Mark i ;;; ret (Some i)) else ret None) ;;
  ret (match r with Some i => i | None => -1 end).

Definition BitMap_NumClear : M BitMap Z :=
  bm <- get ;;
  for_acc 0 (Z.to_nat (numBits bm)) 0 (fun i count =>
    b <- BitMap_Test i ;;
    ret (if negb b then count + 1 else count)).

(** [BitMap_Print] prints the numbers of the bits that are set. *)
Definition BitMap_Print : M BitMap (list Z) :=
  bm <- get ;;
  for_acc 0 (Z.to_nat (numBits bm)) [] (fun i out =>
    b <- BitMap_Test i ;;
    ret (if b then out ++ [i] else out)).

(** * Correctness *)

(** The bit [i] as the packed words give it. *)
Definition marked (bm : BitMap) (i : Z) : bool :=
  match zlookup (bm_map bm) (i / BitsInWord) with
  | Some w => Z.testbit w (i mod BitsInWord)
  | None => false
  end.

Record bitmap_wf (bm : BitMap) : Prop := {
  wf_numBits : 0 <= numBits bm;
  wf_numWords : numWords bm = divRoundUp (numBits bm) BitsInWord;
  wf_length : zlength (bm_map bm) = numWords bm
}.

(** [bm] is well formed and its bits are the list [bs]. *)
Definition rep (bm : BitMap) (bs : list bool) : Prop :=
  bitmap_wf bm /\ zlength bs = numBits bm /\
  forall i, 0 <= i < numBits bm -> zlookup bs i = Some (marked bm i).

Lemma bit_pow n : 0 <= n < 32 -> bit n = 2 ^ n.
Proof.
  intros. unfold bit. rewrite u32_i32, Z.shiftl_1_l. apply u32_id. unfold is_u32.
  split; [lia|]. apply Z.pow_lt_mono_r; lia.
Qed.

Lemma flag_bit w n : 0 <= n < 32 -> flag w (bit n) = Z.testbit w n.
Proof.
  intros. rewrite bit_pow by done. apply flag_pow2. lia.
Qed.

Lemma testbit_set w n k :
  0 <= n < 32 -> Z.testbit (Z.lor w (bit n)) k = (n =? k) || Z.testbit w k.
Proof.
  intros. rewrite bit_pow, Z.lor_spec, Z.pow2_bits_eqb by lia. apply orb_comm.
Qed.

Lemma testbit_clear w n k :
  0 <= n < 32 -> 0 <= k < 32 ->
  Z.testbit (Z.land w (u32 (Z.lnot (i32 (Z.shiftl 1 n))))) k =
  negb (n =? k) && Z.testbit w k.
Proof.
  intros. rewrite Z.land_spec. unfold u32. rewrite Z.mod_pow2_bits_low by lia.
  rewrite Z.lnot_spec by lia.
  replace (Z.testbit (i32 (Z.shiftl 1 n)) k) with (n =? k).
  { apply andb_comm. }
  rewrite <- (Z.mod_pow2_bits_low _ 32) by lia. fold (u32 (i32 (Z.shiftl 1 n))).
  fold (bit n). rewrite bit_pow by lia. by rewrite Z.pow2_bits_eqb by lia.
Qed.

Section Words.
Context (bm : BitMap) (Hwf : bitmap_wf bm).

Lemma in_range_spec i : in_range bm i = true <-> 0 <= i < numBits bm.
Proof. unfold in_range. rewrite andb_true_iff, Z.leb_le, Z.ltb_lt. done. Qed.

Lemma word_exists i :
  0 <= i < numBits bm -> exists w, zlookup (bm_map bm) (i / BitsInWord) = Some w.
Proof.
  intros Hi. destruct Hwf as [Hn HW HL]. apply zlookup_is_Some. rewrite HL, HW.
  pose proof (divRoundUp_spec (numBits bm) BitsInWord ltac:(lia) ltac:(done)).
  unfold BitsInWord in *. dlia.
Qed.

Lemma quot_word i : 0 <= i -> Z.quot i BitsInWord = i / BitsInWord.
Proof. intros. apply Z.quot_div_nonneg; [done|reflexivity]. Qed.
Lemma rem_word i : 0 <= i -> Z.rem i BitsInWord = i mod BitsInWord.
Proof. intros. apply Z.rem_mod_nonneg; [done|reflexivity]. Qed.

Lemma set_map_wf m : zlength m = zlength (bm_map bm) -> bitmap_wf (set_map m bm).
Proof. intros Hm. destruct Hwf. by constructor; simpl; rewrite ?Hm. Qed.

(** Replacing the word of bit [i] changes [marked] only through that word. *)
Lemma marked_update i w w' j :
  0 <= i < numBits bm -> 0 <= j ->
  zlookup (bm_map bm) (i / BitsInWord) = Some w ->
  marked (set_map (zinsert (i / BitsInWord) w' (bm_map bm)) bm) j =
  if j / BitsInWord =? i / BitsInWord then Z.testbit w' (j mod BitsInWord)
  else marked bm j.
Proof.
  intros Hi Hj Hw. unfold marked. simpl. apply zlookup_lt_Some in Hw.
  rewrite zlookup_zinsert.
  destruct (Z.eqb_spec (j / BitsInWord) (i / BitsInWord)) as [->|Hne].
  - by rewrite decide_True.
  - rewrite decide_False; [done|]. intros [? _]. by destruct Hne.
Qed.
End Words.

Lemma mod_word_bound i : 0 <= i mod BitsInWord < 32.
Proof. unfold BitsInWord. dlia. Qed.
#[export] Hint Resolve mod_word_bound : nachos.

Lemma same_word_bit i j :
  (j / BitsInWord =? i / BitsInWord) && (i mod BitsInWord =? j mod BitsInWord) = (i =? j).
Proof.
  unfold BitsInWord.
  destruct (Z.eqb_spec (j / 32) (i / 32)), (Z.eqb_spec (i mod 32) (j mod 32)),
    (Z.eqb_spec i j); simpl; try done; exfalso; dlia.
Qed.

(** Setting bit [i] to [b] as Mark and Clear do it. *)
Lemma rep_update bm bs i b w w' :
  rep bm bs -> 0 <= i < numBits bm ->
  zlookup (bm_map bm) (i / BitsInWord) = Some w ->
  (forall k, 0 <= k < 32 ->
     Z.testbit w' k = if i mod BitsInWord =? k then b else Z.testbit w k) ->
  rep (set_map (zinsert (i / BitsInWord) w' (bm_map bm)) bm) (zinsert i b bs).
Proof.
  intros (Hwf & Hlen & Hbs) Hi Hw Hw'. split; [|split].
  - apply set_map_wf; [done|]. apply zlength_zinsert.
  - rewrite zlength_zinsert. done.
  - simpl. intros j Hj. erewrite marked_update by (done || lia).
    rewrite zlookup_zinsert, Hw' by apply mod_word_bound.
    pose proof (same_word_bit i j) as Hs.
    destruct (Z.eqb_spec (j / BitsInWord) (i / BitsInWord)) as [E|E]; simpl in Hs.
    + rewrite Hs. destruct (Z.eqb_spec i j) as [->|].
      * rewrite decide_True; [done|]. lia.
      * rewrite decide_False by (by intros [? _]). rewrite Hbs by done.
        unfold marked. by rewrite E, Hw.
    + rewrite decide_False by (intros [-> _]; done). by apply Hbs.
Qed.

Section Operations.
Context (bm : BitMap) (bs : list bool) (Hrep : rep bm bs).

Lemma rep_len i : 0 <= i < zlength bs <-> 0 <= i < numBits bm.
Proof. destruct Hrep as (_ & -> & _). done. Qed.

Lemma BitMap_Mark_run i :
  0 <= i < zlength bs ->
  exists bm', BitMap_Mark i bm = Ok (tt, bm') /\ rep bm' (zinsert i true bs).
Proof.
  intros Hi%rep_len. pose proof Hrep as (Hwf & _).
  destruct (word_exists bm Hwf i Hi) as [w Hw].
  unfold BitMap_Mark. munfold. rewrite (proj2 (in_range_spec bm i)) by done.
  rewrite quot_word, rem_word by lia. rewrite Hw.
  rewrite (proj2 (store_Some _ _ _ _)) by eauto using zlookup_lt_Some.
  eexists. split; [done|]. eapply rep_update; [done|done|done|].
  intros k Hk. rewrite testbit_set by apply mod_word_bound.
  by destruct (Z.eqb_spec (i mod BitsInWord) k).
Qed.

Lemma BitMap_Clear_run i :
  0 <= i < zlength bs ->
  exists bm', BitMap_Clear i bm = Ok (tt, bm') /\ rep bm' (zinsert i false bs).
Proof.
  intros Hi%rep_len. pose proof Hrep as (Hwf & _).
  destruct (word_exists bm Hwf i Hi) as [w Hw].
  unfold BitMap_Clear. munfold. rewrite (proj2 (in_range_spec bm i)) by done.
  rewrite quot_word, rem_word by lia. rewrite Hw.
  rewrite (proj2 (store_Some _ _ _ _)) by eauto using zlookup_lt_Some.
  eexists. split; [done|]. eapply rep_update; [done|done|done|].
  intros k Hk. rewrite testbit_clear by (apply mod_word_bound || done).
  by destruct (Z.eqb_spec (i mod BitsInWord) k).
Qed.

Lemma BitMap_Test_run i b :
  zlookup bs i = Some b -> BitMap_Test i bm = Ok (b, bm).
Proof.
  intros Hb. pose proof (zlookup_lt_Some _ _ _ Hb) as Hi%rep_len.
  pose proof Hrep as (Hwf & _ & Hbs). destruct (word_exists bm Hwf i Hi) as [w Hw].
  unfold BitMap_Test. munfold. rewrite (proj2 (in_range_spec bm i)) by done.
  rewrite quot_word, rem_word by lia. rewrite Hw.
  rewrite flag_bit by apply mod_word_bound.
  rewrite Hbs in Hb by done. unfold marked in Hb. rewrite Hw in Hb. by simplify_eq.
Qed.

(** Outside the map every operation fails its ASSERT. *)
Lemma BitMap_out_of_range i :
  ~ (0 <= i < zlength bs) ->
  BitMap_Mark i bm = Aborted /\ BitMap_Clear i bm = Aborted /\
  BitMap_Test i bm = Aborted.
Proof.
  rewrite rep_len, <- in_range_spec. intros E%not_true_is_false.
  unfold BitMap_Mark, BitMap_Clear, BitMap_Test. munfold. by rewrite E.
Qed.
End Operations.

(** ** Searching and counting *)

Fixpoint count_clear (bs : list bool) : Z :=
  match bs with
  | [] => 0
  | b :: bs' => (if b then 0 else 1) + count_clear bs'
  end.

Lemma count_clear_app l1 l2 : count_clear (l1 ++ l2) = count_clear l1 + count_clear l2.
Proof. induction l1 as [|b l IH]; simpl; [done|]. rewrite IH. lia. Qed.

(** Changing one bit moves the count by one. *)
Lemma count_clear_update bs i b b' :
  zlookup bs i = Some b ->
  count_clear (zinsert i b' bs) =
  count_clear bs + (if b' then 0 else 1) - (if b then 0 else 1).
Proof.
  rewrite zlookup_Some. intros [? Hl]. unfold zinsert.
  destruct (Z.ltb_spec i 0); [lia|].
  pose proof (lookup_lt_Some _ _ _ Hl).
  rewrite insert_take_drop by done.
  rewrite <- (take_drop_middle _ _ _ Hl) at 3.
  rewrite !count_clear_app. simpl. lia.
Qed.

Lemma count_clear_bounds bs : 0 <= count_clear bs <= zlength bs.
Proof. unfold zlength. induction bs as [|[] bs IH]; simpl; lia. Qed.

Lemma count_clear_pos bs : 0 < count_clear bs -> exists i, zlookup bs i = Some false.
Proof.
  induction bs as [|[] bs IH]; simpl; intros Hc; [lia| |by exists 0].
  destruct IH as [i Hi]; [lia|]. apply zlookup_Some in Hi as [? Hi].
  exists (i + 1). apply zlookup_Some. split; [lia|].
  by replace (Z.to_nat (i + 1)) with (S (Z.to_nat i)) by lia.
Qed.

(** What Find computes: the first clear bit, if any. *)
Definition is_first_clear (bs : list bool) (i : Z) : Prop :=
  zlookup bs i = Some false /\ forall j, 0 <= j < i -> zlookup bs j = Some true.

Section Search.
Context (bm : BitMap) (bs : list bool) (Hrep : rep bm bs).

Lemma numBits_nat : 0 + Z.of_nat (Z.to_nat (numBits bm)) = zlength bs.
Proof. destruct Hrep as ([? _ _] & -> & _). lia. Qed.

Lemma BitMap_Find_run :
  exists r bm', BitMap_Find bm = Ok (r, bm') /\
    ((r = -1 /\ bm' = bm /\ count_clear bs = 0) \/
     (is_first_clear bs r /\ rep bm' (zinsert r true bs))).
Proof.
  unfold BitMap_Find. rewrite (bind_Ok get _ bm bm bm) by done.
  loop_ret (fun i s => s = bm /\ forall j, 0 <= j < i -> zlookup bs j = Some true)
    (fun i v s => v = i /\ is_first_clear bs i /\ rep s (zinsert i true bs))
    as (r & s' & E & HQ).
  2: { split; [reflexivity|]. intros; lia. }
  - intros i s Hi [-> Hj]. rewrite numBits_nat in Hi.
    destruct (proj2 (zlookup_is_Some bs i) ltac:(lia)) as [b Hb].
    mrun (BitMap_Test_run _ _ Hrep _ _ Hb).
    destruct b; simpl.
    + exists None, bm. split; [done|]. split; [done|]. intros j ?.
      destruct (decide (j = i)) as [->|]; [done|]. apply Hj. lia.
    + destruct (BitMap_Mark_run _ _ Hrep i ltac:(lia)) as (bm' & Em & Hr).
      mrun Em. exists (Some i), bm'. done.
  - rewrite (bind_Ok _ _ _ _ _ E). destruct r as [v|]; eexists _, _; (split; [reflexivity|]).
    + right. destruct HQ as (i & _ & -> & ? & ?). done.
    + left. destruct HQ as [-> Hall]. rewrite numBits_nat in Hall. split; [done|]. split; [done|].
      pose proof (count_clear_bounds bs). destruct (decide (0 < count_clear bs)) as [Hp|]; [|lia].
      destruct (count_clear_pos _ Hp) as [i Hi].
      rewrite (Hall i (zlookup_lt_Some _ _ _ Hi)) in Hi. done.
Qed.

Lemma BitMap_NumClear_run : BitMap_NumClear bm = Ok (count_clear bs, bm).
Proof.
  unfold BitMap_NumClear. rewrite (bind_Ok get _ bm bm bm) by done.
  loop_acc (fun i c s => s = bm /\ c = count_clear (take (Z.to_nat i) bs))
    as (c & s & E & -> & ->).
  2: { split; [reflexivity|]. done. }
  - intros i c s Hi [-> ->]. rewrite numBits_nat in Hi.
    destruct (proj2 (zlookup_is_Some bs i) ltac:(lia)) as [b Hb].
    mrun (BitMap_Test_run _ _ Hrep _ _ Hb).
    eexists _, bm. split; [reflexivity|]. split; [done|].
    apply zlookup_Some in Hb as [? Hb].
    replace (Z.to_nat (i + 1)) with (S (Z.to_nat i)) by lia.
    rewrite (take_S_r _ _ _ Hb), count_clear_app. destruct b; simpl; lia.
  - rewrite E, numBits_nat. unfold zlength. by rewrite Nat2Z.id, take_ge by done.
Qed.
End Search.

(** ** Construction *)

Lemma first_clear_unique bs i j : is_first_clear bs i -> is_first_clear bs j -> i = j.
Proof.
  intros [Hi Hi'] [Hj Hj']. pose proof (zlookup_lt_Some _ _ _ Hi). pose proof (zlookup_lt_Some _ _ _ Hj).
  destruct (Z.lt_trichotomy i j) as [?|[?|?]]; [|done|].
  - rewrite Hj' in Hi by lia. done.
  - rewrite Hi' in Hj by lia. done.
Qed.

Lemma first_clear_exists bs : count_clear bs <> 0 -> exists i, is_first_clear bs i.
Proof.
  intros H0. induction bs as [|b bs IH]; [done|]. destruct b.
  - destruct IH as (i & Hi & Hj); [by cbn in H0|]. pose proof (zlookup_lt_Some _ _ _ Hi) as Hr.
    assert (forall j, 0 <= j -> zlookup (true :: bs) (j + 1) = zlookup bs j) as Hs.
    { intros j Hj0. unfold zlookup. rewrite (proj2 (Z.ltb_ge (j + 1) 0)), (proj2 (Z.ltb_ge j 0)) by lia.
      by replace (Z.to_nat (j + 1)) with (S (Z.to_nat j)) by lia. }
    exists (i + 1). split; [by rewrite Hs by lia|]. intros j Hji.
    destruct (decide (j = 0)) as [->|]; [done|]. replace j with (j - 1 + 1) by lia. rewrite Hs by lia. apply Hj. lia.
  - exists 0. split; [done|]. intros j ?. lia.
Qed.

Lemma BitMap_Find_first bm bs i : rep bm bs -> is_first_clear bs i ->
  exists bm', BitMap_Find bm = Ok (i, bm') /\ rep bm' (zinsert i true bs).
Proof.
  intros Hrep Hi. destruct (BitMap_Find_run bm bs Hrep) as (r & bm' & E & [(_ & _ & H0)|[Hr Hrep']]).
  - pose proof (count_clear_update bs i false true (proj1 Hi)).
    pose proof (count_clear_bounds (zinsert i true bs)). cbn in *. lia.
  - rewrite (first_clear_unique bs i r Hi Hr). by exists bm'.
Qed.

Lemma rep_exists bm : bitmap_wf bm -> exists bs, rep bm bs.
Proof.
  intros Hwf. exists (marked bm <$> seqZ 0 (numBits bm)). destruct Hwf as [H0 ? ?].
  split; [done|]. unfold zlength. rewrite length_fmap, length_seqZ. split; [lia|].
  intros i Hi. unfold zlookup. destruct (Z.ltb_spec i 0); [lia|].
  rewrite list_lookup_fmap. rewrite lookup_seqZ_lt by lia. simpl. f_equal. f_equal. lia.
Qed.

Lemma BitMap_new_run nitems mem :
  0 <= nitems ->
  exists bm, BitMap_new nitems mem = Ok bm /\
             rep bm (replicate (Z.to_nat nitems) false).
Proof.
  intros H0. unfold BitMap_new.
  set (raw := mkBitMap _ _ _).
  assert (bitmap_wf raw) as Hwf.
  { pose proof (divRoundUp_nonneg nitems BitsInWord ltac:(done) ltac:(done)).
    constructor; [done|done|]. unfold zlength; simpl. rewrite length_fmap, length_seqZ. lia. }
  destruct (rep_exists _ Hwf) as [bs0 Hr0].
  destruct (for_inv (S := BitMap) (fun i s => numBits s = nitems /\ exists bs, rep s bs /\
    forall j, 0 <= j < i -> zlookup bs j = Some false) 0 (Z.to_nat nitems) (fun i => BitMap_Clear i))
    with (s := raw) as (bm & E & Hn & bs & Hr & Hall).
  - intros i s Hi (Hn & bs & Hr & Hj).
    assert (0 <= i < zlength bs) as Hib by (destruct Hr as (_ & -> & _); lia).
    destruct (BitMap_Clear_run _ _ Hr i Hib) as (s' & E & Hr').
    exists s'. split; [done|]. split.
    + destruct Hr' as (_ & <- & _). rewrite zlength_zinsert. destruct Hr as (_ & -> & _). done.
    + exists (zinsert i false bs). split; [done|]. intros j ?. rewrite zlookup_zinsert.
      case_decide as Hd; [done|]. apply Hj. destruct (decide (i = j)); [|lia].
      exfalso. apply Hd. done.
  - split; [done|]. exists bs0. split; [done|]. lia.
  - unfold BitMap_init. rewrite E. exists bm. split; [done|].
    replace (replicate (Z.to_nat nitems) false) with bs; [done|].
    assert (zlength bs = nitems) as Hl by (destruct Hr as (_ & -> & _); done).
    symmetry. apply replicate_as_elem_of. unfold zlength in Hl. split; [lia|].
    intros b [k Hk]%list_elem_of_lookup.
    specialize (Hall (Z.of_nat k)). pose proof (lookup_lt_Some _ _ _ Hk).
    unfold zlookup in Hall. destruct (Z.ltb_spec (Z.of_nat k) 0); [lia|].
    rewrite Nat2Z.id, Hk in Hall. assert (Some b = Some false) by (apply Hall; lia). by simplify_eq.
Qed.

(** ** Properties *)

(** C27: a bit map behaves as the list of booleans it represents: Mark and Clear
    change one bit and no other, Test reads it and NumClear counts the clear
    ones; an index outside [0, numBits) fails the ASSERT of each of them. *)
Theorem BitMap_operations_refine_bits (bm : BitMap) (bs : list bool) (i : Z) :
  rep bm bs ->
  match zlookup bs i with
  | Some b =>
      BitMap_Test i bm = Ok (b, bm) /\
      (exists bm', BitMap_Mark i bm = Ok (tt, bm') /\ rep bm' (zinsert i true bs)) /\
      (exists bm', BitMap_Clear i bm = Ok (tt, bm') /\ rep bm' (zinsert i false bs))
  | None =>
      BitMap_Test i bm = Aborted /\ BitMap_Mark i bm = Aborted /\
      BitMap_Clear i bm = Aborted
  end /\ BitMap_NumClear bm = Ok (count_clear bs, bm).
Proof.
  intros Hr. split; [|by apply BitMap_NumClear_run].
  destruct (zlookup bs i) as [b|] eqn:E.
  - pose proof (zlookup_lt_Some _ _ _ E) as Hi. split; [by apply (BitMap_Test_run bm bs)|].
    split; [by apply BitMap_Mark_run | by apply BitMap_Clear_run].
  - apply zlookup_None in E. destruct (BitMap_out_of_range bm bs Hr i) as (? & ? & ?); [lia|done].
Qed.

Definition example_map : BitMap := mkBitMap 40 2 [2 ^ 32 - 1; 5].

Lemma example_map_rep : exists bs, rep example_map bs /\ zlookup bs 33 = Some false /\
  zlookup bs 40 = None.
Proof.
  destruct (rep_exists example_map) as [bs Hr]; [by constructor|].
  exists bs. split; [done|]. destruct Hr as (_ & Hl & Hb). split.
  - rewrite (Hb 33) by done. done.
  - apply zlookup_None. rewrite Hl. simpl. lia.
Qed.

Lemma BitMap_operations_refine_bits_witness : exists bs, rep example_map bs /\
  BitMap_Test 33 example_map = Ok (false, example_map) /\
  BitMap_Test 40 example_map = Aborted.
Proof.
  destruct example_map_rep as (bs & Hr & H33 & H40). exists bs. split; [done|].
  pose proof (BitMap_operations_refine_bits example_map bs 33 Hr) as H1.
  pose proof (BitMap_operations_refine_bits example_map bs 40 Hr) as H2.
  rewrite H33 in H1. rewrite H40 in H2. split; [apply H1|apply H2].
Defined.

(** Allocation: Find returns -1 and changes nothing when no bit is clear,
    and otherwise the smallest clear bit, which it marks, so that the next Find
    cannot return it again and one bit less is clear. *)
Theorem BitMap_Find_allocates (bm : BitMap) (bs : list bool) :
  rep bm bs ->
  exists r bm', BitMap_Find bm = Ok (r, bm') /\
    if decide (count_clear bs = 0) then r = -1 /\ bm' = bm
    else is_first_clear bs r /\ 0 <= r < numBits bm /\
         rep bm' (zinsert r true bs) /\ BitMap_Test r bm' = Ok (true, bm') /\
         BitMap_NumClear bm' = Ok (count_clear bs - 1, bm').
Proof.
  intros Hr. destruct (BitMap_Find_run bm bs Hr) as (r & bm' & E & HQ).
  exists r, bm'. split; [done|]. destruct HQ as [(-> & -> & ->)|[Hf Hr']].
  { by rewrite decide_True. }
  pose proof (zlookup_lt_Some _ _ _ (proj1 Hf)) as Hi.
  pose proof (count_clear_update bs r false true (proj1 Hf)) as Hc.
  pose proof (count_clear_bounds (zinsert r true bs)) as Hb.
  simpl in Hc. rewrite decide_False by lia. split; [done|]. split.
  { destruct Hr as (_ & <- & _). done. }
  split; [done|]. split.
  - apply (BitMap_Test_run _ _ Hr'). by apply zlookup_zinsert_eq.
  - rewrite (BitMap_NumClear_run _ _ Hr'), Hc. repeat f_equal. lia.
Qed.

Lemma BitMap_Find_allocates_witness : exists bs r bm', rep example_map bs /\
  BitMap_Find example_map = Ok (r, bm') /\ r = 33.
Proof.
  destruct example_map_rep as (bs & Hr & _). exists bs.
  pose proof (BitMap_Find_allocates example_map bs Hr) as (r & bm' & E & _).
  exists r, bm'. split; [done|]. split; [done|].
  assert (BitMap_Find example_map = Ok (33, mkBitMap 40 2 [2 ^ 32 - 1; 7])) as E' by done.
  congruence.
Defined.

(** A new bit map represents [nitems] clear bits, whatever the memory it is
    built in contained. *)
Theorem BitMap_new_all_clear (nitems : Z) (mem : Z -> Z) :
  0 <= nitems ->
  exists bm, BitMap_new nitems mem = Ok bm /\ numBits bm = nitems /\
    rep bm (replicate (Z.to_nat nitems) false) /\
    BitMap_NumClear bm = Ok (nitems, bm).
Proof.
  intros Hn. destruct (BitMap_new_run nitems mem Hn) as (bm & E & Hr).
  exists bm. split; [done|]. split; [|split; [done|]].
  - destruct Hr as (_ & <- & _). unfold zlength. rewrite length_replicate. lia.
  - rewrite (BitMap_NumClear_run _ _ Hr). repeat f_equal.
    rewrite <- (Z2Nat.id nitems) at 2 by lia.
    clear. induction (Z.to_nat nitems) as [|n IH]; [done|].
    rewrite Nat2Z.inj_succ. cbn. rewrite IH. lia.
Qed.

Lemma BitMap_new_all_clear_witness : 0 <= 70 /\
  exists bm, BitMap_new 70 (fun i => i * 12345) = Ok bm /\ numBits bm = 70.
Proof.
  split; [done|].
  destruct (BitMap_new_all_clear 70 (fun i => i * 12345)) as (bm & E & Hn & _); [done|].
  exists bm. split; [exact E | exact Hn].
Defined.
