(* ===== verification/Lists.v ===== *)
(** * threads/list.cc: singly linked lists of "things"

    The list code as it is written, over a heap of [ListElement] cells with
    [next] pointers and the [first] and [last] pointers of the list, and its
    refinement: on a heap that represents a sequence of (item, key) pairs each
    operation leaves a heap that represents the obvious updated sequence. The
    schedulers and queues of the other files use that sequence. *)

From Stdlib Require Import Sorted Permutation.
From stdpp Require Import base tactics list gmap.
From S2P Require Import Prelude.

Local Open Scope Z_scope.

(** A heap address; a C pointer is an optional address, [None] is NULL. The
    items are [void *] values: integers, 0 is NULL. *)
Abbreviation loc := nat.

Record ListElement := mkElement {
  next : option loc;
  key : Z;
  item : Z
}.

(** The list object with the heap its cells live in: [brk] is the next address
    that [new] returns. *)
Record List := mkList {
  heap : gmap loc ListElement;
  brk : loc;
  first : option loc;
  last_ : option loc
}.

Definition set_heap h (l : List) := mkList h (brk l) (first l) (last_ l).
Definition set_first p (l : List) := mkList (heap l) (brk l) p (last_ l).
Definition set_last p (l : List) := mkList (heap l) (brk l) (first l) p.
Definition set_next p (e : ListElement) := mkElement p (key e) (item e).

(** [new ListElement(itemPtr, sortKey)] *)
Definition ListElement_new (itemPtr sortKey : Z) : M List loc :=
  l <- get ;;
  put (mkList (<[brk l := mkElement None sortKey itemPtr]> (heap l))
         (S (brk l)) (first l) (last_ l)) ;;;
  ret (brk l).

(** [*p] and [p->next = q]; a NULL or freed pointer is undefined behaviour. *)
Definition load (p : option loc) : M List ListElement :=
  l <- get ;;
  a <- must p ;;
  must (heap l !! a).
Definition store_next (p : option loc) (q : option loc) : M List unit :=
  e <- load p ;;
  a <- must p ;;
  modify (fun l => set_heap (<[a := set_next q e]> (heap l)) l).
Definition free (p : option loc) : M List unit :=
  a <- must p ;;
  modify (fun l => set_heap (delete a (heap l)) l).

Definition List_new (h : gmap loc ListElement) (b : loc) : List := mkList h b None None.

Definition List_IsEmpty : M List bool :=
  l <- get ;;
  ret (match first l with None => true | Some _ => false end).

Definition List_Append (it : Z) : M List unit :=
  element <- ListElement_new it 0 ;;
  b <- List_IsEmpty ;;
  if b then
    modify (set_first (Some element)) ;;; modify (set_last (Some element))
  else
    l <- get ;;
    store_next (last_ l) (Some element) ;;; modify (set_last (Some element)).

Definition List_Prepend (it : Z) : M List unit :=
  element <- ListElement_new it 0 ;;
  b <- List_IsEmpty ;;
  if b then
    modify (set_first (Some element)) ;;; modify (set_last (Some element))
  else
    l <- get ;;
    store_next (Some element) (first l) ;;; modify (set_first (Some element)).

(** The [for] loop of SortedInsert: [true] when it returned from inside, [false]
    when it reached the last cell; [None] when the fuel ran out. *)
Fixpoint SortedInsert_loop (fuel : nat) (element : loc) (sortKey : Z)
    (ptr : option loc) : M List (option bool) :=
  match fuel with
  | O => ret None
  | S fuel' =>
      e <- load ptr ;;
      match next e with
      | None => ret (Some false)
      | Some n =>
          en <- load (Some n) ;;
          if sortKey <? key en then
            store_next (Some element) (Some n) ;;;
            store_next ptr (Some element) ;;;
            ret (Some true)
          else SortedInsert_loop fuel' element sortKey (next e)
      end
  end.

Definition List_SortedInsert (it sortKey : Z) : M List unit :=
  element <- ListElement_new it sortKey ;;
  b <- List_IsEmpty ;;
  if b then
    modify (set_first (Some element)) ;;; modify (set_last (Some element))
  else
    l <- get ;;
    e1 <- load (first l) ;;
    if sortKey <? key e1 then
      store_next (Some element) (first l) ;;; modify (set_first (Some element))
    else
      r <- SortedInsert_loop (size (heap l)) element sortKey (first l) ;;
      inside <- must r ;;
      if inside : bool then ret tt
      else
        l <- get ;;
        store_next (last_ l) (Some element) ;;;
        modify (set_last (Some element)).

(** The item and its key ([*keyPtr]), or NULL. *)
Definition List_SortedRemove : M List (option (Z * Z)) :=
  l <- get ;;
  b <- List_IsEmpty ;;
  if b then ret None
  else
    e <- load (first l) ;;
    (if decide (first l = last_ l) then
       modify (set_first None) ;;; modify (set_last None)
     else modify (set_first (next e))) ;;;
    free (first l) ;;;
    ret (Some (item e, key e)).

Definition List_Remove : M List Z :=
  r <- List_SortedRemove ;;
  ret (match r with Some (it, _) => it | None => 0 end).

(** The items Mapcar calls its function on, in order. *)
Fixpoint Mapcar_loop (fuel : nat) (ptr : option loc) : M List (option (list Z)) :=
  match ptr, fuel with
  | None, _ => ret (Some [])
  | Some _, O => ret None
  | Some _, S fuel' =>
      e <- load ptr ;;
      r <- Mapcar_loop fuel' (next e) ;;
      ret (cons (item e) <$> r)
  end.
Definition List_Mapcar : M List (list Z) :=
  l <- get ;;
  r <- Mapcar_loop (size (heap l)) (first l) ;;
  must r.

(** The destructor removes until Remove gives NULL. *)
Fixpoint List_delete_loop (fuel : nat) : M List (option unit) :=
  match fuel with
  | O => ret None
  | S fuel' =>
      it <- List_Remove ;;
      if it =? 0 then ret (Some tt) else List_delete_loop fuel'
  end.
Definition List_delete : M List unit :=
  l <- get ;;
  r <- List_delete_loop (S (size (heap l))) ;;
  must r.

(** * The sequence a list represents *)

Fixpoint sorted_insert {A} (it : A) (k : Z) (xs : list (A * Z)) : list (A * Z) :=
  match xs with
  | [] => [(it, k)]
  | x :: xs' => if k <? x.2 then (it, k) :: xs else x :: sorted_insert it k xs'
  end.

(** The cells at the addresses [ls] hold [xs] and are linked up to [stop]. *)
Fixpoint chain (h : gmap loc ListElement) (ls : list loc) (xs : list (Z * Z))
    (stop : option loc) : Prop :=
  match ls, xs with
  | [], [] => True
  | a :: ls', (it, k) :: xs' =>
      h !! a = Some (mkElement (match ls' with [] => stop | b :: _ => Some b end) k it) /\
      chain h ls' xs' stop
  | _, _ => False
  end.

Record list_rep (l : List) (ls : list loc) (xs : list (Z * Z)) : Prop := {
  rep_chain : chain (heap l) ls xs None;
  rep_nodup : NoDup ls;
  rep_brk : Forall (fun a => (a < brk l)%nat) ls;
  rep_first : first l = head ls;
  rep_last : last_ l = last ls
}.

(** [l] represents the sequence [xs]. *)
Definition represents (l : List) (xs : list (Z * Z)) : Prop :=
  exists ls, list_rep l ls xs.

(** ** Chains of cells *)

Lemma chain_length h ls xs stop : chain h ls xs stop -> length ls = length xs.
Proof.
  revert xs. induction ls as [|a ls IH]; intros [|[it k] xs]; simpl; try done.
  intros [_ H]. f_equal. by apply IH.
Qed.

(** A chain only depends on the cells it runs through. *)
Lemma chain_frame h h' ls xs stop :
  (forall a, a ∈ ls -> h' !! a = h !! a) -> chain h ls xs stop -> chain h' ls xs stop.
Proof.
  revert xs. induction ls as [|a ls IH]; intros [|[it k] xs]; simpl; try done.
  intros Hf [Ha Hc]. split.
  - rewrite Hf by left. done.
  - apply IH; [|done]. intros b Hb. apply Hf. by right.
Qed.

Lemma chain_app h ls1 ls2 xs1 xs2 stop :
  length ls1 = length xs1 ->
  chain h (ls1 ++ ls2) (xs1 ++ xs2) stop <->
  chain h ls1 xs1 (match ls2 with [] => stop | b :: _ => Some b end) /\
  chain h ls2 xs2 stop.
Proof.
  revert xs1. induction ls1 as [|a ls1 IH]; intros [|[it k] xs1]; simpl; try done.
  { tauto. }
  intros [= Hlen]. rewrite IH by done. destruct ls1; simpl; tauto.
Qed.

Lemma chain_app_inv h ls1 b ls2 xs stop :
  chain h (ls1 ++ b :: ls2) xs stop ->
  exists xs1 x xs2, xs = xs1 ++ x :: xs2 /\ length ls1 = length xs1 /\
    chain h ls1 xs1 (Some b) /\ chain h (b :: ls2) (x :: xs2) stop.
Proof.
  intros Hc. pose proof (chain_length _ _ _ _ Hc) as Hl.
  rewrite length_app in Hl; simpl in Hl.
  destruct (drop (length ls1) xs) as [|x xs2] eqn:E.
  { apply (f_equal length) in E. rewrite length_drop in E; simpl in E. lia. }
  exists (take (length ls1) xs), x, xs2.
  assert (length ls1 = length (take (length ls1) xs)) as Ht by (rewrite length_take; lia).
  split; [by rewrite <- E, take_drop|]. split; [done|].
  rewrite <- (take_drop (length ls1) xs), E in Hc.
  apply chain_app in Hc; done.
Qed.

Lemma chain_lookup h ls xs stop a : chain h ls xs stop -> a ∈ ls -> is_Some (h !! a).
Proof.
  revert xs. induction ls as [|b ls IH]; intros [|[it k] xs]; simpl; try done;
    rewrite ?elem_of_nil, ?elem_of_cons; try done.
  intros [Hb Hc] [->|Ha]; [by rewrite Hb | by eapply IH].
Qed.

(** The fuel of the loops is enough: there are at least as many cells in the heap. *)
Lemma chain_size h ls xs stop : chain h ls xs stop -> NoDup ls -> (length ls <= size h)%nat.
Proof.
  intros Hc Hn. rewrite <- size_dom. rewrite <- (size_list_to_set (C := gset loc) ls) by done.
  apply subseteq_size. intros a Ha%elem_of_list_to_set. apply elem_of_dom.
  by eapply chain_lookup.
Qed.

(** ** Running the heap operations *)

Lemma load_run l a e : heap l !! a = Some e -> load (Some a) l = Ok (e, l).
Proof. intros H. unfold load. munfold. by rewrite H. Qed.

Lemma store_next_run l a q e :
  heap l !! a = Some e ->
  store_next (Some a) q l = Ok (tt, set_heap (<[a := set_next q e]> (heap l)) l).
Proof. intros H. unfold store_next. mrun (load_run _ _ _ H). done. Qed.

Lemma new_run l it k :
  ListElement_new it k l =
  Ok (brk l, mkList (<[brk l := mkElement None k it]> (heap l)) (S (brk l)) (first l) (last_ l)).
Proof. done. Qed.

Lemma brk_fresh l ls xs : list_rep l ls xs -> brk l ∉ ls.
Proof.
  intros [_ _ Hb _ _] Hin. rewrite Forall_forall in Hb. specialize (Hb _ Hin). lia.
Qed.

Lemma last_decompose {A} (ls : list A) a : last ls = Some a -> exists ls', ls = ls' ++ [a].
Proof. intros H%last_Some. done. Qed.

Lemma sorted_insert_app {A} (it : A) k xs :
  Forall (fun x => ~ k < x.2) xs -> sorted_insert it k xs = xs ++ [(it, k)].
Proof.
  induction 1 as [|x xs Hx _ IH]; simpl; [done|].
  destruct (Z.ltb_spec k x.2); [done|]. by rewrite IH.
Qed.

(** Linking a new last cell. *)
Lemma chain_snoc h ls a xs n k it :
  n ∉ ls ++ [a] -> NoDup (ls ++ [a]) -> chain h (ls ++ [a]) xs None ->
  forall e, h !! a = Some e ->
  chain (<[a := set_next (Some n) e]> (<[n := mkElement None k it]> h))
    ((ls ++ [a]) ++ [n]) (xs ++ [(it, k)]) None.
Proof.
  intros Hn Hnd Hc e He.
  destruct (chain_app_inv _ _ _ _ _ _ Hc) as (xs1 & [it' k'] & xs2 & -> & Hl & Hc1 & Hc2).
  destruct xs2; [|by destruct Hc2]. destruct Hc2 as [Ha _]. simplify_eq.
  rewrite <- !(assoc_L (++)). simpl.
  apply NoDup_app in Hnd as (_ & Hd & _).
  apply chain_app; [done|]. simpl. split; [|split; [|split; [|done]]].
  - eapply chain_frame; [|exact Hc1]. intros b Hb.
    assert (b <> a) by (intros ->; apply (Hd a Hb); set_solver).
    rewrite lookup_insert_ne by done. apply lookup_insert_ne. intros ->. set_solver.
  - by rewrite lookup_insert_eq.
  - rewrite lookup_insert_ne by set_solver. by rewrite lookup_insert_eq.
Qed.

(** The new cell alone. *)
Lemma singleton_rep l it k :
  list_rep (mkList (<[brk l := mkElement None k it]> (heap l)) (S (brk l))
              (Some (brk l)) (Some (brk l))) [brk l] [(it, k)].
Proof.
  constructor; simpl; try done.
  - by rewrite lookup_insert_eq.
  - apply NoDup_singleton.
  - apply Forall_singleton. lia.
Qed.

Section Refinement.
Context (l : List) (ls : list loc) (xs : list (Z * Z)) (Hrep : list_rep l ls xs).

Lemma IsEmpty_run : List_IsEmpty l = Ok (match xs with [] => true | _ => false end, l).
Proof.
  destruct Hrep as [Hc _ _ Hf _]. unfold List_IsEmpty. munfold. rewrite Hf.
  destruct ls, xs as [|[]]; try done; by destruct Hc.
Qed.

Lemma snoc_rep it k a e ls' :
  ls = ls' ++ [a] -> heap l !! a = Some e ->
  list_rep (mkList (<[a := set_next (Some (brk l)) e]>
                      (<[brk l := mkElement None k it]> (heap l))) (S (brk l))
              (first l) (Some (brk l)))
    (ls ++ [brk l]) (xs ++ [(it, k)]).
Proof.
  intros -> He. pose proof (brk_fresh _ _ _ Hrep) as Hfr.
  destruct Hrep as [Hc Hn Hb Hf _]. constructor; simpl.
  - by apply chain_snoc.
  - apply NoDup_app. split; [done|]. split; [|apply NoDup_singleton]. set_solver.
  - apply Forall_app. split; [|apply Forall_singleton; lia].
    eapply Forall_impl; [exact Hb|]. simpl. lia.
  - rewrite Hf. by destruct ls'.
  - by rewrite last_snoc.
Qed.

Lemma cons_rep it k a ls' :
  ls = a :: ls' ->
  list_rep (mkList (<[brk l := mkElement (Some a) k it]> (heap l)) (S (brk l))
              (Some (brk l)) (last_ l))
    (brk l :: ls) ((it, k) :: xs).
Proof.
  intros Els. pose proof (brk_fresh _ _ _ Hrep) as Hfr.
  destruct Hrep as [Hc Hn Hb Hf Hla]. constructor; simpl.
  - subst ls. rewrite lookup_insert_eq. split; [done|].
    eapply chain_frame; [|exact Hc]. intros b Hb'.
    apply lookup_insert_ne. intros <-. done.
  - by constructor.
  - constructor; [lia|]. eapply Forall_impl; [exact Hb|]. simpl. lia.
  - done.
  - rewrite Hla, Els. done.
Qed.

Lemma last_cell : xs <> [] -> exists ls' a e, ls = ls' ++ [a] /\ last_ l = Some a /\
  heap l !! a = Some e /\ a <> brk l.
Proof.
  intros Hx. pose proof (brk_fresh _ _ _ Hrep) as Hfr. destruct Hrep as [Hc _ _ _ Hla].
  destruct (last ls) as [a|] eqn:E.
  - destruct (last_decompose _ _ E) as [ls' Els].
    destruct (chain_lookup _ _ _ _ a Hc) as [e He]; [set_solver|].
    exists ls', a, e. repeat split; try done. intros ->. set_solver.
  - apply last_None in E as ->. by destruct xs as [|[] ?].
Qed.

Lemma first_cell it k xs' : xs = (it, k) :: xs' -> exists a ls', ls = a :: ls' /\
  first l = Some a /\ a <> brk l /\
  heap l !! a = Some (mkElement (match ls' with [] => None | b :: _ => Some b end) k it) /\
  chain (heap l) ls' xs' None.
Proof.
  intros ->. pose proof (brk_fresh _ _ _ Hrep) as Hfr. destruct Hrep as [Hc _ _ Hf _].
  destruct ls as [|a ls']; [done|]. destruct Hc as [Ha Hc].
  exists a, ls'. repeat split; try done. set_solver.
Qed.

End Refinement.

(** The test for the empty list, after a cell was allocated. *)
Lemma IsEmpty_new l ls xs it k :
  list_rep l ls xs ->
  List_IsEmpty (mkList (<[brk l := mkElement None k it]> (heap l)) (S (brk l)) (first l) (last_ l)) =
  Ok (match xs with [] => true | _ => false end,
      mkList (<[brk l := mkElement None k it]> (heap l)) (S (brk l)) (first l) (last_ l)).
Proof.
  intros Hrep. pose proof (IsEmpty_run _ _ _ Hrep) as HE.
  unfold List_IsEmpty in *. munfold. simpl. congruence.
Qed.

Lemma Append_run l xs it :
  represents l xs ->
  exists l', List_Append it l = Ok (tt, l') /\ represents l' (xs ++ [(it, 0)]).
Proof.
  intros [ls Hrep]. unfold List_Append. mrun (new_run l it 0).
  mrun (IsEmpty_new _ _ _ it 0 Hrep). destruct xs as [|x xs'] eqn:Ex.
  - eexists. split; [done|]. eexists. apply singleton_rep.
  - destruct (last_cell _ _ _ Hrep) as (ls' & a & e & Els & Hla & He & Hne); [done|].
    rewrite <- Ex in *. munfold. simpl. rewrite Hla.
    erewrite (store_next_run _ a _ e); simpl; [|by rewrite lookup_insert_ne].
    eexists. split; [done|]. eexists. exact (snoc_rep _ _ _ Hrep it 0 a e ls' Els He).
Qed.

Lemma Prepend_run l xs it :
  represents l xs ->
  exists l', List_Prepend it l = Ok (tt, l') /\ represents l' ((it, 0) :: xs).
Proof.
  intros [ls Hrep]. unfold List_Prepend. mrun (new_run l it 0).
  mrun (IsEmpty_new _ _ _ it 0 Hrep). destruct xs as [|[it' k'] xs'] eqn:Ex.
  - eexists. split; [done|]. eexists. apply singleton_rep.
  - destruct (first_cell _ _ _ Hrep _ _ _ eq_refl) as (a & ls' & Els & Hf & Hne & Ha & Hc).
    munfold. simpl. erewrite (store_next_run _ (brk l) _ _); simpl; [|apply lookup_insert_eq].
    rewrite Hf. eexists. split; [done|]. eexists. rewrite insert_insert_eq.
    exact (cons_rep _ _ _ Hrep it 0 a ls' Els).
Qed.

(** The loop of SortedInsert, from cell [p] on. *)
Lemma SortedInsert_loop_run fuel el it k n0 l p ls2 x xs2 :
  chain (heap l) (p :: ls2) (x :: xs2) None -> NoDup (p :: ls2) ->
  el ∉ p :: ls2 -> heap l !! el = Some (mkElement n0 k it) ->
  (length ls2 < fuel)%nat ->
  exists r l', SortedInsert_loop fuel el k (Some p) l = Ok (Some r, l') /\
    if r : bool then
      exists h' ls2', l' = set_heap h' l /\
        chain h' (p :: ls2') (x :: sorted_insert it k xs2) None /\
        ls2' ≡ₚ el :: ls2 /\ last (p :: ls2') = last (p :: ls2) /\
        (forall a, a ∉ el :: p :: ls2 -> h' !! a = heap l !! a)
    else l' = l /\ sorted_insert it k xs2 = xs2 ++ [(it, k)].
Proof.
  revert p x ls2 xs2. induction fuel as [|fuel IH]; intros p x ls2 xs2 Hc Hn Hel He Hfuel; [lia|].
  simpl. destruct x as [itp kp]. destruct Hc as [Hp Hc].
  mrun (load_run _ _ _ Hp). simpl. destruct ls2 as [|q ls2]; simpl.
  { destruct xs2; [|done]. exists false, l. done. }
  destruct xs2 as [|[itq kq] xs2]; [done|]. pose proof Hc as [Hq _].
  mrun (load_run _ _ _ Hq). simpl. destruct (Z.ltb_spec k kq).
  - assert (el <> p /\ p <> q /\ el <> q) as (?&?&?).
    { apply NoDup_cons in Hn as [? _]. set_solver. }
    mrun (store_next_run _ _ (Some q) _ He).
    erewrite (bind_Ok _ _ _ _ _ (store_next_run _ p _ (mkElement (Some q) kp itp) _)). simpl.
    eexists true, _. split; [done|]. eexists _, (el :: q :: ls2). split; [done|].
    split; [|split; [done|split; [done|]]].
    + split; [by rewrite lookup_insert_eq|]. split.
      * rewrite lookup_insert_ne by done. by rewrite lookup_insert_eq.
      * eapply chain_frame; [|exact Hc]. intros b Hb.
        apply NoDup_cons in Hn as [Hn _].
        rewrite !lookup_insert_ne; [done| |]; intros ->; set_solver.
    + intros a Ha. rewrite !lookup_insert_ne by set_solver. done.
  - apply NoDup_cons in Hn as [Hpn Hn].
    destruct (IH q (itq, kq) ls2 xs2 Hc Hn) as (r & l' & E & HQ); [set_solver|done|simpl in Hfuel; lia|].
    exists r, l'. split; [done|]. destruct r.
    + destruct HQ as (h' & ls2' & -> & Hc' & Hperm & Hlast & Hfr).
      exists h', (q :: ls2'). split; [done|]. split; [|split; [|split]].
      * split; [|exact Hc']. rewrite Hfr; [done|]. set_solver.
      * rewrite Hperm. apply perm_swap.
      * done.
      * intros a Ha. apply Hfr. set_solver.
    + destruct HQ as [-> ->]. done.
  Unshelve. simpl. by rewrite lookup_insert_ne.
Qed.

Lemma SortedInsert_run l xs it k :
  represents l xs ->
  exists l', List_SortedInsert it k l = Ok (tt, l') /\ represents l' (sorted_insert it k xs).
Proof.
  intros [ls Hrep]. unfold List_SortedInsert. mrun (new_run l it k).
  mrun (IsEmpty_new _ _ _ it k Hrep). destruct xs as [|[it' k'] xs'] eqn:Ex.
  { eexists. split; [done|]. eexists. apply singleton_rep. }
  destruct (first_cell _ _ _ Hrep _ _ _ eq_refl) as (a & ls' & Els & Hf & Hne & Ha & Hc).
  pose proof (brk_fresh _ _ _ Hrep) as Hfr. pose proof Hrep as [Hch Hn Hb _ Hla].
  set (l1 := mkList _ _ _ _). set (n0 := mkElement None k it) in *.
  rewrite (bind_Ok get _ l1 l1 l1) by done.
  assert (heap l1 !! a = heap l !! a) as Ha1 by (simpl; by rewrite lookup_insert_ne).
  erewrite (bind_Ok (load (first l1)) _ l1 _ l1) by (simpl; rewrite Hf; apply load_run; rewrite Ha1; exact Ha).
  simpl. destruct (Z.ltb_spec k k').
  { rewrite Hf. erewrite (bind_Ok _ _ _ _ _ (store_next_run l1 (brk l) _ n0 _)). simpl.
    eexists. split; [done|]. eexists. rewrite insert_insert_eq.
    exact (cons_rep _ _ _ Hrep it k a ls' Els). }
  assert (chain (heap l1) (a :: ls') ((it', k') :: xs') None) as Hc1.
  { rewrite <- Els. eapply chain_frame; [|exact Hch]. intros b Hbin. simpl.
    apply lookup_insert_ne. by intros <-. }
  rewrite Hf. rewrite Els in Hn, Hfr, Hb.
  destruct (SortedInsert_loop_run (size (heap l1)) (brk l) it k None l1 a ls' _ _ Hc1 Hn Hfr)
    as (r & l' & E & HQ).
  { by simpl; rewrite lookup_insert_eq. }
  { pose proof (chain_size _ _ _ _ Hc1 Hn). simpl in *. lia. }
  simpl in E. mrun E. destruct r; simpl.
  - destruct HQ as (h' & ls2 & -> & Hc' & Hp & Hlast & _).
    eexists. split; [done|]. exists (a :: ls2).
    assert (a :: ls2 ≡ₚ brk l :: a :: ls') as Hperm by (rewrite Hp; apply perm_swap).
    constructor; simpl; [done| | |done|].
    + rewrite Hperm. by constructor.
    + rewrite Hperm. constructor; [lia|]. eapply Forall_impl; [exact Hb|]. simpl. lia.
    + rewrite Hla, Els. by rewrite <- Hlast.
  - destruct HQ as [-> HQ]. simpl. rewrite HQ.
    destruct (last_cell _ _ _ Hrep) as (ls0 & b & e & Els0 & Hla' & He & Hneb); [done|].
    munfold. simpl. rewrite Hla'.
    erewrite (store_next_run _ b _ e); simpl; [|by rewrite lookup_insert_ne].
    eexists. split; [done|]. eexists. exact (snoc_rep _ _ _ Hrep it k b e ls0 Els0 He).
  Unshelve. simpl. by rewrite lookup_insert_eq.
Qed.

Lemma SortedRemove_run l xs :
  represents l xs ->
  exists l', List_SortedRemove l = Ok (head xs, l') /\ represents l' (tail xs).
Proof.
  intros [ls Hrep]. unfold List_SortedRemove. munfold.
  rewrite (IsEmpty_run _ _ _ Hrep). destruct xs as [|[it k] xs'] eqn:Ex.
  { exists l. split; [done|]. by exists ls. }
  destruct (first_cell _ _ _ Hrep _ _ _ eq_refl) as (a & ls' & Els & Hf & Hne & Ha & Hc).
  pose proof Hrep as [Hch Hn Hb _ Hla]. rewrite Els in *. rewrite Hf.
  rewrite (load_run _ _ _ Ha). apply NoDup_cons in Hn as [Hna Hn].
  inversion Hb as [|? ? Hba Hb']; subst.
  assert (forall f la, list_rep (mkList (delete a (heap l)) (brk l) f la) ls' xs' <->
          f = head ls' /\ la = last ls') as Hdel.
  { intros f la. split; [by intros []|]. intros [-> ->]. constructor; simpl; try done.
    eapply chain_frame; [|exact Hc]. intros b Hbin. apply lookup_delete_ne.
    by intros ->. }
  simpl in Hla. case_decide as Hd; simpl; unfold free; munfold; rewrite ?Hf; simpl.
  - eexists. split; [done|]. exists ls'. apply Hdel. rewrite Hla in Hd.
    destruct ls' as [|b ls'']; [done|]. exfalso. apply Hna.
    apply last_Some_elem_of. done.
  - eexists. split; [done|]. exists ls'. apply Hdel. split.
    + by destruct ls'.
    + rewrite Hla in *. destruct ls'; [done|]. done.
Qed.

Lemma Remove_run l xs :
  represents l xs ->
  exists l', List_Remove l = Ok (match xs with [] => 0 | x :: _ => x.1 end, l') /\
             represents l' (tail xs).
Proof.
  intros Hr. destruct (SortedRemove_run _ _ Hr) as (l' & E & Hr').
  exists l'. split; [|done]. unfold List_Remove. mrun E. by destruct xs as [|[]].
Qed.

Lemma Mapcar_loop_run fuel l ls xs :
  chain (heap l) ls xs None -> (length ls <= fuel)%nat ->
  Mapcar_loop fuel (head ls) l = Ok (Some xs.*1, l).
Proof.
  revert ls xs. induction fuel as [|fuel IH]; intros [|a ls] [|[it k] xs]; simpl;
    try done; intros Hc Hf; try lia.
  destruct Hc as [Ha Hc]. mrun (load_run _ _ _ Ha). simpl.
  replace (match ls with [] => None | b :: _ => Some b end) with (head ls) by by destruct ls.
  by mrun (IH _ _ Hc ltac:(lia)).
Qed.

Lemma Mapcar_run l xs : represents l xs -> List_Mapcar l = Ok (xs.*1, l).
Proof.
  intros (ls & [Hc Hn _ Hf _]). unfold List_Mapcar.
  rewrite (bind_Ok get _ l l l) by done. rewrite Hf.
  by mrun (Mapcar_loop_run (size (heap l)) l ls xs Hc (chain_size _ _ _ _ Hc Hn)).
Qed.

(** The destructor empties a list without NULL items. *)
Lemma delete_loop_run fuel l xs :
  represents l xs -> Forall (fun x => x.1 <> 0) xs -> (length xs < fuel)%nat ->
  exists l', List_delete_loop fuel l = Ok (Some tt, l') /\ represents l' [].
Proof.
  revert l xs. induction fuel as [|fuel IH]; intros l xs Hr Hx Hf; [lia|]. simpl.
  destruct (Remove_run _ _ Hr) as (l' & E & Hr'). mrun E. destruct Hx as [|[it k] xs Hi Hx].
  - exists l'. done.
  - simpl in *. destruct (Z.eqb_spec it 0); [done|]. eapply IH; [done|done|lia].
Qed.

Lemma delete_run l xs :
  represents l xs -> Forall (fun x => x.1 <> 0) xs ->
  exists l', List_delete l = Ok (tt, l') /\ represents l' [].
Proof.
  intros Hr Hx. destruct (delete_loop_run (S (size (heap l))) l xs Hr Hx) as (l' & E & Hr').
  - destruct Hr as (ls & [Hc Hn _ _ _]). pose proof (chain_size _ _ _ _ Hc Hn).
    rewrite (chain_length _ _ _ _ Hc) in *. lia.
  - exists l'. split; [|done]. unfold List_delete.
    rewrite (bind_Ok get _ l l l) by done. by mrun E.
Qed.

(** ** The sorted sequence *)

Definition by_key {A} (x y : A * Z) : Prop := x.2 <= y.2.

(** Insertion splits a sorted sequence at the first larger key. *)
Lemma sorted_insert_split {A} (it : A) k xs :
  StronglySorted by_key xs ->
  exists ys zs, xs = ys ++ zs /\ sorted_insert it k xs = ys ++ (it, k) :: zs /\
    Forall (fun y => y.2 <= k) ys /\ Forall (fun z => k < z.2) zs.
Proof.
  induction 1 as [|x xs Hs IH Hx]; simpl.
  - exists [], []. done.
  - destruct (Z.ltb_spec k x.2).
    + exists [], (x :: xs). repeat split; try done. constructor; [done|].
      eapply Forall_impl; [exact Hx|]. unfold by_key. intros; lia.
    + destruct IH as (ys & zs & -> & -> & Hy & Hz). exists (x :: ys), zs.
      repeat split; try done. by constructor.
Qed.

Lemma sorted_insert_perm {A} (it : A) k xs : sorted_insert it k xs ≡ₚ (it, k) :: xs.
Proof.
  induction xs as [|x xs IH]; simpl; [done|]. case_match; [done|]. rewrite IH. apply perm_swap.
Qed.

Lemma sorted_insert_sorted {A} (it : A) k xs :
  StronglySorted by_key xs -> StronglySorted by_key (sorted_insert it k xs).
Proof.
  induction 1 as [|x xs Hs IH Hx]; simpl; [repeat constructor|].
  destruct (Z.ltb_spec k x.2).
  - constructor; [by constructor|]. constructor; [unfold by_key; simpl; lia|].
    eapply Forall_impl; [exact Hx|]. unfold by_key; simpl; intros; lia.
  - constructor; [done|]. rewrite sorted_insert_perm. constructor; [done|done].
Qed.
#[export] Hint Resolve sorted_insert_sorted : nachos.

(** * Properties *)

(** C28: Append, Prepend and Remove implement a queue: on a heap representing the
    items [xs], with their keys, Append leaves one representing [xs] with the
    item at the end, Prepend one with the item at the front, Remove gives the
    first item (or NULL) and leaves the rest, Mapcar visits the items in order,
    and none of them aborts or follows a NULL or dangling pointer. *)
Theorem List_queue_refinement l xs it :
  represents l xs ->
  (exists l', List_Append it l = Ok (tt, l') /\ represents l' (xs ++ [(it, 0)])) /\
  (exists l', List_Prepend it l = Ok (tt, l') /\ represents l' ((it, 0) :: xs)) /\
  (exists l', List_Remove l = Ok (match xs with [] => 0 | x :: _ => x.1 end, l') /\
              represents l' (tail xs)) /\
  List_Mapcar l = Ok (xs.*1, l) /\
  (Forall (fun x => x.1 <> 0) xs ->
   exists l', List_delete l = Ok (tt, l') /\ represents l' []).
Proof.
  intros Hr. split; [by apply Append_run|]. split; [by apply Prepend_run|].
  split; [by apply Remove_run|]. split; [by apply Mapcar_run|]. by apply delete_run.
Qed.

Lemma empty_represents h b : represents (List_new h b) [].
Proof. exists []. constructor; simpl; try done. apply NoDup_nil_2. Qed.

Lemma List_queue_refinement_witness :
  represents (List_new ∅ 0%nat) [] /\
  exists l', List_Append 7 (List_new ∅ 0%nat) = Ok (tt, l') /\ represents l' [(7, 0)].
Proof.
  split; [apply empty_represents|].
  exact (proj1 (List_queue_refinement (List_new ∅ 0%nat) [] 7 (empty_represents ∅ 0%nat))).
Defined.

(** SortedInsert keeps a sorted list sorted and is stable: the item goes
    behind every item whose key is not larger and before every item whose key
    is larger; SortedRemove then gives the item with the smallest key, and the
    key itself. *)
Theorem List_SortedInsert_sorts l xs it k :
  represents l xs -> StronglySorted by_key xs ->
  exists l' ys zs, List_SortedInsert it k l = Ok (tt, l') /\
    xs = ys ++ zs /\ represents l' (ys ++ (it, k) :: zs) /\
    StronglySorted by_key (ys ++ (it, k) :: zs) /\
    Forall (fun y => y.2 <= k) ys /\ Forall (fun z => k < z.2) zs /\
    exists l'' x, List_SortedRemove l' = Ok (Some x, l'') /\
      represents l'' (tail (ys ++ (it, k) :: zs)) /\
      Forall (fun y => x.2 <= y.2) (ys ++ (it, k) :: zs).
Proof.
  intros Hr Hs. destruct (SortedInsert_run l xs it k Hr) as (l' & E & Hr').
  destruct (sorted_insert_split it k xs Hs) as (ys & zs & Exs & Ei & Hy & Hz).
  pose proof (sorted_insert_sorted it k xs Hs) as Hs'. rewrite Ei in Hr', Hs'.
  exists l', ys, zs. do 6 (split; [done|]).
  destruct (SortedRemove_run _ _ Hr') as (l'' & E' & Hr'').
  destruct (ys ++ (it, k) :: zs) as [|x ws] eqn:Ew; [by destruct ys|].
  exists l'', x. split; [done|]. split; [done|]. inversion Hs'; subst.
  by constructor.
Qed.

Lemma List_SortedInsert_sorts_witness :
  StronglySorted (@by_key Z) [] /\
  exists l' ys zs, List_SortedInsert 7 3 (List_new ∅ 0%nat) = Ok (tt, l') /\ [] = ys ++ zs /\
    represents l' (ys ++ (7, 3) :: zs).
Proof.
  split; [constructor|].
  destruct (List_SortedInsert_sorts (List_new ∅ 0%nat) [] 7 3 (empty_represents ∅ 0%nat)
              (SSorted_nil _)) as (l' & ys & zs & H1 & H2 & H3 & _).
  exists l', ys, zs. split; [exact H1|split; [exact H2|exact H3]].
Defined.
