(* ===== verification/Stacks.v ===== *)
(** * c++example/: stacks as arrays, as lists, and as a template

    The abstract class Stack of inheritstack.h with its two implementations, the
    template of templatestack.cc and the stack of stack.cc. The class is a type
    class of operations; its contract is that they simulate a bounded or
    unbounded sequence, the self tests are proved to be the same computation for
    every implementation that keeps it. An object is its state: the array of a
    stack, or the cells of its list with [first] and [last]. *)

From Stdlib Require Import Ascii String.
From stdpp Require Import base tactics list numbers gmap.
From S2P Require Import Prelude Text Lists.

Local Open Scope Z_scope.

(** ** The abstract class *)

Class Stack (T S : Type) := {
  Push : T -> M S unit;
  Pop : M S T;
  Full : M S bool;
  Empty : M S bool
}.

(** What the tests use of the elements: [operator<<] and [++] of int and char. *)
Class Element (T : Type) := { show : T -> list Z; succ : T -> T }.
#[export] Instance int_element : Element Z := { show := decimal; succ i := i32 (i + 1) }.
(** A char is its code. *)
Record char := Char { code : Z }.
#[export] Instance char_element : Element char :=
  { show c := [code c]; succ c := Char (i8 (code c + 1)) }.

Section SelfTest.
Context {T S : Type} `{Element T, Stack T S}.

(** The object and what has been written to [cout]. *)
Abbreviation O := (M (S * list Z)).
Definition print (t : list Z) : O unit := modify (fun '(s, out) => (s, out ++ t)).
Definition on_stack {A} (m : M S A) : O A := zoom m.

Definition push_turn (count : T) : O T :=
  print (text "pushing " ++ show count ++ [10]) ;;;
  on_stack (Push count) ;;;
  ret (succ count).

(** [while (!Empty()) cout << "popping " << Pop() << "\n"] *)
Definition pop_all (fuel : nat) : O unit :=
  r <- while_ fuel tt (fun _ =>
    e <- on_stack Empty ;;
    if e : bool then ret (tt, false)
    else
      print (text "popping ") ;;;
      v <- on_stack Pop ;;
      print (show v ++ [10]) ;;;
      ret (tt, true)) ;;
  must r.

(** Stack::SelfTest of inheritstack.cc; the fuel of the second loop is given. *)
Definition SelfTest (start : T) (numToPush : Z) (fuel : nat) : O unit :=
  for_acc 0 (Z.to_nat numToPush) start (fun _ count =>
    f <- on_stack Full ;;
    ASSERT (negb f) ;;;
    push_turn count) ;;;
  pop_all fuel.

(** Stack<T>::SelfTest of templatestack.cc, which pushes until the stack is full. *)
Definition SelfTest_full (start : T) (fuel : nat) : O unit :=
  r <- while_ fuel start (fun count =>
    f <- on_stack Full ;;
    if f : bool then ret (count, false)
    else
      count <- push_turn count ;;
      ret (count, true)) ;;
  must r ;;;
  pop_all fuel.
End SelfTest.

(** ** The stack as an array *)

Record ArrayStack (T : Type) := mkArrayStack { size : Z; top : Z; stack : list T }.
Arguments mkArrayStack {T}.
Arguments size {T}.
Arguments top {T}.
Arguments stack {T}.

Section ArrayStack.
Context {T : Type}.

(** The constructor; [fresh] is what the memory of [new T[size]] holds. *)
Definition ArrayStack_new {S} (fresh : Z -> list T) (sz : Z) : M S (ArrayStack T) :=
  ASSERT (1 <=? sz) ;;;
  ret (mkArrayStack sz 0 (fresh sz)).

Definition ArrayStack_Full : M (ArrayStack T) bool :=
  s <- get ;; ret (top s =? size s).
Definition ArrayStack_Empty : M (ArrayStack T) bool :=
  s <- get ;; ret (top s =? 0).

Definition ArrayStack_Push (value : T) : M (ArrayStack T) unit :=
  f <- ArrayStack_Full ;;
  ASSERT (negb f) ;;;
  s <- get ;;
  a <- must (store (top s) value (stack s)) ;;
  put (mkArrayStack (size s) (i32 (top s + 1)) a).

Definition ArrayStack_Pop : M (ArrayStack T) T :=
  e <- ArrayStack_Empty ;;
  ASSERT (negb e) ;;;
  modify (fun s => mkArrayStack (size s) (i32 (top s - 1)) (stack s)) ;;;
  s <- get ;;
  must (zlookup (stack s) (top s)).

Definition array_stack : Stack T (ArrayStack T) := {|
  Push := ArrayStack_Push; Pop := ArrayStack_Pop;
  Full := ArrayStack_Full; Empty := ArrayStack_Empty
|}.
End ArrayStack.
#[export] Existing Instance array_stack.

(** The class of stack.cc is Stack<int>, with a self test that starts at 17; the
    ArrayStack of inheritstack.cc is the same class without the test. *)
Definition int_stack : Stack Z (ArrayStack Z) := array_stack.
Definition int_stack_SelfTest (fuel : nat) : M (ArrayStack Z * list Z) unit :=
  SelfTest_full (H0 := int_stack) 17 fuel.

(** ** The list of integers and the stack as a list *)

Record IntElement := mkIntElement { inext : option loc; ivalue : Z }.

(** The list object with the heap its cells live in; [ibrk] is the next address. *)
Record IntList := mkIntList {
  cells : gmap loc IntElement;
  ibrk : loc;
  ifirst : option loc;
  ilast : option loc
}.

Definition IntList_new : IntList := mkIntList empty 0 None None.

Definition cell (p : option loc) : M IntList IntElement :=
  l <- get ;; a <- must p ;; must (cells l !! a).
Definition set_ends (f g : option loc) : M IntList unit :=
  modify (fun l => mkIntList (cells l) (ibrk l) f g).

Definition List_Empty : M IntList bool :=
  l <- get ;; ret (bool_decide (ifirst l = None)).

Definition IntList_Prepend (value : Z) : M IntList unit :=
  element <- gets ibrk ;;
  modify (fun l => mkIntList (<[element := mkIntElement None value]> (cells l)) (Datatypes.S element) (ifirst l) (ilast l)) ;;;
  e <- List_Empty ;;
  l <- get ;;
  if e : bool then set_ends (Some element) (Some element)
  else
    put (mkIntList (<[element := mkIntElement (ifirst l) value]> (cells l)) (ibrk l) (ifirst l) (ilast l)) ;;;
    set_ends (Some element) (ilast l).

Definition IntList_Remove : M IntList Z :=
  e <- List_Empty ;;
  ASSERT (negb e) ;;;
  l <- get ;;
  element <- must (ifirst l) ;;
  c <- cell (ifirst l) ;;
  (if bool_decide (ifirst l = ilast l) then set_ends None None
   else set_ends (inext c) (ilast l)) ;;;
  modify (fun l => mkIntList (delete element (cells l)) (ibrk l) (ifirst l) (ilast l)) ;;;
  ret (ivalue c).

(** The destructor: [while (!Empty()) Remove()]. *)
Definition IntList_delete (fuel : nat) : M IntList unit :=
  r <- while_ fuel tt (fun _ =>
    e <- List_Empty ;;
    if e : bool then ret (tt, false) else IntList_Remove ;;; ret (tt, true)) ;;
  must r.

Definition ListStack_Pop : M IntList Z :=
  e <- List_Empty ;;
  ASSERT (negb e) ;;;
  IntList_Remove.
Definition ListStack_Full : M IntList bool := ret false.

Definition list_stack : Stack Z IntList := {|
  Push := IntList_Prepend; Pop := ListStack_Pop;
  Full := ListStack_Full; Empty := List_Empty
|}.
#[export] Existing Instance list_stack.

(** ** The three programs

    The state is what has been written; the objects are local. *)

Definition on_object {S} (s : S) (m : M (S * list Z) unit) : M (list Z) S :=
  fun out => obind (m (s, out)) (fun '(_, (s', out')) => Ok (s', out')).
Definition say (t : list Z) : M (list Z) unit := modify (fun out => out ++ t).

Section Programs.
(** The memory that [new int[10]] and [new char[10]] return. *)
Context (ints : Z -> list Z) (chars : Z -> list char).

(** main of stack.cc *)
Definition stack_main : M (list Z) unit :=
  s <- ArrayStack_new ints 10 ;;
  on_object s (int_stack_SelfTest 11) ;;;
  ret tt.

(** main of inheritstack.cc *)
Definition inheritstack_main : M (list Z) IntList :=
  s1 <- ArrayStack_new ints 10 ;;
  let s2 := IntList_new in
  say (text "Testing ArrayStack" ++ [10]) ;;;
  s1 <- on_object s1 (SelfTest 17 10 11) ;;
  say (text "Testing ListStack" ++ [10]) ;;;
  s2 <- on_object s2 (SelfTest 17 10 11) ;;
  on_object s2 (zoom (IntList_delete 11)).

(** main of templatestack.cc; 97 is 'a'. *)
Definition templatestack_main : M (list Z) unit :=
  s1 <- ArrayStack_new ints 10 ;;
  s2 <- ArrayStack_new chars 10 ;;
  say (text "Testing Stack<int>" ++ [10]) ;;;
  on_object s1 (SelfTest_full 17 11) ;;;
  say (text "Testing Stack<char>" ++ [10]) ;;;
  on_object s2 (SelfTest_full (Char 97) 11) ;;;
  ret tt.
End Programs.

(** ** The contract: the operations simulate those on a sequence *)

Definition full {T} (limit : option Z) (xs : list T) : bool :=
  match limit with Some n => zlength xs =? n | None => false end.

(** The abstract stack, with its top first, and room for [limit] elements. *)
Definition sequence {T} (limit : option Z) : Stack T (list T) := {|
  Push v := xs <- get ;; ASSERT (negb (full limit xs)) ;;; put (v :: xs);
  Pop := xs <- get ;; match xs with [] => abort | v :: xs' => put xs' ;;; ret v end;
  Full := xs <- get ;; ret (full limit xs);
  Empty := xs <- get ;; ret (bool_decide (xs = []))
|}.

(** [m] does on the state what [f] does on the sequence it represents. *)
Definition simulates {S X A} (rep : S -> X -> Prop) (m : M S A) (f : M X A) : Prop :=
  forall s xs, rep s xs ->
    match f xs with
    | Ok (a, xs') => exists s', m s = Ok (a, s') /\ rep s' xs'
    | Aborted => m s = Aborted
    | Halted => m s = Halted
    | Undef => True
    end.

Class StackSpec {T S} (St : Stack T S) (limit : option Z) (rep : S -> list T -> Prop) := {
  Push_sim v : simulates rep (Push v) (Push (Stack := sequence limit) v);
  Pop_sim : simulates rep Pop (Pop (Stack := sequence limit));
  Full_sim : simulates rep Full (Full (Stack := sequence limit));
  Empty_sim : simulates rep Empty (Empty (Stack := sequence limit))
}.

(** *** The array *)

(** The elements below [top], the last one first. *)
Definition array_rep {T} (sz : Z) (s : ArrayStack T) (xs : list T) : Prop :=
  1 <= sz < 2 ^ 31 /\ size s = sz /\ zlength (stack s) = sz /\
  top s = zlength xs /\ take (length xs) (stack s) = reverse xs /\ zlength xs <= sz.

Section ArraySpec.
Context {T : Type} (sz : Z).

Lemma array_new_run {S} (fresh : Z -> list T) (s : S) :
  1 <= sz < 2 ^ 31 -> zlength (fresh sz) = sz ->
  exists a, ArrayStack_new fresh sz s = Ok (a, s) /\ array_rep sz a [].
Proof.
  intros Hsz Hl. unfold ArrayStack_new. munfold. rewrite (proj2 (Z.leb_le 1 sz)) by lia. cbn.
  eexists. split; [done|]. unfold array_rep, zlength. simpl. split_and!; try done; lia.
Qed.

Lemma array_push (s : ArrayStack T) xs v : array_rep sz s xs -> zlength xs < sz ->
  exists s', ArrayStack_Push v s = Ok (tt, s') /\ array_rep sz s' (v :: xs).
Proof.
  destruct s as [n t l]. intros (Hsz & Hn & Hl & Ht & Hx & _) Hr. simpl in *. subst n t.
  unfold ArrayStack_Push, ArrayStack_Full, store. munfold. simpl.
  rewrite (proj2 (Z.eqb_neq (zlength xs) sz)) by lia. simpl. rewrite Hl.
  pose proof (zlength_nonneg xs). rewrite (proj2 (Z.leb_le 0 _)), (proj2 (Z.ltb_lt _ sz)) by lia.
  cbn. eexists. split; [done|]. unfold array_rep. simpl.
  rewrite i32_id by (unfold is_i32; lia). rewrite zlength_zinsert.
  unfold zinsert. rewrite (proj2 (Z.ltb_ge _ 0)) by lia.
  unfold zlength in *. cbn [length]. rewrite Nat2Z.id. split_and!; try lia.
  rewrite (take_S_r _ _ v) by (apply list_lookup_insert_eq; lia).
  by rewrite take_insert_ge, Hx, reverse_cons by lia.
Qed.

Lemma array_pop (s : ArrayStack T) xs v : array_rep sz s (v :: xs) ->
  exists s', ArrayStack_Pop s = Ok (v, s') /\ array_rep sz s' xs.
Proof.
  destruct s as [n t l]. intros (Hsz & Hn & Hl & Ht & Hx & Hr). simpl in *. subst n t.
  unfold zlength in *. cbn [length] in *.
  unfold ArrayStack_Pop, ArrayStack_Empty. munfold. simpl.
  rewrite i32_id by (unfold is_i32; lia).
  replace (Z.of_nat (S (length xs)) - 1) with (Z.of_nat (length xs)) by lia.
  assert (l !! length xs = Some v) as Hv.
  { rewrite <- (lookup_take_lt l (S (length xs))), Hx, reverse_cons by lia.
    by rewrite lookup_app_r, length_reverse, Nat.sub_diag by (rewrite length_reverse; lia). }
  unfold zlookup. rewrite (proj2 (Z.ltb_ge _ 0)), Nat2Z.id, Hv by lia. cbn.
  eexists. split; [done|]. unfold array_rep, zlength. simpl. split_and!; try lia.
  apply (f_equal (take (length xs))) in Hx.
  rewrite take_take, reverse_cons, take_app_le in Hx by (rewrite length_reverse; lia).
  replace (length xs `min` S (length xs))%nat with (length xs) in Hx by lia.
  rewrite Hx. apply take_ge. by rewrite length_reverse.
Qed.

#[export] Instance array_spec : StackSpec array_stack (Some sz) (array_rep (T := T) sz).
Proof.
  split.
  - intros v s xs Hs. cbn -[ArrayStack_Push]. munfold.
    destruct (Z.eqb_spec (zlength xs) sz) as [E|E]; cbn -[ArrayStack_Push].
    + destruct Hs as (_ & Hn & _ & Ht & _). unfold ArrayStack_Push, ArrayStack_Full. munfold.
      by rewrite Hn, Ht, (proj2 (Z.eqb_eq _ _) E).
    + apply array_push; [done|]. destruct Hs as (_ & _ & _ & _ & _ & ?). lia.
  - intros s [|v xs] Hs; cbn -[ArrayStack_Pop].
    + destruct Hs as (_ & _ & _ & Ht & _). unfold ArrayStack_Pop, ArrayStack_Empty. munfold.
      by rewrite Ht.
    + by apply array_pop.
  - intros s xs Hs. cbn. exists s. split; [|done]. destruct Hs as (_ & Hn & _ & Ht & _).
    by rewrite Hn, Ht.
  - intros s xs Hs. cbn. exists s. split; [|done]. destruct Hs as (_ & _ & _ & Ht & _).
    rewrite Ht. by destruct xs.
Qed.
End ArraySpec.

(** *** The list *)

Fixpoint linked_cells (h : gmap loc IntElement) (ls : list loc) (xs : list Z) : Prop :=
  match ls, xs with
  | [], [] => True
  | a :: ls', x :: xs' => h !! a = Some (mkIntElement (head ls') x) /\ linked_cells h ls' xs'
  | _, _ => False
  end.

(** The cells of the list are those of the heap: nothing has leaked. *)
Record cells_rep (l : IntList) (ls : list loc) (xs : list Z) : Prop := {
  cells_linked : linked_cells (cells l) ls xs;
  cells_distinct : NoDup ls;
  cells_old : forall a, is_Some (cells l !! a) <-> a ∈ ls;
  cells_below : forall a, a ∈ ls -> (a < ibrk l)%nat;
  cells_first : ifirst l = head ls;
  cells_last : ilast l = last ls
}.
Definition list_stack_rep (l : IntList) (xs : list Z) : Prop := exists ls, cells_rep l ls xs.

Section ListSpec.

Lemma linked_frame h h' ls xs :
  (forall a, a ∈ ls -> h' !! a = h !! a) -> linked_cells h ls xs -> linked_cells h' ls xs.
Proof.
  revert xs. induction ls as [|a ls IH]; intros [|x xs]; simpl; try done.
  intros Hf [Ha Hl]. split; [rewrite Hf by left; done|].
  apply IH; [|done]. intros b Hb. apply Hf. by right.
Qed.

Lemma list_new_rep : list_stack_rep IntList_new [].
Proof.
  exists []. split; simpl; [done|apply NoDup_nil_2| |by intros a ?%not_elem_of_nil|done..].
  intros a. rewrite lookup_empty. split; [by intros []|by intros ?%not_elem_of_nil].
Qed.

Lemma List_Empty_run l xs : list_stack_rep l xs -> List_Empty l = Ok (bool_decide (xs = []), l).
Proof.
  intros (ls & [Hl _ _ _ Hf _]). unfold List_Empty. munfold. rewrite Hf.
  destruct ls, xs; try done; by destruct Hl.
Qed.

Lemma Prepend_sim l xs v : list_stack_rep l xs ->
  exists l', IntList_Prepend v l = Ok (tt, l') /\ list_stack_rep l' (v :: xs).
Proof.
  intros Hr. pose proof (List_Empty_run _ _ Hr) as He. destruct Hr as (ls & [Hl Hn Ho Hb Hf Hla]).
  assert (ibrk l ∉ ls) as Hnew by (intros Hi%Hb; lia).
  assert (linked_cells (<[ibrk l := mkIntElement (head ls) v]> (cells l)) (ibrk l :: ls) (v :: xs)) as Hl'.
  { split; [apply lookup_insert_eq|]. eapply linked_frame; [|done].
    intros a Ha. apply lookup_insert_ne. congruence. }
  unfold IntList_Prepend, List_Empty, set_ends in *. munfold. simpl. injection He as He. rewrite He.
  assert (forall h : gmap loc IntElement, h = <[ibrk l := mkIntElement (head ls) v]> (cells l) ->
    forall a, is_Some (h !! a) <-> a ∈ ibrk l :: ls) as Hdom.
  { intros h -> a. rewrite elem_of_cons, <- Ho. destruct (decide (a = ibrk l)) as [->|].
    - rewrite lookup_insert_eq. split; [by left|by eexists].
    - rewrite lookup_insert_ne by done. naive_solver. }
  destruct xs as [|x xs], ls as [|a ls]; try done; simpl in *; eexists; (split; [done|]).
  - exists [ibrk l]. split; simpl; [done|by apply NoDup_singleton|by apply Hdom| |done|done].
    intros b ->%list_elem_of_singleton. lia.
  - exists (ibrk l :: a :: ls). rewrite insert_insert_eq, Hf. split; simpl; [done|by apply NoDup_cons|by apply Hdom| |done|done].
    intros b [->|Hb']%elem_of_cons; [lia|]. specialize (Hb b Hb'). lia.
Qed.

Lemma Remove_sim l xs v : list_stack_rep l (v :: xs) ->
  exists l', IntList_Remove l = Ok (v, l') /\ list_stack_rep l' xs.
Proof.
  intros Hr. pose proof (List_Empty_run _ _ Hr) as He. destruct Hr as (ls & [Hl Hn Ho Hb Hf Hla]).
  destruct ls as [|a ls]; [done|]. destruct Hl as [Ha Hl]. apply NoDup_cons in Hn as [Hna Hn].
  unfold IntList_Remove. rewrite (bind_Ok _ _ _ _ _ He). unfold cell, set_ends. munfold. simpl.
  rewrite Hf. simpl. rewrite Ha. simpl.
  assert (linked_cells (delete a (cells l)) ls xs) as Hl'.
  { eapply linked_frame; [|done]. intros b Hb'. apply lookup_delete_ne. congruence. }
  assert (forall b, is_Some (delete a (cells l) !! b) <-> b ∈ ls) as Hdom.
  { intros b. destruct (decide (b = a)) as [->|].
    - rewrite lookup_delete_eq. split; [by intros []|done].
    - rewrite lookup_delete_ne by done. rewrite Ho, elem_of_cons. naive_solver. }
  assert (forall b, b ∈ ls -> (b < ibrk l)%nat) as Hb' by (intros b ?; apply Hb; by right).
  destruct (bool_decide_reflect (Some a = ilast l)) as [E|E]; eexists; (split; [done|]); exists ls; simpl.
  - assert (ls = []) as ->.
    { destruct ls as [|b ls]; [done|]. rewrite Hla in E. symmetry in E. simpl in E.
      apply last_Some in E as [ls' E]. destruct Hna. rewrite E. set_solver. }
    split; try done.
  - split; try done. simpl. rewrite Hla. destruct ls; [|done]. by rewrite Hla in E.
Qed.

#[export] Instance list_spec : StackSpec list_stack None list_stack_rep.
Proof.
  split.
  - intros v l xs Hl. cbn -[IntList_Prepend]. by apply Prepend_sim.
  - intros l [|v xs] Hl; cbn -[ListStack_Pop]; unfold ListStack_Pop;
      rewrite (bind_Ok _ _ _ _ _ (List_Empty_run _ _ Hl)); cbn -[IntList_Remove]; [done|].
    by apply Remove_sim.
  - intros l xs Hl. by exists l.
  - intros l xs Hl. cbn -[List_Empty]. exists l. by rewrite (List_Empty_run _ _ Hl).
Qed.
End ListSpec.

(** ** The self test, for every stack that keeps the contract *)

Definition pushing {T} `{Element T} (v : T) : list Z := text "pushing " ++ show v ++ [10].
Definition popping {T} `{Element T} (v : T) : list Z := text "popping " ++ show v ++ [10].

(** [n] values that count up from [v] *)
Fixpoint counted {T} `{Element T} (v : T) (n : nat) : list T :=
  match n with O => [] | Datatypes.S n' => v :: counted (succ v) n' end.

Definition test_text {T} `{Element T} (start : T) (n : nat) : list Z :=
  concat (pushing <$> counted start n) ++ concat (popping <$> reverse (counted start n)).

(** Room for [n] more elements *)
Definition room {T} (limit : option Z) (xs : list T) (n : nat) : Prop :=
  match limit with Some m => zlength xs + Z.of_nat n <= m | None => True end.

Section Client.
Context {T S : Type} `{!Element T} (St : Stack T S) (limit : option Z) (rep : S -> list T -> Prop).
Context `{!StackSpec St limit rep}.

Lemma room_full (xs : list T) n : room limit xs (Datatypes.S n) -> full limit xs = false.
Proof. unfold room, full. destruct limit; [|done]. intros. apply Z.eqb_neq. lia. Qed.

Lemma room_push (v : T) xs n : room limit xs (Datatypes.S n) -> room limit (v :: xs) n.
Proof. unfold room, zlength. destruct limit; [|done]. cbn [length]. lia. Qed.

Lemma on_stack_run {A} (m : M S A) s out a s' :
  m s = Ok (a, s') -> on_stack m (s, out) = Ok (a, (s', out)).
Proof. unfold on_stack, zoom. simpl. by intros ->. Qed.

Lemma on_Full s xs out : rep s xs ->
  exists s', on_stack Full (s, out) = Ok (full limit xs, (s', out)) /\ rep s' xs.
Proof. intros Hs. destruct (Full_sim s xs Hs) as (s' & E & Hs'). eauto using on_stack_run. Qed.

Lemma on_Empty s xs out : rep s xs ->
  exists s', on_stack Empty (s, out) = Ok (bool_decide (xs = []), (s', out)) /\ rep s' xs.
Proof. intros Hs. destruct (Empty_sim s xs Hs) as (s' & E & Hs'). eauto using on_stack_run. Qed.

Lemma on_Pop s v xs out : rep s (v :: xs) ->
  exists s', on_stack Pop (s, out) = Ok (v, (s', out)) /\ rep s' xs.
Proof. intros Hs. destruct (Pop_sim s (v :: xs) Hs) as (s' & E & Hs'). eauto using on_stack_run. Qed.

(** One turn of either first loop, behind its test. *)
Lemma push_turn_run s xs v out : rep s xs -> full limit xs = false ->
  exists s', push_turn v (s, out) = Ok (succ v, (s', out ++ pushing v)) /\ rep s' (v :: xs).
Proof.
  intros Hs Hf. pose proof (Push_sim v s xs Hs) as Hp. cbn in Hp. rewrite Hf in Hp.
  destruct Hp as (s' & E & Hs'). exists s'. split; [|done]. unfold push_turn, print.
  rewrite (bind_Ok _ _ _ tt (s, out ++ pushing v)) by done.
  by rewrite (bind_Ok _ _ _ _ _ (on_stack_run _ _ _ _ _ E)).
Qed.

Lemma push_loop n lo v s xs out : rep s xs -> room limit xs n ->
  exists v' s', for_acc lo n v (fun _ count =>
      f <- on_stack Full ;; ASSERT (negb f) ;;; push_turn count) (s, out) =
    Ok (v', (s', out ++ concat (pushing <$> counted v n))) /\ rep s' (reverse (counted v n) ++ xs).
Proof.
  revert lo v s xs out. induction n as [|n IH]; intros lo v s xs out Hs Hr.
  { exists v, s. by rewrite app_nil_r. }
  destruct (on_Full s xs out Hs) as (s1 & E1 & Hs1). pose proof (room_full _ _ Hr) as Hf. rewrite Hf in E1.
  destruct (push_turn_run s1 xs v out Hs1 Hf) as (s2 & E2 & Hs2).
  destruct (IH (lo + 1) (succ v) s2 (v :: xs) (out ++ pushing v) Hs2 (room_push _ _ _ Hr)) as (v' & s' & E & Hs').
  exists v', s'. cbn [for_acc counted fmap list_fmap concat]. rewrite <- bind_assoc, (bind_Ok _ _ _ _ _ E1).
  rewrite <- bind_assoc, (bind_Ok _ _ _ tt (s1, out)) by done.
  rewrite (bind_Ok _ _ _ _ _ E2), E, reverse_cons, <- !(assoc_L (++)). by split.
Qed.

(** The stack is full too early: the ASSERT fails. *)
Lemma push_loop_full n lo v s xs out m : rep s xs -> limit = Some m -> 0 <= m ->
  zlength xs <= m -> m < zlength xs + Z.of_nat n ->
  for_acc lo n v (fun _ count =>
      f <- on_stack Full ;; ASSERT (negb f) ;;; push_turn count) (s, out) = Aborted.
Proof.
  intros Hs Hm H0. revert lo v s xs out Hs. induction n as [|n IH]; intros lo v s xs out Hs Hle Hlt; [lia|].
  destruct (on_Full s xs out Hs) as (s1 & E1 & Hs1). cbn [for_acc].
  rewrite <- bind_assoc, (bind_Ok _ _ _ _ _ E1). destruct (full limit xs) eqn:Hf; [done|].
  destruct (push_turn_run s1 xs v out Hs1 Hf) as (s2 & E2 & Hs2). simpl. rewrite (bind_Ok _ _ _ _ _ E2).
  assert (zlength xs <> m) by (rewrite Hm in Hf; by apply Z.eqb_neq in Hf).
  apply (IH _ _ _ (v :: xs)); [done|unfold zlength in *; cbn [length]; lia..].
Qed.

(** The second loop empties the stack. *)
Lemma pop_all_run fuel s xs out : rep s xs -> (length xs < fuel)%nat ->
  exists s', pop_all fuel (s, out) = Ok (tt, (s', out ++ concat (popping <$> xs))) /\ rep s' [].
Proof.
  unfold pop_all. revert s xs out. induction fuel as [|fuel IH]; intros s xs out Hs Hl; [lia|].
  destruct (on_Empty s xs out Hs) as (s1 & E1 & Hs1). cbn [while_].
  rewrite <- !bind_assoc, (bind_Ok _ _ _ _ _ E1). destruct xs as [|v xs]; simpl.
  { exists s1. by rewrite app_nil_r. }
  unfold print. rewrite <- !bind_assoc, (bind_Ok _ _ _ tt (s1, out ++ text "popping ")) by done.
  destruct (on_Pop s1 v xs (out ++ text "popping ") Hs1) as (s2 & E2 & Hs2).
  rewrite <- !bind_assoc, (bind_Ok _ _ _ _ _ E2).
  rewrite <- !bind_assoc, (bind_Ok _ _ _ tt (s2, out ++ popping v)) by (unfold popping, modify; cbn beta iota; by rewrite !(assoc_L (++))).
  destruct (IH s2 xs (out ++ popping v) Hs2) as (s' & E & Hs'); [simpl in Hl; lia|].
  exists s'. split; [|done]. rewrite <- (assoc_L (++)) in E. exact E.
Qed.

Lemma length_counted (v : T) n : length (counted v n) = n.
Proof. revert v. induction n as [|n IH]; intros v; simpl; [done|]. by rewrite IH. Qed.

Lemma SelfTest_run start (n : nat) fuel s out :
  rep s [] -> room (T := T) limit [] n -> (n < fuel)%nat ->
  exists s', SelfTest start (Z.of_nat n) fuel (s, out) = Ok (tt, (s', out ++ test_text start n)) /\ rep s' [].
Proof.
  intros Hs Hr Hf. destruct (push_loop n 0 start s [] out Hs Hr) as (v' & s1 & E1 & Hs1).
  rewrite app_nil_r in Hs1. unfold SelfTest. rewrite Nat2Z.id, (bind_Ok _ _ _ _ _ E1).
  destruct (pop_all_run fuel s1 _ (out ++ concat (pushing <$> counted start n)) Hs1) as (s' & E & Hs').
  { by rewrite length_reverse, length_counted. }
  exists s'. split; [|done]. rewrite E. unfold test_text. by rewrite <- (assoc_L (++)).
Qed.

Lemma fill_loop k fuel v s xs out m : limit = Some m ->
  rep s xs -> zlength xs + Z.of_nat k = m -> (k < fuel)%nat ->
  exists v' s', while_ fuel v (fun count =>
      f <- on_stack Full ;;
      if f : bool then ret (count, false)
      else count <- push_turn count ;; ret (count, true)) (s, out) =
    Ok (Some v', (s', out ++ concat (pushing <$> counted v k))) /\ rep s' (reverse (counted v k) ++ xs).
Proof.
  intros Hm. revert k v s xs out. induction fuel as [|fuel IH]; intros k v s xs out Hs Hk Hf; [lia|].
  destruct (on_Full s xs out Hs) as (s1 & E1 & Hs1). cbn [while_].
  rewrite <- !bind_assoc, (bind_Ok _ _ _ _ _ E1). rewrite Hm. cbn [full].
  destruct k as [|k].
  { rewrite (proj2 (Z.eqb_eq _ _)) by lia. exists v, s1. by rewrite app_nil_r. }
  rewrite (proj2 (Z.eqb_neq _ _)) by lia.
  destruct (push_turn_run s1 xs v out Hs1) as (s2 & E2 & Hs2).
  { rewrite Hm. apply Z.eqb_neq. lia. }
  rewrite <- !bind_assoc, (bind_Ok _ _ _ _ _ E2).
  destruct (IH k (succ v) s2 (v :: xs) (out ++ pushing v) Hs2) as (v' & s' & E & Hs').
  { unfold zlength in *. cbn [length]. lia. } { lia. }
  exists v', s'. rewrite (bind_Ok _ _ _ _ _ (eq_refl : ret (succ v, true) (s2, out ++ pushing v) = Ok _)).
  cbn [counted fmap list_fmap concat]. rewrite E, reverse_cons, <- !(assoc_L (++)). by split.
Qed.

Lemma SelfTest_full_run start (n : nat) fuel s out :
  rep s [] -> limit = Some (Z.of_nat n) -> (n < fuel)%nat ->
  exists s', SelfTest_full start fuel (s, out) = Ok (tt, (s', out ++ test_text start n)) /\ rep s' [].
Proof.
  intros Hs Hm Hf. destruct (fill_loop n fuel start s [] out _ Hm Hs) as (v' & s1 & E1 & Hs1); [done|done|].
  rewrite app_nil_r in Hs1. unfold SelfTest_full. rewrite (bind_Ok _ _ _ _ _ E1).
  destruct (pop_all_run fuel s1 _ (out ++ concat (pushing <$> counted start n)) Hs1) as (s' & E & Hs').
  { by rewrite length_reverse, length_counted. }
  exists s'. split; [|done]. rewrite (bind_Ok _ _ _ v' _ eq_refl), E. unfold test_text. by rewrite <- (assoc_L (++)).
Qed.
End Client.

Lemma on_object_run {S} (s : S) m out s' out' :
  m (s, out) = Ok (tt, (s', out')) -> on_object s m out = Ok (s', out').
Proof. unfold on_object. by intros ->. Qed.

Lemma on_object_zoom {S} (s : S) (m : M S unit) out s' :
  m s = Ok (tt, s') -> on_object s (zoom m) out = Ok (s', out).
Proof. unfold on_object, zoom. simpl. by intros ->. Qed.

(** Deleting a list deletes its cells. *)
Lemma IntList_delete_run fuel l xs : list_stack_rep l xs -> (length xs < fuel)%nat ->
  exists l', IntList_delete fuel l = Ok (tt, l') /\ list_stack_rep l' [].
Proof.
  unfold IntList_delete. revert l xs. induction fuel as [|fuel IH]; intros l xs Hl Hf; [lia|]. cbn [while_].
  rewrite <- !bind_assoc, (bind_Ok _ _ _ _ _ (List_Empty_run _ _ Hl)).
  destruct xs as [|v xs]; simpl; [by exists l|]. destruct (Remove_sim _ _ _ Hl) as (l1 & E1 & Hl1).
  rewrite <- !bind_assoc, (bind_Ok _ _ _ _ _ E1). destruct (IH l1 xs Hl1) as (l' & E & Hl'); [simpl in Hf; lia|].
  by exists l'.
Qed.

Lemma empty_cells l : list_stack_rep l [] -> cells l = empty.
Proof.
  intros (ls & [Hl _ Ho _ _ _]). destruct ls; [|done]. apply map_eq. intros a. rewrite lookup_empty.
  destruct (cells l !! a) eqn:E; [|done]. exfalso. apply (not_elem_of_nil a), Ho. by rewrite E.
Qed.

(** ** Properties *)

(** C39: the self test of the tutorial cannot tell the two stacks apart: on every
    stack that keeps the contract of the abstract class, as the array and the
    list do, the test terminates, writes the values it pushes, counted up from
    the first, and then the same values in reverse order, and leaves the stack
    empty; if the stack has no room for as many, its ASSERT fails. The array has
    room for the size given to its constructor, the list for any number, and a
    list that is empty has no cell left in the heap. *)
Theorem SelfTest_any_stack {T S : Type} `{!Element T} (St : Stack T S) (limit : option Z)
    (rep : S -> list T -> Prop) `{!StackSpec St limit rep} (start : T) (n fuel : nat) (s : S) (out : list Z) :
  rep s [] -> (n < fuel)%nat ->
  (match limit with Some m => 0 <= m < Z.of_nat n | None => False end ->
     SelfTest start (Z.of_nat n) fuel (s, out) = Aborted) /\
  (match limit with Some m => Z.of_nat n <= m | None => True end ->
     exists s', SelfTest start (Z.of_nat n) fuel (s, out) = Ok (tt, (s', out ++ test_text start n)) /\ rep s' []) /\
  (limit = Some (Z.of_nat n) ->
     exists s', SelfTest_full start fuel (s, out) = Ok (tt, (s', out ++ test_text start n)) /\ rep s' []) /\
  (forall sz, StackSpec (T := T) array_stack (Some sz) (array_rep sz)) /\
  StackSpec list_stack None list_stack_rep /\
  (forall l, list_stack_rep l [] -> cells l = empty).
Proof.
  intros Hs Hf. split_and!.
  - intros Hm. destruct limit as [m|] eqn:El; [|done]. unfold SelfTest. rewrite Nat2Z.id. unfold bind at 1.
    by rewrite (push_loop_full St (Some m) rep n 0 start s [] out m) by (done || unfold zlength; simpl; lia).
  - intros Hr. apply (SelfTest_run St limit rep); [done| |done]. unfold room, zlength. simpl. by destruct limit.
  - intros Hm. by apply (SelfTest_full_run St limit rep).
  - intros sz. apply array_spec.
  - apply list_spec.
  - apply empty_cells.
Qed.

(** The two stacks of inheritstack.cc, and one too small. *)
Lemma SelfTest_any_stack_witness :
  (exists s', SelfTest 17 10 11 (mkArrayStack 10 0 (replicate 10 7), []) = Ok (tt, (s', test_text 17 10)) /\
     array_rep 10 s' []) /\
  (exists l', SelfTest 17 10 11 (IntList_new, []) = Ok (tt, (l', test_text 17 10)) /\ list_stack_rep l' []) /\
  SelfTest 17 10 11 (mkArrayStack 9 0 (replicate 9 7), []) = Aborted.
Proof.
  assert (forall sz, 1 <= sz < 10 + 1 -> array_rep sz (mkArrayStack sz 0 (replicate (Z.to_nat sz) 7)) []) as Hrep.
  { intros sz Hsz. unfold array_rep, zlength. simpl. rewrite length_replicate. split_and!; lia || done. }
  split_and!.
  - destruct (SelfTest_any_stack array_stack (Some 10) (array_rep 10) 17 10 11
      (mkArrayStack 10 0 (replicate 10 7)) []) as (_ & H & _); [by apply (Hrep 10)|lia|by apply H].
  - destruct (SelfTest_any_stack list_stack None list_stack_rep 17 10 11 IntList_new [])
      as (_ & H & _); [apply list_new_rep|lia|by apply H].
  - destruct (SelfTest_any_stack array_stack (Some 9) (array_rep 9) 17 10 11
      (mkArrayStack 9 0 (replicate 9 7)) []) as (H & _); [by apply (Hrep 9)|lia|]. apply H. lia.
Defined.

(** The three programs run to their ends, whatever the memory they get from
    [new] holds; the second one gives all cells of its list back. *)
Theorem stack_programs_run ints chars out :
  zlength (ints 10) = 10 -> zlength (chars 10) = 10 ->
  stack_main ints out = Ok (tt, out ++ test_text 17 10) /\
  (exists l, inheritstack_main ints out =
     Ok (l, out ++ text "Testing ArrayStack" ++ [10] ++ test_text 17 10 ++
            text "Testing ListStack" ++ [10] ++ test_text 17 10) /\ cells l = empty) /\
  templatestack_main ints chars out =
    Ok (tt, out ++ text "Testing Stack<int>" ++ [10] ++ test_text 17 10 ++
            text "Testing Stack<char>" ++ [10] ++ test_text (Char 97) 10).
Proof.
  intros Hi Hc.
  assert (forall T (fresh : Z -> list T) (o : list Z), zlength (fresh 10) = 10 ->
    ArrayStack_new fresh 10 o = Ok (mkArrayStack 10 0 (fresh 10), o) /\
    array_rep 10 (mkArrayStack 10 0 (fresh 10)) []) as Hnew.
  { intros T fresh o Hl. destruct (array_new_run 10 fresh o) as (a & E & Ha); [lia|done|].
    unfold ArrayStack_new in *. munfold. by simplify_eq. }
  assert (forall T (E : Element T) (a : ArrayStack T) start o, array_rep 10 a [] ->
    exists a', on_object a (SelfTest_full start 11) o = Ok (a', o ++ test_text start 10)) as Hfull.
  { intros T E a start o Ha. destruct (SelfTest_full_run array_stack (Some 10) (array_rep 10) start 10 11 a o)
      as (a' & Ea & _); [done|done|lia|]. exists a'. by apply on_object_run. }
  destruct (Hnew _ _ out Hi) as [E1 H1]. unfold stack_main, inheritstack_main, templatestack_main.
  split_and!.
  - rewrite (bind_Ok _ _ _ _ _ E1). destruct (Hfull _ _ _ 17 out H1) as (a' & E). unfold int_stack_SelfTest. by rewrite (bind_Ok _ _ _ _ _ E).
  - rewrite (bind_Ok _ _ _ _ _ E1). cbv zeta. rewrite (bind_Ok (say _) _ _ _ _ eq_refl).
    edestruct (SelfTest_run array_stack (Some 10) (array_rep 10) 17 10 11) as (a' & Ea & _); [done|done|lia|].
    rewrite (bind_Ok _ _ _ _ _ (on_object_run _ _ _ _ _ Ea)), (bind_Ok (say _) _ _ _ _ eq_refl).
    edestruct (SelfTest_run list_stack None list_stack_rep 17 10 11) as (l & El & Hl); [apply list_new_rep|done|lia|].
    rewrite (bind_Ok _ _ _ _ _ (on_object_run _ _ _ _ _ El)).
    destruct (IntList_delete_run 11 l [] Hl) as (l' & El' & Hl'); [simpl; lia|]. exists l'.
    rewrite (on_object_zoom _ _ _ _ El'). split; [|by apply empty_cells].
    by rewrite !(assoc_L (++)).
  - rewrite (bind_Ok _ _ _ _ _ E1). destruct (Hnew _ _ out Hc) as [E2 H2]. rewrite (bind_Ok _ _ _ _ _ E2).
    rewrite (bind_Ok (say _) _ _ _ _ eq_refl).
    destruct (Hfull _ _ _ 17 (out ++ text "Testing Stack<int>" ++ [10]) H1) as (a' & E).
    rewrite (bind_Ok _ _ _ _ _ E), (bind_Ok (say _) _ _ _ _ eq_refl).
    destruct (Hfull _ _ _ (Char 97) (((out ++ text "Testing Stack<int>" ++ [10]) ++ test_text 17 10) ++
      text "Testing Stack<char>" ++ [10]) H2) as (a'' & E'). rewrite (bind_Ok _ _ _ _ _ E').
    unfold ret. by rewrite !(assoc_L (++)).
Qed.
