(* ===== verification/Interrupt.v ===== *)
(** * machine/interrupt.cc, machine/timer.cc, machine/stats.cc

    The simulation of hardware interrupts and of time: the list of pending
    interrupts sorted by the time they fire, the interrupt level, the machine
    status and the statistics. What an interrupt handler does is a parameter
    ([call]), because the handlers belong to the devices; the clock of the
    devices, Thread::Yield and Machine::DelayedLoad are parameters too, [rest]
    is the state they own. *)

From Stdlib Require Import Sorted Permutation.
From stdpp Require Import base tactics list.
From S2P Require Import Prelude Lists.

Local Open Scope Z_scope.

(** ** Statistics *)

Record Statistics := mkStats {
  totalTicks : Z;
  idleTicks : Z;
  systemTicks : Z;
  userTicks : Z;
  numDiskReads : Z;
  numDiskWrites : Z;
  numConsoleCharsRead : Z;
  numConsoleCharsWritten : Z;
  numPageFaults : Z;
  numPacketsSent : Z;
  numPacketsRecvd : Z
}.

Definition Statistics_new : Statistics := mkStats 0 0 0 0 0 0 0 0 0 0 0.

Definition UserTick : Z := 1.
Definition SystemTick : Z := 10.
Definition RotationTime : Z := 500.
Definition SeekTime : Z := 500.
Definition ConsoleTime : Z := 100.
Definition NetworkTime : Z := 100.
Definition TimerTicks : Z := 100.

Definition set_ticks (total idle system user : Z) (st : Statistics) : Statistics :=
  mkStats total idle system user (numDiskReads st) (numDiskWrites st)
    (numConsoleCharsRead st) (numConsoleCharsWritten st) (numPageFaults st)
    (numPacketsSent st) (numPacketsRecvd st).

(** ** Pending interrupts and the interrupt state *)

Inductive IntStatus := IntOff | IntOn.
Inductive MachineStatus := IdleMode | SystemMode | UserMode.
Inductive IntType :=
  TimerInt | DiskInt | ConsoleWriteInt | ConsoleReadInt | NetworkSendInt | NetworkRecvInt.

#[export] Instance IntStatus_eq_dec : EqDecision IntStatus.
Proof. solve_decision. Defined.
#[export] Instance MachineStatus_eq_dec : EqDecision MachineStatus.
Proof. solve_decision. Defined.
#[export] Instance IntType_eq_dec : EqDecision IntType.
Proof. solve_decision. Defined.

(** The functions the devices schedule: the C routines that call a member
    function of the device their argument points to. *)
Inductive VoidFunctionPtr :=
| TimerHandler
| DiskDone
| ConsoleReadPoll
| ConsoleWriteDone
| NetworkReadPoll
| NetworkSendDone.

Record PendingInterrupt := mkPending {
  handler : VoidFunctionPtr;
  arg : Z;
  when_ : Z;
  type : IntType
}.

(** [pending] is the sequence of a sorted list of Lists.v: items with keys. *)
Record Interrupt := mkInterrupt {
  level : IntStatus;
  pending : list (PendingInterrupt * Z);
  inHandler : bool;
  yieldOnReturn : bool;
  status : MachineStatus
}.

Definition Interrupt_new : Interrupt := mkInterrupt IntOff [] false false SystemMode.

Definition set_level v (i : Interrupt) :=
  mkInterrupt v (pending i) (inHandler i) (yieldOnReturn i) (status i).
Definition set_pending v (i : Interrupt) :=
  mkInterrupt (level i) v (inHandler i) (yieldOnReturn i) (status i).
Definition set_inHandler v (i : Interrupt) :=
  mkInterrupt (level i) (pending i) v (yieldOnReturn i) (status i).
Definition set_yieldOnReturn v (i : Interrupt) :=
  mkInterrupt (level i) (pending i) (inHandler i) v (status i).
Definition set_status v (i : Interrupt) :=
  mkInterrupt (level i) (pending i) (inHandler i) (yieldOnReturn i) v.

(** ** The simulation *)

Record Sim (X : Type) := mkSim {
  intr : Interrupt;
  stats : Statistics;
  rest : X
}.
Arguments mkSim {X} _ _ _.
Arguments intr {X} _.
Arguments stats {X} _.
Arguments rest {X} _.

Definition on_intr {X} (f : Interrupt -> Interrupt) (s : Sim X) : Sim X :=
  mkSim (f (intr s)) (stats s) (rest s).
Definition on_stats {X} (f : Statistics -> Statistics) (s : Sim X) : Sim X :=
  mkSim (intr s) (f (stats s)) (rest s).
Definition on_rest {X} (f : X -> X) (s : Sim X) : Sim X :=
  mkSim (intr s) (stats s) (f (rest s)).

Section Interrupts.
Context {X : Type}.
(** The device handlers, Machine::DelayedLoad(0, 0) when there is a machine,
    and currentThread->Yield(). *)
Context (call : VoidFunctionPtr -> Z -> M (Sim X) unit).
Context (DelayedLoad_0_0 : M (Sim X) unit).
Context (Thread_Yield : M (Sim X) unit).

Definition Interrupt_ChangeLevel (now : IntStatus) : M (Sim X) unit :=
  modify (on_intr (set_level now)).

Definition Interrupt_Schedule (h : VoidFunctionPtr) (a fromNow : Z) (ty : IntType) :
    M (Sim X) unit :=
  s <- get ;;
  let when := i32 (totalTicks (stats s) + fromNow) in
  ASSERT (fromNow >? 0) ;;;
  modify (on_intr (set_pending
    (sorted_insert (mkPending h a when ty) when (pending (intr s))))).

Definition Interrupt_YieldOnReturn : M (Sim X) unit :=
  s <- get ;;
  ASSERT (inHandler (intr s)) ;;;
  modify (on_intr (set_yieldOnReturn true)).

Definition Interrupt_Halt : M (Sim X) unit := halt.

(** Firing a handler, the last part of CheckIfDue. *)
Definition fire (toOccur : PendingInterrupt) (old : MachineStatus) : M (Sim X) bool :=
  DelayedLoad_0_0 ;;;
  modify (on_intr (set_inHandler true)) ;;;
  modify (on_intr (set_status SystemMode)) ;;;
  call (handler toOccur) (arg toOccur) ;;;
  modify (on_intr (set_status old)) ;;;
  modify (on_intr (set_inHandler false)) ;;;
  ret true.

Definition Interrupt_CheckIfDue (advanceClock : bool) : M (Sim X) bool :=
  s <- get ;;
  let old := status (intr s) in
  ASSERT (bool_decide (level (intr s) = IntOff)) ;;;
  match pending (intr s) with
  | [] => ret false
  | (toOccur, when) :: others =>
      modify (on_intr (set_pending others)) ;;;
      let st := stats s in
      let due := negb (when >? totalTicks st) in
      if negb advanceClock && negb due then
        modify (on_intr (set_pending (sorted_insert toOccur when others))) ;;; ret false
      else
        (if negb due then
           modify (on_stats (set_ticks when
             (i32 (idleTicks st + (when - totalTicks st))) (systemTicks st) (userTicks st)))
         else ret tt) ;;;
        if bool_decide (old = IdleMode) && bool_decide (type toOccur = TimerInt)
           && bool_decide (others = []) then
          modify (on_intr (set_pending (sorted_insert toOccur when others))) ;;; ret false
        else fire toOccur old
  end.

(** [while (CheckIfDue(FALSE)) ;] : one handler call per pending interrupt is
    enough, as [OneTick_returns] shows. *)
Definition fire_due : M (Sim X) unit :=
  s <- get ;;
  r <- while_ (S (length (pending (intr s)))) tt (fun _ =>
         b <- Interrupt_CheckIfDue false ;; ret (tt, b)) ;;
  must r.

Definition advance_time : M (Sim X) unit :=
  s <- get ;;
  let st := stats s in
  if decide (status (intr s) = SystemMode) then
    modify (on_stats (set_ticks (i32 (totalTicks st + SystemTick)) (idleTicks st)
                        (i32 (systemTicks st + SystemTick)) (userTicks st)))
  else
    modify (on_stats (set_ticks (i32 (totalTicks st + UserTick)) (idleTicks st)
                        (systemTicks st) (i32 (userTicks st + UserTick)))).

Definition Interrupt_OneTick : M (Sim X) unit :=
  old <- gets (fun s => status (intr s)) ;;
  advance_time ;;;
  Interrupt_ChangeLevel IntOff ;;;
  fire_due ;;;
  Interrupt_ChangeLevel IntOn ;;;
  y <- gets (fun s => yieldOnReturn (intr s)) ;;
  if y : bool then
    modify (on_intr (set_yieldOnReturn false)) ;;;
    modify (on_intr (set_status SystemMode)) ;;;
    Thread_Yield ;;;
    modify (on_intr (set_status old))
  else ret tt.

Definition Interrupt_SetLevel (now : IntStatus) : M (Sim X) IntStatus :=
  s <- get ;;
  let old := level (intr s) in
  ASSERT (bool_decide (now = IntOff) || negb (inHandler (intr s))) ;;;
  Interrupt_ChangeLevel now ;;;
  (if bool_decide (now = IntOn) && bool_decide (old = IntOff)
   then Interrupt_OneTick else ret tt) ;;;
  ret old.

Definition Interrupt_Enable : M (Sim X) unit :=
  _ <- Interrupt_SetLevel IntOn ;; ret tt.

Definition Interrupt_Idle : M (Sim X) unit :=
  modify (on_intr (set_status IdleMode)) ;;;
  b <- Interrupt_CheckIfDue true ;;
  if b : bool then
    fire_due ;;;
    modify (on_intr (set_yieldOnReturn false)) ;;;
    modify (on_intr (set_status SystemMode))
  else Interrupt_Halt.

(** ** The timer device *)

Record Timer := mkTimer { randomize : bool }.

(** [rand] is the value the C library's rand returns to this call. *)
Definition Timer_TimeOfNextInterrupt (t : Timer) (rand : Z) : Z :=
  if randomize t then 1 + Z.rem rand (TimerTicks * 2) else TimerTicks.

Definition Timer_new (t : Timer) (rand : Z) : M (Sim X) unit :=
  Interrupt_Schedule TimerHandler 0 (Timer_TimeOfNextInterrupt t rand) TimerInt.

(** TimerInterruptHandler of threads/system.cc, the handler of the timer. *)
Definition TimerInterruptHandler : M (Sim X) unit :=
  s <- get ;;
  if decide (status (intr s) <> IdleMode) then Interrupt_YieldOnReturn else ret tt.

Definition Timer_TimerExpired (t : Timer) (rand : Z) : M (Sim X) unit :=
  Interrupt_Schedule TimerHandler 0 (Timer_TimeOfNextInterrupt t rand) TimerInt ;;;
  TimerInterruptHandler.
End Interrupts.

(** * Correctness *)

Definition sim_inv {X} (s : Sim X) : Prop :=
  StronglySorted by_key (pending (intr s)) /\
  Forall (fun e => when_ e.1 = e.2) (pending (intr s)).

Definition now {X} (s : Sim X) : Z := totalTicks (stats s).

Definition same_ticks (st st' : Statistics) : Prop :=
  totalTicks st' = totalTicks st /\ idleTicks st' = idleTicks st /\
  systemTicks st' = systemTicks st /\ userTicks st' = userTicks st.

(** What a device handler may do to the simulation: it leaves the clock and
    the machine status alone and only schedules interrupts in the future. *)
Record device_frame {X} (s s' : Sim X) : Prop := {
  df_ticks : same_ticks (stats s) (stats s');
  df_level : level (intr s') = level (intr s);
  df_inHandler : inHandler (intr s') = inHandler (intr s);
  df_status : status (intr s') = status (intr s);
  df_inv : sim_inv s';
  df_pending : exists evs, pending (intr s') ≡ₚ evs ++ pending (intr s) /\
                           Forall (fun e => now s < e.2) evs
}.

(** The contract between the interrupt simulation and the devices; [horizon]
    bounds how far in the future they schedule, and [I] is an invariant of the
    rest of the machine that they rely on and keep. *)
Class Devices {X} (call : VoidFunctionPtr -> Z -> M (Sim X) unit)
    (DelayedLoad_0_0 : M (Sim X) unit) (horizon : Z) (I : X -> Prop) : Prop := {
  horizon_nonneg : 0 <= horizon;
  call_spec : forall f a s,
    sim_inv s -> level (intr s) = IntOff -> inHandler (intr s) = true ->
    0 <= now s -> now s + horizon < 2 ^ 31 -> I (rest s) ->
    exists s', call f a s = Ok (tt, s') /\ device_frame s s' /\ I (rest s');
  dl_spec : forall s, I (rest s) ->
    exists x, DelayedLoad_0_0 s = Ok (tt, on_rest (fun _ => x) s) /\ I x
}.

Definition due {X} (s : Sim X) : nat :=
  length (filter (fun e => e.2 <= now s) (pending (intr s))).

Lemma due_perm {X} (s s' : Sim X) evs (l : list (PendingInterrupt * Z)) :
  now s' = now s -> pending (intr s') ≡ₚ evs ++ l -> Forall (fun e => now s < e.2) evs ->
  due s' = length (filter (fun e => e.2 <= now s) l).
Proof.
  unfold due. intros -> Hp Hf. rewrite Hp, list.filter_app.
  replace (filter (fun e => e.2 <= now s) evs) with (@nil (PendingInterrupt * Z)); [done|].
  clear Hp. symmetry. induction Hf as [|e evs He _ IH]; [done|].
  rewrite filter_cons_False by lia. done.
Qed.

Lemma sorted_head_not_due {X} (s : Sim X) e (l : list (PendingInterrupt * Z)) :
  StronglySorted by_key (e :: l) -> now s < e.2 ->
  Forall (fun e => now s < e.2) (e :: l).
Proof.
  intros Hs He. inversion Hs as [|? ? _ Hf]; subst. constructor; [done|].
  eapply Forall_impl; [exact Hf|]. unfold by_key. intros; lia.
Qed.

(** The statistics account for all the time that has passed. *)
Definition balanced (st : Statistics) : Prop :=
  totalTicks st = i32 (idleTicks st + systemTicks st + userTicks st).

Lemma balanced_same st st' : same_ticks st st' -> balanced st -> balanced st'.
Proof. intros (E1 & E2 & E3 & E4) H. unfold balanced. congruence. Qed.

Definition tick_of (m : MachineStatus) : Z :=
  if decide (m = SystemMode) then SystemTick else UserTick.

Lemma advance_time_run {X} (s : Sim X) :
  0 <= now s -> now s + SystemTick < 2 ^ 31 ->
  exists s', advance_time s = Ok (tt, s') /\ intr s' = intr s /\ rest s' = rest s /\
    now s' = now s + tick_of (status (intr s)) /\
    (balanced (stats s) -> balanced (stats s')).
Proof.
  intros H0 Hh. unfold advance_time, tick_of. munfold. unfold now, SystemTick, UserTick in *.
  case_decide; eexists; (split; [done|]); (split; [done|]); (split; [done|]); simpl;
    (split; [apply i32_id; unfold is_i32; lia|]);
    unfold balanced; simpl; intros ->; unfold i32; dlia.
Qed.

Lemma filter_all {A} (P : A -> Prop) `{!forall x, Decision (P x)} l : Forall P l -> filter P l = l.
Proof. induction 1; [done|]. rewrite filter_cons_True by done. by f_equal. Qed.
Lemma filter_none {A} (P : A -> Prop) `{!forall x, Decision (P x)} l :
  Forall (fun x => ~ P x) l -> filter P l = [].
Proof. induction 1; [done|]. by rewrite filter_cons_False. Qed.

(** No interrupt is due, except that an idle machine leaves a lone timer be. *)
Definition settled {X} (s : Sim X) : Prop :=
  Forall (fun e => now s < e.2) (pending (intr s)) \/
  (status (intr s) = IdleMode /\
   exists e w, pending (intr s) = [(e, w)] /\ type e = TimerInt).

Section Correct.
Context {X : Type} (call : VoidFunctionPtr -> Z -> M (Sim X) unit)
  (DL : M (Sim X) unit) (horizon : Z) (I : X -> Prop) `{HD : !Devices call DL horizon I}.

Local Abbreviation CheckIfDue := (Interrupt_CheckIfDue call DL).

(** Running a handler: the fired interrupt is gone, future ones may be added. *)
Lemma fire_run e old (s : Sim X) :
  sim_inv s -> level (intr s) = IntOff -> 0 <= now s -> now s + horizon < 2 ^ 31 -> I (rest s) ->
  exists s', fire call DL e old s = Ok (true, s') /\ I (rest s') /\
    same_ticks (stats s) (stats s') /\ level (intr s') = IntOff /\
    inHandler (intr s') = false /\ status (intr s') = old /\ sim_inv s' /\
    exists evs, pending (intr s') ≡ₚ evs ++ pending (intr s) /\
                Forall (fun e => now s < e.2) evs.
Proof.
  intros Hi Hl H0 Hh HI. unfold fire. munfold.
  destruct (dl_spec (call := call) s HI) as (x & -> & HIx).
  destruct (call_spec (handler e) (arg e)
    (on_intr (set_status SystemMode) (on_intr (set_inHandler true) (on_rest (fun _ => x) s))))
    as (s' & -> & [Ht Hl' _ _ Hi' (evs & Hp & Hf)] & HI'); try done.
  eexists. split; [done|]. split; [done|]. simpl in *. repeat split; try apply Ht; try apply Hi'.
  - by rewrite Hl'.
  - by exists evs.
Qed.

Lemma CheckIfDue_false_run (s : Sim X) :
  sim_inv s -> level (intr s) = IntOff ->
  0 <= now s -> now s + horizon < 2 ^ 31 -> I (rest s) ->
  exists b s', CheckIfDue false s = Ok (b, s') /\ I (rest s') /\
    same_ticks (stats s) (stats s') /\ level (intr s') = IntOff /\
    status (intr s') = status (intr s) /\ sim_inv s' /\
    (inHandler (intr s) = false -> inHandler (intr s') = false) /\
    (if b : bool then (due s' < due s)%nat else settled s').
Proof.
  intros Hi Hl H0 Hh HI. unfold Interrupt_CheckIfDue. munfold.
  rewrite bool_decide_true by done.
  destruct (pending (intr s)) as [|[e w] l] eqn:Ep.
  { exists false, s. split_and!; try done. left. by rewrite Ep. }
  destruct Hi as [Hs Hw]. rewrite Ep in Hs, Hw. inversion Hs as [|? ? Hs' Hf]; subst.
  simpl. rewrite Z.gtb_ltb. fold (now s). destruct (Z.ltb_spec (now s) w); simpl.
  - eexists false, _. split; [done|]. split; [done|]. simpl. split_and!; try done.
    + split; simpl; [by apply sorted_insert_sorted|]. by rewrite sorted_insert_perm.
    + left. change (Forall (fun e => now s < e.2) (sorted_insert e w l)).
      rewrite sorted_insert_perm. by eapply sorted_head_not_due.
  - destruct (bool_decide (status (intr s) = IdleMode) && bool_decide (type e = TimerInt)
              && bool_decide (l = [])) eqn:Eb.
    { apply andb_true_iff in Eb as [[Hst%bool_decide_eq_true Hty%bool_decide_eq_true]%andb_true_iff
        Hl0%bool_decide_eq_true]. subst l.
      eexists false, _. split; [done|]. split; [done|]. split_and!; try done.
      right. split; [done|]. by exists e, w. }
    destruct (fire_run e (status (intr s)) (on_intr (set_pending l) s))
      as (s' & -> & HI' & Ht & Hl' & Hh' & Hst' & Hi' & evs & Hp & Hev); try done.
    { split; simpl; [done|]. by inversion Hw. }
    exists true, s'. split; [done|]. split; [done|]. split_and!; try done.
    rewrite (due_perm (on_intr (set_pending l) s) s' evs l); [|by apply Ht|done|done].
    unfold due. rewrite Ep, filter_cons_True by (simpl; lia). simpl. unfold now. simpl. lia.
Qed.

(** CheckIfDue when the machine idles: the clock jumps to the interrupt. *)
Lemma CheckIfDue_true_run (s : Sim X) e w l :
  sim_inv s -> level (intr s) = IntOff -> 0 <= now s -> now s + horizon < 2 ^ 31 ->
  w + horizon < 2 ^ 31 -> pending (intr s) = (e, w) :: l -> ~ (type e = TimerInt /\ l = []) ->
  I (rest s) ->
  exists s', CheckIfDue true s = Ok (true, s') /\ I (rest s') /\ now s' = Z.max (now s) w /\
    inHandler (intr s') = false /\
    level (intr s') = IntOff /\ sim_inv s' /\
    (balanced (stats s) -> balanced (stats s')).
Proof.
  intros [Hs Hw] Hl H0 Hh Hwh Ep Hd HI. rewrite Ep in Hs, Hw.
  inversion Hs; subst. inversion Hw; subst.
  unfold Interrupt_CheckIfDue. munfold. rewrite bool_decide_true by done. rewrite Ep. simpl.
  rewrite negb_involutive, Z.gtb_ltb. fold (now s).
  replace (bool_decide (status (intr s) = IdleMode) && bool_decide (type e = TimerInt)
           && bool_decide (l = [])) with false.
  2: { symmetry. apply andb_false_iff. destruct (decide (type e = TimerInt)) as [Ht|Ht].
       - right. apply bool_decide_eq_false. naive_solver.
       - left. apply andb_false_iff. right. by apply bool_decide_eq_false. }
  set (s1 := on_intr (set_pending l) s).
  set (s2 := if now s <? w then on_stats (set_ticks w
    (i32 (idleTicks (stats s) + (w - totalTicks (stats s)))) (systemTicks (stats s))
    (userTicks (stats s))) s1 else s1).
  assert (now s2 = Z.max (now s) w /\ sim_inv s2 /\ level (intr s2) = IntOff /\ I (rest s2) /\
          (balanced (stats s) -> balanced (stats s2))) as (Hn2 & Hi2 & Hl2 & HI2 & Hb2).
  { pose proof (horizon_nonneg (Devices := HD)). unfold s2, now, balanced in *.
    destruct (Z.ltb_spec (totalTicks (stats s)) w); simpl;
      (split; [lia|]); do 3 (split; [done|]); [|done].
    intros ->. unfold i32 in *. dlia. }
  destruct (fire_run e (status (intr s)) s2)
    as (s3 & E3 & HI3 & Ht3 & Hl3 & Hh3 & _ & Hi3 & _); try done; try lia.
  exists s3. split; [|split; [done|split_and!; try done]].
  - rewrite <- E3. unfold s2. by destruct (now s <? w).
  - rewrite <- Hn2. apply Ht3.
  - intros HB. eapply balanced_same; [exact Ht3|]. auto.
Qed.

Lemma fire_due_loop fuel (s : Sim X) :
  sim_inv s -> level (intr s) = IntOff ->
  0 <= now s -> now s + horizon < 2 ^ 31 -> I (rest s) -> (due s < fuel)%nat ->
  exists s', while_ fuel tt (fun _ => b <- CheckIfDue false ;; ret (tt, b)) s = Ok (Some tt, s') /\
    I (rest s') /\
    same_ticks (stats s) (stats s') /\ level (intr s') = IntOff /\
    status (intr s') = status (intr s) /\ sim_inv s' /\
    (inHandler (intr s) = false -> inHandler (intr s') = false) /\
    settled s'.
Proof.
  revert s. induction fuel as [|fuel IH]; intros s Hi Hl H0 Hh HI Hd; [lia|]. simpl.
  destruct (CheckIfDue_false_run s Hi Hl H0 Hh HI)
    as (b & s1 & E & HI1 & Ht & Hl1 & Hst1 & Hi1 & Hin & Hb).
  unfold bind at 1. rewrite (bind_Ok _ _ _ _ _ E). simpl. destruct b.
  - assert (now s1 = now s) as Hn by apply Ht.
    destruct (IH s1) as (s2 & E2 & HI2 & Ht2 & Hl2 & Hst2 & Hi2 & Hin2 & Hf);
      rewrite ?Hn; try done; [lia|].
    exists s2. split; [done|]. split; [done|]. split; [|split_and!; try done; [congruence|auto]].
    unfold same_ticks in *. intuition congruence.
  - exists s1. split_and!; try done.
Qed.

Lemma fire_due_run (s : Sim X) :
  sim_inv s -> level (intr s) = IntOff ->
  0 <= now s -> now s + horizon < 2 ^ 31 -> I (rest s) ->
  exists s', fire_due call DL s = Ok (tt, s') /\ I (rest s') /\
    same_ticks (stats s) (stats s') /\ level (intr s') = IntOff /\
    status (intr s') = status (intr s) /\ sim_inv s' /\
    (inHandler (intr s) = false -> inHandler (intr s') = false) /\
    settled s'.
Proof.
  intros Hi Hl H0 Hh HI. unfold fire_due.
  rewrite (bind_Ok get _ s s s) by done.
  destruct (fire_due_loop (S (length (pending (intr s)))) s Hi Hl H0 Hh HI) as (s' & E & HQ).
  { unfold due. pose proof (length_filter (fun e => e.2 <= now s) (pending (intr s))). lia. }
  exists s'. split; [|done]. by mrun E.
Qed.

(** ** The handlers that are called

    [fires l s s']: the interrupts [l], each in its turn at the head of the
    pending list, are taken off it and their handlers called, once each, in
    handler and in system mode; nothing else is done between [s] and [s']. *)
Inductive fires : list (PendingInterrupt * Z) -> Sim X -> Sim X -> Prop :=
| fires_none s : fires [] s s
| fires_next e w l others s x s1 s2 :
    pending (intr s) = (e, w) :: others ->
    DL (on_intr (set_pending others) s) = Ok (tt, x) ->
    call (handler e) (arg e) (on_intr (set_status SystemMode) (on_intr (set_inHandler true) x)) =
      Ok (tt, s1) ->
    fires l (on_intr (set_inHandler false) (on_intr (set_status (status (intr s))) s1)) s2 ->
    fires ((e, w) :: l) s s2.

Lemma fires_one (s : Sim X) e w others s' :
  pending (intr s) = (e, w) :: others ->
  fire call DL e (status (intr s)) (on_intr (set_pending others) s) = Ok (true, s') ->
  fires [(e, w)] s s'.
Proof.
  intros Hp. unfold fire. munfold.
  destruct (DL _) as [[[] x]| | |] eqn:Ed; try done. cbn.
  destruct (call _ _ _) as [[[] s1]| | |] eqn:Ec; try done. cbn. intros [= <-].
  eapply fires_next; [done|exact Ed|exact Ec|constructor].
Qed.

Lemma fires_app l1 l2 (s s1 s2 : Sim X) : fires l1 s s1 -> fires l2 s1 s2 -> fires (l1 ++ l2) s s2.
Proof. induction 1 as [s|? ? ? ? ? ? ? ? Hp Hd Hc _ IH]; intros H2; [done|]. eapply fires_next; eauto. Qed.

(** One turn of the loop: the first interrupt fires when it is due, and is put
    back, with the others, when it is not. *)
Lemma CheckIfDue_false_trace (s : Sim X) :
  sim_inv s -> level (intr s) = IntOff -> status (intr s) <> IdleMode ->
  0 <= now s -> now s + horizon < 2 ^ 31 -> I (rest s) ->
  (exists q, CheckIfDue false s = Ok (false, on_intr (set_pending q) s) /\
     q ≡ₚ pending (intr s) /\ Forall (fun e => now s < e.2) (pending (intr s))) \/
  (exists e w others s' evs, CheckIfDue false s = Ok (true, s') /\ fires [(e, w)] s s' /\
     pending (intr s) = (e, w) :: others /\ w <= now s /\
     pending (intr s') ≡ₚ evs ++ others /\ Forall (fun e => now s < e.2) evs).
Proof.
  intros [Hs Hw] Hl Hst H0 Hh HI. unfold Interrupt_CheckIfDue. munfold. rewrite bool_decide_true by done.
  destruct (pending (intr s)) as [|[e w] others] eqn:Ep.
  { left. exists []. split; [|done]. destruct s as [[]]. cbn in *. by subst. }
  inversion Hw; subst. simpl. rewrite Z.gtb_ltb. fold (now s).
  destruct (Z.ltb_spec (now s) w); simpl.
  - left. exists (sorted_insert e w others). split; [done|]. split; [apply sorted_insert_perm|].
    by eapply sorted_head_not_due.
  - right. rewrite (bool_decide_false (status (intr s) = IdleMode)) by done. simpl.
    destruct (fire_run e (status (intr s)) (on_intr (set_pending others) s))
      as (s' & E & _ & _ & _ & _ & _ & _ & evs & Hp & Hev); try done.
    { split; simpl; [by inversion Hs|done]. }
    exists e, w, others, s', evs. split; [exact E|]. split_and!; try done. by apply (fires_one s e w others).
Qed.

Lemma fire_due_trace_loop fuel (s : Sim X) :
  sim_inv s -> level (intr s) = IntOff -> status (intr s) <> IdleMode ->
  0 <= now s -> now s + horizon < 2 ^ 31 -> I (rest s) -> (due s < fuel)%nat ->
  exists l s' q evs, while_ fuel tt (fun _ => b <- CheckIfDue false ;; ret (tt, b)) s =
      Ok (Some tt, on_intr (set_pending q) s') /\ fires l s s' /\ q ≡ₚ pending (intr s') /\
    l ≡ₚ filter (fun e => e.2 <= now s) (pending (intr s)) /\ StronglySorted by_key l /\
    pending (intr s') ≡ₚ evs ++ filter (fun e => now s < e.2) (pending (intr s)) /\
    Forall (fun e => now s < e.2) evs.
Proof.
  revert s. induction fuel as [|fuel IH]; intros s Hi Hl Hst H0 Hh HI Hd; [lia|]. cbn [while_].
  destruct (CheckIfDue_false_trace s Hi Hl Hst H0 Hh HI)
    as [(q & E & Hq & Hf)|(e & w & others & s1 & evs & E & Hfs & Ep & Hw & Hp & Hev)];
    unfold bind at 1; rewrite (bind_Ok _ _ _ _ _ E); cbn.
  - exists [], s, q, []. split; [done|]. split; [constructor|]. split; [done|]. split_and!.
    + rewrite filter_none; [done|]. eapply Forall_impl; [exact Hf|]. cbn. intros; lia.
    + constructor.
    + by rewrite filter_all.
    + constructor.
  - destruct (CheckIfDue_false_run s Hi Hl H0 Hh HI) as (b & s1' & E' & HI1 & Ht & Hl1 & Hst1 & Hi1 & _ & Hb).
    rewrite E in E'. injection E' as <- <-. assert (now s1 = now s) as Hn by apply Ht.
    destruct (IH s1) as (l & s2 & q & evs2 & E2 & Hf2 & Hq & Hl2 & Hs2 & Hp2 & Hev2);
      rewrite ?Hn in *; try done; [congruence|lia|].
    assert (filter (fun e => e.2 <= now s) (pending (intr s1)) ≡ₚ filter (fun e => e.2 <= now s) others) as Hdue.
    { rewrite Hp, list.filter_app, (filter_none _ evs); [done|].
      eapply Forall_impl; [exact Hev|]. cbn. intros; lia. }
    exists ((e, w) :: l), s2, q, (evs2 ++ evs). split; [done|]. split; [by apply (fires_app [(e, w)] l s s1)|].
    split; [done|]. rewrite Ep, filter_cons_True by done. rewrite filter_cons_False by (cbn; lia). split_and!.
    + by rewrite Hl2, Hdue.
    + constructor; [done|]. rewrite Hl2, Hdue. destruct Hi as [Hso _]. rewrite Ep in Hso.
      inversion Hso as [|? ? _ Hall]. apply Forall_forall. intros x Hx.
      apply list_elem_of_filter in Hx as [_ Hx]. by rewrite Forall_forall in Hall; apply Hall.
    + rewrite Hp2, Hp, list.filter_app, (filter_all _ evs) by done. by rewrite app_assoc.
    + by apply Forall_app.
Qed.

(** OneTick up to the point where the thread may yield. *)
Lemma tick_run (s : Sim X) :
  sim_inv s -> status (intr s) <> IdleMode -> inHandler (intr s) = false ->
  0 <= now s -> now s + SystemTick + horizon < 2 ^ 31 -> I (rest s) ->
  exists s1, (advance_time ;;; Interrupt_ChangeLevel IntOff ;;; fire_due call DL ;;;
      Interrupt_ChangeLevel IntOn) s = Ok (tt, s1) /\
    I (rest s1) /\ now s1 = now s + tick_of (status (intr s)) /\
    Forall (fun e => now s1 < e.2) (pending (intr s1)) /\ sim_inv s1 /\
    level (intr s1) = IntOn /\ status (intr s1) = status (intr s) /\
    inHandler (intr s1) = false /\ (balanced (stats s) -> balanced (stats s1)).
Proof.
  intros Hi Hst Hin H0 Hh HI. pose proof (horizon_nonneg (Devices := HD)) as Hh0.
  destruct (advance_time_run s H0) as (s0 & E0 & Ei & Er & En & Hb); [lia|].
  assert (0 <= tick_of (status (intr s)) <= SystemTick) as Hle.
  { unfold tick_of. case_decide; done. }
  destruct (fire_due_run (on_intr (set_level IntOff) s0))
    as (s1 & E1 & HI1 & Ht & Hl & Hs1 & Hi1 & Hin1 & Hset); simpl; rewrite ?Ei, ?Er; try done.
  { unfold sim_inv. simpl. by rewrite Ei. }
  1,2: change (now (on_intr (set_level IntOff) s0)) with (now s0); lia.
  exists (on_intr (set_level IntOn) s1). simpl in *. rewrite Ei in *.
  assert (now s1 = now s0) as Hns by apply Ht.
  mrun E0. unfold Interrupt_ChangeLevel. munfold. rewrite E1. simpl.
  split; [done|]. split; [done|].
  split; [change (now s1 = now s + tick_of (status (intr s))); lia|]. split.
  { destruct Hset as [Hf|[Hidle _]]; [done|]. congruence. }
  do 3 (split; [done|]). split; [by apply Hin1|].
  intros HB. eapply balanced_same; [exact Ht|]. auto.
Qed.

(** The interrupts that fire in a tick. *)
Lemma tick_trace (s s1 : Sim X) :
  sim_inv s -> status (intr s) <> IdleMode -> inHandler (intr s) = false ->
  0 <= now s -> now s + SystemTick + horizon < 2 ^ 31 -> I (rest s) ->
  (advance_time ;;; Interrupt_ChangeLevel IntOff ;;; fire_due call DL ;;;
      Interrupt_ChangeLevel IntOn) s = Ok (tt, s1) ->
  now s1 = now s + tick_of (status (intr s)) ->
  exists s0 fired s' scheduled, advance_time s = Ok (tt, s0) /\
    fires fired (on_intr (set_level IntOff) s0) s' /\
    s1 = on_intr (fun i => set_level IntOn (set_pending (pending (intr s1)) i)) s' /\
    fired ≡ₚ filter (fun e => e.2 <= now s1) (pending (intr s)) /\ StronglySorted by_key fired /\
    pending (intr s1) ≡ₚ scheduled ++ filter (fun e => now s1 < e.2) (pending (intr s)) /\
    pending (intr s') ≡ₚ pending (intr s1).
Proof.
  intros Hi Hst Hin H0 Hh HI E Hn. pose proof (horizon_nonneg (Devices := HD)) as Hh0.
  destruct (advance_time_run s H0) as (s0 & E0 & Ei & Er & En & _); [lia|].
  assert (0 <= tick_of (status (intr s)) <= SystemTick) as Hle by (unfold tick_of; case_decide; done).
  set (s0' := on_intr (set_level IntOff) s0). change (now s0) with (now s0') in En.
  assert (pending (intr s0') = pending (intr s)) as Ep by (cbn; by rewrite Ei).
  destruct (fire_due_trace_loop (S (length (pending (intr s0')))) s0')
    as (l & s' & q & evs & Ew & Hf & Hq & Hl & Hso & Hp & Hev); try done; try lia.
  { unfold sim_inv. by rewrite Ep. }
  { cbn. by rewrite Ei. }
  { cbn. by rewrite Er. }
  { unfold due. pose proof (length_filter (fun e => e.2 <= now s0') (pending (intr s0'))). lia. }
  assert (s1 = on_intr (set_level IntOn) (on_intr (set_pending q) s')) as ->.
  { revert E. mrun E0. unfold Interrupt_ChangeLevel.
    rewrite (bind_Ok (modify _) _ s0 tt s0') by done. unfold fire_due at 1.
    rewrite <- bind_assoc. rewrite (bind_Ok get _ s0' s0' s0') by done. rewrite <- bind_assoc. mrun Ew. cbn. by intros [= <-]. }
  rewrite Hn, <- En, <- Ep. exists s0, l, s', evs. split; [done|]. split; [done|]. split; [done|].
  split; [done|]. split; [done|]. split; [|symmetry; exact Hq]. cbn. by rewrite Hq, Hp.
Qed.

(** Idle halts, or fires the next interrupt. *)
Lemma idle_run (s : Sim X) :
  sim_inv s -> level (intr s) = IntOff -> 0 <= now s -> now s + horizon < 2 ^ 31 ->
  Forall (fun e => e.2 + horizon < 2 ^ 31) (pending (intr s)) -> I (rest s) ->
  match pending (intr s) with
  | [] => Interrupt_Idle call DL s = Halted
  | (e, w) :: others =>
      if decide (type e = TimerInt /\ others = []) then Interrupt_Idle call DL s = Halted
      else exists s', Interrupt_Idle call DL s = Ok (tt, s') /\ I (rest s') /\
             now s' = Z.max (now s) w /\ status (intr s') = SystemMode /\
             level (intr s') = IntOff /\ inHandler (intr s') = false /\
             yieldOnReturn (intr s') = false /\ sim_inv s' /\
             (balanced (stats s) -> balanced (stats s'))
  end.
Proof.
  intros Hi Hl H0 Hh Hw HI. unfold Interrupt_Idle.
  set (s1 := on_intr (set_status IdleMode) s).
  rewrite !(bind_Ok (modify _) _ s tt s1) by done.
  destruct (pending (intr s)) as [|[e w] l] eqn:Ep.
  { unfold Interrupt_CheckIfDue. munfold. simpl. by rewrite Hl, Ep. }
  inversion Hw; subst. case_decide as Hd.
  - destruct Hd as [Hty ->]. unfold Interrupt_CheckIfDue. munfold. simpl.
    rewrite Hl, Ep. simpl. rewrite negb_involutive, (bool_decide_true (type e = TimerInt)) by done.
    by destruct (w >? _).
  - destruct (CheckIfDue_true_run s1 e w l)
      as (s2 & E2 & HI2 & Hn2 & Hh2 & Hl2 & Hi2 & Hb2); try done.
    change (now s1) with (now s) in Hn2.
    destruct (fire_due_run s2)
      as (s3 & E3 & HI3 & Ht3 & Hl3 & _ & Hi3 & Hh3 & _); try done; [simpl in *; lia..|].
    rewrite (bind_Ok _ _ _ _ _ E2). cbn beta iota. mrun E3. munfold.
    eexists. split; [done|]. simpl. split; [done|]. split; [rewrite <- Hn2; apply Ht3|].
    do 2 (split; [done|]). split; [by apply Hh3|]. split; [done|]. split; [exact Hi3|].
    intros HB. eapply balanced_same; [exact Ht3|]. by apply Hb2.
Qed.
End Correct.

Section Properties.
Context {X : Type} (call : VoidFunctionPtr -> Z -> M (Sim X) unit)
  (DL Yield : M (Sim X) unit) (horizon : Z) (I : X -> Prop) `{HD : !Devices call DL horizon I}.

(** C26: one tick of the simulated clock: OneTick terminates and advances the
    time by the tick of the current mode. The handlers of exactly the interrupts
    that are then due are called, once each and in the order of their times;
    those that are not due stay pending, with what the handlers have scheduled,
    so that none that remains is due. The list stays sorted by time, the
    statistics balanced, and interrupts are enabled; if a handler asked for it
    the thread then yields in system mode. *)
Theorem OneTick_returns (s : Sim X) :
  sim_inv s -> status (intr s) <> IdleMode -> inHandler (intr s) = false ->
  0 <= now s -> now s + SystemTick + horizon < 2 ^ 31 -> I (rest s) ->
  exists s1, I (rest s1) /\ now s1 = now s + tick_of (status (intr s)) /\
    Forall (fun e => now s1 < e.2) (pending (intr s1)) /\ sim_inv s1 /\
    level (intr s1) = IntOn /\ status (intr s1) = status (intr s) /\
    inHandler (intr s1) = false /\ (balanced (stats s) -> balanced (stats s1)) /\
    (exists s0 fired s' scheduled, advance_time s = Ok (tt, s0) /\
      fires call DL fired (on_intr (set_level IntOff) s0) s' /\
      s1 = on_intr (fun i => set_level IntOn (set_pending (pending (intr s1)) i)) s' /\
      fired ≡ₚ filter (fun e => e.2 <= now s1) (pending (intr s)) /\ StronglySorted by_key fired /\
      pending (intr s1) ≡ₚ scheduled ++ filter (fun e => now s1 < e.2) (pending (intr s)) /\
      pending (intr s') ≡ₚ pending (intr s1)) /\
    Interrupt_OneTick call DL Yield s =
      (if yieldOnReturn (intr s1) then
         (Yield ;;; modify (on_intr (set_status (status (intr s)))))
           (on_intr (set_status SystemMode) (on_intr (set_yieldOnReturn false) s1))
       else Ok (tt, s1)).
Proof.
  intros Hi Hst Hin H0 Hh HI.
  destruct (tick_run call DL horizon I s Hi Hst Hin H0 Hh HI) as (s1 & E & HI1 & Hn & Hf & Hs & Hl & Ht & Hh1 & Hb).
  exists s1. do 8 (split; [done|]). split.
  - by apply (tick_trace call DL horizon I s s1).
  - unfold Interrupt_OneTick. rewrite (bind_Ok (gets _) _ s (status (intr s)) s) by done.
    unfold Interrupt_ChangeLevel in *. munfold.
    destruct (advance_time s) as [[[] s2]| | |]; try done.
    destruct (fire_due call DL _) as [[[] s3]| | |]; try done. injection E as <-.
    simpl. by destruct (yieldOnReturn (intr s3)).
Qed.

(** An idle machine: with nothing pending but possibly the time slice timer
    it halts; otherwise Idle advances the clock to the next interrupt (never
    back), fires it and every other one that is due, and returns in system
    mode without a pending yield, the skipped time charged to the idle ticks. *)
Theorem Idle_halts_or_advances (s : Sim X) :
  sim_inv s -> level (intr s) = IntOff -> 0 <= now s -> now s + horizon < 2 ^ 31 ->
  Forall (fun e => e.2 + horizon < 2 ^ 31) (pending (intr s)) -> I (rest s) ->
  match pending (intr s) with
  | [] => Interrupt_Idle call DL s = Halted
  | (e, w) :: others =>
      if decide (type e = TimerInt /\ others = []) then Interrupt_Idle call DL s = Halted
      else exists s', Interrupt_Idle call DL s = Ok (tt, s') /\ I (rest s') /\
             now s' = Z.max (now s) w /\ status (intr s') = SystemMode /\
             yieldOnReturn (intr s') = false /\ sim_inv s' /\
             (balanced (stats s) -> balanced (stats s'))
  end.
Proof.
  intros Hi Hl H0 Hh Hw HI. pose proof (idle_run call DL horizon I s Hi Hl H0 Hh Hw HI) as H.
  destruct (pending (intr s)) as [|[e w] l]; [done|]. case_decide; [done|].
  destruct H as (s' & E & HI' & Hn & Hs & _ & _ & Hy & Hi' & Hb). by exists s'.
Qed.
End Properties.

(** ** Timer *)

Lemma TimeOfNext_range t rand :
  0 <= rand -> 1 <= Timer_TimeOfNextInterrupt t rand <= 2 * TimerTicks.
Proof.
  intros Hr. unfold Timer_TimeOfNextInterrupt, TimerTicks. destruct (randomize t); [|done].
  rewrite Z.rem_mod_nonneg by lia. dlia.
Qed.

(** An expiration of the timer only touches the interrupts. *)
Lemma TimerExpired_run {X} (t : Timer) (rand : Z) (s : Sim X) :
  0 <= rand -> sim_inv s -> inHandler (intr s) = true -> 0 <= now s -> now s + 2 * TimerTicks < 2 ^ 31 ->
  exists g, Timer_TimerExpired t rand s = Ok (tt, on_intr g s) /\ device_frame s (on_intr g s).
Proof.
  intros Hr [Hs Hk] Hin H0 Hh. pose proof (TimeOfNext_range t rand Hr) as Hb.
  unfold Timer_TimerExpired, Interrupt_Schedule, TimerInterruptHandler, Interrupt_YieldOnReturn.
  set (d := Timer_TimeOfNextInterrupt t rand) in *. munfold.
  rewrite Z.gtb_ltb, (proj2 (Z.ltb_lt 0 d)) by lia. cbn beta iota.
  assert (i32 (totalTicks (stats s) + d) = now s + d) as Hw.
  { apply i32_id. unfold is_i32, now in *. lia. }
  rewrite Hw.
  assert (forall g, (g = (fun i => i) \/ g = set_yieldOnReturn true) ->
    device_frame s (on_intr (fun i => g (set_pending (sorted_insert
      (mkPending TimerHandler 0 (now s + d) TimerInt) (now s + d) (pending (intr s))) i)) s)) as Hd.
  { intros g Hg.
    constructor; try (by destruct Hg as [-> | ->]).
    - split; destruct Hg as [-> | ->]; simpl; try by apply sorted_insert_sorted.
      all: rewrite sorted_insert_perm; by constructor.
    - exists [(mkPending TimerHandler 0 (now s + d) TimerInt, now s + d)]. split.
      + destruct Hg as [-> | ->]; simpl; by rewrite sorted_insert_perm.
      + constructor; [|constructor]. simpl. lia. }
  case_decide; cbn; rewrite ?Hin.
  - eexists. split; [|by apply (Hd (set_yieldOnReturn true)); right]. reflexivity.
  - eexists. split; [|by apply (Hd (fun i => i)); left]. reflexivity.
Qed.

(** The timer fires between one tick and two time slices later (exactly one
    slice when it is not randomised), so Schedule's ASSERT holds; every
    expiration schedules the next one and asks for a context switch unless the
    machine is idle: the timer, with no other device, satisfies the contract
    [Devices]. *)
Theorem Timer_is_device (X : Type) (t : Timer) (rand : Z) :
  0 <= rand ->
  1 <= Timer_TimeOfNextInterrupt t rand <= 2 * TimerTicks /\
  Devices (X := X) (fun _ _ => Timer_TimerExpired t rand) (ret tt) (2 * TimerTicks) (fun _ => True).
Proof.
  intros Hr. split; [by apply TimeOfNext_range|]. constructor; [done| |].
  - intros f a s Hi Hl Hin H0 Hh _. destruct (TimerExpired_run t rand s Hr Hi Hin H0 Hh) as (g & E & Hd).
    by exists (on_intr g s).
  - intros s _. exists (rest s). by destruct s.
Qed.

Lemma Timer_is_device_witness :
  1 <= Timer_TimeOfNextInterrupt (mkTimer true) 777 <= 200.
Proof. apply (Timer_is_device unit (mkTimer true) 777). lia. Defined.

(** ** Witnesses: a machine whose only device is the timer *)

Definition timer_call (_ : VoidFunctionPtr) (_ : Z) : M (Sim unit) unit :=
  Interrupt_Schedule TimerHandler 0 (Timer_TimeOfNextInterrupt (mkTimer false) 0) TimerInt.

#[export] Instance timer_call_devices : Devices timer_call (ret tt) 100 (fun _ => True).
Proof.
  constructor; [done| |].
  2: { intros s _. exists (rest s). by destruct s. }
  intros f a s [Hs Hk] Hl Hin H0 Hh _. unfold timer_call, Interrupt_Schedule, now in *.
  munfold. simpl. eexists. split; [reflexivity|].
  replace (i32 (totalTicks (stats s) + 100)) with (totalTicks (stats s) + 100)
    by (symmetry; apply i32_id; unfold is_i32; lia).
  unfold Timer_TimeOfNextInterrupt. simpl. unfold TimerTicks.
  rewrite i32_id by (unfold is_i32; lia).
  split; [|done]. constructor; try done.
  - split; simpl; [by apply sorted_insert_sorted|]. rewrite sorted_insert_perm. by constructor.
  - eexists [_]. split; [cbn; by rewrite sorted_insert_perm|]. constructor; [|constructor].
    unfold now. simpl. lia.
Qed.

Definition timer_state (st : MachineStatus) (lv : IntStatus) : Sim unit :=
  mkSim (mkInterrupt lv
    [(mkPending TimerHandler 0 95 TimerInt, 95); (mkPending DiskDone 0 200 DiskInt, 200)]
    false false st) (mkStats 90 0 90 0 0 0 0 0 0 0 0) tt.

Lemma timer_state_inv st lv : sim_inv (timer_state st lv).
Proof. split; repeat constructor; simpl; unfold by_key; simpl; lia. Qed.

Lemma OneTick_returns_witness :
  exists s1 : Sim unit, now s1 = 100 /\ level (intr s1) = IntOn /\
    Forall (fun e : PendingInterrupt * Z => 100 < e.2) (pending (intr s1)).
Proof.
  destruct (OneTick_returns timer_call (ret tt) (ret tt) 100 (fun _ => True) (timer_state SystemMode IntOn))
    as (s1 & _ & Hn & Hf & _ & Hl & _); try done; try apply timer_state_inv.
  exists s1. split; [done|]. split; [done|]. by rewrite Hn in Hf.
Defined.

Lemma Idle_halts_or_advances_witness :
  exists s', Interrupt_Idle timer_call (ret tt) (timer_state IdleMode IntOff) = Ok (tt, s') /\
    now s' = 95.
Proof.
  destruct (Idle_halts_or_advances timer_call (ret tt) 100 (fun _ => True) (timer_state IdleMode IntOff))
    as (s' & E & _ & Hn & _); try done; try apply timer_state_inv.
  - by repeat constructor.
  - by exists s'.
Defined.
