(* ===== verification/Machine.v ===== *)
(** * machine/machine.cc, machine/translate.cc: memory, registers, translation

    The simulated MIPS machine: physical memory as an array of [char], the CPU
    registers, and the translation of virtual addresses through a TLB or a
    linear page table. Page tables belong to the address spaces and the machine
    points to one of them, so they live in a store of their own ([tables]).
    The exception handler is a parameter of RaiseException, hence of ReadMem
    and WriteMem. *)

From stdpp Require Import base tactics list gmap.
From S2P Require Import Prelude Lists Interrupt.

Local Open Scope Z_scope.

Definition SectorSize : Z := 128.
Definition PageSize : Z := SectorSize.
Definition NumPhysPages : Z := 320.
Definition MemorySize : Z := NumPhysPages * PageSize.
Definition TLBSize : Z := 4.

Inductive ExceptionType :=
| NoException
| SyscallException
| PageFaultException
| ReadOnlyException
| BusErrorException
| AddressErrorException
| OverflowException
| IllegalInstrException.

#[export] Instance ExceptionType_eq_dec : EqDecision ExceptionType.
Proof. solve_decision. Defined.

Definition StackReg : Z := 29.
Definition RetAddrReg : Z := 31.
Definition NumGPRegs : Z := 32.
Definition HiReg : Z := 32.
Definition LoReg : Z := 33.
Definition PCReg : Z := 34.
Definition NextPCReg : Z := 35.
Definition PrevPCReg : Z := 36.
Definition LoadReg : Z := 37.
Definition LoadValueReg : Z := 38.
Definition BadVAddrReg : Z := 39.
Definition NumTotalRegs : Z := 40.

Record TranslationEntry := mkEntry {
  virtualPage : Z;
  physicalPage : Z;
  valid : bool;
  readOnly : bool;
  use : bool;
  dirty : bool
}.

Record Machine := mkMachine {
  mainMemory : list Z;
  registers : list Z;
  tlb : option (list TranslationEntry);
  pageTable : option loc;
  pageTableSize : Z;
  tables : gmap loc (list TranslationEntry);
  singleStep : bool;
  runUntilTime : Z
}.

Definition set_mainMemory v (m : Machine) :=
  mkMachine v (registers m) (tlb m) (pageTable m) (pageTableSize m) (tables m)
    (singleStep m) (runUntilTime m).
Definition set_registers v (m : Machine) :=
  mkMachine (mainMemory m) v (tlb m) (pageTable m) (pageTableSize m) (tables m)
    (singleStep m) (runUntilTime m).
Definition set_tlb v (m : Machine) :=
  mkMachine (mainMemory m) (registers m) v (pageTable m) (pageTableSize m) (tables m)
    (singleStep m) (runUntilTime m).
Definition set_pageTable p size (m : Machine) :=
  mkMachine (mainMemory m) (registers m) (tlb m) p size (tables m)
    (singleStep m) (runUntilTime m).
Definition set_tables v (m : Machine) :=
  mkMachine (mainMemory m) (registers m) (tlb m) (pageTable m) (pageTableSize m) v
    (singleStep m) (runUntilTime m).

(** ** Bytes and words *)

(** The bytes of a [size]-byte integer, least significant first, as [char]. *)
Fixpoint le_encode (size : nat) (z : Z) : list Z :=
  match size with
  | O => []
  | S n => i8 z :: le_encode n (z / 256)
  end.

Fixpoint le_decode (bs : list Z) : Z :=
  match bs with
  | [] => 0
  | b :: bs' => u8 b + 256 * le_decode bs'
  end.

(** How the host machine reads and writes an integer through a pointer. *)
Definition host_load (HOST_IS_BIG_ENDIAN : bool) (bs : list Z) : Z :=
  le_decode (if HOST_IS_BIG_ENDIAN then rev bs else bs).
Definition host_store (HOST_IS_BIG_ENDIAN : bool) (size : nat) (z : Z) : list Z :=
  if HOST_IS_BIG_ENDIAN then rev (le_encode size z) else le_encode size z.

Definition WordToHost (HOST_IS_BIG_ENDIAN : bool) (word : Z) : Z :=
  if HOST_IS_BIG_ENDIAN then
    Z.lor (Z.lor (Z.lor
      (Z.land (Z.shiftr word 24) 0x000000ff)
      (Z.land (Z.shiftr word 8) 0x0000ff00))
      (Z.land (u32 (Z.shiftl word 8)) 0x00ff0000))
      (Z.land (u32 (Z.shiftl word 24)) 0xff000000)
  else word.

Definition ShortToHost (HOST_IS_BIG_ENDIAN : bool) (shortword : Z) : Z :=
  if HOST_IS_BIG_ENDIAN then
    Z.lor (Z.land (Z.shiftl shortword 8) 0xff00) (Z.land (Z.shiftr shortword 8) 0x00ff)
  else shortword.

Definition WordToMachine (be : bool) (word : Z) : Z := WordToHost be word.
Definition ShortToMachine (be : bool) (shortword : Z) : Z := ShortToHost be shortword.

(** CheckEndian: the host stores integers the way it was configured to. *)
Definition CheckEndian {S} (HOST_IS_BIG_ENDIAN really_big_endian : bool) : M S unit :=
  let intword := host_load really_big_endian [1; 2; 3; 4] in
  if HOST_IS_BIG_ENDIAN then ASSERT (intword =? 0x01020304)
  else ASSERT (intword =? 0x04030201).

(** ** Construction *)

Definition Machine_new (debug USE_TLB : bool) (garbage : TranslationEntry) : Machine :=
  {| mainMemory := replicate (Z.to_nat MemorySize) 0;
     registers := replicate (Z.to_nat NumTotalRegs) 0;
     tlb := if USE_TLB then
              Some (replicate (Z.to_nat TLBSize)
                (mkEntry (virtualPage garbage) (physicalPage garbage) false
                   (readOnly garbage) (use garbage) (dirty garbage)))
            else None;
     pageTable := None;
     pageTableSize := 0;
     tables := empty;
     singleStep := debug;
     runUntilTime := 0 |}.

(** ** Registers *)

(** [registers[i]] and [registers[i] = v] of the machine code itself. *)
Definition reg (i : Z) : M Machine Z :=
  m <- get ;; must (zlookup (registers m) i).
Definition set_reg (i v : Z) : M Machine unit :=
  m <- get ;;
  rs <- must (store i v (registers m)) ;;
  put (set_registers rs m).

Definition Machine_ReadRegister (num : Z) : M Machine Z :=
  ASSERT ((num >=? 0) && (num <? NumTotalRegs)) ;;; reg num.

Definition Machine_WriteRegister (num value : Z) : M Machine unit :=
  ASSERT ((num >=? 0) && (num <? NumTotalRegs)) ;;; set_reg num value.

(** Machine::DelayedLoad (mipssim.cc). *)
Definition Machine_DelayedLoad (nextReg nextValue : Z) : M Machine unit :=
  r <- reg LoadReg ;;
  v <- reg LoadValueReg ;;
  set_reg r v ;;;
  set_reg LoadReg nextReg ;;;
  set_reg LoadValueReg nextValue ;;;
  set_reg 0 0.

(** ** Address translation *)

(** The entry the address translates through: a pointer to an element of the
    TLB or of the current page table, or the exception when there is none. *)
Inductive EntryPtr := TlbEntry (i : Z) | TableEntry (i : Z).

Definition load_entry (p : EntryPtr) : M Machine TranslationEntry :=
  m <- get ;;
  match p with
  | TlbEntry i => t <- must (tlb m) ;; must (zlookup t i)
  | TableEntry i =>
      a <- must (pageTable m) ;; t <- must (tables m !! a) ;; must (zlookup t i)
  end.

Definition store_entry (p : EntryPtr) (e : TranslationEntry) : M Machine unit :=
  m <- get ;;
  match p with
  | TlbEntry i => t <- must (tlb m) ;; t' <- must (store i e t) ;; put (set_tlb (Some t') m)
  | TableEntry i =>
      a <- must (pageTable m) ;; t <- must (tables m !! a) ;; t' <- must (store i e t) ;;
      put (set_tables (<[a := t']> (tables m)) m)
  end.

Definition find_entry (vpn : Z) : M Machine (EntryPtr + ExceptionType) :=
  m <- get ;;
  match tlb m with
  | None =>
      if vpn >=? pageTableSize m then ret (inr AddressErrorException)
      else
        e <- load_entry (TableEntry vpn) ;;
        if negb (valid e) then ret (inr PageFaultException)
        else ret (inl (TableEntry vpn))
  | Some t =>
      r <- for_ret 0 (Z.to_nat TLBSize) (fun i =>
             e <- must (zlookup t i) ;;
             if valid e && (u32 (virtualPage e) =? vpn) then ret (Some (TlbEntry i))
             else ret None) ;;
      match r with
      | Some p => ret (inl p)
      | None => ret (inr PageFaultException)
      end
  end.

Definition set_use_dirty (writing : bool) (e : TranslationEntry) : TranslationEntry :=
  mkEntry (virtualPage e) (physicalPage e) (valid e) (readOnly e) true
    (if writing then true else dirty e).

(** The exception and what is stored in [*physAddr], if anything is. *)
Definition Machine_Translate (virtAddr size : Z) (writing : bool) :
    M Machine (ExceptionType * option Z) :=
  if ((size =? 4) && flag virtAddr 0x3) || ((size =? 2) && flag virtAddr 0x1) then
    ret (AddressErrorException, None)
  else
  m <- get ;;
  ASSERT (bool_decide (tlb m = None) || bool_decide (pageTable m = None)) ;;;
  ASSERT (negb (bool_decide (tlb m = None)) || negb (bool_decide (pageTable m = None))) ;;;
  let vpn := u32 virtAddr / PageSize in
  let offset := u32 virtAddr mod PageSize in
  r <- find_entry vpn ;;
  match r with
  | inr e => ret (e, None)
  | inl p =>
      entry <- load_entry p ;;
      if readOnly entry && writing then ret (ReadOnlyException, None)
      else
      let pageFrame := u32 (physicalPage entry) in
      if pageFrame >=? NumPhysPages then ret (BusErrorException, None)
      else
      store_entry p (set_use_dirty writing entry) ;;;
      let physAddr := i32 (pageFrame * PageSize + offset) in
      ASSERT ((physAddr >=? 0) && (physAddr + size <=? MemorySize)) ;;;
      ret (NoException, Some physAddr)
  end.

(** ** Memory *)

Section Memory.
Context (HOST_IS_BIG_ENDIAN : bool).
Context {K : Type} `{!Lens Machine K}.
(** interrupt->setStatus and ExceptionHandler, on the state of the kernel. *)
Context (setStatus : MachineStatus -> M K unit).
Context (ExceptionHandler : ExceptionType -> M K unit).

Definition Machine_RaiseException (which : ExceptionType) (badVAddr : Z) : M K unit :=
  zoom (set_reg BadVAddrReg badVAddr) ;;;
  zoom (Machine_DelayedLoad 0 0) ;;;
  setStatus SystemMode ;;;
  ExceptionHandler which ;;;
  setStatus UserMode.

(** The bytes an access of [size] bytes touches. *)
Definition load_bytes (physicalAddress size : Z) : M Machine (list Z) :=
  m <- get ;;
  if (0 <=? physicalAddress) && (physicalAddress + size <=? zlength (mainMemory m))
  then ret (slice physicalAddress size (mainMemory m)) else undef.
Definition store_bytes (physicalAddress : Z) (bs : list Z) : M Machine unit :=
  m <- get ;;
  if (0 <=? physicalAddress) && (physicalAddress + zlength bs <=? zlength (mainMemory m))
  then put (set_mainMemory (splice physicalAddress bs (mainMemory m)) m) else undef.

(** The [switch (size)] of ReadMem and of WriteMem. *)
Definition read_physical (physicalAddress size : Z) : M Machine Z :=
  if size =? 1 then
    bs <- load_bytes physicalAddress 1 ;;
    ret (match bs with b :: _ => b | [] => 0 end)
  else if size =? 2 then
    bs <- load_bytes physicalAddress 2 ;;
    ret (ShortToHost HOST_IS_BIG_ENDIAN (host_load HOST_IS_BIG_ENDIAN bs))
  else if size =? 4 then
    bs <- load_bytes physicalAddress 4 ;;
    ret (i32 (WordToHost HOST_IS_BIG_ENDIAN (host_load HOST_IS_BIG_ENDIAN bs)))
  else abort.

Definition write_physical (physicalAddress size value : Z) : M Machine unit :=
  if size =? 1 then
    store_bytes physicalAddress [i8 (Z.land value 0xff)]
  else if size =? 2 then
    store_bytes physicalAddress (host_store HOST_IS_BIG_ENDIAN 2
      (ShortToMachine HOST_IS_BIG_ENDIAN (Z.land value 0xffff)))
  else if size =? 4 then
    store_bytes physicalAddress (host_store HOST_IS_BIG_ENDIAN 4
      (WordToMachine HOST_IS_BIG_ENDIAN (u32 value)))
  else abort.

(** [None] is the result FALSE: the exception has been raised. *)
Definition Machine_ReadMem (addr size : Z) : M K (option Z) :=
  '(exc, phys) <- zoom (Machine_Translate addr size false) ;;
  if decide (exc <> NoException) then
    Machine_RaiseException exc addr ;;; ret None
  else
    physicalAddress <- must phys ;;
    value <- zoom (read_physical physicalAddress size) ;;
    ret (Some value).

Definition Machine_WriteMem (addr size value : Z) : M K bool :=
  '(exc, phys) <- zoom (Machine_Translate addr size true) ;;
  if decide (exc <> NoException) then
    Machine_RaiseException exc addr ;;; ret false
  else
    physicalAddress <- must phys ;;
    zoom (write_physical physicalAddress size value) ;;;
    ret true.
End Memory.

(** * Correctness *)

(** ** Bytes *)

Lemma le_decode_range bs : 0 <= le_decode bs < 256 ^ zlength bs.
Proof.
  unfold zlength. induction bs as [|b bs IH]; [done|].
  cbn [le_decode length]. pose proof (u8_range b).
  rewrite Nat2Z.inj_succ, Z.pow_succ_r by lia. lia.
Qed.

Lemma length_le_encode n z : length (le_encode n z) = n.
Proof. revert z. induction n; intros; simpl; auto. Qed.

Lemma le_encode_char n z : Forall is_char (le_encode n z).
Proof. revert z. induction n; intros; simpl; auto using i8_range. Qed.

Lemma le_decode_encode n z : le_decode (le_encode n z) = z mod 256 ^ Z.of_nat n.
Proof.
  revert z. induction n as [|n IH]; intros z.
  { cbn. by rewrite Z.mod_1_r. }
  cbn [le_encode le_decode]. rewrite IH, u8_i8. unfold u8.
  rewrite Nat2Z.inj_succ, Z.pow_succ_r by lia.
  rewrite Z.rem_mul_r by lia. done.
Qed.

Lemma le_encode_decode bs : Forall is_char bs -> le_encode (length bs) (le_decode bs) = bs.
Proof.
  induction 1 as [|b bs Hb _ IH]; [done|]. cbn [le_decode length le_encode].
  pose proof (u8_range b). f_equal.
  - replace (i8 (u8 b + 256 * le_decode bs)) with (i8 (u8 b)).
    { by rewrite i8_u8, i8_id. }
    unfold i8. dlia.
  - replace ((u8 b + 256 * le_decode bs) / 256) with (le_decode bs) by dlia. done.
Qed.

Lemma land_shiftl_255 x k : 0 <= k -> Z.land x (Z.shiftl 255 k) = Z.shiftl (Z.shiftr x k mod 256) k.
Proof.
  intros. replace 255 with (Z.ones 8) by done. change 256 with (2 ^ 8).
  rewrite <- Z.land_ones by lia. rewrite Z.shiftl_land. apply Z.bits_inj. intros i.
  rewrite !Z.land_spec. destruct (decide (0 <= i)) as [Hi|].
  2: { rewrite !Z.testbit_neg_r by lia. done. }
  rewrite !Z.shiftl_spec by lia. destruct (decide (k <= i)).
  - rewrite Z.shiftr_spec by lia. by replace (i - k + k) with i by lia.
  - rewrite (Z.testbit_neg_r (Z.ones 8)) by lia. by rewrite !andb_false_r.
Qed.

Lemma lor_shiftl a b k : 0 <= k -> 0 <= a < 2 ^ k -> Z.lor a (Z.shiftl b k) = a + b * 2 ^ k.
Proof.
  intros Hk Ha. rewrite <- Z.shiftl_mul_pow2 by done. symmetry. apply Z.add_nocarry_lor.
  apply Z.bits_inj_0. intros i. rewrite Z.land_spec.
  destruct (decide (i < k)).
  - destruct (decide (0 <= i)); [|by rewrite Z.testbit_neg_r by lia].
    rewrite (Z.shiftl_spec_low b) by lia. apply andb_false_r.
  - destruct (decide (a = 0)) as [->|]; [by rewrite Z.bits_0|].
    rewrite (Z.bits_above_log2 a); [done|lia|].
    pose proof (proj1 (Z.log2_lt_pow2 a k ltac:(lia)) ltac:(lia)). lia.
Qed.

(** The byte swap of a big endian host reverses the bytes. *)
Lemma WordToHost_swaps w :
  is_u32 w -> WordToHost true w = le_decode (rev (le_encode 4 w)).
Proof.
  intros Hw. unfold WordToHost. cbn [le_encode rev app le_decode].
  rewrite !u8_i8.
  change 0x000000ff with (Z.shiftl 255 0). change 0x0000ff00 with (Z.shiftl 255 8).
  change 0x00ff0000 with (Z.shiftl 255 16). change 0xff000000 with (Z.shiftl 255 24).
  rewrite !land_shiftl_255 by lia. rewrite Z.shiftr_0_r, Z.shiftl_0_r.
  rewrite !Z.shiftr_shiftr by lia. rewrite !Z.shiftr_div_pow2, !Z.shiftl_mul_pow2 by lia.
  rewrite <- !Z.shiftl_mul_pow2 by lia.
  set (b3 := w / 2 ^ 24 mod 256). set (b2 := w / 2 ^ (8 + 8) mod 256).
  set (b1 := u32 (Z.shiftl w 8) / 2 ^ 16 mod 256). set (b0 := u32 (Z.shiftl w 24) / 2 ^ 24 mod 256).
  assert (0 <= b3 < 256 /\ 0 <= b2 < 256 /\ 0 <= b1 < 256 /\ 0 <= b0 < 256) as (?&?&?&?)
    by (unfold b0, b1, b2, b3; dlia).
  rewrite (lor_shiftl b3) by lia. rewrite (lor_shiftl _ b1) by lia.
  rewrite (lor_shiftl _ b0) by lia.
  unfold b0, b1, b2, b3, u32, u8, is_u32 in *. rewrite !Z.shiftl_mul_pow2 by lia. dlia.
Qed.

Lemma ShortToHost_swaps w :
  0 <= w < 65536 -> ShortToHost true w = le_decode (rev (le_encode 2 w)).
Proof.
  intros Hw. unfold ShortToHost. cbn [le_encode rev app le_decode]. rewrite !u8_i8.
  change 0x00ff with (Z.shiftl 255 0). change 0xff00 with (Z.shiftl 255 8).
  rewrite !land_shiftl_255 by lia. rewrite Z.shiftr_0_r, Z.shiftl_0_r, Z.lor_comm.
  set (b1 := Z.shiftr w 8 mod 256).
  assert (0 <= b1 < 256) by (unfold b1; dlia).
  rewrite lor_shiftl by lia. unfold b1, u8. rewrite Z.shiftr_shiftl_l by lia.
  rewrite !Z.shiftr_div_pow2 by lia. change (8 - 8) with 0. rewrite Z.shiftl_0_r. dlia.
Qed.

Lemma length_S {A} n (l : list A) : length l = S n -> exists x l', l = x :: l' /\ length l' = n.
Proof. destruct l as [|x l]; [done|]. intros [= H]. by exists x, l. Qed.

Lemma rev_chars bs : Forall is_char bs -> Forall is_char (rev bs).
Proof. rewrite !Forall_forall. intros H b Hb. apply H. by apply list_elem_of_In, in_rev, list_elem_of_In in Hb. Qed.

Lemma host_load_word be bs :
  length bs = 4%nat -> Forall is_char bs -> WordToHost be (host_load be bs) = le_decode bs.
Proof.
  intros Hl Hc. destruct be; [|done]. unfold host_load.
  assert (length (rev bs) = 4%nat) as Hr by by rewrite length_rev.
  rewrite WordToHost_swaps.
  - rewrite <- Hr, le_encode_decode by by apply rev_chars. by rewrite rev_involutive.
  - pose proof (le_decode_range (rev bs)) as H. unfold zlength in H. rewrite Hr in H. done.
Qed.

Lemma host_load_short be bs :
  length bs = 2%nat -> Forall is_char bs -> ShortToHost be (host_load be bs) = le_decode bs.
Proof.
  intros Hl Hc. destruct be; [|done]. unfold host_load.
  assert (length (rev bs) = 2%nat) as Hr by by rewrite length_rev.
  rewrite ShortToHost_swaps.
  - rewrite <- Hr, le_encode_decode by by apply rev_chars. by rewrite rev_involutive.
  - pose proof (le_decode_range (rev bs)) as H. unfold zlength in H. rewrite Hr in H. done.
Qed.

Lemma host_store_word be w :
  is_u32 w -> host_store be 4 (WordToMachine be w) = le_encode 4 w.
Proof.
  intros Hw. destruct be; [|done]. unfold host_store, WordToMachine.
  rewrite WordToHost_swaps by done.
  rewrite <- (length_le_encode 4 w) at 1. rewrite <- length_rev.
  rewrite le_encode_decode by (apply rev_chars, le_encode_char). apply rev_involutive.
Qed.

Lemma host_store_short be w :
  0 <= w < 65536 -> host_store be 2 (ShortToMachine be w) = le_encode 2 w.
Proof.
  intros Hw. destruct be; [|done]. unfold host_store, ShortToMachine.
  rewrite ShortToHost_swaps by done.
  rewrite <- (length_le_encode 2 w) at 1. rewrite <- length_rev.
  rewrite le_encode_decode by (apply rev_chars, le_encode_char). apply rev_involutive.
Qed.

Lemma le_encode_mod n z : le_encode n (z mod 256 ^ Z.of_nat n) = le_encode n z.
Proof.
  rewrite <- le_decode_encode. rewrite <- (length_le_encode n z) at 1.
  apply le_encode_decode, le_encode_char.
Qed.

(** ** Physical memory *)

(** A memory access is of 1, 2 or 4 bytes. *)
Definition access_size (size : Z) : Prop := size = 1 \/ size = 2 \/ size = 4.

(** The value of the bytes of an access: a byte is sign extended, a short is
    not, a word is a C [int]. *)
Definition value_of (size : Z) (bs : list Z) : Z :=
  if size =? 1 then i8 (le_decode bs)
  else if size =? 2 then le_decode bs
  else i32 (le_decode bs).

(** What remains of [value] when it is stored in [size] bytes. *)
Definition truncate (size value : Z) : Z :=
  if size =? 1 then i8 value else if size =? 2 then value mod 65536 else i32 value.

Record memory_wf (m : Machine) : Prop := {
  mem_length : zlength (mainMemory m) = MemorySize;
  mem_chars : Forall is_char (mainMemory m)
}.

Lemma slice_chars i n (l : list Z) : Forall is_char l -> Forall is_char (slice i n l).
Proof. intros. unfold slice. by apply Forall_take, Forall_drop. Qed.

Lemma splice_chars i src (l : list Z) :
  Forall is_char src -> Forall is_char l -> Forall is_char (splice i src l).
Proof.
  intros. unfold splice. apply Forall_app; split; [by apply Forall_take|].
  apply Forall_app; split; [done|by apply Forall_drop].
Qed.

Lemma read_physical_run be p size m :
  memory_wf m -> access_size size -> 0 <= p -> p + size <= MemorySize ->
  read_physical be p size m = Ok (value_of size (slice p size (mainMemory m)), m).
Proof.
  intros [Hl Hc] Hs H0 Hp.
  assert (0 <= size) as Hsz by (destruct Hs as [|[]]; lia).
  pose proof (zlength_slice (mainMemory m) p size H0 Hsz ltac:(lia)) as Hn.
  pose proof (slice_chars p size _ Hc) as Hch. unfold zlength in Hn.
  assert (load_bytes p size m = Ok (slice p size (mainMemory m), m)) as HL.
  { unfold load_bytes. munfold. rewrite Hl.
    by rewrite (proj2 (Z.leb_le 0 p)), (proj2 (Z.leb_le _ _)) by lia. }
  unfold read_physical, value_of. destruct Hs as [-> | [-> | ->]]; simpl; mrun HL.
  - destruct (slice p 1 (mainMemory m)) as [|b [|]]; simpl in *; try lia.
    inversion Hch; subst. munfold. do 2 f_equal. rewrite Z.mul_0_r, Z.add_0_r.
    by rewrite i8_u8, i8_id.
  - munfold. rewrite host_load_short; [done|lia|done].
  - munfold. rewrite host_load_word; [done|lia|done].
Qed.

Lemma write_physical_run be p size v m :
  memory_wf m -> access_size size -> 0 <= p -> p + size <= MemorySize ->
  write_physical be p size v m =
  Ok (tt, set_mainMemory (splice p (le_encode (Z.to_nat size) v) (mainMemory m)) m).
Proof.
  intros [Hl Hc] Hs H0 Hp.
  assert (forall bs, zlength bs = size ->
    store_bytes p bs m = Ok (tt, set_mainMemory (splice p bs (mainMemory m)) m)) as HS.
  { intros bs Hb. unfold store_bytes. munfold. rewrite Hl, Hb.
    by rewrite (proj2 (Z.leb_le 0 p)), (proj2 (Z.leb_le _ _)) by lia. }
  unfold write_physical. destruct Hs as [-> | [-> | ->]]; cbn [Z.eqb Pos.eqb].
  - change 0xff with (Z.ones 8). rewrite Z.land_ones by lia.
    change (v mod 2 ^ 8) with (u8 v). by rewrite i8_u8, HS.
  - change 0xffff with (Z.ones 16). rewrite Z.land_ones by lia. change (2 ^ 16) with 65536.
    rewrite host_store_short by dlia. rewrite HS by done.
    by rewrite <- (le_encode_mod (Z.to_nat 2) v).
  - rewrite host_store_word by apply u32_range. rewrite HS by done.
    by rewrite <- (le_encode_mod (Z.to_nat 4) v).
Qed.

Lemma value_of_encode size v :
  access_size size -> value_of size (le_encode (Z.to_nat size) v) = truncate size v.
Proof.
  intros Hs. unfold value_of, truncate. rewrite le_decode_encode.
  destruct Hs as [-> | [-> | ->]]; simpl; try done.
  - change (256 ^ Z.of_nat (Z.to_nat 1)) with (2 ^ 8). apply i8_u8.
  - change (256 ^ Z.of_nat (Z.to_nat 4)) with (2 ^ 32). apply i32_u32.
Qed.

Lemma slice_splice_same i src (l : list Z) :
  0 <= i -> i + zlength src <= zlength l -> slice i (zlength src) (splice i src l) = src.
Proof.
  intros Hi Hl. unfold slice, splice, zlength in *.
  rewrite drop_app_length' by (rewrite length_take; lia).
  rewrite Nat2Z.id. by rewrite take_app_length.
Qed.

Lemma slice_splice_disjoint i src (l : list Z) j n :
  0 <= i -> i + zlength src <= zlength l -> 0 <= j -> 0 <= n ->
  j + n <= i \/ i + zlength src <= j ->
  slice j n (splice i src l) = slice j n l.
Proof.
  intros Hi Hl Hj Hn Hd. apply zlookup_ext. intros k Hk.
  destruct (decide (k < n)).
  - rewrite !zlookup_slice by lia. rewrite zlookup_splice by done.
    by rewrite decide_False by lia.
  - transitivity (@None Z); [|symmetry]; apply zlookup_None; right;
      unfold zlength, slice; rewrite length_take; lia.
Qed.

(** ** Translation through a page table *)

(** The machine runs with the page table [t], which is at [a]. *)
Record paged (m : Machine) (a : loc) (t : list TranslationEntry) : Prop := {
  paged_tlb : tlb m = None;
  paged_ptr : pageTable m = Some a;
  paged_table : tables m !! a = Some t;
  paged_size : pageTableSize m = zlength t
}.

Definition vpn_of (addr : Z) : Z := u32 addr / PageSize.

(** What the hardware promises: the first check that fails decides. *)
Definition translation (t : list TranslationEntry) (addr size : Z) (writing : bool) :
    ExceptionType * option Z :=
  if negb (addr mod size =? 0) then (AddressErrorException, None)
  else match zlookup t (vpn_of addr) with
  | None => (AddressErrorException, None)
  | Some e =>
      if negb (valid e) then (PageFaultException, None)
      else if readOnly e && writing then (ReadOnlyException, None)
      else if NumPhysPages <=? u32 (physicalPage e) then (BusErrorException, None)
      else (NoException, Some (u32 (physicalPage e) * PageSize + u32 addr mod PageSize))
  end.

Definition touch (t : list TranslationEntry) (addr size : Z) (writing : bool) :
    list TranslationEntry :=
  match translation t addr size writing, zlookup t (vpn_of addr) with
  | (NoException, _), Some e => zinsert (vpn_of addr) (set_use_dirty writing e) t
  | _, _ => t
  end.

Lemma vpn_nonneg addr : 0 <= vpn_of addr.
Proof. unfold vpn_of, PageSize, SectorSize. pose proof (u32_range addr). unfold is_u32 in *. dlia. Qed.

(** A translated address lies in the frame of its page, inside the memory. *)
Lemma translation_phys t addr size writing e p :
  access_size size -> translation t addr size writing = (e, Some p) ->
  e = NoException /\ 0 <= p /\ p + size <= MemorySize /\ p mod size = 0 /\
  exists en, zlookup t (vpn_of addr) = Some en /\ valid en = true /\
    (writing = true -> readOnly en = false) /\
    p = u32 (physicalPage en) * PageSize + u32 addr mod PageSize /\
    u32 (physicalPage en) < NumPhysPages.
Proof.
  intros Hs. unfold translation. destruct (Z.eqb_spec (addr mod size) 0) as [Ha|]; [simpl|done].
  destruct (zlookup t (vpn_of addr)) as [en|] eqn:E; [|done].
  destruct (valid en) eqn:Ev; [simpl|done].
  destruct (readOnly en && writing) eqn:Er; [done|].
  destruct (Z.leb_spec NumPhysPages (u32 (physicalPage en))); [done|].
  intros H'. inversion H'; subst. pose proof (u32_range (physicalPage en)).
  unfold is_u32, MemorySize, NumPhysPages, PageSize, SectorSize in *.
  split; [done|].
  assert (u32 addr mod 128 mod size = 0) as Hm.
  { unfold u32. destruct Hs as [-> | [-> | ->]]; dlia. }
  split; [dlia|]. split; [destruct Hs as [-> | [-> | ->]]; dlia|].
  split; [destruct Hs as [-> | [-> | ->]]; dlia|].
  exists en. split_and!; try done. intros ->. by apply andb_false_iff in Er as [|].
Qed.

Lemma misaligned_flag addr size :
  access_size size ->
  ((size =? 4) && flag addr 0x3) || ((size =? 2) && flag addr 0x1) =
  negb (addr mod size =? 0).
Proof.
  intros Hs. unfold flag. change 0x3 with (Z.ones 2). change 0x1 with (Z.ones 1).
  rewrite !Z.land_ones by lia.
  destruct Hs as [-> | [-> | ->]]; simpl; rewrite ?orb_false_r; try done. by rewrite Z.mod_1_r.
Qed.

Lemma set_tables_id m : set_tables (tables m) m = m.
Proof. by destruct m. Qed.

Section Paged.
Context (m : Machine) (a : loc) (t : list TranslationEntry) (Hp : paged m a t).

Lemma load_entry_run i e : zlookup t i = Some e -> load_entry (TableEntry i) m = Ok (e, m).
Proof.
  intros He. destruct Hp as [_ Ha Ht _]. unfold load_entry. munfold. rewrite Ha, Ht, He. done.
Qed.

Lemma store_entry_run i e :
  0 <= i < zlength t ->
  store_entry (TableEntry i) e m = Ok (tt, set_tables (<[a := zinsert i e t]> (tables m)) m).
Proof.
  intros Hi. destruct Hp as [_ Ha Ht _]. unfold store_entry. munfold. rewrite Ha, Ht.
  by rewrite (proj2 (store_Some t i e _) (conj Hi eq_refl)).
Qed.

Lemma find_entry_run vpn :
  0 <= vpn ->
  find_entry vpn m = Ok (match zlookup t vpn with
                         | None => inr AddressErrorException
                         | Some e => if valid e then inl (TableEntry vpn)
                                     else inr PageFaultException
                         end, m).
Proof.
  intros H0. pose proof Hp as [Htlb _ _ Hsz]. unfold find_entry.
  rewrite (bind_Ok get _ m m m) by done. rewrite Htlb, Hsz, Z.geb_leb.
  destruct (Z.leb_spec (zlength t) vpn).
  - by rewrite (proj2 (zlookup_None t vpn)) by lia.
  - destruct (proj2 (zlookup_is_Some t vpn)) as [e He]; [lia|]. rewrite He.
    mrun (load_entry_run _ _ He). by destruct (valid e).
Qed.

Lemma Translate_run addr size writing :
  access_size size ->
  Machine_Translate addr size writing m =
  Ok (translation t addr size writing,
      set_tables (<[a := touch t addr size writing]> (tables m)) m).
Proof.
  intros Hs. pose proof Hp as [Htlb Ha Ht Hsz]. unfold touch.
  assert (set_tables (<[a := t]> (tables m)) m = m) as Hid
    by by rewrite insert_id, set_tables_id.
  unfold Machine_Translate. rewrite misaligned_flag by done.
  destruct (negb (addr mod size =? 0)) eqn:Eal.
  { unfold translation. rewrite Eal. unfold ret. by rewrite Hid. }
  rewrite (bind_Ok get _ m m m) by done. rewrite Htlb, Ha.
  rewrite !(bool_decide_true (None = None)), bool_decide_false by done. simpl.
  rewrite !(bind_Ok (ret tt) _ m tt m) by done.
  fold (vpn_of addr). mrun (find_entry_run _ (vpn_nonneg addr)).
  destruct (translation t addr size writing) as [ex ph] eqn:Etr.
  pose proof Etr as Etr0. unfold translation in Etr. rewrite Eal in Etr.
  destruct (zlookup t (vpn_of addr)) as [e|] eqn:Ee.
  2: { simplify_eq. unfold ret. by rewrite Hid. }
  destruct (valid e); simpl in Etr.
  2: { simplify_eq. unfold ret. by rewrite Hid. }
  mrun (load_entry_run _ _ Ee).
  destruct (readOnly e && writing).
  { simplify_eq. unfold ret. by rewrite Hid. }
  rewrite Z.geb_leb. destruct (NumPhysPages <=? u32 (physicalPage e)) eqn:Ef.
  { simplify_eq. unfold ret. by rewrite Hid. }
  mrun (store_entry_run _ (set_use_dirty writing e) (zlookup_lt_Some _ _ _ Ee)).
  simplify_eq. destruct (translation_phys _ _ _ _ _ _ Hs Etr0) as (_ & H1 & H2 & _).
  rewrite i32_id by (unfold is_i32, MemorySize, NumPhysPages, PageSize, SectorSize in *;
    destruct Hs as [-> | [-> | ->]]; lia).
  rewrite Z.geb_leb, (proj2 (Z.leb_le 0 _)), (proj2 (Z.leb_le _ MemorySize)) by done. done.
Qed.
End Paged.

(** Setting use and dirty bits does not change what is mapped where. *)
Definition mapping (e : TranslationEntry) : Z * Z * bool * bool :=
  (virtualPage e, physicalPage e, valid e, readOnly e).
Definition same_mapping (t t' : list TranslationEntry) : Prop := mapping <$> t = mapping <$> t'.

#[export] Instance same_mapping_equiv : Equivalence same_mapping.
Proof. split; red; unfold same_mapping; congruence. Qed.

Lemma same_mapping_lookup t t' i :
  same_mapping t t' -> mapping <$> zlookup t i = mapping <$> zlookup t' i.
Proof.
  unfold same_mapping, zlookup. intros H. case_match; [done|].
  rewrite <- !list_lookup_fmap. by rewrite H.
Qed.

#[export] Instance translation_proper :
  Proper (same_mapping ==> eq ==> eq ==> eq ==> eq) translation.
Proof.
  intros t t' Ht addr ? <- size ? <- w ? <-. unfold translation.
  pose proof (same_mapping_lookup _ _ (vpn_of addr) Ht) as Hl.
  destruct (zlookup t (vpn_of addr)) as [e|], (zlookup t' (vpn_of addr)) as [e'|];
    simpl in Hl; simplify_eq; [|done].
  unfold mapping in *. simplify_eq. by destruct e, e'; simpl in *; subst.
Qed.

Lemma touch_same_mapping t addr size writing : same_mapping (touch t addr size writing) t.
Proof.
  unfold touch. destruct (translation t addr size writing) as [[] p]; try done.
  destruct (zlookup t (vpn_of addr)) as [e|] eqn:E; [|done].
  unfold same_mapping, zinsert. apply zlookup_Some in E as [? E].
  destruct (Z.ltb_spec (vpn_of addr) 0); [done|]. rewrite list_fmap_insert.
  apply list_insert_id. by rewrite list_lookup_fmap, E.
Qed.

Lemma touch_length t addr size writing : zlength (touch t addr size writing) = zlength t.
Proof.
  pose proof (touch_same_mapping t addr size writing) as H. apply (f_equal length) in H.
  rewrite !length_fmap in H. unfold zlength. by rewrite H.
Qed.

Lemma translation_touch t addr size writing addr' size' writing' :
  translation (touch t addr size writing) addr' size' writing' = translation t addr' size' writing'.
Proof. apply translation_proper; try done. apply touch_same_mapping. Qed.

(** ** ReadMem and WriteMem *)

Lemma translation_fault t addr size writing e :
  translation t addr size writing = (e, None) -> e <> NoException /\ touch t addr size writing = t.
Proof.
  intros E. split; [|unfold touch; rewrite E; destruct e; try done].
  - unfold translation in E. repeat case_match; by simplify_eq.
  - unfold translation in E. repeat case_match; by simplify_eq.
Qed.

Lemma translation_some t addr size writing e p :
  translation t addr size writing = (e, Some p) -> e = NoException.
Proof. unfold translation. intros E. repeat case_match; by simplify_eq. Qed.

Section Access.
Context (be : bool) {K : Type} `{!Lens Machine K}.
Context (setStatus : MachineStatus -> M K unit).
Context (ExceptionHandler : ExceptionType -> M K unit).
Context (k : K) (a : loc) (t : list TranslationEntry).
Context (Hp : paged (lget k) a t) (Hwf : memory_wf (lget k)).

Abbreviation RaiseException := (Machine_RaiseException setStatus ExceptionHandler).
Abbreviation ReadMem := (Machine_ReadMem be setStatus ExceptionHandler).
Abbreviation WriteMem := (Machine_WriteMem be setStatus ExceptionHandler).

Definition touched (addr size : Z) (writing : bool) : Machine :=
  set_tables (<[a := touch t addr size writing]> (tables (lget k))) (lget k).

Lemma touched_fault addr size writing e :
  translation t addr size writing = (e, None) -> lset (touched addr size writing) k = k.
Proof.
  intros E. destruct (translation_fault _ _ _ _ _ E) as [_ Et]. unfold touched. rewrite Et.
  destruct Hp as [_ _ Ht _]. by rewrite insert_id, set_tables_id, lset_lget.
Qed.

Lemma Translate_zoom addr size writing :
  access_size size ->
  zoom (Machine_Translate addr size writing) k =
  Ok (translation t addr size writing, lset (touched addr size writing) k).
Proof. intros Hs. apply zoom_Ok. by apply Translate_run. Qed.

Lemma ReadMem_ok addr size p :
  access_size size -> translation t addr size false = (NoException, Some p) ->
  ReadMem addr size k =
  Ok (Some (value_of size (slice p size (mainMemory (lget k)))), lset (touched addr size false) k).
Proof.
  intros Hs E. destruct (translation_phys _ _ _ _ _ _ Hs E) as (_ & H1 & H2 & _).
  unfold Machine_ReadMem. mrun (Translate_zoom addr size false Hs). rewrite E.
  rewrite decide_False by auto. simpl. rewrite (bind_Ok (ret p) _ _ p (lset (touched addr size false) k)) by done.
  rewrite (bind_Ok _ _ _ (value_of size (slice p size (mainMemory (lget k))))
             (lset (touched addr size false) k)); [done|].
  unfold zoom. rewrite lget_lset. rewrite read_physical_run; try done.
  - simpl. by rewrite lset_lset.
  - by destruct Hwf.
Qed.

Lemma ReadMem_fault addr size e :
  access_size size -> translation t addr size false = (e, None) ->
  ReadMem addr size k = (RaiseException e addr ;;; ret None) k.
Proof.
  intros Hs E. destruct (translation_fault _ _ _ _ _ E) as [He _].
  unfold Machine_ReadMem. mrun (Translate_zoom addr size false Hs). rewrite E.
  rewrite decide_True by done. by rewrite (touched_fault _ _ _ _ E).
Qed.

Definition written (addr size value p : Z) : Machine :=
  set_mainMemory (splice p (le_encode (Z.to_nat size) value) (mainMemory (lget k)))
    (touched addr size true).

Lemma WriteMem_ok addr size v p :
  access_size size -> translation t addr size true = (NoException, Some p) ->
  WriteMem addr size v k = Ok (true, lset (written addr size v p) k).
Proof.
  intros Hs E. destruct (translation_phys _ _ _ _ _ _ Hs E) as (_ & H1 & H2 & _).
  unfold Machine_WriteMem. mrun (Translate_zoom addr size true Hs). rewrite E.
  rewrite decide_False by auto. simpl. rewrite (bind_Ok (ret p) _ _ p (lset (touched addr size true) k)) by done.
  rewrite (bind_Ok _ _ _ tt (lset (written addr size v p) k)); [done|].
  unfold zoom. rewrite lget_lset. rewrite write_physical_run; try done.
  - simpl. by rewrite lset_lset.
  - by destruct Hwf.
Qed.

Lemma WriteMem_fault addr size v e :
  access_size size -> translation t addr size true = (e, None) ->
  WriteMem addr size v k = (RaiseException e addr ;;; ret false) k.
Proof.
  intros Hs E. destruct (translation_fault _ _ _ _ _ E) as [He _].
  unfold Machine_WriteMem. mrun (Translate_zoom addr size true Hs). rewrite E.
  rewrite decide_True by done. by rewrite (touched_fault _ _ _ _ E).
Qed.

Lemma touched_paged addr size writing :
  paged (touched addr size writing) a (touch t addr size writing).
Proof.
  destruct Hp as [H1 H2 H3 H4]. constructor; simpl; try done.
  - by rewrite lookup_insert_eq.
  - by rewrite touch_length.
Qed.

Lemma written_paged addr size v p :
  paged (written addr size v p) a (touch t addr size true).
Proof. destruct (touched_paged addr size true). by constructor. Qed.

Lemma zlength_le_encode n v : zlength (le_encode n v) = Z.of_nat n.
Proof. unfold zlength. by rewrite length_le_encode. Qed.

Lemma written_wf addr size v p :
  0 <= size -> 0 <= p -> p + size <= MemorySize -> memory_wf (written addr size v p).
Proof.
  intros Hs H0 H1. destruct Hwf as [Hl Hc]. constructor; simpl.
  - rewrite zlength_splice; [done|done|]. rewrite zlength_le_encode, Hl. lia.
  - apply splice_chars; [apply le_encode_char|done].
Qed.
End Access.

(** ** Properties *)

(** C23: address translation: with a page table and an access of 1, 2 or 4 bytes
    Translate never fails its ASSERTs and follows the table: an exception is
    raised exactly when the address is misaligned, outside the table or on an
    invalid, read-only or out-of-range page; otherwise the physical address is
    in the frame of the page, aligned, with the whole access inside the memory,
    and only the use and dirty bits of that page change. *)
Theorem Translate_safe m a t addr size writing :
  paged m a t -> access_size size ->
  exists t', Machine_Translate addr size writing m =
      Ok (translation t addr size writing, set_tables (<[a := t']> (tables m)) m) /\
    same_mapping t' t /\
    match translation t addr size writing with
    | (e, None) => e <> NoException /\ t' = t
    | (e, Some p) =>
        e = NoException /\ 0 <= p /\ p + size <= MemorySize /\ p mod size = 0 /\
        exists en, zlookup t (vpn_of addr) = Some en /\ valid en = true /\
          (writing = true -> readOnly en = false) /\
          p / PageSize = u32 (physicalPage en) /\ p mod PageSize = u32 addr mod PageSize /\
          t' = zinsert (vpn_of addr) (set_use_dirty writing en) t
    end.
Proof.
  intros Hp Hs. exists (touch t addr size writing). split; [by apply Translate_run|].
  split; [apply touch_same_mapping|].
  destruct (translation t addr size writing) as [e [p|]] eqn:E.
  2: { by apply translation_fault. }
  destruct (translation_phys _ _ _ _ _ _ Hs E) as (-> & ? & ? & ? & en & Hen & Hv & Hr & Hpe & Hf).
  split_and!; try done. exists en. split_and!; try done.
  1,2: rewrite Hpe; unfold PageSize, SectorSize; dlia.
  unfold touch. by rewrite E, Hen.
Qed.

Definition example_entry (ppn : Z) (ro : bool) : TranslationEntry :=
  mkEntry 0 ppn true ro false false.
Definition example_table : list TranslationEntry :=
  [example_entry 7 false; example_entry 9 true; example_entry 400 false].
Definition example_machine : Machine :=
  set_tables {[ 0%nat := example_table ]}
    (set_pageTable (Some 0%nat) 3
       (Machine_new false false (example_entry 0 false))).

Lemma example_paged : paged example_machine 0%nat example_table.
Proof. by constructor. Qed.

Lemma zeroes_wf m : mainMemory m = replicate (Z.to_nat MemorySize) 0 -> memory_wf m.
Proof.
  intros E. constructor; rewrite E.
  - unfold zlength. rewrite length_replicate, Z2Nat.id; done.
  - apply Forall_replicate. done.
Qed.

Lemma example_wf : memory_wf example_machine.
Proof. by apply zeroes_wf. Qed.

Lemma Translate_safe_witness :
  exists t', Machine_Translate 20 4 true example_machine =
    Ok ((NoException, Some 916), set_tables (<[0%nat := t']> (tables example_machine)) example_machine).
Proof.
  destruct (Translate_safe example_machine 0%nat example_table 20 4 true) as (t' & E & _).
  - apply example_paged.
  - unfold access_size. auto.
  - exists t'. exact E.
Defined.

(** C22: memory: a write that is translated is read back, truncated to its size,
    on a host of either byte order; a read through the same page table of
    bytes in other places of the physical memory gives what it gave before. *)
Theorem WriteMem_ReadMem (be : bool) {K} `{!Lens Machine K} setStatus Handler (k : K) a t addr size v p :
  paged (lget k) a t -> memory_wf (lget k) -> access_size size ->
  translation t addr size true = (NoException, Some p) ->
  exists k1, Machine_WriteMem be setStatus Handler addr size v k = Ok (true, k1) /\
    paged (lget k1) a (touch t addr size true) /\ memory_wf (lget k1) /\
    (exists k2, Machine_ReadMem be setStatus Handler addr size k1 = Ok (Some (truncate size v), k2)) /\
    (forall addr' size' p', access_size size' ->
       translation t addr' size' false = (NoException, Some p') ->
       p' + size' <= p \/ p + size <= p' ->
       exists w k2 k2', Machine_ReadMem be setStatus Handler addr' size' k = Ok (Some w, k2) /\
                        Machine_ReadMem be setStatus Handler addr' size' k1 = Ok (Some w, k2')).
Proof.
  intros Hp Hwf Hs E. destruct (translation_phys _ _ _ _ _ _ Hs E) as (_ & H1 & H2 & _ & en & Hen & Hv & Hr & Hpe & Hf).
  assert (0 <= size) as Hs0 by (destruct Hs as [-> | [-> | ->]]; lia).
  set (k1 := lset (written k a t addr size v p) k).
  assert (paged (lget k1) a (touch t addr size true)) as Hp1
    by (unfold k1; rewrite lget_lset; by apply written_paged).
  assert (memory_wf (lget k1)) as Hwf1
    by (unfold k1; rewrite lget_lset; by apply written_wf).
  assert (mainMemory (lget k1) = splice p (le_encode (Z.to_nat size) v) (mainMemory (lget k))) as Hm
    by (unfold k1; by rewrite lget_lset).
  assert (zlength (le_encode (Z.to_nat size) v) = size) as Hle by (rewrite zlength_le_encode; lia).
  assert (p + zlength (le_encode (Z.to_nat size) v) <= zlength (mainMemory (lget k))) as Hfit
    by (destruct Hwf as [-> _]; lia).
  exists k1. split; [by apply WriteMem_ok|]. split; [done|]. split; [done|]. split.
  - eexists. rewrite (ReadMem_ok be setStatus Handler k1 a _ Hp1 Hwf1 addr size p Hs).
    + rewrite Hm. rewrite <- Hle at 2. rewrite slice_splice_same by done.
      by rewrite value_of_encode.
    + rewrite translation_touch.
      unfold translation in E |- *. rewrite Hen, Hv in *.
      destruct (negb (addr mod size =? 0)); [done|]. simpl in *. rewrite (Hr eq_refl) in *. simpl in *. done.
  - intros addr' size' p' Hs' E' Hd. assert (0 <= size') by (destruct Hs' as [-> | [-> | ->]]; lia).
    destruct (translation_phys _ _ _ _ _ _ Hs' E') as (_ & H3 & H4 & _).
    eexists _, _, _. split; [by apply (ReadMem_ok be setStatus Handler k a t Hp Hwf addr' size' p')|].
    rewrite (ReadMem_ok be setStatus Handler k1 a _ Hp1 Hwf1 addr' size' p' Hs').
    + rewrite Hm, slice_splice_disjoint; [done|lia..].
    + by rewrite translation_touch.
Qed.

Lemma WriteMem_ReadMem_witness :
  exists k1 k2, Machine_WriteMem true (fun _ => ret tt) (fun _ => ret tt) 20 2 (-3) example_machine = Ok (true, k1) /\
    Machine_ReadMem true (fun _ => ret tt) (fun _ => ret tt) 20 2 k1 = Ok (Some 65533, k2).
Proof.
  destruct (WriteMem_ReadMem true (fun _ => ret tt) (fun _ => ret tt) example_machine 0%nat example_table
              20 2 (-3) 916) as (k1 & E & _ & _ & (k2 & E2) & _).
  - apply example_paged.
  - apply example_wf.
  - unfold access_size. auto.
  - reflexivity.
  - exists k1, k2. split; [exact E|exact E2].
Defined.
