(* ===== verification/Mips.v ===== *)
(** * machine/mipssim.cc: the MIPS instruction set simulator

    Decoding of instructions and the execution of one instruction. The
    [switch] of OneInstruction is split into families of instructions that are
    tried in turn; each family is the case code of its opcodes. Memory accesses
    and exceptions go through Machine.v, so the effect of an exception is that
    of the handler. *)

From stdpp Require Import base tactics list gmap.
From S2P Require Import Prelude Lists Interrupt Machine.

Local Open Scope Z_scope.

Inductive Opcode :=
| OP_ADD | OP_ADDI | OP_ADDIU | OP_ADDU | OP_AND | OP_ANDI | OP_BEQ | OP_BGEZ
| OP_BGEZAL | OP_BGTZ | OP_BLEZ | OP_BLTZ | OP_BLTZAL | OP_BNE | OP_DIV | OP_DIVU
| OP_J | OP_JAL | OP_JALR | OP_JR | OP_LB | OP_LBU | OP_LH | OP_LHU
| OP_LUI | OP_LW | OP_LWL | OP_LWR | OP_MFHI | OP_MFLO | OP_MTHI | OP_MTLO
| OP_MULT | OP_MULTU | OP_NOR | OP_OR | OP_ORI | OP_RFE | OP_SB | OP_SH
| OP_SLL | OP_SLLV | OP_SLT | OP_SLTI | OP_SLTIU | OP_SLTU | OP_SRA | OP_SRAV
| OP_SRL | OP_SRLV | OP_SUB | OP_SUBU | OP_SW | OP_SWL | OP_SWR | OP_XOR
| OP_XORI | OP_SYSCALL | OP_UNIMP | OP_RES
| SPECIAL | BCOND.

#[export] Instance Opcode_eq_dec : EqDecision Opcode.
Proof. solve_decision. Defined.

Inductive Format := IFMT | JFMT | RFMT.

#[export] Instance Format_eq_dec : EqDecision Format.
Proof. solve_decision. Defined.

Definition opTable : list (Opcode * Format) :=
  [(SPECIAL, RFMT); (BCOND, IFMT); (OP_J, JFMT); (OP_JAL, JFMT);
   (OP_BEQ, IFMT); (OP_BNE, IFMT); (OP_BLEZ, IFMT); (OP_BGTZ, IFMT);
   (OP_ADDI, IFMT); (OP_ADDIU, IFMT); (OP_SLTI, IFMT); (OP_SLTIU, IFMT);
   (OP_ANDI, IFMT); (OP_ORI, IFMT); (OP_XORI, IFMT); (OP_LUI, IFMT);
   (OP_UNIMP, IFMT); (OP_UNIMP, IFMT); (OP_UNIMP, IFMT); (OP_UNIMP, IFMT);
   (OP_RES, IFMT); (OP_RES, IFMT); (OP_RES, IFMT); (OP_RES, IFMT);
   (OP_RES, IFMT); (OP_RES, IFMT); (OP_RES, IFMT); (OP_RES, IFMT);
   (OP_RES, IFMT); (OP_RES, IFMT); (OP_RES, IFMT); (OP_RES, IFMT);
   (OP_LB, IFMT); (OP_LH, IFMT); (OP_LWL, IFMT); (OP_LW, IFMT);
   (OP_LBU, IFMT); (OP_LHU, IFMT); (OP_LWR, IFMT); (OP_RES, IFMT);
   (OP_SB, IFMT); (OP_SH, IFMT); (OP_SWL, IFMT); (OP_SW, IFMT);
   (OP_RES, IFMT); (OP_RES, IFMT); (OP_SWR, IFMT); (OP_RES, IFMT);
   (OP_UNIMP, IFMT); (OP_UNIMP, IFMT); (OP_UNIMP, IFMT); (OP_UNIMP, IFMT);
   (OP_RES, IFMT); (OP_RES, IFMT); (OP_RES, IFMT); (OP_RES, IFMT);
   (OP_UNIMP, IFMT); (OP_UNIMP, IFMT); (OP_UNIMP, IFMT); (OP_UNIMP, IFMT);
   (OP_RES, IFMT); (OP_RES, IFMT); (OP_RES, IFMT); (OP_RES, IFMT)].

Definition specialTable : list Opcode :=
  [OP_SLL; OP_RES; OP_SRL; OP_SRA; OP_SLLV; OP_RES; OP_SRLV; OP_SRAV;
   OP_JR; OP_JALR; OP_RES; OP_RES; OP_SYSCALL; OP_UNIMP; OP_RES; OP_RES;
   OP_MFHI; OP_MTHI; OP_MFLO; OP_MTLO; OP_RES; OP_RES; OP_RES; OP_RES;
   OP_MULT; OP_MULTU; OP_DIV; OP_DIVU; OP_RES; OP_RES; OP_RES; OP_RES;
   OP_ADD; OP_ADDU; OP_SUB; OP_SUBU; OP_AND; OP_OR; OP_XOR; OP_NOR;
   OP_RES; OP_RES; OP_SLT; OP_SLTU; OP_RES; OP_RES; OP_RES; OP_RES;
   OP_RES; OP_RES; OP_RES; OP_RES; OP_RES; OP_RES; OP_RES; OP_RES;
   OP_RES; OP_RES; OP_RES; OP_RES; OP_RES; OP_RES; OP_RES; OP_RES].

Definition SIGN_BIT : Z := 0x80000000.
Definition R31 : Z := 31.
Definition IndexToAddr (x : Z) : Z := i32 (Z.shiftl x 2).

Record Instruction := mkInstruction {
  value : Z;
  opCode : Opcode;
  rs : Z;
  rt : Z;
  rd : Z;
  extra : Z
}.

(** The immediate, shift amount or target, by the format of the opcode. *)
Definition decode_extra (format : Format) (value : Z) : Z :=
  match format with
  | IFMT =>
      let extra := Z.land value 0xffff in
      if flag extra 0x8000 then i32 (Z.lor extra 0xffff0000) else extra
  | RFMT => Z.land (Z.shiftr value 6) 0x1f
  | JFMT => Z.land value 0x3ffffff
  end.

Definition decode_opcode (op : Opcode) (value : Z) : option Opcode :=
  if decide (op = SPECIAL) then zlookup specialTable (Z.land value 0x3f)
  else if decide (op = BCOND) then
    let i := Z.land value 0x1f0000 in
    Some (if i =? 0 then OP_BLTZ
          else if i =? 0x10000 then OP_BGEZ
          else if i =? 0x100000 then OP_BLTZAL
          else if i =? 0x110000 then OP_BGEZAL
          else OP_UNIMP)
  else Some op.

(** Instruction::Decode; [None] would be an access outside one of the tables. *)
Definition Instruction_Decode (value : Z) : option Instruction :=
  match zlookup opTable (Z.land (Z.shiftr value 26) 0x3f) with
  | None => None
  | Some (op, format) =>
      match decode_opcode op value with
      | None => None
      | Some op' =>
          Some {| value := value;
                  opCode := op';
                  rs := Z.land (Z.shiftr value 21) 0x1f;
                  rt := Z.land (Z.shiftr value 16) 0x1f;
                  rd := Z.land (Z.shiftr value 11) 0x1f;
                  extra := decode_extra format value |}
      end
  end.

(** ** Mult *)

(** The loop of Mult, [n] iterations from (a, bLo, bHi, lo, hi). *)
Fixpoint mult_loop (n : nat) (a bLo bHi lo hi : Z) : Z * Z :=
  match n with
  | O => (hi, lo)
  | S n' =>
      let odd := flag a 1 in
      let lo' := if odd then u32 (lo + bLo) else lo in
      let hi' := if odd then u32 ((if lo' <? bLo then u32 (hi + 1) else hi) + bHi) else hi in
      if odd && negb (flag a 0xfffffffe) then (hi', lo')
      else
        let bHi' := u32 (Z.shiftl bHi 1) in
        let bHi'' := if flag bLo 0x80000000 then Z.lor bHi' 1 else bHi' in
        mult_loop n' (Z.shiftr a 1) (u32 (Z.shiftl bLo 1)) bHi'' lo' hi'
  end.

Definition Mult (a b : Z) (signedArith : bool) : Z * Z :=
  if (a =? 0) || (b =? 0) then (0, 0)
  else
    let negA := signedArith && (a <? 0) in
    let a' := if negA then i32 (- a) else a in
    let negB := signedArith && (b <? 0) in
    let b' := if negB then i32 (- b) else b in
    let negative := xorb negA negB in
    let '(hi, lo) := mult_loop 32 a' (u32 b') 0 0 0 in
    if negative then
      let hi' := u32 (Z.lnot hi) in
      let lo' := u32 (u32 (Z.lnot lo) + 1) in
      (i32 (if lo' =? 0 then u32 (hi' + 1) else hi'), i32 lo')
    else (i32 hi, i32 lo).

(** ** Executing an instruction *)

(** How the [switch] ends: with a [return] after an exception, or with what
    is needed to finish the instruction. *)
Inductive step_end :=
| Trapped
| Done (pcAfter nextLoadReg nextLoadValue : Z).

Section Execute.
Context (be : bool) {K : Type} `{!Lens Machine K}.
Context (setStatus : MachineStatus -> M K unit).
Context (ExceptionHandler : ExceptionType -> M K unit).
(** interrupt->OneTick() *)
Context (OneTick : M K unit).

Abbreviation RaiseException := (Machine_RaiseException setStatus ExceptionHandler).
Abbreviation ReadMem := (Machine_ReadMem be setStatus ExceptionHandler).
Abbreviation WriteMem := (Machine_WriteMem be setStatus ExceptionHandler).
Abbreviation R := (fun n => zoom (reg n)).
Abbreviation W := (fun n v => zoom (set_reg n v)).

(** [break] and [return] *)
Definition finish (pcAfter : Z) : M K step_end := ret (Done pcAfter 0 0).
Definition load_later (pcAfter r v : Z) : M K step_end := ret (Done pcAfter r v).
Definition trap (e : ExceptionType) (badVAddr : Z) : M K step_end :=
  RaiseException e badVAddr ;;; ret Trapped.

Definition exec_add (i : Instruction) (pcAfter : Z) : option (M K step_end) :=
  match opCode i with
  | OP_ADD => Some (
      a <- R (rs i) ;; b <- R (rt i) ;;
      let sum := i32 (a + b) in
      if negb (flag (Z.lxor a b) SIGN_BIT) && flag (Z.lxor a sum) SIGN_BIT
      then trap OverflowException 0
      else W (rd i) sum ;;; finish pcAfter)
  | OP_ADDI => Some (
      a <- R (rs i) ;;
      let sum := i32 (a + extra i) in
      if negb (flag (Z.lxor a (extra i)) SIGN_BIT) && flag (Z.lxor (extra i) sum) SIGN_BIT
      then trap OverflowException 0
      else W (rt i) sum ;;; finish pcAfter)
  | OP_ADDIU => Some (
      a <- R (rs i) ;; W (rt i) (i32 (a + extra i)) ;;; finish pcAfter)
  | OP_ADDU => Some (
      a <- R (rs i) ;; b <- R (rt i) ;; W (rd i) (i32 (a + b)) ;;; finish pcAfter)
  | OP_AND => Some (
      a <- R (rs i) ;; b <- R (rt i) ;; W (rd i) (Z.land a b) ;;; finish pcAfter)
  | OP_ANDI => Some (
      a <- R (rs i) ;; W (rt i) (Z.land a (Z.land (extra i) 0xffff)) ;;; finish pcAfter)
  | _ => None
  end.

Definition branch (i : Instruction) (pcAfter : Z) (taken : bool) : M K step_end :=
  if taken then
    next <- R NextPCReg ;; finish (i32 (next + IndexToAddr (extra i)))
  else finish pcAfter.

(** [registers[r] = registers[NextPCReg] + 4], the link of the calls. *)
Definition link (r : Z) : M K unit :=
  next <- R NextPCReg ;; W r (i32 (next + 4)).

Definition exec_branch (i : Instruction) (pcAfter : Z) : option (M K step_end) :=
  match opCode i with
  | OP_BEQ => Some (
      a <- R (rs i) ;; b <- R (rt i) ;; branch i pcAfter (a =? b))
  | OP_BGEZAL => Some (
      link R31 ;;; a <- R (rs i) ;; branch i pcAfter (negb (flag a SIGN_BIT)))
  | OP_BGEZ => Some (
      a <- R (rs i) ;; branch i pcAfter (negb (flag a SIGN_BIT)))
  | OP_BGTZ => Some (a <- R (rs i) ;; branch i pcAfter (a >? 0))
  | OP_BLEZ => Some (a <- R (rs i) ;; branch i pcAfter (a <=? 0))
  | OP_BLTZAL => Some (
      link R31 ;;; a <- R (rs i) ;; branch i pcAfter (flag a SIGN_BIT))
  | OP_BLTZ => Some (a <- R (rs i) ;; branch i pcAfter (flag a SIGN_BIT))
  | OP_BNE => Some (
      a <- R (rs i) ;; b <- R (rt i) ;; branch i pcAfter (negb (a =? b)))
  | _ => None
  end.

(** The division of the two [int]s is undefined for the smallest [int] by -1. *)
Definition exec_div (i : Instruction) (pcAfter : Z) : option (M K step_end) :=
  match opCode i with
  | OP_DIV => Some (
      a <- R (rs i) ;; b <- R (rt i) ;;
      (if b =? 0 then W LoReg 0 ;;; W HiReg 0
       else if (a =? - 2 ^ 31) && (b =? -1) then undef
       else W LoReg (Z.quot a b) ;;;
            a' <- R (rs i) ;; b' <- R (rt i) ;; W HiReg (Z.rem a' b')) ;;;
      finish pcAfter)
  | OP_DIVU => Some (
      a <- R (rs i) ;; b <- R (rt i) ;;
      let ua := u32 a in let ub := u32 b in
      (if ub =? 0 then W LoReg 0 ;;; W HiReg 0
       else W LoReg (i32 (ua / ub)) ;;; W HiReg (i32 (ua mod ub))) ;;;
      finish pcAfter)
  | _ => None
  end.

Definition jump_target (i : Instruction) (pcAfter : Z) : Z :=
  i32 (Z.lor (Z.land (u32 pcAfter) 0xf0000000) (u32 (IndexToAddr (extra i)))).

Definition exec_jump (i : Instruction) (pcAfter : Z) : option (M K step_end) :=
  match opCode i with
  | OP_JAL => Some (link R31 ;;; finish (jump_target i pcAfter))
  | OP_J => Some (finish (jump_target i pcAfter))
  | OP_JALR => Some (link (rd i) ;;; a <- R (rs i) ;; finish a)
  | OP_JR => Some (a <- R (rs i) ;; finish a)
  | _ => None
  end.

(** [tmp = registers[instr->rs] + instr->extra] *)
Definition effective (i : Instruction) : M K Z :=
  a <- R (rs i) ;; ret (i32 (a + extra i)).

Definition exec_load (i : Instruction) (pcAfter : Z) : option (M K step_end) :=
  match opCode i with
  | OP_LB | OP_LBU => Some (
      tmp <- effective i ;;
      v <- ReadMem tmp 1 ;;
      match v with
      | None => ret Trapped
      | Some v =>
          load_later pcAfter (rt i)
            (if flag v 0x80 && bool_decide (opCode i = OP_LB)
             then i32 (Z.lor (u32 v) 0xffffff00) else Z.land v 0xff)
      end)
  | OP_LH | OP_LHU => Some (
      tmp <- effective i ;;
      if flag tmp 0x1 then trap AddressErrorException tmp
      else
        v <- ReadMem tmp 2 ;;
        match v with
        | None => ret Trapped
        | Some v =>
            load_later pcAfter (rt i)
              (if flag v 0x8000 && bool_decide (opCode i = OP_LH)
               then i32 (Z.lor (u32 v) 0xffff0000) else Z.land v 0xffff)
        end)
  | OP_LUI => Some (W (rt i) (i32 (Z.shiftl (extra i) 16)) ;;; finish pcAfter)
  | OP_LW => Some (
      tmp <- effective i ;;
      if flag tmp 0x3 then trap AddressErrorException tmp
      else
        v <- ReadMem tmp 4 ;;
        match v with
        | None => ret Trapped
        | Some v => load_later pcAfter (rt i) v
        end)
  | _ => None
  end.

(** The register LWL and LWR merge the loaded word with. *)
Definition merged (i : Instruction) : M K Z :=
  l <- R LoadReg ;;
  if l =? rt i then R LoadValueReg else R (rt i).

Definition exec_load_part (i : Instruction) (pcAfter : Z) : option (M K step_end) :=
  match opCode i with
  | OP_LWL => Some (
      tmp <- effective i ;;
      ASSERT (Z.land tmp 0x3 =? 0) ;;;
      v <- ReadMem tmp 4 ;;
      match v with
      | None => ret Trapped
      | Some v =>
          n <- merged i ;;
          let c := Z.land tmp 0x3 in
          load_later pcAfter (rt i)
            (if c =? 0 then v
             else if c =? 1 then i32 (Z.lor (Z.land n 0xff) (Z.shiftl v 8))
             else if c =? 2 then i32 (Z.lor (Z.land n 0xffff) (Z.shiftl v 16))
             else i32 (Z.lor (Z.land n 0xffffff) (Z.shiftl v 24)))
      end)
  | OP_LWR => Some (
      tmp <- effective i ;;
      ASSERT (Z.land tmp 0x3 =? 0) ;;;
      v <- ReadMem tmp 4 ;;
      match v with
      | None => ret Trapped
      | Some v =>
          n <- merged i ;;
          let c := Z.land tmp 0x3 in
          load_later pcAfter (rt i)
            (if c =? 0 then
               i32 (Z.lor (Z.land (u32 n) 0xffffff00) (Z.land (Z.shiftr v 24) 0xff))
             else if c =? 1 then
               i32 (Z.lor (Z.land (u32 n) 0xffff0000) (Z.land (Z.shiftr v 16) 0xffff))
             else if c =? 2 then
               i32 (Z.lor (Z.land (u32 n) 0xff000000) (Z.land (Z.shiftr v 8) 0xffffff))
             else v)
      end)
  | _ => None
  end.

(** [Mult(registers[rs], registers[rt], ..., &registers[HiReg], &registers[LoReg])] *)
Definition multiply (i : Instruction) (signedArith : bool) : M K unit :=
  a <- R (rs i) ;; b <- R (rt i) ;;
  let '(hi, lo) := Mult a b signedArith in
  W HiReg hi ;;; W LoReg lo.

Definition exec_move (i : Instruction) (pcAfter : Z) : option (M K step_end) :=
  match opCode i with
  | OP_MFHI => Some (v <- R HiReg ;; W (rd i) v ;;; finish pcAfter)
  | OP_MFLO => Some (v <- R LoReg ;; W (rd i) v ;;; finish pcAfter)
  | OP_MTHI => Some (v <- R (rs i) ;; W HiReg v ;;; finish pcAfter)
  | OP_MTLO => Some (v <- R (rs i) ;; W LoReg v ;;; finish pcAfter)
  | OP_MULT => Some (multiply i true ;;; finish pcAfter)
  | OP_MULTU => Some (multiply i false ;;; finish pcAfter)
  | _ => None
  end.

Definition exec_or (i : Instruction) (pcAfter : Z) : option (M K step_end) :=
  match opCode i with
  | OP_NOR => Some (
      a <- R (rs i) ;; b <- R (rt i) ;; W (rd i) (Z.lnot (Z.lor a b)) ;;; finish pcAfter)
  | OP_OR => Some (
      a <- R (rs i) ;; b <- R (rs i) ;; W (rd i) (Z.lor a b) ;;; finish pcAfter)
  | OP_ORI => Some (
      a <- R (rs i) ;; W (rt i) (Z.lor a (Z.land (extra i) 0xffff)) ;;; finish pcAfter)
  | _ => None
  end.

(** SB, SH and SW: the address is cast to unsigned and back. *)
Definition store_register (i : Instruction) (pcAfter size : Z) : M K step_end :=
  a <- R (rs i) ;; v <- R (rt i) ;;
  ok <- WriteMem (i32 (u32 (i32 (a + extra i)))) size v ;;
  if ok : bool then finish pcAfter else ret Trapped.

Definition exec_store (i : Instruction) (pcAfter : Z) : option (M K step_end) :=
  match opCode i with
  | OP_SB => Some (store_register i pcAfter 1)
  | OP_SH => Some (store_register i pcAfter 2)
  | OP_SW => Some (store_register i pcAfter 4)
  | _ => None
  end.

Definition bit_of (b : bool) : Z := if b then 1 else 0.

Definition exec_shift_set (i : Instruction) (pcAfter : Z) : option (M K step_end) :=
  match opCode i with
  | OP_SLL => Some (
      b <- R (rt i) ;; W (rd i) (i32 (Z.shiftl b (extra i))) ;;; finish pcAfter)
  | OP_SLLV => Some (
      b <- R (rt i) ;; a <- R (rs i) ;;
      W (rd i) (i32 (Z.shiftl b (Z.land a 0x1f))) ;;; finish pcAfter)
  | OP_SLT => Some (
      a <- R (rs i) ;; b <- R (rt i) ;; W (rd i) (bit_of (a <? b)) ;;; finish pcAfter)
  | OP_SLTI => Some (
      a <- R (rs i) ;; W (rt i) (bit_of (a <? extra i)) ;;; finish pcAfter)
  | OP_SLTIU => Some (
      a <- R (rs i) ;; W (rt i) (bit_of (u32 a <? u32 (extra i))) ;;; finish pcAfter)
  | OP_SLTU => Some (
      a <- R (rs i) ;; b <- R (rt i) ;; W (rd i) (bit_of (u32 a <? u32 b)) ;;; finish pcAfter)
  | OP_SRA | OP_SRL => Some (
      b <- R (rt i) ;; W (rd i) (Z.shiftr b (extra i)) ;;; finish pcAfter)
  | OP_SRAV | OP_SRLV => Some (
      b <- R (rt i) ;; a <- R (rs i) ;;
      W (rd i) (Z.shiftr b (Z.land a 0x1f)) ;;; finish pcAfter)
  | _ => None
  end.

Definition exec_sub (i : Instruction) (pcAfter : Z) : option (M K step_end) :=
  match opCode i with
  | OP_SUB => Some (
      a <- R (rs i) ;; b <- R (rt i) ;;
      let diff := i32 (a - b) in
      if flag (Z.lxor a b) SIGN_BIT && flag (Z.lxor a diff) SIGN_BIT
      then trap OverflowException 0
      else W (rd i) diff ;;; finish pcAfter)
  | OP_SUBU => Some (
      a <- R (rs i) ;; b <- R (rt i) ;; W (rd i) (i32 (a - b)) ;;; finish pcAfter)
  | _ => None
  end.

Definition exec_store_part (i : Instruction) (pcAfter : Z) : option (M K step_end) :=
  match opCode i with
  | OP_SWL | OP_SWR => Some (
      tmp <- effective i ;;
      ASSERT (Z.land tmp 0x3 =? 0) ;;;
      let word := Z.land tmp (Z.lnot 0x3) in
      v <- ReadMem word 4 ;;
      match v with
      | None => ret Trapped
      | Some v =>
          b <- R (rt i) ;;
          let c := Z.land tmp 0x3 in
          let v' :=
            if decide (opCode i = OP_SWL) then
              if c =? 0 then b
              else if c =? 1 then
                i32 (Z.lor (Z.land (u32 v) 0xff000000) (Z.land (Z.shiftr b 8) 0xffffff))
              else if c =? 2 then
                i32 (Z.lor (Z.land (u32 v) 0xffff0000) (Z.land (Z.shiftr b 16) 0xffff))
              else i32 (Z.lor (Z.land (u32 v) 0xffffff00) (Z.land (Z.shiftr b 24) 0xff))
            else
              if c =? 0 then i32 (Z.lor (Z.land v 0xffffff) (Z.shiftl b 24))
              else if c =? 1 then i32 (Z.lor (Z.land v 0xffff) (Z.shiftl b 16))
              else if c =? 2 then i32 (Z.lor (Z.land v 0xff) (Z.shiftl b 8))
              else b in
          ok <- WriteMem word 4 v' ;;
          if ok : bool then finish pcAfter else ret Trapped
      end)
  | _ => None
  end.

Definition exec_trap (i : Instruction) (pcAfter : Z) : option (M K step_end) :=
  match opCode i with
  | OP_SYSCALL => Some (trap SyscallException 0)
  | OP_XOR => Some (
      a <- R (rs i) ;; b <- R (rt i) ;; W (rd i) (Z.lxor a b) ;;; finish pcAfter)
  | OP_XORI => Some (
      a <- R (rs i) ;; W (rt i) (Z.lxor a (Z.land (extra i) 0xffff)) ;;; finish pcAfter)
  | OP_RES | OP_UNIMP => Some (trap IllegalInstrException 0)
  | _ => None
  end.

Definition orelse (o : option (M K step_end)) (m : M K step_end) : M K step_end :=
  match o with Some m' => m' | None => m end.

(** The [switch (instr->opCode)]; its default case is ASSERT(FALSE). *)
Definition exec_switch (i : Instruction) (pcAfter : Z) : M K step_end :=
  orelse (exec_add i pcAfter) (
  orelse (exec_branch i pcAfter) (
  orelse (exec_div i pcAfter) (
  orelse (exec_jump i pcAfter) (
  orelse (exec_load i pcAfter) (
  orelse (exec_load_part i pcAfter) (
  orelse (exec_move i pcAfter) (
  orelse (exec_or i pcAfter) (
  orelse (exec_store i pcAfter) (
  orelse (exec_shift_set i pcAfter) (
  orelse (exec_sub i pcAfter) (
  orelse (exec_store_part i pcAfter) (
  orelse (exec_trap i pcAfter) abort)))))))))))).

Definition Machine_OneInstruction : M K unit :=
  pc <- R PCReg ;;
  raw <- ReadMem pc 4 ;;
  match raw with
  | None => ret tt
  | Some raw =>
      i <- must (Instruction_Decode (u32 raw)) ;;
      next <- R NextPCReg ;;
      r <- exec_switch i (i32 (next + 4)) ;;
      match r with
      | Trapped => ret tt
      | Done pcAfter nextLoadReg nextLoadValue =>
          zoom (Machine_DelayedLoad nextLoadReg nextLoadValue) ;;;
          pc <- R PCReg ;; W PrevPCReg pc ;;;
          next <- R NextPCReg ;; W PCReg next ;;;
          W NextPCReg pcAfter
      end
  end.

(** Machine::Run never returns; [n] turns of its loop without single-stepping;
    the turn that calls the debugger is in Debug.v. *)
Definition Machine_Run (n : nat) : M K unit :=
  setStatus UserMode ;;;
  for_ 0 n (fun _ => Machine_OneInstruction ;;; OneTick).
End Execute.

(** * Correctness *)

(** ** Decoding *)

Definition decodable (op : Opcode) : bool :=
  negb (bool_decide (op = SPECIAL) || bool_decide (op = BCOND) || bool_decide (op = OP_RFE)).

(** The shifts by an immediate amount. *)
Definition shift_op (op : Opcode) : bool :=
  match op with OP_SLL | OP_SRA | OP_SRL => true | _ => false end.

(** An entry of opTable is an executable instruction or selects a second
    table, and the shifts all come from the R format. *)
Definition table_entry_ok (e : Opcode * Format) : bool :=
  (decodable e.1 && negb (shift_op e.1)) ||
  (bool_decide (e.1 = SPECIAL) && bool_decide (e.2 = RFMT)) || bool_decide (e.1 = BCOND).

Lemma opTable_total j : 0 <= j < 64 ->
  exists e, zlookup opTable j = Some e /\ table_entry_ok e = true.
Proof.
  intros Hj. destruct (proj2 (zlookup_is_Some opTable j)) as [e E]; [done|].
  exists e. split; [done|]. apply zlookup_Some in E as [_ E].
  assert (Forall (fun e => table_entry_ok e = true) opTable) as HF by (repeat constructor).
  by apply (Forall_lookup_1 _ _ _ _ HF E).
Qed.

Lemma specialTable_total j : 0 <= j < 64 ->
  exists op, zlookup specialTable j = Some op /\ decodable op = true.
Proof.
  intros Hj. destruct (proj2 (zlookup_is_Some specialTable j)) as [op E]; [done|].
  exists op. split; [done|]. apply zlookup_Some in E as [_ E].
  assert (Forall (fun e => decodable e = true) specialTable) as HF by (repeat constructor).
  by apply (Forall_lookup_1 _ _ _ _ HF E).
Qed.

Lemma land_ones_bound x n : 0 <= n -> 0 <= Z.land x (Z.ones n) < 2 ^ n.
Proof. intros. rewrite Z.land_ones by done. apply Z.mod_pos_bound. lia. Qed.

Record instruction_wf (i : Instruction) : Prop := {
  wf_opCode : decodable (opCode i) = true;
  wf_rs : 0 <= rs i < 32;
  wf_rt : 0 <= rt i < 32;
  wf_rd : 0 <= rd i < 32;
  wf_extra : is_i32 (extra i);
  wf_shift : shift_op (opCode i) = true -> 0 <= extra i
}.

Lemma decode_extra_range f v : is_i32 (decode_extra f v).
Proof.
  unfold decode_extra. destruct f.
  - case_match; [apply i32_range|].
    pose proof (land_ones_bound v 16 ltac:(lia)). change (Z.ones 16) with 0xffff in *.
    unfold is_i32. lia.
  - pose proof (land_ones_bound v 26 ltac:(lia)). change (Z.ones 26) with 0x3ffffff in *.
    unfold is_i32. lia.
  - pose proof (land_ones_bound (Z.shiftr v 6) 5 ltac:(lia)). change (Z.ones 5) with 0x1f in *.
    unfold is_i32. lia.
Qed.

Lemma decode_extra_rfmt v : 0 <= decode_extra RFMT v.
Proof. apply Z.land_nonneg. simpl. lia. Qed.

Lemma decode_opcode_total op f v :
  table_entry_ok (op, f) = true ->
  exists op', decode_opcode op v = Some op' /\ decodable op' = true /\
    (shift_op op' = true -> f = RFMT).
Proof.
  unfold table_entry_ok, decode_opcode. cbn [fst snd]. intros Hop.
  destruct (decide (op = SPECIAL)) as [H1|H1].
  { subst. simpl in Hop. rewrite orb_false_r in Hop. apply bool_decide_eq_true in Hop.
    pose proof (land_ones_bound v 6 ltac:(lia)) as Hb. change (Z.ones 6) with 0x3f in Hb.
    destruct (specialTable_total _ Hb) as (op' & ? & ?). by exists op'. }
  destruct (decide (op = BCOND)) as [H2|H2].
  - eexists. split; [done|]. repeat (destruct (_ =? _); [by split; [|intros ?]|]). by split; [|intros ?].
  - exists op. split; [done|].
    rewrite (bool_decide_false _ H1), (bool_decide_false _ H2), !orb_false_r in Hop.
    apply andb_true_iff in Hop as [? Hs]. split; [done|]. intros Hs'. by rewrite Hs' in Hs.
Qed.

Lemma Decode_run v : exists i, Instruction_Decode v = Some i /\ value i = v /\ instruction_wf i.
Proof.
  unfold Instruction_Decode.
  pose proof (land_ones_bound (Z.shiftr v 26) 6 ltac:(lia)) as Hb. change (Z.ones 6) with 0x3f in Hb.
  destruct (opTable_total _ Hb) as ([op f] & -> & Hop).
  destruct (decode_opcode_total op f v Hop) as (op' & -> & Hop' & Hsh).
  eexists. split; [done|]. split; [done|].
  pose proof (fun k => land_ones_bound (Z.shiftr v k) 5 ltac:(lia)) as H5.
  change (Z.ones 5) with 0x1f in H5.
  constructor; simpl; [done|apply H5|apply H5|apply H5|apply decode_extra_range|].
  intros Hs. rewrite (Hsh Hs). apply decode_extra_rfmt.
Qed.

(** ** Multiplication *)

Lemma flag_odd a : flag a 1 = Z.odd a.
Proof. change 1 with (2 ^ 0). rewrite flag_pow2 by lia. apply Z.bit0_odd. Qed.

Lemma flag_high a : is_i32 a -> flag a 0xfffffffe = negb (u32 a / 2 =? 0).
Proof.
  intros Ha. unfold flag. f_equal. apply Bool.eq_iff_eq_true. rewrite !Z.eqb_eq.
  replace (Z.land a 0xfffffffe) with (Z.shiftl (u32 a / 2) 1); [rewrite Z.shiftl_mul_pow2; lia|].
  change 0xfffffffe with (Z.shiftl (Z.ones 31) 1). apply Z.bits_inj'. intros n Hn.
  rewrite Z.land_spec. unfold u32.
  destruct (decide (n = 0)) as [->|].
  - rewrite !Z.shiftl_spec_low by lia. by rewrite andb_false_r.
  - rewrite !Z.shiftl_spec by lia. change 2 with (2 ^ 1) at 2.
    rewrite <- Z.shiftr_div_pow2, Z.shiftr_spec by lia. replace (n - 1 + 1) with n by lia.
    destruct (decide (n < 32)).
    + rewrite Z.mod_pow2_bits_low, Z.ones_spec_low by lia. by rewrite andb_true_r.
    + rewrite Z.mod_pow2_bits_high, Z.ones_spec_high by lia. by rewrite andb_false_r.
Qed.

(** One turn of the loop on 64-bit numbers split in two words. *)
Lemma add_double lo hi bLo bHi :
  is_u32 lo -> is_u32 hi -> is_u32 bLo -> is_u32 bHi ->
  let lo' := u32 (lo + bLo) in
  let hi' := u32 ((if lo' <? bLo then u32 (hi + 1) else hi) + bHi) in
  hi' * 2 ^ 32 + lo' = (hi * 2 ^ 32 + lo + (bHi * 2 ^ 32 + bLo)) mod 2 ^ 64.
Proof.
  intros H1 H2 H3 H4 lo' hi'. unfold is_u32 in *.
  assert (lo' = if lo + bLo <? 2 ^ 32 then lo + bLo else lo + bLo - 2 ^ 32) as El.
  { unfold lo', u32. destruct (Z.ltb_spec (lo + bLo) (2 ^ 32)); dlia. }
  unfold hi', u32. destruct (Z.ltb_spec (lo + bLo) (2 ^ 32)), (Z.ltb_spec lo' bLo); dlia.
Qed.

Lemma shift_double bLo bHi :
  is_u32 bLo -> is_u32 bHi ->
  let bLo' := u32 (Z.shiftl bLo 1) in
  let bHi' := if flag bLo 0x80000000 then Z.lor (u32 (Z.shiftl bHi 1)) 1
              else u32 (Z.shiftl bHi 1) in
  is_u32 bLo' /\ is_u32 bHi' /\
  bHi' * 2 ^ 32 + bLo' = (2 * (bHi * 2 ^ 32 + bLo)) mod 2 ^ 64.
Proof.
  intros Hl Hh bLo' bHi'.
  assert (flag bLo 0x80000000 = (2 ^ 31 <=? bLo)) as Ef.
  { change 0x80000000 with (2 ^ 31). rewrite flag_pow2, Z.testbit_odd, Z.shiftr_div_pow2 by lia.
    unfold is_u32 in *. destruct (Z.leb_spec (2 ^ 31) bLo).
    - by replace (bLo / 2 ^ 31) with 1 by dlia.
    - by replace (bLo / 2 ^ 31) with 0 by dlia. }
  assert (bHi' = u32 (2 * bHi) + if 2 ^ 31 <=? bLo then 1 else 0) as Eh.
  { unfold bHi'. rewrite Ef, Z.shiftl_mul_pow2 by lia. change (2 ^ 1) with 2.
    replace (bHi * 2) with (2 * bHi) by lia.
    destruct (2 ^ 31 <=? bLo); [|lia]. symmetry. apply Z.add_nocarry_lor.
    apply Z.bits_inj_0. intros n. rewrite Z.land_spec. change 1 with (2 ^ 0).
    rewrite Z.pow2_bits_eqb by lia. destruct (Z.eqb_spec 0 n) as [<-|]; [|apply andb_false_r].
    rewrite andb_true_r. unfold u32. rewrite Z.mod_pow2_bits_low by lia.
    rewrite Z.bit0_odd, Z.odd_mul. done. }
  unfold bLo'. rewrite Eh, Z.shiftl_mul_pow2 by lia. change (2 ^ 1) with 2.
  unfold is_u32, u32 in *. destruct (Z.leb_spec (2 ^ 31) bLo); (split; [dlia|]); (split; [dlia|]); dlia.
Qed.

Lemma mult_loop_spec n a bLo bHi lo hi :
  (n <= 32)%nat -> is_i32 a -> is_u32 bLo -> is_u32 bHi -> is_u32 lo -> is_u32 hi ->
  let '(hi', lo') := mult_loop n a bLo bHi lo hi in
  is_u32 hi' /\ is_u32 lo' /\
  hi' * 2 ^ 32 + lo' =
    (hi * 2 ^ 32 + lo + (bHi * 2 ^ 32 + bLo) * (a mod 2 ^ Z.of_nat n)) mod 2 ^ 64.
Proof.
  revert a bLo bHi lo hi. induction n as [|n IH]; intros a bLo bHi lo hi Hn Ha Hbl Hbh Hl Hh.
  { cbn. split_and!; try done. rewrite Z.mod_1_r, Z.mul_0_r, Z.add_0_r.
    unfold is_u32 in *. dlia. }
  cbn [mult_loop]. rewrite flag_odd, flag_high by done.
  set (lo1 := if Z.odd a then u32 (lo + bLo) else lo).
  set (hi1 := if Z.odd a then u32 ((if lo1 <? bLo then _ else _) + bHi) else hi).
  set (B := bHi * 2 ^ 32 + bLo). set (L := hi * 2 ^ 32 + lo).
  assert (is_u32 lo1) as Hl1 by (unfold lo1; destruct (Z.odd a); [apply u32_range|done]).
  assert (is_u32 hi1) as Hh1 by (unfold hi1; destruct (Z.odd a); [apply u32_range|done]).
  assert (hi1 * 2 ^ 32 + lo1 = (L + B * (a mod 2)) mod 2 ^ 64) as E1.
  { unfold hi1, lo1, L, B. rewrite Zmod_odd. clear -Hl Hh Hbl Hbh. destruct (Z.odd a).
    - rewrite Z.mul_1_r. by apply add_double.
    - rewrite Z.mul_0_r, Z.add_0_r. unfold is_u32 in *. dlia. }
  assert (a mod 2 ^ Z.of_nat (S n) = a mod 2 + 2 * ((a / 2) mod 2 ^ Z.of_nat n)) as Em.
  { rewrite Nat2Z.inj_succ, Z.pow_succ_r by lia. rewrite Z.rem_mul_r by lia. done. }
  rewrite negb_involutive. destruct (Z.odd a && (u32 a / 2 =? 0)) eqn:Eb.
  - apply andb_true_iff in Eb as [Ho Hz%Z.eqb_eq].
    assert (a = 1) as ->.
    { pose proof (Zmod_odd a) as H2. rewrite Ho in H2. unfold u32, is_i32 in *. dlia. }
    split; [done|]. split; [done|]. rewrite E1, Em. by rewrite Z.div_small, Z.mod_0_l by lia.
  - destruct (shift_double bLo bHi Hbl Hbh) as (Hbl' & Hbh' & E2).
    specialize (IH (Z.shiftr a 1) _ _ lo1 hi1 ltac:(lia)
      ltac:(rewrite Z.shiftr_div_pow2 by lia; unfold is_i32 in *; dlia) Hbl' Hbh' Hl1 Hh1).
    destruct (mult_loop _ _ _ _ _ _) as [hi' lo']. destruct IH as (? & ? & E).
    split; [done|]. split; [done|]. rewrite E, E2, E1, Em. fold B.
    rewrite Z.shiftr_div_pow2 by lia. change (2 ^ 1) with 2.
    set (A := (a / 2) mod 2 ^ Z.of_nat n).
    rewrite Z.add_mod, Z.mod_mod by lia. rewrite (Z.mul_mod_idemp_l (2 * B)) by lia.
    rewrite <- Z.add_mod by lia. f_equal. lia.
Qed.

#[local] Arguments mult_loop : simpl never.

Lemma u32_abs b : is_i32 b -> u32 (if b <? 0 then i32 (- b) else b) = Z.abs b.
Proof.
  unfold is_i32, u32, i32. intros. destruct (Z.ltb_spec b 0); dlia.
Qed.

Lemma i32_neg_range b : is_i32 b -> is_i32 (if b <? 0 then i32 (- b) else b).
Proof. intros. destruct (b <? 0); [apply i32_range|done]. Qed.

(** Complementing the double word negates it. *)
Lemma negate_double hi lo :
  is_u32 hi -> is_u32 lo -> 0 < hi * 2 ^ 32 + lo < 2 ^ 63 ->
  let hi' := u32 (Z.lnot hi) in
  let lo' := u32 (u32 (Z.lnot lo) + 1) in
  i32 (if lo' =? 0 then u32 (hi' + 1) else hi') * 2 ^ 32 + u32 (i32 lo') = - (hi * 2 ^ 32 + lo).
Proof.
  intros Hh Hl Hp hi' lo'. unfold Z.lnot, Z.pred in *. subst hi' lo'.
  rewrite u32_i32. unfold is_u32, u32 in *.
  destruct (Z.eqb_spec (((- lo + -1) mod 2 ^ 32 + 1) mod 2 ^ 32) 0); unfold i32; dlia.
Qed.

Lemma Mult_run a b sg :
  is_i32 a -> is_i32 b ->
  let '(hi, lo) := Mult a b sg in
  is_i32 hi /\ is_i32 lo /\
  if sg then hi * 2 ^ 32 + u32 lo = a * b
  else u32 hi * 2 ^ 32 + u32 lo = u32 a * u32 b.
Proof.
  intros Ha Hb. unfold Mult.
  destruct (Z.eqb_spec a 0) as [->|Hna]; [by destruct sg|].
  destruct (Z.eqb_spec b 0) as [->|Hnb].
  { simpl. split; [done|]. split; [done|]. change (u32 0) with 0. destruct sg; lia. }
  simpl. destruct sg; simpl.
  - pose proof (mult_loop_spec 32 (if a <? 0 then i32 (- a) else a)
      (u32 (if b <? 0 then i32 (- b) else b)) 0 0 0 (le_n 32)
      (i32_neg_range a Ha) (u32_range _) ltac:(done) ltac:(done) ltac:(done)) as HM.
    destruct (mult_loop _ _ _ _ _ _) as [hi lo]. destruct HM as (Hh & Hl & E).
    change (Z.of_nat 32) with 32 in E. fold (u32 (if a <? 0 then i32 (- a) else a)) in E.
    rewrite !u32_abs in E by done.
    assert (hi * 2 ^ 32 + lo = Z.abs (a * b)) as E'.
    { rewrite E. replace (_ + _ * Z.abs a) with (Z.abs (a * b)) by nia.
      apply Z.mod_small. unfold is_i32 in *. nia. }
    assert (0 < Z.abs (a * b) < 2 ^ 63) as Hp by (unfold is_i32 in *; nia).
    clear E. rewrite <- E' in Hp.
    destruct (Z.ltb_spec a 0), (Z.ltb_spec b 0); simpl.
    2,3: split; [apply i32_range|]; split; [apply i32_range|];
         rewrite (negate_double hi lo Hh Hl Hp), E'; nia.
    all: split; [apply i32_range|]; split; [apply i32_range|];
         rewrite u32_i32, u32_id by done;
         assert (i32 hi = hi) as -> by (apply i32_id; unfold is_u32, is_i32 in *; lia);
         rewrite E'; nia.
  - pose proof (mult_loop_spec 32 a (u32 b) 0 0 0 (le_n 32)
      Ha (u32_range _) ltac:(done) ltac:(done) ltac:(done)) as HM.
    destruct (mult_loop _ _ _ _ _ _) as [hi lo]. destruct HM as (Hh & Hl & E).
    split; [apply i32_range|]. split; [apply i32_range|].
    rewrite !u32_i32, !u32_id by done. rewrite E. change (a mod 2 ^ Z.of_nat 32) with (u32 a).
    replace (_ + _ * u32 a) with (u32 a * u32 b) by lia. apply Z.mod_small.
    pose proof (u32_range a). pose proof (u32_range b). unfold is_u32 in *. nia.
Qed.

(** ** Running pieces of the simulator *)

(** [keeps I m Φ]: in a state satisfying [I] the operation returns, in a state
    satisfying [I] again, with a result satisfying [Φ]. *)
Definition keeps {S A} (I : S -> Prop) (m : M S A) (Φ : A -> Prop) : Prop :=
  runs I m (fun a s => Φ a /\ I s).

Section Keeps.
Context {S : Type} (I : S -> Prop).

Lemma keeps_bind {A B} (m : M S A) (k : A -> M S B) Φ Ψ :
  keeps I m Φ -> (forall a, Φ a -> keeps I (k a) Ψ) -> keeps I (bind m k) Ψ.
Proof.
  intros Hm Hk s Hs. destruct (Hm s Hs) as (a & s1 & E & Ha & Hs1).
  destruct (Hk a Ha s1 Hs1) as (b & s2 & E2 & HQ). exists b, s2. split; [|done].
  by rewrite (bind_Ok _ _ _ _ _ E).
Qed.

Lemma keeps_ret {A} (a : A) (Φ : A -> Prop) : Φ a -> keeps I (ret a) Φ.
Proof. intros Ha s Hs. by exists a, s. Qed.

Lemma keeps_if {A} (b : bool) (m1 m2 : M S A) Φ :
  (b = true -> keeps I m1 Φ) -> (b = false -> keeps I m2 Φ) ->
  keeps I (if b then m1 else m2) Φ.
Proof. destruct b; auto. Qed.

Lemma keeps_weaken {A} (m : M S A) (Φ Ψ : A -> Prop) :
  keeps I m Φ -> (forall a, Φ a -> Ψ a) -> keeps I m Ψ.
Proof. intros H HΦ s Hs. destruct (H s Hs) as (a & s' & ? & ? & ?). exists a, s'. auto. Qed.

Lemma keeps_for lo n body :
  (forall i, keeps I (body i) (fun _ => True)) -> keeps I (for_ lo n body) (fun _ => True).
Proof.
  intros Hb s Hs. destruct (for_inv (fun _ => I) lo n body) with (s := s) as (s' & E & H').
  - intros i s1 _ H1. destruct (Hb i s1 H1) as ([] & s2 & E & _ & H2). by exists s2.
  - done.
  - by exists tt, s'.
Qed.
End Keeps.

(** ** 32-bit values *)

Lemma is_i32_shiftr x : is_i32 x <-> Z.shiftr x 31 = 0 \/ Z.shiftr x 31 = -1.
Proof. rewrite Z.shiftr_div_pow2 by lia. unfold is_i32. dlia. Qed.

Lemma is_i32_land a b : is_i32 a -> is_i32 b -> is_i32 (Z.land a b).
Proof.
  rewrite !is_i32_shiftr, Z.shiftr_land. intros [-> | ->] [-> | ->]; simpl; auto.
Qed.
Lemma is_i32_lor a b : is_i32 a -> is_i32 b -> is_i32 (Z.lor a b).
Proof.
  rewrite !is_i32_shiftr, Z.shiftr_lor. intros [-> | ->] [-> | ->]; simpl; auto.
Qed.
Lemma is_i32_lxor a b : is_i32 a -> is_i32 b -> is_i32 (Z.lxor a b).
Proof.
  rewrite !is_i32_shiftr, Z.shiftr_lxor. intros [-> | ->] [-> | ->]; simpl; auto.
Qed.
Lemma is_i32_lnot a : is_i32 a -> is_i32 (Z.lnot a).
Proof. unfold is_i32, Z.lnot, Z.pred. lia. Qed.
Lemma is_i32_shiftr_any a n : 0 <= n -> is_i32 a -> is_i32 (Z.shiftr a n).
Proof.
  intros Hn Ha. rewrite Z.shiftr_div_pow2 by done. unfold is_i32 in *.
  pose proof (Z.pow_pos_nonneg 2 n ltac:(lia) Hn). dnia.
Qed.
Lemma is_i32_small x : 0 <= x < 2 ^ 31 -> is_i32 x.
Proof. unfold is_i32. lia. Qed.
Lemma is_i32_land_small a b : 0 <= b < 2 ^ 31 -> is_i32 (Z.land a b).
Proof.
  intros Hb. apply is_i32_shiftr. left. rewrite Z.shiftr_land, (Z.shiftr_div_pow2 b) by lia.
  rewrite Z.div_small by lia. apply Z.land_0_r.
Qed.
Lemma is_i32_char x : is_char x -> is_i32 x.
Proof. unfold is_char, is_i32. lia. Qed.

#[export] Hint Resolve is_i32_land is_i32_lor is_i32_lxor is_i32_lnot is_i32_shiftr_any
  i32_range : nachos.
#[export] Hint Extern 1 (is_i32 (Z.land _ ?b)) => (apply is_i32_land_small; lia) : nachos.
#[export] Hint Extern 2 (0 <= _) => lia : nachos.

(** ** The invariant of the machine *)

Record regs_wf (m : Machine) : Prop := {
  regs_length : zlength (registers m) = NumTotalRegs;
  regs_i32 : Forall is_i32 (registers m);
  regs_load : exists r, zlookup (registers m) LoadReg = Some r /\ 0 <= r < NumGPRegs
}.

Record machine_ok (m : Machine) : Prop := {
  ok_regs : regs_wf m;
  ok_memory : memory_wf m;
  ok_paged : exists a t, paged m a t
}.

(** Register 0 is zero between two instructions. *)
Definition R0_zero (m : Machine) : Prop := zlookup (registers m) 0 = Some 0.

Lemma reg_run m n :
  regs_wf m -> 0 <= n < NumTotalRegs ->
  exists v, reg n m = Ok (v, m) /\ zlookup (registers m) n = Some v /\ is_i32 v.
Proof.
  intros [Hl Hi _] Hn. destruct (proj2 (zlookup_is_Some (registers m) n)) as [v Hv]; [lia|].
  exists v. unfold reg. munfold. rewrite Hv. split_and!; try done.
  apply zlookup_Some in Hv as [_ Hv]. by apply (Forall_lookup_1 _ _ _ _ Hi Hv).
Qed.

Lemma set_reg_run m n v :
  regs_wf m -> 0 <= n < NumTotalRegs ->
  set_reg n v m = Ok (tt, set_registers (zinsert n v (registers m)) m).
Proof.
  intros [Hl _ _] Hn. unfold set_reg. munfold.
  rewrite <- Hl in Hn. by rewrite (proj2 (store_Some (registers m) n v _) (conj Hn eq_refl)).
Qed.

Lemma set_registers_ok m n v :
  machine_ok m -> 0 <= n < NumTotalRegs -> is_i32 v -> (n = LoadReg -> 0 <= v < NumGPRegs) ->
  machine_ok (set_registers (zinsert n v (registers m)) m).
Proof.
  intros [[Hl Hi (r & Hr & Hrb)] Hm (a & t & Hp)] Hn Hv HL. constructor.
  - constructor; simpl.
    + by rewrite zlength_zinsert.
    + unfold zinsert. case_match; [done|]. by apply Forall_insert.
    + destruct (decide (n = LoadReg)) as [->|Hne].
      * exists v. split; [|auto]. apply zlookup_zinsert_eq. lia.
      * exists r. by rewrite zlookup_zinsert_ne.
  - by destruct Hm.
  - exists a, t. by destruct Hp.
Qed.

Lemma DelayedLoad_run m r v :
  machine_ok m -> 0 <= r < NumGPRegs -> is_i32 v ->
  exists m', Machine_DelayedLoad r v m = Ok (tt, m') /\ machine_ok m' /\ R0_zero m' /\
    pageTable m' = pageTable m /\ tables m' = tables m /\ mainMemory m' = mainMemory m.
Proof.
  intros Hm Hr Hv. pose proof Hm as [Hregs _ _].
  destruct Hregs as [Hl Hi (l & Hll & Hlb)].
  assert (reg LoadReg m = Ok (l, m)) as E1 by (unfold reg; munfold; by rewrite Hll).
  destruct (reg_run m LoadValueReg (ok_regs _ Hm) ltac:(done)) as (w & E2 & _ & Hw).
  unfold NumGPRegs, NumTotalRegs in *.
  pose proof (set_registers_ok m l w Hm ltac:(unfold NumTotalRegs; lia) Hw ltac:(unfold LoadReg; lia)) as H1.
  set (m1 := set_registers _ m) in *.
  pose proof (set_registers_ok m1 LoadReg r H1 ltac:(done) (is_i32_small r ltac:(lia)) ltac:(done)) as H2.
  set (m2 := set_registers _ m1) in *.
  pose proof (set_registers_ok m2 LoadValueReg v H2 ltac:(done) Hv ltac:(done)) as H3.
  set (m3 := set_registers _ m2) in *.
  pose proof (set_registers_ok m3 0 0 H3 ltac:(done) ltac:(done) ltac:(done)) as H4.
  eexists. split.
  { unfold Machine_DelayedLoad. mrun E1. mrun E2.
    mrun (set_reg_run m l w (ok_regs _ Hm) ltac:(unfold NumTotalRegs; lia)). fold m1.
    mrun (set_reg_run m1 LoadReg r (ok_regs _ H1) ltac:(done)). fold m2.
    mrun (set_reg_run m2 LoadValueReg v (ok_regs _ H2) ltac:(done)). fold m3.
    apply (set_reg_run m3 0 0 (ok_regs _ H3) ltac:(done)). }
  split; [done|]. split; [|done]. apply (zlookup_zinsert_eq (registers m3)).
  rewrite (regs_length _ (ok_regs _ H3)). done.
Qed.

(** What the simulator needs of the kernel: changing the machine status leaves
    the machine alone and the exception handler returns to a machine in order. *)
Class Kernel {K} `{!Lens Machine K} (setStatus : MachineStatus -> M K unit)
    (ExceptionHandler : ExceptionType -> M K unit) : Prop := {
  setStatus_spec : forall st k,
    exists k', setStatus st k = Ok (tt, k') /\ lget k' = lget k;
  handler_spec : forall e k, e <> NoException ->
    machine_ok (lget k) -> R0_zero (lget k) ->
    exists k', ExceptionHandler e k = Ok (tt, k') /\ machine_ok (lget k') /\ R0_zero (lget k')
}.

Section Safety.
Context (be : bool) {K : Type} `{!Lens Machine K}.
Context (setStatus : MachineStatus -> M K unit).
Context (ExceptionHandler : ExceptionType -> M K unit).
Context `{HK : !Kernel setStatus ExceptionHandler}.

Abbreviation RaiseException := (Machine_RaiseException setStatus ExceptionHandler).
Abbreviation ReadMem := (Machine_ReadMem be setStatus ExceptionHandler).
Abbreviation WriteMem := (Machine_WriteMem be setStatus ExceptionHandler).

Definition I0 (k : K) : Prop := machine_ok (lget k).

Definition end_ok (r : step_end) (k : K) : Prop :=
  I0 k /\ match r with
          | Trapped => R0_zero (lget k)
          | Done p l v => is_i32 p /\ 0 <= l < NumGPRegs /\ is_i32 v
          end.

Definition ends (m : M K step_end) : Prop := runs I0 m end_ok.

Lemma keeps_reg n : 0 <= n < NumTotalRegs -> keeps I0 (zoom (reg n)) is_i32.
Proof.
  intros Hn k Hk. destruct (reg_run (lget k) n (ok_regs _ Hk) Hn) as (v & E & _ & Hv).
  exists v, k. rewrite (zoom_Ok _ _ _ _ E), lset_lget. done.
Qed.

Lemma keeps_set_reg n v :
  0 <= n < NumTotalRegs -> is_i32 v -> n <> LoadReg ->
  keeps I0 (zoom (set_reg n v)) (fun _ => True).
Proof.
  intros Hn Hv HL k Hk. eexists tt, _.
  rewrite (zoom_Ok _ _ _ _ (set_reg_run (lget k) n v (ok_regs _ Hk) Hn)).
  split; [done|]. split; [done|]. unfold I0. rewrite lget_lset. by apply set_registers_ok.
Qed.

Lemma RaiseException_run e a k :
  e <> NoException -> is_i32 a -> I0 k ->
  exists k', RaiseException e a k = Ok (tt, k') /\ I0 k' /\ R0_zero (lget k').
Proof.
  intros He Ha Hk.
  destruct (keeps_set_reg BadVAddrReg a ltac:(done) Ha ltac:(done) k Hk) as ([] & k1 & E1 & _ & H1).
  destruct (DelayedLoad_run (lget k1) 0 0 H1 ltac:(done) ltac:(done)) as (m & E2 & H2 & H3 & _).
  destruct (setStatus_spec SystemMode (lset m k1)) as (k2 & E4 & Hk2). rewrite lget_lset in Hk2.
  destruct (handler_spec e k2 He) as (k3 & E5 & H4 & H5); [by rewrite Hk2..|].
  destruct (setStatus_spec UserMode k3) as (k4 & E6 & Hk4).
  exists k4. unfold I0. rewrite Hk4. split; [|done].
  unfold Machine_RaiseException. mrun E1. mrun (zoom_Ok _ _ _ _ E2). mrun E4. mrun E5. done.
Qed.

Lemma ends_bind {A} (m : M K A) (f : A -> M K step_end) Φ :
  keeps I0 m Φ -> (forall a, Φ a -> ends (f a)) -> ends (bind m f).
Proof.
  intros Hm Hf. eapply runs_bind; [exact Hm|]. intros a k [Ha Hk]. by apply Hf.
Qed.

Lemma ends_finish p : is_i32 p -> ends (finish p).
Proof. intros Hp k Hk. exists (Done p 0 0), k. done. Qed.

Lemma ends_load_later p r v :
  is_i32 p -> 0 <= r < NumGPRegs -> is_i32 v -> ends (load_later p r v).
Proof. intros ??? k Hk. exists (Done p r v), k. done. Qed.

Lemma ends_trap e a : e <> NoException -> is_i32 a -> ends (trap setStatus ExceptionHandler e a).
Proof.
  intros He Ha k Hk. destruct (RaiseException_run e a k He Ha Hk) as (k' & E & H1 & H2).
  exists Trapped, k'. unfold trap. mrun E. done.
Qed.

Lemma ends_if (b : bool) m1 m2 : (b = true -> ends m1) -> (b = false -> ends m2) -> ends (if b then m1 else m2).
Proof. destruct b; auto. Qed.

Lemma touched_ok k a t addr size w :
  paged (lget k) a t -> I0 k -> machine_ok (touched k a t addr size w).
Proof.
  intros Hp [[Hl Hi Hr] Hm _]. constructor.
  - by constructor.
  - by destruct Hm.
  - eexists a, _. by apply touched_paged.
Qed.

Definition read_range (size v : Z) : Prop :=
  if size =? 1 then is_char v else if size =? 2 then 0 <= v < 65536 else is_i32 v.

Lemma value_of_range size bs : zlength bs = size -> access_size size -> read_range size (value_of size bs).
Proof.
  intros Hl Hs. pose proof (le_decode_range bs) as Hd. rewrite Hl in Hd.
  unfold read_range, value_of. destruct Hs as [-> | [-> | ->]]; simpl; [apply i8_range|done|apply i32_range].
Qed.

(** A memory read ends the instruction with an exception or gives a value. *)
Lemma ends_read addr size (f : Z -> M K step_end) :
  access_size size -> is_i32 addr ->
  (forall v, read_range size v -> ends (f v)) ->
  ends (bind (ReadMem addr size) (fun v => match v with None => ret Trapped | Some v => f v end)).
Proof.
  intros Hs Ha Hf k Hk. pose proof Hk as [_ Hm (a & t & Hp)].
  destruct (translation t addr size false) as [e [p|]] eqn:E.
  - pose proof (translation_some _ _ _ _ _ _ E) as ->.
    destruct (translation_phys _ _ _ _ _ _ Hs E) as (_ & H1 & H2 & _).
    rewrite (bind_Ok _ _ _ _ _ (ReadMem_ok be setStatus ExceptionHandler k a t Hp Hm addr size p Hs E)).
    apply Hf.
    + apply value_of_range; [|done]. apply zlength_slice; [done| |].
      * destruct Hs as [-> | [-> | ->]]; lia.
      * rewrite (mem_length _ Hm). done.
    + unfold I0. rewrite lget_lset. by apply touched_ok.
  - destruct (translation_fault _ _ _ _ _ E) as [He _].
    destruct (RaiseException_run e addr k He Ha Hk) as (k' & E' & H1 & H2).
    exists Trapped, k'. split; [|done].
    unfold bind at 1. rewrite (ReadMem_fault be setStatus ExceptionHandler k a t Hp addr size e Hs E).
    rewrite (bind_Ok _ _ _ _ _ E'). done.
Qed.

Lemma ends_write addr size v (m : M K step_end) :
  access_size size -> is_i32 addr -> ends m ->
  ends (bind (WriteMem addr size v) (fun ok : bool => if ok then m else ret Trapped)).
Proof.
  intros Hs Ha Hf k Hk. pose proof Hk as [Hr Hm (a & t & Hp)].
  destruct (translation t addr size true) as [e [p|]] eqn:E.
  - pose proof (translation_some _ _ _ _ _ _ E) as ->.
    destruct (translation_phys _ _ _ _ _ _ Hs E) as (_ & H1 & H2 & _).
    rewrite (bind_Ok _ _ _ _ _ (WriteMem_ok be setStatus ExceptionHandler k a t Hp Hm addr size v p Hs E)).
    apply Hf. unfold I0. rewrite lget_lset. constructor.
    + by destruct Hr.
    + apply written_wf; try done. destruct Hs as [-> | [-> | ->]]; lia.
    + eexists a, _. by apply written_paged.
  - destruct (translation_fault _ _ _ _ _ E) as [He _].
    destruct (RaiseException_run e addr k He Ha Hk) as (k' & E' & H1 & H2).
    exists Trapped, k'. split; [|done].
    unfold bind at 1. rewrite (WriteMem_fault be setStatus ExceptionHandler k a t Hp addr size v e Hs E).
    rewrite (bind_Ok _ _ _ _ _ E'). done.
Qed.

Lemma keeps_link r : 0 <= r < NumGPRegs -> keeps I0 (link r) (fun _ => True).
Proof.
  intros Hr. unfold link. eapply keeps_bind; [by apply keeps_reg|]. intros n _.
  unfold NumGPRegs in Hr. apply keeps_set_reg; [unfold NumTotalRegs; lia|apply i32_range|].
  unfold LoadReg. lia.
Qed.

Lemma keeps_effective i : instruction_wf i -> keeps I0 (effective i) is_i32.
Proof.
  intros [_ Hrs _ _ _ _]. unfold effective.
  eapply keeps_bind; [apply keeps_reg; unfold NumTotalRegs; lia|]. intros a _.
  apply keeps_ret, i32_range.
Qed.

Lemma keeps_merged i : instruction_wf i -> keeps I0 (merged i) is_i32.
Proof.
  intros [_ _ Hrt _ _ _]. unfold merged. eapply keeps_bind; [by apply keeps_reg|]. intros l _.
  apply keeps_if; intros _; apply keeps_reg; unfold NumTotalRegs; [done|lia].
Qed.

Lemma ends_branch i p b : is_i32 p -> ends (branch i p b).
Proof.
  intros Hp. unfold branch. apply ends_if; intros _; [|by apply ends_finish].
  eapply ends_bind; [by apply keeps_reg|]. intros n _. apply ends_finish, i32_range.
Qed.

Lemma keeps_multiply i sg : instruction_wf i -> keeps I0 (multiply i sg) (fun _ => True).
Proof.
  intros [_ Hrs Hrt _ _ _]. unfold multiply.
  eapply keeps_bind; [apply keeps_reg; unfold NumTotalRegs; lia|]. intros a Ha.
  eapply keeps_bind; [apply keeps_reg; unfold NumTotalRegs; lia|]. intros b Hb.
  pose proof (Mult_run a b sg Ha Hb) as HM. destruct (Mult a b sg) as [hi lo].
  destruct HM as (Hhi & Hlo & _).
  eapply keeps_bind; [by apply keeps_set_reg|]. intros _ _. by apply keeps_set_reg.
Qed.

Lemma ends_store_register i p size :
  instruction_wf i -> is_i32 p -> access_size size ->
  ends (store_register be setStatus ExceptionHandler i p size).
Proof.
  intros [_ Hrs Hrt _ _ _] Hp Hs. unfold store_register.
  eapply ends_bind; [apply keeps_reg; unfold NumTotalRegs; lia|]. intros a Ha.
  eapply ends_bind; [apply keeps_reg; unfold NumTotalRegs; lia|]. intros b Hb.
  apply ends_write; [done|apply i32_range|by apply ends_finish].
Qed.

(** The instructions that have no precondition. *)
Definition total_op (op : Opcode) : bool :=
  match op with
  | OP_DIV | OP_LWL | OP_LWR | OP_SWL | OP_SWR => false
  | _ => true
  end.

Definition family_safe (f : Instruction -> Z -> option (M K step_end)) : Prop :=
  forall i p, instruction_wf i -> is_i32 p -> total_op (opCode i) = true ->
  match f i p with Some m => ends m | None => True end.
End Safety.

Ltac instr_side :=
  unfold NumTotalRegs, NumGPRegs, LoadReg, HiReg, LoReg, R31 in *;
  (done || lia || apply i32_range || (eauto with nachos; fail) ||
   (eauto using i32_range, is_i32_small with nachos; fail)).

(** One step of the proof that an instruction ends well. *)
Ltac instr_step :=
  match goal with
  | |- ends (bind (zoom (reg _)) _) => eapply ends_bind; [apply keeps_reg; instr_side|intros ? ?]
  | |- ends (bind (zoom (set_reg _ _)) _) =>
      eapply ends_bind; [apply keeps_set_reg; instr_side|intros _ _]
  | |- ends (bind (link _) _) => eapply ends_bind; [apply keeps_link; instr_side|intros _ _]
  | |- ends (bind (effective _) _) =>
      eapply ends_bind; [by apply keeps_effective|intros ? ?]
  | |- ends (bind (multiply _ _) _) =>
      eapply ends_bind; [by apply keeps_multiply|intros _ _]
  | |- ends (bind (Machine_ReadMem _ _ _ _ _) _) =>
      apply ends_read; [exact _|unfold access_size; auto|instr_side|intros ? ?]
  | |- ends (if _ then _ else _) => apply ends_if; intros ?
  | |- ends (branch _ _ _) => apply ends_branch; instr_side
  | |- ends (finish _) => apply ends_finish; instr_side
  | |- ends (load_later _ _ _) => apply ends_load_later; [instr_side|instr_side|]
  | |- ends (trap _ _ _ _) => apply ends_trap; [exact _|done|instr_side]
  | |- ends (store_register _ _ _ _ _ _) =>
      apply ends_store_register; [exact _|done|instr_side|unfold access_size; auto]
  end.

Section Families.
Context (be : bool) {K : Type} `{!Lens Machine K}.
Context (setStatus : MachineStatus -> M K unit).
Context (ExceptionHandler : ExceptionType -> M K unit).
Context `{HK : !Kernel setStatus ExceptionHandler}.

Lemma exec_add_safe : family_safe (exec_add setStatus ExceptionHandler).
Proof.
  intros i p Hi Hp Ht. pose proof Hi as [_ Hrs Hrt Hrd Hex _]. unfold exec_add.
  destruct (opCode i); try done; cbn zeta; repeat instr_step.
Qed.

Lemma exec_branch_safe : family_safe (K := K) exec_branch.
Proof.
  intros i p Hi Hp Ht. pose proof Hi as [_ Hrs Hrt Hrd Hex _]. unfold exec_branch.
  destruct (opCode i); try done; repeat instr_step.
Qed.

Lemma exec_jump_safe : family_safe (K := K) exec_jump.
Proof.
  intros i p Hi Hp Ht. pose proof Hi as [_ Hrs Hrt Hrd Hex _]. unfold exec_jump, jump_target.
  destruct (opCode i); try done; repeat instr_step.
Qed.

Lemma exec_move_safe : family_safe (K := K) exec_move.
Proof.
  intros i p Hi Hp Ht. pose proof Hi as [_ Hrs Hrt Hrd Hex _]. unfold exec_move.
  destruct (opCode i); try done; repeat instr_step.
Qed.

Lemma exec_or_safe : family_safe (K := K) exec_or.
Proof.
  intros i p Hi Hp Ht. pose proof Hi as [_ Hrs Hrt Hrd Hex _]. unfold exec_or.
  destruct (opCode i); try done; repeat instr_step.
Qed.

Lemma exec_store_safe : family_safe (exec_store be setStatus ExceptionHandler).
Proof.
  intros i p Hi Hp Ht. unfold exec_store.
  destruct (opCode i); try done; repeat instr_step.
Qed.

Lemma bit_of_i32 b : is_i32 (bit_of b).
Proof. by destruct b. Qed.
Local Hint Resolve bit_of_i32 : nachos.

Lemma exec_sub_safe : family_safe (exec_sub setStatus ExceptionHandler).
Proof.
  intros i p Hi Hp Ht. pose proof Hi as [_ Hrs Hrt Hrd Hex _]. unfold exec_sub.
  destruct (opCode i); try done; cbn zeta; repeat instr_step.
Qed.

Lemma exec_trap_safe : family_safe (exec_trap setStatus ExceptionHandler).
Proof.
  intros i p Hi Hp Ht. pose proof Hi as [_ Hrs Hrt Hrd Hex _]. unfold exec_trap.
  destruct (opCode i); try done; repeat instr_step.
Qed.
Lemma read_range_byte v c : read_range 1 v -> is_i32 (if c : bool then i32 (Z.lor (u32 v) 0xffffff00) else Z.land v 0xff).
Proof. intros _. destruct c; [apply i32_range|]. apply is_i32_land_small. lia. Qed.

Lemma exec_load_safe : family_safe (exec_load be setStatus ExceptionHandler).
Proof.
  intros i p Hi Hp Ht. pose proof Hi as [_ Hrs Hrt Hrd Hex _]. unfold exec_load.
  destruct (opCode i); try done; repeat instr_step; try case_match; instr_side.
Qed.

Lemma land_31_nonneg a : 0 <= Z.land a 0x1f.
Proof. apply Z.land_nonneg. lia. Qed.
Local Hint Resolve land_31_nonneg : nachos.

Lemma exec_shift_set_safe : family_safe (K := K) exec_shift_set.
Proof.
  intros i p Hi Hp Ht. pose proof Hi as [_ Hrs Hrt Hrd Hex Hsh]. unfold exec_shift_set.
  destruct (opCode i); try done; try specialize (Hsh eq_refl); repeat instr_step.
Qed.

Lemma keeps_divu a b :
  keeps (S := K) I0 (let ua := u32 a in let ub := u32 b in
    (if ub =? 0 then zoom (set_reg LoReg 0) ;;; zoom (set_reg HiReg 0)
     else zoom (set_reg LoReg (i32 (ua / ub))) ;;; zoom (set_reg HiReg (i32 (ua mod ub))))) (fun _ => True).
Proof.
  cbn zeta. apply keeps_if; intros _;
    (eapply keeps_bind; [apply keeps_set_reg; instr_side|intros _ _]); apply keeps_set_reg; instr_side.
Qed.

Lemma exec_divu_safe : family_safe (K := K) exec_div.
Proof.
  intros i p Hi Hp Ht. pose proof Hi as [_ Hrs Hrt Hrd Hex _]. unfold exec_div.
  destruct (opCode i); try done; repeat instr_step.
  eapply ends_bind; [by apply keeps_divu|]. intros _ _. by apply ends_finish.
Qed.

(** *** The instructions that can stop the simulator *)

Definition div_overflows (i : Instruction) (m : Machine) : Prop :=
  opCode i = OP_DIV /\ zlookup (registers m) (rs i) = Some (- 2 ^ 31) /\
  zlookup (registers m) (rt i) = Some (-1).

Definition part_op (op : Opcode) : bool :=
  match op with OP_LWL | OP_LWR | OP_SWL | OP_SWR => true | _ => false end.

(** LWL, LWR, SWL or SWR of an address that is not a multiple of 4. *)
Definition unaligned_part (i : Instruction) (m : Machine) : Prop :=
  part_op (opCode i) = true /\
  exists a, zlookup (registers m) (rs i) = Some a /\ i32 (a + extra i) mod 4 <> 0.

#[export] Instance div_overflows_dec i m : Decision (div_overflows i m).
Proof. unfold div_overflows. apply _. Defined.
#[export] Instance unaligned_part_dec i m : Decision (unaligned_part i m).
Proof.
  unfold unaligned_part. destruct (part_op (opCode i)); [|by right; intros [? _]].
  destruct (zlookup (registers m) (rs i)) as [a|]; [|by right; intros (_ & ? & ? & _)].
  destruct (decide (i32 (a + extra i) mod 4 = 0)) as [E|E].
  - right. intros (_ & ? & [= <-] & ?). done.
  - left. split; [done|]. by exists a.
Defined.

Abbreviation switch := (exec_switch be setStatus ExceptionHandler).

Lemma ends_orelse (o : option (M K step_end)) m :
  match o with Some m' => ends m' | None => True end -> (o = None -> ends m) -> ends (orelse o m).
Proof. destruct o; simpl; auto. Qed.

Lemma switch_total i p :
  instruction_wf i -> is_i32 p -> total_op (opCode i) = true -> ends (switch i p).
Proof.
  intros Hi Hp Ht. unfold exec_switch.
  do 5 (apply ends_orelse;
    [first [by apply exec_add_safe|by apply exec_branch_safe|by apply exec_divu_safe
           |by apply exec_jump_safe|by apply exec_load_safe]|intros ?]).
  apply ends_orelse; [unfold exec_load_part; by destruct (opCode i)|intros ?].
  do 5 (apply ends_orelse;
    [first [by apply exec_move_safe|by apply exec_or_safe|by apply exec_store_safe
           |by apply exec_shift_set_safe|by apply exec_sub_safe]|intros ?]).
  apply ends_orelse; [unfold exec_store_part; by destruct (opCode i)|intros ?].
  apply ends_orelse; [by apply exec_trap_safe|intros ?].
  destruct Hi as [Hd _ _ _ _ _]. exfalso.
  unfold exec_add, exec_branch, exec_div, exec_jump, exec_load, exec_move, exec_or, exec_store,
    exec_shift_set, exec_sub, exec_trap in *.
  by destruct (opCode i).
Qed.

Lemma reg_lookup k n v : zlookup (registers (lget k)) n = Some v -> zoom (reg n) k = Ok (v, k).
Proof.
  intros E. rewrite (zoom_Ok _ _ v (lget k)); [by rewrite lset_lget|].
  unfold reg. munfold. by rewrite E.
Qed.

Lemma reg_known k n : I0 k -> 0 <= n < NumTotalRegs ->
  exists v, zlookup (registers (lget k)) n = Some v /\ is_i32 v.
Proof. intros Hk Hn. destruct (reg_run (lget k) n (ok_regs _ Hk) Hn) as (v & _ & E & Hv). eauto. Qed.

Lemma part_cases i p k :
  instruction_wf i -> is_i32 p -> I0 k -> part_op (opCode i) = true ->
  (unaligned_part i (lget k) -> switch i p k = Aborted) /\
  (~ unaligned_part i (lget k) -> exists r k', switch i p k = Ok (r, k') /\ end_ok r k').
Proof.
  intros Hi Hp Hk Ho. pose proof Hi as [_ Hrs Hrt Hrd Hex _].
  destruct (reg_known k (rs i) Hk) as (a & Ea & Ha); [unfold NumTotalRegs; lia|].
  set (tmp := i32 (a + extra i)). assert (is_i32 tmp) as Htmp by apply i32_range.
  assert (effective i k = Ok (tmp, k)) as Eeff
    by (unfold effective; by rewrite (bind_Ok _ _ _ _ _ (reg_lookup k _ _ Ea))).
  assert (Z.land tmp 3 = tmp mod 4) as El by (change 3 with (Z.ones 2); by rewrite Z.land_ones by lia).
  assert (forall f : Z -> M K step_end,
    (tmp mod 4 = 0 -> ends (f tmp)) ->
    let m := bind (effective i) (fun t => ASSERT (Z.land t 3 =? 0) ;;; f t) in
    (unaligned_part i (lget k) -> m k = Aborted) /\
    (~ unaligned_part i (lget k) -> exists r k', m k = Ok (r, k') /\ end_ok r k')) as HA.
  { intros f Hf. cbn zeta. rewrite (bind_Ok _ _ _ _ _ Eeff). rewrite El. split.
    - intros (_ & a' & Ea' & Hn). rewrite Ea in Ea'. simplify_eq. fold tmp in Hn.
      by rewrite (proj2 (Z.eqb_neq _ _) Hn).
    - intros Hn. destruct (Z.eqb_spec (tmp mod 4) 0) as [E0|E0].
      + simpl. rewrite (bind_Ok (ret tt) _ k tt k) by done. by apply Hf.
      + destruct Hn. split; [done|]. by exists a. }
  unfold exec_switch, exec_add, exec_branch, exec_div, exec_jump, exec_load, exec_load_part,
    exec_move, exec_or, exec_store, exec_shift_set, exec_sub, exec_store_part, exec_trap.
  destruct (opCode i) eqn:Eop; try done; cbn [orelse]; apply HA; intros Hal.
  - apply ends_read; [exact _|unfold access_size; auto|apply i32_range|]. intros v Hv.
    eapply ends_bind; [by apply keeps_merged|]. intros n Hn. cbn zeta. instr_step.
    repeat case_match; instr_side.
  - apply ends_read; [exact _|unfold access_size; auto|apply i32_range|]. intros v Hv.
    eapply ends_bind; [by apply keeps_merged|]. intros n Hn. cbn zeta. instr_step.
    repeat case_match; instr_side.
  - cbn zeta. apply ends_read; [exact _|unfold access_size; auto|by apply is_i32_land|]. intros v Hv.
    eapply ends_bind; [apply keeps_reg; instr_side|]. intros n Hn.
    apply ends_write; [exact _|unfold access_size; auto|by apply is_i32_land|by apply ends_finish].
  - cbn zeta. apply ends_read; [exact _|unfold access_size; auto|by apply is_i32_land|]. intros v Hv.
    eapply ends_bind; [apply keeps_reg; instr_side|]. intros n Hn.
    apply ends_write; [exact _|unfold access_size; auto|by apply is_i32_land|by apply ends_finish].
Qed.

Lemma rem_range a b : is_i32 a -> is_i32 (Z.rem a b).
Proof.
  intros Ha. unfold is_i32 in *. destruct (Z.eq_dec b 0) as [->|Hb]; [destruct a; exact Ha|].
  assert (Z.abs (Z.rem a b) <= Z.abs a).
  { rewrite <- Z.rem_abs by lia. apply Z.rem_le; lia. }
  destruct (Z.le_gt_cases 0 a); [pose proof (Z.rem_nonneg a b Hb)|pose proof (Z.rem_nonpos a b Hb)]; lia.
Qed.
Lemma quot_range a b :
  is_i32 a -> is_i32 b -> b <> 0 -> ~ (a = - 2 ^ 31 /\ b = -1) -> is_i32 (Z.quot a b).
Proof. unfold is_i32. intros. dnia. Qed.

Lemma div_cases i p k :
  instruction_wf i -> is_i32 p -> I0 k -> opCode i = OP_DIV ->
  (div_overflows i (lget k) -> switch i p k = Undef) /\
  (~ div_overflows i (lget k) -> exists r k', switch i p k = Ok (r, k') /\ end_ok r k').
Proof.
  intros Hi Hp Hk Ho. pose proof Hi as [_ Hrs Hrt Hrd Hex _].
  destruct (reg_known k (rs i) Hk) as (a & Ea & Ha); [unfold NumTotalRegs; lia|].
  destruct (reg_known k (rt i) Hk) as (b & Eb & Hb); [unfold NumTotalRegs; lia|].
  unfold exec_switch, exec_add, exec_branch, exec_div. rewrite Ho. cbn [orelse].
  rewrite (bind_Ok _ _ _ _ _ (reg_lookup k _ _ Ea)), (bind_Ok _ _ _ _ _ (reg_lookup k _ _ Eb)).
  unfold div_overflows. rewrite Ho, Ea, Eb. split.
  - intros (_ & [= ->] & [= ->]). done.
  - intros Hn. destruct (Z.eqb_spec b 0) as [->|Hb0].
    + assert (ends ((zoom (set_reg LoReg 0) ;;; zoom (set_reg HiReg 0)) ;;; finish p)) as He.
      { eapply ends_bind; [|intros ? _; by apply ends_finish].
        eapply keeps_bind; [by apply keeps_set_reg|intros _ _; by apply keeps_set_reg]. }
      by apply He.
    + assert (~ (a = - 2 ^ 31 /\ b = -1)) as Hn' by (intros [-> ->]; by destruct Hn).
      destruct (Z.eqb_spec a (- 2 ^ 31)), (Z.eqb_spec b (-1)); cbn [andb];
        try (exfalso; lia);
        (eapply ends_bind; [|intros ? _; by apply ends_finish|done]);
        (eapply keeps_bind; [apply keeps_set_reg; [done|by apply quot_range|done]|intros _ _]);
        (eapply keeps_bind; [apply keeps_reg; instr_side|intros a' Ha']);
        (eapply keeps_bind; [apply keeps_reg; instr_side|intros b' Hb']);
        apply keeps_set_reg; try done; by apply rem_range.
Qed.

Abbreviation OneInstruction := (Machine_OneInstruction be setStatus ExceptionHandler).

(** The instruction the machine fetches next. *)
Definition fetches (m : Machine) (i : Instruction) : Prop :=
  exists a t pc p, paged m a t /\ zlookup (registers m) PCReg = Some pc /\
    translation t pc 4 false = (NoException, Some p) /\
    Instruction_Decode (u32 (value_of 4 (slice p 4 (mainMemory m)))) = Some i.

Lemma touched_registers k a t addr size w : registers (touched k a t addr size w) = registers (lget k).
Proof. done. Qed.

(** The end of OneInstruction: the delayed load and the program counters. *)
Lemma advance_run k p l v :
  I0 k -> is_i32 p -> 0 <= l < NumGPRegs -> is_i32 v ->
  exists k', (zoom (Machine_DelayedLoad l v) ;;;
    pc <- zoom (reg PCReg) ;; zoom (set_reg PrevPCReg pc) ;;;
    next <- zoom (reg NextPCReg) ;; zoom (set_reg PCReg next) ;;;
    zoom (set_reg NextPCReg p)) k = Ok (tt, k') /\ I0 k' /\ R0_zero (lget k').
Proof.
  intros Hk Hp Hl Hv.
  destruct (DelayedLoad_run (lget k) l v Hk Hl Hv) as (m & E1 & Hm & HR & _).
  mrun (zoom_Ok _ _ _ _ E1).
  assert (keeps (fun k => I0 k /\ R0_zero (lget k))
    (pc <- zoom (reg PCReg) ;; zoom (set_reg PrevPCReg pc) ;;;
     next <- zoom (reg NextPCReg) ;; zoom (set_reg PCReg next) ;;;
     zoom (set_reg NextPCReg p)) (fun _ => True)) as HK'.
  { assert (forall n, 0 <= n < NumTotalRegs ->
      keeps (fun k => I0 k /\ R0_zero (lget k)) (zoom (reg n)) is_i32) as Hreg.
    { intros n Hn k1 [H1 H1']. destruct (reg_known k1 n H1 Hn) as (w & Ew & Hw).
      exists w, k1. rewrite (reg_lookup _ _ _ Ew). done. }
    assert (forall n w, n <> 0 -> n <> LoadReg -> 0 <= n < NumTotalRegs -> is_i32 w ->
      keeps (fun k => I0 k /\ R0_zero (lget k)) (zoom (set_reg n w)) (fun _ => True)) as Hset.
    { intros n w Hn0 HnL Hn Hw k1 [H1 H1']. eexists tt, _.
      rewrite (zoom_Ok _ _ _ _ (set_reg_run (lget k1) n w (ok_regs _ H1) Hn)).
      split; [done|]. split; [done|]. unfold I0. rewrite lget_lset.
      split; [by apply set_registers_ok|]. unfold R0_zero. simpl. by rewrite zlookup_zinsert_ne. }
    eapply keeps_bind; [by apply Hreg|intros pc Hpc].
    eapply keeps_bind; [by apply Hset|intros _ _].
    eapply keeps_bind; [by apply Hreg|intros nx Hnx].
    eapply keeps_bind; [by apply Hset|intros _ _]. by apply Hset. }
  destruct (HK' (lset m k)) as ([] & k' & E & _ & H1 & H2).
  { unfold I0. by rewrite lget_lset. }
  by exists k'.
Qed.

Lemma fetch_cases k :
  I0 k ->
  (exists i k1, fetches (lget k) i /\ instruction_wf i /\ I0 k1 /\
     registers (lget k1) = registers (lget k) /\
     exists next, is_i32 next /\
     OneInstruction k =
       bind (exec_switch be setStatus ExceptionHandler i (i32 (next + 4))) (fun r =>
         match r with
         | Trapped => ret tt
         | Done pcAfter nextLoadReg nextLoadValue =>
             zoom (Machine_DelayedLoad nextLoadReg nextLoadValue) ;;;
             pc <- zoom (reg PCReg) ;; zoom (set_reg PrevPCReg pc) ;;;
             next <- zoom (reg NextPCReg) ;; zoom (set_reg PCReg next) ;;;
             zoom (set_reg NextPCReg pcAfter)
         end) k1) \/
  (exists k', OneInstruction k = Ok (tt, k') /\ I0 k' /\ R0_zero (lget k') /\
              forall i, ~ fetches (lget k) i).
Proof.
  intros Hk. pose proof Hk as [Hr Hm (a & t & Hp)].
  destruct (reg_known k PCReg Hk) as (pc & Epc & Hpc); [done|].
  assert (access_size 4) as H4 by (unfold access_size; auto).
  unfold Machine_OneInstruction. mrun (reg_lookup k _ _ Epc).
  destruct (translation t pc 4 false) as [e [p|]] eqn:E.
  - left. pose proof (translation_some _ _ _ _ _ _ E) as ->.
    mrun (ReadMem_ok be setStatus ExceptionHandler k a t Hp Hm pc 4 p H4 E).
    set (k1 := lset (touched k a t pc 4 false) k).
    destruct (Decode_run (u32 (value_of 4 (slice p 4 (mainMemory (lget k))))))
      as (i & Ei & _ & Hi).
    assert (I0 k1) as Hk1 by (unfold I0, k1; rewrite lget_lset; by apply touched_ok).
    destruct (reg_known k1 NextPCReg Hk1) as (nx & Enx & Hnx); [done|].
    exists i, k1. split; [by exists a, t, pc, p|]. split; [done|]. split; [done|].
    split; [unfold k1; by rewrite lget_lset|]. exists nx. split; [done|].
    rewrite Ei. simpl. rewrite (bind_Ok (ret i) _ k1 i k1) by done.
    by mrun (reg_lookup k1 _ _ Enx).
  - right. destruct (translation_fault _ _ _ _ _ E) as [He _].
    destruct (RaiseException_run setStatus ExceptionHandler e pc k He Hpc Hk) as (k' & E' & H1 & H2).
    exists k'. split_and!; try done.
    + unfold bind at 1. rewrite (ReadMem_fault be setStatus ExceptionHandler k a t Hp pc 4 e H4 E).
      by rewrite (bind_Ok _ _ _ _ _ E').
    + intros i (a' & t' & pc' & p' & Hp' & Epc' & E2 & _). rewrite Epc in Epc'. simplify_eq.
      destruct Hp as [_ Ha Ht _], Hp' as [_ Ha' Ht' _]. simplify_eq. congruence.
Qed.
End Families.

(** ** Properties *)

(** *** Overflow *)

Lemma flag_sign x : is_i32 x -> flag x SIGN_BIT = (x <? 0).
Proof.
  intros Hx. change SIGN_BIT with (2 ^ 31). rewrite flag_pow2 by lia. by apply testbit_sign.
Qed.

Lemma flag_sign_lxor x y : is_i32 x -> is_i32 y -> flag (Z.lxor x y) SIGN_BIT = xorb (x <? 0) (y <? 0).
Proof.
  intros Hx Hy. change SIGN_BIT with (2 ^ 31). rewrite flag_pow2, Z.lxor_spec by lia.
  by rewrite !testbit_sign.
Qed.

Lemma add_overflow_test a b :
  is_i32 a -> is_i32 b ->
  negb (flag (Z.lxor a b) SIGN_BIT) && flag (Z.lxor a (i32 (a + b))) SIGN_BIT =
  negb (bool_decide (is_i32 (a + b))).
Proof.
  intros Ha Hb. rewrite !flag_sign_lxor by (done || apply i32_range).
  case_bool_decide as Hs; unfold is_i32, i32 in *;
    destruct (Z.ltb_spec a 0), (Z.ltb_spec b 0), (Z.ltb_spec ((a + b + 2 ^ 31) mod 2 ^ 32 - 2 ^ 31) 0);
    simpl; try done; dlia.
Qed.

Lemma sub_overflow_test a b :
  is_i32 a -> is_i32 b ->
  flag (Z.lxor a b) SIGN_BIT && flag (Z.lxor a (i32 (a - b))) SIGN_BIT =
  negb (bool_decide (is_i32 (a - b))).
Proof.
  intros Ha Hb. rewrite !flag_sign_lxor by (done || apply i32_range).
  case_bool_decide as Hs; unfold is_i32, i32 in *;
    destruct (Z.ltb_spec a 0), (Z.ltb_spec b 0), (Z.ltb_spec ((a - b + 2 ^ 31) mod 2 ^ 32 - 2 ^ 31) 0);
    simpl; try done; dlia.
Qed.

(** *** Instruction words *)

(** The fields of a word assembled from them. *)
Definition assemble_i (op s t imm : Z) : Z := op * 2 ^ 26 + s * 2 ^ 21 + t * 2 ^ 16 + imm mod 2 ^ 16.
Definition assemble_r (s t d sh funct : Z) : Z :=
  s * 2 ^ 21 + t * 2 ^ 16 + d * 2 ^ 11 + sh * 2 ^ 6 + funct.

Lemma field v k n : 0 <= k -> 0 <= n -> Z.land (Z.shiftr v k) (Z.ones n) = v / 2 ^ k mod 2 ^ n.
Proof. intros. rewrite Z.land_ones, Z.shiftr_div_pow2 by done. done. Qed.

Lemma sign_extend imm :
  - 2 ^ 15 <= imm < 2 ^ 15 ->
  (if flag (imm mod 2 ^ 16) 0x8000 then i32 (Z.lor (imm mod 2 ^ 16) 0xffff0000) else imm mod 2 ^ 16) = imm.
Proof.
  intros Hi. change 0x8000 with (2 ^ 15). rewrite flag_pow2, Z.testbit_odd, Z.shiftr_div_pow2 by lia.
  change 0xffff0000 with (Z.shiftl 0xffff 16). rewrite lor_shiftl by dlia.
  destruct (decide (imm < 0)).
  - replace (imm mod 2 ^ 16 / 2 ^ 15) with 1 by dlia. simpl. unfold i32. dlia.
  - replace (imm mod 2 ^ 16 / 2 ^ 15) with 0 by dlia. simpl. dlia.
Qed.

Section Properties.
Context (be : bool) {K : Type} `{!Lens Machine K}.
Context (setStatus : MachineStatus -> M K unit).
Context (ExceptionHandler : ExceptionType -> M K unit).
Context `{HK : !Kernel setStatus ExceptionHandler}.

(** C21: a user program cannot break the simulator, except in two ways: whatever
    its instruction, memory and registers, OneInstruction returns with every
    register a 32-bit integer, register 0 zero, a delayed load that targets a
    general register and the page table in place (the default ASSERT(FALSE) of
    the switch is never reached), unless the instruction is LWL, LWR, SWL or
    SWR of an unaligned address, which fails an ASSERT of the kernel, or DIV of
    the smallest integer by -1, which is undefined on the host. *)
Theorem OneInstruction_safe (k : K) :
  machine_ok (lget k) ->
  (exists i, fetches (lget k) i /\ div_overflows i (lget k) /\
     Machine_OneInstruction be setStatus ExceptionHandler k = Undef) \/
  (exists i, fetches (lget k) i /\ unaligned_part i (lget k) /\
     Machine_OneInstruction be setStatus ExceptionHandler k = Aborted) \/
  (exists k', Machine_OneInstruction be setStatus ExceptionHandler k = Ok (tt, k') /\
     machine_ok (lget k') /\ R0_zero (lget k')).
Proof.
  intros Hk.
  destruct (fetch_cases be setStatus ExceptionHandler k Hk)
    as [(i & k1 & Hf & Hi & Hk1 & Er & nx & Hnx & E)|(k' & E & H1 & H2 & _)].
  2: { right. right. by exists k'. }
  set (p := i32 (nx + 4)) in *.
  assert ((exists r k', exec_switch be setStatus ExceptionHandler i p k1 = Ok (r, k') /\ end_ok r k') ->
    exists k', Machine_OneInstruction be setStatus ExceptionHandler k = Ok (tt, k') /\
      machine_ok (lget k') /\ R0_zero (lget k')) as Hok.
  { intros (r & k2 & Es & H0 & Hr). rewrite E. mrun Es. destruct r as [|pa l v].
    - by exists k2.
    - destruct Hr as (Hpa & Hl & Hv). by apply advance_run. }
  assert (div_overflows i (lget k) <-> div_overflows i (lget k1)) as Hdiv
    by (unfold div_overflows; by rewrite Er).
  assert (unaligned_part i (lget k) <-> unaligned_part i (lget k1)) as Hun
    by (unfold unaligned_part; by rewrite Er).
  destruct (total_op (opCode i)) eqn:Et.
  { right. right. apply Hok. apply switch_total; try done. apply i32_range. }
  destruct (decide (opCode i = OP_DIV)) as [Ed|Ed].
  - destruct (div_cases be setStatus ExceptionHandler i p k1 Hi (i32_range _) Hk1 Ed) as [Hu Hd].
    destruct (decide (div_overflows i (lget k))) as [Hc|Hc].
    + left. exists i. split; [done|]. split; [done|]. rewrite E. unfold bind. rewrite Hu; [done|by apply Hdiv].
    + right. right. apply Hok, Hd. by rewrite <- Hdiv.
  - assert (part_op (opCode i) = true) as Hp by (by destruct (opCode i)).
    destruct (part_cases be setStatus ExceptionHandler i p k1 Hi (i32_range _) Hk1 Hp) as [Hu Hd].
    destruct (decide (unaligned_part i (lget k))) as [Hc|Hc].
    + right. left. exists i. split; [done|]. split; [done|]. rewrite E. unfold bind. rewrite Hu; [done|by apply Hun].
    + right. right. apply Hok, Hd. by rewrite <- Hun.
Qed.

(** C25: integer overflow: ADD, ADDI and SUB raise OverflowException exactly when
    the mathematical result does not fit in 32 bits, without writing the
    destination; otherwise they store the exact result. *)
Theorem overflow_exact (k : K) (i : Instruction) (p a b : Z) :
  zlookup (registers (lget k)) (rs i) = Some a -> zlookup (registers (lget k)) (rt i) = Some b ->
  is_i32 a -> is_i32 b -> is_i32 (extra i) ->
  let exact op dest x :=
    opCode i = op ->
    exec_switch be setStatus ExceptionHandler i p k =
      (if decide (is_i32 x)
       then (zoom (set_reg dest x) ;;; finish p) k
       else trap setStatus ExceptionHandler OverflowException 0 k) in
  exact OP_ADD (rd i) (a + b) /\ exact OP_ADDI (rt i) (a + extra i) /\ exact OP_SUB (rd i) (a - b).
Proof.
  intros Ea Eb Ha Hb He exact. unfold exact, exec_switch, exec_add, exec_branch, exec_div, exec_jump,
    exec_load, exec_load_part, exec_move, exec_or, exec_store, exec_shift_set, exec_sub.
  split_and!; intros ->; cbn [orelse];
    rewrite (bind_Ok _ _ _ _ _ (reg_lookup k _ _ Ea)), ?(bind_Ok _ _ _ _ _ (reg_lookup k _ _ Eb)); cbn zeta.
  - rewrite add_overflow_test by done. case_decide as Hs.
    + by rewrite bool_decide_true, i32_id.
    + by rewrite bool_decide_false.
  - rewrite (Z.add_comm a), (Z.lxor_comm a), add_overflow_test by done. case_decide as Hs.
    + by rewrite bool_decide_true, i32_id.
    + by rewrite bool_decide_false.
  - rewrite sub_overflow_test by done. case_decide as Hs.
    + by rewrite bool_decide_true, i32_id.
    + by rewrite bool_decide_false.
Qed.

(** OR ignores its second operand (it computes [rs | rs]), and the logical
    right shift SRL is arithmetic, so that shifting a negative value gives a
    negative result where the MIPS instruction gives a non-negative one. *)
Theorem OR_and_SRL_deviate (k : K) (i : Instruction) (p a b : Z) :
  zlookup (registers (lget k)) (rs i) = Some a -> zlookup (registers (lget k)) (rt i) = Some b ->
  (opCode i = OP_OR -> exec_switch be setStatus ExceptionHandler i p k =
                       (zoom (set_reg (rd i) a) ;;; finish p) k) /\
  (opCode i = OP_SRL -> 0 < extra i < 32 -> - 2 ^ 31 <= b < 0 ->
     exists w, w < 0 /\ u32 b / 2 ^ extra i > w /\
       exec_switch be setStatus ExceptionHandler i p k = (zoom (set_reg (rd i) w) ;;; finish p) k).
Proof.
  intros Ea Eb. unfold exec_switch, exec_add, exec_branch, exec_div, exec_jump,
    exec_load, exec_load_part, exec_move, exec_or, exec_store, exec_shift_set.
  split.
  - intros ->. cbn [orelse]. rewrite !(bind_Ok _ _ _ _ _ (reg_lookup k _ _ Ea)).
    by rewrite Z.lor_diag.
  - intros -> Hx Hb. cbn [orelse]. rewrite (bind_Ok _ _ _ _ _ (reg_lookup k _ _ Eb)).
    exists (Z.shiftr b (extra i)). split; [|split; [|done]].
    + apply Z.shiftr_neg. lia.
    + assert (Z.shiftr b (extra i) < 0) by (apply Z.shiftr_neg; lia).
      pose proof (u32_range b). unfold is_u32 in *.
      pose proof (Z.pow_pos_nonneg 2 (extra i)). pose proof (Z.div_pos (u32 b) (2 ^ extra i)). lia.
Qed.
End Properties.

(** C24: Mult computes the exact 64-bit product, signed or unsigned, of any two
    32-bit words, the smallest integer included; HI and LO are its halves. *)
Theorem Mult_product (a b : Z) (sg : bool) :
  is_i32 a -> is_i32 b ->
  exists hi lo, Mult a b sg = (hi, lo) /\ is_i32 hi /\ is_i32 lo /\
    if sg then hi * 2 ^ 32 + u32 lo = a * b
    else u32 hi * 2 ^ 32 + u32 lo = u32 a * u32 b.
Proof.
  intros Ha Hb. pose proof (Mult_run a b sg Ha Hb) as H. destruct (Mult a b sg) as [hi lo].
  exists hi, lo. tauto.
Qed.

Lemma Mult_product_witness : Mult (- 2 ^ 31) (-7) true = (3, - 2 ^ 31).
Proof.
  destruct (Mult_product (- 2 ^ 31) (-7) true) as (hi & lo & E & _); [by unfold is_i32..|].
  rewrite E. vm_compute in E. exact (eq_sym E).
Defined.

(** Decoding: every word decodes to a well-formed instruction, and decoding
    a word assembled from its fields gives the fields back, the immediate sign
    extended. *)
Theorem Decode_assembled (v op s t d sh funct imm : Z) :
  0 <= op < 64 -> 0 <= s < 32 -> 0 <= t < 32 -> 0 <= d < 32 -> 0 <= sh < 32 -> 0 <= funct < 64 ->
  - 2 ^ 15 <= imm < 2 ^ 15 ->
  (exists i, Instruction_Decode v = Some i /\ instruction_wf i) /\
  (forall o, zlookup opTable op = Some (o, IFMT) -> o <> BCOND ->
     exists d', Instruction_Decode (assemble_i op s t imm) =
       Some (mkInstruction (assemble_i op s t imm) o s t d' imm)) /\
  (forall o, zlookup specialTable funct = Some o ->
     Instruction_Decode (assemble_r s t d sh funct) =
       Some (mkInstruction (assemble_r s t d sh funct) o s t d sh)).
Proof.
  intros Hop Hs Ht Hd Hsh Hf Hi. split.
  { destruct (Decode_run v) as (i & E & _ & Hi'). by exists i. }
  unfold Instruction_Decode, decode_opcode, decode_extra.
  change 0x3f with (Z.ones 6). change 0x1f with (Z.ones 5). change 0xffff with (Z.ones 16).
  rewrite !field, !Z.land_ones by lia. split; intros o Eo.
  - intros Ho. set (v0 := assemble_i op s t imm).
    assert (v0 / 2 ^ 26 mod 2 ^ 6 = op /\ v0 / 2 ^ 21 mod 2 ^ 5 = s /\ v0 / 2 ^ 16 mod 2 ^ 5 = t /\
            v0 mod 2 ^ 16 = imm mod 2 ^ 16) as (-> & -> & -> & ->) by (unfold v0, assemble_i; split_and!; dlia).
    rewrite Eo. assert (o <> SPECIAL) as Hsp.
    { intros ->. apply zlookup_Some in Eo as [_ Eo].
      assert (Forall (fun e => (negb (bool_decide (e = (SPECIAL, IFMT)))) = true) opTable) as HF by (repeat constructor).
      by pose proof (Forall_lookup_1 _ _ _ _ HF Eo). }
    rewrite decide_False by done. rewrite decide_False by done. rewrite sign_extend by done. by eexists.
  - set (v0 := assemble_r s t d sh funct).
    assert (v0 / 2 ^ 26 mod 2 ^ 6 = 0 /\ v0 / 2 ^ 21 mod 2 ^ 5 = s /\ v0 / 2 ^ 16 mod 2 ^ 5 = t /\
            v0 / 2 ^ 11 mod 2 ^ 5 = d /\ v0 / 2 ^ 6 mod 2 ^ 5 = sh /\ v0 mod 2 ^ 6 = funct)
      as (-> & -> & -> & -> & -> & ->) by (unfold v0, assemble_r; split_and!; dlia).
    change (zlookup opTable 0) with (Some (SPECIAL, RFMT)). cbn iota. rewrite decide_True by done.
    by rewrite Eo.
Qed.

Lemma Decode_assembled_witness :
  Instruction_Decode (assemble_i 8 4 5 (-1)) = Some (mkInstruction (assemble_i 8 4 5 (-1)) OP_ADDI 4 5 31 (-1)).
Proof.
  destruct (Decode_assembled 0 8 4 5 0 0 0 (-1)) as (_ & H & _); try lia.
  destruct (H OP_ADDI) as (d' & E); [done|done|]. rewrite E. vm_compute in E. congruence.
Defined.

(** ** Witnesses *)

#[export] Instance idle_kernel : Kernel (K := Machine) (fun _ => ret tt) (fun _ => ret tt).
Proof.
  constructor; [by eexists|]. intros e k _ H1 H2. by exists k.
Qed.

(** The example machine with a register file. *)
Definition machine_with (rs : list Z) : Machine :=
  set_registers (rs ++ replicate (40 - length rs) 0) example_machine.

Lemma machine_with_ok r0 r1 r2 :
  is_i32 r0 -> is_i32 r1 -> is_i32 r2 -> machine_ok (machine_with [r0; r1; r2]).
Proof.
  intros. constructor.
  - constructor; [done| |by exists 0].
    apply Forall_app; split; [by repeat apply Forall_cons_2|by apply Forall_replicate].
  - apply zeroes_wf. done.
  - exists 0%nat, example_table. by constructor.
Qed.

Definition returns {A} (r : outcome A) : bool := match r with Ok _ => true | _ => false end.

Lemma OneInstruction_safe_witness :
  exists k', Machine_OneInstruction false (fun _ => ret tt) (fun _ => ret tt)
               (machine_with [0; 5; 6]) = Ok (tt, k') /\ R0_zero k'.
Proof.
  pose proof (OneInstruction_safe false (fun _ => ret tt) (fun _ => ret tt) (machine_with [0; 5; 6])
    (machine_with_ok 0 5 6 (i32_range 0) (i32_range 5) (i32_range 6))) as H.
  assert (returns (Machine_OneInstruction false (fun _ => ret tt) (fun _ => ret tt)
            (machine_with [0; 5; 6])) = true) as Hr by (vm_compute; reflexivity).
  destruct (Machine_OneInstruction false (fun _ => ret tt) (fun _ => ret tt) (machine_with [0; 5; 6]))
    as [[[] k']| | |]; try discriminate Hr.
  destruct H as [(i & _ & _ & E)|[(i & _ & _ & E)|(k2 & E & _ & HR)]].
  - discriminate E.
  - discriminate E.
  - injection E as ->. exists k2. split; [reflexivity|exact HR].
Defined.

Lemma overflow_exact_witness :
  exec_switch false (fun _ => ret tt) (fun _ => ret tt) (mkInstruction 0 OP_ADD 1 2 3 0) 8
    (machine_with [0; 5; 6]) =
  (zoom (set_reg 3 11) ;;; finish 8) (machine_with [0; 5; 6]).
Proof.
  destruct (overflow_exact false (fun _ => ret tt) (fun _ => ret tt) (machine_with [0; 5; 6])
    (mkInstruction 0 OP_ADD 1 2 3 0) 8 5 6) as (E & _); [done..|].
  exact (E eq_refl).
Defined.

Lemma OR_and_SRL_deviate_witness :
  exec_switch false (fun _ => ret tt) (fun _ => ret tt) (mkInstruction 0 OP_OR 1 2 3 0) 8
    (machine_with [0; 5; 6]) =
  (zoom (set_reg 3 5) ;;; finish 8) (machine_with [0; 5; 6]).
Proof.
  destruct (OR_and_SRL_deviate false (fun _ => ret tt) (fun _ => ret tt) (machine_with [0; 5; 6])
    (mkInstruction 0 OP_OR 1 2 3 0) 8 5 6) as (E & _); [done..|].
  exact (E eq_refl).
Defined.
