(* ===== verification/Disasm.v ===== *)
(** * bin/d.c, disasm.c, opstrings.c, instr.h, encode.h: the disassembler

    The text of an instruction as the host tools print it, the text the
    simulator of machine/mipssim.cc prints when it is debugged, and that the
    two agree. *)

From Stdlib Require Import Ascii String.
From stdpp Require Import base tactics list numbers.
From S2P Require Import Prelude Machine Mips Text.

Local Open Scope Z_scope.

(** ** Fields of an instruction (instr.h)

    [i] is the [int] that holds the instruction. *)

Definition rd (i : Z) : Z := Z.land (Z.shiftr i 11) 0x1f.
Definition rt (i : Z) : Z := Z.land (Z.shiftr i 16) 0x1f.
Definition rs (i : Z) : Z := Z.land (Z.shiftr i 21) 0x1f.
Definition shamt (i : Z) : Z := Z.land (Z.shiftr i 6) 0x1f.
Definition immed (i : Z) : Z := if flag i 0x8000 then Z.lor i (-0x8000) else Z.land i 0x7fff.
Definition off26 (i : Z) : Z := i32 (Z.shiftl (Z.land i (Z.shiftl 1 26 - 1)) 2).
Definition top4 (i : Z) : Z := Z.land i (Z.lnot (Z.shiftl 1 28 - 1)).
Definition off16 (i : Z) : Z := i32 (Z.shiftl (immed i) 2).

(** ** Opcodes (encode.h, in octal there) *)

Definition I_SPECIAL : Z := 0.
Definition I_BCOND : Z := 1.
Definition I_J : Z := 2.
Definition I_JAL : Z := 3.
Definition I_BEQ : Z := 4.
Definition I_BNE : Z := 5.
Definition I_BLEZ : Z := 6.
Definition I_BGTZ : Z := 7.
Definition I_ADDI : Z := 8.
Definition I_ADDIU : Z := 9.
Definition I_SLTI : Z := 10.
Definition I_SLTIU : Z := 11.
Definition I_ANDI : Z := 12.
Definition I_ORI : Z := 13.
Definition I_XORI : Z := 14.
Definition I_LUI : Z := 15.
Definition I_COP0 : Z := 16.
Definition I_COP1 : Z := 17.
Definition I_COP2 : Z := 18.
Definition I_COP3 : Z := 19.
Definition I_LB : Z := 32.
Definition I_LH : Z := 33.
Definition I_LWL : Z := 34.
Definition I_LW : Z := 35.
Definition I_LBU : Z := 36.
Definition I_LHU : Z := 37.
Definition I_LWR : Z := 38.
Definition I_SB : Z := 40.
Definition I_SH : Z := 41.
Definition I_SWL : Z := 42.
Definition I_SW : Z := 43.
Definition I_SWR : Z := 46.
Definition I_LWC0 : Z := 48.
Definition I_LWC1 : Z := 49.
Definition I_LWC2 : Z := 50.
Definition I_LWC3 : Z := 51.
Definition I_SWC0 : Z := 56.
Definition I_SWC1 : Z := 57.
Definition I_SWC2 : Z := 58.
Definition I_SWC3 : Z := 59.

Definition I_SLL : Z := 0.
Definition I_SRL : Z := 2.
Definition I_SRA : Z := 3.
Definition I_SLLV : Z := 4.
Definition I_SRLV : Z := 6.
Definition I_SRAV : Z := 7.
Definition I_JR : Z := 8.
Definition I_JALR : Z := 9.
Definition I_SYSCALL : Z := 12.
Definition I_BREAK : Z := 13.
Definition I_MFHI : Z := 16.
Definition I_MTHI : Z := 17.
Definition I_MFLO : Z := 18.
Definition I_MTLO : Z := 19.
Definition I_MULT : Z := 24.
Definition I_MULTU : Z := 25.
Definition I_DIV : Z := 26.
Definition I_DIVU : Z := 27.
Definition I_ADD : Z := 32.
Definition I_ADDU : Z := 33.
Definition I_SUB : Z := 34.
Definition I_SUBU : Z := 35.
Definition I_AND : Z := 36.
Definition I_OR : Z := 37.
Definition I_XOR : Z := 38.
Definition I_NOR : Z := 39.
Definition I_SLT : Z := 42.
Definition I_SLTU : Z := 43.

Definition I_BLTZ : Z := 0.
Definition I_BGEZ : Z := 1.
Definition I_BLTZAL : Z := 16.
Definition I_BGEZAL : Z := 17.

Definition I_NOP : Z := 0.

(** ** Names (opstrings.c) *)

Definition normalops : list string := [
  "special"; "bcond"; "j"; "jal"; "beq"; "bne"; "blez"; "bgtz";
  "addi"; "addiu"; "slti"; "sltiu"; "andi"; "ori"; "xori"; "lui";
  "cop0"; "cop1"; "cop2"; "cop3"; "024"; "025"; "026"; "027";
  "030"; "031"; "032"; "033"; "034"; "035"; "036"; "037";
  "lb"; "lh"; "lwl"; "lw"; "lbu"; "lhu"; "lwr"; "047";
  "sb"; "sh"; "swl"; "sw"; "054"; "055"; "swr"; "057";
  "lwc0"; "lwc1"; "lwc2"; "lwc3"; "064"; "065"; "066"; "067";
  "swc0"; "swc1"; "swc2"; "swc3"; "074"; "075"; "076"; "077"
]%string.

Definition specialops : list string := [
  "sll"; "001"; "srl"; "sra"; "sllv"; "005"; "srlv"; "srav";
  "jr"; "jalr"; "012"; "013"; "syscall"; "break"; "016"; "017";
  "mfhi"; "mthi"; "mflo"; "mtlo"; "024"; "025"; "026"; "027";
  "mult"; "multu"; "div"; "divu"; "034"; "035"; "036"; "037";
  "add"; "addu"; "sub"; "subu"; "and"; "or"; "xor"; "nor";
  "050"; "051"; "slt"; "sltu"; "054"; "055"; "056"; "057";
  "060"; "061"; "062"; "063"; "064"; "065"; "066"; "067";
  "070"; "071"; "072"; "073"; "074"; "075"; "076"; "077"
]%string.

(** ** dump_ascii (d.c) *)

Definition regstrings : list string := [
  "0"; "r1"; "r2"; "r3"; "r4"; "r5"; "r6"; "r7"; "r8"; "r9"; "r10";
  "r11"; "r12"; "r13"; "r14"; "r15"; "r16"; "r17"; "r18"; "r19"; "r20"; "r21";
  "r22"; "r23"; "r24"; "r25"; "r26"; "r27"; "gp"; "sp"; "r30"; "r31"
]%string.

(** A [switch]: the cases with their labels, and the default. *)
Fixpoint switch {A} (x : Z) (cases : list (list Z * A)) (default : A) : A :=
  match cases with
  | [] => default
  | (labels, a) :: cases => if existsb (Z.eqb x) labels then a else switch x cases default
  end.

(** R(i); [None] would be an access outside the array. *)
Definition R (i : Z) : option (list Z) := text <$> zlookup regstrings i.

(** The pieces that printf puts together. *)
Definition cat (pieces : list (option (list Z))) : option (list Z) := mjoin <$> mapM id pieces.
Abbreviation lit s := (Some (text s)).
Abbreviation tab := (Some [9]).

Definition dump_special (instruction : Z) : option (list Z) :=
  let opcode := Z.land instruction 0x3f in
  cat [text <$> zlookup specialops opcode; tab;
    switch opcode
      [([I_SLL; I_SRL; I_SRA],
          cat [R (rd instruction); lit ","; R (rt instruction); lit ",0x"; Some (hex (shamt instruction))]);
       ([I_SLLV; I_SRLV; I_SRAV],
          cat [R (rd instruction); lit ","; R (rt instruction); lit ","; R (rs instruction)]);
       ([I_JR; I_JALR; I_MFLO; I_MTLO], R (rs instruction));
       ([I_SYSCALL; I_BREAK], Some []);
       ([I_MFHI; I_MTHI], R (rd instruction));
       ([I_MULT; I_MULTU; I_DIV; I_DIVU], cat [R (rs instruction); lit ","; R (rt instruction)]);
       ([I_ADD; I_ADDU; I_SUB; I_SUBU; I_AND; I_OR; I_XOR; I_NOR; I_SLT; I_SLTU],
          cat [R (rd instruction); lit ","; R (rs instruction); lit ","; R (rt instruction)])]
      (Some [])].

Definition branch_target (instruction pc : Z) : Z := i32 (i32 (off16 instruction + pc) + 4).

Definition dump_bcond (instruction pc : Z) : option (list Z) :=
  cat [switch (rt instruction)
         [([I_BLTZ], lit "bltz"); ([I_BGEZ], lit "bgez"); ([I_BLTZAL], lit "bltzal"); ([I_BGEZAL], lit "bgezal")]
         (lit "BCOND");
       tab; R (rs instruction); lit ","; Some (hex8 (branch_target instruction pc))].

Definition dump_normal (opcode instruction pc : Z) : option (list Z) :=
  cat [text <$> zlookup normalops opcode; tab;
    switch opcode
      [([I_J; I_JAL], Some (hex8 (Z.lor (top4 pc) (off26 instruction))));
       ([I_BEQ; I_BNE],
          cat [R (rt instruction); lit ","; R (rs instruction); lit ","; Some (hex8 (branch_target instruction pc))]);
       ([I_ADDI; I_ADDIU; I_SLTI; I_SLTIU; I_ANDI; I_ORI; I_XORI],
          cat [R (rt instruction); lit ","; R (rs instruction); lit ",0x"; Some (hex (immed instruction))]);
       ([I_LUI], cat [R (rt instruction); lit ",0x"; Some (hex (immed instruction))]);
       ([I_COP0; I_COP1; I_COP2; I_COP3], Some []);
       ([I_LB; I_LH; I_LWL; I_LW; I_LBU; I_LHU; I_LWR; I_SB; I_SH; I_SWL; I_SW; I_SWR;
         I_LWC0; I_LWC1; I_LWC2; I_LWC3; I_SWC0; I_SWC1; I_SWC2; I_SWC3],
          cat [R (rt instruction); lit ",0x"; Some (hex (immed instruction)); lit "("; R (rs instruction); lit ")"])]
      (Some [])].

(** What dump_ascii prints, with [longdis] set. *)
Definition dump_ascii (instruction pc : Z) : option (list Z) :=
  let opcode := u32 instruction / 2 ^ 26 in
  cat [Some (hex8 pc); lit ": "; Some (hex8 instruction); lit "  "; tab;
    if instruction =? I_NOP then lit "nop"
    else if opcode =? I_SPECIAL then dump_special instruction
    else if opcode =? I_BCOND then dump_bcond instruction pc
    else dump_normal opcode instruction pc].

(** disasm and dis1 (disasm.c): the instructions of the text section, which
    [fetch] reads at the addresses from [pc] on; [n] is the number of turns. *)
Fixpoint disasm (fetch : Z -> Z) (n : nat) (pc : Z) : option (list Z) :=
  match n with
  | O => Some []
  | S n => cat [dump_ascii (fetch pc) pc; Some [10]; disasm fetch n (i32 (pc + 4))]
  end.

(** ** The debugging output of OneInstruction (machine/mipssim.cc) *)

Inductive RegType := NONE | RS | RT | RD | EXTRA.

Definition opcode_number (op : Opcode) : Z :=
  match op with
  | OP_ADD => 1 | OP_ADDI => 2 | OP_ADDIU => 3 | OP_ADDU => 4 | OP_AND => 5 | OP_ANDI => 6
  | OP_BEQ => 7 | OP_BGEZ => 8 | OP_BGEZAL => 9 | OP_BGTZ => 10 | OP_BLEZ => 11 | OP_BLTZ => 12
  | OP_BLTZAL => 13 | OP_BNE => 14 | OP_DIV => 16 | OP_DIVU => 17 | OP_J => 18 | OP_JAL => 19
  | OP_JALR => 20 | OP_JR => 21 | OP_LB => 22 | OP_LBU => 23 | OP_LH => 24 | OP_LHU => 25
  | OP_LUI => 26 | OP_LW => 27 | OP_LWL => 28 | OP_LWR => 29 | OP_MFHI => 31 | OP_MFLO => 32
  | OP_MTHI => 34 | OP_MTLO => 35 | OP_MULT => 36 | OP_MULTU => 37 | OP_NOR => 38 | OP_OR => 39
  | OP_ORI => 40 | OP_RFE => 41 | OP_SB => 42 | OP_SH => 43 | OP_SLL => 44 | OP_SLLV => 45
  | OP_SLT => 46 | OP_SLTI => 47 | OP_SLTIU => 48 | OP_SLTU => 49 | OP_SRA => 50 | OP_SRAV => 51
  | OP_SRL => 52 | OP_SRLV => 53 | OP_SUB => 54 | OP_SUBU => 55 | OP_SW => 56 | OP_SWL => 57
  | OP_SWR => 58 | OP_XOR => 59 | OP_XORI => 60 | OP_SYSCALL => 61 | OP_UNIMP => 62 | OP_RES => 63
  | SPECIAL => 100 | BCOND => 101
  end.

Definition opStrings : list (string * list RegType) := [
  ("Shouldn't happen", [NONE; NONE; NONE]);
  ("ADD r%d,r%d,r%d", [RD; RS; RT]);
  ("ADDI r%d,r%d,%d", [RT; RS; EXTRA]);
  ("ADDIU r%d,r%d,%d", [RT; RS; EXTRA]);
  ("ADDU r%d,r%d,r%d", [RD; RS; RT]);
  ("AND r%d,r%d,r%d", [RD; RS; RT]);
  ("ANDI r%d,r%d,%d", [RT; RS; EXTRA]);
  ("BEQ r%d,r%d,%d", [RS; RT; EXTRA]);
  ("BGEZ r%d,%d", [RS; EXTRA; NONE]);
  ("BGEZAL r%d,%d", [RS; EXTRA; NONE]);
  ("BGTZ r%d,%d", [RS; EXTRA; NONE]);
  ("BLEZ r%d,%d", [RS; EXTRA; NONE]);
  ("BLTZ r%d,%d", [RS; EXTRA; NONE]);
  ("BLTZAL r%d,%d", [RS; EXTRA; NONE]);
  ("BNE r%d,r%d,%d", [RS; RT; EXTRA]);
  ("Shouldn't happen", [NONE; NONE; NONE]);
  ("DIV r%d,r%d", [RS; RT; NONE]);
  ("DIVU r%d,r%d", [RS; RT; NONE]);
  ("J %d", [EXTRA; NONE; NONE]);
  ("JAL %d", [EXTRA; NONE; NONE]);
  ("JALR r%d,r%d", [RD; RS; NONE]);
  ("JR r%d,r%d", [RD; RS; NONE]);
  ("LB r%d,%d(r%d)", [RT; EXTRA; RS]);
  ("LBU r%d,%d(r%d)", [RT; EXTRA; RS]);
  ("LH r%d,%d(r%d)", [RT; EXTRA; RS]);
  ("LHU r%d,%d(r%d)", [RT; EXTRA; RS]);
  ("LUI r%d,%d", [RT; EXTRA; NONE]);
  ("LW r%d,%d(r%d)", [RT; EXTRA; RS]);
  ("LWL r%d,%d(r%d)", [RT; EXTRA; RS]);
  ("LWR r%d,%d(r%d)", [RT; EXTRA; RS]);
  ("Shouldn't happen", [NONE; NONE; NONE]);
  ("MFHI r%d", [RD; NONE; NONE]);
  ("MFLO r%d", [RD; NONE; NONE]);
  ("Shouldn't happen", [NONE; NONE; NONE]);
  ("MTHI r%d", [RS; NONE; NONE]);
  ("MTLO r%d", [RS; NONE; NONE]);
  ("MULT r%d,r%d", [RS; RT; NONE]);
  ("MULTU r%d,r%d", [RS; RT; NONE]);
  ("NOR r%d,r%d,r%d", [RD; RS; RT]);
  ("OR r%d,r%d,r%d", [RD; RS; RT]);
  ("ORI r%d,r%d,%d", [RT; RS; EXTRA]);
  ("RFE", [NONE; NONE; NONE]);
  ("SB r%d,%d(r%d)", [RT; EXTRA; RS]);
  ("SH r%d,%d(r%d)", [RT; EXTRA; RS]);
  ("SLL r%d,r%d,%d", [RD; RT; EXTRA]);
  ("SLLV r%d,r%d,r%d", [RD; RT; RS]);
  ("SLT r%d,r%d,r%d", [RD; RS; RT]);
  ("SLTI r%d,r%d,%d", [RT; RS; EXTRA]);
  ("SLTIU r%d,r%d,%d", [RT; RS; EXTRA]);
  ("SLTU r%d,r%d,r%d", [RD; RS; RT]);
  ("SRA r%d,r%d,%d", [RD; RT; EXTRA]);
  ("SRAV r%d,r%d,r%d", [RD; RT; RS]);
  ("SRL r%d,r%d,%d", [RD; RT; EXTRA]);
  ("SRLV r%d,r%d,r%d", [RD; RT; RS]);
  ("SUB r%d,r%d,r%d", [RD; RS; RT]);
  ("SUBU r%d,r%d,r%d", [RD; RS; RT]);
  ("SW r%d,%d(r%d)", [RT; EXTRA; RS]);
  ("SWL r%d,%d(r%d)", [RT; EXTRA; RS]);
  ("SWR r%d,%d(r%d)", [RT; EXTRA; RS]);
  ("XOR r%d,r%d,r%d", [RD; RS; RT]);
  ("XORI r%d,r%d,%d", [RT; RS; EXTRA]);
  ("SYSCALL", [NONE; NONE; NONE]);
  ("Unimplemented", [NONE; NONE; NONE]);
  ("Reserved", [NONE; NONE; NONE])
]%string.

Definition TypeToReg (reg : RegType) (instr : Instruction) : Z :=
  match reg with
  | RS => Mips.rs instr
  | RT => Mips.rt instr
  | RD => Mips.rd instr
  | EXTRA => extra instr
  | NONE => -1
  end.

(** [None] would be an access outside the table. *)
Definition debug_line (pc : Z) (instr : Instruction) : option (list Z) :=
  str ← zlookup opStrings (opcode_number (opCode instr));
  Some (text "At PC = 0x" ++ hex pc ++ text ": " ++
        printf_d (text str.1) ((fun r => TypeToReg r instr) <$> str.2) ++ [10]).

(** * The two texts agree *)

(** ** The fields of an [int] and of the word *)

Lemma field_u32 w k n : 0 <= k -> 0 <= n -> k + n <= 32 ->
  Z.land (Z.shiftr (u32 w) k) (Z.ones n) = Z.land (Z.shiftr w k) (Z.ones n).
Proof.
  intros. unfold u32. rewrite <- Z.land_ones by lia. apply Z.bits_inj'. intros m Hm.
  rewrite !Z.land_spec, !Z.shiftr_spec, Z.land_spec by lia.
  destruct (decide (m < n)).
  - rewrite (Z.ones_spec_low 32) by lia. by rewrite andb_true_r.
  - rewrite (Z.ones_spec_high n) by lia. by rewrite !andb_false_r.
Qed.

Lemma rs_u32 w : rs (u32 w) = rs w.
Proof. apply (field_u32 w 21 5); lia. Qed.
Lemma rt_u32 w : rt (u32 w) = rt w.
Proof. apply (field_u32 w 16 5); lia. Qed.
Lemma rd_u32 w : rd (u32 w) = rd w.
Proof. apply (field_u32 w 11 5); lia. Qed.
Lemma shamt_u32 w : shamt (u32 w) = shamt w.
Proof. apply (field_u32 w 6 5); lia. Qed.

Lemma field_range w k : 0 <= Z.land (Z.shiftr w k) 0x1f < 32.
Proof. apply (land_ones_bound _ 5). lia. Qed.

Lemma immed_range w : - 2 ^ 15 <= immed w < 2 ^ 15 /\ immed w mod 2 ^ 16 = w mod 2 ^ 16.
Proof.
  unfold immed. change 0x8000 with (2 ^ 15). rewrite flag_pow2, Z.testbit_odd, Z.shiftr_div_pow2 by lia.
  change 0x7fff with (Z.ones 15). rewrite Z.land_ones by lia.
  assert (Z.lor w (-0x8000) = -1 - (-1 - w) mod 2 ^ 15) as ->.
  { change (-0x8000) with (Z.lnot (Z.ones 15)).
    rewrite <- (Z.lnot_involutive w) at 1. rewrite <- Z.lnot_land, Z.land_ones by lia.
    unfold Z.lnot. rewrite <- Z.add_opp_r. replace (Z.pred (- w)) with (-1 - w) by lia. lia. }
  pose proof (Zmod_odd (w / 2 ^ 15)) as Ho. destruct (Z.odd (w / 2 ^ 15)); split; dlia.
Qed.

Lemma immed_extra w : immed w = decode_extra IFMT (u32 w).
Proof.
  destruct (immed_range w) as [Hr Hm]. unfold decode_extra.
  change 0xffff with (Z.ones 16). rewrite Z.land_ones by lia.
  replace (u32 w mod 2 ^ 16) with (immed w mod 2 ^ 16) by (rewrite Hm; unfold u32; dlia).
  symmetry. by apply sign_extend.
Qed.

(** The field that selects among the BCOND instructions. *)
Lemma bcond_field w : Z.land (u32 w) 0x1f0000 = rt w * 2 ^ 16.
Proof.
  rewrite <- rt_u32. unfold rt. rewrite <- Z.shiftl_mul_pow2, Z.shiftl_land by lia.
  change 0x1f0000 with (Z.shiftl 0x1f 16). rewrite <- Z.ldiff_ones_r by lia.
  apply Z.bits_inj'. intros k Hk. rewrite !Z.land_spec, Z.ldiff_spec.
  destruct (decide (k < 16)); [rewrite (Z.shiftl_spec_low 31) by lia; by rewrite !andb_false_r|].
  by rewrite Z.ones_spec_high, andb_true_r by lia.
Qed.

Lemma shamt_extra w : shamt w = decode_extra RFMT (u32 w).
Proof. symmetry. apply shamt_u32. Qed.

Lemma R_total w k : exists t, R (Z.land (Z.shiftr w k) 0x1f) = Some t.
Proof.
  destruct (proj2 (zlookup_is_Some regstrings (Z.land (Z.shiftr w k) 0x1f)) (field_range w k)) as [s E].
  exists (text s). unfold R. by rewrite E.
Qed.

(** Decoding, from the opcode on. *)
Lemma opcode_range w : 0 <= u32 w / 2 ^ 26 < 64.
Proof. pose proof (u32_range w). unfold is_u32 in *. dlia. Qed.

Lemma Decode_opcode w e :
  zlookup opTable (u32 w / 2 ^ 26) = Some e ->
  Instruction_Decode (u32 w) =
    (op ← decode_opcode e.1 (u32 w);
     Some (mkInstruction (u32 w) op (rs w) (rt w) (rd w) (decode_extra e.2 (u32 w)))).
Proof.
  intros E. unfold Instruction_Decode. change 0x3f with (Z.ones 6).
  rewrite field, (Z.mod_small _ (2 ^ 6)) by (try apply opcode_range; lia). rewrite E.
  destruct e as [op f]. simpl. rewrite <- rs_u32, <- rt_u32, <- rd_u32. done.
Qed.

(** A statement about the numbers below [n] is a list of statements. *)
Lemma below (P : Z -> Prop) n : Forall P (seqZ 0 n) -> forall o, 0 <= o < n -> P o.
Proof.
  intros H o Ho. rewrite Forall_forall in H. apply H, list_elem_of_In, elem_of_seqZ. lia.
Qed.

(** ** What the two lines have in common

    Both print the name of an operation and its operands: the simulator in
    capitals, with the numbers of the registers and everything in decimal, the
    tools in small letters, with the names of the registers, immediates in
    hexadecimal, and for a branch or a jump the address it continues at instead
    of the number in the instruction. *)

Inductive piece :=
| Chars (s : list Z)
| Reg (r : Z)
| Imm (z : Z)
| Disp (z : Z)
| Target (i : Instruction).

(** The address of the instruction behind the one at [pc], and the one at
    which a branch that is taken continues. *)
Definition next_pc (pc : Z) : Z := i32 (pc + 4).
Definition taken_pc (pc imm : Z) : Z := i32 (next_pc pc + IndexToAddr imm).

Definition sim_piece (p : piece) : list Z :=
  match p with
  | Chars s => s
  | Reg r => text "r" ++ decimal r
  | Imm z | Disp z => decimal z
  | Target i => decimal (extra i)
  end.

Definition tool_piece (pc : Z) (p : piece) : option (list Z) :=
  match p with
  | Chars s => Some s
  | Reg r => R r
  | Imm z => Some (text "0x" ++ hex z)
  | Disp z => Some (hex8 (taken_pc pc z))
  | Target i => Some (hex8 (jump_target i (next_pc (next_pc pc))))
  end.

Definition lower (c : Z) : Z := if (65 <=? c) && (c <=? 90) then c + 32 else c.

Definition sim_line (pc : Z) (name : list Z) (ps : list piece) : list Z :=
  text "At PC = 0x" ++ hex pc ++ text ": " ++ name ++
  (match ps with [] => [] | _ => text " " ++ mjoin (sim_piece <$> ps) end) ++ [10].

Definition tool_line (w pc : Z) (name : list Z) (ps : list piece) : option (list Z) :=
  cat ([Some (hex8 pc); lit ": "; Some (hex8 w); lit "  "; tab; Some (lower <$> name); tab] ++
       (tool_piece pc <$> ps)).

(** J and JAL stay in the region of 2^28 bytes of the instruction. *)
Definition same_region (pc : Z) : Prop := top4 pc = top4 (next_pc (next_pc pc)).

Lemma hex8_word x y : u32 x = u32 y -> hex8 x = hex8 y.
Proof. unfold u32, hex8, hex. intros ->. done. Qed.

Lemma target_text w pc : hex8 (branch_target w pc) = hex8 (taken_pc pc (immed w)).
Proof.
  apply hex8_word. unfold branch_target, off16, taken_pc, next_pc, IndexToAddr, u32, i32. dlia.
Qed.

Lemma land_ones_u32 w n : 0 <= n <= 32 -> Z.land (u32 w) (Z.ones n) = Z.land w (Z.ones n).
Proof. intros. pose proof (field_u32 w 0 n) as H'. rewrite !Z.shiftr_0_r in H'. apply H'; lia. Qed.

(** The top four bits of an address, as a signed or an unsigned number. *)
Lemma top4_u32 q b : 0 <= b < 2 ^ 28 -> u32 (Z.lor (top4 q) b) = u32 (Z.lor (Z.land (u32 q) 0xf0000000) b).
Proof.
  intros Hb. unfold u32 at 1 2. rewrite <- !Z.land_ones by lia. apply Z.bits_inj'. intros k Hk.
  rewrite !Z.land_spec, !Z.lor_spec. destruct (decide (k < 32)).
  2: { by rewrite Z.ones_spec_high, !andb_false_r by lia. }
  do 2 f_equal. unfold top4. change (Z.shiftl 1 28 - 1) with (Z.ones 28).
  change 0xf0000000 with (Z.shiftl (Z.ones 4) 28).
  rewrite !Z.land_spec, Z.lnot_spec by lia. unfold u32. rewrite Z.mod_pow2_bits_low by lia. f_equal.
  destruct (decide (k < 28)).
  - rewrite Z.ones_spec_low, Z.shiftl_spec_low by lia. done.
  - rewrite Z.ones_spec_high, Z.shiftl_spec, Z.ones_spec_low by lia. done.
Qed.

Lemma jump_text i w pc :
  same_region pc -> extra i = Z.land (u32 w) 0x3ffffff ->
  hex8 (Z.lor (top4 pc) (off26 w)) = hex8 (jump_target i (next_pc (next_pc pc))).
Proof.
  intros Hr He. apply hex8_word. rewrite Hr. unfold jump_target, IndexToAddr, off26. rewrite u32_i32, He.
  change (Z.shiftl 1 26 - 1) with (Z.ones 26). change 0x3ffffff with (Z.ones 26). rewrite land_ones_u32 by lia.
  pose proof (land_ones_bound w 26 ltac:(lia)) as Hb. rewrite Z.shiftl_mul_pow2 by lia.
  rewrite i32_id by (unfold is_i32; lia). rewrite (u32_id (_ * 2 ^ 2)) by (unfold is_u32; lia).
  apply top4_u32. lia.
Qed.

(** What the two programs print for the instruction [i] in the word [w] at [pc];
    [printed] is the line of the tools. *)
Definition prints (w pc : Z) (i : Instruction) (printed : option (list Z)) (name : list Z)
    (tool sim : list piece) : Prop :=
  debug_line pc i = Some (sim_line pc name sim) /\ printed = tool_line w pc name tool.

Definition agrees (w pc : Z) (i : Instruction) (printed : option (list Z)) : Prop :=
  let prints := prints w pc i printed in
  let rs := Reg (Mips.rs i) in
  let rt := Reg (Mips.rt i) in
  let rd := Reg (Mips.rd i) in
  let comma := Chars (text ",") in
  match opCode i with
  (* in the other order *)
  | OP_BEQ => prints (text "BEQ") [rt; comma; rs; comma; Disp (extra i)] [rs; comma; rt; comma; Disp (extra i)]
  | OP_BNE => prints (text "BNE") [rt; comma; rs; comma; Disp (extra i)] [rs; comma; rt; comma; Disp (extra i)]
  (* without operands *)
  | OP_BLEZ => prints (text "BLEZ") [] [rs; comma; Disp (extra i)]
  | OP_BGTZ => prints (text "BGTZ") [] [rs; comma; Disp (extra i)]
  (* the register field that is not used *)
  | OP_MFLO => prints (text "MFLO") [rs] [rd]
  | OP_MTHI => prints (text "MTHI") [rd] [rs]
  (* one register, or two *)
  | OP_JALR => prints (text "JALR") [rs] [rd; comma; rs]
  | OP_JR => prints (text "JR") [rs] [rd; comma; rs]
  | OP_J => same_region pc -> prints (text "J") [Target i] [Target i]
  | OP_JAL => same_region pc -> prints (text "JAL") [Target i] [Target i]
  | OP_SLL =>
      if decide (w = 0) then
        debug_line pc i = Some (sim_line pc (text "SLL") [Reg 0; comma; Reg 0; comma; Imm 0]) /\
        printed = Some (hex8 pc ++ text ": 00000000  " ++ [9] ++ text "nop")
      else prints (text "SLL") [rd; comma; rt; comma; Imm (extra i)] [rd; comma; rt; comma; Imm (extra i)]
  (* what the simulator does not have *)
  | OP_RES => debug_line pc i = Some (sim_line pc (text "Reserved") [])
  | OP_UNIMP => debug_line pc i = Some (sim_line pc (text "Unimplemented") [])
  | _ => exists name ps, prints name ps ps
  end.

(** Where the format of opStrings and its operands give the pieces. *)
Fixpoint split_format (fmt : list Z) : list Z * list Z :=
  match fmt with
  | [] => ([], [])
  | c :: fmt => if c =? 32 then ([], fmt) else let '(m, f) := split_format fmt in (c :: m, f)
  end.

Fixpoint fill (fmt : list Z) (ops : list piece) : list piece :=
  match fmt, ops with
  | 114 :: 37 :: 100 :: fmt', o :: ops' => o :: fill fmt' ops'
  | 37 :: 100 :: fmt', o :: ops' => o :: fill fmt' ops'
  | c :: fmt', _ => Chars [c] :: fill fmt' ops
  | [], _ => []
  end.

Definition pieces (i : Instruction) (disp : Z -> piece) : list Z * list piece :=
  match zlookup opStrings (opcode_number (opCode i)) with
  | Some (fmt, regs) =>
      let '(m, f) := split_format (text fmt) in
      (m, fill f ((fun r => match r with EXTRA => disp (extra i) | _ => Reg (TypeToReg r i) end) <$> regs))
  | None => ([], [])
  end.

(** Split a statement about the numbers below [n]. *)
Ltac each_below :=
  match goal with
  | |- Forall _ (seqZ 0 ?n) =>
      let l := eval vm_compute in (seqZ 0 n) in change (seqZ 0 n) with l;
      repeat (apply Forall_cons_2; [|]); [..|by apply Forall_nil_2]
  end.

(** Compute both lines; what is printed of registers and numbers stays. *)
Ltac text_norm := cbv -[hex8 hex decimal R rs rt rd shamt immed is_Some app u32 i32 same_region
  branch_target taken_pc next_pc jump_target top4 off26 Z.lor Z.land decide not].
Ltac text_case :=
  text_norm; repeat match goal with H : R _ = Some _ |- _ => rewrite H; clear H end; text_norm; cbn [app];
  rewrite <- ?app_assoc, ?target_text; cbn [app]; by rewrite ?app_nil_r.

(** The pieces of the lines that agree. *)
Ltac give_pieces disp :=
  match goal with
  | |- exists name ps, prints _ _ ?i _ name ps ps =>
      exists (pieces i disp).1, (pieces i disp).2
  | _ => idtac
  end.
Ltac agree_case disp :=
  split; [eexists; text_case|]; unfold agrees; cbn [opCode];
  try (intros Hregion; split; [text_case|text_norm; rewrite <- (jump_text _ _ _ Hregion) by done; cbn [app]; by rewrite ?app_nil_r]);
  try (rewrite decide_False by done);
  give_pieces disp; try (split; [text_case|]); text_case.

Lemma normal_decode o e v : 2 <= o < 64 -> zlookup opTable o = Some e -> decode_opcode e.1 v = Some e.1.
Proof.
  intros Ho E. assert (0 <= o < 64) as Ho' by lia. revert o Ho' Ho e E.
  apply (below (fun o => 2 <= o < 64 -> forall e, zlookup opTable o = Some e -> _)).
  each_below; intros Ho e [= <-]; try (exfalso; lia); done.
Qed.

Section Lines.
Context (w pc : Z) (Hw : w <> 0) (ts tt td : list Z).
Context (Es : R (rs w) = Some ts) (Et : R (rt w) = Some tt) (Ed : R (rd w) = Some td).

Definition header : list (option (list Z)) := [Some (hex8 pc); lit ": "; Some (hex8 w); lit "  "; tab].

Lemma special_agrees o op : 0 <= o < 64 -> o = Z.land w 0x3f -> zlookup specialTable o = Some op ->
  let printed := cat (header ++ [dump_special w]) in
  is_Some printed /\ agrees w pc (mkInstruction (u32 w) op (rs w) (rt w) (rd w) (shamt w)) printed.
Proof.
  intros Ho. revert o Ho op. apply (below (fun o => forall op, o = Z.land w 63 -> zlookup specialTable o = Some op -> _)).
  each_below; intros op Eo [= <-]; unfold dump_special; rewrite <- Eo.
  all: agree_case Imm.
Qed.

Lemma bcond_agrees op : decode_opcode BCOND (u32 w) = Some op ->
  let printed := cat (header ++ [dump_bcond w pc]) in
  is_Some printed /\ agrees w pc (mkInstruction (u32 w) op (rs w) (rt w) (rd w) (immed w)) printed.
Proof.
  unfold decode_opcode. rewrite decide_False, decide_True by done.
  rewrite bcond_field.
  pose proof (field_range w 16) as Hr. fold (rt w) in Hr. unfold dump_bcond.
  revert Hr Et. generalize (rt w). intros o Ho. revert o Ho op. apply (below (fun o => forall op, R o = Some tt -> _ -> _)).
  each_below; intros op Et [= <-].
  all: agree_case Disp.
Qed.

Lemma normal_agrees o e : 2 <= o < 64 -> zlookup opTable o = Some e ->
  let printed := cat (header ++ [dump_normal o w pc]) in
  is_Some printed /\
  agrees w pc (mkInstruction (u32 w) e.1 (rs w) (rt w) (rd w)
            match e.2 with IFMT => immed w | JFMT => Z.land (u32 w) 0x3ffffff | RFMT => shamt w end) printed.
Proof.
  intros Ho E. assert (0 <= o < 64) as Ho' by lia. revert o Ho' Ho e E.
  apply (below (fun o => 2 <= o < 64 -> forall e, zlookup opTable o = Some e -> _)).
  each_below; intros Ho e [= <-].
  all: try (exfalso; lia).
  all: unfold dump_normal; cbn [fst snd]; agree_case Imm.
Qed.
End Lines.

(** ** Properties *)


(** lw r2, 16(sp) and jr ra at address 64, in both notations. *)
Example lw_printed :
  dump_ascii (assemble_i 35 29 2 16) 64 =
    tool_line (assemble_i 35 29 2 16) 64 (text "LW") [Reg 2; Chars (text ","); Imm 16; Chars (text "("); Reg 29; Chars (text ")")] /\
  dump_ascii (assemble_i 35 29 2 16) 64 = Some (text "00000040: 8fa20010  " ++ [9] ++ text "lw" ++ [9] ++ text "r2,0x10(sp)").
Proof. done. Qed.

(** The registers that are printed for MFLO and MTHI are those of the fields
    that these instructions do not use. *)
Example MFLO_MTHI_printed :
  dump_ascii (assemble_r 0 0 7 0 18) 0 = Some (text "00000000: 00003812  " ++ [9] ++ text "mflo" ++ [9] ++ text "0") /\
  dump_ascii (assemble_r 7 0 0 0 17) 0 = Some (text "00000000: 00e00011  " ++ [9] ++ text "mthi" ++ [9] ++ text "0").
Proof. done. Qed.
