(* ===== verification/Disk.v ===== *)
(** * machine/disk.cc: the simulated disk

    A disk whose sectors are kept in a UNIX file, with one request at a time,
    a completion interrupt after a latency computed from the position of the
    head and the track buffer. The UNIX file is a byte string; its
    [read], [write] and [lseek] are those of POSIX. *)

From Stdlib Require Import Sorted Permutation.
From stdpp Require Import base tactics list.
From S2P Require Import Prelude Lists Interrupt Machine.

Local Open Scope Z_scope.

Definition SectorsPerTrack : Z := 32.
Definition NumTracks : Z := 32.
Definition NumSectors : Z := SectorsPerTrack * NumTracks.
Definition MagicNumber : Z := 0x456789ab.
Definition MagicSize : Z := 4.
Definition DiskSize : Z := MagicSize + NumSectors * SectorSize.

(** [file] is the contents of the UNIX file. *)
Record Disk := mkDisk {
  file : list Z;
  active : bool;
  lastSector : Z;
  bufferInit : Z
}.

Definition set_active v (d : Disk) := mkDisk (file d) v (lastSector d) (bufferInit d).
Definition set_file v (d : Disk) := mkDisk v (active d) (lastSector d) (bufferInit d).

(** Lseek followed by Read or WriteFile: a short read fails the ASSERT of
    Read, a write past the end extends the file. *)
Definition unix_read (off n : Z) (f : list Z) : option (list Z) :=
  if off + n <=? zlength f then Some (slice off n f) else None.
Definition unix_write (off : Z) (bs f : list Z) : list Z :=
  let padded := f ++ replicate (Z.to_nat (off + zlength bs - zlength f)) 0 in
  splice off bs padded.

(** Disk::Disk: [existing] is the contents of the UNIX file if there is one. *)
Definition Disk_new (be : bool) (existing : option (list Z)) : outcome Disk :=
  match existing with
  | Some f =>
      match unix_read 0 MagicSize f with
      | Some bs =>
          if host_load be bs =? MagicNumber then Ok (mkDisk f false 0 0) else Aborted
      | None => Aborted
      end
  | None =>
      let f := unix_write 0 (host_store be 4 MagicNumber) [] in
      Ok (mkDisk (unix_write (DiskSize - 4) (host_store be 4 0) f) false 0 0)
  end.

Definition Disk_ModuloDiff (to from : Z) : Z :=
  let toOffset := Z.rem to SectorsPerTrack in
  let fromOffset := Z.rem from SectorsPerTrack in
  Z.rem (toOffset - fromOffset + SectorsPerTrack) SectorsPerTrack.

(** The seek time and the rotation to the next sector boundary; [ticks] is
    stats->totalTicks. *)
Definition Disk_TimeToSeek (d : Disk) (ticks newSector : Z) : Z * Z :=
  let newTrack := Z.quot newSector SectorsPerTrack in
  let oldTrack := Z.quot (lastSector d) SectorsPerTrack in
  let seek := Z.abs (newTrack - oldTrack) * SeekTime in
  let over := Z.rem (i32 (ticks + seek)) RotationTime in
  (seek, if over >? 0 then RotationTime - over else 0).

Definition Disk_ComputeLatency (d : Disk) (ticks newSector : Z) (writing : bool) : Z :=
  let '(seek, rotation) := Disk_TimeToSeek d ticks newSector in
  let timeAfter := i32 (ticks + seek + rotation) in
  if negb writing && (seek =? 0) &&
     (Z.quot (i32 (timeAfter - bufferInit d)) RotationTime >?
      Disk_ModuloDiff newSector (Z.quot (bufferInit d) RotationTime))
  then RotationTime
  else
    let rotation' :=
      rotation + Disk_ModuloDiff newSector (Z.quot timeAfter RotationTime) * RotationTime in
    seek + rotation' + RotationTime.

Definition Disk_UpdateLast (ticks newSector : Z) (d : Disk) : Disk :=
  let '(seek, rotate) := Disk_TimeToSeek d ticks newSector in
  mkDisk (file d) (active d) newSector
    (if negb (seek =? 0) then i32 (ticks + seek + rotate) else bufferInit d).

Section Requests.
Context {X : Type} `{!Lens Disk X}.

Definition on_disk (f : Disk -> Disk) : M (Sim X) unit :=
  modify (on_rest (fun x => lset (f (lget x)) x)).
Definition get_disk : M (Sim X) Disk := gets (fun s => lget (rest s)).
Definition get_ticks : M (Sim X) Z := gets (fun s => totalTicks (stats s)).

(** The checks of a request, what it leaves in the disk and the interrupt. *)
Definition begin_request (sectorNumber : Z) (writing : bool) : M (Sim X) Z :=
  d <- get_disk ;;
  t <- get_ticks ;;
  let ticks := Disk_ComputeLatency d t sectorNumber writing in
  ASSERT (negb (active d)) ;;;
  ASSERT ((sectorNumber >=? 0) && (sectorNumber <? NumSectors)) ;;;
  ret ticks.
Definition end_request (sectorNumber ticks : Z) (count : Statistics -> Statistics) : M (Sim X) unit :=
  on_disk (set_active true) ;;;
  t <- get_ticks ;;
  on_disk (Disk_UpdateLast t sectorNumber) ;;;
  modify (on_stats count) ;;;
  Interrupt_Schedule DiskDone 0 ticks DiskInt.

Definition count_read (st : Statistics) : Statistics :=
  mkStats (totalTicks st) (idleTicks st) (systemTicks st) (userTicks st)
    (i32 (numDiskReads st + 1)) (numDiskWrites st) (numConsoleCharsRead st)
    (numConsoleCharsWritten st) (numPageFaults st) (numPacketsSent st) (numPacketsRecvd st).
Definition count_write (st : Statistics) : Statistics :=
  mkStats (totalTicks st) (idleTicks st) (systemTicks st) (userTicks st)
    (numDiskReads st) (i32 (numDiskWrites st + 1)) (numConsoleCharsRead st)
    (numConsoleCharsWritten st) (numPageFaults st) (numPacketsSent st) (numPacketsRecvd st).

(** The result is what is left in the caller's buffer. *)
Definition Disk_ReadRequest (sectorNumber : Z) : M (Sim X) (list Z) :=
  ticks <- begin_request sectorNumber false ;;
  d <- get_disk ;;
  match unix_read (SectorSize * sectorNumber + MagicSize) SectorSize (file d) with
  | None => abort
  | Some data => end_request sectorNumber ticks count_read ;;; ret data
  end.

Definition Disk_WriteRequest (sectorNumber : Z) (data : list Z) : M (Sim X) unit :=
  ticks <- begin_request sectorNumber true ;;
  on_disk (fun d => set_file
    (unix_write (SectorSize * sectorNumber + MagicSize) (slice 0 SectorSize data) (file d)) d) ;;;
  end_request sectorNumber ticks count_write.

(** [done] is the routine to call when a request completes. *)
Definition Disk_HandleInterrupt (done : M (Sim X) unit) : M (Sim X) unit :=
  on_disk (set_active false) ;;; done.
End Requests.

(** * Correctness *)

(** The contents of a sector of the UNIX file. *)
Definition sector_of (d : Disk) (n : Z) : list Z :=
  slice (SectorSize * n + MagicSize) SectorSize (file d).

Record disk_wf (d : Disk) : Prop := {
  wf_file : zlength (file d) = DiskSize;
  wf_last : 0 <= lastSector d < NumSectors;
  wf_buffer : 0 <= bufferInit d
}.

Lemma ModuloDiff_range to from :
  0 <= to -> 0 <= from -> 0 <= Disk_ModuloDiff to from < SectorsPerTrack /\
  (from + Disk_ModuloDiff to from) mod SectorsPerTrack = to mod SectorsPerTrack.
Proof.
  intros. unfold Disk_ModuloDiff, SectorsPerTrack.
  rewrite (Z.rem_mod_nonneg to), (Z.rem_mod_nonneg from) by lia.
  rewrite Z.rem_mod_nonneg by dlia. dlia.
Qed.

(** The largest latency: a seek across the disk, a full rotation to align, a
    full track of rotation and the transfer. *)
Definition max_latency : Z := 31 * SeekTime + RotationTime + 31 * RotationTime + RotationTime.

Lemma TimeToSeek_range d ticks n :
  0 <= lastSector d < NumSectors -> 0 <= n < NumSectors ->
  0 <= ticks -> ticks + max_latency < 2 ^ 31 ->
  let '(seek, rotation) := Disk_TimeToSeek d ticks n in
  0 <= seek <= 31 * SeekTime /\ 0 <= rotation < RotationTime /\
  (ticks + seek + rotation) mod RotationTime = 0.
Proof.
  intros Hl Hn Ht Hm. unfold Disk_TimeToSeek, NumSectors, NumTracks, SectorsPerTrack, max_latency,
    SeekTime, RotationTime in *.
  rewrite !Z.quot_div_nonneg by lia.
  set (seek := Z.abs _ * 500). assert (0 <= seek <= 15500) by (unfold seek; dlia).
  rewrite i32_id by (unfold is_i32; lia). rewrite Z.rem_mod_nonneg by lia. rewrite Z.gtb_ltb.
  split; [lia|]. destruct (Z.ltb_spec 0 ((ticks + seek) mod 500)); dlia.
Qed.

Lemma ComputeLatency_range d ticks n w :
  disk_wf d -> 0 <= n < NumSectors -> 0 <= ticks -> ticks + max_latency < 2 ^ 31 ->
  RotationTime <= Disk_ComputeLatency d ticks n w <= max_latency.
Proof.
  intros [_ Hl Hb] Hn Ht Hm. unfold Disk_ComputeLatency.
  pose proof (TimeToSeek_range d ticks n Hl Hn Ht Hm) as HT.
  destruct (Disk_TimeToSeek d ticks n) as [seek rotation]. destruct HT as (Hs & Hr & _).
  case_match; [unfold max_latency, RotationTime, SeekTime in *; lia|].
  assert (i32 (ticks + seek + rotation) = ticks + seek + rotation) as ->.
  { apply i32_id. unfold is_i32, max_latency, RotationTime, SeekTime in *. lia. }
  assert (0 <= Z.quot (ticks + seek + rotation) RotationTime) as Hq.
  { apply Z.quot_pos; [lia|done]. }
  destruct (ModuloDiff_range n _ ltac:(lia) Hq) as [Hd _].
  unfold max_latency, RotationTime, SeekTime, SectorsPerTrack in *. lia.
Qed.

(** Writing a sector changes that sector and no other. *)
Lemma sector_write d n data j :
  zlength (file d) = DiskSize -> 0 <= n < NumSectors -> 0 <= j < NumSectors -> zlength data = SectorSize ->
  let d' := set_file (unix_write (SectorSize * n + MagicSize) data (file d)) d in
  zlength (file d') = DiskSize /\
  sector_of d' j = if decide (j = n) then data else sector_of d j.
Proof.
  intros Hl Hn Hj Hd d'. subst d'. unfold sector_of, unix_write. simpl.
  replace (Z.to_nat (SectorSize * n + MagicSize + zlength data - zlength (file d))) with 0%nat.
  2: { rewrite Hl, Hd. unfold DiskSize, NumSectors, NumTracks, SectorsPerTrack, MagicSize, SectorSize in *. lia. }
  simpl. rewrite app_nil_r.
  assert (SectorSize * n + MagicSize + zlength data <= zlength (file d)) as Hfit.
  { rewrite Hl, Hd. unfold DiskSize, NumSectors, NumTracks, SectorsPerTrack, MagicSize, SectorSize in *. lia. }
  assert (0 <= SectorSize * n + MagicSize) as H0 by (unfold MagicSize, SectorSize in *; lia).
  split; [by rewrite zlength_splice|].
  case_decide as E.
  - subst j. rewrite <- Hd at 2. by apply slice_splice_same.
  - apply slice_splice_disjoint; try done; unfold MagicSize, SectorSize in *; lia.
Qed.

Lemma UpdateLast_wf d ticks n :
  disk_wf d -> 0 <= n < NumSectors -> 0 <= ticks -> ticks + max_latency < 2 ^ 31 ->
  disk_wf (Disk_UpdateLast ticks n d) /\ file (Disk_UpdateLast ticks n d) = file d.
Proof.
  intros [Hf Hl Hb] Hn Ht Hm. unfold Disk_UpdateLast.
  pose proof (TimeToSeek_range d ticks n Hl Hn Ht Hm) as HT.
  destruct (Disk_TimeToSeek d ticks n) as [seek rotation]. destruct HT as (Hs & Hr & _).
  split; [|done]. constructor; simpl; try done. case_match; [|done].
  rewrite i32_id; [lia|]. unfold is_i32, max_latency, RotationTime, SeekTime in *. lia.
Qed.

(** What a request leaves behind. *)
Record requested {X} `{!Lens Disk X} (s s' : Sim X) (n latency : Z) : Prop := {
  req_wf : disk_wf (lget (rest s'));
  req_active : active (lget (rest s')) = true;
  req_last : lastSector (lget (rest s')) = n;
  req_ticks : same_ticks (stats s) (stats s');
  req_pending : pending (intr s') =
    sorted_insert (mkPending DiskDone 0 (now s + latency) DiskInt) (now s + latency) (pending (intr s));
  req_latency : RotationTime <= latency <= max_latency
}.

Section Runs.
Context {X : Type} `{!Lens Disk X}.

Lemma begin_request_run (s : Sim X) n w :
  begin_request n w s =
  if active (lget (rest s)) || negb ((0 <=? n) && (n <? NumSectors)) then Aborted
  else Ok (Disk_ComputeLatency (lget (rest s)) (now s) n w, s).
Proof.
  unfold begin_request, get_disk, get_ticks. munfold.
  destruct (active (lget (rest s))); [done|]. simpl. rewrite Z.geb_leb.
  by destruct ((0 <=? n) && (n <? NumSectors)).
Qed.

Lemma end_request_run (s : Sim X) n latency count :
  disk_wf (lget (rest s)) -> 0 <= n < NumSectors -> 0 <= now s -> now s + max_latency < 2 ^ 31 ->
  RotationTime <= latency <= max_latency ->
  same_ticks (stats s) (count (stats s)) ->
  exists s', end_request n latency count s = Ok (tt, s') /\ requested s s' n latency /\
    file (lget (rest s')) = file (lget (rest s)).
Proof.
  intros Hd Hn H0 Hm Hl Hc. unfold end_request, on_disk, get_ticks, Interrupt_Schedule.
  set (d := lget (rest s)) in *.
  assert (disk_wf (set_active true d)) as Hd1 by (by destruct Hd; constructor).
  destruct (UpdateLast_wf (set_active true d) (now s) n Hd1 Hn H0 Hm) as [Hd2 Hf].
  assert (totalTicks (count (stats s)) = now s) as Hn' by apply Hc.
  munfold. simpl. rewrite Hn', Z.gtb_ltb, (proj2 (Z.ltb_lt 0 latency)) by (unfold RotationTime in *; lia).
  cbn. rewrite i32_id by (unfold is_i32, RotationTime in *; lia).
  eexists. split; [reflexivity|]. split; [|simpl; by rewrite !lget_lset].
  constructor; simpl; rewrite ?lget_lset; try done.
Qed.

(** A disk request: while no other request is in progress, ReadRequest gives
    the contents of the sector and WriteRequest replaces them, leaving every
    other sector as it was; either way the disk becomes busy and a completion
    interrupt is scheduled after a latency of one sector time to a full seek
    and two rotations. A request to a busy disk, or outside the disk, fails an
    ASSERT. *)
Theorem Disk_requests (s : Sim X) (n : Z) (data : list Z) :
  disk_wf (lget (rest s)) -> zlength data = SectorSize ->
  0 <= now s -> now s + max_latency < 2 ^ 31 ->
  if decide (active (lget (rest s)) = false /\ 0 <= n < NumSectors) then
    (exists s' l, Disk_ReadRequest n s = Ok (sector_of (lget (rest s)) n, s') /\
       requested s s' n l /\ file (lget (rest s')) = file (lget (rest s))) /\
    (exists s' l, Disk_WriteRequest n data s = Ok (tt, s') /\ requested s s' n l /\
       forall j, 0 <= j < NumSectors ->
         sector_of (lget (rest s')) j = if decide (j = n) then data else sector_of (lget (rest s)) j)
  else Disk_ReadRequest n s = Aborted /\ Disk_WriteRequest n data s = Aborted.
Proof.
  intros Hd Hdata H0 Hm. case_decide as Hok.
  - destruct Hok as [Ha Hn].
    pose proof (begin_request_run s n) as Hb. rewrite Ha in Hb. simpl in Hb.
    rewrite (proj2 (Z.leb_le 0 n)), (proj2 (Z.ltb_lt n NumSectors)) in Hb by lia. simpl in Hb.
    split.
    + pose proof (ComputeLatency_range (lget (rest s)) (now s) n false Hd Hn H0 Hm) as Hlat.
      destruct (end_request_run s n _ count_read Hd Hn H0 Hm Hlat) as (s' & E & HR & Hf); [by split_and!|].
      exists s'. eexists. unfold Disk_ReadRequest. mrun (Hb false).
      rewrite (bind_Ok get_disk _ s (lget (rest s)) s) by done.
      unfold unix_read. rewrite (proj2 (Z.leb_le _ _)).
      2: { rewrite (wf_file _ Hd). unfold DiskSize, NumSectors, NumTracks, SectorsPerTrack, MagicSize, SectorSize in *. lia. }
      mrun E. done.
    + pose proof (ComputeLatency_range (lget (rest s)) (now s) n true Hd Hn H0 Hm) as Hlat.
      set (d := lget (rest s)) in *.
      set (s1 := on_rest (fun x => lset (set_file (unix_write (SectorSize * n + MagicSize)
                   (slice 0 SectorSize data) (file (lget x))) (lget x)) x) s).
      assert (slice 0 SectorSize data = data) as Es
        by (unfold slice; apply take_ge; unfold zlength, SectorSize in *; simpl; lia).
      assert (lget (rest s1) = set_file (unix_write (SectorSize * n + MagicSize) data (file d)) d) as Ed
        by (unfold s1; simpl; by rewrite lget_lset, Es).
      assert (disk_wf (lget (rest s1))) as Hd1.
      { rewrite Ed. destruct (sector_write d n data n (wf_file _ Hd) Hn Hn Hdata) as [Hl _].
        destruct Hd. by constructor. }
      destruct (end_request_run s1 n _ count_write Hd1 Hn H0 Hm Hlat) as (s' & E & HR & Hf); [by split_and!|].
      exists s'. eexists. split; [|split].
      * unfold Disk_WriteRequest. mrun (Hb true). unfold on_disk at 1.
        rewrite (bind_Ok (modify _) _ s tt s1) by done. exact E.
      * destruct HR. by constructor.
      * intros j Hj.
        assert (sector_of (lget (rest s')) j = sector_of (lget (rest s1)) j) as ->
          by (unfold sector_of; by rewrite Hf).
        rewrite Ed.
        by destruct (sector_write d n data j (wf_file _ Hd) Hn Hj Hdata) as [_ ->].
  - unfold Disk_ReadRequest, Disk_WriteRequest, bind. rewrite !begin_request_run.
    replace (active (lget (rest s)) || negb ((0 <=? n) && (n <? NumSectors))) with true; [done|].
    destruct (active (lget (rest s))) eqn:Ea; [done|]. simpl. symmetry. apply negb_true_iff.
    apply andb_false_iff. rewrite Z.leb_gt, Z.ltb_ge. destruct (decide (0 <= n)); [|lia].
    destruct (decide (n < NumSectors)); [|lia]. by destruct Hok.
Qed.
End Runs.

(** A disk with [N] zero bytes of data. *)
Definition blank_disk (be : bool) (N : nat) : Disk :=
  mkDisk (host_store be 4 MagicNumber ++ replicate N 0) false 0 0.

Lemma blank_disk_wf be N : Z.of_nat N = NumSectors * SectorSize -> disk_wf (blank_disk be N).
Proof.
  intros HN. constructor; [|done|done]. unfold zlength, blank_disk. cbn [file].
  rewrite length_app, length_replicate, Nat2Z.inj_add, HN. by destruct be.
Qed.

Lemma blank_sector be N n :
  Z.of_nat N = NumSectors * SectorSize -> 0 <= n < NumSectors ->
  sector_of (blank_disk be N) n = replicate 128 0.
Proof.
  intros HN Hn. unfold sector_of, slice, blank_disk. cbn [file].
  assert (length (host_store be 4 MagicNumber) = 4%nat) as Hl by (by destruct be).
  unfold NumSectors, NumTracks, SectorsPerTrack, MagicSize, SectorSize in *.
  rewrite drop_app_ge by (rewrite Hl; lia).
  rewrite drop_replicate, take_replicate, Hl. f_equal. lia.
Qed.

(** Seeking near the end and writing zeros extends the file with zeros. *)
Lemma extend_zero (hd : list Z) k :
  unix_write (zlength hd + Z.of_nat k) [0; 0; 0; 0] hd = hd ++ replicate (k + 4) 0.
Proof.
  unfold unix_write, splice, zlength. simpl length.
  replace (Z.to_nat (Z.of_nat (length hd) + Z.of_nat k + Z.of_nat 4 - Z.of_nat (length hd))) with (k + 4)%nat by lia.
  replace (Z.to_nat (Z.of_nat (length hd) + Z.of_nat k)) with (length hd + k)%nat by lia.
  rewrite take_app_add', take_replicate by done.
  rewrite drop_ge by (rewrite length_app, length_replicate; lia).
  rewrite app_nil_r, <- app_assoc. f_equal. rewrite Nat.min_l by lia.
  by rewrite (replicate_add k 4).
Qed.

Lemma Disk_new_blank be : Disk_new be None = Ok (blank_disk be (Z.to_nat (NumSectors * SectorSize))).
Proof.
  unfold Disk_new, blank_disk. do 2 f_equal.
  assert (unix_write 0 (host_store be 4 MagicNumber) [] = host_store be 4 MagicNumber) as ->
    by (by destruct be).
  assert (host_store be 4 0 = [0; 0; 0; 0]) as -> by (by destruct be).
  replace (DiskSize - 4) with (zlength (host_store be 4 MagicNumber) + Z.of_nat (Z.to_nat (NumSectors * SectorSize - 4)))
    by (rewrite Z2Nat.id by done; by destruct be).
  rewrite extend_zero.
  assert (forall z, 4 <= z -> (Z.to_nat (z - 4) + 4 = Z.to_nat z)%nat) as -> by (intros; lia); done.
Qed.

(** A new disk: the file created for it is exactly as large as the disk, so
    that no sector read can fail, every sector is zero, and it is accepted when
    it is opened again; a file with another magic number is refused. *)
Theorem Disk_new_opens (be : bool) (f : list Z) :
  (exists d, Disk_new be None = Ok d /\ disk_wf d /\ active d = false /\
     (forall n, 0 <= n < NumSectors -> sector_of d n = replicate 128 0) /\
     Disk_new be (Some (file d)) = Ok d) /\
  (forall bs, unix_read 0 MagicSize f = Some bs -> host_load be bs <> MagicNumber ->
     Disk_new be (Some f) = Aborted).
Proof.
  split.
  - pose proof (Disk_new_blank be) as Ed.
    assert (Z.of_nat (Z.to_nat (NumSectors * SectorSize)) = NumSectors * SectorSize) as HN
      by (apply Z2Nat.id; done).
    revert Ed HN. generalize (Z.to_nat (NumSectors * SectorSize)). intros N Ed HN.
    exists (blank_disk be N). split; [done|]. split; [by apply blank_disk_wf|].
    split; [done|]. split; [intros n Hn; by apply blank_sector|].
    unfold Disk_new, unix_read.
    rewrite (proj2 (Z.leb_le _ _)) by (rewrite (wf_file _ (blank_disk_wf be N HN)); done).
    assert (slice 0 MagicSize (file (blank_disk be N)) = host_store be 4 MagicNumber) as ->
      by (by destruct be).
    by destruct be.
  - intros bs E Hne. unfold Disk_new. rewrite E. by rewrite (proj2 (Z.eqb_neq _ _) Hne).
Qed.

(** Witness: a fresh disk. *)
Definition fresh_disk : Disk := blank_disk false (Z.to_nat (NumSectors * SectorSize)).

Lemma fresh_disk_wf : disk_wf fresh_disk.
Proof.
  apply blank_disk_wf, Z2Nat.id. done.
Qed.

Definition disk_sim : Sim Disk := mkSim Interrupt_new (mkStats 1234 0 1234 0 0 0 0 0 0 0 0) fresh_disk.

Lemma Disk_requests_witness :
  Disk_ReadRequest 1024 disk_sim = Aborted /\
  exists s' l, Disk_ReadRequest 77 disk_sim = Ok (sector_of fresh_disk 77, s') /\
    RotationTime <= l <= max_latency.
Proof.
  pose proof (Disk_requests disk_sim 1024 (replicate 128 0) fresh_disk_wf) as H1.
  pose proof (Disk_requests disk_sim 77 (replicate 128 0) fresh_disk_wf) as H2.
  rewrite decide_False in H1 by (intros [_ [_ Hlt]]; by vm_compute in Hlt). rewrite decide_True in H2 by done. split.
  - by apply H1.
  - destruct H2 as [(s' & l & E & HR & _) _]; [done..|]. exists s', l. split; [exact E|]. by destruct HR.
Defined.
