(* ===== verification/Debug.v ===== *)
(** * The debugger of the machine (machine/machine.cc) and what is printed of
      the interrupt simulation (machine/interrupt.cc) at the end (stats.cc) and of a sector (disk.cc)

    Machine::Debugger shows the state and waits for a line of the user, who
    says when to stop next. What is printed and what is typed are part of the
    state here. *)

From Stdlib Require Import Ascii String.
From stdpp Require Import base tactics sets list numbers.
From S2P Require Import Prelude Lists Interrupt Machine Mips Text Disk.

Local Open Scope Z_scope.

(** ** The terminal *)

(** [shown] is what was printed, [typed] what the user has typed and nobody has
    read. *)
Record Session (K : Type) := mkSession { machine_state : K; typed : list Z; shown : list Z }.
Arguments mkSession {K} _ _ _.
Arguments machine_state {K} _.
Arguments typed {K} _.
Arguments shown {K} _.

Definition in_machine_state {K A} (m : M K A) : M (Session K) A := fun s =>
  obind (m (machine_state s)) (fun '(a, k) => Ok (a, mkSession k (typed s) (shown s))).
Definition printf {K} (t : list Z) : M (Session K) unit :=
  modify (fun s => mkSession (machine_state s) (typed s) (shown s ++ t)).

(** fgets(buf, size, stdin): a line with its end, at most [size - 1]
    characters, and a zero; nothing at the end of the input. *)
Fixpoint line (n : nat) (l : list Z) : list Z :=
  match n, l with
  | S n, c :: l => if c =? 10 then [c] else c :: line n l
  | _, _ => []
  end.
Definition fgets {K} (buf : list Z) (size : Z) : M (Session K) (list Z) :=
  s <- get ;;
  match line (Z.to_nat (size - 1)) (typed s) with
  | [] => ret buf
  | l =>
      put (mkSession (machine_state s) (drop (length l) (typed s)) (shown s)) ;;;
      ret (splice 0 (l ++ [0]) buf)
  end.

(** sscanf(buf, "%d", &num): white space, a sign, at least one digit. *)
Definition isspace (c : Z) : bool := (c =? 32) || ((9 <=? c) && (c <=? 13)).
Definition isdigit (c : Z) : bool := (48 <=? c) && (c <=? 57).
Fixpoint skip_spaces (l : list Z) : list Z :=
  match l with c :: l' => if isspace c then skip_spaces l' else l | [] => [] end.
Fixpoint digits_value (acc : Z) (l : list Z) : Z :=
  match l with c :: l => if isdigit c then digits_value (10 * acc + (c - 48)) l else acc | [] => acc end.
Definition unsigned_number (l : list Z) : option Z :=
  match l with c :: _ => if isdigit c then Some (digits_value 0 l) else None | [] => None end.
Definition scan_d (l : list Z) : option Z :=
  match skip_spaces l with
  | 45 :: l => Z.opp <$> unsigned_number l
  | 43 :: l => unsigned_number l
  | l => unsigned_number l
  end.

(** ** Interrupt::DumpState *)

Definition intLevelNames : list string := ["off"; "on"]%string.
Definition intTypeNames : list string :=
  ["timer"; "disk"; "console write"; "console read"; "network send"; "network recv"]%string.

(** The values of the enumerations. *)
Definition level_index (l : IntStatus) : Z := match l with IntOff => 0 | IntOn => 1 end.
Definition type_index (t : IntType) : Z :=
  match t with
  | TimerInt => 0 | DiskInt => 1 | ConsoleWriteInt => 2 | ConsoleReadInt => 3 | NetworkSendInt => 4 | NetworkRecvInt => 5
  end.

Definition name_of {S} (names : list string) (i : Z) : M S (list Z) := s <- must (zlookup names i) ;; ret (text s).

Definition PrintPending {K} (pend : PendingInterrupt) : M (Session K) unit :=
  name <- name_of intTypeNames (type_index (type pend)) ;;
  printf (text "Interrupt handler " ++ name ++ text ", scheduled at " ++ decimal (when_ pend) ++ [10]).

(** PrintSector of machine/disk.cc: the words of a sector. *)
Definition PrintSector {K} (HOST_IS_BIG_ENDIAN writing : bool) (sector : Z) (data : list Z) : M (Session K) unit :=
  printf (text (if writing then "Writing sector: " else "Reading sector: ") ++ decimal sector ++ [10]) ;;;
  for_ 0 (Z.to_nat (SectorSize / 4)) (fun i =>
    printf (hex (host_load HOST_IS_BIG_ENDIAN (slice (4 * i) 4 data)) ++ [32])) ;;;
  printf [10].

Fixpoint Mapcar {S A} (f : A -> M S unit) (l : list A) : M S unit :=
  match l with [] => ret tt | a :: l => f a ;;; Mapcar f l end.

Section Debugger.
Context {X : Type} `{!Lens Machine X}.
Abbreviation D := (M (Session (Sim X))).

Definition Interrupt_DumpState : D unit :=
  k <- gets machine_state ;;
  name <- name_of intLevelNames (level_index (level (intr k))) ;;
  printf (text "Time: " ++ decimal (totalTicks (stats k)) ++ text ", interrupts " ++ name ++ [10]) ;;;
  printf (text "Pending interrupts:" ++ [10]) ;;;
  Mapcar PrintPending (fst <$> pending (intr k)) ;;;
  printf (text "End of pending interrupts" ++ [10]).

(** ** Machine::DumpState *)

Definition machine_of (k : Sim X) : Machine := lget (rest k).
Definition register (i : Z) : D Z := k <- gets machine_state ;; must (zlookup (registers (machine_of k)) i).

Definition print_hex (label : string) (r : Z) (rest_ : list Z) : D unit :=
  v <- register r ;; printf (9 :: text label ++ [9] ++ text "0x" ++ hex v ++ rest_).

Definition dump_register (i : Z) : D unit :=
  v <- register i ;;
  let tail := text "0x" ++ hex v ++ (if i mod 4 =? 3 then [10] else []) in
  if i =? StackReg then printf (9 :: text "SP(" ++ decimal i ++ text "):" ++ [9] ++ tail)
  else if i =? RetAddrReg then printf (9 :: text "RA(" ++ decimal i ++ text "):" ++ [9] ++ tail)
  else printf (9 :: decimal i ++ text ":" ++ [9] ++ tail).

Definition Machine_DumpState : D unit :=
  printf (text "Machine registers:" ++ [10]) ;;;
  for_ 0 (Z.to_nat NumGPRegs) dump_register ;;;
  print_hex "Hi:" HiReg [] ;;;
  print_hex "Lo:" LoReg [10] ;;;
  print_hex "PC:" PCReg [] ;;;
  print_hex "NextPC:" NextPCReg [] ;;;
  print_hex "PrevPC:" PrevPCReg [10] ;;;
  print_hex "Load:" LoadReg [] ;;;
  print_hex "LoadV:" LoadValueReg [10] ;;;
  printf [10].

(** ** Statistics::Print *)

Definition count (label : string) (v : Z) : list Z := text label ++ decimal v.
Definition Statistics_Print : D unit :=
  k <- gets machine_state ;;
  let s := stats k in
  printf (count "Ticks: total " (totalTicks s) ++ count ", idle " (idleTicks s) ++ count ", system " (systemTicks s) ++
    count ", user " (userTicks s) ++ [10]) ;;;
  printf (count "Disk I/O: reads " (numDiskReads s) ++ count ", writes " (numDiskWrites s) ++ [10]) ;;;
  printf (count "Console I/O: reads " (numConsoleCharsRead s) ++ count ", writes " (numConsoleCharsWritten s) ++ [10]) ;;;
  printf (count "Paging: faults " (numPageFaults s) ++ [10]) ;;;
  printf (count "Network I/O: packets received " (numPacketsRecvd s) ++ count ", sent " (numPacketsSent s) ++ [10]).

(** ** Machine::Debugger *)

Definition set_singleStep v (m : Machine) :=
  mkMachine (mainMemory m) (registers m) (tlb m) (pageTable m) (pageTableSize m) (tables m) v (runUntilTime m).
Definition set_runUntilTime v (m : Machine) :=
  mkMachine (mainMemory m) (registers m) (tlb m) (pageTable m) (pageTableSize m) (tables m) (singleStep m) v.

Definition on_machine (f : Machine -> Machine) : D unit :=
  modify (fun s => mkSession (on_rest (fun x => lset (f (lget x)) x) (machine_state s)) (typed s) (shown s)).

Definition help : D unit :=
  printf (text "Machine commands:" ++ [10]) ;;;
  printf (text "    <return>  execute one instruction" ++ [10]) ;;;
  printf (text "    <number>  run until the given timer tick" ++ [10]) ;;;
  printf (text "    c         run until completion" ++ [10]) ;;;
  printf (text "    ?         print help message" ++ [10]).

(** The string in a buffer; without a zero it has no end. *)
Fixpoint string_in (buf : list Z) : option (list Z) :=
  match buf with
  | [] => None
  | c :: buf => if c =? 0 then Some [] else cons c <$> string_in buf
  end.

(** What Debugger does with the line. A number that is no int is undefined. *)
Definition command (buf : list Z) : D unit :=
  s <- must (string_in buf) ;;
  match scan_d s with
  | Some num => if bool_decide (is_i32 num) then on_machine (set_runUntilTime num) else undef
  | None =>
      on_machine (set_runUntilTime 0) ;;;
      c <- must (zlookup buf 0) ;;
      if c =? 10 then ret tt
      else if c =? 99 then on_machine (set_singleStep false)
      else if c =? 63 then help
      else ret tt
  end.

(** [garbage] is the memory of [new char[80]]. *)
Definition Debugger (garbage : list Z) : D unit :=
  Interrupt_DumpState ;;;
  Machine_DumpState ;;;
  k <- gets machine_state ;;
  printf (decimal (totalTicks (stats k)) ++ text "> ") ;;;
  buf <- fgets garbage 80 ;;
  command buf.

(** One turn of the loop of Machine::Run; [turn] is OneInstruction and OneTick. *)
Definition run_turn (garbage : list Z) (turn : M (Sim X) unit) : D unit :=
  in_machine_state turn ;;;
  k <- gets machine_state ;;
  if singleStep (machine_of k) && (runUntilTime (machine_of k) <=? totalTicks (stats k)) then Debugger garbage
  else ret tt.
End Debugger.

(** ** Numbers are read as they are printed *)

Lemma decimal_digits_spec f n :
  0 <= n < 10 ^ Z.of_nat f -> Forall (fun c => isdigit c = true) (decimal_digits f n) /\
  forall acc l, digits_value acc (decimal_digits f n ++ l) = digits_value (acc * 10 ^ zlength (decimal_digits f n) + n) l.
Proof.
  revert n. induction f as [|f IH]; intros n Hn.
  { cbn in *. split; [constructor|]. intros acc l. unfold zlength. cbn. f_equal. lia. }
  cbn [decimal_digits]. rewrite Nat2Z.inj_succ, Z.pow_succ_r in Hn by lia.
  assert (isdigit (48 + n mod 10) = true) as Hd by (unfold isdigit; apply andb_true_iff; rewrite !Z.leb_le; dlia).
  case_match eqn:E; [apply Z.ltb_lt in E|apply Z.ltb_ge in E].
  - split; [by constructor|]. intros acc l. cbn [app digits_value]. rewrite Hd. f_equal. unfold zlength. cbn [length Z.of_nat Pos.of_succ_nat Pos.succ].
    rewrite Z.mod_small by lia. lia.
  - destruct (IH (n / 10)) as [H1 H2]; [dlia|]. split; [apply Forall_app; by split; [|constructor]|].
    intros acc l. rewrite <- app_assoc, H2, zlength_app. cbn [app digits_value]. rewrite Hd. f_equal.
    change (zlength [48 + n mod 10]) with 1. rewrite Z.pow_add_r by (unfold zlength; lia).
    generalize (10 ^ zlength (decimal_digits f (n / 10))). intros b. change (10 ^ 1) with 10. dnia.
Qed.

Lemma decimal_digits_length f n : zlength (decimal_digits f n) <= Z.of_nat f.
Proof.
  revert n. induction f as [|f IH]; intros n; [done|]. cbn [decimal_digits]. rewrite zlength_app.
  specialize (IH (n / 10)). unfold zlength in *. cbn [length]. case_match; cbn [length]; lia.
Qed.

Lemma decimal_digits_cons f n : exists c ds, decimal_digits (S f) n = c :: ds.
Proof. cbn [decimal_digits]. destruct (if n <? 10 then [] else decimal_digits f (n / 10)); cbn; eauto. Qed.

Lemma scan_d_decimal n l : is_i32 n -> Forall (fun c => isdigit c = false) (take 1 l) -> scan_d (decimal n ++ l) = Some n.
Proof.
  intros Hn Hl. unfold is_i32 in Hn. 
  assert (forall k, 0 <= k < 10 ^ 10 -> unsigned_number (decimal_digits 10 k ++ l) = Some k) as Hpos.
  { intros k Hk. destruct (decimal_digits_spec 10 k Hk) as [Hd Hv].
    destruct (decimal_digits_cons 9 k) as (c & ds & E).
    rewrite E in *. apply Forall_cons_1 in Hd as [Hc _]. cbn [app unsigned_number]. rewrite Hc.
    change (c :: ds ++ l) with ((c :: ds) ++ l). rewrite Hv, Z.mul_0_l, Z.add_0_l. f_equal.
    destruct l as [|d l']; [done|]. cbn [take] in Hl. apply Forall_cons_1 in Hl as [Hd' _]. cbn. by rewrite Hd'. }
  assert (forall k, 0 <= k < 10 ^ 10 -> scan_d (decimal_digits 10 k ++ l) = Some k) as Hscan.
  { intros k Hk. rewrite <- (Hpos k Hk). destruct (decimal_digits_spec 10 k Hk) as [Hd _].
    destruct (decimal_digits_cons 9 k) as (c & ds & E). rewrite E in *.
    apply Forall_cons_1 in Hd as [Hc _]. unfold scan_d, isdigit in *. cbn [app skip_spaces].
    apply andb_true_iff in Hc as [H1 H2]. rewrite Z.leb_le in H1, H2.
    replace (isspace c) with false; [|unfold isspace; symmetry; apply orb_false_iff; rewrite Z.eqb_neq, andb_false_iff, !Z.leb_gt; lia].
    assert (c = 48 \/ c = 49 \/ c = 50 \/ c = 51 \/ c = 52 \/ c = 53 \/ c = 54 \/ c = 55 \/ c = 56 \/ c = 57) as Hcs by lia.
    by destruct_or! Hcs; subst c. }
  unfold decimal. destruct (Z.ltb_spec n 0).
  - cbn [app]. unfold scan_d. change (skip_spaces (45 :: decimal_digits 10 (- n) ++ l)) with (45 :: decimal_digits 10 (- n) ++ l).
    cbn iota beta. rewrite Hpos by lia. cbn. f_equal. lia.
  - apply Hscan. lia.
Qed.

(** ** What the debugger does *)

Lemma line_run l rest n : 10 ∉ l -> (length l < n)%nat -> line n (l ++ 10 :: rest) = l ++ [10].
Proof.
  revert n. induction l as [|c l IH]; intros [|n] Hl Hn; cbn in Hn; try lia; cbn [app line]; [done|].
  apply not_elem_of_cons in Hl as [Hc Hl]. rewrite (proj2 (Z.eqb_neq c 10)) by done. by rewrite IH by (done || lia).
Qed.

Lemma string_in_run l rest : 0 ∉ l -> string_in (l ++ 0 :: rest) = Some l.
Proof.
  induction l as [|c l IH]; intros Hl; cbn [app string_in]; [done|].
  apply not_elem_of_cons in Hl as [Hc Hl]. rewrite (proj2 (Z.eqb_neq c 0)) by done. by rewrite IH.
Qed.

Section DebuggerSpec.
Context {X : Type} `{!Lens Machine X}.
Abbreviation D := (M (Session (Sim X))).

(** Operations that print and do nothing else. *)
Definition prints (m : D unit) (k : Sim X) : Prop :=
  exists t, forall i out, m (mkSession k i out) = Ok (tt, mkSession k i (out ++ t)).

Lemma prints_printf t k : prints (printf t) k.
Proof. by exists t. Qed.
Lemma prints_ret k : prints (ret tt) k.
Proof. exists []. intros i out. unfold ret. by rewrite app_nil_r. Qed.
Lemma prints_bind m1 m2 k : prints m1 k -> prints m2 k -> prints (m1 ;;; m2) k.
Proof.
  intros [t1 H1] [t2 H2]. exists (t1 ++ t2). intros i out. mrun (H1 i out). by rewrite H2, app_assoc.
Qed.
Lemma prints_value {A} (m : D A) (f : A -> D unit) k a :
  (forall i out, m (mkSession k i out) = Ok (a, mkSession k i out)) -> prints (f a) k -> prints (bind m f) k.
Proof. intros Ha [t Ht]. exists t. intros i out. mrun (Ha i out). apply Ht. Qed.
Lemma prints_for n lo body k : (forall i, lo <= i < lo + Z.of_nat n -> prints (body i) k) -> prints (for_ lo n body) k.
Proof.
  revert lo. induction n as [|n IH]; intros lo H; [apply prints_ret|]. cbn [for_].
  apply prints_bind; [apply H; lia|]. apply IH. intros i Hi. apply H. lia.
Qed.
Lemma prints_Mapcar {A} (f : A -> D unit) l k : (forall a, prints (f a) k) -> prints (Mapcar f l) k.
Proof. intros H. induction l as [|a l IH]; [apply prints_ret|]. by apply prints_bind. Qed.

Context (k : Sim X) (Hregs : zlength (registers (machine_of k)) = NumTotalRegs).

Lemma register_value i : 0 <= i < NumTotalRegs -> exists v, forall j out, register i (mkSession k j out) = Ok (v, mkSession k j out).
Proof.
  intros Hi. rewrite <- Hregs in Hi. apply zlookup_is_Some in Hi as [v Hv]. exists v. intros j out.
  unfold register, gets. munfold. cbn [machine_state]. by rewrite Hv.
Qed.

Lemma prints_Interrupt_DumpState : prints Interrupt_DumpState k.
Proof.
  apply prints_value with (a := k); [done|].
  apply prints_value with (a := text (match level (intr k) with IntOff => "off" | IntOn => "on" end)).
  { intros i out. by destruct (level (intr k)). }
  apply prints_bind; [apply prints_printf|]. apply prints_bind; [apply prints_printf|].
  apply prints_bind; [|apply prints_printf]. apply prints_Mapcar. intros p.
  assert (exists n, zlookup intTypeNames (type_index (type p)) = Some n) as [n Hn] by (destruct (type p); by eexists).
  apply prints_value with (a := text n); [|apply prints_printf]. intros i out. unfold name_of. by rewrite Hn.
Qed.

Lemma prints_hex label i l : 0 <= i < NumTotalRegs -> prints (print_hex label i l) k.
Proof. intros Hi. destruct (register_value i Hi) as [v Hv]. apply (prints_value _ _ _ v Hv), prints_printf. Qed.

Lemma prints_Machine_DumpState : prints Machine_DumpState k.
Proof.
  apply prints_bind; [apply prints_printf|]. apply prints_bind.
  - apply prints_for. intros i Hi. change (0 + Z.of_nat (Z.to_nat NumGPRegs)) with 32 in Hi.
    destruct (register_value i) as [v Hv]; [unfold NumTotalRegs; lia|].
    apply (prints_value _ _ _ v Hv). repeat case_match; apply prints_printf.
  - repeat (apply prints_bind; [apply prints_hex; split; vm_compute; congruence|]). apply prints_printf.
Qed.

Definition with_machine (f : Machine -> Machine) : Sim X := on_rest (fun x => lset (f (lget x)) x) k.

(** Up to the command. *)
Lemma Debugger_reads garbage l rest out : zlength garbage = 80 -> 10 ∉ l -> zlength l < 79 ->
  exists t, Debugger garbage (mkSession k (l ++ 10 :: rest) out) =
    command (splice 0 (l ++ [10; 0]) garbage) (mkSession k rest (out ++ t)).
Proof.
  intros Hg Hl Hlen.
  destruct prints_Interrupt_DumpState as [t1 H1], prints_Machine_DumpState as [t2 H2].
  set (p := decimal (totalTicks (stats k)) ++ text "> "). exists (t1 ++ t2 ++ p).
  unfold Debugger. mrun (H1 (l ++ 10 :: rest) out). mrun (H2 (l ++ 10 :: rest) (out ++ t1)).
  unfold gets at 1. unfold bind at 1. cbn [obind machine_state]. fold p.
  unfold printf at 1, modify. unfold bind at 1. cbn [obind machine_state typed shown].
  erewrite bind_Ok; [reflexivity|].
  unfold fgets, get, put. unfold bind. cbn [obind typed]. rewrite line_run by (done || unfold zlength in *; lia).
  destruct (l ++ [10]) as [|c l'] eqn:E; [by destruct l|]. rewrite <- E. cbn [ret obind machine_state shown].
  unfold ret. rewrite <- !app_assoc. repeat f_equal.
  change (10 :: rest) with ([10] ++ rest). rewrite app_assoc. apply drop_app_length.
Qed.

Lemma splice_front (l garbage : list Z) : splice 0 (l ++ [10; 0]) garbage = (l ++ [10]) ++ 0 :: drop (length l + 2) garbage.
Proof. unfold splice. cbn [Z.to_nat take app Nat.add]. rewrite length_app. cbn [length]. by rewrite <- !app_assoc. Qed.

Lemma command_run l garbage i out : 0 ∉ l ->
  command (splice 0 (l ++ [10; 0]) garbage) (mkSession k i out) =
  (match scan_d (l ++ [10]) with
   | Some num => if bool_decide (is_i32 num) then on_machine (set_runUntilTime num) else undef
   | None =>
      on_machine (set_runUntilTime 0) ;;;
      c <- must (zlookup (l ++ [10]) 0) ;;
      if c =? 10 then ret tt
      else if c =? 99 then on_machine (set_singleStep false)
      else if c =? 63 then help
      else ret tt
   end) (mkSession k i out).
Proof.
  intros Hl. rewrite splice_front. unfold command. rewrite string_in_run.
  - unfold must at 1, bind at 1, ret at 1. cbn [obind]. destruct (scan_d (l ++ [10])); [done|]. destruct l; reflexivity.
  - rewrite not_elem_of_app, list_elem_of_singleton. split; [done|lia].
Qed.

Lemma decimal_chars n : is_i32 n -> (10 ∉ decimal n) /\ (0 ∉ decimal n) /\ zlength (decimal n) < 79.
Proof.
  intros Hn. unfold is_i32 in Hn.
  assert (forall k, 0 <= k < 10 ^ 10 -> Forall (fun c => c <> 10 /\ c <> 0) (decimal_digits 10 k) /\ zlength (decimal_digits 10 k) <= 10) as H.
  { intros j Hj. destruct (decimal_digits_spec 10 j Hj) as [Hd _]. split.
    - eapply Forall_impl; [|exact Hd]. intros c [H1 H2]%andb_true_iff. rewrite Z.leb_le in H1, H2. lia.
    - apply decimal_digits_length. }
  unfold decimal. destruct (Z.ltb_spec n 0).
  - destruct (H (- n)) as [HF Hlen]; [lia|]. rewrite Forall_forall in HF.
    rewrite !not_elem_of_cons. split_and!; try lia; [intros Hin%list_elem_of_In; by destruct (HF _ Hin)|intros Hin%list_elem_of_In; by destruct (HF _ Hin)|].
    unfold zlength in *. cbn [length]. lia.
  - destruct (H n) as [HF Hlen]; [lia|]. rewrite Forall_forall in HF.
    split_and!; [intros Hin%list_elem_of_In; by destruct (HF _ Hin)|intros Hin%list_elem_of_In; by destruct (HF _ Hin)|lia].
Qed.

(** The commands: a number sets the time of the next stop, c ends the
    single-stepping, return goes on for one instruction; nothing else but the
    terminal changes. *)
Theorem Debugger_obeys garbage rest out : zlength garbage = 80 ->
  (forall n, is_i32 n -> exists t,
    Debugger garbage (mkSession k (decimal n ++ 10 :: rest) out) =
    Ok (tt, mkSession (with_machine (set_runUntilTime n)) rest (out ++ t))) /\
  (exists t, Debugger garbage (mkSession k ([99] ++ 10 :: rest) out) =
    Ok (tt, mkSession (with_machine (fun m => set_singleStep false (set_runUntilTime 0 m))) rest (out ++ t))) /\
  (exists t, Debugger garbage (mkSession k ([] ++ 10 :: rest) out) =
    Ok (tt, mkSession (with_machine (set_runUntilTime 0)) rest (out ++ t))).
Proof.
  intros Hg. split; [|split].
  - intros n Hn. destruct (decimal_chars n Hn) as (H10 & H0 & Hlen).
    destruct (Debugger_reads garbage (decimal n) rest out Hg H10 Hlen) as [t E]. exists t.
    rewrite E, command_run, scan_d_decimal by (done || by repeat constructor). by rewrite bool_decide_eq_true_2.
  - destruct (Debugger_reads garbage [99] rest out Hg) as [t E]; [set_solver|done|]. exists t.
    rewrite E, command_run by set_solver. cbn.
    transitivity (on_machine (set_singleStep false) (mkSession (with_machine (set_runUntilTime 0)) rest (out ++ t))); [done|].
    unfold on_machine, modify, with_machine, on_rest. cbn. by rewrite lget_lset, lset_lset.
  - destruct (Debugger_reads garbage [] rest out Hg) as [t E]; [set_solver|done|]. exists t.
    by rewrite E, command_run by set_solver.
Qed.
End DebuggerSpec.
