(* ===== verification/OpenFile.v ===== *)
(** * filesys/synchdisk.cc, filehdr.cc, openfile.cc: files on disk sectors

    The file system sees the disk through an interface, [SectorDisk]: sectors
    that can be read and written. The synchronous disk of synchdisk.cc on the
    disk of Disk.v implements it. On top of it: file headers (i-nodes) with
    their on-disk layout, and open files, whose ReadAt and WriteAt transfer any
    range of bytes; they are proved to implement a byte array. *)

From stdpp Require Import base tactics list numbers sets.
From S2P Require Import Prelude BitMap Lists Interrupt Machine Disk.

Local Open Scope Z_scope.

(** ** The interface of the disk *)

Definition sector_wf (bs : list Z) : Prop := zlength bs = SectorSize /\ Forall is_char bs.

Class SectorDisk (X : Type) := {
  SynchDisk_ReadSector : Z -> M X (list Z);
  SynchDisk_WriteSector : Z -> list Z -> M X unit;
  sector : X -> Z -> list Z;
  disk_ok : X -> Prop;
  sector_ok : forall x n, disk_ok x -> 0 <= n < NumSectors -> sector_wf (sector x n);
  ReadSector_spec : forall x n, disk_ok x -> 0 <= n < NumSectors ->
    exists x', SynchDisk_ReadSector n x = Ok (sector x n, x') /\ disk_ok x' /\
      forall j, sector x' j = sector x j;
  WriteSector_spec : forall x n data, disk_ok x -> 0 <= n < NumSectors -> sector_wf data ->
    exists x', SynchDisk_WriteSector n data x = Ok (tt, x') /\ disk_ok x' /\
      forall j, 0 <= j < NumSectors -> sector x' j = if decide (j = n) then data else sector x j
}.

(** synchdisk.cc: a request and the wait for its completion; when the call
    returns the interrupt has been handled. [ticks] is the time of the request. *)
Definition start_request (sectorNumber : Z) : M Disk unit :=
  d <- get ;;
  ASSERT (negb (active d)) ;;;
  ASSERT ((sectorNumber >=? 0) && (sectorNumber <? NumSectors)).
Definition complete_request (ticks sectorNumber : Z) : M Disk unit :=
  modify (set_active true) ;;;
  modify (Disk_UpdateLast ticks sectorNumber) ;;;
  modify (set_active false).

Definition ReadSector (ticks sectorNumber : Z) : M Disk (list Z) :=
  start_request sectorNumber ;;;
  d <- get ;;
  match unix_read (SectorSize * sectorNumber + MagicSize) SectorSize (file d) with
  | None => abort
  | Some data => complete_request ticks sectorNumber ;;; ret data
  end.

Definition WriteSector (ticks sectorNumber : Z) (data : list Z) : M Disk unit :=
  start_request sectorNumber ;;;
  modify (fun d => set_file
    (unix_write (SectorSize * sectorNumber + MagicSize) (slice 0 SectorSize data) (file d)) d) ;;;
  complete_request ticks sectorNumber.

(** ** Headers *)

Definition sizeof_int : Z := 4.
Definition NumDirect : Z := (SectorSize - 2 * sizeof_int) / sizeof_int.
Definition MaxFileSize : Z := NumDirect * SectorSize.

Record FileHeader := mkHeader {
  numBytes : Z;
  numSectors : Z;
  dataSectors : list Z
}.

(** The header as the bytes of one sector. *)
Definition header_bytes (be : bool) (h : FileHeader) : list Z :=
  host_store be 4 (numBytes h) ++ host_store be 4 (numSectors h) ++
  concat (host_store be 4 <$> dataSectors h).

(** The [i]th word of a sector. *)
Definition word_at (be : bool) (bs : list Z) (i : Z) : Z :=
  i32 (host_load be (slice (4 * i) 4 bs)).
Definition header_of (be : bool) (bs : list Z) : FileHeader :=
  mkHeader (word_at be bs 0) (word_at be bs 1)
    ((fun i => word_at be bs (i + 2)) <$> seqZ 0 NumDirect).

Definition set_dataSectors v (h : FileHeader) := mkHeader (numBytes h) (numSectors h) v.

(** The state of Allocate and Deallocate: the header and the free map. *)
Definition FileHeader_Allocate (fileSize : Z) : M (FileHeader * BitMap) bool :=
  modify (fun '(h, bm) => (mkHeader fileSize (divRoundUp fileSize SectorSize) (dataSectors h), bm)) ;;;
  n <- gets (fun s => numSectors s.1) ;;
  c <- zoom BitMap_NumClear ;;
  if c <? n then ret false
  else
    for_ 0 (Z.to_nat n) (fun i =>
      s <- zoom BitMap_Find ;;
      '(h, bm) <- get ;;
      ds <- must (store i s (dataSectors h)) ;;
      put (set_dataSectors ds h, bm)) ;;;
    ret true.

Definition FileHeader_Deallocate (h : FileHeader) : M BitMap unit :=
  for_ 0 (Z.to_nat (numSectors h)) (fun i =>
    s <- must (zlookup (dataSectors h) i) ;;
    b <- BitMap_Test s ;;
    ASSERT b ;;;
    BitMap_Clear s).

Definition FileHeader_ByteToSector {S} (h : FileHeader) (offset : Z) : M S Z :=
  must (zlookup (dataSectors h) (Z.quot offset SectorSize)).

Definition FileHeader_FileLength (h : FileHeader) : Z := numBytes h.

(** ** Open files *)

Record OpenFile := mkOpenFile {
  hdr : FileHeader;
  seekPosition : Z;
  type_ : Z
}.

Definition OpenFile_Seek (position : Z) (f : OpenFile) : OpenFile :=
  mkOpenFile (hdr f) position (type_ f).
Definition OpenFile_Length (f : OpenFile) : Z := FileHeader_FileLength (hdr f).

Section Files.
Context (be : bool) {X : Type} `{HD : SectorDisk X}.

Definition FileHeader_FetchFrom (sectorNumber : Z) : M X FileHeader :=
  bs <- SynchDisk_ReadSector sectorNumber ;; ret (header_of be bs).
Definition FileHeader_WriteBack (h : FileHeader) (sectorNumber : Z) : M X unit :=
  SynchDisk_WriteSector sectorNumber (header_bytes be h).

Definition OpenFile_new (sectorNumber t : Z) : M X OpenFile :=
  h <- FileHeader_FetchFrom sectorNumber ;; ret (mkOpenFile h 0 t).

(** [bcopy(&buf[off], into, n)] and [bcopy(from, &buf[off], n)]. *)
Definition copy_out (buf : list Z) (off n : Z) : M X (list Z) :=
  if (0 <=? off) && (off + n <=? zlength buf) then ret (slice off n buf) else undef.
Definition copy_in (src : list Z) (n : Z) (buf : list Z) (off : Z) : M X (list Z) :=
  if (0 <=? off) && (off + n <=? zlength buf) && (n <=? zlength src)
  then ret (splice off (slice 0 n src) buf) else undef.

(** The bytes read; their number is the result of the call. *)
Definition OpenFile_ReadAt (h : FileHeader) (num position : Z) : M X (list Z) :=
  let fileLength := FileHeader_FileLength h in
  if (num <=? 0) || (position >=? fileLength) then ret []
  else
    let num := if i32 (position + num) >? fileLength then fileLength - position else num in
    let firstSector := divRoundDown position SectorSize in
    let lastSector := divRoundDown (i32 (position + num - 1)) SectorSize in
    buf <- for_acc firstSector (Z.to_nat (1 + lastSector - firstSector)) [] (fun i buf =>
             s <- FileHeader_ByteToSector h (i * SectorSize) ;;
             bs <- SynchDisk_ReadSector s ;;
             ret (buf ++ bs)) ;;
    copy_out buf (position - firstSector * SectorSize) num.

(** [mem] is what the newly allocated buffer contains. *)
Definition OpenFile_WriteAt (mem : Z -> Z) (h : FileHeader) (from : list Z) (num position : Z) : M X Z :=
  let fileLength := FileHeader_FileLength h in
  if (num <=? 0) || (position >=? fileLength) then ret 0
  else
    let num := if i32 (position + num) >? fileLength then fileLength - position else num in
    let firstSector := divRoundDown position SectorSize in
    let lastSector := divRoundDown (i32 (position + num - 1)) SectorSize in
    let buf0 := (fun i => i8 (mem i)) <$> seqZ 0 ((1 + lastSector - firstSector) * SectorSize) in
    let firstAligned := position =? firstSector * SectorSize in
    let lastAligned := position + num =? (lastSector + 1) * SectorSize in
    buf1 <- (if negb firstAligned then
               bs <- OpenFile_ReadAt h SectorSize (firstSector * SectorSize) ;;
               copy_in bs (zlength bs) buf0 0
             else ret buf0) ;;
    buf2 <- (if negb lastAligned && (negb (firstSector =? lastSector) || firstAligned) then
               bs <- OpenFile_ReadAt h SectorSize (lastSector * SectorSize) ;;
               copy_in bs (zlength bs) buf1 ((lastSector - firstSector) * SectorSize)
             else ret buf1) ;;
    buf3 <- copy_in from num buf2 (position - firstSector * SectorSize) ;;
    for_ firstSector (Z.to_nat (1 + lastSector - firstSector)) (fun i =>
      s <- FileHeader_ByteToSector h (i * SectorSize) ;;
      bs <- copy_out buf3 ((i - firstSector) * SectorSize) SectorSize ;;
      SynchDisk_WriteSector s bs) ;;;
    ret num.

Definition OpenFile_Read (num : Z) (f : OpenFile) : M X (list Z * OpenFile) :=
  bs <- OpenFile_ReadAt (hdr f) num (seekPosition f) ;;
  ret (bs, OpenFile_Seek (seekPosition f + zlength bs) f).

Definition OpenFile_Write (mem : Z -> Z) (from : list Z) (num : Z) (f : OpenFile) : M X (Z * OpenFile) :=
  n <- OpenFile_WriteAt mem (hdr f) from num (seekPosition f) ;;
  ret (n, OpenFile_Seek (seekPosition f + n) f).

(** FileHeader::Print: the sector numbers and the bytes of the file. *)
Definition FileHeader_Print (h : FileHeader) : M X (Z * list Z * list Z) :=
  ds <- for_acc 0 (Z.to_nat (numSectors h)) [] (fun i out =>
          s <- must (zlookup (dataSectors h) i) ;; ret (out ++ [s])) ;;
  out <- for_acc 0 (Z.to_nat (numSectors h)) ([], 0) (fun i '(out, k) =>
          s <- must (zlookup (dataSectors h) i) ;;
          data <- SynchDisk_ReadSector s ;;
          let n := Z.max 0 (Z.min SectorSize (numBytes h - k)) in
          ret (out ++ slice 0 n data, k + n)) ;;
  ret (numBytes h, ds, out.1).
End Files.

(** The bits of a bit map in a file (bitmap.cc). *)
Section BitMapFile.
Context (be : bool) {X : Type} `{HD : SectorDisk X}.

Definition BitMap_FetchFrom (h : FileHeader) (bm : BitMap) : M X BitMap :=
  bs <- OpenFile_ReadAt h (numWords bm * 4) 0 ;;
  let raw := splice 0 bs (concat (host_store be 4 <$> bm_map bm)) in
  ret (set_map ((fun i => u32 (host_load be (slice (4 * i) 4 raw))) <$> seqZ 0 (numWords bm)) bm).

Definition BitMap_WriteBack (mem : Z -> Z) (h : FileHeader) (bm : BitMap) : M X unit :=
  _ <- OpenFile_WriteAt mem h (concat (host_store be 4 <$> bm_map bm)) (numWords bm * 4) 0 ;;
  ret tt.
End BitMapFile.

(** * Correctness *)

(** ** The synchronous disk implements the interface *)

Definition idle_disk (d : Disk) : Prop :=
  zlength (file d) = DiskSize /\ Forall is_char (file d) /\ active d = false.

Lemma start_request_run d n :
  active d = false -> 0 <= n < NumSectors -> start_request n d = Ok (tt, d).
Proof.
  intros Ha Hn. unfold start_request. munfold. rewrite Ha. simpl. rewrite Z.geb_leb.
  by rewrite (proj2 (Z.leb_le 0 n)), (proj2 (Z.ltb_lt n NumSectors)) by lia.
Qed.

Lemma complete_request_run d t n :
  exists d', complete_request t n d = Ok (tt, d') /\ file d' = file d /\ active d' = false.
Proof.
  eexists. split; [reflexivity|]. split; [|done]. unfold set_active, Disk_UpdateLast.
  by destruct (Disk_TimeToSeek _ t n).
Qed.

Lemma sector_fits n : 0 <= n < NumSectors ->
  0 <= SectorSize * n + MagicSize /\ SectorSize * n + MagicSize + SectorSize <= DiskSize.
Proof. unfold DiskSize, NumSectors, NumTracks, SectorsPerTrack, MagicSize, SectorSize. lia. Qed.

#[export, refine] Instance synch_disk (ticks : Z) : SectorDisk Disk := {|
  SynchDisk_ReadSector := ReadSector ticks;
  SynchDisk_WriteSector := WriteSector ticks;
  sector := sector_of;
  disk_ok := idle_disk
|}.
Proof.
  - intros d n (Hl & Hc & _) Hn. destruct (sector_fits n Hn). split; [|by apply slice_chars].
    apply zlength_slice; [done|done|by rewrite Hl].
  - intros d n (Hl & Hc & Ha) Hn. destruct (sector_fits n Hn).
    destruct (complete_request_run d ticks n) as (d' & E & Hf & Ha').
    exists d'. unfold ReadSector. mrun (start_request_run d n Ha Hn).
    rewrite (bind_Ok get _ d d d) by done. unfold unix_read.
    rewrite (proj2 (Z.leb_le _ _)) by by rewrite Hl. mrun E. split; [done|].
    unfold idle_disk, sector_of. by rewrite Hf.
  - intros d n data (Hl & Hc & Ha) Hn [Hd Hdc]. destruct (sector_fits n Hn).
    assert (slice 0 SectorSize data = data) as Es
      by (unfold slice; apply take_ge; unfold zlength, SectorSize in *; simpl; lia).
    set (d1 := set_file (unix_write (SectorSize * n + MagicSize) data (file d)) d).
    destruct (complete_request_run d1 ticks n) as (d' & E & Hf & Ha').
    exists d'. unfold WriteSector. mrun (start_request_run d n Ha Hn).
    rewrite (bind_Ok (modify _) _ d tt d1) by (unfold modify, d1; by rewrite Es).
    split; [done|]. unfold idle_disk, sector_of. rewrite Hf. split; [split; [|split; [|done]]|].
    + by destruct (sector_write d n data n Hl Hn Hn Hd).
    + unfold d1, unix_write. simpl. apply splice_chars; [done|].
      apply Forall_app; split; [done|]. by apply Forall_replicate.
    + intros j Hj. by destruct (sector_write d n data j Hl Hn Hj Hd).
Defined.

(** ** Words in bytes *)

Lemma length_host_store be n z : length (host_store be n z) = n.
Proof. destruct be; simpl; by rewrite ?length_rev, length_le_encode. Qed.

Lemma host_store_chars be n z : Forall is_char (host_store be n z).
Proof. destruct be; simpl; [apply rev_chars|]; apply le_encode_char. Qed.

Lemma host_load_store be z : host_load be (host_store be 4 z) = u32 z.
Proof.
  destruct be; unfold host_load, host_store; rewrite ?rev_involutive, le_decode_encode; done.
Qed.

Lemma concat_length (ws : list Z) be : zlength (concat (host_store be 4 <$> ws)) = 4 * zlength ws.
Proof.
  unfold zlength. induction ws as [|w ws IH]; [done|]. rewrite fmap_cons. cbn [concat].
  rewrite length_app, length_host_store. cbn [length]. lia.
Qed.

Lemma concat_chars (ws : list Z) be : Forall is_char (concat (host_store be 4 <$> ws)).
Proof.
  induction ws; simpl; [done|]. apply Forall_app. split; [apply host_store_chars|done].
Qed.

Lemma slice_concat be (ws : list Z) rest i w :
  zlookup ws i = Some w ->
  slice (4 * i) 4 (concat (host_store be 4 <$> ws) ++ rest) = host_store be 4 w.
Proof.
  rewrite zlookup_Some. intros [Hi Hw]. revert i Hi Hw.
  induction ws as [|v ws IH]; intros i Hi Hw; [done|].
  rewrite fmap_cons. cbn [concat]. rewrite <- app_assoc. unfold slice.
  destruct (decide (i = 0)) as [->|Hne].
  - simpl in Hw. simplify_eq. rewrite drop_0.
    by rewrite take_app_length' by by rewrite length_host_store.
  - replace (Z.to_nat i) with (S (Z.to_nat (i - 1))) in Hw by lia. simpl in Hw.
    rewrite <- (IH (i - 1)) by (done || lia). unfold slice. f_equal.
    rewrite drop_app_ge by (rewrite length_host_store; lia). rewrite length_host_store. f_equal. lia.
Qed.

Lemma header_bytes_words be h :
  header_bytes be h = concat (host_store be 4 <$> (numBytes h :: numSectors h :: dataSectors h)).
Proof. done. Qed.

Record header_i32 (h : FileHeader) : Prop := {
  hi_bytes : is_i32 (numBytes h);
  hi_sectors : is_i32 (numSectors h);
  hi_data : Forall is_i32 (dataSectors h);
  hi_length : zlength (dataSectors h) = NumDirect
}.

Lemma word_at_words be (ws : list Z) i w :
  zlookup ws i = Some w -> is_i32 w -> word_at be (concat (host_store be 4 <$> ws)) i = w.
Proof.
  intros Hw Hr. unfold word_at. rewrite <- (app_nil_r (concat _)), (slice_concat be ws [] i w Hw).
  by rewrite host_load_store, i32_u32, i32_id.
Qed.

Lemma header_roundtrip be h : header_i32 h -> header_of be (header_bytes be h) = h.
Proof.
  intros [H1 H2 H3 H4]. destruct h as [nb ns ds]. simpl in *. rewrite header_bytes_words.
  unfold header_of. simpl numBytes. simpl numSectors. simpl dataSectors. f_equal.
  - by apply (word_at_words be (nb :: ns :: ds) 0).
  - by apply (word_at_words be (nb :: ns :: ds) 1).
  - apply zlookup_ext. intros i Hi. unfold zlookup at 1.
    destruct (Z.ltb_spec i 0); [lia|]. rewrite list_lookup_fmap.
    destruct (decide (i < NumDirect)).
    + rewrite lookup_seqZ_lt by lia. simpl.
      destruct (proj2 (zlookup_is_Some ds i)) as [w Hw]; [lia|].
      rewrite Hw. f_equal. apply (word_at_words be (nb :: ns :: ds)).
      * apply zlookup_Some in Hw as [_ Hw]. apply zlookup_Some. split; [lia|].
        by replace (Z.to_nat (0 + Z.of_nat (Z.to_nat i) + 2)) with (S (S (Z.to_nat i))) by lia.
      * apply zlookup_Some in Hw as [_ Hw]. by apply (Forall_lookup_1 _ _ _ _ H3 Hw).
    + rewrite lookup_seqZ_ge by lia. symmetry. apply zlookup_None. lia.
Qed.

Lemma header_bytes_wf be h : header_i32 h -> sector_wf (header_bytes be h).
Proof.
  intros [_ _ _ H4]. rewrite header_bytes_words. split; [|apply concat_chars].
  rewrite concat_length. unfold zlength in *. cbn [length].
  change NumDirect with 30 in H4. unfold SectorSize. lia.
Qed.

(** ** The bytes of a file *)

Definition blocks (h : FileHeader) : list Z := take (Z.to_nat (numSectors h)) (dataSectors h).

Record header_wf (h : FileHeader) : Prop := {
  hw_bytes : 0 <= numBytes h;
  hw_sectors : numSectors h = divRoundUp (numBytes h) SectorSize;
  hw_direct : numSectors h <= NumDirect;
  hw_length : zlength (dataSectors h) = NumDirect;
  hw_range : Forall (fun s => 0 <= s < NumSectors) (blocks h);
  hw_nodup : NoDup (blocks h)
}.

Section Chunks.
Context {A : Type} (n : nat).
Implicit Types ls : list (list A).

Lemma concat_take ls k :
  Forall (fun l => length l = n) ls -> concat (take k ls) = take (k * n) (concat ls).
Proof.
  intros Hf. revert k. induction Hf as [|l ls Hl _ IH]; intros [|k]; simpl; try done.
  { by rewrite take_nil. }
  rewrite IH, take_app. f_equal; [by rewrite take_ge by lia|]. f_equal. lia.
Qed.

Lemma concat_drop ls k :
  Forall (fun l => length l = n) ls -> concat (drop k ls) = drop (k * n) (concat ls).
Proof.
  intros Hf. revert k. induction Hf as [|l ls Hl _ IH]; intros [|k]; simpl; try done.
  { by rewrite drop_nil. }
  rewrite IH, drop_app. rewrite (drop_ge l) by lia. simpl. f_equal. lia.
Qed.

Lemma concat_slice ls i k :
  0 <= i -> 0 <= k -> Forall (fun l => length l = n) ls ->
  concat (slice i k ls) = slice (i * Z.of_nat n) (k * Z.of_nat n) (concat ls).
Proof.
  intros Hi Hk Hf. unfold slice. rewrite concat_take by by apply Forall_drop.
  rewrite concat_drop by done. f_equal; [lia|]. f_equal. lia.
Qed.

Lemma concat_chunks_length ls : Forall (fun l => length l = n) ls -> length (concat ls) = (length ls * n)%nat.
Proof. induction 1; simpl; [done|]. rewrite length_app. lia. Qed.

Lemma concat_insert ls i l :
  Forall (fun l => length l = n) ls -> length l = n -> 0 <= i < zlength ls ->
  concat (zinsert i l ls) = splice (i * Z.of_nat n) l (concat ls).
Proof.
  intros Hf Hl Hi. unfold zinsert. destruct (Z.ltb_spec i 0); [lia|]. unfold zlength in Hi.
  rewrite insert_take_drop by lia. rewrite concat_app. simpl.
  rewrite concat_take, concat_drop by done. unfold splice.
  rewrite Hl. replace (Z.to_nat (i * Z.of_nat n)) with (Z.to_nat i * n)%nat by lia.
  do 3 f_equal. lia.
Qed.
End Chunks.

Section Content.
Context (be : bool) {X : Type} `{HD : SectorDisk X}.

Definition flat (x : X) (h : FileHeader) : list Z := concat (sector x <$> blocks h).
Definition content (x : X) (h : FileHeader) : list Z := take (Z.to_nat (numBytes h)) (flat x h).

Lemma blocks_length h : header_wf h -> zlength (blocks h) = numSectors h.
Proof.
  intros [H1 H2 H3 H4 _ _]. pose proof (divRoundUp_nonneg (numBytes h) SectorSize H1 eq_refl).
  unfold blocks, zlength in *. rewrite length_take. lia.
Qed.

Lemma sectors_128 x h : disk_ok x -> header_wf h ->
  Forall (fun l => length l = 128%nat) (sector x <$> blocks h).
Proof.
  intros Hx Hh. apply Forall_fmap, Forall_forall. intros s Hin.
  pose proof (proj1 (Forall_forall _ _) (hw_range h Hh) s Hin) as Hs. simpl in Hs.
  destruct (sector_ok x s Hx Hs) as [Hl _]. unfold zlength, SectorSize in Hl. simpl. lia.
Qed.

Lemma flat_length x h : disk_ok x -> header_wf h -> zlength (flat x h) = numSectors h * SectorSize.
Proof.
  intros Hx Hh. pose proof (blocks_length h Hh) as Hb. unfold flat, zlength in *.
  rewrite (concat_chunks_length 128) by by apply sectors_128. rewrite length_fmap. unfold SectorSize. lia.
Qed.

Lemma bytes_in_sectors h : header_wf h -> numSectors h * SectorSize - SectorSize < numBytes h <= numSectors h * SectorSize.
Proof.
  intros [H1 -> _ _ _ _]. pose proof (divRoundUp_spec (numBytes h) SectorSize H1 eq_refl). lia.
Qed.

Lemma content_length x h : disk_ok x -> header_wf h -> zlength (content x h) = numBytes h.
Proof.
  intros Hx Hh. pose proof (flat_length x h Hx Hh). pose proof (bytes_in_sectors h Hh).
  pose proof (hw_bytes _ Hh). unfold content, zlength in *. rewrite length_take. lia.
Qed.

Lemma block_at h i : header_wf h -> 0 <= i < numSectors h ->
  exists s, zlookup (dataSectors h) i = Some s /\ zlookup (blocks h) i = Some s /\ 0 <= s < NumSectors.
Proof.
  intros Hh Hi. destruct (proj2 (zlookup_is_Some (blocks h) i)) as [s Hs]; [by rewrite blocks_length|].
  exists s. split; [|split; [done|]].
  - unfold zlookup, blocks in *. destruct (i <? 0); [done|]. by apply lookup_take_Some in Hs as [? _].
  - apply zlookup_Some in Hs as [_ Hs]. by apply (Forall_lookup_1 _ _ _ _ (hw_range _ Hh) Hs).
Qed.

Lemma block_range h s : header_wf h -> s ∈ blocks h -> 0 <= s < NumSectors.
Proof.
  intros Hh [i Hi]%list_elem_of_lookup. exact (Forall_lookup_1 _ _ _ _ (hw_range h Hh) Hi).
Qed.

Lemma ByteToSector_run {S} h i (x : S) s :
  0 <= i -> zlookup (dataSectors h) i = Some s -> FileHeader_ByteToSector h (i * SectorSize) x = Ok (s, x).
Proof. intros Hi Hs. unfold FileHeader_ByteToSector. rewrite Z.quot_mul by done. by rewrite Hs. Qed.

Lemma flat_ext x x' h : (forall s, s ∈ blocks h -> sector x' s = sector x s) -> flat x' h = flat x h.
Proof.
  intros Hs. unfold flat. f_equal. apply list_fmap_ext. intros i s Hi. apply Hs.
  by eapply list_elem_of_lookup_2.
Qed.

(** The loop of ReadAt reads consecutive blocks. *)
Lemma read_blocks_run x h first n :
  disk_ok x -> header_wf h -> 0 <= first -> first + Z.of_nat n <= numSectors h ->
  exists x', for_acc first n [] (fun i buf =>
             s <- FileHeader_ByteToSector h (i * SectorSize) ;;
             bs <- SynchDisk_ReadSector s ;;
             ret (buf ++ bs)) x = Ok (slice (first * SectorSize) (Z.of_nat n * SectorSize) (flat x h), x') /\
    disk_ok x' /\ forall j, sector x' j = sector x j.
Proof.
  intros Hx Hh Hf Hn.
  destruct (for_acc_inv (fun i buf x' => disk_ok x' /\ (forall j, sector x' j = sector x j) /\
      buf = concat (sector x <$> slice first (i - first) (blocks h))) first n
      (fun i buf => s <- FileHeader_ByteToSector h (i * SectorSize) ;;
             bs <- SynchDisk_ReadSector s ;; ret (buf ++ bs))) with (a := @nil Z) (s := x)
    as (buf & x' & E & Hok & Hs & ->).
  - intros i buf x1 Hi (Hok & Hs & ->).
    destruct (block_at h i Hh ltac:(lia)) as (s & Hds & Hbs & Hsr).
    destruct (ReadSector_spec x1 s Hok Hsr) as (x2 & E & Hok2 & Hs2).
    rewrite (bind_Ok _ _ _ _ _ (ByteToSector_run h i x1 s ltac:(lia) Hds)). mrun E.
    eexists _, x2. split; [reflexivity|]. split; [done|]. split; [intros j; by rewrite Hs2|].
    assert (slice first (i + 1 - first) (blocks h) = slice first (i - first) (blocks h) ++ [s]) as ->.
    { unfold slice. replace (Z.to_nat (i + 1 - first)) with (S (Z.to_nat (i - first))) by lia.
      apply take_S_r. rewrite lookup_drop. apply zlookup_Some in Hbs as [_ Hbs]. rewrite <- Hbs. f_equal. lia. }
    rewrite fmap_app, concat_app. simpl. rewrite app_nil_r. by rewrite Hs.
  - split; [done|]. split; [done|]. by rewrite Z.sub_diag.
  - exists x'. rewrite E. split; [|done]. do 2 f_equal.
    replace (first + Z.of_nat n - first) with (Z.of_nat n) by lia.
    assert (sector x <$> slice first (Z.of_nat n) (blocks h) = slice first (Z.of_nat n) (sector x <$> blocks h)) as ->.
    { unfold slice. by rewrite fmap_take, fmap_drop. }
    rewrite (concat_slice 128) by (done || lia || by apply sectors_128). done.
Qed.

Lemma slice_slice {A} (l : list A) i k j n :
  0 <= i -> 0 <= j -> 0 <= n -> j + n <= k -> slice j n (slice i k l) = slice (i + j) n l.
Proof.
  intros. unfold slice. rewrite skipn_firstn_comm, take_take, drop_drop.
  f_equal; [lia|]. f_equal. lia.
Qed.

Lemma slice_content x h pos n :
  0 <= pos -> pos + n <= numBytes h -> slice pos n (flat x h) = slice pos n (content x h).
Proof.
  intros Hp Hn. unfold content, slice. rewrite skipn_firstn_comm, take_take. f_equal. lia.
Qed.

Lemma slice_overlong {A} (l : list A) pos n :
  0 <= pos -> slice pos n l = slice pos (Z.min n (zlength l - pos)) l.
Proof.
  intros Hp. unfold slice, zlength. destruct (decide (n <= Z.of_nat (length l) - pos)).
  - f_equal. lia.
  - rewrite !take_ge; [done| |]; rewrite length_drop; lia.
Qed.

(** A request of [num] bytes at [position] is inside a file of [numBytes] bytes. *)
Record request_ok (h : FileHeader) (num position first last : Z) : Prop := {
  rq_first : first = position / SectorSize;
  rq_last : last = (position + num - 1) / SectorSize;
  rq_pos : 0 <= position;
  rq_num : 0 < num;
  rq_fits : position + num <= numBytes h
}.

Lemma request_blocks h num position first last :
  header_wf h -> request_ok h num position first last ->
  0 <= first /\ first <= last /\ last < numSectors h /\
  first * SectorSize <= position < (first + 1) * SectorSize /\
  last * SectorSize < position + num <= (last + 1) * SectorSize.
Proof.
  intros Hh [-> -> H1 H2 H3]. pose proof (bytes_in_sectors h Hh). unfold SectorSize in *. dlia.
Qed.

(** The arithmetic at the start of ReadAt and WriteAt. *)
Lemma request_start h num position :
  header_wf h -> 0 <= position < numBytes h -> 0 < num -> position + num < 2 ^ 31 ->
  let num' := if i32 (position + num) >? numBytes h then numBytes h - position else num in
  num' = Z.min num (numBytes h - position) /\
  request_ok h num' position (divRoundDown position SectorSize)
    (divRoundDown (i32 (position + num' - 1)) SectorSize).
Proof.
  intros Hh Hp Hn Ho num'.
  assert (num' = Z.min num (numBytes h - position)) as E.
  { unfold num'. rewrite i32_id by (unfold is_i32; lia). rewrite Z.gtb_ltb.
    destruct (Z.ltb_spec (numBytes h) (position + num)); lia. }
  split; [done|]. rewrite E. unfold divRoundDown. constructor; try lia.
  - apply Z.quot_div_nonneg; [lia|done].
  - rewrite i32_id by (unfold is_i32; lia). rewrite Z.quot_div_nonneg; [done|lia|done].
Qed.

Lemma ReadAt_run x h num position :
  disk_ok x -> header_wf h -> 0 <= position -> position + num < 2 ^ 31 ->
  exists x', OpenFile_ReadAt h num position x = Ok (slice position num (content x h), x') /\
    disk_ok x' /\ forall j, sector x' j = sector x j.
Proof.
  intros Hx Hh Hp Ho. pose proof (content_length x h Hx Hh) as Hc.
  unfold OpenFile_ReadAt, FileHeader_FileLength. rewrite Z.geb_leb.
  destruct (Z.leb_spec num 0); simpl.
  { exists x. split; [|done]. unfold ret, slice. by replace (Z.to_nat num) with 0%nat by lia. }
  destruct (Z.leb_spec (numBytes h) position); simpl.
  { exists x. split; [|done]. unfold ret, slice. rewrite drop_ge; [by rewrite take_nil|].
    unfold zlength in Hc. lia. }
  destruct (request_start h num position Hh ltac:(lia) ltac:(lia) Ho) as [En Hrq].
  set (num' := if _ >? _ then _ else _) in *.
  set (first := divRoundDown position SectorSize) in *. set (last := divRoundDown (i32 (position + num' - 1)) SectorSize) in *.
  destruct (request_blocks _ _ _ _ _ Hh Hrq) as (Hf0 & Hfl & Hl & Hpf & Hpl).
  destruct (read_blocks_run x h first (Z.to_nat (1 + last - first)) Hx Hh Hf0 ltac:(lia)) as (x' & E & Hok & Hs).
  exists x'. mrun E. split; [|done]. unfold copy_out.
  assert (zlength (slice (first * SectorSize) (Z.of_nat (Z.to_nat (1 + last - first)) * SectorSize) (flat x h))
          = (1 + last - first) * SectorSize) as Hlen.
  { rewrite zlength_slice; [unfold SectorSize; lia|unfold SectorSize; lia|unfold SectorSize; lia|].
    rewrite flat_length by done. unfold SectorSize. lia. }
  rewrite Hlen, (proj2 (Z.leb_le 0 _)), (proj2 (Z.leb_le _ ((1 + last - first) * SectorSize)))
    by (unfold SectorSize in *; lia).
  cbn [andb]. unfold ret. do 2 f_equal. rewrite slice_slice by (unfold SectorSize in *; lia).
  replace (first * SectorSize + (position - first * SectorSize)) with position by lia.
  rewrite slice_content by lia. rewrite (slice_overlong _ position num), Hc by done. by rewrite En.
Qed.

Lemma splice_splice {A} (l p d : list A) a :
  0 <= a -> a + zlength p + zlength d <= zlength l ->
  splice (a + zlength p) d (splice a p l) = splice a (p ++ d) l.
Proof.
  intros Ha Hl. pose proof (zlength_nonneg p). pose proof (zlength_nonneg d).
  apply zlookup_ext. intros i Hi.
  rewrite !zlookup_splice; rewrite ?zlength_splice, ?zlength_app; try lia.
  repeat case_decide; try lia; try done.
  - rewrite zlookup_app_r by lia. f_equal. lia.
  - by rewrite zlookup_app_l by lia.
Qed.

Lemma splice_nil {A} (l : list A) a : splice a [] l = l.
Proof. unfold splice. simpl. by rewrite Nat.add_0_r, take_drop. Qed.

Lemma slice_app_next {A} (l : list A) k n :
  0 <= k -> 0 <= n -> slice 0 (k + n) l = slice 0 k l ++ slice k n l.
Proof.
  intros. unfold slice. rewrite !drop_0. rewrite Z2Nat.inj_add by lia.
  by rewrite take_take_drop.
Qed.

(** Writing one block of a file. *)
Lemma flat_write x x' h i s data :
  disk_ok x -> header_wf h -> zlookup (blocks h) i = Some s -> sector_wf data ->
  (forall j, 0 <= j < NumSectors -> sector x' j = if decide (j = s) then data else sector x j) ->
  flat x' h = splice (i * SectorSize) data (flat x h).
Proof.
  intros Hx Hh Hs [Hd _] Hw. unfold flat.
  assert (sector x' <$> blocks h = zinsert i data (sector x <$> blocks h)) as ->.
  { apply zlookup_ext. intros k Hk. rewrite zlookup_zinsert. unfold zlookup at 1.
    destruct (Z.ltb_spec k 0); [lia|]. rewrite list_lookup_fmap.
    pose proof (zlookup_lt_Some _ _ _ Hs) as Hi. apply zlookup_Some in Hs as [_ Hs].
    case_decide as Hd'.
    - destruct Hd' as [-> _]. rewrite Hs. simpl. f_equal.
      rewrite Hw by (by apply (Forall_lookup_1 _ _ _ _ (hw_range _ Hh) Hs)). by rewrite decide_True.
    - unfold zlookup. destruct (Z.ltb_spec k 0); [lia|]. rewrite list_lookup_fmap.
      destruct (blocks h !! Z.to_nat k) as [s'|] eqn:E; [|done]. simpl. f_equal.
      rewrite Hw by (by apply (Forall_lookup_1 _ _ _ _ (hw_range _ Hh) E)).
      rewrite decide_False; [done|]. intros ->. destruct Hd'.
      pose proof (NoDup_lookup _ _ _ _ (hw_nodup _ Hh) Hs E). split; [lia|].
      unfold zlength in *. rewrite length_fmap. lia. }
  rewrite (concat_insert 128); [done|by apply sectors_128| |].
  - unfold zlength, SectorSize in Hd. lia.
  - unfold zlength. rewrite length_fmap. by apply zlookup_lt_Some in Hs.
Qed.

Lemma write_blocks_run x h first n B :
  disk_ok x -> header_wf h -> 0 <= first -> first + Z.of_nat n <= numSectors h ->
  zlength B = Z.of_nat n * SectorSize -> Forall is_char B ->
  exists x', for_ first n (fun i =>
      s <- FileHeader_ByteToSector h (i * SectorSize) ;;
      bs <- copy_out B ((i - first) * SectorSize) SectorSize ;;
      SynchDisk_WriteSector s bs) x = Ok (tt, x') /\ disk_ok x' /\
    (forall s, 0 <= s < NumSectors -> s ∉ blocks h -> sector x' s = sector x s) /\
    flat x' h = splice (first * SectorSize) B (flat x h).
Proof.
  intros Hx Hh Hf Hn HB Hc.
  destruct (for_inv (fun i x' => disk_ok x' /\
      (forall s, 0 <= s < NumSectors -> s ∉ blocks h -> sector x' s = sector x s) /\
      flat x' h = splice (first * SectorSize) (slice 0 ((i - first) * SectorSize) B) (flat x h)) first n
      (fun i => s <- FileHeader_ByteToSector h (i * SectorSize) ;;
      bs <- copy_out B ((i - first) * SectorSize) SectorSize ;;
      SynchDisk_WriteSector s bs)) with (s := x) as (x' & E & Hok & Hs & Hfl).
  - intros i x1 Hi (Hok & Hs & Hfl).
    destruct (block_at h i Hh ltac:(lia)) as (s & Hds & Hbs & Hsr).
    set (k := (i - first) * SectorSize) in *.
    assert (0 <= k /\ k + SectorSize <= zlength B) as [Hk0 Hk] by (unfold k, SectorSize in *; lia).
    assert (sector_wf (slice k SectorSize B)) as Hw.
    { split; [by apply zlength_slice|by apply slice_chars]. }
    destruct (WriteSector_spec x1 s _ Hok Hsr Hw) as (x2 & E & Hok2 & Hs2).
    exists x2. rewrite (bind_Ok _ _ _ _ _ (ByteToSector_run h i x1 s ltac:(lia) Hds)).
    rewrite (bind_Ok _ _ _ (slice k SectorSize B) x1).
    2: { unfold copy_out. by rewrite (proj2 (Z.leb_le 0 k)), (proj2 (Z.leb_le _ (zlength B))) by lia. }
    split; [done|]. split; [done|]. split.
    + intros j Hj Hnj. rewrite Hs2 by done. rewrite decide_False; [by apply Hs|].
      intros ->. apply Hnj. apply zlookup_Some in Hbs as [_ Hbs]. by eapply list_elem_of_lookup_2.
    + rewrite (flat_write x1 x2 h i s _ Hok Hh Hbs Hw Hs2), Hfl.
      assert (SectorSize = 128) as HS by done.
      pose proof (zlength_slice B 0 k ltac:(lia) Hk0 ltac:(lia)) as Hlk.
      replace (i * SectorSize) with (first * SectorSize + zlength (slice 0 k B)) by (rewrite Hlk; unfold k; lia).
      rewrite splice_splice.
      * f_equal. rewrite <- slice_app_next; [|done|done]. f_equal. unfold k. lia.
      * unfold SectorSize; lia.
      * rewrite Hlk, flat_length, zlength_slice by done. unfold k, SectorSize in *. lia.
  - split; [done|]. split; [done|]. rewrite Z.sub_diag. symmetry. apply splice_nil.
  - exists x'. split; [exact E|]. split; [done|]. split; [done|]. rewrite Hfl. f_equal.
    unfold slice. rewrite drop_0. apply take_ge. unfold zlength in HB. lia.
Qed.

(** The buffer of WriteAt after its two reads: it agrees with the file wherever
    the request does not overwrite it. *)
Definition agrees (x : X) (h : FileHeader) (num position first last : Z) (buf : list Z) : Prop :=
  zlength buf = (1 + last - first) * SectorSize /\ Forall is_char buf /\
  forall j, first * SectorSize <= j < (last + 1) * SectorSize -> j < numBytes h ->
    j < position \/ position + num <= j ->
    zlookup buf (j - first * SectorSize) = zlookup (content x h) j.

Lemma copy_in_run src n buf off (x : X) :
  0 <= off -> 0 <= n -> off + n <= zlength buf -> n <= zlength src ->
  copy_in src n buf off x = Ok (splice off (slice 0 n src) buf, x).
Proof.
  intros. unfold copy_in.
  by rewrite (proj2 (Z.leb_le 0 off)), (proj2 (Z.leb_le _ (zlength buf))), (proj2 (Z.leb_le n _)) by lia.
Qed.

Lemma content_chars x h : disk_ok x -> header_wf h -> Forall is_char (content x h).
Proof.
  intros Hx Hh. apply Forall_take. unfold flat. apply Forall_concat, Forall_fmap, Forall_forall.
  intros s Hin. pose proof (proj1 (Forall_forall _ _) (hw_range h Hh) s Hin) as Hs.
  by destruct (sector_ok x s Hx Hs).
Qed.

(** Reading the sector [i] of the file into the buffer. *)
Lemma read_into_run x x1 h i buf off :
  disk_ok x -> disk_ok x1 -> header_wf h -> (forall j, sector x1 j = sector x j) ->
  0 <= i < numSectors h -> numBytes h < 2 ^ 31 - SectorSize ->
  0 <= off -> off + SectorSize <= zlength buf -> Forall is_char buf ->
  exists x2 buf', (bs <- OpenFile_ReadAt h SectorSize (i * SectorSize) ;; copy_in bs (zlength bs) buf off) x1
      = Ok (buf', x2) /\ disk_ok x2 /\ (forall j, sector x2 j = sector x j) /\
    zlength buf' = zlength buf /\ Forall is_char buf' /\
    forall k, zlookup buf' k =
      if decide (off <= k < off + SectorSize /\ i * SectorSize + (k - off) < numBytes h)
      then zlookup (content x h) (i * SectorSize + (k - off)) else zlookup buf k.
Proof.
  intros Hx Hx1 Hh Hs Hi Hb Hoff Hlen Hc. pose proof (bytes_in_sectors h Hh) as Hbs.
  assert (SectorSize = 128) as HS by done.
  assert (content x1 h = content x h) as Ec by (unfold content; f_equal; by apply flat_ext).
  destruct (ReadAt_run x1 h SectorSize (i * SectorSize) Hx1 Hh ltac:(lia) ltac:(lia)) as (x2 & E & Hx2 & Hs2).
  rewrite Ec in E. pose proof (content_length x h Hx Hh) as Hcl.
  set (bs := slice (i * SectorSize) SectorSize (content x h)) in *.
  assert (zlength bs = Z.min SectorSize (numBytes h - i * SectorSize)) as Hbl.
  { unfold bs. rewrite slice_overlong, Hcl by lia. apply zlength_slice; lia. }
  assert (Forall is_char bs) as Hbc by by apply slice_chars, content_chars.
  assert (slice 0 (zlength bs) bs = bs) as Es.
  { unfold slice. rewrite drop_0. apply take_ge. unfold zlength. lia. }
  exists x2, (splice off bs buf). rewrite (bind_Ok _ _ _ _ _ E).
  rewrite copy_in_run by lia. rewrite Es. split; [done|]. split; [done|].
  split; [intros j; by rewrite Hs2|]. split; [rewrite zlength_splice; lia|].
  split; [by apply splice_chars|]. intros k. rewrite zlookup_splice by lia. rewrite Hbl.
  case_decide; case_decide; try lia; [|done].
  unfold bs. rewrite zlookup_slice by lia. done.
Qed.

Lemma fill_run mem x h num position first last :
  disk_ok x -> header_wf h -> request_ok h num position first last -> numBytes h < 2 ^ 31 - SectorSize ->
  let buf0 := (fun i => i8 (mem i)) <$> seqZ 0 ((1 + last - first) * SectorSize) in
  let firstAligned := position =? first * SectorSize in
  let lastAligned := position + num =? (last + 1) * SectorSize in
  exists x2 buf2, (
    buf1 <- (if negb firstAligned then
               bs <- OpenFile_ReadAt h SectorSize (first * SectorSize) ;;
               copy_in bs (zlength bs) buf0 0
             else ret buf0) ;;
    (if negb lastAligned && (negb (first =? last) || firstAligned) then
       bs <- OpenFile_ReadAt h SectorSize (last * SectorSize) ;;
       copy_in bs (zlength bs) buf1 ((last - first) * SectorSize)
     else ret buf1)) x = Ok (buf2, x2) /\
    disk_ok x2 /\ (forall j, sector x2 j = sector x j) /\ agrees x h num position first last buf2.
Proof.
  intros Hx Hh Hrq Hb buf0 firstAligned lastAligned.
  destruct (request_blocks _ _ _ _ _ Hh Hrq) as (Hf0 & Hfl & Hl & Hpf & Hpl).
  assert (SectorSize = 128) as HS by done.
  assert (zlength buf0 = (1 + last - first) * SectorSize) as Hl0.
  { unfold buf0, zlength. rewrite length_fmap, length_seqZ. lia. }
  assert (Forall is_char buf0) as Hc0.
  { apply Forall_fmap, Forall_forall. intros. apply i8_range. }
  assert (exists x1 buf1, (if negb firstAligned then
               bs <- OpenFile_ReadAt h SectorSize (first * SectorSize) ;;
               copy_in bs (zlength bs) buf0 0
             else ret buf0) x = Ok (buf1, x1) /\ disk_ok x1 /\ (forall j, sector x1 j = sector x j) /\
    zlength buf1 = zlength buf0 /\ Forall is_char buf1 /\
    (firstAligned = false -> forall j, first * SectorSize <= j < (first + 1) * SectorSize ->
       j < numBytes h -> zlookup buf1 (j - first * SectorSize) = zlookup (content x h) j))
    as (x1 & buf1 & E1 & Hx1 & Hs1 & Hl1 & Hc1 & Hr1).
  { destruct firstAligned; cbn [negb].
    - exists x, buf0. by split_and!.
    - destruct (read_into_run x x h first buf0 0) as (x1 & buf1 & E & H1 & H2 & H3 & H4 & H5); try done; try lia.
      exists x1, buf1. split_and!; try done. intros _ j Hj Hjb. rewrite H5, decide_True by lia. f_equal. lia. }
  rewrite (bind_Ok _ _ _ _ _ E1).
  destruct (negb lastAligned && (negb (first =? last) || firstAligned)) eqn:Esec.
  - destruct (read_into_run x x1 h last buf1 ((last - first) * SectorSize))
      as (x2 & buf2 & E & H1 & H2 & H3 & H4 & H5); try done; try lia.
    exists x2, buf2. split_and!; try done. split; [lia|]. split; [done|]. intros j Hj Hjb Hjo.
    rewrite H5. case_decide as Hd; [f_equal; lia|].
    apply Hr1; [|lia|lia]. unfold firstAligned. apply Z.eqb_neq. lia.
  - exists x1, buf1. split_and!; try done. split; [lia|]. split; [done|]. intros j Hj Hjb Hjo.
    unfold lastAligned, firstAligned in *. destruct (Z.eqb_spec (position + num) ((last + 1) * SectorSize));
      destruct (Z.eqb_spec first last); destruct (Z.eqb_spec position (first * SectorSize));
      simpl in Esec; try done; try (apply Hr1; [done|lia|lia]); try lia.
Qed.

(** The number of bytes a request transfers. *)
Definition transferred (h : FileHeader) (num position : Z) : Z :=
  Z.max 0 (Z.min num (numBytes h - position)).

Lemma WriteAt_run mem x h from num position :
  disk_ok x -> header_wf h -> 0 <= position -> position + num < 2 ^ 31 ->
  numBytes h < 2 ^ 31 - SectorSize -> num <= zlength from -> Forall is_char from ->
  let n := transferred h num position in
  exists x', OpenFile_WriteAt mem h from num position x = Ok (n, x') /\ disk_ok x' /\
    content x' h = splice position (slice 0 n from) (content x h) /\
    (forall s, 0 <= s < NumSectors -> s ∉ blocks h -> sector x' s = sector x s).
Proof.
  intros Hx Hh Hp Ho Hb Hfrom Hfc n. pose proof (content_length x h Hx Hh) as Hcl.
  unfold OpenFile_WriteAt, FileHeader_FileLength. rewrite Z.geb_leb.
  destruct (Z.leb_spec num 0) as [Hn|Hn]; cbn [orb].
  { exists x. assert (n = 0) as -> by (unfold n, transferred; lia). split_and!; try done.
    symmetry. apply splice_nil. }
  destruct (Z.leb_spec (numBytes h) position) as [Hpos|Hpos].
  { exists x. assert (n = 0) as -> by (unfold n, transferred; lia). split_and!; try done.
    symmetry. apply splice_nil. }
  destruct (request_start h num position Hh ltac:(lia) Hn Ho) as [En Hrq].
  set (num' := if _ >? _ then _ else _) in *. cbn zeta.
  set (first := divRoundDown position SectorSize) in *.
  set (last := divRoundDown (i32 (position + num' - 1)) SectorSize) in *.
  assert (n = num') as -> by (rewrite En; unfold n, transferred; lia).
  destruct (request_blocks _ _ _ _ _ Hh Hrq) as (Hf0 & Hfl & Hl & Hpf & Hpl).
  assert (SectorSize = 128) as HS by done.
  destruct (fill_run mem x h num' position first last Hx Hh Hrq Hb)
    as (x2 & buf2 & E2 & Hx2 & Hs2 & Hlen & Hc2 & Hag).
  rewrite bind_assoc. rewrite (bind_Ok _ _ _ _ _ E2).
  rewrite (bind_Ok _ _ _ _ _ (copy_in_run from num' buf2 (position - first * SectorSize) x2
             ltac:(lia) ltac:(lia) ltac:(lia) ltac:(lia))).
  set (B := splice (position - first * SectorSize) (slice 0 num' from) buf2).
  assert (zlength (slice 0 num' from) = num') as Hnl by (apply zlength_slice; lia).
  assert (zlength B = Z.of_nat (Z.to_nat (1 + last - first)) * SectorSize) as HBl.
  { unfold B. rewrite zlength_splice; lia. }
  assert (Forall is_char B) as HBc by (apply splice_chars; [by apply slice_chars|done]).
  destruct (write_blocks_run x2 h first (Z.to_nat (1 + last - first)) B Hx2 Hh Hf0 ltac:(lia) HBl HBc)
    as (x3 & E3 & Hx3 & Hs3 & Hfl3).
  exists x3. rewrite (bind_Ok _ _ _ _ _ E3). split; [done|]. split; [done|]. split.
  2: { intros s Hs Hns. rewrite Hs3 by done. apply Hs2. }
  assert (flat x2 h = flat x h) as Ef by (by apply flat_ext). rewrite Ef in Hfl3.
  pose proof (flat_length x h Hx Hh) as Hfll. pose proof (bytes_in_sectors h Hh) as Hbs.
  apply zlookup_ext. intros j Hj. rewrite zlookup_splice by lia. rewrite Hnl.
  destruct (decide (j < numBytes h)) as [Hjb|Hjb].
  2: { rewrite decide_False by lia. transitivity (@None Z); [|symmetry]; apply zlookup_None;
       rewrite content_length; auto; lia. }
  assert (forall l : list Z, zlookup (take (Z.to_nat (numBytes h)) l) j = zlookup l j) as Htake.
  { intros l. unfold zlookup. destruct (Z.ltb_spec j 0); [done|]. apply lookup_take_lt. lia. }
  unfold content at 1. rewrite Htake, Hfl3, zlookup_splice by lia. rewrite HBl.
  case_decide as H1.
  - unfold B. rewrite zlookup_splice by lia. rewrite Hnl. case_decide; case_decide; try lia.
    + f_equal. lia.
    + apply Hag; lia.
  - rewrite decide_False by lia. unfold content. by rewrite Htake.
Qed.
End Content.

(** ** Properties *)

Section Properties.
Context (be : bool) {X : Type} `{HD : SectorDisk X}.

(** C29: an open file is a byte array: on a well-formed header ReadAt returns the
    bytes at its position, fewer at the end of the file and none outside it, and
    changes nothing; WriteAt overwrites exactly those bytes, whatever the
    alignment of the request with the sectors, and no sector of another file,
    and returns their number. *)
Theorem OpenFile_refines_bytes (mem : Z -> Z) (x : X) (h : FileHeader) (from : list Z) (num position : Z) :
  disk_ok x -> header_wf h -> 0 <= position -> position + num < 2 ^ 31 ->
  num <= zlength from -> Forall is_char from ->
  let n := transferred h num position in
  (exists x', OpenFile_ReadAt h num position x = Ok (slice position num (content x h), x') /\
     zlength (slice position num (content x h)) = n /\ forall j, sector x' j = sector x j) /\
  (exists x', OpenFile_WriteAt mem h from num position x = Ok (n, x') /\ disk_ok x' /\
     content x' h = splice position (slice 0 n from) (content x h) /\
     forall h', header_wf h' -> (forall s, s ∈ blocks h' -> s ∉ blocks h) ->
       content x' h' = content x h').
Proof.
  intros Hx Hh Hp Ho Hf Hc n. split.
  - destruct (ReadAt_run x h num position Hx Hh Hp Ho) as (x' & E & _ & Hs).
    exists x'. split; [done|]. split; [|done]. rewrite slice_overlong by done.
    rewrite content_length by done. unfold n, transferred, slice, zlength.
    rewrite length_take, length_drop. pose proof (content_length x h Hx Hh) as Hcl.
    unfold zlength in Hcl. lia.
  - assert (numBytes h < 2 ^ 31 - SectorSize) as Hb.
    { pose proof (bytes_in_sectors h Hh) as Hbs. destruct Hh as [_ _ Hd _ _ _].
      change NumDirect with 30 in Hd. unfold SectorSize in *. lia. }
    destruct (WriteAt_run mem x h from num position Hx Hh Hp Ho Hb Hf Hc) as (x' & E & Hx' & Hcon & Hs).
    exists x'. split_and!; try done. intros h' Hh' Hd. unfold content. f_equal.
    apply flat_ext. intros s Hin. apply Hs; [|by apply Hd].
    by apply (block_range h').
Qed.

(** A file header survives the disk: written back and fetched again it is the
    same, on a host of either byte order. *)
Theorem FileHeader_roundtrip (x : X) (h : FileHeader) (s : Z) :
  disk_ok x -> header_i32 h -> 0 <= s < NumSectors ->
  exists x' x'', FileHeader_WriteBack be h s x = Ok (tt, x') /\
    FileHeader_FetchFrom be s x' = Ok (h, x'').
Proof.
  intros Hx Hh Hs.
  destruct (WriteSector_spec x s (header_bytes be h) Hx Hs (header_bytes_wf be h Hh)) as (x' & E & Hx' & Hw).
  destruct (ReadSector_spec x' s Hx' Hs) as (x'' & E2 & _ & _).
  exists x', x''. split; [done|]. unfold FileHeader_FetchFrom. rewrite (bind_Ok _ _ _ _ _ E2).
  rewrite Hw, decide_True by done. unfold ret. by rewrite header_roundtrip.
Qed.
End Properties.

(** ** Allocation *)

(** The free map after the sectors [ss] have been marked or cleared. *)
Definition set_all (b : bool) (ss : list Z) (bs : list bool) : list bool :=
  foldl (fun bs s => zinsert s b bs) bs ss.

Lemma set_all_length b ss bs : zlength (set_all b ss bs) = zlength bs.
Proof. revert bs. induction ss as [|s ss IH]; intros bs; simpl; [done|]. by rewrite IH, zlength_zinsert. Qed.

Lemma set_all_snoc b ss s bs : set_all b (ss ++ [s]) bs = zinsert s b (set_all b ss bs).
Proof. unfold set_all. by rewrite foldl_app. Qed.

Lemma set_all_lookup b ss bs j :
  0 <= j < zlength bs -> zlookup (set_all b ss bs) j = if decide (j ∈ ss) then Some b else zlookup bs j.
Proof.
  intros Hj. induction ss as [|s ss IH] using rev_ind; [done|].
  rewrite set_all_snoc, zlookup_zinsert, set_all_length, IH.
  destruct (decide (s = j)) as [->|Hne].
  - rewrite decide_True by done. rewrite decide_True; [done|]. set_solver.
  - rewrite decide_False by (by intros [? _]).
    destruct (decide (j ∈ ss)); [rewrite decide_True by set_solver|rewrite decide_False by set_solver]; done.
Qed.

Lemma set_all_undo ss bs :
  (forall s, s ∈ ss -> zlookup bs s = Some false) -> set_all false ss (set_all true ss bs) = bs.
Proof.
  intros Hss. apply zlookup_ext. intros j Hj.
  destruct (decide (j < zlength bs)).
  - rewrite !set_all_lookup by (rewrite ?set_all_length; lia).
    destruct (decide (j ∈ ss)); [|done]. by rewrite Hss.
  - transitivity (@None bool); [|symmetry]; apply zlookup_None; rewrite ?set_all_length; lia.
Qed.

(** What Allocate leaves in the header and the map when there is room. *)
Record allocated (h h' : FileHeader) (bs : list bool) (bm' : BitMap) (fileSize : Z) : Prop := {
  al_bytes : numBytes h' = fileSize;
  al_sectors : numSectors h' = divRoundUp fileSize SectorSize;
  al_length : zlength (dataSectors h') = NumDirect;
  al_blocks : zlength (blocks h') = numSectors h';
  al_nodup : NoDup (blocks h');
  al_free : forall s, s ∈ blocks h' -> zlookup bs s = Some false;
  al_map : rep bm' (set_all true (blocks h') bs);
  al_count : count_clear (set_all true (blocks h') bs) = count_clear bs - numSectors h';
  al_rest : drop (Z.to_nat (numSectors h')) (dataSectors h') = drop (Z.to_nat (numSectors h')) (dataSectors h)
}.

Lemma take_insert_snoc {A} (l : list A) i (x : A) :
  (i < length l)%nat -> take (S i) (<[i := x]> l) = take i l ++ [x].
Proof.
  intros Hi. rewrite (take_S_r _ _ x) by by apply list_lookup_insert_eq.
  by rewrite take_insert_ge.
Qed.

(** The state of the loop of Allocate after [i] sectors. *)
Definition alloc_inv (h : FileHeader) (bs : list bool) (fileSize i : Z) (st : FileHeader * BitMap) : Prop :=
  let '(h1, bm1) := st in
  let ss := take (Z.to_nat i) (dataSectors h1) in
  numBytes h1 = fileSize /\ numSectors h1 = divRoundUp fileSize SectorSize /\
  zlength (dataSectors h1) = NumDirect /\ 0 <= i /\
  NoDup ss /\ (forall s, s ∈ ss -> zlookup bs s = Some false) /\
  rep bm1 (set_all true ss bs) /\ count_clear (set_all true ss bs) = count_clear bs - i /\
  drop (Z.to_nat i) (dataSectors h1) = drop (Z.to_nat i) (dataSectors h).

Lemma alloc_step h bs fileSize i st :
  alloc_inv h bs fileSize i st -> i < count_clear bs ->
  let m := (s <- zoom BitMap_Find ;;
      '(h, bm) <- get ;;
      ds <- must (store i s (dataSectors h)) ;;
      put (set_dataSectors ds h, bm)) in
  if decide (i < NumDirect) then exists st', m st = Ok (tt, st') /\ alloc_inv h bs fileSize (i + 1) st'
  else m st = Undef.
Proof.
  destruct st as [h1 bm1]. intros (H1 & H2 & H3 & Hi & Hnd & Hfree & Hrep & Hc & Hrest) Hlt m.
  set (ss := take (Z.to_nat i) (dataSectors h1)) in *.
  destruct (BitMap_Find_run bm1 _ Hrep) as (s & bm2 & E & HQ).
  destruct HQ as [(_ & _ & Hz)|[[Hs Hlow] Hr2]]; [lia|].
  assert (m (h1, bm1) = (ds <- must (store i s (dataSectors h1)) ;;
            put (set_dataSectors ds h1, bm2)) (h1, bm2)) as ->.
  { unfold m. rewrite (bind_Ok (zoom BitMap_Find) _ (h1, bm1) s (h1, bm2)); [done|].
    unfold zoom. simpl. by rewrite E. }
  case_decide as Hd.
  2: { assert (store i s (dataSectors h1) = None) as ->; [|done].
       unfold store. rewrite H3. destruct (Z.ltb_spec i NumDirect); [lia|]. by rewrite andb_false_r. }
  assert (0 <= i < zlength (dataSectors h1)) as Hil by lia.
  rewrite (proj2 (store_Some (dataSectors h1) i s _) (conj Hil eq_refl)).
  exists (set_dataSectors (zinsert i s (dataSectors h1)) h1, bm2). split; [done|].
  assert (take (Z.to_nat (i + 1)) (zinsert i s (dataSectors h1)) = ss ++ [s]) as Et.
  { unfold zinsert. destruct (Z.ltb_spec i 0); [lia|].
    replace (Z.to_nat (i + 1)) with (S (Z.to_nat i)) by lia. apply take_insert_snoc.
    unfold zlength in H3. lia. }
  assert ((s ∉ ss) /\ zlookup bs s = Some false) as [Hns Hbs].
  { pose proof (zlookup_lt_Some _ _ _ Hs) as Hsr. rewrite set_all_length in Hsr.
    rewrite set_all_lookup in Hs by done. by destruct (decide (s ∈ ss)). }
  unfold alloc_inv. simpl. rewrite Et, zlength_zinsert. split_and!; try done; try lia.
  - apply NoDup_app. split; [done|]. split; [|apply NoDup_singleton]. set_solver.
  - intros s' [Hin| ->%list_elem_of_singleton]%elem_of_app; auto.
  - by rewrite set_all_snoc.
  - rewrite set_all_snoc, (count_clear_update _ _ false true Hs). simpl. lia.
  - replace (Z.to_nat (i + 1)) with (S (Z.to_nat i)) by lia. unfold zinsert.
    destruct (Z.ltb_spec i 0); [lia|]. rewrite drop_insert_lt by lia.
    rewrite <- (Nat.add_1_r (Z.to_nat i)). by rewrite <- !drop_drop, Hrest.
Qed.

Lemma Allocate_start h bm bs fileSize st1 :
  rep bm bs -> st1 = (mkHeader fileSize (divRoundUp fileSize SectorSize) (dataSectors h), bm) ->
  FileHeader_Allocate fileSize (h, bm) =
  (if count_clear bs <? divRoundUp fileSize SectorSize then ret false
   else for_ 0 (Z.to_nat (divRoundUp fileSize SectorSize)) (fun i =>
      s <- zoom BitMap_Find ;;
      '(h, bm) <- get ;;
      ds <- must (store i s (dataSectors h)) ;;
      put (set_dataSectors ds h, bm)) ;;; ret true) st1.
Proof.
  intros Hrep ->. unfold FileHeader_Allocate.
  rewrite (bind_Ok (modify _) _ (h, bm) tt (mkHeader fileSize (divRoundUp fileSize SectorSize) (dataSectors h), bm)) by done.
  rewrite (bind_Ok (gets _) _ _ (divRoundUp fileSize SectorSize) (mkHeader fileSize (divRoundUp fileSize SectorSize) (dataSectors h), bm)) by done.
  rewrite (bind_Ok (zoom BitMap_NumClear) _ _ (count_clear bs) (mkHeader fileSize (divRoundUp fileSize SectorSize) (dataSectors h), bm)); [done|].
  unfold zoom. simpl. by rewrite (BitMap_NumClear_run bm bs Hrep).
Qed.

Lemma Allocate_run h bm bs fileSize :
  rep bm bs -> zlength (dataSectors h) = NumDirect -> 0 <= fileSize ->
  divRoundUp fileSize SectorSize <= NumDirect ->
  if count_clear bs <? divRoundUp fileSize SectorSize then
    exists h', FileHeader_Allocate fileSize (h, bm) = Ok (false, (h', bm))
  else exists h' bm', FileHeader_Allocate fileSize (h, bm) = Ok (true, (h', bm')) /\
         allocated h h' bs bm' fileSize.
Proof.
  intros Hrep Hl Hsz Hmax. erewrite Allocate_start by done.
  destruct (Z.ltb_spec (count_clear bs) (divRoundUp fileSize SectorSize)); [by eexists|].
  pose proof (divRoundUp_nonneg fileSize SectorSize Hsz eq_refl) as Hn.
  assert (alloc_inv h bs fileSize 0
            (mkHeader fileSize (divRoundUp fileSize SectorSize) (dataSectors h), bm)) as Hinit.
  { unfold alloc_inv. cbn [dataSectors numBytes numSectors]. change (Z.to_nat 0) with 0%nat.
    rewrite take_0. split_and!; try done; [constructor|intros s; by rewrite elem_of_nil|simpl; lia]. }
  loop_for (fun i st => alloc_inv h bs fileSize i st) as ([h' bm'] & E & Hinv).
  - intros i st Hi Hinv.
    pose proof (alloc_step h bs fileSize i st Hinv ltac:(lia)) as Hs. cbn zeta in Hs.
    rewrite decide_True in Hs by lia. exact Hs.
  - exact Hinit.
  - exists h', bm'. mrun E. split; [done|]. rewrite Z.add_0_l, Z2Nat.id in Hinv by done.
    destruct Hinv as (H1 & H2 & H3 & _ & Hnd & Hfree & Hr & Hc & Hrest). pose proof H2 as H2'.
    rewrite <- H2 in Hnd, Hfree, Hr, Hc, Hmax, Hn, Hrest. constructor; try done.
    + unfold blocks, zlength in *. rewrite length_take. lia.
Qed.

Lemma Deallocate_run h bm bs :
  rep bm bs -> zlength (blocks h) = numSectors h -> NoDup (blocks h) ->
  (forall s, s ∈ blocks h -> zlookup bs s = Some true) ->
  exists bm', FileHeader_Deallocate h bm = Ok (tt, bm') /\ rep bm' (set_all false (blocks h) bs).
Proof.
  intros Hrep Hl Hnd Hmarked. unfold FileHeader_Deallocate.
  pose proof (zlength_nonneg (blocks h)) as Hn0.
  loop_for (fun i st => rep st (set_all false (take (Z.to_nat i) (blocks h)) bs)) as (bm' & E & Hinv).
  2: { exact Hrep. }
  2: { exists bm'. split; [exact E|]. rewrite Z.add_0_l, Z2Nat.id in Hinv by lia.
       rewrite take_ge in Hinv; [done|]. unfold zlength in Hl. lia. }
  intros i st Hi Hinv. rewrite Z.add_0_l, Z2Nat.id in Hi by lia.
  destruct (proj2 (zlookup_is_Some (blocks h) i)) as [s Hs]; [lia|].
  assert (zlookup (dataSectors h) i = Some s) as Hds.
  { unfold zlookup, blocks in *. destruct (i <? 0); [done|]. by apply lookup_take_Some in Hs as [? _]. }
  apply zlookup_Some in Hs as [_ Hs].
  assert (s ∈ blocks h) as Hin by (by eapply list_elem_of_lookup_2).
  pose proof (Hmarked s Hin) as Hm. pose proof (zlookup_lt_Some _ _ _ Hm) as Hsr.
  assert (zlookup (set_all false (take (Z.to_nat i) (blocks h)) bs) s = Some true) as Ht.
  { rewrite set_all_lookup by done. rewrite decide_False; [done|].
    intros [k Hk]%list_elem_of_lookup. apply lookup_take_Some in Hk as [Hk Hlt].
    pose proof (NoDup_lookup _ _ _ _ Hnd Hk Hs). lia. }
  destruct (BitMap_Clear_run _ _ Hinv s) as (st' & Ec & Hr'); [by rewrite set_all_length|].
  exists st'. rewrite Hds. simpl. rewrite (bind_Ok (ret s) _ st s st) by done.
  mrun (BitMap_Test_run _ _ Hinv s true Ht). simpl. rewrite (bind_Ok (ret tt) _ st tt st) by done.
  split; [exact Ec|].
  replace (Z.to_nat (i + 1)) with (S (Z.to_nat i)) by lia. rewrite (take_S_r _ _ _ Hs).
  by rewrite set_all_snoc.
Qed.

(** C30: allocation of a file: Allocate fails, leaving the map as it was, when
    fewer sectors are free than the file needs; otherwise it takes that many
    distinct free sectors, marks them and nothing else, so that Deallocate
    restores the map. *)
Theorem Allocate_Deallocate (h : FileHeader) (bm : BitMap) (bs : list bool) (fileSize : Z) :
  rep bm bs -> numBits bm = NumSectors -> zlength (dataSectors h) = NumDirect ->
  0 <= fileSize <= MaxFileSize ->
  if count_clear bs <? divRoundUp fileSize SectorSize then
    exists h', FileHeader_Allocate fileSize (h, bm) = Ok (false, (h', bm))
  else exists h' bm' bm'', FileHeader_Allocate fileSize (h, bm) = Ok (true, (h', bm')) /\
    header_wf h' /\ numBytes h' = fileSize /\ rep bm' (set_all true (blocks h') bs) /\
    (forall s, s ∈ blocks h' -> zlookup bs s = Some false) /\
    FileHeader_Deallocate h' bm' = Ok (tt, bm'') /\ rep bm'' bs.
Proof.
  intros Hrep Hbits Hl Hsz.
  assert (divRoundUp fileSize SectorSize <= NumDirect) as Hd.
  { pose proof (divRoundUp_spec fileSize SectorSize ltac:(lia) eq_refl) as Hu.
    change MaxFileSize with (NumDirect * SectorSize) in Hsz. change SectorSize with 128 in *. lia. }
  pose proof (Allocate_run h bm bs fileSize Hrep Hl ltac:(lia) Hd) as HA.
  destruct (count_clear bs <? divRoundUp fileSize SectorSize); [done|].
  destruct HA as (h' & bm' & E & [H1 H2 H3 H4 H5 H6 H7 _ _]).
  assert (zlength bs = NumSectors) as Hbl by (destruct Hrep as (_ & -> & _); done).
  assert (Forall (fun s => 0 <= s < NumSectors) (blocks h')) as Hrange.
  { apply Forall_forall. intros s Hs. apply H6, zlookup_lt_Some in Hs. lia. }
  destruct (Deallocate_run h' bm' (set_all true (blocks h') bs) H7 H4) as (bm'' & Ed & Hr'').
  { done. }
  { intros s Hs. rewrite set_all_lookup; [by rewrite decide_True|].
    rewrite <- Hbl in Hrange. apply list_elem_of_lookup in Hs as [i Hs]. exact (Forall_lookup_1 _ _ _ _ Hrange Hs). }
  exists h', bm', bm''. split_and!; try done.
  - constructor; rewrite ?H1; try done; lia.
  - by rewrite set_all_undo in Hr''.
Qed.

Definition example_header : FileHeader := mkHeader 0 0 (replicate 30 0).

Lemma Allocate_Deallocate_witness :
  exists bm, BitMap_new NumSectors (fun _ => 0) = Ok bm /\
  exists h' bm', FileHeader_Allocate 300 (example_header, bm) = Ok (true, (h', bm')) /\ numBytes h' = 300.
Proof.
  destruct (BitMap_new_run NumSectors (fun _ => 0)) as (bm & E & Hr); [done|].
  exists bm. split; [exact E|].
  assert (numBits bm = NumSectors) as Hb.
  { destruct Hr as (_ & Hl & _). rewrite <- Hl. unfold zlength.
    rewrite length_replicate. apply Z2Nat.id. discriminate. }
  assert ((count_clear (replicate (Z.to_nat NumSectors) false) <? divRoundUp 300 SectorSize) = false)
    as Ec by (vm_compute; reflexivity).
  assert (zlength (dataSectors example_header) = NumDirect) as Hd by (vm_compute; reflexivity).
  assert (0 <= 300 <= MaxFileSize) as Hs by (split; vm_compute; discriminate).
  pose proof (Allocate_Deallocate example_header bm _ 300 Hr Hb Hd Hs) as H.
  rewrite Ec in H. destruct H as (h' & bm' & bm'' & Ea & _ & Hn & _).
  exists h', bm'. split; [exact Ea|exact Hn].
Defined.

(** A file that needs more than [NumDirect] sectors (more than [MaxFileSize]
    bytes) is not refused: when the disk has room Allocate writes past the end
    of the header's table of sectors, which is undefined behaviour. *)
Theorem Allocate_too_large (h : FileHeader) (bm : BitMap) (bs : list bool) (fileSize : Z) :
  rep bm bs -> zlength (dataSectors h) = NumDirect ->
  MaxFileSize < fileSize -> divRoundUp fileSize SectorSize <= count_clear bs ->
  FileHeader_Allocate fileSize (h, bm) = Undef.
Proof.
  intros Hrep Hl Hsz Hroom.
  assert (NumDirect < divRoundUp fileSize SectorSize) as Hd.
  { pose proof (divRoundUp_spec fileSize SectorSize) as Hu.
    change MaxFileSize with (30 * 128) in Hsz. change NumDirect with 30.
    change SectorSize with 128 in *. lia. }
  assert (NumDirect = 30) as H30 by done.
  erewrite Allocate_start by done. rewrite (proj2 (Z.ltb_ge _ _)) by done.
  set (st0 := (mkHeader _ _ _, bm)).
  set (body := fun i : Z => _).
  assert (alloc_inv h bs fileSize 0 st0) as Hinit.
  { unfold st0, alloc_inv. cbn [dataSectors numBytes numSectors]. change (Z.to_nat 0) with 0%nat.
    rewrite take_0. split_and!; try done; [constructor|intros s; by rewrite elem_of_nil|simpl; lia]. }
  destruct (for_inv (alloc_inv h bs fileSize) 0 30 body) with (s := st0) as (st & E & Hinv); [|done|].
  { intros i st Hi Hinv. pose proof (alloc_step h bs fileSize i st Hinv ltac:(lia)) as Hs.
    cbn zeta in Hs. by rewrite decide_True in Hs by lia. }
  pose proof (alloc_step h bs fileSize _ st Hinv ltac:(lia)) as Hs. cbn zeta in Hs.
  rewrite decide_False in Hs by lia. change (body (0 + Z.of_nat 30) st = Undef) in Hs.
  unfold bind at 1.
  replace (Z.to_nat (divRoundUp fileSize SectorSize)) with (30 + S (Z.to_nat (divRoundUp fileSize SectorSize) - 31))%nat by lia.
  rewrite for_split. rewrite (bind_Ok _ _ _ _ _ E). cbn [for_]. unfold bind at 1. by rewrite Hs.
Qed.

Lemma Allocate_too_large_witness :
  exists bm, BitMap_new NumSectors (fun _ => 0) = Ok bm /\
    FileHeader_Allocate 3841 (example_header, bm) = Undef.
Proof.
  destruct (BitMap_new_run NumSectors (fun _ => 0)) as (bm & E & Hr); [done|].
  exists bm. split; [exact E|].
  apply (Allocate_too_large example_header bm _ 3841 Hr).
  - vm_compute. reflexivity.
  - vm_compute. reflexivity.
  - vm_compute. discriminate.
Defined.

Lemma fresh_disk_idle : idle_disk fresh_disk.
Proof.
  split; [apply fresh_disk_wf|]. split; [|done]. unfold fresh_disk, blank_disk. cbn [file].
  apply Forall_app. split; [apply host_store_chars|]. by apply Forall_replicate.
Qed.

Definition small_header : FileHeader := mkHeader 300 3 ([700; 6; 71] ++ replicate 27 0).

Lemma small_header_wf : header_wf small_header.
Proof.
  constructor; try done.
  - repeat constructor; vm_compute; (reflexivity || discriminate).
  - apply (bool_decide_unpack _). vm_compute. exact I.
Qed.

Lemma OpenFile_refines_bytes_witness :
  exists x', OpenFile_WriteAt (X := Disk) (HD := synch_disk 0) (fun _ => 0) small_header [1; 2; 3; 4] 4 126 fresh_disk
    = Ok (4, x').
Proof.
  destruct (OpenFile_refines_bytes (HD := synch_disk 0) (fun _ => 0) fresh_disk small_header [1; 2; 3; 4] 4 126
    fresh_disk_idle small_header_wf) as [_ (x' & E & _)].
  - discriminate.
  - reflexivity.
  - discriminate.
  - by repeat constructor.
  - exists x'. exact E.
Defined.

Lemma FileHeader_roundtrip_witness :
  exists x' x'', @FileHeader_WriteBack true Disk (synch_disk 0) small_header 9 fresh_disk = Ok (tt, x') /\
    @FileHeader_FetchFrom true Disk (synch_disk 0) 9 x' = Ok (small_header, x'').
Proof.
  apply (@FileHeader_roundtrip true Disk (synch_disk 0)); [exact fresh_disk_idle| |].
  - constructor; try done. simpl. repeat (apply Forall_cons; split; [done|]). done.
  - split; [discriminate|reflexivity].
Defined.
