(* ===== verification/Directory.v ===== *)
(** * filesys/directory.cc: directories

    A directory is a table of entries that map names of at most nine characters
    to the sectors of file headers. Names are C strings, lists of non-zero
    characters; only their first [FileNameMaxLen] characters count. The table
    has the layout the i386 compiler gives to [DirectoryEntry], padding
    included, since it is written to disk as it is. *)

From stdpp Require Import base tactics list numbers sets.
From S2P Require Import Prelude BitMap Lists Interrupt Machine Disk OpenFile.

Local Open Scope Z_scope.

Definition FileNameMaxLen : Z := 9.

(** [pad1] and [pad2] are the bytes the compiler leaves unused. *)
Record DirectoryEntry := mkDirEntry {
  inUse : bool;
  pad1 : list Z;
  sector_no : Z;
  name : list Z;
  pad2 : list Z
}.

Definition sizeof_DirectoryEntry : Z := 20.

Record Directory := mkDirectory {
  tableSize : Z;
  table : list DirectoryEntry
}.

Definition set_table v (d : Directory) := mkDirectory (tableSize d) v.

(** ** C strings *)

(** The character at [i] of a string, 0 after its end. *)
Definition char_at (s : list Z) (i : Z) : Z :=
  match zlookup s i with Some c => c | None => 0 end.

(** [strncmp(a, b, n) == 0] *)
Fixpoint strncmp_eq (n : nat) (a b : list Z) : bool :=
  match n with
  | O => true
  | S n' =>
      (char_at a 0 =? char_at b 0) &&
      ((char_at a 0 =? 0) || strncmp_eq n' (tail a) (tail b))
  end.

(** [strncpy(dst, src, n)]: [n] bytes are written, with zeros after the end. *)
Definition strncpy (dst src : list Z) (n : Z) : list Z :=
  splice 0 ((fun i => if i <? zlength src then char_at src i else 0) <$> seqZ 0 n) dst.

(** ** Operations *)

(** [mem i] is what the entry [i] of a newly allocated table contains. *)
Definition Directory_new (size : Z) (mem : Z -> DirectoryEntry) : Directory :=
  mkDirectory size
    ((fun i => let e := mem i in mkDirEntry false (pad1 e) (sector_no e) (name e) (pad2 e)) <$> seqZ 0 size).

Definition Directory_FindIndex (nm : list Z) : M Directory Z :=
  d <- get ;;
  r <- for_ret 0 (Z.to_nat (tableSize d)) (fun i =>
         e <- must (zlookup (table d) i) ;;
         if inUse e && strncmp_eq (Z.to_nat FileNameMaxLen) (name e) nm
         then ret (Some i) else ret None) ;;
  ret (match r with Some i => i | None => -1 end).

Definition Directory_Find (nm : list Z) : M Directory Z :=
  i <- Directory_FindIndex nm ;;
  d <- get ;;
  if negb (i =? -1) then
    e <- must (zlookup (table d) i) ;; ret (sector_no e)
  else ret (-1).

Definition Directory_Add (nm : list Z) (newSector : Z) : M Directory bool :=
  k <- Directory_FindIndex nm ;;
  if negb (k =? -1) then ret false
  else
    d <- get ;;
    r <- for_ret 0 (Z.to_nat (tableSize d)) (fun i =>
           e <- must (zlookup (table d) i) ;;
           if negb (inUse e) then
             modify (fun d => set_table
               (zinsert i (mkDirEntry true (pad1 e) newSector (strncpy (name e) nm FileNameMaxLen) (pad2 e))
                  (table d)) d) ;;;
             ret (Some true)
           else ret None) ;;
    ret (match r with Some b => b | None => false end).

Definition Directory_Remove (nm : list Z) : M Directory bool :=
  i <- Directory_FindIndex nm ;;
  if i =? -1 then ret false
  else
    d <- get ;;
    e <- must (zlookup (table d) i) ;;
    put (set_table (zinsert i (mkDirEntry false (pad1 e) (sector_no e) (name e) (pad2 e)) (table d)) d) ;;;
    ret true.

(** The names Directory::List prints: [%s] stops at the first zero. *)
Fixpoint c_string (bs : list Z) : list Z :=
  match bs with
  | [] => []
  | b :: bs' => if b =? 0 then [] else b :: c_string bs'
  end.

Definition Directory_List : M Directory (list (list Z)) :=
  d <- get ;;
  for_acc 0 (Z.to_nat (tableSize d)) [] (fun i out =>
    e <- must (zlookup (table d) i) ;;
    ret (if inUse e then out ++ [c_string (name e)] else out)).

(** ** On disk *)

Definition entry_bytes (be : bool) (e : DirectoryEntry) : list Z :=
  [if inUse e then 1 else 0] ++ pad1 e ++ host_store be 4 (sector_no e) ++ name e ++ pad2 e.

Definition entry_of (be : bool) (bs : list Z) : DirectoryEntry :=
  mkDirEntry (negb (char_at bs 0 =? 0)) (slice 1 3 bs)
    (i32 (host_load be (slice 4 4 bs))) (slice 8 10 bs) (slice 18 2 bs).

Definition table_bytes (be : bool) (t : list DirectoryEntry) : list Z :=
  concat (entry_bytes be <$> t).
Definition table_of (be : bool) (size : Z) (bs : list Z) : list DirectoryEntry :=
  (fun i => entry_of be (slice (sizeof_DirectoryEntry * i) sizeof_DirectoryEntry bs)) <$> seqZ 0 size.

Section OnDisk.
Context (be : bool) {X : Type} `{HD : SectorDisk X}.

(** The bytes that are read replace a prefix of the table. *)
Definition Directory_FetchFrom (f : OpenFile) (d : Directory) : M X Directory :=
  bs <- OpenFile_ReadAt (hdr f) (tableSize d * sizeof_DirectoryEntry) 0 ;;
  ret (set_table (table_of be (tableSize d) (splice 0 bs (table_bytes be (table d)))) d).

Definition Directory_WriteBack (mem : Z -> Z) (f : OpenFile) (d : Directory) : M X unit :=
  _ <- OpenFile_WriteAt mem (hdr f) (table_bytes be (table d)) (tableSize d * sizeof_DirectoryEntry) 0 ;;
  ret tt.

(** Directory::Print: the entries with the headers and contents of their files. *)
Definition Directory_Print (d : Directory) : M X (list (list Z * Z * (Z * list Z * list Z))) :=
  for_acc 0 (Z.to_nat (tableSize d)) [] (fun i out =>
    e <- must (zlookup (table d) i) ;;
    if inUse e then
      h <- FileHeader_FetchFrom be (sector_no e) ;;
      p <- FileHeader_Print h ;;
      ret (out ++ [(c_string (name e), sector_no e, p)])
    else ret out).
End OnDisk.

(** * Correctness *)

(** The part of a name that counts. *)
Definition key_of (s : list Z) : list Z := take 9 (c_string s).

Definition c_name (s : list Z) : Prop := Forall (fun c => c <> 0) s.

Record directory_wf (d : Directory) : Prop := {
  dw_size : 0 <= tableSize d;
  dw_table : zlength (table d) = tableSize d;
  dw_names : Forall (fun e => zlength (name e) = FileNameMaxLen + 1) (table d)
}.

(** A directory as an association list from keys to sectors. *)
Definition entries (t : list DirectoryEntry) : list (list Z * Z) :=
  omap (fun e => if inUse e then Some (key_of (name e), sector_no e) else None) t.

Lemma c_string_id s : c_name s -> c_string s = s.
Proof.
  induction 1 as [|c s Hc _ IH]; [done|]. simpl.
  rewrite (proj2 (Z.eqb_neq c 0) Hc). by rewrite IH.
Qed.

Lemma char_at_nil : char_at [] 0 = 0.
Proof. done. Qed.
Lemma char_at_cons x a : char_at (x :: a) 0 = x.
Proof. done. Qed.

Lemma strncmp_eq_spec n a b :
  strncmp_eq n a b = bool_decide (take n (c_string a) = take n (c_string b)).
Proof.
  revert a b. induction n as [|n IH]; intros a b; [done|].
  cbn [strncmp_eq]. rewrite IH.
  destruct a as [|x a], b as [|y b]; rewrite ?char_at_nil, ?char_at_cons; cbn [c_string tail].
  - done.
  - destruct (Z.eqb_spec 0 y) as [<-|Hy]; [done|].
    rewrite (proj2 (Z.eqb_neq y 0)) by done. done.
  - by destruct (Z.eqb_spec x 0) as [->|Hx].
  - destruct (Z.eqb_spec x y) as [->|Hxy]; cbn [andb].
    + destruct (Z.eqb_spec y 0); [done|]. cbn [orb take].
      apply bool_decide_ext. split; [by intros ->|by intros [= ?]].
    + destruct (Z.eqb_spec x 0), (Z.eqb_spec y 0); subst; try done;
        symmetry; apply bool_decide_false; cbn [take]; congruence.
Qed.

Lemma strncmp_key a b : strncmp_eq (Z.to_nat FileNameMaxLen) a b = bool_decide (key_of a = key_of b).
Proof. apply strncmp_eq_spec. Qed.

Lemma c_string_app s t : c_name s -> c_string (s ++ t) = s ++ c_string t.
Proof.
  induction 1 as [|c s Hc _ IH]; [done|]. simpl. rewrite (proj2 (Z.eqb_neq c 0) Hc). by rewrite IH.
Qed.

(** The name stored by strncpy has the key of the name it was given. *)
Lemma strncpy_key dst nm :
  c_name nm -> zlength dst = FileNameMaxLen + 1 ->
  key_of (strncpy dst nm FileNameMaxLen) = key_of nm /\
  zlength (strncpy dst nm FileNameMaxLen) = FileNameMaxLen + 1.
Proof.
  intros Hn Hd. unfold FileNameMaxLen in *.
  set (src := (fun i => if i <? zlength nm then char_at nm i else 0) <$> seqZ 0 9).
  assert (src = take 9 (nm ++ replicate 9 0)) as Hsrc.
  { apply zlookup_ext. intros i Hi. unfold src, zlookup. destruct (Z.ltb_spec i 0); [lia|].
    rewrite list_lookup_fmap. destruct (decide (i < 9)).
    - rewrite lookup_seqZ_lt by lia. simpl. rewrite lookup_take_lt by lia.
      destruct (Z.ltb_spec (0 + Z.of_nat (Z.to_nat i)) (zlength nm)) as [Hl|Hl]; unfold zlength in Hl.
      + rewrite lookup_app_l by lia. unfold char_at, zlookup.
        destruct (Z.ltb_spec (0 + Z.of_nat (Z.to_nat i)) 0); [lia|].
        replace (Z.to_nat (0 + Z.of_nat (Z.to_nat i))) with (Z.to_nat i) by lia.
        destruct (lookup_lt_is_Some_2 nm (Z.to_nat i)) as [c ->]; [lia|done].
      + rewrite lookup_app_r by lia. symmetry. apply (lookup_replicate_2 9 0). lia.
    - rewrite lookup_seqZ_ge by lia. symmetry. apply lookup_ge_None_2. rewrite length_take. lia. }
  assert (length src = 9%nat) as Hl by (unfold src; by rewrite length_fmap, length_seqZ).
  assert (strncpy dst nm 9 = src ++ drop 9 dst) as ->.
  { unfold strncpy, splice. fold src. rewrite Hl. done. }
  split.
  - rewrite Hsrc. unfold key_of. rewrite (c_string_id nm) by done.
    destruct (decide (9 <= length nm)%nat).
    + rewrite take_app_le by done. rewrite c_string_app by by apply Forall_take.
      rewrite take_app_le by (rewrite length_take; lia). rewrite take_take. f_equal.
    + rewrite take_app_ge by lia. rewrite take_replicate, Nat.min_l by lia.
      rewrite <- app_assoc, c_string_app by done.
      replace (9 - length nm)%nat with (S (8 - length nm)) by lia. simpl. by rewrite app_nil_r.
  - unfold zlength in *. rewrite length_app, length_drop, Hl. lia.
Qed.

(** ** Searching the table *)

Definition matches (nm : list Z) (e : DirectoryEntry) : Prop := inUse e = true /\ key_of (name e) = key_of nm.
#[export] Instance matches_dec nm e : Decision (matches nm e).
Proof. unfold matches. apply _. Defined.

(** Where FindIndex stops. *)
Definition found (nm : list Z) (d : Directory) (i : Z) : Prop :=
  (i = -1 /\ Forall (fun e => ~ matches nm e) (table d)) \/
  (exists e, zlookup (table d) i = Some e /\ matches nm e).

Lemma FindIndex_run nm d :
  directory_wf d -> exists i, Directory_FindIndex nm d = Ok (i, d) /\ found nm d i.
Proof.
  intros [Hs Ht Hn]. unfold Directory_FindIndex. rewrite (bind_Ok get _ d d d) by done.
  loop_ret (fun i s => s = d /\ forall j e, 0 <= j < i -> zlookup (table d) j = Some e -> ~ matches nm e)
    (fun i v s => s = d /\ v = i /\ exists e, zlookup (table d) i = Some e /\ matches nm e)
    as (r & s' & E & HQ).
  2: { split; [reflexivity|]. intros; lia. }
  - intros i s Hi [-> Hj]. rewrite Z2Nat.id in Hi by done.
    destruct (proj2 (zlookup_is_Some (table d) i)) as [e He]; [lia|]. rewrite He.
    rewrite (bind_Ok (must (Some e)) _ d e d) by done. rewrite strncmp_key.
    destruct (inUse e && bool_decide (key_of (name e) = key_of nm)) eqn:Em.
    + exists (Some i), d. split; [done|]. split; [done|]. split; [done|]. exists e. split; [done|].
      apply andb_true_iff in Em as [? Hk%bool_decide_eq_true]. done.
    + exists None, d. split; [done|]. split; [done|]. intros j e' Hj' He'.
      destruct (decide (j = i)) as [->|]; [|apply (Hj j); [lia|done]].
      rewrite He in He'. simplify_eq. intros [Hu Hk]. rewrite Hu, (bool_decide_true _ Hk) in Em. done.
  - mrun E. destruct r as [v|].
    + destruct HQ as (i & Hi & -> & -> & Hf). exists i. split; [done|]. by right.
    + destruct HQ as [-> Hall]. exists (-1). split; [done|]. left. split; [done|].
      apply Forall_lookup. intros j e He. apply (Hall (Z.of_nat j)).
      * rewrite Z2Nat.id by done. pose proof (lookup_lt_Some _ _ _ He). unfold zlength in Ht. lia.
      * unfold zlookup. destruct (Z.ltb_spec (Z.of_nat j) 0); [lia|]. by rewrite Nat2Z.id.
Qed.

(** No two files of the directory have the same key. *)
Definition unique_names (d : Directory) : Prop :=
  forall i j e e', zlookup (table d) i = Some e -> zlookup (table d) j = Some e' ->
    inUse e = true -> inUse e' = true -> key_of (name e) = key_of (name e') -> i = j.

(** The directory as a map from names to sectors. *)
Definition dir_lookup (d : Directory) (nm : list Z) : option Z :=
  (fun p => sector_no p.2) <$> list_find (matches nm) (table d).

Lemma dir_lookup_Some d nm s :
  dir_lookup d nm = Some s ->
  exists i e, zlookup (table d) i = Some e /\ matches nm e /\ sector_no e = s.
Proof.
  unfold dir_lookup. destruct (list_find (matches nm) (table d)) as [[i e]|] eqn:E; [|done].
  intros [= <-]. apply list_find_Some in E as (Hl & Hm & _).
  exists (Z.of_nat i), e. split; [|done]. apply zlookup_Some. split; [lia|]. by rewrite Nat2Z.id.
Qed.

Lemma dir_lookup_known d nm i e :
  unique_names d -> zlookup (table d) i = Some e -> matches nm e -> dir_lookup d nm = Some (sector_no e).
Proof.
  intros Hu He Hm. unfold dir_lookup.
  destruct (list_find (matches nm) (table d)) as [[k e']|] eqn:E.
  - apply list_find_Some in E as (Hl & Hm' & _). simpl. f_equal.
    assert (zlookup (table d) (Z.of_nat k) = Some e') as Hk.
    { apply zlookup_Some. split; [lia|]. by rewrite Nat2Z.id. }
    destruct Hm as [U1 K1], Hm' as [U2 K2].
    assert (Z.of_nat k = i) as <- by (apply (Hu _ _ e' e); congruence).
    rewrite He in Hk. by simplify_eq.
  - exfalso. apply list_find_None in E. apply zlookup_Some in He as [_ He].
    by apply (Forall_lookup_1 _ _ _ _ E He).
Qed.

Lemma dir_lookup_None d nm :
  (forall i e, zlookup (table d) i = Some e -> ~ matches nm e) -> dir_lookup d nm = None.
Proof.
  intros H. destruct (dir_lookup d nm) as [s|] eqn:E; [|done].
  apply dir_lookup_Some in E as (i & e & He & Hm & _). by destruct (H i e He).
Qed.

Lemma dir_lookup_key d nm nm' : key_of nm = key_of nm' -> dir_lookup d nm = dir_lookup d nm'.
Proof.
  intros Hk. unfold dir_lookup. f_equal. apply list_find_ext. intros e. unfold matches. by rewrite Hk.
Qed.

Lemma found_lookup d nm i :
  unique_names d -> found nm d i ->
  dir_lookup d nm = (sector_no <$> (if i =? -1 then None else zlookup (table d) i)).
Proof.
  intros Hu [[-> Hf]|(e & He & Hm)].
  - simpl. apply dir_lookup_None. intros i e He. apply zlookup_Some in He as [_ He].
    exact (Forall_lookup_1 _ _ _ _ Hf He).
  - pose proof (zlookup_lt_Some _ _ _ He). rewrite (proj2 (Z.eqb_neq i (-1))) by lia.
    rewrite He. by apply (dir_lookup_known d nm i).
Qed.

(** Replacing one entry of the table. *)
Section Update.
Context (d : Directory) (i : Z) (e e' : DirectoryEntry).
Context (He : zlookup (table d) i = Some e).

Lemma lookup_update j :
  zlookup (zinsert i e' (table d)) j = if decide (j = i) then Some e' else zlookup (table d) j.
Proof.
  pose proof (zlookup_lt_Some _ _ _ He). rewrite zlookup_zinsert.
  destruct (decide (j = i)) as [->|]; [by rewrite decide_True|].
  by rewrite decide_False by (intros [? _]; done).
Qed.

Lemma update_wf : directory_wf d -> zlength (name e') = FileNameMaxLen + 1 ->
  directory_wf (set_table (zinsert i e' (table d)) d).
Proof.
  intros [H1 H2 H3] Hn. constructor; simpl; [done|by rewrite zlength_zinsert|].
  unfold zinsert. case_match; [done|]. by apply Forall_insert.
Qed.
End Update.

Lemma Add_loop_run d nm s :
  directory_wf d ->
  exists r d', for_ret 0 (Z.to_nat (tableSize d)) (fun i =>
           e <- must (zlookup (table d) i) ;;
           if negb (inUse e) then
             modify (fun d => set_table
               (zinsert i (mkDirEntry true (pad1 e) s (strncpy (name e) nm FileNameMaxLen) (pad2 e))
                  (table d)) d) ;;;
             ret (Some true)
           else ret None) d = Ok (r, d') /\
    match r with
    | None => d' = d /\ Forall (fun e => inUse e = true) (table d)
    | Some b => b = true /\ exists i e, zlookup (table d) i = Some e /\ inUse e = false /\
        d' = set_table (zinsert i (mkDirEntry true (pad1 e) s (strncpy (name e) nm FileNameMaxLen) (pad2 e)) (table d)) d
    end.
Proof.
  intros [Hs Ht Hn].
  loop_ret (fun i st => st = d /\ forall j e, 0 <= j < i -> zlookup (table d) j = Some e -> inUse e = true)
    (fun i (v : bool) st => v = true /\ exists e, zlookup (table d) i = Some e /\ inUse e = false /\
        st = set_table (zinsert i (mkDirEntry true (pad1 e) s (strncpy (name e) nm FileNameMaxLen) (pad2 e)) (table d)) d)
    as (r & s' & E & HQ).
  2: { split; [reflexivity|]. intros; lia. }
  - intros i st Hi [-> Hj]. rewrite Z2Nat.id in Hi by done.
    destruct (proj2 (zlookup_is_Some (table d) i)) as [e He]; [lia|]. rewrite He.
    rewrite (bind_Ok (must (Some e)) _ d e d) by done. destruct (inUse e) eqn:Eu; simpl.
    + exists None, d. split; [done|]. split; [done|]. intros j e' Hj' He'.
      destruct (decide (j = i)) as [->|]; [congruence|]. apply (Hj j); [lia|done].
    + eexists (Some true), _. split; [reflexivity|]. split; [done|]. by exists e.
  - exists r, s'. split; [exact E|]. destruct r as [b|].
    + destruct HQ as (i & _ & -> & e & ? & ? & ->). split; [done|]. by exists i, e.
    + destruct HQ as [-> Hall]. split; [done|]. apply Forall_lookup. intros j e He.
      apply (Hall (Z.of_nat j)).
      * pose proof (lookup_lt_Some _ _ _ He). unfold zlength in Ht. lia.
      * apply zlookup_Some. split; [lia|]. by rewrite Nat2Z.id.
Qed.

(** Add: what it does to the table. *)
Lemma dir_Add_run d nm s :
  directory_wf d -> unique_names d -> c_name nm ->
  (dir_lookup d nm <> None /\ Directory_Add nm s d = Ok (false, d)) \/
  (dir_lookup d nm = None /\ Forall (fun e => inUse e = true) (table d) /\ Directory_Add nm s d = Ok (false, d)) \/
  (dir_lookup d nm = None /\ exists i e e', zlookup (table d) i = Some e /\ inUse e = false /\
     inUse e' = true /\ sector_no e' = s /\ key_of (name e') = key_of nm /\ zlength (name e') = FileNameMaxLen + 1 /\
     pad1 e' = pad1 e /\ e' = mkDirEntry true (pad1 e) s (strncpy (name e) nm FileNameMaxLen) (pad2 e) /\
     Directory_Add nm s d = Ok (true, set_table (zinsert i e' (table d)) d)).
Proof.
  intros Hw Hu Hn. destruct (FindIndex_run nm d Hw) as (k & E & Hf).
  pose proof (found_lookup d nm k Hu Hf) as Hl. unfold Directory_Add. mrun E.
  destruct (Z.eqb_spec k (-1)) as [->|Hk]; simpl in *.
  - right. rewrite (bind_Ok get _ d d d) by done.
    destruct (Add_loop_run d nm s Hw) as (r & d' & El & HQ). mrun El. destruct r as [b|].
    + right. destruct HQ as (-> & i & e & He & Hu' & ->). split; [done|].
      pose proof Hw as [_ _ Hnames]. apply zlookup_Some in He as Hle.
      destruct (strncpy_key (name e) nm Hn (Forall_lookup_1 _ _ _ _ Hnames (proj2 Hle))) as [Hk1 Hk2].
      exists i, e, (mkDirEntry true (pad1 e) s (strncpy (name e) nm FileNameMaxLen) (pad2 e)). by split_and!.
    + left. by destruct HQ as [-> ?].
  - left. split; [|done]. rewrite Hl. destruct Hf as [[-> _]|(e & -> & _)]; done.
Qed.

Lemma dir_Remove_run d nm :
  directory_wf d -> unique_names d ->
  (dir_lookup d nm = None /\ Directory_Remove nm d = Ok (false, d)) \/
  (exists i e, zlookup (table d) i = Some e /\ matches nm e /\ dir_lookup d nm = Some (sector_no e) /\
     Directory_Remove nm d = Ok (true, set_table
       (zinsert i (mkDirEntry false (pad1 e) (sector_no e) (name e) (pad2 e)) (table d)) d)).
Proof.
  intros Hw Hu. destruct (FindIndex_run nm d Hw) as (k & E & Hf).
  pose proof (found_lookup d nm k Hu Hf) as Hl. unfold Directory_Remove. mrun E.
  destruct Hf as [[-> _]|(e & He & Hm)]; [by left|].
  pose proof (zlookup_lt_Some _ _ _ He). rewrite (proj2 (Z.eqb_neq k (-1))) in * by lia.
  right. exists k, e. rewrite He in Hl. split_and!; try done; try apply Hm.
  rewrite (bind_Ok get _ d d d) by done. rewrite He. by rewrite (bind_Ok (must (Some e)) _ d e d) by done.
Qed.

Lemma dir_Find_run d nm :
  directory_wf d -> unique_names d ->
  Directory_Find nm d = Ok (match dir_lookup d nm with Some s => s | None => -1 end, d).
Proof.
  intros Hw Hu. destruct (FindIndex_run nm d Hw) as (k & E & Hf).
  rewrite (found_lookup d nm k Hu Hf). unfold Directory_Find. mrun E.
  rewrite (bind_Ok get _ d d d) by done.
  destruct Hf as [[-> _]|(e & He & Hm)]; [done|].
  pose proof (zlookup_lt_Some _ _ _ He). rewrite (proj2 (Z.eqb_neq k (-1))) by lia. by rewrite He.
Qed.

(** The directory after the entry [i] has been replaced. *)
Lemma update_unique d i e e' :
  unique_names d -> zlookup (table d) i = Some e ->
  (inUse e' = true -> forall j e2, j <> i -> zlookup (table d) j = Some e2 -> inUse e2 = true ->
     key_of (name e2) <> key_of (name e')) ->
  unique_names (set_table (zinsert i e' (table d)) d).
Proof.
  intros Hu He Hk j k e1 e2 H1 H2 U1 U2 HK. simpl in *.
  rewrite (lookup_update d i e e' He) in H1, H2.
  destruct (decide (j = i)), (decide (k = i)); simplify_eq; try done.
  - exfalso. by apply (Hk U1 k e2).
  - exfalso. by apply (Hk U2 j e1).
  - by apply (Hu j k e1 e2).
Qed.

Lemma dir_lookup_other d d' nm' :
  unique_names d -> unique_names d' ->
  (forall j e, zlookup (table d) j = Some e -> matches nm' e -> exists k, zlookup (table d') k = Some e) ->
  (forall j e, zlookup (table d') j = Some e -> matches nm' e -> exists k, zlookup (table d) k = Some e) ->
  dir_lookup d' nm' = dir_lookup d nm'.
Proof.
  intros Hu Hu' H1 H2. destruct (dir_lookup d nm') as [s|] eqn:E.
  - apply dir_lookup_Some in E as (i & e & He & Hm & <-).
    destruct (H1 i e He Hm) as [k Hk]. by apply (dir_lookup_known d' nm' k).
  - apply dir_lookup_None. intros j e He Hm. destruct (H2 j e He Hm) as [k Hk].
    by rewrite (dir_lookup_known d nm' k e Hu Hk Hm) in E.
Qed.

(** The directory after an entry has been added or removed. *)
Section Updated.
Context (d : Directory) (nm : list Z) (i : Z) (e e' : DirectoryEntry).
Context (Hw : directory_wf d) (Hu : unique_names d) (He : zlookup (table d) i = Some e).
Abbreviation d' := (set_table (zinsert i e' (table d)) d).

Lemma added :
  dir_lookup d nm = None -> inUse e = false -> inUse e' = true -> key_of (name e') = key_of nm ->
  zlength (name e') = FileNameMaxLen + 1 ->
  directory_wf d' /\ unique_names d' /\
  forall nm', dir_lookup d' nm' = if bool_decide (key_of nm' = key_of nm) then Some (sector_no e') else dir_lookup d nm'.
Proof.
  intros Hl U U' K L.
  assert (unique_names d') as Hu'.
  { apply (update_unique d i e e'); try done. intros _ j e2 _ He2 U2 K2. rewrite K in K2.
    by rewrite (dir_lookup_known d nm j e2 Hu He2 (conj U2 K2)) in Hl. }
  split; [by apply (update_wf d i e')|]. split; [done|]. intros nm'. case_bool_decide as Hk.
  - apply (dir_lookup_known _ nm' i e' Hu'); [|split; congruence].
    cbn [table set_table]. by rewrite (lookup_update d i e e' He), decide_True.
  - apply dir_lookup_other; try done; intros j e2 H2 [U2 K2].
    + exists j. cbn [table set_table]. rewrite (lookup_update d i e e' He), decide_False; [done|].
      intros ->. congruence.
    + cbn [table set_table] in H2. rewrite (lookup_update d i e e' He) in H2.
      destruct (decide (j = i)) as [->|]; [simplify_eq; congruence|by exists j].
Qed.

Lemma removed :
  matches nm e -> inUse e' = false -> name e' = name e ->
  directory_wf d' /\ unique_names d' /\
  forall nm', dir_lookup d' nm' = if bool_decide (key_of nm' = key_of nm) then None else dir_lookup d nm'.
Proof.
  intros [U K] U' N.
  assert (unique_names d') as Hu' by (apply (update_unique d i e e'); [done|done|congruence]).
  split.
  { apply (update_wf d i e'); [done|]. rewrite N. destruct Hw as [_ _ Hnames].
    apply zlookup_Some in He as [_ He']. exact (Forall_lookup_1 _ _ _ _ Hnames He'). }
  split; [done|]. intros nm'. case_bool_decide as Hk.
  - apply dir_lookup_None. cbn [table set_table]. intros j e2 H2 [U2 K2].
    rewrite (lookup_update d i e e' He) in H2. destruct (decide (j = i)) as [->|Hj]; [simplify_eq; congruence|].
    apply Hj. apply (Hu j i e2 e); congruence.
  - apply dir_lookup_other; try done; intros j e2 H2 [U2 K2].
    + exists j. cbn [table set_table]. rewrite (lookup_update d i e e' He), decide_False; [done|].
      intros ->. congruence.
    + cbn [table set_table] in H2. rewrite (lookup_update d i e e' He) in H2.
      destruct (decide (j = i)) as [->|]; [simplify_eq; congruence|by exists j].
Qed.
End Updated.

(** C31: a directory is a map from names to header sectors, where only the first
    nine characters of a name count: Find looks a name up (-1 when it is not
    there), Add fails for a name that is there and for a full table and
    otherwise maps that name and no other, Remove deletes it and no other. *)
Theorem Directory_refines_map (d : Directory) (nm : list Z) (s : Z) :
  directory_wf d -> unique_names d -> c_name nm ->
  Directory_Find nm d = Ok (match dir_lookup d nm with Some s' => s' | None => -1 end, d) /\
  (exists b d', Directory_Add nm s d = Ok (b, d') /\ directory_wf d' /\ unique_names d' /\
     (b = true <-> dir_lookup d nm = None /\ ~ Forall (fun e => inUse e = true) (table d)) /\
     forall nm', dir_lookup d' nm' =
       if b && bool_decide (key_of nm' = key_of nm) then Some s else dir_lookup d nm') /\
  (exists b d', Directory_Remove nm d = Ok (b, d') /\ directory_wf d' /\ unique_names d' /\
     (b = true <-> dir_lookup d nm <> None) /\
     forall nm', dir_lookup d' nm' =
       if bool_decide (key_of nm' = key_of nm) then None else dir_lookup d nm').
Proof.
  intros Hw Hu Hn. split; [by apply dir_Find_run|]. split.
  - destruct (dir_Add_run d nm s Hw Hu Hn) as [[Hl E]|[(Hl & Hf & E)|(Hl & i & e & e' & He & U & U' & S & K & L & _ & _ & E)]].
    + exists false, d. split_and!; try done. split; [done|]. by intros [? _].
    + exists false, d. split_and!; try done. split; [done|]. by intros [_ []].
    + destruct (added d nm i e e' Hw Hu He Hl U U' K L) as (Hw' & Hu' & Hlook).
      exists true, (set_table (zinsert i e' (table d)) d). split_and!; try done.
      * split; [|done]. intros _. split; [done|]. intros Hf. apply zlookup_Some in He as [_ He].
        pose proof (Forall_lookup_1 _ _ _ _ Hf He). simpl in *. congruence.
      * intros nm'. by rewrite Hlook, S.
  - destruct (dir_Remove_run d nm Hw Hu) as [[Hl E]|(i & e & He & Hm & Hl & E)].
    + exists false, d. split_and!; try done. intros nm'. case_bool_decide as Hk; [|done].
      apply dir_lookup_None. intros j e2 H2 [U2 K2].
      by rewrite (dir_lookup_known d nm j e2 Hu H2 (conj U2 (eq_trans K2 Hk))) in Hl.
    + destruct (removed d nm i e (mkDirEntry false (pad1 e) (sector_no e) (name e) (pad2 e)) Hw Hu He Hm)
        as (Hw' & Hu' & Hlook); [done|done|].
      eexists true, _. split; [exact E|]. split_and!; try done. split; [|done]. intros _. by rewrite Hl.
Qed.

Definition empty_entry : DirectoryEntry := mkDirEntry false [0; 0; 0] 0 (replicate 10 0) [0; 0].

Lemma unused_unique d : Forall (fun e => inUse e = false) (table d) -> unique_names d.
Proof.
  intros Hf i j e e' He _ Hu. apply zlookup_Some in He as [_ He].
  pose proof (Forall_lookup_1 _ _ _ _ Hf He). simpl in *. congruence.
Qed.

Lemma Directory_refines_map_witness :
  exists d', Directory_Add [97; 98] 17 (Directory_new 10 (fun _ => empty_entry)) = Ok (true, d') /\
    dir_lookup d' [97; 98] = Some 17.
Proof.
  destruct (Directory_refines_map (Directory_new 10 (fun _ => empty_entry)) [97; 98] 17)
    as (_ & (b & d' & E & _ & _ & Hb & Hl) & _).
  - constructor; [done|done|]. by repeat constructor.
  - apply unused_unique. vm_compute. repeat constructor.
  - by repeat constructor.
  - assert (b = true) as ->.
    { apply Hb. split; [vm_compute; reflexivity|].
      intros Hf. pose proof (Forall_lookup_1 _ _ 0 empty_entry Hf eq_refl) as H. discriminate H. }
    exists d'. split; [exact E|]. rewrite Hl. cbn [andb]. case_bool_decide; [done|congruence].
Defined.

(** ** The directory on disk *)

Record entry_wf (e : DirectoryEntry) : Prop := {
  ew_pad1 : zlength (pad1 e) = 3 /\ Forall is_char (pad1 e);
  ew_sector : is_i32 (sector_no e);
  ew_name : zlength (name e) = FileNameMaxLen + 1 /\ Forall is_char (name e);
  ew_pad2 : zlength (pad2 e) = 2 /\ Forall is_char (pad2 e)
}.

Lemma slice_mid {A} (l1 l2 l3 : list A) i n :
  zlength l1 = i -> zlength l2 = n -> slice i n (l1 ++ l2 ++ l3) = l2.
Proof.
  unfold zlength, slice. intros <- <-. rewrite !Nat2Z.id, drop_app_length. apply take_app_length.
Qed.

Lemma slice_whole {A} (l : list A) n : zlength l <= n -> slice 0 n l = l.
Proof. unfold zlength, slice. intros Hn. change (Z.to_nat 0) with 0%nat. rewrite drop_0. apply take_ge. lia. Qed.

Lemma splice_all {A} (src dst : list A) : zlength src = zlength dst -> splice 0 src dst = src.
Proof.
  intros Hl. apply zlookup_ext. intros j Hj. rewrite zlookup_splice by lia.
  case_decide as Hd; [f_equal; lia|]. transitivity (@None A); [|symmetry]; apply zlookup_None; lia.
Qed.

Lemma entry_roundtrip be e : entry_wf e -> entry_of be (entry_bytes be e) = e.
Proof.
  intros [[H1 _] Hs [H2 _] [H3 _]]. unfold entry_of.
  assert (char_at (entry_bytes be e) 0 = if inUse e then 1 else 0) as -> by done.
  assert (zlength (host_store be 4 (sector_no e)) = 4) as Hh by (unfold zlength; by rewrite length_host_store).
  assert (FileNameMaxLen = 9) as HF by done. unfold entry_bytes.
  rewrite (slice_mid [if inUse e then 1 else 0]) by done.
  rewrite (app_assoc [_] (pad1 e)), (slice_mid ([_] ++ pad1 e)) by (rewrite ?zlength_app, ?H1; done).
  rewrite host_load_store, i32_u32, i32_id by done.
  rewrite (app_assoc (_ ++ pad1 e)), (slice_mid ((_ ++ pad1 e) ++ _))
    by (rewrite ?zlength_app, ?H1, ?Hh, ?H2; done).
  rewrite (app_assoc ((_ ++ pad1 e) ++ _)), <- (app_nil_r (pad2 e)), (slice_mid (((_ ++ pad1 e) ++ _) ++ _))
    by (rewrite ?zlength_app, ?H1, ?Hh, ?H2; done).
  by destruct e as [[] ? ? ? ?].
Qed.

Lemma entry_bytes_wf be e : entry_wf e -> zlength (entry_bytes be e) = sizeof_DirectoryEntry /\ Forall is_char (entry_bytes be e).
Proof.
  intros [[H1 C1] _ [H2 C2] [H3 C3]]. unfold entry_bytes. split.
  - rewrite !zlength_app, H1, H2, H3.
    replace (zlength (host_store be 4 (sector_no e))) with 4; [done|]. unfold zlength. by rewrite length_host_store.
  - repeat (apply Forall_app; split); try done; [|apply host_store_chars]. by destruct (inUse e); repeat constructor.
Qed.

Lemma table_bytes_wf be t : Forall entry_wf t ->
  zlength (table_bytes be t) = sizeof_DirectoryEntry * zlength t /\ Forall is_char (table_bytes be t).
Proof.
  unfold table_bytes. induction 1 as [|e t He _ [IH1 IH2]]; [done|].
  destruct (entry_bytes_wf be e He) as [L C]. rewrite fmap_cons. cbn [concat]. split.
  - rewrite zlength_app, L, IH1. unfold zlength. cbn [length]. lia.
  - apply Forall_app. done.
Qed.

Lemma table_roundtrip be t : Forall entry_wf t -> table_of be (zlength t) (table_bytes be t) = t.
Proof.
  intros Ht. apply zlookup_ext. intros j Hj. unfold table_of.
  assert (zlength (seqZ 0 (zlength t)) = zlength t) as Hl by (pose proof (zlength_nonneg t); unfold zlength in *; rewrite length_seqZ; lia).
  assert (Forall (fun l => length l = 20%nat) (entry_bytes be <$> t)) as Hc.
  { apply Forall_fmap. eapply Forall_impl; [exact Ht|]. intros e He.
    enough (length (entry_bytes be e) = 20%nat) by done.
    destruct (entry_bytes_wf be e He) as [L _]. unfold zlength, sizeof_DirectoryEntry in L. lia. }
  destruct (decide (j < zlength t)) as [Hjt|Hjt].
  - destruct (proj2 (zlookup_is_Some t j) ltac:(lia)) as [e He]. rewrite He.
    apply zlookup_Some in He as [_ He].
    unfold zlookup. destruct (Z.ltb_spec j 0); [lia|]. rewrite list_lookup_fmap, lookup_seqZ_lt by lia.
    cbn [fmap option_fmap option_map]. f_equal. rewrite <- (entry_roundtrip be e) by exact (Forall_lookup_1 _ _ _ _ Ht He).
    f_equal. unfold sizeof_DirectoryEntry, table_bytes.
    replace (20 * (0 + Z.of_nat (Z.to_nat j))) with (j * Z.of_nat 20) by lia.
    rewrite <- (concat_slice 20 (entry_bytes be <$> t) j 1) by (done || lia).
    unfold slice. rewrite (drop_S _ (entry_bytes be e)) by (by rewrite list_lookup_fmap, He).
    exact (app_nil_r (entry_bytes be e)).
  - transitivity (@None DirectoryEntry); [|symmetry]; apply zlookup_None; [|lia].
    unfold zlength in *. rewrite length_fmap. lia.
Qed.

Section Stored.
Context (be : bool) {X : Type} `{HD : SectorDisk X}.

(** The directory [d] is what the file with the header [h] contains. *)
Definition stored_dir (x : X) (h : FileHeader) (d : Directory) : Prop :=
  Forall entry_wf (table d) /\ zlength (table d) = tableSize d /\
  numBytes h = sizeof_DirectoryEntry * tableSize d /\ content x h = table_bytes be (table d).

Lemma Directory_FetchFrom_run x f d d0 :
  disk_ok x -> header_wf (hdr f) -> stored_dir x (hdr f) d ->
  tableSize d0 = tableSize d -> zlength (table d0) = tableSize d0 -> Forall entry_wf (table d0) ->
  exists x', Directory_FetchFrom be f d0 x = Ok (d, x') /\ disk_ok x' /\ forall j, sector x' j = sector x j.
Proof.
  intros Hx Hh (He & Hl & Hb & Hc) Ht Hl0 He0.
  pose proof (bytes_in_sectors _ Hh) as Hs. pose proof (hw_direct _ Hh) as Hd.
  change NumDirect with 30 in Hd. assert (SectorSize = 128) as HS by done.
  destruct (ReadAt_run x (hdr f) (tableSize d0 * sizeof_DirectoryEntry) 0 Hx Hh) as (x' & E & Hx' & Hj).
  { lia. } { unfold sizeof_DirectoryEntry in *. lia. }
  exists x'. unfold Directory_FetchFrom. mrun E. split; [|done]. unfold ret. do 2 f_equal.
  destruct (table_bytes_wf be (table d) He) as [L _]. destruct (table_bytes_wf be (table d0) He0) as [L0 _].
  assert (slice 0 (tableSize d0 * sizeof_DirectoryEntry) (content x (hdr f)) = table_bytes be (table d)) as ->.
  { rewrite Hc. apply slice_whole. rewrite L, Hl. lia. }
  rewrite splice_all by (rewrite L, L0; lia). rewrite Ht, <- Hl, table_roundtrip by done.
  destruct d, d0; simpl in *. unfold set_table. simpl. by rewrite Ht.
Qed.

Lemma Directory_WriteBack_run mem x f d :
  disk_ok x -> header_wf (hdr f) -> Forall entry_wf (table d) -> zlength (table d) = tableSize d ->
  numBytes (hdr f) = sizeof_DirectoryEntry * tableSize d ->
  exists x', Directory_WriteBack be mem f d x = Ok (tt, x') /\ disk_ok x' /\ stored_dir x' (hdr f) d /\
    forall s, 0 <= s < NumSectors -> s ∉ blocks (hdr f) -> sector x' s = sector x s.
Proof.
  intros Hx Hh He Hl Hb. destruct (table_bytes_wf be (table d) He) as [L C].
  pose proof (bytes_in_sectors _ Hh) as Hs. pose proof (hw_direct _ Hh) as Hd.
  change NumDirect with 30 in Hd. assert (SectorSize = 128) as HS by done.
  destruct (WriteAt_run mem x (hdr f) (table_bytes be (table d)) (tableSize d * sizeof_DirectoryEntry) 0 Hx Hh)
    as (x' & E & Hx' & Hc & Hj); try done.
  { unfold sizeof_DirectoryEntry in *. lia. } { lia. } { rewrite L, Hl. lia. }
  exists x'. unfold Directory_WriteBack. mrun E. split; [done|]. split; [done|]. split; [|done].
  split_and!; try done. rewrite Hc.
  pose proof (content_length x (hdr f) Hx Hh) as Hcl.
  assert (slice 0 (transferred (hdr f) (tableSize d * sizeof_DirectoryEntry) 0) (table_bytes be (table d))
    = table_bytes be (table d)) as ->.
  { apply slice_whole. unfold transferred. rewrite L, Hl. lia. }
  apply splice_all. rewrite L, Hl. lia.
Qed.
End Stored.
