(* ===== verification/FileSys.v ===== *)
(** * filesys/filesys.cc, fstest.cc: the file system

    The file system on top of bit maps, headers, open files and directories.
    Open files are objects on the host's heap, so the table [file] of the class
    holds pointers, two slots can hold the same pointer, and a deleted object
    can still be pointed to. The contents of newly allocated memory, which the
    constructors do not set, are arguments ([Garbage]). *)

From stdpp Require Import base tactics list numbers sets.
From S2P Require Import Prelude BitMap Lists Interrupt Machine Disk OpenFile Directory.

Local Open Scope Z_scope.

Definition FreeMapSector : Z := 0.
Definition DirectorySector : Z := 1.
Definition FreeMapFileSize : Z := NumSectors / BitsInByte.
Definition NumDirEntries : Z := 10.
Definition DirectoryFileSize : Z := sizeof_DirectoryEntry * NumDirEntries.

(** What the objects an operation allocates contain before they are set: the
    entries of a directory, the words of a bit map, headers and buffers. *)
Record Garbage := mkGarbage {
  dir_mem : Z -> DirectoryEntry;
  map_mem : Z -> Z;
  hdr_mem : nat -> FileHeader;
  buf_mem : nat -> Z -> Z
}.

(** [objects] are the OpenFile objects ever allocated, [None] once deleted; a
    pointer is an index and [None] is NULL. *)
Record FileSystem (X : Type) := mkFileSystem {
  fs_disk : X;
  objects : list (option OpenFile);
  freeMapFile : nat;
  directoryFile : nat;
  fs_file : list (option nat)
}.
Arguments mkFileSystem {X} _ _ _ _ _.
Arguments fs_disk {X} _.
Arguments objects {X} _.
Arguments freeMapFile {X} _.
Arguments directoryFile {X} _.
Arguments fs_file {X} _.

Definition set_disk {X} (v : X) (s : FileSystem X) := mkFileSystem v (objects s) (freeMapFile s) (directoryFile s) (fs_file s).
Definition set_objects {X} v (s : FileSystem X) := mkFileSystem (fs_disk s) v (freeMapFile s) (directoryFile s) (fs_file s).
Definition set_system_files {X} m d (s : FileSystem X) := mkFileSystem (fs_disk s) (objects s) m d (fs_file s).
Definition set_fs_file {X} v (s : FileSystem X) := mkFileSystem (fs_disk s) (objects s) (freeMapFile s) (directoryFile s) v.

#[export, refine] Instance lens_fs_disk {X} : Lens X (FileSystem X) :=
  {| lget := fs_disk; lset v s := set_disk v s |}.
Proof. - done. - by intros []. - done. Defined.

Definition lift {S A} (o : outcome A) : M S A := fun s => obind o (fun a => Ok (a, s)).

Section FileSystem.
Context (be : bool) {X : Type} `{HD : SectorDisk X}.

(** ** Objects on the heap *)

Definition deref (p : nat) : M (FileSystem X) OpenFile :=
  s <- get ;; match objects s !! p with Some (Some f) => ret f | _ => undef end.
Definition assign (p : nat) (f : OpenFile) : M (FileSystem X) unit :=
  modify (fun s => set_objects (<[p := Some f]> (objects s)) s).
Definition new_OpenFile (sector t : Z) : M (FileSystem X) nat :=
  f <- zoom (OpenFile_new be sector t) ;;
  s <- get ;;
  put (set_objects (objects s ++ [Some f]) s) ;;;
  ret (length (objects s)).
Definition delete_OpenFile (p : nat) : M (FileSystem X) unit :=
  _ <- deref p ;;
  modify (fun s => set_objects (<[p := None]> (objects s)) s).

(** The methods of OpenFile through a pointer. *)
Definition file_Read (p : nat) (num : Z) : M (FileSystem X) (list Z) :=
  f <- deref p ;;
  '(bs, f') <- zoom (OpenFile_Read num f) ;;
  assign p f' ;;; ret bs.
Definition file_Write (g : Garbage) (p : nat) (from : list Z) (num : Z) : M (FileSystem X) Z :=
  f <- deref p ;;
  '(n, f') <- zoom (OpenFile_Write (buf_mem g 0) from num f) ;;
  assign p f' ;;; ret n.

(** ** The operations *)

Definition fetch_directory (g : Garbage) : M (FileSystem X) (OpenFile * Directory) :=
  s <- get ;;
  f <- deref (directoryFile s) ;;
  d <- zoom (Directory_FetchFrom be f (Directory_new NumDirEntries (dir_mem g))) ;;
  ret (f, d).
Definition fetch_map (g : Garbage) : M (FileSystem X) (OpenFile * BitMap) :=
  s <- get ;;
  f <- deref (freeMapFile s) ;;
  bm <- lift (BitMap_new NumSectors (map_mem g)) ;;
  bm <- zoom (BitMap_FetchFrom be (hdr f) bm) ;;
  ret (f, bm).

Definition FileSystem_Create (g : Garbage) (nm : list Z) (initialSize : Z) : M (FileSystem X) bool :=
  '(df, d) <- fetch_directory g ;;
  '(k, d) <- lift (Directory_Find nm d) ;;
  if negb (k =? -1) then ret false
  else
    '(mf, bm) <- fetch_map g ;;
    '(sector, bm) <- lift (BitMap_Find bm) ;;
    if sector =? -1 then ret false
    else
      '(added, d) <- lift (Directory_Add nm sector d) ;;
      if negb added then ret false
      else
        '(success, (h, bm)) <- lift (FileHeader_Allocate initialSize (hdr_mem g 0, bm)) ;;
        if negb success then ret false
        else
          zoom (FileHeader_WriteBack be h sector) ;;;
          zoom (Directory_WriteBack be (buf_mem g 1) df d) ;;;
          zoom (BitMap_WriteBack be (buf_mem g 2) (hdr mf) bm) ;;;
          ret true.

(** Both versions of Open; the second ignores its [type]. [None] is NULL. *)
Definition FileSystem_Open (g : Garbage) (nm : list Z) : M (FileSystem X) (option nat) :=
  '(df, d) <- fetch_directory g ;;
  '(sector, d) <- lift (Directory_Find nm d) ;;
  if sector >=? 0 then
    for_ret 2 8 (fun i =>
      s <- get ;;
      slot <- must (zlookup (fs_file s) i) ;;
      match slot with
      | None =>
          p <- new_OpenFile sector 0 ;;
          modify (fun s => set_fs_file (zinsert i (Some p) (fs_file s)) s) ;;;
          ret (Some p)
      | Some _ => ret None
      end)
  else ret None.
Definition FileSystem_Open_type (g : Garbage) (nm : list Z) (type : Z) : M (FileSystem X) (option nat) :=
  FileSystem_Open g nm.

Definition FileSystem_Remove (g : Garbage) (nm : list Z) : M (FileSystem X) bool :=
  '(df, d) <- fetch_directory g ;;
  '(sector, d) <- lift (Directory_Find nm d) ;;
  if sector =? -1 then ret false
  else
    h <- zoom (FileHeader_FetchFrom be sector) ;;
    '(mf, bm) <- fetch_map g ;;
    '(_, bm) <- lift (FileHeader_Deallocate h bm) ;;
    '(_, bm) <- lift (BitMap_Clear sector bm) ;;
    '(_, d) <- lift (Directory_Remove nm d) ;;
    zoom (BitMap_WriteBack be (buf_mem g 1) (hdr mf) bm) ;;;
    zoom (Directory_WriteBack be (buf_mem g 2) df d) ;;;
    ret true.

Definition FileSystem_List (g : Garbage) : M (FileSystem X) (list (list Z)) :=
  '(_, d) <- fetch_directory g ;;
  '(names, _) <- lift (Directory_List d) ;;
  ret names.

Definition FileSystem_Print (g : Garbage) :
    M (FileSystem X) ((Z * list Z * list Z) * (Z * list Z * list Z) * list Z * list (list Z * Z * (Z * list Z * list Z))) :=
  mh <- zoom (FileHeader_FetchFrom be FreeMapSector) ;;
  p1 <- zoom (FileHeader_Print mh) ;;
  dh <- zoom (FileHeader_FetchFrom be DirectorySector) ;;
  p2 <- zoom (FileHeader_Print dh) ;;
  '(_, bm) <- fetch_map g ;;
  '(p3, _) <- lift (BitMap_Print bm) ;;
  '(_, d) <- fetch_directory g ;;
  p4 <- zoom (Directory_Print be d) ;;
  ret (p1, p2, p3, p4).

(** ** Construction *)

(** The formatting: headers, bit map and directory are laid out and written. *)
Definition format (g : Garbage) : M (FileSystem X) (nat * nat) :=
  bm <- lift (BitMap_new NumSectors (map_mem g)) ;;
  let d := Directory_new NumDirEntries (dir_mem g) in
  '(_, bm) <- lift (BitMap_Mark FreeMapSector bm) ;;
  '(_, bm) <- lift (BitMap_Mark DirectorySector bm) ;;
  '(ok, (mh, bm)) <- lift (FileHeader_Allocate FreeMapFileSize (hdr_mem g 0, bm)) ;;
  ASSERT ok ;;;
  '(ok, (dh, bm)) <- lift (FileHeader_Allocate DirectoryFileSize (hdr_mem g 1, bm)) ;;
  ASSERT ok ;;;
  zoom (FileHeader_WriteBack be mh FreeMapSector) ;;;
  zoom (FileHeader_WriteBack be dh DirectorySector) ;;;
  pm <- new_OpenFile FreeMapSector 0 ;;
  pd <- new_OpenFile DirectorySector 0 ;;
  mf <- deref pm ;;
  zoom (BitMap_WriteBack be (buf_mem g 1) (hdr mf) bm) ;;;
  df <- deref pd ;;
  zoom (Directory_WriteBack be (buf_mem g 2) df d) ;;;
  ret (pm, pd).

Definition stdin : list Z := [115; 116; 100; 105; 110].
Definition stdout : list Z := [115; 116; 100; 111; 117; 116].

(** The constructor; [g], [g1] ... are the garbage of its parts. *)
Definition FileSystem_new (format_ : bool) (g g1 g2 g3 g4 : Garbage) : M (FileSystem X) unit :=
  '(pm, pd) <- (if format_ then format g
                else
                  pm <- new_OpenFile FreeMapSector 0 ;;
                  pd <- new_OpenFile DirectorySector 0 ;;
                  ret (pm, pd)) ;;
  modify (set_system_files pm pd) ;;;
  modify (set_fs_file (replicate 10 None)) ;;;
  _ <- FileSystem_Create g1 stdin 0 ;;
  _ <- FileSystem_Create g2 stdout 0 ;;
  p <- FileSystem_Open_type g3 stdin 1 ;;
  modify (fun s => set_fs_file (zinsert 0 p (fs_file s)) s) ;;;
  p <- FileSystem_Open_type g4 stdout 2 ;;
  modify (fun s => set_fs_file (zinsert 1 p (fs_file s)) s).

Definition FileSystem_delete : M (FileSystem X) unit :=
  for_ 0 10 (fun i =>
    s <- get ;;
    slot <- must (zlookup (fs_file s) i) ;;
    match slot with Some p => delete_OpenFile p | None => ret tt end).
End FileSystem.

(** ** fstest.cc *)

Section FsTest.
Context (be : bool) {X : Type} `{HD : SectorDisk X} (g : nat -> Garbage).

Definition TransferSize : Z := 10.
Inductive CopyResult := NoInput | NoOutput | CopyDiverges | Copied.

(** The loop reads the rest of the UNIX file a buffer at a time. *)
Definition copy_loop (p : nat) (data : list Z) : M (FileSystem X) (option (list Z)) :=
  while_ (S (length data)) data (fun rest =>
    let buffer := slice 0 TransferSize rest in
    let amountRead := zlength buffer in
    if amountRead >? 0 then
      _ <- file_Write (g 2) p buffer amountRead ;;
      ret (drop (Z.to_nat amountRead) rest, true)
    else ret (rest, false)).

(** [from] is the UNIX file, when it can be opened. *)
Definition Copy (from : option (list Z)) (to : list Z) : M (FileSystem X) CopyResult :=
  match from with
  | None => ret NoInput
  | Some data =>
      b <- FileSystem_Create be (g 0) to (zlength data) ;;
      if negb b then ret NoOutput
      else
        openFile <- FileSystem_Open be (g 1) to ;;
        ASSERT (match openFile with Some _ => true | None => false end) ;;;
        p <- must openFile ;;
        r <- copy_loop p data ;;
        delete_OpenFile p ;;;
        ret (match r with Some _ => Copied | None => CopyDiverges end)
  end.

(** Print: the characters printed; at most one iteration per byte of a file. *)
Definition Print (fuel : nat) (name : list Z) : M (FileSystem X) (option (list Z)) :=
  openFile <- FileSystem_Open be (g 0) name ;;
  match openFile with
  | None => ret None
  | Some p =>
      r <- while_ fuel [] (fun out =>
             bs <- file_Read p TransferSize ;;
             if zlength bs >? 0 then ret (out ++ bs, true) else ret (out, false)) ;;
      delete_OpenFile p ;;;
      ret r
  end.

Definition FileName : list Z := [84; 101; 115; 116; 70; 105; 108; 101].
Definition Contents : list Z := [49; 50; 51; 52; 53; 54; 55; 56; 57; 48].
Definition ContentSize : Z := zlength Contents.
Definition FileSize : Z := ContentSize * 5000.
Definition chunks : nat := 5000.

Inductive PerfResult := CantCreate | UnableOpen | UnableTransfer | Transferred.

Definition FileWrite : M (FileSystem X) PerfResult :=
  b <- FileSystem_Create be (g 0) FileName 0 ;;
  if negb b then ret CantCreate
  else
    openFile <- FileSystem_Open be (g 1) FileName ;;
    match openFile with
    | None => ret UnableOpen
    | Some p =>
        r <- for_ret 0 chunks (fun _ =>
               numBytes <- file_Write (g 2) p Contents ContentSize ;;
               if numBytes <? 10 then delete_OpenFile p ;;; ret (Some UnableTransfer) else ret None) ;;
        match r with
        | Some res => ret res
        | None => delete_OpenFile p ;;; ret Transferred
        end
    end.

Definition FileRead : M (FileSystem X) PerfResult :=
  openFile <- FileSystem_Open be (g 3) FileName ;;
  match openFile with
  | None => ret UnableOpen
  | Some p =>
      r <- for_ret 0 chunks (fun _ =>
             buffer <- file_Read p ContentSize ;;
             if (zlength buffer <? 10) || negb (strncmp_eq (Z.to_nat ContentSize) buffer Contents)
             then delete_OpenFile p ;;; ret (Some UnableTransfer) else ret None) ;;
      match r with
      | Some res => ret res
      | None => delete_OpenFile p ;;; ret Transferred
      end
  end.

Definition PerformanceTest : M (FileSystem X) (PerfResult * PerfResult * bool) :=
  w <- FileWrite ;;
  r <- FileRead ;;
  b <- FileSystem_Remove be (g 4) FileName ;;
  ret (w, r, b).
End FsTest.

(** * Correctness *)

(** ** The free map on disk *)

Section Map.
Context (be : bool) {X : Type} `{HD : SectorDisk X}.

(** The bits [bs] are what the file with the header [h] contains. *)
Definition stored_map (x : X) (h : FileHeader) (bs : list bool) : Prop :=
  numBytes h = FreeMapFileSize /\
  exists bm, rep bm bs /\ numBits bm = NumSectors /\ content x h = concat (host_store be 4 <$> bm_map bm).

Lemma map_words bm bs : rep bm bs -> numBits bm = NumSectors -> numWords bm = 32 /\ zlength (bm_map bm) = 32.
Proof.
  intros ([_ Hw Hl] & _) Hn. rewrite Hl, Hw, Hn. done.
Qed.

Lemma reload_words (bm bm' : BitMap) bs :
  rep bm bs -> numBits bm = NumSectors -> numBits bm' = NumSectors -> numWords bm' = 32 ->
  bm_map bm' = u32 <$> bm_map bm -> rep bm' bs.
Proof.
  intros Hr Hn Hn' Hw' Hm. destruct (map_words bm bs Hr Hn) as [Hw Hl]. pose proof Hr as ([_ _ _] & Hb & Hbits).
  split; [|split; [congruence|]].
  - constructor; [by rewrite Hn'|by rewrite Hn', Hw'|]. rewrite Hm, Hw'. unfold zlength in *. by rewrite length_fmap.
  - intros i Hi. rewrite Hbits by congruence. f_equal. unfold marked. rewrite Hm.
    pose proof (mod_word_bound i) as Hmod.
    assert (zlookup (u32 <$> bm_map bm) (i / BitsInWord) = u32 <$> zlookup (bm_map bm) (i / BitsInWord)) as ->.
    { unfold zlookup. destruct (_ <? _); [done|]. by rewrite list_lookup_fmap. }
    destruct (zlookup (bm_map bm) (i / BitsInWord)) as [w|]; [|done]. simpl.
    unfold u32. by rewrite Z.mod_pow2_bits_low by lia.
Qed.

Lemma BitMap_FetchFrom_run x h bs bm0 bs0 :
  disk_ok x -> header_wf h -> stored_map x h bs -> rep bm0 bs0 -> numBits bm0 = NumSectors ->
  exists bm x', BitMap_FetchFrom be h bm0 x = Ok (bm, x') /\ rep bm bs /\ numBits bm = NumSectors /\
    disk_ok x' /\ forall j, sector x' j = sector x j.
Proof.
  intros Hx Hh (Hb & bm1 & Hr1 & Hn1 & Hc) Hr0 Hn0.
  destruct (map_words _ _ Hr0 Hn0) as [Hw0 Hl0]. destruct (map_words _ _ Hr1 Hn1) as [Hw1 Hl1].
  change FreeMapFileSize with 128 in Hb.
  destruct (ReadAt_run x h (numWords bm0 * 4) 0 Hx Hh) as (x' & E & Hx' & Hj); [done|rewrite Hw0; done|].
  rewrite Hc, slice_whole in E by (rewrite concat_length, Hl1, Hw0; done).
  set (bs' := concat (host_store be 4 <$> bm_map bm1)) in *.
  eexists _, x'. unfold BitMap_FetchFrom. mrun E. split; [reflexivity|].
  rewrite splice_all by (unfold bs'; rewrite !concat_length, Hl0, Hl1; done).
  split; [|split; [exact Hn0|done]].
  apply (reload_words bm1); try done. simpl. rewrite Hw0. apply zlookup_ext. intros i Hi.
  unfold zlookup. destruct (Z.ltb_spec i 0); [lia|]. rewrite !list_lookup_fmap.
  destruct (decide (i < 32)) as [Hi32|Hi32].
  - rewrite lookup_seqZ_lt by lia. cbn [fmap option_fmap option_map].
    destruct (proj2 (zlookup_is_Some (bm_map bm1) i) ltac:(lia)) as [w Hw].
    pose proof Hw as [_ Hw']%zlookup_Some. rewrite Hw'. simpl. f_equal.
    replace (0 + Z.of_nat (Z.to_nat i)) with i by lia. unfold bs'.
    rewrite <- (app_nil_r (concat _)), (slice_concat be _ [] i w Hw), host_load_store.
    unfold u32. by rewrite Z.mod_mod.
  - rewrite !lookup_ge_None_2; [done| |]; rewrite ?length_seqZ; unfold zlength in Hl1; lia.
Qed.

Lemma BitMap_WriteBack_run mem x h bm bs :
  disk_ok x -> header_wf h -> numBytes h = FreeMapFileSize -> rep bm bs -> numBits bm = NumSectors ->
  exists x', BitMap_WriteBack be mem h bm x = Ok (tt, x') /\ disk_ok x' /\ stored_map x' h bs /\
    forall s, 0 <= s < NumSectors -> s ∉ blocks h -> sector x' s = sector x s.
Proof.
  intros Hx Hh Hb Hr Hn. destruct (map_words _ _ Hr Hn) as [Hw Hl].
  pose proof (concat_length (bm_map bm) be) as Hcl. rewrite Hl in Hcl.
  destruct (WriteAt_run mem x h (concat (host_store be 4 <$> bm_map bm)) (numWords bm * 4) 0 Hx Hh)
    as (x' & E & Hx' & Hc & Hj); try done.
  { rewrite Hw. done. } { rewrite Hb. done. } { rewrite Hcl, Hw. done. } { apply concat_chars. }
  exists x'. unfold BitMap_WriteBack. mrun E. split; [done|]. split; [done|]. split; [|done].
  split; [done|]. exists bm. split_and!; try done. rewrite Hc.
  pose proof (content_length x h Hx Hh) as Hcn. rewrite Hb in Hcn. change FreeMapFileSize with 128 in *.
  rewrite slice_whole by (unfold transferred; rewrite Hcl, Hw, Hb; done).
  apply splice_all. by rewrite Hcl, Hcn.
Qed.
End Map.

(** ** The layout of a consistent disk *)

(** Any contents the types allow. *)
Record garbage_ok (g : Garbage) : Prop := {
  go_dir : forall i, entry_wf (dir_mem g i);
  go_hdr : forall i, header_i32 (hdr_mem g i)
}.

Section Consistency.
Context (be : bool) {X : Type} `{HD : SectorDisk X}.

Definition header_at (x : X) (s : Z) : FileHeader := header_of be (sector x s).
(** The sectors of one file: its header and its data. *)
Definition entry_sectors (x : X) (e : DirectoryEntry) : list Z :=
  if inUse e then sector_no e :: blocks (header_at x (sector_no e)) else [].
Definition system_sectors (x : X) : list Z :=
  [FreeMapSector; DirectorySector] ++ blocks (header_at x FreeMapSector) ++ blocks (header_at x DirectorySector).
Definition used_sectors (x : X) (d : Directory) : list Z :=
  system_sectors x ++ concat (entry_sectors x <$> table d).

(** The disk holds the directory [d] and the free map [bs]: all headers are well
    formed, no sector belongs to two files, and the map marks exactly the
    sectors in use. *)
Record disk_consistent (x : X) (d : Directory) (bs : list bool) : Prop := {
  dc_disk : disk_ok x;
  dc_map_hdr : header_wf (header_at x FreeMapSector);
  dc_dir_hdr : header_wf (header_at x DirectorySector);
  dc_map : stored_map be x (header_at x FreeMapSector) bs;
  dc_dir : stored_dir be x (header_at x DirectorySector) d;
  dc_size : tableSize d = NumDirEntries;
  dc_wf : directory_wf d;
  dc_names : unique_names d;
  dc_headers : forall e, e ∈ table d -> inUse e = true -> header_wf (header_at x (sector_no e));
  dc_nodup : NoDup (used_sectors x d);
  dc_length : zlength bs = NumSectors;
  dc_used : forall s, zlookup bs s = Some true <-> s ∈ used_sectors x d
}.

Definition same_sectors (x x' : X) : Prop := disk_ok x' /\ forall j, sector x' j = sector x j.

Lemma same_header x x' s : same_sectors x x' -> header_at x' s = header_at x s.
Proof. intros [_ Hs]. unfold header_at. by rewrite Hs. Qed.

Lemma same_entry x x' e : same_sectors x x' -> entry_sectors x' e = entry_sectors x e.
Proof. intros Hs. unfold entry_sectors. by rewrite (same_header x x' _ Hs). Qed.

Lemma same_used x x' d : same_sectors x x' -> used_sectors x' d = used_sectors x d.
Proof.
  intros Hs. unfold used_sectors, system_sectors. rewrite !(same_header x x' _ Hs). f_equal. f_equal.
  apply list_fmap_ext. intros _ e _. by apply same_entry.
Qed.

Lemma same_content x x' h : same_sectors x x' -> content x' h = content x h.
Proof. intros [_ Hs]. unfold content. f_equal. apply flat_ext. auto. Qed.

Lemma consistent_same x x' d bs : same_sectors x x' -> disk_consistent x d bs -> disk_consistent x' d bs.
Proof.
  intros Hs [H1 H2 H3 H4 H5 H6 H7 H8 H9 H10 H11 H12].
  constructor; rewrite ?(same_header x x' _ Hs), ?(same_used x x' d Hs); try done.
  - apply Hs.
  - destruct H4 as (Hb & bm & Hr & Hn & Hc). split; [done|]. exists bm. by rewrite (same_content x x' _ Hs).
  - destruct H5 as (He & Hl & Hb & Hc). split_and!; try done. by rewrite (same_content x x' _ Hs).
  - intros e He Hu. rewrite (same_header x x' _ Hs). by apply H9.
Qed.

Lemma system_used x d s : s ∈ system_sectors x -> s ∈ used_sectors x d.
Proof. intros Hs. unfold used_sectors. apply elem_of_app. by left. Qed.

Lemma used_range x d bs s : disk_consistent x d bs -> s ∈ used_sectors x d -> 0 <= s < NumSectors.
Proof.
  intros Hc Hs. apply (dc_used _ _ _ Hc) in Hs. apply zlookup_lt_Some in Hs.
  by rewrite (dc_length _ _ _ Hc) in Hs.
Qed.

Lemma entry_used x d e s : e ∈ table d -> s ∈ entry_sectors x e -> s ∈ used_sectors x d.
Proof.
  intros He Hs. unfold used_sectors. apply elem_of_app. right. apply list_elem_of_In, in_concat.
  exists (entry_sectors x e). split; apply list_elem_of_In; [|done]. by apply list_elem_of_fmap_2.
Qed.

(** ** The state of the file system *)

Record fs_ok (s : FileSystem X) (d : Directory) (bs : list bool) : Prop := {
  fo_disk : disk_consistent (fs_disk s) d bs;
  fo_map : exists f, objects s !! freeMapFile s = Some (Some f) /\ hdr f = header_at (fs_disk s) FreeMapSector;
  fo_dir : exists f, objects s !! directoryFile s = Some (Some f) /\ hdr f = header_at (fs_disk s) DirectorySector;
  fo_slots : zlength (fs_file s) = 10
}.

Lemma deref_run (s : FileSystem X) p f : objects s !! p = Some (Some f) -> deref p s = Ok (f, s).
Proof. intros Hp. unfold deref. rewrite (bind_Ok get _ s s s) by done. by rewrite Hp. Qed.

Lemma zoom_disk {A} (m : M X A) (s : FileSystem X) a x' :
  m (fs_disk s) = Ok (a, x') -> zoom m s = Ok (a, set_disk x' s).
Proof. exact (@zoom_Ok X (FileSystem X) A lens_fs_disk m s a x'). Qed.

Lemma lift_bind {A B} (o : outcome A) (k : A -> M (FileSystem X) B) s a :
  o = Ok a -> bind (lift o) k s = k a s.
Proof. by intros ->. Qed.

Lemma set_disk_twice x x' (s : FileSystem X) : set_disk x' (set_disk x s) = set_disk x' s.
Proof. done. Qed.

Lemma fetch_directory_run g s d bs :
  fs_ok s d bs -> garbage_ok g ->
  exists f x', fetch_directory be g s = Ok ((f, d), set_disk x' s) /\
    hdr f = header_at (fs_disk s) DirectorySector /\ same_sectors (fs_disk s) x'.
Proof.
  intros [Hc _ (f & Hf & Hh) _] [Hg _].
  destruct (Directory_FetchFrom_run be (fs_disk s) f d (Directory_new NumDirEntries (dir_mem g)))
    as (x' & E & Hs).
  - apply Hc.
  - rewrite Hh. apply Hc.
  - rewrite Hh. apply Hc.
  - symmetry. apply Hc.
  - done.
  - apply Forall_fmap, Forall_forall. intros i _. destruct (Hg i). by constructor.
  - exists f, x'. unfold fetch_directory. rewrite (bind_Ok get _ s s s) by done.
    mrun (deref_run s _ f Hf). mrun (zoom_disk _ s _ _ E). done.
Qed.

Lemma fetch_map_run g s d bs :
  fs_ok s d bs ->
  exists f bm x', fetch_map be g s = Ok ((f, bm), set_disk x' s) /\ rep bm bs /\ numBits bm = NumSectors /\
    hdr f = header_at (fs_disk s) FreeMapSector /\ same_sectors (fs_disk s) x'.
Proof.
  intros [Hc (f & Hf & Hh) _ _].
  destruct (BitMap_new_run NumSectors (map_mem g)) as (bm0 & E0 & Hr0); [done|].
  assert (numBits bm0 = NumSectors) as Hn0.
  { destruct Hr0 as (_ & <- & _). unfold zlength. rewrite length_replicate. by apply Z2Nat.id. }
  revert Hr0. generalize (replicate (Z.to_nat NumSectors) false). intros bs0 Hr0.
  destruct (BitMap_FetchFrom_run be (fs_disk s) (hdr f) bs bm0 bs0 (dc_disk _ _ _ Hc))
    as (bm & x' & E & Hr & Hn & Hs); [by rewrite Hh; apply Hc|by rewrite Hh; apply Hc|exact Hr0|exact Hn0|].
  exists f, bm, x'. unfold fetch_map. rewrite (bind_Ok get _ s s s) by done.
  mrun (deref_run s _ f Hf). rewrite (lift_bind _ _ _ _ E0). mrun (zoom_disk _ s _ _ E).
  split; [reflexivity|]. split; [exact Hr|]. split; [exact Hn|]. split; [exact Hh|exact Hs].
Qed.

Lemma fs_ok_same s x' d bs : fs_ok s d bs -> same_sectors (fs_disk s) x' -> fs_ok (set_disk x' s) d bs.
Proof.
  intros [H1 (f & Hf & Hh) (f' & Hf' & Hh') H4] Hs. constructor; simpl.
  - by apply (consistent_same (fs_disk s)).
  - exists f. by rewrite (same_header _ _ _ Hs).
  - exists f'. by rewrite (same_header _ _ _ Hs).
  - done.
Qed.

Lemma same_trans x y z : same_sectors x y -> same_sectors y z -> same_sectors x z.
Proof. intros [H1 H2] [H3 H4]. split; [done|]. intros j. by rewrite H4, H2. Qed.
End Consistency.

(** ** Adding and removing a file *)

Section Update.
Context (be : bool) {X : Type} `{HD : SectorDisk X}.
Context (x x' : X) (d : Directory) (bs : list bool) (Hc : disk_consistent be x d bs).

Abbreviation hdr_at := (header_at be).
Abbreviation used := (used_sectors be).

(** A header of the old disk that is in use. *)
Definition header_sector (s : Z) : Prop :=
  s = FreeMapSector \/ s = DirectorySector \/ exists e, e ∈ table d /\ inUse e = true /\ sector_no e = s.
Definition system_data : list Z := blocks (hdr_at x FreeMapSector) ++ blocks (hdr_at x DirectorySector).

Lemma header_used s : header_sector s -> s ∈ used x d.
Proof.
  intros [->|[->|(e & He & Hu & <-)]]; [set_solver|set_solver|].
  apply (entry_used be x d e); [done|]. unfold entry_sectors. rewrite Hu. set_solver.
Qed.

Lemma header_not_data s : header_sector s -> s ∉ system_data.
Proof.
  intros Hs Hin. pose proof (dc_nodup _ _ _ _ Hc) as Hnd.
  unfold used_sectors, system_sectors in Hnd. rewrite <- app_assoc in Hnd.
  fold system_data in Hnd.
  destruct Hs as [->|[->|(e & He & Hu & <-)]].
  - apply NoDup_cons in Hnd as [Hn _]. set_solver.
  - apply NoDup_cons in Hnd as [_ Hnd]. apply NoDup_cons in Hnd as [Hn _]. set_solver.
  - rewrite app_assoc in Hnd. apply NoDup_app in Hnd as (_ & Hd & _).
    apply (Hd (sector_no e)); [set_solver|]. apply list_elem_of_In, in_concat.
    exists (entry_sectors be x e). split; apply list_elem_of_In; [by apply list_elem_of_fmap_2|].
    unfold entry_sectors. rewrite Hu. set_solver.
Qed.

Lemma entry_not_data e s : e ∈ table d -> s ∈ entry_sectors be x e -> s ∉ system_data.
Proof.
  intros He Hs Hin. pose proof (dc_nodup _ _ _ _ Hc) as Hnd. unfold used_sectors, system_sectors in Hnd.
  apply NoDup_app in Hnd as (_ & Hd & _). apply (Hd s); [unfold system_data in Hin; set_solver|].
  apply list_elem_of_In, in_concat. exists (entry_sectors be x e).
  split; apply list_elem_of_In; [by apply list_elem_of_fmap_2|done].
Qed.

(** [x'] keeps every header of a file but possibly the one at the sector [free]. *)
Context (free : Z).
Context (Hx' : disk_ok x').
Context (Hkeep : forall s, 0 <= s < NumSectors -> s <> free -> s ∉ system_data -> sector x' s = sector x s).

Lemma header_kept s : header_sector s -> s <> free -> hdr_at x' s = hdr_at x s.
Proof.
  intros Hs Hf. unfold header_at. f_equal. apply Hkeep; [|done|by apply header_not_data].
  by apply (used_range be x d bs), header_used.
Qed.

Lemma system_kept : FreeMapSector <> free -> DirectorySector <> free ->
  system_sectors be x' = system_sectors be x /\ hdr_at x' FreeMapSector = hdr_at x FreeMapSector /\
  hdr_at x' DirectorySector = hdr_at x DirectorySector.
Proof.
  intros H0 H1. unfold system_sectors.
  assert (header_sector FreeMapSector) as S0 by by left.
  assert (header_sector DirectorySector) as S1 by (right; by left).
  by rewrite (header_kept FreeMapSector S0 H0), (header_kept DirectorySector S1 H1).
Qed.

Lemma entries_kept (l : list DirectoryEntry) : (forall e, e ∈ l -> e ∈ table d) -> (forall e, e ∈ l -> inUse e = true -> sector_no e <> free) ->
  entry_sectors be x' <$> l = entry_sectors be x <$> l.
Proof.
  intros Hl Hf. apply list_fmap_ext. intros i e He%list_elem_of_lookup_2. unfold entry_sectors.
  destruct (inUse e) eqn:Hu; [|done]. rewrite header_kept; [done| |by apply Hf].
  right; right. exists e. auto.
Qed.

(** The other files keep their headers and their contents. *)
Lemma file_kept e : e ∈ table d -> inUse e = true -> free ∉ entry_sectors be x e ->
  hdr_at x' (sector_no e) = hdr_at x (sector_no e) /\
  content x' (hdr_at x (sector_no e)) = content x (hdr_at x (sector_no e)).
Proof.
  intros He Hu Hf. assert (entry_sectors be x e = sector_no e :: blocks (hdr_at x (sector_no e))) as Ee
    by (unfold entry_sectors; by rewrite Hu).
  assert (forall s, s ∈ entry_sectors be x e -> sector x' s = sector x s) as Hsec.
  { intros s Hs. apply Hkeep; [|intros ->; done|by apply (entry_not_data e)].
    apply (used_range be x d bs); [done|]. by apply (entry_used be x d e). }
  rewrite Ee in Hsec. split.
  - unfold header_at. f_equal. apply Hsec. set_solver.
  - unfold content. f_equal. apply flat_ext. intros s Hs. apply Hsec. set_solver.
Qed.
End Update.

Lemma zinsert_split {A} (l : list A) i (a : A) : zlookup l i = Some a ->
  exists l1 l2, l = l1 ++ a :: l2 /\ forall b, zinsert i b l = l1 ++ b :: l2.
Proof.
  intros [Hi Ha]%zlookup_Some. pose proof (lookup_lt_Some _ _ _ Ha).
  exists (take (Z.to_nat i) l), (drop (S (Z.to_nat i)) l). split; [by rewrite take_drop_middle|].
  intros b. unfold zinsert. destruct (Z.ltb_spec i 0); [lia|]. by apply insert_take_drop.
Qed.

Section AddRemove.
Context (be : bool) {X : Type} `{HD : SectorDisk X}.
Context (x x' : X) (d : Directory) (bs : list bool) (Hc : disk_consistent be x d bs).
Context (i : Z) (e e' : DirectoryEntry) (He : zlookup (table d) i = Some e).
Context (Hx' : disk_ok x').

Abbreviation hdr_at := (header_at be).
Abbreviation d' := (set_table (zinsert i e' (table d)) d).
Abbreviation mh := (hdr_at x FreeMapSector).
Abbreviation dh := (hdr_at x DirectorySector).

Lemma table_split : exists l1 l2, table d = l1 ++ e :: l2 /\ table d' = l1 ++ e' :: l2 /\
  (forall a, a ∈ l1 -> a ∈ table d) /\ (forall a, a ∈ l2 -> a ∈ table d).
Proof.
  destruct (zinsert_split _ _ _ He) as (l1 & l2 & E1 & E2). exists l1, l2. rewrite E2, E1.
  split_and!; try done; intros a Ha; apply elem_of_app; [by left|right]. by apply elem_of_cons; right.
Qed.

Lemma in_table e2 : e2 ∈ table d' -> e2 = e' \/ e2 ∈ table d.
Proof.
  destruct table_split as (l1 & l2 & _ & -> & H1 & H2).
  intros [Hi|[->|Hi]%elem_of_cons]%elem_of_app; [right|by left|right]; auto.
Qed.

(** A new file whose header is at the sector [s]. *)
Lemma consistent_add s h' :
  inUse e = false -> inUse e' = true -> sector_no e' = s -> zlookup bs s = Some false ->
  header_wf h' -> header_i32 h' -> (forall t, t ∈ blocks h' -> zlookup (zinsert s true bs) t = Some false) ->
  sector x' s = header_bytes be h' ->
  (forall t, 0 <= t < NumSectors -> t <> s -> t ∉ system_data be x -> sector x' t = sector x t) ->
  directory_wf d' -> unique_names d' -> stored_dir be x' dh d' ->
  stored_map be x' mh (set_all true (blocks h') (zinsert s true bs)) ->
  disk_consistent be x' d' (set_all true (blocks h') (zinsert s true bs)).
Proof.
  intros Hu Hu' Hs' Hs Hw Hi32 Hb Hhdr Hkeep Hwf Hun Hsd Hsm.
  pose proof (dc_length _ _ _ _ Hc) as Hlen. pose proof (zlookup_lt_Some _ _ _ Hs) as Hsr.
  assert (s ∉ used_sectors be x d) as Hfree.
  { intros Hin. apply (dc_used _ _ _ _ Hc) in Hin. congruence. }
  assert (forall t, header_sector d t -> t <> s) as Hne.
  { intros t Ht ->. by apply Hfree, (header_used be x d bs Hc). }
  destruct (system_kept be x x' d bs Hc s Hkeep) as (Esys & E0 & E1).
  { apply Hne. by left. } { apply Hne. right. by left. }
  assert (hdr_at x' s = h') as Eh by (unfold header_at; rewrite Hhdr; by apply header_roundtrip).
  assert (used_sectors be x' d' ≡ₚ s :: blocks h' ++ used_sectors be x d) as Hperm.
  { unfold used_sectors. rewrite Esys. destruct table_split as (l1 & l2 & Et & Et' & Hl1 & Hl2).
    assert (forall l : list DirectoryEntry, (forall e2, e2 ∈ l -> e2 ∈ table d) -> entry_sectors be x' <$> l = entry_sectors be x <$> l) as Hent.
    { intros l Hl. apply (entries_kept be x x' d bs Hc s Hkeep); [done|].
      intros e2 He2 Hue2. apply Hne. right; right. exists e2. auto. }
    rewrite Et', Et, !fmap_app, !fmap_cons, !concat_app. cbn [concat].
    rewrite (Hent l1 Hl1), (Hent l2 Hl2).
    assert (entry_sectors be x e = []) as -> by (unfold entry_sectors; by rewrite Hu).
    assert (entry_sectors be x' e' = s :: blocks h') as -> by (unfold entry_sectors; by rewrite Hu', Hs', Eh).
    solve_Permutation. }
  constructor; rewrite ?E0, ?E1; try assumption; try apply Hc.
  - intros e2 He2 Hue2. destruct (in_table e2 He2) as [->|Hin]; [by rewrite Hs', Eh|].
    rewrite (header_kept be x x' d bs Hc s Hkeep); [by apply Hc| |apply Hne]; right; right; by exists e2.
  - rewrite Hperm. apply NoDup_cons. split; [|apply NoDup_app; split; [apply Hw|split; [|apply Hc]]].
    + intros [Hin|Hin]%elem_of_app; [|done]. apply Hb in Hin.
      rewrite zlookup_zinsert_eq in Hin by done. done.
    + intros t Ht Hin. apply Hb in Ht. apply (dc_used _ _ _ _ Hc) in Hin.
      rewrite zlookup_zinsert in Ht. case_decide; congruence.
  - by rewrite set_all_length, zlength_zinsert.
  - intros t. rewrite Hperm, elem_of_cons, elem_of_app, <- (dc_used _ _ _ _ Hc).
    destruct (decide (0 <= t < zlength bs)) as [Ht|Ht].
    + rewrite set_all_lookup by by rewrite zlength_zinsert. case_decide as Hin; [tauto|].
      rewrite zlookup_zinsert. destruct (decide (s = t)) as [->|Hst].
      * rewrite decide_True by done. tauto.
      * rewrite decide_False by tauto. split; [tauto|]. intros [->|[?|?]]; done.
    + split.
      * intros Hin. apply zlookup_lt_Some in Hin. by rewrite set_all_length, zlength_zinsert in Hin.
      * intros [->|[Hin|Hin]]; [done| |]; exfalso; apply Ht; [apply Hb, zlookup_lt_Some in Hin|by apply zlookup_lt_Some in Hin].
        by rewrite zlength_zinsert in Hin.
Qed.

(** The entry [e] is freed, with its sectors. *)
Lemma consistent_remove :
  let h := hdr_at x (sector_no e) in
  let bs' := zinsert (sector_no e) false (set_all false (blocks h) bs) in
  inUse e = true -> inUse e' = false ->
  (forall t, 0 <= t < NumSectors -> t ∉ system_data be x -> sector x' t = sector x t) ->
  directory_wf d' -> unique_names d' -> stored_dir be x' dh d' -> stored_map be x' mh bs' ->
  disk_consistent be x' d' bs'.
Proof.
  intros h bs' Hu Hu' Hkeep Hwf Hun Hsd Hsm.
  pose proof (dc_length _ _ _ _ Hc) as Hlen.
  assert (e ∈ table d) as Hin by (apply zlookup_Some in He as [_ He]; by eapply list_elem_of_lookup_2).
  assert (forall t, header_sector d t -> t <> -1) as Hne.
  { intros t Ht ->. apply (header_used be x d bs Hc) in Ht. apply (used_range be x d bs) in Ht; [lia|done]. }
  assert (forall t, 0 <= t < NumSectors -> t <> -1 -> t ∉ system_data be x -> sector x' t = sector x t) as Hk by auto.
  destruct (system_kept be x x' d bs Hc (-1) Hk) as (Esys & E0 & E1); [done|done|].
  assert (used_sectors be x d ≡ₚ sector_no e :: blocks h ++ used_sectors be x' d') as Hperm.
  { unfold used_sectors. rewrite Esys. destruct table_split as (l1 & l2 & Et & Et' & Hl1 & Hl2).
    assert (forall l : list DirectoryEntry, (forall e2, e2 ∈ l -> e2 ∈ table d) -> entry_sectors be x' <$> l = entry_sectors be x <$> l) as Hent.
    { intros l Hl. apply (entries_kept be x x' d bs Hc (-1) Hk); [done|].
      intros e2 He2 Hue2. apply Hne. right; right. exists e2. auto. }
    rewrite Et', Et, !fmap_app, !fmap_cons, !concat_app. cbn [concat].
    rewrite (Hent l1 Hl1), (Hent l2 Hl2).
    assert (entry_sectors be x' e' = []) as -> by (unfold entry_sectors; by rewrite Hu').
    assert (entry_sectors be x e = sector_no e :: blocks h) as -> by (unfold entry_sectors; by rewrite Hu).
    solve_Permutation. }
  pose proof (dc_nodup _ _ _ _ Hc) as Hnd. rewrite Hperm in Hnd.
  apply NoDup_cons in Hnd as [Hn1 Hnd]. apply NoDup_app in Hnd as (Hnd1 & Hn2 & Hnd2).
  constructor; rewrite ?E0, ?E1; try assumption; try apply Hc.
  - intros e2 He2 Hue2. destruct (in_table e2 He2) as [->|Hin2]; [congruence|].
    rewrite (header_kept be x x' d bs Hc (-1) Hk); [by apply Hc| |apply Hne]; right; right; by exists e2.
  - unfold bs'. by rewrite zlength_zinsert, set_all_length.
  - intros t. destruct (decide (0 <= t < zlength bs)) as [Ht|Ht].
    + unfold bs'. rewrite zlookup_zinsert, set_all_length, set_all_lookup by done.
      pose proof (dc_used _ _ _ _ Hc t) as Hdu. rewrite Hperm, elem_of_cons, elem_of_app in Hdu.
      destruct (decide (sector_no e = t)) as [<-|Hst].
      * rewrite decide_True by done. split; [done|]. intros Hc'. exfalso. apply Hn1, elem_of_app. by right.
      * rewrite decide_False by tauto. case_decide as Hin2; [|rewrite Hdu; split; [intros [Hq|[?|?]]; [by destruct Hst|done|done]|tauto]].
        split; [done|]. intros Hc'. by destruct (Hn2 t Hin2).
    + split; intros Hin2; exfalso; apply Ht.
      * apply zlookup_lt_Some in Hin2. unfold bs' in Hin2. by rewrite zlength_zinsert, set_all_length in Hin2.
      * rewrite Hlen. apply (used_range be x d bs t Hc). rewrite Hperm. apply elem_of_cons; right. apply elem_of_app. by right.
Qed.
End AddRemove.

(** ** Create *)

(** A name the program can pass: a C string of characters. *)
Definition file_name (nm : list Z) : Prop := c_name nm /\ Forall is_char nm.

Lemma strncpy_chars dst nm n : Forall is_char dst -> Forall is_char nm -> Forall is_char (strncpy dst nm n).
Proof.
  intros Hd Hn. assert (is_char 0) as H0 by done.
  apply splice_chars; [|done]. apply Forall_fmap, Forall_forall. intros i _. simpl.
  case_match; [|done]. unfold char_at. destruct (zlookup nm i) as [c|] eqn:E; [|done].
  apply zlookup_Some in E as [_ E]. exact (Forall_lookup_1 _ _ _ _ Hn E).
Qed.

Lemma table_entry_wf d i e : Forall entry_wf (table d) -> zlookup (table d) i = Some e -> entry_wf e.
Proof. intros Hf [_ He]%zlookup_Some. exact (Forall_lookup_1 _ _ _ _ Hf He). Qed.

Lemma table_wf_update t i e' : Forall entry_wf t -> entry_wf e' -> Forall entry_wf (zinsert i e' t).
Proof. intros Hf He. unfold zinsert. case_match; [done|]. by apply Forall_insert. Qed.

Section Create.
Context (be : bool) {X : Type} `{HD : SectorDisk X}.

(** The files of the directory [d] that are not at the sector [free] have the
    same header and contents on the disk [x'] as on [x]. *)
Definition files_kept (x x' : X) (d : Directory) (free : Z) : Prop :=
  forall e, e ∈ table d -> inUse e = true -> sector_no e <> free ->
    header_at be x' (sector_no e) = header_at be x (sector_no e) /\
    content x' (header_at be x (sector_no e)) = content x (header_at be x (sector_no e)).

(** Writing back the header, the directory and the map of a new file. *)
Lemma write_new_file g x d bs mf df h s e' i bm :
  disk_consistent be x d bs -> hdr mf = header_at be x FreeMapSector -> hdr df = header_at be x DirectorySector ->
  zlookup bs s = Some false -> header_i32 h -> entry_wf e' ->
  rep bm (set_all true (blocks h) (zinsert s true bs)) -> numBits bm = NumSectors ->
  forall st : FileSystem X, fs_disk st = x ->
  exists x', (zoom (FileHeader_WriteBack be h s) ;;;
      zoom (Directory_WriteBack be (buf_mem g 1) df (set_table (zinsert i e' (table d)) d)) ;;;
      zoom (BitMap_WriteBack be (buf_mem g 2) (hdr mf) bm) ;;; ret true) st = Ok (true, set_disk x' st) /\
    disk_ok x' /\ sector x' s = header_bytes be h /\
    (forall t, 0 <= t < NumSectors -> t <> s -> t ∉ system_data be x -> sector x' t = sector x t) /\
    stored_dir be x' (header_at be x DirectorySector) (set_table (zinsert i e' (table d)) d) /\
    stored_map be x' (header_at be x FreeMapSector) (set_all true (blocks h) (zinsert s true bs)).
Proof.
  intros Hc Hmf Hdf Hs Hh He' Hbm Hbn st <-. pose proof (zlookup_lt_Some _ _ _ Hs) as Hsr.
  rewrite (dc_length _ _ _ _ Hc) in Hsr.
  assert (s ∉ used_sectors be (fs_disk st) d) as Hfree.
  { intros Hin. apply (dc_used _ _ _ _ Hc) in Hin. congruence. }
  assert (forall t, t ∈ system_data be (fs_disk st) -> t ∈ used_sectors be (fs_disk st) d) as Hsys.
  { intros t Ht. apply system_used. unfold system_sectors. apply elem_of_app. by right. }
  destruct (WriteSector_spec (fs_disk st) s (header_bytes be h)) as (x1 & E1 & Hx1 & Hw1);
    [apply Hc|done|by apply header_bytes_wf|].
  destruct (dc_dir _ _ _ _ Hc) as (Hent & Hlt & Hnb & _).
  destruct (Directory_WriteBack_run be (buf_mem g 1) x1 df (set_table (zinsert i e' (table d)) d))
    as (x2 & E2 & Hx2 & Hsd & Hw2); [done|rewrite Hdf; apply Hc|by apply table_wf_update| |by rewrite Hdf|].
  { simpl. by rewrite zlength_zinsert. }
  destruct (dc_map _ _ _ _ Hc) as (Hnm & _).
  destruct (BitMap_WriteBack_run be (buf_mem g 2) x2 (hdr mf) bm
    (set_all true (blocks h) (zinsert s true bs)) Hx2) as (x3 & E3 & Hx3 & Hsm & Hw3);
    [rewrite Hmf; apply Hc|by rewrite Hmf|exact Hbm|exact Hbn|].
  rewrite Hdf in *. rewrite Hmf in *.
  exists x3. mrun (zoom_disk _ st _ _ E1). mrun (zoom_disk _ (set_disk x1 st) _ _ E2).
  mrun (zoom_disk _ (set_disk x2 (set_disk x1 st)) _ _ E3).
  assert (forall t, 0 <= t < NumSectors -> t ∉ system_data be (fs_disk st) -> sector x3 t = sector x1 t) as H31.
  { intros t Ht Hn. unfold system_data in Hn. rewrite Hw3, Hw2; [done|done|set_solver|done|set_solver]. }
  assert (stored_dir be x3 (header_at be (fs_disk st) DirectorySector) (set_table (zinsert i e' (table d)) d)) as Hsd3.
  { destruct Hsd as (H1 & H2 & H3 & H4). split_and!; try done. rewrite <- H4. unfold content. f_equal.
    apply flat_ext. intros t Ht. apply Hw3; [by apply (block_range (header_at be (fs_disk st) DirectorySector)); [apply Hc|]|].
    intros Hin. pose proof (dc_nodup _ _ _ _ Hc) as Hnd. unfold used_sectors, system_sectors in Hnd.
    apply NoDup_app in Hnd as (Hnd & _). apply NoDup_app in Hnd as (_ & _ & Hnd).
    apply NoDup_app in Hnd as (_ & Hd & _). by apply (Hd t). }
  split; [reflexivity|]. split; [done|]. split.
  { rewrite H31, Hw1, decide_True by (done || by intros ?%Hsys). done. }
  split; [|done]. intros t Ht Hts Hn. rewrite H31, Hw1, decide_False by done. done.
Qed.

(** What a successful Create leaves: the new file under its name, and nothing
    else changed. *)
Record created (s s' : FileSystem X) (d d' : Directory) (bs bs' : list bool) (nm : list Z) (size : Z) : Prop := {
  cr_sector : exists sec, zlookup bs sec = Some false /\ numBytes (header_at be (fs_disk s') sec) = size /\
    forall nm', dir_lookup d' nm' = if bool_decide (key_of nm' = key_of nm) then Some sec else dir_lookup d nm';
  cr_free : count_clear bs' = count_clear bs - 1 - divRoundUp size SectorSize;
  cr_files : files_kept (fs_disk s) (fs_disk s') d (-1);
  cr_table : exists i e e', zlookup (table d) i = Some e /\ inUse e = false /\ inUse e' = true /\
    d' = set_table (zinsert i e' (table d)) d
}.

Lemma free_sector_entry x d bs s e :
  disk_consistent be x d bs -> zlookup bs s = Some false -> e ∈ table d -> s ∉ entry_sectors be x e.
Proof.
  intros Hc Hs He Hin. apply (entry_used be x d e s He) in Hin. apply (dc_used _ _ _ _ Hc) in Hin. congruence.
Qed.

(** The last steps of Create, from a disk on which everything has been read. *)
Lemma create_file g nm size x d bs mf df s bm h bm' i e e' (st : FileSystem X) :
  disk_consistent be x d bs -> file_name nm -> garbage_ok g -> 0 <= size <= MaxFileSize ->
  hdr mf = header_at be x FreeMapSector -> hdr df = header_at be x DirectorySector ->
  dir_lookup d nm = None -> zlookup bs s = Some false ->
  rep bm (zinsert s true bs) -> numBits bm = NumSectors ->
  allocated (hdr_mem g 0) h (zinsert s true bs) bm' size ->
  zlookup (table d) i = Some e -> inUse e = false ->
  e' = mkDirEntry true (pad1 e) s (strncpy (name e) nm FileNameMaxLen) (pad2 e) ->
  key_of (name e') = key_of nm -> zlength (name e') = FileNameMaxLen + 1 -> fs_disk st = x ->
  let bs' := set_all true (blocks h) (zinsert s true bs) in
  let d' := set_table (zinsert i e' (table d)) d in
  exists x', (zoom (FileHeader_WriteBack be h s) ;;;
      zoom (Directory_WriteBack be (buf_mem g 1) df d') ;;;
      zoom (BitMap_WriteBack be (buf_mem g 2) (hdr mf) bm') ;;; ret true) st = Ok (true, set_disk x' st) /\
    disk_consistent be x' d' bs' /\ created st (set_disk x' st) d d' bs bs' nm size /\
    header_at be x' FreeMapSector = header_at be x FreeMapSector /\
    header_at be x' DirectorySector = header_at be x DirectorySector.
Proof.
  intros Hc [Hcn Hnc] Hg Hsz Hmf Hdf Hl Hs Hr Hn Hal He Hu -> Hk Hnl Hst bs' d'.
  destruct Hal as [A1 A2 A3 A4 A5 A6 A7 A8 A9]. destruct (dc_dir _ _ _ _ Hc) as (Hent & _).
  pose proof (zlookup_lt_Some _ _ _ Hs) as Hsr. pose proof (dc_length _ _ _ _ Hc) as Hlen.
  assert (Forall (fun t => 0 <= t < NumSectors) (blocks h)) as Hrange.
  { apply Forall_forall. intros t Ht. apply A6, zlookup_lt_Some in Ht. by rewrite zlength_zinsert, Hlen in Ht. }
  pose proof (divRoundUp_spec size SectorSize ltac:(lia) eq_refl) as Hdr.
  assert (SectorSize = 128) as HS by done. assert (MaxFileSize = 3840) as HM by done.
  assert (NumDirect = 30) as HN by done.
  assert (header_wf h) as Hw by (constructor; rewrite ?A1; (done || lia)).
  assert (NumSectors = 1024) as HT by done.
  set (e' := mkDirEntry true _ _ _ _) in *.
  assert (entry_wf e') as He'.
  { destruct (table_entry_wf d i e Hent He) as [E1 E2 [E3 E4] E5]. constructor; simpl; try done.
    - unfold is_i32. lia.
    - split; [done|]. by apply strncpy_chars. }
  assert (header_i32 h) as Hi32.
  { destruct Hg as [_ Hg]. destruct (Hg 0%nat) as [_ _ Hgd _].
    constructor; rewrite ?A1, ?A2; [unfold is_i32; lia|unfold is_i32; lia| |done].
    rewrite <- (take_drop (Z.to_nat (numSectors h)) (dataSectors h)). apply Forall_app. split.
    - eapply Forall_impl; [exact Hrange|]. intros t Ht. simpl in Ht. unfold is_i32. lia.
    - rewrite A9. by apply Forall_drop. }
  destruct (write_new_file g x d bs mf df h s e' i bm' Hc Hmf Hdf Hs Hi32 He' A7) with (st := st)
    as (x' & E & Hx' & Hsec & Hkeep & Hsd & Hsm); [|done|].
  { destruct A7 as (_ & <- & _). by rewrite set_all_length, zlength_zinsert. }
  destruct (added d nm i e e' (dc_wf _ _ _ _ Hc) (dc_names _ _ _ _ Hc) He Hl Hu eq_refl Hk Hnl) as (Hdw & Hun & Hlook).
  assert (disk_consistent be x' d' bs') as Hc'.
  { by apply (consistent_add be x x' d bs Hc i e e' He Hx' s h). }
  exists x'. split; [exact E|]. split; [done|]. split.
  - constructor.
    + exists s. split; [done|]. split; [|exact Hlook]. cbn [fs_disk set_disk]. unfold header_at. rewrite Hsec.
      by rewrite header_roundtrip.
    + unfold bs'. rewrite A8, (count_clear_update _ _ false true Hs), A2. simpl. lia.
    + intros e2 He2 Hu2 _. rewrite Hst. apply (file_kept be x x' d bs Hc s Hx' Hkeep e2 He2 Hu2).
      by apply (free_sector_entry x d bs).
    + by exists i, e, e'.
  - assert (s ∉ used_sectors be x d) as Hfree by (intros Hin; apply (dc_used _ _ _ _ Hc) in Hin; congruence).
    destruct (system_kept be x x' d bs Hc s Hkeep) as (_ & ? & ?); [| |done].
    + intros <-. apply Hfree, (header_used be x d bs Hc). by left.
    + intros <-. apply Hfree, (header_used be x d bs Hc). right. by left.
Qed.

Lemma files_kept_same (x x' : X) d k : same_sectors x x' -> files_kept x x' d k.
Proof.
  intros Hs e _ _ _. split; [by apply same_header|by apply same_content].
Qed.

Lemma fs_ok_written s x x' d bs d' bs' :
  fs_ok be s d bs -> same_sectors (fs_disk s) x -> disk_consistent be x' d' bs' ->
  header_at be x' FreeMapSector = header_at be x FreeMapSector ->
  header_at be x' DirectorySector = header_at be x DirectorySector ->
  fs_ok be (set_disk x' s) d' bs'.
Proof.
  intros [_ (f & Hf & Hh) (f' & Hf' & Hh') H4] Hs Hc E0 E1. constructor; simpl; try done.
  - exists f. by rewrite E0, (same_header be _ _ _ Hs).
  - exists f'. by rewrite E1, (same_header be _ _ _ Hs).
Qed.

(** Create, on every branch. *)
Lemma Create_run g nm size s d bs :
  fs_ok be s d bs -> file_name nm -> garbage_ok g -> 0 <= size <= MaxFileSize ->
  exists b x' d' bs', FileSystem_Create be g nm size s = Ok (b, set_disk x' s) /\
    fs_ok be (set_disk x' s) d' bs' /\
    (b = true <-> dir_lookup d nm = None /\ ~ Forall (fun e => inUse e = true) (table d) /\
                 1 + divRoundUp size SectorSize <= count_clear bs) /\
    (if b then created s (set_disk x' s) d d' bs bs' nm size
     else d' = d /\ bs' = bs /\ same_sectors (fs_disk s) x').
Proof.
  intros Hok Hnm Hg Hsz.
  pose proof (divRoundUp_nonneg size SectorSize ltac:(lia) eq_refl) as Hblk.
  destruct (fetch_directory_run be g s d bs Hok Hg) as (df & x1 & E1 & Hdf & Hs1).
  pose proof (fs_ok_same be s x1 d bs Hok Hs1) as Hok1. pose proof (fo_disk _ _ _ _ Hok1) as Hc1.
  pose proof (dc_wf _ _ _ _ Hc1) as Hw. pose proof (dc_names _ _ _ _ Hc1) as Hu.
  assert (divRoundUp size SectorSize <= NumDirect) as Hmax.
  { pose proof (divRoundUp_spec size SectorSize ltac:(lia) eq_refl) as Hd.
    assert (SectorSize = 128) as HS by done. assert (MaxFileSize = 3840) as HM by done.
    assert (NumDirect = 30) as HN by done. lia. }
  unfold FileSystem_Create. mrun E1. rewrite (lift_bind _ _ _ _ (dir_Find_run d nm Hw Hu)).
  assert (forall P : Prop, ~ P -> (false = true <-> P)) as Hno by (intros P HP; split; [done|by intros ?%HP]).
  destruct (dir_lookup d nm) as [sec|] eqn:Hl.
  { assert (0 <= sec) as Hsec.
    { apply dir_lookup_Some in Hl as (i & e & [_ He]%zlookup_Some & [Hue _] & <-).
      apply (used_range be (fs_disk (set_disk x1 s)) d bs); [done|].
      apply (header_used be _ d bs Hc1). right; right. exists e. apply list_elem_of_lookup_2 in He. done. }
    rewrite (proj2 (Z.eqb_neq sec (-1))) by lia. simpl.
    exists false, x1, d, bs. split; [done|]. split; [done|]. split; [|done]. apply Hno. by intros (? & _). }
  rewrite Z.eqb_refl. cbn [negb].
  destruct (fetch_map_run be g (set_disk x1 s) d bs Hok1) as (mf & bm & x2 & E2 & Hr & Hn & Hmf & Hs2).
  pose proof (fs_ok_same be _ x2 d bs Hok1 Hs2) as Hok2. rewrite set_disk_twice in Hok2, E2.
  pose proof (same_trans _ _ _ Hs1 Hs2) as Hs12. mrun E2.
  destruct (BitMap_Find_run bm bs Hr) as (sec & bm1 & E3 & HF). rewrite (lift_bind _ _ _ _ E3).
  destruct HF as [(-> & _ & Hz)|[Hfc Hr1]].
  { exists false, x2, d, bs. split; [done|]. split; [done|]. split; [|done]. apply Hno. intros (_ & _ & ?). lia. }
  destruct Hfc as [Hclr _]. pose proof (zlookup_lt_Some _ _ _ Hclr) as Hsr.
  rewrite (proj2 (Z.eqb_neq sec (-1))) by lia.
  destruct Hnm as [Hcn Hch].
  destruct (dir_Add_run d nm sec Hw Hu Hcn) as [[? _]|[(_ & Hfull & E4)|(_ & i & e & e' & He & U & U' & S & K & L & _ & Ee & E4)]].
  { congruence. }
  { rewrite (lift_bind _ _ _ _ E4). exists false, x2, d, bs. split; [done|]. split; [done|].
    split; [|done]. apply Hno. by intros (_ & ? & _). }
  rewrite (lift_bind _ _ _ _ E4). cbn [negb].
  pose proof (Allocate_run (hdr_mem g 0) bm1 (zinsert sec true bs) size Hr1) as HA.
  rewrite (count_clear_update _ _ false true Hclr) in HA.
  destruct (Z.ltb_spec (count_clear bs + 0 - 1) (divRoundUp size SectorSize)) as [Hlt|Hge].
  - destruct HA as (h' & E5); [apply Hg|lia|done|]. rewrite (lift_bind _ _ _ _ E5).
    exists false, x2, d, bs. split; [done|]. split; [done|]. split; [|done]. apply Hno. intros (_ & _ & ?). lia.
  - destruct HA as (h & bm' & E5 & Hal); [apply Hg|lia|done|]. rewrite (lift_bind _ _ _ _ E5).
    destruct (create_file g nm size x2 d bs mf df sec bm1 h bm' i e e' (set_disk x2 s))
      as (x3 & E6 & Hc3 & Hcr & H0 & H1); try done.
    + apply Hok2.
    + rewrite Hmf. symmetry. by apply (same_header be _ _ _ Hs2).
    + rewrite Hdf. symmetry. by apply (same_header be _ _ _ Hs12).
    + destruct Hr1 as (_ & <- & _). rewrite zlength_zinsert. apply Hc1.
    + cbn [negb]. eexists true, x3, _, _. split; [exact E6|].
      split; [by apply (fs_ok_written s x2 x3 d bs _ _ Hok Hs12 Hc3)|]. split.
      * split; [|done]. intros _. split; [done|]. split; [|lia]. intros Hf.
        apply zlookup_Some in He as [_ He]. pose proof (Forall_lookup_1 _ _ _ _ Hf He). simpl in *. congruence.
      * destruct Hcr as [C1 C2 C3 C4]. constructor; try done. intros a Ha Hau Hak.
        destruct (C3 a Ha Hau Hak) as [K1 K2]. simpl in K1, K2.
        rewrite (same_header be _ _ _ Hs12) in K1, K2. split; [done|].
        by rewrite <- (same_content _ _ _ Hs12).
Qed.
End Create.

(** ** Remove *)

Section Remove.
Context (be : bool) {X : Type} `{HD : SectorDisk X}.

(** Writing back the map and the directory without the entry [i]. *)
Lemma write_removed g (st : FileSystem X) d bs mf df bm bs' i e' :
  disk_consistent be (fs_disk st) d bs ->
  hdr mf = header_at be (fs_disk st) FreeMapSector -> hdr df = header_at be (fs_disk st) DirectorySector ->
  entry_wf e' -> rep bm bs' -> numBits bm = NumSectors ->
  let d' := set_table (zinsert i e' (table d)) d in
  exists x', (zoom (BitMap_WriteBack be (buf_mem g 1) (hdr mf) bm) ;;;
      zoom (Directory_WriteBack be (buf_mem g 2) df d') ;;; ret true) st = Ok (true, set_disk x' st) /\
    disk_ok x' /\
    (forall t, 0 <= t < NumSectors -> t ∉ system_data be (fs_disk st) -> sector x' t = sector (fs_disk st) t) /\
    stored_dir be x' (header_at be (fs_disk st) DirectorySector) d' /\
    stored_map be x' (header_at be (fs_disk st) FreeMapSector) bs'.
Proof.
  intros Hc Hmf Hdf He' Hbm Hbn d'.
  destruct (dc_dir _ _ _ _ Hc) as (Hent & Hlt & Hnb & _). destruct (dc_map _ _ _ _ Hc) as (Hnm & _).
  destruct (BitMap_WriteBack_run be (buf_mem g 1) (fs_disk st) (hdr mf) bm bs')
    as (x1 & E1 & Hx1 & Hsm & Hw1); [apply Hc|rewrite Hmf; apply Hc|by rewrite Hmf|exact Hbm|exact Hbn|].
  destruct (Directory_WriteBack_run be (buf_mem g 2) x1 df d')
    as (x2 & E2 & Hx2 & Hsd & Hw2); [done|rewrite Hdf; apply Hc|by apply table_wf_update| |by rewrite Hdf|].
  { simpl. by rewrite zlength_zinsert. }
  rewrite Hdf in *. rewrite Hmf in *.
  exists x2. mrun (zoom_disk _ st _ _ E1). mrun (zoom_disk _ (set_disk x1 st) _ _ E2).
  split; [reflexivity|]. split; [done|]. split; [|split; [done|]].
  - intros t Ht Hn. unfold system_data in Hn. rewrite Hw2, Hw1; [done|done|set_solver|done|set_solver].
  - destruct Hsm as (H1 & bm2 & H2 & H3 & H4). split; [done|]. exists bm2. split; [done|]. split; [done|].
    rewrite <- H4. unfold content. f_equal. apply flat_ext. intros t Ht.
    apply Hw2; [by apply (block_range (header_at be (fs_disk st) FreeMapSector)); [apply Hc|]|].
    intros Hin. pose proof (dc_nodup _ _ _ _ Hc) as Hnd. unfold used_sectors, system_sectors in Hnd.
    apply NoDup_app in Hnd as (Hnd & _). apply NoDup_app in Hnd as (_ & _ & Hnd).
    apply NoDup_app in Hnd as (_ & Hd & _). by apply (Hd t).
Qed.

(** What a successful Remove leaves: the file is gone, its sectors are free
    again and nothing else has changed. *)
Record removed_file (s s' : FileSystem X) (d d' : Directory) (bs bs' : list bool) (nm : list Z) (sec : Z) : Prop := {
  rm_lookup : forall nm', dir_lookup d' nm' = if bool_decide (key_of nm' = key_of nm) then None else dir_lookup d nm';
  rm_free : forall t, zlookup bs' t = Some false <->
    zlookup bs t = Some false \/ t = sec \/ t ∈ blocks (header_at be (fs_disk s) sec);
  rm_files : files_kept be (fs_disk s) (fs_disk s') d sec
}.

Lemma clear_file x d bs e bm :
  disk_consistent be x d bs -> e ∈ table d -> inUse e = true -> rep bm bs ->
  let h := header_at be x (sector_no e) in
  exists bm1 bm2, FileHeader_Deallocate h bm = Ok (tt, bm1) /\ BitMap_Clear (sector_no e) bm1 = Ok (tt, bm2) /\
    rep bm2 (zinsert (sector_no e) false (set_all false (blocks h) bs)) /\
    (forall t, t ∈ sector_no e :: blocks h -> 0 <= t < zlength bs).
Proof.
  intros Hc He Hu Hr h. pose proof (dc_headers _ _ _ _ Hc e He Hu) as Hh.
  assert (forall t, t ∈ sector_no e :: blocks h -> zlookup bs t = Some true) as Hm.
  { intros t Ht. apply (dc_used _ _ _ _ Hc), (entry_used be x d e); [done|]. unfold entry_sectors. by rewrite Hu. }
  destruct (Deallocate_run h bm bs Hr) as (bm1 & E1 & Hr1); [by apply blocks_length|apply Hh| |].
  { intros t Ht. apply Hm. by apply elem_of_cons; right. }
  destruct (BitMap_Clear_run bm1 _ Hr1 (sector_no e)) as (bm2 & E2 & Hr2).
  { rewrite set_all_length. eapply zlookup_lt_Some. apply Hm. by apply elem_of_cons; left. }
  exists bm1, bm2. split_and!; try done. intros t Ht. by eapply zlookup_lt_Some, Hm.
Qed.

Lemma FetchHeader_run (s : FileSystem X) n :
  disk_ok (fs_disk s) -> 0 <= n < NumSectors ->
  exists x', zoom (FileHeader_FetchFrom be n) s = Ok (header_at be (fs_disk s) n, set_disk x' s) /\
    same_sectors (fs_disk s) x'.
Proof.
  intros Hx Hn. destruct (ReadSector_spec (fs_disk s) n Hx Hn) as (x' & E & Hs). exists x'. split; [|done].
  apply zoom_disk. unfold FileHeader_FetchFrom. by mrun E.
Qed.

Lemma remove_map_spec bs ss s t :
  (forall t, t ∈ s :: ss -> 0 <= t < zlength bs) ->
  zlookup (zinsert s false (set_all false ss bs)) t = Some false <-> zlookup bs t = Some false \/ t = s \/ t ∈ ss.
Proof.
  intros Hr. rewrite zlookup_zinsert, set_all_length.
  assert (s ∈ s :: ss) as Hs by (apply elem_of_cons; by left).
  destruct (decide (s = t)) as [->|Hst]; [rewrite decide_True by (split; [done|by apply Hr]); tauto|].
  rewrite decide_False by tauto. destruct (decide (0 <= t < zlength bs)) as [Ht|Ht].
  - rewrite set_all_lookup by done. case_decide as Hin; [tauto|]. split; [tauto|]. intros [?|[?|?]]; [done| |done]. congruence.
  - assert (forall b, zlookup bs t = Some b -> False) as H1 by (by intros b Hb%zlookup_lt_Some).
    split; [intros Hb%zlookup_lt_Some; by rewrite set_all_length in Hb|].
    intros [Hb|[Hb|Hb]]; [by apply H1 in Hb|congruence|]. exfalso. apply Ht, Hr, elem_of_cons. by right.
Qed.

Lemma Remove_run_found g (s : FileSystem X) d bs nm df x1 sec :
  fs_ok be s d bs -> garbage_ok g -> dir_lookup d nm = Some sec ->
  fetch_directory be g s = Ok ((df, d), set_disk x1 s) -> hdr df = header_at be (fs_disk s) DirectorySector ->
  same_sectors (fs_disk s) x1 ->
  exists x' d' bs', FileSystem_Remove be g nm s = Ok (true, set_disk x' s) /\
    fs_ok be (set_disk x' s) d' bs' /\ removed_file s (set_disk x' s) d d' bs bs' nm sec.
Proof.
  intros Hok Hg Hl E1 Hdf Hs1.
  pose proof (fs_ok_same be s x1 d bs Hok Hs1) as Hok1. pose proof (fo_disk _ _ _ _ Hok1) as Hc1.
  pose proof (dc_wf _ _ _ _ Hc1) as Hw. pose proof (dc_names _ _ _ _ Hc1) as Hu.
  unfold FileSystem_Remove. mrun E1. rewrite (lift_bind _ _ _ _ (dir_Find_run d nm Hw Hu)), Hl.
  destruct (dir_Remove_run d nm Hw Hu) as [[? _]|(i & e & He & Hm & Hl' & E4)]; [congruence|].
  rewrite Hl in Hl'. injection Hl' as ->. pose proof He as [_ Hin%list_elem_of_lookup_2]%zlookup_Some.
  pose proof Hm as [Hue _].
  assert (header_sector d (sector_no e)) as Hhs by (right; right; exists e; done).
  pose proof (used_range be _ d bs _ Hc1 (header_used be _ d bs Hc1 _ Hhs)) as Hsr.
  rewrite (proj2 (Z.eqb_neq (sector_no e) (-1))) by lia.
  destruct (FetchHeader_run (set_disk x1 s) (sector_no e)) as (x2 & E2 & Hs2); [apply Hc1|done|]. mrun E2.
  pose proof (fs_ok_same be _ x2 d bs Hok1 Hs2) as Hok2. rewrite set_disk_twice in *.
  destruct (fetch_map_run be g (set_disk x2 s) d bs Hok2) as (mf & bm & x3 & E3 & Hr & Hn & Hmf & Hs3). mrun E3.
  pose proof (fs_ok_same be _ x3 d bs Hok2 Hs3) as Hok3. rewrite set_disk_twice in *.
  pose proof (fo_disk _ _ _ _ Hok3) as Hc3. pose proof (same_trans _ _ _ Hs1 (same_trans _ _ _ Hs2 Hs3)) as Hs13.
  assert (header_at be (fs_disk (set_disk x1 s)) (sector_no e) = header_at be (fs_disk s) (sector_no e)) as -> by by apply same_header.
  assert (header_at be (fs_disk (set_disk x3 s)) (sector_no e) = header_at be (fs_disk s) (sector_no e)) as Eh by by apply same_header.
  destruct (clear_file _ d bs e bm Hc3 Hin Hue Hr) as (bm1 & bm2 & E5 & E6 & Hr2 & Hrange). rewrite Eh in *.
  rewrite (lift_bind _ _ _ _ E5), (lift_bind _ _ _ _ E6), (lift_bind _ _ _ _ E4).
  set (e' := mkDirEntry false _ _ _ _).
  set (bs2 := zinsert (sector_no e) false _) in Hr2.
  destruct (removed d nm i e e' Hw Hu He Hm eq_refl eq_refl) as (Hw' & Hu' & Hlook).
  destruct (dc_dir _ _ _ _ Hc3) as (Hent & _). pose proof (table_entry_wf d i e Hent He) as Hew.
  destruct (write_removed g (set_disk x3 s) d bs mf df bm2 bs2 i e' Hc3)
    as (x4 & E7 & Hx4 & Hkeep & Hsd & Hsm).
  { rewrite Hmf. symmetry. by apply (same_header be _ _ _ Hs3). }
  { rewrite Hdf. symmetry. by apply (same_header be _ _ _ Hs13). }
  { by destruct Hew; constructor. }
  { exact Hr2. }
  { destruct Hr2 as (_ & <- & _). unfold bs2. rewrite zlength_zinsert, set_all_length. apply Hc3. }
  pose proof (consistent_remove be _ x4 d bs Hc3 i e e' He Hx4 Hue eq_refl Hkeep Hw' Hu' Hsd) as HC.
  rewrite Eh in HC. specialize (HC Hsm). fold bs2 in HC.
  eexists x4, _, bs2. split; [exact E7|]. split.
  - destruct (system_kept be _ x4 d bs Hc3 (-1)) as (_ & K0 & K1); [by auto|done|done|].
    by apply (fs_ok_written be s x3 x4 d bs _ _ Hok Hs13 HC).
  - constructor; [exact Hlook| |].
    + intros t. by apply remove_map_spec.
    + intros e2 He2 Hu2 _.
      destruct (file_kept be (fs_disk (set_disk x3 s)) x4 d bs Hc3 (-1) Hx4) with (e := e2) as [K0 K1]; try done.
      { by auto. }
      { intros Hm1. apply (entry_used be _ d e2 _ He2), (used_range be _ d bs _ Hc3) in Hm1. lia. }
      cbn [fs_disk set_disk] in K0, K1.
      rewrite (same_header be _ _ _ Hs13) in K0, K1. split; [done|]. by rewrite <- (same_content _ _ _ Hs13).
Qed.

(** Remove, on both branches. *)
Lemma FileSystem_Remove_run g (s : FileSystem X) d bs nm :
  fs_ok be s d bs -> garbage_ok g ->
  match dir_lookup d nm with
  | None => exists x', FileSystem_Remove be g nm s = Ok (false, set_disk x' s) /\ same_sectors (fs_disk s) x'
  | Some sec => exists x' d' bs', FileSystem_Remove be g nm s = Ok (true, set_disk x' s) /\
      fs_ok be (set_disk x' s) d' bs' /\ removed_file s (set_disk x' s) d d' bs bs' nm sec
  end.
Proof.
  intros Hok Hg. destruct (fetch_directory_run be g s d bs Hok Hg) as (df & x1 & E1 & Hdf & Hs1).
  destruct (dir_lookup d nm) as [sec|] eqn:Hl; [by apply (Remove_run_found g s d bs nm df x1 sec)|].
  pose proof (fo_disk _ _ _ _ Hok) as Hc. exists x1. split; [|done]. unfold FileSystem_Remove. mrun E1.
  by rewrite (lift_bind _ _ _ _ (dir_Find_run d nm (dc_wf _ _ _ _ Hc) (dc_names _ _ _ _ Hc))), Hl.
Qed.
End Remove.

(** ** Open *)

Section Open.
Context (be : bool) {X : Type} `{HD : SectorDisk X}.

Lemma new_OpenFile_run (s : FileSystem X) n t :
  disk_ok (fs_disk s) -> 0 <= n < NumSectors ->
  exists x', new_OpenFile be n t s =
      Ok (length (objects s), set_objects (objects s ++ [Some (mkOpenFile (header_at be (fs_disk s) n) 0 t)]) (set_disk x' s)) /\
    same_sectors (fs_disk s) x'.
Proof.
  intros Hx Hn. destruct (ReadSector_spec (fs_disk s) n Hx Hn) as (x' & E & Hs). exists x'. split; [|done].
  unfold new_OpenFile. assert (OpenFile_new be n t (fs_disk s) = Ok (mkOpenFile (header_at be (fs_disk s) n) 0 t, x')) as E1.
  { assert (FileHeader_FetchFrom be n (fs_disk s) = Ok (header_at be (fs_disk s) n, x')) as E0
      by (unfold FileHeader_FetchFrom; by mrun E).
    unfold OpenFile_new. by mrun E0. }
  by mrun (zoom_disk _ s _ _ E1).
Qed.

Lemma objects_app_ok s o d bs x' :
  fs_ok be s d bs -> same_sectors (fs_disk s) x' ->
  fs_ok be (set_objects (objects s ++ [o]) (set_disk x' s)) d bs.
Proof.
  intros Hok Hs. destruct (fs_ok_same be s x' d bs Hok Hs) as [H1 (f & Hf & Hh) (f' & Hf' & Hh') H4].
  constructor; simpl in *; try done.
  - exists f. split; [|done]. by apply lookup_app_l_Some.
  - exists f'. split; [|done]. by apply lookup_app_l_Some.
Qed.

Lemma set_slots_ok s v d bs : fs_ok be s d bs -> zlength v = 10 -> fs_ok be (set_fs_file v s) d bs.
Proof. intros [H1 H2 H3 H4] Hv. by constructor. Qed.

(** The slot Open takes: the first free one of the slots 2 to 9. *)
Definition first_free (l : list (option nat)) (i : Z) : Prop :=
  2 <= i < 10 /\ zlookup l i = Some None /\ forall j, 2 <= j < i -> exists p, zlookup l j = Some (Some p).

Definition opened (s s' : FileSystem X) (sec : Z) (p : nat) : Prop :=
  p = length (objects s) /\
  objects s' = objects s ++ [Some (mkOpenFile (header_at be (fs_disk s) sec) 0 0)] /\
  (freeMapFile s' = freeMapFile s /\ directoryFile s' = directoryFile s) /\
  exists i, first_free (fs_file s) i /\ fs_file s' = zinsert i (Some p) (fs_file s).

Lemma Open_slots_run s d bs sec :
  fs_ok be s d bs -> 0 <= sec < NumSectors ->
  exists r s', for_ret 2 8 (fun i =>
      s <- get ;;
      slot <- must (zlookup (fs_file s) i) ;;
      match slot with
      | None =>
          p <- new_OpenFile be sec 0 ;;
          modify (fun s => set_fs_file (zinsert i (Some p) (fs_file s)) s) ;;;
          ret (Some p)
      | Some _ => ret None
      end) s = Ok (r, s') /\
    match r with
    | Some p => opened s s' sec p /\ fs_ok be s' d bs /\ same_sectors (fs_disk s) (fs_disk s')
    | None => s' = s /\ forall i, 2 <= i < 10 -> exists p, zlookup (fs_file s) i = Some (Some p)
    end.
Proof.
  intros Hok Hsec. pose proof (fo_slots _ _ _ _ Hok) as Hlen.
  loop_ret (fun i st => st = s /\ forall j, 2 <= j < i -> exists p, zlookup (fs_file s) j = Some (Some p))
    (fun (i : Z) p st => opened s st sec p /\ fs_ok be st d bs /\ same_sectors (fs_disk s) (fs_disk st)) as (r & s' & E & HQ).
  2: { split; [done|]. intros; lia. }
  2: { exists r, s'. split; [exact E|]. destruct r as [p|]; [by destruct HQ as (i & _ & ?)|].
       destruct HQ as [-> Hall]. by split. }
  intros i st Hi [-> Hj]. change (2 + Z.of_nat 8) with 10 in Hi. rewrite (bind_Ok get _ s s s) by done.
  destruct (proj2 (zlookup_is_Some (fs_file s) i)) as [slot Hslot]; [lia|]. rewrite Hslot.
  rewrite (bind_Ok (must (Some slot)) _ s slot s) by done. destruct slot as [p|].
  - exists None, s. split; [done|]. split; [done|]. intros j Hj'. destruct (decide (j = i)) as [->|]; [by exists p|].
    apply Hj. lia.
  - destruct (new_OpenFile_run s sec 0) as (x' & E & Hs); [apply Hok|done|]. mrun E.
    eexists (Some _), _. split; [reflexivity|]. split; [|split; [|exact Hs]].
    + split; [done|]. split; [done|]. split; [done|]. by exists i.
    + apply set_slots_ok; [by apply objects_app_ok|]. simpl. by rewrite zlength_zinsert.
Qed.

Lemma Open_run g s d bs nm :
  fs_ok be s d bs -> garbage_ok g ->
  exists r s', FileSystem_Open be g nm s = Ok (r, s') /\ fs_ok be s' d bs /\
    same_sectors (fs_disk s) (fs_disk s') /\
    match r, dir_lookup d nm with
    | Some p, Some sec => opened s s' sec p
    | Some _, None => False
    | None, Some _ => objects s' = objects s /\ fs_file s' = fs_file s /\
                      forall i, 2 <= i < 10 -> exists p, zlookup (fs_file s) i = Some (Some p)
    | None, None => objects s' = objects s /\ fs_file s' = fs_file s
    end.
Proof.
  intros Hok Hg. destruct (fetch_directory_run be g s d bs Hok Hg) as (df & x1 & E1 & _ & Hs1).
  pose proof (fo_disk _ _ _ _ Hok) as Hc. pose proof (fs_ok_same be s x1 d bs Hok Hs1) as Hok1.
  unfold FileSystem_Open. mrun E1.
  rewrite (lift_bind _ _ _ _ (dir_Find_run d nm (dc_wf _ _ _ _ Hc) (dc_names _ _ _ _ Hc))).
  destruct (dir_lookup d nm) as [sec|] eqn:Hl; [|by eexists None, _].
  assert (0 <= sec < NumSectors) as Hsec.
  { apply dir_lookup_Some in Hl as (i & e & [_ He]%zlookup_Some & [Hue _] & <-).
    apply (used_range be (fs_disk s) d bs); [done|].
    apply (header_used be _ d bs Hc). right; right. exists e. apply list_elem_of_lookup_2 in He. done. }
  rewrite Z.geb_leb, (proj2 (Z.leb_le 0 sec)) by lia.
  destruct (Open_slots_run (set_disk x1 s) d bs sec Hok1 Hsec) as (r & s' & E & HQ).
  exists r, s'. split; [exact E|]. destruct r as [p|].
  - destruct HQ as ((Hp & Ho & Hsys & i & Hi & Hf) & Hok' & Hs'). split; [done|].
    split; [exact (same_trans _ _ _ Hs1 Hs')|]. split; [exact Hp|]. split; [|split; [exact Hsys|by exists i]].
    rewrite Ho. by rewrite (same_header be _ _ _ Hs1).
  - destruct HQ as [-> Hall]. split; [exact Hok1|]. split; [exact Hs1|]. by split.
Qed.
End Open.

(** ** Formatting *)

Section Format.
Context (be : bool) {X : Type} `{HD : SectorDisk X}.

Lemma allocated_wf h h' bs bm fileSize :
  allocated h h' bs bm fileSize -> header_i32 h -> zlength bs = NumSectors -> 0 <= fileSize <= MaxFileSize ->
  header_wf h' /\ header_i32 h'.
Proof.
  intros [A1 A2 A3 A4 A5 A6 A7 A8 A9] [_ _ Hgd _] Hlen Hsz.
  assert (Forall (fun t => 0 <= t < NumSectors) (blocks h')) as Hrange.
  { apply Forall_forall. intros t Ht. apply A6, zlookup_lt_Some in Ht. by rewrite Hlen in Ht. }
  pose proof (divRoundUp_spec fileSize SectorSize ltac:(lia) eq_refl) as Hdr.
  assert (SectorSize = 128) as HS by done. assert (MaxFileSize = 3840) as HM by done.
  assert (NumDirect = 30) as HN by done. assert (NumSectors = 1024) as HT by done. split.
  - constructor; rewrite ?A1; (done || lia).
  - constructor; rewrite ?A1, ?A2; [unfold is_i32; lia|unfold is_i32; lia| |done].
    rewrite <- (take_drop (Z.to_nat (numSectors h')) (dataSectors h')). apply Forall_app. split.
    + eapply Forall_impl; [exact Hrange|]. intros t Ht. simpl in Ht. unfold is_i32. lia.
    + rewrite A9. by apply Forall_drop.
Qed.

(** The map and the headers of a new file system. *)
Record layout (g : Garbage) (mh dh : FileHeader) (bm : BitMap) (bs : list bool) : Prop := {
  la_mh : header_wf mh /\ header_i32 mh /\ numBytes mh = FreeMapFileSize;
  la_dh : header_wf dh /\ header_i32 dh /\ numBytes dh = DirectoryFileSize;
  la_rep : rep bm bs;
  la_length : zlength bs = NumSectors;
  la_nodup : NoDup ([FreeMapSector; DirectorySector] ++ blocks mh ++ blocks dh);
  la_used : forall t, zlookup bs t = Some true <-> t ∈ [FreeMapSector; DirectorySector] ++ blocks mh ++ blocks dh;
  la_count : count_clear bs = NumSectors - 5
}.

(** Allocating a file keeps "the map marks exactly [l]". *)
Lemma mark_more (bs : list bool) l h h' bm size :
  allocated h h' bs bm size -> NoDup l -> (forall t, zlookup bs t = Some true <-> t ∈ l) ->
  NoDup (l ++ blocks h') /\
  (forall t, zlookup (set_all true (blocks h') bs) t = Some true <-> t ∈ l ++ blocks h').
Proof.
  intros [_ _ _ _ A5 A6 _ _ _] Hnd Hl. split.
  - apply NoDup_app. split; [done|]. split; [|done]. intros t Ht%Hl Hb%A6. congruence.
  - intros t. rewrite elem_of_app, <- Hl. destruct (decide (0 <= t < zlength bs)) as [Ht|Ht].
    + rewrite set_all_lookup by done. case_decide; tauto.
    + split; [intros Hb%zlookup_lt_Some; by rewrite set_all_length in Hb|].
      intros [Hb%zlookup_lt_Some|Hb]; [done|]. exfalso. apply Ht. eapply zlookup_lt_Some. by apply A6.
Qed.

Lemma fresh_map_marked (N : nat) : (2 <= N)%nat ->
  let bs := zinsert DirectorySector true (zinsert FreeMapSector true (replicate N false)) in
  zlength bs = Z.of_nat N /\ count_clear bs = Z.of_nat N - 2 /\
  forall t, zlookup bs t = Some true <-> t ∈ [FreeMapSector; DirectorySector].
Proof.
  intros HN bs. destruct N as [|[|N]]; [lia|lia|].
  assert (bs = true :: true :: replicate N false) as -> by done. split.
  { unfold zlength. simpl. rewrite length_replicate. lia. }
  assert (forall n, count_clear (replicate n false) = Z.of_nat n) as Hcc.
  { induction n as [|n IH]; [done|]. rewrite replicate_S. cbn [count_clear]. rewrite IH. lia. }
  split; [cbn [count_clear]; rewrite Hcc; lia|]. intros t. rewrite zlookup_Some.
  unfold FreeMapSector, DirectorySector. rewrite !elem_of_cons, elem_of_nil. split.
  - intros [Ht Hl]. destruct (Z.to_nat t) as [|[|k]] eqn:E; [lia|lia|]. simpl in Hl.
    apply lookup_replicate in Hl as [? _]. done.
  - intros [->|[->|[]]]; done.
Qed.

Lemma format_layout g bm0 :
  garbage_ok g -> rep bm0 (replicate (Z.to_nat NumSectors) false) ->
  exists bm1 bm2 mh bm3 dh bm bs, BitMap_Mark FreeMapSector bm0 = Ok (tt, bm1) /\
    BitMap_Mark DirectorySector bm1 = Ok (tt, bm2) /\
    FileHeader_Allocate FreeMapFileSize (hdr_mem g 0, bm2) = Ok (true, (mh, bm3)) /\
    FileHeader_Allocate DirectoryFileSize (hdr_mem g 1, bm3) = Ok (true, (dh, bm)) /\ layout g mh dh bm bs.
Proof.
  intros [_ Hg] Hr0. assert (exists N, N = Z.to_nat NumSectors) as [N HN] by (by eexists).
  assert (Z.of_nat N = NumSectors) as HNz by (rewrite HN; apply Z2Nat.id; discriminate).
  rewrite <- HN in Hr0. assert (NumSectors = 1024) as HT by done. clear HN.
  destruct (fresh_map_marked N ltac:(lia)) as (Hl & Hc & Hm).
  assert (zlength (replicate N false) = NumSectors) as Hl0 by (unfold zlength; by rewrite length_replicate).
  destruct (BitMap_Mark_run bm0 _ Hr0 FreeMapSector) as (bm1 & E1 & Hr1); [rewrite Hl0; done|].
  destruct (BitMap_Mark_run bm1 _ Hr1 DirectorySector) as (bm2 & E2 & Hr2); [rewrite zlength_zinsert, Hl0; done|].
  set (bs2 := zinsert DirectorySector true _) in *.
  assert (divRoundUp FreeMapFileSize SectorSize = 1) as D1 by done.
  assert (divRoundUp DirectoryFileSize SectorSize = 2) as D2 by done.
  pose proof (Allocate_run (hdr_mem g 0) bm2 bs2 FreeMapFileSize Hr2) as HA. rewrite D1, Hc in HA.
  destruct (Z.ltb_spec (Z.of_nat N - 2) 1); [lia|].
  destruct HA as (mh & bm3 & E3 & Ha1); [apply Hg|done|done|].
  pose proof Ha1 as [_ B2 _ _ _ _ Hr3 Hc3 _]. rewrite B2, D1, Hc in Hc3.
  pose proof (Allocate_run (hdr_mem g 1) bm3 _ DirectoryFileSize Hr3) as HA. rewrite D2, Hc3 in HA.
  destruct (Z.ltb_spec (Z.of_nat N - 2 - 1) 2); [lia|].
  destruct HA as (dh & bm & E4 & Ha2); [apply Hg|done|done|].
  pose proof Ha2 as [_ B3 _ _ _ _ Hr4 Hc4 _]. rewrite B3, D2, Hc3 in Hc4.
  destruct (allocated_wf _ _ _ _ _ Ha1 (Hg 0%nat)) as [W1 W2]; [by rewrite Hl|done|].
  destruct (allocated_wf _ _ _ _ _ Ha2 (Hg 1%nat)) as [W3 W4]; [by rewrite set_all_length, Hl|done|].
  assert (NoDup [FreeMapSector; DirectorySector]) as Hnd2.
  { apply (bool_decide_unpack _). vm_compute. exact I. }
  destruct (mark_more _ _ _ _ _ _ Ha1 Hnd2 Hm) as [P1 P2].
  destruct (mark_more _ _ _ _ _ _ Ha2 P1 P2) as [P3 P4]. rewrite <- app_assoc in P3, P4.
  exists bm1, bm2, mh, bm3, dh, bm, (set_all true (blocks dh) (set_all true (blocks mh) bs2)).
  split; [done|]. split; [done|]. split; [done|]. split; [done|]. constructor; try assumption.
  - split; [done|]. split; [done|]. apply Ha1.
  - split; [done|]. split; [done|]. apply Ha2.
  - by rewrite !set_all_length, Hl.
  - rewrite Hc4. lia.
Qed.

Lemma new_directory_ok g :
  garbage_ok g -> let d := Directory_new NumDirEntries (dir_mem g) in
  Forall entry_wf (table d) /\ directory_wf d /\ unique_names d /\ Forall (fun e => inUse e = false) (table d).
Proof.
  intros [Hg _] d.
  assert (Forall entry_wf (table d)) as Hw.
  { apply Forall_fmap, Forall_forall. intros i _. destruct (Hg i). by constructor. }
  assert (Forall (fun e => inUse e = false) (table d)) as Hu by (by apply Forall_fmap, Forall_forall).
  split; [done|]. split; [|split; [by apply unused_unique|done]]. constructor; [done|done|].
  eapply Forall_impl; [exact Hw|]. by intros e [_ _ [? _] _].
Qed.

(** The contents of a new disk are consistent. *)
Lemma layout_consistent x g mh dh bm bs :
  layout g mh dh bm bs -> garbage_ok g -> disk_ok x ->
  sector x FreeMapSector = header_bytes be mh -> sector x DirectorySector = header_bytes be dh ->
  stored_map be x mh bs -> stored_dir be x dh (Directory_new NumDirEntries (dir_mem g)) ->
  disk_consistent be x (Directory_new NumDirEntries (dir_mem g)) bs /\
  header_at be x FreeMapSector = mh /\ header_at be x DirectorySector = dh.
Proof.
  intros [(M1 & M2 & _) (D1 & D2 & _) _ Hl Hnd Hu _] Hg Hx S0 S1 Hm Hd.
  destruct (new_directory_ok g Hg) as (_ & Hdw & Hun & Hfree).
  assert (header_at be x FreeMapSector = mh) as E0 by (unfold header_at; rewrite S0; by apply header_roundtrip).
  assert (header_at be x DirectorySector = dh) as E1 by (unfold header_at; rewrite S1; by apply header_roundtrip).
  assert (used_sectors be x (Directory_new NumDirEntries (dir_mem g)) = [FreeMapSector; DirectorySector] ++ blocks mh ++ blocks dh) as Eu.
  { unfold used_sectors, system_sectors. rewrite E0, E1.
    assert (concat (entry_sectors be x <$> table (Directory_new NumDirEntries (dir_mem g))) = []) as ->; [|apply app_nil_r].
    induction Hfree as [|e l He _ IH]; [done|]. rewrite fmap_cons. cbn [concat]. rewrite IH. unfold entry_sectors. by rewrite He. }
  split; [|done]. constructor; rewrite ?E0, ?E1, ?Eu; try assumption.
  - reflexivity.
  - intros e [j He]%list_elem_of_lookup Hue. pose proof (Forall_lookup_1 _ _ _ _ Hfree He). simpl in *. congruence.
Qed.

Lemma format_run g (s : FileSystem X) :
  garbage_ok g -> disk_ok (fs_disk s) ->
  let n := length (objects s) in
  exists x' mf df bs, format be g s = Ok ((n, S n), set_objects (objects s ++ [Some mf; Some df]) (set_disk x' s)) /\
    disk_consistent be x' (Directory_new NumDirEntries (dir_mem g)) bs /\ count_clear bs = NumSectors - 5 /\
    hdr mf = header_at be x' FreeMapSector /\ hdr df = header_at be x' DirectorySector.
Proof.
  intros Hg Hx n.
  assert (0 <= FreeMapSector < NumSectors) as B0 by done. assert (0 <= DirectorySector < NumSectors) as B1 by done.
  assert (NumSectors = 1024) as HT by done.
  destruct (BitMap_new_run NumSectors (map_mem g)) as (bm0 & E0 & Hr0); [done|].
  destruct (format_layout g bm0 Hg Hr0) as (bm1 & bm2 & mh & bm3 & dh & bm & bs & E1 & E2 & E3 & E4 & Hla).
  clear Hr0. pose proof Hla as [(M1 & M2 & M3) (D1 & D2 & D3) Hr Hl Hnd Hused Hcnt].
  unfold format. rewrite (lift_bind _ _ _ _ E0). clear E0. cbv zeta.
  rewrite (lift_bind _ _ _ _ E1), (lift_bind _ _ _ _ E2), (lift_bind _ _ _ _ E3).
  rewrite (bind_Ok (ASSERT true) _ s tt s) by done. rewrite (lift_bind _ _ _ _ E4).
  rewrite (bind_Ok (ASSERT true) _ s tt s) by done.
  destruct (WriteSector_spec (fs_disk s) FreeMapSector (header_bytes be mh) Hx B0 (header_bytes_wf be mh M2)) as (x1 & W1 & Hx1 & Hw1).
  destruct (WriteSector_spec x1 DirectorySector (header_bytes be dh) Hx1 B1 (header_bytes_wf be dh D2)) as (x2 & W2 & Hx2 & Hw2).
  mrun (zoom_disk _ s _ _ W1). mrun (zoom_disk _ (set_disk x1 s) _ _ W2).
  assert (sector x2 FreeMapSector = header_bytes be mh) as S0 by (rewrite Hw2, decide_False, Hw1, decide_True; done).
  assert (sector x2 DirectorySector = header_bytes be dh) as S1 by (rewrite Hw2, decide_True; done).
  set (s2 := set_disk x2 (set_disk x1 s)).
  destruct (new_OpenFile_run be s2 FreeMapSector 0 Hx2 B0) as (x3 & O1 & Hs3).
  set (s3 := set_objects _ _) in O1. mrun O1.
  destruct (new_OpenFile_run be s3 DirectorySector 0 (proj1 Hs3) B1) as (x4 & O2 & Hs4).
  set (s4 := set_objects _ _) in O2. mrun O2.
  assert (header_at be (fs_disk s2) FreeMapSector = mh) as H0 by (unfold header_at; simpl; by rewrite S0, header_roundtrip).
  assert (header_at be (fs_disk s3) DirectorySector = dh) as H1.
  { rewrite (same_header be _ _ _ Hs3). unfold header_at. simpl. by rewrite S1, header_roundtrip. }
  assert (objects s4 = objects s ++ [Some (mkOpenFile mh 0 0); Some (mkOpenFile dh 0 0)]) as Ho.
  { unfold s4. cbn [objects set_objects]. rewrite H1. unfold s3. cbn [objects set_objects]. rewrite H0.
    by rewrite <- app_assoc. }
  assert (objects s4 = (objects s ++ [Some (mkOpenFile mh 0 0)]) ++ [Some (mkOpenFile dh 0 0)]) as Ho'
    by (by rewrite Ho, <- app_assoc).
  assert (length (objects s3) = S n) as Hn3.
  { unfold s3. cbn [objects set_objects]. rewrite length_app. simpl. unfold n. lia. }
  mrun (deref_run s4 (length (objects s2)) (mkOpenFile mh 0 0) ltac:(rewrite Ho; by apply list_lookup_middle)).
  destruct (BitMap_WriteBack_run be (buf_mem g 1) x4 mh bm bs) as (x5 & W5 & Hx5 & Hsm & Hw5);
    [apply Hs4|exact M1|exact M3|exact Hr| |].
  { destruct Hr as (_ & <- & _). exact Hl. }
  mrun (zoom_disk _ s4 _ _ W5).
  mrun (deref_run (set_disk x5 s4) (length (objects s3)) (mkOpenFile dh 0 0)
    ltac:(cbn [objects set_disk]; rewrite Ho', Hn3; apply list_lookup_middle; rewrite length_app; simpl; unfold n; lia)).
  destruct (new_directory_ok g Hg) as (Hent & _).
  destruct (Directory_WriteBack_run be (buf_mem g 2) x5 (mkOpenFile dh 0 0) (Directory_new NumDirEntries (dir_mem g)))
    as (x6 & W6 & Hx6 & Hsd & Hw6); [done|exact D1|exact Hent|reflexivity|exact D3|].
  mrun (zoom_disk _ (set_disk x5 s4) _ _ W6).
  assert (forall t, 0 <= t < NumSectors -> t ∉ blocks mh -> t ∉ blocks dh -> sector x6 t = sector x2 t) as H62.
  { intros t Ht Hn1 Hn2. rewrite Hw6, Hw5 by done. rewrite (proj2 Hs4). apply (proj2 Hs3). }
  apply NoDup_app in Hnd as (_ & Hd & Hnd). apply NoDup_app in Hnd as (_ & Hd2 & _).
  assert (forall t, t ∈ [FreeMapSector; DirectorySector] -> (t ∉ blocks mh) /\ t ∉ blocks dh) as Hd1.
  { intros t Ht. apply Hd in Ht. rewrite elem_of_app in Ht. tauto. }
  destruct (Hd1 FreeMapSector) as [N0 N1]; [apply elem_of_cons; by left|].
  destruct (Hd1 DirectorySector) as [N2 N3]; [apply elem_of_cons; right; apply elem_of_cons; by left|].
  destruct (layout_consistent x6 g mh dh bm bs Hla Hg Hx6) as (HC & HC0 & HC1).
  { by rewrite H62. } { by rewrite H62. } 2: { exact Hsd. }
  { destruct Hsm as (Q1 & bm' & Q2 & Q3 & Q4). split; [done|]. exists bm'. split; [done|]. split; [done|].
    rewrite <- Q4. unfold content. f_equal. apply flat_ext. intros t Ht.
    apply Hw6; [by apply (block_range mh)|]. by apply Hd2. }
  exists x6, (mkOpenFile mh 0 0), (mkOpenFile dh 0 0), bs. split; [|by split_and!].
  rewrite Hn3, <- Ho. reflexivity.
Qed.
End Format.

(** ** Start and shutdown *)

Section Boot.
Context (be : bool) {X : Type} `{HD : SectorDisk X}.

Lemma modify_bind {A} f (k : unit -> M (FileSystem X) A) s : bind (modify f) k s = k tt (f s).
Proof. done. Qed.

Lemma bind_twice {A B C} (m1 : M (FileSystem X) A) (m2 : M (FileSystem X) B) (k : M (FileSystem X) C) s v s' :
  (_ <- m1 ;; m2) s = Ok (v, s') -> (_ <- m1 ;; _ <- m2 ;; k) s = k s'.
Proof. unfold bind. destruct (m1 s) as [[a s1]| | |]; simpl; try discriminate. by intros ->. Qed.

Lemma set_slots_twice u v (s : FileSystem X) : set_fs_file u (set_fs_file v s) = set_fs_file u s.
Proof. done. Qed.

(** The last steps of the constructor: slots 0 and 2, and 1 and 3, get the same
    object. *)
Lemma open_std g3 g4 (s : FileSystem X) d bs a b :
  fs_ok be s d bs -> garbage_ok g3 -> garbage_ok g4 -> fs_file s = replicate 10 None ->
  dir_lookup d stdin = Some a -> dir_lookup d stdout = Some b ->
  let n := length (objects s) in
  exists s', (p <- FileSystem_Open_type be g3 stdin 1 ;;
      modify (fun s => set_fs_file (zinsert 0 p (fs_file s)) s) ;;;
      p <- FileSystem_Open_type be g4 stdout 2 ;;
      modify (fun s => set_fs_file (zinsert 1 p (fs_file s)) s)) s = Ok (tt, s') /\
    fs_ok be s' d bs /\ same_sectors (fs_disk s) (fs_disk s') /\
    objects s' = objects s ++ [Some (mkOpenFile (header_at be (fs_disk s) a) 0 0);
                               Some (mkOpenFile (header_at be (fs_disk s) b) 0 0)] /\
    fs_file s' = [Some n; Some (S n); Some n; Some (S n)] ++ replicate 6 None.
Proof.
  intros Hok Hg3 Hg4 Hf Ha Hb n. unfold FileSystem_Open_type.
  destruct (Open_run be g3 s d bs stdin Hok Hg3) as (r & s1 & E1 & Hok1 & Hs1 & HQ). mrun E1. rewrite Ha in HQ.
  destruct r as [p|].
  2: { destruct HQ as (_ & _ & Hall). destruct (Hall 2 ltac:(lia)) as [p Hp]. by rewrite Hf in Hp. }
  destruct HQ as (-> & Ho1 & _ & i & (Hi & _ & Hlow) & Hf1).
  assert (i = 2) as ->.
  { destruct (decide (i = 2)) as [|]; [done|]. destruct (Hlow 2 ltac:(lia)) as [p Hp]. by rewrite Hf in Hp. }
  rewrite Hf in Hf1. fold n in Hf1.
  set (s2 := set_fs_file (zinsert 0 (Some n) (fs_file s1)) s1).
  rewrite (bind_Ok (modify _) _ s1 tt s2) by done.
  assert (fs_file s2 = [Some n; None; Some n] ++ replicate 7 None) as Hf2 by (unfold s2; simpl; by rewrite Hf1).
  assert (fs_ok be s2 d bs) as Hok2 by (apply set_slots_ok; [done|]; by rewrite Hf1).
  destruct (Open_run be g4 s2 d bs stdout Hok2 Hg4) as (r & s3 & E3 & Hok3 & Hs3 & HQ). mrun E3. rewrite Hb in HQ.
  destruct r as [p|].
  2: { destruct HQ as (_ & _ & Hall). destruct (Hall 3 ltac:(lia)) as [p Hp]. by rewrite Hf2 in Hp. }
  destruct HQ as (-> & Ho3 & _ & i & (Hi' & Hnone & Hlow') & Hf3).
  assert (i = 3) as ->.
  { destruct (decide (i = 2)) as [->|]; [by rewrite Hf2 in Hnone|].
    destruct (decide (i = 3)) as [|]; [done|]. destruct (Hlow' 3 ltac:(lia)) as [p Hp]. by rewrite Hf2 in Hp. }
  assert (objects s2 = objects s ++ [Some (mkOpenFile (header_at be (fs_disk s) a) 0 0)]) as Ho2 by done.
  assert (length (objects s2) = S n) as Hn2 by (rewrite Ho2, length_app; simpl; unfold n; lia).
  rewrite Hn2 in *. rewrite Hf2 in Hf3.
  eexists. split; [reflexivity|]. split; [apply set_slots_ok; [done|]; by rewrite Hf3|].
  split; [exact (same_trans _ _ _ Hs1 Hs3)|]. split.
  - cbn [objects set_fs_file]. rewrite Ho3, Ho2, <- app_assoc.
    change (fs_disk s2) with (fs_disk s1). by rewrite (same_header be _ _ _ Hs1).
  - simpl. by rewrite Hf3.
Qed.

Lemma delete_cases p (s : FileSystem X) :
  delete_OpenFile p s = Undef \/
  (delete_OpenFile p s = Ok (tt, set_objects (<[p := None]> (objects s)) s) /\ (p < length (objects s))%nat).
Proof.
  unfold delete_OpenFile, deref. munfold. destruct (objects s !! p) as [[f|]|] eqn:E; try by left.
  right. split; [done|]. by eapply lookup_lt_Some.
Qed.

Lemma delete_deleted p (s : FileSystem X) : objects s !! p = Some None -> delete_OpenFile p s = Undef.
Proof. intros E. unfold delete_OpenFile, deref. munfold. by rewrite E. Qed.

(** The destructor of a file system in that state deletes an object twice. *)
Lemma delete_aliased (s : FileSystem X) n :
  fs_file s = [Some n; Some (S n); Some n; Some (S n)] ++ replicate 6 None -> FileSystem_delete s = Undef.
Proof.
  intros Hf. unfold FileSystem_delete.
  set (body := fun i : Z => s <- get ;; slot <- must (zlookup (fs_file s) i) ;;
    match slot with Some p => delete_OpenFile p | None => ret tt end).
  assert (forall (k : Z) p (st : FileSystem X), fs_file st = fs_file s -> zlookup (fs_file s) k = Some (Some p) ->
    body k st = delete_OpenFile p st) as Hbody.
  { intros k p st Hst Hk. unfold body. rewrite (bind_Ok get _ st st st) by done. by rewrite Hst, Hk. }
  clearbody body. cbn [for_]. change (0 + 1) with 1. change (1 + 1) with 2.
  assert (forall (m : M (FileSystem X) unit) st (k : M (FileSystem X) unit), m st = Undef -> (m ;;; k) st = Undef) as Hun
    by (intros m st k E; unfold bind; by rewrite E).
  pose proof (Hbody 0 n s eq_refl ltac:(by rewrite Hf)) as B0.
  destruct (delete_cases n s) as [E|[E Hn]]; rewrite E in B0; [by apply Hun|]. mrun B0.
  set (s1 := set_objects _ s).
  pose proof (Hbody 1 (S n) s1 eq_refl ltac:(by rewrite Hf)) as B1.
  destruct (delete_cases (S n) s1) as [E1|[E1 _]]; rewrite E1 in B1; [by apply Hun|]. mrun B1.
  set (s2 := set_objects _ s1).
  pose proof (Hbody 2 n s2 eq_refl ltac:(by rewrite Hf)) as B2.
  apply Hun. rewrite B2. apply delete_deleted. unfold s2, s1. simpl.
  rewrite list_lookup_insert_ne by lia. by apply list_lookup_insert_eq.
Qed.

(** *** The two ways to construct the file system *)

Lemma lookup_new_empty g nm : garbage_ok g -> dir_lookup (Directory_new NumDirEntries (dir_mem g)) nm = None.
Proof.
  intros Hg. destruct (new_directory_ok g Hg) as (_ & _ & _ & Hf). apply dir_lookup_None.
  intros i e [_ He]%zlookup_Some [Hu _]. pose proof (Forall_lookup_1 _ _ _ _ Hf He). simpl in *. congruence.
Qed.

Lemma std_names : file_name stdin /\ file_name stdout /\ key_of stdin <> key_of stdout.
Proof. split; [|split; [|done]]; split; by repeat constructor. Qed.

(** Create of the first two files on a new directory. *)
Lemma create_std g1 g2 (s : FileSystem X) d bs :
  fs_ok be s d bs -> garbage_ok g1 -> garbage_ok g2 -> Forall (fun e => inUse e = false) (table d) ->
  count_clear bs = NumSectors - 5 ->
  exists x' d' bs' a b, (_ <- FileSystem_Create be g1 stdin 0 ;; FileSystem_Create be g2 stdout 0) s = Ok (true, set_disk x' s) /\
    fs_ok be (set_disk x' s) d' bs' /\ dir_lookup d' stdin = Some a /\ dir_lookup d' stdout = Some b /\
    (forall nm, key_of nm <> key_of stdin -> key_of nm <> key_of stdout -> dir_lookup d' nm = None) /\
    count_clear bs' = NumSectors - 7.
Proof.
  intros Hok Hg1 Hg2 Hfree Hcnt. destruct std_names as (Hn1 & Hn2 & Hne).
  assert (NumSectors = 1024) as HT by done. assert (divRoundUp 0 SectorSize = 0) as D0 by done.
  assert (0 <= 0 <= MaxFileSize) as Hz by done.
  assert (forall nm, dir_lookup d nm = None) as Hnone.
  { intros nm. apply dir_lookup_None. intros i e [_ He]%zlookup_Some [Hu _].
    pose proof (Forall_lookup_1 _ _ _ _ Hfree He). simpl in *. congruence. }
  pose proof (dc_size _ _ _ _ (fo_disk _ _ _ _ Hok)) as Hsz.
  destruct (dc_dir _ _ _ _ (fo_disk _ _ _ _ Hok)) as (_ & Hlen & _). rewrite Hsz in Hlen.
  assert (forall i, 0 <= i < 10 -> exists e, zlookup (table d) i = Some e /\ inUse e = false) as Hent.
  { intros i Hi. destruct (proj2 (zlookup_is_Some (table d) i)) as [e He]; [by rewrite Hlen|]. exists e. split; [done|].
    apply zlookup_Some in He as [_ He]. exact (Forall_lookup_1 _ _ _ _ Hfree He). }
  destruct (Create_run be g1 stdin 0 s d bs Hok Hn1 Hg1 Hz) as (b & x1 & d1 & bs1 & E1 & Hok1 & Hb & HQ). mrun E1.
  assert (b = true) as ->.
  { apply Hb. split; [apply Hnone|]. split; [|rewrite D0; lia]. intros Hf. destruct (Hent 0 ltac:(lia)) as (e & [_ He]%zlookup_Some & Hu).
    pose proof (Forall_lookup_1 _ _ _ _ Hf He). simpl in *. congruence. }
  destruct HQ as [(a & _ & _ & La) Hc1 _ (i & e & e' & Hi & _ & _ & Hd1)].
  destruct (Create_run be g2 stdout 0 _ d1 bs1 Hok1 Hn2 Hg2 Hz) as (b & x2 & d2 & bs2 & E2 & Hok2 & Hb2 & HQ).
  rewrite set_disk_twice in *.
  assert (b = true) as ->.
  { apply Hb2. split; [rewrite La, bool_decide_false by congruence; apply Hnone|]. split; [|rewrite D0 in *; lia].
    intros Hf. rewrite Hd1 in Hf. destruct (Hent (if decide (i = 0) then 1 else 0)) as (e2 & He2 & Hu2); [case_decide; lia|].
    assert (zlookup (zinsert i e' (table d)) (if decide (i = 0) then 1 else 0) = Some e2) as [_ He3]%zlookup_Some.
    { rewrite zlookup_zinsert, decide_False; [done|]. case_decide; lia. }
    pose proof (Forall_lookup_1 _ _ _ _ Hf He3). simpl in *. congruence. }
  destruct HQ as [(c & _ & _ & Lc) Hc2 _ _].
  exists x2, d2, bs2, a, c. split; [exact E2|]. split; [done|]. split; [|split; [|split; [|rewrite D0 in *; lia]]].
  - rewrite Lc, bool_decide_false by done. by rewrite La, bool_decide_true.
  - by rewrite Lc, bool_decide_true.
  - intros nm K1 K2. by rewrite Lc, bool_decide_false, La, bool_decide_false.
Qed.

Lemma system_files_ok (s : FileSystem X) x' mf df d bs :
  disk_consistent be x' d bs -> hdr mf = header_at be x' FreeMapSector -> hdr df = header_at be x' DirectorySector ->
  let n := length (objects s) in
  fs_ok be (set_fs_file (replicate 10 None)
    (set_system_files n (S n) (set_objects (objects s ++ [Some mf; Some df]) (set_disk x' s)))) d bs.
Proof.
  intros Hc Hm Hd n. constructor; simpl; [done| | |done].
  - exists mf. split; [|done]. by apply list_lookup_middle.
  - exists df. split; [|done]. rewrite lookup_app_r by (unfold n; lia). by replace (S n - length (objects s))%nat with 1%nat by (unfold n; lia).
Qed.

Lemma new_format_run g g1 g2 g3 g4 (s : FileSystem X) :
  garbage_ok g -> garbage_ok g1 -> garbage_ok g2 -> garbage_ok g3 -> garbage_ok g4 -> disk_ok (fs_disk s) ->
  let n := length (objects s) in
  exists s' d bs a b, FileSystem_new be true g g1 g2 g3 g4 s = Ok (tt, s') /\ fs_ok be s' d bs /\
    dir_lookup d stdin = Some a /\ dir_lookup d stdout = Some b /\
    (forall nm, key_of nm <> key_of stdin -> key_of nm <> key_of stdout -> dir_lookup d nm = None) /\
    count_clear bs = NumSectors - 7 /\
    fs_file s' = [Some (n + 2)%nat; Some (n + 3)%nat; Some (n + 2)%nat; Some (n + 3)%nat] ++ replicate 6 None.
Proof.
  intros Hg Hg1 Hg2 Hg3 Hg4 Hx n.
  destruct (format_run be g s Hg Hx) as (x1 & mf & df & bs & E & Hc & Hcnt & Hm & Hd).
  pose proof (system_files_ok s x1 mf df _ bs Hc Hm Hd) as Hok. cbv zeta in Hok. fold n in E, Hok. unfold FileSystem_new. mrun E.
  set (s1 := @set_fs_file X _ _) in Hok.
  rewrite !modify_bind. fold s1.
  destruct (new_directory_ok g Hg) as (_ & _ & _ & Hfree).
  destruct (create_std g1 g2 s1 _ bs Hok Hg1 Hg2 Hfree Hcnt) as (x2 & d2 & bs2 & a & b & E2 & Hok2 & La & Lb & Lno & Hcnt2).
  assert (fs_file (set_disk x2 s1) = replicate 10 None) as Hf by done.
  destruct (open_std g3 g4 (set_disk x2 s1) d2 bs2 a b Hok2 Hg3 Hg4 Hf La Lb) as (s' & E3 & Hok3 & _ & _ & Hf3).
  exists s', d2, bs2, a, b. split; [|split; [done|]; split; [done|]; split; [done|]; split; [done|]; split; [done|]].
  - rewrite (bind_twice _ _ _ _ _ _ E2). exact E3.
  - rewrite Hf3. simpl. rewrite length_app. simpl. unfold n.
    by replace (length (objects s) + 3)%nat with (S (length (objects s) + 2)) by lia.
Qed.

(** Constructing the file system of a disk that holds one. *)
Lemma new_reopen_run g g1 g2 g3 g4 (s : FileSystem X) d bs a b :
  garbage_ok g1 -> garbage_ok g2 -> garbage_ok g3 -> garbage_ok g4 -> disk_consistent be (fs_disk s) d bs ->
  dir_lookup d stdin = Some a -> dir_lookup d stdout = Some b ->
  exists s', FileSystem_new be false g g1 g2 g3 g4 s = Ok (tt, s') /\ fs_ok be s' d bs /\
    same_sectors (fs_disk s) (fs_disk s').
Proof.
  intros Hg1 Hg2 Hg3 Hg4 Hc La Lb. destruct std_names as (Hn1 & Hn2 & _).
  assert (0 <= 0 <= MaxFileSize) as Hz by done.
  assert (0 <= FreeMapSector < NumSectors) as B0 by done. assert (0 <= DirectorySector < NumSectors) as B1 by done.
  destruct (new_OpenFile_run be s FreeMapSector 0 (dc_disk _ _ _ _ Hc) B0) as (x1 & O1 & Hs1).
  set (s1 := set_objects _ _) in O1.
  destruct (new_OpenFile_run be s1 DirectorySector 0 (proj1 Hs1) B1) as (x2 & O2 & Hs2).
  pose proof (same_trans _ _ _ Hs1 Hs2) as Hs12. pose proof (consistent_same be _ _ _ _ Hs12 Hc) as Hc2.
  set (s2 := set_objects _ _) in O2.
  pose proof (system_files_ok s x2 (mkOpenFile (header_at be (fs_disk s) FreeMapSector) 0 0)
    (mkOpenFile (header_at be (fs_disk s1) DirectorySector) 0 0) d bs Hc2) as Hok.
  cbv zeta in Hok. cbn [hdr] in Hok. rewrite !(same_header be _ _ _ Hs12) in Hok.
  rewrite (same_header be (fs_disk s) (fs_disk s1) DirectorySector Hs1) in Hok. specialize (Hok eq_refl eq_refl).
  set (s3 := @set_fs_file X _ _) in Hok.
  assert (set_fs_file (replicate 10 None) (set_system_files (length (objects s)) (S (length (objects s))) s2) = s3) as E3.
  { unfold s3, s2, s1, set_system_files, set_objects, set_disk, set_fs_file. cbn.
    rewrite <- app_assoc. by rewrite (same_header be _ _ _ Hs1). }
  assert (length (objects s1) = S (length (objects s))) as Hn1' by (unfold s1; simpl; rewrite length_app; simpl; lia).
  rewrite Hn1' in O2.
  destruct (Create_run be g1 stdin 0 s3 d bs Hok Hn1 Hg1 Hz) as (b1 & x4 & d4 & bs4 & E4 & Hok4 & Hb & HQ).
  destruct b1; [exfalso; destruct (proj1 Hb eq_refl) as [? _]; congruence|].
  destruct HQ as (-> & -> & Hs4).
  destruct (Create_run be g2 stdout 0 _ d bs Hok4 Hn2 Hg2 Hz) as (b2 & x5 & d5 & bs5 & E5 & Hok5 & Hb' & HQ).
  destruct b2; [exfalso; destruct (proj1 Hb' eq_refl) as [? _]; congruence|].
  destruct HQ as (-> & -> & Hs5). rewrite set_disk_twice in *.
  destruct (open_std g3 g4 (set_disk x5 s3) d bs a b Hok5 Hg3 Hg4 eq_refl La Lb) as (s' & E6 & Hok6 & Hs6 & _).
  exists s'. split; [|split; [done|exact (same_trans _ _ _ Hs12 (same_trans _ _ _ Hs4 (same_trans _ _ _ Hs5 Hs6)))]].
  unfold FileSystem_new.
  assert ((pm <- new_OpenFile be FreeMapSector 0 ;; pd <- new_OpenFile be DirectorySector 0 ;; ret (pm, pd)) s
    = Ok ((length (objects s), S (length (objects s))), s2)) as E12 by (mrun O1; by mrun O2).
  mrun E12. munfold. rewrite E3. rewrite E4, E5. exact E6.
Qed.
End Boot.

(** ** Writing through an open file *)

Section WriteFile.
Context (be : bool) {X : Type} `{HD : SectorDisk X}.

(** Everything in use but the data of the file of [e]. *)
Lemma other_sectors x d bs e :
  disk_consistent be x d bs -> e ∈ table d -> inUse e = true ->
  exists others, used_sectors be x d ≡ₚ blocks (header_at be x (sector_no e)) ++ others /\
    (forall t, t ∈ system_sectors be x -> t ∈ others) /\
    (forall e2, e2 ∈ table d -> inUse e2 = true -> sector_no e2 ∈ others) /\
    (forall e2 t, e2 ∈ table d -> e2 <> e -> t ∈ entry_sectors be x e2 -> t ∈ others).
Proof.
  intros Hc [i He]%list_elem_of_lookup Hu.
  pose proof (take_drop_middle _ _ _ He) as Et. set (l1 := take i (table d)) in *. set (l2 := drop (S i) (table d)) in *.
  assert (entry_sectors be x e = sector_no e :: blocks (header_at be x (sector_no e))) as Ee
    by (unfold entry_sectors; by rewrite Hu).
  exists (system_sectors be x ++ concat (entry_sectors be x <$> l1) ++ [sector_no e] ++ concat (entry_sectors be x <$> l2)).
  split; [|split; [|split]].
  - unfold used_sectors. rewrite <- Et, fmap_app, fmap_cons, concat_app. cbn [concat]. rewrite Ee. solve_Permutation.
  - intros t Ht. apply elem_of_app. by left.
  - assert (forall l e2, e2 ∈ l -> inUse e2 = true -> sector_no e2 ∈ concat (entry_sectors be x <$> l)) as Hin.
    { intros l e2 H2 Hu2. apply list_elem_of_In, in_concat. exists (entry_sectors be x e2).
      split; apply list_elem_of_In; [by apply list_elem_of_fmap_2|]. unfold entry_sectors. rewrite Hu2.
      apply elem_of_cons. by left. }
    intros e2 H2 Hu2. rewrite <- Et in H2. rewrite !elem_of_app.
    apply elem_of_app in H2 as [H2|[->|H2]%elem_of_cons]; [right; left; by apply Hin| |right; right; right; by apply Hin].
    right; right; left. apply elem_of_cons. by left.
  - assert (forall l e2 t, e2 ∈ l -> t ∈ entry_sectors be x e2 -> t ∈ concat (entry_sectors be x <$> l)) as Hin.
    { intros l e2 t H2 Ht. apply list_elem_of_In, in_concat. exists (entry_sectors be x e2).
      split; apply list_elem_of_In; [by apply list_elem_of_fmap_2|done]. }
    intros e2 t H2 Hne Ht. rewrite <- Et in H2. rewrite !elem_of_app.
    apply elem_of_app in H2 as [H2|[->|H2]%elem_of_cons]; [right; left; by apply (Hin l1 e2)|done|].
    right; right; right. by apply (Hin l2 e2).
Qed.

(** Writing the data of one file leaves the others as they are. *)
Lemma other_file_kept x x' d bs e e2 :
  disk_consistent be x d bs -> e ∈ table d -> inUse e = true ->
  (forall t, 0 <= t < NumSectors -> t ∉ blocks (header_at be x (sector_no e)) -> sector x' t = sector x t) ->
  e2 ∈ table d -> e2 <> e -> inUse e2 = true ->
  header_at be x' (sector_no e2) = header_at be x (sector_no e2) /\
  content x' (header_at be x (sector_no e2)) = content x (header_at be x (sector_no e2)).
Proof.
  intros Hc He Hu Hkeep He2 Hne Hu2. destruct (other_sectors x d bs e Hc He Hu) as (others & Hperm & _ & _ & Hoth).
  assert (forall t, t ∈ entry_sectors be x e2 -> sector x' t = sector x t) as Hsec.
  { intros t Ht. apply (Hoth e2 t He2 Hne) in Ht. apply Hkeep.
    - apply (used_range be x d bs t Hc). rewrite Hperm. apply elem_of_app. by right.
    - pose proof (dc_nodup _ _ _ _ Hc) as Hnd. rewrite Hperm in Hnd. apply NoDup_app in Hnd as (_ & Hd & _).
      intros Hin. by apply (Hd t). }
  unfold entry_sectors in Hsec. rewrite Hu2 in Hsec. split.
  - unfold header_at. f_equal. apply Hsec, elem_of_cons. by left.
  - unfold content. f_equal. apply flat_ext. intros t Ht. apply Hsec, elem_of_cons. by right.
Qed.

Lemma consistent_data x x' d bs e :
  disk_consistent be x d bs -> e ∈ table d -> inUse e = true -> disk_ok x' ->
  (forall t, 0 <= t < NumSectors -> t ∉ blocks (header_at be x (sector_no e)) -> sector x' t = sector x t) ->
  disk_consistent be x' d bs /\ header_at be x' FreeMapSector = header_at be x FreeMapSector /\
  header_at be x' DirectorySector = header_at be x DirectorySector /\
  forall e2, e2 ∈ table d -> inUse e2 = true -> header_at be x' (sector_no e2) = header_at be x (sector_no e2).
Proof.
  intros Hc He Hu Hx' Hkeep. destruct (other_sectors x d bs e Hc He Hu) as (others & Hperm & Hsys & Hent & _).
  assert (forall t, t ∈ others -> sector x' t = sector x t) as Hsec.
  { intros t Ht. apply Hkeep.
    - apply (used_range be x d bs t Hc). rewrite Hperm. apply elem_of_app. by right.
    - pose proof (dc_nodup _ _ _ _ Hc) as Hnd. rewrite Hperm in Hnd. apply NoDup_app in Hnd as (_ & Hd & _).
      intros Hin. by apply (Hd t). }
  assert (forall t, t ∈ others -> header_at be x' t = header_at be x t) as Hhd
    by (intros t Ht; unfold header_at; by rewrite Hsec).
  assert (header_at be x' FreeMapSector = header_at be x FreeMapSector) as E0.
  { apply Hhd, Hsys. unfold system_sectors. apply elem_of_app. left. apply elem_of_cons. by left. }
  assert (header_at be x' DirectorySector = header_at be x DirectorySector) as E1.
  { apply Hhd, Hsys. unfold system_sectors. apply elem_of_app. left. apply elem_of_cons. right. apply elem_of_cons. by left. }
  assert (forall e2, e2 ∈ table d -> inUse e2 = true -> header_at be x' (sector_no e2) = header_at be x (sector_no e2)) as E2 by auto.
  assert (used_sectors be x' d = used_sectors be x d) as Eu.
  { unfold used_sectors, system_sectors. rewrite E0, E1. f_equal. f_equal. apply list_fmap_ext.
    intros j e2 H2%list_elem_of_lookup_2. unfold entry_sectors. destruct (inUse e2) eqn:Hu2; [|done]. by rewrite E2. }
  assert (forall h, (forall t, t ∈ blocks h -> t ∈ system_data be x) -> content x' h = content x h) as Hcont.
  { intros h Hh. unfold content. f_equal. apply flat_ext. intros t Ht%Hh. apply Hsec, Hsys. unfold system_sectors.
    apply elem_of_app. by right. }
  split; [|done]. destruct Hc as [H1 H2 H3 H4 H5 H6 H7 H8 H9 H10 H11 H12].
  constructor; rewrite ?E0, ?E1, ?Eu; try assumption.
  - destruct H4 as (Hb & bm & Hr & Hn & Hcc). split; [done|]. exists bm. split; [done|]. split; [done|].
    rewrite Hcont; [done|]. intros t Ht. unfold system_data. apply elem_of_app. by left.
  - destruct H5 as (Hew & Hl & Hb & Hcc). split_and!; try done. rewrite Hcont; [done|].
    intros t Ht. unfold system_data. apply elem_of_app. by right.
  - intros e2 He2 Hu2. rewrite E2 by done. by apply H9.
Qed.

(** The file of the entry [e] is open at [p]. *)
Definition open_at (s : FileSystem X) (p : nat) (e : DirectoryEntry) (f : OpenFile) : Prop :=
  objects s !! p = Some (Some f) /\ hdr f = header_at be (fs_disk s) (sector_no e) /\
  p <> freeMapFile s /\ p <> directoryFile s.

Lemma assign_ok s p o d bs :
  fs_ok be s d bs -> p <> freeMapFile s -> p <> directoryFile s ->
  fs_ok be (set_objects (<[p := o]> (objects s)) s) d bs.
Proof.
  intros [H1 (f1 & Hf1 & Hh1) (f2 & Hf2 & Hh2) H4] Hm Hd. constructor; simpl; try done.
  - exists f1. by rewrite list_lookup_insert_ne.
  - exists f2. by rewrite list_lookup_insert_ne.
Qed.

Lemma file_Write_run g (s : FileSystem X) d bs p e f from num :
  fs_ok be s d bs -> e ∈ table d -> inUse e = true -> open_at s p e f -> 0 <= seekPosition f <= numBytes (hdr f) ->
  0 <= num -> num < 2 ^ 30 -> num <= zlength from -> Forall is_char from ->
  let n := transferred (hdr f) num (seekPosition f) in
  let f' := OpenFile_Seek (seekPosition f + n) f in
  exists x', file_Write g p from num s = Ok (n, set_objects (<[p := Some f']> (objects s)) (set_disk x' s)) /\
    let s' := set_objects (<[p := Some f']> (objects s)) (set_disk x' s) in
    fs_ok be s' d bs /\ open_at s' p e f' /\
    content x' (hdr f) = splice (seekPosition f) (slice 0 n from) (content (fs_disk s) (hdr f)) /\
    (forall t, 0 <= t < NumSectors -> t ∉ blocks (hdr f) -> sector x' t = sector (fs_disk s) t).
Proof.
  intros Hok He Hu (Hp & Hh & Hm & Hd) Hpos Hnum Hnum2 Hfrom Hch n f'.
  pose proof (fo_disk _ _ _ _ Hok) as Hc. pose proof (dc_headers _ _ _ _ Hc e He Hu) as Hw. rewrite <- Hh in Hw.
  assert (numBytes (hdr f) <= 3840) as Hnb.
  { pose proof (bytes_in_sectors _ Hw) as Hb. pose proof (hw_direct _ Hw) as Hdi. assert (NumDirect = 30) by done.
    assert (SectorSize = 128) by done. lia. }
  assert (SectorSize = 128) as HS by done.
  destruct (WriteAt_run (buf_mem g 0) (fs_disk s) (hdr f) from num (seekPosition f)) as (x' & E & Hx' & Hcon & Hkeep);
    [apply Hc|done|lia|lia|lia|done|done|].
  fold n in E, Hcon. rewrite Hh in Hkeep.
  destruct (consistent_data (fs_disk s) x' d bs e Hc He Hu Hx' Hkeep) as (Hc' & E0 & E1 & E2).
  exists x'. split.
  - unfold file_Write. mrun (deref_run s p f Hp).
    assert (OpenFile_Write (buf_mem g 0) from num f (fs_disk s) = Ok ((n, f'), x')) as Ew by (unfold OpenFile_Write; by mrun E).
    by mrun (zoom_disk _ s _ _ Ew).
  - split; [|split; [|split; [done|by rewrite Hh]]].
    + apply (assign_ok (set_disk x' s)); [|done|done]. destruct Hok as [_ (f1 & Hf1 & Hh1) (f2 & Hf2 & Hh2) H4].
      constructor; simpl; [done|exists f1; by rewrite E0|exists f2; by rewrite E1|done].
    + split; [|split; [|done]]; simpl.
      * apply list_lookup_insert_eq. by eapply lookup_lt_Some.
      * rewrite Hh. symmetry. by apply E2.
Qed.
End WriteFile.

(** ** Copy *)

Section CopyCorrect.
Context (be : bool) {X : Type} `{HD : SectorDisk X} (g : nat -> Garbage).

(** After [k] bytes: they are the file's first [k], and the position. *)
Definition copied (s : FileSystem X) d bs p e h (data : list Z) (k : Z) : Prop :=
  fs_ok be s d bs /\ 0 <= k <= zlength data /\
  (exists f, open_at be s p e f /\ hdr f = h /\ seekPosition f = k) /\
  take (Z.to_nat k) (content (fs_disk s) h) = take (Z.to_nat k) data.

Lemma take_splice {A} (l src : list A) k n :
  0 <= k -> 0 <= n -> k + n <= zlength l -> n = zlength src ->
  take (Z.to_nat (k + n)) (splice k src l) = take (Z.to_nat k) l ++ src.
Proof.
  intros Hk Hn Hl ->. unfold splice, zlength in *. rewrite app_assoc. rewrite take_app_length'; [done|].
  rewrite length_app, length_take. lia.
Qed.

Lemma copy_step s d bs p e h data k :
  copied s d bs p e h data k -> e ∈ table d -> inUse e = true ->
  numBytes h = zlength data -> Forall is_char data -> k < zlength data ->
  let buffer := slice 0 TransferSize (drop (Z.to_nat k) data) in
  exists n s', file_Write (g 2) p buffer (zlength buffer) s = Ok (n, s') /\
    copied s' d bs p e h data (k + zlength buffer) /\ 0 < zlength buffer /\
    fs_file s' = fs_file s /\
    (forall t, 0 <= t < NumSectors -> t ∉ blocks h -> sector (fs_disk s') t = sector (fs_disk s) t).
Proof.
  intros (Hok & Hk & (f & Hf & <- & <-) & Hpre) He Hu Hn Hch Hlt buffer.
  set (k := seekPosition f) in *.
  assert (zlength buffer = Z.min 10 (zlength data - k)) as Hbl.
  { unfold buffer, slice, TransferSize, zlength in *. rewrite length_take, !length_drop. lia. }
  assert (Forall is_char buffer) as Hbc by (apply slice_chars, Forall_drop; done).
  destruct (file_Write_run be (g 2) s d bs p e f buffer (zlength buffer)) as (x' & E & Hok' & Hf' & Hcon & Hkeep);
    try done; try (unfold k in *; lia).
  pose proof (fo_disk _ _ _ _ Hok) as Hc. pose proof (dc_headers _ _ _ _ Hc e He Hu) as Hw.
  destruct Hf as (Hp & Hh & _). rewrite <- Hh in Hw.
  assert (transferred (hdr f) (zlength buffer) k = zlength buffer) as Ht by (unfold transferred; lia).
  fold k in E, Hok', Hf', Hcon. rewrite Ht in *. rewrite slice_whole in Hcon by lia.
  eexists _, _. split; [exact E|]. split; [|split; [lia|done]].
  split; [exact Hok'|]. split; [lia|]. split; [by eexists|]. cbn [fs_disk set_disk set_objects]. rewrite Hcon.
  pose proof (content_length (fs_disk s) (hdr f) (dc_disk _ _ _ _ Hc) Hw) as Hcl.
  rewrite take_splice by lia. rewrite Hpre, Hbl. unfold buffer, slice, TransferSize.
  change (Z.to_nat 0) with 0%nat. rewrite drop_0.
  rewrite take_take_drop. unfold zlength in *.
  destruct (decide (Z.to_nat k + Z.to_nat 10 <= length data)%nat).
  - f_equal. lia.
  - rewrite !take_ge by lia. done.
Qed.

Lemma copy_loop_run d bs p e h data fuel : forall s k rest,
  copied s d bs p e h data k -> e ∈ table d -> inUse e = true -> numBytes h = zlength data -> Forall is_char data ->
  rest = drop (Z.to_nat k) data -> (length rest < fuel)%nat ->
  exists s', while_ fuel rest (fun rest =>
      let buffer := slice 0 TransferSize rest in
      let amountRead := zlength buffer in
      if amountRead >? 0 then
        _ <- file_Write (g 2) p buffer amountRead ;;
        ret (drop (Z.to_nat amountRead) rest, true)
      else ret (rest, false)) s = Ok (Some [], s') /\
    copied s' d bs p e h data (zlength data) /\ fs_file s' = fs_file s /\
    (forall t, 0 <= t < NumSectors -> t ∉ blocks h -> sector (fs_disk s') t = sector (fs_disk s) t).
Proof.
  induction fuel as [|fuel IH]; intros s k rest Hcp He Hu Hn Hch -> Hf; [lia|]. cbn [while_]. cbv zeta.
  pose proof Hcp as (_ & Hk & _). destruct (decide (k = zlength data)) as [->|Hne].
  - assert (drop (Z.to_nat (zlength data)) data = []) as -> by (apply drop_ge; unfold zlength; lia).
    exists s. done.
  - destruct (copy_step s d bs p e h data k Hcp He Hu Hn Hch ltac:(lia)) as (n & s1 & E & Hcp1 & Hpos & Hfile & Hkeep).
    set (buffer := slice 0 TransferSize (drop (Z.to_nat k) data)) in *.
    rewrite Z.gtb_ltb, (proj2 (Z.ltb_lt 0 _)) by done. rewrite <- bind_assoc. mrun E.
    rewrite (bind_Ok (ret _) _ s1 _ s1) by reflexivity.
    destruct (IH s1 (k + zlength buffer) (drop (Z.to_nat (zlength buffer)) (drop (Z.to_nat k) data)) Hcp1 He Hu Hn Hch)
      as (s' & E' & Hcp' & Hfile' & Hkeep').
    + rewrite drop_drop. f_equal. lia.
    + rewrite length_drop in Hf. rewrite !length_drop. unfold zlength in *. lia.
    + exists s'. split; [exact E'|]. split; [done|]. split; [congruence|]. intros t Ht Hnt. by rewrite Hkeep', Hkeep.
Qed.

Lemma delete_OpenFile_run s p f : objects s !! p = Some (Some f) ->
  delete_OpenFile (X := X) p s = Ok (tt, set_objects (<[p := None]> (objects s)) s).
Proof. intros E. unfold delete_OpenFile. by mrun (deref_run s p f E). Qed.

Lemma kept_in_table (d : Directory) i e e' e2 :
  zlookup (table d) i = Some e -> inUse e = false -> e2 ∈ table d -> inUse e2 = true ->
  e2 ∈ table (set_table (zinsert i e' (table d)) d).
Proof.
  intros Hi Hu He2 Hu2. destruct (zinsert_split _ _ _ Hi) as (l1 & l2 & E1 & E2). cbn [table set_table].
  rewrite E2. rewrite E1 in He2. rewrite elem_of_app, elem_of_cons in *. destruct He2 as [?|[->|?]]; [auto|congruence|auto].
Qed.

Lemma Copy_run (s : FileSystem X) d bs to data :
  fs_ok be s d bs -> (forall i, garbage_ok (g i)) -> file_name to -> Forall is_char data -> zlength data <= MaxFileSize ->
  dir_lookup d to = None -> ~ Forall (fun e => inUse e = true) (table d) ->
  1 + divRoundUp (zlength data) SectorSize <= count_clear bs ->
  (exists i, 2 <= i < 10 /\ zlookup (fs_file s) i = Some None) ->
  exists s' d' bs' sec p i, Copy be g (Some data) to s = Ok (Copied, s') /\ fs_ok be s' d' bs' /\
    (forall nm, dir_lookup d' nm = if bool_decide (key_of nm = key_of to) then Some sec else dir_lookup d nm) /\
    content (fs_disk s') (header_at be (fs_disk s') sec) = data /\
    files_kept be (fs_disk s) (fs_disk s') d (-1) /\
    2 <= i < 10 /\ zlookup (fs_file s') i = Some (Some p) /\ objects s' !! p = Some None.
Proof.
  intros Hok Hg Hto Hch Hmax Hnone Hroom Hspace (i0 & Hi0 & Hfree).
  pose proof (zlength_nonneg data) as Hl0.
  destruct (Create_run be (g 0) to (zlength data) s d bs Hok Hto (Hg 0%nat) ltac:(lia))
    as (b & x1 & d1 & bs1 & E1 & Hok1 & Hb & HQ).
  assert (b = true) as -> by (by apply Hb). unfold Copy. mrun E1. cbn [negb].
  destruct HQ as [(sec & Hclr & Hsize & Hlook) _ Hkept (i & e & e' & Hi & Hue & Hue' & ->)].
  set (s1 := set_disk x1 s) in *. set (d1 := set_table _ d) in *.
  destruct (Open_run be (g 1) s1 d1 bs1 to Hok1 (Hg 1%nat)) as (r & s2 & E2 & Hok2 & Hs2 & HR). mrun E2.
  rewrite Hlook, bool_decide_true in HR by done.
  destruct r as [p|].
  2: { destruct HR as (_ & _ & Hall). destruct (Hall i0 Hi0) as [p Hp]. change (fs_file s1) with (fs_file s) in Hp. congruence. }
  destruct HR as (-> & Ho & [Hsm Hsd] & k & (Hk & Hkf & _) & Hf2). set (p := length (objects s1)) in *.
  rewrite (bind_Ok (ASSERT true) _ s2 tt s2) by done. rewrite (bind_Ok (must (Some p)) _ s2 p s2) by done.
  (* the new entry *)
  assert (dir_lookup d1 to = Some sec) as Hlt by (by rewrite Hlook, bool_decide_true).
  apply dir_lookup_Some in Hlt as (j & en & [_ Hen%list_elem_of_lookup_2]%zlookup_Some & [Huen _] & Hsen).
  set (h := header_at be (fs_disk s1) sec).
  assert (copied s2 d1 bs1 p en h data 0) as Hcp.
  { split; [done|]. split; [lia|]. split; [|done]. exists (mkOpenFile h 0 0). split; [|done].
    assert (objects s2 !! p = Some (Some (mkOpenFile h 0 0))) as Hp by (rewrite Ho; by apply list_lookup_middle).
    split; [done|]. split; [rewrite Hsen; symmetry; by apply same_header|].
    destruct Hok1 as [_ (f1 & Hf1 & _) (f3 & Hf3 & _) _]. apply lookup_lt_Some in Hf1, Hf3.
    rewrite Hsm, Hsd. unfold p. lia. }
  destruct (copy_loop_run d1 bs1 p en h data (S (length data)) s2 0 data Hcp Hen Huen Hsize Hch) as (s3 & E3 & Hcp3 & Hf3 & Hkeep3);
    [done|lia|].
  unfold copy_loop. mrun E3. destruct Hcp3 as (Hok3 & _ & (f & (Hp3 & Hh3 & Hm3 & Hd3) & Hfh & _) & Hcon).
  mrun (delete_OpenFile_run s3 p f Hp3).
  pose proof (fo_slots _ _ _ _ Hok1) as Hsl.
  eexists _, d1, bs1, sec, p, k. split; [reflexivity|]. split; [by apply assign_ok|]. split; [exact Hlook|].
  cbn [fs_disk set_objects objects fs_file].
  pose proof (fo_disk _ _ _ _ Hok2) as Hc2. rewrite Hsen in Hh3. rewrite <- Hh3, Hfh.
  assert (header_at be (fs_disk s2) sec = h) as Hh2 by by apply same_header.
  split; [|split; [|split; [done|split]]].
  - assert (header_wf h) as Hw by (rewrite <- Hh2, <- Hsen; by apply Hc2).
    pose proof (content_length (fs_disk s3) h (dc_disk _ _ _ _ (fo_disk _ _ _ _ Hok3)) Hw) as Hcl.
    change (numBytes h = zlength data) in Hsize. rewrite Hsize in Hcl. unfold zlength in Hcl, Hcon.
    rewrite !take_ge in Hcon by lia. exact Hcon.
  - intros e2 He2 Hu2 _. pose proof (fo_disk _ _ _ _ Hok) as Hc.
    assert (sector_no e2 ∈ entry_sectors be (fs_disk s) e2) as Hsec2
      by (unfold entry_sectors; rewrite Hu2; apply elem_of_cons; by left).
    pose proof (entry_used be (fs_disk s) d e2 _ He2 Hsec2) as Hused2.
    pose proof (used_range be (fs_disk s) d bs _ Hc Hused2) as Hr2.
    destruct (Hkept e2 He2 Hu2 ltac:(lia)) as [K0 K1].
    assert (e2 <> en) as Hne.
    { intros ->. rewrite Hsen in Hused2. apply (dc_used _ _ _ _ Hc) in Hused2. congruence. }
    destruct (other_file_kept be (fs_disk s2) (fs_disk s3) d1 bs1 en e2 Hc2 Hen Huen) as [L0 L1]; try done.
    { intros t Ht Hn. rewrite Hsen, Hh2 in Hn. by apply Hkeep3. }
    { by apply (kept_in_table d i e e'). }
    rewrite (same_header be _ _ _ Hs2) in L0, L1. rewrite (same_content _ _ _ Hs2) in L1.
    split; [by rewrite L0|]. by rewrite <- K0, L1, K0.
  - rewrite Hf3, Hf2. apply zlookup_zinsert_eq. rewrite Hsl. lia.
  - apply list_lookup_insert_eq. by eapply lookup_lt_Some.
Qed.
End CopyCorrect.

(** ** The performance test *)

Section Performance.
Context (be : bool) {X : Type} `{HD : SectorDisk X} (g : nat -> Garbage).

Lemma assign_open (s : FileSystem X) d bs sec s' p :
  fs_ok be s d bs -> opened be s s' sec p -> p <> freeMapFile s' /\ p <> directoryFile s' /\
  objects s' !! p = Some (Some (mkOpenFile (header_at be (fs_disk s) sec) 0 0)).
Proof.
  intros [_ (f1 & Hf1 & _) (f2 & Hf2 & _) _] (-> & Ho & [-> ->] & _). apply lookup_lt_Some in Hf1, Hf2.
  split; [lia|]. split; [lia|]. rewrite Ho. by apply list_lookup_middle.
Qed.

Lemma file_Read_run (s : FileSystem X) d bs p f num :
  fs_ok be s d bs -> objects s !! p = Some (Some f) -> header_wf (hdr f) -> 0 <= seekPosition f < 2 ^ 30 -> num < 2 ^ 30 ->
  p <> freeMapFile s -> p <> directoryFile s ->
  let bs' := slice (seekPosition f) num (content (fs_disk s) (hdr f)) in
  exists x' f', file_Read p num s = Ok (bs', set_objects (<[p := Some f']> (objects s)) (set_disk x' s)) /\
    same_sectors (fs_disk s) x' /\ fs_ok be (set_objects (<[p := Some f']> (objects s)) (set_disk x' s)) d bs.
Proof.
  intros Hok Hp Hw Hpos Hnum Hm Hd bs'.
  destruct (ReadAt_run (fs_disk s) (hdr f) num (seekPosition f) (dc_disk _ _ _ _ (fo_disk _ _ _ _ Hok)) Hw)
    as (x' & E & Hs); [lia|lia|].
  exists x', (OpenFile_Seek (seekPosition f + zlength bs') f). split; [|split; [exact Hs|]].
  - unfold file_Read. mrun (deref_run s p f Hp).
    assert (OpenFile_Read num f (fs_disk s) = Ok ((bs', OpenFile_Seek (seekPosition f + zlength bs') f), x')) as Er
      by (unfold OpenFile_Read; by mrun E).
    by mrun (zoom_disk _ s _ _ Er).
  - apply (assign_ok be (set_disk x' s)); [by apply fs_ok_same|done|done].
Qed.

Lemma for_ret_first {R} (body : Z -> M (FileSystem X) (option R)) lo n s r s' :
  (0 < n)%nat -> body lo s = Ok (Some r, s') -> for_ret lo n body s = Ok (Some r, s').
Proof. intros Hn E. destruct n as [|n]; [lia|]. simpl. by mrun E. Qed.

Lemma chunks_pos : (0 < chunks)%nat.
Proof. apply Nat.ltb_lt. vm_compute. reflexivity. Qed.

(** The slots of the file table that are free. *)
Definition slot_free (s : FileSystem X) (i : Z) : Prop := 2 <= i < 10 /\ zlookup (fs_file s) i = Some None.

Lemma opened_slots s s' sec p i :
  opened be s s' sec p -> zlength (fs_file s) = 10 -> slot_free s i -> (exists j, slot_free s j /\ j <> i) ->
  exists j, slot_free s' j.
Proof.
  intros (_ & _ & _ & k & (Hk & Hkn & _) & Hf) Hl Hi (j & Hj & Hne). destruct (decide (k = i)) as [->|Hki].
  - exists j. destruct Hj as [Hj1 Hj2]. split; [done|]. rewrite Hf, zlookup_zinsert, decide_False; [done|]. intros [? _]. congruence.
  - exists i. destruct Hi as [Hi1 Hi2]. split; [done|]. rewrite Hf, zlookup_zinsert, decide_False; [done|]. intros [? _]. congruence.
Qed.

(** An empty file that has been opened: the transfer of a chunk fails and the
    file is closed, but its slot keeps the pointer. *)
Lemma Open_empty_run k (s : FileSystem X) d bs nm sec :
  fs_ok be s d bs -> (forall i, garbage_ok (g i)) -> dir_lookup d nm = Some sec ->
  numBytes (header_at be (fs_disk s) sec) = 0 -> (exists i, slot_free s i) ->
  exists p s1, FileSystem_Open be (g k) nm s = Ok (Some p, s1) /\ fs_ok be s1 d bs /\ opened be s s1 sec p /\
    same_sectors (fs_disk s) (fs_disk s1) /\
    (exists s2, (numBytes <- file_Write (g 2) p Contents ContentSize ;;
       if numBytes <? 10 then delete_OpenFile p ;;; ret (Some UnableTransfer) else ret None) s1 = Ok (Some UnableTransfer, s2) /\
       fs_ok be s2 d bs /\ fs_file s2 = fs_file s1 /\ header_at be (fs_disk s2) sec = header_at be (fs_disk s) sec) /\
    (exists s2, (buffer <- file_Read p ContentSize ;;
       if (zlength buffer <? 10) || negb (strncmp_eq (Z.to_nat ContentSize) buffer Contents)
       then delete_OpenFile p ;;; ret (Some UnableTransfer) else ret None) s1 = Ok (Some UnableTransfer, s2) /\
       fs_ok be s2 d bs).
Proof.
  intros Hok Hg Hl Hz (i & Hi & Hfree).
  destruct (Open_run be (g k) s d bs nm Hok (Hg k)) as (r & s1 & E1 & Hok1 & Hs1 & HR). rewrite Hl in HR.
  destruct r as [p|]; [|destruct HR as (_ & _ & Hall); destruct (Hall i Hi) as [p Hp]; congruence].
  destruct (assign_open s d bs sec s1 p Hok HR) as (Hm & Hd & Hp).
  exists p, s1. split; [done|]. split; [done|]. split; [done|]. split; [done|].
  apply dir_lookup_Some in Hl as (j & e & [_ He%list_elem_of_lookup_2]%zlookup_Some & [Hu _] & Hse).
  set (f := mkOpenFile (header_at be (fs_disk s) sec) 0 0) in *.
  assert (hdr f = header_at be (fs_disk s1) sec) as Hh by (symmetry; by apply same_header).
  pose proof (dc_headers _ _ _ _ (fo_disk _ _ _ _ Hok1) e He Hu) as Hw. rewrite Hse, <- Hh in Hw.
  change (numBytes (hdr f) = 0) in Hz.
  split.
  - destruct (file_Write_run be (g 2) s1 d bs p e f Contents ContentSize) as (x' & E & Hok2 & (Hp2 & Hh2 & _) & _); try done.
    { split; [done|]. by rewrite Hse. } { simpl seekPosition. lia. } { by repeat constructor. }
    assert (transferred (hdr f) ContentSize (seekPosition f) = 0) as Et by (unfold transferred; rewrite Hz; done).
    rewrite Et in *. mrun E.
    assert ((0 <? 10) = true) as -> by done.
    mrun (delete_OpenFile_run _ p _ Hp2). eexists. split; [reflexivity|]. split; [by apply assign_ok|]. split; [done|].
    rewrite Hse in Hh2. cbn [fs_disk set_objects set_disk] in Hh2 |- *. by rewrite <- Hh2.
  - destruct (file_Read_run s1 d bs p f ContentSize Hok1 Hp Hw) as (x' & f' & E & Hsx & Hok2); try done.
    mrun E. pose proof (content_length (fs_disk s1) (hdr f) (dc_disk _ _ _ _ (fo_disk _ _ _ _ Hok1)) Hw) as Hcl.
    rewrite Hz in Hcl. destruct (content (fs_disk s1) (hdr f)) as [|c l] eqn:Ec; [|unfold zlength in Hcl; simpl in Hcl; lia].
    assert (slice (seekPosition f) ContentSize ([] : list Z) = []) as -> by done. cbn [zlength orb].
    assert ((zlength ([] : list Z) <? 10) = true) as -> by done. cbn [orb].
    assert (objects (set_objects (<[p := Some f']> (objects s1)) (set_disk x' s1)) !! p = Some (Some f')) as Hp2.
    { simpl. apply list_lookup_insert_eq. by eapply lookup_lt_Some. }
    mrun (delete_OpenFile_run _ p _ Hp2). eexists. split; [reflexivity|]. by apply assign_ok.
Qed.

Lemma PerformanceTest_run (s : FileSystem X) d bs i j :
  fs_ok be s d bs -> (forall i, garbage_ok (g i)) ->
  dir_lookup d FileName = None -> ~ Forall (fun e => inUse e = true) (table d) -> 1 <= count_clear bs ->
  slot_free s i -> slot_free s j -> i <> j ->
  exists s' d' bs', PerformanceTest be g s = Ok ((UnableTransfer, UnableTransfer, true), s') /\
    fs_ok be s' d' bs' /\ dir_lookup d' FileName = None.
Proof.
  intros Hok Hg Hnone Hroom Hspace Hi Hj Hij.
  assert (file_name FileName) as Hfn by (split; by repeat constructor).
  assert (divRoundUp 0 SectorSize = 0) as D0 by done.
  destruct (Create_run be (g 0) FileName 0 s d bs Hok Hfn (Hg 0%nat) ltac:(done))
    as (b & x1 & d1 & bs1 & E1 & Hok1 & Hb & HQ).
  assert (b = true) as -> by (apply Hb; rewrite D0; split; [done|]; split; [done|lia]).
  destruct HQ as [(sec & Hclr & Hsize & Hlook) _ _ _]. set (s1 := set_disk x1 s) in *.
  assert (dir_lookup d1 FileName = Some sec) as Hl1 by (by rewrite Hlook, bool_decide_true).
  destruct (Open_empty_run 1 s1 d1 bs1 FileName sec Hok1 Hg Hl1 Hsize) as (p & s2 & E2 & Hok2 & Ho & Hs2 & (s3 & E3 & Hok3 & Hf3 & Hh3) & _).
  { exists i. exact Hi. }
  assert (FileWrite be g s = Ok (UnableTransfer, s3)) as EW.
  { unfold FileWrite. mrun E1. cbn [negb]. mrun E2.
    match type of E3 with ?m _ = _ => mrun (for_ret_first (fun _ => m) 0 chunks s2 UnableTransfer s3 chunks_pos E3) end. done. }
  destruct (opened_slots s1 s2 sec p i Ho) as (k & Hk); [apply Hok1|exact Hi|exists j; by split|].
  destruct (Open_empty_run 3 s3 d1 bs1 FileName sec Hok3 Hg Hl1) as (p' & s4 & E4 & Hok4 & _ & _ & _ & (s5 & E5 & Hok5)).
  { by rewrite Hh3. } { exists k. destruct Hk as [Hk1 Hk2]. split; [done|]. by rewrite Hf3. }
  assert (FileRead be g s3 = Ok (UnableTransfer, s5)) as ER.
  { unfold FileRead. mrun E4. match type of E5 with ?m _ = _ => mrun (for_ret_first (fun _ => m) 0 chunks s4 UnableTransfer s5 chunks_pos E5) end. done. }
  pose proof (FileSystem_Remove_run be (g 4) s5 d1 bs1 FileName Hok5 (Hg 4%nat)) as HR. rewrite Hl1 in HR.
  destruct HR as (x6 & d6 & bs6 & E6 & Hok6 & [Hl6 _ _]).
  exists (set_disk x6 s5), d6, bs6. split; [|split; [done|by rewrite Hl6, bool_decide_true]].
  unfold PerformanceTest. mrun EW. mrun ER. by mrun E6.
Qed.
End Performance.
