(* ===== verification/FileSysSpec.v ===== *)
(** * The file system: its properties

    The theorems about FileSys.v, on any implementation of [SectorDisk] and with
    any contents of uninitialised memory, with witnesses on the simulated disk. *)

From stdpp Require Import base tactics list numbers sets.
From S2P Require Import Prelude BitMap Lists Interrupt Machine Disk OpenFile Directory FileSys.

Local Open Scope Z_scope.

Section Properties.
Context (be : bool) {X : Type} `{HD : SectorDisk X}.

(** C37: formatting any disk succeeds and leaves a consistent file system that
    holds exactly the two empty files stdin and stdout; but Open fills slots 2
    and 3 as well as the slots 0 and 1 its results are stored in, so two objects
    are in the table twice and the destructor deletes them twice. *)
Theorem FileSystem_format_consistent (g g1 g2 g3 g4 : Garbage) (s : FileSystem X) :
  Forall garbage_ok [g; g1; g2; g3; g4] -> disk_ok (fs_disk s) ->
  exists s' d bs, FileSystem_new be true g g1 g2 g3 g4 s = Ok (tt, s') /\ fs_ok be s' d bs /\
    (forall nm, is_Some (dir_lookup d nm) <-> key_of nm = stdin \/ key_of nm = stdout) /\
    count_clear bs = NumSectors - 7 /\
    FileSystem_delete s' = Undef.
Proof.
  intros Hg Hx. apply Forall_cons in Hg as [G Hg]. apply Forall_cons in Hg as [G1 Hg]. apply Forall_cons in Hg as [G2 Hg].
  apply Forall_cons in Hg as [G3 Hg]. apply Forall_cons in Hg as [G4 _].
  destruct (new_format_run be g g1 g2 g3 g4 s G G1 G2 G3 G4 Hx) as (s' & d & bs & a & b & E & Hok & Ha & Hb & Hno & Hcnt & Hf).
  exists s', d, bs. split; [exact E|]. split; [exact Hok|]. split; [|split; [exact Hcnt|]].
  - clear - Hno Ha Hb. intros nm. assert (key_of stdin = stdin /\ key_of stdout = stdout) as [K1 K2] by done. split.
    + intros [sec Hs]. destruct (decide (key_of nm = key_of stdin)); [left; congruence|].
      destruct (decide (key_of nm = key_of stdout)); [right; congruence|]. by rewrite Hno in Hs.
    + assert (forall n1 n2, key_of n1 = key_of n2 -> dir_lookup d n1 = dir_lookup d n2) as Hext
        by (intros n1 n2 Hk; by apply dir_lookup_key).
      intros [Hk|Hk]; [rewrite (Hext nm stdin) by congruence|rewrite (Hext nm stdout) by congruence]; by eexists.
  - apply (delete_aliased s' (length (objects s) + 2)). rewrite Hf. by rewrite <- !Nat.add_succ_r.
Qed.

(** C38: the file system survives a restart: opening a consistent disk that holds
    stdin and stdout without formatting gives the same directory, free map and
    sectors. *)
Theorem FileSystem_reopen_persists (g g1 g2 g3 g4 : Garbage) (s : FileSystem X) (d : Directory) (bs : list bool) :
  Forall garbage_ok [g1; g2; g3; g4] -> disk_consistent be (fs_disk s) d bs ->
  is_Some (dir_lookup d stdin) -> is_Some (dir_lookup d stdout) ->
  exists s', FileSystem_new be false g g1 g2 g3 g4 s = Ok (tt, s') /\ fs_ok be s' d bs /\
    forall n, sector (fs_disk s') n = sector (fs_disk s) n.
Proof.
  intros Hg Hc [a Ha] [b Hb]. apply Forall_cons in Hg as [G1 Hg]. apply Forall_cons in Hg as [G2 Hg].
  apply Forall_cons in Hg as [G3 Hg]. apply Forall_cons in Hg as [G4 _].
  destruct (new_reopen_run be g g1 g2 g3 g4 s d bs a b G1 G2 G3 G4 Hc Ha Hb) as (s' & E & Hok & [_ Hs]).
  exists s'. split; [exact E|]. split; [exact Hok|exact Hs].
Qed.

(** C32: Create keeps the file system consistent: it succeeds exactly when the name
    is new, an entry of the directory is free and the disk has room for the
    header and the data; then the name maps to a header of the given size, and
    neither the other names nor the headers and contents of the other files
    change; when it fails no sector changes. *)
Theorem FileSystem_Create_correct (g : Garbage) (nm : list Z) (size : Z) (s : FileSystem X) (d : Directory) (bs : list bool) :
  fs_ok be s d bs -> file_name nm -> garbage_ok g -> 0 <= size <= MaxFileSize ->
  exists b s' d' bs', FileSystem_Create be g nm size s = Ok (b, s') /\ fs_ok be s' d' bs' /\
    objects s' = objects s /\ fs_file s' = fs_file s /\
    (b = true <-> dir_lookup d nm = None /\ ~ Forall (fun e => inUse e = true) (table d) /\
                 1 + divRoundUp size SectorSize <= count_clear bs) /\
    (if b then created be s s' d d' bs bs' nm size
     else d' = d /\ bs' = bs /\ forall n, sector (fs_disk s') n = sector (fs_disk s) n).
Proof.
  intros Hok Hnm Hg Hsz.
  destruct (Create_run be g nm size s d bs Hok Hnm Hg Hsz) as (b & x' & d' & bs' & E & Hok' & Hb & HQ).
  exists b, (set_disk x' s), d', bs'. split; [exact E|]. split; [done|]. split; [done|]. split; [done|]. split; [done|].
  destruct b; [done|]. by destruct HQ as (? & ? & [_ ?]).
Qed.

(** C33: Remove keeps the file system consistent: a name that is not there is
    refused; otherwise the name disappears and no other, exactly the sectors of
    its header and data become free, and the other files keep their headers and
    contents. *)
Theorem FileSystem_Remove_correct (g : Garbage) (nm : list Z) (s : FileSystem X) (d : Directory) (bs : list bool) :
  fs_ok be s d bs -> garbage_ok g ->
  match dir_lookup d nm with
  | None => exists s', FileSystem_Remove be g nm s = Ok (false, s') /\ fs_ok be s' d bs /\
      forall n, sector (fs_disk s') n = sector (fs_disk s) n
  | Some sec => exists s' d' bs', FileSystem_Remove be g nm s = Ok (true, s') /\
      fs_ok be s' d' bs' /\ removed_file be s s' d d' bs bs' nm sec
  end.
Proof.
  intros Hok Hg. pose proof (FileSystem_Remove_run be g s d bs nm Hok Hg) as HR.
  destruct (dir_lookup d nm) as [sec|].
  - destruct HR as (x' & d' & bs' & E & Hok' & Hr). by exists (set_disk x' s), d', bs'.
  - destruct HR as (x' & E & Hs). exists (set_disk x' s). split; [done|]. split; [by apply fs_ok_same|apply Hs].
Qed.

(** Open returns NULL when the name is unknown or when all the slots 2 to 9
    are taken; otherwise a new object at position 0 with the header of the file,
    stored in the first of these slots that is free; it changes no sector. *)
Theorem FileSystem_Open_correct (g : Garbage) (nm : list Z) (s : FileSystem X) (d : Directory) (bs : list bool) :
  fs_ok be s d bs -> garbage_ok g ->
  exists r s', FileSystem_Open be g nm s = Ok (r, s') /\ fs_ok be s' d bs /\
    (forall n, sector (fs_disk s') n = sector (fs_disk s) n) /\
    match r, dir_lookup d nm with
    | Some p, Some sec => opened be s s' sec p
    | Some _, None => False
    | None, Some _ => objects s' = objects s /\ fs_file s' = fs_file s /\
                      forall i, 2 <= i < 10 -> exists p, zlookup (fs_file s) i = Some (Some p)
    | None, None => objects s' = objects s /\ fs_file s' = fs_file s
    end.
Proof.
  intros Hok Hg. destruct (Open_run be g s d bs nm Hok Hg) as (r & s' & E & Hok' & [_ Hs] & HR).
  by exists r, s'.
Qed.

(** C36: copying a UNIX file into the file system stores its bytes: when the name
    is new and there is room and a free slot, Copy terminates, the file of that
    name then contains exactly the bytes of the UNIX file, the other files are
    unchanged and the file system is consistent; its slot is left pointing to
    the deleted object. *)
Theorem Copy_stores_file (g : nat -> Garbage) (s : FileSystem X) (d : Directory) (bs : list bool) (to data : list Z) :
  fs_ok be s d bs -> (forall i, garbage_ok (g i)) -> file_name to -> Forall is_char data -> zlength data <= MaxFileSize ->
  dir_lookup d to = None -> ~ Forall (fun e => inUse e = true) (table d) ->
  1 + divRoundUp (zlength data) SectorSize <= count_clear bs -> (exists i, slot_free s i) ->
  exists s' d' bs' sec, Copy be g (Some data) to s = Ok (Copied, s') /\ fs_ok be s' d' bs' /\
    (forall nm, dir_lookup d' nm = if bool_decide (key_of nm = key_of to) then Some sec else dir_lookup d nm) /\
    content (fs_disk s') (header_at be (fs_disk s') sec) = data /\
    files_kept be (fs_disk s) (fs_disk s') d (-1) /\
    exists i p, 2 <= i < 10 /\ zlookup (fs_file s') i = Some (Some p) /\ objects s' !! p = Some None.
Proof.
  intros Hok Hg Hto Hch Hmax Hnone Hroom Hspace Hslot.
  destruct (Copy_run be g s d bs to data Hok Hg Hto Hch Hmax Hnone Hroom Hspace Hslot)
    as (s' & d' & bs' & sec & p & i & E & Hok' & Hl & Hcon & Hkept & Hi & Hf & Hp).
  exists s', d', bs', sec. split_and!; try done. by exists i, p.
Qed.

(** The performance test cannot pass: it creates its file with size 0 and files
    do not grow, so on a consistent file system with room for the file both its
    first write and its first read fail, after which it removes the file. *)
Theorem PerformanceTest_fails (g : nat -> Garbage) (s : FileSystem X) (d : Directory) (bs : list bool) (i j : Z) :
  fs_ok be s d bs -> (forall i, garbage_ok (g i)) ->
  dir_lookup d FileName = None -> ~ Forall (fun e => inUse e = true) (table d) -> 1 <= count_clear bs ->
  slot_free s i -> slot_free s j -> i <> j ->
  exists s' d' bs', PerformanceTest be g s = Ok ((UnableTransfer, UnableTransfer, true), s') /\
    fs_ok be s' d' bs' /\ dir_lookup d' FileName = None.
Proof. exact (PerformanceTest_run be g s d bs i j). Qed.
End Properties.

(** ** Witnesses on the simulated disk *)

Definition example_garbage : Garbage :=
  mkGarbage (fun _ => empty_entry) (fun _ => 7) (fun _ => example_header) (fun _ _ => 3).

Lemma example_garbage_ok : garbage_ok example_garbage.
Proof.
  constructor; intros i; simpl.
  - constructor; try done; split; try done; by repeat constructor.
  - constructor; try done. by repeat constructor.
Qed.

Lemma all_garbage_ok n : Forall garbage_ok (replicate n example_garbage).
Proof. apply Forall_replicate, example_garbage_ok. Qed.

Definition start : FileSystem Disk := mkFileSystem fresh_disk [] 0 0 [].

(** A formatted disk: what the witnesses start from. *)
Definition booted (s : FileSystem Disk) (d : Directory) (bs : list bool) : Prop :=
  fs_ok (HD := synch_disk 0) true s d bs /\ count_clear bs = NumSectors - 7 /\
  is_Some (dir_lookup d stdin) /\ is_Some (dir_lookup d stdout) /\
  (forall nm, key_of nm <> key_of stdin -> key_of nm <> key_of stdout -> dir_lookup d nm = None) /\
  fs_file s = [Some 2%nat; Some 3%nat; Some 2%nat; Some 3%nat] ++ replicate 6 None.

Lemma booted_exists : exists s d bs, booted s d bs.
Proof.
  pose proof example_garbage_ok as Hg.
  destruct (new_format_run (HD := synch_disk 0) true _ _ _ _ _ start Hg Hg Hg Hg Hg fresh_disk_idle)
    as (s & d & bs & a & b & _ & Hok & Ha & Hb & Hno & Hcnt & Hf).
  exists s, d, bs. split; [done|]. split; [done|]. split; [by exists a|]. split; [by exists b|]. done.
Qed.

Lemma FileSystem_format_consistent_witness :
  exists s', FileSystem_new (HD := synch_disk 0) true true example_garbage example_garbage example_garbage example_garbage
      example_garbage start = Ok (tt, s') /\ FileSystem_delete s' = Undef.
Proof.
  destruct (FileSystem_format_consistent (HD := synch_disk 0) true example_garbage example_garbage example_garbage example_garbage
    example_garbage start (all_garbage_ok 5) fresh_disk_idle) as (s' & d & bs & E & _ & _ & _ & Hdel).
  exists s'. split; [exact E|exact Hdel].
Defined.

Lemma FileSystem_reopen_persists_witness :
  exists s d bs s', booted s d bs /\
    FileSystem_new (HD := synch_disk 0) true false example_garbage example_garbage example_garbage example_garbage
      example_garbage (mkFileSystem (fs_disk s) [] 0 0 []) = Ok (tt, s').
Proof.
  destruct booted_exists as (s & d & bs & Hb). pose proof Hb as (Hok & _ & Ha & Hc & _).
  destruct (FileSystem_reopen_persists (HD := synch_disk 0) true example_garbage example_garbage example_garbage example_garbage
    example_garbage (mkFileSystem (fs_disk s) [] 0 0 []) d bs (all_garbage_ok 4) (fo_disk _ _ _ _ Hok) Ha Hc) as (s' & E & _).
  exists s, d, bs, s'. split; [exact Hb|exact E].
Defined.

Lemma FileName_ok : file_name FileName.
Proof. split; by repeat constructor. Qed.

(** The names of the witnesses are new and there is room for them. *)
Lemma booted_room s d bs : booted s d bs ->
  dir_lookup d FileName = None /\ ~ Forall (fun e => inUse e = true) (table d) /\
  slot_free s 4 /\ slot_free s 5.
Proof.
  intros (Hok & _ & Ha & Hb & Hno & Hf). split; [|split; [|split; split; [done|by rewrite Hf|done|by rewrite Hf]]].
  - by apply Hno.
  - intros Hall.
    (* ten entries in use would have ten different keys *)
    pose proof (dc_names _ _ _ _ (fo_disk _ _ _ _ Hok)) as Hu. pose proof (dc_size _ _ _ _ (fo_disk _ _ _ _ Hok)) as Hsz.
    pose proof (dc_wf _ _ _ _ (fo_disk _ _ _ _ Hok)) as [_ Hlen _]. rewrite Hsz in Hlen.
    assert (forall i, 0 <= i < 3 -> exists e, zlookup (table d) i = Some e /\ inUse e = true /\
      (key_of (name e) = key_of stdin \/ key_of (name e) = key_of stdout)) as Hent.
    { intros i Hi. destruct (proj2 (zlookup_is_Some (table d) i)) as [e He]; [rewrite Hlen; unfold NumDirEntries; lia|].
      exists e. split; [done|]. pose proof He as [_ He']%zlookup_Some. pose proof (Forall_lookup_1 _ _ _ _ Hall He') as Hue.
      split; [done|]. destruct (decide (key_of (name e) = key_of stdin)); [by left|].
      destruct (decide (key_of (name e) = key_of stdout)); [by right|].
      pose proof (dir_lookup_known d (name e) i e Hu He (conj Hue eq_refl)) as Hl. by rewrite Hno in Hl. }
    destruct (Hent 0 ltac:(lia)) as (e0 & H0 & U0 & K0). destruct (Hent 1 ltac:(lia)) as (e1 & H1 & U1 & K1).
    destruct (Hent 2 ltac:(lia)) as (e2 & H2 & U2 & K2).
    assert (key_of (name e0) <> key_of (name e1)) by (intros K; by pose proof (Hu 0 1 e0 e1 H0 H1 U0 U1 K)).
    assert (key_of (name e0) <> key_of (name e2)) by (intros K; by pose proof (Hu 0 2 e0 e2 H0 H2 U0 U2 K)).
    assert (key_of (name e1) <> key_of (name e2)) by (intros K; by pose proof (Hu 1 2 e1 e2 H1 H2 U1 U2 K)).
    destruct K0, K1, K2; congruence.
Qed.

Lemma FileSystem_Create_correct_witness :
  exists s d bs s' d', booted s d bs /\
    FileSystem_Create (HD := synch_disk 0) true example_garbage FileName 300 s = Ok (true, s') /\
    is_Some (dir_lookup d' FileName).
Proof.
  destruct booted_exists as (s & d & bs & Hbt). pose proof Hbt as (Hok & Hcnt & _).
  destruct (booted_room s d bs Hbt) as (Hno & Hroom & _).
  destruct (FileSystem_Create_correct (HD := synch_disk 0) true example_garbage FileName 300 s d bs Hok FileName_ok
    example_garbage_ok) as (b & s' & d' & bs' & E & _ & _ & _ & Hb & HQ); [split; vm_compute; discriminate|].
  assert (b = true) as ->.
  { apply Hb. split; [exact Hno|]. split; [exact Hroom|]. rewrite Hcnt. vm_compute. discriminate. }
  destruct HQ as [(sec & _ & _ & Hl) _ _ _].
  exists s, d, bs, s', d'. split; [exact Hbt|]. split; [exact E|]. rewrite Hl, bool_decide_true by reflexivity. by exists sec.
Defined.

Lemma FileSystem_Remove_correct_witness :
  exists s d bs s', booted s d bs /\ FileSystem_Remove (HD := synch_disk 0) true example_garbage stdin s = Ok (true, s').
Proof.
  destruct booted_exists as (s & d & bs & Hbt). pose proof Hbt as (Hok & _ & [a Ha] & _).
  pose proof (FileSystem_Remove_correct (HD := synch_disk 0) true example_garbage stdin s d bs Hok example_garbage_ok) as HR.
  rewrite Ha in HR. destruct HR as (s' & d' & bs' & E & _). exists s, d, bs, s'. split; [exact Hbt|exact E].
Defined.

Lemma FileSystem_Open_correct_witness :
  exists s d bs s', booted s d bs /\ FileSystem_Open (HD := synch_disk 0) true example_garbage FileName s = Ok (None, s').
Proof.
  destruct booted_exists as (s & d & bs & Hbt). pose proof Hbt as (Hok & _).
  destruct (booted_room s d bs Hbt) as (Hno & _).
  destruct (FileSystem_Open_correct (HD := synch_disk 0) true example_garbage FileName s d bs Hok example_garbage_ok)
    as (r & s' & E & _ & _ & HR). rewrite Hno in HR. destruct r as [p|]; [destruct HR|].
  exists s, d, bs, s'. split; [exact Hbt|exact E].
Defined.

Lemma Copy_stores_file_witness :
  exists s d bs s', booted s d bs /\
    Copy (HD := synch_disk 0) true (fun _ => example_garbage) (Some Contents) FileName s = Ok (Copied, s').
Proof.
  destruct booted_exists as (s & d & bs & Hbt). pose proof Hbt as (Hok & Hcnt & _).
  destruct (booted_room s d bs Hbt) as (Hno & Hroom & Hslot & _).
  destruct (Copy_stores_file (HD := synch_disk 0) true (fun _ => example_garbage) s d bs FileName Contents Hok
    (fun _ => example_garbage_ok) FileName_ok) as (s' & d' & bs' & sec & E & _).
  - by repeat constructor.
  - vm_compute. discriminate.
  - exact Hno.
  - exact Hroom.
  - rewrite Hcnt. vm_compute. discriminate.
  - by exists 4.
  - exists s, d, bs, s'. split; [exact Hbt|exact E].
Defined.

Lemma PerformanceTest_fails_witness :
  exists s d bs s', booted s d bs /\ PerformanceTest (HD := synch_disk 0) true (fun _ => example_garbage) s
    = Ok ((UnableTransfer, UnableTransfer, true), s').
Proof.
  destruct booted_exists as (s & d & bs & Hbt). pose proof Hbt as (Hok & Hcnt & _).
  destruct (booted_room s d bs Hbt) as (Hno & Hroom & Hi & Hj).
  destruct (PerformanceTest_fails (HD := synch_disk 0) true (fun _ => example_garbage) s d bs 4 5 Hok
    (fun _ => example_garbage_ok) Hno Hroom) as (s' & d' & bs' & E & _); [|exact Hi|exact Hj|discriminate|].
  - rewrite Hcnt. vm_compute. discriminate.
  - exists s, d, bs, s'. split; [exact Hbt|exact E].
Defined.
