(* ===== verification/AddrSpace.v ===== *)
(** * userprog/addrspace.cc, bin/noff.h: address spaces of user programs

    The NOFF header of an executable, the allocation of physical page frames,
    the loading of the code and data segments page by page, and the registers
    a program starts with. The state is the machine, whose page tables are the
    blocks of [tables], together with the bit map of the page frames. An
    executable is read through an interface that the open files of the two file
    systems implement. The constructor waits for a semaphore between its parts,
    so it is composed from them in UserProg.v. *)

From stdpp Require Import base tactics list numbers gmap.
From S2P Require Import Prelude Lists Machine BitMap.

Local Open Scope Z_scope.

(** ** The object file format *)

Definition NOFFMAGIC : Z := 0xbadfad.

Record Segment := mkSegment {
  virtualAddr : Z;
  inFileAddr : Z;
  size : Z
}.

Record NoffHeader := mkNoff {
  noffMagic : Z;
  code : Segment;
  initData : Segment;
  uninitData : Segment
}.

(** The header as the words of the host's memory. *)
Definition header_size : Z := 40.
Definition header_word (be : bool) (bs : list Z) (i : Z) : Z :=
  i32 (host_load be (slice (4 * i) 4 bs)).
Definition header_segment (be : bool) (bs : list Z) (i : Z) : Segment :=
  mkSegment (header_word be bs i) (header_word be bs (i + 1)) (header_word be bs (i + 2)).
Definition header_of (be : bool) (bs : list Z) : NoffHeader :=
  mkNoff (header_word be bs 0) (header_segment be bs 1) (header_segment be bs 4)
    (header_segment be bs 7).

(** [x = WordToHost(x)] for an [int] [x]. *)
Definition swap_int (be : bool) (x : Z) : Z := i32 (WordToHost be (u32 x)).
Definition swap_segment (be : bool) (s : Segment) : Segment :=
  mkSegment (swap_int be (virtualAddr s)) (swap_int be (inFileAddr s)) (swap_int be (size s)).
Definition SwapHeader (be : bool) (h : NoffHeader) : NoffHeader :=
  mkNoff (swap_int be (noffMagic h)) (swap_segment be (code h))
    (swap_segment be (initData h)) (swap_segment be (uninitData h)).

(** ** The state and the files *)

Record UserMem := mkUser {
  machine : Machine;
  gPhysPageBitMap : BitMap
}.

#[export, refine] Instance lens_machine : Lens Machine UserMem :=
  {| lget := machine; lset m u := mkUser m (gPhysPageBitMap u) |}.
Proof. all: by repeat intros []. Defined.
#[export, refine] Instance lens_frames : Lens BitMap UserMem :=
  {| lget := gPhysPageBitMap; lset b u := mkUser (machine u) b |}.
Proof. all: by repeat intros []. Defined.

(** What an address space needs from the file system in use. *)
Class Files (F File : Type) := {
  file_open : list Z -> M F (option File);
  file_readAt : File -> Z -> Z -> M F (list Z);
  file_delete : File -> M F unit
}.

(** The contract of the interface: reading at a position returns the bytes that
    are there and leaves the contents of the file as they are. *)
Class FilesSpec {F File : Type} `{Files F File} (contents : F -> File -> option (list Z)) : Prop := {
  readAt_spec : forall x f c n pos,
    contents x f = Some c -> 0 <= n -> 0 <= pos -> pos + n < 2 ^ 31 ->
    exists x', file_readAt f n pos x = Ok (slice pos n c, x') /\ contents x' f = Some c;
  delete_spec : forall x f c, contents x f = Some c -> exists x', file_delete f x = Ok (tt, x')
}.

Definition UserStackSize : Z := 1024.

Record AddrSpace := mkSpace {
  space_pageTable : option loc;
  numPages : Z
}.

Definition on_machine {A} (m : M Machine A) : M UserMem A := zoom m.
Definition on_frames {A} (m : M BitMap A) : M UserMem A := zoom m.

(** [pageTable[i]] of an address space. *)
Definition table_entry (p : option loc) (i : Z) : M UserMem TranslationEntry :=
  u <- get ;;
  a <- must p ;; t <- must (tables (machine u) !! a) ;; must (zlookup t i).
Definition update_entry (p : option loc) (i : Z) (f : TranslationEntry -> TranslationEntry) :
    M UserMem unit :=
  u <- get ;;
  a <- must p ;; t <- must (tables (machine u) !! a) ;; e <- must (zlookup t i) ;;
  on_machine (modify (fun m => set_tables (<[a := zinsert i (f e) t]> (tables m)) m)).

(** [new TranslationEntry[n]] and [delete pageTable]; [garbage] is what an entry
    of the new array contains. *)
Definition new_table (garbage : TranslationEntry) (n : Z) : M UserMem (option loc) :=
  u <- get ;;
  let a := fresh (dom (tables (machine u))) in
  on_machine (modify (fun m => set_tables (<[a := replicate (Z.to_nat n) garbage]> (tables m)) m)) ;;;
  ret (Some a).
Definition delete_table (p : option loc) : M UserMem unit :=
  match p with
  | None => ret tt
  | Some a =>
      u <- get ;;
      _ <- must (tables (machine u) !! a) ;;
      on_machine (modify (fun m => set_tables (delete a (tables m)) m))
  end.

Definition set_virtualPage v (e : TranslationEntry) :=
  mkEntry v (physicalPage e) (valid e) (readOnly e) (use e) (dirty e).
Definition set_physicalPage v (e : TranslationEntry) :=
  mkEntry (virtualPage e) v (valid e) (readOnly e) (use e) (dirty e).
Definition set_flags (e : TranslationEntry) :=
  mkEntry (virtualPage e) (physicalPage e) true false false false.

(** One turn of the loop that fills the page table. *)
Definition map_page (p : option loc) (i : Z) : M UserMem unit :=
  update_entry p i (set_virtualPage i) ;;;
  frame <- on_frames BitMap_Find ;;
  update_entry p i (set_physicalPage frame) ;;;
  e <- table_entry p i ;;
  on_frames (BitMap_Mark (physicalPage e)) ;;;
  update_entry p i set_flags.

Definition bzero (addr n : Z) : M UserMem unit :=
  on_machine (store_bytes addr (replicate (Z.to_nat n) 0)).

(** ** Building an address space *)

(** The size of the address space and its number of pages, in [unsigned int]. *)
Definition space_size (h : NoffHeader) : Z :=
  u32 (i32 (size (code h) + size (initData h) + size (uninitData h) + UserStackSize)).
Definition space_pages (h : NoffHeader) : Z := divRoundUp (space_size h) PageSize.

(** The second constructor under addrLock: the frames and the page table, or
    [None] when there are not enough free frames. *)
Definition AddrSpace_allocate (garbage : TranslationEntry) (this : AddrSpace) (h : NoffHeader) :
    M UserMem (AddrSpace * bool) :=
  let pages := space_pages h in
  clear <- on_frames BitMap_NumClear ;;
  if pages >? u32 clear then ret (mkSpace (space_pageTable this) 0, false)
  else
    p <- new_table garbage pages ;;
    for_ 0 (Z.to_nat pages) (fun i =>
      map_page p i ;;;
      e <- table_entry p i ;;
      bzero (physicalPage e * PageSize) PageSize) ;;;
    ret (mkSpace p pages, true).

Section Files.
Context (be : bool) {F File : Type} `{HF : Files F File}.

Definition in_user {A} (m : M UserMem A) : M (UserMem * F) A := zoom m.
Definition in_files {A} (m : M F A) : M (UserMem * F) A := zoom m.

(** [executable->ReadAt(&machine->mainMemory[addr], n, position)] *)
Definition read_into (f : File) (addr n position : Z) : M (UserMem * F) unit :=
  bs <- in_files (file_readAt f n position) ;;
  in_user (on_machine (store_bytes addr bs)).

(** Reading the header; [garbage] is what the local variable contains before. *)
Definition read_header (garbage : list Z) (f : File) : M (UserMem * F) NoffHeader :=
  bs <- in_files (file_readAt f header_size 0) ;;
  let h := header_of be (splice 0 bs garbage) in
  let h := if negb (noffMagic h =? NOFFMAGIC) && (WordToHost be (u32 (noffMagic h)) =? NOFFMAGIC)
           then SwapHeader be h else h in
  ASSERT (noffMagic h =? NOFFMAGIC) ;;;
  ret h.

(** The second constructor after addrLock->V(): the segments, page by page.
    [garbage] is the variable lastDataPageSize while it is not assigned. *)
Definition AddrSpace_load (garbage : Z) (this : AddrSpace) (h : NoffHeader) (f : File) :
    M (UserMem * F) unit :=
  let p := space_pageTable this in
  let numCodePage := u32 (divRoundUp (size (code h)) PageSize) in
  let lastCodePageSize := i32 (size (code h) - u32 (numCodePage - 1) * PageSize) in
  let tempDataSize := i32 (size (initData h) - (PageSize - lastCodePageSize)) in
  let numDataPage := if tempDataSize <? 0 then 0 else u32 (divRoundUp tempDataSize PageSize) in
  let lastDataPageSize :=
    if tempDataSize <? 0 then garbage else i32 (tempDataSize - u32 (numDataPage - 1) * PageSize) in
  let firstDataPageSize :=
    if tempDataSize <? 0 then size (initData h) else PageSize - lastCodePageSize in
  for_ 0 (Z.to_nat numCodePage) (fun i =>
    e <- in_user (table_entry p i) ;;
    read_into f (virtualAddr (code h) + physicalPage e * PageSize)
      (if i <? u32 (numCodePage - 1) then PageSize else lastCodePageSize)
      (i32 (inFileAddr (code h) + i * PageSize))) ;;;
  (if lastCodePageSize <? PageSize then
     if firstDataPageSize >? 0 then
       e <- in_user (table_entry p (u32 (numCodePage - 1))) ;;
       read_into f (virtualAddr (code h) + (physicalPage e * PageSize + lastCodePageSize))
         firstDataPageSize (inFileAddr (initData h))
     else ret tt
   else ret tt) ;;;
  for_ 0 (Z.to_nat numDataPage) (fun j =>
    e <- in_user (table_entry p (u32 (numCodePage + j))) ;;
    read_into f (virtualAddr (code h) + physicalPage e * PageSize)
      (if j <? u32 (numDataPage - 1) then PageSize else lastDataPageSize)
      (i32 (inFileAddr (initData h) + j * PageSize + firstDataPageSize))).

(** The first constructor, AddrSpace(OpenFile* ). *)
Definition AddrSpace_new_file (header_garbage : list Z) (garbage : TranslationEntry) (f : File) :
    M (UserMem * F) AddrSpace :=
  h <- read_header header_garbage f ;;
  let pages := space_pages h in
  clear <- in_user (on_frames BitMap_NumClear) ;;
  ASSERT (pages <=? u32 clear) ;;;
  p <- in_user (new_table garbage pages) ;;
  for_ 0 (Z.to_nat pages) (fun i => in_user (map_page p i)) ;;;
  in_user (bzero 0 (u32 (pages * PageSize))) ;;;
  (if size (code h) >? 0 then
     read_into f (virtualAddr (code h)) (size (code h)) (inFileAddr (code h)) else ret tt) ;;;
  (if size (initData h) >? 0 then
     read_into f (virtualAddr (initData h)) (size (initData h)) (inFileAddr (initData h)) else ret tt) ;;;
  ret (mkSpace p pages).
End Files.

(** ** The other operations *)

Definition AddrSpace_delete (this : AddrSpace) : M UserMem unit :=
  for_ 0 (Z.to_nat (numPages this)) (fun i =>
    e <- table_entry (space_pageTable this) i ;;
    on_frames (BitMap_Clear (physicalPage e))) ;;;
  delete_table (space_pageTable this).

Definition AddrSpace_InitRegisters (this : AddrSpace) : M Machine unit :=
  for_ 0 (Z.to_nat NumTotalRegs) (fun i => Machine_WriteRegister i 0) ;;;
  Machine_WriteRegister PCReg 0 ;;;
  Machine_WriteRegister NextPCReg 4 ;;;
  Machine_WriteRegister StackReg (i32 (numPages this * PageSize - 16)).

(** It does not look at the object, which may be gone when the thread that is
    switched away from has exited. *)
Definition AddrSpace_SaveState : M Machine unit := ret tt.

Definition AddrSpace_RestoreState (this : AddrSpace) : M Machine unit :=
  modify (set_pageTable (space_pageTable this) (numPages this)).

(** * Correctness *)

(** ** The memory as a program sees it

    The bytes of a page frame, and the virtual memory that a sequence of frames
    makes up. *)

Definition page_bytes (mem : list Z) (f : Z) : list Z := slice (f * PageSize) PageSize mem.
Fixpoint image (fs : list Z) (mem : list Z) : list Z :=
  match fs with [] => [] | f :: fs' => page_bytes mem f ++ image fs' mem end.
Definition is_frame (f : Z) : Prop := 0 <= f < NumPhysPages.

Section Image.
Context (mem : list Z) (Hmem : zlength mem = MemorySize).
Implicit Types (fs : list Z) (f i o : Z).

Lemma frame_bound f : is_frame f -> 0 <= f * PageSize /\ f * PageSize + PageSize <= zlength mem.
Proof. rewrite Hmem. unfold is_frame, MemorySize, NumPhysPages, PageSize, SectorSize. lia. Qed.

Lemma page_length f : is_frame f -> zlength (page_bytes mem f) = PageSize.
Proof. intros Hf%frame_bound. apply zlength_slice; unfold PageSize, SectorSize in *; lia. Qed.

Lemma image_length fs : Forall is_frame fs -> zlength (image fs mem) = zlength fs * PageSize.
Proof.
  induction 1 as [|f fs Hf _ IH]; [done|]. cbn [image].
  rewrite zlength_app, page_length, IH by done. unfold zlength. simpl length. lia.
Qed.

Lemma image_lookup fs i f o :
  Forall is_frame fs -> zlookup fs i = Some f -> 0 <= o < PageSize ->
  zlookup (image fs mem) (i * PageSize + o) = zlookup mem (f * PageSize + o).
Proof.
  intros Hfs Hi Ho. revert i Hi. induction Hfs as [|g fs Hg Hfs IH]; intros i Hi.
  { apply zlookup_lt_Some in Hi as [H0 H1]. unfold zlength in H1. simpl in H1. lia. }
  cbn [image].
  pose proof (zlookup_lt_Some _ _ _ Hi) as [H0 _].
  destruct (decide (i = 0)) as [->|].
  - change (zlookup (g :: fs) 0 = Some f) in Hi. apply zlookup_Some in Hi as [_ [= ->]].
    rewrite zlookup_app_l by (rewrite page_length by done; lia).
    unfold page_bytes. rewrite Z.mul_0_l, Z.add_0_l. apply zlookup_slice; [|done].
    by apply frame_bound.
  - assert (zlookup fs (i - 1) = Some f) as Hi'.
    { apply zlookup_Some in Hi as [_ Hi]. apply zlookup_Some. split; [lia|].
      replace (Z.to_nat i) with (S (Z.to_nat (i - 1))) in Hi by lia. done. }
    rewrite zlookup_app_r by (rewrite page_length by done; unfold PageSize, SectorSize in *; lia).
    rewrite page_length by done. rewrite <- (IH _ Hi'). f_equal. lia.
Qed.

Lemma image_ext fs mem' :
  zlength mem' = MemorySize -> (forall f, f ∈ fs -> page_bytes mem' f = page_bytes mem f) ->
  image fs mem' = image fs mem.
Proof.
  intros Hl. induction fs as [|g fs IH]; intros Hf; [done|]. cbn [image].
  rewrite (Hf g), IH; [done| |by left]. intros f ?. apply Hf. by right.
Qed.
End Image.

Section Write.
Context (mem : list Z) (Hmem : zlength mem = MemorySize).
Context (f o : Z) (bs : list Z) (Hf : is_frame f) (Ho : 0 <= o) (Hbs : o + zlength bs <= PageSize).

Lemma write_bound : 0 <= f * PageSize + o /\ f * PageSize + o + zlength bs <= zlength mem.
Proof. pose proof (frame_bound mem Hmem f Hf). lia. Qed.

Lemma write_length : zlength (splice (f * PageSize + o) bs mem) = MemorySize.
Proof. pose proof write_bound. by rewrite zlength_splice by lia. Qed.

(** Writing into a frame changes no other frame. *)
Lemma page_write_other g :
  is_frame g -> g <> f -> page_bytes (splice (f * PageSize + o) bs mem) g = page_bytes mem g.
Proof.
  intros Hg Hne. pose proof write_bound as [H1 H2]. pose proof (frame_bound mem Hmem g Hg).
  apply slice_splice_disjoint; try lia; unfold PageSize, SectorSize in *; lia.
Qed.

(** In the memory made up of frames, one of which is [f], it is a write at the
    place [f] has there. *)
Lemma image_write fs i :
  Forall is_frame fs -> NoDup fs -> zlookup fs i = Some f ->
  image fs (splice (f * PageSize + o) bs mem) = splice (i * PageSize + o) bs (image fs mem).
Proof.
  intros Hfs Hnd Hi. pose proof write_bound as [H1 H2]. pose proof write_length as Hl.
  pose proof (zlookup_lt_Some _ _ _ Hi) as [Hi0 Hi1].
  assert (zlength (image fs mem) = zlength fs * PageSize) as Hil by (by apply image_length).
  apply zlookup_ext. intros k Hk. rewrite zlookup_splice by (unfold PageSize, SectorSize in *; nia).
  destruct (decide (k < zlength fs * PageSize)) as [Hlt|].
  2: { rewrite decide_False by (unfold PageSize, SectorSize in *; nia).
       transitivity (@None Z); [|symmetry]; apply zlookup_None; right; [|lia].
       rewrite image_length by done. lia. }
  assert (0 <= k / PageSize < zlength fs /\ 0 <= k mod PageSize < PageSize /\
          k = k / PageSize * PageSize + k mod PageSize) as (Hq & Hr & Hk')
    by (unfold PageSize, SectorSize in *; dlia).
  set (q := k / PageSize) in *. set (r := k mod PageSize) in *.
  destruct (proj2 (zlookup_is_Some fs q) Hq) as [g Hg].
  rewrite Hk'. rewrite (image_lookup _ Hl fs q g r Hfs Hg Hr), (image_lookup _ Hmem fs q g r Hfs Hg Hr).
  rewrite zlookup_splice by lia.
  destruct (decide (q = i)) as [->|Hne].
  - rewrite Hg in Hi. simplify_eq. case_decide; case_decide; try lia; [f_equal; lia|done].
  - assert (g <> f) as Hgf.
    { intros ->. apply Hne. apply zlookup_Some in Hg as [? Hg], Hi as [? Hi].
      pose proof (NoDup_lookup _ _ _ _ Hnd Hg Hi). lia. }
    rewrite decide_False by (unfold PageSize, SectorSize in *; nia).
    rewrite decide_False by (unfold PageSize, SectorSize in *; nia). done.
Qed.
End Write.

(** ** Page tables *)

(** The machine with the page table at [a] and the memory replaced. *)
Definition with_space (u : UserMem) (mem : list Z) (a : loc) (t : list TranslationEntry)
    (bm : BitMap) : UserMem :=
  mkUser (set_tables (<[a := t]> (tables (machine u))) (set_mainMemory mem (machine u))) bm.

Lemma with_space_twice u mem a t bm mem' t' bm' :
  with_space (with_space u mem a t bm) mem' a t' bm' = with_space u mem' a t' bm'.
Proof.
  unfold with_space, set_tables, set_mainMemory. simpl. by rewrite insert_insert_eq.
Qed.

Lemma with_space_id u a t :
  tables (machine u) !! a = Some t ->
  with_space u (mainMemory (machine u)) a t (gPhysPageBitMap u) = u.
Proof.
  intros Ht. unfold with_space. destruct u as [[] bm]. unfold set_tables, set_mainMemory in *.
  simpl in *. by rewrite insert_id.
Qed.

(** The entry of a mapped page and the page table of a sequence of frames. *)
Definition page_entry (i f : Z) : TranslationEntry := mkEntry i f true false false false.
Fixpoint page_table (i : Z) (fs : list Z) : list TranslationEntry :=
  match fs with [] => [] | f :: fs' => page_entry i f :: page_table (i + 1) fs' end.

Lemma page_table_app i fs gs :
  page_table i (fs ++ gs) = page_table i fs ++ page_table (i + zlength fs) gs.
Proof.
  revert i. induction fs as [|f fs IH]; intros i; simpl.
  - f_equal. unfold zlength. simpl. lia.
  - rewrite IH. do 3 f_equal. unfold zlength. simpl length. lia.
Qed.

Lemma page_table_length i fs : zlength (page_table i fs) = zlength fs.
Proof.
  unfold zlength. f_equal. revert i. induction fs as [|f fs IH]; intros i; simpl; [done|].
  by rewrite IH.
Qed.

Lemma page_table_lookup fs i f :
  zlookup fs i = Some f -> zlookup (page_table 0 fs) i = Some (page_entry i f).
Proof.
  intros Hi. apply zlookup_Some in Hi as [H0 Hi]. pose proof (take_drop_middle _ _ _ Hi) as E.
  pose proof (lookup_lt_Some _ _ _ Hi) as Hlt.
  assert (zlength (take (Z.to_nat i) fs) = i) as Hl by (unfold zlength; rewrite length_take; lia).
  rewrite <- E, page_table_app, zlookup_app_r by (rewrite page_table_length; lia).
  rewrite page_table_length, Hl, Z.sub_diag, Z.add_0_l. done.
Qed.

Lemma table_entry_run u a t i e :
  tables (machine u) !! a = Some t -> zlookup t i = Some e ->
  table_entry (Some a) i u = Ok (e, u).
Proof. intros Ht Hi. unfold table_entry. munfold. by rewrite Ht, Hi. Qed.

Lemma update_entry_run u a t i e f :
  tables (machine u) !! a = Some t -> zlookup t i = Some e ->
  update_entry (Some a) i f u =
  Ok (tt, with_space u (mainMemory (machine u)) a (zinsert i (f e) t) (gPhysPageBitMap u)).
Proof.
  intros Ht Hi. unfold update_entry, on_machine, zoom. munfold. rewrite Ht, Hi.
  unfold with_space. by destruct u as [[] bm].
Qed.

Lemma frames_run {A} u (m : M BitMap A) a bm' :
  m (gPhysPageBitMap u) = Ok (a, bm') -> on_frames m u = Ok (a, mkUser (machine u) bm').
Proof. intros E. exact (zoom_Ok m u a bm' E). Qed.

Lemma zinsert_zinsert {A} i (x y : A) l : zinsert i x (zinsert i y l) = zinsert i x l.
Proof. unfold zinsert. case_match; [done|]. apply list_insert_insert_eq. Qed.

(** A turn of the loop takes the first free frame. *)
Lemma map_page_run u a t i e bs :
  tables (machine u) !! a = Some t -> zlookup t i = Some e ->
  rep (gPhysPageBitMap u) bs -> 0 < count_clear bs ->
  exists f bm', map_page (Some a) i u =
      Ok (tt, with_space u (mainMemory (machine u)) a (zinsert i (page_entry i f) t) bm') /\
    is_first_clear bs f /\ rep bm' (zinsert f true bs).
Proof.
  intros Ht Hi Hr Hc. pose proof (zlookup_lt_Some _ _ _ Hi) as Hlt.
  destruct (BitMap_Find_run _ _ Hr) as (f & bm1 & E & [(_ & _ & ?)|[Hf Hr1]]); [lia|].
  pose proof (zlookup_lt_Some _ _ _ (proj1 Hf)) as Hflt.
  destruct (BitMap_Mark_run _ _ Hr1 f) as (bm2 & E2 & Hr2); [by rewrite zlength_zinsert|].
  rewrite zinsert_zinsert in Hr2. exists f, bm2. split; [|done].
  unfold map_page. mrun (update_entry_run u a t i e (set_virtualPage i) Ht Hi).
  set (u1 := with_space _ _ _ _ _). mrun (frames_run u1 _ _ _ E).
  set (u2 := mkUser (machine u1) bm1).
  assert (tables (machine u2) !! a = Some (zinsert i (set_virtualPage i e) t)) as Ht2
    by apply lookup_insert_eq.
  mrun (update_entry_run u2 a _ i _ (set_physicalPage f) Ht2 (zlookup_zinsert_eq _ _ _ Hlt)).
  rewrite zinsert_zinsert. set (u3 := with_space _ _ _ _ _).
  assert (tables (machine u3) !! a = Some (zinsert i (set_physicalPage f (set_virtualPage i e)) t)) as Ht3
    by apply lookup_insert_eq.
  mrun (table_entry_run u3 a _ i _ Ht3 (zlookup_zinsert_eq _ _ _ Hlt)).
  mrun (frames_run u3 _ _ _ E2).
  set (u4 := mkUser (machine u3) bm2).
  rewrite (update_entry_run u4 a _ i _ set_flags Ht3 (zlookup_zinsert_eq _ _ _ Hlt)).
  rewrite zinsert_zinsert. do 2 f_equal. unfold u4, u3, u2, u1, with_space.
  cbn [machine gPhysPageBitMap set_tables set_mainMemory mainMemory registers tlb pageTable
       pageTableSize tables singleStep runUntilTime].
  by rewrite !insert_insert_eq.
Qed.

(** ** Allocation *)

(** [bs'] is [bs] with the frames [fs] taken. *)
Definition taken (bs : list bool) (fs : list Z) (bs' : list bool) : Prop :=
  forall j, zlookup bs' j = if decide (j ∈ fs) then Some true else zlookup bs j.

(** The first [zlength fs] pages of a table of [n] are mapped to the frames
    [fs], which were free. *)
Record mapped (u0 : UserMem) (bs : list bool) (a : loc) (garbage : TranslationEntry) (n : Z)
    (fs : list Z) (u : UserMem) : Prop := {
  mapped_nodup : NoDup fs;
  mapped_free : Forall (fun f => zlookup bs f = Some false) fs;
  mapped_bits : exists bs', rep (gPhysPageBitMap u) bs' /\ taken bs fs bs' /\
                  count_clear bs' = count_clear bs - zlength fs;
  mapped_mem : memory_wf (machine u);
  mapped_state : u = with_space u0 (mainMemory (machine u)) a
    (page_table 0 fs ++ replicate (Z.to_nat (n - zlength fs)) garbage) (gPhysPageBitMap u)
}.

Lemma zinsert_middle {A} (l1 l2 : list A) x y i :
  zlength l1 = i -> zinsert i y (l1 ++ x :: l2) = l1 ++ y :: l2.
Proof.
  intros Hl. pose proof (zlength_nonneg l1). unfold zinsert, zlength in *.
  destruct (Z.ltb_spec i 0); [lia|]. rewrite insert_app_r_alt by lia.
  by replace (Z.to_nat i - length l1)%nat with O by lia.
Qed.

Section Mapping.
Context (u0 : UserMem) (bs : list bool) (a : loc) (garbage : TranslationEntry) (n : Z).
Context (Hbs : zlength bs = NumPhysPages).
Abbreviation mapped := (mapped u0 bs a garbage n).

Lemma mapped_is_frame fs u : mapped fs u -> Forall is_frame fs.
Proof.
  intros [_ Hf _ _ _]. apply Forall_lookup. intros i f Hi.
  pose proof (Forall_lookup_1 _ _ _ _ Hf Hi) as Hb. simpl in Hb.
  apply zlookup_lt_Some in Hb. unfold is_frame. by rewrite <- Hbs.
Qed.

Lemma mapped_table fs u :
  mapped fs u -> tables (machine u) !! a =
    Some (page_table 0 fs ++ replicate (Z.to_nat (n - zlength fs)) garbage).
Proof. intros [_ _ _ _ ->]. apply lookup_insert_eq. Qed.

Lemma mapped_step fs u :
  mapped fs u -> zlength fs < n -> n <= count_clear bs ->
  exists f u', map_page (Some a) (zlength fs) u = Ok (tt, u') /\ mapped (fs ++ [f]) u' /\
    is_frame f /\ (f ∉ fs) /\ mainMemory (machine u') = mainMemory (machine u).
Proof.
  intros Hm Hlt Hn. pose proof (mapped_table _ _ Hm) as Ht.
  destruct Hm as [Hnd Hfree (bs1 & Hr & Htk & Hc) Hmem Hu].
  replace (Z.to_nat (n - zlength fs)) with (S (Z.to_nat (n - (zlength fs + 1)))) in Ht by lia.
  cbn [replicate] in Ht.
  assert (zlookup (page_table 0 fs ++ garbage :: replicate (Z.to_nat (n - (zlength fs + 1))) garbage)
            (zlength fs) = Some garbage) as Hg.
  { rewrite zlookup_app_r by (rewrite page_table_length; lia).
    by rewrite page_table_length, Z.sub_diag. }
  destruct (map_page_run u a _ _ _ bs1 Ht Hg Hr ltac:(lia)) as (f & bm' & E & [Hf _] & Hr').
  rewrite zinsert_middle in E by apply page_table_length.
  pose proof (Htk f) as Hff. rewrite Hf in Hff. case_decide as Hin; [done|].
  pose proof (zlookup_lt_Some _ _ _ (eq_sym Hff)) as Hfb.
  eexists f, _. split; [exact E|]. split.
  2: { split; [unfold is_frame; by rewrite <- Hbs|]. split; [done|]. by destruct u as [[] ?]. }
  constructor.
  - apply NoDup_app. split_and!; [done| |apply NoDup_singleton].
    intros x Hx ->%list_elem_of_singleton. done.
  - apply Forall_app. split; [done|]. by constructor.
  - exists (zinsert f true bs1). split; [done|]. split.
    + intros j. rewrite zlookup_zinsert, Htk. pose proof (zlookup_lt_Some _ _ _ Hf).
      destruct (decide (f = j)) as [<-|Hne].
      * rewrite decide_True by done. rewrite decide_True; [done|]. apply elem_of_app. right. by left.
      * rewrite decide_False by tauto.
        rewrite (decide_ext (j ∈ fs ++ [f]) (j ∈ fs)); [done|].
        rewrite elem_of_app, list_elem_of_singleton. intuition congruence.
    + rewrite (count_clear_update _ _ _ _ Hf), zlength_app, Hc. change (zlength [f]) with 1. lia.
  - destruct Hmem. by constructor.
  - rewrite zlength_app, page_table_app, <- app_assoc. change (zlength [f]) with 1.
    rewrite Hu at 1. rewrite with_space_twice. rewrite Z.add_0_l. cbn [page_table app].
    by destruct u as [[] ?].
Qed.
End Mapping.

Lemma store_bytes_run m addr bs :
  0 <= addr -> addr + zlength bs <= zlength (mainMemory m) ->
  store_bytes addr bs m = Ok (tt, set_mainMemory (splice addr bs (mainMemory m)) m).
Proof.
  intros H0 H1. unfold store_bytes. munfold.
  by rewrite (proj2 (Z.leb_le 0 addr)), (proj2 (Z.leb_le _ _)) by lia.
Qed.

(** Storing bytes in the memory of [u]. *)
Definition poke (addr : Z) (bs : list Z) (u : UserMem) : UserMem :=
  mkUser (set_mainMemory (splice addr bs (mainMemory (machine u))) (machine u)) (gPhysPageBitMap u).

Lemma on_machine_store u addr bs :
  0 <= addr -> addr + zlength bs <= zlength (mainMemory (machine u)) ->
  on_machine (store_bytes addr bs) u = Ok (tt, poke addr bs u).
Proof.
  intros H0 H1.
  exact (zoom_Ok (S := Machine) (store_bytes addr bs) u tt _ (store_bytes_run _ _ _ H0 H1)).
Qed.

Lemma poke_wf addr bs u :
  memory_wf (machine u) -> Forall is_char bs -> 0 <= addr ->
  addr + zlength bs <= zlength (mainMemory (machine u)) -> memory_wf (machine (poke addr bs u)).
Proof.
  intros [Hl Hc] Hb H0 H1. constructor; simpl.
  - by rewrite zlength_splice.
  - by apply splice_chars.
Qed.

Lemma poke_mapped u0 bs a garbage n fs u addr l :
  mapped u0 bs a garbage n fs u -> Forall is_char l -> 0 <= addr ->
  addr + zlength l <= zlength (mainMemory (machine u)) ->
  mapped u0 bs a garbage n fs (poke addr l u).
Proof.
  intros [H1 H2 H3 H4 H5] Hc H0 Hl. constructor; try done.
  - by apply poke_wf.
  - unfold poke. rewrite H5 at 1 2 3. unfold with_space, set_tables, set_mainMemory. done.
Qed.

Lemma zeros_char n : Forall is_char (replicate n 0).
Proof. apply Forall_replicate. unfold is_char. lia. Qed.

Lemma zlength_replicate {A} n (x : A) : 0 <= n -> zlength (replicate (Z.to_nat n) x) = n.
Proof. intros. unfold zlength. rewrite length_replicate. lia. Qed.

Lemma space_pages_nonneg h : 0 <= space_pages h.
Proof.
  apply divRoundUp_nonneg; [|done]. unfold space_size.
  match goal with |- 0 <= u32 ?z => pose proof (u32_range z) as [? _] end. done.
Qed.

Lemma image_app fs gs mem : image (fs ++ gs) mem = image fs mem ++ image gs mem.
Proof. induction fs as [|f fs IH]; simpl; [done|]. by rewrite IH, app_assoc. Qed.

Lemma slice_all {A} (l : list A) n : zlength l = n -> slice 0 n l = l.
Proof. intros <-. unfold slice, zlength. rewrite drop_0, Nat2Z.id. by apply take_ge. Qed.

Lemma splice_whole {A} (l src : list A) : zlength src = zlength l -> splice 0 src l = src.
Proof.
  intros Hl. unfold splice, zlength in *. rewrite take_0, drop_ge by lia. apply app_nil_r.
Qed.

Section Allocate.
Context (u : UserMem) (bs : list bool) (garbage : TranslationEntry).
Context (Hr : rep (gPhysPageBitMap u) bs) (Hbs : zlength bs = NumPhysPages).
Context (Hwf : memory_wf (machine u)).

Lemma new_table_run n :
  0 <= n -> exists a, tables (machine u) !! a = None /\
  exists u', new_table garbage n u = Ok (Some a, u') /\ mapped u bs a garbage n [] u' /\
    mainMemory (machine u') = mainMemory (machine u).
Proof.
  intros Hn.
  assert (new_table garbage n u = Ok (Some (fresh (dom (tables (machine u)))),
    with_space u (mainMemory (machine u)) (fresh (dom (tables (machine u))))
      (replicate (Z.to_nat n) garbage) (gPhysPageBitMap u))) as -> by (by destruct u as [[] ?]).
  assert (fresh (dom (tables (machine u))) ∉ dom (tables (machine u))) as Ha by apply is_fresh.
  revert Ha. generalize (fresh (dom (tables (machine u)))) as a. intros a Ha%not_elem_of_dom.
  exists a. split; [exact Ha|].
  eexists. split; [reflexivity|]. split; [|done].
  constructor; try done.
  - constructor.
  - exists bs. split; [done|]. split; [intros j; by rewrite decide_False by set_solver|].
    unfold zlength. simpl. lia.
  - destruct Hwf. by constructor.
  - change (zlength (@nil Z)) with 0. rewrite Z.sub_0_r. by destruct u as [[] ?].
Qed.

Lemma count_bound : u32 (count_clear bs) = count_clear bs.
Proof.
  pose proof (count_clear_bounds bs). apply u32_id. rewrite Hbs in *. unfold is_u32, NumPhysPages in *. lia.
Qed.

(** What the second constructor has done before it reads the segments. *)
Record allocated_space (a : loc) (n : Z) (fs : list Z) (u' : UserMem) : Prop := {
  as_fresh : tables (machine u) !! a = None;
  as_mapped : mapped u bs a garbage n fs u';
  as_pages : zlength fs = n;
  as_zero : image fs (mainMemory (machine u')) = replicate (Z.to_nat (n * PageSize)) 0;
  as_frame : forall g, is_frame g -> g ∉ fs ->
    page_bytes (mainMemory (machine u')) g = page_bytes (mainMemory (machine u)) g
}.

(** One turn of the loop of the second constructor. *)
Lemma page_turn_run a n fs u1 :
  mapped u bs a garbage n fs u1 -> zlength fs < n -> n <= count_clear bs ->
  image fs (mainMemory (machine u1)) = replicate (Z.to_nat (zlength fs * PageSize)) 0 ->
  exists f u2, (map_page (Some a) (zlength fs) ;;;
      e <- table_entry (Some a) (zlength fs) ;;
      bzero (physicalPage e * PageSize) PageSize) u1 = Ok (tt, u2) /\
    mapped u bs a garbage n (fs ++ [f]) u2 /\
    image (fs ++ [f]) (mainMemory (machine u2)) =
      replicate (Z.to_nat (zlength (fs ++ [f]) * PageSize)) 0 /\
    forall g, is_frame g -> g <> f ->
      page_bytes (mainMemory (machine u2)) g = page_bytes (mainMemory (machine u1)) g.
Proof.
  intros Hm Hlt Hn Hz.
  destruct (mapped_step u bs a garbage n Hbs fs u1 Hm Hlt Hn) as (f & u2 & E & Hm2 & Hf & Hin & Emem).
  exists f. rewrite bind_assoc. rewrite <- bind_assoc. mrun E.
  assert (table_entry (Some a) (zlength fs) u2 = Ok (page_entry (zlength fs) f, u2)) as Et.
  { eapply table_entry_run; [by apply mapped_table with (1 := Hm2)|].
    rewrite page_table_app, <- app_assoc, zlookup_app_r by (rewrite page_table_length; lia).
    by rewrite page_table_length, Z.sub_diag. }
  mrun Et. cbn [physicalPage page_entry].
  pose proof (mapped_is_frame u bs a garbage n Hbs _ _ Hm) as Hfs.
  pose proof (mapped_mem _ _ _ _ _ _ _ Hm) as [Hl _].
  pose proof (frame_bound _ Hl f Hf) as [Hb1 Hb2]. rewrite <- Emem in Hl, Hb2.
  assert (zlength (replicate (Z.to_nat PageSize) 0) = PageSize) as Hzl by done.
  exists (poke (f * PageSize) (replicate (Z.to_nat PageSize) 0) u2).
  split; [apply on_machine_store; [done|by rewrite Hzl]|].
  split; [apply poke_mapped; [done|apply zeros_char|done|by rewrite Hzl]|].
  cbn [poke machine mainMemory set_mainMemory].
  assert (forall g, is_frame g -> g <> f -> page_bytes (splice (f * PageSize)
    (replicate (Z.to_nat PageSize) 0) (mainMemory (machine u2))) g = page_bytes (mainMemory (machine u1)) g) as Hother.
  { intros g Hg Hne. rewrite <- (Z.add_0_r (f * PageSize)), <- Emem.
    by apply page_write_other. }
  split; [|done]. rewrite image_app. cbn [image]. rewrite app_nil_r.
  rewrite (image_ext (mainMemory (machine u1))).
  - pose proof (slice_splice_same (f * PageSize) (replicate (Z.to_nat PageSize) 0)
      (mainMemory (machine u2))) as Es.
    rewrite Hzl in Es. unfold page_bytes. rewrite Hz, Es by done.
    rewrite <- replicate_add. f_equal. rewrite zlength_app. change (zlength [f]) with 1.
    pose proof (zlength_nonneg fs). unfold PageSize, SectorSize. lia.
  - rewrite zlength_splice; [done|done|by rewrite Hzl].
  - intros g Hg. apply Hother; [|by intros ->].
    apply list_elem_of_lookup in Hg as [i Hi]. by apply (Forall_lookup_1 _ _ _ _ Hfs Hi).
Qed.

Lemma AddrSpace_allocate_run this h :
  let n := space_pages h in
  if decide (n <= count_clear bs) then
    exists a fs u', AddrSpace_allocate garbage this h u = Ok ((mkSpace (Some a) n, true), u') /\
      allocated_space a n fs u'
  else AddrSpace_allocate garbage this h u = Ok ((mkSpace (space_pageTable this) 0, false), u).
Proof.
  intros n. pose proof (space_pages_nonneg h) as Hn0. fold n in Hn0.
  assert (on_frames BitMap_NumClear u = Ok (count_clear bs, u)) as Ec.
  { rewrite (frames_run u _ _ _ (BitMap_NumClear_run _ _ Hr)). by destruct u. }
  unfold AddrSpace_allocate. fold n. mrun Ec. rewrite count_bound, Z.gtb_ltb.
  case_decide as Hle; [rewrite (proj2 (Z.ltb_ge _ _)) by lia|by rewrite (proj2 (Z.ltb_lt _ _)) by lia].
  destruct (new_table_run n Hn0) as (a & Hfresh & u1 & E1 & Hm1 & Emem). mrun E1. exists a.
  loop_for (fun i s => exists fs, zlength fs = i /\ mapped u bs a garbage n fs s /\
      image fs (mainMemory (machine s)) = replicate (Z.to_nat (zlength fs * PageSize)) 0 /\
      forall g, is_frame g -> g ∉ fs ->
        page_bytes (mainMemory (machine s)) g = page_bytes (mainMemory (machine u)) g)
    as (u2 & E2 & fs & Hl & Hm & Hz & Ho).
  2: { exists []. split; [done|]. split; [exact Hm1|]. split; [done|]. by rewrite Emem. }
  - intros i s Hi (fs & <- & Hm & Hz & Ho).
    destruct (page_turn_run a n fs s Hm ltac:(lia) Hle Hz) as (f & s' & E & Hm' & Hz' & Ho').
    exists s'. split; [exact E|]. exists (fs ++ [f]). split; [by rewrite zlength_app|].
    split_and!; try done. intros g Hg Hni. rewrite Ho', Ho; try done; set_solver.
  - exists fs, u2. rewrite Z2Nat.id in Hl by done. simpl in Hl. mrun E2. split; [done|].
    constructor; try done. by rewrite Hz, Hl.
Qed.
End Allocate.

(** ** Loading *)

(** An executable the loader handles: the code starts at virtual address 0 and
    the segments lie inside the file. *)
Record exec_ok (h : NoffHeader) (c : list Z) : Prop := {
  ex_start : virtualAddr (code h) = 0;
  ex_sizes : 0 <= size (code h) /\ 0 <= size (initData h) /\ 0 <= size (uninitData h);
  ex_total : size (code h) + size (initData h) + size (uninitData h) + UserStackSize < 2 ^ 31;
  ex_code : 0 <= inFileAddr (code h) /\ inFileAddr (code h) + size (code h) <= zlength c;
  ex_data : 0 <= inFileAddr (initData h) /\ inFileAddr (initData h) + size (initData h) <= zlength c;
  ex_file : zlength c < 2 ^ 31 /\ Forall is_char c
}.

Definition segment_bytes (c : list Z) (s : Segment) : list Z := slice (inFileAddr s) (size s) c.

(** The virtual memory the program starts with: the code, the initialised data
    right after it, and zeroes. *)
Definition loaded_image (h : NoffHeader) (c : list Z) : list Z :=
  segment_bytes c (code h) ++ segment_bytes c (initData h) ++
  replicate (Z.to_nat (space_pages h * PageSize - size (code h) - size (initData h))) 0.

(** Two consecutive pieces of a file written one after the other. *)
Lemma splice_extend (c img : list Z) d p m k :
  0 <= d -> 0 <= p -> 0 <= m -> 0 <= k -> p + m + k <= zlength c -> d + m + k <= zlength img ->
  splice (d + m) (slice (p + m) k c) (splice d (slice p m c) img) = splice d (slice p (m + k) c) img.
Proof.
  intros. assert (zlength (slice p m c) = m) as L1 by (apply zlength_slice; lia).
  assert (zlength (slice (p + m) k c) = k) as L2 by (apply zlength_slice; lia).
  assert (zlength (slice p (m + k) c) = m + k) as L3 by (apply zlength_slice; lia).
  apply zlookup_ext. intros j Hj. rewrite zlookup_splice by (rewrite ?zlength_splice; lia).
  rewrite !zlookup_splice by lia. rewrite L1, L2, L3.
  repeat case_decide; try lia; try done; rewrite !zlookup_slice by lia; f_equal; lia.
Qed.

Lemma splice_empty (img : list Z) d : splice d [] img = img.
Proof.
  unfold splice. simpl. by rewrite Nat.add_0_r, take_drop.
Qed.

Lemma slice_none {A} (l : list A) p : slice p 0 l = [].
Proof. done. Qed.

Section Loading.
Context {F File : Type} `{HF : Files F File} (contents : F -> File -> option (list Z)).
Context `{!FilesSpec contents}.
Context (u0 : UserMem) (bs : list bool) (a : loc) (garbage : TranslationEntry) (fs : list Z).
Context (Hbs : zlength bs = NumPhysPages).
Context (f : File) (c : list Z).
Abbreviation mapped := (mapped u0 bs a garbage (zlength fs) fs).

(** While the segments are read: the memory of the frames is [img]. *)
Record loading (mem0 img : list Z) (s : UserMem * F) : Prop := {
  ld_mapped : mapped s.1;
  ld_image : image fs (mainMemory (machine s.1)) = img;
  ld_frame : forall g, is_frame g -> g ∉ fs ->
    page_bytes (mainMemory (machine s.1)) g = page_bytes mem0 g;
  ld_file : contents s.2 f = Some c
}.

Lemma read_segment_run u x addr n pos :
  contents x f = Some c -> Forall is_char c -> 0 <= n -> 0 <= pos -> pos + n < 2 ^ 31 ->
  pos + n <= zlength c -> 0 <= addr -> addr + n <= zlength (mainMemory (machine u)) ->
  exists x', read_into f addr n pos (u, x) = Ok (tt, (poke addr (slice pos n c) u, x')) /\
    contents x' f = Some c.
Proof.
  intros Hx Hc Hn Hp Ho Hl Ha Hm.
  destruct (readAt_spec x f c n pos Hx Hn Hp Ho) as (x' & E & Hx').
  exists x'. split; [|done]. unfold read_into, in_files, in_user.
  mrun (zoom_Ok (T := UserMem * F) (file_readAt f n pos) (u, x) (slice pos n c) x' E).
  assert (zlength (slice pos n c) = n) as Hsl by (apply zlength_slice; lia).
  exact (zoom_Ok (T := UserMem * F) (on_machine (store_bytes addr (slice pos n c))) (u, x') tt _
    (on_machine_store u addr (slice pos n c) Ha ltac:(by rewrite Hsl))).
Qed.

(** Reading a piece of the file into a page. *)
Lemma load_piece mem0 img s i o k pos (addr : TranslationEntry -> Z) :
  loading mem0 img s -> Forall is_char c -> 0 <= i < zlength fs -> 0 <= o -> 0 <= k ->
  o + k <= PageSize -> 0 <= pos -> pos + k < 2 ^ 31 -> pos + k <= zlength c ->
  (forall e, addr e = physicalPage e * PageSize + o) ->
  exists s', (e <- in_user (table_entry (Some a) i) ;; read_into f (addr e) k pos) s = Ok (tt, s') /\
    loading mem0 (splice (i * PageSize + o) (slice pos k c) img) s'.
Proof.
  intros [Hm Hi Hfr Hx] Hc Hin Ho Hk Hok Hp Hp2 Hpc Haddr. destruct s as [u x]. cbn [fst snd] in *.
  pose proof (mapped_is_frame _ _ _ _ _ Hbs _ _ Hm) as Hfs.
  destruct (proj2 (zlookup_is_Some fs i) Hin) as [fr Hfri].
  assert (is_frame fr) as Hf.
  { apply zlookup_Some in Hfri as [_ Hl]. by apply (Forall_lookup_1 _ _ _ _ Hfs Hl). }
  assert (table_entry (Some a) i u = Ok (page_entry i fr, u)) as Et.
  { eapply table_entry_run; [by eapply mapped_table|]. rewrite Z.sub_diag. simpl. rewrite app_nil_r.
    by apply page_table_lookup. }
  unfold in_user at 1.
  mrun (zoom_Ok (T := UserMem * F) (table_entry (Some a) i) (u, x) (page_entry i fr) u Et).
  rewrite Haddr. cbn [physicalPage page_entry].
  pose proof (mapped_mem _ _ _ _ _ _ _ Hm) as [Hml _].
  pose proof (frame_bound _ Hml fr Hf) as [Hb1 Hb2].
  assert (zlength (slice pos k c) = k) as Hsl by (apply zlength_slice; lia).
  destruct (read_segment_run u x (fr * PageSize + o) k pos Hx Hc) as (x' & E & Hx'); try lia.
  exists (poke (fr * PageSize + o) (slice pos k c) u, x'). split; [exact E|].
  constructor; cbn [fst snd]; try done.
  - apply poke_mapped; [done|by apply slice_chars|lia|lia].
  - cbn [poke machine mainMemory set_mainMemory]. rewrite <- Hi.
    apply image_write; try done; [lia|]. by destruct Hm.
  - intros g Hg Hni. cbn [poke machine mainMemory set_mainMemory].
    rewrite page_write_other; try done; [by apply Hfr|lia|].
    intros ->. apply Hni. apply zlookup_Some in Hfri as [_ Hl]. by eapply list_elem_of_lookup_2.
Qed.

Lemma loading_length mem0 img s : loading mem0 img s -> zlength img = zlength fs * PageSize.
Proof.
  intros [Hm <- _ _]. destruct (mapped_mem _ _ _ _ _ _ _ Hm) as [Hl _].
  apply image_length; [done|]. by eapply mapped_is_frame.
Qed.

(** Reading [total] bytes into consecutive pages. *)
Lemma load_loop mem0 img s i0 pos0 total n (addr : TranslationEntry -> Z) body :
  loading mem0 img s -> Forall is_char c -> 0 <= i0 -> 0 <= n -> i0 + n <= zlength fs ->
  0 <= total -> (n - 1) * PageSize < total <= n * PageSize ->
  0 <= pos0 -> pos0 + total <= zlength c -> zlength c < 2 ^ 31 ->
  (forall e, addr e = physicalPage e * PageSize) ->
  (forall j s, 0 <= j < n -> body j s =
     (e <- in_user (table_entry (Some a) (i0 + j)) ;;
      read_into f (addr e) (Z.min PageSize (total - j * PageSize)) (pos0 + j * PageSize)) s) ->
  exists s', for_ 0 (Z.to_nat n) body s = Ok (tt, s') /\
    loading mem0 (splice (i0 * PageSize) (slice pos0 total c) img) s'.
Proof.
  intros Hld Hc Hi0 Hn Hin Ht0 Ht Hp Hpc Hcl Haddr Hbody.
  pose proof (loading_length _ _ _ Hld) as Hil. unfold PageSize, SectorSize in *.
  loop_for (fun j s => loading mem0
      (splice (i0 * 128) (slice pos0 (Z.min (j * 128) total) c) img) s)
    as (s' & E & Hs').
  2: { rewrite Z.mul_0_l, Z.min_l, slice_none, splice_empty by done. exact Hld. }
  - intros j s1 Hj Hl1. rewrite Hbody by lia.
    destruct (load_piece mem0 _ s1 (i0 + j) 0 (Z.min 128 (total - j * 128)) (pos0 + j * 128) addr
                Hl1 Hc) as (s2 & E2 & Hl2); unfold PageSize, SectorSize in *; try lia.
    { intros e. rewrite Haddr. lia. }
    exists s2. split; [exact E2|]. rewrite (Z.min_l (j * 128) total) in Hl2 by lia.
    replace ((i0 + j) * 128 + 0) with (i0 * 128 + j * 128) in Hl2 by lia.
    rewrite splice_extend in Hl2 by lia.
    by replace (Z.min ((j + 1) * 128) total) with (j * 128 + Z.min 128 (total - j * 128)) by lia.
  - exists s'. split; [exact E|]. rewrite Z.add_0_l, Z2Nat.id, Z.min_r in Hs' by lia. exact Hs'.
Qed.
End Loading.

(** The number of pages of a segment, and the bytes on its last page, as the
    unsigned arithmetic of the constructor computes them; an empty segment has
    no page and its last page counts as full. *)
Lemma segment_pages k :
  0 <= k < 2 ^ 31 ->
  let n := divRoundUp k PageSize in
  0 <= n /\ u32 n = n /\ (n - 1) * PageSize < k <= n * PageSize /\
  i32 (k - u32 (n - 1) * PageSize) = k - (n - 1) * PageSize.
Proof.
  intros Hk n. pose proof (divRoundUp_spec k PageSize ltac:(lia) ltac:(done)) as Hs.
  pose proof (divRoundUp_nonneg k PageSize ltac:(lia) ltac:(done)) as Hn. fold n in Hs, Hn.
  unfold PageSize, SectorSize in *. split; [done|].
  split; [apply u32_id; unfold is_u32; lia|]. split; [lia|]. unfold u32, i32. dlia.
Qed.

Lemma space_size_ok h c : exec_ok h c ->
  space_size h = size (code h) + size (initData h) + size (uninitData h) + UserStackSize.
Proof.
  intros [_ (? & ? & ?) Ht _ _ _]. unfold space_size, UserStackSize in *.
  rewrite i32_id, u32_id; [done| |]; unfold is_u32, is_i32; lia.
Qed.

(** The pages cover the segments and the stack. *)
Lemma space_pages_cover h c : exec_ok h c ->
  size (code h) + size (initData h) + size (uninitData h) + UserStackSize <= space_pages h * PageSize.
Proof.
  intros Hx. pose proof (divRoundUp_spec (space_size h) PageSize) as Hs. fold (space_pages h) in Hs.
  rewrite (space_size_ok h c Hx) in Hs. destruct Hx as [_ (? & ? & ?) _ _ _ _].
  unfold PageSize, SectorSize, UserStackSize in *. lia.
Qed.

Lemma for_ext {S} (body body' : Z -> M S unit) lo n s :
  (forall i s, lo <= i < lo + Z.of_nat n -> body i s = body' i s) ->
  for_ lo n body s = for_ lo n body' s.
Proof.
  revert lo s. induction n as [|n IH]; intros lo s Hb; [done|]. cbn [for_].
  unfold bind, obind. rewrite Hb by lia. destruct (body' lo s) as [[[] s']| | |]; try done.
  apply IH. intros. apply Hb. lia.
Qed.

Lemma splice_at_end (img l r : list Z) :
  zlength r <= zlength img - zlength l ->
  splice (zlength l) r (splice 0 l img) = l ++ r ++ drop (length l + length r) img.
Proof.
  intros Hl. unfold splice, zlength in *. rewrite take_0, Nat2Z.id. cbn [app Z.to_nat Nat.add].
  rewrite take_app_length. do 2 f_equal.
  rewrite drop_app_ge by lia. rewrite drop_drop. f_equal. lia.
Qed.

Section Load.
Context {F File : Type} `{HF : Files F File} (contents : F -> File -> option (list Z)).
Context `{!FilesSpec contents}.
Context (u0 : UserMem) (bs : list bool) (a : loc) (garbage : TranslationEntry) (fs : list Z).
Context (Hbs : zlength bs = NumPhysPages).
Context (f : File) (c : list Z) (h : NoffHeader) (Hex : exec_ok h c).
Context (Hpages : zlength fs = space_pages h).

Abbreviation loading := (loading contents u0 bs a garbage fs f c).

Lemma load_code mem0 img s :
  loading mem0 img s -> let nc := divRoundUp (size (code h)) PageSize in
  exists s', for_ 0 (Z.to_nat nc) (fun i =>
      e <- in_user (table_entry (Some a) i) ;;
      read_into f (virtualAddr (code h) + physicalPage e * PageSize)
        (if i <? u32 (nc - 1) then PageSize else size (code h) - (nc - 1) * PageSize)
        (i32 (inFileAddr (code h) + i * PageSize))) s = Ok (tt, s') /\
    loading mem0 (splice 0 (segment_bytes c (code h)) img) s'.
Proof.
  intros Hld nc. pose proof (space_pages_cover h c Hex) as Hcov.
  destruct Hex as [Hs (Hc1 & Hd1 & Hu1) Ht [Hc2 Hc3] [Hd2 Hd3] [Hl Hch]].
  unfold UserStackSize in *.
  destruct (segment_pages (size (code h)) ltac:(lia)) as (Hn0 & _ & Hn & _). fold nc in Hn0, Hn.
  eapply (load_loop contents u0 bs a garbage fs Hbs f c mem0 img s 0 (inFileAddr (code h))
    (size (code h)) nc (fun e => virtualAddr (code h) + physicalPage e * PageSize));
    try done; try lia.
  - unfold PageSize, SectorSize in *. lia.
  - intros i s1 Hi. rewrite Z.add_0_l. apply bind_ext. intros e s2.
    unfold PageSize, SectorSize in *.
    rewrite i32_id by (unfold is_i32; lia). rewrite u32_id by (unfold is_u32; lia).
    f_equal. destruct (Z.ltb_spec i (nc - 1)); lia.
Qed.

(** The data: the rest of the last page of the code, then the pages after it. *)
Lemma load_data mem0 img s :
  loading mem0 img s ->
  let nc := divRoundUp (size (code h)) PageSize in
  let last := size (code h) - (nc - 1) * PageSize in
  let temp := size (initData h) - (PageSize - last) in
  let first := if temp <? 0 then size (initData h) else PageSize - last in
  let nd := if temp <? 0 then 0 else divRoundUp temp PageSize in
  exists s', ((if last <? PageSize then
      if first >? 0 then
        e <- in_user (table_entry (Some a) (u32 (nc - 1))) ;;
        read_into f (virtualAddr (code h) + (physicalPage e * PageSize + last)) first
          (inFileAddr (initData h))
      else ret tt
    else ret tt) ;;;
    for_ 0 (Z.to_nat nd) (fun j =>
      e <- in_user (table_entry (Some a) (u32 (nc + j))) ;;
      read_into f (virtualAddr (code h) + physicalPage e * PageSize)
        (if j <? u32 (nd - 1) then PageSize else temp - (nd - 1) * PageSize)
        (i32 (inFileAddr (initData h) + j * PageSize + first)))) s = Ok (tt, s') /\
    loading mem0 (splice (size (code h)) (segment_bytes c (initData h)) img) s'.
Proof.
  intros Hld nc last temp first nd. pose proof (space_pages_cover h c Hex) as Hcov.
  pose proof (loading_length contents u0 bs a garbage fs Hbs f c _ _ _ Hld) as Hil.
  destruct Hex as [Hs (Hc1 & Hd1 & Hu1) Ht [Hc2 Hc3] [Hd2 Hd3] [Hl Hch]].
  unfold UserStackSize in *.
  destruct (segment_pages (size (code h)) ltac:(lia)) as (Hn0 & _ & Hn & _). fold nc in Hn0, Hn.
  assert (0 < last <= PageSize) as Hlast by (unfold last; lia).
  assert (0 <= first <= size (initData h) /\ size (code h) = (nc - 1) * PageSize + last /\
    first <= PageSize - last /\ (temp < 0 -> first = size (initData h)) /\
    (0 <= temp -> first = PageSize - last /\ size (initData h) = first + temp))
    as (Hf0 & Hcs & Hf1 & Hf2 & Hf3).
  { unfold first, temp, last in *. destruct (Z.ltb_spec (size (initData h) - (PageSize -
      (size (code h) - (nc - 1) * PageSize))) 0); lia. }
  assert (exists s1, (if last <? PageSize then
      if first >? 0 then
        e <- in_user (table_entry (Some a) (u32 (nc - 1))) ;;
        read_into f (virtualAddr (code h) + (physicalPage e * PageSize + last)) first
          (inFileAddr (initData h))
      else ret tt
    else ret tt) s = Ok (tt, s1) /\
    loading mem0 (splice (size (code h)) (slice (inFileAddr (initData h)) first c) img) s1)
    as (s1 & E1 & Hl1).
  { destruct (decide (last < PageSize /\ 0 < first)) as [[Hlt Hfp]|Hno].
    - rewrite (proj2 (Z.ltb_lt _ _)) by done. rewrite Z.gtb_ltb, (proj2 (Z.ltb_lt _ _)) by done.
      rewrite u32_id by (unfold is_u32, PageSize, SectorSize in *; lia). rewrite Hcs.
      eapply load_piece; try done; try lia; unfold PageSize, SectorSize in *; try lia.
    - exists s. split.
      + destruct (Z.ltb_spec last PageSize); [|done]. rewrite Z.gtb_ltb.
        destruct (Z.ltb_spec 0 first); [lia|done].
      + replace first with 0 by lia. by rewrite slice_none, splice_empty. }
  mrun E1. unfold nd. destruct (Z.ltb_spec temp 0) as [Htn|Htp].
  { exists s1. split; [done|]. rewrite Hf2 in Hl1 by done. exact Hl1. }
  destruct (Hf3 Htp) as [Hfe Hds].
  destruct (segment_pages temp ltac:(lia)) as (Hm0 & _ & Hm & _).
  set (n := divRoundUp temp PageSize) in *.
  match goal with |- context [for_ 0 (Z.to_nat n) ?b] => set (body := b) end.
  destruct (load_loop contents u0 bs a garbage fs Hbs f c mem0 _ s1 nc (inFileAddr (initData h) + first)
    temp n (fun e => virtualAddr (code h) + physicalPage e * PageSize) body Hl1) as (s2 & E2 & Hl2);
    try done; try lia.
  - unfold PageSize, SectorSize in *. lia.
  - intros j s2 Hj. unfold body, PageSize, SectorSize in *. cbn beta.
    rewrite (u32_id (nc + j)) by (unfold is_u32; lia). apply bind_ext. intros e s3.
    rewrite i32_id by (unfold is_i32; lia). rewrite u32_id by (unfold is_u32; lia).
    f_equal; [|lia]. destruct (Z.ltb_spec j (n - 1)); lia.
  - exists s2. split; [exact E2|]. unfold segment_bytes. rewrite Hds.
    rewrite <- (splice_extend c img (size (code h)) (inFileAddr (initData h)) first temp) by
      (unfold PageSize, SectorSize in *; lia).
    by replace (size (code h) + first) with (nc * PageSize) by lia.
Qed.

Lemma loaded_splices img :
  img = replicate (Z.to_nat (space_pages h * PageSize)) 0 ->
  splice (size (code h)) (segment_bytes c (initData h)) (splice 0 (segment_bytes c (code h)) img) =
  loaded_image h c.
Proof.
  intros ->. pose proof (space_pages_cover h c Hex) as Hcov.
  destruct Hex as [_ (Hc1 & Hd1 & Hu1) Ht [Hc2 Hc3] [Hd2 Hd3] _]. unfold UserStackSize in *.
  assert (zlength (segment_bytes c (code h)) = size (code h)) as L1 by (apply zlength_slice; lia).
  assert (zlength (segment_bytes c (initData h)) = size (initData h)) as L2 by (apply zlength_slice; lia).
  rewrite <- L1 at 1. rewrite splice_at_end by (rewrite zlength_replicate; lia).
  unfold loaded_image. do 2 f_equal. rewrite drop_replicate. f_equal. unfold zlength in *. lia.
Qed.

Lemma AddrSpace_load_run g mem0 s n :
  loading mem0 (replicate (Z.to_nat (space_pages h * PageSize)) 0) s ->
  exists s', AddrSpace_load g (mkSpace (Some a) n) h f s = Ok (tt, s') /\
    loading mem0 (loaded_image h c) s'.
Proof.
  intros Hld. pose proof (space_pages_cover h c Hex) as Hcov.
  destruct (load_code mem0 _ s Hld) as (s1 & E1 & Hl1).
  destruct (load_data mem0 _ s1 Hl1) as (s2 & E2 & Hl2).
  rewrite (loaded_splices _ eq_refl) in Hl2. exists s2. split; [|exact Hl2].
  pose proof Hex as [_ (Hc1 & Hd1 & Hu1) Ht _ _ _]. unfold UserStackSize in *.
  destruct (segment_pages (size (code h)) ltac:(lia)) as (Hn0 & Eu & Hn & El).
  cbn zeta in E1, E2.
  unfold AddrSpace_load. cbn [space_pageTable]. rewrite Eu, El. clear Eu El.
  set (nc := divRoundUp (size (code h)) PageSize) in *.
  set (last := size (code h) - (nc - 1) * PageSize) in *.
  rewrite (i32_id (size (initData h) - (PageSize - last)))
    by (unfold is_i32, PageSize, SectorSize in *; lia).
  mrun E1. set (temp := size (initData h) - (PageSize - last)) in *.
  destruct (Z.ltb_spec temp 0) as [Htn|Htp]; [exact E2|].
  destruct (segment_pages temp ltac:(lia)) as (_ & Eu & _ & El). rewrite Eu, El. exact E2.
Qed.
End Load.

(** ** The header *)

(** The bytes of a header in the little-endian order of NOFF files. *)
Definition header_words (h : NoffHeader) : list Z :=
  [noffMagic h; virtualAddr (code h); inFileAddr (code h); size (code h);
   virtualAddr (initData h); inFileAddr (initData h); size (initData h);
   virtualAddr (uninitData h); inFileAddr (uninitData h); size (uninitData h)].
Definition noff_bytes (h : NoffHeader) : list Z := mjoin (le_encode 4 <$> header_words h).

Definition header_i32 (h : NoffHeader) : Prop := Forall is_i32 (header_words h).

Lemma le_decode_word w : is_i32 w -> le_decode (le_encode 4 w) = u32 w.
Proof. intros _. rewrite le_decode_encode. done. Qed.

(** The word that the header reading takes from the bytes of the file, and
    converts when the file and the host differ. *)
Lemma host_word_le w : is_i32 w -> i32 (host_load false (le_encode 4 w)) = w.
Proof. intros Hw. unfold host_load. rewrite le_decode_word by done. by rewrite i32_u32, i32_id. Qed.

Lemma host_word_be w : is_i32 w -> swap_int true (i32 (host_load true (le_encode 4 w))) = w.
Proof.
  intros Hw. unfold swap_int. rewrite u32_i32.
  pose proof (host_load_word true (le_encode 4 w)) as E.
  rewrite le_decode_word in E by done. rewrite u32_id.
  - rewrite E; [by rewrite i32_u32, i32_id|done|apply le_encode_char].
  - unfold host_load. pose proof (le_decode_range (rev (le_encode 4 w))) as Hr.
    unfold zlength in Hr. rewrite length_rev, length_le_encode in Hr. exact Hr.
Qed.

(** A list of words laid out in bytes, read back one word at a time. *)
Lemma word_slice ws rest i w :
  zlookup ws i = Some w -> slice (4 * i) 4 (mjoin (le_encode 4 <$> ws) ++ rest) = le_encode 4 w.
Proof.
  intros Hi. apply zlookup_Some in Hi as [H0 Hi]. revert i H0 Hi.
  induction ws as [|x ws IH]; intros i H0 Hi; [done|].
  cbn [fmap list_fmap mjoin list_join]. rewrite <- app_assoc.
  destruct (decide (i = 0)) as [->|Hne].
  - injection Hi as ->. unfold slice. simpl Z.to_nat. rewrite drop_0. by apply take_app_length'.
  - replace (Z.to_nat i) with (S (Z.to_nat (i - 1))) in Hi by lia.
    rewrite <- (IH (i - 1)) by (lia || done). unfold slice. f_equal.
    rewrite drop_app_ge by (rewrite length_le_encode; lia). f_equal. rewrite length_le_encode. lia.
Qed.

Lemma header_word_run be h rest i w :
  zlookup (header_words h) i = Some w ->
  header_word be (noff_bytes h ++ rest) i = i32 (host_load be (le_encode 4 w)).
Proof. intros Hi. unfold header_word, noff_bytes. by rewrite (word_slice _ _ _ _ Hi). Qed.

Lemma noff_bytes_length h : zlength (noff_bytes h) = header_size.
Proof. done. Qed.

Lemma header_of_le h rest : header_i32 h -> header_of false (noff_bytes h ++ rest) = h.
Proof.
  intros Hh. unfold header_i32, header_words in Hh. rewrite !Forall_cons in Hh.
  destruct Hh as (? & ? & ? & ? & ? & ? & ? & ? & ? & ? & _).
  unfold header_of, header_segment. simpl Z.add.
  erewrite !header_word_run by reflexivity. rewrite !host_word_le by done.
  by destruct h as [? [] [] []].
Qed.

Lemma header_of_be h rest :
  header_i32 h -> SwapHeader true (header_of true (noff_bytes h ++ rest)) = h.
Proof.
  intros Hh. unfold header_i32, header_words in Hh. rewrite !Forall_cons in Hh.
  destruct Hh as (? & ? & ? & ? & ? & ? & ? & ? & ? & ? & _).
  unfold SwapHeader, swap_segment, header_of, header_segment. simpl Z.add.
  cbn [noffMagic code initData uninitData virtualAddr inFileAddr size].
  erewrite !header_word_run by reflexivity. rewrite !host_word_be by done.
  by destruct h as [? [] [] []].
Qed.

Section Header.
Context {F File : Type} `{HF : Files F File} (contents : F -> File -> option (list Z)).
Context `{!FilesSpec contents}.

Lemma read_header_run be g f c h rest u x :
  contents x f = Some c -> c = noff_bytes h ++ rest -> zlength g = header_size ->
  header_i32 h -> noffMagic h = NOFFMAGIC ->
  exists x', read_header be g f (u, x) = Ok (h, (u, x')) /\ contents x' f = Some c.
Proof.
  intros Hx Hc Hg Hh Hm.
  destruct (readAt_spec x f c header_size 0 Hx) as (x' & E & Hx'); [done..|].
  exists x'. split; [|done]. unfold read_header, in_files.
  mrun (zoom_Ok (T := UserMem * F) (file_readAt f header_size 0) (u, x) _ x' E).
  assert (slice 0 header_size c = noff_bytes h ++ []) as ->.
  { rewrite app_nil_r, Hc. apply take_app_length'. done. }
  rewrite splice_whole by (rewrite app_nil_r, Hg; done).
  destruct be.
  - assert (noffMagic (header_of true (noff_bytes h ++ [])) = i32 (host_load true (le_encode 4 NOFFMAGIC)))
      as -> by (rewrite <- Hm; cbn [noffMagic header_of]; by erewrite header_word_run by reflexivity).
    rewrite header_of_be by done.
    change (i32 (host_load true (le_encode 4 NOFFMAGIC)) =? NOFFMAGIC) with false.
    change (WordToHost true (u32 (i32 (host_load true (le_encode 4 NOFFMAGIC)))) =? NOFFMAGIC) with true.
    cbn [negb andb]. by rewrite Hm.
  - rewrite header_of_le by done. rewrite Hm, Z.eqb_refl. cbn [negb andb]. by rewrite Hm.
Qed.
End Header.

(** ** Destruction *)

(** [bs'] is [bs] with the frames [fs] free. *)
Definition released (bs : list bool) (fs : list Z) (bs' : list bool) : Prop :=
  forall j, zlookup bs' j = if decide (j ∈ fs) then Some false else zlookup bs j.

Lemma same_mapping_entry t fs i f :
  same_mapping t (page_table 0 fs) -> zlookup fs i = Some f ->
  exists e, zlookup t i = Some e /\ mapping e = (i, f, true, false).
Proof.
  intros Ht Hi%page_table_lookup. pose proof (same_mapping_lookup _ _ i Ht) as E.
  rewrite Hi in E. destruct (zlookup t i) as [e|]; [|done]. exists e. split; [done|].
  simpl in E. by apply Some_inj in E.
Qed.

Lemma same_mapping_length t t' : same_mapping t t' -> zlength t = zlength t'.
Proof.
  intros H. apply (f_equal length) in H. rewrite !length_fmap in H. unfold zlength. by rewrite H.
Qed.

Lemma AddrSpace_delete_run u a t fs bs :
  tables (machine u) !! a = Some t -> same_mapping t (page_table 0 fs) ->
  rep (gPhysPageBitMap u) bs -> Forall is_frame fs -> zlength bs = NumPhysPages ->
  exists bm' bs', AddrSpace_delete (mkSpace (Some a) (zlength fs)) u =
      Ok (tt, mkUser (set_tables (delete a (tables (machine u))) (machine u)) bm') /\
    rep bm' bs' /\ released bs fs bs'.
Proof.
  intros Ht Hm Hr Hfs Hbs. unfold AddrSpace_delete. cbn [numPages space_pageTable].
  loop_for (fun i s => exists bm bs', s = mkUser (machine u) bm /\ rep bm bs' /\
      zlength bs' = NumPhysPages /\ released bs (take (Z.to_nat i) fs) bs')
    as (s' & E & bm & bs' & -> & Hr' & _ & Hrel).
  2: { exists (gPhysPageBitMap u), bs. split; [by destruct u|]. split; [done|]. split; [done|].
       intros j. change (take (Z.to_nat 0) fs) with (@nil Z).
       by rewrite decide_False by apply not_elem_of_nil. }
  - intros i s Hi (bm & bs' & -> & Hr' & Hl & Hrel).
    destruct (proj2 (zlookup_is_Some fs i)) as [f Hf]; [unfold zlength in *; lia|].
    destruct (same_mapping_entry t fs i f Hm Hf) as (e & He & Hme). unfold mapping in Hme.
    mrun (table_entry_run (mkUser (machine u) bm) a t i e Ht He).
    apply zlookup_Some in Hf as [Hi0 Hf]. pose proof (Forall_lookup_1 _ _ _ _ Hfs Hf) as Hfb.
    destruct (BitMap_Clear_run _ _ Hr' f) as (bm' & E & Hr''); [unfold is_frame in *; lia|].
    assert (physicalPage e = f) as <- by congruence.
    eexists. split; [exact (frames_run (mkUser (machine u) bm) _ _ _ E)|].
    exists bm', (zinsert (physicalPage e) false bs'). split; [done|]. split; [done|].
    split; [by rewrite zlength_zinsert|]. intros j.
    replace (Z.to_nat (i + 1)) with (S (Z.to_nat i)) by lia. rewrite (take_S_r _ _ _ Hf).
    rewrite zlookup_zinsert, (Hrel j). destruct (decide (physicalPage e = j)) as [<-|Hne].
    + rewrite decide_True by (split; [done|rewrite Hl; exact Hfb]).
      rewrite decide_True; [done|]. apply elem_of_app. right. by left.
    + rewrite decide_False by tauto.
      rewrite (decide_ext (j ∈ take (Z.to_nat i) fs ++ [physicalPage e]) (j ∈ take (Z.to_nat i) fs)); [done|].
      rewrite elem_of_app, list_elem_of_singleton. intuition congruence.
  - mrun E. exists bm, bs'. split.
    + unfold delete_table. rewrite (bind_Ok get _ _ _ _ eq_refl). cbn [machine].
      rewrite Ht. reflexivity.
    + split; [done|]. intros j. rewrite (Hrel j). rewrite Z.add_0_l, Z2Nat.id by apply zlength_nonneg.
      unfold zlength. by rewrite Nat2Z.id, firstn_all.
Qed.

(** ** The registers a program starts with *)

Definition initial_registers (this : AddrSpace) : list Z :=
  zinsert StackReg (i32 (numPages this * PageSize - 16))
    (zinsert NextPCReg 4 (replicate (Z.to_nat NumTotalRegs) 0)).

Lemma write_register_run m i v :
  zlength (registers m) = NumTotalRegs -> 0 <= i < NumTotalRegs ->
  Machine_WriteRegister i v m = Ok (tt, set_registers (zinsert i v (registers m)) m).
Proof.
  intros Hl Hi. unfold Machine_WriteRegister, set_reg. munfold.
  rewrite Z.geb_leb, (proj2 (Z.leb_le 0 i)), (proj2 (Z.ltb_lt i NumTotalRegs)) by lia. cbn [andb].
  by rewrite (proj2 (store_Some (registers m) i v _)) by (split; [rewrite Hl|]; done).
Qed.

Lemma InitRegisters_run this m :
  zlength (registers m) = NumTotalRegs ->
  AddrSpace_InitRegisters this m = Ok (tt, set_registers (initial_registers this) m).
Proof.
  intros Hl. unfold AddrSpace_InitRegisters.
  loop_for (fun i s => s = set_registers (replicate (Z.to_nat i) 0 ++ drop (Z.to_nat i) (registers m)) m)
    as (s & E & ->).
  2: { transitivity m; [reflexivity|by destruct m]. }
  - intros i s Hi ->. rewrite write_register_run.
    + eexists. split; [reflexivity|]. unfold set_registers.
      cbn [registers mainMemory tlb pageTable pageTableSize tables singleStep runUntilTime]. f_equal.
      destruct (proj2 (zlookup_is_Some (registers m) i)) as [x Hx]; [rewrite Hl; lia|].
      apply zlookup_Some in Hx as [H0 Hx]. rewrite (drop_S _ _ _ Hx).
      rewrite zinsert_middle by (rewrite zlength_replicate; lia).
      replace (Z.to_nat (i + 1)) with (S (Z.to_nat i)) by lia.
      by rewrite replicate_S_end, <- app_assoc.
    + cbn [registers set_registers]. rewrite zlength_app, zlength_replicate by lia.
      unfold zlength in *. rewrite length_drop. unfold NumTotalRegs in *. lia.
    + unfold NumTotalRegs in *. lia.
  - mrun E. rewrite drop_ge by (unfold zlength, NumTotalRegs in *; lia). rewrite app_nil_r.
    unfold initial_registers. generalize (i32 (numPages this * PageSize - 16)) as v. intros v.
    by destruct m.
Qed.

(** ** Virtual memory

    A program that runs with the page table of its address space sees the
    memory of its frames as one array of bytes of its own. *)

Section Virtual.
Context (t : list TranslationEntry) (fs : list Z).
Context (Ht : same_mapping t (page_table 0 fs)) (Hfs : Forall is_frame fs).

Lemma translation_mapped addr size w :
  access_size size -> addr mod size = 0 -> 0 <= addr < zlength fs * PageSize -> addr < 2 ^ 32 ->
  exists f, zlookup fs (addr / PageSize) = Some f /\ is_frame f /\
    addr mod PageSize + size <= PageSize /\
    translation t addr size w = (NoException, Some (f * PageSize + addr mod PageSize)).
Proof.
  intros Hs Ha Hr H32. assert (u32 addr = addr) as Eu by (apply u32_id; unfold is_u32; lia).
  assert (0 <= addr / PageSize < zlength fs) as Hq by (unfold PageSize, SectorSize in *; dlia).
  destruct (proj2 (zlookup_is_Some fs _) Hq) as [f Hf].
  destruct (same_mapping_entry t fs _ f Ht Hf) as (e & He & Hme).
  unfold mapping in Hme. injection Hme as _ Ep Ev Er.
  apply zlookup_Some in Hf as Hf'. destruct Hf' as [_ Hf'].
  pose proof (Forall_lookup_1 _ _ _ _ Hfs Hf') as Hfr. unfold is_frame in Hfr.
  exists f. split; [done|]. split; [done|]. split.
  { unfold PageSize, SectorSize. destruct Hs as [-> | [-> | ->]]; dlia. }
  assert (u32 f = f) as Ef by (apply u32_id; unfold is_u32, NumPhysPages in *; lia).
  unfold translation. rewrite (proj2 (Z.eqb_eq _ _) Ha). cbn [negb].
  unfold vpn_of. rewrite Eu, He, Ev, Er, Ep, Ef. cbn [negb andb].
  by rewrite (proj2 (Z.leb_gt _ _)) by lia.
Qed.

Lemma translation_outside addr size w :
  access_size size -> addr mod size = 0 -> 0 <= addr < 2 ^ 32 -> zlength fs * PageSize <= addr ->
  translation t addr size w = (AddressErrorException, None).
Proof.
  intros Hs Ha Hr Ho. unfold translation. rewrite (proj2 (Z.eqb_eq _ _) Ha). cbn [negb].
  assert (zlookup t (vpn_of addr) = None) as ->; [|done].
  apply zlookup_None. right. rewrite (same_mapping_length _ _ Ht), page_table_length.
  unfold vpn_of. rewrite u32_id by (unfold is_u32; lia). unfold PageSize, SectorSize in *. dlia.
Qed.

Lemma image_slice mem f addr size :
  zlength mem = MemorySize -> zlookup fs (addr / PageSize) = Some f -> 0 <= addr -> 0 <= size ->
  addr mod PageSize + size <= PageSize ->
  slice (f * PageSize + addr mod PageSize) size mem = slice addr size (image fs mem).
Proof.
  intros Hm Hf Ha Hs Hp. pose proof (zlookup_lt_Some _ _ _ Hf) as Hq.
  pose proof (image_length mem Hm fs Hfs) as Hil.
  assert (is_frame f) as Hfr.
  { apply zlookup_Some in Hf as [_ Hl]. by apply (Forall_lookup_1 _ _ _ _ Hfs Hl). }
  pose proof (frame_bound mem Hm f Hfr) as [Hb1 Hb2].
  apply zlookup_ext. intros k Hk. destruct (decide (k < size)).
  - rewrite !zlookup_slice by (try done; unfold PageSize, SectorSize in *; dlia).
    replace (addr + k) with (addr / PageSize * PageSize + (addr mod PageSize + k))
      by (unfold PageSize, SectorSize; dlia).
    rewrite (image_lookup mem Hm fs _ f _ Hfs Hf) by (unfold PageSize, SectorSize in *; dlia).
    f_equal. lia.
  - transitivity (@None Z); [|symmetry]; apply zlookup_None; right;
      unfold zlength, slice; rewrite length_take; lia.
Qed.
End Virtual.

(** ** The first constructor *)

(** What it makes of the first physical pages, whatever frames it allocated. *)
Definition flat_image (h : NoffHeader) (c : list Z) : list Z :=
  splice (virtualAddr (initData h)) (segment_bytes c (initData h))
    (splice (virtualAddr (code h)) (segment_bytes c (code h))
       (replicate (Z.to_nat (space_pages h * PageSize)) 0)).

Definition segment_ok (h : NoffHeader) (s : Segment) (c : list Z) : Prop :=
  0 <= size s /\ 0 <= inFileAddr s /\ inFileAddr s + size s <= zlength c /\
  0 <= virtualAddr s /\ virtualAddr s + size s <= space_pages h * PageSize.

Lemma splice_app_l {A} (i : Z) (src l r : list A) :
  0 <= i -> i + zlength src <= zlength l -> splice i src (l ++ r) = splice i src l ++ r.
Proof.
  intros H0 H1. unfold splice, zlength in *. rewrite take_app_le by lia.
  rewrite <- !app_assoc. do 2 f_equal. apply drop_app_le. lia.
Qed.

Section NewFile.
Context {F File : Type} `{HF : Files F File} (contents : F -> File -> option (list Z)).
Context `{!FilesSpec contents}.
Context (u0 : UserMem) (bs : list bool) (a : loc) (garbage : TranslationEntry).
Context (Hbs : zlength bs = NumPhysPages).
Context (f : File) (c : list Z) (h : NoffHeader).

Lemma map_pages_run n u1 :
  mapped u0 bs a garbage n [] u1 -> 0 <= n <= count_clear bs ->
  forall x : F, exists fs u2, for_ 0 (Z.to_nat n) (fun i => in_user (map_page (Some a) i)) (u1, x) =
      Ok (tt, (u2, x)) /\
    mapped u0 bs a garbage n fs u2 /\ zlength fs = n /\
    mainMemory (machine u2) = mainMemory (machine u1).
Proof.
  intros Hm Hn x.
  loop_for (fun i s => exists fs u2, s = (u2, x) /\ zlength fs = i /\ mapped u0 bs a garbage n fs u2 /\
      mainMemory (machine u2) = mainMemory (machine u1)) as (s & E & fs & u2 & -> & Hl & Hm2 & Emem).
  2: { exists [], u1. done. }
  - intros i s Hi (fs & u2 & -> & <- & Hm2 & Emem).
    destruct (mapped_step u0 bs a garbage n Hbs fs u2 Hm2 ltac:(lia) ltac:(lia))
      as (fr & u3 & E & Hm3 & _ & _ & Emem3).
    eexists. split; [exact (zoom_Ok (T := UserMem * F) (map_page (Some a) (zlength fs)) (u2, x) tt u3 E)|].
    exists (fs ++ [fr]), u3. split; [done|]. split; [by rewrite zlength_app|]. split; [done|]. congruence.
  - exists fs, u2. rewrite Z2Nat.id in Hl by lia. done.
Qed.

(** Reading a segment into the first physical pages. *)
Lemma read_segment s u x img rest :
  contents x f = Some c -> Forall is_char c -> zlength c < 2 ^ 31 -> segment_ok h s c ->
  zlength img = space_pages h * PageSize ->
  mainMemory (machine u) = img ++ rest ->
  exists u' x', (if size s >? 0 then read_into f (virtualAddr s) (size s) (inFileAddr s) else ret tt) (u, x) =
      Ok (tt, (u', x')) /\ contents x' f = Some c /\
    mainMemory (machine u') = splice (virtualAddr s) (segment_bytes c s) img ++ rest /\
    forall fs n, mapped u0 bs a garbage n fs u -> mapped u0 bs a garbage n fs u'.
Proof.
  intros Hx Hc Hcl (H1 & H2 & H3 & H4 & H5) Hi Hm.
  assert (zlength (segment_bytes c s) = size s) as Hsl by (apply zlength_slice; lia).
  assert (virtualAddr s + size s <= zlength (mainMemory (machine u))) as Hb.
  { rewrite Hm, zlength_app. pose proof (zlength_nonneg rest). lia. }
  rewrite Z.gtb_ltb. destruct (Z.ltb_spec 0 (size s)) as [Hp|Hp].
  - destruct (read_segment_run contents f c u x (virtualAddr s) (size s) (inFileAddr s) Hx Hc)
      as (x' & E & Hx'); try lia.
    exists (poke (virtualAddr s) (segment_bytes c s) u), x'. split; [exact E|]. split; [done|].
    split; [cbn [poke machine mainMemory set_mainMemory]; rewrite Hm; apply splice_app_l; lia|].
    intros fs n Hmp. apply poke_mapped; [done|by apply slice_chars|lia|lia].
  - exists u, x. split; [done|]. split; [done|]. split; [|done].
    assert (segment_bytes c s = []) as ->; [|by rewrite splice_empty].
    apply length_zero_iff_nil. unfold zlength in Hsl. lia.
Qed.
End NewFile.

Section NewFileRun.
Context (be : bool) {F File : Type} `{HF : Files F File} (contents : F -> File -> option (list Z)).
Context `{!FilesSpec contents}.

Lemma AddrSpace_new_file_run u x bs g garbage f c h rest :
  rep (gPhysPageBitMap u) bs -> zlength bs = NumPhysPages -> memory_wf (machine u) ->
  contents x f = Some c -> c = noff_bytes h ++ rest -> zlength g = header_size ->
  header_i32 h -> noffMagic h = NOFFMAGIC -> zlength c < 2 ^ 31 -> Forall is_char c ->
  segment_ok h (code h) c -> segment_ok h (initData h) c -> space_pages h <= count_clear bs ->
  exists a fs u' x', AddrSpace_new_file be g garbage f (u, x) =
      Ok (mkSpace (Some a) (space_pages h), (u', x')) /\
    mapped u bs a garbage (space_pages h) fs u' /\ zlength fs = space_pages h /\
    mainMemory (machine u') =
      flat_image h c ++ drop (Z.to_nat (space_pages h * PageSize)) (mainMemory (machine u)).
Proof.
  intros Hr Hbs Hwf Hx Hc Hg Hh Hmg Hcl Hch Hs1 Hs2 Hn.
  pose proof (space_pages_nonneg h) as Hn0. pose proof (count_clear_bounds bs) as Hcb.
  destruct (read_header_run contents be g f c h rest u x Hx Hc Hg Hh Hmg) as (x1 & E1 & Hx1).
  unfold AddrSpace_new_file. mrun E1.
  assert (on_frames BitMap_NumClear u = Ok (count_clear bs, u)) as Ec.
  { rewrite (frames_run u _ _ _ (BitMap_NumClear_run _ _ Hr)). by destruct u. }
  mrun (zoom_Ok (T := UserMem * F) (on_frames BitMap_NumClear) (u, x1) _ u Ec).
  rewrite (count_bound bs Hbs), (proj2 (Z.leb_le _ _)) by done.
  cbn [ASSERT]. rewrite (bind_Ok (ret tt) _ _ tt (u, x1)) by done.
  destruct (new_table_run u bs garbage Hr Hbs Hwf (space_pages h) Hn0) as (a & _ & u1 & E2 & Hm1 & Em1).
  mrun (zoom_Ok (T := UserMem * F) (new_table garbage (space_pages h)) (u, x1) _ u1 E2).
  destruct (map_pages_run (F := F) u bs a garbage Hbs (space_pages h) u1 Hm1 ltac:(lia) x1)
    as (fs & u2 & E3 & Hm2 & Hfs & Em2). mrun E3.
  pose proof (mapped_mem _ _ _ _ _ _ _ Hm2) as [Hml _].
  assert (u32 (space_pages h * PageSize) = space_pages h * PageSize) as Eu.
  { apply u32_id. unfold is_u32, PageSize, SectorSize, NumPhysPages in *. lia. }
  assert (zlength (replicate (Z.to_nat (space_pages h * PageSize)) 0) = space_pages h * PageSize) as Hzl
    by (apply zlength_replicate; unfold PageSize, SectorSize; lia).
  unfold bzero. rewrite Eu.
  assert (space_pages h * PageSize <= zlength (mainMemory (machine u2))) as Hb.
  { rewrite Hml. unfold MemorySize, PageSize, SectorSize in *. lia. }
  pose proof (on_machine_store u2 0 (replicate (Z.to_nat (space_pages h * PageSize)) 0) ltac:(done)
    ltac:(rewrite Hzl; exact Hb)) as E4.
  mrun (zoom_Ok (T := UserMem * F) (on_machine (store_bytes 0
    (replicate (Z.to_nat (space_pages h * PageSize)) 0))) (u2, x1) tt _ E4).
  set (u3 := poke 0 _ u2) in *. set (img0 := replicate (Z.to_nat (space_pages h * PageSize)) 0) in *.
  assert (mainMemory (machine u3) =
    img0 ++ drop (Z.to_nat (space_pages h * PageSize)) (mainMemory (machine u))) as Em3.
  { unfold u3. cbn [poke machine mainMemory set_mainMemory]. unfold splice. rewrite Em2, Em1.
    rewrite take_0. cbn [app Z.to_nat Nat.add]. unfold img0 at 2. by rewrite length_replicate. }
  assert (mapped u bs a garbage (space_pages h) fs u3) as Hm3.
  { apply poke_mapped; [done|apply zeros_char|done|by rewrite Hzl]. }
  destruct (read_segment contents u bs a garbage f c h (code h) u3 x1 img0 _ Hx1 Hch Hcl Hs1 Hzl Em3)
    as (u4 & x4 & E5 & Hx4 & Em4 & Hk4). change (lset u3 (u2, x1)) with (u3, x1). mrun E5.
  assert (zlength (splice (virtualAddr (code h)) (segment_bytes c (code h)) img0) =
          space_pages h * PageSize) as Hil.
  { destruct Hs1 as (? & ? & ? & ? & ?). rewrite zlength_splice; [done|done|].
    unfold segment_bytes. rewrite zlength_slice by lia. lia. }
  destruct (read_segment contents u bs a garbage f c h (initData h) u4 x4 _ _ Hx4 Hch Hcl Hs2 Hil Em4)
    as (u5 & x5 & E6 & Hx5 & Em5 & Hk5). mrun E6.
  exists a, fs, u5, x5. split; [reflexivity|]. split; [by apply Hk5, Hk4|]. split; [done|]. exact Em5.
Qed.
End NewFileRun.

(** ** Properties *)

(** What a machine that runs a program with the frames [fs] satisfies. *)
Record running_in {K} `{!Lens Machine K} (k : K) (a : loc) (t : list TranslationEntry)
    (fs : list Z) : Prop := {
  ri_paged : paged (lget k) a t;
  ri_wf : memory_wf (lget k);
  ri_mapping : same_mapping t (page_table 0 fs);
  ri_frames : Forall is_frame fs;
  ri_nodup : NoDup fs
}.

Lemma image_other (fs gs : list Z) mem f o bs :
  zlength mem = MemorySize -> Forall is_frame gs -> f ∈ fs -> (forall g, g ∈ gs -> g ∉ fs) ->
  is_frame f -> 0 <= o -> o + zlength bs <= PageSize ->
  image gs (splice (f * PageSize + o) bs mem) = image gs mem.
Proof.
  intros Hm Hgs Hf Hd Hfr Ho Hl. apply image_ext; [by apply write_length|].
  intros g Hg. apply page_write_other; try done.
  - apply list_elem_of_lookup in Hg as [i Hi]. by apply (Forall_lookup_1 _ _ _ _ Hgs Hi).
  - intros ->. by apply (Hd f).
Qed.

(** The kernel holds the space [s], whose page table is [t] and whose pages are in
    the frames [fs]; it need not be the one that runs. *)
Record owns (m : Machine) (s : AddrSpace) (t : list TranslationEntry) (fs : list Z) : Prop := {
  ow_tlb : tlb m = None;
  ow_table : exists a, space_pageTable s = Some a /\ tables m !! a = Some t;
  ow_wf : memory_wf m;
  ow_pages : numPages s = zlength fs;
  ow_mapping : same_mapping t (page_table 0 fs);
  ow_frames : Forall is_frame fs;
  ow_nodup : NoDup fs
}.

Lemma RestoreState_runs {K} `{!Lens Machine K} (k : K) s t fs :
  owns (lget k) s t fs ->
  exists a k', space_pageTable s = Some a /\ zoom (AddrSpace_RestoreState s) k = Ok (tt, k') /\
    running_in k' a t fs /\ owns (lget k') s t fs /\
    mainMemory (lget k') = mainMemory (lget k) /\ tables (lget k') = tables (lget k).
Proof.
  intros [H1 (a & Ha & Ht) [Hl Hc] Hn Hmp Hfr Hnd].
  exists a, (lset (set_pageTable (Some a) (numPages s) (lget k)) k).
  split; [done|]. split.
  { unfold AddrSpace_RestoreState, zoom, modify. rewrite Ha. done. }
  rewrite !lget_lset. split; [|split]; [| |done].
  - constructor; rewrite ?lget_lset; try done.
    constructor; try done. simpl. rewrite Hn. rewrite (same_mapping_length _ _ Hmp).
    by rewrite page_table_length.
  - constructor; try done. by exists a.
Qed.

(** The page number and the offset of an address are those of its 32 bits. *)
Lemma translation_u32 t addr size w :
  access_size size -> translation t addr size w = translation t (u32 addr) size w.
Proof.
  intros Hs. unfold translation, vpn_of.
  rewrite (u32_id (u32 addr)) by apply u32_range. replace (u32 addr mod size) with (addr mod size); [done|].
  unfold u32. destruct Hs as [-> | [-> | ->]]; dlia.
Qed.

(** An access that lies in the memory of a space of [n] pages. *)
Definition inside (n addr size : Z) : Prop := addr mod size = 0 /\ u32 addr < n * PageSize.
#[export] Instance inside_dec n addr size : Decision (inside n addr size).
Proof. unfold inside. apply _. Defined.

Lemma translation_inside t fs addr size w :
  same_mapping t (page_table 0 fs) -> Forall is_frame fs -> access_size size ->
  inside (zlength fs) addr size ->
  exists f, zlookup fs (u32 addr / PageSize) = Some f /\ is_frame f /\
    u32 addr mod PageSize + size <= PageSize /\
    translation t addr size w = (NoException, Some (f * PageSize + u32 addr mod PageSize)).
Proof.
  intros Ht Hfs Hs [Ha Hi]. rewrite (translation_u32 t addr size w Hs).
  pose proof (u32_range addr) as [H0 H1].
  apply (translation_mapped t fs Ht Hfs); try done.
  unfold u32. destruct Hs as [-> | [-> | ->]]; dlia.
Qed.

Lemma translation_not_inside t fs addr size w :
  same_mapping t (page_table 0 fs) -> access_size size ->
  ~ inside (zlength fs) addr size -> translation t addr size w = (AddressErrorException, None).
Proof.
  intros Ht Hs Hi. destruct (decide (addr mod size = 0)) as [Ha|Ha].
  - rewrite (translation_u32 t addr size w Hs). pose proof (u32_range addr) as [H0 H1].
    apply (translation_outside t fs Ht); try done.
    + unfold u32. destruct Hs as [-> | [-> | ->]]; dlia.
    + apply Z.nlt_ge. intros Hlt. by apply Hi.
  - unfold translation. by rewrite (proj2 (Z.eqb_neq _ _)).
Qed.

(** What an access of the space [s] leaves alone: the frames outside [fs], and
    every other address space, which the kernel still owns unchanged. *)
Definition others_kept (s : AddrSpace) (fs : list Z) (m m' : Machine) : Prop :=
  (forall gs, Forall is_frame gs -> (forall g, g ∈ gs -> g ∉ fs) ->
     image gs (mainMemory m') = image gs (mainMemory m)) /\
  (forall s' t' gs, owns m s' t' gs -> space_pageTable s' <> space_pageTable s ->
     owns m' s' t' gs).

Lemma others_kept_intro m m' s fs a :
  space_pageTable s = Some a -> tlb m' = tlb m -> memory_wf m' ->
  (forall b, b <> a -> tables m' !! b = tables m !! b) ->
  (forall gs, Forall is_frame gs -> (forall g, g ∈ gs -> g ∉ fs) ->
     image gs (mainMemory m') = image gs (mainMemory m)) ->
  others_kept s fs m m'.
Proof.
  intros Ha Hl Hwf Ht Hm. split; [done|].
  intros s' t' gs [H1 (b & Hb & Htb) _ ? ? ? ?] Hne.
  constructor; try done; [by rewrite Hl|]. exists b. split; [done|].
  rewrite Ht; [done|]. intros ->. by rewrite Ha in Hne.
Qed.

(** The accesses of the space that runs. *)
Section SpaceAccess.
Context (be : bool) {K : Type} `{!Lens Machine K}.
Context (setStatus : Interrupt.MachineStatus -> M K unit) (Handler : ExceptionType -> M K unit).
Context (k : K) (s : AddrSpace) (a : loc) (t : list TranslationEntry) (fs : list Z).
Context (Ha : space_pageTable s = Some a) (Hk : running_in k a t fs) (Ho : owns (lget k) s t fs).
Context (addr size value : Z) (Hs : access_size size) (Hi : inside (zlength fs) addr size).

(** The machine [k'] is the machine of [k] but for the table of the space. *)
Lemma access_owns k' w :
  tlb (lget k') = None -> memory_wf (lget k') ->
  tables (lget k') = <[a := touch t addr size w]> (tables (lget k)) ->
  owns (lget k') s (touch t addr size w) fs.
Proof.
  intros H1 H2 H3. destruct Ho. constructor; try done.
  - exists a. split; [done|]. rewrite H3. apply lookup_insert_eq.
  - etransitivity; [apply touch_same_mapping|done].
Qed.

Lemma touched_wf w : memory_wf (touched k a t addr size w).
Proof. destruct Hk as [_ [] _ _ _]. by constructor. Qed.

Lemma access_offset : 0 <= u32 addr mod PageSize.
Proof. unfold PageSize, SectorSize. dlia. Qed.

Lemma space_read :
  exists k' t', Machine_ReadMem be setStatus Handler addr size k =
      Ok (Some (value_of size (slice (u32 addr) size (image fs (mainMemory (lget k))))), k') /\
    mainMemory (lget k') = mainMemory (lget k) /\
    owns (lget k') s t' fs /\ others_kept s fs (lget k) (lget k').
Proof.
  pose proof Hk as [Hp Hwf Ht Hfs Hnd]. pose proof (u32_range addr) as [Hu _].
  assert (0 < size) as Hs0 by (destruct Hs as [-> | [-> | ->]]; lia).
  destruct (translation_inside t fs addr size false Ht Hfs Hs Hi) as (f & Hf & Hfr & Hof & E).
  pose proof (ReadMem_ok be setStatus Handler k a t Hp Hwf addr size _ Hs E) as ER.
  rewrite (image_slice fs Hfs _ f (u32 addr) size) in ER by (done || lia || apply Hwf).
  exists (lset (touched k a t addr size false) k), (touch t addr size false).
  split; [done|]. rewrite lget_lset. split; [done|]. split.
  - pose proof (access_owns (lset (touched k a t addr size false) k) false) as H.
    rewrite lget_lset in H. apply H; [by destruct Hp|apply touched_wf|done].
  - apply (others_kept_intro _ _ _ _ a); [done|done|apply touched_wf| |done].
    intros b Hb. by apply lookup_insert_ne.
Qed.

Lemma space_write :
  exists k' t', Machine_WriteMem be setStatus Handler addr size value k = Ok (true, k') /\
    image fs (mainMemory (lget k')) =
      splice (u32 addr) (le_encode (Z.to_nat size) value) (image fs (mainMemory (lget k))) /\
    owns (lget k') s t' fs /\ others_kept s fs (lget k) (lget k').
Proof.
  pose proof Hk as [Hp Hwf Ht Hfs Hnd]. pose proof Hwf as [Hm _].
  assert (0 < size) as Hs0 by (destruct Hs as [-> | [-> | ->]]; lia).
  pose proof (translation_inside t fs addr size true Ht Hfs Hs Hi) as (f & Hf & Hfr & Hof & E).
  pose proof (WriteMem_ok be setStatus Handler k a t Hp Hwf addr size value _ Hs E) as EW.
  pose proof access_offset as Ho0. pose proof (frame_bound _ Hm f Hfr) as [Hb1 Hb2].
  pose proof (zlength_le_encode (Z.to_nat size) value) as Hl. rewrite Z2Nat.id in Hl by lia.
  assert (memory_wf (written k a t addr size value (f * PageSize + u32 addr mod PageSize))) as Hw.
  { eapply written_wf; try done; unfold MemorySize, PageSize, SectorSize in *; lia. }
  eexists _, (touch t addr size true). split; [exact EW|]. rewrite lget_lset. split; [|split].
  - unfold written. cbn [mainMemory set_mainMemory].
    rewrite (image_write _ Hm f _ _ Hfr Ho0 ltac:(by rewrite Hl) fs _ Hfs Hnd Hf).
    f_equal. unfold PageSize, SectorSize. dlia.
  - pose proof (access_owns (lset (written k a t addr size value (f * PageSize + u32 addr mod PageSize)) k) true) as H.
    rewrite lget_lset in H. apply H; try done. by destruct Hp.
  - apply (others_kept_intro _ _ _ _ a); try done.
    + intros b Hb. by apply lookup_insert_ne.
    + intros gs Hgs Hd. unfold written. cbn [mainMemory set_mainMemory].
      apply (image_other fs); try done; [|lia].
      apply zlookup_Some in Hf as [_ Hf]. by eapply list_elem_of_lookup_2.
Qed.
End SpaceAccess.

(** C6: virtual memory: after RestoreState of an address space the loads and
    stores of the user program, at any address, act on one private array of
    bytes, the memory of its frames. An aligned access inside it reads, or
    overwrites, exactly the bytes at its virtual address; it changes nothing in
    the frames of other spaces or in their page tables. A misaligned access, or
    one outside, raises an address error and does nothing else, so that none
    spills into the frame that comes next. *)
Theorem AddrSpace_private_memory (be : bool) {K} `{!Lens Machine K} setStatus Handler (k0 : K)
    s t (fs : list Z) addr size value :
  owns (lget k0) s t fs -> access_size size ->
  exists k, zoom (AddrSpace_RestoreState s) k0 = Ok (tt, k) /\
    owns (lget k) s t fs /\ others_kept s fs (lget k0) (lget k) /\
    mainMemory (lget k) = mainMemory (lget k0) /\
    if decide (inside (zlength fs) addr size) then
      (exists k' t', Machine_ReadMem be setStatus Handler addr size k =
          Ok (Some (value_of size (slice (u32 addr) size (image fs (mainMemory (lget k))))), k') /\
        mainMemory (lget k') = mainMemory (lget k) /\
        owns (lget k') s t' fs /\ others_kept s fs (lget k) (lget k')) /\
      (exists k' t', Machine_WriteMem be setStatus Handler addr size value k = Ok (true, k') /\
        image fs (mainMemory (lget k')) =
          splice (u32 addr) (le_encode (Z.to_nat size) value) (image fs (mainMemory (lget k))) /\
        owns (lget k') s t' fs /\ others_kept s fs (lget k) (lget k'))
    else
      Machine_ReadMem be setStatus Handler addr size k =
        (Machine_RaiseException setStatus Handler AddressErrorException addr ;;; ret None) k /\
      Machine_WriteMem be setStatus Handler addr size value k =
        (Machine_RaiseException setStatus Handler AddressErrorException addr ;;; ret false) k.
Proof.
  intros Hk0 Hs. destruct (RestoreState_runs k0 s t fs Hk0) as (a & k & Ea & E & Hk & Ho & Em & Et).
  exists k. split; [done|]. split; [done|]. split.
  { apply (others_kept_intro _ _ _ _ a); rewrite ?Em, ?Et; try done; [|by destruct Ho].
    by destruct Hk0 as [-> _ _ _ _ _ _], Ho as [-> _ _ _ _ _ _]. }
  split; [done|]. case_decide as Hi.
  - split; [by apply (space_read be setStatus Handler k s a t)|by apply (space_write be setStatus Handler k s a t)].
  - pose proof (translation_not_inside t fs addr size false (ri_mapping _ _ _ _ Hk) Hs Hi) as Er.
    pose proof (translation_not_inside t fs addr size true (ri_mapping _ _ _ _ Hk) Hs Hi) as Ew.
    destruct Hk. split; [by eapply ReadMem_fault|by eapply WriteMem_fault].
Qed.

Definition example_frames : list Z := [7; 2; 311].
Definition other_frames : list Z := [5; 6].

(** Two spaces; the machine still runs the second when the first is restored. *)
Definition example_space : Machine :=
  set_tables {[ 0%nat := page_table 0 example_frames; 1%nat := page_table 0 other_frames ]}
    (set_pageTable (Some 1%nat) 2 (Machine_new false false (example_entry 0 false))).

Lemma example_owns i fs :
  (i, fs) = (0%nat, example_frames) \/ (i, fs) = (1%nat, other_frames) ->
  owns example_space (mkSpace (Some i) (zlength fs)) (page_table 0 fs) fs.
Proof.
  intros [[= -> ->] | [= -> ->]]; (constructor; try done;
    [by eexists|by apply zeroes_wf|by repeat constructor|
     apply (bool_decide_unpack _); vm_compute; exact I]).
Qed.

Lemma AddrSpace_private_memory_witness :
  exists k k' t', AddrSpace_RestoreState (mkSpace (Some 0%nat) 3) example_space = Ok (tt, k) /\
    Machine_WriteMem true (fun _ => ret tt) (fun _ => ret tt) 130 2 (-3) k = Ok (true, k') /\
    owns k' (mkSpace (Some 0%nat) 3) t' example_frames /\
    owns k' (mkSpace (Some 1%nat) 2) (page_table 0 other_frames) other_frames.
Proof.
  destruct (AddrSpace_private_memory true (fun _ => ret tt) (fun _ => ret tt) example_space
              (mkSpace (Some 0%nat) 3) (page_table 0 example_frames) example_frames 130 2 (-3))
    as (k & E & _ & [_ H1] & _ & _ & k' & t' & E' & _ & Ho & [_ H2]).
  - exact (example_owns 0 example_frames (or_introl eq_refl)).
  - unfold access_size. auto.
  - exists k, k', t'. split; [exact E|]. split; [exact E'|]. split; [exact Ho|].
    apply H2; [|done]. apply H1; [|done]. exact (example_owns 1 other_frames (or_intror eq_refl)).
Defined.
