(* ===== verification/SysDep.v ===== *)
(** * machine/sysdep.cc and the file system stub

    The wrappers around UNIX that Nachos is built on, and the two classes that
    stand for the file system until the real one is there (FILESYS_STUB in
    filesys/filesys.h and filesys/openfile.h), which pass each call on to UNIX.
    UNIX itself is a parameter: the class [Unix] has its system calls, the class
    [UnixSpec] of Host.v what the code relies on. *)

From stdpp Require Import base tactics list numbers gmap.
From S2P Require Import Prelude Lists Machine BitMap AddrSpace Disk OpenFile FileSys.

Local Open Scope Z_scope.

(** ** UNIX *)

Inductive open_mode := Truncate (* O_RDWR|O_CREAT|O_TRUNC *) | Existing (* O_RDWR *).

(** [unix_read fd n] is the result of read and the bytes it stored. *)
Class Unix (W : Type) := {
  unix_open : list Z -> open_mode -> M W Z;
  unix_read : Z -> Z -> M W (Z * list Z);
  unix_write : Z -> list Z -> M W Z;
  unix_lseek : Z -> Z -> Z -> M W Z;
  unix_close : Z -> M W Z;
  unix_unlink : list Z -> M W Z;
  unix_select : Z -> Z -> M W Z;
  unix_rand : M W Z;
  unix_srand : Z -> M W unit
}.

Section SysDep.
Context {W : Type} `{HU : Unix W}.

(** [idle]: interrupt->getStatus() == IdleMode. *)
Definition PollFile (idle : bool) (fd : Z) : M W bool :=
  retVal <- unix_select (i32 (Z.shiftl 1 fd)) (if idle then 20000 else 0) ;;
  ASSERT ((retVal =? 0) || (retVal =? 1)) ;;;
  ret (negb (retVal =? 0)).

Definition OpenForWrite (name : list Z) : M W Z :=
  fd <- unix_open name Truncate ;;
  ASSERT (fd >=? 0) ;;; ret fd.

Definition OpenForReadWrite (name : list Z) (crashOnError : bool) : M W Z :=
  fd <- unix_open name Existing ;;
  ASSERT (negb crashOnError || (fd >=? 0)) ;;; ret fd.

Definition Read (fd nBytes : Z) : M W (list Z) :=
  '(retVal, bs) <- unix_read fd nBytes ;;
  ASSERT (retVal =? nBytes) ;;; ret bs.

Definition ReadPartial (fd nBytes : Z) : M W (Z * list Z) := unix_read fd nBytes.

Definition WriteFile (fd : Z) (buffer : list Z) : M W unit :=
  retVal <- unix_write fd buffer ;;
  ASSERT (retVal =? zlength buffer).

Definition Lseek (fd offset whence : Z) : M W unit :=
  retVal <- unix_lseek fd offset whence ;;
  ASSERT (retVal >=? 0).

Definition Tell (fd : Z) : M W Z := unix_lseek fd 0 1.

Definition Close (fd : Z) : M W unit :=
  retVal <- unix_close fd ;;
  ASSERT (retVal >=? 0).

(** The [int] that unlink returns, as a [bool]. *)
Definition Unlink (name : list Z) : M W bool :=
  r <- unix_unlink name ;; ret (negb (r =? 0)).

Definition Random : M W Z := unix_rand.
Definition RandomInit (seed : Z) : M W unit := unix_srand seed.
End SysDep.

(** ** The stub *)

Record StubFile := mkStubFile {
  stub_fd : Z;
  currentOffset : Z;
  stub_type : Z
}.

(** As in FileSys.v, OpenFile objects are pointed to by indices. *)
Record Stub (W : Type) := mkStub {
  unix : W;
  stub_objects : list (option StubFile);
  stub_file : list (option nat)
}.
Arguments mkStub {W} _ _ _.
Arguments unix {W} _.
Arguments stub_objects {W} _.
Arguments stub_file {W} _.

#[export, refine] Instance lens_unix {W} : Lens W (Stub W) :=
  {| lget := unix; lset w s := mkStub w (stub_objects s) (stub_file s) |}.
Proof. all: by repeat intros []. Defined.

Section Stub.
Context {W : Type} `{HU : Unix W}.

Definition stub_deref (p : nat) : M (Stub W) StubFile :=
  s <- get ;; match stub_objects s !! p with Some (Some f) => ret f | _ => undef end.
Definition stub_assign (p : nat) (f : option StubFile) : M (Stub W) unit :=
  modify (fun s => mkStub (unix s) (<[p := f]> (stub_objects s)) (stub_file s)).

(** Both constructors; the first has [t = 0]. *)
Definition StubFile_new (f t : Z) : M (Stub W) nat :=
  s <- get ;;
  put (mkStub (unix s) (stub_objects s ++ [Some (mkStubFile f 0 t)]) (stub_file s)) ;;;
  ret (length (stub_objects s)).

Definition StubFile_delete (p : nat) : M (Stub W) unit :=
  f <- stub_deref p ;;
  zoom (Close (stub_fd f)) ;;;
  stub_assign p None.

Definition StubFile_ReadAt (p : nat) (numBytes position : Z) : M (Stub W) (Z * list Z) :=
  f <- stub_deref p ;;
  zoom (Lseek (stub_fd f) position 0) ;;;
  zoom (ReadPartial (stub_fd f) numBytes).

Definition StubFile_WriteAt (p : nat) (from : list Z) (numBytes position : Z) : M (Stub W) Z :=
  f <- stub_deref p ;;
  zoom (Lseek (stub_fd f) position 0) ;;;
  bs <- copy_out from 0 numBytes ;;
  zoom (WriteFile (stub_fd f) bs) ;;;
  ret numBytes.

Definition StubFile_Read (p : nat) (numBytes : Z) : M (Stub W) (Z * list Z) :=
  f <- stub_deref p ;;
  '(numRead, bs) <- StubFile_ReadAt p numBytes (currentOffset f) ;;
  stub_assign p (Some (mkStubFile (stub_fd f) (i32 (currentOffset f + numRead)) (stub_type f))) ;;;
  ret (numRead, bs).

Definition StubFile_Write (p : nat) (from : list Z) (numBytes : Z) : M (Stub W) Z :=
  f <- stub_deref p ;;
  numWritten <- StubFile_WriteAt p from numBytes (currentOffset f) ;;
  stub_assign p (Some (mkStubFile (stub_fd f) (i32 (currentOffset f + numWritten)) (stub_type f))) ;;;
  ret numWritten.

Definition StubFile_Length (p : nat) : M (Stub W) Z :=
  f <- stub_deref p ;;
  zoom (Lseek (stub_fd f) 0 2) ;;;
  zoom (Tell (stub_fd f)).

Definition StubFile_Seek (p : nat) (pos : Z) : M (Stub W) Z :=
  f <- stub_deref p ;;
  zoom (Lseek (stub_fd f) pos 0) ;;;
  n <- zoom (Tell (stub_fd f)) ;;
  stub_assign p (Some (mkStubFile (stub_fd f) n (stub_type f))) ;;;
  ret n.

(** The first test of Create never fails: OpenForWrite aborts instead. *)
Definition Stub_Create (name : list Z) (initialSize : Z) : M (Stub W) bool :=
  fileDescriptor <- zoom (OpenForWrite name) ;;
  if fileDescriptor =? -1 then ret false
  else zoom (Close fileDescriptor) ;;; ret true.

Definition Stub_Open_type (name : list Z) (type : Z) : M (Stub W) (option nat) :=
  fileDescriptor <- zoom (OpenForReadWrite name false) ;;
  if fileDescriptor =? -1 then ret None
  else p <- StubFile_new fileDescriptor type ;; ret (Some p).

Definition Stub_Open (name : list Z) : M (Stub W) (option nat) := Stub_Open_type name 0.

Definition Stub_Remove (name : list Z) : M (Stub W) bool :=
  failed <- zoom (Unlink name) ;; ret (negb failed).

Definition stub_slot (i : Z) : M (Stub W) (option nat) :=
  s <- get ;; must (zlookup (stub_file s) i).
Definition stub_set_slot (i : Z) (p : option nat) : M (Stub W) unit :=
  s <- get ;;
  l <- must (store i p (stub_file s)) ;;
  put (mkStub (unix s) (stub_objects s) l).

Definition Stub_new : M (Stub W) unit :=
  modify (fun s => mkStub (unix s) (stub_objects s) (replicate 10 None)) ;;;
  _ <- Stub_Create stdin 0 ;;
  _ <- Stub_Create stdout 0 ;;
  p <- Stub_Open_type stdin 1 ;; stub_set_slot 0 p ;;;
  p <- Stub_Open_type stdout 2 ;; stub_set_slot 1 p.

Definition Stub_delete : M (Stub W) unit :=
  for_ 0 10 (fun i =>
    slot <- stub_slot i ;;
    match slot with Some p => StubFile_delete p | None => ret tt end).
End Stub.

(** ** The file system that the kernel sees

    What exception.cc, ptable.cc and addrspace.cc use of the classes FileSystem
    and OpenFile, whichever of the two versions was compiled in. *)

Class FileSystemOps (F File : Type) := {
  fs_Files :: Files F File;
  fs_Create : list Z -> Z -> M F bool;
  fs_Open_type : list Z -> Z -> M F (option File);
  fs_slot : Z -> M F (option File);
  fs_set_slot : Z -> option File -> M F unit;
  of_Read : File -> Z -> M F (Z * list Z);
  of_Write : File -> list Z -> Z -> M F Z;
  of_type : File -> M F Z
}.

#[export] Instance Stub_Files {W} `{Unix W} : Files (Stub W) nat := {|
  file_open := Stub_Open;
  file_readAt p n pos := '(_, bs) <- StubFile_ReadAt p n pos ;; ret bs;
  file_delete := StubFile_delete
|}.

#[export] Instance Stub_ops {W} `{Unix W} : FileSystemOps (Stub W) nat := {|
  fs_Create := Stub_Create;
  fs_Open_type := Stub_Open_type;
  fs_slot := stub_slot;
  fs_set_slot := stub_set_slot;
  of_Read := StubFile_Read;
  of_Write := StubFile_Write;
  of_type p := f <- stub_deref p ;; ret (stub_type f)
|}.

(** The real file system; [g] is the memory its operations allocate. *)
Section Real.
Context (be : bool) {X : Type} `{HD : SectorDisk X} (g : Garbage).

Definition real_slot (i : Z) : M (FileSystem X) (option nat) :=
  s <- get ;; must (zlookup (fs_file s) i).
Definition real_set_slot (i : Z) (p : option nat) : M (FileSystem X) unit :=
  s <- get ;; l <- must (store i p (fs_file s)) ;; put (set_fs_file l s).

#[export] Instance Real_Files : Files (FileSystem X) nat := {|
  file_open := FileSystem_Open be g;
  file_readAt p n pos := f <- deref p ;; zoom (OpenFile_ReadAt (hdr f) n pos);
  file_delete := delete_OpenFile
|}.

#[export] Instance Real_ops : FileSystemOps (FileSystem X) nat := {|
  fs_Create := FileSystem_Create be g;
  fs_Open_type := FileSystem_Open_type be g;
  fs_slot := real_slot;
  fs_set_slot := real_set_slot;
  of_Read p n := bs <- file_Read p n ;; ret (zlength bs, bs);
  of_Write := file_Write g;
  of_type p := f <- deref p ;; ret (type_ f)
|}.
End Real.
