(* ===== verification/Host.v ===== *)
(** * What the wrappers rely on, and a UNIX that provides it

    The documented behaviour of the UNIX calls on the open files of the stub,
    the operations of the stub under it, and a small executable UNIX for the
    runs of the whole system: files, descriptors, a keyboard and a display. *)

From stdpp Require Import base tactics list numbers gmap.
From S2P Require Import Prelude Lists Machine BitMap AddrSpace Disk OpenFile Directory FileSys SysDep.

Local Open Scope Z_scope.

(** ** The contract *)

(** Writing at an offset beyond the end fills the gap with zeros. *)
Definition write_at (o : Z) (bs c : list Z) : list Z :=
  splice o bs (c ++ replicate (Z.to_nat (o - zlength c)) 0).

(** [desc w fd] are the contents and the offset of an open regular file. *)
Class UnixSpec {W} `{Unix W} (desc : W -> Z -> option (list Z * Z)) : Prop := {
  lseek_spec : forall w fd c o pos, desc w fd = Some (c, o) -> 0 <= pos < 2 ^ 31 ->
    exists w', unix_lseek fd pos 0 w = Ok (pos, w') /\ desc w' fd = Some (c, pos);
  lseek_end_spec : forall w fd c o, desc w fd = Some (c, o) -> zlength c < 2 ^ 31 ->
    exists w', unix_lseek fd 0 2 w = Ok (zlength c, w') /\ desc w' fd = Some (c, zlength c);
  lseek_here_spec : forall w fd c o, desc w fd = Some (c, o) -> 0 <= o < 2 ^ 31 ->
    exists w', unix_lseek fd 0 1 w = Ok (o, w') /\ desc w' fd = Some (c, o);
  read_spec : forall w fd c o n, desc w fd = Some (c, o) -> 0 <= o -> 0 <= n ->
    exists w', unix_read fd n w = Ok (zlength (slice o n c), slice o n c, w') /\
      desc w' fd = Some (c, o + zlength (slice o n c));
  write_spec : forall w fd c o bs, desc w fd = Some (c, o) -> 0 <= o ->
    exists w', unix_write fd bs w = Ok (zlength bs, w') /\
      desc w' fd = Some (write_at o bs c, o + zlength bs);
  close_spec : forall w fd c o, desc w fd = Some (c, o) -> exists w', unix_close fd w = Ok (0, w')
}.

(** ** The stub *)

Section Stub.
Context {W} `{HU : Unix W} (desc : W -> Z -> option (list Z * Z)) `{HS : !UnixSpec desc}.

(** The pointer [p] is an open file of the stub with contents [c]. *)
Definition stub_open (s : Stub W) (p : nat) (f : StubFile) (c : list Z) : Prop :=
  stub_objects s !! p = Some (Some f) /\ exists o, desc (unix s) (stub_fd f) = Some (c, o).


Lemma stub_deref_run (s : Stub W) p f : stub_objects s !! p = Some (Some f) -> stub_deref p s = Ok (f, s).
Proof. intros E. unfold stub_deref. munfold. by rewrite E. Qed.

Definition stub_contents (s : Stub W) (p : nat) : option (list Z) :=
  match stub_objects s !! p with
  | Some (Some f) => fst <$> desc (unix s) (stub_fd f)
  | _ => None
  end.

Definition set_unix (w : W) (s : Stub W) : Stub W := mkStub w (stub_objects s) (stub_file s).
Definition set_object (p : nat) (f : StubFile) (s : Stub W) : Stub W :=
  mkStub (unix s) (<[p := Some f]> (stub_objects s)) (stub_file s).

Lemma on_unix_run {A} (m : M W A) (s : Stub W) a w :
  m (unix s) = Ok (a, w) -> zoom m s = Ok (a, set_unix w s).
Proof. intros E. unfold zoom. cbn. by rewrite E. Qed.

Lemma Lseek_run w fd c o pos : desc w fd = Some (c, o) -> 0 <= pos < 2 ^ 31 ->
  exists w', Lseek fd pos 0 w = Ok (tt, w') /\ desc w' fd = Some (c, pos).
Proof.
  intros Hd Hp. destruct (lseek_spec w fd c o pos Hd Hp) as (w' & E & Hd'). exists w'. split; [|done].
  unfold Lseek. mrun E. rewrite Z.geb_leb. by rewrite (proj2 (Z.leb_le 0 pos)) by lia.
Qed.

Lemma StubFile_ReadAt_run (s : Stub W) p f c o n pos :
  stub_objects s !! p = Some (Some f) -> desc (unix s) (stub_fd f) = Some (c, o) ->
  0 <= pos < 2 ^ 31 -> 0 <= n ->
  exists w, StubFile_ReadAt p n pos s = Ok (zlength (slice pos n c), slice pos n c, set_unix w s) /\
    desc w (stub_fd f) = Some (c, pos + zlength (slice pos n c)).
Proof.
  intros Hp Hd Hpos Hn. unfold StubFile_ReadAt. mrun (stub_deref_run s p f Hp).
  destruct (Lseek_run _ _ _ _ pos Hd Hpos) as (w1 & E1 & Hd1). mrun (on_unix_run _ s _ _ E1).
  destruct (read_spec w1 _ _ _ n Hd1 (proj1 Hpos) Hn) as (w2 & E2 & Hd2).
  exists w2. split; [|done]. exact (on_unix_run (ReadPartial (stub_fd f) n) (set_unix w1 s) _ _ E2).
Qed.

Lemma StubFile_WriteAt_run (s : Stub W) p f c o from n pos :
  stub_objects s !! p = Some (Some f) -> desc (unix s) (stub_fd f) = Some (c, o) ->
  0 <= pos < 2 ^ 31 -> 0 <= n <= zlength from ->
  exists w, StubFile_WriteAt p from n pos s = Ok (n, set_unix w s) /\
    desc w (stub_fd f) = Some (write_at pos (slice 0 n from) c, pos + n).
Proof.
  intros Hp Hd Hpos Hn. unfold StubFile_WriteAt. mrun (stub_deref_run s p f Hp).
  destruct (Lseek_run _ _ _ _ pos Hd Hpos) as (w1 & E1 & Hd1). mrun (on_unix_run _ s _ _ E1).
  assert (zlength (slice 0 n from) = n) as Hl.
  { unfold slice, zlength in *. rewrite drop_0, length_take. lia. }
  assert (copy_out from 0 n (set_unix w1 s) = Ok (slice 0 n from, set_unix w1 s)) as Ec.
  { unfold copy_out. rewrite (proj2 (Z.leb_le (0 + n) _)) by lia. done. }
  mrun Ec. destruct (write_spec w1 _ _ _ (slice 0 n from) Hd1 (proj1 Hpos)) as (w2 & E2 & Hd2).
  rewrite Hl in E2, Hd2. exists w2. split; [|done].
  assert (WriteFile (stub_fd f) (slice 0 n from) w1 = Ok (tt, w2)) as E3.
  { unfold WriteFile. mrun E2. by rewrite Hl, Z.eqb_refl. }
  by mrun (on_unix_run _ (set_unix w1 s) _ _ E3).
Qed.

Lemma Tell_run w fd c o : desc w fd = Some (c, o) -> 0 <= o < 2 ^ 31 ->
  exists w', Tell fd w = Ok (o, w') /\ desc w' fd = Some (c, o).
Proof. intros Hd Ho. exact (lseek_here_spec w fd c o Hd Ho). Qed.

Lemma StubFile_Length_run (s : Stub W) p f c o :
  stub_objects s !! p = Some (Some f) -> desc (unix s) (stub_fd f) = Some (c, o) -> zlength c < 2 ^ 31 ->
  exists w, StubFile_Length p s = Ok (zlength c, set_unix w s) /\
    desc w (stub_fd f) = Some (c, zlength c).
Proof.
  intros Hp Hd Hc. unfold StubFile_Length. mrun (stub_deref_run s p f Hp).
  destruct (lseek_end_spec _ _ _ _ Hd Hc) as (w1 & E1 & Hd1).
  assert (Lseek (stub_fd f) 0 2 (unix s) = Ok (tt, w1)) as E1'.
  { unfold Lseek. mrun E1. rewrite Z.geb_leb. by rewrite (proj2 (Z.leb_le 0 _)) by (unfold zlength; lia). }
  mrun (on_unix_run _ s _ _ E1').
  destruct (Tell_run w1 _ _ _ Hd1) as (w2 & E2 & Hd2); [unfold zlength in *; lia|].
  exists w2. split; [|done]. exact (on_unix_run (Tell (stub_fd f)) (set_unix w1 s) _ _ E2).
Qed.

Lemma StubFile_Seek_run (s : Stub W) p f c o to :
  stub_objects s !! p = Some (Some f) -> desc (unix s) (stub_fd f) = Some (c, o) -> 0 <= to < 2 ^ 31 ->
  exists w, StubFile_Seek p to s =
      Ok (to, set_object p (mkStubFile (stub_fd f) to (stub_type f)) (set_unix w s)) /\
    desc w (stub_fd f) = Some (c, to).
Proof.
  intros Hp Hd Hto. unfold StubFile_Seek. mrun (stub_deref_run s p f Hp).
  destruct (Lseek_run _ _ _ _ to Hd Hto) as (w1 & E1 & Hd1). mrun (on_unix_run _ s _ _ E1).
  destruct (Tell_run w1 _ _ _ Hd1 Hto) as (w2 & E2 & Hd2).
  exists w2. split; [|done]. by mrun (on_unix_run (Tell (stub_fd f)) (set_unix w1 s) _ _ E2).
Qed.

(** C20: an open file of the stub is a sequence of bytes with a position: Read
    returns the bytes from the position on, at most [n] of them, and moves the
    position behind them; Write puts [n] bytes there, overwriting and extending
    the file, and moves the position too; Length returns the number of bytes
    and leaves them and the position alone; Seek moves the position. All of it
    holds wherever the descriptor stood in UNIX before. *)
Theorem StubFile_is_sequential (s : Stub W) p f c o n from :
  stub_objects s !! p = Some (Some f) -> desc (unix s) (stub_fd f) = Some (c, o) ->
  let pos := currentOffset f in
  let moved k := mkStubFile (stub_fd f) (pos + k) (stub_type f) in
  0 <= pos -> 0 <= n -> pos + n < 2 ^ 31 ->
  (let bs := slice pos n c in
   exists w, StubFile_Read p n s = Ok (zlength bs, bs, set_object p (moved (zlength bs)) (set_unix w s)) /\
     stub_contents (set_object p (moved (zlength bs)) (set_unix w s)) p = Some c) /\
  (n <= zlength from ->
   exists w, StubFile_Write p from n s = Ok (n, set_object p (moved n) (set_unix w s)) /\
     stub_contents (set_object p (moved n) (set_unix w s)) p = Some (write_at pos (slice 0 n from) c)) /\
  (zlength c < 2 ^ 31 ->
   exists w, StubFile_Length p s = Ok (zlength c, set_unix w s) /\
     stub_contents (set_unix w s) p = Some c) /\
  (exists w, StubFile_Seek p n s =
       Ok (n, set_object p (mkStubFile (stub_fd f) n (stub_type f)) (set_unix w s)) /\
     stub_contents (set_object p (mkStubFile (stub_fd f) n (stub_type f)) (set_unix w s)) p = Some c).
Proof.
  intros Hp Hd pos moved Hpos Hn Hlt.
  assert (forall k w c' o', desc w (stub_fd f) = Some (c', o') ->
    stub_contents (set_object p (mkStubFile (stub_fd f) k (stub_type f)) (set_unix w s)) p = Some c') as Hc.
  { intros k w c' o' Hw. unfold stub_contents. cbn.
    rewrite list_lookup_insert_eq by (by eapply lookup_lt_Some). cbn. by rewrite Hw. }
  split; [|split; [|split]].
  - intros bs. destruct (StubFile_ReadAt_run s p f c o n pos Hp Hd) as (w & E & Hw); [lia..|].
    exists w. split; [|by eapply Hc]. unfold StubFile_Read. mrun (stub_deref_run s p f Hp). mrun E.
    fold pos bs. rewrite i32_id; [done|]. unfold is_i32.
    assert (0 <= zlength bs <= n); [|lia]. unfold bs, slice, zlength. rewrite length_take. lia.
  - intros Hf. destruct (StubFile_WriteAt_run s p f c o from n pos Hp Hd) as (w & E & Hw); [lia..|].
    exists w. split; [|by eapply Hc]. unfold StubFile_Write. mrun (stub_deref_run s p f Hp). mrun E.
    fold pos. rewrite i32_id; [done|]. unfold is_i32. lia.
  - intros Hl. destruct (StubFile_Length_run s p f c o Hp Hd Hl) as (w & E & Hw).
    exists w. split; [done|]. unfold stub_contents. cbn. by rewrite Hp, Hw.
  - destruct (StubFile_Seek_run s p f c o n Hp Hd) as (w & E & Hw); [lia|].
    exists w. split; [done|by eapply Hc].
Qed.

(** The stub meets the contract that address spaces rely on. *)
#[export] Instance Stub_FilesSpec : FilesSpec stub_contents.
Proof.
  constructor.
  - intros s p c n pos Hc Hn Hpos Hlt. unfold stub_contents in Hc.
    destruct (stub_objects s !! p) as [[f|]|] eqn:Hp; try done.
    destruct (desc (unix s) (stub_fd f)) as [[c' o]|] eqn:Hd; [|done]. injection Hc as ->.
    destruct (StubFile_ReadAt_run s p f c o n pos Hp Hd) as (w & E & Hw); [lia..|].
    exists (set_unix w s). split; [cbn; by mrun E|]. unfold stub_contents. cbn. by rewrite Hp, Hw.
  - intros s p c Hc. unfold stub_contents in Hc.
    destruct (stub_objects s !! p) as [[f|]|] eqn:Hp; try done.
    destruct (desc (unix s) (stub_fd f)) as [[c' o]|] eqn:Hd; [|done].
    destruct (close_spec _ _ _ _ Hd) as (w & E). eexists. cbn. unfold StubFile_delete.
    mrun (stub_deref_run s p f Hp).
    assert (Close (stub_fd f) (unix s) = Ok (tt, w)) as Ec by (unfold Close; by mrun E).
    mrun (on_unix_run _ s _ _ Ec). reflexivity.
Qed.
End Stub.

(** ** A small UNIX *)

Record Host := mkHost {
  host_files : gmap (list Z) (list Z);
  host_fds : gmap Z (list Z * Z);
  keyboard : list Z;
  display : list Z;
  host_random : Z
}.

Definition host_fresh (h : Host) : Z := 3 + Z.of_nat (base.size (host_fds h)).
Definition host_set_fd (fd : Z) (x : list Z * Z) (h : Host) : Host :=
  mkHost (host_files h) (<[fd := x]> (host_fds h)) (keyboard h) (display h) (host_random h).
Definition host_set_file (n c : list Z) (h : Host) : Host :=
  mkHost (<[n := c]> (host_files h)) (host_fds h) (keyboard h) (display h) (host_random h).

Definition host_open (name : list Z) (mode : open_mode) : M Host Z := fun h =>
  match mode, host_files h !! name with
  | Existing, None => Ok (-1, h)
  | Existing, Some _ => Ok (host_fresh h, host_set_fd (host_fresh h) (name, 0) h)
  | Truncate, _ => Ok (host_fresh h, host_set_fd (host_fresh h) (name, 0) (host_set_file name [] h))
  end.

Definition host_content (h : Host) (n : list Z) : list Z := default [] (host_files h !! n).

Definition host_read (fd n : Z) : M Host (Z * list Z) := fun h =>
  if fd =? 0 then
    let bs := slice 0 n (keyboard h) in
    Ok (zlength bs, bs, mkHost (host_files h) (host_fds h) (drop (length bs) (keyboard h)) (display h) (host_random h))
  else
    match host_fds h !! fd with
    | Some (name, o) =>
        let bs := slice o n (host_content h name) in
        Ok (zlength bs, bs, host_set_fd fd (name, o + zlength bs) h)
    | None => Ok (-1, [], h)
    end.

Definition host_write (fd : Z) (bs : list Z) : M Host Z := fun h =>
  if fd =? 1 then
    Ok (zlength bs, mkHost (host_files h) (host_fds h) (keyboard h) (display h ++ bs) (host_random h))
  else
    match host_fds h !! fd with
    | Some (name, o) =>
        Ok (zlength bs, host_set_fd fd (name, o + zlength bs)
             (host_set_file name (write_at o bs (host_content h name)) h))
    | None => Ok (-1, h)
    end.

(** lseek from the beginning (0), the current offset (1) or the end (2). *)
Definition host_lseek (fd offset whence : Z) : M Host Z := fun h =>
  match host_fds h !! fd with
  | Some (name, o) =>
      let base := if whence =? 0 then 0 else if whence =? 1 then o else zlength (host_content h name) in
      Ok (base + offset, host_set_fd fd (name, base + offset) h)
  | None => Ok (-1, h)
  end.

(** Descriptors are not used again. *)
Definition host_close (fd : Z) : M Host Z := fun h =>
  match host_fds h !! fd with Some _ => Ok (0, h) | None => Ok (-1, h) end.

Definition host_unlink (name : list Z) : M Host Z := fun h =>
  match host_files h !! name with
  | Some _ => Ok (0, mkHost (delete name (host_files h)) (host_fds h) (keyboard h) (display h) (host_random h))
  | None => Ok (-1, h)
  end.

#[export] Instance Host_unix : Unix Host := {|
  unix_open := host_open;
  unix_read := host_read;
  unix_write := host_write;
  unix_lseek := host_lseek;
  unix_close := host_close;
  unix_unlink := host_unlink;
  unix_select mask _ := fun h => Ok (if bool_decide (keyboard h = []) then 0 else 1, h);
  unix_rand := fun h => Ok (host_random h, h);
  unix_srand n := fun h => Ok (tt, mkHost (host_files h) (host_fds h) (keyboard h) (display h) n)
|}.

Definition host_desc (h : Host) (fd : Z) : option (list Z * Z) :=
  if (fd =? 0) || (fd =? 1) then None else
  match host_fds h !! fd with
  | Some (name, o) => Some (host_content h name, o)
  | None => None
  end.

Lemma host_desc_Some h fd c o :
  host_desc h fd = Some (c, o) <->
  fd <> 0 /\ fd <> 1 /\ exists name, host_fds h !! fd = Some (name, o) /\ host_content h name = c.
Proof.
  unfold host_desc. destruct (Z.eqb_spec fd 0), (Z.eqb_spec fd 1); cbn [orb]; [naive_solver..|].
  destruct (host_fds h !! fd) as [[name o']|]; naive_solver.
Qed.

#[export] Instance Host_UnixSpec : UnixSpec host_desc.
Proof.
  constructor; intros h fd c o.
  - intros pos (H0 & H1 & name & Hf & Hc)%host_desc_Some Hpos.
    exists (host_set_fd fd (name, pos) h). cbn. unfold host_lseek. rewrite Hf. cbn. split; [done|].
    apply host_desc_Some. split; [done|]. split; [done|]. exists name. split; [apply lookup_insert_eq|done].
  - intros (H0 & H1 & name & Hf & Hc)%host_desc_Some Hl.
    exists (host_set_fd fd (name, zlength c) h). cbn. unfold host_lseek. rewrite Hf, Hc, Z.add_0_r. split; [done|].
    apply host_desc_Some. split; [done|]. split; [done|]. exists name. split; [apply lookup_insert_eq|done].
  - intros (H0 & H1 & name & Hf & Hc)%host_desc_Some Ho.
    exists (host_set_fd fd (name, o) h). cbn. unfold host_lseek. rewrite Hf, Z.add_0_r. split; [done|].
    apply host_desc_Some. split; [done|]. split; [done|]. exists name. split; [apply lookup_insert_eq|done].
  - intros n (H0 & H1 & name & Hf & Hc)%host_desc_Some Ho Hn. cbn. unfold host_read.
    rewrite (proj2 (Z.eqb_neq fd 0)), Hf by done. rewrite Hc. eexists. split; [reflexivity|].
    apply host_desc_Some. split; [done|]. split; [done|]. exists name. split; [apply lookup_insert_eq|done].
  - intros bs (H0 & H1 & name & Hf & Hc)%host_desc_Some Ho. cbn. unfold host_write.
    rewrite (proj2 (Z.eqb_neq fd 1)), Hf by done. rewrite Hc. eexists. split; [reflexivity|].
    apply host_desc_Some. split; [done|]. split; [done|]. exists name. split; [apply lookup_insert_eq|].
    unfold host_content. cbn. by rewrite lookup_insert_eq.
  - intros (H0 & H1 & name & Hf & Hc)%host_desc_Some. exists h. cbn. unfold host_close. by rewrite Hf.
Qed.

(** A file of the host opened by the stub. *)
Definition host_file : Host := mkHost {[ [97] := [10; 20; 30; 40] ]} {[ 3 := ([97], 0) ]} [] [] 0.
Definition stub_file_a : Stub Host := mkStub host_file [Some (mkStubFile 3 1 0)] [].

Lemma StubFile_is_sequential_witness :
  (exists w, StubFile_Read 0%nat 2 stub_file_a =
     Ok (2, [20; 30], set_object 0%nat (mkStubFile 3 3 0) (set_unix w stub_file_a))) /\
  (exists w, StubFile_Write 0%nat [1; 2; 3; 4; 5] 5 stub_file_a =
     Ok (5, set_object 0%nat (mkStubFile 3 6 0) (set_unix w stub_file_a))) /\
  (exists w, StubFile_Length 0%nat stub_file_a = Ok (4, set_unix w stub_file_a)).
Proof.
  destruct (StubFile_is_sequential host_desc stub_file_a 0%nat (mkStubFile 3 1 0) [10; 20; 30; 40] 0 2 [])
    as [(w & E & _) _]; [done..|].
  destruct (StubFile_is_sequential host_desc stub_file_a 0%nat (mkStubFile 3 1 0) [10; 20; 30; 40] 0 5 [1; 2; 3; 4; 5])
    as (_ & H & Hl & _); [done..|].
  destruct (H ltac:(done)) as (w' & E' & _). destruct (Hl ltac:(done)) as (w2 & E2 & _).
  split; [by exists w|]. split; [by exists w'|by exists w2].
Defined.
