(* ===== verification/Interp.v ===== *)
(** * bin/execute.c, int.h, system.c: the interpreter of MIPS programs

    The host tool that interprets MIPS object files: the loop of runprogram
    with the whole switch, and the system calls, which it passes on to UNIX. The
    command line and the loading of the object file are in Loader.v. *)

From Stdlib Require Import Ascii String.
From stdpp Require Import base tactics list numbers gmap.
From S2P Require Import Prelude Text Machine Mips Disasm SysDep.

Local Open Scope Z_scope.

Definition MEMSIZE : Z := 2 ^ 24.
Definition memoffset : Z := 0x10000000.

(** The globals of the interpreter, with the variables [pc] and [npc] of
    runprogram and what has been printed. [mem] is a static array: the bytes
    that were not written are zero. *)
Record Interp (W : Type) := mkInterp {
  Reg : list Z;
  HI : Z;
  LO : Z;
  pc : Z;
  npc : Z;
  mem : gmap Z Z;
  out : list Z;
  host : W
}.
Arguments mkInterp {W} _ _ _ _ _ _ _ _.
Arguments Reg {W} _.
Arguments HI {W} _.
Arguments LO {W} _.
Arguments pc {W} _.
Arguments npc {W} _.
Arguments mem {W} _.
Arguments out {W} _.
Arguments host {W} _.

#[export, refine] Instance lens_host {W} : Lens W (Interp W) :=
  {| lget := host; lset w s := mkInterp (Reg s) (HI s) (LO s) (pc s) (npc s) (mem s) (out s) w |}.
Proof. all: by repeat intros []. Defined.

(** The system calls that system.c passes on besides those of [Unix]: open of a
    path with flags and mode, and ioctl, with the bytes it stores. *)
Class InterpUnix (W : Type) := {
  interp_open : list Z -> Z -> Z -> M W Z;
  interp_ioctl : Z -> Z -> M W (list Z);
  interp_getpagesize : Z
}.

Section Interp.
Context {W : Type} `{HU : Unix W, HI' : InterpUnix W}.
(** The options -t, -r and -T of main. *)
Context (TRACE Regtrace Traptrace : bool).

Abbreviation I := (M (Interp W)).

(** ** Registers *)

Definition set_Reg r (s : Interp W) := mkInterp r (HI s) (LO s) (pc s) (npc s) (mem s) (out s) (host s).
Definition set_HI v (s : Interp W) := mkInterp (Reg s) v (LO s) (pc s) (npc s) (mem s) (out s) (host s).
Definition set_LO v (s : Interp W) := mkInterp (Reg s) (HI s) v (pc s) (npc s) (mem s) (out s) (host s).
Definition set_pcs p n (s : Interp W) := mkInterp (Reg s) (HI s) (LO s) p n (mem s) (out s) (host s).
Definition set_mem m (s : Interp W) := mkInterp (Reg s) (HI s) (LO s) (pc s) (npc s) m (out s) (host s).

Definition getR (n : Z) : I Z := s <- get ;; must (zlookup (Reg s) n).
Definition setR (n v : Z) : I unit :=
  s <- get ;; r <- must (store n v (Reg s)) ;; put (set_Reg r s).
Definition set_npc (v : Z) : I unit := modify (fun s => set_pcs (pc s) v s).

(** ** Memory (int.h)

    An access is a host access at the address in the array [mem]; the host is
    little endian, like the object files that are accepted. *)

Fixpoint mem_bytes (m : gmap Z Z) (a : Z) (n : nat) : list Z :=
  match n with O => [] | S n => default 0 (m !! a) :: mem_bytes m (a + 1) n end.
Fixpoint mem_put (m : gmap Z Z) (a : Z) (bs : list Z) : gmap Z Z :=
  match bs with [] => m | b :: bs => mem_put (<[a := b]> m) (a + 1) bs end.

Definition inside (addr n : Z) : bool := (memoffset <=? addr) && (addr + n <=? memoffset + MEMSIZE).

Definition fetch_bytes (addr n : Z) : I (list Z) :=
  s <- get ;;
  if (0 <=? n) && inside addr n then ret (mem_bytes (mem s) (addr - memoffset) (Z.to_nat n)) else undef.
Definition put_bytes (addr : Z) (bs : list Z) : I unit :=
  s <- get ;;
  if inside addr (zlength bs) then put (set_mem (mem_put (mem s) (addr - memoffset) bs) s) else undef.

Definition i16 (z : Z) : Z := (z + 2 ^ 15) mod 2 ^ 16 - 2 ^ 15.

Definition fetch (addr : Z) : I Z := bs <- fetch_bytes addr 4 ;; ret (i32 (le_decode bs)).
Definition ifetch (addr : Z) : I Z := bs <- fetch_bytes addr 4 ;; ret (i32 (le_decode bs)).
Definition sfetch (addr : Z) : I Z := bs <- fetch_bytes addr 2 ;; ret (i16 (le_decode bs)).
Definition usfetch (addr : Z) : I Z := bs <- fetch_bytes addr 2 ;; ret (le_decode bs).
Definition cfetch (addr : Z) : I Z := bs <- fetch_bytes addr 1 ;; ret (i8 (le_decode bs)).
Definition ucfetch (addr : Z) : I Z := bs <- fetch_bytes addr 1 ;; ret (le_decode bs).
Definition store (addr i : Z) : I unit := put_bytes addr (le_encode 4 i).
Definition sstore (addr i : Z) : I unit := put_bytes addr (le_encode 2 i).
Definition cstore (addr i : Z) : I unit := put_bytes addr (le_encode 1 i).

(** ** Output and exits *)

Definition print (t : list Z) : I unit :=
  modify (fun s => mkInterp (Reg s) (HI s) (LO s) (pc s) (npc s) (mem s) (out s ++ t) (host s)).

(** exit(2), also behind the messages of u() and for the coprocessors. *)
Definition exit2 {A} : I A := abort.
Definition u {A} : I A := print (text "Unimplemented Instruction" ++ [10]) ;;; exit2.

Definition dump_row (label : string) (rs : list Z) : list Z :=
  text label ++ (rs ≫= (fun r => 32 :: hex8 r)) ++ [10].
Definition dump_reg : I unit :=
  s <- get ;;
  print (dump_row " 0:" (slice 0 8 (Reg s)) ++ dump_row " 8:" (slice 8 8 (Reg s)) ++
         dump_row "16:" (slice 16 8 (Reg s)) ++ dump_row "24:" (slice 24 8 (Reg s))).

(** ** System calls (system.c)

    The numbers are those of <syscall.h>. *)

Definition SYS_exit : Z := 1.
Definition SYS_read : Z := 3.
Definition SYS_write : Z := 4.
Definition SYS_open : Z := 5.
Definition SYS_close : Z := 6.
Definition SYS_lseek : Z := 19.
Definition SYS_ioctl : Z := 54.
Definition SYS_fstat : Z := 62.
Definition SYS_getpagesize : Z := 64.
Definition IOCPARM_MASK : Z := 0x7f.

(** The string at an address; UNIX refuses paths of [n] bytes and more. *)
Fixpoint c_string (n : nat) (addr : Z) : I (option (list Z)) :=
  match n with
  | O => ret None
  | S n =>
      c <- cfetch addr ;;
      if c =? 0 then ret (Some []) else o <- c_string n (addr + 1) ;; ret ((c ::.) <$> o)
  end.
Definition PATH_MAX : nat := 4096.

Definition ioctl_request (o1 : Z) : Z :=
  let size := Z.land (Z.shiftr o1 16) IOCPARM_MASK in
  let ioctl_group := i8 (Z.land (Z.shiftr o1 8) 0xff) in
  if (ioctl_group =? 116) && (size =? 8)
  then Z.lor (Z.land o1 (Z.lnot (Z.shiftl IOCPARM_MASK 16))) (Z.shiftl 6 16) else o1.

(** The call of fstat passes a user address to UNIX as it is. *)
Definition system_call (syscallno o0 o1 o2 : Z) : I unit :=
  switch syscallno
    [([SYS_exit], halt);
     ([SYS_read], '(r, bs) <- zoom (unix_read o0 o2) ;; put_bytes o1 bs ;;; setR 1 r);
     ([SYS_write], bs <- fetch_bytes o1 o2 ;; r <- zoom (unix_write o0 bs) ;; setR 1 r);
     ([SYS_open],
        path <- c_string PATH_MAX o0 ;;
        match path with
        | None => setR 1 (-1)
        | Some path => r <- zoom (interp_open path o1 o2) ;; setR 1 r
        end);
     ([SYS_close], setR 1 0);
     ([17], setR 1 (i32 ((Z.quot o0 8192 + 1) * 8192)));
     ([SYS_lseek], r <- zoom (unix_lseek o0 o1 o2) ;; setR 1 (i32 r));
     ([SYS_ioctl],
        bs <- zoom (interp_ioctl o0 (ioctl_request o1)) ;; put_bytes o2 bs ;;; setR 1 0);
     ([SYS_fstat], undef);
     ([SYS_getpagesize], setR 1 interp_getpagesize)]
    (print (text "Unknown System call " ++ decimal syscallno ++ [10]) ;;;
     (if Traptrace then ret tt else dump_reg) ;;; exit2).

Definition system_trap : I unit :=
  r2 <- getR 2 ;;
  (if Traptrace then print (text "**System call " ++ decimal r2 ++ [10]) ;;; dump_reg else ret tt) ;;;
  syscallno <- getR 2 ;; o0 <- getR 4 ;; o1 <- getR 5 ;; o2 <- getR 6 ;;
  system_call syscallno o0 o1 o2 ;;;
  if Traptrace then print (text "**Afterwards:" ++ [10]) ;;; dump_reg else ret tt.

Definition system_break : I unit :=
  (if Traptrace then print (text "**breakpoint ") else ret tt) ;;; system_trap.

(** ** The instructions (execute.c)

    [instr] is the instruction, [xpc] its address. A shift by a count outside
    0..31 and a division by zero are undefined. *)

Definition shift_count (n : Z) : bool := (0 <=? n) && (n <? 32).
Definition shl (x n : Z) : I Z := if shift_count n then ret (i32 (Z.shiftl x n)) else undef.
Definition shr (x n : Z) : I Z := if shift_count n then ret (i32 (Z.shiftr (u32 x) n)) else undef.
Definition sra (x n : Z) : I Z := if shift_count n then ret (Z.shiftr x n) else undef.

(** Reg[rd] = f(Reg[rs], Reg[rt]) *)
Definition set_rd (instr : Z) (f : Z -> Z -> I Z) : I unit :=
  a <- getR (rs instr) ;; b <- getR (rt instr) ;; v <- f a b ;; setR (rd instr) v.
(** Reg[rt] = f(Reg[rs], immed) *)
Definition set_rt (instr : Z) (f : Z -> Z -> Z) : I unit :=
  a <- getR (rs instr) ;; setR (rt instr) (f a (immed instr)).

(** The upper half from the four products of the halves; the sums of the lower
    two words are not carried. *)
Definition product_high (t1 t2 : Z) : Z :=
  let t1l := Z.land t1 0xffff in let t1h := Z.land (Z.shiftr t1 16) 0xffff in
  let t2l := Z.land t2 0xffff in let t2h := Z.land (Z.shiftr t2 16) 0xffff in
  i32 (i32 (i32 (t1h * t2h) + Z.shiftr (i32 (t1h * t2l)) 16) + Z.shiftr (i32 (t2h * t1l)) 16).

Definition mult (t1 t2 : Z) : I unit :=
  let neg := xorb (t1 <? 0) (t2 <? 0) in
  let t1 := if t1 <? 0 then i32 (- t1) else t1 in
  let t2 := if t2 <? 0 then i32 (- t2) else t2 in
  let lo := i32 (t1 * t2) in
  let hi := product_high t1 t2 in
  if neg then
    let lo := i32 (Z.lnot lo + 1) in
    let hi := Z.lnot hi in
    modify (set_LO lo) ;;; modify (set_HI (if lo =? 0 then i32 (hi + 1) else hi))
  else modify (set_LO lo) ;;; modify (set_HI hi).

Definition multu (t1 t2 : Z) : I unit :=
  modify (set_LO (i32 (t1 * t2))) ;;; modify (set_HI (product_high t1 t2)).

Definition divide (instr : Z) (q r : Z -> Z -> Z) (undefined : Z -> Z -> bool) : I unit :=
  a <- getR (rs instr) ;; b <- getR (rt instr) ;;
  if undefined a b then undef
  else modify (set_LO (q a b)) ;;; modify (set_HI (r a b)).

Definition special (instr xpc : Z) : I unit :=
  switch (Z.land instr 0x3f)
    [([I_SLL], b <- getR (rt instr) ;; v <- shl b (shamt instr) ;; setR (rd instr) v);
     ([I_SRL], b <- getR (rt instr) ;; v <- shr b (shamt instr) ;; setR (rd instr) v);
     ([I_SRA], b <- getR (rt instr) ;; v <- sra b (shamt instr) ;; setR (rd instr) v);
     ([I_SLLV], set_rd instr (fun a b => shl b a));
     ([I_SRLV], set_rd instr (fun a b => shr b a));
     ([I_SRAV], set_rd instr (fun a b => sra b a));
     ([I_JR], a <- getR (rs instr) ;; set_npc a);
     ([I_JALR], a <- getR (rs instr) ;; set_npc a ;;; setR (rd instr) (i32 (xpc + 8)));
     ([I_SYSCALL], system_trap);
     ([I_BREAK], system_break);
     ([I_MFHI], s <- get ;; setR (rd instr) (HI s));
     ([I_MTHI], a <- getR (rs instr) ;; modify (set_HI a));
     ([I_MFLO], s <- get ;; setR (rd instr) (LO s));
     ([I_MTLO], a <- getR (rs instr) ;; modify (set_LO a));
     ([I_MULT], a <- getR (rs instr) ;; b <- getR (rt instr) ;; mult a b);
     ([I_MULTU], a <- getR (rs instr) ;; b <- getR (rt instr) ;; multu a b);
     ([I_DIV], divide instr Z.quot Z.rem (fun a b => (b =? 0) || ((a =? - 2 ^ 31) && (b =? -1))));
     ([I_DIVU], divide instr (fun a b => i32 (u32 a / u32 b)) (fun a b => i32 (u32 a mod u32 b))
                  (fun a b => u32 b =? 0));
     ([I_ADD; I_ADDU], set_rd instr (fun a b => ret (i32 (a + b))));
     ([I_SUB; I_SUBU], set_rd instr (fun a b => ret (i32 (a - b))));
     ([I_AND], set_rd instr (fun a b => ret (Z.land a b)));
     ([I_OR], set_rd instr (fun a b => ret (Z.lor a b)));
     ([I_XOR], set_rd instr (fun a b => ret (Z.lxor a b)));
     ([I_NOR], set_rd instr (fun a b => ret (Z.lnot (Z.lor a b))));
     ([I_SLT], set_rd instr (fun a b => ret (bit_of (a <? b))));
     ([I_SLTU], set_rd instr (fun a b => ret (bit_of (u32 a <? u32 b))))]
    u.

(** npc = xpc + 4 + (immed(instr)<<2) *)
Definition branch (instr xpc : Z) (taken : bool) : I unit :=
  if taken then set_npc (i32 (i32 (xpc + 4) + off16 instr)) else ret tt.

Definition bcond (instr xpc : Z) : I unit :=
  switch (rt instr)
    [([I_BLTZ], a <- getR (rs instr) ;; branch instr xpc (a <? 0));
     ([I_BGEZ], a <- getR (rs instr) ;; branch instr xpc (a >=? 0));
     ([I_BLTZAL], setR 31 (i32 (xpc + 8)) ;;; a <- getR (rs instr) ;; branch instr xpc (a <? 0));
     ([I_BGEZAL], setR 31 (i32 (xpc + 8)) ;;; a <- getR (rs instr) ;; branch instr xpc (a >=? 0))]
    u.

Definition jump_to (instr xpc : Z) : Z :=
  i32 (Z.lor (Z.land (u32 xpc) 0xf0000000) (u32 (i32 (Z.shiftl (Z.land instr 0x03ffffff) 2)))).

(** Reg[rs(instr)] + immed(instr) *)
Definition address (instr : Z) : I Z := a <- getR (rs instr) ;; ret (i32 (a + immed instr)).
(** Reg[rt(instr)] = f(address) *)
Definition load (instr : Z) (f : Z -> I Z) : I unit :=
  i <- address instr ;; v <- f i ;; setR (rt instr) v.
Definition store_rt (instr : Z) (f : Z -> Z -> I unit) : I unit :=
  i <- address instr ;; v <- getR (rt instr) ;; f i v.

Definition lwl (instr : Z) : I unit :=
  i <- address instr ;;
  r <- getR (rt instr) ;; m <- sra (-1) (8 * Z.land (i32 (- i)) 0x03) ;; setR (rt instr) (Z.land r m) ;;;
  r <- getR (rt instr) ;; w <- fetch (i32 (Z.land (u32 i) 0xfffffffc)) ;; v <- shl w (8 * Z.land i 0x03) ;;
  setR (rt instr) (Z.lor r v).

Definition lwr (instr : Z) : I unit :=
  i <- address instr ;;
  r <- getR (rt instr) ;; m <- shl (-1) (8 * Z.land i 0x03) ;; setR (rt instr) (Z.land r m) ;;;
  (if Z.land i 0x03 =? 0 then setR (rt instr) 0 else ret tt) ;;;
  r <- getR (rt instr) ;; w <- fetch (i32 (Z.land (u32 i) 0xfffffffc)) ;;
  v <- sra w (8 * Z.land (i32 (- i)) 0x03) ;;
  setR (rt instr) (Z.lor r v).

Definition execute (instr xpc : Z) : I unit :=
  switch (Z.land (Z.shiftr instr 26) 0x3f)
    [([I_SPECIAL], special instr xpc);
     ([I_BCOND], bcond instr xpc);
     ([I_J], set_npc (jump_to instr xpc));
     ([I_JAL], setR 31 (i32 (xpc + 8)) ;;; set_npc (jump_to instr xpc));
     ([I_BEQ], a <- getR (rs instr) ;; b <- getR (rt instr) ;; branch instr xpc (a =? b));
     ([I_BNE], a <- getR (rs instr) ;; b <- getR (rt instr) ;; branch instr xpc (negb (a =? b)));
     ([I_BLEZ], a <- getR (rs instr) ;; branch instr xpc (a <=? 0));
     ([I_BGTZ], a <- getR (rs instr) ;; branch instr xpc (a >? 0));
     ([I_ADDI], set_rt instr (fun a i => i32 (a + i)));
     ([I_ADDIU], set_rt instr (fun a i => i32 (a + i)));
     ([I_SLTI], set_rt instr (fun a i => bit_of (a <? i)));
     ([I_SLTIU], set_rt instr (fun a i => bit_of (u32 a <? u32 i)));
     ([I_ANDI], set_rt instr Z.land);
     ([I_ORI], set_rt instr Z.lor);
     ([I_XORI], set_rt instr Z.lxor);
     ([I_LUI], setR (rt instr) (i32 (Z.shiftl instr 16)));
     ([I_LB], load instr cfetch);
     ([I_LH], load instr sfetch);
     ([I_LWL], lwl instr);
     ([I_LW], load instr fetch);
     ([I_LBU], load instr ucfetch);
     ([I_LHU], load instr usfetch);
     ([I_LWR], lwr instr);
     ([I_SB], store_rt instr cstore);
     ([I_SH], store_rt instr sstore);
     ([I_SWL], u);
     ([I_SW], store_rt instr store);
     ([I_SWR], u);
     ([I_LWC0; I_LWC1; I_LWC2; I_LWC3; I_SWC0; I_SWC1; I_SWC2; I_SWC3; I_COP0; I_COP1; I_COP2; I_COP3], exit2)]
    u.

(** One turn of the loop of runprogram. *)
Definition turn : I unit :=
  s <- get ;;
  let xpc := pc s in
  put (set_pcs (npc s) (i32 (npc s + 4)) s) ;;;
  instr <- ifetch xpc ;;
  setR 0 0 ;;;
  (if negb (instr =? 0) then execute instr xpc else ret tt) ;;;
  if TRACE then
    t <- must (dump_ascii instr xpc) ;; print (t ++ [10]) ;;;
    if Regtrace then dump_reg else ret tt
  else ret tt.

(** The arguments on the stack: pointers from [aci] on, strings from [ai] on. *)
Fixpoint put_args (argv : list (list Z)) (aci ai : Z) : I unit :=
  match argv with
  | [] => ret tt
  | arg :: argv =>
      put_bytes ai (arg ++ [0]) ;;; store aci ai ;;;
      put_args argv (i32 (aci + 4)) (i32 (ai + zlength arg + 1))
  end.

(** runprogram up to its [n]-th instruction: the loop has no end. *)
Definition runprogram (n : nat) (startpc : Z) (argv : list (list Z)) : I unit :=
  modify (set_pcs startpc (i32 (startpc + 4))) ;;;
  let i := MEMSIZE - 1024 + memoffset in
  setR 29 i ;;;
  store i (zlength argv) ;;;
  put_args argv (i + 4) (i + 4 + 32) ;;;
  for_ 0 n (fun _ => turn).
End Interp.
