(* ===== verification/InterpSpec.v ===== *)
(** * The interpreter of the tools and the simulator of Nachos agree

    bin/execute.c and machine/mipssim.cc interpret the same instruction set. One
    step of either keeps a relation between their states, for the instructions
    to which the two give the same meaning; the relation takes a delayed load
    as delivered, since the interpreter loads at once. *)

From stdpp Require Import base tactics list numbers gmap.
From S2P Require Import Prelude Lists Interrupt Text Machine Mips Disasm BitMap AddrSpace Disk OpenFile Directory FileSys SysDep Host Interp.

Local Open Scope Z_scope.

(** ** The bytes in memory *)

Lemma mem_bytes_lookup m n a i :
  (i < n)%nat -> mem_bytes m a n !! i = Some (default 0 (m !! (a + Z.of_nat i))).
Proof.
  revert a i. induction n as [|n IH]; intros a [|i] Hi; try lia; simpl.
  - by rewrite Z.add_0_r.
  - rewrite IH by lia. do 3 f_equal. lia.
Qed.

Lemma length_mem_bytes m a n : length (mem_bytes m a n) = n.
Proof. revert a. induction n; intros; simpl; auto. Qed.

Lemma mem_put_lookup bs m a j :
  mem_put m a bs !! j = if decide (a <= j < a + zlength bs) then zlookup bs (j - a) else m !! j.
Proof.
  revert m a. unfold zlength. induction bs as [|b bs IH]; intros m a; simpl.
  { by rewrite decide_False by lia. }
  rewrite IH. destruct (decide (a = j)) as [->|].
  - rewrite decide_False, decide_True by lia. rewrite lookup_insert_eq. by rewrite Z.sub_diag.
  - rewrite lookup_insert_ne by done.
    destruct (decide (a + 1 <= j < a + 1 + Z.of_nat (length bs))).
    + rewrite decide_True by lia. unfold zlookup.
      destruct (Z.ltb_spec (j - (a + 1)) 0), (Z.ltb_spec (j - a) 0); try lia.
      replace (Z.to_nat (j - a)) with (S (Z.to_nat (j - (a + 1)))) by lia. done.
    + by rewrite decide_False by lia.
Qed.

(** The physical address of a byte of the user's memory. *)
Definition frame (t : list TranslationEntry) (va p : Z) : Prop :=
  exists e, zlookup t (vpn_of va) = Some e /\ valid e = true /\ u32 (physicalPage e) < NumPhysPages /\
    p = u32 (physicalPage e) * PageSize + u32 va mod PageSize.

(** An access that is translated is in one frame. *)
Lemma translation_frame t va size w p j :
  is_i32 va -> access_size size -> translation t va size w = (NoException, Some p) -> 0 <= j < size ->
  is_i32 (va + j) /\ frame t (va + j) (p + j).
Proof.
  intros Hva Hs E Hj. pose proof (translation_phys _ _ _ _ _ _ Hs E) as (_ & _ & _ & Hal & e & He & Hv & _ & Hp & Hf).
  assert (va mod size = 0) as Ha.
  { unfold translation in E. destruct (Z.eqb_spec (va mod size) 0); [done|discriminate]. }
  assert (u32 (va + j) / PageSize = u32 va / PageSize /\ u32 (va + j) mod PageSize = u32 va mod PageSize + j) as [H1 H2].
  { unfold u32, PageSize, SectorSize. destruct Hs as [-> | [-> | ->]]; split; dlia. }
  split; [unfold is_i32 in *; destruct Hs as [-> | [-> | ->]]; dlia|].
  exists e. unfold vpn_of. rewrite H1, H2. split_and!; [done..|]. lia.
Qed.

Lemma frame_functional t va p p' : frame t va p -> frame t va p' -> p = p'.
Proof. intros (e & H1 & _ & _ & ->) (e' & H2 & _ & _ & ->). by simplify_eq. Qed.

#[export] Instance frame_proper : Proper (same_mapping ==> eq ==> eq ==> iff) frame.
Proof.
  assert (forall t t' va p, same_mapping t t' -> frame t va p -> frame t' va p) as H.
  { intros t t' va p Ht (e & E & Hv & Hf & ->).
    pose proof (same_mapping_lookup _ _ (vpn_of va) Ht) as Hl. rewrite E in Hl.
    destruct (zlookup t' (vpn_of va)) as [e'|] eqn:E'; simpl in Hl; [|done].
    unfold mapping in Hl. simplify_eq. exists e'. destruct e, e'; simpl in *; subst. done. }
  intros t t' Ht va ? <- p ? <-. split; apply H; [done|by symmetry].
Qed.

Section Spec.
Context {W : Type} `{HU : Unix W, HI' : InterpUnix W}.
Context (be : bool) {K : Type} `{!Lens Machine K}.
Context (setStatus : MachineStatus -> M K unit).
Context (ExceptionHandler : ExceptionType -> M K unit).

(** ** The same memory

    Every byte the user program has, in its page table [t] on the one side, is
    in the array of the interpreter; no two addresses share a byte. *)
Record same_memory (s : Interp W) (m : Machine) (t : list TranslationEntry) : Prop := {
  bytes_same : forall va p, is_i32 va -> frame t va p ->
    inside va 1 = true /\ zlookup (mainMemory m) p = Some (default 0 (mem s !! (va - memoffset)));
  frames_distinct : forall va va' p, is_i32 va -> is_i32 va' -> frame t va p -> frame t va' p -> va = va'
}.

Lemma fetch_same s m t va size w p :
  same_memory s m t -> is_i32 va -> access_size size -> translation t va size w = (NoException, Some p) ->
  fetch_bytes va size s = Ok (slice p size (mainMemory m), s).
Proof.
  intros Hm Hva Hs E. pose proof (translation_frame t va size w p) as Hf.
  assert (0 < size) as H0 by (destruct Hs as [-> | [-> | ->]]; lia).
  pose proof (fun j Hj => bytes_same _ _ _ Hm _ _ (proj1 (Hf j Hva Hs E Hj)) (proj2 (Hf j Hva Hs E Hj))) as Hb.
  unfold fetch_bytes. munfold.
  assert (inside va size = true) as ->.
  { pose proof (proj1 (Hb 0 ltac:(lia))) as B1. pose proof (proj1 (Hb (size - 1) ltac:(lia))) as B2.
    unfold inside in *. apply andb_true_iff in B1 as [B1 _], B2 as [_ B2]. apply andb_true_iff.
    apply Z.leb_le in B1, B2. split; apply Z.leb_le; lia. }
  rewrite (proj2 (Z.leb_le 0 size)) by lia. simpl. do 2 f_equal.
  pose proof (translation_phys _ _ _ _ _ _ Hs E) as (_ & Hp & _).
  apply zlookup_ext. intros j Hj. destruct (decide (j < size)).
  - rewrite zlookup_slice by lia. destruct (Hb j ltac:(lia)) as [_ ->].
    unfold zlookup. destruct (Z.ltb_spec j 0); [lia|]. rewrite mem_bytes_lookup by lia.
    do 3 f_equal. lia.
  - transitivity (@None Z); [|symmetry]; apply zlookup_None; right; unfold zlength.
    + rewrite length_mem_bytes. lia.
    + unfold slice. rewrite length_take. lia.
Qed.

Lemma put_same s m t va size w p bs :
  same_memory s m t -> memory_wf m -> is_i32 va -> access_size size ->
  translation t va size w = (NoException, Some p) -> zlength bs = size ->
  put_bytes va bs s = Ok (tt, set_mem (mem_put (mem s) (va - memoffset) bs) s) /\
  same_memory (set_mem (mem_put (mem s) (va - memoffset) bs) s) (set_mainMemory (splice p bs (mainMemory m)) m) t.
Proof.
  intros Hm [Hlen _] Hva Hs E Hbs. pose proof (translation_frame t va size w p) as Hf.
  assert (0 < size) as H0 by (destruct Hs as [-> | [-> | ->]]; lia).
  pose proof (translation_phys _ _ _ _ _ _ Hs E) as (_ & Hp & Hp' & _).
  split.
  - unfold put_bytes. munfold. rewrite Hbs.
    assert (inside va size = true) as ->; [|done].
    pose proof (proj1 (bytes_same _ _ _ Hm _ _ (proj1 (Hf 0 Hva Hs E ltac:(lia))) (proj2 (Hf 0 Hva Hs E ltac:(lia))))) as B1.
    pose proof (proj1 (bytes_same _ _ _ Hm _ _ (proj1 (Hf (size - 1) Hva Hs E ltac:(lia))) (proj2 (Hf (size - 1) Hva Hs E ltac:(lia))))) as B2.
    unfold inside in *. apply andb_true_iff in B1 as [B1 _], B2 as [_ B2]. apply andb_true_iff.
    apply Z.leb_le in B1, B2. split; apply Z.leb_le; lia.
  - constructor; [|by destruct Hm]. intros va' p' Hva' Hfr. simpl.
    destruct (bytes_same _ _ _ Hm va' p' Hva' Hfr) as [Hin Hold]. split; [done|].
    rewrite zlookup_splice by (rewrite ?Hbs, ?Hlen; lia). rewrite mem_put_lookup, Hbs.
    destruct (decide (p <= p' < p + size)) as [Hr|Hr].
    + assert (va' = va + (p' - p)) as ->.
      { destruct (Hf (p' - p) Hva Hs E ltac:(lia)) as [Hi Hfr']. replace (p + (p' - p)) with p' in Hfr' by lia.
        by apply (frames_distinct _ _ _ Hm va' (va + (p' - p)) p'). }
      rewrite decide_True by lia. replace (va + (p' - p) - memoffset - (va - memoffset)) with (p' - p) by lia.
      destruct (proj2 (zlookup_is_Some bs (p' - p)) ltac:(lia)) as [b Eb]. by rewrite Eb.
    + rewrite decide_False; [done|]. intros Hc. apply Hr.
      destruct (Hf (va' - va) Hva Hs E ltac:(lia)) as [_ Hfr']. replace (va + (va' - va)) with va' in Hfr' by lia.
      rewrite (frame_functional _ _ _ _ Hfr Hfr'). lia.
Qed.

Lemma same_memory_ext s s' m m' t t' :
  same_memory s m t -> mem s' = mem s -> mainMemory m' = mainMemory m -> same_mapping t' t -> same_memory s' m' t'.
Proof.
  intros [H1 H2] Es Em Ht. constructor.
  - intros va p Hva Hf. rewrite Ht in Hf. rewrite Es, Em. by apply H1.
  - intros va va' p ? ? Hf Hf'. rewrite Ht in Hf, Hf'. by apply (H2 va va' p).
Qed.

(** ** The same registers

    [delivered m r] is what register [r] holds after the delayed load. *)
Definition delivered (m : Machine) (r : Z) : option Z :=
  match zlookup (registers m) LoadReg with
  | Some l => zlookup (registers m) (if l =? r then LoadValueReg else r)
  | None => None
  end.

(** The states inside an instruction; a load of [v] into register [l] has been
    done by the interpreter and is to be delayed by the simulator. *)
Record linked_with (l v : Z) (s : Interp W) (k : K) (t : list TranslationEntry) : Prop := {
  lk_machine : machine_ok (lget k);
  lk_length : zlength (Reg s) = 32;
  lk_regs : forall r, 1 <= r < 32 -> zlookup (Reg s) r = if l =? r then Some v else delivered (lget k) r;
  lk_HI : zlookup (registers (lget k)) HiReg = Some (HI s);
  lk_LO : zlookup (registers (lget k)) LoReg = Some (LO s);
  lk_pc : zlookup (registers (lget k)) NextPCReg = Some (pc s);
  lk_paged : exists a t', paged (lget k) a t' /\ same_mapping t' t;
  lk_memory : same_memory s (lget k) t
}.
Abbreviation linked := (linked_with 0 0).

(** Register 0 is zero on both sides. *)
Definition zeros (s : Interp W) (k : K) : Prop := zlookup (Reg s) 0 = Some 0 /\ R0_zero (lget k).

(** No load of register [r] is pending. *)
Definition settled (m : Machine) (r : Z) : Prop := zlookup (registers m) LoadReg = Some r -> r = 0.

Lemma linked_regs s k t r : linked s k t -> 1 <= r < 32 -> zlookup (Reg s) r = delivered (lget k) r.
Proof. intros H Hr. rewrite (lk_regs _ _ _ _ _ H r Hr). by destruct (Z.eqb_spec 0 r); [lia|]. Qed.

Lemma read_same s k t r :
  linked s k t -> zeros s k -> 0 <= r < 32 -> settled (lget k) r ->
  exists v, is_i32 v /\ zlookup (registers (lget k)) r = Some v /\
    getR r s = Ok (v, s) /\ zoom (reg r) k = Ok (v, k).
Proof.
  intros Hl [Z1 Z2] Hr Hp. pose proof (ok_regs _ (lk_machine _ _ _ _ _ Hl)) as Hw.
  destruct (reg_run (lget k) r Hw) as (v & _ & Ev & Hv); [unfold NumTotalRegs, NumGPRegs; lia|].
  exists v. split_and!; try done.
  - unfold getR. munfold. enough (zlookup (Reg s) r = Some v) as -> by done.
    destruct (decide (r = 0)) as [->|].
    + unfold R0_zero in Z2. congruence.
    + rewrite (linked_regs s k t) by (done || lia). unfold delivered, settled in *.
      destruct (regs_load _ Hw) as (l & El & _). rewrite El in Hp |- *.
      destruct (Z.eqb_spec l r) as [->|]; [|done]. by specialize (Hp eq_refl).
  - by rewrite (reg_lookup _ _ _ Ev).
Qed.

Definition put_reg (r v : Z) (k : K) : K := lset (set_registers (zinsert r v (registers (lget k))) (lget k)) k.

Lemma zoom_reg_lookup r k v : zoom (reg r) k = Ok (v, k) -> zlookup (registers (lget k)) r = Some v.
Proof. unfold zoom, reg. munfold. destruct (zlookup _ r); [|done]. intros E. by injection E as ->. Qed.

Lemma reg_i32 k n v : machine_ok (lget k) -> zlookup (registers (lget k)) n = Some v -> is_i32 v.
Proof.
  intros Hm E. apply zlookup_Some in E as [_ E]. by apply (Forall_lookup_1 _ _ _ _ (regs_i32 _ (ok_regs _ Hm)) E).
Qed.

Lemma put_reg_run s k t r v :
  linked s k t -> 0 <= r < NumTotalRegs -> zoom (set_reg r v) k = Ok (tt, put_reg r v k).
Proof.
  intros Hl Hr. apply zoom_Ok, set_reg_run; [|done]. apply (ok_regs _ (lk_machine _ _ _ _ _ Hl)).
Qed.

Lemma registers_put r v k : registers (lget (put_reg r v k)) = zinsert r v (registers (lget k)).
Proof. unfold put_reg. by rewrite lget_lset. Qed.

Lemma setR_run (s : Interp W) r v : zlength (Reg s) = 32 -> 0 <= r < 32 ->
  setR r v s = Ok (tt, set_Reg (zinsert r v (Reg s)) s).
Proof.
  intros Hl Hr. unfold setR. munfold. rewrite (proj2 (store_Some (Reg s) r v (zinsert r v (Reg s)))); [done|]. split; [lia|done].
Qed.

Lemma delivered_put r v r' k :
  regs_wf (lget k) -> 0 <= r < 32 -> settled (lget k) r -> 1 <= r' < 32 ->
  delivered (lget (put_reg r v k)) r' = if r =? r' then Some v else delivered (lget k) r'.
Proof.
  intros Hw Hr Hp Hr'. unfold delivered, settled in *. rewrite registers_put.
  unfold LoadReg, LoadValueReg, NumTotalRegs in *. rewrite !(zlookup_zinsert_ne _ r 37) by lia.
  destruct (regs_load _ Hw) as (l & El & Hlb). unfold LoadReg in El. rewrite El in Hp |- *.
  destruct (Z.eqb_spec r r') as [<-|].
  - destruct (Z.eqb_spec l r) as [->|]; [specialize (Hp eq_refl); lia|].
    rewrite zlookup_zinsert_eq; [done|]. rewrite (regs_length _ Hw). unfold NumTotalRegs. lia.
  - destruct (Z.eqb_spec l r'); rewrite zlookup_zinsert_ne by lia; done.
Qed.

Lemma linked_put s k t r v :
  linked s k t -> 0 <= r < 32 -> settled (lget k) r -> is_i32 v ->
  linked (set_Reg (zinsert r v (Reg s)) s) (put_reg r v k) t.
Proof.
  intros Hl Hr Hp Hv. pose proof (lk_machine _ _ _ _ _ Hl) as Hm. pose proof (ok_regs _ Hm) as Hw.
  constructor; cbn [set_Reg Reg HI LO pc mem].
  - unfold put_reg. rewrite lget_lset. apply set_registers_ok; try done; unfold NumTotalRegs, LoadReg; lia.
  - by rewrite zlength_zinsert, (lk_length _ _ _ _ _ Hl).
  - intros r' Hr'. rewrite delivered_put by done.
    destruct (Z.eqb_spec 0 r'); [lia|]. destruct (Z.eqb_spec r r') as [<-|].
    + rewrite zlookup_zinsert_eq; [done|]. rewrite (lk_length _ _ _ _ _ Hl). lia.
    + rewrite zlookup_zinsert_ne by done. by apply (linked_regs _ _ _ _ Hl).
  - rewrite registers_put, zlookup_zinsert_ne by (unfold HiReg; lia). apply (lk_HI _ _ _ _ _ Hl).
  - rewrite registers_put, zlookup_zinsert_ne by (unfold LoReg; lia). apply (lk_LO _ _ _ _ _ Hl).
  - rewrite registers_put, zlookup_zinsert_ne by (unfold NextPCReg; lia). apply (lk_pc _ _ _ _ _ Hl).
  - unfold put_reg. rewrite lget_lset. destruct (lk_paged _ _ _ _ _ Hl) as (a & t' & Hpg & Ht).
    exists a, t'. split; [by destruct Hpg|done].
  - unfold put_reg. rewrite lget_lset. by apply (same_memory_ext s _ (lget k) _ t t (lk_memory _ _ _ _ _ Hl)).
Qed.

(** ** Simulation of an instruction

    The interpreter returns, the simulator comes to the end of its switch with
    what it needs to finish the instruction, and the states are linked. *)

Definition ends_linked (s : Interp W) (k : K) (t : list TranslationEntry)
    (ms : M (Interp W) unit) (mk : M K step_end) : Prop :=
  exists s' k' l v, ms s = Ok (tt, s') /\ mk k = Ok (Done (npc s') l v, k') /\
    linked_with l v s' k' t /\ 0 <= l < NumGPRegs /\ is_i32 v /\ is_i32 (npc s') /\
    zlookup (registers (lget k')) PCReg = zlookup (registers (lget k)) PCReg /\
    pc s' = pc s /\ host s' = host s /\ out s' = out s.

Lemma ends_l {A} s k t (m : M (Interp W) A) f mk x :
  m s = Ok (x, s) -> ends_linked s k t (f x) mk -> ends_linked s k t (bind m f) mk.
Proof. intros E (s' & k' & l & v & E1 & H). exists s', k', l, v. by rewrite (bind_Ok _ _ _ _ _ E). Qed.

Lemma ends_r {A} s k t ms (m : M K A) f x :
  m k = Ok (x, k) -> ends_linked s k t ms (f x) -> ends_linked s k t ms (bind m f).
Proof. intros E (s' & k' & l & v & E1 & E2 & H). exists s', k', l, v. by rewrite (bind_Ok _ _ _ _ _ E). Qed.

Lemma ends_ret s k t : linked s k t -> is_i32 (npc s) -> ends_linked s k t (ret tt) (finish (npc s)).
Proof. intros Hl Hn. exists s, k, 0, 0. split_and!; done. Qed.

Lemma ends_npc s k t v : linked s k t -> is_i32 v -> ends_linked s k t (set_npc v) (finish v).
Proof.
  intros Hl Hn. exists (set_pcs (pc s) v s), k, 0, 0. split_and!; try done.
  destruct Hl; constructor; try done. by apply (same_memory_ext s _ (lget k) _ t t).
Qed.

(** A register is written on both sides before what follows. *)
Lemma ends_put s k t r v (f : unit -> M (Interp W) unit) (g : unit -> M K step_end) :
  linked s k t -> 0 <= r < 32 -> settled (lget k) r -> is_i32 v ->
  (let s' := set_Reg (zinsert r v (Reg s)) s in let k' := put_reg r v k in
   linked s' k' t -> (forall r', r' <> r -> zlookup (registers (lget k')) r' = zlookup (registers (lget k)) r') ->
   (r <> 0 -> zeros s k -> zeros s' k') ->
   ends_linked s' k' t (f tt) (g tt)) ->
  ends_linked s k t (bind (setR r v) f) (bind (zoom (set_reg r v)) g).
Proof.
  intros Hl Hr Hp Hv H. pose proof (lk_length _ _ _ _ _ Hl) as Hn.
  assert (forall r', r' <> r -> zlookup (registers (lget (put_reg r v k))) r' = zlookup (registers (lget k)) r') as Hk
    by (intros r' Hne; rewrite registers_put; by rewrite zlookup_zinsert_ne by done).
  destruct H as (s' & k' & l & w & E1 & E2 & H1 & H2 & H3 & H4 & H5 & H6 & H7 & H8); [by apply linked_put|done| |].
  { intros Hr0 [Z1 Z2]. split; [simpl; by rewrite zlookup_zinsert_ne by done|].
    unfold R0_zero in *. by rewrite Hk by done. }
  exists s', k', l, w. rewrite (bind_Ok _ _ _ _ _ (setR_run s r v Hn Hr)).
  rewrite (bind_Ok _ _ _ _ _ (put_reg_run s k t r v Hl ltac:(unfold NumTotalRegs, NumGPRegs; lia))).
  refine (conj E1 (conj E2 (conj H1 (conj H2 (conj H3 (conj H4 (conj _ (conj H6 (conj H7 H8))))))))).
  rewrite H5. apply Hk. unfold PCReg. lia.
Qed.

Lemma ends_setR s k t r v :
  linked s k t -> 0 <= r < 32 -> settled (lget k) r -> is_i32 v -> is_i32 (npc s) ->
  ends_linked s k t (setR r v) (zoom (set_reg r v) ;;; finish (npc s)).
Proof.
  intros Hl Hr Hp Hv Hn.
  destruct (ends_put s k t r v (fun _ => ret tt) (fun _ => finish (npc s)) Hl Hr Hp Hv) as (s' & k' & l & w & E1 & H).
  { intros s' k' Hl' _ _. by apply (ends_ret s'). }
  exists s', k', l, w. split; [|done]. rewrite <- E1. unfold bind, obind, ret.
  by destruct (setR r v s) as [[[] ?]| | |].
Qed.

Lemma ends_load s k t r v :
  linked s k t -> 0 <= r < 32 -> is_i32 v -> is_i32 (npc s) ->
  ends_linked s k t (setR r v) (load_later (npc s) r v).
Proof.
  intros Hl Hr Hv Hn. exists (set_Reg (zinsert r v (Reg s)) s), k, r, v.
  rewrite setR_run by (done || apply (lk_length _ _ _ _ _ Hl)).
  split_and!; try done; try (unfold NumGPRegs; lia).
  destruct Hl; constructor; cbn [set_Reg Reg HI LO pc mem]; try done.
  - by rewrite zlength_zinsert.
  - intros r' Hr'. destruct (Z.eqb_spec r r') as [<-|].
    + apply zlookup_zinsert_eq. lia.
    + rewrite zlookup_zinsert_ne by done. rewrite lk_regs0 by done. by destruct (Z.eqb_spec 0 r'); [lia|].
  - by apply (same_memory_ext s _ (lget k) _ t t).
Qed.

(** The same, of computations that are equal on the state. *)
Lemma ends_ext s k t ms ms' mk mk' :
  ms s = ms' s -> mk k = mk' k -> ends_linked s k t ms' mk' -> ends_linked s k t ms mk.
Proof. intros E1 E2 (s' & k' & l & v & H). exists s', k', l, v. by rewrite E1, E2. Qed.

(** A value is computed and written to a register. *)
Lemma ends_set s k t r v v' (m : M (Interp W) Z) :
  linked s k t -> 0 <= r < 32 -> settled (lget k) r -> is_i32 v -> is_i32 (npc s) ->
  m s = Ok (v, s) -> v' = v ->
  ends_linked s k t (x <- m ;; setR r x) (zoom (set_reg r v') ;;; finish (npc s)).
Proof. intros Hl Hr Hp Hv Hn E ->. eapply ends_l; [exact E|]. by apply ends_setR. Qed.

(** HI and LO *)
Lemma linked_move s s' k t n v :
  linked s k t -> is_i32 v ->
  (n = HiReg /\ s' = set_HI v s \/ n = LoReg /\ s' = set_LO v s) -> linked s' (put_reg n v k) t.
Proof.
  intros Hl Hv Hn. assert (n = 32 \/ n = 33) as Hn' by (unfold HiReg, LoReg in Hn; lia).
  pose proof (lk_machine _ _ _ _ _ Hl) as Hm. pose proof (regs_length _ (ok_regs _ Hm)) as Hlen.
  unfold NumTotalRegs in Hlen.
  assert (forall r, 1 <= r < 32 -> delivered (lget (put_reg n v k)) r = delivered (lget k) r) as Hd.
  { intros r Hr. unfold delivered. rewrite registers_put. unfold LoadReg, LoadValueReg.
    rewrite !(zlookup_zinsert_ne _ n 37) by lia. destruct (zlookup _ 37); [|done].
    by rewrite zlookup_zinsert_ne by (destruct (_ =? _); lia). }
  assert (machine_ok (lget (put_reg n v k))) as Hm'.
  { unfold put_reg. rewrite lget_lset. apply set_registers_ok; unfold NumTotalRegs, NumGPRegs, LoadReg; [done|lia|done|lia]. }
  assert (exists a t', paged (lget (put_reg n v k)) a t' /\ same_mapping t' t) as Hpg.
  { unfold put_reg. rewrite lget_lset. destruct (lk_paged _ _ _ _ _ Hl) as (a & t' & Hpg & Ht).
    exists a, t'. split; [by destruct Hpg|done]. }
  assert (same_memory s' (lget (put_reg n v k)) t) as Hmem.
  { unfold put_reg. rewrite lget_lset. apply (same_memory_ext s _ (lget k) _ t t (lk_memory _ _ _ _ _ Hl)); try done.
    by destruct Hn as [[_ ->]|[_ ->]]. }
  destruct Hl, Hn as [[-> ->]|[-> ->]]; constructor; cbn [set_HI set_LO Reg HI LO pc mem]; try done.
  all: try (intros r Hr; rewrite Hd by done; by apply lk_regs0).
  all: rewrite registers_put.
  all: first [by rewrite zlookup_zinsert_ne by (unfold HiReg, LoReg, NextPCReg; lia)
             |rewrite zlookup_zinsert_eq; [done|unfold HiReg, LoReg; lia]].
Qed.

Lemma ends_moved s s' k k' t ms mk :
  linked s' k' t -> ms s = Ok (tt, s') -> mk k = Ok (Done (npc s) 0 0, k') -> is_i32 (npc s) ->
  zlookup (registers (lget k')) PCReg = zlookup (registers (lget k)) PCReg ->
  npc s' = npc s -> pc s' = pc s -> host s' = host s -> out s' = out s ->
  ends_linked s k t ms mk.
Proof.
  intros Hl E1 E2 Hn Hpc Hnpc Hp Hh Ho. exists s', k', 0, 0. rewrite Hnpc. by split_and!.
Qed.

(** ** Branches *)

Lemma branch_same s k t w i xpc taken :
  linked s k t -> is_i32 (npc s) -> pc s = next_pc xpc -> extra i = immed w ->
  ends_linked s k t (branch w xpc taken) (Mips.branch i (npc s) taken).
Proof.
  intros Hl Hn Hp He. unfold branch, Mips.branch. destruct taken; [|by apply ends_ret].
  eapply ends_r; [apply reg_lookup, (lk_pc _ _ _ _ _ Hl)|].
  replace (i32 (pc s + IndexToAddr (extra i))) with (i32 (i32 (xpc + 4) + off16 w)).
  - apply ends_npc; [done|apply i32_range].
  - rewrite Hp, He. done.
Qed.

(** ** Memory accesses *)

Lemma linked_mapped s s' k m' t a t' :
  linked s k t -> Reg s' = Reg s -> HI s' = HI s -> LO s' = LO s -> pc s' = pc s ->
  registers m' = registers (lget k) -> paged m' a t' -> same_mapping t' t -> memory_wf m' ->
  same_memory s' m' t -> linked s' (lset m' k) t.
Proof.
  intros [] E1 E2 E3 E4 Er Hp Ht Hm Hs. constructor; rewrite ?lget_lset, ?Er, ?E1, ?E2, ?E3, ?E4; try done.
  - destruct lk_machine0 as [[] ? ?]. constructor; [constructor; by rewrite Er|done|by exists a, t'].
  - intros r Hr. unfold delivered. rewrite Er. by apply lk_regs0.
  - by exists a, t'.
Qed.

Lemma ends_ReadMem s k t va size p (ms : M (Interp W) unit) g :
  linked s k t -> is_i32 va -> access_size size -> translation t va size false = (NoException, Some p) ->
  (forall k', linked s k' t -> registers (lget k') = registers (lget k) ->
     ends_linked s k' t ms (g (Some (value_of size (slice p size (mainMemory (lget k))))))) ->
  ends_linked s k t ms (bind (Machine_ReadMem be setStatus ExceptionHandler va size) g).
Proof.
  intros Hl Hva Hs E H. pose proof (lk_machine _ _ _ _ _ Hl) as Hm.
  destruct (lk_paged _ _ _ _ _ Hl) as (a & t' & Hp & Ht).
  assert (translation t' va size false = (NoException, Some p)) as E' by by rewrite Ht.
  pose proof (ReadMem_ok be setStatus ExceptionHandler k a t' Hp (ok_memory _ Hm) va size p Hs E') as ER.
  set (k' := lset (touched k a t' va size false) k) in *.
  assert (registers (lget k') = registers (lget k)) as Er by (unfold k'; by rewrite lget_lset).
  destruct (H k') as (s1 & k1 & l & v & E1 & E2 & H1 & H2 & H3 & H4 & H5 & H6); [|done|].
  { apply (linked_mapped s s k _ t a (touch t' va size false)); try done.
    - by apply touched_paged.
    - by rewrite touch_same_mapping.
    - by destruct (ok_memory _ Hm).
    - by apply (same_memory_ext s _ (lget k) _ t t (lk_memory _ _ _ _ _ Hl)). }
  exists s1, k1, l, v. rewrite (bind_Ok _ _ _ _ _ ER).
  refine (conj E1 (conj E2 (conj H1 (conj H2 (conj H3 (conj H4 (conj _ H6))))))). by rewrite H5, Er.
Qed.

Lemma ends_WriteMem s k t va size v p g :
  linked s k t -> is_i32 (npc s) -> is_i32 va -> access_size size -> translation t va size true = (NoException, Some p) ->
  g true = finish (npc s) ->
  ends_linked s k t (put_bytes va (le_encode (Z.to_nat size) v))
    (bind (Machine_WriteMem be setStatus ExceptionHandler va size v) g).
Proof.
  intros Hl Hn Hva Hs E Hg. pose proof (lk_machine _ _ _ _ _ Hl) as Hm.
  assert (0 <= size) as H0 by (destruct Hs as [-> | [-> | ->]]; lia).
  destruct (lk_paged _ _ _ _ _ Hl) as (a & t' & Hp & Ht).
  assert (translation t' va size true = (NoException, Some p)) as E' by by rewrite Ht.
  pose proof (WriteMem_ok be setStatus ExceptionHandler k a t' Hp (ok_memory _ Hm) va size v p Hs E') as EW.
  destruct (put_same s (lget k) t va size true p (le_encode (Z.to_nat size) v) (lk_memory _ _ _ _ _ Hl)
              (ok_memory _ Hm) Hva Hs E) as [EP Hmem]; [rewrite zlength_le_encode; lia|].
  set (s' := set_mem _ s) in *. set (k' := lset (written k a t' va size v p) k) in *.
  destruct (translation_phys _ _ _ _ _ _ Hs E) as (_ & Hp0 & Hp1 & _).
  assert (linked s' k' t) as Hl'.
  { apply (linked_mapped s s' k _ t a (touch t' va size true)); try done.
    - by apply written_paged.
    - by rewrite touch_same_mapping.
    - apply written_wf; [apply (ok_memory _ Hm)|done..].
    - by apply (same_memory_ext s' s' _ _ t t Hmem). }
  exists s', k', 0, 0. rewrite (bind_Ok _ _ _ _ _ EW), Hg.
  split_and!; try done. unfold k'. by rewrite lget_lset.
Qed.

(** ** Which instructions mean the same

    [a] and [b] are the contents of the registers [rs] and [rt], [at_] is the
    address of the instruction and [next] that of the next one. *)
Definition translates (t : list TranslationEntry) (va size : Z) (writing : bool) : Prop :=
  exists p, translation t va size writing = (NoException, Some p).

Definition same_meaning (t : list TranslationEntry) (i : Instruction) (a b at_ next : Z) : Prop :=
  let straight := next = next_pc at_ in
  match opCode i with
  | OP_ADD => is_i32 (a + b)
  | OP_ADDI => is_i32 (a + extra i)
  | OP_SUB => is_i32 (a - b)
  | OP_ANDI | OP_ORI | OP_XORI => 0 <= extra i
  | OP_OR => Z.lor a b = a
  | OP_SRL => 0 <= b
  | OP_SLLV | OP_SRAV => 0 <= a < 32
  | OP_SRLV => 0 <= a < 32 /\ 0 <= b
  | OP_MULT => - 2 ^ 15 <= a < 2 ^ 15 /\ - 2 ^ 15 <= b < 2 ^ 15
  | OP_MULTU => 0 <= a < 2 ^ 15 /\ 0 <= b < 2 ^ 15
  | OP_DIV => b <> 0 /\ ~ (a = - 2 ^ 31 /\ b = -1)
  | OP_DIVU => b <> 0
  | OP_BEQ | OP_BNE | OP_BLEZ | OP_BGTZ | OP_BLTZ | OP_BGEZ | OP_BLTZAL | OP_BGEZAL => straight
  | OP_J | OP_JAL => straight /\ same_region at_
  | OP_JALR => straight /\ Mips.rs i <> Mips.rd i
  | OP_LB | OP_LBU => translates t (i32 (a + extra i)) 1 false
  | OP_LH | OP_LHU => translates t (i32 (a + extra i)) 2 false
  | OP_LW => translates t (i32 (a + extra i)) 4 false
  | OP_SB => translates t (i32 (a + extra i)) 1 true
  | OP_SH => translates t (i32 (a + extra i)) 2 true
  | OP_SW => translates t (i32 (a + extra i)) 4 true
  | OP_LWL | OP_LWR | OP_SWL | OP_SWR | OP_SYSCALL | OP_RFE | OP_UNIMP | OP_RES => False
  | _ => True
  end.

(** The registers an instruction reads or writes (and perhaps some that it does
    not, when the bits of their numbers are part of an offset). *)
Definition registers_of (i : Instruction) : list Z :=
  [Mips.rs i; Mips.rt i] ++ (if bool_decide (opCode i ∈ specialTable) then [Mips.rd i] else []) ++
  (if bool_decide (opCode i ∈ [OP_JAL; OP_BLTZAL; OP_BGEZAL]) then [31] else []).

Definition no_hazard (i : Instruction) (m : Machine) : Prop := Forall (settled m) (registers_of i).

Lemma shl_run (s : Interp W) x n : 0 <= n < 32 -> shl x n s = Ok (i32 (Z.shiftl x n), s).
Proof. intros Hn. unfold shl, shift_count. by rewrite (proj2 (Z.leb_le 0 n)), (proj2 (Z.ltb_lt n 32)) by lia. Qed.
Lemma sra_run (s : Interp W) x n : 0 <= n < 32 -> sra x n s = Ok (Z.shiftr x n, s).
Proof. intros Hn. unfold sra, shift_count. by rewrite (proj2 (Z.leb_le 0 n)), (proj2 (Z.ltb_lt n 32)) by lia. Qed.
Lemma shr_run (s : Interp W) x n : 0 <= n < 32 -> 0 <= x -> is_i32 x -> shr x n s = Ok (Z.shiftr x n, s).
Proof.
  intros Hn Hx Hi. unfold shr, shift_count. rewrite (proj2 (Z.leb_le 0 n)), (proj2 (Z.ltb_lt n 32)) by lia. simpl.
  rewrite u32_id by (unfold is_u32, is_i32 in *; lia). rewrite i32_id; [done|]. apply is_i32_shiftr_any; [lia|done].
Qed.
Lemma land_31 a : 0 <= a < 32 -> Z.land a 31 = a.
Proof. intros. change 31 with (Z.ones 5). rewrite Z.land_ones by lia. apply Z.mod_small. lia. Qed.

(** *** Values that are loaded *)

Lemma signed_byte v : is_char v ->
  (if flag v 0x80 then i32 (Z.lor (u32 v) 0xffffff00) else Z.land v 0xff) = v.
Proof.
  intros Hv. assert (Forall (fun x => (if flag x 0x80 then i32 (Z.lor (u32 x) 0xffffff00) else Z.land x 0xff) = x)
    (seqZ (- 2 ^ 7) (2 ^ 8))) as HF by (apply (bool_decide_unpack _); vm_compute; exact I).
  rewrite Forall_forall in HF. apply HF, elem_of_seqZ. unfold is_char in Hv. lia.
Qed.

Lemma unsigned_byte z : Z.land (i8 z) 0xff = u8 z.
Proof. change 0xff with (Z.ones 8). rewrite Z.land_ones by lia. apply u8_i8. Qed.

Lemma signed_short v : 0 <= v < 2 ^ 16 ->
  (if flag v 0x8000 then i32 (Z.lor (u32 v) 0xffff0000) else Z.land v 0xffff) = i16 v.
Proof.
  intros Hv. rewrite u32_id by (unfold is_u32; lia).
  change 0xffff with (Z.ones 16). rewrite Z.land_ones, Z.mod_small by lia.
  assert (v = i16 v mod 2 ^ 16) as E by (unfold i16; dlia).
  transitivity (if flag (i16 v mod 2 ^ 16) 0x8000 then i32 (Z.lor (i16 v mod 2 ^ 16) 0xffff0000) else i16 v mod 2 ^ 16);
    [by rewrite <- E|]. apply sign_extend. unfold i16. dlia.
Qed.

Lemma le_decode_size bs n : length bs = n -> 0 <= le_decode bs < 256 ^ Z.of_nat n.
Proof. intros <-. apply le_decode_range. Qed.

Lemma switch_hit {A} x l (a : A) cs d : existsb (Z.eqb x) l = true -> switch x ((l, a) :: cs) d = a.
Proof. intros E. simpl. by rewrite E. Qed.
Lemma switch_skip {A} x l (a : A) cs d : existsb (Z.eqb x) l = false -> switch x ((l, a) :: cs) d = switch x cs d.
Proof. intros E. simpl. by rewrite E. Qed.

Section Instructions.
Context (s : Interp W) (k : K) (t : list TranslationEntry) (w xpc a b : Z).
Context (Hl : linked s k t) (Hz : zeros s k).
Context (Hpc : zlookup (registers (lget k)) PCReg = Some xpc) (Hnpc : npc s = i32 (pc s + 4)).
Context (Sa : getR (rs w) s = Ok (a, s)) (Ka : zoom (reg (rs w)) k = Ok (a, k)) (Ha : is_i32 a).
Context (Sb : getR (rt w) s = Ok (b, s)) (Kb : zoom (reg (rt w)) k = Ok (b, k)) (Hb : is_i32 b).
Context (Hrt : settled (lget k) (rt w)).

Abbreviation instr op e := (mkInstruction (u32 w) op (rs w) (rt w) (rd w) e).
Abbreviation exec op e := (exec_switch be setStatus ExceptionHandler (instr op e) (npc s)).

Lemma npc_i32 : is_i32 (npc s).
Proof. rewrite Hnpc. apply i32_range. Qed.

Ltac open_switch :=
  unfold exec_switch, exec_add, exec_branch, exec_div, exec_jump, exec_load, exec_load_part, exec_move,
    exec_or, exec_store, exec_shift_set, exec_sub, exec_store_part, exec_trap;
  cbn [opCode orelse Mips.rs Mips.rt Mips.rd extra];
  repeat first [rewrite switch_skip by reflexivity | rewrite switch_hit by reflexivity].
Ltac read :=
  repeat (first [eapply ends_l; [eassumption|] | eapply ends_r; [eassumption|]]; cbn beta zeta).

Lemma linked_npc v : linked s k t -> linked (set_pcs (pc s) v s) k t.
Proof. intros []; constructor; try done. by apply (same_memory_ext s _ (lget k) _ t t). Qed.

Lemma link_run r : 0 <= r < 32 -> link r k = Ok (tt, put_reg r (i32 (pc s + 4)) k).
Proof.
  intros Hr. unfold link. mrun (reg_lookup k _ _ (lk_pc _ _ _ _ _ Hl)).
  apply (put_reg_run s k t); [done|unfold NumTotalRegs, NumGPRegs; lia].
Qed.

Lemma pc_put r v n : 0 <= r < 34 -> zlookup (registers (lget (put_reg r v n))) PCReg = zlookup (registers (lget n)) PCReg.
Proof. intros. rewrite registers_put. apply zlookup_zinsert_ne. unfold PCReg. lia. Qed.

Lemma JALR_same : pc s = next_pc xpc -> rs w <> rd w -> settled (lget k) (rd w) ->
  ends_linked s k t (set_npc a ;;; setR (rd w) (i32 (xpc + 8)))
    (link (rd w) ;;; a0 <- zoom (reg (rs w)) ;; finish a0).
Proof.
  intros Hp Hne Hrd. pose proof (field_range w 11) as Hd. fold (rd w) in Hd.
  assert (i32 (pc s + 4) = i32 (xpc + 8)) as Hv by (rewrite Hp; unfold next_pc, i32; dlia).
  set (v := i32 (xpc + 8)) in *. assert (is_i32 v) as Hvi by apply i32_range.
  exists (set_pcs (pc s) a (set_Reg (zinsert (rd w) v (Reg s)) s)), (put_reg (rd w) v k), 0, 0.
  split_and!; try done.
  - rewrite (bind_Ok (set_npc a) _ s tt (set_pcs (pc s) a s)) by done.
    by rewrite setR_run by (done || apply (lk_length _ _ _ _ _ Hl)).
  - mrun (link_run (rd w) Hd). rewrite Hv. apply zoom_reg_lookup in Ka.
    rewrite (bind_Ok _ _ _ _ _ (reg_lookup (put_reg (rd w) v k) (rs w) a ltac:(rewrite registers_put, zlookup_zinsert_ne; done))).
    done.
  - pose proof (linked_put s k t (rd w) v Hl Hd Hrd Hvi) as Hl'.
    destruct Hl'; constructor; try done. by apply (same_memory_ext (set_Reg (zinsert (rd w) v (Reg s)) s) _ (lget (put_reg (rd w) v k)) _ t t).
  - apply pc_put. lia.
Qed.

Lemma move_run n v s' k' : linked s' k' t -> n = HiReg \/ n = LoReg ->
  zoom (set_reg n v) k' = Ok (tt, put_reg n v k').
Proof. intros Hl' Hn. apply (put_reg_run s' k' t); [done|]. unfold HiReg, LoReg, NumTotalRegs, NumGPRegs in *. lia. Qed.

(** HI and LO are written, in either order. *)
Lemma HILO_same hi lo ms mk :
  is_i32 hi -> is_i32 lo -> ms s = Ok (tt, set_HI hi (set_LO lo s)) ->
  mk k = Ok (Done (npc s) 0 0, put_reg HiReg hi (put_reg LoReg lo k)) \/
  mk k = Ok (Done (npc s) 0 0, put_reg LoReg lo (put_reg HiReg hi k)) ->
  ends_linked s k t ms mk.
Proof.
  intros Hhi Hlo E1 E2. pose proof npc_i32 as Hn.
  destruct E2 as [E2|E2]; refine (ends_moved s (set_HI hi (set_LO lo s)) k _ t ms mk _ E1 E2 Hn _ _ _ _ _); try done.
  - apply (linked_move (set_LO lo s)); [|done|by left]. apply (linked_move s); [done|done|by right].
  - by rewrite !pc_put by (unfold HiReg, LoReg; lia).
  - change (set_HI hi (set_LO lo s)) with (set_LO lo (set_HI hi s)).
    apply (linked_move (set_HI hi s)); [|done|by right]. apply (linked_move s); [done|done|by left].
  - by rewrite !pc_put by (unfold HiReg, LoReg; lia).
Qed.

Lemma LO_linked lo : is_i32 lo -> linked (set_LO lo s) (put_reg LoReg lo k) t.
Proof. intros. apply (linked_move s); [done|done|by right]. Qed.
Lemma HI_linked hi : is_i32 hi -> linked (set_HI hi s) (put_reg HiReg hi k) t.
Proof. intros. apply (linked_move s); [done|done|by left]. Qed.

Lemma product_high_small x y : 0 <= x < 2 ^ 16 -> 0 <= y < 2 ^ 16 -> product_high x y = 0.
Proof.
  intros Hx Hy. unfold product_high. rewrite !Z.shiftr_div_pow2 by lia.
  rewrite (Z.div_small x), (Z.div_small y) by lia. by rewrite Z.land_0_l.
Qed.

Lemma MULT_same e : - 2 ^ 15 <= a < 2 ^ 15 -> - 2 ^ 15 <= b < 2 ^ 15 ->
  ends_linked s k t (mult a b) (multiply (instr OP_MULT e) true ;;; finish (npc s)).
Proof.
  intros Ra Rb. assert (- 2 ^ 30 <= a * b <= 2 ^ 30) as Hab by nia.
  set (hi := if a * b <? 0 then -1 else 0).
  destruct (Mult_product a b true Ha Hb) as (h & l & EM & Hh & Hl' & Hp).
  assert (h = hi /\ l = a * b) as [-> ->].
  { unfold hi. pose proof (u32_range l) as Hu. unfold is_u32, is_i32 in *.
    destruct (Z.ltb_spec (a * b) 0); unfold u32 in *; split; dlia. }
  apply (HILO_same hi (a * b)); [unfold hi, is_i32; by destruct (_ <? _)|done| |].
  - unfold mult. assert (forall x, - 2 ^ 15 <= x < 2 ^ 15 -> (if x <? 0 then i32 (- x) else x) = Z.abs x) as Habs.
    { intros x Hx. destruct (Z.ltb_spec x 0); [rewrite i32_id by (unfold is_i32; lia)|]; lia. }
    cbn zeta. rewrite !Habs by done. rewrite product_high_small by lia. rewrite <- Z.abs_mul.
    rewrite (i32_id (Z.abs _)) by (unfold is_i32; lia). unfold hi.
    destruct (Z.ltb_spec a 0), (Z.ltb_spec b 0); cbn [xorb];
      destruct (Z.ltb_spec (a * b) 0); try nia; munfold; unfold Z.lnot.
    all: rewrite ?i32_id by (unfold is_i32; lia).
    all: try (destruct (Z.eqb_spec (Z.pred (- Z.abs (a * b)) + 1) 0); [try nia|]; try nia).
    all: repeat f_equal; try lia; try nia.
  - right. unfold multiply. rewrite <- bind_assoc. cbn [Mips.rs Mips.rt]. mrun Ka. rewrite <- bind_assoc. mrun Kb.
    rewrite EM. cbn zeta iota. rewrite <- bind_assoc. mrun (move_run HiReg hi s k Hl ltac:(auto)).
    by mrun (move_run LoReg (a * b) (set_HI hi s) _ (HI_linked hi Hh) ltac:(auto)).
Qed.

Lemma MULTU_same e : 0 <= a < 2 ^ 15 -> 0 <= b < 2 ^ 15 ->
  ends_linked s k t (multu a b) (multiply (instr OP_MULTU e) false ;;; finish (npc s)).
Proof.
  intros Ra Rb. assert (0 <= a * b <= 2 ^ 30) as Hab by nia.
  destruct (Mult_product a b false Ha Hb) as (h & l & EM & Hh & Hl' & Hp).
  assert (h = 0 /\ l = a * b) as [-> ->].
  { rewrite (u32_id a), (u32_id b) in Hp by (unfold is_u32; lia).
    unfold u32, is_i32 in *. split; dlia. }
  apply (HILO_same 0 (a * b)); [done|done| |].
  - unfold multu. rewrite product_high_small by lia. rewrite i32_id by (unfold is_i32; lia). by munfold.
  - right. unfold multiply. rewrite <- bind_assoc. cbn [Mips.rs Mips.rt]. mrun Ka. rewrite <- bind_assoc. mrun Kb.
    rewrite EM. cbn zeta iota. rewrite <- bind_assoc. mrun (move_run HiReg 0 s k Hl ltac:(auto)).
    by mrun (move_run LoReg (a * b) (set_HI 0 s) _ (HI_linked 0 Hh) ltac:(auto)).
Qed.

Lemma DIV_same : b <> 0 -> ~ (a = - 2 ^ 31 /\ b = -1) ->
  ends_linked s k t
    (if (b =? 0) || ((a =? - 2 ^ 31) && (b =? -1)) then undef
     else modify (set_LO (Z.quot a b)) ;;; modify (set_HI (Z.rem a b)))
    ((if b =? 0 then zoom (set_reg LoReg 0) ;;; zoom (set_reg HiReg 0)
      else if (a =? - 2 ^ 31) && (b =? -1) then undef
      else zoom (set_reg LoReg (Z.quot a b)) ;;;
           a' <- zoom (reg (rs w)) ;; b' <- zoom (reg (rt w)) ;; zoom (set_reg HiReg (Z.rem a' b'))) ;;;
     finish (npc s)).
Proof.
  intros H0 Hov. rewrite (proj2 (Z.eqb_neq b 0)) by done.
  assert ((a =? - 2 ^ 31) && (b =? -1) = false) as ->.
  { apply andb_false_iff. destruct (Z.eqb_spec a (- 2 ^ 31)); [right|by left]. apply Z.eqb_neq. tauto. }
  assert (is_i32 (Z.quot a b)) as Hq by (apply quot_range; tauto).
  apply (HILO_same (Z.rem a b) (Z.quot a b)); [by apply rem_range|done|done|left].
  rewrite <- bind_assoc. mrun (move_run LoReg (Z.quot a b) s k Hl ltac:(auto)).
  assert (forall r v, 0 <= r < 32 -> zoom (reg r) k = Ok (v, k) ->
    zoom (reg r) (put_reg LoReg (Z.quot a b) k) = Ok (v, put_reg LoReg (Z.quot a b) k)) as Hread.
  { intros r v Hr E. apply reg_lookup. apply zoom_reg_lookup in E. rewrite registers_put.
    by rewrite zlookup_zinsert_ne by (unfold LoReg; lia). }
  pose proof (field_range w 21) as Hrs. pose proof (field_range w 16) as Hrt'.
  rewrite <- bind_assoc. mrun (Hread _ _ Hrs Ka). rewrite <- bind_assoc. mrun (Hread _ _ Hrt' Kb).
  by mrun (move_run HiReg (Z.rem a b) (set_LO (Z.quot a b) s) _ (LO_linked _ Hq) ltac:(auto)).
Qed.

Lemma DIVU_same : b <> 0 ->
  ends_linked s k t
    (if u32 b =? 0 then undef
     else modify (set_LO (i32 (u32 a / u32 b))) ;;; modify (set_HI (i32 (u32 a mod u32 b))))
    ((if u32 b =? 0 then zoom (set_reg LoReg 0) ;;; zoom (set_reg HiReg 0)
      else zoom (set_reg LoReg (i32 (u32 a / u32 b))) ;;; zoom (set_reg HiReg (i32 (u32 a mod u32 b)))) ;;;
     finish (npc s)).
Proof.
  intros H0. assert (u32 b <> 0) as Hu by (unfold u32, is_i32 in *; dlia).
  rewrite (proj2 (Z.eqb_neq (u32 b) 0)) by done.
  set (q := i32 (u32 a / u32 b)). set (r := i32 (u32 a mod u32 b)).
  apply (HILO_same r q); [apply i32_range..|done|left].
  rewrite <- bind_assoc. mrun (move_run LoReg q s k Hl ltac:(auto)).
  by mrun (move_run HiReg r (set_LO q s) _ (LO_linked q (i32_range _)) ltac:(auto)).
Qed.

(** One of HI and LO is written. *)
Lemma MTHI_same : ends_linked s k t (modify (set_HI a)) (zoom (set_reg HiReg a) ;;; finish (npc s)).
Proof.
  refine (ends_moved s (set_HI a s) k (put_reg HiReg a k) t _ _ (HI_linked a Ha) eq_refl _ npc_i32 _ _ _ _ _); try done.
  - by mrun (move_run HiReg a s k Hl ltac:(auto)).
  - apply pc_put. done.
Qed.
Lemma MTLO_same : ends_linked s k t (modify (set_LO a)) (zoom (set_reg LoReg a) ;;; finish (npc s)).
Proof.
  refine (ends_moved s (set_LO a s) k (put_reg LoReg a k) t _ _ (LO_linked a Ha) eq_refl _ npc_i32 _ _ _ _ _); try done.
  - by mrun (move_run LoReg a s k Hl ltac:(auto)).
  - apply pc_put. done.
Qed.

Lemma special_same o op : 0 <= o < 64 -> o = Z.land w 0x3f -> zlookup specialTable o = Some op ->
  settled (lget k) (rd w) -> same_meaning t (instr op (shamt w)) a b xpc (pc s) ->
  ends_linked s k t (special false w xpc) (exec op (shamt w)).
Proof.
  intros Ho. revert o Ho op. refine (below _ 64 _).
  each_below; intros op Eo [= <-] Hrd Hm; unfold special; rewrite <- Eo; try (exfalso; exact Hm); clear Eo.
  all: unfold same_meaning in Hm; cbn [opCode extra rs rd] in Hm.
  all: open_switch.
  all: unfold set_rd, divide; read.
  all: pose proof (field_range w 11) as Hd; pose proof (field_range w 6) as Hsh; fold (rd w) in Hd; fold (shamt w) in Hsh.
  all: pose proof npc_i32 as Hn.
  (* shifts *)
  1: apply (ends_set _ _ _ _ (i32 (Z.shiftl b (shamt w)))); auto using shl_run with nachos.
  1: apply (ends_set _ _ _ _ (Z.shiftr b (shamt w))); auto using shr_run with nachos.
  1: apply (ends_set _ _ _ _ (Z.shiftr b (shamt w))); auto using sra_run with nachos.
  1: apply (ends_set _ _ _ _ (i32 (Z.shiftl b a))); rewrite ?land_31 by lia; auto using shl_run with nachos.
  1: destruct Hm; apply (ends_set _ _ _ _ (Z.shiftr b a)); rewrite ?land_31 by lia; auto using shr_run with nachos.
  1: apply (ends_set _ _ _ _ (Z.shiftr b a)); rewrite ?land_31 by lia; auto using sra_run with nachos.
  (* jumps *)
  1: by apply ends_npc.
  1: destruct Hm; by apply JALR_same.
  (* HI and LO *)
  1: { eapply ends_l; [done|]. eapply ends_r; [apply reg_lookup, (lk_HI _ _ _ _ _ Hl)|]. apply ends_setR; try done.
       eapply reg_i32; [apply (lk_machine _ _ _ _ _ Hl)|apply (lk_HI _ _ _ _ _ Hl)]. }
  1: by apply MTHI_same.
  1: { eapply ends_l; [done|]. eapply ends_r; [apply reg_lookup, (lk_LO _ _ _ _ _ Hl)|]. apply ends_setR; try done.
       eapply reg_i32; [apply (lk_machine _ _ _ _ _ Hl)|apply (lk_LO _ _ _ _ _ Hl)]. }
  1: by apply MTLO_same.
  1: destruct Hm; by apply MULT_same.
  1: destruct Hm; by apply MULTU_same.
  1: destruct Hm; by apply DIV_same.
  1: by apply DIVU_same.
  (* arithmetic *)
  1: rewrite add_overflow_test, bool_decide_true by done; cbn [negb].
  3: rewrite sub_overflow_test, bool_decide_true by done; cbn [negb].
  all: eapply ends_l; [reflexivity|]; cbn beta.
  6: rewrite Hm, Z.lor_diag.
  all: apply ends_setR; auto using bit_of_i32 with nachos.
Qed.
Lemma link_branch_same i f g : (forall x, is_i32 x -> f x = g x) -> settled (lget k) 31 -> settled (lget k) (rs w) -> pc s = next_pc xpc -> extra i = immed w ->
  ends_linked s k t (setR 31 (i32 (xpc + 8)) ;;; a' <- getR (rs w) ;; branch w xpc (f a'))
    (link R31 ;;; a' <- zoom (reg (rs w)) ;; Mips.branch i (npc s) (g a')).
Proof.
  intros Hfg H31 Hrs Hp He. assert (i32 (pc s + 4) = i32 (xpc + 8)) as Hv by (rewrite Hp; unfold next_pc, i32; dlia).
  eapply (ends_ext _ _ _ _ _ _ (zoom (set_reg 31 (i32 (xpc + 8))) ;;; a' <- zoom (reg (rs w)) ;; Mips.branch i (npc s) (g a')));
    [done| |].
  { mrun (link_run R31 ltac:(done)). rewrite Hv. symmetry. unfold R31.
    by rewrite (bind_Ok _ _ _ _ _ (put_reg_run s k t 31 _ Hl ltac:(done))). }
  apply ends_put; try done; [apply i32_range|]. cbn zeta. intros Hl' Hk Hz'.
  destruct (read_same _ _ _ (rs w) Hl' (Hz' ltac:(done) Hz) (field_range w 21)) as (x & Hx & _ & Ex & Kx).
  { unfold settled in *. by rewrite Hk by (unfold LoadReg; lia). }
  eapply ends_l; [exact Ex|]. eapply ends_r; [exact Kx|]. cbn beta. rewrite <- (Hfg x Hx).
  apply (branch_same (set_Reg _ s)); try done. apply npc_i32.
Qed.

Lemma bcond_same o op : 0 <= o < 32 -> o = rt w -> decode_opcode BCOND (u32 w) = Some op ->
  settled (lget k) (rs w) -> (op = OP_BLTZAL \/ op = OP_BGEZAL -> settled (lget k) 31) ->
  same_meaning t (instr op (immed w)) a b xpc (pc s) ->
  ends_linked s k t (bcond w xpc) (exec op (immed w)).
Proof.
  intros Ho. revert o Ho op. refine (below _ 32 _).
  each_below; intros op Eo; unfold decode_opcode; rewrite decide_False, decide_True, bcond_field, <- Eo by done;
    intros [= <-] Hrs H31 Hm; try (exfalso; exact Hm).
  all: unfold bcond; rewrite <- Eo; clear Eo; open_switch.
  all: pose proof npc_i32 as Hn; unfold same_meaning in Hm; cbn [opCode] in Hm.
  all: assert (forall x, is_i32 x -> (x <? 0) = flag x SIGN_BIT) as Hneg by (intros; by rewrite flag_sign).
  all: assert (forall x, is_i32 x -> (x >=? 0) = negb (flag x SIGN_BIT)) as Hpos
    by (intros x Hx; rewrite flag_sign, Z.geb_leb by done; destruct (Z.leb_spec 0 x), (Z.ltb_spec x 0); lia || done).
  1,2: read; rewrite ?Hneg, ?Hpos by done; by apply branch_same.
  all: apply link_branch_same; auto.
Qed.
Lemma effective_run op x : effective (instr op x) k = Ok (i32 (a + x), k).
Proof. unfold effective. by mrun Ka. Qed.

Lemma aligned va size : access_size size -> translates t va size false -> ((size =? 4) && flag va 3) || ((size =? 2) && flag va 1) = false.
Proof.
  intros Hs [p E]. rewrite misaligned_flag by done. unfold translation in E.
  destruct (va mod size =? 0); [done|discriminate].
Qed.

Lemma load_same f size (dec : list Z -> Z) (g : Z -> Z) :
  access_size size -> translates t (i32 (a + immed w)) size false ->
  (forall va, f va = bind (fetch_bytes va size) (fun bs => ret (dec bs))) ->
  (forall bs, length bs = Z.to_nat size -> g (value_of size bs) = dec bs /\ is_i32 (dec bs)) ->
  ends_linked s k t (load w f)
    (v <- Machine_ReadMem be setStatus ExceptionHandler (i32 (a + immed w)) size ;;
     match v with None => ret Trapped | Some v => load_later (npc s) (rt w) (g v) end).
Proof.
  intros Hs [p E] Hf Hg. pose proof npc_i32 as Hn. set (va := i32 (a + immed w)) in *.
  assert (is_i32 va) as Hva by apply i32_range.
  apply (ends_ReadMem s k t va size p); try done. intros k' Hl' _. cbn iota.
  pose proof (fetch_same s (lget k) t va size false p (lk_memory _ _ _ _ _ Hl) Hva Hs E) as EF.
  set (bs := slice p size (mainMemory (lget k))) in *.
  assert (length bs = Z.to_nat size) as Hlen.
  { pose proof (translation_phys _ _ _ _ _ _ Hs E) as (_ & Hp & Hp' & _).
    destruct (ok_memory _ (lk_machine _ _ _ _ _ Hl)) as [Hml _].
    pose proof (zlength_slice (mainMemory (lget k)) p size Hp) as Hz'. fold bs in Hz'. unfold zlength in *.
    destruct Hs as [-> | [-> | ->]]; lia. }
  destruct (Hg bs Hlen) as [-> Hi]. unfold load. eapply ends_l.
  { unfold address. by mrun Sa. }
  fold va. eapply ends_l.
  { rewrite Hf. by mrun EF. }
  by apply ends_load; [|apply (field_range w 16)|..].
Qed.

Lemma store_same f size :
  access_size size -> translates t (i32 (a + immed w)) size true ->
  (forall va v, f va v = put_bytes va (le_encode (Z.to_nat size) v)) ->
  ends_linked s k t (store_rt w f)
    (ok <- Machine_WriteMem be setStatus ExceptionHandler (i32 (u32 (i32 (a + immed w)))) size b ;;
     if ok : bool then finish (npc s) else ret Trapped).
Proof.
  intros Hs [p E] Hf. rewrite i32_u32, (i32_id (i32 _)) by apply i32_range. unfold store_rt.
  eapply ends_l; [unfold address; by mrun Sa|]. eapply ends_l; [exact Sb|]. rewrite Hf.
  apply (ends_WriteMem s k t _ size b p); try done; [apply npc_i32|apply i32_range].
Qed.

Lemma jump_same i : pc s = next_pc xpc -> same_region xpc -> extra i = Z.land (u32 w) 0x3ffffff ->
  jump_to w xpc = jump_target i (npc s).
Proof.
  intros Hp Hr He. assert (npc s = next_pc (next_pc xpc)) as -> by (rewrite Hnpc, Hp; done).
  unfold jump_to, jump_target, IndexToAddr. rewrite He. change 0x3ffffff with (Z.ones 26).
  rewrite land_ones_u32 by lia. do 2 f_equal.
  pose proof (top4_u32 xpc 0 ltac:(lia)) as E1. pose proof (top4_u32 (next_pc (next_pc xpc)) 0 ltac:(lia)) as E2.
  rewrite !Z.lor_0_r in E1, E2. rewrite Hr, E2 in E1.
  assert (forall x, u32 (Z.land (u32 x) 0xf0000000) = Z.land (u32 x) 0xf0000000) as Hu.
  { intros x. unfold u32 at 1. rewrite <- Z.land_ones, <- Z.land_assoc by lia. done. }
  by rewrite !Hu in E1.
Qed.

Lemma JAL_same i : settled (lget k) 31 -> pc s = next_pc xpc -> same_region xpc -> extra i = Z.land (u32 w) 0x3ffffff ->
  ends_linked s k t (setR 31 (i32 (xpc + 8)) ;;; set_npc (jump_to w xpc))
    (link R31 ;;; finish (jump_target i (npc s))).
Proof.
  intros H31 Hp Hr He. assert (i32 (pc s + 4) = i32 (xpc + 8)) as Hv by (rewrite Hp; unfold next_pc, i32; dlia).
  eapply (ends_ext _ _ _ _ _ _ (zoom (set_reg 31 (i32 (xpc + 8))) ;;; finish (jump_target i (npc s)))); [done| |].
  { mrun (link_run R31 ltac:(done)). rewrite Hv. symmetry. unfold R31.
    by rewrite (bind_Ok _ _ _ _ _ (put_reg_run s k t 31 _ Hl ltac:(done))). }
  apply ends_put; try done; [apply i32_range|]. cbn zeta. intros Hl' _ _.
  rewrite (jump_same i) by done. apply (ends_npc (set_Reg _ s)); [done|apply i32_range].
Qed.

Lemma normal_same o e x : 2 <= o < 64 -> o = Z.land (Z.shiftr w 26) 0x3f -> zlookup opTable o = Some e ->
  x = match e.2 with IFMT => immed w | JFMT => Z.land (u32 w) 0x3ffffff | RFMT => shamt w end ->
  (e.1 = OP_JAL -> settled (lget k) 31) ->
  same_meaning t (instr e.1 x) a b xpc (pc s) ->
  ends_linked s k t (execute false w xpc) (exec e.1 x).
Proof.
  intros Ho. assert (0 <= o < 64) as Ho' by lia. revert o Ho' Ho e x. refine (below _ 64 _).
  each_below; intros Ho e x Eo [= <-]; cbn [fst snd]; intros Hx H31 Hm; try (exfalso; lia); try (exfalso; exact Hm).
  all: unfold execute; rewrite <- Eo; clear Eo Ho; open_switch.
  all: pose proof npc_i32 as Hn; unfold same_meaning in Hm; cbn [opCode extra] in Hm.
  all: try unfold set_rt; read.
  (* jumps and branches *)
  1: destruct Hm; rewrite (jump_same (instr OP_J x)) by done; apply ends_npc; [done|apply i32_range].
  1: destruct Hm; apply JAL_same; auto.
  1,2,3,4: by apply branch_same.
  (* immediates *)
  1: rewrite (Z.add_comm a x), (Z.lxor_comm a x), add_overflow_test, bool_decide_true
       by (done || (subst x; pose proof (immed_range w); unfold is_i32; lia) || by rewrite Z.add_comm).
  1: cbn [negb]; rewrite Z.add_comm.
  all: pose proof (field_range w 16) as Hr; fold (rt w) in Hr; pose proof (immed_range w) as [Him Hmod].
  all: assert (is_i32 (immed w)) as Hii by (unfold is_i32; lia).
  5,6,7: assert (Z.land x 0xffff = immed w) as ->
    by (change 0xffff with (Z.ones 16); rewrite Z.land_ones, Hx, Z.mod_small by lia; done).
  8: replace (i32 (Z.shiftl x 16)) with (i32 (Z.shiftl w 16))
       by (rewrite !Z.shiftl_mul_pow2, Hx by lia; unfold i32; clear - Hmod; dlia).
  1,2,3,4,5,6,7,8: rewrite ?Hx; apply ends_setR; auto using bit_of_i32 with nachos.
  (* loads and stores *)
  all: subst x; cbn [extra].
  1,2,3,4,5: eapply ends_r; [apply effective_run|].
  1: { apply (load_same cfetch 1 (fun bs => i8 (le_decode bs)) (fun v => if flag v 128 && true then _ else _)); try done; [by left|].
       intros bs Hbs. rewrite andb_true_r. rewrite signed_byte by apply i8_range. split; [done|apply is_i32_char, i8_range]. }
  1: { replace (flag (i32 (a + immed w)) 1) with false by (symmetry; refine (aligned _ 2 _ Hm); unfold access_size; auto).
       apply (load_same sfetch 2 (fun bs => i16 (le_decode bs)) (fun v => if flag v 32768 && true then _ else _)); try done;
         [unfold access_size; auto|]. intros bs Hbs. rewrite andb_true_r. pose proof (le_decode_size bs _ Hbs) as Hd.
       change (value_of 2 bs) with (le_decode bs). rewrite signed_short by done. split; [done|]. unfold is_i32, i16. dlia. }
  1: { replace (flag (i32 (a + immed w)) 3) with false
         by (symmetry; rewrite <- (aligned (i32 (a + immed w)) 4); [by rewrite orb_false_r|unfold access_size; auto|done]).
       apply (load_same fetch 4 (fun bs => i32 (le_decode bs)) (fun v => v)); try done; [unfold access_size; auto|].
       intros bs _. split; [done|apply i32_range]. }
  1: { apply (load_same ucfetch 1 le_decode (fun v => if flag v 128 && false then _ else _)); try done; [by left|].
       intros bs Hbs. rewrite andb_false_r. pose proof (le_decode_size bs _ Hbs) as Hd. change (value_of 1 bs) with (i8 (le_decode bs)).
       rewrite unsigned_byte. unfold u8, is_i32. change (256 ^ Z.of_nat (Z.to_nat 1)) with 256 in Hd. split; dlia. }
  1: { replace (flag (i32 (a + immed w)) 1) with false by (symmetry; refine (aligned _ 2 _ Hm); unfold access_size; auto).
       apply (load_same usfetch 2 le_decode (fun v => if flag v 32768 && false then _ else _)); try done;
         [unfold access_size; auto|]. intros bs Hbs. rewrite andb_false_r. pose proof (le_decode_size bs _ Hbs) as Hd.
       change (value_of 2 bs) with (le_decode bs). change 65535 with (Z.ones 16). rewrite Z.land_ones by lia.
       change (256 ^ Z.of_nat (Z.to_nat 2)) with (2 ^ 16) in Hd. unfold is_i32. split; dlia. }
  1: by apply (store_same cstore 1); [left| |].
  1: by apply (store_same sstore 2); [right; left| |].
  1: by apply (store_same store 4); [right; right| |].
Qed.
End Instructions.

(** ** The end of an instruction *)

Lemma set_reg_length m n v : zlength (registers m) = NumTotalRegs -> 0 <= n < NumTotalRegs ->
  set_reg n v m = Ok (tt, set_registers (zinsert n v (registers m)) m).
Proof.
  intros Hl Hn. unfold set_reg. munfold. rewrite <- Hl in Hn.
  by rewrite (proj2 (store_Some (registers m) n v _) (conj Hn eq_refl)).
Qed.

Lemma reg_at m n v : zlookup (registers m) n = Some v -> reg n m = Ok (v, m).
Proof. intros E. unfold reg. munfold. by rewrite E. Qed.

(** The registers after the delayed load of [lv] into [L]. *)
Definition loaded (L lv l v : Z) (rs : list Z) : list Z :=
  zinsert 0 0 (zinsert LoadValueReg v (zinsert LoadReg l (zinsert L lv rs))).

Lemma DelayedLoad_exact m l v L lv :
  zlength (registers m) = NumTotalRegs -> 0 <= L < NumGPRegs ->
  zlookup (registers m) LoadReg = Some L -> zlookup (registers m) LoadValueReg = Some lv ->
  Machine_DelayedLoad l v m = Ok (tt, set_registers (loaded L lv l v (registers m)) m).
Proof.
  intros Hlen HL EL Ev. unfold Machine_DelayedLoad, NumGPRegs in *. mrun (reg_at _ _ _ EL). mrun (reg_at _ _ _ Ev).
  mrun (set_reg_length m L lv Hlen ltac:(unfold NumTotalRegs, NumGPRegs; lia)).
  mrun (set_reg_length (set_registers (zinsert L lv (registers m)) m) LoadReg l ltac:(by rewrite <- Hlen; apply zlength_zinsert) ltac:(done)).
  mrun (set_reg_length (set_registers (zinsert LoadReg l (zinsert L lv (registers m))) m) LoadValueReg v
          ltac:(by rewrite <- Hlen; simpl; rewrite !zlength_zinsert) ltac:(done)).
  by apply (set_reg_length (set_registers (zinsert LoadValueReg v (zinsert LoadReg l (zinsert L lv (registers m)))) m));
    [rewrite <- Hlen; simpl; rewrite !zlength_zinsert|].
Qed.

Definition advanced (L lv l v x n p : Z) (rs : list Z) : list Z :=
  zinsert NextPCReg p (zinsert PCReg n (zinsert PrevPCReg x (loaded L lv l v rs))).

Lemma advance_exact (k : K) l v L lv x n p :
  let rs := registers (lget k) in
  zlength rs = NumTotalRegs -> 0 <= L < NumGPRegs ->
  zlookup rs LoadReg = Some L -> zlookup rs LoadValueReg = Some lv ->
  zlookup rs PCReg = Some x -> zlookup rs NextPCReg = Some n ->
  (zoom (Machine_DelayedLoad l v) ;;;
   pc <- zoom (reg PCReg) ;; zoom (set_reg PrevPCReg pc) ;;;
   next <- zoom (reg NextPCReg) ;; zoom (set_reg PCReg next) ;;;
   zoom (set_reg NextPCReg p)) k =
  Ok (tt, lset (set_registers (advanced L lv l v x n p rs) (lget k)) k).
Proof.
  intros rs Hlen HL EL Ev Ex En. unfold NumGPRegs in HL.
  mrun (zoom_Ok _ _ _ _ (DelayedLoad_exact (lget k) l v L lv Hlen HL EL Ev)).
  set (k1 := lset _ k). assert (registers (lget k1) = loaded L lv l v rs) as R1 by (unfold k1; by rewrite lget_lset).
  assert (forall r, 32 <= r -> r <> LoadReg -> r <> LoadValueReg -> zlookup (loaded L lv l v rs) r = zlookup rs r) as Hlo.
  { intros r Hr N1 N2. unfold loaded. rewrite !zlookup_zinsert_ne by (lia || done). done. }
  assert (forall a, zlength (registers (lget a)) = NumTotalRegs -> forall m w, 0 <= m < NumTotalRegs ->
    zoom (set_reg m w) a = Ok (tt, put_reg m w a) /\ zlength (registers (lget (put_reg m w a))) = NumTotalRegs) as Hput.
  { intros a Ha m w Hm. split; [by apply zoom_Ok, set_reg_length|]. by rewrite registers_put, zlength_zinsert. }
  assert (zlength (registers (lget k1)) = NumTotalRegs) as L1 by (rewrite R1; unfold loaded; by rewrite !zlength_zinsert).
  mrun (reg_lookup k1 PCReg x ltac:(by rewrite R1, Hlo)).
  destruct (Hput k1 L1 PrevPCReg x ltac:(done)) as [E2 L2]. mrun E2.
  mrun (reg_lookup (put_reg PrevPCReg x k1) NextPCReg n ltac:(by rewrite registers_put, zlookup_zinsert_ne, R1, Hlo)).
  destruct (Hput _ L2 PCReg n ltac:(done)) as [E3 L3]. mrun E3.
  destruct (Hput _ L3 NextPCReg p ltac:(done)) as [-> _].
  unfold put_reg. rewrite !lget_lset, !lset_lset. unfold k1. rewrite !lget_lset, !lset_lset. done.
Qed.

(** ** One step of each *)

(** The states between two instructions. *)
Record same_state (s : Interp W) (k : K) (t : list TranslationEntry) : Prop := {
  ss_machine : machine_ok (lget k);
  ss_zero : R0_zero (lget k);
  ss_length : zlength (Reg s) = 32;
  ss_regs : forall r, 1 <= r < 32 -> zlookup (Reg s) r = delivered (lget k) r;
  ss_HI : zlookup (registers (lget k)) HiReg = Some (HI s);
  ss_LO : zlookup (registers (lget k)) LoReg = Some (LO s);
  ss_pc : zlookup (registers (lget k)) PCReg = Some (pc s);
  ss_npc : zlookup (registers (lget k)) NextPCReg = Some (npc s);
  ss_paged : exists a t', paged (lget k) a t' /\ same_mapping t' t;
  ss_memory : same_memory s (lget k) t
}.

(** The contents of a register. *)
Definition contents (k : K) (r : Z) : Z := default 0 (zlookup (registers (lget k)) r).

(** The instruction is finished. *)
Lemma finish_same s k t ms mk :
  ends_linked s k t ms mk -> (exists x, zlookup (registers (lget k)) PCReg = Some x) ->
  exists s' k', ms s = Ok (tt, s') /\
    bind mk (fun r => match r with
      | Trapped => ret tt
      | Done pcAfter l v =>
          zoom (Machine_DelayedLoad l v) ;;;
          pc <- zoom (reg PCReg) ;; zoom (set_reg PrevPCReg pc) ;;;
          next <- zoom (reg NextPCReg) ;; zoom (set_reg PCReg next) ;;;
          zoom (set_reg NextPCReg pcAfter)
      end) k = Ok (tt, k') /\
    same_state s' k' t /\ host s' = host s /\ out s' = out s.
Proof.
  intros (s' & k1 & l & v & E1 & E2 & Hl & Hlb & Hv & Hn & Hpc & Hps & Hh & Ho) [x Hx].
  pose proof (lk_machine _ _ _ _ _ Hl) as Hm. pose proof (ok_regs _ Hm) as Hw.
  destruct (regs_load _ Hw) as (L & EL & HL). rewrite Hx in Hpc.
  destruct (proj2 (zlookup_is_Some (registers (lget k1)) LoadValueReg)) as [lv Elv];
    [rewrite (regs_length _ Hw); done|].
  pose proof (advance_exact k1 l v L lv x (pc s') (npc s') (regs_length _ Hw) HL EL Elv Hpc (lk_pc _ _ _ _ _ Hl)) as EA.
  destruct (advance_run k1 (npc s') l v Hm Hn Hlb Hv) as (k' & EA' & Hm' & Hz').
  rewrite EA in EA'. injection EA' as EA'.
  exists s', k'. split; [done|]. split; [rewrite (bind_Ok _ _ _ _ _ E2), EA; by rewrite EA'|].
  split; [|done].
  assert (registers (lget k') = advanced L lv l v x (pc s') (npc s') (registers (lget k1))) as ER by (by rewrite <- EA', lget_lset).
  assert (zlength (registers (lget k1)) = 40) as Hlen by apply (regs_length _ Hw).
  unfold NumGPRegs in *.
  assert (forall r, 1 <= r < 32 \/ r = 32 \/ r = 33 -> zlookup (registers (lget k')) r = zlookup (zinsert L lv (registers (lget k1))) r) as Hlow.
  { intros r Hr. rewrite ER. unfold advanced, loaded, NextPCReg, PCReg, PrevPCReg, LoadReg, LoadValueReg, NumTotalRegs.
    by rewrite !zlookup_zinsert_ne by lia. }
  assert (zlookup (registers (lget k')) LoadReg = Some l) as HLR.
  { rewrite ER. unfold advanced, loaded, NextPCReg, PCReg, PrevPCReg, LoadReg, LoadValueReg.
    do 5 rewrite zlookup_zinsert_ne by lia. apply zlookup_zinsert_eq. rewrite zlength_zinsert. lia. }
  assert (zlookup (registers (lget k')) LoadValueReg = Some v) as HLV.
  { rewrite ER. unfold advanced, loaded, NextPCReg, PCReg, PrevPCReg, LoadReg, LoadValueReg.
    do 4 rewrite zlookup_zinsert_ne by lia. apply zlookup_zinsert_eq. rewrite !zlength_zinsert. lia. }
  constructor; try done.
  - apply (lk_length _ _ _ _ _ Hl).
  - intros r Hr. rewrite (lk_regs _ _ _ _ _ Hl) by done. unfold delivered at 2. rewrite HLR.
    destruct (Z.eqb_spec l r) as [->|]; [done|]. rewrite Hlow by lia. unfold delivered. rewrite EL.
    destruct (Z.eqb_spec L r) as [->|].
    + rewrite Elv. symmetry. apply zlookup_zinsert_eq. lia.
    + by rewrite zlookup_zinsert_ne.
  - rewrite Hlow, zlookup_zinsert_ne by (unfold HiReg; lia). apply (lk_HI _ _ _ _ _ Hl).
  - rewrite Hlow, zlookup_zinsert_ne by (unfold LoReg; lia). apply (lk_LO _ _ _ _ _ Hl).
  - rewrite ER. unfold advanced, NextPCReg, PCReg. rewrite zlookup_zinsert_ne by lia.
    apply zlookup_zinsert_eq. unfold loaded. rewrite !zlength_zinsert. lia.
  - rewrite ER. unfold advanced. apply zlookup_zinsert_eq. unfold loaded, NextPCReg. rewrite !zlength_zinsert. lia.
  - destruct (lk_paged _ _ _ _ _ Hl) as (a & t' & Hp & Ht). exists a, t'. split; [|done].
    rewrite <- EA', lget_lset. by destruct Hp.
  - apply (same_memory_ext s' s' (lget k1) _ t t (lk_memory _ _ _ _ _ Hl)); try done. by rewrite <- EA', lget_lset.
Qed.

Lemma no_hazard_used i m : no_hazard i m ->
  settled m (Mips.rs i) /\ settled m (Mips.rt i) /\ (opCode i ∈ specialTable -> settled m (Mips.rd i)) /\
  (opCode i ∈ [OP_JAL; OP_BLTZAL; OP_BGEZAL] -> settled m 31).
Proof.
  unfold no_hazard, registers_of. rewrite !Forall_app, !Forall_cons. intros ((H1 & H2 & _) & H3 & H4).
  split_and!; [done..|intros Hin|intros Hin].
  - rewrite bool_decide_true in H3 by done. by inversion H3.
  - rewrite bool_decide_true in H4 by done. by inversion H4.
Qed.

Lemma execute_same s k t w xpc i :
  linked s k t -> zeros s k -> zlookup (registers (lget k)) PCReg = Some xpc -> npc s = i32 (pc s + 4) ->
  Instruction_Decode (u32 w) = Some i -> no_hazard i (lget k) ->
  same_meaning t i (contents k (Mips.rs i)) (contents k (Mips.rt i)) xpc (pc s) ->
  ends_linked s k t (execute false w xpc) (exec_switch be setStatus ExceptionHandler i (npc s)).
Proof.
  intros Hl Hz Hpc Hnpc Hi Hh Hm. destruct (no_hazard_used _ _ Hh) as (H1 & H2 & H3 & H4). clear Hh.
  pose proof (opcode_range w) as Ho. destruct (proj2 (zlookup_is_Some opTable (u32 w / 2 ^ 26)) Ho) as [e E].
  rewrite (Decode_opcode w e E) in Hi. destruct (decode_opcode e.1 (u32 w)) as [op|] eqn:Eop; [|done].
  simpl in Hi. injection Hi as <-. cbn [Mips.rs Mips.rt Mips.rd opCode] in *.
  destruct (read_same s k t (rs w) Hl Hz (field_range w 21) H1) as (a & Ha & Ca & Sa & Ka).
  destruct (read_same s k t (rt w) Hl Hz (field_range w 16) H2) as (b & Hb & Cb & Sb & Kb).
  unfold contents in Hm. rewrite Ca, Cb in Hm. simpl in Hm.
  assert (Z.land (Z.shiftr w 26) 0x3f = u32 w / 2 ^ 26) as Eo.
  { change 0x3f with (Z.ones 6). rewrite <- field_u32, field by lia. apply Z.mod_small. exact Ho. }
  destruct (Z.eq_dec (u32 w / 2 ^ 26) 0) as [E0|N0]; [|destruct (Z.eq_dec (u32 w / 2 ^ 26) 1) as [E1|N1]].
  - unfold execute. rewrite Eo, E0, switch_hit by done. rewrite E0 in E. injection E as <-. cbn [fst snd] in *.
    unfold decode_opcode in Eop. rewrite decide_True in Eop by done.
    pose proof (land_ones_bound w 6 ltac:(lia)) as Hf. change 0x3f with (Z.ones 6) in Eop. rewrite land_ones_u32 in Eop by lia.
    rewrite <- shamt_extra in *.
    apply (special_same s k t w xpc a b Hl Hnpc Sa Ka Ha Sb Kb Hb (Z.land w (Z.ones 6)) op Hf eq_refl Eop); [|done].
    apply H3. apply zlookup_Some in Eop as [_ Eop]. by eapply list_elem_of_lookup_2.
  - unfold execute. rewrite Eo, E1, switch_skip, switch_hit by done. rewrite E1 in E. injection E as <-. cbn [fst snd] in *.
    rewrite <- immed_extra in *.
    apply (bcond_same s k t w xpc a b Hl Hz Hnpc Sa Ka Ha (rt w) op (field_range w 16) eq_refl Eop); try done.
    intros Hop. apply H4. set_solver.
  - assert (2 <= u32 w / 2 ^ 26 < 64) as Ho' by lia. rewrite (normal_decode _ _ _ Ho' E) in Eop. injection Eop as <-.
    assert (forall x, x = match e.2 with IFMT => immed w | JFMT => Z.land (u32 w) 0x3ffffff | RFMT => shamt w end ->
      x = decode_extra e.2 (u32 w)) as Hx.
    { intros x ->. destruct e.2; rewrite <- ?immed_extra, <- ?shamt_extra; done. }
    rewrite <- (Hx _ eq_refl) in *.
    eapply (normal_same s k t w xpc a b Hl Hnpc Sa Ka Ha Sb Kb H2 _ e _ Ho'); try done.
    intros He. apply H4. rewrite He. set_solver.
Qed.

Abbreviation OneInstruction := (Machine_OneInstruction be setStatus ExceptionHandler).
Abbreviation turn := (turn false false false).

(** The next instruction is one to which the two give the same meaning, and it
    does not use the register of a load that is pending. *)
Definition common_step (s : Interp W) (k : K) (t : list TranslationEntry) : Prop :=
  exists p i, translation t (pc s) 4 false = (NoException, Some p) /\
    Instruction_Decode (u32 (value_of 4 (slice p 4 (mainMemory (lget k))))) = Some i /\
    no_hazard i (lget k) /\
    same_meaning t i (contents k (Mips.rs i)) (contents k (Mips.rt i)) (pc s) (npc s).

(** The no-operation, which the interpreter skips, is an instruction. *)
Lemma execute_nop (s : Interp W) xpc : zlength (Reg s) = 32 -> zlookup (Reg s) 0 = Some 0 ->
  execute false 0 xpc s = Ok (tt, s).
Proof.
  intros Hl H0. assert (getR 0 s = Ok (0, s)) as E0 by (unfold getR; munfold; by rewrite H0).
  change (execute false 0 xpc) with (b <- getR 0 ;; v <- shl b 0 ;; setR 0 v : M (Interp W) unit).
  mrun E0. mrun (shl_run s 0 0 ltac:(lia)). change (i32 (Z.shiftl 0 0)) with 0.
  rewrite setR_run by (done || lia). do 2 f_equal. replace (zinsert 0 0 (Reg s)) with (Reg s); [by destruct s|].
  apply zlookup_ext. intros j Hj. rewrite zlookup_zinsert. case_decide as Hd; [|done].
  by destruct Hd as [<- _].
Qed.

Lemma step_same s k t : same_state s k t -> common_step s k t ->
  exists s' k', turn s = Ok (tt, s') /\ OneInstruction k = Ok (tt, k') /\
    same_state s' k' t /\ host s' = host s /\ out s' = out s.
Proof.
  intros [Hm Hz Hlen Hregs HHI HLO Hpc Hnpc (a & t' & Hp & Ht) Hmem] (p & i & E & Hi & Hh & Hsm).
  assert (is_i32 (pc s)) as Hpci by by apply (reg_i32 k PCReg).
  assert (access_size 4) as H4 by (unfold access_size; auto).
  set (s1 := set_pcs (npc s) (i32 (npc s + 4)) s).
  assert (same_memory s1 (lget k) t) as Hmem1 by by apply (same_memory_ext s _ (lget k) _ t t).
  pose proof (fetch_same s1 (lget k) t (pc s) 4 false p Hmem1 Hpci H4 E) as EF.
  set (w := i32 (le_decode (slice p 4 (mainMemory (lget k))))).
  set (s2 := set_Reg (zinsert 0 0 (Reg s)) s1).
  assert (translation t' (pc s) 4 false = (NoException, Some p)) as E' by by rewrite Ht.
  pose proof (ReadMem_ok be setStatus ExceptionHandler k a t' Hp (ok_memory _ Hm) (pc s) 4 p H4 E') as ER.
  set (k2 := lset (touched k a t' (pc s) 4 false) k) in *.
  assert (registers (lget k2) = registers (lget k)) as Rk by (unfold k2; by rewrite lget_lset).
  assert (linked s2 k2 t) as Hl.
  { constructor; rewrite ?Rk; try done.
    - unfold k2. rewrite lget_lset. by apply touched_ok.
    - unfold s2. cbn [set_Reg Reg]. by rewrite zlength_zinsert.
    - intros r Hr. unfold s2. cbn [set_Reg Reg]. rewrite zlookup_zinsert_ne by lia. rewrite Hregs by done.
      destruct (Z.eqb_spec 0 r); [lia|]. unfold delivered. by rewrite Rk.
    - exists a, (touch t' (pc s) 4 false). unfold k2. rewrite lget_lset. split; [by apply touched_paged|].
      by rewrite touch_same_mapping.
    - unfold k2. rewrite lget_lset. by apply (same_memory_ext s _ (lget k) _ t t). }
  assert (zeros s2 k2) as Hz2.
  { split; [apply zlookup_zinsert_eq; lia|]. unfold R0_zero. by rewrite Rk. }
  assert (ends_linked s2 k2 t (if negb (w =? 0) then execute false w (pc s) else ret tt)
            (exec_switch be setStatus ExceptionHandler i (npc s2))) as HE.
  { assert (ends_linked s2 k2 t (execute false w (pc s)) (exec_switch be setStatus ExceptionHandler i (npc s2))) as HE.
    { apply execute_same; try done; unfold no_hazard, settled, contents in *; rewrite ?Rk; try done. }
    destruct (Z.eqb_spec w 0) as [Hw|]; [|done]. rewrite Hw in HE. simpl.
    eapply ends_ext; [|done|exact HE]. symmetry. apply execute_nop; [apply (lk_length _ _ _ _ _ Hl)|apply Hz2]. }
  destruct (finish_same s2 k2 t _ _ HE) as (s' & k' & E1 & E2 & Hs & Hh' & Ho').
  { exists (pc s). by rewrite Rk. }
  exists s', k'. split; [|split; [|done]].
  - unfold Interp.turn. rewrite (bind_Ok get _ s s s) by done. cbn zeta. rewrite (bind_Ok (put _) _ s tt s1) by done.
    rewrite (bind_Ok (ifetch (pc s)) _ s1 w s1) by (unfold ifetch; by mrun EF).
    rewrite (bind_Ok _ _ _ _ _ (setR_run s1 0 0 Hlen ltac:(lia))). fold s2. by rewrite (bind_Ok _ _ _ _ _ E1).
  - unfold Machine_OneInstruction. mrun (reg_lookup k _ _ Hpc). mrun ER. rewrite Hi.
    rewrite (bind_Ok (must (Some i)) _ k2 i k2) by done.
    mrun (reg_lookup k2 NextPCReg (npc s) ltac:(by rewrite Rk)). exact E2.
Qed.

(** Every one of the next [n] instructions is such an instruction. *)
Fixpoint common_steps (n : nat) (s : Interp W) (k : K) (t : list TranslationEntry) : Prop :=
  match n with
  | O => True
  | S n => common_step s k t /\
           forall s' k', turn s = Ok (tt, s') -> OneInstruction k = Ok (tt, k') -> common_steps n s' k' t
  end.

(** C17: the two MIPS simulators of the repository are equivalent: from states with
    the same registers (a delayed load taken as delivered), the same program
    counters and the same memory, on a host of either byte order, the loops of
    runprogram in bin/execute.c and of Machine::Run execute any number of
    instructions to states that are the same again, as long as no instruction
    uses a register that is still being loaded and each is one to which both give
    its meaning ([same_meaning]: all but MULT and MULTU of large numbers,
    unaligned words, traps, negative operands of SRL, OR, and immediates of ANDI,
    ORI and XORI above 0x7fff). *)
Theorem interpreters_agree (n : nat) (s : Interp W) (k : K) t :
  same_state s k t -> common_steps n s k t ->
  exists s' k', for_ 0 n (fun _ => turn) s = Ok (tt, s') /\
    for_ 0 n (fun _ => OneInstruction) k = Ok (tt, k') /\
    same_state s' k' t /\ host s' = host s /\ out s' = out s.
Proof.
  generalize 0 as lo. revert s k. induction n as [|n IH]; intros s k lo Hs Hn.
  { by exists s, k. }
  destruct Hn as [H1 Hn]. destruct (step_same s k t Hs H1) as (s1 & k1 & E1 & E2 & Hs1 & Hh & Ho).
  destruct (IH s1 k1 (lo + 1) Hs1 (Hn s1 k1 E1 E2)) as (s' & k' & E3 & E4 & Hs' & Hh' & Ho').
  exists s', k'. cbn [for_]. rewrite (bind_Ok _ _ _ _ _ E1), (bind_Ok _ _ _ _ _ E2).
  split_and!; congruence.
Qed.
End Spec.

(** ** Witnesses *)

#[local] Instance example_unix : InterpUnix Host := {|
  interp_open path _ _ := unix_open path Existing;
  interp_ioctl _ _ := ret [];
  interp_getpagesize := 4096
|}.

(** lw r2, 64(r4), and the word it loads, in the first page of the
    interpreter's memory, which the simulator has in frame 7. *)
Definition example_bytes : list Z := le_encode 4 (assemble_i 35 4 2 64) ++ replicate 60 0 ++ le_encode 4 (-5) ++ replicate 60 0.
Definition example_page : Z := memoffset / PageSize.
Definition bad_entry : TranslationEntry := mkEntry 0 0 false false false false.
Definition table_at (n : Z) : list TranslationEntry := replicate (Z.to_nat n) bad_entry ++ [example_entry 7 false].
Abbreviation big_table := (table_at example_page).
Definition example_regs : list Z := [0; 0; 0; 0; memoffset] ++ replicate 27 0.

Definition interp_state : Interp Host :=
  mkInterp example_regs 0 0 memoffset (memoffset + 4) (mem_put empty 0 example_bytes) [] (mkHost empty empty [] [] 0).
Definition example_memory : list Z := splice (7 * PageSize) example_bytes (replicate (Z.to_nat MemorySize) 0).
Definition example_registers : list Z := example_regs ++ [0; 0; memoffset; memoffset + 4; 0; 0; 0; 0].
Definition machine_state : Machine :=
  set_mainMemory example_memory
    (set_registers example_registers
      (set_tables {[ 0%nat := big_table ]} (set_pageTable (Some 0%nat) (zlength big_table) (Machine_new false false bad_entry)))).

Lemma table_at_lookup n v : 0 <= n ->
  zlookup (table_at n) v = if v =? n then Some (example_entry 7 false)
                           else if (0 <=? v) && (v <? n) then Some bad_entry else None.
Proof.
  intros Hn. assert (zlength (replicate (Z.to_nat n) bad_entry) = n) as Hl
    by (unfold zlength; rewrite length_replicate, Z2Nat.id; lia).
  unfold table_at. destruct (Z.eqb_spec v n) as [->|Hne].
  { rewrite zlookup_app_r by lia. by rewrite Hl, Z.sub_diag. }
  destruct (Z.leb_spec 0 v), (Z.ltb_spec v n); simpl.
  - rewrite zlookup_app_l by lia. apply zlookup_Some. split; [done|]. apply lookup_replicate. split; [done|lia].
  - apply zlookup_None. rewrite zlength_app, Hl. change (zlength [_]) with 1. lia.
  - apply zlookup_None. lia.
  - apply zlookup_None. lia.
Qed.

Lemma table_at_valid n v e : 0 <= n -> zlookup (table_at n) v = Some e -> valid e = true ->
  v = n /\ e = example_entry 7 false.
Proof.
  intros Hn. rewrite table_at_lookup by done. destruct (Z.eqb_spec v n); [by intros [= <-]|].
  destruct ((0 <=? v) && (v <? n)); [|done]. by intros [= <-].
Qed.

Lemma big_table_page : zlookup big_table example_page = Some (example_entry 7 false).
Proof. by rewrite table_at_lookup, Z.eqb_refl. Qed.

Lemma example_fits : 0 <= 7 * PageSize /\ 7 * PageSize + zlength example_bytes <= zlength (replicate (Z.to_nat MemorySize) 0).
Proof.
  assert (forall n (x : Z), 0 <= n -> zlength (replicate (Z.to_nat n) x) = n) as ->; [|by vm_compute|by vm_compute].
  intros n x Hn. unfold zlength. rewrite length_replicate, Z2Nat.id; done.
Qed.

Lemma big_frame va p : is_i32 va -> frame big_table va p ->
  memoffset <= va < memoffset + PageSize /\ p = 7 * PageSize + (va - memoffset).
Proof.
  intros Hva (e & E & Hv & _ & ->). apply table_at_valid in E as [Hvpn ->]; [|done|done].
  unfold vpn_of, example_page, example_entry in *. simpl. unfold u32, memoffset, PageSize, SectorSize, is_i32 in *.
  change (7 mod 2 ^ 32) with 7. clear - Hva Hvpn. split; dlia.
Qed.

Lemma example_same_memory : same_memory interp_state machine_state big_table.
Proof.
  constructor.
  - intros va p Hva Hf. destruct (big_frame va p Hva Hf) as [Hr ->]. unfold PageSize, SectorSize in *. split.
    + unfold inside. apply andb_true_iff. split; apply Z.leb_le; unfold MEMSIZE; lia.
    + change (mainMemory machine_state) with example_memory. unfold example_memory.
      rewrite zlookup_splice by apply example_fits.
      rewrite decide_True by (change (zlength example_bytes) with 128; unfold PageSize, SectorSize; lia).
      unfold interp_state. cbn [mem]. rewrite mem_put_lookup. rewrite decide_True by (change (zlength example_bytes) with 128; lia).
      unfold PageSize, SectorSize. replace (7 * 128 + (va - memoffset) - 7 * 128) with (va - memoffset - 0) by lia.
      destruct (proj2 (zlookup_is_Some example_bytes (va - memoffset - 0))) as [b E];
        [change (zlength example_bytes) with 128; lia|]. by rewrite E.
  - intros va va' p H1 H2 Hf Hf'. destruct (big_frame va p H1 Hf) as [_ E1], (big_frame va' p H2 Hf') as [_ E2]. lia.
Qed.

Lemma example_machine_ok : machine_ok machine_state.
Proof.
  constructor.
  - constructor; change (registers machine_state) with example_registers; [done| |by exists 0].
    repeat (apply Forall_cons_2; [done|]). by apply Forall_nil_2.
  - constructor; change (mainMemory machine_state) with example_memory; unfold example_memory.
    + rewrite zlength_splice by apply example_fits. unfold zlength. by rewrite length_replicate, Z2Nat.id.
    + apply splice_chars; [repeat (apply Forall_cons_2; [done|]); by apply Forall_nil_2|by apply Forall_replicate].
  - exists 0%nat, big_table. by constructor.
Qed.

Lemma example_same_state : same_state interp_state machine_state big_table.
Proof.
  constructor; change (lget machine_state) with machine_state; change (registers machine_state) with example_registers.
  - apply example_machine_ok.
  - by unfold R0_zero.
  - done.
  - assert (Forall (fun r => zlookup example_regs r = zlookup example_registers r) (seqZ 0 32))
      as HF by (apply (bool_decide_unpack _); vm_compute; exact I).
    intros r Hr. rewrite Forall_forall in HF. unfold delivered.
    change (Reg interp_state) with example_regs. change (registers machine_state) with example_registers.
    change (zlookup example_registers LoadReg) with (Some 0). cbn beta iota.
    destruct (Z.eqb_spec 0 r); [lia|]. apply HF, elem_of_seqZ. lia.
  - done.
  - done.
  - done.
  - done.
  - exists 0%nat, big_table. split; [by constructor|done].
  - apply example_same_memory.
Qed.

Definition example_lw_r2 : Instruction := mkInstruction (assemble_i 35 4 2 64) OP_LW 4 2 0 64.

Lemma example_translates va : va = memoffset \/ va = memoffset + 64 ->
  translation big_table va 4 false = (NoException, Some (7 * PageSize + (va - memoffset))).
Proof.
  intros Hva. unfold translation.
  assert (vpn_of va = example_page) as -> by (by destruct Hva as [-> | ->]).
  rewrite big_table_page. by destruct Hva as [-> | ->].
Qed.

Lemma example_common_step : common_step interp_state machine_state big_table.
Proof.
  exists (7 * PageSize), example_lw_r2. split_and!.
  - apply (example_translates memoffset). auto.
  - by vm_compute.
  - assert (forall r, settled machine_state r) as Hs by (intros r Hr; by injection Hr as <-).
    unfold no_hazard. apply Forall_forall. intros r _. apply Hs.
  - exists (7 * PageSize + 64). apply (example_translates (memoffset + 64)). auto.
Qed.

Abbreviation idle := (fun _ => ret tt).

Lemma interpreters_agree_witness :
  exists s' k', for_ 0 1 (fun _ => turn (W := Host) false false false) interp_state = Ok (tt, s') /\
    for_ 0 1 (fun _ => Machine_OneInstruction true idle idle) machine_state = Ok (tt, k') /\
    zlookup (Reg s') 2 = Some (-5) /\ delivered k' 2 = Some (-5).
Proof.
  destruct (interpreters_agree true idle idle 1 interp_state machine_state big_table) as (s' & k' & E1 & E2 & Hs & _).
  - exact example_same_state.
  - split; [exact example_common_step|]. intros s k _ _. exact I.
  - exists s', k'. split; [exact E1|]. split; [exact E2|].
    assert (zlookup (Reg s') 2 = Some (-5)) as E.
    { pose proof (f_equal (fun r => match r with Ok (_, s) => zlookup (Reg s) 2 | _ => None end) E1) as E.
      vm_compute in E. symmetry. exact E. }
    split; [exact E|]. rewrite <- E. symmetry. apply (ss_regs _ _ _ Hs 2). split; [discriminate|reflexivity].
Defined.

(** ** Where the interpreter deviates

    The upper word of a product loses the carries of the lower words; ANDI sign
    extends its immediate; LWL keeps the register it should merge into. *)
Definition interp_result (instr : Z) (regs : list Z) : option (Z * Z * option Z) :=
  match execute (W := Host) false instr memoffset
          (set_Reg (regs ++ replicate (32 - length regs) 0) interp_state) with
  | Ok (_, s) => Some (HI s, LO s, zlookup (Reg s) 2)
  | _ => None
  end.

Example interpreter_deviates :
  interp_result (assemble_r 1 2 0 0 24) [0; 0x1ffff; 0x1ffff] = Some (1, -262143, Some 0x1ffff) /\
  Mult 0x1ffff 0x1ffff true = (3, -262143) /\
  interp_result (assemble_i 12 1 2 (-1)) [0; 0x12345678] = Some (0, 0, Some 0x12345678) /\
  interp_result (assemble_i 34 4 2 65) [0; 0; 0x11; 0; memoffset] = Some (0, 0, Some (Z.lor 0x11 (i32 (Z.shiftl (-5) 8)))).
Proof. by vm_compute. Qed.
