(* ===== verification/InterpStats.v ===== *)
(** * The statistics of the interpreter (bin/execute.c)

    The integer logarithm, the histograms and the tables that can be printed. *)

From Stdlib Require Import Ascii String.
From stdpp Require Import base tactics list numbers.
From S2P Require Import Prelude Text.

Local Open Scope Z_scope.

(** ** ilog2

    [if ((j = (i & mask)) != 0) { i = j; l += n; }], on [i] and [l]; [i] is the
    int as an unsigned number. *)

Definition halve (mask n : Z) '(i, l) : Z * Z :=
  let j := Z.land i mask in if negb (j =? 0) then (j, l + n) else (i, l).

Definition ilog2 (i : Z) : Z :=
  if u32 i =? 0 then 0
  else
    (halve 0xaaaaaaaa 1 (halve 0xcccccccc 2 (halve 0xf0f0f0f0 4 (halve 0xff00ff00 8 (halve 0xffff0000 16 (u32 i, 1)))))).2.

(** ** Histograms *)

Definition NH : Z := 32.
Definition NNN : Z := 33.
Definition NNNN : Z := 64.

Record Hists := mkHists { hists : list (list Z); hoflo : list Z; htotal : list Z; hist : list Z }.

(** [++a[i]] *)
Definition increment (i : Z) (l : list Z) : option (list Z) := v ← zlookup l i; store i (i32 (v + 1)) l.

Definition henters (n h : Z) : M Hists unit :=
  s <- get ;;
  (if (0 <=? n) && (n <? NNN) then
     row <- must (zlookup (hists s) h) ;;
     row <- must (increment n row) ;;
     hs <- must (store h row (hists s)) ;;
     put (mkHists hs (hoflo s) (htotal s) (hist s))
   else
     o <- must (increment h (hoflo s)) ;;
     put (mkHists (hists s) o (htotal s) (hist s))) ;;;
  s <- get ;;
  t <- must (increment h (htotal s)) ;;
  put (mkHists (hists s) (hoflo s) t (hist s)).

Definition henter (n : Z) : M Hists unit :=
  s <- get ;;
  if (0 <=? n) && (n <? NNNN) then
    l <- must (increment n (hist s)) ;; put (mkHists (hists s) (hoflo s) (htotal s) l)
  else ret tt.

(** ** Printing *)

(** [%6d], [%2d] *)
Definition padded (w : nat) (n : Z) : list Z := replicate (w - length (decimal n)) 32 ++ decimal n.

Definition printhist (l : list Z) : list Z :=
  mjoin (imap (fun i v => decimal (Z.of_nat i) ++ [32] ++ decimal v ++ [10]) l).

Definition patable (tab : list (list Z)) : list Z :=
  text "  |" ++ mjoin ((fun j => padded 6 j) <$> seqZ 0 33) ++ [10] ++
  text "  |" ++ mjoin ((fun _ => text "------") <$> seqZ 0 33) ++ [10] ++
  mjoin (imap (fun i row => padded 2 (Z.of_nat i) ++ text "|" ++ mjoin (padded 6 <$> row) ++ [10]) tab).

(** ** ilog2 is the number of bits *)

(** The bits of [i] agree with its highest one, above the lowest [k] bits of
    their positions. *)
Definition agree (k i : Z) : Prop := 0 < i < 2 ^ 32 /\ forall b, 0 <= b -> Z.testbit i b = true -> b / 2 ^ k = Z.log2 i / 2 ^ k.

Lemma halve_run k mask i l :
  0 <= k -> (forall b, 0 <= b < 32 -> Z.testbit mask b = Z.odd (b / 2 ^ k)) -> agree (k + 1) i ->
  exists i', halve mask (2 ^ k) (i, l) = (i', l + 2 ^ k * ((Z.log2 i / 2 ^ k) mod 2)) /\ agree k i' /\ Z.log2 i' = Z.log2 i.
Proof.
  intros Hk Hmask [Hi Hb]. assert (0 < 2 ^ k) as H2k by (apply Z.pow_pos_nonneg; lia).
  assert (forall b, b / 2 ^ (k + 1) = b / 2 ^ k / 2) as Hdiv
    by (intros b; rewrite Z.pow_add_r, <- Z.div_div by lia; done).
  set (top := Z.log2 i) in *. assert (0 <= top < 32) as Htop by (split; [apply Z.log2_nonneg|apply Z.log2_lt_pow2; lia]).
  assert (Z.testbit i top = true) as Hbit by (apply Z.bit_log2; lia).
  assert (forall b, 0 <= b -> Z.testbit i b = true -> b <= top) as Hle.
  { intros b Hb0 Hbb. destruct (Z.le_gt_cases b top); [done|]. rewrite Z.bits_above_log2 in Hbb by lia. done. }
  assert (forall b, 0 <= b -> Z.testbit i b = true -> b / 2 ^ k / 2 = top / 2 ^ k / 2 /\ b / 2 ^ k <= top / 2 ^ k) as Hq.
  { intros b Hb0 Hbb. rewrite <- !Hdiv. split; [by apply Hb|]. apply Z.div_le_mono; [lia|]. by apply Hle. }
  unfold halve. destruct (Z.eqb_spec (Z.land i mask) 0) as [H0|H0]; cbn [negb].
  - assert (forall b, 0 <= b -> Z.testbit i b = true -> Z.odd (b / 2 ^ k) = false) as Heven.
    { intros b Hb0 Hbb. pose proof (Hle b Hb0 Hbb). rewrite <- Hmask by lia.
      assert (Z.testbit (Z.land i mask) b = false) as Hz by (rewrite H0; apply Z.bits_0). by rewrite Z.land_spec, Hbb in Hz. }
    exists i. split; [|split; [split; [done|]|done]].
    + f_equal. pose proof (Heven top ltac:(lia) Hbit) as He. rewrite Zmod_odd, He. lia.
    + intros b Hb0 Hbb. pose proof (Heven b Hb0 Hbb) as E1. pose proof (Heven top ltac:(lia) Hbit) as E2.
      destruct (Hq b Hb0 Hbb) as [E3 _]. fold top. rewrite (Z.div_mod (b / 2 ^ k) 2), (Z.div_mod (top / 2 ^ k) 2) by lia.
      by rewrite !Zmod_odd, E1, E2, E3.
  - set (j := Z.land i mask) in *.
    assert (0 <= j) as Hj0 by (apply Z.land_nonneg; lia).
    assert (forall b, Z.testbit j b = Z.testbit i b && Z.testbit mask b) as Hj by (intros b; apply Z.land_spec).
    assert (forall b, 0 <= b -> Z.testbit j b = true -> b <= top /\ b / 2 ^ k = top / 2 ^ k /\ Z.odd (top / 2 ^ k) = true) as Hodd.
    { intros b Hb0 Hbb. rewrite Hj in Hbb. apply andb_true_iff in Hbb as [Hbi Hbm]. pose proof (Hle b Hb0 Hbi).
      rewrite Hmask in Hbm by lia. destruct (Hq b Hb0 Hbi) as [E1 E2].
      pose proof (Z.div_mod (b / 2 ^ k) 2 ltac:(lia)) as D1. pose proof (Z.div_mod (top / 2 ^ k) 2 ltac:(lia)) as D2.
      rewrite Zmod_odd in D1, D2. rewrite Hbm in D1. destruct (Z.odd (top / 2 ^ k)); [|lia]. split; [done|]. split; [lia|done]. }
    assert (Z.testbit j (Z.log2 j) = true) as Hjl by (apply Z.bit_log2; lia).
    pose proof (Z.log2_nonneg j) as Hl0. destruct (Hodd _ Hl0 Hjl) as (Hle' & _ & Hot).
    assert (Z.testbit j top = true) as Hjt by (rewrite Hj, Hbit, Hmask by lia; done).
    assert (Z.log2 j = top) as Hlog.
    { destruct (Z.lt_ge_cases (Z.log2 j) top); [|lia]. by rewrite Z.bits_above_log2 in Hjt by lia. }
    exists j. split; [|split; [split|done]].
    + f_equal. rewrite Zmod_odd, Hot. lia.
    + split; [lia|]. apply Z.log2_lt_pow2; lia.
    + intros b Hb0 Hbb. rewrite Hlog. by apply Hodd.
Qed.

(** The mask of step [k] has the positions whose bit [k] is set. *)
Lemma mask_bits mask k : 0 <= k ->
  forallb (fun b => Bool.eqb (Z.testbit mask b) (Z.odd (b / 2 ^ k))) (seqZ 0 32) = true ->
  forall b, 0 <= b < 32 -> Z.testbit mask b = Z.odd (b / 2 ^ k).
Proof.
  intros Hk H b Hb. rewrite forallb_forall in H. apply Bool.eqb_prop, H. apply list_elem_of_In, elem_of_seqZ. lia.
Qed.

(** The number of bits, and not what the comment says: 2 gives 2 and 4 gives 3. *)
Theorem ilog2_bits i : is_u32 i -> ilog2 i = if i =? 0 then 0 else Z.log2 i + 1.
Proof.
  intros Hi. unfold is_u32 in Hi. unfold ilog2. unfold u32. rewrite Z.mod_small by lia.
  destruct (Z.eqb_spec i 0) as [->|H0]; [done|].
  assert (0 <= Z.log2 i < 32) as Htop by (split; [apply Z.log2_nonneg|apply Z.log2_lt_pow2; lia]).
  assert (agree (4 + 1) i) as H5.
  { split; [lia|]. intros b Hb Hbb. change (2 ^ (4 + 1)) with 32. rewrite !Z.div_small; [done|lia|]. split; [done|].
    destruct (Z.lt_ge_cases b 32); [done|]. rewrite Z.bits_above_log2 in Hbb by lia. done. }
  destruct (halve_run 4 0xffff0000 i 1) as (i4 & E4 & H4 & L4); [done|by apply mask_bits|done|].
  destruct (halve_run 3 0xff00ff00 i4 (1 + 2 ^ 4 * ((Z.log2 i / 2 ^ 4) mod 2))) as (i3 & E3 & H3 & L3); [done|by apply mask_bits|done|].
  destruct (halve_run 2 0xf0f0f0f0 i3 (1 + 2 ^ 4 * ((Z.log2 i / 2 ^ 4) mod 2) + 2 ^ 3 * ((Z.log2 i4 / 2 ^ 3) mod 2)))
    as (i2 & E2 & H2 & L2); [done|by apply mask_bits|done|].
  change 16 with (2 ^ 4). rewrite E4. change 8 with (2 ^ 3). rewrite E3. change 4 with (2 ^ 2) at 1. rewrite E2.
  match goal with |- context [halve _ 2 (i2, ?l)] =>
    destruct (halve_run 1 0xcccccccc i2 l) as (i1 & E1 & H1 & L1); [done|by apply mask_bits|done|] end.
  change 2 with (2 ^ 1) at 1. rewrite E1.
  match goal with |- context [halve _ 1 (i1, ?l)] =>
    destruct (halve_run 0 0xaaaaaaaa i1 l) as (i0 & E0 & _ & _); [done|by apply mask_bits|done|] end.
  change 1 with (2 ^ 0) at 1. rewrite E0. cbn [snd]. rewrite L1, L2, L3, L4. 
  generalize dependent (Z.log2 i). intros. dlia.
Qed.
