(* ===== verification/Loader.v ===== *)
(** * bin/main.c and the loading of bin/disasm.c

    How the interpreter and the disassembler load an object file, and the
    command line of the interpreter. The object-file library of the host
    (ldfcn.h) is not part of the repository: what it gives for a file is a
    parameter. *)

From Stdlib Require Import Ascii String.
From stdpp Require Import base tactics list numbers gmap.
From S2P Require Import Prelude Text Machine Mips Disasm Debug SysDep Interp InterpSpec.

Local Open Scope Z_scope.

(** The fields that are used of a section header, and an opened object file:
    its magic number, its section headers by name and its bytes. *)
Record SCNHDR := mkHead { s_vaddr : Z; s_size : Z; s_scnptr : Z }.
Record LDFILE := mkLd { TYPE : Z; ldnshread : string -> option SCNHDR; stream : list Z }.

Section Loader.
Context {W : Type} `{HU : Unix W, HI' : InterpUnix W}.

(** [ldopen], and whether it uses the stream that main has opened and closed
    again: the sections are read with getc(fp), where [fp] is that stream. *)
Context (ldopen : list Z -> option LDFILE) (reused : bool).

(** The interpreter (or the disassembler, which has the same globals) and the
    position of the stream. *)
Abbreviation L := (M (Interp W * Z)).

Definition say (t : list Z) : L unit := zoom (print t).
(** exit(0) and exit(1) after a message. *)
Definition exit_ {A} : L A := abort.

Definition FSEEK (offset : Z) : L unit := modify (fun s => (s.1, if 0 <=? offset then offset else s.2)).
Definition getc (ldptr : LDFILE) : L Z :=
  if negb reused then undef
  else
    s <- get ;;
    match zlookup (stream ldptr) s.2 with
    | Some b => put (s.1, s.2 + 1) ;;; ret (u8 b)
    | None => ret (-1)
    end.

(** ** LOADSECTION of main.c: the memory is checked when all is written *)

Fixpoint load_bytes (ldptr : LDFILE) (n : nat) (pc : Z) : L Z :=
  match n with
  | O => ret pc
  | S n => c <- getc ldptr ;; zoom (cstore pc c) ;;; load_bytes ldptr n (i32 (pc + 1))
  end.

Definition too_small : L unit := say (text "MEMSIZE too small. Fix and recompile." ++ [10]) ;;; exit_.

Definition LOADSECTION (ldptr : LDFILE) (head : SCNHDR) : L unit :=
  if negb (s_scnptr head =? 0) then
    FSEEK (s_scnptr head) ;;;
    pc <- load_bytes ldptr (Z.to_nat (s_size head)) (s_vaddr head) ;;
    if i32 (pc - memoffset) >=? MEMSIZE then too_small else ret tt
  else ret tt.

(** ** load_section of disasm.c: it is checked before each byte *)

Fixpoint load_checked (ldptr : LDFILE) (n : nat) (pc : Z) : L unit :=
  match n with
  | O => ret tt
  | S n =>
      (if i32 (pc - memoffset) >=? MEMSIZE then too_small else ret tt) ;;;
      c <- getc ldptr ;; zoom (cstore pc c) ;;; load_checked ldptr n (i32 (pc + 1))
  end.

Definition load_section (ldptr : LDFILE) (hd : SCNHDR) : L unit :=
  if negb (s_scnptr hd =? 0) then
    FSEEK (s_scnptr hd) ;;; load_checked ldptr (Z.to_nat (s_size hd)) (s_vaddr hd)
  else ret tt.

(** ** load_program, which both files have *)

Definition load_named (load : LDFILE -> SCNHDR -> L unit) (ldptr : LDFILE) (name missing : string) : L unit :=
  match ldnshread ldptr name with
  | None => say (text missing ++ text " section header missing" ++ [10])
  | Some head => load ldptr head
  end.

Definition load_program (load : LDFILE -> SCNHDR -> L unit) (filename : list Z) : L unit :=
  match ldopen filename with
  | None => exit_
  | Some ldptr =>
      if negb (TYPE ldptr =? 0x162) then exit_
      else
        load_named load ldptr ".text" "text" ;;;
        load_named load ldptr ".rdata" "rdata" ;;;
        load_named load ldptr ".data" "data" ;;;
        load_named load ldptr ".sdata" "sdata" ;;;
        load_named load ldptr ".sbss" "sbss" ;;;
        load_named load ldptr ".bss" "bss"
  end.

Definition main_load_program : list Z -> L unit := load_program LOADSECTION.
Definition disasm_load_program : list Z -> L unit := load_program load_section.

(** ** The command line of the interpreter *)

Record Options := mkOptions {
  TRACE : bool; Traptrace : bool; Regtrace : bool;
  NROWS : Z; ASSOC : Z; LINESIZE : Z; RAND : bool; LRD : bool
}.
Definition default_options : Options := mkOptions false false false 64 1 4 false false.

(** The characters of one option; [argv] are the arguments behind it. *)
Definition atoi (s : list Z) : Z := default 0 (scan_d s).
Fixpoint options (s : list Z) (argv : list (list Z)) (o : Options) : option (Options * list (list Z)) :=
  match s with
  | [] => Some (o, argv)
  | c :: s =>
      if c =? 116 then options s argv (mkOptions true (Traptrace o) (Regtrace o) (NROWS o) (ASSOC o) (LINESIZE o) (RAND o) (LRD o))
      else if c =? 84 then options s argv (mkOptions (TRACE o) true (Regtrace o) (NROWS o) (ASSOC o) (LINESIZE o) (RAND o) (LRD o))
      else if c =? 114 then options s argv (mkOptions (TRACE o) (Traptrace o) true (NROWS o) (ASSOC o) (LINESIZE o) (RAND o) (LRD o))
      else if c =? 109 then
        match argv with
        | rows :: assoc :: line :: mode :: argv =>
            options s argv (mkOptions (TRACE o) (Traptrace o) (Regtrace o) (atoi rows) (atoi assoc) (atoi line)
              (bool_decide (take 1 mode = [114])) (bool_decide (take 3 mode = [108; 114; 100])))
        | _ => None
        end
      else options s argv o
  end.

(** The loop over the arguments behind argv[0]; [None] when an option reads
    past their end. *)
Fixpoint parse (fuel : nat) (argv : list (list Z)) (o : Options) : option (Options * list (list Z)) :=
  match fuel, argv with
  | S fuel, (45 :: s) :: argv => '(o, argv) ← options s argv o; parse fuel argv o
  | _, _ => Some (o, argv)
  end.

(** main up to the [n]-th instruction of the program. [can_open] is whether
    fopen opens the file. [self] and [filename] are arrays of 256 and 1000
    characters. *)
Definition main (can_open : list Z -> bool) (n : nat) (argv0 : list Z) (argv : list (list Z)) : L unit :=
  (if 256 <=? zlength argv0 then undef else ret tt) ;;;
  '(o, args) <- must (parse (length argv) argv default_options) ;;
  let filename := match args with [] => text "a.out" | f :: _ => f end in
  (if 1000 <=? zlength filename then undef else ret tt) ;;;
  (if can_open filename then ret tt else exit_) ;;;
  main_load_program filename ;;;
  let args := match args with [] => [text "a.out"] | _ => args end in
  zoom (runprogram (TRACE o) (Regtrace o) (Traptrace o) n memoffset args).

(** ** main of disasm.c

    Options are skipped; then the instructions from the start of the memory on
    are printed, as many as the text section has. *)

Fixpoint skip_options (argv : list (list Z)) : list (list Z) :=
  match argv with (45 :: _) :: argv => skip_options argv | _ => argv end.

Definition fetch_word (m : gmap Z Z) (addr : Z) : Z := i32 (le_decode (mem_bytes m (addr - memoffset) 4)).

Definition disassemble (text_size : Z) : L unit :=
  let turns := Z.to_nat (divRoundUp text_size 4) in
  s <- get ;;
  if MEMSIZE <? 4 * Z.of_nat turns then undef
  else t <- must (disasm (fetch_word (mem s.1)) turns memoffset) ;; say t.

Definition disasm_main (can_open : list Z -> bool) (argv0 : list Z) (argv : list (list Z)) : L unit :=
  (if 256 <=? zlength argv0 then undef else ret tt) ;;;
  let filename := match skip_options argv with [] => text "a.out" | f :: _ => f end in
  (if 1000 <=? zlength filename then undef else ret tt) ;;;
  (if can_open filename then ret tt else exit_) ;;;
  disasm_load_program filename ;;;
  disassemble (match ldptr ← ldopen filename; ldnshread ldptr ".text" with Some texthead => s_size texthead | None => 0 end).

(** * Correctness *)

(** ** The two programs load the same memory *)

(** [m1] returns exactly when [m2] does and [P] holds, with the same result. *)
Definition restricts {A} (m1 m2 : L A) (P : Prop) : Prop := forall s r, m1 s = Ok r <-> m2 s = Ok r /\ P.

Lemma restricts_refl {A} (m : L A) : restricts m m True.
Proof. intros s r. tauto. Qed.

Lemma bind_Ok_inv {S A B} (m : M S A) (f : A -> M S B) s r :
  bind m f s = Ok r <-> exists a s', m s = Ok (a, s') /\ f a s' = Ok r.
Proof.
  unfold bind. split.
  - destruct (m s) as [[a s']| | |]; try done. eauto.
  - by intros (a & s' & -> & ?).
Qed.

Lemma restricts_seq (m1 m2 n1 n2 : L unit) P Q :
  restricts m1 m2 P -> restricts n1 n2 Q -> restricts (m1 ;;; n1) (m2 ;;; n2) (P /\ Q).
Proof.
  intros Hm Hn s r. rewrite !bind_Ok_inv. split.
  - intros (a & s' & E1 & E2). apply Hm in E1 as [E1 HP]. apply Hn in E2 as [E2 HQ]. eauto 10.
  - intros [(a & s' & E1 & E2) [HP HQ]]. exists a, s'. split; [by apply Hm|by apply Hn].
Qed.

Lemma cstore_inside (pc c : Z) (s : Interp W) r : cstore pc c s = Ok r -> 0 <= pc - memoffset < MEMSIZE.
Proof.
  unfold cstore, put_bytes, inside. munfold. case_match eqn:E; [intros _|done].
  change (zlength (le_encode 1 c)) with 1 in E. apply andb_true_iff in E as [E1%Z.leb_le E2%Z.leb_le]. lia.
Qed.

Lemma load_checked_bytes ldptr n pc s s' :
  load_checked ldptr n pc s = Ok (tt, s') <-> exists pc', load_bytes ldptr n pc s = Ok (pc', s').
Proof.
  revert pc s. induction n as [|n IH]; intros pc s; cbn [load_checked load_bytes].
  { unfold ret. split; [intros [= <-]; by eexists|by intros [pc' [= _ <-]]]. }
  split.
  - intros (a & s0 & E0 & (c & s1 & E1 & (u & s2 & E2 & E3)%bind_Ok_inv)%bind_Ok_inv)%bind_Ok_inv.
    assert (s0 = s) as ->.
    { case_match; [|by inversion E0]. unfold too_small in E0. by apply bind_Ok_inv in E0 as (? & ? & _ & ?). }
    apply IH in E3 as [pc' E3]. exists pc'. mrun E1. mrun E2. done.
  - intros (pc' & (c & s1 & E1 & (u & s2 & E2 & E3)%bind_Ok_inv)%bind_Ok_inv).
    assert (0 <= pc - memoffset < MEMSIZE) as Hin.
    { unfold zoom in E2. destruct (cstore pc c (lget s1)) eqn:E; [|done..]. by eapply cstore_inside. }
    rewrite Z.geb_leb, (proj2 (Z.leb_gt _ _)) by (rewrite i32_id by (unfold is_i32, MEMSIZE in *; lia); lia).
    erewrite bind_Ok by reflexivity. mrun E1. mrun E2. apply IH. by exists pc'.
Qed.

(** The address behind a section. *)
Definition end_of (h : SCNHDR) : Z := Nat.iter (Z.to_nat (s_size h)) (fun pc => i32 (pc + 1)) (s_vaddr h).

Lemma load_bytes_end ldptr n pc s pc' s' : load_bytes ldptr n pc s = Ok (pc', s') -> pc' = Nat.iter n (fun pc => i32 (pc + 1)) pc.
Proof.
  revert pc s. induction n as [|n IH]; intros pc s; cbn [load_bytes]; [by intros [= <- _]|].
  intros (c & s1 & _ & (u & s2 & _ & E)%bind_Ok_inv)%bind_Ok_inv. apply IH in E as ->. by rewrite Nat.iter_succ_r.
Qed.

(** The sections that main.c accepts besides: they do not reach the last byte of
    the memory. *)
Definition below_end (h : SCNHDR) : Prop := s_scnptr h = 0 \/ i32 (end_of h - memoffset) < MEMSIZE.

Lemma LOADSECTION_restricts ldptr h : restricts (LOADSECTION ldptr h) (load_section ldptr h) (below_end h).
Proof.
  intros s [[] s']. unfold LOADSECTION, load_section, below_end.
  destruct (Z.eqb_spec (s_scnptr h) 0) as [E|E]; cbn [negb]; [tauto|]. rewrite !bind_Ok_inv. split.
  - intros (u & s1 & E1 & (pc & s2 & E2 & E3)%bind_Ok_inv). pose proof (load_bytes_end _ _ _ _ _ _ E2) as Hpc.
    case_match eqn:Eg; [unfold too_small in E3; by apply bind_Ok_inv in E3 as (? & ? & _ & ?)|].
    injection E3 as ->. split; [|right; fold (end_of h) in Hpc; subst pc; rewrite Z.geb_leb in Eg; by apply Z.leb_gt].
    exists u, s1. split; [done|]. apply load_checked_bytes. by exists pc.
  - intros [(u & s1 & E1 & [pc E2]%load_checked_bytes) Hend]. exists u, s1. split; [done|].
    mrun E2. apply load_bytes_end in E2. fold (end_of h) in E2. subst pc.
    rewrite Z.geb_leb, (proj2 (Z.leb_gt _ _)) by (destruct Hend; [done|lia]). done.
Qed.

Definition named_below (ldptr : LDFILE) (name : string) : Prop :=
  match ldnshread ldptr name with Some h => below_end h | None => True end.

Lemma load_named_restricts ldptr name missing :
  restricts (load_named LOADSECTION ldptr name missing) (load_named load_section ldptr name missing) (named_below ldptr name).
Proof. unfold load_named, named_below. case_match; [apply LOADSECTION_restricts|apply restricts_refl]. Qed.

Definition section_names : list string := [".text"; ".rdata"; ".data"; ".sdata"; ".sbss"; ".bss"]%string.


(** ** What is in the memory *)

(** The state with other memory and output, and the stream somewhere else. *)
Definition loaded (s : Interp W) (m : gmap Z Z) (o : list Z) : Interp W :=
  mkInterp (Reg s) (HI s) (LO s) (pc s) (npc s) m o (host s).

Hypothesis stream_reused : reused = true.

Lemma load_bytes_run ldptr l pc pre post (s : Interp W) :
  stream ldptr = pre ++ l ++ post -> memoffset <= pc -> pc + zlength l <= memoffset + MEMSIZE ->
  load_bytes ldptr (length l) pc (s, zlength pre) = Ok (pc + zlength l,
    (loaded s (mem_put (mem s) (pc - memoffset) (i8 <$> l)) (out s), zlength pre + zlength l)).
Proof using stream_reused.
  revert pc pre s. induction l as [|b l IH]; intros pc pre s Hl Hpc Hend; cbn [load_bytes length].
  { change (zlength []) with 0. cbn [fmap list_fmap mem_put]. rewrite !Z.add_0_r. by destruct s. }
  assert (zlength (b :: l) = 1 + zlength l) as Hlen by (unfold zlength; cbn [length]; lia). rewrite Hlen in *.
  assert (getc ldptr (s, zlength pre) = Ok (u8 b, (s, zlength pre + 1))) as E.
  { unfold getc. rewrite stream_reused. cbn [negb]. unfold get, put, ret. unfold bind. cbn [obind snd fst].
    assert (zlookup (pre ++ (b :: l) ++ post) (zlength pre) = Some b) as Hb by (rewrite zlookup_app_r by lia; by rewrite Z.sub_diag).
    by rewrite Hl, Hb. }
  mrun E.
  assert (zoom (cstore pc (u8 b)) (s, zlength pre + 1) = Ok (tt, (loaded s (mem_put (mem s) (pc - memoffset) [i8 b]) (out s), zlength pre + 1))) as E2.
  { unfold zoom, cstore, put_bytes, get, put, inside. unfold bind. cbn [obind lget lset lens_fst].
    change (zlength (le_encode 1 (u8 b))) with 1. assert (0 <= zlength l) by (unfold zlength; lia).
    rewrite (proj2 (Z.leb_le memoffset pc)), (proj2 (Z.leb_le (pc + 1) _)) by lia.
    cbn [andb le_encode obind mem_put]. by rewrite i8_u8. }
  mrun E2. assert (0 <= zlength l) by (unfold zlength; lia).
  rewrite i32_id by (unfold is_i32, memoffset, MEMSIZE in *; lia).
  replace (zlength pre + 1) with (zlength (pre ++ [b])) by (rewrite zlength_app; done).
  rewrite (IH (pc + 1) (pre ++ [b])); [|by rewrite Hl, <- app_assoc|lia|lia].
  rewrite zlength_app. change (zlength [b]) with 1. unfold loaded. cbn [Reg HI LO Interp.pc npc host mem out fmap list_fmap mem_put].
  replace (pc + 1 - memoffset) with (pc - memoffset + 1) by lia.
  by rewrite <- !Z.add_assoc.
Qed.

(** A section whose bytes are in the file and whose place is in the memory. *)
Definition placed (ldptr : LDFILE) (h : SCNHDR) : Prop :=
  0 < s_scnptr h /\ 0 <= s_size h /\ s_scnptr h + s_size h <= zlength (stream ldptr) /\
  memoffset <= s_vaddr h /\ s_vaddr h + s_size h < memoffset + MEMSIZE.

Definition section_bytes (ldptr : LDFILE) (h : SCNHDR) : list Z := i8 <$> slice (s_scnptr h) (s_size h) (stream ldptr).

Lemma LOADSECTION_run ldptr h (s : Interp W) p : placed ldptr h -> exists p',
  LOADSECTION ldptr h (s, p) = Ok (tt, (loaded s (mem_put (mem s) (s_vaddr h - memoffset) (section_bytes ldptr h)) (out s), p')).
Proof using stream_reused.
  intros (Hp & Hs & Hf & Hv & He). unfold LOADSECTION. rewrite (proj2 (Z.eqb_neq _ _)) by lia. cbn [negb].
  set (l := slice (s_scnptr h) (s_size h) (stream ldptr)).
  assert (zlength l = s_size h) as Hl by (apply zlength_slice; lia).
  assert (stream ldptr = take (Z.to_nat (s_scnptr h)) (stream ldptr) ++ l ++ drop (Z.to_nat (s_size h)) (drop (Z.to_nat (s_scnptr h)) (stream ldptr))) as Hst
    by (unfold l, slice; by rewrite !take_drop).
  assert (zlength (take (Z.to_nat (s_scnptr h)) (stream ldptr)) = s_scnptr h) as Hpre
    by (unfold zlength in *; rewrite length_take; lia).
  pose proof (load_bytes_run ldptr l (s_vaddr h) _ _ s Hst Hv ltac:(lia)) as E. rewrite Hpre in E.
  replace (length l) with (Z.to_nat (s_size h)) in E by (unfold zlength in Hl; lia).
  eexists. erewrite bind_Ok.
  2: { unfold FSEEK, modify. cbn [fst snd]. by rewrite (proj2 (Z.leb_le 0 (s_scnptr h))) by lia. }
  mrun E. rewrite Hl. rewrite Z.geb_leb, (proj2 (Z.leb_gt _ _)); [reflexivity|].
  rewrite i32_id by (unfold is_i32, memoffset, MEMSIZE in *; lia). lia.
Qed.

(** What load_program leaves in the memory: the sections of the file, one after
    the other, on zeros. *)
Definition load_spec (ldptr : LDFILE) (m : gmap Z Z) (name : string) : gmap Z Z :=
  match ldnshread ldptr name with
  | Some h => mem_put m (s_vaddr h - memoffset) (section_bytes ldptr h)
  | None => m
  end.

Lemma load_named_run ldptr name missing (s : Interp W) p : (forall h, ldnshread ldptr name = Some h -> placed ldptr h) ->
  exists p' o, load_named LOADSECTION ldptr name missing (s, p) = Ok (tt, (loaded s (load_spec ldptr (mem s) name) o, p')).
Proof using stream_reused.
  intros H. unfold load_named, load_spec. destruct (ldnshread ldptr name) as [h|].
  - destruct (LOADSECTION_run ldptr h s p (H h eq_refl)) as [p' E]. exists p', (out s). exact E.
  - exists p. eexists. reflexivity.
Qed.

Theorem load_program_memory filename ldptr (s : Interp W) p :
  ldopen filename = Some ldptr -> TYPE ldptr = 0x162 ->
  (forall name h, ldnshread ldptr name = Some h -> placed ldptr h) ->
  exists p' o, main_load_program filename (s, p) = Ok (tt, (loaded s (foldl (load_spec ldptr) (mem s) section_names) o, p')).
Proof using stream_reused.
  intros Hld Ht H. unfold main_load_program, load_program. rewrite Hld, Ht. cbn [Z.eqb Pos.eqb negb].
  do 5 (edestruct (load_named_run ldptr) as (? & ? & E); [apply H|]; mrun E; clear E; cbn [mem]).
  edestruct (load_named_run ldptr) as (p' & o & E); [apply H|]. exists p', o. exact E.
Qed.
End Loader.

(** ** Examples *)

(** A file with two instructions of text behind four other bytes, and data that
    ends with the memory. *)
Definition small_file (data_at : Z) : LDFILE :=
  mkLd 0x162
    (fun name =>
       if String.eqb name ".text" then Some (mkHead memoffset 8 4)
       else if String.eqb name ".data" then Some (mkHead data_at 2 12) else None)
    [127; 1; 2; 3; 5; 0; 8; 36; 0; 0; 0; 0; 7; 9].

Definition blank : Interp unit := mkInterp [] 0 0 0 0 ∅ [] tt.

Definition returns_text (o : outcome (unit * (Interp unit * Z))) : option (list Z) :=
  match o with Ok (_, (s, _)) => Some (out s) | _ => None end.

(** The disassembler takes the file; the interpreter only if the data is one byte
    lower. *)
Example small_file_loads :
  let ld at_ := (fun _ : list Z => Some (small_file at_)) in
  let messages := text "rdata section header missing" ++ [10] ++ text "sdata section header missing" ++ [10] ++
    text "sbss section header missing" ++ [10] ++ text "bss section header missing" ++ [10] in
  returns_text (disasm_main (ld (memoffset + MEMSIZE - 2)) true (fun _ => true) (text "disasm") [] (blank, 0)) =
    Some (messages ++ text "10000000: 24080005  " ++ [9] ++ text "addiu" ++ [9] ++ text "r8,0,0x5" ++ [10] ++
          text "10000004: 00000000  " ++ [9] ++ text "nop" ++ [10]) /\
  main_load_program (ld (memoffset + MEMSIZE - 2)) true [] (blank, 0) = Aborted /\
  returns_text (main_load_program (ld (memoffset + MEMSIZE - 3)) true [] (blank, 0)) = Some messages.
Proof. by vm_compute. Qed.

Example parse_options :
  parse 8 [text "-tm"; text "128"; text "2"; text "8"; text "lrd"; text "-T"; text "prog"; text "-r"] default_options =
  Some (mkOptions true true false 128 2 8 false true, [text "prog"; text "-r"]).
Proof. by vm_compute. Qed.
