(* ===== verification/Out.v ===== *)
(** * bin/out.c: dumps of object files

    What is printed of an object file after it was read: the sections with
    their relocations, disassembled if they are code, and the table of symbols.
    The printing keeps track of the column for the sake of its tabulators. The
    structures are those of the system headers of Ultrix, of which the fields
    that are used are here; reading them is left out. *)

From Stdlib Require Import Ascii String.
From stdpp Require Import base tactics list numbers.
From S2P Require Import Prelude Text Machine Disasm Debug.

Local Open Scope Z_scope.

Record reloc := mkReloc { r_vaddr : Z; r_symndx : Z; r_extern : bool; r_type : Z }.
(** A section: its header, its words and its relocations. *)
Record Section_ := mkSection { s_name : list Z; s_size : Z; s_vaddr : Z; data : list Z; relocs : list reloc }.
Record SYMR := mkSym { iss : Z; value : Z; st : Z; sc : Z }.
(** [symbols] and [sspace] are static arrays. *)
Record Object := mkObject { sections : list Section_; symbols : list SYMR; iextMax : Z; sspace : list Z }.

Definition MAXSYMS : Z := 300.

Definition symbol_type : list string :=
  ["Nil"; "Global"; "Static"; "Param"; "Local"; "Label"; "Proc"; "Block"; "End"; "Member"; "Type"; "File";
   "Register"; "Forward"; "StaticProc"; "Constant"]%string.
Definition storage_class : list string :=
  ["Nil"; "Text"; "Data"; "Bss"; "Register"; "Abs"; "Undefined"; "CdbLocal"; "Bits"; "CdbSystem"; "RegImage";
   "Info"; "UserStruct"; "SData"; "SBss"; "RData"; "Var"; "Common"; "SCommon"; "VarRegister"; "Variant";
   "SUndefined"; "Init"]%string.
Definition section_name : list string :=
  ["(null)"; ".text"; ".rdata"; ".data"; ".sdata"; ".sbss"; ".bss"; ".init"; ".lit8"; ".lit4"]%string.
Definition reloc_type : list string := ["abs"; "16"; "32"; "26"; "hi16"; "lo16"; "gpdata"; "gplit"]%string.

(** ** Printing *)

Record Out := mkOut { outfile : list Z; column : Z }.

Definition advance (column c : Z) : Z :=
  if c =? 10 then 1 else if c =? 9 then Z.land (column + 7) (Z.lnot 7) + 1 else column + 1.

(** The printf calls of dump_ascii, none of which fills the buffer. *)
Definition fput_text (t : list Z) : M Out unit :=
  modify (fun s => mkOut (outfile s ++ t) (foldl advance (column s) t)).
(** The text goes through an array of 100 characters. *)
Definition myprintf (t : list Z) : M Out unit := if 100 <=? zlength t then undef else fput_text t.
(** The printf of the library, which main still has: it does not know the
    column. *)
Definition plain_printf (t : list Z) : M Out unit := modify (fun s => mkOut (outfile s ++ t) (column s)).

Definition mytab (n : Z) : M Out bool :=
  r <- while_ (S (Z.to_nat n)) tt (fun _ =>
    s <- get ;;
    if column s <? n then put (mkOut (outfile s ++ [32]) (column s + 1)) ;;; ret (tt, true) else ret (tt, false)) ;;
  _ <- must r ;;
  s <- get ;; ret (column s =? n).

(** A string in an array, and an entry of a table of strings. *)
Definition c_text (buf : list Z) : M Out (list Z) := must (string_in buf).
Definition entry (table : list string) (i : Z) : M Out (list Z) := s <- must (zlookup table i) ;; ret (text s).

Section Dump.
Context (o : Object) (scUndefined : Z).

Definition symbol_name (sym : SYMR) : M Out (list Z) :=
  if iss sym <? 0 then undef else c_text (drop (Z.to_nat (iss sym)) (sspace o)).

(** The first relocation of the address, in column 57. *)
Fixpoint print_relocs (vaddr : Z) (l : list reloc) : M Out unit :=
  match l with
  | [] => ret tt
  | rp :: l =>
      if vaddr =? r_vaddr rp then
        _ <- mytab 57 ;;
        (if r_extern rp then
           if r_symndx rp >=? MAXSYMS then myprintf (text "sym $" ++ decimal (r_symndx rp))
           else sym <- must (zlookup (symbols o) (r_symndx rp)) ;; n <- symbol_name sym ;; myprintf ([34] ++ n ++ [34])
         else n <- entry section_name (r_symndx rp) ;; myprintf n) ;;;
        t <- entry reloc_type (r_type rp) ;; myprintf (32 :: t)
      else print_relocs vaddr l
  end.
Definition print_reloc (vaddr : Z) (s : Section_) : M Out unit := print_relocs vaddr (relocs s) ;;; myprintf [10].

Definition printable (c : Z) : Z := if (32 <=? c) && (c <? 127) then c else 46.

(** A word of data: its address, its value, its characters on a little-endian
    host, its decimal value. *)
Definition print_word (pc word : Z) : M Out unit :=
  myprintf (hex8 pc ++ text ": " ++ hex8 word ++ text "  ") ;;;
  for_ 0 4 (fun k => c <- must (zlookup (le_encode 4 word) k) ;; myprintf [printable c]) ;;;
  myprintf (9 :: decimal word).

Definition is_text (s : Section_) : bool := bool_decide (take 5 (s_name s) = text ".text").

Definition print_section (s : Section_) : M Out unit :=
  name <- c_text (s_name s) ;;
  myprintf (text "Section: " ++ name ++ [9] ++ decimal (s_size s) ++ text "/" ++ decimal (zlength (relocs s)) ++ [10]) ;;;
  for_ 0 (length (data s)) (fun j =>
    let pc := i32 (s_vaddr s + j * 4) in
    word <- must (zlookup (data s) j) ;;
    (if is_text s then t <- must (dump_ascii word pc) ;; fput_text t else print_word pc word) ;;;
    print_reloc pc s).

Definition print_symbol (sym : SYMR) : M Out unit :=
  (if sc sym =? scUndefined then myprintf (9 :: [32]) else myprintf (hex8 (value sym) ++ [32])) ;;;
  t <- entry symbol_type (st sym) ;; myprintf t ;;;
  _ <- mytab 25 ;;
  c <- entry storage_class (sc sym) ;; myprintf c ;;;
  _ <- mytab 41 ;;
  n <- symbol_name sym ;; myprintf (n ++ [10]).

(** main after the file was read. *)
Fixpoint print_sections (l : list Section_) : M Out unit :=
  match l with [] => ret tt | s :: l => print_section s ;;; print_sections l end.
Definition print_object : M Out unit :=
  print_sections (sections o) ;;;
  plain_printf (text "External Symbols:" ++ [10] ++ text "Value" ++ [9] ++ text " Type" ++ [9; 9] ++
                text "Storage Class" ++ [9] ++ text "Name" ++ [10]) ;;;
  for_ 0 (Z.to_nat (Z.min MAXSYMS (iextMax o))) (fun i =>
    sym <- must (zlookup (symbols o) i) ;; print_symbol sym).
End Dump.

Definition out_new : Out := mkOut [] 1.

(** * Correctness *)

(** Characters that take one column. *)
Definition plain (c : Z) : bool := negb (c =? 9) && negb (c =? 10).

Lemma advance_plain t col : forallb plain t = true -> foldl advance col t = col + zlength t.
Proof.
  revert col. induction t as [|c t IH]; intros col H; cbn [foldl]; [unfold zlength; cbn; lia|].
  cbn in H. apply andb_true_iff in H as [Hc H]. rewrite (IH _ H).
  unfold plain in Hc. apply andb_true_iff in Hc as [H9 H10]. apply negb_true_iff in H9, H10.
  unfold advance. rewrite H10, H9. unfold zlength. cbn [length]. lia.
Qed.

(** The tabulators are in the columns 9, 17, 25, ... *)
Lemma advance_tab col : 0 <= col -> advance col 9 = 8 * ((col + 7) / 8) + 1.
Proof.
  intros H. unfold advance. cbn [Z.eqb Pos.eqb]. f_equal.
  change (Z.lnot 7) with (Z.lnot (Z.ones 3)). rewrite <- Z.ldiff_land, Z.ldiff_ones_r, Z.shiftl_mul_pow2, Z.shiftr_div_pow2 by lia.
  change (2 ^ 3) with 8. lia.
Qed.

Lemma mytab_run n s : 0 <= column s <= n ->
  mytab n s = Ok (true, mkOut (outfile s ++ replicate (Z.to_nat (n - column s)) 32) n).
Proof.
  intros Hn. unfold mytab. destruct s as [t col]. cbn [outfile column] in *.
  set (body := fun _ : unit => _).
  assert (forall k f t col, (k < f)%nat -> col + Z.of_nat k = n ->
    while_ f tt body (mkOut t col) = Ok (Some tt, mkOut (t ++ replicate k 32) n)) as H.
  { induction k as [|k IH]; intros f t0 c Hf Hc; destruct f as [|f]; try lia; cbn [while_]; unfold body at 1.
    - erewrite bind_Ok by (unfold get, bind; cbn [obind column]; by rewrite (proj2 (Z.ltb_ge c n)) by lia).
      cbn [replicate]. rewrite app_nil_r. by replace n with c by lia.
    - erewrite bind_Ok by (unfold get, put, bind; cbn [obind column outfile]; rewrite (proj2 (Z.ltb_lt c n)) by lia; reflexivity).
      rewrite (IH f _ (c + 1)) by lia. cbn [replicate]. by rewrite <- app_assoc. }
  mrun (H (Z.to_nat (n - col)) (S (Z.to_nat n)) t col ltac:(lia) ltac:(lia)).
  unfold must, get, ret, bind. cbn [obind column]. by rewrite Z.eqb_refl.
Qed.

Lemma myprintf_run t s : zlength t < 100 -> myprintf t s = Ok (tt, mkOut (outfile s ++ t) (foldl advance (column s) t)).
Proof. intros H. unfold myprintf. by rewrite (proj2 (Z.leb_gt 100 (zlength t))) by lia. Qed.

(** ** Numbers take eight columns *)

Lemma hex_digits_plain f n : 0 <= n -> forallb plain (hex_digits f n) = true /\ (length (hex_digits f n) <= f)%nat.
Proof.
  revert n. induction f as [|f IH]; intros n Hn; [done|]. cbn [hex_digits].
  assert (plain (hex_digit (n mod 16)) = true) as Hd.
  { unfold plain, hex_digit. assert (0 <= n mod 16 < 16) by dlia.
    case_match; apply andb_true_iff; rewrite !negb_true_iff, !Z.eqb_neq; lia. }
  case_match; cbn [app forallb length]; [by rewrite Hd; split; [|lia]|].
  destruct (IH (n / 16)) as [H1 H2]; [dlia|]. rewrite forallb_app, length_app, H1. cbn. rewrite Hd. split; [done|lia].
Qed.

Lemma hex8_plain v : forallb plain (hex8 v) = true /\ zlength (hex8 v) = 8.
Proof.
  destruct (hex_digits_plain 8 (v mod 2 ^ 32)) as [H1 H2]; [dlia|]. unfold hex8, hex.
  split.
  - rewrite forallb_app, H1, andb_true_r. apply forallb_forall. intros x Hx%list_elem_of_In. by apply elem_of_replicate in Hx as [-> _].
  - unfold zlength. rewrite length_app, length_replicate. lia.
Qed.

(** ** The table of symbols *)

(** A text in a field of [w] columns. *)
Definition field (w : nat) (t : list Z) : list Z := t ++ replicate (w - length t) 32.

Definition fits_in (w : Z) (s : string) : bool := forallb plain (text s) && (zlength (text s) <? w).

Lemma entry_fits table w i s : forallb (fits_in w) table = true -> zlookup table i = Some s ->
  forallb plain (text s) = true /\ zlength (text s) < w.
Proof.
  intros H Hi. apply zlookup_Some in Hi as [_ Hi]. rewrite forallb_forall in H.
  specialize (H s). unfold fits_in in H. rewrite andb_true_iff, Z.ltb_lt in H. apply H, list_elem_of_In. by eapply list_elem_of_lookup_2.
Qed.

(** A text in the field from column [c] to column [n]. *)
Lemma field_run t n s : forallb plain t = true -> 0 <= column s -> column s + zlength t <= n -> zlength t < 100 ->
  (myprintf t ;;; mytab n) s = Ok (true, mkOut (outfile s ++ field (Z.to_nat (n - column s)) t) n).
Proof.
  intros Hp Hc Hn Ht. mrun (myprintf_run t s Ht). rewrite advance_plain by done.
  rewrite mytab_run by (cbn [column]; unfold zlength in *; lia). cbn [column outfile].
  unfold field. rewrite <- app_assoc.
  by replace (Z.to_nat (n - column s) - length t)%nat with (Z.to_nat (n - (column s + zlength t))) by (unfold zlength in *; lia).
Qed.

Section Table.
Context (o : Object) (scUndefined : Z).

(** The line of a symbol: its value or a tabulator, its type up to column 25,
    its class up to column 41, its name. *)
Definition symbol_line (sym : SYMR) (ty cl : string) (name : list Z) : list Z :=
  (if sc sym =? scUndefined then [9; 32] else hex8 (value sym) ++ [32]) ++
  field 15 (text ty) ++ field 16 (text cl) ++ name ++ [10].

(** The types, the class and the name of a symbol. *)
Record described (sym : SYMR) (ty cl : string) (name : list Z) : Prop := {
  ds_type : zlookup symbol_type (st sym) = Some ty;
  ds_class : zlookup storage_class (sc sym) = Some cl;
  ds_iss : 0 <= iss sym;
  ds_name : string_in (drop (Z.to_nat (iss sym)) (sspace o)) = Some name;
  ds_short : zlength name < 99
}.

Lemma print_symbol_line sym ty cl name t : described sym ty cl name ->
  print_symbol o scUndefined sym (mkOut t 1) = Ok (tt, mkOut (t ++ symbol_line sym ty cl name) 1).
Proof.
  intros [Hty Hcl Hiss Hname Hlen]. unfold print_symbol, symbol_line.
  set (first := if sc sym =? scUndefined then [9; 32] else hex8 (value sym) ++ [32]).
  assert ((if sc sym =? scUndefined then myprintf (9 :: [32]) else myprintf (hex8 (value sym) ++ [32])) (mkOut t 1) =
    Ok (tt, mkOut (t ++ first) 10)) as E1.
  { unfold first. destruct (sc sym =? scUndefined); [done|]. destruct (hex8_plain (value sym)) as [Hp Hl].
    rewrite myprintf_run by (rewrite zlength_app, Hl; done). cbn [outfile column].
    rewrite advance_plain by (rewrite forallb_app, Hp; done). by rewrite zlength_app, Hl. }
  mrun E1.
  assert (forall table i s, zlookup table i = Some s -> forall x, entry table i x = Ok (text s, x)) as Hent
    by (intros table i s Hs x; unfold entry; by rewrite Hs).
  mrun (Hent _ _ _ Hty (mkOut (t ++ first) 10)).
  destruct (entry_fits symbol_type 15 _ _ eq_refl Hty) as [Hp1 Hl1].
  destruct (entry_fits storage_class 16 _ _ eq_refl Hcl) as [Hp2 Hl2].
  pose proof (field_run (text ty) 25 (mkOut (t ++ first) 10) Hp1 ltac:(cbn; lia) ltac:(cbn [column]; lia) ltac:(lia)) as F1.
  rewrite (bind_assoc (myprintf (text ty)) (fun _ => mytab 25)). mrun F1. clear F1. cbn [outfile column].
  mrun (Hent _ _ _ Hcl (mkOut ((t ++ first) ++ field 15 (text ty)) 25)).
  pose proof (field_run (text cl) 41 (mkOut ((t ++ first) ++ field 15 (text ty)) 25) Hp2 ltac:(cbn; lia) ltac:(cbn [column]; lia) ltac:(lia)) as F2.
  rewrite (bind_assoc (myprintf (text cl)) (fun _ => mytab 41)). mrun F2. clear F2. cbn [outfile column].
  set (t2 := ((t ++ first) ++ _) ++ _).
  assert (symbol_name o sym (mkOut t2 41) = Ok (name, mkOut t2 41)) as E2.
  { unfold symbol_name, c_text. rewrite (proj2 (Z.ltb_ge (iss sym) 0)) by done. by rewrite Hname. }
  mrun E2. rewrite myprintf_run by (rewrite zlength_app; unfold zlength in *; cbn [length]; lia). cbn [outfile column].
  rewrite foldl_app. cbn [foldl]. unfold t2. by rewrite <- !app_assoc.
Qed.

(** The lines of the table, for symbols with their type, class and name. *)
Definition table (l : list (SYMR * (string * string * list Z))) : list Z :=
  l ≫= (fun '(sym, (ty, cl, name)) => symbol_line sym ty cl name).

Theorem symbol_table_aligned l rest t :
  Forall (fun '(sym, (ty, cl, name)) => described sym ty cl name) l -> symbols o = (fst <$> l) ++ rest ->
  for_ 0 (length l) (fun i => sym <- must (zlookup (symbols o) i) ;; print_symbol o scUndefined sym) (mkOut t 1) =
  Ok (tt, mkOut (t ++ table l) 1).
Proof.
  intros Hl Hs. assert (forall pre, symbols o = pre ++ (fst <$> l) ++ rest ->
    for_ (zlength pre) (length l) (fun i => sym <- must (zlookup (symbols o) i) ;; print_symbol o scUndefined sym) (mkOut t 1) =
    Ok (tt, mkOut (t ++ table l) 1)) as H; [|by apply (H [])].
  clear Hs. revert t. induction Hl as [|[sym [[ty cl] name]] l Hd _ IH]; intros t pre Hs; cbn [length for_].
  { unfold table. cbn. by rewrite app_nil_r. }
  assert (zlookup (symbols o) (zlength pre) = Some sym) as E by (rewrite Hs, zlookup_app_r, Z.sub_diag by lia; done).
  erewrite bind_Ok.
  2: { rewrite E. unfold must, ret. unfold bind at 1. cbn [obind]. by apply print_symbol_line. }
  replace (zlength pre + 1) with (zlength (pre ++ [sym])) by (rewrite zlength_app; done).
  rewrite (IH _ (pre ++ [sym])) by (rewrite Hs; cbn [fmap list_fmap fst]; by rewrite <- app_assoc).
  unfold table. cbn [mbind list_bind]. by rewrite <- app_assoc.
Qed.
End Table.

(** Two words of data, of which the first is relocated, and two symbols. *)
Example out_example :
  let o := mkObject
    [mkSection (text ".data" ++ [0; 0; 0]) 8 0x10000000 [0x41424300; -1] [mkReloc 0x10000000 1 true 2]]
    [mkSym 0 0x400000 6 1; mkSym 5 0 1 6] 2 (text "main" ++ [0] ++ text "exit" ++ [0]) in
  match print_object o 6 out_new with
  | Ok (_, s) => Some (outfile s)
  | _ => None
  end = Some (
    text "Section: .data" ++ [9] ++ text "8/1" ++ [10] ++
    text "10000000: 41424300  .CBA" ++ [9] ++ text "1094861568              " ++ [34] ++ text "exit" ++ [34] ++ text " 32" ++ [10] ++
    text "10000004: ffffffff  ...." ++ [9] ++ text "-1" ++ [10] ++
    text "External Symbols:" ++ [10] ++ text "Value" ++ [9] ++ text " Type" ++ [9; 9] ++ text "Storage Class" ++ [9] ++ text "Name" ++ [10] ++
    text "00400000 Proc           Text            main" ++ [10] ++
    [9; 32] ++ text "Global         Undefined       exit" ++ [10]).
Proof. by vm_compute. Qed.
