(* ===== verification/Threads.v ===== *)
(** * threads/thread.cc, scheduler.cc, synch.cc, synchlist.cc, threadtest.cc

    Threads, the scheduler and semaphores. Several threads run on one CPU, each
    on a stack of its own: the kernel code of a thread is a program ([prog])
    made of atomic operations on the state, loops, ticks of the simulated clock
    and context switches, and a configuration is the program of the running
    thread with what the other threads continue with when SWITCH gives them the
    CPU back. The only places where the CPU changes hands are those of the
    code: Scheduler::Run, reached from Yield, Sleep and, through the interrupts,
    from every OneTick. *)

From stdpp Require Import base tactics list numbers gmap relations.
From S2P Require Import Prelude Lists Interrupt Machine BitMap AddrSpace.

Local Open Scope Z_scope.

(** ** Programs of threads *)

(** [Tick] is a call of Interrupt::OneTick, [Switch] the machine dependent
    routine SWITCH, and [Spawn t p] sets the machine state of the thread [t]
    up so that the first SWITCH to it runs [p]. [Until m body] is the loop
    that leaves when [m] gives a value, and runs [body] when it gives none.
    [Call a] calls the procedure that a pointer passed to Fork points to, with
    the argument [a]: programs that start programs of their own kind. *)
Inductive prog (K A : Type) : Type :=
| Ret (a : A)
| Do {B : Type} (m : M K B) (k : B -> prog K A)
| Until {B : Type} (m : M K (option B)) (body : prog K unit) (k : B -> prog K A)
| Tick (k : prog K A)
| Switch (oldThread newThread : loc) (k : prog K A)
| Spawn (t : loc) (body : prog K unit) (k : prog K A)
| Call (arg : loc) (k : prog K A).
Arguments Ret {K A} _.
Arguments Do {K A B} _ _.
Arguments Until {K A B} _ _ _.
Arguments Tick {K A} _.
Arguments Switch {K A} _ _ _.
Arguments Spawn {K A} _ _ _.
Arguments Call {K A} _ _.

Fixpoint pbind {K A B} (p : prog K A) (f : A -> prog K B) : prog K B :=
  match p with
  | Ret a => f a
  | Do m k => Do m (fun b => pbind (k b) f)
  | Until m body k => Until m body (fun b => pbind (k b) f)
  | Tick k => Tick (pbind k f)
  | Switch old new k => Switch old new (pbind k f)
  | Spawn t body k => Spawn t body (pbind k f)
  | Call a k => Call a (pbind k f)
  end.

Definition op {K A} (m : M K A) : prog K A := Do m Ret.
Definition ptick {K} : prog K unit := Tick (Ret tt).

Notation "x <~ p ;; k" := (pbind p (fun x => k))
  (at level 20, p at level 99, k at level 200) : nachos_scope.
Notation "p ;~ k" := (pbind p (fun _ => k))
  (at level 100, k at level 200, right associativity) : nachos_scope.

(** [for (i = lo; i < lo + n; i++) body(i)] *)
Fixpoint pfor {K} (lo : Z) (n : nat) (body : Z -> prog K unit) : prog K unit :=
  match n with
  | O => Ret tt
  | S n' => body lo ;~ pfor (lo + 1) n' body
  end.

(** ** Data *)

Definition STACK_FENCEPOST : Z := 0xdeadbeef.

Inductive ThreadStatus := JUST_CREATED | RUNNING | READY | BLOCKED.

#[export] Instance ThreadStatus_eq_dec : EqDecision ThreadStatus.
Proof. solve_decision. Defined.

(** A thread control block. Of the stack we keep the word that CheckOverflow
    looks at, [None] while the pointer is NULL; what the thread does next,
    which the code keeps on that stack and in machineState, is the
    continuation that a configuration holds for it. *)
Record Thread := mkThread {
  thread_name : list Z;
  stack : option Z;
  thread_status : ThreadStatus;
  userRegisters : list Z;
  thread_space : option loc
}.

(** A [char *] that names a semaphore: a string literal or a buffer on the
    heap, which may be freed while the semaphore still points to it. *)
Inductive charp := Lit (s : list Z) | Buf (p : loc).

(** The queue of a semaphore and the ready list are the sequences that lists
    of Lists.v represent. *)
Record Semaphore := mkSem {
  sem_name : charp;
  value : Z;
  queue : list loc
}.

Record Kernel (X : Type) := mkKernel {
  threads : gmap loc Thread;
  readyList : list loc;
  currentThread : loc;
  threadToBeDestroyed : option loc;
  semaphores : gmap loc Semaphore;
  spaces : gmap loc AddrSpace;
  user : X
}.
Arguments mkKernel {X} _ _ _ _ _ _ _.
Arguments threads {X} _.
Arguments readyList {X} _.
Arguments currentThread {X} _.
Arguments threadToBeDestroyed {X} _.
Arguments semaphores {X} _.
Arguments spaces {X} _.
Arguments user {X} _.

Section Fields.
Context {X : Type}.
Implicit Types k : Kernel X.
Definition set_threads v k := mkKernel v (readyList k) (currentThread k) (threadToBeDestroyed k)
  (semaphores k) (spaces k) (user k).
Definition set_readyList v k := mkKernel (threads k) v (currentThread k) (threadToBeDestroyed k)
  (semaphores k) (spaces k) (user k).
Definition set_currentThread v k := mkKernel (threads k) (readyList k) v (threadToBeDestroyed k)
  (semaphores k) (spaces k) (user k).
Definition set_threadToBeDestroyed v k := mkKernel (threads k) (readyList k) (currentThread k) v
  (semaphores k) (spaces k) (user k).
Definition set_semaphores v k := mkKernel (threads k) (readyList k) (currentThread k)
  (threadToBeDestroyed k) v (spaces k) (user k).
Definition set_user (v : X) (k : Kernel X) : Kernel X := mkKernel (threads k) (readyList k) (currentThread k)
  (threadToBeDestroyed k) (semaphores k) (spaces k) v.
End Fields.

Definition set_name v (t : Thread) :=
  mkThread v (stack t) (thread_status t) (userRegisters t) (thread_space t).
Definition set_stack v (t : Thread) :=
  mkThread (thread_name t) v (thread_status t) (userRegisters t) (thread_space t).
Definition Thread_setStatus v (t : Thread) :=
  mkThread (thread_name t) (stack t) v (userRegisters t) (thread_space t).
Definition set_userRegisters v (t : Thread) :=
  mkThread (thread_name t) (stack t) (thread_status t) v (thread_space t).
Definition set_space v (t : Thread) :=
  mkThread (thread_name t) (stack t) (thread_status t) (userRegisters t) v.

Section Threads.
Context {X : Type} `{!Lens Machine X}.
(** The interrupt handlers of the devices, and DelayedLoad(0, 0). *)
Context (call : VoidFunctionPtr -> Z -> M (Sim (Kernel X)) unit).
Context (DelayedLoad_0_0 : M (Sim (Kernel X)) unit).

Abbreviation K := (Sim (Kernel X)).

Definition on_kernel (f : Kernel X -> Kernel X) : M K unit := modify (on_rest f).
Definition kernel {A} (f : Kernel X -> A) : M K A := gets (fun s => f (rest s)).

(** Following a pointer to a thread, a semaphore, an address space. *)
Definition get_thread (t : loc) : M K Thread :=
  ts <- kernel threads ;; must (ts !! t).
Definition update_thread (t : loc) (f : Thread -> Thread) : M K unit :=
  th <- get_thread t ;; on_kernel (fun k => set_threads (<[t := f th]> (threads k)) k).
Definition get_semaphore (a : loc) : M K Semaphore :=
  ss <- kernel semaphores ;; must (ss !! a).
Definition put_semaphore (a : loc) (s : Semaphore) : M K unit :=
  on_kernel (fun k => set_semaphores (<[a := s]> (semaphores k)) k).
Definition get_space (a : loc) : M K AddrSpace :=
  ss <- kernel spaces ;; must (ss !! a).
Definition on_user {A} (m : M X A) : M K A := fun s =>
  obind (m (user (rest s))) (fun '(a, x) => Ok (a, on_rest (set_user x) s)).
Definition on_cpu {A} (m : M Machine A) : M K A := on_user (zoom m).

(** ** Interrupt levels *)

(** Interrupt::SetLevel up to its call of OneTick. *)
Definition change_level (now : IntStatus) : M K IntStatus :=
  s <- get ;;
  let old := level (intr s) in
  ASSERT (bool_decide (now = IntOff) || negb (inHandler (intr s))) ;;;
  Interrupt_ChangeLevel now ;;;
  ret old.

Definition SetLevel (now : IntStatus) : prog K IntStatus :=
  old <~ op (change_level now) ;;
  (if bool_decide (now = IntOn) && bool_decide (old = IntOff) then ptick else Ret tt) ;~
  Ret old.

Definition Enable : prog K unit := SetLevel IntOn ;~ Ret tt.

(** ** The scheduler *)

Definition Scheduler_ReadyToRun (thread : loc) : M K unit :=
  update_thread thread (Thread_setStatus READY) ;;;
  on_kernel (fun k => set_readyList (readyList k ++ [thread]) k).

Definition Scheduler_FindNextToRun : M K (option loc) :=
  l <- kernel readyList ;;
  match l with
  | [] => ret None
  | t :: l' => on_kernel (set_readyList l') ;;; ret (Some t)
  end.

Definition Thread_CheckOverflow (this : loc) : M K unit :=
  th <- get_thread this ;;
  match stack th with
  | Some w => ASSERT (w =? STACK_FENCEPOST)
  | None => ret tt
  end.

Definition Thread_SaveUserState (this : loc) : M K unit :=
  for_ 0 (Z.to_nat NumTotalRegs) (fun i =>
    v <- on_cpu (Machine_ReadRegister i) ;;
    th <- get_thread this ;;
    rs <- must (store i v (userRegisters th)) ;;
    update_thread this (set_userRegisters rs)).

Definition Thread_RestoreUserState (this : loc) : M K unit :=
  for_ 0 (Z.to_nat NumTotalRegs) (fun i =>
    th <- get_thread this ;;
    v <- must (zlookup (userRegisters th) i) ;;
    on_cpu (Machine_WriteRegister i v)).

(** [delete thread] *)
Definition Thread_delete (this : loc) : M K unit :=
  th <- get_thread this ;;
  c <- kernel currentThread ;;
  ASSERT (negb (bool_decide (this = c))) ;;;
  on_kernel (fun k => set_threads (delete this (threads k)) k).

(** Scheduler::Run before and after SWITCH. *)
Definition leave_thread (oldThread : loc) : M K unit :=
  th <- get_thread oldThread ;;
  match thread_space th with
  | Some a =>
      Thread_SaveUserState oldThread ;;; on_cpu AddrSpace_SaveState
  | None => ret tt
  end ;;;
  Thread_CheckOverflow oldThread.

Definition enter_thread (nextThread : loc) : M K unit :=
  on_kernel (set_currentThread nextThread) ;;;
  update_thread nextThread (Thread_setStatus RUNNING).

Definition resume_thread : M K unit :=
  d <- kernel threadToBeDestroyed ;;
  match d with
  | Some t => Thread_delete t ;;; on_kernel (set_threadToBeDestroyed None)
  | None => ret tt
  end ;;;
  c <- kernel currentThread ;;
  th <- get_thread c ;;
  match thread_space th with
  | Some a =>
      Thread_RestoreUserState c ;;;
      sp <- get_space a ;; on_cpu (AddrSpace_RestoreState sp)
  | None => ret tt
  end.

Definition Scheduler_Run (nextThread : loc) : prog K unit :=
  oldThread <~ op (kernel currentThread) ;;
  op (leave_thread oldThread) ;~
  op (enter_thread nextThread) ;~
  Switch oldThread nextThread (op resume_thread).

(** Scheduler::Print: the names it prints. *)
Fixpoint print_names (l : list loc) : M K (list (list Z)) :=
  match l with
  | [] => ret []
  | t :: l' => th <- get_thread t ;; ns <- print_names l' ;; ret (thread_name th :: ns)
  end.
Definition Scheduler_Print : M K (list (list Z)) :=
  l <- kernel readyList ;; print_names l.

(** ** Threads *)

(** [new Thread(name)]; [garbage] is what userRegisters contains. *)
Definition Thread_new (garbage name : list Z) : M K loc :=
  ts <- kernel threads ;;
  let t := fresh (dom ts) in
  on_kernel (set_threads (<[t := mkThread name None JUST_CREATED garbage None]> ts)) ;;;
  ret t.

Definition Thread_Yield (this : loc) : prog K unit :=
  oldLevel <~ SetLevel IntOff ;;
  op (c <- kernel currentThread ;; ASSERT (bool_decide (this = c))) ;~
  nextThread <~ op Scheduler_FindNextToRun ;;
  match nextThread with
  | Some t => op (Scheduler_ReadyToRun this) ;~ Scheduler_Run t
  | None => Ret tt
  end ;~
  SetLevel oldLevel ;~ Ret tt.

Definition Thread_Sleep (this : loc) : prog K unit :=
  op (c <- kernel currentThread ;; ASSERT (bool_decide (this = c)) ;;;
      l <- gets (fun s => level (intr s)) ;; ASSERT (bool_decide (l = IntOff)) ;;;
      update_thread this (Thread_setStatus BLOCKED)) ;~
  Until Scheduler_FindNextToRun (op (Interrupt_Idle call DelayedLoad_0_0)) Scheduler_Run.

Definition Thread_Finish (this : loc) : prog K unit :=
  SetLevel IntOff ;~
  op (c <- kernel currentThread ;; ASSERT (bool_decide (this = c)) ;;;
      on_kernel (set_threadToBeDestroyed (Some c))) ;~
  Thread_Sleep this.

Definition ThreadFinish : prog K unit :=
  c <~ op (kernel currentThread) ;; Thread_Finish c.
Definition InterruptEnable : prog K unit := Enable.

(** The frame at the bottom of a thread's stack: enable interrupts, call the
    procedure, finish. *)
Definition ThreadRoot (func : prog K unit) : prog K unit :=
  InterruptEnable ;~ func ;~ ThreadFinish.

Definition Thread_StackAllocate (this : loc) (func : prog K unit) : prog K unit :=
  op (update_thread this (set_stack (Some STACK_FENCEPOST))) ;~
  Spawn this (ThreadRoot func) (Ret tt).

Definition Thread_Fork (this : loc) (func : prog K unit) : prog K unit :=
  Thread_StackAllocate this func ;~
  oldLevel <~ SetLevel IntOff ;;
  op (Scheduler_ReadyToRun this) ;~
  SetLevel oldLevel ;~ Ret tt.

(** Interrupt::OneTick, with the call of Yield a program. *)
Definition OneTick : prog K unit :=
  old <~ op (gets (fun s => status (intr s))) ;;
  op (advance_time ;;;
      Interrupt_ChangeLevel IntOff ;;;
      fire_due call DelayedLoad_0_0 ;;;
      Interrupt_ChangeLevel IntOn) ;~
  y <~ op (gets (fun s => yieldOnReturn (intr s))) ;;
  if y : bool then
    op (modify (on_intr (set_yieldOnReturn false)) ;;;
        modify (on_intr (set_status SystemMode))) ;~
    c <~ op (kernel currentThread) ;;
    Thread_Yield c ;~
    op (modify (on_intr (set_status old)))
  else Ret tt.

(** ** Semaphores *)

Definition Semaphore_new (debugName : charp) (initialValue : Z) : M K loc :=
  ss <- kernel semaphores ;;
  let a := fresh (dom ss) in
  put_semaphore a (mkSem debugName initialValue []) ;;; ret a.

Definition Semaphore_delete (this : loc) : M K unit :=
  _ <- get_semaphore this ;;
  on_kernel (fun k => set_semaphores (delete this (semaphores k)) k).

Definition Semaphore_P (this : loc) : prog K unit :=
  oldLevel <~ SetLevel IntOff ;;
  Until (s <- get_semaphore this ;; ret (if value s =? 0 then None else Some tt))
    (op (s <- get_semaphore this ;; c <- kernel currentThread ;;
         put_semaphore this (mkSem (sem_name s) (value s) (queue s ++ [c]))) ;~
     c <~ op (kernel currentThread) ;; Thread_Sleep c)
    (fun _ =>
       op (s <- get_semaphore this ;;
           put_semaphore this (mkSem (sem_name s) (i32 (value s - 1)) (queue s))) ;~
       SetLevel oldLevel ;~ Ret tt).

(** What V does with interrupts off, as it is also called by the handlers. *)
Definition release (this : loc) : M K unit :=
  s <- get_semaphore this ;;
  match queue s with
  | [] => ret tt
  | t :: q => put_semaphore this (mkSem (sem_name s) (value s) q) ;;; Scheduler_ReadyToRun t
  end ;;;
  s <- get_semaphore this ;;
  put_semaphore this (mkSem (sem_name s) (i32 (value s + 1)) (queue s)).

Definition Semaphore_V (this : loc) : prog K unit :=
  oldLevel <~ SetLevel IntOff ;;
  op (release this) ;~
  SetLevel oldLevel ;~ Ret tt.

(** V in an interrupt handler, where interrupts are off already. *)
Definition Semaphore_V_handler (this : loc) : M K unit :=
  oldLevel <- change_level IntOff ;;
  release this ;;;
  _ <- change_level oldLevel ;; ret tt.

(** ** Running the threads *)

Record config := mkConfig {
  cpu : prog K unit;
  saved : gmap loc (prog K unit);
  state : K
}.

(** The procedure that [Call] calls. *)
Context (code : loc -> prog K unit).

(** The next step of the CPU. A thread's program does not return: it would run
    off the bottom of the stack. *)
Definition step (c : config) : outcome config :=
  match cpu c with
  | Ret _ => Undef
  | Do m k => obind (m (state c)) (fun '(b, s) => Ok (mkConfig (k b) (saved c) s))
  | Until m body k =>
      obind (m (state c)) (fun '(r, s) =>
        Ok (mkConfig (match r with Some b => k b | None => body ;~ Until m body k end) (saved c) s))
  | Tick k => Ok (mkConfig (OneTick ;~ k) (saved c) (state c))
  | Switch old new k =>
      let conts := <[old := k]> (saved c) in
      match conts !! new with
      | Some p => Ok (mkConfig p (delete new conts) (state c))
      | None => Undef
      end
  | Spawn t body k => Ok (mkConfig k (<[t := body]> (saved c)) (state c))
  | Call a k => Ok (mkConfig (code a ;~ k) (saved c) (state c))
  end.

Fixpoint run (fuel : nat) (c : config) : outcome config :=
  match fuel with
  | O => Ok c
  | S n => obind (step c) (run n)
  end.
End Threads.

(** ** Locks, condition variables and synchronised lists

    Locks and conditions are not implemented: the operations of a lock do
    nothing, and waiting for a condition fails. *)

Definition Lock_Acquire {S} : M S unit := ret tt.
Definition Lock_Release {S} : M S unit := ret tt.
Definition Condition_Wait {S} : M S unit := ASSERT false.
Definition Condition_Signal {S} : M S unit := ret tt.
Definition Condition_Broadcast {S} : M S unit := ret tt.

Definition SynchList_new (h : gmap loc ListElement) (b : loc) : List := List_new h b.
Definition SynchList_delete : M List unit := List_delete.

Definition SynchList_Append (it : Z) : M List unit :=
  Lock_Acquire ;;; List_Append it ;;; Condition_Signal ;;; Lock_Release.

(** The loop ends in its first turn, as Wait does not return. *)
Definition SynchList_Remove : M List Z :=
  Lock_Acquire ;;;
  empty <- List_IsEmpty ;;
  (if empty : bool then Condition_Wait else ret tt) ;;;
  it <- List_Remove ;;
  ASSERT (negb (it =? 0)) ;;;
  Lock_Release ;;;
  ret it.

Definition SynchList_Mapcar : M List (list Z) :=
  Lock_Acquire ;;; l <- List_Mapcar ;; Lock_Release ;;; ret l.

(** ** threads/threadtest.cc

    [print which num] is the printf of SimpleThread. *)

Section ThreadTest.
Context {X : Type} `{!Lens Machine X}.
Context (call : VoidFunctionPtr -> Z -> M (Sim (Kernel X)) unit).
Context (DelayedLoad_0_0 : M (Sim (Kernel X)) unit).
Context (print : Z -> Z -> M (Sim (Kernel X)) unit).

Definition SimpleThread (which : Z) : prog (Sim (Kernel X)) unit :=
  pfor 0 5 (fun num =>
    op (print which num) ;~
    c <~ op (kernel currentThread) ;; Thread_Yield c).

Definition ThreadTest1 (garbage : list Z) : prog (Sim (Kernel X)) unit :=
  t <~ op (Thread_new garbage [102; 111; 114; 107; 101; 100; 32; 116; 104; 114; 101; 97; 100]) ;;
  Thread_Fork call DelayedLoad_0_0 t (SimpleThread 1) ;~
  SimpleThread 0.

Definition ThreadTest (testnum : Z) (garbage : list Z) : prog (Sim (Kernel X)) unit :=
  if testnum =? 1 then ThreadTest1 garbage else Ret tt.
End ThreadTest.
