(* ===== verification/ThreadsInv.v ===== *)
(** * The invariant of the scheduler and of the semaphores

    What holds of the kernel's data whenever a thread runs its own code or is
    switched to, and how the atomic operations of Threads.v keep it. *)

From stdpp Require Import base tactics list numbers gmap.
From S2P Require Import Prelude Lists Interrupt Machine BitMap AddrSpace Threads.

Local Open Scope Z_scope.

(** What the current thread is doing: running, or on its way to give the CPU up
    after it was put on the ready list or in a queue, or when it is finished. *)
Inductive mode := Runs | Suspended | Finished.

Section Invariant.
Context {X : Type} `{!Lens Machine X}.
Implicit Types (k : Kernel X) (t : loc).

Definition status_of k t : option ThreadStatus := thread_status <$> threads k !! t.

Definition waiting k (a t : loc) : Prop :=
  exists sm, semaphores k !! a = Some sm /\ t ∈ queue sm.

(** A thread that can run again: it is ready, or waits for a semaphore. *)
Definition active k t : Prop := status_of k t = Some READY \/ exists a, waiting k a t.

Definition thread_ok k (th : Thread) : Prop :=
  (stack th = None \/ stack th = Some STACK_FENCEPOST) /\
  zlength (userRegisters th) = NumTotalRegs /\
  (forall a, thread_space th = Some a -> is_Some (spaces k !! a)).

(** The ready list holds exactly the ready threads; the queue of a semaphore
    holds blocked threads only, each of them is in one queue, once, and is not
    the one to be destroyed; only the current thread can be running. *)
Record kernel_wf k : Prop := {
  k_ready : NoDup (readyList k);
  k_ready_status : forall t, t ∈ readyList k <-> status_of k t = Some READY;
  k_waiting : forall a t, waiting k a t ->
    status_of k t = Some BLOCKED /\ threadToBeDestroyed k <> Some t;
  k_queue : forall a sm, semaphores k !! a = Some sm -> NoDup (queue sm);
  k_queue_unique : forall a b t, waiting k a t -> waiting k b t -> a = b;
  k_running : forall t, status_of k t = Some RUNNING -> t = currentThread k;
  k_destroyed : forall t, threadToBeDestroyed k = Some t -> status_of k t = Some BLOCKED;
  k_threads : forall t th, threads k !! t = Some th -> thread_ok k th;
  k_cpu : zlength (registers (lget (user k))) = NumTotalRegs
}.

(** No thread is unaccounted for: each one that exists is the current thread
    [c], one of [S] or of [F], or was just created. *)
Definition accounted (S F : gset loc) (c : loc) k : Prop := forall t st,
  status_of k t = Some st -> t = c \/ t ∈ S \/ t ∈ F \/ st = JUST_CREATED.

(** The invariant that an interrupt handler keeps: the kernel is well formed,
    the current thread is [c]; [S] are the other threads that are not finished:
    each of them is ready or waits for a semaphore, or was just created; every
    other thread is finished and among [F]; the semaphores of [D] exist. *)
Record handler_inv (S F D : gset loc) (c : loc) (r : mode) k : Prop := {
  h_wf : kernel_wf k;
  h_active : forall t, active k t -> t ∈ S \/ t = c;
  h_alive : forall t, t ∈ S -> t <> c /\ (active k t \/ status_of k t = Some JUST_CREATED);
  h_semaphores : forall a, a ∈ D -> is_Some (semaphores k !! a);
  h_current : currentThread k = c;
  h_exists : is_Some (threads k !! c);
  h_mode : match r with
           | Runs => status_of k c = Some RUNNING
           | Suspended => active k c
           | Finished => status_of k c <> Some RUNNING /\ ~ active k c
           end;
  h_account : accounted S F c k
}.

Lemma status_insert k t th u :
  status_of (set_threads (<[t := th]> (threads k)) k) u =
  if decide (t = u) then Some (thread_status th) else status_of k u.
Proof.
  unfold status_of. cbn [threads set_threads]. case_decide as H.
  - subst u. by rewrite lookup_insert_eq.
  - by rewrite lookup_insert_ne.
Qed.

Lemma status_exists k t st : status_of k t = Some st -> exists th, threads k !! t = Some th /\ thread_status th = st.
Proof. unfold status_of. destruct (threads k !! t) as [th|]; simpl; [|done]. intros [= <-]. by exists th. Qed.

Lemma status_thread k t th : threads k !! t = Some th -> status_of k t = Some (thread_status th).
Proof. unfold status_of. by intros ->. Qed.

(** ** Atomic operations *)

Lemma get_thread_run (s : Sim (Kernel X)) t th :
  threads (rest s) !! t = Some th -> get_thread t s = Ok (th, s).
Proof. intros H. unfold get_thread, kernel. munfold. by rewrite H. Qed.

Lemma get_semaphore_run (s : Sim (Kernel X)) a sm :
  semaphores (rest s) !! a = Some sm -> get_semaphore a s = Ok (sm, s).
Proof. intros H. unfold get_semaphore, kernel. munfold. by rewrite H. Qed.

Lemma get_space_run (s : Sim (Kernel X)) a sp :
  spaces (rest s) !! a = Some sp -> get_space a s = Ok (sp, s).
Proof. intros H. unfold get_space, kernel. munfold. by rewrite H. Qed.

Lemma update_thread_run (s : Sim (Kernel X)) t th f :
  threads (rest s) !! t = Some th ->
  update_thread t f s = Ok (tt, on_rest (set_threads (<[t := f th]> (threads (rest s)))) s).
Proof. intros H. unfold update_thread. mrun (get_thread_run s t th H). by destruct s. Qed.

(** ** The operations keep the invariant *)

Lemma waiting_insert k a sm b t :
  waiting (set_semaphores (<[a := sm]> (semaphores k)) k) b t <->
  if decide (a = b) then t ∈ queue sm else waiting k b t.
Proof.
  unfold waiting. cbn [semaphores set_semaphores]. case_decide as H.
  - subst b. rewrite lookup_insert_eq. split; [by intros (? & [= <-] & ?)|by eauto].
  - by rewrite lookup_insert_ne.
Qed.

Section Keep.
Context (S F D : gset loc) (c : loc).

(** One thread changes its status, not one that was just created and that
    nobody knows of. *)
Lemma account_set k k' t st0 st :
  accounted S F c k -> status_of k t = Some st0 -> st0 <> JUST_CREATED \/ t ∈ S ->
  (forall u, status_of k' u = if decide (t = u) then Some st else status_of k u) -> accounted S F c k'.
Proof.
  intros Ha Ht Hj Hst u st1. rewrite Hst. case_decide as E; [|apply Ha]. subst u. intros _.
  destruct Hj as [Hj|Hj]; [|by right; left]. destruct (Ha t st0 Ht) as [?|[?|[?|?]]]; [by left|by right; left|by right; right; left|done].
Qed.

(** Only the value of a semaphore changes. *)
Lemma keep_value r k a sm n v :
  handler_inv S F D c r k -> semaphores k !! a = Some sm ->
  handler_inv S F D c r (set_semaphores (<[a := mkSem n v (queue sm)]> (semaphores k)) k).
Proof.
  intros [[] ] Ha.
  assert (forall b t, waiting (set_semaphores (<[a := mkSem n v (queue sm)]> (semaphores k)) k) b t
    <-> waiting k b t) as Hw.
  { intros b t. rewrite waiting_insert. case_decide as H; [|done]. subst b. unfold waiting.
    rewrite Ha. split; [by eauto|by intros (? & [= <-] & ?)]. }
  assert (forall t, active (set_semaphores (<[a := mkSem n v (queue sm)]> (semaphores k)) k) t
    <-> active k t) as Hac.
  { intros t. unfold active. by setoid_rewrite Hw. }
  constructor; try done.
  - constructor; try done.
    + intros b t Hb%Hw. by eapply k_waiting0.
    + intros b sm'. cbn [semaphores set_semaphores]. rewrite lookup_insert_Some.
      intros [[_ <-]|[_ Hb]]; [exact (k_queue0 a sm Ha)|exact (k_queue0 b sm' Hb)].
    + intros b b' t. rewrite !Hw. apply k_queue_unique0.
  - intros t. rewrite Hac. apply h_active0.
  - intros t. rewrite Hac. apply h_alive0.
  - intros b Hb. cbn [semaphores set_semaphores]. apply lookup_insert_is_Some'. right. by apply h_semaphores0.
  - destruct r; try done; rewrite ?Hac; done.
Qed.

(** The statuses after those of one thread are set. *)
Lemma status_set k k' t th st :
  threads k !! t = Some th -> threads k' = <[t := Thread_setStatus st th]> (threads k) ->
  forall u, status_of k' u = if decide (t = u) then Some st else status_of k u.
Proof.
  intros Ht Hk u. unfold status_of. rewrite Hk. case_decide as H.
  - subst u. by rewrite lookup_insert_eq.
  - by rewrite lookup_insert_ne.
Qed.

Lemma threads_ok_set k k' t th st :
  threads k !! t = Some th -> threads k' = <[t := Thread_setStatus st th]> (threads k) ->
  spaces k' = spaces k -> (forall t th, threads k !! t = Some th -> thread_ok k th) ->
  forall t th, threads k' !! t = Some th -> thread_ok k' th.
Proof.
  intros Ht Hk Hs Hok u thu. rewrite Hk, lookup_insert_Some. unfold thread_ok. rewrite Hs.
  intros [[_ <-]|[_ Hu]]; [exact (Hok t th Ht)|exact (Hok u thu Hu)].
Qed.

(** V wakes the first waiter up. *)
Definition wake (a t : loc) (th : Thread) (sm : Semaphore) k : Kernel X :=
  set_readyList (readyList k ++ [t])
    (set_threads (<[t := Thread_setStatus READY th]> (threads k))
      (set_semaphores (<[a := sm]> (semaphores k)) k)).

Lemma keep_wake r k a sm t q n v th :
  handler_inv S F D c r k -> semaphores k !! a = Some sm -> queue sm = t :: q ->
  threads k !! t = Some th ->
  handler_inv S F D c r (wake a t th (mkSem n v q) k).
Proof.
  intros [[] ] Ha Hq Ht. set (k' := wake _ _ _ _ _).
  pose proof (status_set k k' t th READY Ht eq_refl) as Hst.
  assert (waiting k a t) as Hat by (exists sm; rewrite Hq; split; [done|by left]).
  destruct (k_waiting0 a t Hat) as [Hb Hd].
  pose proof (k_queue0 a sm Ha) as Hnd. rewrite Hq in Hnd. apply NoDup_cons in Hnd as [Hnt Hnd].
  assert (forall b u, waiting k' b u <-> waiting k b u /\ u <> t) as Hw.
  { intros b u. unfold waiting, k'. cbn [semaphores wake set_readyList set_threads set_semaphores].
    destruct (decide (a = b)) as [<-|Hab].
    - rewrite lookup_insert_eq. rewrite Ha. split.
      + intros (? & [= <-] & Hu). cbn [queue] in Hu. split; [exists sm; rewrite Hq; split; [done|by right]|].
        by intros ->.
      + intros [(? & [= <-] & Hu) Hne]. rewrite Hq in Hu.
        apply elem_of_cons in Hu as [|Hu]; [done|]. by eexists.
    - rewrite lookup_insert_ne by done. split; [|by intros [??]].
      intros Hu. split; [done|]. intros ->. apply Hab. exact (k_queue_unique0 a b t Hat Hu). }
  assert (status_of k t <> Some READY) as Hnr by (by rewrite Hb).
  assert (forall u, active k' u <-> active k u) as Hact.
  { intros u. split.
    - intros [Hu|[b Hu]]; [rewrite Hst in Hu; case_decide; [subst u; right; by exists a|by left]|].
      apply Hw in Hu as [Hu _]. right. by exists b.
    - intros Hu. destruct (decide (t = u)) as [<-|Htu]; [left; by rewrite Hst, decide_True|].
      destruct Hu as [Hu|[b Hu]]; [left; by rewrite Hst, decide_False|]. right. exists b. by apply Hw. }
  constructor.
  - constructor; try done.
    + cbn [readyList k' wake set_readyList]. apply NoDup_app. split; [done|].
      split; [|apply NoDup_singleton]. intros u Hu ->%list_elem_of_singleton.
      by apply k_ready_status0 in Hu.
    + intros u. cbn [readyList k' wake set_readyList]. fold k'. rewrite Hst, elem_of_app, list_elem_of_singleton.
      rewrite (k_ready_status0 u). case_decide; naive_solver.
    + intros b u [Hu Hne]%Hw. rewrite Hst, decide_False by done. exact (k_waiting0 b u Hu).
    + intros b sm'. cbn [semaphores k' wake set_readyList set_threads set_semaphores].
      rewrite lookup_insert_Some. intros [[_ <-]|[_ Hb']]; [done|exact (k_queue0 b sm' Hb')].
    + intros b b' u [Hu _]%Hw [Hu' _]%Hw. exact (k_queue_unique0 b b' u Hu Hu').
    + intros u. rewrite Hst. case_decide; [done|]. apply k_running0.
    + intros u Hu. rewrite Hst. case_decide as He; [by subst u|]. exact (k_destroyed0 u Hu).
    + exact (threads_ok_set k k' t th READY Ht eq_refl eq_refl k_threads0).
  - intros u. rewrite Hact. apply h_active0.
  - intros u Hu. destruct (h_alive0 u Hu) as [Hne [Hac|Hj]]; (split; [done|]); [left; by apply Hact|].
    right. rewrite Hst. case_decide; [subst u; congruence|done].
  - intros b Hb'. apply lookup_insert_is_Some'. right. by apply h_semaphores0.
  - done.
  - apply lookup_insert_is_Some'. by right.
  - destruct r; rewrite ?Hact, ?Hst; try done; case_decide; subst; naive_solver congruence.
  - eapply (account_set k k' t); [done|exact Hb|by left|exact Hst].
Qed.

Lemma running_status k : handler_inv S F D c Runs k -> status_of k c = Some RUNNING.
Proof. by intros [_ _ _ _ _ _ H _]. Qed.

(** The current thread goes to sleep in the queue of a semaphore. *)
Definition block (a : loc) (th : Thread) (sm : Semaphore) k : Kernel X :=
  set_threads (<[currentThread k := Thread_setStatus BLOCKED th]> (threads k))
    (set_semaphores (<[a := mkSem (sem_name sm) (value sm) (queue sm ++ [currentThread k])]> (semaphores k)) k).

Lemma keep_block k a sm th :
  handler_inv S F D c Runs k -> semaphores k !! a = Some sm -> threads k !! c = Some th ->
  handler_inv S F D c Suspended (block a th sm k).
Proof.
  intros Hh Ha Ht. pose proof (running_status k Hh) as Hrun. destruct Hh as [[] ? ? ? Hc ? _ Hacc].
  unfold block. rewrite Hc. set (k' := set_threads _ _).
  pose proof (status_set k k' c th BLOCKED Ht eq_refl) as Hst.
  assert (forall b, ~ waiting k b c) as Hnw by (intros b Hb; apply k_waiting0 in Hb as [? _]; congruence).
  assert (forall b u, waiting k' b u <-> waiting k b u \/ (b = a /\ u = c)) as Hw.
  { intros b u. unfold waiting, k'. cbn [semaphores set_threads set_semaphores].
    destruct (decide (a = b)) as [<-|Hab].
    - rewrite lookup_insert_eq, Ha. split.
      + intros (? & [= <-] & Hu). cbn [queue] in Hu. apply elem_of_app in Hu as [Hu|Hu%list_elem_of_singleton]; eauto.
      + intros [(? & [= <-] & Hu)|[_ ->]]; eexists; (split; [reflexivity|]); cbn [queue];
          apply elem_of_app; [by left|right; by left].
    - rewrite lookup_insert_ne by done. naive_solver. }
  constructor; try done.
  - constructor; try done.
    + intros u. cbn [readyList k' set_threads set_semaphores]. rewrite Hst, (k_ready_status0 u).
      case_decide; [subst; split; congruence|done].
    + intros b u [Hu|[-> ->]]%Hw; rewrite Hst.
      * rewrite decide_False; [exact (k_waiting0 b u Hu)|]. intros <-. by apply (Hnw b).
      * rewrite decide_True by done. split; [done|]. intros Hd%k_destroyed0. congruence.
    + intros b sm'. cbn [semaphores k' set_threads set_semaphores]. rewrite lookup_insert_Some.
      intros [[_ <-]|[_ Hb]]; [|exact (k_queue0 b sm' Hb)]. cbn [queue]. apply NoDup_app.
      split; [exact (k_queue0 a sm Ha)|]. split; [|apply NoDup_singleton].
      intros u Hu ->%list_elem_of_singleton. apply (Hnw a). by exists sm.
    + intros b b' u [Hu|[-> ->]]%Hw [Hu'|[-> He]]%Hw; try done.
      * exact (k_queue_unique0 b b' u Hu Hu').
      * subst u. by destruct (Hnw b).
      * by destruct (Hnw b').
    + intros u. rewrite Hst. case_decide; [done|]. apply k_running0.
    + intros u Hu. rewrite Hst. case_decide; [done|]. exact (k_destroyed0 u Hu).
    + exact (threads_ok_set k k' c th BLOCKED Ht eq_refl eq_refl k_threads0).
  - intros u [Hu|[b Hu]].
    + rewrite Hst in Hu. case_decide; [done|]. apply h_active0. by left.
    + apply Hw in Hu as [Hu|[_ ->]]; [|by right]. apply h_active0. right. by exists b.
  - intros u Hu. destruct (h_alive0 u Hu) as [Hne [[Hac|[b Hac]]|Hj]]; (split; [done|]).
    + left. left. by rewrite Hst, decide_False by done.
    + left. right. exists b. apply Hw. by left.
    + right. by rewrite Hst, decide_False by done.
  - intros b Hb. apply lookup_insert_is_Some'. right. by apply h_semaphores0.
  - apply lookup_insert_is_Some'. by right.
  - right. exists a. apply Hw. by right.
  - eapply (account_set k k' c); [done|exact Hrun|by left|exact Hst].
Qed.

(** The current thread gives the CPU up and is ready. *)
Definition preempt (th : Thread) k : Kernel X :=
  set_readyList (readyList k ++ [currentThread k])
    (set_threads (<[currentThread k := Thread_setStatus READY th]> (threads k)) k).

Lemma keep_preempt k th :
  handler_inv S F D c Runs k -> threads k !! c = Some th ->
  handler_inv S F D c Suspended (preempt th k).
Proof.
  intros Hh Ht. pose proof (running_status k Hh) as Hrun. destruct Hh as [[] ? ? ? Hc ? _ Hacc].
  unfold preempt. rewrite Hc. set (k' := set_readyList _ _).
  pose proof (status_set k k' c th READY Ht eq_refl) as Hst.
  assert (forall b, ~ waiting k b c) as Hnw by (intros b Hb; apply k_waiting0 in Hb as [? _]; congruence).
  constructor; try done.
  - constructor; try done.
    + cbn [readyList k' set_readyList]. apply NoDup_app. split; [done|]. split; [|apply NoDup_singleton].
      intros u Hu ->%list_elem_of_singleton. apply k_ready_status0 in Hu. congruence.
    + intros u. cbn [readyList k' set_readyList]. rewrite Hst, elem_of_app, list_elem_of_singleton,
        (k_ready_status0 u). case_decide; naive_solver.
    + intros b u Hu. rewrite Hst, decide_False; [exact (k_waiting0 b u Hu)|]. intros <-. by apply (Hnw b).
    + intros u. rewrite Hst. case_decide; [done|]. apply k_running0.
    + intros u Hu. rewrite Hst. case_decide; [subst u; apply k_destroyed0 in Hu; congruence|].
      exact (k_destroyed0 u Hu).
    + exact (threads_ok_set k k' c th READY Ht eq_refl eq_refl k_threads0).
  - intros u [Hu|[b Hu]].
    + rewrite Hst in Hu. case_decide; [by right|]. apply h_active0. by left.
    + apply h_active0. right. by exists b.
  - intros u Hu. destruct (h_alive0 u Hu) as [Hne [[Hac|Hac]|Hj]]; (split; [done|]).
    + left. left. by rewrite Hst, decide_False by done.
    + left. by right.
    + right. by rewrite Hst, decide_False by done.
  - apply lookup_insert_is_Some'. by right.
  - left. by rewrite Hst, decide_True.
  - eapply (account_set k k' c); [done|exact Hrun|by left|exact Hst].
Qed.

(** The current thread is finished. *)
Definition finish (th : Thread) k : Kernel X :=
  set_threads (<[currentThread k := Thread_setStatus BLOCKED th]> (threads k))
    (set_threadToBeDestroyed (Some (currentThread k)) k).

Lemma keep_finish k th :
  handler_inv S F D c Runs k -> threads k !! c = Some th ->
  handler_inv S F D c Finished (finish th k).
Proof.
  intros Hh Ht. pose proof (running_status k Hh) as Hrun. destruct Hh as [[] ? ? ? Hc ? _ Hacc].
  unfold finish. rewrite Hc. set (k' := set_threads _ _).
  pose proof (status_set k k' c th BLOCKED Ht eq_refl) as Hst.
  assert (forall b, ~ waiting k b c) as Hnw by (intros b Hb; apply k_waiting0 in Hb as [? _]; congruence).
  constructor; try done.
  - constructor; try done.
    + intros u. cbn [readyList k' set_threads set_threadToBeDestroyed]. rewrite Hst, (k_ready_status0 u).
      case_decide; [subst; split; congruence|done].
    + intros b u Hu. assert (u <> c) as Hne by (intros ->; by apply (Hnw b)).
      rewrite Hst, decide_False by done. split; [apply (k_waiting0 b u Hu)|].
      cbn [threadToBeDestroyed k' set_threads set_threadToBeDestroyed]. congruence.
    + intros u. rewrite Hst. case_decide; [done|]. apply k_running0.
    + intros u [= <-]. by rewrite Hst, decide_True.
    + exact (threads_ok_set k k' c th BLOCKED Ht eq_refl eq_refl k_threads0).
  - intros u [Hu|[b Hu]].
    + rewrite Hst in Hu. case_decide; [done|]. apply h_active0. by left.
    + apply h_active0. right. by exists b.
  - intros u Hu. destruct (h_alive0 u Hu) as [Hne [[Hac|Hac]|Hj]]; (split; [done|]).
    + left. left. by rewrite Hst, decide_False by done.
    + left. by right.
    + right. by rewrite Hst, decide_False by done.
  - apply lookup_insert_is_Some'. by right.
  - split; [by rewrite Hst, decide_True|].
    intros [Hr|[b Hb]]; [by rewrite Hst, decide_True in Hr|by apply (Hnw b)].
  - eapply (account_set k k' c); [done|exact Hrun|by left|exact Hst].
Qed.

(** The head of the ready list gets the CPU; [S1] are then the threads that
    are not finished, the one that leaves included. *)
Definition dispatch (n : loc) (th : Thread) (l : list loc) k : Kernel X :=
  set_threads (<[n := Thread_setStatus RUNNING th]> (threads k))
    (set_currentThread n (set_readyList l k)).

Lemma keep_dispatch r k n th l S1 F1 :
  handler_inv S F D c r k -> r <> Runs -> readyList k = n :: l -> threads k !! n = Some th ->
  (forall t, t ∈ S1 <-> t ∈ S \/ (t = c /\ r = Suspended)) ->
  (forall t, t ∈ F -> t ∈ F1 \/ t ∈ S1) -> (r = Finished -> c ∈ F1) ->
  n ∈ S1 /\ handler_inv (S1 ∖ {[n]}) (F1 ∖ {[n]}) D n Runs (dispatch n th l k).
Proof.
  intros [[] ? ? ? Hc ? Hr Hacc] Hnr Hl Ht HS HF1 HF2. set (k' := dispatch _ _ _ _).
  assert (status_of k c <> Some RUNNING /\ (active k c <-> r = Suspended)) as [Hrun Hcs].
  { destruct r; [done| |by split; [apply Hr|split; [by intros ?%Hr|]]].
    split; [|done]. destruct Hr as [->|[b Hb]]; [done|]. by destruct (k_waiting0 b c Hb) as [-> _]. }
  pose proof (status_set k k' n th RUNNING Ht eq_refl) as Hst.
  assert (status_of k n = Some READY) as Hn by (apply k_ready_status0; rewrite Hl; by left).
  rewrite Hl in k_ready0. apply NoDup_cons in k_ready0 as [Hnl Hnd].
  assert (forall b, ~ waiting k b n) as Hnw by (intros b Hb; apply k_waiting0 in Hb as [? _]; congruence).
  assert (forall t, active k' t -> active k t /\ t <> n) as Hac.
  { intros t [Ha|[b Hb]].
    - rewrite Hst in Ha. case_decide; [done|]. split; [by left|by intros ->].
    - split; [right; by exists b|]. intros ->. by apply (Hnw b). }
  split.
  { apply HS. destruct (h_active0 n) as [|He]; [by left|by left|]. right. split; [done|].
    apply Hcs. subst. by left. }
  constructor; try done.
  - constructor; try done.
    + intros u. cbn [readyList k' dispatch set_threads set_currentThread set_readyList]. rewrite Hst.
      pose proof (k_ready_status0 u) as Hu. rewrite Hl, elem_of_cons in Hu. case_decide; naive_solver.
    + intros b u Hu. rewrite Hst, decide_False; [exact (k_waiting0 b u Hu)|]. intros <-. by apply (Hnw b).
    + intros u. rewrite Hst. case_decide; [done|]. intros Hu. exfalso. apply Hrun.
      rewrite <- Hc. by rewrite <- (k_running0 u Hu).
    + intros u Hu. rewrite Hst. case_decide; [subst u; apply k_destroyed0 in Hu; congruence|].
      exact (k_destroyed0 u Hu).
    + exact (threads_ok_set k k' n th RUNNING Ht eq_refl eq_refl k_threads0).
  - intros t [Ha Hne]%Hac. left. apply elem_of_difference. rewrite not_elem_of_singleton. split; [|done].
    apply HS. destruct (h_active0 t Ha) as [|He]; [by left|]. right. split; [done|]. apply Hcs. by subst t.
  - intros t [Ht1 Ht2%not_elem_of_singleton]%elem_of_difference. split; [done|].
    apply HS in Ht1 as [Ht1|[-> Ha%Hcs]].
    + destruct (h_alive0 t Ht1) as [_ [[Ha|Ha]|Hj]].
      * left. left. by rewrite Hst, decide_False.
      * left. by right.
      * right. by rewrite Hst, decide_False.
    + left. destruct Ha as [Ha|Ha]; [left; by rewrite Hst, decide_False|by right].
  - apply lookup_insert_is_Some'. by left.
  - by rewrite Hst, decide_True.
  - intros t st. rewrite Hst. case_decide as E; [by left|].
    rewrite !elem_of_difference, !not_elem_of_singleton. intros Hts.
    destruct (Hacc t st Hts) as [->|[HtS|[HtF|Hj]]].
    + destruct r; [done|right; left|right; right; left]; (split; [|congruence]); [apply HS; by right|by apply HF2].
    + right. left. split; [apply HS; by left|congruence].
    + destruct (HF1 t HtF); [right; right; left|right; left]; (split; [done|congruence]).
    + by right; right; right.
Qed.

(** The carcass of a finished thread is deleted. *)
Lemma keep_delete k d :
  handler_inv S F D c Runs k -> threadToBeDestroyed k = Some d ->
  d <> c /\ is_Some (threads k !! d) /\
  handler_inv S F D c Runs (set_threadToBeDestroyed None (set_threads (delete d (threads k)) k)).
Proof.
  intros Hh Hd. pose proof (running_status k Hh) as Hrun. destruct Hh as [[] ? ? ? Hc ? _ Hacc].
  pose proof (k_destroyed0 d Hd) as Hb. assert (d <> c) as Hne by congruence.
  split; [done|]. split; [destruct (status_exists _ _ _ Hb) as (th & ? & _); by exists th|].
  set (k' := set_threadToBeDestroyed _ _).
  assert (forall u, status_of k' u = if decide (d = u) then None else status_of k u) as Hst.
  { intros u. unfold status_of, k'. cbn [threads set_threadToBeDestroyed set_threads].
    case_decide as H; [subst u; by rewrite lookup_delete_eq|by rewrite lookup_delete_ne]. }
  assert (forall b, ~ waiting k b d) as Hnw by (intros b Hw; by apply k_waiting0 in Hw as [_ ?]).
  constructor; try done.
  - constructor; try done.
    + intros u. cbn [readyList k' set_threadToBeDestroyed set_threads]. rewrite Hst, (k_ready_status0 u).
      case_decide; [subst; split; congruence|done].
    + intros b u Hu. rewrite Hst. split; [|done].
      rewrite decide_False; [apply (k_waiting0 b u Hu)|]. intros <-. by apply (Hnw b).
    + intros u. rewrite Hst. case_decide; [done|]. apply k_running0.
    + intros u th. cbn [threads k' set_threadToBeDestroyed set_threads].
      rewrite lookup_delete_Some. intros [_ Hu]. exact (k_threads0 u th Hu).
  - intros u [Hu|Hu].
    + rewrite Hst in Hu. case_decide; [done|]. apply h_active0. by left.
    + apply h_active0. by right.
  - intros u Hu. destruct (h_alive0 u Hu) as [Hne' Hor]. split; [done|].
    destruct Hor as [[Ha|Ha]|Hj].
    + left. left. rewrite Hst, decide_False; [done|]. intros <-. congruence.
    + left. by right.
    + right. rewrite Hst, decide_False; [done|]. intros <-. congruence.
  - cbn [threads set_threadToBeDestroyed set_threads k']. by rewrite lookup_delete_ne.
  - by rewrite Hst, decide_False.
  - intros u st. rewrite Hst. case_decide; [done|]. apply Hacc.
Qed.

(** A thread changes, but for its status. *)
Lemma keep_thread r k t th th' :
  handler_inv S F D c r k -> threads k !! t = Some th -> thread_status th' = thread_status th ->
  thread_ok k th' -> handler_inv S F D c r (set_threads (<[t := th']> (threads k)) k).
Proof.
  intros [[] ] Ht Hs Hok. set (k' := set_threads _ _).
  assert (forall u, status_of k' u = status_of k u) as Hst.
  { intros u. unfold k'. rewrite status_insert. case_decide; [|done]. subst u.
    by rewrite (status_thread k t th Ht), Hs. }
  assert (forall u, active k' u <-> active k u) as Hac by (intros u; unfold active; by rewrite Hst).
  constructor; try done.
  - constructor; try done.
    + intros u. rewrite Hst. apply k_ready_status0.
    + intros b u Hu. rewrite Hst. exact (k_waiting0 b u Hu).
    + intros u. rewrite Hst. apply k_running0.
    + intros u. rewrite Hst. apply k_destroyed0.
    + intros u thu. cbn [threads k' set_threads]. rewrite lookup_insert_Some.
      intros [[_ <-]|[_ Hu]]; [done|exact (k_threads0 u thu Hu)].
  - intros u. rewrite Hac. apply h_active0.
  - intros u. rewrite Hac, Hst. apply h_alive0.
  - apply lookup_insert_is_Some'. by right.
  - destruct r; rewrite ?Hac, ?Hst; done.
  - intros u st. rewrite Hst. apply h_account0.
Qed.

(** A thread is created; it gets a continuation; it is made ready. *)
Lemma keep_new k t th :
  handler_inv S F D c Runs k -> threads k !! t = None -> thread_status th = JUST_CREATED ->
  thread_ok k th -> handler_inv S F D c Runs (set_threads (<[t := th]> (threads k)) k).
Proof.
  intros [[] ] Ht Hs Hok. set (k' := set_threads _ _).
  assert (status_of k t = None) as Hn by (unfold status_of; by rewrite Ht).
  assert (forall u, status_of k' u = if decide (t = u) then Some JUST_CREATED else status_of k u) as Hst.
  { intros u. unfold k'. rewrite status_insert. by rewrite Hs. }
  assert (forall u, active k' u <-> active k u) as Hac.
  { intros u. unfold active. rewrite Hst. case_decide; [subst u; rewrite Hn|done].
    split; (intros [|Hw]; [done|by right]). }
  constructor; try done.
  - constructor; try done.
    + intros u. cbn [readyList k' set_threads]. rewrite Hst, (k_ready_status0 u).
      case_decide; [subst; split; congruence|done].
    + intros b u Hu. destruct (k_waiting0 b u Hu) as [Hb ?]. rewrite Hst.
      case_decide; [subst; congruence|done].
    + intros u. rewrite Hst. case_decide; [done|]. apply k_running0.
    + intros u Hu. pose proof (k_destroyed0 u Hu). rewrite Hst. case_decide; [subst; congruence|done].
    + intros u thu. cbn [threads k' set_threads]. rewrite lookup_insert_Some.
      intros [[_ <-]|[_ Hu]]; [done|exact (k_threads0 u thu Hu)].
  - intros u. rewrite Hac. apply h_active0.
  - intros u Hu. rewrite Hac, Hst. destruct (h_alive0 u Hu) as [Hne [?|?]]; (split; [done|]).
    + by left.
    + right. by case_decide.
  - apply lookup_insert_is_Some'. by right.
  - rewrite Hst. case_decide; [subst; congruence|done].
  - intros u st. rewrite Hst. case_decide; [intros [= <-]; by right; right; right|apply h_account0].
Qed.

Lemma keep_user r k x :
  handler_inv S F D c r k -> zlength (registers (lget x)) = NumTotalRegs ->
  handler_inv S F D c r (set_user x k).
Proof. intros [[] ] Hx. constructor; try done. Qed.
End Keep.

Lemma keep_spawn S F D c k t :
  handler_inv S F D c Runs k -> status_of k t = Some JUST_CREATED ->
  handler_inv (S ∪ {[t]}) (F ∖ {[t]}) D c Runs k.
Proof.
  intros Hh Hj. pose proof (running_status S F D c k Hh) as Hrun. destruct Hh as [[] ]. constructor; try done.
  - intros u Hu. destruct (h_active0 u Hu) as [?|?]; [left; set_solver|by right].
  - intros u [Hu|Hu%elem_of_singleton]%elem_of_union; [by apply h_alive0|subst u].
    split; [congruence|by right].
  - intros u st Hu. destruct (decide (u = t)) as [->|Hne]; [right; left; set_solver|].
    destruct (h_account0 u st Hu) as [?|[?|[?|?]]]; [by left|right; left; set_solver|right; right; left; set_solver|by right; right; right].
Qed.

Definition make_ready (t : loc) (th : Thread) k : Kernel X :=
  set_readyList (readyList k ++ [t]) (set_threads (<[t := Thread_setStatus READY th]> (threads k)) k).

Lemma keep_ready S F D c k t th :
  handler_inv S F D c Runs k -> threads k !! t = Some th -> thread_status th = JUST_CREATED ->
  t ∈ S -> handler_inv S F D c Runs (make_ready t th k).
Proof.
  intros Hh Ht Hj HtS. pose proof (running_status S F D c k Hh) as Hrun.
  destruct Hh as [[] ? ? ? Hc ? _ Hacc]. set (k' := make_ready _ _ _).
  pose proof (status_thread k t th Ht) as Hs. rewrite Hj in Hs.
  pose proof (status_set k k' t th READY Ht eq_refl) as Hst.
  assert (forall b, ~ waiting k b t) as Hnw by (intros b Hw; apply k_waiting0 in Hw as [? _]; congruence).
  constructor; try done.
  - constructor; try done.
    + cbn [readyList k' make_ready set_readyList]. apply NoDup_app. split; [done|].
      split; [|apply NoDup_singleton]. intros u Hu ->%list_elem_of_singleton.
      apply k_ready_status0 in Hu. congruence.
    + intros u. cbn [readyList k' make_ready set_readyList]. rewrite Hst, elem_of_app,
        list_elem_of_singleton, (k_ready_status0 u). case_decide; naive_solver.
    + intros b u Hu. rewrite Hst, decide_False; [exact (k_waiting0 b u Hu)|]. intros <-. by apply (Hnw b).
    + intros u. rewrite Hst. case_decide; [done|]. apply k_running0.
    + intros u Hu. pose proof (k_destroyed0 u Hu). rewrite Hst. case_decide; [subst; congruence|done].
    + exact (threads_ok_set k k' t th READY Ht eq_refl eq_refl k_threads0).
  - intros u [Hu|[b Hu]].
    + rewrite Hst in Hu. case_decide; [subst u; by left|]. apply h_active0. by left.
    + apply h_active0. right. by exists b.
  - intros u Hu. destruct (h_alive0 u Hu) as [Hne Hor]. split; [done|].
    destruct (decide (t = u)) as [<-|Htu]; [left; left; by rewrite Hst, decide_True|].
    destruct Hor as [[Ha|Ha]|Hj'].
    + left. left. by rewrite Hst, decide_False.
    + left. by right.
    + right. by rewrite Hst, decide_False.
  - apply lookup_insert_is_Some'. by right.
  - rewrite Hst, decide_False; [done|congruence].
  - eapply (account_set S F c k k' t); [done|exact Hs|by right|exact Hst].
Qed.
End Invariant.
