(* ===== verification/ThreadsSafe.v ===== *)
(** * The threads of the kernel run safely

    The operations of the scheduler run on well-formed kernels, and a step-indexed
    predicate on programs, [good], that says that a thread neither aborts nor
    meets undefined behaviour whenever the others keep the invariant of
    ThreadsInv.v at the context switches, as it does itself. *)

From Stdlib Require Import FunctionalExtensionality.
From stdpp Require Import base tactics list numbers gmap relations.
From S2P Require Import Prelude Lists Interrupt Machine BitMap AddrSpace Threads ThreadsInv.

Local Open Scope Z_scope.

Section Runs.
Context {X : Type} `{!Lens Machine X}.
Abbreviation K := (Sim (Kernel X)).
Implicit Types (s : K) (t : loc).

Lemma on_cpu_run {A} (m : M Machine A) s a m' :
  m (lget (user (rest s))) = Ok (a, m') ->
  on_cpu m s = Ok (a, on_rest (set_user (lset m' (user (rest s)))) s).
Proof. intros E. unfold on_cpu, on_user, zoom. by rewrite E. Qed.

Lemma on_rest_twice (f g : Kernel X -> Kernel X) s : on_rest f (on_rest g s) = on_rest (fun k => f (g k)) s.
Proof. done. Qed.

Lemma set_user_id s : on_rest (set_user (user (rest s))) s = s.
Proof. by destruct s as [? ? []]. Qed.

(** The state with the registers of thread [t] replaced. *)
Definition with_registers t th rs s : K :=
  on_rest (set_threads (<[t := set_userRegisters rs th]> (threads (rest s)))) s.

Lemma zinsert_progress {A} (l1 l2 : list A) i x :
  zlength l1 = zlength l2 -> zlookup l1 i = Some x ->
  zinsert i x (take (Z.to_nat i) l1 ++ drop (Z.to_nat i) l2) =
  take (Z.to_nat (i + 1)) l1 ++ drop (Z.to_nat (i + 1)) l2.
Proof.
  intros Hl Hx. pose proof (zlookup_lt_Some _ _ _ Hx) as Hi.
  destruct (proj2 (zlookup_is_Some l2 i)) as [y Hy]; [lia|].
  apply zlookup_Some in Hx as [H0 Hx], Hy as [_ Hy].
  replace (Z.to_nat (i + 1)) with (S (Z.to_nat i)) by lia.
  rewrite (drop_S _ _ _ Hy), (take_S_r _ _ _ Hx), <- app_assoc. cbn [app].
  apply zinsert_middle. unfold zlength in *. rewrite length_take. lia.
Qed.

(** A context switch saves all the registers of the machine. *)
Lemma SaveUserState_run s t th :
  threads (rest s) !! t = Some th -> zlength (userRegisters th) = NumTotalRegs ->
  zlength (registers (lget (user (rest s)))) = NumTotalRegs ->
  Thread_SaveUserState t s = Ok (tt, with_registers t th (registers (lget (user (rest s)))) s).
Proof.
  intros Ht Hl Hr. unfold Thread_SaveUserState. set (rs := registers _) in *.
  loop_for (fun i s' => s' = with_registers t th (take (Z.to_nat i) rs ++ drop (Z.to_nat i) (userRegisters th)) s)
    as (s' & E & ->).
  2: { transitivity s; [reflexivity|]. unfold with_registers. destruct s as [a b k], th. cbn in *.
       unfold set_userRegisters. cbn. rewrite take_0, drop_0. cbn. rewrite insert_id by done. by destruct k. }
  - intros i s' Hi ->. set (l := take _ _ ++ _).
    destruct (proj2 (zlookup_is_Some rs i)) as [x Hx]; [unfold NumTotalRegs in *; lia|].
    assert (Machine_ReadRegister i (lget (user (rest (with_registers t th l s)))) =
            Ok (x, lget (user (rest (with_registers t th l s))))) as Er.
    { unfold Machine_ReadRegister, reg. munfold. unfold NumTotalRegs in *.
      rewrite Z.geb_leb, (proj2 (Z.leb_le 0 i)), (proj2 (Z.ltb_lt i 40)) by lia. cbn [andb].
      change (registers (lget (user (rest (with_registers t th l s))))) with rs. by rewrite Hx. }
    mrun (on_cpu_run _ _ _ _ Er). rewrite lset_lget, set_user_id.
    assert (threads (rest (with_registers t th l s)) !! t = Some (set_userRegisters l th)) as Ht'
      by apply lookup_insert_eq.
    mrun (get_thread_run _ t _ Ht'). cbn [userRegisters set_userRegisters].
    pose proof (zlookup_lt_Some _ _ _ Hx) as Hxl.
    assert (zlength l = NumTotalRegs) as Hll.
    { unfold l, zlength, NumTotalRegs in *. rewrite length_app, length_take, length_drop. lia. }
    assert (store i x l = Some (zinsert i x l)) as Es by (apply store_Some; split; [lia|done]).
    rewrite Es. cbn [must]. rewrite (bind_Ok (ret _) _ _ (zinsert i x l) (with_registers t th l s)) by done.
    rewrite (update_thread_run _ t _ _ Ht'). eexists. split; [reflexivity|].
    unfold l. rewrite zinsert_progress by (done || lia).
    unfold with_registers. rewrite on_rest_twice. unfold on_rest. destruct s as [a b k].
    cbn. f_equal. unfold set_threads. cbn. f_equal. by rewrite insert_insert_eq.
  - rewrite E. do 2 f_equal. rewrite take_ge, drop_ge; [by rewrite app_nil_r| |];
      unfold zlength, NumTotalRegs in *; lia.
Qed.

(** And the switch back gives the machine the registers saved. *)
Lemma RestoreUserState_run s t th :
  threads (rest s) !! t = Some th -> zlength (userRegisters th) = NumTotalRegs ->
  zlength (registers (lget (user (rest s)))) = NumTotalRegs ->
  Thread_RestoreUserState t s = Ok (tt, on_rest (set_user
    (lset (set_registers (userRegisters th) (lget (user (rest s)))) (user (rest s)))) s).
Proof.
  intros Ht Hl Hr. unfold Thread_RestoreUserState. set (m := lget (user (rest s))) in *.
  set (st rs := on_rest (set_user (lset (set_registers rs m) (user (rest s)))) s).
  loop_for (fun i s' => s' = st (take (Z.to_nat i) (userRegisters th) ++ drop (Z.to_nat i) (registers m)))
    as (s' & E & ->).
  2: { transitivity s; [reflexivity|]. unfold st. change (Z.to_nat 0) with O. rewrite take_0, drop_0.
       cbn [app]. assert (set_registers (registers m) m = m) as -> by (by destruct m).
       unfold m. by rewrite lset_lget, set_user_id. }
  - intros i s' Hi ->. set (l := take _ _ ++ _).
    destruct (proj2 (zlookup_is_Some (userRegisters th) i)) as [x Hx]; [unfold NumTotalRegs in *; lia|].
    mrun (get_thread_run (st l) t th Ht). rewrite Hx. cbn [must].
    rewrite (bind_Ok (ret _) _ _ x (st l)) by done.
    assert (lget (user (rest (st l))) = set_registers l m) as Em
      by (unfold st; cbn [user rest on_rest set_user]; by rewrite lget_lset).
    assert (zlength l = NumTotalRegs) as Hll.
    { unfold l, zlength, NumTotalRegs in *. rewrite length_app, length_take, length_drop. lia. }
    assert (Machine_WriteRegister i x (lget (user (rest (st l)))) =
      Ok (tt, set_registers (zinsert i x l) m)) as Ew.
    { rewrite Em, write_register_run; [done|done|unfold NumTotalRegs in *; lia]. }
    rewrite (on_cpu_run _ _ _ _ Ew). eexists. split; [reflexivity|].
    unfold l. rewrite zinsert_progress by (done || lia).
    unfold st. rewrite on_rest_twice. unfold on_rest. cbn [rest user set_user]. f_equal.
    unfold set_user. cbn. by rewrite lset_lset.
  - rewrite E. do 2 f_equal. unfold st. rewrite take_ge, drop_ge; [by rewrite app_nil_r| |];
      unfold zlength, NumTotalRegs in *; lia.
Qed.

(** The beginning of Sleep. *)
Lemma Sleep_blocks s t th :
  currentThread (rest s) = t -> level (intr s) = IntOff -> threads (rest s) !! t = Some th ->
  (c <- kernel currentThread ;; ASSERT (bool_decide (t = c)) ;;;
   l <- gets (fun s => level (intr s)) ;; ASSERT (bool_decide (l = IntOff)) ;;;
   update_thread t (Thread_setStatus BLOCKED)) s =
  Ok (tt, on_rest (set_threads (<[t := Thread_setStatus BLOCKED th]> (threads (rest s)))) s).
Proof.
  intros Hc Hl Ht. rewrite <- (update_thread_run s t th _ Ht).
  unfold kernel. munfold. rewrite Hc, bool_decide_true by done. by rewrite Hl, bool_decide_true.
Qed.
End Runs.

Lemma pbind_assoc {K A B C} (p : prog K A) (f : A -> prog K B) (g : B -> prog K C) :
  pbind (pbind p f) g = pbind p (fun a => pbind (f a) g).
Proof.
  induction p as [A a|A B' m k IH|A B' m body _ k IH|A k IH|A old new k IH|A t body _ k IH|A a k IH];
    cbn [pbind]; f_equal; try done; apply functional_extensionality; intros b; apply IH.
Qed.

(** ** Safe programs *)

Section Safe.
Context {X : Type} `{!Lens Machine X}.
Context (call : VoidFunctionPtr -> Z -> M (Sim (Kernel X)) unit).
Context (DL : M (Sim (Kernel X)) unit) (code : loc -> prog (Sim (Kernel X)) unit).
Context (horizon : Z) (D : gset loc).
Context `{HD : !forall S F c r, Devices call DL horizon (handler_inv S F D c r)}.

Abbreviation K := (Sim (Kernel X)).
Abbreviation OneTick := (OneTick call DL).
Abbreviation Yield := (@Thread_Yield X _).
Abbreviation Sleep := (Thread_Sleep call DL).
Implicit Types (s : K) (t : loc) (S F : gset loc).

(** The interrupts when no handler runs. *)
Record sim_ok (lv : IntStatus) s : Prop := {
  sim_pending : sim_inv s;
  sim_level : level (intr s) = lv;
  sim_handler : inHandler (intr s) = false;
  sim_status : status (intr s) <> IdleMode;
  sim_now : 0 <= now s
}.

(** The thread [t] runs; [S] are the other threads that are not finished, [F]
    those that are. *)
Definition running (lv : IntStatus) S F t s : Prop := sim_ok lv s /\ handler_inv S F D t Runs (rest s).

(** The simulated clock is not about to overflow. *)
Definition in_range s : Prop :=
  now s + SystemTick + horizon < 2 ^ 31 /\
  Forall (fun e => e.2 + horizon < 2 ^ 31) (pending (intr s)).

(** What a finished thread has left to do when it gives the CPU up: if it got it
    back, it would come to the end of Scheduler::Run and return. *)
Definition at_end : prog K unit := Do resume_thread Ret.

(** For [n] steps the program runs without failing, whatever the other threads
    do while it does not run. At a switch the invariant holds for the thread
    that gets the CPU, and the one that leaves is finished, or goes on safely
    when it gets the CPU back. *)
Definition good_step (G : gset loc -> gset loc -> prog K unit -> K -> Prop) S F (p : prog K unit) s : Prop :=
  in_range s ->
  match p with
  | Ret _ => False
  | Do m k =>
      match m s with
      | Ok (b, s') => G S F (k b) s'
      | Halted => True
      | _ => False
      end
  | Until m body k =>
      match m s with
      | Ok (Some b, s') => G S F (k b) s'
      | Ok (None, s') => G S F (body ;~ Until m body k) s'
      | Halted => True
      | _ => False
      end
  | Tick k => G S F (OneTick ;~ k) s
  | Switch old new k =>
      (old ∉ S) /\ exists S1 F1, new ∈ S1 /\ running IntOff (S1 ∖ {[new]}) (F1 ∖ {[new]}) new s /\
        ((S1 = S /\ F1 = F ∪ {[old]} /\ k = at_end) \/ (S1 = S ∪ {[old]} /\ F1 = F ∖ {[old]} /\
          forall S' F' s', running IntOff S' F' old s' -> G S' F' k s'))
  | Spawn t body k =>
      G (S ∪ {[t]}) (F ∖ {[t]}) k s /\ forall S' F' s', running IntOff S' F' t s' -> G S' F' body s'
  | Call a k => G S F (code a ;~ k) s
  end.

Fixpoint good (n : nat) : gset loc -> gset loc -> prog K unit -> K -> Prop :=
  match n with
  | O => fun _ _ _ _ => True
  | Datatypes.S n' => good_step (good n')
  end.

Lemma good_step_mono (G G' : gset loc -> gset loc -> prog K unit -> K -> Prop) S F p s :
  (forall S F p s, G S F p s -> G' S F p s) -> good_step G S F p s -> good_step G' S F p s.
Proof.
  intros H Hg Hr. specialize (Hg Hr). destruct p as [a|B m k|B m body k|k|old new k|t body k|a k].
  - done.
  - destruct (m s) as [[b s']| | |]; try exact Hg. by apply H.
  - destruct (m s) as [[[b|] s']| | |]; try exact Hg; by apply H.
  - by apply H.
  - destruct Hg as (Ho & S1 & F1 & Hn & Hrun & Hk). split; [done|]. exists S1, F1. split; [done|]. split; [done|].
    destruct Hk as [Hk|(-> & -> & Hk)]; [by left|right]. split; [done|]. split; [done|]. intros S' F' s' Hs. apply H. by apply Hk.
  - destruct Hg as [Hk Hb]. split; [by apply H|]. intros S' F' s' Hs. apply H. by apply Hb.
  - by apply H.
Qed.

Lemma good_mono n S F p s : good (Datatypes.S n) S F p s -> good n S F p s.
Proof.
  revert S F p s. induction n as [|n IH]; intros S F p s; [done|].
  apply good_step_mono. intros. by apply IH.
Qed.

Lemma good_le m n S F p s : (m <= n)%nat -> good n S F p s -> good m S F p s.
Proof. induction 1 as [|n Hle IH]; [done|]. intros Hg. by apply IH, good_mono. Qed.

(** ** Rules *)

Lemma good_op {A} n S F (m : M K A) f s :
  (in_range s -> exists b s', m s = Ok (b, s') /\ good n S F (f b) s') ->
  good n S F (pbind (op m) f) s.
Proof.
  intros H. destruct n as [|n]; [done|]. intros Hr. destruct (H Hr) as (b & s' & E & Hg).
  cbn. rewrite E. by apply good_mono.
Qed.

(** The common case: the operation is known to return. *)
Lemma good_op_ok {A} n S F (m : M K A) f s b s' :
  m s = Ok (b, s') -> good n S F (f b) s' -> good n S F (pbind (op m) f) s.
Proof. intros E Hg. apply good_op. intros _. by exists b, s'. Qed.

Lemma change_level_run lv now_ s :
  sim_ok lv s -> change_level now_ s = Ok (lv, on_intr (set_level now_) s) /\
  sim_ok now_ (on_intr (set_level now_) s).
Proof.
  intros [H1 H2 H3 H4 H5]. split; [|by constructor].
  unfold change_level. munfold. rewrite H3, H2. by destruct (bool_decide _).
Qed.

(** SetLevel(IntOff) never ticks. *)
Lemma good_off n S F lv s f :
  sim_ok lv s -> (sim_ok IntOff (on_intr (set_level IntOff) s) ->
    good n S F (f lv) (on_intr (set_level IntOff) s)) ->
  good n S F (pbind (SetLevel IntOff) f) s.
Proof.
  intros Hs Hg. destruct (change_level_run lv IntOff s Hs) as [E Hs'].
  unfold SetLevel. cbn [pbind op]. eapply (good_op_ok n S F (change_level IntOff)); [exact E|]. cbn. auto.
Qed.

Lemma current_run lv S F t s : running lv S F t s -> kernel currentThread s = Ok (t, s).
Proof. intros [_ [_ _ _ _ H _ _ _]]. unfold kernel. munfold. by rewrite H. Qed.

Lemma running_thread lv S F t s : running lv S F t s ->
  exists th, threads (rest s) !! t = Some th /\ thread_ok (rest s) th /\ thread_status th = RUNNING.
Proof.
  intros [_ [[] _ _ _ _ [th Hth] Hr _]]. exists th. split; [done|]. split; [by eapply k_threads|].
  rewrite (status_thread _ _ _ Hth) in Hr. by injection Hr.
Qed.

Lemma running_level lv lv' S F t s :
  running lv S F t s -> running lv' S F t (on_intr (set_level lv') s).
Proof. intros [[] ?]. split; [by constructor|done]. Qed.

(** ** Context switches *)

Lemma set_thread_id s t th :
  threads (rest s) !! t = Some th -> on_rest (set_threads (<[t := th]> (threads (rest s)))) s = s.
Proof.
  intros Ht. destruct s as [a b k]. unfold on_rest. cbn in *. f_equal. unfold set_threads.
  rewrite insert_id by done. by destruct k.
Qed.

Lemma CheckOverflow_run s t th :
  threads (rest s) !! t = Some th -> thread_ok (rest s) th -> Thread_CheckOverflow t s = Ok (tt, s).
Proof.
  intros Ht [Hst _]. unfold Thread_CheckOverflow. mrun (get_thread_run s t th Ht).
  by destruct Hst as [-> | ->].
Qed.

Lemma leave_thread_run s t th :
  threads (rest s) !! t = Some th -> thread_ok (rest s) th ->
  zlength (registers (lget (user (rest s)))) = NumTotalRegs ->
  exists th', leave_thread t s = Ok (tt, on_rest (set_threads (<[t := th']> (threads (rest s)))) s) /\
    thread_status th' = thread_status th /\ thread_ok (rest s) th'.
Proof.
  intros Ht Hok Hr. pose proof Hok as (Hst & Hrg & Hsp). unfold leave_thread.
  mrun (get_thread_run s t th Ht). destruct (thread_space th) as [a|] eqn:Es.
  - destruct (Hsp a eq_refl) as [sp Ha]. set (rs := registers (lget (user (rest s)))) in *.
    exists (set_userRegisters rs th).
    assert (thread_ok (rest s) (set_userRegisters rs th)) as Hok'.
    { split; [done|]. split; [done|]. cbn. rewrite Es. intros b [= <-]. by exists sp. }
    split; [|done]. rewrite <- bind_assoc. mrun (SaveUserState_run s t th Ht Hrg Hr).
    set (s1 := with_registers t th rs s).
    mrun (on_cpu_run AddrSpace_SaveState s1 tt (lget (user (rest s1))) eq_refl).
    rewrite lset_lget, set_user_id. apply (CheckOverflow_run s1 t (set_userRegisters rs th)); [|done].
    apply lookup_insert_eq.
  - exists th. split; [|done]. rewrite (bind_Ok (ret tt) _ s tt s) by done.
    rewrite set_thread_id by done. by eapply CheckOverflow_run.
Qed.

Lemma sim_ok_rest lv s f : sim_ok lv s -> sim_ok lv (on_rest f s).
Proof. intros []. by constructor. Qed.

Lemma resume_thread_run S F t s :
  running IntOff S F t s -> exists s', resume_thread s = Ok (tt, s') /\ running IntOff S F t s'.
Proof.
  intros Hrun. unfold resume_thread.
  assert (exists s1, (d <- kernel threadToBeDestroyed ;;
    match d with
    | Some t => Thread_delete t ;;; on_kernel (set_threadToBeDestroyed None)
    | None => ret tt
    end) s = Ok (tt, s1) /\ running IntOff S F t s1) as (s1 & E1 & Hrun1).
  { unfold kernel at 1. unfold gets, bind at 1, obind. cbn beta iota.
    destruct Hrun as [Hs Hh]. destruct (threadToBeDestroyed (rest s)) as [d|] eqn:Ed.
    - destruct (keep_delete S F D t (rest s) d Hh Ed) as (Hne & [th Hth] & Hh').
      exists (on_rest (fun k => set_threadToBeDestroyed None
        (set_threads (delete d (threads (rest s))) k)) s).
      split; [|split; [by apply sim_ok_rest|exact Hh']].
      unfold Thread_delete. rewrite <- bind_assoc. mrun (get_thread_run s d th Hth). rewrite <- bind_assoc.
      mrun (current_run IntOff S F t s (conj Hs Hh)). rewrite bool_decide_false by done. by destruct s as [? ? []].
    - by exists s. }
  rewrite bind_assoc. rewrite (bind_Ok _ _ _ _ _ E1). mrun (current_run IntOff S F t s1 Hrun1).
  destruct (running_thread IntOff S F t s1 Hrun1) as (th & Ht & (Hst & Hrg & Hsp) & _).
  mrun (get_thread_run s1 t th Ht). destruct (thread_space th) as [a|]; [|by exists s1].
  destruct (Hsp a eq_refl) as [sp Ha]. destruct Hrun1 as [Hs1 Hh1].
  pose proof (k_cpu _ (h_wf _ _ _ _ _ _ Hh1)) as Hcpu.
  mrun (RestoreUserState_run s1 t th Ht Hrg Hcpu).
  set (x := lset _ _). set (s2 := on_rest (set_user x) s1).
  mrun (get_space_run s2 a sp Ha).
  rewrite (on_cpu_run (AddrSpace_RestoreState sp) s2 tt _ eq_refl). eexists. split; [reflexivity|].
  split; [by apply sim_ok_rest, sim_ok_rest|].
  apply keep_user; [apply keep_user; [done|]|]; unfold s2, x; cbn [user rest on_rest set_user];
    rewrite !lget_lset; done.
Qed.

(** Scheduler::Run, after the next thread was taken off the ready list: [kk] is
    the kernel before. A finished thread does not come back. *)
Lemma good_run n S F t r s nx l kk f :
  sim_ok IntOff s -> handler_inv S F D t r kk -> r <> Runs -> readyList kk = nx :: l ->
  rest s = set_readyList l kk ->
  (r = Suspended -> forall m S' F' s', (m <= n)%nat -> running IntOff S' F' t s' -> good m S' F' (f tt) s') ->
  (r = Finished -> f = Ret) ->
  good n S F (pbind (Scheduler_Run nx) f) s.
Proof.
  intros Hs Hh Hnr Hl Hk Hf Hend. pose proof Hh as [Hwf _ _ _ Hc [th Ht] _ _].
  unfold Scheduler_Run. cbn [pbind op].
  assert (kernel currentThread s = Ok (t, s)) as Ec by (unfold kernel; munfold; rewrite Hk; by rewrite <- Hc).
  eapply (good_op_ok n S F (kernel currentThread)); [exact Ec|].
  assert (threads (rest s) !! t = Some th) as Ht' by (by rewrite Hk).
  assert (thread_ok (rest s) th) as Hok.
  { rewrite Hk. exact (k_threads _ Hwf t th Ht). }
  destruct (leave_thread_run s t th Ht' Hok) as (th' & El & Hst & Hok').
  { rewrite Hk. exact (k_cpu _ Hwf). }
  eapply (good_op_ok n S F (leave_thread t)); [exact El|]. clear El Ec.
  set (kk' := set_threads (<[t := th']> (threads kk)) kk).
  assert (handler_inv S F D t r kk') as Hh'.
  { apply (keep_thread S F D t r kk t th th' Hh Ht Hst). rewrite Hk in Hok'. exact Hok'. }
  set (s1 := on_rest _ s).
  assert (rest s1 = set_readyList l kk') as Hk1 by (unfold s1; cbn [rest on_rest]; by rewrite Hk).
  assert (exists thn, threads kk' !! nx = Some thn) as [thn Hn].
  { destruct (status_exists kk' nx READY) as (thn & ? & _); [|by exists thn].
    apply (k_ready_status _ (h_wf _ _ _ _ _ _ Hh')). change (readyList kk') with (readyList kk).
    rewrite Hl. by left. }
  assert (enter_thread nx s1 = Ok (tt, on_rest (fun _ => dispatch nx thn l kk') s1)) as En.
  { unfold enter_thread, on_kernel. rewrite (bind_Ok (modify _) _ s1 tt (on_rest (set_currentThread nx) s1)) by done.
    rewrite (update_thread_run (on_rest (set_currentThread nx) s1) nx thn) by (cbn [rest on_rest threads set_currentThread]; by rewrite Hk1).
    do 2 f_equal. unfold on_rest at 1 3. cbn [intr stats rest on_rest]. f_equal. by rewrite Hk1. }
  eapply (good_op_ok n S F (enter_thread nx)); [exact En|]. clear En.
  destruct n as [|n]; [done|]. intros _. cbn [pbind].
  assert (sim_ok IntOff (on_rest (fun _ => dispatch nx thn l kk') s1)) as Hs1
    by by apply sim_ok_rest, sim_ok_rest.
  assert (t ∉ S) as HtS by (intros Hin; by destruct (h_alive _ _ _ _ _ _ Hh t Hin)).
  split; [exact HtS|]. destruct r; [done| |].
  - destruct (keep_dispatch S F D t _ kk' nx thn l (S ∪ {[t]}) (F ∖ {[t]}) Hh' Hnr Hl Hn) as [Hin Hd].
    { intros u. rewrite elem_of_union, elem_of_singleton. naive_solver. }
    { intros u Hu. destruct (decide (u = t)); [right|left]; set_solver. }
    { done. }
    exists (S ∪ {[t]}), (F ∖ {[t]}). split; [done|]. split; [split; [exact Hs1|exact Hd]|]. right. split; [done|]. split; [done|].
    intros S' F' s' Hr. destruct (resume_thread_run S' F' t s' Hr) as (s2 & E2 & Hr2).
    eapply (good_op_ok n S' F' resume_thread f); [exact E2|]. apply Hf; [done|lia|done].
  - destruct (keep_dispatch S F D t _ kk' nx thn l S (F ∪ {[t]}) Hh' Hnr Hl Hn) as [Hin Hd]; [naive_solver|set_solver|set_solver|].
    exists S, (F ∪ {[t]}). split; [done|]. split; [split; [exact Hs1|exact Hd]|]. left.
    split; [done|]. split; [done|]. by rewrite (Hend eq_refl).
Qed.

(** ** Ticks, levels, Yield *)

Definition tick_rule (m : nat) : Prop := forall S F t s k,
  running IntOn S F t s -> (forall i S' F' s', running IntOn S' F' t s' -> good i S' F' k s') ->
  good m S F (Tick k) s.

(** Going back to an earlier level: back to IntOn, the clock ticks. *)
Lemma good_level_aux n S F t lv s f :
  (forall m, (m <= n)%nat -> tick_rule m) -> running IntOff S F t s ->
  (forall m S' F' s', running lv S' F' t s' -> good m S' F' (f IntOff) s') ->
  good n S F (pbind (SetLevel lv) f) s.
Proof.
  intros HT Hrun Hf. destruct (change_level_run IntOff lv s (proj1 Hrun)) as [E _].
  unfold SetLevel. cbn [pbind op]. eapply (good_op_ok n S F (change_level lv)); [exact E|].
  pose proof (running_level IntOff lv S F t s Hrun) as Hrun'.
  destruct lv.
  - rewrite bool_decide_false by done. cbn [andb pbind]. by apply Hf.
  - rewrite !bool_decide_true by done. cbn [andb pbind ptick]. by apply (HT n (le_n n) S F t).
Qed.

Lemma ReadyToRun_run s t th :
  threads (rest s) !! t = Some th ->
  Scheduler_ReadyToRun t s = Ok (tt, on_rest (make_ready t th) s).
Proof. intros Ht. unfold Scheduler_ReadyToRun. by mrun (update_thread_run s t th (Thread_setStatus READY) Ht). Qed.

Lemma good_yield_aux n S F t lv s f :
  (forall m, (m <= n)%nat -> tick_rule m) -> running lv S F t s ->
  (forall m S' F' s', running lv S' F' t s' -> good m S' F' (f tt) s') ->
  good n S F (pbind (Yield t) f) s.
Proof.
  intros HT Hrun Hf. unfold Thread_Yield. cbn [pbind].
  assert (forall m S' F' s', (m <= n)%nat -> running IntOff S' F' t s' ->
    good m S' F' (pbind (pbind (SetLevel lv) (fun _ => Ret tt)) f) s') as Hend.
  { intros m S' F' s' Hm Hr. rewrite pbind_assoc. apply (good_level_aux m S' F' t); [|done|].
    - intros i Hi. apply HT. lia.
    - intros i S2 F2 s2 Hr2. by apply Hf. }
  apply (good_off n S F lv); [apply Hrun|]. intros Hs1.
  assert (running IntOff S F t (on_intr (set_level IntOff) s)) as Hrun1 by (by eapply running_level).
  set (s1 := on_intr (set_level IntOff) s) in *. clearbody s1. clear Hrun s Hs1.
  cbn [pbind op].
  eapply (good_op_ok n S F (c <- kernel currentThread ;; ASSERT (bool_decide (t = c)))).
  { mrun (current_run _ _ _ _ _ Hrun1). by rewrite bool_decide_true. }
  destruct (running_thread _ _ _ _ _ Hrun1) as (th & Ht & _).
  destruct (readyList (rest s1)) as [|nx l] eqn:Hl.
  - eapply (good_op_ok n S F Scheduler_FindNextToRun).
    { unfold Scheduler_FindNextToRun, kernel. munfold. by rewrite Hl. }
    cbn [pbind]. by apply Hend.
  - set (s2 := on_rest (set_readyList l) s1).
    eapply (good_op_ok n S F Scheduler_FindNextToRun _ s1 (Some nx) s2).
    { unfold Scheduler_FindNextToRun, kernel. munfold. by rewrite Hl. }
    cbn [pbind op].
    eapply (good_op_ok n S F (Scheduler_ReadyToRun t)); [by apply (ReadyToRun_run s2 t th)|].
    destruct Hrun1 as [Hs Hh].
    pose proof (keep_preempt S F D t (rest s1) th Hh Ht) as Hp.
    apply (good_run n S F t Suspended _ nx (l ++ [t]) (preempt th (rest s1))).
    + by apply sim_ok_rest, sim_ok_rest.
    + exact Hp.
    + done.
    + unfold preempt. cbn [readyList set_readyList]. destruct Hh as [_ _ _ _ -> _ _ _]. by rewrite Hl.
    + unfold preempt, make_ready, s2. cbn. destruct Hh as [_ _ _ _ -> _ _ _]. done.
    + intros _. exact Hend.
    + done.
Qed.

Lemma Devices_running S F t : Devices call DL horizon (handler_inv S F D t Runs).
Proof. apply HD. Qed.

(** A tick may hand the CPU over any number of times; the thread goes on in the
    state of its caller. *)
Lemma good_tick n : tick_rule n.
Proof.
  induction (lt_wf n) as [n _ IH]. intros S F t s k Hrun Hk. destruct n as [|n]; [done|].
  intros _. unfold Threads.OneTick. cbn [pbind op].
  eapply (good_op_ok n S F (gets (fun s => status (intr s)))); [reflexivity|].
  eapply (good_op n S F). intros [Hnow _].
  destruct Hrun as [[Hi Hl Hin Hst H0] Hh].
  destruct (tick_run call DL horizon (handler_inv S F D t Runs) (HD := HD S F t Runs) s Hi Hst Hin H0 Hnow Hh)
    as (s1 & E1 & Hh1 & Hn1 & _ & Hi1 & Hl1 & Hst1 & Hin1 & _).
  eexists _, s1. split; [exact E1|].
  assert (running IntOn S F t s1) as Hrun1.
  { split; [constructor; try done; [congruence|]|done]. rewrite Hn1. unfold tick_of.
    case_decide; unfold SystemTick, UserTick; lia. }
  eapply (good_op_ok n S F (gets (fun s => yieldOnReturn (intr s)))); [reflexivity|].
  destruct (yieldOnReturn (intr s1)); cbn [pbind op]; [|by apply Hk].
  set (s2 := on_intr (set_status SystemMode) (on_intr (set_yieldOnReturn false) s1)).
  eapply (good_op_ok n S F _ _ s1 tt s2); [reflexivity|].
  assert (running IntOn S F t s2) as Hrun2 by (destruct Hrun1 as [[] ?]; split; [by constructor|done]).
  eapply (good_op_ok n S F (kernel currentThread)); [by eapply current_run|].
  rewrite pbind_assoc. eapply good_yield_aux; [|exact Hrun2|].
  - intros m Hm. apply IH. lia.
  - intros m S' F' s' Hr. eapply (good_op_ok m S' F' (modify _)); [reflexivity|]. cbn [pbind]. apply Hk.
    destruct Hr as [[] ?]. split; [by constructor|done].
Qed.

Lemma good_level n S F t lv s f :
  running IntOff S F t s -> (forall m S' F' s', running lv S' F' t s' -> good m S' F' (f IntOff) s') ->
  good n S F (pbind (SetLevel lv) f) s.
Proof. intros Hr Hf. apply (good_level_aux n S F t); [|done|done]. intros m _. apply good_tick. Qed.

Lemma good_yield n S F t lv s f :
  running lv S F t s -> (forall m S' F' s', running lv S' F' t s' -> good m S' F' (f tt) s') ->
  good n S F (pbind (Yield t) f) s.
Proof. intros Hr Hf. apply (good_yield_aux n S F t lv); [|done|done]. intros m _. apply good_tick. Qed.

(** ** Sleeping and waking up *)

Lemma good_sleep_loop n S F t r s f :
  sim_ok IntOff s -> handler_inv S F D t r (rest s) -> r <> Runs ->
  (r = Suspended -> forall m S' F' s', (m <= n)%nat -> running IntOff S' F' t s' -> good m S' F' (f tt) s') ->
  (r = Finished -> f = Ret) ->
  good n S F (pbind (Until Scheduler_FindNextToRun (op (Interrupt_Idle call DL)) Scheduler_Run) f) s.
Proof.
  revert s. induction (lt_wf n) as [n _ IH]. intros s Hs Hh Hnr Hf Hend. destruct n as [|n]; [done|].
  intros _. cbn [pbind]. destruct (readyList (rest s)) as [|nx l] eqn:Hl.
  - assert (Scheduler_FindNextToRun s = Ok (None, s)) as ->
      by (unfold Scheduler_FindNextToRun, kernel; munfold; by rewrite Hl).
    destruct n as [|n]; [done|]. intros [Hnow Hpend]. cbn [pbind op].
    destruct Hs as [Hi Hlv Hin Hst H0].
    assert (now s + horizon < 2 ^ 31) as Hnow' by (unfold SystemTick in Hnow; lia).
    pose proof (idle_run call DL horizon (handler_inv S F D t r) (HD := HD S F t r) s Hi Hlv H0 Hnow' Hpend Hh) as Hidle.
    destruct (pending (intr s)) as [|[e w] others]; [by rewrite Hidle|].
    case_decide; [by rewrite Hidle|].
    destruct Hidle as (s' & -> & Hh' & Hn' & Hst' & Hlv' & Hin' & _ & Hi' & _). cbn [pbind].
    apply (IH n); try done; [lia| |].
    + constructor; try done; [by rewrite Hst'|lia].
    + intros Hr m S' F' s2 Hm. apply Hf; [done|lia].
  - assert (Scheduler_FindNextToRun s = Ok (Some nx, on_rest (set_readyList l) s)) as ->
      by (unfold Scheduler_FindNextToRun, kernel; munfold; by rewrite Hl).
    apply (good_run n S F t r _ nx l (rest s)); try done; [by apply sim_ok_rest|].
    intros Hr m S' F' s2 Hm. apply Hf; [done|lia].
Qed.

Lemma semaphore_exists lv S F t s a :
  running lv S F t s -> a ∈ D -> exists sm, semaphores (rest s) !! a = Some sm.
Proof. intros [_ [_ _ _ H _ _ _]] Ha. by destruct (H a Ha) as [sm ?]; exists sm. Qed.

Lemma put_semaphore_run s a sm :
  put_semaphore a sm s = Ok (tt, on_rest (fun k => set_semaphores (<[a := sm]> (semaphores k)) k) s).
Proof. done. Qed.

(** Putting the current thread in a queue and going to sleep. *)
Lemma good_block n S F t s a sm f :
  running IntOff S F t s -> semaphores (rest s) !! a = Some sm ->
  (forall m S' F' s', (m <= n)%nat -> running IntOff S' F' t s' -> good m S' F' (f tt) s') ->
  good n S F (pbind (op (s <- get_semaphore a ;; c <- kernel currentThread ;;
      put_semaphore a (mkSem (sem_name s) (value s) (queue s ++ [c]))) ;~
    c <~ op (kernel currentThread) ;; Sleep c) f) s.
Proof.
  intros Hrun Ha Hf. pose proof Hrun as [Hs Hh]. pose proof Hh as [_ _ _ _ Hc _ _ _].
  destruct (running_thread _ _ _ _ _ Hrun) as (th & Ht & _). cbn [pbind op].
  set (sm' := mkSem (sem_name sm) (value sm) (queue sm ++ [t])).
  set (s1 := on_rest (fun k => set_semaphores (<[a := sm']> (semaphores k)) k) s).
  eapply (good_op_ok n S F _ _ s tt s1).
  { mrun (get_semaphore_run s a sm Ha). mrun (current_run _ _ _ _ _ Hrun). apply put_semaphore_run. }
  assert (kernel currentThread s1 = Ok (t, s1)) as Ec by (unfold kernel; munfold; cbn; by rewrite Hc).
  eapply (good_op_ok n S F (kernel currentThread)); [exact Ec|].
  unfold Thread_Sleep. cbn [pbind op].
  set (s2 := on_rest (fun _ => block a th sm (rest s)) s).
  eapply (good_op_ok n S F _ _ s1 tt s2).
  { rewrite (Sleep_blocks s1 t th Hc (sim_level _ _ Hs) Ht). unfold s1, s2, block, sm'. by rewrite Hc. }
  apply (good_sleep_loop n S F t Suspended s2 f); [by apply sim_ok_rest| |done|by intros _|done].
  by apply (keep_block S F D t).
Qed.

(** P returns with interrupts as they were. *)
Lemma good_P n S F t lv s a f :
  a ∈ D -> running lv S F t s -> (forall m S' F' s', running lv S' F' t s' -> good m S' F' (f tt) s') ->
  good n S F (pbind (Semaphore_P call DL a) f) s.
Proof.
  intros Ha Hrun Hf. unfold Semaphore_P. rewrite pbind_assoc.
  apply (good_off n S F lv); [apply Hrun|]. intros _.
  pose proof (running_level lv IntOff S F t s Hrun) as Hrun1. revert Hrun1.
  generalize (on_intr (set_level IntOff) s) as s1. clear s Hrun. cbn [pbind].
  assert (forall n S F s1, running IntOff S F t s1 -> good n S F (Until
    (s <- get_semaphore a ;; ret (if value s =? 0 then None else Some tt))
    (op (s <- get_semaphore a ;; c <- kernel currentThread ;;
         put_semaphore a (mkSem (sem_name s) (value s) (queue s ++ [c]))) ;~
     c <~ op (kernel currentThread) ;; Sleep c)
    (fun _ => pbind (op (s <- get_semaphore a ;;
         put_semaphore a (mkSem (sem_name s) (i32 (value s - 1)) (queue s))) ;~
       SetLevel lv ;~ Ret tt) f)) s1) as Hloop; [|intros s1 Hrun1; by apply Hloop].
  clear n S F. intros n. induction (lt_wf n) as [n _ IH]. intros S F s Hrun. destruct n as [|n]; [done|].
  intros _. destruct (semaphore_exists _ _ _ _ _ a Hrun Ha) as [sm Hsm].
  rewrite (bind_Ok _ _ _ _ _ (get_semaphore_run s a sm Hsm)).
  unfold ret. destruct (Z.eqb_spec (value sm) 0) as [Hv|Hv].
  - eapply good_block; [done|exact Hsm|]. intros m S' F' s' Hm Hr. apply IH; [lia|done].
  - cbn [pbind op].
    set (s' := on_rest (fun k => set_semaphores (<[a := mkSem (sem_name sm) (i32 (value sm - 1)) (queue sm)]>
      (semaphores k)) k) s).
    eapply (good_op_ok n S F _ _ s tt s').
    { mrun (get_semaphore_run s a sm Hsm). apply put_semaphore_run. }
    rewrite pbind_assoc. apply (good_level n S F t).
    + destruct Hrun as [Hs Hh]. split; [by apply sim_ok_rest|]. by apply (keep_value S F D t Runs).
    + intros m S' F' s2 Hr. cbn [pbind]. by apply Hf.
Qed.

(** What [release] does to the kernel. *)
Lemma release_run S F c r s a :
  handler_inv S F D c r (rest s) -> a ∈ D ->
  exists k', release a s = Ok (tt, on_rest (fun _ => k') s) /\ handler_inv S F D c r k'.
Proof.
  intros Hh Ha. pose proof Hh as [Hwf _ _ HD' _ _ _ _]. destruct (HD' a Ha) as [sm Hsm].
  unfold release. mrun (get_semaphore_run s a sm Hsm). destruct (queue sm) as [|t q] eqn:Hq.
  - rewrite (bind_Ok (ret tt) _ s tt s) by done. mrun (get_semaphore_run s a sm Hsm).
    rewrite put_semaphore_run. eexists. split; [reflexivity|]. by apply keep_value.
  - assert (waiting (rest s) a t) as Hw by (exists sm; rewrite Hq; split; [done|by left]).
    destruct (k_waiting _ Hwf a t Hw) as [Hb _]. destruct (status_exists _ _ _ Hb) as (th & Ht & _).
    rewrite <- bind_assoc. rewrite (bind_Ok _ _ _ _ _ (put_semaphore_run s a _)).
    set (s1 := on_rest _ s). mrun (ReadyToRun_run s1 t th Ht). set (s2 := on_rest _ s1).
    assert (semaphores (rest s2) !! a = Some (mkSem (sem_name sm) (value sm) q)) as Hsm2
      by apply lookup_insert_eq.
    mrun (get_semaphore_run s2 a _ Hsm2). rewrite put_semaphore_run. cbn [sem_name value queue].
    exists (wake a t th (mkSem (sem_name sm) (i32 (value sm + 1)) q) (rest s)). split.
    + do 2 f_equal. unfold s2, s1, wake, make_ready, on_rest. cbn. f_equal.
      unfold set_readyList, set_threads, set_semaphores. cbn. f_equal. by rewrite insert_insert_eq.
    + by apply (keep_wake S F D c r (rest s) a sm t q).
Qed.

Lemma good_V n S F t lv s a f :
  a ∈ D -> running lv S F t s -> (forall m S' F' s', running lv S' F' t s' -> good m S' F' (f tt) s') ->
  good n S F (pbind (Semaphore_V a) f) s.
Proof.
  intros Ha Hrun Hf. unfold Semaphore_V. rewrite pbind_assoc.
  apply (good_off n S F lv); [apply Hrun|]. intros _.
  pose proof (running_level lv IntOff S F t s Hrun) as [Hs1 Hh1]. cbn [pbind op].
  destruct (release_run S F t Runs _ a Hh1 Ha) as (k' & E & Hk').
  eapply (good_op_ok n S F (release a)); [exact E|]. rewrite pbind_assoc. apply (good_level n S F t).
  - split; [by apply sim_ok_rest|done].
  - intros m S' F' s2 Hr. by apply Hf.
Qed.

(** ** Creating and finishing threads *)

Lemma pbind_ret {A} (p : prog K A) : pbind p Ret = p.
Proof.
  induction p as [A a|A B' m k IH|A B' m body _ k IH|A k IH|A old new k IH|A t body _ k IH|A a k IH];
    cbn [pbind]; f_equal; try done; apply functional_extensionality; intros b; apply IH.
Qed.

Lemma good_finish n S F t lv s : running lv S F t s -> good n S F (ThreadFinish call DL) s.
Proof.
  intros Hrun. unfold ThreadFinish. eapply (good_op_ok n S F (kernel currentThread)); [by eapply current_run|].
  unfold Thread_Finish. apply (good_off n S F lv); [apply Hrun|]. intros _.
  pose proof (running_level lv IntOff S F t s Hrun) as Hrun1. revert Hrun1.
  generalize (on_intr (set_level IntOff) s) as s1. clear s Hrun. intros s Hrun.
  pose proof Hrun as [Hs Hh]. destruct (running_thread _ _ _ _ _ Hrun) as (th & Ht & _).
  pose proof Hh as [_ _ _ _ Hc _ _ _].
  set (s1 := on_rest (set_threadToBeDestroyed (Some t)) s).
  eapply (good_op_ok n S F _ _ s tt s1).
  { mrun (current_run _ _ _ _ _ Hrun). by rewrite bool_decide_true. }
  assert (kernel currentThread s1 = Ok (t, s1)) as Ec by (unfold kernel; munfold; cbn; by rewrite Hc).
  unfold Thread_Sleep. set (s2 := on_rest (fun _ => finish th (rest s)) s).
  eapply (good_op_ok n S F _ _ s1 tt s2).
  { rewrite (Sleep_blocks s1 t th Hc (sim_level _ _ Hs) Ht). unfold s1, s2, finish. by rewrite Hc. }
  rewrite <- (pbind_ret (Until _ _ _)).
  apply (good_sleep_loop n S F t Finished s2 Ret); [by apply sim_ok_rest| |done|done|done].
  by apply (keep_finish S F D t).
Qed.

(** A new thread starts with interrupts off, in the middle of Scheduler::Run of
    the thread that gave the CPU up. *)
Lemma good_root n S F t s body :
  running IntOff S F t s ->
  (forall m S' F' s' f, running IntOn S' F' t s' ->
     (forall i S2 F2 s2, running IntOn S2 F2 t s2 -> good i S2 F2 (f tt) s2) -> good m S' F' (pbind body f) s') ->
  good n S F (ThreadRoot call DL body) s.
Proof.
  intros Hrun Hb. unfold ThreadRoot, InterruptEnable, Enable. rewrite pbind_assoc.
  apply (good_level n S F t IntOn); [done|]. intros m S' F' s' Hr. cbn [pbind].
  apply Hb; [done|]. intros i S2 F2 s2 Hr2. by apply (good_finish i S2 F2 t IntOn).
Qed.

Lemma good_fork n S F t s garbage name body f :
  zlength garbage = NumTotalRegs -> running IntOn S F t s ->
  (forall m S' F' u s', running IntOff S' F' u s' -> good m S' F' (ThreadRoot call DL body) s') ->
  (forall m S' F' s', running IntOn S' F' t s' -> good m S' F' (f tt) s') ->
  good n S F (pbind (u <~ op (Thread_new garbage name) ;; Thread_Fork call DL u body) f) s.
Proof.
  intros Hg Hrun Hbody Hf. cbn [pbind op]. pose proof Hrun as [Hs Hh].
  assert (fresh (dom (threads (rest s))) ∉ dom (threads (rest s))) as Hfresh by apply is_fresh.
  set (u := fresh (dom (threads (rest s)))) in *. apply not_elem_of_dom in Hfresh.
  set (th := mkThread name None JUST_CREATED garbage None).
  set (s1 := on_rest (set_threads (<[u := th]> (threads (rest s)))) s).
  eapply (good_op_ok n S F _ _ s u s1); [reflexivity|].
  assert (handler_inv S F D t Runs (rest s1)) as Hh1.
  { apply (keep_new S F D t); try done. split; [by left|]. split; [done|]. done. }
  assert (threads (rest s1) !! u = Some th) as Hu1 by apply lookup_insert_eq.
  unfold Thread_Fork, Thread_StackAllocate. rewrite !pbind_assoc.
  set (th2 := set_stack (Some STACK_FENCEPOST) th).
  set (s2 := on_rest (set_threads (<[u := th2]> (threads (rest s1)))) s1).
  eapply (good_op_ok n S F (update_thread u (set_stack (Some STACK_FENCEPOST))) _ s1 tt s2);
    [by apply (update_thread_run s1 u th)|].
  assert (handler_inv S F D t Runs (rest s2)) as Hh2.
  { apply (keep_thread S F D t Runs (rest s1) u th th2 Hh1 Hu1); [done|].
    split; [by right|]. split; [done|]. done. }
  assert (threads (rest s2) !! u = Some th2) as Hu2 by apply lookup_insert_eq.
  cbn [pbind]. destruct n as [|n]; [done|]. intros _. split; [|intros S' F' s'; apply Hbody].
  apply (good_off n _ _ IntOn); [by apply sim_ok_rest, sim_ok_rest|]. intros Hs3.
  set (s3 := on_intr (set_level IntOff) s2) in *.
  assert (handler_inv (S ∪ {[u]}) (F ∖ {[u]}) D t Runs (rest s3)) as Hh3.
  { apply keep_spawn; [done|]. change (status_of (rest s2) u = Some JUST_CREATED).
    by rewrite (status_thread _ _ _ Hu2). }
  rewrite pbind_assoc.
  eapply (good_op_ok n _ _ (Scheduler_ReadyToRun u) _ s3 tt _); [by apply (ReadyToRun_run s3 u th2)|].
  rewrite pbind_assoc. apply (good_level n _ _ t).
  - split; [by apply sim_ok_rest|]. apply keep_ready; try done. set_solver.
  - intros m S' F' s' Hr. by apply Hf.
Qed.

(** ** Client programs

    Kernel code that uses the threads through the operations of Threads.v: it
    forks, yields, waits for and signals the semaphores of [D], lets time pass
    and works on the rest of the machine. *)

Definition local {B} (m : M K B) : Prop := forall s,
  zlength (registers (lget (user (rest s)))) = NumTotalRegs ->
  m s = Halted \/ exists b x, m s = Ok (b, on_rest (set_user x) s) /\
    zlength (registers (lget x)) = NumTotalRegs.

Inductive client : prog K unit -> Prop :=
| client_done : client (Ret tt)
| client_local B (m : M K B) k : local m -> (forall b, client (k b)) -> client (Do m k)
| client_tick p : client p -> client (Tick p)
| client_yield p : client p ->
    client ((c <~ op (kernel currentThread) ;; Yield c) ;~ p)
| client_P a p : a ∈ D -> client p -> client (Semaphore_P call DL a ;~ p)
| client_V a p : a ∈ D -> client p -> client (Semaphore_V a ;~ p)
| client_fork garbage name body p :
    zlength garbage = NumTotalRegs -> client body -> client p ->
    client ((u <~ op (Thread_new garbage name) ;; Thread_Fork call DL u body) ;~ p).

Lemma good_client p : client p -> forall n S F t s f,
  running IntOn S F t s -> (forall m S' F' s', running IntOn S' F' t s' -> good m S' F' (f tt) s') ->
  good n S F (pbind p f) s.
Proof.
  induction 1 as [|B m k Hm _ IH|p _ IH|p _ IH|a p Ha _ IH|a p Ha _ IH|garbage name body p Hg _ IHb _ IH];
    intros n S F t s f Hrun Hf.
  - by apply Hf.
  - cbn [pbind]. destruct n as [|n]; [done|]. intros _. destruct Hrun as [Hs Hh].
    destruct (Hm s (k_cpu _ (h_wf _ _ _ _ _ _ Hh))) as [->|(b & x & -> & Hx)]; [done|].
    apply (IH b n S F t); [|done]. split; [by apply sim_ok_rest|by apply keep_user].
  - cbn [pbind]. apply (good_tick n S F t); [done|]. intros i S' F' s' Hr. by apply (IH i S' F' t).
  - rewrite pbind_assoc. eapply (good_op_ok n S F (kernel currentThread)); [by eapply current_run|].
    apply (good_yield n S F t IntOn); [done|]. intros m S' F' s' Hr. by apply (IH m S' F' t).
  - rewrite pbind_assoc. apply (good_P n S F t IntOn); [done|done|].
    intros m S' F' s' Hr. by apply (IH m S' F' t).
  - rewrite pbind_assoc. apply (good_V n S F t IntOn); [done|done|].
    intros m S' F' s' Hr. by apply (IH m S' F' t).
  - rewrite pbind_assoc. apply (good_fork n S F t); [done|done| |intros m S' F' s' Hr; by apply (IH m S' F' t)].
    intros m S' F' u s' Hr. apply (good_root m S' F' u); [done|]. intros i S2 F2 s2 g Hr2 Hg2. by apply (IHb i S2 F2 u).
Qed.

(** ** Whole configurations *)

(** Every thread of [S] has a continuation, which is safe whenever the thread
    gets the CPU in a state that satisfies the invariant; those of [F] are at
    the end of theirs. *)
Definition config_good (n : nat) S F (c : config) : Prop :=
  good n S F (cpu c) (state c) /\
  (forall t, t ∈ S -> exists p, saved c !! t = Some p /\
    forall S' F' s', running IntOff S' F' t s' -> good n S' F' p s') /\
  forall t, t ∈ F -> saved c !! t = Some at_end.

Lemma step_good n S F c :
  config_good (Datatypes.S n) S F c -> in_range (state c) ->
  step call DL code c = Halted \/ exists c' S' F', step call DL code c = Ok c' /\ config_good n S' F' c'.
Proof.
  intros (Hg & HS & HF) Hr. specialize (Hg Hr).
  assert (forall t, t ∈ S -> exists p, saved c !! t = Some p /\
    forall S' F' s', running IntOff S' F' t s' -> good n S' F' p s') as HS'.
  { intros t Ht. destruct (HS t Ht) as (p & Hp & Hgood). exists p. split; [done|].
    intros S' F' s' Hs. by apply good_mono, Hgood. }
  clear HS. destruct c as [p sv s]. unfold step. cbn [cpu saved state] in *.
  destruct p as [a|B m k|B m body k|k|old new k|t body k|a k].
  - done.
  - destruct (m s) as [[b s']| | |]; cbn [obind]; try done; [|by left].
    right. eexists _, S, F. split; [reflexivity|]. by split.
  - destruct (m s) as [[[b|] s']| | |]; cbn [obind]; try done; [| |by left];
      (right; eexists _, S, F; split; [reflexivity|]; by split).
  - right. eexists _, S, F. split; [reflexivity|]. by split.
  - destruct Hg as (Ho & S1 & F1 & Hin & Hrun & Hk).
    assert (forall t, t ∈ S1 -> exists p, (<[old := k]> sv) !! t = Some p /\
      forall S' F' s', running IntOff S' F' t s' -> good n S' F' p s') as HS1.
    { intros t Ht. destruct (decide (t = old)) as [->|Hne].
      - rewrite lookup_insert_eq. exists k. split; [done|]. destruct Hk as [(-> & _)|(_ & _ & Hk)]; done.
      - rewrite lookup_insert_ne by done. apply HS'. destruct Hk as [(-> & _)|(-> & _)]; [done|set_solver]. }
    destruct (HS1 new Hin) as (p & Hp & Hgood). cbn zeta. rewrite Hp.
    right. eexists _, (S1 ∖ {[new]}), (F1 ∖ {[new]}). split; [reflexivity|]. split; [by apply Hgood|].
    cbn [saved]. split; intros t [Ht Hne%not_elem_of_singleton]%elem_of_difference;
      rewrite lookup_delete_ne by done; [by apply HS1|].
    destruct (decide (t = old)) as [->|Hto].
    + rewrite lookup_insert_eq. destruct Hk as [(_ & _ & ->)|(_ & -> & _)]; [done|set_solver].
    + rewrite lookup_insert_ne by done. apply HF. destruct Hk as [(_ & -> & _)|(_ & -> & _)]; set_solver.
  - right. destruct Hg as [Hk Hb]. eexists _, (S ∪ {[t]}), (F ∖ {[t]}). split; [reflexivity|]. split; [done|].
    cbn [saved]. split; intros u Hu.
    + destruct (decide (u = t)) as [->|Hne].
      * rewrite lookup_insert_eq. by exists body.
      * rewrite lookup_insert_ne by done. apply HS'. set_solver.
    + apply elem_of_difference in Hu as [Hu Hne%not_elem_of_singleton]. rewrite lookup_insert_ne by done. by apply HF.
  - right. eexists _, S, F. split; [reflexivity|]. by split.
Qed.

(** The configurations reached while the clock does not overflow. *)
Inductive reaches (c0 : config) : config -> Prop :=
| reaches_refl : reaches c0 c0
| reaches_step c c' : reaches c0 c -> in_range (state c) -> step call DL code c = Ok c' -> reaches c0 c'.

Lemma reaches_good c0 c :
  (forall n, exists S F, config_good n S F c0) -> reaches c0 c -> forall n, exists S F, config_good n S F c.
Proof.
  intros H0. induction 1 as [|c c' _ IH Hr E]; [done|]. intros n.
  destruct (IH (Datatypes.S n)) as (S & F & Hg).
  destruct (step_good n S F c Hg Hr) as [Hh|(c2 & S2 & F2 & E2 & Hg2)]; [congruence|].
  exists S2, F2. congruence.
Qed.

Lemma boot_good body s t :
  client body -> running IntOff ∅ ∅ t s ->
  forall n, exists S F, config_good n S F (mkConfig (ThreadRoot call DL body) ∅ s).
Proof.
  intros Hc Hrun n. exists ∅, ∅. split; [|split; set_solver]. cbn [cpu state].
  apply (good_root n ∅ ∅ t); [done|]. intros m S' F' s' f Hr Hf. by apply (good_client body Hc m S' F' t).
Qed.

End Safe.
