(* ===== verification/Quiet.v ===== *)
(** * Programs that run without being interrupted

    While no device interrupt comes due, a thread that does not block keeps the
    CPU: its program runs to its end in a number of steps, and what it does to
    the kernel is a function of the kernel. These are the rules for such runs:
    the clock is only known to stay [n] ticks ahead of the next interrupt. *)

From stdpp Require Import base tactics list numbers gmap.
From S2P Require Import Prelude Lists Interrupt Machine BitMap AddrSpace Threads ThreadsInv ThreadsSafe.

Local Open Scope Z_scope.

Section Quiet.
Context {X : Type} `{!Lens Machine X}.
Context (call : VoidFunctionPtr -> Z -> M (Sim (Kernel X)) unit) (DL : M (Sim (Kernel X)) unit).
Context (code : loc -> prog (Sim (Kernel X)) unit).
Abbreviation K := (Sim (Kernel X)).
Implicit Types (s : K) (k : Kernel X) (sv : gmap loc (prog K unit)).

(** No interrupt is due during the next [n] ticks. *)
Record quiet (n : nat) s : Prop := {
  q_pending : Forall (fun e => now s + Z.of_nat n * SystemTick < e.2) (pending (intr s));
  q_now : 0 <= now s;
  q_range : now s + Z.of_nat n * SystemTick < 2 ^ 31;
  q_handler : inHandler (intr s) = false;
  q_yield : yieldOnReturn (intr s) = false;
  q_status : status (intr s) = SystemMode
}.

(** A quiet kernel [k] at an interrupt level. *)
Definition calm (lv : IntStatus) (n : nat) k s : Prop :=
  level (intr s) = lv /\ rest s = k /\ quiet n s.

Lemma fire_due_quiet s : level (intr s) = IntOff -> Forall (fun e => now s < e.2) (pending (intr s)) ->
  exists l, fire_due call DL s = Ok (tt, on_intr (set_pending l) s) /\ (l ≡ₚ pending (intr s)).
Proof.
  intros Hl Hp.
  assert (exists l, Interrupt_CheckIfDue call DL false s = Ok (false, on_intr (set_pending l) s) /\
    (l ≡ₚ pending (intr s))) as (l & E & Hperm).
  { unfold Interrupt_CheckIfDue. munfold. rewrite Hl. cbn.
    destruct (pending (intr s)) as [|[i w] others] eqn:Ep.
    - exists []. split; [|done]. do 2 f_equal. destruct s as [[]]. cbn in *. by subst.
    - apply Forall_cons in Hp as [Hw _]. cbn in Hw. unfold now in Hw.
      assert ((w >? totalTicks (stats s)) = true) as Hgt by (apply Z.gtb_lt; lia).
      unfold bind, get, obind. rewrite Hgt. cbn.
      exists (sorted_insert i w others). split; [|apply sorted_insert_perm]. reflexivity. }
  exists l. split; [|done]. unfold fire_due, bind at 1, get, obind. cbn beta iota.
  assert (while_ (S (length (pending (intr s)))) tt (fun _ : unit =>
    b <- Interrupt_CheckIfDue call DL false ;; ret (tt, b)) s = Ok (Some tt, on_intr (set_pending l) s)) as Ew.
  { cbn [while_]. rewrite <- bind_assoc. mrun E. done. }
  by mrun Ew.
Qed.

Lemma advance_quiet n k s : calm IntOn (S n) k s ->
  exists st, advance_time s = Ok (tt, on_stats (fun _ => st) s) /\ totalTicks st = now s + SystemTick.
Proof.
  intros (_ & _ & Hq). pose proof (q_now _ _ Hq). pose proof (q_range _ _ Hq). unfold advance_time. munfold.
  rewrite decide_True by exact (q_status _ _ Hq). eexists. split; [reflexivity|]. cbn.
  apply i32_id. unfold is_i32, now, SystemTick in *. lia.
Qed.

Abbreviation run := (run call DL code).

Lemma run_trans m1 m2 c c1 c2 : run m1 c = Ok c1 -> run m2 c1 = Ok c2 -> run (m1 + m2) c = Ok c2.
Proof.
  revert c. induction m1 as [|m1 IH]; intros c E1 E2; cbn in *; [by injection E1 as ->|].
  destruct (step call DL code c) as [c'| | |]; cbn in *; try done. by apply IH.
Qed.

(** From every calm state with the kernel [k] the program [p] runs to its end
    with the result [a], and leaves the kernel [k'] and the continuations
    [sv'] of the other threads. *)
Definition quietly {A} (p : prog K A) sv lv n k a sv' lv' n' k' : Prop := forall s, calm lv n k s ->
  forall f : A -> prog K unit, exists m s',
    run m (mkConfig (pbind p f) sv s) = Ok (mkConfig (f a) sv' s') /\ calm lv' n' k' s'.

Lemma quietly_ret {A} (a : A) sv lv n k : quietly (Ret a) sv lv n k a sv lv n k.
Proof. intros s Hs f. by exists 0%nat, s. Qed.

Lemma quietly_bind {A B} (p : prog K A) (q : A -> prog K B) sv lv n k a sv1 lv1 n1 k1 b sv2 lv2 n2 k2 :
  quietly p sv lv n k a sv1 lv1 n1 k1 -> quietly (q a) sv1 lv1 n1 k1 b sv2 lv2 n2 k2 ->
  quietly (pbind p q) sv lv n k b sv2 lv2 n2 k2.
Proof.
  intros Hp Hq s Hs f. destruct (Hp s Hs (fun a => pbind (q a) f)) as (m1 & s1 & E1 & Hs1).
  destruct (Hq s1 Hs1 f) as (m2 & s2 & E2 & Hs2). exists (m1 + m2)%nat, s2. split; [|done].
  rewrite pbind_assoc. by eapply run_trans.
Qed.

Lemma calm_rest lv n k k' s : calm lv n k s -> calm lv n k' (on_rest (fun _ => k') s).
Proof. intros (Hl & Hk & []). split; [done|]. split; [done|]. by constructor. Qed.

Lemma quietly_do {A B} (m : M K B) (g : B -> prog K A) sv lv n k b k' a sv' lv' n' k2 :
  (forall s, calm lv n k s -> m s = Ok (b, on_rest (fun _ => k') s)) ->
  quietly (g b) sv lv n k' a sv' lv' n' k2 ->
  quietly (Do m g) sv lv n k a sv' lv' n' k2.
Proof.
  intros Hm Hg s Hs f. destruct (Hg _ (calm_rest lv n k k' s Hs) f) as (i & s' & E & Hs').
  exists (S i), s'. split; [|done]. cbn. unfold step. cbn. by rewrite (Hm s Hs).
Qed.

(** An atomic operation on the kernel. *)
Lemma quietly_op {A} (m : M K A) sv lv n k a k' :
  (forall s, calm lv n k s -> m s = Ok (a, on_rest (fun _ => k') s)) ->
  quietly (op m) sv lv n k a sv lv n k'.
Proof. intros Hm. eapply quietly_do; [exact Hm|]. apply quietly_ret. Qed.

Lemma quietly_tick sv n k : quietly ptick sv IntOn (S n) k tt sv IntOn n k.
Proof.
  intros s Hs f. destruct (advance_quiet n k s Hs) as (st & Ea & Hst).
  destruct Hs as (Hl & Hk & Hq). set (s1 := on_intr (set_level IntOff) (on_stats (fun _ => st) s)).
  assert (Forall (fun e => now s1 < e.2) (pending (intr s1))) as Hp1.
  { eapply Forall_impl; [exact (q_pending _ _ Hq)|]. intros e. unfold now, s1 in *. cbn in *.
    rewrite Hst. unfold SystemTick. lia. }
  destruct (fire_due_quiet s1 eq_refl Hp1) as (l & Ef & Hperm).
  set (s2 := on_intr (set_level IntOn) (on_intr (set_pending l) s1)).
  assert ((advance_time ;;; Interrupt_ChangeLevel IntOff ;;; fire_due call DL ;;; Interrupt_ChangeLevel IntOn) s =
    Ok (tt, s2)) as E.
  { mrun Ea. rewrite (bind_Ok (Interrupt_ChangeLevel IntOff) _ _ tt s1) by done. by mrun Ef. }
  exists 4%nat, s2. split.
  - cbn [pbind ptick]. cbn [Threads.run]. unfold step at 1. cbn [cpu obind]. unfold OneTick. cbn [pbind op].
    unfold step at 1. cbn [cpu obind state saved gets]. unfold step at 1. cbn [cpu obind state saved].
    rewrite E. cbn [obind]. unfold step. cbn [cpu obind state saved gets]. unfold gets.
    change (yieldOnReturn (intr s2)) with (yieldOnReturn (intr s)). by rewrite (q_yield _ _ Hq).
  - split; [done|]. split; [done|]. destruct Hq. constructor; try done.
    + change (pending (intr s2)) with l. rewrite Hperm. eapply Forall_impl; [exact q_pending0|].
      intros e. unfold now, s2, s1 in *. cbn in *. rewrite Hst. unfold SystemTick. lia.
    + unfold now, s2, s1 in *. cbn in *. rewrite Hst. unfold SystemTick. lia.
    + unfold now, s2, s1 in *. cbn in *. rewrite Hst. unfold SystemTick in *. lia.
Qed.

(** Interrupts off, and on again, with a tick. *)
Lemma change_level_calm lv now_ n k s : calm lv n k s ->
  change_level now_ s = Ok (lv, on_intr (set_level now_) s) /\ calm now_ n k (on_intr (set_level now_) s).
Proof.
  intros (Hl & Hk & Hq). split; [|split; [done|]; split; [done|]; by destruct Hq].
  unfold change_level. munfold. rewrite (q_handler _ _ Hq), Hl. by destruct (bool_decide _).
Qed.

Definition ticks (lv : IntStatus) : nat := match lv with IntOn => 1 | IntOff => 0 end.

Lemma quietly_step {A B} (m : M K B) (g : B -> prog K A) sv lv n k lv1 b a sv' lv' n' k' :
  (forall s, calm lv n k s -> exists s1, m s = Ok (b, s1) /\ calm lv1 n k s1) ->
  quietly (g b) sv lv1 n k a sv' lv' n' k' ->
  quietly (Do m g) sv lv n k a sv' lv' n' k'.
Proof.
  intros Hm Hg s Hs f. destruct (Hm s Hs) as (s1 & E1 & Hs1). destruct (Hg s1 Hs1 f) as (i & s' & E & Hs').
  exists (S i), s'. split; [|done]. cbn. unfold step. cbn. by rewrite E1.
Qed.

Lemma quietly_off sv lv n k : quietly (SetLevel IntOff) sv lv n k lv sv IntOff n k.
Proof.
  unfold SetLevel. cbn [pbind op].
  eapply (quietly_step (change_level IntOff)); [|apply quietly_ret].
  intros s Hs. eexists. exact (change_level_calm lv IntOff n k s Hs).
Qed.

Lemma quietly_restore sv lv n k : quietly (SetLevel lv) sv IntOff (ticks lv + n) k IntOff sv lv n k.
Proof.
  unfold SetLevel. cbn [pbind op].
  eapply (quietly_step (change_level lv)).
  { intros s Hs. eexists. exact (change_level_calm IntOff lv _ k s Hs). }
  destruct lv; cbn [ticks Nat.add]; cbn [bool_decide andb]; [apply quietly_ret|].
  eapply (quietly_bind ptick); [apply quietly_tick|apply quietly_ret].
Qed.

(** ** Semaphores and new threads *)

Definition with_value (a : loc) (sm : Semaphore) (v : Z) k : Kernel X :=
  set_semaphores (<[a := mkSem (sem_name sm) v (queue sm)]> (semaphores k)) k.

Lemma calm_semaphore lv n k s a sm : calm lv n k s -> semaphores k !! a = Some sm ->
  get_semaphore a s = Ok (sm, s).
Proof. intros (_ & <- & _). apply get_semaphore_run. Qed.

(** A semaphore that is available is taken without waiting. *)
Lemma quietly_P sv lv n k a sm :
  semaphores k !! a = Some sm -> value sm <> 0 ->
  quietly (Semaphore_P call DL a) sv lv (ticks lv + n) k tt sv lv n (with_value a sm (i32 (value sm - 1)) k).
Proof.
  intros Ha Hv. unfold Semaphore_P. eapply quietly_bind; [apply quietly_off|].
  intros s Hs f. cbn [pbind].
  set (s1 := on_rest (fun _ => with_value a sm (i32 (value sm - 1)) k) s).
  destruct (quietly_bind _ (fun _ => Ret tt) _ _ _ _ _ _ _ _ _ _ _ _ _ _
    (quietly_restore sv lv n (with_value a sm (i32 (value sm - 1)) k)) (quietly_ret tt _ _ _ _)
    s1 (calm_rest _ _ _ _ _ Hs) f) as (m & s' & E & Hs').
  exists (S (S m)), s'. split; [|exact Hs']. cbn [Threads.run]. unfold step at 1. cbn [cpu state saved].
  pose proof (calm_semaphore _ _ _ _ _ _ Hs Ha) as Eg.
  rewrite (bind_Ok (get_semaphore a) _ _ _ _ Eg). cbn beta iota.
  rewrite (proj2 (Z.eqb_neq _ _) Hv). cbn [obind ret]. unfold step at 1. cbn [cpu state saved op pbind].
  rewrite (bind_Ok (get_semaphore a) _ _ _ _ Eg). cbn beta iota.
  unfold put_semaphore, on_kernel, modify. cbn [obind].
  assert (on_rest (fun k0 => set_semaphores (<[a:=mkSem (sem_name sm) (i32 (value sm - 1)) (queue sm)]> (semaphores k0)) k0) s = s1) as ->.
  { unfold s1, with_value. destruct Hs as (_ & <- & _). done. }
  exact E.
Qed.

(** Nobody waits: the value goes up. *)
Lemma quietly_V sv lv n k a sm :
  semaphores k !! a = Some sm -> queue sm = [] ->
  quietly (Semaphore_V a) sv lv (ticks lv + n) k tt sv lv n (with_value a sm (i32 (value sm + 1)) k).
Proof.
  intros Ha Hq. unfold Semaphore_V. eapply quietly_bind; [apply quietly_off|].
  eapply quietly_bind.
  - apply (quietly_op (release a) sv IntOff _ _ tt (with_value a sm (i32 (value sm + 1)) k)).
    intros s Hs. pose proof (calm_semaphore _ _ _ _ _ _ Hs Ha) as Eg. unfold release. mrun Eg. rewrite Hq.
    rewrite (bind_Ok (ret tt) _ s tt s) by done. mrun Eg. unfold with_value. destruct Hs as (_ & <- & _). by rewrite Hq.
  - eapply quietly_bind; [apply quietly_restore|apply quietly_ret].
Qed.

(** Fork makes the new thread ready behind the others. *)
Lemma quietly_Fork sv lv n k t th func :
  threads k !! t = Some th ->
  quietly (Thread_Fork call DL t func) sv lv (ticks lv + n) k tt
    (<[t := ThreadRoot call DL func]> sv) lv n (make_ready t (set_stack (Some STACK_FENCEPOST) th) k).
Proof.
  intros Ht. unfold Thread_Fork, Thread_StackAllocate.
  set (th' := set_stack (Some STACK_FENCEPOST) th).
  set (k1 := set_threads (<[t := th']> (threads k)) k).
  assert (threads k1 !! t = Some th') as Ht1 by apply lookup_insert_eq.
  eapply (quietly_bind _ _ _ _ _ _ tt (<[t := ThreadRoot call DL func]> sv) _ _ k1).
  { intros s Hs f. exists 2%nat, (on_rest (fun _ => k1) s). split; [|by eapply calm_rest].
    cbn [pbind op Threads.run]. unfold step at 1. cbn [cpu state saved].
    assert (threads (rest s) !! t = Some th) as Hts by (destruct Hs as (_ & -> & _); done).
    rewrite (update_thread_run s t th _ Hts). cbn [obind]. unfold step. cbn [cpu state saved obind].
    do 2 f_equal. unfold k1, on_rest. destruct Hs as (_ & <- & _). done. }
  eapply quietly_bind; [apply quietly_off|]. eapply quietly_bind.
  - apply (quietly_op (Scheduler_ReadyToRun t) _ IntOff _ _ tt (make_ready t th' k)).
    intros s Hs. destruct Hs as (_ & Hk & _).
    rewrite (ReadyToRun_run s t th') by (by rewrite Hk). do 2 f_equal. unfold on_rest. f_equal. rewrite Hk.
    unfold make_ready, k1. cbn. unfold set_readyList, set_threads. cbn. by rewrite insert_insert_eq.
  - eapply quietly_bind; [apply quietly_restore|apply quietly_ret].
Qed.
End Quiet.

(** ** Runs of a single thread

    The state of the interrupts and of the clock, with the kernel, and what a
    program comes to after some steps: a configuration with the property [Q]. *)

Section Steps.
Context {X : Type} `{!Lens Machine X}.
Context {call : VoidFunctionPtr -> Z -> M (Sim (Kernel X)) unit} {DL : M (Sim (Kernel X)) unit}.
Context {code : loc -> prog (Sim (Kernel X)) unit}.
Abbreviation K := (Sim (Kernel X)).
Implicit Types (s : K) (k : Kernel X) (sv : gmap loc (prog K unit)).
Abbreviation run := (run call DL code).

Definition St (lv : IntStatus) (p : list (PendingInterrupt * Z)) (st : Statistics) (k : Kernel X) : K :=
  mkSim (mkInterrupt lv p false false SystemMode) st k.

Lemma change_level_St now_ lv p st k : change_level now_ (St lv p st k) = Ok (lv, St now_ p st k).
Proof. unfold change_level. munfold. cbn. by destruct (bool_decide _). Qed.

Definition runs_to (c : config (X := X)) (Q : config -> Prop) : Prop := exists n c', run n c = Ok c' /\ Q c'.

Lemma runs_to_now c (Q : config -> Prop) : Q c -> runs_to c Q.
Proof. intros H. by exists 0%nat, c. Qed.
Lemma runs_to_step c c1 Q : step call DL code c = Ok c1 -> runs_to c1 Q -> runs_to c Q.
Proof. intros E (n & c' & Hn & HQ). exists (S n), c'. split; [|done]. cbn. by rewrite E. Qed.
Lemma runs_to_do {B} (m : M K B) g b sv s s' Q : m s = Ok (b, s') ->
  runs_to (mkConfig (g b) sv s') Q -> runs_to (mkConfig (Do m g) sv s) Q.
Proof. intros E. apply runs_to_step. unfold step. cbn. by rewrite E. Qed.
Lemma runs_to_until {B} (m : M K (option B)) body g r sv s s' Q : m s = Ok (r, s') ->
  runs_to (mkConfig (match r with Some b => g b | None => body ;~ Until m body g end) sv s') Q ->
  runs_to (mkConfig (Until m body g) sv s) Q.
Proof. intros E. apply runs_to_step. unfold step. cbn. by rewrite E. Qed.
(** Switching to itself. *)
Lemma runs_to_switch t p sv s Q : sv !! t = None -> runs_to (mkConfig p sv s) Q -> runs_to (mkConfig (Switch t t p) sv s) Q.
Proof.
  intros Hsv. apply runs_to_step. unfold step. cbn. rewrite lookup_insert_eq. by rewrite delete_insert_id.
Qed.
End Steps.
Arguments runs_to {X _} call DL code c Q.
