(* ===== verification/ThreadsSpec.v ===== *)
(** * What the threads, the scheduler and the semaphores promise

    The theorems on Threads.v: no thread fails and none is lost, P and V, and a
    device whose handlers keep the kernel, on a small kernel that runs. *)

From stdpp Require Import base tactics list numbers gmap relations.
From S2P Require Import Prelude Lists Interrupt Machine BitMap AddrSpace Threads ThreadsInv ThreadsSafe.

Local Open Scope Z_scope.

(** ** Devices that use the kernel

    The timer, which forces context switches, and a disk whose handler signals
    a semaphore: they keep the contract of the interrupt simulation with the
    invariant of the scheduler. *)

Definition kernel_call {X} (sem : loc) (t : Timer) (rand : Z) (h : VoidFunctionPtr) (a : Z) :
    M (Sim (Kernel X)) unit :=
  match h with
  | TimerHandler => Timer_TimerExpired t rand
  | DiskDone => Semaphore_V_handler sem
  | _ => ret tt
  end.

Lemma frame_refl {X} (s : Sim (Kernel X)) k : sim_inv s -> device_frame s (on_rest (fun _ => k) s).
Proof. intros Hi. constructor; try done. by exists []. Qed.

Lemma V_handler_run {X} `{!Lens Machine X} S F D c r a (s : Sim (Kernel X)) :
  level (intr s) = IntOff -> handler_inv S F D c r (rest s) -> a ∈ D ->
  exists k', Semaphore_V_handler a s = Ok (tt, on_rest (fun _ => k') s) /\ handler_inv S F D c r k'.
Proof.
  intros Hl Hh Ha.
  assert (forall s : Sim (Kernel X), level (intr s) = IntOff -> change_level IntOff s = Ok (IntOff, s)) as Hc.
  { intros s1 H1. unfold change_level, Interrupt_ChangeLevel. munfold. rewrite H1.
    do 2 f_equal. destruct s1 as [[] b k]. cbn in *. by subst. }
  destruct (release_run D S F c r s a Hh Ha) as (k' & E & Hk'). exists k'. split; [|done].
  unfold Semaphore_V_handler. mrun (Hc s Hl). mrun E.
  by mrun (Hc (on_rest (fun _ => k') s) Hl).
Qed.

Lemma kernel_call_devices {X} `{!Lens Machine X} D sem t rand S F c r :
  sem ∈ D -> 0 <= rand ->
  Devices (X := Kernel X) (kernel_call sem t rand) (ret tt) (2 * TimerTicks) (handler_inv S F D c r).
Proof.
  intros Hsem Hr. constructor; [done| |].
  2: { intros s Hs. exists (rest s). split; [by destruct s|done]. }
  intros h a s Hi Hl Hin H0 Hh HI.
  destruct h; cbn [kernel_call]; try (exists s; split; [done|]; split; [|done];
    pose proof (frame_refl s (rest s) Hi) as Hf; by destruct s).
  - destruct (TimerExpired_run t rand s Hr Hi Hin H0 Hh) as (g & E & Hd). by exists (on_intr g s).
  - destruct (V_handler_run S F D c r sem s Hl HI Hsem) as (k' & E & Hk').
    exists (on_rest (fun _ => k') s). split; [done|]. split; [by apply frame_refl|done].
Qed.

(** ** Safety *)

Section Safety.
Context {X : Type} `{!Lens Machine X}.
Context (call : VoidFunctionPtr -> Z -> M (Sim (Kernel X)) unit).
Context (DL : M (Sim (Kernel X)) unit) (code : loc -> prog (Sim (Kernel X)) unit).
Context (horizon : Z) (D : gset loc).

(** C1: the threads run safely: started by a program that forks threads, yields,
    waits for and signals semaphores, whatever interrupts arrive and whenever
    they force a switch, the kernel never fails an ASSERT and never follows a
    dangling pointer: every step succeeds or halts the machine. And no thread is
    lost: at each SWITCH the kernel is well formed, and every thread that exists
    is the next one, which is the current one and the only one running; or it is
    on the ready list or in the queue of a semaphore, and has a continuation; or
    it was just created and not forked yet; or it has finished: all it would do
    with the CPU is return from Scheduler::Run for the last time. *)
Theorem Threads_safe (body : prog (Sim (Kernel X)) unit) s t c :
  (forall S F c r, Devices call DL horizon (handler_inv S F D c r)) ->
  client call DL D body -> running D IntOff ∅ ∅ t s ->
  reaches call DL code horizon (mkConfig (ThreadRoot call DL body) ∅ s) c ->
  in_range horizon (state c) ->
  (step call DL code c = Halted \/ exists c', step call DL code c = Ok c') /\
  forall old new k, cpu c = Switch old new k ->
    kernel_wf (rest (state c)) /\ currentThread (rest (state c)) = new /\
    (forall u, status_of (rest (state c)) u = Some RUNNING <-> u = new) /\
    forall u st, status_of (rest (state c)) u = Some st ->
      u = new \/
      (active (rest (state c)) u /\ is_Some (<[old := k]> (saved c) !! u)) \/
      st = JUST_CREATED \/
      <[old := k]> (saved c) !! u = Some at_end.
Proof.
  intros HD Hbody Hrun Hc Hr.
  destruct (reaches_good call DL code horizon D (HD := HD) _ c
    (boot_good call DL code horizon D (HD := HD) body s t Hbody Hrun) Hc 1%nat) as (S & F & Hg & HS & HF).
  split.
  { destruct (step_good call DL code horizon D (HD := HD) 0 S F c (conj Hg (conj HS HF)) Hr) as [?|(c' & _ & _ & ? & _)];
      [by left|right; by exists c']. }
  intros old new k Ek. cbn [good] in Hg. specialize (Hg Hr). rewrite Ek in Hg.
  destruct Hg as (Hold & S1 & F1 & Hin & [_ [Hwf Hact Halive _ Hcur _ Hmode Hacc]] & Hk).
  split; [done|]. split; [done|]. split.
  { intros u. split; [|by intros ->]. intros Hu. rewrite <- Hcur. by apply (k_running _ Hwf). }
  intros u st Hu. destruct (Hacc u st Hu) as [?|[HuS|[HuF|?]]]; [by left| |right; right; right|by right; right; left].
  - destruct (Halive u HuS) as [_ [Ha|Hj]]; [|right; right; left; congruence]. right. left. split; [done|].
    destruct (decide (u = old)) as [->|Hne]; [by rewrite lookup_insert_eq|rewrite lookup_insert_ne by done].
    assert (u ∈ S) as HuS' by (destruct Hk as [(-> & _)|(-> & _)]; set_solver).
    destruct (HS u HuS') as (p & Hp & _). by exists p.
  - apply elem_of_difference in HuF as [HuF _].
    destruct (decide (u = old)) as [->|Hne].
    + rewrite lookup_insert_eq. destruct Hk as [(_ & _ & ->)|(_ & -> & _)]; [done|set_solver].
    + rewrite lookup_insert_ne by done. apply HF. destruct Hk as [(_ & -> & _)|(_ & -> & _)]; set_solver.
Qed.
End Safety.

(** A kernel after Initialize: the main thread runs, one semaphore exists. *)
Definition small_machine : Machine :=
  mkMachine [] (replicate (Z.to_nat NumTotalRegs) 0) None None 0 empty false 0.
Definition main_thread : Thread := mkThread [] None RUNNING (replicate (Z.to_nat NumTotalRegs) 0) None.
Definition boot_kernel (v : Z) (out : list (Z * Z)) : Kernel (Machine * list (Z * Z)) :=
  mkKernel {[ 0%nat := main_thread ]} [] 0%nat None {[ 0%nat := mkSem (Lit []) v [] ]} empty (small_machine, out).
Definition boot (v : Z) : Sim (Kernel (Machine * list (Z * Z))) :=
  mkSim Interrupt_new Statistics_new (boot_kernel v []).

(** No thread calls through a pointer. *)
Definition no_code {K} : loc -> prog K unit := fun _ => Ret tt.

Lemma boot_running v : running {[ 0%nat ]} IntOff ∅ ∅ 0%nat (boot v).
Proof.
  assert (forall u, status_of (boot_kernel v []) u = if decide (u = 0%nat) then Some RUNNING else None) as Hst.
  { intros u. unfold status_of. cbn [boot_kernel threads]. case_decide as H.
    - subst u. by rewrite lookup_singleton_eq.
    - by rewrite lookup_singleton_ne. }
  assert (forall a u, ~ waiting (boot_kernel v []) a u) as Hw.
  { intros a u (sm & Ha & Hu). cbn in Ha. apply lookup_singleton_Some in Ha as [_ <-]. by apply not_elem_of_nil in Hu. }
  split; [by repeat constructor|]. constructor.
  - constructor; try done.
    + constructor.
    + intros u. rewrite Hst. cbn. rewrite elem_of_nil. case_decide; naive_solver.
    + intros a u Hu. by destruct (Hw a u).
    + intros a sm Ha. cbn in Ha. apply lookup_singleton_Some in Ha as [_ <-]. constructor.
    + intros a b u Hu. by destruct (Hw a u).
    + intros u. rewrite Hst. by case_decide.
    + intros u th Hu. cbn in Hu. apply lookup_singleton_Some in Hu as [_ <-]. split; [by left|]. by split.
  - intros u [Hu|[b Hu]]; [|by destruct (Hw b u)]. rewrite Hst in Hu. by case_decide.
  - intros u Hu. set_solver.
  - intros a ->%elem_of_singleton. cbn. by eexists.
  - done.
  - cbn. by eexists.
  - by rewrite Hst.
  - intros u st. rewrite Hst. case_decide; [by left|done].
Qed.

Lemma Threads_safe_witness :
  let call := kernel_call 0%nat (mkTimer false) 0 in
  exists c', step call (ret tt) no_code (mkConfig (ThreadRoot call (ret tt) (Semaphore_P call (ret tt) 0%nat ;~ Ret tt)) ∅ (boot 1))
    = Ok c'.
Proof.
  intros call.
  destruct (Threads_safe call (ret tt) no_code (2 * TimerTicks) {[ 0%nat ]}
    (Semaphore_P call (ret tt) 0%nat ;~ Ret tt) (boot 1) 0%nat
    (mkConfig (ThreadRoot call (ret tt) (Semaphore_P call (ret tt) 0%nat ;~ Ret tt)) ∅ (boot 1)))
    as [[Hh|Hc] _].
  - intros S F c r. apply kernel_call_devices; [by apply elem_of_singleton|done].
  - apply client_P; [by apply elem_of_singleton|constructor].
  - apply boot_running.
  - constructor.
  - split; [reflexivity|constructor].
  - discriminate Hh.
  - exact Hc.
Defined.

(** ** Semaphores *)

Section Semaphores.
Context {X : Type} `{!Lens Machine X}.
Context (call : VoidFunctionPtr -> Z -> M (Sim (Kernel X)) unit) (DL : M (Sim (Kernel X)) unit).
Context (code : loc -> prog (Sim (Kernel X)) unit).
Abbreviation run := (run call DL code).

Lemma run_op {A} n (m : M (Sim (Kernel X)) A) f sv s b s' :
  m s = Ok (b, s') ->
  run (S n) (mkConfig (pbind (op m) f) sv s) = run n (mkConfig (f b) sv s').
Proof. intros E. cbn. unfold step. cbn. by rewrite E. Qed.

Lemma run_until {A B} n (m : M (Sim (Kernel X)) (option A)) body (k : A -> prog (Sim (Kernel X)) B)
    f sv s r s' :
  m s = Ok (r, s') ->
  run (S n) (mkConfig (pbind (Until m body k) f) sv s) =
  run n (mkConfig (match r with
                   | Some b => pbind (k b) f
                   | None => body ;~ Until m body (fun b => pbind (k b) f)
                   end) sv s').
Proof. intros E. cbn. unfold step. cbn. by rewrite E. Qed.

Lemma run_off n lv s f sv :
  level (intr s) = lv ->
  run (S n) (mkConfig (pbind (SetLevel IntOff) f) sv s) =
  run n (mkConfig (f lv) sv (on_intr (set_level IntOff) s)).
Proof.
  intros Hl. unfold SetLevel. rewrite pbind_assoc.
  rewrite (run_op n (change_level IntOff) _ sv s lv (on_intr (set_level IntOff) s)).
  - cbn [pbind]. by rewrite bool_decide_false.
  - unfold change_level. munfold. by rewrite Hl.
Qed.

(** P: when the value is not zero the thread takes one and goes on, without
    giving the CPU up, to restore the interrupt level; when it is zero the
    thread becomes the last of the queue, is blocked, and looks for another
    thread to run. Nothing else changes. A negative value, which the
    constructor does not exclude, never makes anyone wait. *)
Theorem Semaphore_P_takes_or_waits s a sm t th lv p sv :
  semaphores (rest s) !! a = Some sm -> currentThread (rest s) = t ->
  threads (rest s) !! t = Some th -> level (intr s) = lv ->
  let s1 := on_intr (set_level IntOff) s in
  exists n, if decide (value sm = 0) then
    exists k, run n (mkConfig (Semaphore_P call DL a ;~ p) sv s) =
      Ok (mkConfig (Until Scheduler_FindNextToRun (op (Interrupt_Idle call DL)) k) sv
        (on_rest (fun k => set_threads (<[t := Thread_setStatus BLOCKED th]> (threads k))
           (set_semaphores (<[a := mkSem (sem_name sm) 0 (queue sm ++ [t])]> (semaphores k)) k)) s1))
  else run n (mkConfig (Semaphore_P call DL a ;~ p) sv s) =
    Ok (mkConfig (SetLevel lv ;~ p) sv
      (on_rest (fun k => set_semaphores (<[a := mkSem (sem_name sm) (i32 (value sm - 1)) (queue sm)]>
         (semaphores k)) k) s1)).
Proof.
  intros Ha Hc Ht Hl s1. unfold Semaphore_P. rewrite pbind_assoc. case_decide as Hv.
  - exists 5%nat. eexists. rewrite (run_off 4 lv s _ sv Hl). fold s1.
    rewrite (run_until 3 _ _ _ _ sv s1 None s1).
    2: { mrun (get_semaphore_run s1 a sm Ha). by rewrite Hv. }
    rewrite pbind_assoc. set (s2 := on_rest (fun k => set_semaphores
      (<[a := mkSem (sem_name sm) (value sm) (queue sm ++ [t])]> (semaphores k)) k) s1).
    rewrite (run_op 2 _ _ sv s1 tt s2).
    2: { mrun (get_semaphore_run s1 a sm Ha). unfold kernel. munfold. cbn [rest on_intr s1]. by rewrite Hc. }
    rewrite pbind_assoc. rewrite (run_op 1 _ _ sv s2 t s2).
    2: { unfold kernel. munfold. cbn. by rewrite Hc. }
    unfold Thread_Sleep. rewrite pbind_assoc.
    rewrite (run_op 0 _ _ sv s2 tt (on_rest (set_threads (<[t := Thread_setStatus BLOCKED th]> (threads (rest s2)))) s2)).
    + cbn [pbind Threads.run]. rewrite <- Hv. reflexivity.
    + exact (Sleep_blocks s2 t th Hc eq_refl Ht).
  - exists 3%nat. rewrite (run_off 2 lv s _ sv Hl). fold s1.
    rewrite (run_until 1 _ _ _ _ sv s1 (Some tt) s1).
    2: { mrun (get_semaphore_run s1 a sm Ha). by rewrite (proj2 (Z.eqb_neq _ _)) by done. }
    rewrite pbind_assoc.
    rewrite (run_op 0 _ _ sv s1 tt (on_rest (fun k => set_semaphores
      (<[a := mkSem (sem_name sm) (i32 (value sm - 1)) (queue sm)]> (semaphores k)) k) s1)).
    2: { by mrun (get_semaphore_run s1 a sm Ha). }
    cbn [Threads.run]. by rewrite pbind_assoc.
Qed.

(** V: the value goes up by one, and the thread that waited longest, if one
    waits, leaves the queue and is put at the end of the ready list; the
    caller keeps the CPU. *)
Theorem Semaphore_V_wakes_first s a sm lv p sv :
  semaphores (rest s) !! a = Some sm -> level (intr s) = lv ->
  (forall t, t ∈ queue sm -> is_Some (threads (rest s) !! t)) ->
  exists n s', run n (mkConfig (Semaphore_V a ;~ p) sv s) = Ok (mkConfig (SetLevel lv ;~ p) sv s') /\
    semaphores (rest s') =
      <[a := mkSem (sem_name sm) (i32 (value sm + 1)) (tail (queue sm))]> (semaphores (rest s)) /\
    readyList (rest s') = readyList (rest s) ++ take 1 (queue sm) /\
    currentThread (rest s') = currentThread (rest s) /\
    forall t, status_of (rest s') t =
      if decide (head (queue sm) = Some t) then Some READY else status_of (rest s) t.
Proof.
  intros Ha Hl Hq. exists 2%nat. set (s1 := on_intr (set_level IntOff) s).
  unfold Semaphore_V. rewrite pbind_assoc, (run_off 1 lv s _ sv Hl). fold s1. rewrite pbind_assoc.
  assert (exists s', release a s1 = Ok (tt, s') /\
    semaphores (rest s') =
      <[a := mkSem (sem_name sm) (i32 (value sm + 1)) (tail (queue sm))]> (semaphores (rest s)) /\
    readyList (rest s') = readyList (rest s) ++ take 1 (queue sm) /\
    currentThread (rest s') = currentThread (rest s) /\
    forall t, status_of (rest s') t =
      if decide (head (queue sm) = Some t) then Some READY else status_of (rest s) t) as (s' & E & HQ).
  { unfold release. mrun (get_semaphore_run s1 a sm Ha). destruct (queue sm) as [|u q] eqn:Eq.
    - rewrite (bind_Ok (ret tt) _ s1 tt s1) by done. mrun (get_semaphore_run s1 a sm Ha).
      eexists. split; [reflexivity|]. rewrite Eq. split; [done|]. split; [symmetry; apply app_nil_r|]. done.
    - destruct (Hq u) as [th Ht]; [by left|]. rewrite <- bind_assoc.
      rewrite (bind_Ok _ _ _ _ _ (put_semaphore_run s1 a (mkSem (sem_name sm) (value sm) q))).
      set (s2 := on_rest _ s1). mrun (ReadyToRun_run s2 u th Ht). set (s3 := on_rest _ s2).
      assert (semaphores (rest s3) !! a = Some (mkSem (sem_name sm) (value sm) q)) as Ha3 by apply lookup_insert_eq.
      mrun (get_semaphore_run s3 a _ Ha3). eexists. split; [reflexivity|].
      split; [unfold s3, s2; cbn; by rewrite insert_insert_eq|]. split; [done|]. split; [done|].
      intros t. unfold status_of. cbn [rest on_rest put_semaphore threads set_semaphores s3 s2 s1 make_ready
        set_readyList set_threads on_intr]. cbn [head].
      destruct (decide (u = t)) as [<-|Hne]; [by rewrite lookup_insert_eq, decide_True|].
      rewrite lookup_insert_ne by done. rewrite decide_False by congruence. done. }
  rewrite (run_op 0 (release a) _ sv s1 tt s') by exact E.
  exists s'. split; [|done]. cbn [Threads.run]. by rewrite pbind_assoc.
Qed.
End Semaphores.

Lemma Semaphore_P_takes_or_waits_witness :
  exists n s' k, run (fun _ _ => ret tt) (ret tt) no_code n
      (mkConfig (Semaphore_P (fun _ _ => ret tt) (ret tt) 0%nat ;~ Ret tt) ∅ (boot 0)) =
    Ok (mkConfig (Until Scheduler_FindNextToRun (op (Interrupt_Idle (fun _ _ => ret tt) (ret tt))) k) ∅ s') /\
    status_of (rest s') 0%nat = Some BLOCKED.
Proof.
  destruct (Semaphore_P_takes_or_waits (fun _ _ => ret tt) (ret tt) no_code (boot 0) 0%nat (mkSem (Lit []) 0 []) 0%nat
    main_thread IntOff (Ret tt) ∅ eq_refl eq_refl eq_refl eq_refl) as [n [k E]].
  exists n. eexists. exists k. split; [exact E|]. reflexivity.
Defined.

Lemma Semaphore_V_wakes_first_witness :
  exists n s', run (fun _ _ => ret tt) (ret tt) no_code n (mkConfig (Semaphore_V 0%nat ;~ Ret tt) ∅ (boot 0)) =
    Ok (mkConfig (SetLevel IntOff ;~ Ret tt) ∅ s').
Proof.
  destruct (Semaphore_V_wakes_first (fun _ _ => ret tt) (ret tt) no_code (boot 0) 0%nat (mkSem (Lit []) 0 [])
    IntOff (Ret tt) ∅ eq_refl eq_refl) as (n & s' & E & _).
  - intros t Ht. by apply not_elem_of_nil in Ht.
  - exists n, s'. exact E.
Defined.
