(* ===== verification/ThreadsRuns.v ===== *)
(** * Runs of the threads

    The registers of a user program across a context switch, the thread test
    (threads/threadtest.cc) run to its end, what becomes of the carcass of a
    finished thread, and the synchronised list over the dummy locks. *)

From stdpp Require Import base tactics list numbers gmap.
From S2P Require Import Prelude Lists Interrupt Machine BitMap AddrSpace Threads ThreadsInv ThreadsSafe ThreadsSpec.

Local Open Scope Z_scope.

(** ** User registers across a context switch *)

Section Switch.
Context {X : Type} `{!Lens Machine X}.
Implicit Types s : Sim (Kernel X).

Definition cpu_of s : Machine := lget (user (rest s)).

(** What Run leaves behind when it gives the CPU to another thread. *)
Lemma leave_user_thread s t th a sp :
  threads (rest s) !! t = Some th -> thread_space th = Some a -> spaces (rest s) !! a = Some sp ->
  thread_ok (rest s) th -> zlength (registers (cpu_of s)) = NumTotalRegs ->
  leave_thread t s = Ok (tt, with_registers t th (registers (cpu_of s)) s).
Proof.
  intros Ht Es Ha (Hst & Hrg & _) Hr. unfold leave_thread. mrun (get_thread_run s t th Ht). rewrite Es.
  rewrite <- bind_assoc. unfold cpu_of in *. mrun (SaveUserState_run s t th Ht Hrg Hr).
  set (s1 := with_registers t th _ s).
  mrun (on_cpu_run AddrSpace_SaveState s1 tt (lget (user (rest s1))) eq_refl).
  rewrite lset_lget, set_user_id.
  apply (CheckOverflow_run s1 t (set_userRegisters (registers (lget (user (rest s)))) th) (lookup_insert_eq _ _ _)).
  split; [exact Hst|]. split; [exact Hr|]. cbn. rewrite Es. intros b [= <-]. by exists sp.
Qed.

Lemma resume_user_thread s t th a sp :
  currentThread (rest s) = t -> threadToBeDestroyed (rest s) = None ->
  threads (rest s) !! t = Some th -> thread_space th = Some a -> spaces (rest s) !! a = Some sp ->
  zlength (userRegisters th) = NumTotalRegs -> zlength (registers (cpu_of s)) = NumTotalRegs ->
  resume_thread s = Ok (tt, on_rest (set_user (lset
    (set_pageTable (space_pageTable sp) (numPages sp) (set_registers (userRegisters th) (cpu_of s)))
    (user (rest s)))) s).
Proof.
  intros Hc Hd Ht Es Ha Hrg Hr. unfold resume_thread, cpu_of in *.
  assert (kernel threadToBeDestroyed s = Ok (None, s)) as E1 by (unfold kernel; munfold; by rewrite Hd).
  assert (kernel currentThread s = Ok (t, s)) as E2 by (unfold kernel; munfold; by rewrite Hc).
  mrun E1. rewrite (bind_Ok (ret tt) _ s tt s) by done. mrun E2. mrun (get_thread_run s t th Ht). rewrite Es.
  mrun (RestoreUserState_run s t th Ht Hrg Hr). set (s2 := on_rest _ s). mrun (get_space_run s2 a sp Ha).
  rewrite (on_cpu_run (AddrSpace_RestoreState sp) s2 tt _ eq_refl).
  unfold s2. rewrite on_rest_twice. do 2 f_equal. unfold on_rest. cbn. f_equal.
  rewrite lget_lset, lset_lset. by destruct (rest s).
Qed.

(** C34: a context switch is invisible to a user program: whatever the other
    threads did to the machine and to the kernel meanwhile, as long as this
    thread's control block and address space are kept, the thread finds the
    registers it had, and its own page table, when it runs again; the memory
    and everything else of the machine is what the others left. *)
Theorem switch_restores_user_state s t th a sp :
  threads (rest s) !! t = Some th -> thread_space th = Some a -> spaces (rest s) !! a = Some sp ->
  thread_ok (rest s) th -> zlength (registers (cpu_of s)) = NumTotalRegs ->
  exists s1 th1, leave_thread t s = Ok (tt, s1) /\ threads (rest s1) !! t = Some th1 /\
    forall s2 st, currentThread (rest s2) = t -> threadToBeDestroyed (rest s2) = None ->
      threads (rest s2) !! t = Some (Thread_setStatus st th1) -> spaces (rest s2) !! a = Some sp ->
      zlength (registers (cpu_of s2)) = NumTotalRegs ->
      exists s3, resume_thread s2 = Ok (tt, s3) /\
        cpu_of s3 = set_pageTable (space_pageTable sp) (numPages sp)
                      (set_registers (registers (cpu_of s)) (cpu_of s2)) /\
        threads (rest s3) = threads (rest s2) /\ readyList (rest s3) = readyList (rest s2) /\
        semaphores (rest s3) = semaphores (rest s2).
Proof.
  intros Ht Es Ha Hok Hr. eexists _, _. split; [exact (leave_user_thread s t th a sp Ht Es Ha Hok Hr)|].
  split; [apply lookup_insert_eq|]. intros s2 st Hc Hd Ht2 Ha2 Hr2. eexists.
  split; [exact (resume_user_thread s2 t _ a sp Hc Hd Ht2 Es Ha2 Hr Hr2)|].
  split; [|done]. unfold cpu_of. cbn [user rest on_rest set_user]. by rewrite lget_lset.
Qed.
End Switch.

(** A user thread among others: thread 1, with a page table of one page, gives
    the CPU to thread 0, which is in the kernel, and gets it back. *)
Definition user_thread : Thread :=
  mkThread [] (Some STACK_FENCEPOST) RUNNING (replicate (Z.to_nat NumTotalRegs) 0) (Some 0%nat).
Definition user_space : AddrSpace := mkSpace (Some 5%nat) 1.
Definition user_machine : Machine :=
  mkMachine [] (map Z.of_nat (seq 0 (Z.to_nat NumTotalRegs))) None None 0 empty false 0.
Definition user_boot : Sim (Kernel (Machine * list (Z * Z))) :=
  mkSim Interrupt_new Statistics_new
    (mkKernel {[ 0%nat := main_thread; 1%nat := user_thread ]} [0%nat] 1%nat None empty
       {[ 0%nat := user_space ]} (user_machine, [])).

Lemma switch_restores_user_state_witness :
  exists s1 s2 s3, leave_thread 1%nat user_boot = Ok (tt, s1) /\
    s2 = on_rest (set_user (small_machine, [])) s1 /\
    resume_thread s2 = Ok (tt, s3) /\ registers (cpu_of s3) = map Z.of_nat (seq 0 40).
Proof.
  destruct (switch_restores_user_state user_boot 1%nat user_thread 0%nat user_space)
    as (s1 & th1 & E1 & Ht1 & H).
  - reflexivity.
  - reflexivity.
  - reflexivity.
  - split; [by right|]. split; [done|]. intros a [= <-]. by eexists.
  - done.
  - assert (s1 = with_registers 1%nat user_thread (registers user_machine) user_boot) as ->.
    { assert (leave_thread 1%nat user_boot =
        Ok (tt, with_registers 1%nat user_thread (registers user_machine) user_boot)) as E2 by (vm_compute; done).
      congruence. }
    injection Ht1 as <-.
    destruct (H (on_rest (set_user (small_machine, [])) (with_registers 1%nat user_thread (registers user_machine) user_boot)) RUNNING)
      as (s3 & E3 & Hcpu & _); [reflexivity..|].
    eexists _, _, s3. split; [exact E1|]. split; [reflexivity|]. split; [exact E3|]. by rewrite Hcpu.
Defined.

(** ** The thread test *)

(** printf: what SimpleThread prints, as pairs (which, num). *)
Definition print_pair (which num : Z) : M (Sim (Kernel (Machine * list (Z * Z)))) unit :=
  on_user (modify (fun x => (x.1, x.2 ++ [(which, num)]))).

Definition no_call : VoidFunctionPtr -> Z -> M (Sim (Kernel (Machine * list (Z * Z)))) unit := fun _ _ => ret tt.

(** The end of Initialize, ThreadTest and the end of main. *)
Definition test_main : prog (Sim (Kernel (Machine * list (Z * Z)))) unit :=
  Enable ;~ ThreadTest no_call (ret tt) print_pair 1 (replicate (Z.to_nat NumTotalRegs) 0) ;~
  ThreadFinish no_call (ret tt).

Definition test_boot : config := mkConfig test_main ∅ (boot 1).

(** What is observed of a run that got so far. *)
Definition observe {X A} (f : config (X := X) -> A) (o : outcome config) : option A :=
  match o with Ok c => Some (f c) | _ => None end.

(** The state in which the machine halts, when it does so within [fuel] steps. *)
Fixpoint last_state {X} `{!Lens Machine X} call DL code (fuel : nat) (c : config (X := X)) : option (config (X := X)) :=
  match fuel with
  | O => None
  | S n => match step call DL code c with
           | Ok c' => last_state call DL code n c'
           | Halted => Some c
           | _ => None
           end
  end.

Lemma last_state_run {X} `{!Lens Machine X} call DL code fuel (c c' : config (X := X)) :
  last_state call DL code fuel c = Some c' ->
  exists n, (n < fuel)%nat /\ run call DL code n c = Ok c' /\ run call DL code (S n) c = Halted.
Proof.
  revert c. induction fuel as [|fuel IH]; intros c H; [done|]. cbn [last_state] in H.
  destruct (step call DL code c) as [c1| | |] eqn:E; [|done| |done].
  - destruct (IH c1 H) as (n & Hn & E1 & E2). exists (S n). cbn in E2. cbn. rewrite E. cbn. auto with lia.
  - injection H as <-. exists 0%nat. cbn. rewrite E. auto with lia.
Qed.

(** The thread test plays ping-pong to its end: the main thread and the
    forked thread print in turns, five times each, beginning with the main
    thread; the first to finish is destroyed by the other, and when both have
    finished, no interrupt being pending, the machine halts. *)
Theorem ThreadTest_alternates :
  observe (fun c => ((user (rest (state c))).2, status_of (rest (state c)) 0%nat,
                     threadToBeDestroyed (rest (state c)), totalTicks (stats (state c))))
    (run no_call (ret tt) no_code 194 test_boot) =
  Some ([(0, 0); (1, 0); (0, 1); (1, 1); (0, 2); (1, 2); (0, 3); (1, 3); (0, 4); (1, 4)],
        None, Some 1%nat, 130) /\
  run no_call (ret tt) no_code 195 test_boot = Halted.
Proof. by vm_compute. Qed.

(** ** The carcass of a finished thread *)

Definition no_registers : list Z := replicate (Z.to_nat NumTotalRegs) 0.

(** The main thread forks a thread that yields and a thread that does nothing,
    and finishes. *)
Definition finish_main : prog (Sim (Kernel (Machine * list (Z * Z)))) unit :=
  Enable ;~
  c <~ op (Thread_new no_registers [99]) ;;
  Thread_Fork no_call (ret tt) c (Thread_Yield c) ;~
  b <~ op (Thread_new no_registers [98]) ;;
  Thread_Fork no_call (ret tt) b (Ret tt) ;~
  ThreadFinish no_call (ret tt).

Definition finish_boot : config := mkConfig finish_main ∅ (boot 1).

(** A thread that finishes when the next ready thread is new is not
    destroyed: the new thread begins at its root and not behind SWITCH, where
    Run destroys the carcass, and the next thread to finish overwrites
    threadToBeDestroyed. Here the main thread (0) finishes before the two
    threads it forked have begun; thread 2 finishes and is destroyed, and when
    thread 1 is the only one left the main thread is still there, on no list
    and to be destroyed by nobody. *)
Theorem finished_thread_leaks :
  observe (fun c => let k := rest (state c) in
      (currentThread k, status_of k 0%nat, status_of k 2%nat, readyList k, threadToBeDestroyed k,
       queue <$> semaphores k !! 0%nat))
    (run no_call (ret tt) no_code 62 finish_boot) =
  Some (1%nat, Some BLOCKED, None, [], None, Some []) /\
  observe (fun c => status_of (rest (state c)) 0%nat) (run no_call (ret tt) no_code 72 finish_boot) =
    Some (Some BLOCKED) /\
  run no_call (ret tt) no_code 73 finish_boot = Halted.
Proof. by vm_compute. Qed.

(** ** Synchronised lists over the dummy locks *)

Lemma SynchList_Append_run l xs it :
  represents l xs -> exists l', SynchList_Append it l = Ok (tt, l') /\ represents l' (xs ++ [(it, 0)]).
Proof.
  intros Hr. destruct (Append_run l xs it Hr) as (l' & E & Hr'). exists l'. split; [|done].
  unfold SynchList_Append, Lock_Acquire. rewrite (bind_Ok (ret tt) _ l tt l) by done. by mrun E.
Qed.

Lemma SynchList_Remove_step l x xs (m : M List Z) : represents l (x :: xs) ->
  (ret tt ;;; empty <- List_IsEmpty ;; (if empty : bool then Condition_Wait else ret tt) ;;; m) l = m l.
Proof. intros [ls Hrep]. rewrite (bind_Ok (ret tt) _ l tt l) by done. by mrun (IsEmpty_run l ls _ Hrep). Qed.

Lemma SynchList_Remove_run l x k xs : x <> 0 -> represents l ((x, k) :: xs) ->
  exists l', SynchList_Remove l = Ok (x, l') /\ represents l' xs.
Proof.
  intros Hx Hr. unfold SynchList_Remove, Lock_Acquire, Lock_Release.
  rewrite (SynchList_Remove_step l (x, k) xs) by done. destruct (Remove_run l _ Hr) as (l' & E & Hr').
  exists l'. split; [|done]. rewrite (bind_Ok _ _ _ _ _ E). cbn [fst]. by rewrite (proj2 (Z.eqb_neq x 0) Hx).
Qed.

(** Append and Remove of a synchronised list are those of a queue as long as
    it is not empty and no null pointer was put into it; Remove of an empty
    list does not wait, as it promises: it aborts in Condition::Wait. *)
Theorem SynchList_is_queue l xs it :
  represents l xs ->
  (exists l', SynchList_Append it l = Ok (tt, l') /\ represents l' (xs ++ [(it, 0)])) /\
  (xs = [] -> SynchList_Remove l = Aborted) /\
  (forall x k xs', xs = (x, k) :: xs' ->
     if decide (x = 0) then SynchList_Remove l = Aborted
     else exists l', SynchList_Remove l = Ok (x, l') /\ represents l' xs').
Proof.
  intros Hr. split; [by apply SynchList_Append_run|]. split.
  - intros ->. destruct Hr as [ls Hrep]. unfold SynchList_Remove, Lock_Acquire.
    rewrite (bind_Ok (ret tt) _ l tt l) by done. by mrun (IsEmpty_run l ls [] Hrep).
  - intros x k xs' ->. case_decide as Hx; [|by apply (SynchList_Remove_run l x k)].
    unfold SynchList_Remove, Lock_Acquire. rewrite (SynchList_Remove_step l (x, k) xs') by done.
    destruct (Remove_run l _ Hr) as (l' & E & _). rewrite (bind_Ok _ _ _ _ _ E). cbn [fst]. by rewrite Hx.
Qed.

Lemma SynchList_is_queue_witness :
  represents (SynchList_new empty 0%nat) [] /\ SynchList_Remove (SynchList_new empty 0%nat) = Aborted.
Proof.
  assert (represents (SynchList_new empty 0%nat) []) as Hr.
  { exact (empty_represents empty 0%nat). }
  split; [exact Hr|]. by apply (SynchList_is_queue (SynchList_new empty 0%nat) [] 1 Hr).
Defined.
