(* ===== verification/Exclusion.v ===== *)
(** * threads/synch.cc: what semaphores are for

    Critical sections between P and V of one semaphore exclude each other, in
    every run, whatever interrupts arrive. The proof counts tokens: a thread
    that has returned from P holds one until it calls V, and the value of the
    semaphore, the threads inside and the tokens held never exceed the initial
    value. *)

From stdpp Require Import base tactics list numbers gmap relations.
From S2P Require Import Prelude Lists Interrupt Machine AddrSpace Threads ThreadsInv ThreadsSafe ThreadsSpec.

Local Open Scope Z_scope.

Create HintDb spares.

Section Exclusion.
Context {X : Type} `{!Lens Machine X}.
Context (call : VoidFunctionPtr -> Z -> M (Sim (Kernel X)) unit).
Context (DL : M (Sim (Kernel X)) unit) (code : loc -> prog (Sim (Kernel X)) unit).
(** The semaphore, the number of threads inside a section it guards, and the
    initial value. *)
Context (sem : loc) (inside : X -> Z) (N : Z).
Abbreviation K := (Sim (Kernel X)).

Definition value_of (s : K) : Z := from_option value 0 (semaphores (rest s) !! sem).
Definition inside_of (s : K) : Z := inside (user (rest s)).
Definition total (s : K) : Z := value_of s + inside_of s.

(** ** Operations that leave both alone *)

Definition spares {A} (m : M K A) : Prop := forall s a s',
  m s = Ok (a, s') -> value_of s' = value_of s /\ inside_of s' = inside_of s.

Lemma spares_bind {A B} (m : M K A) (f : A -> M K B) :
  spares m -> (forall a, spares (f a)) -> spares (bind m f).
Proof.
  intros Hm Hf s b s' (a & s1 & E1 & E2)%bind_inv.
  destruct (Hm _ _ _ E1), (Hf _ _ _ _ E2). split; congruence.
Qed.

Lemma spares_ret {A} (a : A) : spares (ret a).
Proof. intros s b s' [= <- <-]. done. Qed.
Lemma spares_abort {A} : spares (A := A) abort.
Proof. done. Qed.
Lemma spares_halt {A} : spares (A := A) halt.
Proof. done. Qed.
Lemma spares_undef {A} : spares (A := A) undef.
Proof. done. Qed.
Lemma spares_get : spares get.
Proof. by intros s b s' [= <- <-]. Qed.
Lemma spares_gets {A} (f : K -> A) : spares (gets f).
Proof. by intros s b s' [= <- <-]. Qed.
Lemma spares_kernel {A} (f : Kernel X -> A) : spares (kernel f).
Proof. apply spares_gets. Qed.
Lemma spares_must {A} (o : option A) : spares (must o).
Proof. destruct o; [apply spares_ret|apply spares_undef]. Qed.
Lemma spares_ASSERT b : spares (ASSERT b).
Proof. destruct b; [apply spares_ret|apply spares_abort]. Qed.
Lemma spares_intr f : spares (modify (on_intr f)).
Proof. by intros s b s' [= <- <-]. Qed.
Lemma spares_stats f : spares (modify (on_stats f)).
Proof. by intros s b s' [= <- <-]. Qed.
Lemma spares_on_kernel f :
  (forall k, semaphores (f k) = semaphores k /\ user (f k) = user k) -> spares (on_kernel f).
Proof.
  intros Hf s b s' [= <- <-]. unfold value_of, inside_of. simpl. by destruct (Hf (rest s)) as [-> ->].
Qed.
Lemma spares_for lo n (body : Z -> M K unit) : (forall i, spares (body i)) -> spares (for_ lo n body).
Proof. intros Hb. revert lo. induction n as [|n IH]; intros lo; [apply spares_ret|by apply spares_bind]. Qed.
Lemma spares_while {A} n (a : A) (body : A -> M K (A * bool)) : (forall a, spares (body a)) -> spares (while_ n a body).
Proof.
  intros Hb. revert a. induction n as [|n IH]; intros a; [apply spares_ret|].
  apply spares_bind; [done|]. intros [a' []]; [apply IH|apply spares_ret].
Qed.

(** The machine is not the part of the state that counts. *)
Context (inside_machine : forall (m : Machine) x, inside (lset m x) = inside x).

Lemma spares_cpu {A} (m : M Machine A) : spares (on_cpu m).
Proof.
  intros s a s'. unfold on_cpu, on_user, zoom. destruct (m _) as [[b mm]| | |]; try done.
  intros [= <- <-]. unfold value_of, inside_of. simpl. by rewrite inside_machine.
Qed.

(** ** Kernel operations *)

#[local] Hint Resolve spares_ret spares_abort spares_halt spares_undef spares_get spares_gets spares_kernel
  spares_must spares_ASSERT spares_intr spares_stats spares_cpu : spares.

(** Walk through a sequence of operations. *)
Ltac spare :=
  repeat first
    [ solve [eauto 2 with spares]
    | match goal with
      | |- spares (bind _ _) => apply spares_bind; [|intros ?]
      | |- spares (on_kernel _) => apply spares_on_kernel; by intros []
      | |- spares (for_ _ _ _) => apply spares_for; intros ?
      | |- spares (while_ _ _ _) => apply spares_while; intros ?
      | |- spares (if ?b then _ else _) => destruct b
      | |- spares (match ?x with _ => _ end) => destruct x
      end ].

Lemma spares_get_thread t : spares (get_thread t).
Proof. unfold get_thread. spare. Qed.
Lemma spares_get_space t : spares (get_space t).
Proof. unfold get_space. spare. Qed.
Lemma spares_get_semaphore a : spares (get_semaphore a).
Proof. unfold get_semaphore. spare. Qed.
Hint Resolve spares_get_thread spares_get_space spares_get_semaphore : spares.
Lemma spares_update_thread t f : spares (update_thread t f).
Proof. unfold update_thread. spare. Qed.
Hint Resolve spares_update_thread : spares.

Lemma spares_change_level l : spares (change_level l).
Proof. unfold change_level, Interrupt_ChangeLevel. spare. Qed.
Lemma spares_ready t : spares (Scheduler_ReadyToRun t).
Proof. unfold Scheduler_ReadyToRun. spare. Qed.
Lemma spares_find : spares Scheduler_FindNextToRun.
Proof. unfold Scheduler_FindNextToRun. spare. Qed.
Lemma spares_leave t : spares (leave_thread t).
Proof.
  unfold leave_thread, Thread_SaveUserState, Thread_CheckOverflow. spare.
Qed.
Lemma spares_enter t : spares (enter_thread t).
Proof. unfold enter_thread. spare. Qed.
Lemma spares_resume : spares resume_thread.
Proof.
  unfold resume_thread, Thread_delete, Thread_RestoreUserState. spare.
Qed.
Lemma spares_new garbage name : spares (Thread_new garbage name).
Proof. unfold Thread_new. spare. Qed.
Hint Resolve spares_change_level spares_ready spares_find spares_leave spares_enter spares_resume spares_new : spares.

(** The handlers of the devices leave both alone: they signal other semaphores. *)
Context (spares_call : forall h a, spares (call h a)) (spares_DL : spares DL).
Hint Resolve spares_call spares_DL : spares.

Lemma spares_advance : spares advance_time.
Proof. unfold advance_time. spare. Qed.
Lemma spares_check b : spares (Interrupt_CheckIfDue call DL b).
Proof. unfold Interrupt_CheckIfDue, fire. spare. Qed.
Hint Resolve spares_advance spares_check : spares.
Lemma spares_fire_due : spares (fire_due call DL).
Proof. unfold fire_due. spare. Qed.
Hint Resolve spares_fire_due : spares.
Lemma spares_idle : spares (Interrupt_Idle call DL).
Proof. unfold Interrupt_Idle, Interrupt_Halt. spare. Qed.
Hint Resolve spares_idle : spares.

Lemma spares_put_other a sm : a <> sem -> spares (put_semaphore a sm).
Proof.
  intros Ha s b s' [= <- <-]. unfold value_of, inside_of. simpl. by rewrite lookup_insert_ne.
Qed.

(** ** Programs that hold tokens *)

(** What the thread that runs may assume, holding [n] tokens. *)
Definition bounded (n : nat) (s : K) : Prop := 0 <= value_of s /\ total s + Z.of_nat n <= N.

(** A step takes no more from the others than it gives. *)
Definition conserves (n : nat) (s : K) (n' : nat) (s' : K) : Prop :=
  0 <= value_of s' /\ total s' + Z.of_nat n' <= total s + Z.of_nat n.

(** [p], started with [n] tokens in [s], conserves them step by step; [Q] holds
    of its result, its tokens and its state. Where the CPU may be given away the
    state may be any other afterwards. *)
Fixpoint owns {A : Type} (p : prog K A) (Q : A -> nat -> K -> Prop) (n : nat) (s : K) {struct p} : Prop :=
  match p with
  | Ret a => Q a n s
  | Do m k => bounded n s -> forall b s', m s = Ok (b, s') ->
      exists n', conserves n s n' s' /\ owns (k b) Q n' s'
  | Until m body k => exists J : nat -> K -> Prop, J n s /\
      forall n s, J n s -> bounded n s -> forall r s', m s = Ok (r, s') ->
        exists n', conserves n s n' s' /\
          match r with
          | Some b => owns (k b) Q n' s'
          | None => owns body (fun _ => J) n' s'
          end
  | Tick k => forall s', owns k Q n s'
  | Switch _ _ k => forall s', owns k Q n s'
  | Spawn _ body k => (forall s', owns body (fun _ _ _ => True) 0 s') /\ owns k Q n s
  | Call _ k => forall s', owns k Q n s'
  end.

Lemma owns_mono {A : Type} (p : prog K A) (Q Q' : A -> nat -> K -> Prop) n s :
  (forall a n s, Q a n s -> Q' a n s) -> owns p Q n s -> owns p Q' n s.
Proof.
  intros HQ. revert n s. induction p as [a|A B m k IH|A B m body IHb k IH|A k IH|A o w k IH|A t body IHb k IH|A a k IH];
    intros n s; cbn [owns].
  - apply HQ.
  - intros H Hb b s' E. destruct (H Hb b s' E) as (n' & ? & ?). eauto.
  - intros (J & HJ & H). exists J. split; [done|]. intros n1 s1 H1 Hb r s' E.
    destruct (H n1 s1 H1 Hb r s' E) as (n' & ? & ?). exists n'. split; [done|]. destruct r; eauto.
  - eauto.
  - eauto.
  - intros [? ?]. eauto.
  - eauto.
Qed.

Lemma owns_bind {A B : Type} (p : prog K A) (f : A -> prog K B) (Q : B -> nat -> K -> Prop) n s :
  owns p (fun a => owns (f a) Q) n s -> owns (pbind p f) Q n s.
Proof.
  revert n s. induction p as [a|A C m k IH|A C m body IHb k IH|A k IH|A o w k IH|A t body IHb k IH|A a k IH];
    intros n s; cbn [owns pbind].
  - done.
  - intros H Hb b s' E. destruct (H Hb b s' E) as (n' & ? & ?). eauto.
  - intros (J & HJ & H). exists J. split; [done|]. intros n1 s1 H1 Hb r s' E.
    destruct (H n1 s1 H1 Hb r s' E) as (n' & ? & ?). exists n'. split; [done|]. destruct r; eauto.
  - eauto.
  - eauto.
  - intros [? ?]. eauto.
  - eauto.
Qed.

(** Tokens that are not touched. *)
Lemma owns_frame {A : Type} (p : prog K A) (Q : A -> nat -> K -> Prop) f n s :
  owns p Q n s -> owns p (fun a n' s' => exists m, n' = (m + f)%nat /\ Q a m s') (n + f) s.
Proof.
  revert n s. induction p as [a|A C m k IH|A C m body IHb k IH|A k IH|A o w k IH|A t body IHb k IH|A a k IH];
    intros n s; cbn [owns].
  - eauto.
  - intros H [H0 Hb] b s' E. assert (bounded n s) as Hn by (split; [done|lia]).
    destruct (H Hn b s' E) as (n' & [? ?] & ?).
    exists (n' + f)%nat. split; [split; [done|lia]|eauto].
  - intros (J & HJ & H). exists (fun n' s' => exists n0, n' = (n0 + f)%nat /\ J n0 s'). split; [eauto|].
    intros n1 s1 (n0 & -> & H1) [H0 Hb] r s' E.
    assert (bounded n0 s1) as Hn by (split; [done|lia]).
    destruct (H n0 s1 H1 Hn r s' E) as (n' & [? ?] & Hr).
    exists (n' + f)%nat. split; [split; [done|lia]|]. destruct r; [eauto|].
    exact (IHb (fun _ => J) _ _ Hr).
  - eauto.
  - eauto.
  - intros [? ?]. eauto.
  - eauto.
Qed.

(** ** Programs that take and give back no token *)

Definition neutral {A : Type} (p : prog K A) : Prop := forall n s, owns p (fun _ n' _ => n' = n) n s.

Lemma neutral_ret {A} (a : A) : neutral (Ret a).
Proof. done. Qed.
Lemma neutral_bind {A B} (p : prog K A) (f : A -> prog K B) :
  neutral p -> (forall a, neutral (f a)) -> neutral (pbind p f).
Proof.
  intros Hp Hf n s. apply owns_bind. eapply owns_mono; [|apply Hp].
  intros a ? s' ->. apply Hf.
Qed.
Lemma owns_do {A B} (m : M K B) (k : B -> prog K A) Q n s :
  spares m -> (forall b s', owns (k b) Q n s') -> owns (Do m k) Q n s.
Proof.
  intros Hm Hk [H0 _] b s' E. destruct (Hm _ _ _ E) as [Ev Ei]. exists n. split; [|done].
  unfold conserves, total. rewrite Ev, Ei. split; [done|lia].
Qed.
Lemma neutral_op {A} (m : M K A) : spares m -> neutral (op m).
Proof. intros Hm n s. by apply owns_do. Qed.
Lemma neutral_until {A B} (m : M K (option B)) body (k : B -> prog K A) :
  spares m -> neutral body -> (forall b, neutral (k b)) -> neutral (Until m body k).
Proof.
  intros Hm Hb Hk n s. exists (fun n' _ => n' = n). split; [done|].
  intros n1 s1 -> [H0 _] r s' E. destruct (Hm _ _ _ E) as [Ev Ei]. exists n.
  split; [unfold conserves, total; rewrite Ev, Ei; split; [done|lia]|].
  destruct r; [apply Hk|apply Hb].
Qed.
Lemma neutral_tick {A} (k : prog K A) : neutral k -> neutral (Tick k).
Proof. intros Hk n s s'. apply Hk. Qed.
Lemma neutral_switch {A} o w (k : prog K A) : neutral k -> neutral (Switch o w k).
Proof. intros Hk n s s'. apply Hk. Qed.
Lemma neutral_spawn {A} t body (k : prog K A) : neutral body -> neutral k -> neutral (Spawn t body k).
Proof. intros Hb Hk n s. split; [|apply Hk]. intros s'. eapply owns_mono; [|apply Hb]. done. Qed.
Hint Resolve neutral_ret neutral_op neutral_tick neutral_switch neutral_spawn : spares.

(** A sequence of programs that are neutral. *)
Ltac neutrals :=
  repeat first
    [ solve [eauto 3 with spares]
    | match goal with
      | |- neutral (pbind _ _) => apply neutral_bind; [|intros ?]
      | |- neutral (op _) => apply neutral_op; spare
      | |- neutral (Tick _) => apply neutral_tick
      | |- neutral (Switch _ _ _) => apply neutral_switch
      | |- neutral (Until _ _ _) => apply neutral_until; [spare| |intros ?]
      | |- neutral (if ?b then _ else _) => destruct b
      | |- neutral (match ?x with _ => _ end) => destruct x
      end ].

Lemma neutral_SetLevel l : neutral (SetLevel l).
Proof. unfold SetLevel, ptick. neutrals. Qed.
Hint Resolve neutral_SetLevel : spares.
Lemma neutral_Run t : neutral (Scheduler_Run t).
Proof. unfold Scheduler_Run. neutrals. Qed.
Hint Resolve neutral_Run : spares.
Lemma neutral_Yield t : neutral (Thread_Yield t).
Proof. unfold Thread_Yield. neutrals. Qed.
Lemma neutral_Sleep t : neutral (Thread_Sleep call DL t).
Proof. unfold Thread_Sleep. neutrals. Qed.
Hint Resolve neutral_Yield neutral_Sleep : spares.
Lemma neutral_Finish : neutral (ThreadFinish call DL).
Proof. unfold ThreadFinish, Thread_Finish. neutrals. Qed.
Hint Resolve neutral_Finish : spares.
Lemma neutral_Root body : neutral body -> neutral (ThreadRoot call DL body).
Proof. intros Hb. unfold ThreadRoot, InterruptEnable, Enable. neutrals. Qed.
Hint Resolve neutral_Root : spares.
Lemma neutral_Fork t body : neutral body -> neutral (Thread_Fork call DL t body).
Proof. intros Hb. unfold Thread_Fork, Thread_StackAllocate. neutrals. Qed.
Lemma neutral_OneTick : neutral (OneTick call DL).
Proof. unfold OneTick, Interrupt_ChangeLevel. neutrals. Qed.
Lemma neutral_V a : a <> sem -> neutral (Semaphore_V a).
Proof.
  intros Ha. pose proof (fun sm => spares_put_other a sm Ha). unfold Semaphore_V, release. neutrals.
Qed.
Lemma neutral_P a : a <> sem -> neutral (Semaphore_P call DL a).
Proof.
  intros Ha. pose proof (fun sm => spares_put_other a sm Ha). unfold Semaphore_P. neutrals.
Qed.

(** ** P takes a token, V gives it back *)

Lemma get_semaphore_inv s sm s' :
  get_semaphore sem s = Ok (sm, s') -> s' = s /\ semaphores (rest s) !! sem = Some sm /\ value_of s = value sm.
Proof.
  unfold get_semaphore, kernel, value_of. munfold. destruct (semaphores (rest s) !! sem); [|discriminate].
  by intros [= <- <-].
Qed.

Lemma put_semaphore_value sm s :
  exists s', put_semaphore sem sm s = Ok (tt, s') /\ value_of s' = value sm /\ inside_of s' = inside_of s.
Proof.
  eexists. split; [done|]. unfold value_of, inside_of. simpl. by rewrite lookup_insert_eq.
Qed.

(** Changing the semaphore by [f] changes its value as [f] does. *)
Lemma change_semaphore (f : Semaphore -> M K Semaphore) s u s' :
  (forall sm, spares (f sm)) ->
  bind (get_semaphore sem) (fun sm => bind (f sm) (put_semaphore sem)) s = Ok (u, s') ->
  exists sm sm' s1, value_of s = value sm /\ f sm s = Ok (sm', s1) /\ value_of s' = value sm' /\ inside_of s' = inside_of s.
Proof.
  intros Hf (sm & s0 & (-> & _ & Hv)%get_semaphore_inv & (sm' & s1 & E1 & E2)%bind_inv)%bind_inv.
  destruct (put_semaphore_value sm' s1) as (s2 & E3 & H1 & H2).
  assert (s' = s2) as -> by (destruct u; congruence).
  exists sm, sm', s1. destruct (Hf sm _ _ _ E1) as [_ Hi]. split_and!; congruence.
Qed.

Lemma spares_enqueue : spares (s <- get_semaphore sem ;; c <- kernel currentThread ;;
  put_semaphore sem (mkSem (sem_name s) (value s) (queue s ++ [c]))).
Proof.
  intros s u s' E. destruct (change_semaphore (fun sm => c <- kernel currentThread ;;
    ret (mkSem (sem_name sm) (value sm) (queue sm ++ [c]))) s u s') as (sm & sm' & s1 & Hv & [= <- <-] & Hv' & Hi).
  { intros sm. spare. } { exact E. }
  split; [by rewrite Hv', Hv|done].
Qed.

Lemma neutral_wait : neutral (op (s <- get_semaphore sem ;; c <- kernel currentThread ;;
    put_semaphore sem (mkSem (sem_name s) (value s) (queue s ++ [c]))) ;~
  c <~ op (kernel currentThread) ;; Thread_Sleep call DL c).
Proof. apply neutral_bind; [apply neutral_op, spares_enqueue|]. intros []. neutrals. Qed.

Lemma total_value s s' d : value_of s' = value_of s + d -> inside_of s' = inside_of s -> total s' = total s + d.
Proof. unfold total. lia. Qed.

Context (inside_nonneg : forall x, 0 <= inside x) (N_int : N < 2 ^ 31).

Lemma bounded_value n s : bounded n s -> 0 <= value_of s <= N - Z.of_nat n.
Proof. intros [H0 Hb]. unfold total, inside_of in *. specialize (inside_nonneg (user (rest s))). lia. Qed.

Lemma P_token n s : owns (Semaphore_P call DL sem) (fun _ n' _ => n' = S n) n s.
Proof.
  unfold Semaphore_P. apply owns_bind. eapply owns_mono; [|apply neutral_SetLevel].
  intros old n0 s0 ->. cbn [owns]. exists (fun n' _ => n' = n). split; [done|].
  intros n1 s1 -> Hb r s2 (sm & s2' & (-> & Hsm & Hv)%get_semaphore_inv & [= <- ->])%bind_inv.
  exists n. destruct Hb as [H0 Hb]. split; [split; [done|lia]|].
  destruct (Z.eqb_spec (value sm) 0) as [E|E]; [by apply neutral_wait|].
  apply owns_bind. intros Hb' u s3 Hs3. apply bounded_value in Hb'.
  destruct (change_semaphore (fun sm => ret (mkSem (sem_name sm) (i32 (value sm - 1)) (queue sm))) s2 u s3)
    as (sm0 & sm' & s4 & Hv0 & [= <- <-] & Hv' & Hi); [intros ?; spare|exact Hs3|].
  simpl in Hv'. rewrite i32_id in Hv' by (unfold is_i32; lia).
  exists (S n). split; [|by apply (neutral_bind (SetLevel old)); [apply neutral_SetLevel|intros ?; apply neutral_ret]].
  split; [lia|]. rewrite (total_value s2 s3 (-1)) by (lia || done). lia.
Qed.

Lemma release_value s u s' : release sem s = Ok (u, s') ->
  value_of s' = i32 (value_of s + 1) /\ inside_of s' = inside_of s.
Proof.
  intros (sm & s0 & (-> & _ & Hv)%get_semaphore_inv & (? & s1 & E1 & E2)%bind_inv)%bind_inv.
  assert (value_of s1 = value_of s /\ inside_of s1 = inside_of s) as [Hv1 Hi1].
  { destruct (queue sm) as [|t q]; [by injection E1 as _ <-|].
    apply bind_inv in E1 as ([] & s2 & E3 & E4).
    destruct (put_semaphore_value (mkSem (sem_name sm) (value sm) q) s) as (s3 & E5 & H1 & H2).
    assert (s3 = s2) as -> by congruence. simpl in H1.
    destruct (spares_ready t _ _ _ E4). split; congruence. }
  destruct (change_semaphore (fun sm => ret (mkSem (sem_name sm) (i32 (value sm + 1)) (queue sm))) s1 u s')
    as (sm0 & sm' & s4 & Hv0 & [= <- <-] & Hv' & Hi); [intros ?; spare|exact E2|].
  simpl in Hv'. split; [by rewrite Hv', <- Hv0, Hv1|congruence].
Qed.

Lemma V_token n s : owns (Semaphore_V sem) (fun _ n' _ => n' = n) (S n) s.
Proof.
  unfold Semaphore_V. apply owns_bind. eapply owns_mono; [|apply neutral_SetLevel].
  intros old n0 s0 ->. apply owns_bind. intros Hb u s1 E. apply bounded_value in Hb.
  destruct (release_value _ _ _ E) as [Hv Hi]. rewrite i32_id in Hv by (unfold is_i32; lia).
  exists n. split; [|by apply (neutral_bind (SetLevel old)); [apply neutral_SetLevel|intros ?; apply neutral_ret]].
  split; [lia|]. rewrite (total_value s0 s1 1) by done. lia.
Qed.

(** ** Critical sections *)

(** [enter] and [leave] count the threads inside. *)
Definition counts (m : M K unit) (d : Z) : Prop := forall s u s',
  m s = Ok (u, s') -> value_of s' = value_of s /\ inside_of s' = inside_of s + d.
Context (enter leave : M K unit) (enters : counts enter 1) (leaves : counts leave (-1)).

Definition critical (body : prog K unit) : prog K unit :=
  Semaphore_P call DL sem ;~ op enter ;~ body ;~ op leave ;~ Semaphore_V sem.

(** Programs that use [sem] for their critical sections only. *)
Inductive orderly : prog K unit -> Prop :=
| orderly_done : orderly (Ret tt)
| orderly_local B (m : M K B) k : spares m -> (forall b, orderly (k b)) -> orderly (Do m k)
| orderly_loop B (m : M K (option B)) body k :
    spares m -> orderly body -> (forall b, orderly (k b)) -> orderly (Until m body k)
| orderly_tick p : orderly p -> orderly (Tick p)
| orderly_call a p : orderly p -> orderly (Call a p)
| orderly_yield p : orderly p -> orderly ((c <~ op (kernel currentThread) ;; Thread_Yield c) ;~ p)
| orderly_P a p : a <> sem -> orderly p -> orderly (Semaphore_P call DL a ;~ p)
| orderly_V a p : a <> sem -> orderly p -> orderly (Semaphore_V a ;~ p)
| orderly_fork garbage name body p : orderly body -> orderly p ->
    orderly ((u <~ op (Thread_new garbage name) ;; Thread_Fork call DL u body) ;~ p)
| orderly_critical body p : orderly body -> orderly p -> orderly (critical body ;~ p).

(** Counting a thread in takes its token, counting it out gives it back. *)
Lemma owns_counts {A} (m : M K unit) d (k : unit -> prog K A) Q n n' s : counts m d -> Z.of_nat n' + d = Z.of_nat n ->
  (forall u s', owns (k u) Q n' s') -> owns (Do m k) Q n s.
Proof.
  intros Hm Hn Hk [H0 _] u s' E. destruct (Hm _ _ _ E) as [Ev Ei]. exists n'.
  split; [|done]. unfold conserves, total. rewrite Ev, Ei. split; [done|lia].
Qed.

Lemma neutral_critical body : neutral body -> neutral (critical body).
Proof.
  intros Hb n s. unfold critical. apply owns_bind. eapply owns_mono; [|apply P_token].
  intros _ n1 s1 ->. cbn [op pbind]. apply (owns_counts enter 1 _ _ (S n) n); [done|lia|]. intros _ s2.
  apply owns_bind. eapply owns_mono; [|apply Hb]. intros _ n3 s3 ->.
  cbn [op pbind]. apply (owns_counts leave (-1) _ _ n (S n)); [done|lia|]. intros _ s4. apply V_token.
Qed.

Lemma orderly_neutral p : orderly p -> neutral p.
Proof.
  induction 1 as [|B m k Hm _ IH|B m body k Hm _ IHb _ IH|p _ IH|a p _ IH|p _ IH|a p Ha _ IH|a p Ha _ IH
    |garbage name body p _ IHb _ IH|body p _ IHb _ IH].
  - apply neutral_ret.
  - intros n s. apply owns_do; [done|]. intros b s'. apply IH.
  - by apply neutral_until.
  - by apply neutral_tick.
  - intros n s s'. apply IH.
  - neutrals.
  - apply neutral_bind; [by apply neutral_P|done].
  - apply neutral_bind; [by apply neutral_V|done].
  - pose proof (fun t => neutral_Fork t body IHb). neutrals.
  - apply neutral_bind; [by apply neutral_critical|done].
Qed.

(** ** All threads together *)

Definition tokens (T : gmap loc nat) : Z := map_fold (fun _ n acc => Z.of_nat n + acc) 0 T.

Lemma tokens_insert T t n : T !! t = None -> tokens (<[t := n]> T) = Z.of_nat n + tokens T.
Proof. intros Ht. unfold tokens. rewrite map_fold_insert_L; [done|intros; lia|done]. Qed.

Lemma tokens_delete T t n : T !! t = Some n -> tokens T = Z.of_nat n + tokens (delete t T).
Proof. intros Ht. unfold tokens. rewrite (map_fold_delete_L _ _ t n T); [done|intros; lia|done]. Qed.

Lemma tokens_nonneg T : 0 <= tokens T.
Proof.
  induction T as [|t n T Ht IH] using map_ind; [done|]. rewrite tokens_insert by done. lia.
Qed.

Lemma tokens_replace T t n : tokens (<[t := n]> T) <= Z.of_nat n + tokens T.
Proof.
  rewrite <- insert_delete_eq, tokens_insert by apply lookup_delete_eq.
  destruct (T !! t) as [m|] eqn:E; [rewrite (tokens_delete T t m) by done; lia|].
  by rewrite delete_id.
Qed.

Definition anything {A} : A -> nat -> K -> Prop := fun _ _ _ => True.

(** The running thread has [n] tokens, the others have [T]. *)
Record accounted (c : config) (n : nat) (T : gmap loc nat) : Prop := {
  cpu_owns : owns (cpu c) anything n (state c);
  saved_own : forall t p, saved c !! t = Some p -> exists m, T !! t = Some m /\ forall s, owns p anything m s;
  value_nonneg : 0 <= value_of (state c);
  all_tokens : total (state c) + Z.of_nat n + tokens T <= N
}.

Lemma neutral_before {A} (p : prog K A) k n s : neutral p -> (forall a s', owns (k a) (anything (A := unit)) n s') ->
  owns (pbind p k) anything n s.
Proof. intros Hp Hk. apply owns_bind. eapply owns_mono; [|apply Hp]. intros a ? s' ->. apply Hk. Qed.

Context (code_orderly : forall a, orderly (code a)).

Lemma step_accounted c n T c' :
  accounted c n T -> step call DL code c = Ok c' -> exists n' T', accounted c' n' T'.
Proof.
  destruct c as [p sv s]. intros [Hp Hs H0 Ht]. unfold step. cbn [cpu saved state] in *.
  assert (bounded n s) as Hb by (split; [done|pose proof (tokens_nonneg T); lia]).
  destruct p as [a|B m k|B m body k|k|old new k|t body k|a k]; cbn [owns] in Hp.
  - done.
  - destruct (m s) as [[b s']| | |] eqn:E; try done. intros [= <-].
    destruct (Hp Hb b s' eq_refl) as (n' & [? ?] & ?). exists n', T. by split; [| |..|simpl; lia].
  - destruct (m s) as [[r s']| | |] eqn:E; try done. intros [= <-]. destruct Hp as (J & HJ & HL).
    destruct (HL n s HJ Hb r s' E) as (n' & [? ?] & Hr). exists n', T.
    split; [|done..|simpl; lia]. cbn [cpu state]. destruct r as [b|]; [done|].
    apply owns_bind. eapply owns_mono; [|exact Hr]. intros [] n1 s1 HJ1. by exists J.
  - intros Ec. assert (c' = mkConfig (OneTick call DL ;~ k) sv s) as -> by congruence. exists n, T.
    split; [|done..]. cbn [cpu state]. apply neutral_before; [apply neutral_OneTick|intros _; apply Hp].
  - destruct (<[old := k]> sv !! new) as [q|] eqn:E; [|done]. intros [= <-].
    assert (exists m, <[old := n]> T !! new = Some m /\ forall s, owns q anything m s) as (m & Hm & Hq).
    { apply lookup_insert_Some in E as [[-> <-]|[Hne E]]; [rewrite lookup_insert_eq; eauto|].
      rewrite lookup_insert_ne by done. by apply Hs. }
    exists m, (delete new (<[old := n]> T)). split; cbn [cpu saved state]; [done| |done|].
    + intros t p [Hne Hp']%lookup_delete_Some. rewrite lookup_delete_ne by done.
      apply lookup_insert_Some in Hp' as [[-> <-]|[Hne' Hp']]; [rewrite lookup_insert_eq; eauto|].
      rewrite lookup_insert_ne by done. by apply Hs.
    + pose proof (tokens_replace T old n). rewrite (tokens_delete _ _ _ Hm) in *. lia.
  - intros [= <-]. destruct Hp as [Hbody Hk]. exists n, (<[t := 0%nat]> T). split; cbn [cpu saved state]; [done| |done|].
    + intros u p Hp. apply lookup_insert_Some in Hp as [[-> <-]|[Hne Hp]]; [rewrite lookup_insert_eq; eauto|].
      rewrite lookup_insert_ne by done. by apply Hs.
    + pose proof (tokens_replace T t 0). lia.
  - intros [= <-]. exists n, T. split; [|done..]. cbn [cpu state]. apply neutral_before; [apply orderly_neutral, code_orderly|intros _; apply Hp].
Qed.

Lemma run_accounted i c n T c' :
  accounted c n T -> run call DL code i c = Ok c' -> exists n' T', accounted c' n' T'.
Proof.
  revert c n T. induction i as [|i IH]; intros c n T Hc; cbn [run]; [intros [= <-]; eauto|].
  destruct (step call DL code c) as [c1| | |] eqn:E; try done.
  destruct (step_accounted _ _ _ _ Hc E) as (n1 & T1 & H1). by apply (IH c1 n1 T1).
Qed.

(** C2: critical sections exclude each other: in every run of threads that use a
    semaphore with the initial value [N] only to guard critical sections, with P
    before and V behind, for any number of threads and steps and whatever
    interrupts arrive and force a switch, no more than [N] threads are inside at
    any time: with [N] = 1, at most one. The value of the semaphore is never
    negative, and never more than what those inside leave of [N]. *)
Theorem Semaphore_excludes (body : prog K unit) (s : K) (i : nat) (c : config) :
  orderly body -> value_of s = N -> 0 <= N -> inside_of s = 0 ->
  run call DL code i (mkConfig (ThreadRoot call DL body) empty s) = Ok c ->
  inside_of (state c) <= N /\ 0 <= value_of (state c) <= N - inside_of (state c).
Proof.
  intros Hbody Hv HN Hi Hrun.
  destruct (run_accounted i (mkConfig (ThreadRoot call DL body) empty s) 0 empty c) as (n & T & [_ _ H0 Ht]);
    [|exact Hrun|].
  { split; cbn [cpu saved state].
    - eapply owns_mono; [|apply neutral_Root, orderly_neutral, Hbody]. done.
    - done.
    - lia.
    - unfold total, tokens. rewrite map_fold_empty. lia. }
  pose proof (tokens_nonneg T). unfold total in Ht. lia.
Qed.
End Exclusion.

(** ** Two threads and one semaphore *)

Module TwoThreads.
Abbreviation X := (Machine * nat)%type.
Definition inside (x : X) : Z := Z.of_nat x.2.
Definition nothing : VoidFunctionPtr -> Z -> M (Sim (Kernel X)) unit := fun _ _ => ret tt.
Definition enter : M (Sim (Kernel X)) unit := on_user (modify (fun x => (x.1, S x.2))).
Definition leave : M (Sim (Kernel X)) unit :=
  on_user (x <- get ;; match x.2 with O => undef | S n => put (x.1, n) end).
Definition visit : prog (Sim (Kernel X)) unit :=
  critical nothing (ret tt) 0%nat enter leave ((c <~ op (kernel currentThread) ;; Thread_Yield c) ;~ Ret tt) ;~ Ret tt.
Definition both : prog (Sim (Kernel X)) unit :=
  (u <~ op (Thread_new (replicate (Z.to_nat NumTotalRegs) 0) []) ;; Thread_Fork nothing (ret tt) u visit) ;~ visit.
Definition start : Sim (Kernel X) := mkSim Interrupt_new Statistics_new
  (mkKernel {[ 0%nat := main_thread ]} [] 0%nat None {[ 0%nat := mkSem (Lit []) 1 [] ]} empty (small_machine, 0%nat)).
Definition after (n : nat) : outcome config :=
  run nothing (ret tt) no_code n (mkConfig (ThreadRoot nothing (ret tt) both) empty start).
Definition seen (n : nat) : option (Z * option (list loc)) :=
  match after n with
  | Ok c => Some (inside (user (rest (state c))), queue <$> semaphores (rest (state c)) !! 0%nat)
  | _ => None
  end.
End TwoThreads.

Lemma TwoThreads_enters : counts 0%nat TwoThreads.inside TwoThreads.enter 1.
Proof. intros s u s' [= <- <-]. unfold value_of, inside_of, TwoThreads.inside. split; [done|]. exact (Nat2Z.inj_succ _). Qed.
Lemma TwoThreads_leaves : counts 0%nat TwoThreads.inside TwoThreads.leave (-1).
Proof.
  intros s u s' E. unfold TwoThreads.leave, on_user in E. munfold.
  destruct (user (rest s)) as [m [|n]] eqn:Eu; simpl in E; [discriminate|]. injection E as <- <-.
  unfold value_of, inside_of, TwoThreads.inside. split; [done|]. rewrite Eu. cbn -[Z.add Z.of_nat]. lia.
Qed.

(** After 45 steps one thread is inside and the other one waits. *)
Lemma Semaphore_excludes_witness :
  TwoThreads.seen 45 = Some (1, Some [1%nat]) /\
  exists c, TwoThreads.after 45 = Ok c /\ inside_of TwoThreads.inside (state c) <= 1.
Proof.
  assert (TwoThreads.seen 45 = Some (1, Some [1%nat])) as Hs by (vm_compute; reflexivity).
  split; [exact Hs|]. unfold TwoThreads.seen in Hs.
  destruct (TwoThreads.after 45) as [c| | |] eqn:E; [|discriminate Hs..].
  exists c. split; [done|].
  apply (Semaphore_excludes TwoThreads.nothing (ret tt) no_code 0%nat TwoThreads.inside 1) with
    (enter := TwoThreads.enter) (leave := TwoThreads.leave) (body := TwoThreads.both) (s := TwoThreads.start) (i := 45%nat).
  - done.
  - intros h a. apply spares_ret.
  - apply spares_ret.
  - intros x. unfold TwoThreads.inside. lia.
  - done.
  - apply TwoThreads_enters.
  - apply TwoThreads_leaves.
  - intros a. constructor.
  - assert (orderly TwoThreads.nothing (ret tt) 0%nat TwoThreads.inside TwoThreads.enter TwoThreads.leave TwoThreads.visit) as Hv.
    { apply orderly_critical; [apply orderly_yield|]; constructor. }
    by apply orderly_fork.
  - done.
  - done.
  - done.
  - exact E.
Defined.
