(* ===== verification/SyncDisk.v ===== *)
(** * filesys/synchdisk.cc under the scheduler

    The synchronous disk as it is written: a thread starts a request, waits for
    a semaphore, the processor idles until the disk interrupts, and the handler
    signals the semaphore. OpenFile.v takes a transfer for one atomic step
    (class [SectorDisk]); here it is shown that the running program is one, for
    a thread that is alone on the disk; the lock of the code, which does
    nothing, does not keep another thread away. *)

From stdpp Require Import base tactics list numbers gmap.
From S2P Require Import Prelude Lists Interrupt Machine BitMap AddrSpace Disk OpenFile Threads ThreadsInv ThreadsSafe Quiet.

Local Open Scope Z_scope.

(** The disk among the state of the kernel. *)
#[export, refine] Instance lens_kernel_user {S X} `{!Lens S X} : Lens S (Kernel X) :=
  {| lget k := lget (user k); lset v k := set_user (lset v (user k)) k |}.
Proof.
  - intros v k. cbn. apply lget_lset.
  - intros k. cbn. rewrite lset_lget. by destruct k.
  - intros v v' k. unfold set_user. cbn. by rewrite lset_lset.
Defined.

Section SynchDisk.
Context {X : Type} `{!Lens Machine X} `{!Lens Disk X}.
Context (call : VoidFunctionPtr -> Z -> M (Sim (Kernel X)) unit) (DL : M (Sim (Kernel X)) unit).
Abbreviation K := (Sim (Kernel X)).

(** ** The code

    [semaphore] is the member of that name; the lock is one of Threads.v. *)

(** "synch disk" *)
Definition synch_disk_name : list Z := [115; 121; 110; 99; 104; 32; 100; 105; 115; 107].
(** [existing] is what the UNIX file holds, if there is one. *)
Definition SynchDisk_new (be : bool) (existing : option (list Z)) : M K loc :=
  semaphore <- Semaphore_new (Lit synch_disk_name) 0 ;;
  (fun s => obind (Disk_new be existing) (fun d => Ok (tt, on_rest (lset d) s))) ;;;
  ret semaphore.
Definition SynchDisk_delete (semaphore : loc) : M K unit := Semaphore_delete semaphore.

Definition SynchDisk_ReadSector (semaphore : loc) (sectorNumber : Z) : prog K (list Z) :=
  op Lock_Acquire ;~
  data <~ op (Disk_ReadRequest sectorNumber) ;;
  Semaphore_P call DL semaphore ;~
  op Lock_Release ;~
  Ret data.

Definition SynchDisk_WriteSector (semaphore : loc) (sectorNumber : Z) (data : list Z) : prog K unit :=
  op Lock_Acquire ;~
  op (Disk_WriteRequest sectorNumber data) ;~
  Semaphore_P call DL semaphore ;~
  op Lock_Release.

Definition SynchDisk_RequestDone (semaphore : loc) : M K unit := Semaphore_V_handler semaphore.
Definition DiskRequestDone (semaphore : loc) : M K unit := SynchDisk_RequestDone semaphore.

(** What the interrupt of the disk calls. *)
Definition disk_handler (semaphore : loc) : M K unit := Disk_HandleInterrupt (DiskRequestDone semaphore).
End SynchDisk.

(** ** States *)

Section Runs.
Context {X : Type} `{!Lens Machine X} `{!Lens Disk X}.
Context (call : VoidFunctionPtr -> Z -> M (Sim (Kernel X)) unit) (code : loc -> prog (Sim (Kernel X)) unit) (sd : loc).
Abbreviation K := (Sim (Kernel X)).
(** The disk calls the synchronous disk, and there is no machine for user
    programs. *)
Hypothesis call_disk : forall a, call DiskDone a = disk_handler sd.
Abbreviation DL := (ret tt : M K unit).
Abbreviation run := (run call DL code).

Abbreviation runs_to := (Quiet.runs_to call DL code).

(** The thread [t] is the only one that can run, the disk is idle, its
    semaphore is zero and nobody waits. *)
Record alone (t : loc) (th : Thread) (nm : charp) (k : Kernel X) : Prop := {
  al_current : currentThread k = t;
  al_thread : threads k !! t = Some th;
  al_status : thread_status th = RUNNING;
  al_space : thread_space th = None;
  al_stack : forall w, Threads.stack th = Some w -> w = STACK_FENCEPOST;
  al_ready : readyList k = [];
  al_doomed : threadToBeDestroyed k = None;
  al_sem : semaphores k !! sd = Some (mkSem nm 0 []);
  al_disk : disk_wf (lget k);
  al_idle : Disk.active (lget k) = false
}.

Definition with_disk (f : Disk -> Disk) (k : Kernel X) : Kernel X := lset (f (lget k)) k.

(** ** One request *)

Definition completion (w : Z) : list (PendingInterrupt * Z) := [(mkPending DiskDone 0 w DiskInt, w)].

Lemma end_request_St n l count lv st k : totalTicks (count st) = totalTicks st -> 0 < l -> is_i32 (totalTicks st + l) ->
  end_request n l count (St lv [] st k) =
  Ok (tt, St lv (completion (totalTicks st + l)) (count st) (with_disk (fun d => Disk_UpdateLast (totalTicks st) n (set_active true d)) k)).
Proof.
  intros Hc Hl Hi. unfold St, end_request, on_disk, get_ticks, gets, Interrupt_Schedule, get. munfold.
  unfold on_rest, on_stats, on_intr. cbn [stats rest intr]. rewrite Hc.
  rewrite Z.gtb_ltb, (proj2 (Z.ltb_lt 0 l)) by done. unfold set_pending.
  cbn [level pending inHandler yieldOnReturn status sorted_insert intr stats rest]. rewrite i32_id by done.
  unfold with_disk. rewrite lget_lset, lset_lset. done.
Qed.

Section Request.
Context (n : Z) (lv : IntStatus) (st : Statistics) (k : Kernel X).
Hypothesis Hd : disk_wf (lget k).
Hypothesis Ha : Disk.active (lget k) = false.
Hypothesis Hn : 0 <= n < NumSectors.
Hypothesis H0 : 0 <= totalTicks st.
Hypothesis Hm : totalTicks st + max_latency < 2 ^ 31.

Lemma begin_request_St w : begin_request n w (St lv [] st k) =
  Ok (Disk_ComputeLatency (lget k) (totalTicks st) n w, St lv [] st k).
Proof using Ha Hn.
  rewrite begin_request_run. cbn [rest St]. by rewrite Ha, (proj2 (Z.leb_le 0 n)), (proj2 (Z.ltb_lt n NumSectors)) by lia.
Qed.

(** The end of a request, when the file has been written. *)
Lemma end_request_writes w count bs : (forall s, totalTicks (count s) = totalTicks s) ->
  end_request n (Disk_ComputeLatency (lget k) (totalTicks st) n w) count (St lv [] st (with_disk (set_file bs) k)) =
  Ok (tt, St lv (completion (totalTicks st + Disk_ComputeLatency (lget k) (totalTicks st) n w)) (count st)
    (with_disk (fun d => Disk_UpdateLast (totalTicks st) n (set_active true (set_file bs d))) k)).
Proof using Hd Hn H0 Hm.
  intros Hc. pose proof (ComputeLatency_range (lget k) (totalTicks st) n w Hd Hn H0 Hm) as Hl.
  rewrite end_request_St; [|done|unfold RotationTime in *; lia|unfold is_i32, RotationTime in *; lia].
  unfold with_disk. by rewrite lget_lset, lset_lset.
Qed.

Lemma ReadRequest_St : exists l, RotationTime <= l <= max_latency /\
  Disk_ReadRequest n (St lv [] st k) =
  Ok (sector_of (lget k) n, St lv (completion (totalTicks st + l)) (count_read st)
    (with_disk (fun d => Disk_UpdateLast (totalTicks st) n (set_active true d)) k)).
Proof using Hd Ha Hn H0 Hm.
  pose proof (ComputeLatency_range (lget k) (totalTicks st) n false Hd Hn H0 Hm) as Hl.
  eexists. split; [exact Hl|]. unfold Disk_ReadRequest. mrun (begin_request_St false).
  rewrite (bind_Ok get_disk _ _ (lget k) (St lv [] st k)) by done.
  unfold unix_read. rewrite (proj2 (Z.leb_le _ _)).
  2: { rewrite (wf_file _ Hd). unfold DiskSize, NumSectors, NumTracks, SectorsPerTrack, MagicSize, SectorSize in *. lia. }
  erewrite bind_Ok; [|apply end_request_St; [done|unfold RotationTime in *; lia|unfold is_i32, RotationTime in *; lia]].
  done.
Qed.

Lemma WriteRequest_St data : exists l, RotationTime <= l <= max_latency /\
  Disk_WriteRequest n data (St lv [] st k) =
  Ok (tt, St lv (completion (totalTicks st + l)) (count_write st)
    (with_disk (fun d => Disk_UpdateLast (totalTicks st) n (set_active true
      (set_file (unix_write (SectorSize * n + MagicSize) (slice 0 SectorSize data) (file d)) d))) k)).
Proof using Hd Ha Hn H0 Hm.
  pose proof (ComputeLatency_range (lget k) (totalTicks st) n true Hd Hn H0 Hm) as Hl.
  eexists. split; [exact Hl|]. unfold Disk_WriteRequest. mrun (begin_request_St true).
  erewrite bind_Ok; [|reflexivity].
  exact (end_request_writes true count_write (unix_write (SectorSize * n + MagicSize) (slice 0 SectorSize data) (file (lget k))) ltac:(done)).
Qed.
End Request.

(** ** Waiting for the interrupt *)

Section Waiting.
Context (t : loc) (sps : gmap loc AddrSpace).

(** The kernel, with the thread [t] running and none to be destroyed. *)
Definition KN (ths : gmap loc Thread) (rl : list loc) (sems : gmap loc Semaphore) (u : X) : Kernel X :=
  mkKernel ths rl t None sems sps u.

Definition in_handler (st : Statistics) (k : Kernel X) : K := mkSim (mkInterrupt IntOff [] true false SystemMode) st k.

Lemma release_wakes st ths sems u th nm : ths !! t = Some th -> sems !! sd = Some (mkSem nm 0 [t]) ->
  release sd (in_handler st (KN ths [] sems u)) =
  Ok (tt, in_handler st (KN (<[t := Thread_setStatus READY th]> ths) [t] (<[sd := mkSem nm 1 []]> sems) u)).
Proof.
  intros Ht Hs. unfold release. erewrite bind_Ok; [|apply get_semaphore_run; exact Hs]. cbn beta iota.
  erewrite bind_Ok.
  2: { cbn [queue sem_name value]. erewrite bind_Ok; [|reflexivity]. cbn beta.
       unfold Scheduler_ReadyToRun, update_thread. erewrite bind_Ok; [reflexivity|].
       erewrite bind_Ok; [reflexivity|]. apply get_thread_run. exact Ht. }
  cbn beta. erewrite bind_Ok; [|apply get_semaphore_run; apply lookup_insert_eq].
  unfold put_semaphore, on_kernel, modify, on_rest, set_semaphores, set_threads, set_readyList, in_handler, KN.
  cbn [rest intr stats threads readyList currentThread threadToBeDestroyed semaphores spaces user queue sem_name value].
  by rewrite insert_insert_eq.
Qed.

Lemma disk_handler_run st ths sems u th nm : ths !! t = Some th -> sems !! sd = Some (mkSem nm 0 [t]) ->
  disk_handler sd (in_handler st (KN ths [] sems u)) =
  Ok (tt, in_handler st (KN (<[t := Thread_setStatus READY th]> ths) [t] (<[sd := mkSem nm 1 []]> sems) (lset (set_active false (lget u)) u))).
Proof.
  intros Ht Hs. unfold disk_handler, Disk_HandleInterrupt, on_disk, DiskRequestDone, SynchDisk_RequestDone, Semaphore_V_handler.
  erewrite bind_Ok; [|reflexivity]. cbn beta. unfold on_rest, in_handler at 1, KN at 1. cbn [rest intr stats lget lset lens_kernel_user user set_user].
  set (u' := lset (set_active false (lget u)) u).
  rewrite (bind_Ok (change_level IntOff) _ _ IntOff (in_handler st (KN ths [] sems u'))) by done.
  mrun (release_wakes st ths sems u' th nm Ht Hs). done.
Qed.

Lemma fire_completes w st ths sems u th nm : ths !! t = Some th -> sems !! sd = Some (mkSem nm 0 [t]) ->
  fire call DL (mkPending DiskDone 0 w DiskInt) IdleMode (mkSim (mkInterrupt IntOff [] false false IdleMode) st (KN ths [] sems u)) =
  Ok (true, mkSim (mkInterrupt IntOff [] false false IdleMode) st
    (KN (<[t := Thread_setStatus READY th]> ths) [t] (<[sd := mkSem nm 1 []]> sems) (lset (set_active false (lget u)) u))).
Proof using call_disk.
  intros Ht Hs. unfold fire. do 3 (erewrite bind_Ok; [|reflexivity]; cbn beta).
  erewrite bind_Ok; [|cbn [handler arg]; rewrite call_disk; exact (disk_handler_run st ths sems u th nm Ht Hs)]. done.
Qed.

(** The interrupt is due when the clock has been advanced to it. *)
Lemma CheckIfDue_fires w st ths sems u th nm : ths !! t = Some th -> sems !! sd = Some (mkSem nm 0 [t]) -> totalTicks st < w ->
  Interrupt_CheckIfDue call DL true (mkSim (mkInterrupt IntOff (completion w) false false IdleMode) st (KN ths [] sems u)) =
  Ok (true, mkSim (mkInterrupt IntOff [] false false IdleMode)
    (set_ticks w (i32 (idleTicks st + (w - totalTicks st))) (systemTicks st) (userTicks st) st)
    (KN (<[t := Thread_setStatus READY th]> ths) [t] (<[sd := mkSem nm 1 []]> sems) (lset (set_active false (lget u)) u))).
Proof using call_disk.
  intros Ht Hs Hw. assert ((w >? totalTicks st) = true) as Hgt by (apply Z.gtb_lt; lia).
  unfold Interrupt_CheckIfDue, completion. unfold bind at 1, get. cbn [obind intr level pending stats status].
  unfold bind at 1, ASSERT. cbn [obind]. rewrite bool_decide_eq_true_2 by done. unfold ret at 1. cbn [obind].
  unfold bind at 1, modify at 1. cbn [obind andb negb]. rewrite Hgt. cbn [negb].
  unfold bind at 1, modify at 1. cbn [obind type]. rewrite bool_decide_eq_true_2, bool_decide_eq_false_2 by done. cbn [andb].
  exact (fire_completes w _ ths sems u th nm Ht Hs).
Qed.

(** Idle: the clock goes to the interrupt, the thread is ready again. *)
Lemma Idle_wakes w st ths sems u th nm : ths !! t = Some th -> sems !! sd = Some (mkSem nm 0 [t]) ->
  totalTicks st < w -> exists st', totalTicks st' = w /\
  Interrupt_Idle call DL (St IntOff (completion w) st (KN ths [] sems u)) =
  Ok (tt, St IntOff [] st' (KN (<[t := Thread_setStatus READY th]> ths) [t] (<[sd := mkSem nm 1 []]> sems) (lset (set_active false (lget u)) u))).
Proof using call_disk.
  intros Ht Hs Hw. eexists (set_ticks w _ _ _ st). split; [reflexivity|].
  unfold Interrupt_Idle, St. erewrite bind_Ok; [|reflexivity]. cbn beta.
  mrun (CheckIfDue_fires w st ths sems u th nm Ht Hs Hw). done.
Qed.

(** *** Steps *)

(** A tick without pending interrupts. *)
Lemma runs_to_tick g sv st k Q : 0 <= totalTicks st -> totalTicks st + SystemTick < 2 ^ 31 ->
  (forall st', totalTicks st' = totalTicks st + SystemTick -> runs_to (mkConfig g sv (St IntOn [] st' k)) Q) ->
  runs_to (mkConfig (Tick g) sv (St IntOn [] st k)) Q.
Proof.
  intros H0 Hm H. eapply runs_to_step; [reflexivity|]. unfold OneTick. cbn [pbind op].
  eapply runs_to_do; [reflexivity|].
  eapply runs_to_do; [reflexivity|]. eapply runs_to_do; [reflexivity|]. cbn beta iota.
  apply (H (set_ticks (i32 (totalTicks st + SystemTick)) (idleTicks st) (i32 (systemTicks st + SystemTick)) (userTicks st) st)).
  cbn. apply i32_id. unfold is_i32, SystemTick in *. lia.
Qed.

(** *** P and the interrupt *)

(** The scheduler gives the processor back to the thread. *)
Lemma Run_self st ths sems u th sv (g : unit -> prog K unit) Q : ths !! t = Some th -> thread_space th = None ->
  (forall v, Threads.stack th = Some v -> v = STACK_FENCEPOST) -> sv !! t = None ->
  runs_to (mkConfig (g tt) sv (St IntOff [] st (KN (<[t := Thread_setStatus RUNNING th]> ths) [] sems u))) Q ->
  runs_to (mkConfig (pbind (Scheduler_Run t) g) sv (St IntOff [] st (KN ths [] sems u))) Q.
Proof.
  intros Ht Hsp Hstk Hsv H. unfold Scheduler_Run. cbn [pbind op].
  eapply runs_to_do; [reflexivity|]. cbn [KN currentThread pbind op].
  eapply (runs_to_do _ _ tt).
  { unfold leave_thread. erewrite bind_Ok; [|apply get_thread_run; exact Ht]. rewrite Hsp.
    erewrite bind_Ok; [|reflexivity]. unfold Thread_CheckOverflow. erewrite bind_Ok; [|apply get_thread_run; exact Ht].
    destruct (Threads.stack th) as [v|]; [|reflexivity]. by rewrite (Hstk v eq_refl). }
  eapply (runs_to_do _ _ tt).
  { unfold enter_thread, update_thread. erewrite bind_Ok; [|reflexivity].
    erewrite bind_Ok; [|apply get_thread_run; exact Ht]. reflexivity. }
  cbn [pbind op]. apply runs_to_switch; [done|]. eapply (runs_to_do _ _ tt).
  { unfold resume_thread. erewrite bind_Ok; [|reflexivity]. erewrite bind_Ok; [|reflexivity].
    erewrite bind_Ok; [|reflexivity]. erewrite bind_Ok; [|apply get_thread_run; apply lookup_insert_eq].
    cbn [Thread_setStatus thread_space]. by rewrite Hsp. }
  exact H.
Qed.

(** Sleep with the request pending: the machine idles until the disk
    interrupts, and the thread goes on. *)
Lemma Sleep_until_done w st ths sems u th nm sv (g : unit -> prog K unit) Q : ths !! t = Some th -> thread_space th = None ->
  (forall v, Threads.stack th = Some v -> v = STACK_FENCEPOST) -> sems !! sd = Some (mkSem nm 0 [t]) ->
  sv !! t = None -> totalTicks st < w ->
  (forall st', totalTicks st' = w -> runs_to (mkConfig (g tt) sv (St IntOff [] st'
     (KN (<[t := Thread_setStatus RUNNING th]> ths) [] (<[sd := mkSem nm 1 []]> sems) (lset (set_active false (lget u)) u)))) Q) ->
  runs_to (mkConfig (pbind (Thread_Sleep call DL t) g) sv (St IntOff (completion w) st (KN ths [] sems u))) Q.
Proof using call_disk.
  intros Ht Hsp Hstk Hs Hsv Hw H. unfold Thread_Sleep. cbn [pbind op].
  eapply (runs_to_do _ _ tt _ _ (St IntOff (completion w) st (KN (<[t := Thread_setStatus BLOCKED th]> ths) [] sems u))).
  { erewrite bind_Ok; [|reflexivity]. cbn [KN currentThread rest St]. rewrite bool_decide_eq_true_2 by done.
    erewrite bind_Ok; [|reflexivity]. erewrite bind_Ok; [|reflexivity]. erewrite bind_Ok; [|reflexivity].
    unfold update_thread. erewrite bind_Ok; [|apply get_thread_run; exact Ht]. reflexivity. }
  eapply (runs_to_until _ _ _ None); [reflexivity|]. cbn [pbind op].
  destruct (Idle_wakes w st (<[t := Thread_setStatus BLOCKED th]> ths) sems u (Thread_setStatus BLOCKED th) nm
    (lookup_insert_eq _ _ _) Hs Hw) as (st' & Hst' & E).
  eapply runs_to_do; [exact E|]. rewrite insert_insert_eq.
  eapply (runs_to_until _ _ _ (Some t)); [reflexivity|].
  apply (Run_self st' _ _ _ (Thread_setStatus READY (Thread_setStatus BLOCKED th))); [apply lookup_insert_eq|done|done|done|].
  cbn [St KN rest threads semaphores user]. rewrite insert_insert_eq. exact (H st' Hst').
Qed.

Lemma P_waits w st ths sems u th nm sv f Q :
  ths !! t = Some th -> thread_status th = RUNNING -> thread_space th = None ->
  (forall v, Threads.stack th = Some v -> v = STACK_FENCEPOST) -> sems !! sd = Some (mkSem nm 0 []) ->
  sv !! t = None -> 0 <= totalTicks st < w -> w + SystemTick < 2 ^ 31 ->
  (forall st', totalTicks st' = w + SystemTick ->
     runs_to (mkConfig (f tt) sv (St IntOn [] st' (KN ths [] sems (lset (set_active false (lget u)) u)))) Q) ->
  runs_to (mkConfig (pbind (Semaphore_P call DL sd) f) sv (St IntOn (completion w) st (KN ths [] sems u))) Q.
Proof using call_disk.
  intros Ht Hst Hsp Hstk Hs Hsv Hw Hm H. unfold Semaphore_P, SetLevel. cbn [pbind op].
  eapply runs_to_do; [apply change_level_St|]. change (bool_decide (IntOff = IntOn)) with false. cbn [andb pbind].
  eapply (runs_to_until _ _ _ None); [erewrite bind_Ok; [|apply get_semaphore_run; exact Hs]; reflexivity|]. cbn [pbind op].
  eapply (runs_to_do _ _ tt _ _ (St IntOff (completion w) st (KN ths [] (<[sd := mkSem nm 0 [t]]> sems) u))).
  { erewrite bind_Ok; [|apply get_semaphore_run; exact Hs]. reflexivity. }
  eapply runs_to_do; [reflexivity|]. cbn [KN currentThread rest St pbind].
  apply (Sleep_until_done w st ths _ u th nm sv); [done|done|done|apply lookup_insert_eq|done|lia|]. intros st' Hst'.
  rewrite insert_insert_eq, insert_id by (rewrite Ht; destruct th; cbn in *; by rewrite Hst).
  eapply (runs_to_until _ _ _ (Some tt)).
  { erewrite bind_Ok; [|apply get_semaphore_run; apply lookup_insert_eq]. reflexivity. }
  eapply (runs_to_do _ _ tt).
  { erewrite bind_Ok; [|apply get_semaphore_run; apply lookup_insert_eq]. reflexivity. }
  cbn [sem_name value queue pbind op]. eapply runs_to_do; [apply change_level_St|].
  change (bool_decide (IntOn = IntOn) && bool_decide (IntOff = IntOff)) with true. cbn [pbind ptick].
  match goal with |- Quiet.runs_to _ _ _ (mkConfig _ _ (St _ _ _ ?k)) _ => replace k with (KN ths [] sems (lset (set_active false (lget u)) u)) end.
  2: { unfold St, KN. cbn [rest threads semaphores user]. unfold set_semaphores.
       cbn [threads readyList currentThread threadToBeDestroyed semaphores spaces user]. rewrite !insert_insert_eq.
       by rewrite (insert_id sems) by done. }
  apply (runs_to_tick _ _ st'); [lia|lia|]. intros st'' Hst''. apply H. by rewrite Hst'', Hst'.
Qed.
End Waiting.

(** ** The transfers *)

Lemma alone_after t th nm k d : alone t th nm k -> disk_wf d -> Disk.active d = false -> alone t th nm (lset d k).
Proof. intros [] Hd Ha. split; try done; cbn; by rewrite lget_lset. Qed.

(** A thread waits for the request that it has started. *)
Lemma alone_waits t th nm k d w st sv (f : unit -> prog K unit) Q : alone t th nm k -> sv !! t = None ->
  0 <= totalTicks st < w -> w + SystemTick < 2 ^ 31 ->
  (forall st', totalTicks st' = w + SystemTick ->
     runs_to (mkConfig (f tt) sv (St IntOn [] st' (lset (set_active false d) k))) Q) ->
  runs_to (mkConfig (pbind (Semaphore_P call DL sd) f) sv (St IntOn (completion w) st (lset d k))) Q.
Proof using call_disk.
  intros Hk Hsv Hw Hm H. destruct Hk as [Hc Ht Hst Hsp Hstk Hr Hx Hs _ _].
  destruct k as [ths rl cur dt sems sps u]. cbn in Hc, Ht, Hr, Hx, Hs. subst rl cur dt.
  apply (P_waits t sps w st ths sems (lset d u) th nm sv f Q); try done.
  intros st' E. rewrite lget_lset, lset_lset. exact (H st' E).
Qed.

Section Transfer.
Context (t : loc) (th : Thread) (nm : charp) (n : Z) (st : Statistics) (k : Kernel X) (sv : gmap loc (prog K unit)).
Hypothesis Hk : alone t th nm k.
Hypothesis Hsv : sv !! t = None.
Hypothesis H0 : 0 <= totalTicks st.
Hypothesis Hm : totalTicks st + max_latency + SystemTick < 2 ^ 31.

(** A program of the thread implements a transfer that takes place at once:
    the thread goes on with its result and is alone again, and of the kernel
    only the disk has changed, to what the transfer makes of it; the clock has
    advanced by no more than the longest request. It aborts where the transfer
    does. *)
Definition implements {A} (p : prog K A) (transfer : outcome (A * Disk)) : Prop := forall f : A -> prog K unit,
  match transfer with
  | Ok (a, d') =>
      runs_to (mkConfig (pbind p f) sv (St IntOn [] st k)) (fun c => exists st',
        c = mkConfig (f a) sv (St IntOn [] st' (lset d' k)) /\ alone t th nm (lset d' k) /\
        totalTicks st + RotationTime + SystemTick <= totalTicks st' <= totalTicks st + max_latency + SystemTick)
  | Aborted => exists fuel, run fuel (mkConfig (pbind p f) sv (St IntOn [] st k)) = Aborted
  | _ => False
  end.

(** The request has been made: the interrupt completes it. *)
Lemma request_completes d l count (g f : unit -> prog K unit) : 0 <= n < NumSectors ->
  totalTicks (count st) = totalTicks st -> RotationTime <= l <= max_latency -> disk_wf d ->
  (forall s Q, runs_to (mkConfig (f tt) sv s) Q -> runs_to (mkConfig (g tt) sv s) Q) ->
  runs_to (mkConfig (pbind (Semaphore_P call DL sd) g) sv (St IntOn (completion (totalTicks st + l)) (count st)
       (lset (Disk_UpdateLast (totalTicks st) n d) k))) (fun c => exists st',
    c = mkConfig (f tt) sv (St IntOn [] st' (lset (set_active false (Disk_UpdateLast (totalTicks st) n d)) k)) /\
    alone t th nm (lset (set_active false (Disk_UpdateLast (totalTicks st) n d)) k) /\
    totalTicks st + RotationTime + SystemTick <= totalTicks st' <= totalTicks st + max_latency + SystemTick).
Proof using call_disk Hk Hsv H0 Hm.
  intros Hn Hc Hl Hd Hg. destruct (UpdateLast_wf d (totalTicks st) n Hd Hn H0 ltac:(unfold SystemTick in *; lia)) as [[Hf1 Hl1 Hb1] Hf].
  eapply alone_waits; [exact Hk|exact Hsv|unfold RotationTime in *; lia|lia|].
  intros st' E. apply Hg, runs_to_now. exists st'. split; [reflexivity|].
  split; [apply alone_after; [done|by constructor|done]|lia].
Qed.

Lemma start_request_out d : ~ (0 <= n < NumSectors) -> start_request n d = Aborted.
Proof.
  intros Hn. unfold start_request. munfold. destruct (Disk.active d); [done|]. cbn [negb]. rewrite Z.geb_leb.
  by replace ((0 <=? n) && (n <? NumSectors)) with false by lia.
Qed.

(** Requests that fail an ASSERT. *)
Lemma request_aborts {A} w (g : Z -> M K A) s : (0 <= n < NumSectors -> Disk.active (lget (rest s)) = true) ->
  bind (begin_request n w) g s = Aborted.
Proof.
  intros H. unfold bind. rewrite begin_request_run.
  destruct (decide (0 <= n < NumSectors)) as [Hn|Hn]; [by rewrite (H Hn)|].
  replace ((0 <=? n) && (n <? NumSectors)) with false by lia. by rewrite orb_true_r.
Qed.

(** A request that fails its ASSERTs, as the lock lets every thread through. *)
Lemma request_refused {A} (m : M K A) p (f : A -> prog K unit) s : m s = Aborted ->
  run 2 (mkConfig (pbind (op Lock_Acquire ;~ pbind (op m) p) f) sv s) = Aborted.
Proof. intros E. cbn. unfold step. cbn. by rewrite E. Qed.

Lemma ReadSector_implements : 0 <= n < NumSectors ->
  implements (SynchDisk_ReadSector call DL sd n) (OpenFile.ReadSector (totalTicks st) n (lget k)).
Proof using call_disk Hk Hsv H0 Hm.
  intros Hn f. pose proof (al_disk _ _ _ _ Hk) as Hd. pose proof (al_idle _ _ _ _ Hk) as Hi.
  destruct (ReadRequest_St n IntOn st k Hd Hi Hn H0 ltac:(unfold SystemTick in *; lia)) as (l & Hl & E).
  assert (OpenFile.ReadSector (totalTicks st) n (lget k) = Ok (sector_of (lget k) n,
    set_active false (Disk_UpdateLast (totalTicks st) n (set_active true (lget k))))) as ->.
  { unfold OpenFile.ReadSector. mrun (start_request_run (lget k) n Hi Hn).
    rewrite (bind_Ok get _ _ (lget k) (lget k)) by done. unfold unix_read.
    destruct (sector_fits n Hn). by rewrite (proj2 (Z.leb_le _ _)) by by rewrite (wf_file _ Hd). }
  unfold SynchDisk_ReadSector. rewrite pbind_assoc. eapply runs_to_do; [reflexivity|].
  rewrite pbind_assoc. eapply runs_to_do; [exact E|]. rewrite pbind_assoc.
  apply (request_completes (set_active true (lget k)) l count_read _ (fun _ => f (sector_of (lget k) n))); try done; [by destruct Hd|].
  intros s Q HQ. rewrite pbind_assoc. eapply runs_to_do; [reflexivity|]. exact HQ.
Qed.

Lemma WriteSector_implements data : 0 <= n < NumSectors -> zlength data = SectorSize ->
  implements (SynchDisk_WriteSector call DL sd n data) (OpenFile.WriteSector (totalTicks st) n data (lget k)).
Proof using call_disk Hk Hsv H0 Hm.
  intros Hn Hdata f. pose proof (al_disk _ _ _ _ Hk) as Hd. pose proof (al_idle _ _ _ _ Hk) as Hi.
  destruct (WriteRequest_St n IntOn st k Hd Hi Hn H0 ltac:(unfold SystemTick in *; lia) data) as (l & Hl & E).
  set (d := set_file (unix_write (SectorSize * n + MagicSize) (slice 0 SectorSize data) (file (lget k))) (lget k)).
  assert (OpenFile.WriteSector (totalTicks st) n data (lget k) =
    Ok (tt, set_active false (Disk_UpdateLast (totalTicks st) n (set_active true d)))) as ->.
  { unfold OpenFile.WriteSector. by mrun (start_request_run (lget k) n Hi Hn). }
  unfold SynchDisk_WriteSector. rewrite pbind_assoc. eapply runs_to_do; [reflexivity|].
  rewrite pbind_assoc. eapply runs_to_do; [exact E|]. rewrite pbind_assoc.
  apply (request_completes (set_active true d) l count_write _ f); try done.
  - destruct Hd as [Hf Hls Hb]. split; [|done|done]. cbn [file set_active set_file d].
    assert (slice 0 SectorSize data = data) as -> by (unfold slice; rewrite <- Hdata; apply take_ge; unfold zlength; cbn; lia).
    by destruct (sector_write (lget k) n data n Hf Hn Hn Hdata).
  - intros s Q HQ. eapply runs_to_do; [reflexivity|]. exact HQ.
Qed.

(** C5: the synchronous disk implements the atomic transfers on which the file
    system is built: a thread that is alone on the disk runs ReadSector or
    WriteSector, with the wait for the semaphore, the idling of the processor
    and the interrupt handler, to the end, with the data and the disk of the
    transfer that takes place at once, and nothing else of the kernel
    changed; for a sector outside the disk both abort. But the lock of the
    code lets every thread through: while the disk is busy, a second request
    aborts. *)
Theorem SynchDisk_implements_transfers data : zlength data = SectorSize ->
  implements (SynchDisk_ReadSector call DL sd n) (OpenFile.ReadSector (totalTicks st) n (lget k)) /\
  implements (SynchDisk_WriteSector call DL sd n data) (OpenFile.WriteSector (totalTicks st) n data (lget k)) /\
  (forall s f g, Disk.active (lget (rest s)) = true ->
     run 2 (mkConfig (pbind (SynchDisk_ReadSector call DL sd n) f) sv s) = Aborted /\
     run 2 (mkConfig (pbind (SynchDisk_WriteSector call DL sd n data) g) sv s) = Aborted).
Proof using call_disk Hk Hsv H0 Hm.
  intros Hdata. split; [|split].
  - destruct (decide (0 <= n < NumSectors)) as [Hn|Hn]; [by apply ReadSector_implements|].
    intros f. unfold OpenFile.ReadSector, bind at 1. rewrite (start_request_out _ Hn). exists 2%nat.
    apply (request_refused (Disk_ReadRequest n)), request_aborts; by intros.
  - destruct (decide (0 <= n < NumSectors)) as [Hn|Hn]; [by apply WriteSector_implements|].
    intros f. unfold OpenFile.WriteSector, bind at 1. rewrite (start_request_out _ Hn). exists 2%nat.
    apply (request_refused (Disk_WriteRequest n data)), request_aborts; by intros.
  - intros s f g Ha. split; [apply (request_refused (Disk_ReadRequest n))|apply (request_refused (Disk_WriteRequest n data))];
      by apply request_aborts.
Qed.
End Transfer.

(** A new synchronous disk leaves a thread alone on it. *)
Lemma SynchDisk_new_alone be t th st (k : Kernel X) d : currentThread k = t -> threads k !! t = Some th ->
  thread_status th = RUNNING -> thread_space th = None -> (forall w, Threads.stack th = Some w -> w = STACK_FENCEPOST) ->
  readyList k = [] -> threadToBeDestroyed k = None -> sd = fresh (dom (semaphores k)) -> Disk_new be None = Ok d ->
  disk_wf d -> Disk.active d = false ->
  exists k', SynchDisk_new be None (St IntOn [] st k) = Ok (sd, St IntOn [] st k') /\ alone t th (Lit synch_disk_name) k'.
Proof.
  intros Hc Ht Hst Hsp Hstk Hr Hx Hsd E Hd Ha. eexists. split.
  - unfold SynchDisk_new. rewrite (bind_Ok (Semaphore_new _ _) _ _ sd (on_rest (fun k => set_semaphores
      (<[sd := mkSem (Lit synch_disk_name) 0 []]> (semaphores k)) k) (St IntOn [] st k))) by (rewrite Hsd; reflexivity).
    unfold bind. rewrite E. reflexivity.
  - split; try done; cbn; rewrite ?lget_lset; try done. apply lookup_insert_eq.
Qed.
End Runs.

(** Witness: a kernel with one thread and a fresh disk, beside a machine. *)
Definition one_thread : Thread := mkThread [109; 97; 105; 110] None RUNNING [] None.
Definition one_kernel : Kernel (Machine * Disk) :=
  mkKernel {[0%nat := one_thread]} [] 0%nat None {[0%nat := mkSem (Lit []) 0 []]} ∅ (example_machine, fresh_disk).

Lemma one_alone : alone 0%nat 0%nat one_thread (Lit []) one_kernel.
Proof. by split; try apply fresh_disk_wf; try apply lookup_singleton_eq. Qed.

Definition wired (h : VoidFunctionPtr) (a : Z) : M (Sim (Kernel (Machine * Disk))) unit :=
  match h with DiskDone => disk_handler 0%nat | _ => ret tt end.

Lemma SynchDisk_implements_transfers_witness :
  implements wired (fun _ => Ret tt) 0%nat 0%nat one_thread (Lit []) Statistics_new one_kernel ∅
    (SynchDisk_ReadSector wired (ret tt) 0%nat 77) (OpenFile.ReadSector 0 77 fresh_disk) /\
  implements wired (fun _ => Ret tt) 0%nat 0%nat one_thread (Lit []) Statistics_new one_kernel ∅
    (SynchDisk_WriteSector wired (ret tt) 0%nat 1024 (replicate 128 7)) Aborted /\
  run wired (ret tt) (fun _ => Ret tt) 2
    (mkConfig (pbind (SynchDisk_ReadSector wired (ret tt) 0%nat 77) (fun _ => Ret tt)) ∅
      (St IntOn [] Statistics_new (set_user (example_machine, set_active true fresh_disk) one_kernel))) = Aborted.
Proof.
  pose proof (fun n => SynchDisk_implements_transfers wired (fun _ => Ret tt) 0%nat (fun _ => eq_refl) 0%nat one_thread (Lit []) n
    Statistics_new one_kernel ∅ one_alone (lookup_empty _) ltac:(by vm_compute) ltac:(by vm_compute)
    (replicate 128 7) eq_refl) as H.
  split; [|split].
  - exact (proj1 (H 77)).
  - exact (proj1 (proj2 (H 1024))).
  - apply (proj2 (proj2 (H 77)) _ _ (fun _ => Ret tt)). reflexivity.
Defined.
