(* ===== verification/Switch.v ===== *)
(** * threads/switch.c, switch.h: the context switch on an Intel 386

    The machine instructions the assembly uses, SWITCH and ThreadRoot as they
    are written, and Thread::StackAllocate (threads/thread.cc) at the level of
    words. Threads.v takes what is shown here for granted: that SWITCH goes on
    with what the other thread was doing, and that a new thread calls
    InterruptEnable, its function and ThreadFinish. *)

#[local] Set Warnings "-clear-no-such-hyp".
From stdpp Require Import base tactics list numbers gmap.
From S2P Require Import Prelude Threads.

Local Open Scope Z_scope.

(** ** The processor

    Memory is words at multiples of four. An access to another address, or to
    one that is not mapped, is undefined. *)

Record Context := mkContext {
  eip : Z; eax : Z; ebx : Z; ecx : Z; edx : Z; esi : Z; edi : Z; ebp : Z; esp : Z
}.
Record Cpu := mkCpu { context : Context; words : gmap Z Z }.
Abbreviation C := (M Cpu).

Inductive reg := EAX | EBX | ECX | EDX | ESI | EDI | EBP | ESP.

Definition get_reg (r : reg) (c : Context) : Z :=
  match r with
  | EAX => eax c | EBX => ebx c | ECX => ecx c | EDX => edx c
  | ESI => esi c | EDI => edi c | EBP => ebp c | ESP => esp c
  end.
Definition set_reg (r : reg) (v : Z) (c : Context) : Context :=
  let '(mkContext ip a b c d si di bp sp) := c in
  match r with
  | EAX => mkContext ip v b c d si di bp sp
  | EBX => mkContext ip a v c d si di bp sp
  | ECX => mkContext ip a b v d si di bp sp
  | EDX => mkContext ip a b c v si di bp sp
  | ESI => mkContext ip a b c d v di bp sp
  | EDI => mkContext ip a b c d si v bp sp
  | EBP => mkContext ip a b c d si di v sp
  | ESP => mkContext ip a b c d si di bp v
  end.
Definition set_eip (v : Z) (c : Context) : Context :=
  let '(mkContext _ a b c d si di bp sp) := c in mkContext v a b c d si di bp sp.

Definition aligned (a : Z) : bool := (0 <=? a) && (a <? 2 ^ 32) && (a mod 4 =? 0).
Definition load (a : Z) : C Z :=
  s <- get ;; if aligned a then must (words s !! a) else undef.
Definition save (a v : Z) : C unit :=
  s <- get ;;
  _ <- (if aligned a then must (words s !! a) else undef) ;;
  put (mkCpu (context s) (<[a := v]> (words s))).

(** A register, [off(%reg)], a symbol. *)
Inductive operand := R (r : reg) | Mem (off : Z) (r : reg) | Sym (a : Z).

Definition read (o : operand) : C Z :=
  c <- gets context ;;
  match o with
  | R r => ret (get_reg r c)
  | Mem off r => load (u32 (off + get_reg r c))
  | Sym a => load a
  end.
Definition write (o : operand) (v : Z) : C unit :=
  c <- gets context ;;
  match o with
  | R r => modify (fun s => mkCpu (set_reg r v (context s)) (words s))
  | Mem off r => save (u32 (off + get_reg r c)) v
  | Sym a => save a v
  end.

Inductive instr :=
| movl (src dst : operand)
| pushl (src : operand)
| popl (dst : operand)
| calli (target : operand)  (* call *target *)
| retn.

Definition push (v : Z) : C unit :=
  sp <- read (R ESP) ;;
  write (R ESP) (u32 (sp - 4)) ;;; write (Mem 0 ESP) v.
Definition pop : C Z :=
  v <- read (Mem 0 ESP) ;;
  sp <- read (R ESP) ;;
  write (R ESP) (u32 (sp + 4)) ;;; ret v.
Definition jump (a : Z) : C unit := modify (fun s => mkCpu (set_eip a (context s)) (words s)).

(** [next] is the address of the next instruction. *)
Definition exec_instr (i : instr) (next : Z) : C unit :=
  match i with
  | movl src dst => v <- read src ;; write dst v ;;; jump next
  | pushl src => v <- read src ;; push v ;;; jump next
  | popl dst => v <- pop ;; write dst v ;;; jump next
  | calli target => a <- read target ;; push next ;;; jump a
  | retn => a <- pop ;; jump a
  end.

(** The program in memory: at an address an instruction and the address of the
    next one, since instructions have different lengths. *)
Definition Code := Z -> option (instr * Z).

Definition cpu_step (code : Code) : C unit :=
  s <- get ;;
  '(i, next) <- must (code (eip (context s))) ;;
  exec_instr i next.

Fixpoint cpu_run (code : Code) (n : nat) : C unit :=
  match n with
  | O => ret tt
  | S n => cpu_step code ;;; cpu_run code n
  end.

(** The instructions [l] are in memory from address [a] up to [b]. *)
Fixpoint placed (code : Code) (a : Z) (l : list instr) (b : Z) : Prop :=
  match l with
  | [] => a = b
  | i :: l => exists next, code a = Some (i, next) /\ placed code next l b
  end.

(** ** switch.h *)

Definition _ESP := 0.
Definition _EAX := 4.
Definition _EBX := 8.
Definition _ECX := 12.
Definition _EDX := 16.
Definition _EBP := 20.
Definition _ESI := 24.
Definition _EDI := 28.
Definition _PC := 32.

Definition PCState := _PC / 4 - 1.
Definition InitialPCState := _ESI / 4 - 1.
Definition InitialArgState := _EDX / 4 - 1.
Definition WhenDonePCState := _EDI / 4 - 1.
Definition StartupPCState := _ECX / 4 - 1.

Definition InitialPC := R ESI.
Definition InitialArg := R EDX.
Definition WhenDonePC := R EDI.
Definition StartupPC := R ECX.

(** ** switch.c *)

Definition ThreadRoot_code : list instr := [
  pushl (R EBP);
  movl (R ESP) (R EBP);
  pushl InitialArg;
  calli StartupPC;
  calli InitialPC;
  calli WhenDonePC;
  movl (R EBP) (R ESP);
  popl (R EBP);
  retn].

(** [_eax_save] is the address of the variable. *)
Definition SWITCH_save (_eax_save : Z) : list instr := [
  movl (R EAX) (Sym _eax_save);
  movl (Mem 4 ESP) (R EAX);
  movl (R EBX) (Mem _EBX EAX);
  movl (R ECX) (Mem _ECX EAX);
  movl (R EDX) (Mem _EDX EAX);
  movl (R ESI) (Mem _ESI EAX);
  movl (R EDI) (Mem _EDI EAX);
  movl (R EBP) (Mem _EBP EAX);
  movl (R ESP) (Mem _ESP EAX);
  movl (Sym _eax_save) (R EBX);
  movl (R EBX) (Mem _EAX EAX);
  movl (Mem 0 ESP) (R EBX);
  movl (R EBX) (Mem _PC EAX)].

Definition SWITCH_restore (_eax_save : Z) : list instr := [
  movl (Mem 8 ESP) (R EAX);
  movl (Mem _EAX EAX) (R EBX);
  movl (R EBX) (Sym _eax_save);
  movl (Mem _EBX EAX) (R EBX);
  movl (Mem _ECX EAX) (R ECX);
  movl (Mem _EDX EAX) (R EDX);
  movl (Mem _ESI EAX) (R ESI);
  movl (Mem _EDI EAX) (R EDI);
  movl (Mem _EBP EAX) (R EBP);
  movl (Mem _ESP EAX) (R ESP);
  movl (Mem _PC EAX) (R EAX);
  movl (R EAX) (Mem 4 ESP);
  movl (Sym _eax_save) (R EAX);
  retn].

Definition SWITCH_code (_eax_save : Z) : list instr := SWITCH_save _eax_save ++ SWITCH_restore _eax_save.

(** ** Thread::StackAllocate of threads/thread.cc

    [this] is the address of the Thread: stackTop is its first member, then
    comes machineState, then stack. [stack] is what AllocBoundedArray returns;
    the other arguments are the addresses of functions. *)

Definition MachineStateSize := 18.
Definition StackSize := 4 * 1024.

Definition machineState (this i : Z) : Z := this + 4 + 4 * i.
Definition stack_member (this : Z) : Z := this + 4 + 4 * MachineStateSize.

Definition StackAllocate (this stack func arg ThreadRoot InterruptEnable ThreadFinish : Z) : C unit :=
  save (stack_member this) stack ;;;
  save this (stack + 4 * (StackSize - 4)) ;;;
  stackTop <- load this ;;
  save this (stackTop - 4) ;;;
  stackTop <- load this ;;
  save stackTop ThreadRoot ;;;
  save stack STACK_FENCEPOST ;;;
  save (machineState this PCState) ThreadRoot ;;;
  save (machineState this StartupPCState) InterruptEnable ;;;
  save (machineState this InitialPCState) func ;;;
  save (machineState this InitialArgState) arg ;;;
  save (machineState this WhenDonePCState) ThreadFinish.

(** ** Running instructions *)

Lemma placed_app code a l1 l2 b :
  placed code a (l1 ++ l2) b <-> exists x, placed code a l1 x /\ placed code x l2 b.
Proof.
  revert a. induction l1 as [|i l1 IH]; intros a; cbn; [naive_solver|]. setoid_rewrite IH. naive_solver.
Qed.

Lemma aligned_spec a : aligned a = true <-> 0 <= a < 2 ^ 32 /\ a mod 4 = 0.
Proof. unfold aligned. rewrite !andb_true_iff, Z.leb_le, Z.ltb_lt, Z.eqb_eq. tauto. Qed.

Lemma load_word_run a c m v : aligned a = true -> m !! a = Some v -> load a (mkCpu c m) = Ok (v, mkCpu c m).
Proof. intros Ha Hv. unfold load. munfold. cbn. by rewrite Ha, Hv. Qed.

Lemma save_word_run a v c m : aligned a = true -> is_Some (m !! a) -> save a v (mkCpu c m) = Ok (tt, mkCpu c (<[a := v]> m)).
Proof. intros Ha [w Hw]. unfold save. munfold. cbn. by rewrite Ha, Hw. Qed.

Lemma cpu_run_app code n k s : cpu_run code (n + k) s = (cpu_run code n ;;; cpu_run code k) s.
Proof.
  revert s. induction n as [|n IH]; intros s; [done|]. cbn [Nat.add cpu_run].
  rewrite <- bind_assoc. apply bind_ext. intros _ s'. apply IH.
Qed.

Section Running.
Context (code : Code) (n : nat) (c : Context) (m : gmap Z Z) (next : Z).

Lemma run_instr i c' m' : code (eip c) = Some (i, next) -> exec_instr i next (mkCpu c m) = Ok (tt, mkCpu c' m') ->
  cpu_run code (S n) (mkCpu c m) = cpu_run code n (mkCpu c' m').
Proof.
  intros Hi E. change (cpu_run code (S n)) with (cpu_step code ;;; cpu_run code n). unfold bind at 1. unfold cpu_step. munfold.
  cbn [context]. rewrite Hi. by rewrite E.
Qed.

Lemma run_mov r d : code (eip c) = Some (movl (R r) (R d), next) ->
  cpu_run code (S n) (mkCpu c m) = cpu_run code n (mkCpu (set_eip next (set_reg d (get_reg r c) c)) m).
Proof. intros Hi. by apply (run_instr _ _ _ Hi). Qed.

Lemma run_load off b d a v : code (eip c) = Some (movl (Mem off b) (R d), next) ->
  u32 (off + get_reg b c) = a -> aligned a = true -> m !! a = Some v ->
  cpu_run code (S n) (mkCpu c m) = cpu_run code n (mkCpu (set_eip next (set_reg d v c)) m).
Proof.
  intros Hi <- Ha Hv. apply (run_instr _ _ _ Hi). unfold exec_instr, read, gets. unfold bind at 1 2. cbn [obind context].
  by rewrite (load_word_run _ _ _ _ Ha Hv).
Qed.

Lemma run_load_sym a d v : code (eip c) = Some (movl (Sym a) (R d), next) -> aligned a = true -> m !! a = Some v ->
  cpu_run code (S n) (mkCpu c m) = cpu_run code n (mkCpu (set_eip next (set_reg d v c)) m).
Proof.
  intros Hi Ha Hv. apply (run_instr _ _ _ Hi). unfold exec_instr, read, gets. unfold bind at 1 2. cbn [obind context].
  by rewrite (load_word_run _ _ _ _ Ha Hv).
Qed.

Lemma run_store r off b a : code (eip c) = Some (movl (R r) (Mem off b), next) ->
  u32 (off + get_reg b c) = a -> aligned a = true -> is_Some (m !! a) ->
  cpu_run code (S n) (mkCpu c m) = cpu_run code n (mkCpu (set_eip next c) (<[a := get_reg r c]> m)).
Proof.
  intros Hi <- Ha Hv. apply (run_instr _ _ _ Hi). unfold exec_instr, read, write, gets. munfold. cbn [context].
  by rewrite (save_word_run _ _ _ _ Ha Hv).
Qed.

Lemma run_store_sym r a : code (eip c) = Some (movl (R r) (Sym a), next) -> aligned a = true -> is_Some (m !! a) ->
  cpu_run code (S n) (mkCpu c m) = cpu_run code n (mkCpu (set_eip next c) (<[a := get_reg r c]> m)).
Proof.
  intros Hi Ha Hv. apply (run_instr _ _ _ Hi). unfold exec_instr, read, write, gets. munfold. cbn [context].
  by rewrite (save_word_run _ _ _ _ Ha Hv).
Qed.

Lemma push_run c' a v : u32 (esp c' - 4) = a -> aligned a = true -> is_Some (m !! a) ->
  push v (mkCpu c' m) = Ok (tt, mkCpu (set_reg ESP a c') (<[a := v]> m)).
Proof.
  intros Ea Ha Hv. unfold push, read, write, gets. munfold. cbn [context get_reg].
  rewrite Ea. destruct c'. cbn [set_reg get_reg esp context]. replace (u32 (0 + a)) with a.
  - by rewrite (save_word_run _ _ _ _ Ha Hv).
  - apply aligned_spec in Ha as [Hb _]. unfold u32. by rewrite Z.mod_small by lia.
Qed.

Lemma run_push r a : code (eip c) = Some (pushl (R r), next) ->
  u32 (esp c - 4) = a -> aligned a = true -> is_Some (m !! a) ->
  cpu_run code (S n) (mkCpu c m) = cpu_run code n (mkCpu (set_eip next (set_reg ESP a c)) (<[a := get_reg r c]> m)).
Proof.
  intros Hi Ea Ha Hv. apply (run_instr _ _ _ Hi). unfold exec_instr, read, gets. munfold.
  by rewrite (push_run _ _ _ Ea Ha Hv).
Qed.

Lemma run_call r a : code (eip c) = Some (calli (R r), next) ->
  u32 (esp c - 4) = a -> aligned a = true -> is_Some (m !! a) ->
  cpu_run code (S n) (mkCpu c m) = cpu_run code n (mkCpu (set_eip (get_reg r c) (set_reg ESP a c)) (<[a := next]> m)).
Proof.
  intros Hi Ea Ha Hv. apply (run_instr _ _ _ Hi). unfold exec_instr, read, gets. munfold.
  by rewrite (push_run _ _ _ Ea Ha Hv).
Qed.

Lemma run_ret v : code (eip c) = Some (retn, next) -> aligned (esp c) = true -> m !! (esp c) = Some v ->
  cpu_run code (S n) (mkCpu c m) = cpu_run code n (mkCpu (set_eip v (set_reg ESP (u32 (esp c + 4)) c)) m).
Proof.
  intros Hi Ha Hv. apply (run_instr _ _ _ Hi). unfold exec_instr, pop, read, write, gets. munfold. cbn [context get_reg].
  replace (u32 (0 + esp c)) with (esp c); [by rewrite (load_word_run _ _ _ _ Ha Hv)|].
  apply aligned_spec in Ha as [Hb _]. unfold u32. by rewrite Z.mod_small by lia.
Qed.
End Running.

(** ** Suspended threads *)

Definition cell (m : gmap Z Z) (a v : Z) : Prop := aligned a = true /\ m !! a = Some v.
Definition mapped (m : gmap Z Z) (a : Z) : Prop := aligned a = true /\ is_Some (m !! a).

(** The beginning of a Thread object: stackTop and the part of machineState
    that is used. *)
Definition offsets : list Z := [_ESP; _EAX; _EBX; _ECX; _EDX; _EBP; _ESI; _EDI; _PC].
Definition object_mapped (m : gmap Z Z) (t : Z) : Prop := Forall (fun k => mapped m (t + k)) offsets.

(** The thread [t] is suspended and will go on with the registers [c]: the
    object holds them, with the stack pointer below the return address, which
    is still on the stack; the word above it will be overwritten. *)
Record suspended (m : gmap Z Z) (t : Z) (c : Context) : Prop := {
  su_esp : cell m (t + _ESP) (esp c - 4);
  su_eax : cell m (t + _EAX) (eax c);
  su_ebx : cell m (t + _EBX) (ebx c);
  su_ecx : cell m (t + _ECX) (ecx c);
  su_edx : cell m (t + _EDX) (edx c);
  su_ebp : cell m (t + _EBP) (ebp c);
  su_esi : cell m (t + _ESI) (esi c);
  su_edi : cell m (t + _EDI) (edi c);
  su_pc : cell m (t + _PC) (eip c);
  su_ret : cell m (esp c - 4) (eip c);
  su_arg : mapped m (esp c)
}.

Definition apart (a n b k : Z) : Prop := a + n <= b \/ b + k <= a.

(** The memory of a suspended thread that must not change. *)
Definition outside (t : Z) (c : Context) (a : Z) : Prop := apart a 1 t 36 /\ apart a 1 (esp c - 4) 8.

Lemma suspended_frame m m' t c : suspended m t c ->
  (forall a, ~ outside t c a -> m' !! a = m !! a) -> suspended m' t c.
Proof.
  assert (forall a, ~ apart a 1 t 36 -> ~ outside t c a) as Ht by (unfold outside; tauto).
  assert (forall a, ~ apart a 1 (esp c - 4) 8 -> ~ outside t c a) as Hs by (unfold outside; tauto).
  intros [] H. unfold cell, mapped, _ESP, _EAX, _EBX, _ECX, _EDX, _EBP, _ESI, _EDI, _PC in *.
  constructor; unfold cell, mapped, _ESP, _EAX, _EBX, _ECX, _EDX, _EBP, _ESI, _EDI, _PC;
    rewrite H; try done; ((apply Ht; unfold apart; lia) || (apply Hs; unfold apart; lia)).
Qed.


Lemma aligned_u32 a b : aligned a = true -> b = a -> u32 b = a.
Proof. intros [Ha _]%aligned_spec ->. unfold u32. by apply Z.mod_small. Qed.

Lemma mapped_insert m a b v : mapped m a -> mapped (<[b := v]> m) a.
Proof. intros [Ha Hm]. split; [done|]. apply lookup_insert_is_Some'. by right. Qed.

Lemma cell_mapped m a v : cell m a v -> mapped m a.
Proof. intros [Ha Hm]. split; eauto. Qed.

Ltac offs := unfold _ESP, _EAX, _EBX, _ECX, _EDX, _EBP, _ESI, _EDI, _PC in *.

(** Look a word up in a memory that was written to. *)
Ltac look :=
  repeat first [rewrite lookup_insert_eq | rewrite lookup_insert_ne by (unfold apart in *; lia)]; done.

Definition resumed (ret : Z) (c : Context) : Context := set_eip ret (set_reg ESP (esp c + 4) c).

(** The next instruction [E] loads from an address whose alignment is [H], or
    stores at [a], which [H] says is mapped. *)
Ltac load_at E H :=
  match goal with |- cpu_run _ _ (mkCpu ?c ?m) = _ =>
    erewrite (run_load _ _ c m _ _ _ _ _ _ E); [|apply aligned_u32; [exact H|cbn; lia]|exact H|offs; look]
  end; cbn [set_eip set_reg].
Ltac store_at a E H :=
  match goal with |- cpu_run _ _ (mkCpu ?c ?m) = _ =>
    rewrite (run_store _ _ c m _ _ _ _ a E);
      [|apply aligned_u32; [apply H|cbn; lia]|apply H|repeat (apply lookup_insert_is_Some'; right); apply H]
  end; cbn [set_eip get_reg eax ebx ecx edx esi edi ebp esp].
Ltac load_sym E H :=
  match goal with |- cpu_run _ _ (mkCpu ?c ?m) = _ =>
    erewrite (run_load_sym _ _ c m _ _ _ _ E); [|apply H|offs; look]
  end; cbn [set_eip set_reg].
Ltac store_sym E H :=
  match goal with |- cpu_run _ _ (mkCpu ?c ?m) = _ =>
    rewrite (run_store_sym _ _ c m _ _ _ E); [|apply H|repeat (apply lookup_insert_is_Some'; right); apply H]
  end; cbn [set_eip get_reg eax ebx ecx edx esi edi ebp esp].

Section SwitchSpec.
Context (_eax_save SWITCH : Z) (code : Code) (switch_end : Z).
Hypothesis Hcode : placed code SWITCH (SWITCH_code _eax_save) switch_end.

Definition saved_memory (c : Context) (t ret : Z) (m : gmap Z Z) : gmap Z Z :=
  <[t + _PC := ret]> (<[t + _EAX := eax c]> (<[t + _ESP := esp c]> (<[t + _EBP := ebp c]> (<[t + _EDI := edi c]>
  (<[t + _ESI := esi c]> (<[t + _EDX := edx c]> (<[t + _ECX := ecx c]> (<[t + _EBX := ebx c]>
  (<[_eax_save := eax c]> m))))))))).

Lemma SWITCH_saves c m t ret :
  eip c = SWITCH -> cell m (esp c) ret -> cell m (esp c + 4) t -> object_mapped m t -> mapped m _eax_save ->
  apart _eax_save 4 t 36 -> apart _eax_save 4 (esp c) 12 -> apart (esp c) 12 t 36 ->
  exists ip,
    cpu_run code 13 (mkCpu c m) =
      Ok (tt, mkCpu (mkContext ip t ret (ecx c) (edx c) (esi c) (edi c) (ebp c) (esp c)) (saved_memory c t ret m)) /\
    placed code ip (SWITCH_restore _eax_save) switch_end.
Proof using Hcode.
  intros Hip [Hr1 Hr2] [Ha1 Ha2] Ht Hes Hes_t Hes_sp Hsp_t.
  apply placed_app in Hcode as (ip & Hs & Hr). exists ip. split; [|done].
  destruct c as [ip0 a b cx d si di bp sp]. cbn in Hip. subst ip0. unfold saved_memory. cbn [eax ebx ecx edx esi edi ebp esp] in *.
  unfold object_mapped, offsets in Ht. rewrite !Forall_cons in Ht.
  destruct Ht as (H1 & H2 & H3 & H4 & H5 & H6 & H7 & H8 & H9 & _).
  cbn [placed SWITCH_save] in Hs. destruct Hs as (x1 & E1 & x2 & E2 & x3 & E3 & x4 & E4 & x5 & E5 & x6 & E6 & x7 & E7 &
    x8 & E8 & x9 & E9 & x10 & E10 & x11 & E11 & x12 & E12 & x13 & E13 & Hend). subst ip.
  store_sym E1 Hes.
  load_at E2 Ha1.
  store_at (t + _EBX) E3 H3. store_at (t + _ECX) E4 H4. store_at (t + _EDX) E5 H5. store_at (t + _ESI) E6 H7.
  store_at (t + _EDI) E7 H8. store_at (t + _EBP) E8 H6. store_at (t + _ESP) E9 H1.
  load_sym E10 Hes.
  store_at (t + _EAX) E11 H2. load_at E12 Hr1. store_at (t + _PC) E13 H9. done.
Qed.
Lemma SWITCH_restores c m t c2 :
  placed code (eip c) (SWITCH_restore _eax_save) switch_end ->
  cell m (esp c + 8) t -> suspended m t c2 -> mapped m _eax_save ->
  apart _eax_save 4 t 36 -> apart _eax_save 4 (esp c2 - 4) 8 ->
  cpu_run code 14 (mkCpu c m) = Ok (tt, mkCpu c2 (<[esp c2 := eip c2]> (<[_eax_save := eax c2]> m))).
Proof.
  intros Hr [Ht1 Ht2] Hsu Hes Hes_t Hes_sp. destruct Hsu as [[H1 G1] [H2 G2] [H3 G3] [H4 G4] [H5 G5] [H6 G6] [H7 G7] [H8 G8] [H9 G9] [H10 G10] H11].
  destruct c as [ip a b cx d si di bp sp], c2 as [ip2 a2 b2 cx2 d2 si2 di2 bp2 sp2].
  cbn [eip eax ebx ecx edx esi edi ebp esp] in *.
  cbn [placed SWITCH_restore] in Hr. destruct Hr as (x1 & E1 & x2 & E2 & x3 & E3 & x4 & E4 & x5 & E5 & x6 & E6 & x7 & E7 &
    x8 & E8 & x9 & E9 & x10 & E10 & x11 & E11 & x12 & E12 & x13 & E13 & x14 & E14 & _).
  load_at E1 Ht1. load_at E2 H2. store_sym E3 Hes.
  load_at E4 H3. load_at E5 H4. load_at E6 H5. load_at E7 H7. load_at E8 H8. load_at E9 H6. load_at E10 H1. load_at E11 H9.
  store_at sp2 E12 H11. load_sym E13 Hes.
  match goal with |- cpu_run _ _ (mkCpu ?c ?m) = _ => rewrite (run_ret _ _ c m _ ip2 E14); [|exact H10|cbn [esp]; look] end.
  cbn [set_eip set_reg esp]. rewrite (aligned_u32 sp2); [done|apply H11|lia].
Qed.

(** The thread [t] runs, with its stack pointer at [sp]; the others are
    suspended. Thread objects, the variable of the assembly and the tops of the
    stacks do not overlap. *)
Record laid_out (t sp : Z) (others : gmap Z Context) : Prop := {
  lo_running : apart _eax_save 4 t 36 /\ apart _eax_save 4 sp 12 /\ apart sp 12 t 36;
  lo_others : forall u c, others !! u = Some c ->
    apart _eax_save 4 u 36 /\ apart _eax_save 4 (esp c - 4) 8 /\
    apart u 36 t 36 /\ apart u 36 sp 12 /\ apart (esp c - 4) 8 t 36 /\ apart (esp c - 4) 8 sp 12;
  lo_pairs : forall u c u' c', others !! u = Some c -> others !! u' = Some c' -> u <> u' ->
    apart (esp c - 4) 8 u' 36 /\ apart (esp c - 4) 8 (esp c' - 4) 8
}.

Lemma saved_memory_other c t ret m a :
  apart a 1 t 36 -> apart a 1 _eax_save 4 -> saved_memory c t ret m !! a = m !! a.
Proof. intros Ht Hes. unfold saved_memory. offs. look. Qed.

Lemma mapped_saved c t ret m a : mapped m a -> mapped (saved_memory c t ret m) a.
Proof. intros H. unfold saved_memory. by repeat apply mapped_insert. Qed.

Lemma saved_suspended c m t ret :
  cell m (esp c) ret -> mapped m (esp c + 4) -> object_mapped m t -> 
  apart _eax_save 4 t 36 -> apart _eax_save 4 (esp c) 12 -> apart (esp c) 12 t 36 ->
  suspended (saved_memory c t ret m) t (resumed ret c).
Proof.
  intros [Hr1 Hr2] [Ha1 Ha2] Ht Hes_t Hes_sp Hsp_t.
  unfold object_mapped, offsets in Ht. rewrite !Forall_cons in Ht.
  destruct Ht as ([H1 _] & [H2 _] & [H3 _] & [H4 _] & [H5 _] & [H6 _] & [H7 _] & [H8 _] & [H9 _] & _).
  destruct c as [ip a b cx d si di bp sp]. unfold resumed.
  constructor; cbn [set_eip set_reg eip eax ebx ecx edx esi edi ebp esp] in *; rewrite ?Z.add_simpl_r;
    (split; [assumption|]); try (unfold saved_memory; offs; look).
Qed.

Section LaidOut.
Context (c : Context) (t ret : Z) (others : gmap Z Context) (Hl : laid_out t (esp c) others).

Lemma esp_resumed : esp (resumed ret c) - 4 = esp c.
Proof. destruct c. unfold resumed. cbn. lia. Qed.

Lemma laid_out_variable u cu : <[t := resumed ret c]> others !! u = Some cu ->
  apart _eax_save 4 u 36 /\ apart _eax_save 4 (esp cu - 4) 8.
Proof using Hl.
  destruct Hl as [(L1 & L2 & L3) Lo Lp]. intros [[<- <-]|[_ Hu]]%lookup_insert_Some; [|destruct (Lo _ _ Hu); tauto].
  rewrite esp_resumed. unfold apart in *. lia.
Qed.

Lemma laid_out_stacks u cu v cv :
  <[t := resumed ret c]> others !! u = Some cu -> <[t := resumed ret c]> others !! v = Some cv -> u <> v ->
  apart u 36 (esp cv - 4) 8 /\ apart (esp cu - 4) 8 (esp cv - 4) 8.
Proof using Hl.
  destruct Hl as [(L1 & L2 & L3) Lo Lp].
  intros [[<- <-]|[_ Hu]]%lookup_insert_Some [[<- <-]|[_ Hv]]%lookup_insert_Some Hne; [done|..]; rewrite ?esp_resumed.
  - destruct (Lo _ _ Hv). unfold apart in *. lia.
  - destruct (Lo _ _ Hu). unfold apart in *. lia.
  - destruct (Lp _ _ _ _ Hu Hv Hne), (Lp _ _ _ _ Hv Hu); [congruence|]. unfold apart in *. lia.
Qed.
End LaidOut.
End SwitchSpec.

(** C3: the context switch of the Intel 386 turns one processor into one
    register file per thread: if the running thread calls SWITCH(t1, t2) and
    all other threads are suspended, SWITCH ends in the registers of t2, t1 is
    suspended with all its registers behind the call, every other thread is as
    it was, and the only words written are the saved registers of t1, _eax_save
    and the word above the return address of t2, its first argument. This
    includes switching to itself. *)
Theorem SWITCH_is_coroutine _eax_save SWITCH code switch_end others c m t1 t2 ret c2 :
  placed code SWITCH (SWITCH_code _eax_save) switch_end ->
  eip c = SWITCH -> cell m (esp c) ret -> cell m (esp c + 4) t1 -> cell m (esp c + 8) t2 ->
  object_mapped m t1 -> mapped m _eax_save ->
  laid_out _eax_save t1 (esp c) others ->
  map_Forall (suspended m) others ->
  <[t1 := resumed ret c]> others !! t2 = Some c2 ->
  exists m', cpu_run code 27 (mkCpu c m) = Ok (tt, mkCpu c2 m') /\
    map_Forall (suspended m') (delete t2 (<[t1 := resumed ret c]> others)) /\
    forall a, apart a 1 t1 36 -> apart a 1 _eax_save 4 -> a <> esp c2 -> m' !! a = m !! a.
Proof.
  intros Hcode Hip Hret Harg1 Harg2 Ht Hes Hl Hothers H2. destruct (lo_running _ _ _ _ Hl) as (L1 & L2 & L3).
  destruct (SWITCH_saves _ _ _ _ Hcode c m t1 ret) as (ip & E1 & Hr); try done.
  set (m1 := saved_memory _eax_save c t1 ret m) in *.
  assert (forall a, apart a 1 t1 36 -> apart a 1 _eax_save 4 -> m1 !! a = m !! a) as Hm1 by (intros; by apply saved_memory_other).
  assert (map_Forall (suspended m1) (<[t1 := resumed ret c]> others)) as Hsu1.
  { apply map_Forall_insert_2; [by apply saved_suspended; try done; eapply cell_mapped|].
    intros u cu Hu. apply (suspended_frame m); [by apply Hothers|]. intros a Ha.
    destruct (lo_others _ _ _ _ Hl u cu Hu) as (? & ? & ? & ? & ? & ?).
    unfold outside in Ha. apply Hm1; unfold apart in *; lia. }
  destruct (laid_out_variable _ _ _ ret _ Hl _ _ H2) as [Hes2 Hes2'].
  exists (<[esp c2 := eip c2]> (<[_eax_save := eax c2]> m1)). split; [|split].
  - change 27%nat with (13 + 14)%nat. rewrite cpu_run_app. mrun E1.
    apply (SWITCH_restores _ _ switch_end) with (t := t2); try done.
    + cbn [esp]. destruct Harg2. split; [done|]. rewrite Hm1; [done|unfold apart in *; lia..].
    + by apply Hsu1.
    + apply mapped_saved, Hes.
  - intros u cu [Hne Hu]%lookup_delete_Some. apply (suspended_frame m1); [by apply Hsu1|]. intros a Ha.
    destruct (laid_out_variable _ _ _ ret _ Hl _ _ Hu) as [? ?], (laid_out_stacks _ _ _ ret _ Hl _ _ _ _ Hu H2) as [? ?]; [done|].
    unfold outside in Ha. rewrite !lookup_insert_ne; [done|unfold apart in *; lia..].
  - intros a Ha1 Ha2 Ha3. rewrite lookup_insert_ne, lookup_insert_ne by (unfold apart in *; lia). by apply Hm1.
Qed.

(** A small memory: the thread at 200 runs with its stack pointer at 400, the
    thread at 300 is suspended. *)
Definition list_code (a : Z) (l : list instr) : Code := fun x => (fun i => (i, x + 1)) <$> zlookup l (x - a).
Definition example_context : Context := mkContext 9 11 12 13 14 15 16 17 504.
Definition example_memory : gmap Z Z := list_to_map (
  [(100, 0); (400, 7); (404, 200); (408, 300); (300, 500); (304, 11); (308, 12); (312, 13); (316, 14); (320, 17);
   (324, 15); (328, 16); (332, 9); (500, 9); (504, 0)] ++ ((fun k => (200 + k, 0)) <$> offsets)).
Definition example_caller : Context := mkContext 1000 1 2 3 4 5 6 7 400.

Lemma SWITCH_is_coroutine_witness : exists m',
  cpu_run (list_code 1000 (SWITCH_code 100)) 27 (mkCpu example_caller example_memory) = Ok (tt, mkCpu example_context m') /\
  suspended m' 200 (mkContext 7 1 2 3 4 5 6 7 404).
Proof.
  destruct (SWITCH_is_coroutine 100 1000 (list_code 1000 (SWITCH_code 100)) 1027 {[300 := example_context]}
    example_caller example_memory 200 300 7 example_context) as (m' & E & Hs & _).
  - do 27 (eexists; split; [reflexivity|]). reflexivity.
  - reflexivity.
  - split; vm_compute; reflexivity.
  - split; vm_compute; reflexivity.
  - split; vm_compute; reflexivity.
  - repeat (apply Forall_cons_2; [split; [|eexists]; vm_compute; reflexivity|]). apply Forall_nil_2.
  - split; [|eexists]; vm_compute; reflexivity.
  - constructor; [unfold apart; cbn; lia| |].
    + intros u c [<- <-]%lookup_singleton_Some. unfold apart. cbn. lia.
    + intros u c u' c' [<- <-]%lookup_singleton_Some [<- <-]%lookup_singleton_Some Hne. done.
  - apply map_Forall_singleton. constructor; split; first [vm_compute; reflexivity|eexists; vm_compute; reflexivity].
  - rewrite lookup_insert_ne by done. apply lookup_singleton_eq.
  - exists m'. split; [exact E|]. apply (Hs 200 _). rewrite lookup_delete_ne by done. apply lookup_insert_eq.
Defined.

(** ** A new thread *)

(** [n] words from [a] on. *)
Definition array_mapped (m : gmap Z Z) (a n : Z) : Prop := forall i, 0 <= i < n -> mapped m (a + 4 * i).

Lemma array_word m a n b : array_mapped m a n -> a <= b < a + 4 * n -> (b - a) mod 4 = 0 -> mapped m b.
Proof.
  intros H Hb Hm. apply Z.mod_divide in Hm as [k Hk]; [|lia]. replace b with (a + 4 * k) by lia. apply H. lia.
Qed.

(** The registers with which a new thread starts: those that StackAllocate does
    not set are what [new] left in the object. *)
Definition root_context (garbage : gmap Z Z) (this stack func arg ThreadRoot InterruptEnable ThreadFinish : Z) : Context :=
  let old k := default 0 (garbage !! (this + k)) in
  mkContext ThreadRoot (old _EAX) (old _EBX) InterruptEnable arg func ThreadFinish (old _EBP) (stack + 4 * (StackSize - 4)).

(** The indices of switch.h are the offsets of the assembly. *)
Lemma machineState_offset this k : (k + 4) mod 4 = 0 -> machineState this (k / 4 - 1) = this + k.
Proof. intros H. unfold machineState. dlia. Qed.

Ltac save_at H :=
  match goal with |- (save ?a ?v ;;; _) (mkCpu ?c ?m) = _ =>
    rewrite (bind_Ok _ _ _ _ _ (save_word_run a v c m (proj1 H) ltac:(repeat (apply lookup_insert_is_Some'; right); apply H)))
  end; cbn beta.

Lemma StackAllocate_run c m this stack func arg root enable finish :
  object_mapped m this -> mapped m (stack_member this) -> array_mapped m stack StackSize ->
  apart this 80 stack (4 * StackSize) ->
  exists m', StackAllocate this stack func arg root enable finish (mkCpu c m) = Ok (tt, mkCpu c m') /\
    suspended m' this (root_context m this stack func arg root enable finish) /\
    cell m' stack STACK_FENCEPOST /\
    forall a, apart a 1 this 80 -> apart a 1 stack (4 * StackSize) -> m' !! a = m !! a.
Proof.
  intros Ho Hm Hs Hap. unfold StackAllocate, root_context, StackSize in *. change (4 * 1024) with 4096 in *.
  unfold object_mapped, offsets in Ho. rewrite !Forall_cons in Ho.
  destruct Ho as (H1 & H2 & H3 & H4 & H5 & H6 & H7 & H8 & H9 & _).
  assert (mapped m (stack + 4 * (4096 - 4) - 4)) as T1 by (apply (array_word _ _ _ _ Hs); [lia|]; replace (_ - _) with (4 * 4091) by lia; done).
  assert (mapped m (stack + 4 * (4096 - 4))) as T2 by (apply (array_word _ _ _ _ Hs); [lia|]; replace (_ - _) with (4 * 4092) by lia; done).
  assert (mapped m stack) as T0 by (apply (array_word _ _ _ _ Hs); [lia|]; by rewrite Z.sub_diag).
  unfold PCState, StartupPCState, InitialPCState, InitialArgState, WhenDonePCState.
  rewrite !machineState_offset by done.
  assert (mapped m this) as H0 by (unfold _ESP in H1; by rewrite Z.add_0_r in H1).
  eexists. split.
  { save_at Hm. save_at H0.
    erewrite bind_Ok; [|apply (load_word_run this); [apply H0|apply lookup_insert_eq]]. cbn beta.
    save_at H0.
    erewrite bind_Ok; [|apply (load_word_run this); [apply H0|apply lookup_insert_eq]]. cbn beta.
    save_at T1. save_at T0. save_at H9. save_at H4. save_at H7. save_at H5.
    rewrite save_word_run; [reflexivity|apply H8|repeat (apply lookup_insert_is_Some'; right); apply H8]. }
  assert (forall k, mapped m (this + k) -> Some (default 0 (m !! (this + k))) = m !! (this + k)) as Hold
    by (intros k [_ [v Hv]]; by rewrite Hv).
  unfold stack_member, MachineStateSize. offs. rewrite !Z.add_0_r in *.
  split; [|split]; [constructor| |]; cbn [eip eax ebx ecx edx esi edi ebp esp]; offs; rewrite ?Z.add_0_r;
    try (split; [first [apply H1|apply H2|apply H3|apply H4|apply H5|apply H6|apply H7|apply H8|apply H9|apply T1|apply T2|apply T0]|]);
    rewrite ?Hold by done; try look.
  - repeat (apply lookup_insert_is_Some'; right). apply T2.
  - intros a Ha1 Ha2. look.
Qed.

Ltac by_push a E H :=
  match goal with |- cpu_run _ _ (mkCpu ?c ?m) = _ =>
    rewrite (run_push _ _ c m _ _ a E); [|apply aligned_u32; [apply H|cbn; lia]|apply H|repeat (apply lookup_insert_is_Some'; right); apply H]
  end; cbn [set_eip set_reg get_reg eax ebx ecx edx esi edi ebp esp].
Ltac by_call a E H :=
  match goal with |- cpu_run _ _ (mkCpu ?c ?m) = _ =>
    rewrite (run_call _ _ c m _ _ a E); [|apply aligned_u32; [apply H|cbn; lia]|apply H|repeat (apply lookup_insert_is_Some'; right); apply H]
  end; cbn [set_eip set_reg get_reg eax ebx ecx edx esi edi ebp esp].

(** What a C function with [n] words of arguments does, called in [s] on the
    stack that ends at [top], when it has returned in [s']: the registers that
    it must save and the frames of its callers are as they were (the calling
    convention of the 386; the function may have switched to other threads in
    between). *)
Record returned (n top : Z) (s s' : Cpu) : Prop := {
  ret_eip : words s !! esp (context s) = Some (eip (context s'));
  ret_esp : esp (context s') = esp (context s) + 4;
  ret_ebx : ebx (context s') = ebx (context s);
  ret_esi : esi (context s') = esi (context s);
  ret_edi : edi (context s') = edi (context s);
  ret_ebp : ebp (context s') = ebp (context s);
  ret_frames : forall a, esp (context s) + 4 + 4 * n <= a < top -> words s' !! a = words s !! a;
  ret_mapped : forall a, mapped (words s) a -> mapped (words s') a
}.

(** C4: Fork makes a thread that calls InterruptEnable, then its function with
    its argument, then ThreadFinish: StackAllocate leaves the thread suspended
    at ThreadRoot, on top of its own stack, with the fence post at the bottom,
    and writes nothing else; ThreadRoot then makes the three calls one after
    the other, whatever the functions do that C functions may do. *)
Theorem new_thread_calls c m this stack func arg root enable finish code root_end :
  object_mapped m this -> mapped m (stack_member this) -> array_mapped m stack StackSize ->
  apart this 80 stack (4 * StackSize) -> placed code root ThreadRoot_code root_end ->
  let r := root_context m this stack func arg root enable finish in
  exists m', StackAllocate this stack func arg root enable finish (mkCpu c m) = Ok (tt, mkCpu c m') /\
    suspended m' this r /\ cell m' stack STACK_FENCEPOST /\
    (forall a, apart a 1 this 80 -> apart a 1 stack (4 * StackSize) -> m' !! a = m !! a) /\
    forall m1, array_mapped m1 stack StackSize ->
      exists s1, cpu_run code 4 (mkCpu r m1) = Ok (tt, s1) /\ eip (context s1) = enable /\
      forall s2, returned 0 (esp r) s1 s2 ->
        exists s3, cpu_run code 1 s2 = Ok (tt, s3) /\ eip (context s3) = func /\
          cell (words s3) (esp (context s3) + 4) arg /\
        forall s4, returned 1 (esp r) s3 s4 ->
          exists s5, cpu_run code 1 s4 = Ok (tt, s5) /\ eip (context s5) = finish /\
            stack <= esp (context s5).
Proof.
  intros Ho Hm Hs Hap Hcode r.
  destruct (StackAllocate_run c m this stack func arg root enable finish) as (m' & E & H1 & H2 & H3); try done.
  exists m'. split; [done|]. split; [done|]. split; [done|]. split; [done|]. intros m1 Hm1.
  subst r. unfold root_context, StackSize in *. change (4 * (4 * 1024 - 4)) with 16368. change (4 * 1024) with 4096 in *.
  cbn [placed ThreadRoot_code] in Hcode. destruct Hcode as (x1 & E1 & x2 & E2 & x3 & E3 & x4 & E4 & x5 & E5 & x6 & E6 & _).
  assert (forall k, 0 <= k < 4096 -> mapped m1 (stack + 16368 - 4 * (4092 - k))) as Hw
    by (intros k Hk; replace (_ - _) with (stack + 4 * k) by lia; by apply Hm1).
  pose proof (Hw 4091 ltac:(done)) as W1. pose proof (Hw 4090 ltac:(done)) as W2. pose proof (Hw 4089 ltac:(done)) as W3.
  change (4 * (4092 - 4091)) with 4 in W1. change (4 * (4092 - 4090)) with 8 in W2. change (4 * (4092 - 4089)) with 12 in W3.
  set (sp := stack + 16368) in *. unfold StartupPC, InitialPC, WhenDonePC, InitialArg in *.
  eexists. split.
  { by_push (sp - 4) E1 W1.
    match goal with |- cpu_run _ _ (mkCpu ?c ?m) = _ => rewrite (run_mov _ _ c m _ _ _ E2) end; cbn [set_eip set_reg get_reg esp].
    by_push (sp - 8) E3 W2. by_call (sp - 12) E4 W3. reflexivity. }
  cbn [context words eip esp]. split; [done|].
  intros [c2 m2] [I1 I2 _ I4 I5 _ I7 I8]. destruct c2. cbn [context words eip esp ebx esi edi ebp] in *. subst.
  rewrite lookup_insert_eq in I1. injection I1 as <-.
  pose proof (I8 _ (mapped_insert _ _ _ _ (mapped_insert _ _ _ _ (mapped_insert _ _ _ _ W3)))) as W3'.
  eexists. split; [by_call (sp - 12) E5 W3'; reflexivity|]. cbn [context words eip esp]. split; [done|]. split.
  { split; [replace (sp - 12 + 4) with (sp - 8) by lia; apply W2|]. replace (sp - 12 + 4) with (sp - 8) by lia. rewrite lookup_insert_ne, I7 by lia. look. }
  intros [c4 m4] [J1 J2 _ J4 J5 _ J7 J8]. destruct c4. cbn [context words eip esp ebx esi edi ebp] in *. subst.
  rewrite lookup_insert_eq in J1. injection J1 as <-.
  eexists. split; [by_call (sp - 12) E6 (J8 _ (mapped_insert _ _ _ _ W3')); reflexivity|]. cbn [context words eip esp].
  split; [done|]. unfold sp. lia.
Qed.

Definition new_memory : gmap Z Z :=
  gset_to_gmap 0 (list_to_set ((fun i => 4 * i) <$> seqZ 0 5000)).

Lemma new_memory_mapped a : 0 <= a < 20000 -> a mod 4 = 0 -> mapped new_memory a.
Proof.
  intros Ha Hm. split; [apply aligned_spec; lia|]. exists 0. apply lookup_gset_to_gmap_Some. split; [|done].
  apply elem_of_list_to_set, list_elem_of_fmap. exists (a / 4). split; [dlia|]. apply elem_of_seqZ. dlia.
Qed.

Lemma new_thread_calls_witness : exists m',
  StackAllocate 100 400 3000 42 2000 3001 3002 (mkCpu example_caller new_memory) = Ok (tt, mkCpu example_caller m') /\
  suspended m' 100 (mkContext 2000 0 0 3001 42 3000 3002 0 16768).
Proof.
  destruct (new_thread_calls example_caller new_memory 100 400 3000 42 2000 3001 3002
    (list_code 2000 ThreadRoot_code) 2009) as (m' & E & Hs & _).
  - repeat (apply Forall_cons_2; [apply new_memory_mapped; [unfold _ESP, _EAX, _EBX, _ECX, _EDX, _EBP, _ESI, _EDI, _PC; lia|reflexivity]|]).
    apply Forall_nil_2.
  - apply new_memory_mapped; [unfold stack_member, MachineStateSize; lia|reflexivity].
  - intros i Hi. apply new_memory_mapped; unfold StackSize in *; [lia|]. dlia.
  - unfold apart, StackSize. lia.
  - do 9 (eexists; split; [reflexivity|]). reflexivity.
  - exists m'. split; [exact E|]. 
    assert (forall k, 0 <= 100 + k < 20000 -> (100 + k) mod 4 = 0 -> default 0 (new_memory !! (100 + k)) = 0) as H0.
    { intros k H1 H2. destruct (new_memory_mapped _ H1 H2) as [_ [v Hv]]. rewrite Hv. by apply lookup_gset_to_gmap_Some in Hv as [_ ->]. }
    unfold root_context in Hs. cbv zeta in Hs.
    rewrite (H0 _EAX), (H0 _EBX), (H0 _EBP) in Hs by (first [reflexivity | unfold _EAX, _EBX, _EBP; lia]). exact Hs.
Defined.
