(* ===== verification/SwitchRisc.v ===== *)
(** * threads/switch.c, switch.h: the context switch on DEC MIPS and HP PA-RISC

    The two hosts of the assembly whose instructions are loads, stores and
    jumps with a delay slot, which is written out: the assembler of the MIPS
    puts a nop behind a jump, the code for the PA-RISC fills the slot itself.
    The code for the SPARC needs the trap that flushes its register windows,
    which the system headers of that host define. *)

From stdpp Require Import base tactics list numbers gmap.
From S2P Require Import Prelude Threads Switch.

Local Open Scope Z_scope.

(** ** The processor *)

Record Risc := mkRisc { pc : Z; npc : Z; gpr : Z -> Z; ram : gmap Z Z }.
Abbreviation P := (M Risc).

(** Register 0 is zero. *)
Definition get_gpr (r : Z) (f : Z -> Z) : Z := if r =? 0 then 0 else f r.
Definition set_gpr (r v : Z) (f : Z -> Z) : Z -> Z := fun x => if x =? r then v else f x.

Inductive risc_instr :=
| sw (r off base : Z)
| lw (r off base : Z)
| or_ (d a b : Z)
| jalr (link target : Z)
| jr (target : Z)
| nop.

(** The effect on registers and memory, and where the instruction behind the
    delay slot is, if it is a jump. *)
Definition risc_exec (i : risc_instr) : P (option Z) :=
  s <- get ;;
  let reg r := get_gpr r (gpr s) in
  match i with
  | sw r off base =>
      let a := u32 (reg base + off) in
      _ <- (if aligned a then must (ram s !! a) else undef) ;;
      put (mkRisc (pc s) (npc s) (gpr s) (<[a := reg r]> (ram s))) ;;; ret None
  | lw r off base =>
      let a := u32 (reg base + off) in
      v <- (if aligned a then must (ram s !! a) else undef) ;;
      put (mkRisc (pc s) (npc s) (set_gpr r v (gpr s)) (ram s)) ;;; ret None
  | or_ d a b => put (mkRisc (pc s) (npc s) (set_gpr d (Z.lor (reg a) (reg b)) (gpr s)) (ram s)) ;;; ret None
  | jalr link target =>
      put (mkRisc (pc s) (npc s) (set_gpr link (pc s + 8) (gpr s)) (ram s)) ;;; ret (Some (reg target))
  | jr target => ret (Some (reg target))
  | nop => ret None
  end.

Definition risc_step (code : Z -> option risc_instr) : P unit :=
  s <- get ;;
  i <- must (code (pc s)) ;;
  target <- risc_exec i ;;
  modify (fun s => mkRisc (npc s) (default (npc s + 4) target) (gpr s) (ram s)).

Fixpoint risc_run (code : Z -> option risc_instr) (n : nat) : P unit :=
  match n with
  | O => ret tt
  | S n => risc_step code ;;; risc_run code n
  end.

(** ** switch.h

    The offsets in a Thread object, the same for both hosts but that of the
    return address. *)

Definition SP := 0.
Definition S0 := 4.
Definition S1 := 8.
Definition S2 := 12.
Definition S3 := 16.
Definition S4 := 20.
Definition S5 := 24.
Definition S6 := 28.
Definition S7 := 32.

(** *** DEC MIPS *)

Definition FP := 36.
Definition PC_mips := 40.

Definition z := 0.
Definition a0 := 4.
Definition a1 := 5.
Definition s0 := 16.
Definition s1 := 17.
Definition s2 := 18.
Definition s3 := 19.
Definition s4 := 20.
Definition s5 := 21.
Definition s6 := 22.
Definition s7 := 23.
Definition sp_mips := 29.
Definition fp := 30.
Definition ra := 31.

Definition InitialPC_mips := s0.
Definition InitialArg_mips := s1.
Definition WhenDonePC_mips := s2.
Definition StartupPC_mips := s3.

(** *** HP PA-RISC *)

Definition S8 := 36.
Definition S9 := 40.
Definition S10 := 44.
Definition S11 := 48.
Definition S12 := 52.
Definition S13 := 56.
Definition S14 := 60.
Definition S15 := 64.
Definition PC_snake := 68.

Definition rp := 2.
Definition sp_snake := 30.
Definition arg0 := 26.
Definition arg1 := 25.

(** ** switch.c *)

Definition ThreadRoot_mips : list risc_instr := [
  or_ fp z z;
  jalr ra StartupPC_mips; nop;
  or_ a0 InitialArg_mips z;
  jalr ra InitialPC_mips; nop;
  jalr ra WhenDonePC_mips; nop].

Definition SWITCH_mips : list risc_instr := [
  sw sp_mips SP a0;
  sw s0 S0 a0; sw s1 S1 a0; sw s2 S2 a0; sw s3 S3 a0;
  sw s4 S4 a0; sw s5 S5 a0; sw s6 S6 a0; sw s7 S7 a0;
  sw fp FP a0;
  sw ra PC_mips a0;
  lw sp_mips SP a1;
  lw s0 S0 a1; lw s1 S1 a1; lw s2 S2 a1; lw s3 S3 a1;
  lw s4 S4 a1; lw s5 S5 a1; lw s6 S6 a1; lw s7 S7 a1;
  lw fp FP a1;
  lw ra PC_mips a1;
  jr ra; nop].

Definition ThreadRoot_snake : list risc_instr := [
  jalr 31 6;
  or_ rp 31 0;
  or_ arg0 4 0;
  jalr 31 3;
  or_ rp 31 0;
  jalr 31 5;
  or_ rp 31 0].

Definition SWITCH_snake : list risc_instr := [
  sw sp_snake SP arg0;
  sw 3 S0 arg0; sw 4 S1 arg0; sw 5 S2 arg0; sw 6 S3 arg0;
  sw 7 S4 arg0; sw 8 S5 arg0; sw 9 S6 arg0; sw 10 S7 arg0;
  sw 11 S8 arg0; sw 12 S9 arg0; sw 13 S10 arg0; sw 14 S11 arg0;
  sw 15 S12 arg0; sw 16 S13 arg0; sw 17 S14 arg0; sw 18 S15 arg0;
  sw rp PC_snake arg0;
  lw sp_snake SP arg1;
  lw 3 S0 arg1; lw 4 S1 arg1; lw 5 S2 arg1; lw 6 S3 arg1;
  lw 7 S4 arg1; lw 8 S5 arg1; lw 9 S6 arg1; lw 10 S7 arg1;
  lw 11 S8 arg1; lw 12 S9 arg1; lw 13 S10 arg1; lw 14 S11 arg1;
  lw 15 S12 arg1; lw 16 S13 arg1; lw 17 S14 arg1;
  lw rp PC_snake arg1;
  jr rp;
  lw 18 S15 arg1].

(** ** Runs of stores and loads *)

Definition stores (base : Z) (l : list (Z * Z)) : list risc_instr := (fun '(r, off) => sw r off base) <$> l.
Definition loads (base : Z) (l : list (Z * Z)) : list risc_instr := (fun '(r, off) => lw r off base) <$> l.

(** The instructions are in memory from [a] on. *)
Fixpoint risc_placed (code : Z -> option risc_instr) (a : Z) (l : list risc_instr) : Prop :=
  match l with
  | [] => True
  | i :: l => code a = Some i /\ risc_placed code (a + 4) l
  end.

Lemma risc_placed_app code a l1 l2 :
  risc_placed code a (l1 ++ l2) <-> risc_placed code a l1 /\ risc_placed code (a + 4 * zlength l1) l2.
Proof.
  revert a. induction l1 as [|i l1 IH]; intros a; cbn [app risc_placed].
  { unfold zlength. cbn. rewrite Z.add_0_r. tauto. }
  rewrite IH. unfold zlength. cbn [length]. replace (a + 4 + 4 * Z.of_nat (length l1)) with (a + 4 * Z.of_nat (S (length l1))) by lia. tauto.
Qed.

Lemma risc_run_app code n k s : risc_run code (n + k) s = (risc_run code n ;;; risc_run code k) s.
Proof.
  revert s. induction n as [|n IH]; intros s; [done|]. cbn [Nat.add risc_run].
  rewrite <- bind_assoc. apply bind_ext. intros _ s'. apply IH.
Qed.

(** The words of the object at [t] hold the registers [f]. *)
Definition holds (m : gmap Z Z) (t : Z) (f : Z -> Z) (l : list (Z * Z)) : Prop :=
  Forall (fun '(r, off) => cell m (t + off) (f r)) l.

Definition place_mapped (m : gmap Z Z) (t : Z) (l : list (Z * Z)) : Prop :=
  Forall (fun '(_, off) => mapped m (t + off)) l.

Fixpoint stored (t : Z) (f : Z -> Z) (l : list (Z * Z)) (m : gmap Z Z) : gmap Z Z :=
  match l with
  | [] => m
  | (r, off) :: l => stored t f l (<[t + off := f r]> m)
  end.

Lemma stored_other t f l m a : Forall (fun '(_, off) => a <> t + off) l -> stored t f l m !! a = m !! a.
Proof.
  revert m. induction l as [|[r off] l IH]; intros m; [done|]. rewrite Forall_cons. intros [Hne Hl]. cbn [stored].
  rewrite IH by done. by apply lookup_insert_ne.
Qed.

Lemma stored_holds t f l m : NoDup l.*2 -> place_mapped m t l -> holds (stored t f l m) t f l.
Proof.
  unfold place_mapped, holds. revert m. induction l as [|[r off] l IH]; intros m; [constructor|]. cbn [fmap list_fmap stored].
  rewrite NoDup_cons, !Forall_cons. intros [Hni Hnd] [[Hal Hm] Hl]. split.
  - split; [done|]. rewrite stored_other; [apply lookup_insert_eq|].
    apply Forall_forall. intros [r' off'] Hin Heq. apply Hni. replace off with off' by lia.
    apply list_elem_of_fmap. by exists (r', off').
  - apply IH; [done|]. eapply Forall_impl; [exact Hl|]. intros [r' off']. apply mapped_insert.
Qed.

Lemma step_past {A} a (x : A) l : a + 4 * zlength (x :: l) = a + 4 + 4 * zlength l.
Proof. unfold zlength. cbn [length]. lia. Qed.

Lemma stores_run code base l : forall a f m,
  risc_placed code a (stores base l) -> Forall (fun '(r, _) => r <> 0) l -> base <> 0 -> place_mapped m (f base) l ->
  risc_run code (length l) (mkRisc a (a + 4) f m) =
  Ok (tt, mkRisc (a + 4 * zlength l) (a + 4 * zlength l + 4) f (stored (f base) f l m)).
Proof.
  induction l as [|[r off] l IH]; intros a f m Hp Hr Hb Hm.
  { unfold zlength. cbn. by rewrite Z.add_0_r. }
  cbn [stores fmap list_fmap risc_placed] in Hp. destruct Hp as [Hi Hp]. apply Forall_cons in Hr as [Hr0 Hr], Hm as [[Hal [v Hv]] Hm].
  rewrite step_past. cbn [length]. cbn [risc_run]. erewrite bind_Ok.
  - apply (IH (a + 4)); try done. eapply Forall_impl; [exact Hm|]. intros [r' off']. apply mapped_insert.
  - unfold risc_step, risc_exec. munfold. cbn [pc]. rewrite Hi. unfold get_gpr. cbn [gpr ram pc npc].
    rewrite (proj2 (Z.eqb_neq base 0)), (proj2 (Z.eqb_neq r 0)) by done.
    rewrite (aligned_u32 _ _ Hal eq_refl), Hal, Hv. reflexivity.
Qed.

Lemma load_gpr_run code a f m r off base v :
  code a = Some (lw r off base) -> base <> 0 -> cell m (f base + off) v ->
  forall n, risc_step code (mkRisc a n f m) = Ok (tt, mkRisc n (n + 4) (set_gpr r v f) m).
Proof.
  intros Hi Hb [Hal Hv] n. unfold risc_step, risc_exec. munfold. cbn [pc]. rewrite Hi. unfold get_gpr. cbn [gpr ram pc npc].
  rewrite (proj2 (Z.eqb_neq base 0)) by done. rewrite (aligned_u32 _ _ Hal eq_refl), Hal, Hv. reflexivity.
Qed.

Lemma loads_run code base f2 m t l : forall a f,
  risc_placed code a (loads base l) -> NoDup l.*1 -> base ∉ l.*1 -> base <> 0 -> f base = t -> holds m t f2 l ->
  exists f', risc_run code (length l) (mkRisc a (a + 4) f m) =
    Ok (tt, mkRisc (a + 4 * zlength l) (a + 4 * zlength l + 4) f' m) /\
    Forall (fun r => f' r = f2 r) l.*1 /\ forall x, x ∉ l.*1 -> f' x = f x.
Proof.
  induction l as [|[r off] l IH]; intros a f Hp Hnd Hb Hb0 Ht Hh.
  { exists f. unfold zlength. cbn. rewrite Z.add_0_r. split; [done|]. split; [constructor|done]. }
  cbn [loads fmap list_fmap risc_placed fst] in *. destruct Hp as [Hi Hp]. apply Forall_cons in Hh as [Hc Hh].
  apply NoDup_cons in Hnd as [Hni Hnd]. apply not_elem_of_cons in Hb as [Hbr Hb]. rewrite <- Ht in Hc.
  destruct (IH (a + 4) (set_gpr r (f2 r) f)) as (f' & E & Hl & Ho); try done.
  { unfold set_gpr. by rewrite (proj2 (Z.eqb_neq base r)). }
  exists f'. rewrite step_past. split; [|split].
  - cbn [length risc_run]. erewrite bind_Ok; [exact E|]. by rewrite (load_gpr_run _ _ _ _ _ _ _ _ Hi Hb0 Hc).
  - constructor; [|done]. rewrite Ho by done. unfold set_gpr. by rewrite Z.eqb_refl.
  - intros x [Hx Hxl]%not_elem_of_cons. rewrite Ho by done. unfold set_gpr. by rewrite (proj2 (Z.eqb_neq x r)).
Qed.

Lemma jump_run code a n f m r :
  code a = Some (jr r) -> r <> 0 -> risc_step code (mkRisc a n f m) = Ok (tt, mkRisc n (f r) f m).
Proof.
  intros Hi Hr. unfold risc_step, risc_exec. munfold. cbn [pc]. rewrite Hi. unfold get_gpr. by rewrite (proj2 (Z.eqb_neq r 0)).
Qed.

(** ** The switch *)

(** What the two hosts have in common: the registers that are saved, and where,
    the registers of the two arguments and of the return address, the size of
    the part of the object in use. *)
Record Host := mkHost { host_saved : list (Z * Z); host_old : Z; host_new : Z; host_link : Z; host_size : Z; host_code : list risc_instr }.

Definition mips : Host := mkHost
  [(sp_mips, SP); (s0, S0); (s1, S1); (s2, S2); (s3, S3); (s4, S4); (s5, S5); (s6, S6); (s7, S7); (fp, FP); (ra, PC_mips)]
  a0 a1 ra 44 SWITCH_mips.
Definition snake : Host := mkHost
  [(sp_snake, SP); (3, S0); (4, S1); (5, S2); (6, S3); (7, S4); (8, S5); (9, S6); (10, S7); (11, S8); (12, S9);
   (13, S10); (14, S11); (15, S12); (16, S13); (17, S14); (18, S15); (rp, PC_snake)]
  arg0 arg1 rp 72 SWITCH_snake.

(** What the proof needs of a host: behind the stores and the loads a jump,
    whose delay slot may be the last load. *)
Record switches (h : Host) (l1 l2 : list (Z * Z)) (slot : risc_instr) : Prop := {
  sw_code : host_code h = stores (host_old h) (host_saved h) ++ loads (host_new h) l1 ++ [jr (host_link h); slot];
  sw_loads : host_saved h ≡ₚ l1 ++ l2;
  sw_slot : l2 = [] /\ slot = nop \/ exists r off, l2 = [(r, off)] /\ slot = lw r off (host_new h);
  sw_link : host_link h ∈ l1.*1;
  sw_regs : NoDup (0 :: host_old h :: host_new h :: (host_saved h).*1);
  sw_offs : NoDup (host_saved h).*2;
  sw_size : Forall (fun off => 0 <= off < host_size h) (host_saved h).*2
}.

(** Distinct, an element, in range: decided. *)
Ltac distinct := apply (bool_decide_unpack _); vm_compute; exact I.

Lemma mips_switches : switches mips (host_saved mips) [] nop.
Proof.
  constructor; [reflexivity|by rewrite app_nil_r|by left|distinct..].
Qed.

Lemma snake_switches : switches snake (take 16 (host_saved snake) ++ [(rp, PC_snake)]) [(18, S15)] (lw 18 S15 arg1).
Proof.
  constructor; [reflexivity|distinct|right; by eexists _, _|distinct..].
Qed.

Section SwitchRun.
Context (h : Host) (l1 l2 : list (Z * Z)) (slot : risc_instr) (Hh : switches h l1 l2 slot).
Abbreviation saved := (host_saved h).

Lemma new_nonzero : host_new h <> 0.
Proof using Hh. intros H0. pose proof (sw_regs _ _ _ _ Hh) as [Hr _]%NoDup_cons. apply Hr. rewrite H0. right. left. Qed.

Lemma slot_run code a n f m f2 :
  code a = Some slot -> holds m (f (host_new h)) f2 l2 -> host_new h ∉ l2.*1 ->
  exists f', risc_step code (mkRisc a n f m) = Ok (tt, mkRisc n (n + 4) f' m) /\
    Forall (fun r => f' r = f2 r) l2.*1 /\ forall x, x ∉ l2.*1 -> f' x = f x.
Proof using Hh.
  intros Hc Hl Hn. pose proof new_nonzero as Hnz. destruct (sw_slot _ _ _ _ Hh) as [[-> ->]|(r & off & -> & ->)].
  - exists f. split; [unfold risc_step, risc_exec; munfold; cbn [pc]; by rewrite Hc|]. split; [constructor|done].
  - apply Forall_cons in Hl as [Hcell _]. exists (set_gpr r (f2 r) f). split; [|split].
    + by apply load_gpr_run with (off := off) (base := host_new h); [|exact Hnz|].
    + constructor; [|constructor]. cbn. unfold set_gpr. by rewrite Z.eqb_refl.
    + intros x Hx. cbn in Hx. unfold set_gpr. apply not_elem_of_cons in Hx as [Hx _]. by rewrite (proj2 (Z.eqb_neq x r)).
Qed.

Lemma holds_app m t f2 : holds m t f2 saved -> holds m t f2 l1 /\ holds m t f2 l2.
Proof using Hh. unfold holds. rewrite (sw_loads _ _ _ _ Hh), Forall_app. done. Qed.

Lemma restore_run code a f m f2 :
  risc_placed code a (loads (host_new h) l1 ++ [jr (host_link h); slot]) ->
  holds m (f (host_new h)) f2 saved ->
  exists f', risc_run code (length l1 + 2) (mkRisc a (a + 4) f m) =
    Ok (tt, mkRisc (f2 (host_link h)) (f2 (host_link h) + 4) f' m) /\
    Forall (fun r => f' r = f2 r) saved.*1.
Proof using Hh.
  intros [Hp Hj]%risc_placed_app Hs. destruct (holds_app _ _ _ Hs) as [Hs1 Hs2]. pose proof (sw_regs _ _ _ _ Hh) as Hr.
  assert (saved.*1 ≡ₚ l1.*1 ++ l2.*1) as Hp1 by (by rewrite (sw_loads _ _ _ _ Hh), fmap_app).
  rewrite Hp1 in Hr. apply NoDup_cons in Hr as [H0 [Hold [Hnew Hnd]%NoDup_cons]%NoDup_cons].
  rewrite not_elem_of_app in Hnew. destruct Hnew as [Hn1 Hn2].
  apply NoDup_app in Hnd as (Hd1 & Hd12 & Hd2).
  destruct (loads_run code (host_new h) f2 m _ l1 a f Hp Hd1 Hn1 new_nonzero eq_refl Hs1) as (f1 & E & Hf1 & Ho1).
  assert (zlength (loads (host_new h) l1) = zlength l1) as Hlen by (unfold zlength, loads; by rewrite length_fmap).
  rewrite Hlen in Hj. destruct Hj as (Hjr & Hslot & _).
  set (b := a + 4 * zlength l1) in *.
  assert (f1 (host_link h) = f2 (host_link h)) as Hlink by (rewrite Forall_forall in Hf1; apply Hf1, (sw_link _ _ _ _ Hh)).
  destruct (slot_run code (b + 4) (f2 (host_link h)) f1 m f2 Hslot) as (f' & E' & Hf' & Ho'); [by rewrite Ho1|done|].
  exists f'. split.
  - rewrite risc_run_app. mrun E. cbn [risc_run].
    erewrite bind_Ok; [|apply (jump_run _ _ _ _ _ _ Hjr); intros Hz; apply H0; right; right; apply elem_of_app; left;
      rewrite <- Hz; apply (sw_link _ _ _ _ Hh)].
    rewrite Hlink. mrun E'. done.
  - rewrite Hp1. apply Forall_app. split; [|done]. apply Forall_forall. intros r Hin. rewrite Ho' by (intros ?; by apply (Hd12 r)).
    rewrite Forall_forall in Hf1. by apply Hf1.
Qed.
Lemma stored_outside t f m a : apart a 1 t (host_size h) -> stored t f saved m !! a = m !! a.
Proof using Hh.
  intros Ha. apply stored_other. apply Forall_forall. intros [r off] Hin ->.
  assert (0 <= off < host_size h) as Hoff.
  { pose proof (sw_size _ _ _ _ Hh) as Hs. rewrite Forall_forall in Hs. apply Hs, list_elem_of_fmap. by exists (r, off). }
  unfold apart in Ha. lia.
Qed.

Lemma holds_frame t f m m' : (forall a, t <= a < t + host_size h -> m' !! a = m !! a) ->
  holds m t f saved -> holds m' t f saved.
Proof using Hh.
  intros Hm Hs. pose proof (sw_size _ _ _ _ Hh) as Hsz. unfold holds in *. rewrite Forall_forall in Hs. rewrite Forall_forall in Hsz. apply Forall_forall.
  intros [r off] Hin. destruct (Hs _ Hin) as [Hal Hv]. split; [done|]. rewrite Hm; [done|].
  assert (0 <= off < host_size h); [|lia]. apply Hsz, list_elem_of_fmap. by exists (r, off).
Qed.

Lemma switch_run code a f m f2 (others : gmap Z (Z -> Z)) :
  risc_placed code a (host_code h) -> place_mapped m (f (host_old h)) saved ->
  map_Forall (fun t g => holds m t g saved /\ apart t (host_size h) (f (host_old h)) (host_size h)) others ->
  <[f (host_old h) := f]> others !! f (host_new h) = Some f2 ->
  exists f' m', risc_run code (length (host_code h)) (mkRisc a (a + 4) f m) =
      Ok (tt, mkRisc (f2 (host_link h)) (f2 (host_link h) + 4) f' m') /\
    Forall (fun r => f' r = f2 r) saved.*1 /\
    map_Forall (fun t g => holds m' t g saved) (<[f (host_old h) := f]> others) /\
    forall b, apart b 1 (f (host_old h)) (host_size h) -> m' !! b = m !! b.
Proof using Hh.
  intros Hp Hm Hothers H2. rewrite (sw_code _ _ _ _ Hh) in Hp |- *. apply risc_placed_app in Hp as [Hst Hrest].
  pose proof (sw_regs _ _ _ _ Hh) as Hr. apply NoDup_cons in Hr as [H0 _].
  set (m' := stored (f (host_old h)) f saved m).
  assert (map_Forall (fun t g => holds m' t g saved) (<[f (host_old h) := f]> others)) as Hall.
  { apply map_Forall_insert_2; [by apply stored_holds; [apply (sw_offs _ _ _ _ Hh)|]|].
    intros t g Ht. destruct (Hothers t g Ht) as [Hs Hap]. apply (holds_frame t g m m'); [|done].
    intros b Hb. apply stored_outside. unfold apart in *. lia. }
  assert (length (stores (host_old h) saved) = length saved) as Hls by apply length_fmap.
  assert (zlength (stores (host_old h) saved) = zlength saved) as Hzs by (unfold zlength; by rewrite Hls).
  rewrite Hzs in Hrest.
  destruct (restore_run code _ f m' f2 Hrest) as (f' & E & Hf'); [by apply Hall|].
  exists f', m'. split; [|split; [done|split; [done|intros; by apply stored_outside]]].
  assert (length (stores (host_old h) saved ++ loads (host_new h) l1 ++ [jr (host_link h); slot]) = length saved + (length l1 + 2))%nat
    as -> by (rewrite !length_app, Hls; unfold loads; by rewrite length_fmap).
  rewrite risc_run_app. erewrite bind_Ok; [exact E|]. apply stores_run; [done| |set_solver|done].
  apply Forall_forall. intros [r off] Hin ->. apply H0. right. right. apply list_elem_of_fmap. by exists (0, off).
Qed.
End SwitchRun.

(** C35: on the MIPS and the PA-RISC SWITCH saves every register that a procedure
    must preserve, with the return address, in the object of the old thread and
    goes on at the saved return address of the new thread with all these
    registers as they were saved; all saved registers, the new ones included,
    are in their objects afterwards, and no other word changes. *)
Theorem SWITCH_on_risc_hosts h : h ∈ [mips; snake] ->
  forall code a f m f2 (others : gmap Z (Z -> Z)),
  risc_placed code a (host_code h) -> place_mapped m (f (host_old h)) (host_saved h) ->
  map_Forall (fun t g => holds m t g (host_saved h) /\ apart t (host_size h) (f (host_old h)) (host_size h)) others ->
  <[f (host_old h) := f]> others !! f (host_new h) = Some f2 ->
  exists f' m', risc_run code (length (host_code h)) (mkRisc a (a + 4) f m) =
      Ok (tt, mkRisc (f2 (host_link h)) (f2 (host_link h) + 4) f' m') /\
    Forall (fun r => f' r = f2 r) (host_saved h).*1 /\
    map_Forall (fun t g => holds m' t g (host_saved h)) (<[f (host_old h) := f]> others) /\
    forall b, apart b 1 (f (host_old h)) (host_size h) -> m' !! b = m !! b.
Proof.
  intros Hh code a f m f2 others. apply elem_of_cons in Hh as [->|Hh%list_elem_of_singleton].
  - apply (switch_run _ _ _ _ mips_switches).
  - subst h. apply (switch_run _ _ _ _ snake_switches).
Qed.

Definition risc_list_code (a : Z) (l : list risc_instr) : Z -> option risc_instr :=
  fun x => if (x - a) mod 4 =? 0 then zlookup l ((x - a) / 4) else None.

Lemma SWITCH_on_risc_hosts_witness : exists f' m',
  risc_run (risc_list_code 1000 SWITCH_snake) 37
    (mkRisc 1000 1004 (fun r => if r =? 26 then 200 else if r =? 25 then 300 else r)
      (list_to_map (((fun '(r, off) => (300 + off, 10 * r)) <$> host_saved snake) ++
        ((fun '(_, off) => (200 + off, 0)) <$> host_saved snake)))) =
  Ok (tt, mkRisc 20 24 f' m') /\ f' 18 = 180.
Proof.
  match goal with |- exists f' m', risc_run ?c _ (mkRisc _ _ ?f ?m) = _ /\ _ =>
    destruct (SWITCH_on_risc_hosts snake ltac:(right; left) c 1000 f m (fun r => 10 * r) {[300 := fun r => 10 * r]})
      as (f' & m' & E & Hr & _) end.
  - do 37 (split; [reflexivity|]). exact I.
  - do 18 (apply Forall_cons_2; [split; [|eexists]; vm_compute; reflexivity|]). apply Forall_nil_2.
  - apply map_Forall_singleton. split; [|unfold apart; cbn; lia].
    do 18 (apply Forall_cons_2; [split; vm_compute; reflexivity|]). apply Forall_nil_2.
  - vm_compute. reflexivity.
  - exists f', m'. split; [exact E|]. apply (proj1 (Forall_forall _ _) Hr 18). do 16 right. left.
Defined.

(** ** ThreadRoot *)

Lemma or_run code a n f m d x y : code a = Some (or_ d x y) ->
  risc_step code (mkRisc a n f m) = Ok (tt, mkRisc n (n + 4) (set_gpr d (Z.lor (get_gpr x f) (get_gpr y f)) f) m).
Proof. intros Hi. unfold risc_step, risc_exec. munfold. cbn [pc]. by rewrite Hi. Qed.

Lemma jalr_run code a n f m link r : code a = Some (jalr link r) -> r <> 0 ->
  risc_step code (mkRisc a n f m) = Ok (tt, mkRisc n (f r) (set_gpr link (a + 8) f) m).
Proof.
  intros Hi Hr. unfold risc_step, risc_exec. munfold. cbn [pc]. rewrite Hi. unfold get_gpr. by rewrite (proj2 (Z.eqb_neq r 0)).
Qed.

Lemma nop_run code a n f m : code a = Some nop -> risc_step code (mkRisc a n f m) = Ok (tt, mkRisc n (n + 4) f m).
Proof. intros Hi. unfold risc_step, risc_exec. munfold. cbn [pc]. by rewrite Hi. Qed.

(** Addresses as the offset from the beginning of the code. *)
Ltac add_offsets a :=
  repeat match goal with
  | H : context [a + ?x + 4] |- _ => let y := eval compute in (x + 4) in replace (a + x + 4) with (a + y) in H by lia
  | |- context [a + ?x + 4] => let y := eval compute in (x + 4) in replace (a + x + 4) with (a + y) by lia
  end.
Ltac run_risc a :=
  cbn [risc_run];
  repeat (erewrite bind_Ok; [|first [eapply or_run; eassumption
    | eapply jalr_run; [eassumption|vm_compute; discriminate] | eapply nop_run; eassumption]];
    add_offsets a); reflexivity.

(** A new thread on the MIPS: StartupPC, InitialPC with InitialArg as its
    argument, and WhenDonePC are called in turn, provided that the functions
    keep the registers s0 to s2 and return. *)
Lemma ThreadRoot_mips_calls code a f m :
  risc_placed code a ThreadRoot_mips ->
  (exists f1, risc_run code 3 (mkRisc a (a + 4) f m) = Ok (tt, mkRisc (f s3) (f s3 + 4) f1 m) /\
     f1 ra = a + 12 /\ f1 s0 = f s0 /\ f1 s1 = f s1 /\ f1 s2 = f s2) /\
  (forall g m', g s0 = f s0 -> g s1 = f s1 -> g s2 = f s2 -> exists f1,
     risc_run code 3 (mkRisc (a + 12) (a + 16) g m') = Ok (tt, mkRisc (f s0) (f s0 + 4) f1 m') /\
     f1 a0 = f s1 /\ f1 ra = a + 24 /\ f1 s2 = f s2) /\
  (forall g m', g s2 = f s2 -> exists f1,
     risc_run code 2 (mkRisc (a + 24) (a + 28) g m') = Ok (tt, mkRisc (f s2) (f s2 + 4) f1 m')).
Proof.
  intros (E0 & E1 & E2 & E3 & E4 & E5 & E6 & E7 & _). add_offsets a. split_and!.
  - eexists. split; [run_risc a|]. cbn. split_and!; [lia|done..].
  - intros g m' <- <- <-. eexists. split; [run_risc a|]. cbn. split_and!; [|lia|done].
    by rewrite Z.lor_0_r.
  - intros g m' <-. eexists. run_risc a.
Qed.

(** The same on the PA-RISC, where the function is in register 3, its argument
    in 4, WhenDonePC in 5 and StartupPC in 6. *)
Lemma ThreadRoot_snake_calls code a f m :
  risc_placed code a ThreadRoot_snake ->
  (exists f1, risc_run code 2 (mkRisc a (a + 4) f m) = Ok (tt, mkRisc (f 6) (f 6 + 4) f1 m) /\
     f1 rp = a + 8 /\ f1 3 = f 3 /\ f1 4 = f 4 /\ f1 5 = f 5) /\
  (forall g m', g 3 = f 3 -> g 4 = f 4 -> g 5 = f 5 -> exists f1,
     risc_run code 3 (mkRisc (a + 8) (a + 12) g m') = Ok (tt, mkRisc (f 3) (f 3 + 4) f1 m') /\
     f1 arg0 = f 4 /\ f1 rp = a + 20 /\ f1 5 = f 5) /\
  (forall g m', g 5 = f 5 -> exists f1,
     risc_run code 2 (mkRisc (a + 20) (a + 24) g m') = Ok (tt, mkRisc (f 5) (f 5 + 4) f1 m')).
Proof.
  intros (E0 & E1 & E2 & E3 & E4 & E5 & E6 & _). add_offsets a. split_and!.
  - eexists. split; [run_risc a|]. cbn. rewrite Z.lor_0_r. split_and!; [lia|done..].
  - intros g m' <- <- <-. eexists. split; [run_risc a|]. cbn. rewrite !Z.lor_0_r. split_and!; [done|lia|done].
  - intros g m' <-. eexists. run_risc a.
Qed.
