(* ===== verification/UserRun.v ===== *)
(** * Machine::Run for a thread

    An instruction that traps calls the exception handler, and the handler of
    the kernel waits for semaphores, starts threads and finishes the current
    one: it is a program ([prog]) and not an operation. Nothing of an
    instruction is left to do when RaiseException returns, so an instruction is
    executed up to its exception, and the thread then runs the handler. The
    theorem is that this is the same as calling the handler in the middle. *)

From stdpp Require Import base tactics list numbers gmap.
From S2P Require Import Prelude Lists Interrupt Machine Mips BitMap AddrSpace Threads.

Local Open Scope Z_scope.

(** ** Instructions up to their exception *)

(** The machine with the exception that was raised. *)
Definition Trap : Type := Machine * option ExceptionType.

#[export, refine] Instance lens_trap : Lens Machine Trap :=
  {| lget := fst; lset m t := (m, t.2) |}.
Proof. all: by repeat intros []. Defined.

Definition record_exception (which : ExceptionType) : M Trap unit := modify (fun t => (t.1, Some which)).
Definition no_status (_ : MachineStatus) : M Trap unit := ret tt.

(** OneInstruction up to the call of ExceptionHandler, if it raises one. *)
Definition execute (be : bool) : M Machine (option ExceptionType) := fun m =>
  obind (Machine_OneInstruction be no_status record_exception (m, None)) (fun '(_, t) => Ok (t.2, t.1)).

(** ** The loop *)

Section Run.
Context (be : bool) {X : Type} `{!Lens Machine X}.
Context (ExceptionHandler : ExceptionType -> prog (Sim (Kernel X)) unit).

Definition set_machine_status (st : MachineStatus) : M (Sim (Kernel X)) unit := modify (on_intr (set_status st)).

(** The end of RaiseException. *)
Definition handle_exception (w : option ExceptionType) : prog (Sim (Kernel X)) unit :=
  match w with
  | None => Ret tt
  | Some which =>
      op (set_machine_status SystemMode) ;~
      ExceptionHandler which ;~
      op (set_machine_status UserMode)
  end.

Definition Machine_Run : prog (Sim (Kernel X)) unit :=
  op (set_machine_status UserMode) ;~
  Until (ret (None : option Empty_set))
    (w <~ op (on_cpu (execute be)) ;; handle_exception w ;~ ptick)
    (fun e => match e with end).
End Run.

(** * Correctness *)

Section Same.
Context (be : bool) {K : Type} `{!Lens Machine K}.
Context (setStatus : MachineStatus -> M K unit) (ExceptionHandler : ExceptionType -> M K unit).

Definition handle (w : ExceptionType) : M K unit :=
  setStatus SystemMode ;;; ExceptionHandler w ;;; setStatus UserMode.

(** [m1] is [m2] with the handler called where [m2] records the exception;
    the results for which it may have been recorded satisfy [Φ]. *)
Definition sim {A} (Φ : A -> Prop) (m1 : M K A) (m2 : M Trap A) : Prop := forall k,
  m1 k = match m2 (lget k, None) with
         | Ok (a, (m, None)) => Ok (a, lset m k)
         | Ok (a, (m, Some w)) => obind (handle w (lset m k)) (fun '(_, k') => Ok (a, k'))
         | Aborted => Aborted
         | Halted => Halted
         | Undef => Undef
         end /\
  forall a m w, m2 (lget k, None) = Ok (a, (m, Some w)) -> Φ a.

Definition never {A} (_ : A) : Prop := False.

Lemma sim_ret {A} (Φ : A -> Prop) a : sim Φ (ret a) (ret a).
Proof. intros k. split; [unfold ret; by rewrite lset_lget|done]. Qed.
Lemma sim_abort {A} (Φ : A -> Prop) : sim Φ abort abort.
Proof. by intros k. Qed.
Lemma sim_undef {A} (Φ : A -> Prop) : sim Φ undef undef.
Proof. by intros k. Qed.

(** Operations on the machine alone raise no exception. *)
Lemma sim_zoom {A} (Φ : A -> Prop) (m : M Machine A) : sim Φ (zoom m) (zoom m).
Proof.
  intros k. unfold zoom. cbn [lget lens_trap fst].
  destruct (m (lget k)) as [[a m']| | |]; by cbn.
Qed.

Lemma sim_bind {A B} (Φ : A -> Prop) (Ψ : B -> Prop) m1 m2 (f1 : A -> M K B) f2 :
  sim Φ m1 m2 -> (forall a, sim Ψ (f1 a) (f2 a)) ->
  (forall a, Φ a -> exists b, f1 a = ret b /\ f2 a = ret b /\ Ψ b) ->
  sim Ψ (bind m1 f1) (bind m2 f2).
Proof.
  intros Hm Hf Hr k. destruct (Hm k) as [E HΦ]. unfold bind. rewrite E. clear E.
  destruct (m2 (lget k, None)) as [[a [m [w|]]]| | |] eqn:E2; cbn [obind]; try done.
  - destruct (Hr a (HΦ a m w eq_refl)) as (b & E1 & E3 & Hb). rewrite E3. split.
    + unfold ret at 1. destruct (handle w (lset m k)) as [[u k']| | |]; cbn [obind]; try done. by rewrite E1.
    + intros b' m' w' [= <- <- <-]. exact Hb.
  - destruct (Hf a (lset m k)) as [E3 HΨ]. rewrite lget_lset in E3, HΨ. split; [|exact HΨ].
    rewrite E3. destruct (f2 a (m, None)) as [[b [m' [w|]]]| | |]; cbn [obind]; by rewrite ?lset_lset.
Qed.

(** The part before that raises none. *)
Lemma sim_then {A B} (Ψ : B -> Prop) m1 m2 (f1 : A -> M K B) f2 :
  sim never m1 m2 -> (forall a, sim Ψ (f1 a) (f2 a)) -> sim Ψ (bind m1 f1) (bind m2 f2).
Proof. intros Hm Hf. eapply sim_bind; [exact Hm|exact Hf|done]. Qed.

Lemma sim_must {A} (Φ : A -> Prop) o : sim Φ (must o) (must o).
Proof. destruct o; [apply sim_ret|apply sim_undef]. Qed.
Lemma sim_ASSERT (Φ : unit -> Prop) b : sim Φ (ASSERT b) (ASSERT b).
Proof. destruct b; [apply sim_ret|apply sim_abort]. Qed.
Lemma sim_if {A} (Φ : A -> Prop) (b : bool) m1 m2 n1 n2 :
  sim Φ m1 m2 -> sim Φ n1 n2 -> sim Φ (if b then m1 else n1) (if b then m2 else n2).
Proof. by destruct b. Qed.

Lemma sim_raise e a :
  sim (fun _ => True) (Machine_RaiseException setStatus ExceptionHandler e a)
    (Machine_RaiseException no_status record_exception e a).
Proof.
  apply sim_then; [apply sim_zoom|]. intros _. apply sim_then; [apply sim_zoom|]. intros _.
  intros k. split; [|done]. cbn.
  change (handle e k = obind (handle e (lset (lget k) k)) (fun '(_, k') => Ok (tt, k'))).
  rewrite lset_lget. by destruct (handle e k) as [[[] k']| | |].
Qed.

Lemma sim_ReadMem addr size :
  sim (fun v => v = None) (Machine_ReadMem be setStatus ExceptionHandler addr size)
    (Machine_ReadMem be no_status record_exception addr size).
Proof.
  unfold Machine_ReadMem. apply sim_then; [apply sim_zoom|]. intros [e phys]. case_decide.
  - eapply sim_bind; [apply sim_raise|intros; apply sim_ret|]. intros _ _. by exists None.
  - apply sim_then; [apply sim_must|]. intros p. apply sim_then; [apply sim_zoom|]. intros v. apply sim_ret.
Qed.

Lemma sim_WriteMem addr size value :
  sim (fun b => b = false) (Machine_WriteMem be setStatus ExceptionHandler addr size value)
    (Machine_WriteMem be no_status record_exception addr size value).
Proof.
  unfold Machine_WriteMem. apply sim_then; [apply sim_zoom|]. intros [e phys]. case_decide.
  - eapply sim_bind; [apply sim_raise|intros; apply sim_ret|]. intros _ _. by exists false.
  - apply sim_then; [apply sim_must|]. intros p. apply sim_then; [apply sim_zoom|]. intros v. apply sim_ret.
Qed.

Lemma sim_trap e a :
  sim (fun r => r = Trapped) (trap setStatus ExceptionHandler e a) (trap no_status record_exception e a).
Proof. eapply sim_bind; [apply sim_raise|intros; apply sim_ret|]. intros _ _. by exists Trapped. Qed.

(** The steps of the instructions, tried in this order. *)
Ltac sim_step :=
  lazymatch goal with
  | |- forall _, _ => intro
  | |- exists b, ret Trapped = ret b /\ _ => by exists Trapped
  | |- sim _ (trap _ _ _ _) _ => apply sim_trap
  | |- sim _ (ret _) _ => apply sim_ret
  | |- sim _ (finish _) _ => apply sim_ret
  | |- sim _ undef _ => apply sim_undef
  | |- sim _ abort _ => apply sim_abort
  | |- sim _ (zoom _) _ => apply sim_zoom
  | |- sim _ (must _) _ => apply sim_must
  | |- sim _ (ASSERT _) _ => apply sim_ASSERT
  | |- sim _ (bind (Machine_ReadMem _ _ _ _ _) _) _ =>
      eapply sim_bind; [apply sim_ReadMem| |intros ? ->]
  | |- sim _ (bind (Machine_WriteMem _ _ _ _ _ _) _) _ =>
      eapply sim_bind; [apply sim_WriteMem| |intros ? ->]
  | |- sim _ (bind _ _) _ => eapply sim_then
  | |- sim _ (if _ then _ else _) _ => apply sim_if
  | |- sim _ (let '(_, _) := ?p in _) _ => destruct p
  | |- sim _ (match ?o with Some _ => _ | None => _ end) _ => destruct o
  end.

Ltac sim_solve := unfold store_register, load_later, branch, link, multiply, effective, merged;
  cbv zeta; repeat sim_step.

Lemma sim_switch i pcAfter :
  sim (fun r => r = Trapped) (exec_switch be setStatus ExceptionHandler i pcAfter)
    (exec_switch be no_status record_exception i pcAfter).
Proof.
  unfold exec_switch, exec_add, exec_branch, exec_div, exec_jump, exec_load, exec_load_part, exec_move,
    exec_or, exec_store, exec_shift_set, exec_sub, exec_store_part, exec_trap.
  destruct (opCode i); cbn [orelse]; sim_solve.
Qed.

Lemma sim_OneInstruction :
  sim (fun _ => True) (Machine_OneInstruction be setStatus ExceptionHandler)
    (Machine_OneInstruction be no_status record_exception).
Proof.
  unfold Machine_OneInstruction. apply sim_then; [apply sim_zoom|]. intros pc.
  eapply sim_bind; [apply sim_ReadMem| |intros ? ->; by exists tt]. intros [raw|]; [|apply sim_ret].
  apply sim_then; [apply sim_must|]. intros i. apply sim_then; [apply sim_zoom|]. intros next.
  eapply sim_bind; [apply sim_switch| |intros ? ->; by exists tt]. intros [|p r v]; sim_solve.
Qed.

(** C14: executing an instruction up to its exception and then running the
    handler is what OneInstruction does, on every machine, whatever the
    handler does and whichever of the instructions is executed: when a call of
    RaiseException returns, nothing is left to be done. *)
Theorem execute_then_handle k :
  Machine_OneInstruction be setStatus ExceptionHandler k =
  (w <- zoom (execute be) ;; match w with Some which => handle which | None => ret tt end) k.
Proof.
  rewrite (proj1 (sim_OneInstruction k)). unfold execute, zoom, bind.
  destruct (Machine_OneInstruction be no_status record_exception (lget k, None))
    as [[[] [m [w|]]]| | |]; cbn; try done.
  by destruct (handle w (lset m k)) as [[[] k']| | |].
Qed.
End Same.
