(* ===== verification/System.v ===== *)
(** * threads/system.h, pcb.h, ptable.h, stable.h, console.h: the whole kernel

    The state of a Nachos that runs user programs: next to the threads, the
    semaphores and the address spaces of Threads.v, the global objects of
    system.cc: the machine with its page frames, the file system, the process
    table, the table of named semaphores and the consoles. The operations on
    them are in UserProg.v, Process.v, Console.v and Syscall.v. *)

From stdpp Require Import base tactics list numbers gmap.
From S2P Require Import Prelude Lists Interrupt Machine BitMap AddrSpace Disk OpenFile Directory FileSys SysDep Threads.

Local Open Scope Z_scope.

(** ** Data *)

Definition MAXPROCESS : Z := 10.
Definition MAX_SEMAPHORE : Z := 10.

(** A process control block. [pid] has no value before Exec sets it. *)
Record PCB := mkPCB {
  joinsem : loc;
  exitsem : loc;
  mutex : loc;
  exitcode : Z;
  pcb_thread : option loc;
  pid : Z;
  numwait : Z;
  parentID : Z
}.

Record PTable := mkPTable {
  pt_bm : BitMap;
  pcb : list (option loc);
  bmsem : loc
}.

Record STable := mkSTable {
  st_bm : BitMap;
  lockTab : list (option loc)
}.

(** The functions a console calls when a character has come or gone: those of
    synchcons.cc and those of progtest.cc. *)
Inductive ConsoleFunct := SynchReadFunct | SynchWriteFunct | ReadAvail | WriteDone.

Record Console := mkConsole {
  readFileNo : Z;
  writeFileNo : Z;
  readHandler : ConsoleFunct;
  writeHandler : ConsoleFunct;
  putBusy : bool;
  incoming : Z
}.

(** The static variables of synchcons.cc and progtest.cc. *)
Record ConsoleVars := mkConsoleVars {
  synchReadAvail : loc;
  synchWriteAvail : loc;
  RLineBlock : loc;
  WLineBlock : loc;
  readAvail : loc;
  writeDone : loc
}.

(** The global variables of system.cc, with the heap of PCBs, of consoles and
    of the character buffers that outlive a call: a buffer that is deleted keeps
    its address, with nothing behind it. [gSynchConsole] is the console of the
    synchronous console. *)
Record OS (F : Type) := mkOS {
  os_mem : UserMem;
  fileSystem : F;
  pcbs : gmap loc PCB;
  pTab : PTable;
  semTab : STable;
  addrLock : loc;
  buffers : gmap loc (option (list Z));
  consoles : gmap loc Console;
  gSynchConsole : loc;
  console_vars : ConsoleVars
}.
Arguments mkOS {F} _ _ _ _ _ _ _ _ _ _.
Arguments os_mem {F} _.
Arguments fileSystem {F} _.
Arguments pcbs {F} _.
Arguments pTab {F} _.
Arguments semTab {F} _.
Arguments addrLock {F} _.
Arguments buffers {F} _.
Arguments consoles {F} _.
Arguments gSynchConsole {F} _.
Arguments console_vars {F} _.

Section Fields.
Context {F : Type}.
Implicit Types o : OS F.
Definition set_mem v o := mkOS v (fileSystem o) (pcbs o) (pTab o) (semTab o) (addrLock o) (buffers o)
  (consoles o) (gSynchConsole o) (console_vars o).
Definition set_fileSystem (v : F) (o : OS F) := mkOS (os_mem o) v (pcbs o) (pTab o) (semTab o) (addrLock o)
  (buffers o) (consoles o) (gSynchConsole o) (console_vars o).
Definition set_pcbs v o := mkOS (os_mem o) (fileSystem o) v (pTab o) (semTab o) (addrLock o) (buffers o)
  (consoles o) (gSynchConsole o) (console_vars o).
Definition set_pTab v o := mkOS (os_mem o) (fileSystem o) (pcbs o) v (semTab o) (addrLock o) (buffers o)
  (consoles o) (gSynchConsole o) (console_vars o).
Definition set_semTab v o := mkOS (os_mem o) (fileSystem o) (pcbs o) (pTab o) v (addrLock o) (buffers o)
  (consoles o) (gSynchConsole o) (console_vars o).
Definition set_buffers v o := mkOS (os_mem o) (fileSystem o) (pcbs o) (pTab o) (semTab o) (addrLock o) v
  (consoles o) (gSynchConsole o) (console_vars o).
Definition set_consoles v o := mkOS (os_mem o) (fileSystem o) (pcbs o) (pTab o) (semTab o) (addrLock o)
  (buffers o) v (gSynchConsole o) (console_vars o).
Definition set_console_vars c v o := mkOS (os_mem o) (fileSystem o) (pcbs o) (pTab o) (semTab o) (addrLock o)
  (buffers o) (consoles o) c v.

#[export, refine] Instance lens_os_machine : Lens Machine (OS F) :=
  {| lget o := machine (os_mem o); lset m o := set_mem (mkUser m (gPhysPageBitMap (os_mem o))) o |}.
Proof. - done. - by intros [[] ? ? ? ? ? ? ? ? ?]. - done. Defined.
#[export, refine] Instance lens_os_mem : Lens UserMem (OS F) := {| lget := os_mem; lset := set_mem |}.
Proof. all: by repeat intros []. Defined.
#[export, refine] Instance lens_os_files : Lens F (OS F) := {| lget := fileSystem; lset := set_fileSystem |}.
Proof. - done. - by intros []. - done. Defined.
#[export, refine] Instance lens_os_loader : Lens (UserMem * F) (OS F) :=
  {| lget o := (os_mem o, fileSystem o); lset p o := set_fileSystem p.2 (set_mem p.1 o) |}.
Proof. - by intros []. - by intros []. - done. Defined.
End Fields.

(** The machine of the whole kernel. *)
#[export, refine] Instance lens_kernel {X} `{!Lens Machine X} : Lens Machine (Sim (Kernel X)) :=
  {| lget s := lget (user (rest s)); lset m s := on_rest (fun k => set_user (lset m (user k)) k) s |}.
Proof.
  - intros m s. apply lget_lset.
  - intros [i st []]. unfold on_rest, set_user. cbn. by rewrite lset_lget.
  - intros m m' [i st []]. unfold on_rest, set_user. cbn. by rewrite lset_lset.
Defined.

(** ** Access to the state *)

Section Access.
Context {F : Type}.
Abbreviation K := (Sim (Kernel (OS F))).

Definition os {A} (f : OS F -> A) : M K A := kernel (fun k => f (user k)).
Definition on_os (f : OS F -> OS F) : M K unit := on_user (modify f).
Definition on_mem {A} (m : M UserMem A) : M K A := on_user (zoom m).
Definition on_files {A} (m : M F A) : M K A := on_user (zoom m).
Definition on_loader {A} (m : M (UserMem * F) A) : M K A := on_user (zoom m).
(** UNIX, which the file system stub also uses. *)
Definition on_unix {W A} `{!Lens W F} (m : M W A) : M K A := on_files (zoom m).

Definition get_pcb (a : loc) : M K PCB := ps <- os pcbs ;; must (ps !! a).
Definition put_pcb (a : loc) (p : PCB) : M K unit := on_os (fun o => set_pcbs (<[a := p]> (pcbs o)) o).
Definition put_space (a : loc) (sp : AddrSpace) : M K unit :=
  on_kernel (fun k => mkKernel (threads k) (readyList k) (currentThread k) (threadToBeDestroyed k)
    (semaphores k) (<[a := sp]> (spaces k)) (user k)).
Definition free_space (a : loc) : M K unit :=
  on_kernel (fun k => mkKernel (threads k) (readyList k) (currentThread k) (threadToBeDestroyed k)
    (semaphores k) (delete a (spaces k)) (user k)).

(** The characters a name points to, up to the terminating zero. *)
Definition chars (n : charp) : M K (list Z) :=
  match n with
  | Lit s => ret s
  | Buf p => bs <- os buffers ;; b <- must (mjoin (bs !! p)) ;; ret (c_string b)
  end.

(** [new char[n]], initialised with [bs], and [delete[]]. *)
Definition new_buffer (bs : list Z) : M K loc :=
  b <- os buffers ;;
  let p := fresh (dom b) in
  on_os (set_buffers (<[p := Some bs]> b)) ;;; ret p.
Definition delete_buffer (p : loc) : M K unit :=
  b <- os buffers ;; _ <- must (mjoin (b !! p)) ;; on_os (set_buffers (<[p := None]> b)).
End Access.
