(* ===== verification/Console.v ===== *)
(** * machine/console.cc, threads/synchcons.cc: the console

    The simulated terminal, whose keyboard and display are two UNIX files, with
    its two interrupts, the synchronous console that user programs read lines
    from and write to, and the console test of progtest.cc. *)

From stdpp Require Import base tactics list numbers gmap.
From S2P Require Import Prelude Lists Interrupt Machine BitMap AddrSpace SysDep Threads System.

Local Open Scope Z_scope.

(** ** The device *)

(** EOF, as a [char]. *)
Definition EOF : Z := -1.

Section Console.
Context {W F : Type} `{HU : Unix W} `{!Lens W F}.
Abbreviation K := (Sim (Kernel (OS F))).

Definition get_console (this : loc) : M K Console := cs <- os consoles ;; must (cs !! this).
Definition put_console (this : loc) (c : Console) : M K unit :=
  on_os (fun o => set_consoles (<[this := c]> (consoles o)) o).

Definition set_putBusy b c := mkConsole (readFileNo c) (writeFileNo c) (readHandler c) (writeHandler c) b (incoming c).
Definition set_incoming ch c := mkConsole (readFileNo c) (writeFileNo c) (readHandler c) (writeHandler c) (putBusy c) ch.

(** The handlers ignore their argument: each signals a static semaphore. *)
Definition handler_semaphore (h : ConsoleFunct) : M K loc :=
  v <- os console_vars ;;
  ret (match h with
       | SynchReadFunct => synchReadAvail v
       | SynchWriteFunct => synchWriteAvail v
       | ReadAvail => readAvail v
       | WriteDone => writeDone v
       end).
Definition call_handler (h : ConsoleFunct) : M K unit :=
  a <- handler_semaphore h ;; Semaphore_V_handler a.

(** [None] for the file names is NULL. *)
Definition Console_new (readFile writeFile : option (list Z)) (readAvail writeDone : ConsoleFunct) :
    M K loc :=
  readFileNo <- match readFile with
                | None => ret 0
                | Some name => on_unix (OpenForReadWrite name true)
                end ;;
  writeFileNo <- match writeFile with
                 | None => ret 1
                 | Some name => on_unix (OpenForWrite name)
                 end ;;
  cs <- os consoles ;;
  let this := fresh (dom cs) in
  put_console this (mkConsole readFileNo writeFileNo readAvail writeDone false EOF) ;;;
  Interrupt_Schedule ConsoleReadPoll (Z.of_nat this) ConsoleTime ConsoleReadInt ;;;
  ret this.

Definition Console_delete (this : loc) : M K unit :=
  c <- get_console this ;;
  (if negb (readFileNo c =? 0) then on_unix (Close (readFileNo c)) else ret tt) ;;;
  (if negb (writeFileNo c =? 1) then on_unix (Close (writeFileNo c)) else ret tt) ;;;
  on_os (fun o => set_consoles (delete this (consoles o)) o).

Definition count_char_read (st : Statistics) : Statistics :=
  mkStats (totalTicks st) (idleTicks st) (systemTicks st) (userTicks st) (numDiskReads st) (numDiskWrites st)
    (i32 (numConsoleCharsRead st + 1)) (numConsoleCharsWritten st) (numPageFaults st)
    (numPacketsSent st) (numPacketsRecvd st).
Definition count_char_written (st : Statistics) : Statistics :=
  mkStats (totalTicks st) (idleTicks st) (systemTicks st) (userTicks st) (numDiskReads st) (numDiskWrites st)
    (numConsoleCharsRead st) (i32 (numConsoleCharsWritten st + 1)) (numPageFaults st)
    (numPacketsSent st) (numPacketsRecvd st).

Definition Console_CheckCharAvail (this : loc) : M K unit :=
  Interrupt_Schedule ConsoleReadPoll (Z.of_nat this) ConsoleTime ConsoleReadInt ;;;
  c <- get_console this ;;
  (* || does not poll when a character is buffered *)
  ready <- (if negb (incoming c =? EOF) then ret false
            else idle <- gets (fun s => bool_decide (status (intr s) = IdleMode)) ;;
                 on_unix (PollFile idle (readFileNo c))) ;;
  if ready : bool then
    bs <- on_unix (Read (readFileNo c) 1) ;;
    ch <- must (zlookup bs 0) ;;
    put_console this (set_incoming ch c) ;;;
    modify (on_stats count_char_read) ;;;
    call_handler (readHandler c)
  else ret tt.

Definition Console_WriteDone (this : loc) : M K unit :=
  c <- get_console this ;;
  put_console this (set_putBusy false c) ;;;
  modify (on_stats count_char_written) ;;;
  call_handler (writeHandler c).

Definition Console_GetChar (this : loc) : M K Z :=
  c <- get_console this ;;
  put_console this (set_incoming EOF c) ;;;
  ret (incoming c).

Definition Console_PutChar (this : loc) (ch : Z) : M K unit :=
  c <- get_console this ;;
  ASSERT (negb (putBusy c)) ;;;
  on_unix (WriteFile (writeFileNo c) [ch]) ;;;
  put_console this (set_putBusy true c) ;;;
  Interrupt_Schedule ConsoleWriteDone (Z.of_nat this) ConsoleTime ConsoleWriteInt.

(** What the console's interrupts do; the other devices are [others]. *)
Definition console_call (others : VoidFunctionPtr -> Z -> M K unit) (h : VoidFunctionPtr) (a : Z) : M K unit :=
  match h with
  | ConsoleReadPoll => Console_CheckCharAvail (Z.to_nat a)
  | ConsoleWriteDone => Console_WriteDone (Z.to_nat a)
  | _ => others h a
  end.

(** ** The synchronous console *)

(** Both constructors: [None] is the file of the one without file names. *)
Definition SynchConsole_new (in_ out : option (list Z)) : M K loc :=
  cons <- Console_new in_ out SynchReadFunct SynchWriteFunct ;;
  r <- Semaphore_new (Lit [83; 121; 110; 99; 104; 32; 82; 101; 97; 100; 32; 65; 118; 97; 105; 108]) 0 ;;
  w <- Semaphore_new (Lit [83; 121; 110; 99; 104; 32; 87; 114; 105; 116; 101; 32; 65; 118; 97; 105; 108]) 0 ;;
  rl <- Semaphore_new (Lit [82; 101; 97; 100; 32; 83; 121; 110; 99; 104; 32; 76; 105; 110; 101; 32; 66; 108; 111; 99; 107]) 1 ;;
  wl <- Semaphore_new (Lit [87; 114; 105; 116; 101; 32; 83; 121; 110; 99; 104; 32; 76; 105; 110; 101; 32; 66; 108; 111; 99; 107]) 1 ;;
  on_os (fun o => set_console_vars cons
    (mkConsoleVars r w rl wl (readAvail (console_vars o)) (writeDone (console_vars o))) o) ;;;
  ret cons.

Definition SynchConsole_delete (cons : loc) : M K unit :=
  Console_delete cons ;;;
  v <- os console_vars ;;
  Semaphore_delete (synchReadAvail v) ;;;
  Semaphore_delete (synchWriteAvail v) ;;;
  Semaphore_delete (RLineBlock v) ;;;
  Semaphore_delete (WLineBlock v).

Context (call : VoidFunctionPtr -> Z -> M K unit) (DelayedLoad_0_0 : M K unit).
Abbreviation P := (Semaphore_P call DelayedLoad_0_0).

(** A call of P or V on one of the static semaphores. *)
Definition P_on (f : ConsoleVars -> loc) : prog K unit := v <~ op (os console_vars) ;; P (f v).
Definition V_on (f : ConsoleVars -> loc) : prog K unit := v <~ op (os console_vars) ;; Semaphore_V (f v).

Definition SynchConsole_Write (cons : loc) (from : list Z) (numBytes : Z) : prog K Z :=
  P_on WLineBlock ;~
  pfor 0 (Z.to_nat numBytes) (fun loop =>
    op (ch <- must (zlookup from loop) ;; Console_PutChar cons ch) ;~
    P_on synchWriteAvail) ;~
  V_on WLineBlock ;~
  Ret numBytes.

(** do { synchReadAvail->P(); ch = cons->GetChar(); } while (ch == EOF) *)
Definition get_char {A} (cons : loc) (k : Z -> prog K A) : prog K A :=
  P_on synchReadAvail ;~
  Until (ch <- Console_GetChar cons ;; ret (if ch =? EOF then None else Some ch)) (P_on synchReadAvail) k.

(** The outer loop: [n] is the room that is left. The characters read, and the
    last value of [ch]. *)
Fixpoint read_line (cons : loc) (n : nat) (into : list Z) (ch : Z) : prog K (list Z * Z) :=
  match n with
  | O => Ret (into, ch)
  | S n' =>
      get_char cons (fun ch =>
        if (ch =? 10) || (ch =? 1) then Ret (into, ch)
        else read_line cons n' (into ++ [ch]) ch)
  end.

(** The result, and the array [into]; [garbage] is [ch] when nothing is read. *)
Definition SynchConsole_Read (garbage : Z) (cons : loc) (numBytes : Z) : prog K (Z * list Z) :=
  P_on RLineBlock ;~
  r <~ read_line cons (Z.to_nat numBytes) [] garbage ;;
  V_on RLineBlock ;~
  Ret (if r.2 =? 1 then -1 else zlength r.1,
       r.1 ++ replicate (Z.to_nat (numBytes - zlength r.1)) 0).

(** ** The console test of progtest.cc *)

(** The loop [for (;;)], which begins with readAvail->P(), is left when the
    character was a q, after writeDone->P(). *)
Definition ConsoleTest (in_ out : option (list Z)) : prog K unit :=
  console <~ op (
    c <- Console_new in_ out ReadAvail WriteDone ;;
    r <- Semaphore_new (Lit [114; 101; 97; 100; 32; 97; 118; 97; 105; 108]) 0 ;;
    w <- Semaphore_new (Lit [119; 114; 105; 116; 101; 32; 100; 111; 110; 101]) 0 ;;
    on_os (fun o => let v := console_vars o in set_console_vars (gSynchConsole o)
      (mkConsoleVars (synchReadAvail v) (synchWriteAvail v) (RLineBlock v) (WLineBlock v) r w) o) ;;;
    ret c) ;;
  P_on readAvail ;~
  Until (ch <- Console_GetChar console ;; Console_PutChar console ch ;;;
         ret (if ch =? 113 then Some tt else None))
    (P_on writeDone ;~ P_on readAvail)
    (fun _ => P_on writeDone).
End Console.
