(* ===== verification/ConsoleSpec.v ===== *)
(** * What the synchronous console promises

    A thread that reads a line with SynchConsole::Read waits for the semaphore
    before each character; the processor idles, the console polls the keyboard
    at every interrupt, and the handler that finds a character signals the
    semaphore. For a user thread that is the only one that can run, the whole of
    it gives the characters that were typed, up to the end of the line or of the
    array. *)

From stdpp Require Import base tactics list numbers gmap.
From S2P Require Import Prelude Lists Interrupt Machine BitMap AddrSpace Disk OpenFile Directory FileSys SysDep Threads ThreadsInv ThreadsSafe Quiet ThreadsSpec ThreadsRuns UserRun System Console Host.

Local Open Scope Z_scope.

(** ** Typing

    [typed fd n w c w']: the console polls the descriptor [n] times, and the last
    time there is the character [c]. [types] is a sequence of them. *)

Section Typing.
Context {W : Type} `{HU : Unix W}.

Inductive typed (fd : Z) : nat -> W -> Z -> W -> Prop :=
| typed_now w w1 w2 c :
    PollFile false fd w = Ok (true, w1) -> Read fd 1 w1 = Ok ([c], w2) -> typed fd 1 w c w2
| typed_later n w w1 w2 c :
    PollFile false fd w = Ok (false, w1) -> typed fd n w1 c w2 -> typed fd (S n) w c w2.

Inductive types (fd : Z) : nat -> W -> list Z -> W -> Prop :=
| types_nothing w : types fd 0 w [] w
| types_char n m w w1 w2 c cs :
    typed fd n w c w1 -> types fd m w1 cs w2 -> types fd (n + m) w (c :: cs) w2.

Lemma typed_pos fd n w c w' : typed fd n w c w' -> (0 < n)%nat.
Proof. induction 1; lia. Qed.
End Typing.

(** [line room keys text last]: of the keys, [text] are the characters that a
    reader with that much room takes, and [last] is the last one: the end of the
    line, CTRL-A, or the character that fills the array. *)
Definition ordinary (ch : Z) : Prop := ch <> 10 /\ ch <> 1 /\ ch <> EOF.

Inductive line : nat -> list Z -> list Z -> Z -> Prop :=
| line_end room ch : ch = 10 \/ ch = 1 -> line (S room) [ch] [] ch
| line_full ch : ordinary ch -> line 1 [ch] [ch] ch
| line_char room ch keys text last :
    ordinary ch -> line (S room) keys text last ->
    line (S (S room)) (ch :: keys) (ch :: text) last.

Lemma line_length room keys text last : line room keys text last -> (length text <= room)%nat.
Proof. induction 1; cbn in *; lia. Qed.

(** ** The states of the run *)

Section Reading.
Context {W F : Type} `{HU : Unix W} `{!Lens W F}.
Abbreviation K := (Sim (Kernel (OS F))).
Context (others : VoidFunctionPtr -> Z -> M K unit) (code : loc -> prog K unit).
Abbreviation call := (console_call others).
Abbreviation DL := (on_cpu (Machine_DelayedLoad 0 0) : M K unit).
Abbreviation runs_to := (Quiet.runs_to call DL code).

(** The thread [t] in the space [sp] at [a], the console at [cons] with its
    variables, and the part of the kernel that stays the same. *)
Context (t a : loc) (sp : AddrSpace) (cons : loc) (ths : gmap loc Thread) (sems : gmap loc Semaphore)
  (sps : gmap loc AddrSpace) (u : OS F).
Abbreviation v := (console_vars u).
Abbreviation RA := (synchReadAvail v).
Abbreviation RB := (RLineBlock v).
Abbreviation m := (machine (os_mem u)).

Definition kern (th : Thread) (rl : list loc) (ra rb : Semaphore) (c : Console) (w : W) : Kernel (OS F) :=
  mkKernel (<[t := th]> ths) rl t None (<[RA := ra]> (<[RB := rb]> sems)) sps
    (set_consoles (<[cons := c]> (consoles u)) (set_fileSystem (lset w (fileSystem u)) u)).

(** A machine in the middle of a system call: no load is delayed. *)
Record at_rest (m : Machine) : Prop := {
  ar_registers : zlength (registers m) = NumTotalRegs;
  ar_zero : zlookup (registers m) 0 = Some 0;
  ar_load : zlookup (registers m) LoadReg = Some 0;
  ar_value : zlookup (registers m) LoadValueReg = Some 0
}.

Context (Hm : at_rest m) (Hpt : pageTable m = space_pageTable sp) (Hps : pageTableSize m = numPages sp).
Context (Hsp : sps !! a = Some sp) (HRAB : RA <> RB).

Lemma set_reg_same i x (m' : Machine) : zlookup (registers m') i = Some x -> set_reg i x m' = Ok (tt, m').
Proof.
  intros E. unfold set_reg. munfold. pose proof (zlookup_lt_Some _ _ _ E) as Hi.
  rewrite (proj2 (store_Some (registers m') i x (registers m'))); [|split; [done|]].
  - unfold put. do 2 f_equal. by destruct m'.
  - apply zlookup_Some in E as [H0 E]. unfold zinsert. rewrite (proj2 (Z.ltb_ge i 0)) by lia.
    symmetry. by apply list_insert_id.
Qed.

Lemma DelayedLoad_rest : Machine_DelayedLoad 0 0 m = Ok (tt, m).
Proof.
  destruct Hm as [_ H0 Hl Hv]. unfold Machine_DelayedLoad.
  assert (forall i x, zlookup (registers m) i = Some x -> reg i m = Ok (x, m)) as Hr.
  { intros i x E. unfold reg. munfold. by rewrite E. }
  mrun (Hr _ _ Hl). mrun (Hr _ _ Hv). mrun (set_reg_same 0 0 m H0).
  mrun (set_reg_same LoadReg 0 m Hl). mrun (set_reg_same LoadValueReg 0 m Hv). exact (set_reg_same 0 0 m H0).
Qed.

Lemma DL_rest i st th rl ra rb c w :
  DL (mkSim i st (kern th rl ra rb c w)) = Ok (tt, mkSim i st (kern th rl ra rb c w)).
Proof.
  rewrite (on_cpu_run (Machine_DelayedLoad 0 0) (mkSim i st (kern th rl ra rb c w)) tt m);
    [|exact DelayedLoad_rest].
  unfold on_rest, set_user, kern. cbn. do 3 f_equal. unfold set_mem, set_consoles. cbn. f_equal. by destruct (os_mem u).
Qed.

(** *** The operations on the parts of the kernel *)

Lemma unix_run {A} (p : M W A) i st th rl ra rb c w x w' : p w = Ok (x, w') ->
  on_unix p (mkSim i st (kern th rl ra rb c w)) = Ok (x, mkSim i st (kern th rl ra rb c w')).
Proof.
  intros E. unfold on_unix, on_files, on_user, zoom. cbn. rewrite lget_lset, E. cbn.
  rewrite lset_lset. done.
Qed.

Lemma get_console_run i st th rl ra rb c w :
  get_console cons (mkSim i st (kern th rl ra rb c w)) = Ok (c, mkSim i st (kern th rl ra rb c w)).
Proof. unfold get_console, os, kernel. munfold. cbn. by rewrite lookup_insert_eq. Qed.

Lemma put_console_run i st th rl ra rb c c' w :
  put_console cons c' (mkSim i st (kern th rl ra rb c w)) = Ok (tt, mkSim i st (kern th rl ra rb c' w)).
Proof.
  unfold put_console, on_os, on_user, modify. cbn. unfold on_rest, set_user, kern, set_consoles. cbn.
  by rewrite insert_insert_eq.
Qed.

Lemma get_RA i st th rl ra rb c w :
  get_semaphore RA (mkSim i st (kern th rl ra rb c w)) = Ok (ra, mkSim i st (kern th rl ra rb c w)).
Proof. apply get_semaphore_run. apply lookup_insert_eq. Qed.
Lemma get_RB i st th rl ra rb c w :
  get_semaphore RB (mkSim i st (kern th rl ra rb c w)) = Ok (rb, mkSim i st (kern th rl ra rb c w)).
Proof. apply get_semaphore_run. cbn. rewrite lookup_insert_ne by done. apply lookup_insert_eq. Qed.
Lemma put_RA i st th rl ra ra' rb c w :
  put_semaphore RA ra' (mkSim i st (kern th rl ra rb c w)) = Ok (tt, mkSim i st (kern th rl ra' rb c w)).
Proof. rewrite put_semaphore_run. unfold on_rest, set_semaphores, kern. cbn. by rewrite insert_insert_eq. Qed.
Lemma put_RB i st th rl ra rb rb' c w :
  put_semaphore RB rb' (mkSim i st (kern th rl ra rb c w)) = Ok (tt, mkSim i st (kern th rl ra rb' c w)).
Proof.
  rewrite put_semaphore_run. unfold on_rest, set_semaphores, kern. cbn.
  rewrite insert_insert_ne by done. by rewrite insert_insert_eq.
Qed.

Lemma update_t i st th rl ra rb c w f :
  update_thread t f (mkSim i st (kern th rl ra rb c w)) = Ok (tt, mkSim i st (kern (f th) rl ra rb c w)).
Proof.
  rewrite (update_thread_run _ t th) by apply lookup_insert_eq.
  unfold on_rest, set_threads, kern. cbn. by rewrite insert_insert_eq.
Qed.

(** ** The poll of the keyboard *)

(** The one interrupt that is pending. *)
Definition poll (w : Z) : list (PendingInterrupt * Z) :=
  [(mkPending ConsoleReadPoll (Z.of_nat cons) w ConsoleReadInt, w)].

Definition in_handler (p : list (PendingInterrupt * Z)) (st : Statistics) (k : Kernel (OS F)) : K :=
  mkSim (mkInterrupt IntOff p true false SystemMode) st k.

Lemma schedule_poll st k : 0 <= totalTicks st -> totalTicks st + ConsoleTime < 2 ^ 31 ->
  Interrupt_Schedule ConsoleReadPoll (Z.of_nat cons) ConsoleTime ConsoleReadInt (in_handler [] st k) =
  Ok (tt, in_handler (poll (totalTicks st + ConsoleTime)) st k).
Proof.
  intros H0 Hr. unfold Interrupt_Schedule, in_handler. munfold. cbn.
  rewrite i32_id by (unfold is_i32, ConsoleTime in *; lia). done.
Qed.

Lemma release_wakes_reader i st th nm rb c w :
  release RA (mkSim i st (kern th [] (mkSem nm 0 [t]) rb c w)) =
  Ok (tt, mkSim i st (kern (Thread_setStatus READY th) [t] (mkSem nm 1 []) rb c w)).
Proof.
  unfold release. mrun (get_RA i st th [] (mkSem nm 0 [t]) rb c w). cbn [queue sem_name value].
  rewrite <- bind_assoc. mrun (put_RA i st th [] (mkSem nm 0 [t]) (mkSem nm 0 []) rb c w).
  assert (Scheduler_ReadyToRun t (mkSim i st (kern th [] (mkSem nm 0 []) rb c w)) =
    Ok (tt, mkSim i st (kern (Thread_setStatus READY th) [t] (mkSem nm 0 []) rb c w))) as E.
  { unfold Scheduler_ReadyToRun. by mrun (update_t i st th [] (mkSem nm 0 []) rb c w (Thread_setStatus READY)). }
  mrun E. mrun (get_RA i st (Thread_setStatus READY th) [t] (mkSem nm 0 []) rb c w).
  exact (put_RA i st (Thread_setStatus READY th) [t] (mkSem nm 0 []) (mkSem nm 1 []) rb c w).
Qed.

Section Poll.
Context (st : Statistics) (th : Thread) (nm : charp) (rb : Semaphore) (c : Console) (w w1 : W).
Context (H0 : 0 <= totalTicks st) (Hr : totalTicks st + ConsoleTime < 2 ^ 31).
Context (Hh : readHandler c = SynchReadFunct) (Hi : incoming c = EOF).

(** The handler, up to the answer of the keyboard. *)
Lemma CheckCharAvail_polls (b : bool) : PollFile false (readFileNo c) w = Ok (b, w1) ->
  let next := poll (totalTicks st + ConsoleTime) in
  let k := kern th [] (mkSem nm 0 [t]) rb c in
  Console_CheckCharAvail cons (in_handler [] st (k w)) =
  (if b then
    bs <- on_unix (Read (readFileNo c) 1) ;;
    ch <- must (zlookup bs 0) ;;
    put_console cons (set_incoming ch c) ;;;
    modify (on_stats count_char_read) ;;;
    call_handler (readHandler c)
  else ret tt) (in_handler next st (k w1)).
Proof.
  intros E next k. unfold Console_CheckCharAvail. mrun (schedule_poll st (k w) H0 Hr).
  mrun (get_console_run (mkInterrupt IntOff next true false SystemMode) st th [] (mkSem nm 0 [t]) rb c w).
  rewrite Hi. cbn [EOF Z.eqb negb Pos.eqb].
  rewrite (bind_Ok _ _ _ b (in_handler next st (k w1))); [done|].
  rewrite (bind_Ok (gets _) _ _ false (in_handler next st (k w))) by done.
  by apply unix_run.
Qed.

Lemma CheckCharAvail_none : PollFile false (readFileNo c) w = Ok (false, w1) ->
  Console_CheckCharAvail cons (in_handler [] st (kern th [] (mkSem nm 0 [t]) rb c w)) =
  Ok (tt, in_handler (poll (totalTicks st + ConsoleTime)) st (kern th [] (mkSem nm 0 [t]) rb c w1)).
Proof. intros E. by rewrite (CheckCharAvail_polls false E). Qed.

Lemma CheckCharAvail_char ch w2 : PollFile false (readFileNo c) w = Ok (true, w1) ->
  Read (readFileNo c) 1 w1 = Ok ([ch], w2) ->
  Console_CheckCharAvail cons (in_handler [] st (kern th [] (mkSem nm 0 [t]) rb c w)) =
  Ok (tt, in_handler (poll (totalTicks st + ConsoleTime)) (count_char_read st)
    (kern (Thread_setStatus READY th) [t] (mkSem nm 1 []) rb (set_incoming ch c) w2)).
Proof.
  intros E Er. rewrite (CheckCharAvail_polls true E). cbn beta iota. set (next := poll _).
  pose proof (unix_run _ (mkInterrupt IntOff next true false SystemMode) st th [] (mkSem nm 0 [t]) rb c w1 _ w2 Er) as E1.
  mrun E1. rewrite (bind_Ok (must _) _ _ ch _) by done.
  mrun (put_console_run (mkInterrupt IntOff next true false SystemMode) st th [] (mkSem nm 0 [t]) rb c (set_incoming ch c) w2).
  rewrite (bind_Ok (modify _) _ _ tt (in_handler next (count_char_read st)
    (kern th [] (mkSem nm 0 [t]) rb (set_incoming ch c) w2))) by done.
  rewrite Hh. unfold call_handler, handler_semaphore. rewrite <- bind_assoc.
  erewrite bind_Ok; [|reflexivity]. rewrite (bind_Ok (ret _) _ _ RA (in_handler next (count_char_read st)
    (kern th [] (mkSem nm 0 [t]) rb (set_incoming ch c) w2))) by done.
  unfold Semaphore_V_handler. rewrite (bind_Ok (change_level IntOff) _ _ IntOff (in_handler next (count_char_read st)
    (kern th [] (mkSem nm 0 [t]) rb (set_incoming ch c) w2))) by done.
  mrun (release_wakes_reader (mkInterrupt IntOff next true false SystemMode) (count_char_read st) th nm rb (set_incoming ch c) w2).
  done.
Qed.
End Poll.

(** *** The processor idles *)

Definition clock_at (w : Z) (st : Statistics) : Statistics :=
  set_ticks w (i32 (idleTicks st + (w - totalTicks st))) (systemTicks st) (userTicks st) st.

(** The other interrupt is still to come: it stays. *)
Lemma fire_due_later w st (k : Kernel (OS F)) md y : totalTicks st < w ->
  fire_due call DL (mkSim (mkInterrupt IntOff (poll w) false y md) st k) =
  Ok (tt, mkSim (mkInterrupt IntOff (poll w) false y md) st k).
Proof.
  intros Hw. assert ((w >? totalTicks st) = true) as Hgt by (apply Z.gtb_lt; lia).
  unfold fire_due, Interrupt_CheckIfDue. munfold. cbn [intr pending poll length while_ level stats status].
  unfold bind, get, obind, modify, ret. cbn [intr pending poll level stats on_intr set_pending rest]. rewrite Hgt. done.
Qed.

Lemma Idle_polls w w2 st st2 th rl ra rb c x k2 : totalTicks st < w < w2 -> totalTicks st2 = w ->
  Console_CheckCharAvail cons (in_handler [] (clock_at w st) (kern th rl ra rb c x)) =
    Ok (tt, in_handler (poll w2) st2 k2) ->
  Interrupt_Idle call DL (St IntOff (poll w) st (kern th rl ra rb c x)) = Ok (tt, St IntOff (poll w2) st2 k2).
Proof.
  intros Hw H2 E. assert ((w >? totalTicks st) = true) as Hgt by (apply Z.gtb_lt; lia).
  set (k := kern th rl ra rb c x) in *. unfold Interrupt_Idle, St.
  rewrite (bind_Ok (modify _) _ _ tt (mkSim (mkInterrupt IntOff (poll w) false false IdleMode) st k)) by done.
  assert (Interrupt_CheckIfDue call DL true (mkSim (mkInterrupt IntOff (poll w) false false IdleMode) st k) =
    Ok (true, mkSim (mkInterrupt IntOff (poll w2) false false IdleMode) st2 k2)) as Ec.
  { unfold Interrupt_CheckIfDue, poll at 1. unfold bind at 1, get. cbn [obind intr level pending stats status].
    unfold bind at 1, ASSERT. cbn [obind]. rewrite bool_decide_eq_true_2 by done. unfold ret at 1. cbn [obind].
    unfold bind at 1, modify at 1. cbn [obind andb negb]. rewrite Hgt. cbn [negb].
    unfold bind at 1, modify at 1. cbn [obind type]. rewrite bool_decide_eq_true_2, bool_decide_eq_false_2 by done. cbn [andb].
    unfold fire. mrun (DL_rest (mkInterrupt IntOff [] false false IdleMode) (clock_at w st) th rl ra rb c x).
    do 2 (erewrite bind_Ok; [|reflexivity]; cbn beta). cbn [handler arg console_call]. rewrite Nat2Z.id. by mrun E. }
  mrun Ec. mrun (fire_due_later w2 st2 k2 IdleMode false ltac:(lia)). done.
Qed.

(** A tick before the poll. *)
Lemma tick_before_poll w g sv st k Q : 0 <= totalTicks st -> totalTicks st + SystemTick < w -> w < 2 ^ 31 ->
  (forall st', totalTicks st' = totalTicks st + SystemTick -> runs_to (mkConfig g sv (St IntOn (poll w) st' k)) Q) ->
  runs_to (mkConfig (Tick g) sv (St IntOn (poll w) st k)) Q.
Proof.
  intros H0 Hm' Hw H. eapply runs_to_step; [reflexivity|]. unfold OneTick. cbn [pbind op].
  eapply runs_to_do; [reflexivity|].
  set (st1 := set_ticks (i32 (totalTicks st + SystemTick)) (idleTicks st) (i32 (systemTicks st + SystemTick)) (userTicks st) st).
  assert (totalTicks st1 = totalTicks st + SystemTick) as E1.
  { cbn. apply i32_id. unfold is_i32, SystemTick in *. lia. }
  eapply (runs_to_do _ _ tt _ _ (St IntOn (poll w) st1 k)).
  { rewrite (bind_Ok advance_time _ _ tt (St IntOn (poll w) st1 k)) by done.
    rewrite (bind_Ok (Interrupt_ChangeLevel IntOff) _ _ tt (St IntOff (poll w) st1 k)) by done.
    by mrun (fire_due_later w st1 k SystemMode false ltac:(lia)). }
  eapply runs_to_do; [reflexivity|]. cbn beta iota. by apply H.
Qed.
(** *** The thread waits *)

(** The thread when it has got the processor back. *)
Definition saved_thread (th : Thread) : Thread := Thread_setStatus RUNNING (set_userRegisters (registers m) th).

Record user_thread_ok (th : Thread) : Prop := {
  ut_stack : stack th = None \/ stack th = Some STACK_FENCEPOST;
  ut_registers : zlength (userRegisters th) = NumTotalRegs;
  ut_space : thread_space th = Some a
}.

Lemma saved_ok th : user_thread_ok th -> user_thread_ok (saved_thread th).
Proof. intros []. split; [done|apply Hm|done]. Qed.

Lemma leave_self i st th ra rb c x : user_thread_ok th ->
  leave_thread t (mkSim i st (kern th [] ra rb c x)) =
  Ok (tt, mkSim i st (kern (set_userRegisters (registers m) th) [] ra rb c x)).
Proof.
  intros [Hs Hr Ha]. rewrite (leave_user_thread _ t th a sp); [|apply lookup_insert_eq|done|exact Hsp| |apply Hm].
  - unfold with_registers, on_rest, set_threads, kern, cpu_of. cbn. by rewrite insert_insert_eq.
  - split; [done|]. split; [done|]. intros b Hb. rewrite Ha in Hb. injection Hb as <-. by exists sp.
Qed.

Lemma resume_self i st th ra rb c x : user_thread_ok th ->
  resume_thread (mkSim i st (kern (saved_thread th) [] ra rb c x)) =
  Ok (tt, mkSim i st (kern (saved_thread th) [] ra rb c x)).
Proof.
  intros [Hs Hr Ha].
  rewrite (resume_user_thread _ t (saved_thread th) a sp); try done; [|apply lookup_insert_eq|apply Hm..].
  unfold on_rest, set_user, kern, cpu_of. cbn. do 3 f_equal. rewrite <- Hpt, <- Hps.
  unfold set_mem, set_consoles. cbn. f_equal. destruct u as [[[]]]. done.
Qed.

Lemma Run_reader p st th ra rb c x sv (g : unit -> prog K unit) Q : user_thread_ok th -> sv !! t = None ->
  runs_to (mkConfig (g tt) sv (St IntOff p st (kern (saved_thread th) [] ra rb c x))) Q ->
  runs_to (mkConfig (pbind (Scheduler_Run t) g) sv (St IntOff p st (kern th [] ra rb c x))) Q.
Proof.
  intros Hth Hsv H. unfold Scheduler_Run. cbn [pbind op].
  eapply runs_to_do; [reflexivity|]. cbn [kern currentThread rest St pbind op].
  eapply (runs_to_do _ _ tt _ _ (St IntOff p st (kern (set_userRegisters (registers m) th) [] ra rb c x))).
  { by apply leave_self. }
  eapply (runs_to_do _ _ tt _ _ (St IntOff p st (kern (saved_thread th) [] ra rb c x))).
  { unfold enter_thread. rewrite (bind_Ok (on_kernel _) _ _ tt (St IntOff p st
      (kern (set_userRegisters (registers m) th) [] ra rb c x))) by done. apply update_t. }
  cbn [pbind op]. apply runs_to_switch; [done|]. eapply (runs_to_do _ _ tt); [by apply resume_self|]. exact H.
Qed.

Lemma Sleep_typed c n x ch x' : readHandler c = SynchReadFunct -> incoming c = EOF ->
  typed (readFileNo c) n x ch x' -> forall st w th nm rb sv (g : unit -> prog K unit) Q,
  user_thread_ok th -> sv !! t = None ->
  0 <= totalTicks st < w -> w + Z.of_nat n * ConsoleTime < 2 ^ 31 ->
  (forall st', totalTicks st' = w + (Z.of_nat n - 1) * ConsoleTime ->
     runs_to (mkConfig (g tt) sv (St IntOff (poll (w + Z.of_nat n * ConsoleTime)) st'
       (kern (saved_thread th) [] (mkSem nm 1 []) rb (set_incoming ch c) x'))) Q) ->
  runs_to (mkConfig (pbind (Until Scheduler_FindNextToRun (op (Interrupt_Idle call DL)) Scheduler_Run) g) sv
    (St IntOff (poll w) st (kern th [] (mkSem nm 0 [t]) rb c x))) Q.
Proof.
  intros Hh Hi Ht. induction Ht as [x x1 x2 ch Ep Er|n x x1 x2 ch Ep Ht IH];
    intros st w th nm rb sv g Q Hth Hsv Hw Hr H; cbn [pbind].
  all: assert (totalTicks (clock_at w st) = w) as Ec by done.
  all: eapply (runs_to_until _ _ _ None); [reflexivity|]; cbn [pbind op].
  - eapply runs_to_do.
    { apply (Idle_polls w (w + ConsoleTime) st (count_char_read (clock_at w st))); [unfold ConsoleTime; lia|done|].
      rewrite (CheckCharAvail_char (clock_at w st) th nm rb c x x1) with (ch := ch) (w2 := x2); rewrite ?Ec; try done; lia. }
    eapply (runs_to_until _ _ _ (Some t)); [reflexivity|].
    apply (Run_reader _ _ (Thread_setStatus READY th)); [by destruct Hth|done|].
    replace (w + ConsoleTime) with (w + Z.of_nat 1 * ConsoleTime) by lia.
    apply H. cbn. lia.
  - eapply runs_to_do.
    { apply (Idle_polls w (w + ConsoleTime) st (clock_at w st)); [unfold ConsoleTime; lia|done|].
      rewrite (CheckCharAvail_none (clock_at w st) th nm rb c x x1); rewrite ?Ec; try done; unfold ConsoleTime in *; lia. }
    cbn [pbind]. apply (IH (clock_at w st) (w + ConsoleTime) th nm rb sv g Q Hth Hsv);
      [rewrite Ec; unfold ConsoleTime; lia|rewrite Nat2Z.inj_succ in Hr; lia|].
    intros st' Hst'. specialize (H st'). rewrite Nat2Z.inj_succ in H.
    replace (w + ConsoleTime + Z.of_nat n * ConsoleTime) with (w + Z.succ (Z.of_nat n) * ConsoleTime) by lia.
    apply H. lia.
Qed.

(** P waits for the character. *)
Lemma P_typed c n x ch x' st w th nm rb sv (f : unit -> prog K unit) Q :
  readHandler c = SynchReadFunct -> incoming c = EOF -> typed (readFileNo c) n x ch x' ->
  user_thread_ok th -> sv !! t = None ->
  0 <= totalTicks st < w -> w + Z.of_nat n * ConsoleTime < 2 ^ 31 ->
  (forall st', totalTicks st' = w + (Z.of_nat n - 1) * ConsoleTime + SystemTick ->
     runs_to (mkConfig (f tt) sv (St IntOn (poll (w + Z.of_nat n * ConsoleTime)) st'
       (kern (saved_thread th) [] (mkSem nm 0 []) rb (set_incoming ch c) x'))) Q) ->
  runs_to (mkConfig (pbind (P_on call DL synchReadAvail) f) sv
    (St IntOn (poll w) st (kern th [] (mkSem nm 0 []) rb c x))) Q.
Proof.
  intros Hh Hi Ht Hth Hsv Hw Hr H. pose proof (typed_pos _ _ _ _ _ Ht) as Hn.
  unfold P_on. cbn [pbind op]. eapply runs_to_do; [reflexivity|]. cbn [rest St kern user].
  unfold Semaphore_P, SetLevel. cbn [pbind op].
  eapply runs_to_do; [apply change_level_St|]. change (bool_decide (IntOff = IntOn)) with false. cbn [andb pbind].
  eapply (runs_to_until _ _ _ None); [erewrite bind_Ok; [|apply get_RA]; reflexivity|]. cbn [pbind op].
  eapply (runs_to_do _ _ tt _ _ (St IntOff (poll w) st (kern th [] (mkSem nm 0 [t]) rb c x))).
  { erewrite bind_Ok; [|apply get_RA]. erewrite bind_Ok; [|reflexivity]. apply put_RA. }
  eapply runs_to_do; [reflexivity|]. cbn [kern currentThread rest St pbind]. unfold Thread_Sleep. cbn [pbind op].
  eapply (runs_to_do _ _ tt _ _ (St IntOff (poll w) st (kern (Thread_setStatus BLOCKED th) [] (mkSem nm 0 [t]) rb c x))).
  { erewrite bind_Ok; [|reflexivity]. cbn [kern currentThread rest St]. rewrite bool_decide_eq_true_2 by done.
    do 3 (erewrite bind_Ok; [|reflexivity]). apply update_t. }
  eapply (Sleep_typed c n x ch x' Hh Hi Ht st w (Thread_setStatus BLOCKED th) nm rb sv); [by destruct Hth|done|done|done|].
  intros st' Hst'. change (saved_thread (Thread_setStatus BLOCKED th)) with (saved_thread th).
  set (w' := w + Z.of_nat n * ConsoleTime) in *. cbn [pbind].
  eapply (runs_to_until _ _ _ (Some tt)); [erewrite bind_Ok; [|apply get_RA]; reflexivity|].
  eapply (runs_to_do _ _ tt _ _ (St IntOff (poll w') st' (kern (saved_thread th) [] (mkSem nm 0 []) rb (set_incoming ch c) x'))).
  { erewrite bind_Ok; [|apply get_RA]. apply put_RA. }
  cbn [pbind op]. eapply runs_to_do; [apply change_level_St|].
  change (bool_decide (IntOn = IntOn) && bool_decide (IntOff = IntOff)) with true. cbn [pbind ptick].
  apply (tick_before_poll w' _ _ st'); [unfold ConsoleTime, SystemTick in *; lia..|].
  intros st2 Hst2. apply H. rewrite Hst2, Hst'. done.
Qed.

(** Taking and releasing the line. *)
Lemma P_line st w th ra nm c x sv (f : unit -> prog K unit) Q :
  0 <= totalTicks st -> totalTicks st + SystemTick < w -> w < 2 ^ 31 ->
  (forall st', totalTicks st' = totalTicks st + SystemTick ->
     runs_to (mkConfig (f tt) sv (St IntOn (poll w) st' (kern th [] ra (mkSem nm 0 []) c x))) Q) ->
  runs_to (mkConfig (pbind (P_on call DL RLineBlock) f) sv
    (St IntOn (poll w) st (kern th [] ra (mkSem nm 1 []) c x))) Q.
Proof.
  intros H0 Hw Hr H. unfold P_on. cbn [pbind op]. eapply runs_to_do; [reflexivity|]. cbn [rest St kern user].
  unfold Semaphore_P, SetLevel. cbn [pbind op].
  eapply runs_to_do; [apply change_level_St|]. change (bool_decide (IntOff = IntOn)) with false. cbn [andb pbind].
  eapply (runs_to_until _ _ _ (Some tt)); [erewrite bind_Ok; [|apply get_RB]; reflexivity|].
  eapply (runs_to_do _ _ tt _ _ (St IntOff (poll w) st (kern th [] ra (mkSem nm 0 []) c x))).
  { erewrite bind_Ok; [|apply get_RB]. apply put_RB. }
  cbn [pbind op]. eapply runs_to_do; [apply change_level_St|].
  change (bool_decide (IntOn = IntOn) && bool_decide (IntOff = IntOff)) with true. cbn [pbind ptick].
  by apply (tick_before_poll w _ _ st).
Qed.

Lemma V_line st w th ra nm c x sv (f : unit -> prog K unit) Q :
  0 <= totalTicks st -> totalTicks st + SystemTick < w -> w < 2 ^ 31 ->
  (forall st', totalTicks st' = totalTicks st + SystemTick ->
     runs_to (mkConfig (f tt) sv (St IntOn (poll w) st' (kern th [] ra (mkSem nm 1 []) c x))) Q) ->
  runs_to (mkConfig (pbind (V_on RLineBlock) f) sv
    (St IntOn (poll w) st (kern th [] ra (mkSem nm 0 []) c x))) Q.
Proof.
  intros H0 Hw Hr H. unfold V_on. cbn [pbind op]. eapply runs_to_do; [reflexivity|]. cbn [rest St kern user].
  unfold Semaphore_V, SetLevel. cbn [pbind op].
  eapply runs_to_do; [apply change_level_St|]. change (bool_decide (IntOff = IntOn)) with false. cbn [andb pbind op].
  eapply (runs_to_do _ _ tt _ _ (St IntOff (poll w) st (kern th [] ra (mkSem nm 1 []) c x))).
  { unfold release. erewrite bind_Ok; [|apply get_RB]. cbn [queue]. erewrite bind_Ok; [|reflexivity].
    erewrite bind_Ok; [|apply get_RB]. apply put_RB. }
  cbn [pbind op]. eapply runs_to_do; [apply change_level_St|].
  change (bool_decide (IntOn = IntOn) && bool_decide (IntOff = IntOff)) with true. cbn [pbind ptick].
  by apply (tick_before_poll w _ _ st).
Qed.

(** One character of a line. *)
Lemma get_char_typed c n x ch x' st w th nm rb sv {A} (g : Z -> prog K A) (f : A -> prog K unit) Q :
  readHandler c = SynchReadFunct -> incoming c = EOF -> typed (readFileNo c) n x ch x' -> ch <> EOF ->
  user_thread_ok th -> sv !! t = None ->
  0 <= totalTicks st < w -> w + Z.of_nat n * ConsoleTime < 2 ^ 31 ->
  (forall st', totalTicks st' = w + (Z.of_nat n - 1) * ConsoleTime + SystemTick ->
     runs_to (mkConfig (pbind (g ch) f) sv (St IntOn (poll (w + Z.of_nat n * ConsoleTime)) st'
       (kern (saved_thread th) [] (mkSem nm 0 []) rb c x'))) Q) ->
  runs_to (mkConfig (pbind (get_char call DL cons g) f) sv
    (St IntOn (poll w) st (kern th [] (mkSem nm 0 []) rb c x))) Q.
Proof.
  intros Hh Hi Ht Hch Hth Hsv Hw Hr H. unfold get_char. rewrite pbind_assoc.
  apply (P_typed c n x ch x' st w th nm rb sv _ Q Hh Hi Ht Hth Hsv Hw Hr). intros st' Hst'. cbn [pbind].
  eapply (runs_to_until _ _ _ (Some ch)); [|by apply H].
  unfold Console_GetChar. rewrite <- !bind_assoc. erewrite bind_Ok; [|apply get_console_run].
  cbn beta. rewrite <- !bind_assoc. erewrite bind_Ok; [|apply put_console_run].
  cbn beta. erewrite bind_Ok; [|reflexivity]. cbn beta. cbn [set_incoming incoming].
  rewrite (proj2 (Z.eqb_neq ch EOF)) by done. unfold ret, St. do 4 f_equal. unfold set_incoming. cbn. rewrite <- Hi. by destruct c.
Qed.

(** ** Reading a line *)

Lemma read_line_typed room keys text last : line room keys text last ->
  forall c n x x' st w th nm rb sv into ch0 (f : list Z * Z -> prog K unit) Q,
  readHandler c = SynchReadFunct -> incoming c = EOF -> types (readFileNo c) n x keys x' ->
  user_thread_ok th -> sv !! t = None ->
  0 <= totalTicks st < w -> w + Z.of_nat n * ConsoleTime < 2 ^ 31 ->
  (forall st', totalTicks st' = w + (Z.of_nat n - 1) * ConsoleTime + SystemTick ->
     runs_to (mkConfig (f (into ++ text, last)) sv (St IntOn (poll (w + Z.of_nat n * ConsoleTime)) st'
       (kern (saved_thread th) [] (mkSem nm 0 []) rb c x'))) Q) ->
  runs_to (mkConfig (pbind (read_line call DL cons room into ch0) f) sv
    (St IntOn (poll w) st (kern th [] (mkSem nm 0 []) rb c x))) Q.
Proof.
  induction 1 as [room ch Hch|ch (Hc1 & Hc2 & Hc3)|room ch keys text last (Hc1 & Hc2 & Hc3) Hl IH];
    intros c n x x' st w th nm rb sv into ch0 f Q Hh Hi Ht Hth Hsv Hw Hr H.
  all: inversion Ht as [|n1 n2 ? x1 ? ? ? Ht1 Ht2]; subst; cbn [read_line].
  1,2: inversion Ht2; subst; rewrite Nat.add_0_r in *.
  - eapply get_char_typed; try done; [by destruct Hch as [-> | ->]|]. intros st' Hst'.
    destruct Hch as [-> | ->]; cbn [Z.eqb Pos.eqb orb pbind]; rewrite app_nil_r in H; by apply H.
  - eapply get_char_typed; try done. intros st' Hst'.
    rewrite (proj2 (Z.eqb_neq ch 10)), (proj2 (Z.eqb_neq ch 1)) by done. cbn [orb read_line pbind]. by apply H.
  - pose proof (typed_pos _ _ _ _ _ Ht1) as Hn1.
    eapply get_char_typed; try done; [unfold ConsoleTime in *; lia|]. intros st' Hst'.
    rewrite (proj2 (Z.eqb_neq ch 10)), (proj2 (Z.eqb_neq ch 1)) by done. cbn [orb].
    rewrite Nat2Z.inj_add in *.
    apply (IH c n2 x1 x' st' (w + Z.of_nat n1 * ConsoleTime) (saved_thread th) nm rb sv (into ++ [ch]) ch f Q);
      try done; [by apply saved_ok|unfold ConsoleTime, SystemTick in *; lia|lia|].
    intros st2 Hst2. rewrite <- app_assoc. cbn [app].
    replace (w + Z.of_nat n1 * ConsoleTime + Z.of_nat n2 * ConsoleTime) with
      (w + (Z.of_nat n1 + Z.of_nat n2) * ConsoleTime) by lia.
    apply H. rewrite Hst2. lia.
Qed.

Lemma Read_typed numBytes keys text last c n x x' st w th nm nl sv garbage (f : Z * list Z -> prog K unit) Q :
  line (Z.to_nat numBytes) keys text last -> types (readFileNo c) n x keys x' ->
  readHandler c = SynchReadFunct -> incoming c = EOF -> user_thread_ok th -> sv !! t = None ->
  0 <= totalTicks st -> totalTicks st + SystemTick < w -> w + Z.of_nat n * ConsoleTime < 2 ^ 31 ->
  (forall st', totalTicks st' = w + (Z.of_nat n - 1) * ConsoleTime + 2 * SystemTick ->
     runs_to (mkConfig (f (if last =? 1 then -1 else zlength text,
                           text ++ replicate (Z.to_nat (numBytes - zlength text)) 0)) sv
       (St IntOn (poll (w + Z.of_nat n * ConsoleTime)) st'
         (kern (saved_thread th) [] (mkSem nm 0 []) (mkSem nl 1 []) c x'))) Q) ->
  runs_to (mkConfig (pbind (SynchConsole_Read call DL garbage cons numBytes) f) sv
    (St IntOn (poll w) st (kern th [] (mkSem nm 0 []) (mkSem nl 1 []) c x))) Q.
Proof.
  intros Hl Ht Hh Hi Hth Hsv H0 Hw Hr H. unfold SynchConsole_Read. rewrite pbind_assoc.
  apply P_line; [done|done|unfold ConsoleTime in *; lia|]. intros st1 H1. rewrite pbind_assoc.
  apply (read_line_typed _ keys text last Hl c n x x' st1 w th nm (mkSem nl 0 []) sv); try done; [unfold SystemTick in *; lia|].
  intros st2 H2. cbn [app]. rewrite pbind_assoc.
  assert (0 < n)%nat as Hn.
  { destruct Hl; inversion Ht as [|? ? ? ? ? ? ? Ht1 ?]; subst; pose proof (typed_pos _ _ _ _ _ Ht1); lia. }
  apply V_line; [idtac..|].
  { unfold ConsoleTime, SystemTick in *. lia. }
  { unfold ConsoleTime, SystemTick in *. lia. }
  { lia. }
  intros st3 H3. cbn [pbind fst snd].
  apply H. rewrite H3, H2. lia.
Qed.
End Reading.

(** ** The whole kernel *)

Section Line.
Context {W F : Type} `{HU : Unix W} `{!Lens W F}.
Abbreviation K := (Sim (Kernel (OS F))).
Implicit Types (k : Kernel (OS F)).

(** What UNIX, behind the file system, is in. *)
Definition world k : W := lget (fileSystem (user k)).
Definition os_machine k : Machine := machine (os_mem (user k)).

(** The current thread [t] runs in the space [sp] at [a] and no other can run;
    the keyboard of the console [c] at [cons] has been read up to now, and nobody
    is reading a line. *)
Record line_reader k (t a : loc) (th : Thread) (sp : AddrSpace) (cons : loc) (c : Console) (nr nl : charp) : Prop := {
  lr_current : currentThread k = t;
  lr_thread : threads k !! t = Some th;
  lr_user : user_thread_ok a th;
  lr_space : spaces k !! a = Some sp;
  lr_ready : readyList k = [];
  lr_doomed : threadToBeDestroyed k = None;
  lr_machine : at_rest (os_machine k);
  lr_table : pageTable (os_machine k) = space_pageTable sp;
  lr_size : pageTableSize (os_machine k) = numPages sp;
  lr_console : consoles (user k) !! cons = Some c;
  lr_handler : readHandler c = SynchReadFunct;
  lr_incoming : incoming c = EOF;
  lr_avail : semaphores k !! synchReadAvail (console_vars (user k)) = Some (mkSem nr 0 []);
  lr_line : semaphores k !! RLineBlock (console_vars (user k)) = Some (mkSem nl 1 [])
}.

(** The kernel when the thread goes on: UNIX is in [x], and the registers of the
    thread were saved while it waited. *)
Definition after_line (t : loc) (th : Thread) (x : W) k : Kernel (OS F) :=
  set_threads (<[t := saved_thread (user k) th]> (threads k))
    (set_user (set_fileSystem (lset x (fileSystem (user k))) (user k)) k).

Lemma kern_read k t a th sp cons c nr nl : line_reader k t a th sp cons c nr nl ->
  synchReadAvail (console_vars (user k)) <> RLineBlock (console_vars (user k)) /\
  forall th' x, kern t cons (threads k) (semaphores k) (spaces k) (user k) th' [] (mkSem nr 0 []) (mkSem nl 1 []) c x =
    set_threads (<[t := th']> (threads k))
      (set_user (set_fileSystem (lset x (fileSystem (user k))) (user k)) k).
Proof.
  intros []. split; [intros E; rewrite E in *; congruence|]. intros th' x. destruct k as [ths rl cur dt sems sps u].
  cbn in *. unfold kern, set_threads, set_user. cbn. subst. f_equal.
  - by rewrite !(insert_id sems) by (try rewrite insert_id; done).
  - unfold set_consoles, set_fileSystem. cbn. f_equal. by apply insert_id.
Qed.

Lemma reads_line others code k t a th sp cons c nr nl numBytes keys text last polls x w st sv garbage
    (f : Z * list Z -> prog K unit) Q :
  line_reader k t a th sp cons c nr nl -> sv !! t = None ->
  line (Z.to_nat numBytes) keys text last -> types (readFileNo c) polls (world k) keys x ->
  0 <= totalTicks st -> totalTicks st + SystemTick < w -> w + Z.of_nat polls * ConsoleTime < 2 ^ 31 ->
  let call := console_call others in
  let DL := on_cpu (Machine_DelayedLoad 0 0) in
  (forall st', totalTicks st' = w + (Z.of_nat polls - 1) * ConsoleTime + 2 * SystemTick ->
     runs_to call DL code (mkConfig (f (if last =? 1 then -1 else zlength text,
                                        text ++ replicate (Z.to_nat (numBytes - zlength text)) 0)) sv
       (St IntOn (poll cons (w + Z.of_nat polls * ConsoleTime)) st' (after_line t th x k))) Q) ->
  runs_to call DL code (mkConfig (pbind (SynchConsole_Read call DL garbage cons numBytes) f) sv
    (St IntOn (poll cons w) st k)) Q.
Proof.
  intros Hk Hsv Hl Ht H0 Hw Hr call DL H. destruct (kern_read k t a th sp cons c nr nl Hk) as [Hne Hkern].
  assert (k = kern t cons (threads k) (semaphores k) (spaces k) (user k) th [] (mkSem nr 0 []) (mkSem nl 1 []) c (world k)) as E.
  { rewrite Hkern. destruct Hk as [_ Hth _ _ _ _ _ _ _ _ _ _ _ _]. rewrite insert_id by done. unfold world. rewrite lset_lget.
    by destruct k as [? ? ? ? ? ? []]. }
  rewrite E at 1. destruct Hk.
  eapply (Read_typed others code t a sp cons (threads k) (semaphores k) (spaces k) (user k)); try done.
  intros st' Hst'. rewrite Hkern. by apply H.
Qed.

(** C9: reading a line: a user thread that is the only one that can run and calls
    SynchConsole::Read waits in the semaphore for each key, however many polls of
    the keyboard it takes, and goes on with the characters typed before the end
    of the line, or with as many as there is room for, padded with zeros, and
    with their number, or -1 when the line ended with CTRL-A. It has taken exactly
    these keys from UNIX, and nothing else of the kernel has changed. *)
Theorem SynchConsole_Read_line others code k t a th sp cons c nr nl numBytes keys text last polls x w st sv garbage :
  line_reader k t a th sp cons c nr nl -> sv !! t = None ->
  line (Z.to_nat numBytes) keys text last -> types (readFileNo c) polls (world k) keys x ->
  0 <= totalTicks st -> totalTicks st + SystemTick < w -> w + Z.of_nat polls * ConsoleTime < 2 ^ 31 ->
  let call := console_call others in
  let DL := on_cpu (Machine_DelayedLoad 0 0) in
  forall f : Z * list Z -> prog K unit,
  runs_to call DL code (mkConfig (pbind (SynchConsole_Read call DL garbage cons numBytes) f) sv (St IntOn (poll cons w) st k))
    (fun c' => exists st',
       c' = mkConfig (f (if last =? 1 then -1 else zlength text,
                         text ++ replicate (Z.to_nat (numBytes - zlength text)) 0)) sv
              (St IntOn (poll cons (w + Z.of_nat polls * ConsoleTime)) st' (after_line t th x k)) /\
       totalTicks st' = w + (Z.of_nat polls - 1) * ConsoleTime + 2 * SystemTick).
Proof.
  intros Hk Hsv Hl Ht H0 Hw Hr call DL f.
  eapply reads_line; try done. intros st' Hst'. apply runs_to_now. by exists st'.
Qed.
End Line.

(** ** A line typed by the user of a small kernel *)

Definition typing_host (keys : list Z) : Host := mkHost empty empty keys [] 0.
Definition typing_thread : Thread := mkThread [109] (Some STACK_FENCEPOST) RUNNING (replicate 40 0) (Some 0%nat).
Definition typing_console : Console := mkConsole 0 1 SynchReadFunct SynchWriteFunct false EOF.
Definition typing_machine : Machine :=
  mkMachine [] (replicate 40 0) None (Some 0%nat) 1 empty false 0.
Definition typing_kernel (keys : list Z) : Kernel (OS (Stub Host)) :=
  mkKernel {[ 0%nat := typing_thread ]} [] 0%nat None
    {[ 1%nat := mkSem (Lit []) 0 []; 2%nat := mkSem (Lit []) 1 [] ]} {[ 0%nat := mkSpace (Some 0%nat) 1 ]}
    (mkOS (mkUser typing_machine (mkBitMap 0 0 [])) (mkStub (typing_host keys) [] []) empty
       (mkPTable (mkBitMap 10 1 [1]) [] 0%nat) (mkSTable (mkBitMap 10 1 [0]) []) 0%nat empty
       {[ 0%nat := typing_console ]} 0%nat (mkConsoleVars 1 3 2 4 5 6)%nat).

Lemma typing_reader keys : line_reader (typing_kernel keys) 0%nat 0%nat typing_thread (mkSpace (Some 0%nat) 1)
  0%nat typing_console (Lit []) (Lit []).
Proof.
  constructor; try done. by split; [right|..].
Qed.

Lemma host_types keys rest : types 0 (length keys) (typing_host (keys ++ rest)) keys (typing_host rest).
Proof.
  induction keys as [|c keys IH]; [constructor|]. cbn [length].
  apply (types_char 0 1 (length keys) _ (typing_host (keys ++ rest))); [|exact IH].
  eapply typed_now; [reflexivity|]. unfold Read. cbn. unfold host_read. cbn.
  unfold slice. cbn. by rewrite drop_0.
Qed.

Definition expects_hi (r : Z * list Z) : prog (Sim (Kernel (OS (Stub Host)))) unit :=
  if bool_decide (r = (2, [72; 105; 0; 0; 0])) then ptick else Ret tt.

Lemma SynchConsole_Read_line_witness :
  Quiet.runs_to (console_call (fun _ _ => ret tt)) (on_cpu (Machine_DelayedLoad 0 0)) no_code
    (mkConfig (pbind (SynchConsole_Read (console_call (fun _ _ => ret tt)) (on_cpu (Machine_DelayedLoad 0 0)) 0 0%nat 5)
       expects_hi) ∅ (St IntOn (poll 0%nat 100) Statistics_new (typing_kernel [72; 105; 10; 33])))
    (fun c => exists st', c = mkConfig ptick ∅ (St IntOn (poll 0%nat 400) st'
       (after_line 0%nat typing_thread (typing_host [33]) (typing_kernel [72; 105; 10; 33])))).
Proof.
  destruct (SynchConsole_Read_line (fun _ _ => ret tt) no_code (typing_kernel [72; 105; 10; 33]) 0%nat 0%nat typing_thread
    (mkSpace (Some 0%nat) 1) 0%nat typing_console (Lit []) (Lit []) 5 [72; 105; 10] [72; 105] 10 3 (typing_host [33]) 100
    Statistics_new ∅ 0 (typing_reader _) (lookup_empty _)) with (f := expects_hi)
    as (n & c' & E & st' & Ec & _).
  - apply line_char; [by repeat split|]. apply line_char; [by repeat split|]. apply line_end. by left.
  - exact (host_types [72; 105; 10] [33]).
  - done.
  - done.
  - done.
  - exists n, c'. split; [exact E|]. exists st'. exact Ec.
Defined.
