(* ===== verification/UserProg.v ===== *)
(** * userprog/addrspace.cc, progtest.cc: starting user programs

    The constructor of an address space, which waits for addrLock, composed
    from its parts in AddrSpace.v, and StartProcess, which runs a program in the
    current thread. *)

From stdpp Require Import base tactics list numbers gmap.
From S2P Require Import Prelude Lists Interrupt Machine Mips BitMap AddrSpace SysDep Threads UserRun System.

Local Open Scope Z_scope.

(** What the memory holds that the constructor of an address space does not
    set: the new object, the header and lastDataPageSize, the page table. *)
Record SpaceGarbage := mkSpaceGarbage {
  object_mem : AddrSpace;
  header_mem : list Z;
  entry_mem : TranslationEntry;
  last_mem : Z
}.

Section UserProg.
Context (be : bool) {F File : Type} `{HF : FileSystemOps F File}.
Abbreviation K := (Sim (Kernel (OS F))).
Context (call : VoidFunctionPtr -> Z -> M K unit) (DelayedLoad_0_0 : M K unit).
Abbreviation P := (Semaphore_P call DelayedLoad_0_0).

Definition new_space (sp : AddrSpace) : M K loc :=
  ss <- kernel spaces ;;
  let a := fresh (dom ss) in put_space a sp ;;; ret a.

(** [new AddrSpace(filename)]. The messages are not modelled. *)
Definition AddrSpace_new (g : SpaceGarbage) (filename : list Z) : prog K loc :=
  this <~ op (new_space (object_mem g)) ;;
  executable <~ op (on_files (file_open (File := File) filename)) ;;
  match executable with
  | None => Ret this
  | Some f =>
      noffH <~ op (on_loader (read_header be (header_mem g) f)) ;;
      lock <~ op (os addrLock) ;;
      P lock ;~
      ok <~ op (
        sp <- get_space this ;;
        '(sp, ok) <- on_mem (AddrSpace_allocate (entry_mem g) sp noffH) ;;
        put_space this sp ;;; ret ok) ;;
      if ok : bool then
        lock <~ op (os addrLock) ;;
        Semaphore_V lock ;~
        op (sp <- get_space this ;;
            on_loader (AddrSpace_load (last_mem g) sp noffH f) ;;;
            on_files (file_delete f)) ;~
        Ret this
      else
        op (on_files (file_delete f)) ;~
        lock <~ op (os addrLock) ;;
        Semaphore_V lock ;~
        Ret this
  end.

(** [delete space] *)
Definition delete_space (a : loc) : M K unit :=
  sp <- get_space a ;; on_mem (AddrSpace_delete sp) ;;; free_space a.

(** The last steps before a program runs: the address space of the thread [t]
    and the registers it starts with. *)
Definition enter_space (t space : loc) : M K unit :=
  update_thread t (set_space (Some space)).
Definition start_registers (space : loc) : M K unit :=
  sp <- get_space space ;;
  on_cpu (AddrSpace_InitRegisters sp) ;;;
  on_cpu (AddrSpace_RestoreState sp).

Context (ExceptionHandler : ExceptionType -> prog K unit).

(** It returns only if the file cannot be opened. *)
Definition StartProcess (g : SpaceGarbage) (filename : list Z) : prog K unit :=
  executable <~ op (on_files (file_open (File := File) filename)) ;;
  match executable with
  | None => Ret tt
  | Some f =>
      space <~ op (sp <- on_loader (AddrSpace_new_file be (header_mem g) (entry_mem g) f) ;; new_space sp) ;;
      op (c <- kernel currentThread ;; enter_space c space) ;~
      op (on_files (file_delete f)) ;~
      op (start_registers space) ;~
      Machine_Run be ExceptionHandler ;~
      op (ASSERT false)
  end.
End UserProg.
