(* ===== verification/Process.v ===== *)
(** * threads/pcb.cc, ptable.cc, stable.cc: processes and named semaphores

    The process control blocks, the process table behind the system calls Exec,
    Exit and Join, and the table of the semaphores that user programs create by
    name. A process runs in a thread that carries the name of its program; the
    process table finds the caller by that name. *)

From stdpp Require Import base tactics list numbers gmap.
From S2P Require Import Prelude Lists Interrupt Machine Mips BitMap AddrSpace Disk OpenFile Directory FileSys SysDep Threads UserRun System UserProg.

Local Open Scope Z_scope.

Section Process.
Context (be : bool) {F File : Type} `{HF : FileSystemOps F File}.
Abbreviation K := (Sim (Kernel (OS F))).
Context (call : VoidFunctionPtr -> Z -> M K unit) (DelayedLoad_0_0 : M K unit).
Abbreviation P := (Semaphore_P call DelayedLoad_0_0).

(** ** Process control blocks *)

(** [new PCB(id)]; [garbage] is the member pid that the constructor only sets
    for the first process. *)
Definition PCB_new (garbage id : Z) : M K loc :=
  join <- Semaphore_new (Lit [106; 111; 105; 110]) 0 ;;
  exit <- Semaphore_new (Lit [101; 120; 105; 116]) 0 ;;
  mutex <- Semaphore_new (Lit [109; 117; 116; 101; 120]) 1 ;;
  c <- kernel currentThread ;;
  ps <- os pcbs ;;
  let this := fresh (dom ps) in
  put_pcb this (if id =? -1 then mkPCB join exit mutex 0 (Some c) 0 0 id
                else mkPCB join exit mutex 0 None garbage 0 id) ;;;
  ret this.

Definition PCB_delete (this : loc) : M K unit :=
  p <- get_pcb this ;;
  Semaphore_delete (joinsem p) ;;;
  Semaphore_delete (exitsem p) ;;;
  Semaphore_delete (mutex p) ;;;
  t <- must (pcb_thread p) ;;
  th <- get_thread t ;;
  match thread_space th with Some a => delete_space a | None => ret tt end ;;;
  on_os (fun o => set_pcbs (delete this (pcbs o)) o).

(** [g] is what the address space finds in memory (see UserProg.v). *)
Definition StartProcess_2 (ExceptionHandler : ExceptionType -> prog K unit) (g : SpaceGarbage) (thread : loc) :
    prog K unit :=
  name <~ op (th <- get_thread thread ;; ret (thread_name th)) ;;
  space <~ AddrSpace_new be call DelayedLoad_0_0 g name ;;
  op (enter_space thread space) ;~
  op (start_registers space) ;~
  c <~ op (kernel currentThread) ;;
  Scheduler_Run c ;~
  Scheduler_Run thread ;~
  Machine_Run be ExceptionHandler.

Definition set_pcb_thread t p :=
  mkPCB (joinsem p) (exitsem p) (mutex p) (exitcode p) t (pid p) (numwait p) (parentID p).
Definition set_pid v p :=
  mkPCB (joinsem p) (exitsem p) (mutex p) (exitcode p) (pcb_thread p) v (numwait p) (parentID p).
Definition set_numwait v p :=
  mkPCB (joinsem p) (exitsem p) (mutex p) (exitcode p) (pcb_thread p) (pid p) v (parentID p).
Definition set_exitcode v p :=
  mkPCB (joinsem p) (exitsem p) (mutex p) v (pcb_thread p) (pid p) (numwait p) (parentID p).

Definition update_pcb (this : loc) (f : PCB -> PCB) : M K unit :=
  p <- get_pcb this ;; put_pcb this (f p).

(** [None] is the NULL pointer; [registers] is what the array userRegisters of
    the new thread contains. new never returns NULL. The thread is started
    with a pointer to StartProcess_2. *)
Definition PCB_Exec (registers : list Z) (this : loc) (filename : option (list Z)) (pid : Z) : prog K Z :=
  m <~ op (p <- get_pcb this ;; ret (mutex p)) ;;
  P m ;~
  p <~ op (get_pcb this) ;;
  match filename, pcb_thread p with
  | Some name, None =>
      if pid <? 0 then Semaphore_V (mutex p) ;~ Ret (-1)
      else
        t <~ op (t <- Thread_new registers name ;; update_pcb this (set_pcb_thread (Some t)) ;;; ret t) ;;
        Thread_Fork call DelayedLoad_0_0 t (Call t (Ret tt)) ;~
        op (update_pcb this (set_pid pid)) ;~
        m <~ op (p <- get_pcb this ;; ret (mutex p)) ;;
        Semaphore_V m ;~
        Ret pid
  | _, _ => Semaphore_V (mutex p) ;~ Ret (-1)
  end.

Definition PCB_GetID (this : loc) : M K Z := p <- get_pcb this ;; ret (pid p).
Definition PCB_GetNumWait (this : loc) : M K Z := p <- get_pcb this ;; ret (numwait p).
Definition PCB_JoinWait (this : loc) : prog K unit := p <~ op (get_pcb this) ;; P (joinsem p).
Definition PCB_ExitWait (this : loc) : prog K unit := p <~ op (get_pcb this) ;; P (exitsem p).
Definition PCB_JoinRelease (this : loc) : prog K unit := p <~ op (get_pcb this) ;; Semaphore_V (joinsem p).
Definition PCB_ExitRelease (this : loc) : prog K unit := p <~ op (get_pcb this) ;; Semaphore_V (exitsem p).
Definition PCB_IncNumWait (this : loc) : M K unit := update_pcb this (fun p => set_numwait (i32 (numwait p + 1)) p).
Definition PCB_DecNumWait (this : loc) : M K unit := update_pcb this (fun p => set_numwait (i32 (numwait p - 1)) p).
Definition PCB_SetExitCode (this : loc) (ec : Z) : M K unit := update_pcb this (set_exitcode ec).
Definition PCB_GetExitCode (this : loc) : M K Z := p <- get_pcb this ;; ret (exitcode p).
Definition PCB_GetFileName (this : loc) : M K (list Z) :=
  p <- get_pcb this ;; t <- must (pcb_thread p) ;; th <- get_thread t ;; ret (thread_name th).

(** ** The process table *)

Definition on_pt_bm {A} (m : M BitMap A) : M K A := on_user (fun o =>
  obind (m (pt_bm (pTab o))) (fun '(a, b) => Ok (a, set_pTab (mkPTable b (pcb (pTab o)) (bmsem (pTab o))) o))).

(** [pcb[i]] as a pointer, its assignment, and the object behind it. *)
Definition pcb_slot (i : Z) : M K (option loc) := t <- os pTab ;; must (zlookup (pcb t) i).
Definition set_pcb_slot (i : Z) (p : option loc) : M K unit :=
  t <- os pTab ;; l <- must (store i p (pcb t)) ;;
  on_os (set_pTab (mkPTable (pt_bm t) l (bmsem t))).
Definition pcb_at (i : Z) : M K loc := p <- pcb_slot i ;; must p.

(** [map_mem] is what the words of the new bit map contain. *)
Definition PTable_new (map_mem : Z -> Z) : M K unit :=
  bm <- FileSys.lift (BitMap_new MAXPROCESS map_mem) ;;
  sem <- Semaphore_new (Lit [66; 105; 116; 109; 97; 112; 32; 115; 101; 109; 97; 112; 104; 111; 114; 101]) 1 ;;
  on_os (set_pTab (mkPTable bm (replicate (Z.to_nat MAXPROCESS) None) sem)) ;;;
  p <- PCB_new 0 (-1) ;;
  set_pcb_slot 0 (Some p) ;;;
  on_pt_bm (BitMap_Mark 0).

Definition PTable_delete : M K unit :=
  for_ 0 (Z.to_nat MAXPROCESS) (fun i =>
    p <- pcb_slot i ;; match p with Some a => PCB_delete a | None => ret tt end) ;;;
  t <- os pTab ;; Semaphore_delete (bmsem t).

(** The last slot whose process has the name of the current thread, with a
    result read from it; -1 when there is none. *)
Definition find_current (read : Z -> loc -> M K Z) : M K Z :=
  for_acc 0 (Z.to_nat MAXPROCESS) (-1) (fun i found =>
    p <- pcb_slot i ;;
    match p with
    | None => ret found
    | Some a =>
        c <- kernel currentThread ;; th <- get_thread c ;;
        name <- PCB_GetFileName a ;;
        if bool_decide (thread_name th = name) then read i a else ret found
    end).
Definition current_id : M K Z := find_current (fun _ a => PCB_GetID a).
Definition current_index : M K Z := find_current (fun i _ => ret i).

Definition PTable_P : prog K unit := t <~ op (os pTab) ;; P (bmsem t).
Definition PTable_V : prog K unit := t <~ op (os pTab) ;; Semaphore_V (bmsem t).
Definition failed : prog K Z := PTable_V ;~ Ret (-1).

Definition PTable_ExecUpdate (registers : list Z) (garbage : Z) (name : option (list Z)) : prog K Z :=
  PTable_P ;~
  match name with
  | None => failed
  | Some nm =>
      executable <~ op (on_files (file_open (File := File) nm)) ;;
      match executable with
      | None => failed
      | Some f =>
          op (on_files (file_delete f)) ;~
          same <~ op (c <- kernel currentThread ;; th <- get_thread c ;; ret (bool_decide (thread_name th = nm))) ;;
          if same : bool then failed
          else
            pid <~ op (on_pt_bm BitMap_Find) ;;
            if pid =? -1 then failed
            else
              currentID <~ op current_id ;;
              if currentID =? -1 then failed
              else
                op (p <- PCB_new garbage currentID ;; set_pcb_slot pid (Some p) ;;; on_pt_bm (BitMap_Mark pid)) ;~
                a <~ op (pcb_at pid) ;;
                status <~ PCB_Exec registers a (Some nm) pid ;;
                if status =? -1 then
                  op (on_pt_bm (BitMap_Clear pid) ;;; a <- pcb_at pid ;; PCB_delete a) ;~ failed
                else PTable_V ;~ Ret pid
      end
  end.

Definition PTable_Remove (pid : Z) : M K unit :=
  if (pid <? 0) || (pid >=? MAXPROCESS) then ret tt
  else
    p <- pcb_slot pid ;;
    match p with
    | None => ret tt
    | Some a => PCB_delete a ;;; set_pcb_slot pid None ;;; on_pt_bm (BitMap_Clear pid)
    end.

(** It returns only for a thread that is not a process, when Halt ends the
    simulation, or never. *)
Definition PTable_ExitUpdate (ec : Z) : prog K Z :=
  index <~ op current_index ;;
  if index =? -1 then Ret (-1)
  else
    pid <~ op (a <- pcb_at index ;; PCB_GetID a) ;;
    if pid =? 0 then op Interrupt_Halt ;~ Ret 0
    else
      parentid <~ op (a <- pcb_at index ;; p <- get_pcb a ;; PCB_SetExitCode a ec ;;; ret (parentID p)) ;;
      a <~ op (pcb_at parentid) ;; PCB_JoinRelease a ;~
      a <~ op (pcb_at index) ;; PCB_ExitWait a ;~
      op (PTable_Remove pid) ;~
      c <~ op (kernel currentThread) ;; Thread_Finish call DelayedLoad_0_0 c ;~
      Ret pid.

Definition PTable_JoinUpdate (id : Z) : prog K Z :=
  if (id <? 0) || (id >=? MAXPROCESS) then Ret (-1)
  else
    currentID <~ op current_id ;;
    child <~ op (
      p <- pcb_slot id ;;
      match p with
      | None => ret false
      | Some a => b <- get_pcb a ;; ret (parentID b =? currentID)
      end) ;;
    if negb child then Ret (-1)
    else
      op (a <- pcb_at currentID ;; PCB_IncNumWait a) ;~
      a <~ op (pcb_at currentID) ;; PCB_JoinWait a ;~
      ec <~ op (a <- pcb_at id ;; PCB_GetExitCode a) ;;
      op (a <- pcb_at currentID ;; PCB_DecNumWait a) ;~
      a <~ op (pcb_at id) ;; PCB_ExitRelease a ;~
      Ret ec.

Definition PTable_GetFreeSlot : M K Z := on_pt_bm BitMap_Find.

Definition PTable_IsExist (pid : Z) : M K bool :=
  if (pid <? 0) || (pid >=? MAXPROCESS) then ret false
  else p <- pcb_slot pid ;; ret (match p with Some _ => true | None => false end).

(** [None] is NULL. *)
Definition PTable_GetFileName (id : Z) : M K (option (list Z)) :=
  if (id <? 0) || (id >=? MAXPROCESS) then ret None
  else
    p <- pcb_slot id ;;
    match p with
    | None => ret None
    | Some a => name <- PCB_GetFileName a ;; ret (Some name)
    end.

(** ** Named semaphores *)

Definition on_st_bm {A} (m : M BitMap A) : M K A := on_user (fun o =>
  obind (m (st_bm (semTab o))) (fun '(a, b) => Ok (a, set_semTab (mkSTable b (lockTab (semTab o))) o))).

Definition STable_new (map_mem : Z -> Z) : M K unit :=
  bm <- FileSys.lift (BitMap_new MAX_SEMAPHORE map_mem) ;;
  on_os (set_semTab (mkSTable bm (replicate (Z.to_nat MAX_SEMAPHORE) None))).

(** It deletes the array [lockTab], which is no heap object, once for each
    semaphore. *)
Definition STable_delete : M K unit :=
  for_ 0 (Z.to_nat MAX_SEMAPHORE) (fun i =>
    t <- os semTab ;; p <- must (zlookup (lockTab t) i) ;;
    match p with Some _ => undef | None => ret tt end).

(** The first semaphore whose name is [name]. *)
Definition STable_find (name : charp) : M K (option loc) :=
  for_ret 0 (Z.to_nat MAX_SEMAPHORE) (fun i =>
    t <- os semTab ;; p <- must (zlookup (lockTab t) i) ;;
    match p with
    | None => ret None
    | Some a =>
        s <- get_semaphore a ;; n <- chars (sem_name s) ;; m <- chars name ;;
        ret (if bool_decide (n = m) then Some a else None)
    end).

Definition STable_Create (name : charp) (semval : Z) : M K Z :=
  found <- STable_find name ;;
  match found with
  | Some _ => ret (-1)
  | None =>
      i <- on_st_bm BitMap_Find ;;
      if i =? -1 then ret (-1)
      else
        on_st_bm (BitMap_Mark i) ;;;
        a <- Semaphore_new name semval ;;
        t <- os semTab ;; l <- must (store i (Some a) (lockTab t)) ;;
        on_os (set_semTab (mkSTable (st_bm t) l)) ;;;
        ret i
  end.

Definition STable_Wait (name : charp) : prog K Z :=
  found <~ op (STable_find name) ;;
  match found with
  | Some a => P a ;~ Ret 0
  | None => Ret (-1)
  end.

Definition STable_Signal (name : charp) : prog K Z :=
  found <~ op (STable_find name) ;;
  match found with
  | Some a => Semaphore_V a ;~ Ret 0
  | None => Ret (-1)
  end.
End Process.
