(* ===== verification/ProcessSpec.v ===== *)
(** * What the process table promises

    The abstract tables that the arrays, the bit maps and the objects behind
    the pointers represent, and the operations on them: Exec starts a process
    in the first free slot, or refuses. *)

From stdpp Require Import base tactics list numbers gmap.
From S2P Require Import Prelude Lists Interrupt Machine Mips BitMap AddrSpace Disk OpenFile Directory FileSys SysDep Threads ThreadsInv ThreadsSafe Quiet ThreadsSpec ThreadsRuns UserRun System UserProg Process Host.

Local Open Scope Z_scope.

(** ** Reading the kernel *)

Section Access.
Context {F : Type}.
Abbreviation K := (Sim (Kernel (OS F))).
Implicit Types (s : K) (k : Kernel (OS F)).

Definition in_os (f : OS F -> OS F) k : Kernel (OS F) := set_user (f (user k)) k.

Lemma os_run {A} (f : OS F -> A) s : os f s = Ok (f (user (rest s)), s).
Proof. done. Qed.
Lemma kernel_run {A} (f : Kernel (OS F) -> A) s : kernel f s = Ok (f (rest s), s).
Proof. done. Qed.
Lemma on_os_run f s : on_os f s = Ok (tt, on_rest (in_os f) s).
Proof. done. Qed.
Lemma on_kernel_run f s : on_kernel f s = Ok (tt, on_rest f s).
Proof. done. Qed.
Lemma get_pcb_run s a p : pcbs (user (rest s)) !! a = Some p -> get_pcb a s = Ok (p, s).
Proof. intros E. unfold get_pcb. mrun (os_run pcbs s). by rewrite E. Qed.
Lemma put_pcb_run s a p :
  put_pcb a p s = Ok (tt, on_rest (in_os (fun o => set_pcbs (<[a := p]> (pcbs o)) o)) s).
Proof. done. Qed.
Lemma update_pcb_run s a p f : pcbs (user (rest s)) !! a = Some p ->
  update_pcb a f s = Ok (tt, on_rest (in_os (fun o => set_pcbs (<[a := f p]> (pcbs o)) o)) s).
Proof. intros E. unfold update_pcb. by mrun (get_pcb_run s a p E). Qed.

Lemma Semaphore_new_run s name v :
  let a := fresh (dom (semaphores (rest s))) in
  Semaphore_new name v s =
    Ok (a, on_rest (fun k => set_semaphores (<[a := mkSem name v []]> (semaphores k)) k) s).
Proof. done. Qed.

Lemma Thread_new_run s registers name :
  let t := fresh (dom (threads (rest s))) in
  Thread_new registers name s =
    Ok (t, on_rest (fun k => set_threads (<[t := mkThread name None JUST_CREATED registers None]> (threads k)) k) s).
Proof. done. Qed.

Lemma fresh_semaphore k : semaphores k !! fresh (dom (semaphores k)) = None.
Proof. apply not_elem_of_dom. apply is_fresh. Qed.
End Access.

(** ** The process table *)

Section Table.
Context {F File : Type} `{HF : FileSystemOps F File}.
Abbreviation K := (Sim (Kernel (OS F))).
Implicit Types (s : K) (k : Kernel (OS F)).

(** An entry: the PCB, where it is, and the name of its thread. *)
Definition entry : Type := loc * PCB * list Z.

Definition entry_ok k (e : entry) : Prop :=
  let '(a, p, name) := e in
  pcbs (user k) !! a = Some p /\
  exists t th, pcb_thread p = Some t /\ threads k !! t = Some th /\ thread_name th = name.

Definition entry_loc (e : option entry) : option loc := match e with Some (a, _, _) => Some a | None => None end.
Definition used (tab : list (option entry)) : list bool := (fun e => bool_decide (is_Some e)) <$> tab.

(** The process table holds the entries [tab], and its bit map marks them. *)
Record table_entries k (tab : list (option entry)) : Prop := {
  tr_length : zlength tab = MAXPROCESS;
  tr_slots : pcb (pTab (user k)) = entry_loc <$> tab;
  tr_entries : forall i e, tab !! i = Some (Some e) -> entry_ok k e
}.
Definition table_rep k (tab : list (option entry)) : Prop :=
  table_entries k tab /\ rep (pt_bm (pTab (user k))) (used tab).

(** What is read from the last entry with a name, -1 if there is none. *)
Definition named (read : Z -> PCB -> Z) (name : list Z) (tab : list (option entry)) : Z :=
  foldl (fun found x =>
    match x.2 with
    | Some (_, p, n) => if bool_decide (name = n) then read x.1 p else found
    | None => found
    end) (-1) (imap (fun i e => (Z.of_nat i, e)) tab).

Lemma named_snoc read name tab e :
  named read name (tab ++ [e]) =
  match e with
  | Some (_, p, n) => if bool_decide (name = n) then read (zlength tab) p else named read name tab
  | None => named read name tab
  end.
Proof.
  unfold named. rewrite imap_app, foldl_app. cbn. rewrite Nat.add_0_r.
  by destruct e as [[[? ?] ?]|].
Qed.

Lemma pcb_slot_run s tab i e : table_entries (rest s) tab -> zlookup tab i = Some e ->
  pcb_slot i s = Ok (entry_loc e, s).
Proof.
  intros Hr Hi. unfold pcb_slot. mrun (os_run pTab s). rewrite (tr_slots _ _ Hr).
  apply zlookup_Some in Hi as [H0 Hi]. unfold zlookup. rewrite (proj2 (Z.ltb_ge i 0)) by lia.
  rewrite list_lookup_fmap, Hi. done.
Qed.

Lemma find_current_run s tab read r name c :
  table_entries (rest s) tab -> currentThread (rest s) = c ->
  (thread_name <$> threads (rest s) !! c) = Some name ->
  (forall i a p n, entry_ok (rest s) (a, p, n) -> read i a s = Ok (r i p, s)) ->
  find_current read s = Ok (named r name tab, s).
Proof.
  intros Hr Hc Hn Hread. apply fmap_Some in Hn as (th & Hth & Hname). unfold find_current.
  loop_acc (fun i found s' => s' = s /\ found = named r name (take (Z.to_nat i) tab)) as (v & s' & E & -> & ->).
  2: { split; [reflexivity|]. done. }
  - intros i found s' Hi [-> ->]. change (0 + Z.of_nat (Z.to_nat MAXPROCESS)) with MAXPROCESS in Hi.
    rewrite <- (tr_length _ _ Hr) in Hi.
    destruct (proj2 (zlookup_is_Some tab i) Hi) as [e He].
    mrun (pcb_slot_run s tab i e Hr He). apply zlookup_Some in He as [_ He].
    exists (named r name (take (Z.to_nat (i + 1)) tab)), s.
    replace (Z.to_nat (i + 1)) with (S (Z.to_nat i)) by lia. rewrite (take_S_r _ _ _ He), named_snoc.
    assert (zlength (take (Z.to_nat i) tab) = i) as -> by (unfold zlength in *; rewrite length_take; lia).
    destruct e as [[[a p] n]|]; cbn [entry_loc]; [|by split].
    pose proof (tr_entries _ _ Hr _ _ He) as Hok. pose proof Hok as (Hp & t & th' & Ht & Hth' & Hn').
    mrun (kernel_run currentThread s). rewrite Hc. mrun (get_thread_run s c th Hth).
    assert (PCB_GetFileName a s = Ok (n, s)) as En.
    { unfold PCB_GetFileName. mrun (get_pcb_run s a p Hp). rewrite Ht. cbn [must].
      rewrite (bind_Ok (ret t) _ s t s) by done. mrun (get_thread_run s t th' Hth'). by rewrite Hn'. }
    mrun En. rewrite Hname. case_bool_decide; [|by split]. split; [exact (Hread i a p n Hok)|done]. 
  - rewrite E. do 2 f_equal. f_equal. apply take_ge.
    pose proof (tr_length _ _ Hr). unfold zlength in *. lia.
Qed.

Lemma current_id_run s tab name c :
  table_entries (rest s) tab -> currentThread (rest s) = c ->
  (thread_name <$> threads (rest s) !! c) = Some name ->
  current_id s = Ok (named (fun _ p => pid p) name tab, s).
Proof.
  intros Hr Hc Hn. unfold current_id. eapply find_current_run; [done..|].
  intros i a p n (Hp & _). unfold PCB_GetID. by mrun (get_pcb_run s a p Hp).
Qed.
End Table.

(** ** Starting a process *)

Section Exec.
Context {F File : Type} `{HF : FileSystemOps F File}.
Abbreviation K := (Sim (Kernel (OS F))).
Implicit Types (s : K) (k : Kernel (OS F)).
Context (call : VoidFunctionPtr -> Z -> M K unit) (DL : M K unit) (code : loc -> prog K unit).
Abbreviation quietly := (quietly call DL code).

Lemma quietly_value {A} (p : prog K A) sv lv n k a sv' lv' n' k1 k2 :
  quietly p sv lv n k a sv' lv' n' k1 -> k1 = k2 -> quietly p sv lv n k a sv' lv' n' k2.
Proof. by intros H <-. Qed.

(** An operation that reads the kernel and one that changes it, from the
    equations of their runs. *)
Lemma quietly_read {A} (m : M K A) sv lv n k a :
  (forall s, rest s = k -> m s = Ok (a, s)) -> quietly (op m) sv lv n k a sv lv n k.
Proof.
  intros Hm. apply quietly_op. intros s (_ & Hk & _). rewrite (Hm s Hk). by rewrite <- Hk; destruct s.
Qed.
Lemma quietly_write {A} (m : M K A) sv lv n k a k' :
  (forall s, rest s = k -> m s = Ok (a, on_rest (fun _ => k') s)) -> quietly (op m) sv lv n k a sv lv n k'.
Proof. intros Hm. apply quietly_op. intros s (_ & Hk & _). by apply Hm. Qed.

Definition take_release (sm : Semaphore) : Semaphore := mkSem (sem_name sm) (i32 (i32 (value sm - 1) + 1)) (queue sm).

(** The thread that PCB::Exec starts. *)
Definition started_thread (registers name : list Z) : Thread :=
  mkThread name (Some STACK_FENCEPOST) READY registers None.

(** The kernel after PCB::Exec. *)
Definition process_started registers name pid (this : loc) (p : PCB) (sm : Semaphore) k : Kernel (OS F) :=
  let t := fresh (dom (threads k)) in
  mkKernel (<[t := started_thread registers name]> (threads k)) (readyList k ++ [t]) (currentThread k)
    (threadToBeDestroyed k) (<[mutex p := take_release sm]> (semaphores k)) (spaces k)
    (set_pcbs (<[this := set_pid pid (set_pcb_thread (Some t) p)]> (pcbs (user k))) (user k)).

Lemma PCB_Exec_quiet registers name pid this p sm sv lv n k :
  pcbs (user k) !! this = Some p -> pcb_thread p = None -> 0 <= pid ->
  semaphores k !! mutex p = Some sm -> value sm <> 0 -> queue sm = [] ->
  let t := fresh (dom (threads k)) in
  quietly (PCB_Exec call DL registers this (Some name) pid) sv lv (ticks lv + (ticks lv + (ticks lv + n))) k
    pid (<[t := ThreadRoot call DL (Call t (Ret tt))]> sv) lv n (process_started registers name pid this p sm k).
Proof.
  intros Hp Ht H0 Hsm Hv Hq t. unfold PCB_Exec.
  eapply quietly_bind; [apply (quietly_read _ sv lv _ k (mutex p))|].
  { intros s Hk. assert (get_pcb this s = Ok (p, s)) as E by (apply get_pcb_run; by rewrite Hk). by mrun E. }
  eapply quietly_bind; [by apply quietly_P|]. set (k1 := with_value _ _ _ k).
  eapply quietly_bind; [apply (quietly_read _ _ _ _ k1 p)|].
  { intros s Hk. apply get_pcb_run. rewrite Hk. exact Hp. }
  rewrite Ht, (proj2 (Z.ltb_ge pid 0)) by lia.
  set (k2 := in_os (fun o => set_pcbs (<[this := set_pcb_thread (Some t) p]> (pcbs o)) o)
    (set_threads (<[t := mkThread name None JUST_CREATED registers None]> (threads k1)) k1)).
  eapply quietly_bind; [apply (quietly_write _ _ _ _ k1 t k2)|].
  { intros s Hk. rewrite (bind_Ok _ _ _ _ _ (Thread_new_run s registers name)). rewrite Hk. fold t.
    set (s1 := on_rest _ s).
    assert (pcbs (user (rest s1)) !! this = Some p) as Hp1 by (change (pcbs (user (rest s)) !! this = Some p); by rewrite Hk).
    mrun (update_pcb_run s1 this p (set_pcb_thread (Some t)) Hp1).
    unfold ret. do 2 f_equal. unfold s1. rewrite on_rest_twice. unfold on_rest. f_equal. by rewrite Hk. }
  eapply quietly_bind.
  { apply (quietly_Fork call DL code sv lv (ticks lv + n) k2 t (mkThread name None JUST_CREATED registers None)).
    apply lookup_insert_eq. }
  set (k3 := make_ready _ _ k2).
  set (k4 := in_os (fun o => set_pcbs (<[this := set_pid pid (set_pcb_thread (Some t) p)]> (pcbs o)) o) k3).
  eapply quietly_bind; [apply (quietly_write _ _ _ _ k3 tt k4)|].
  { intros s Hk. rewrite (update_pcb_run s this (set_pcb_thread (Some t) p)).
    - do 2 f_equal. unfold on_rest, k4. f_equal. by rewrite Hk.
    - rewrite Hk. apply lookup_insert_eq. }
  eapply quietly_bind; [apply (quietly_read _ _ _ _ k4 (mutex p))|].
  { intros s Hk. assert (get_pcb this s = Ok (set_pid pid (set_pcb_thread (Some t) p), s)) as E.
    { apply get_pcb_run. rewrite Hk. apply lookup_insert_eq. }
    by mrun E. }
  eapply quietly_bind.
  { apply (quietly_V call DL code _ lv n k4 (mutex p) (mkSem (sem_name sm) (i32 (value sm - 1)) (queue sm)));
      [apply lookup_insert_eq|done]. }
  eapply quietly_value; [apply quietly_ret|].
  unfold process_started, with_value, k4, k3, k2, k1. fold t. cbn.
  unfold make_ready, in_os, with_value, set_readyList, set_threads, set_semaphores, set_user, set_pcbs.
  cbn. f_equal.
  - by rewrite !insert_insert_eq.
  - by rewrite !insert_insert_eq.
  - by rewrite insert_insert_eq.
Qed.

(** ** Exec on the table *)

Lemma on_files_run {A} (m : M F A) s a fs : m (fileSystem (user (rest s))) = Ok (a, fs) ->
  on_files m s = Ok (a, on_rest (in_os (set_fileSystem fs)) s).
Proof. intros E. unfold on_files, on_user, zoom. cbn. by rewrite E. Qed.

Definition with_bm (bm : BitMap) (o : OS F) : OS F := set_pTab (mkPTable bm (pcb (pTab o)) (bmsem (pTab o))) o.

Lemma on_pt_bm_run {A} (m : M BitMap A) s a bm : m (pt_bm (pTab (user (rest s)))) = Ok (a, bm) ->
  on_pt_bm m s = Ok (a, on_rest (in_os (with_bm bm)) s).
Proof. intros E. unfold on_pt_bm, on_user. by rewrite E. Qed.

Lemma set_pcb_slot_run s i p l : store i p (pcb (pTab (user (rest s)))) = Some l ->
  set_pcb_slot i p s = Ok (tt, on_rest (in_os (fun o => set_pTab (mkPTable (pt_bm (pTab o)) l (bmsem (pTab o))) o)) s).
Proof. intros E. unfold set_pcb_slot. mrun (os_run pTab s). by rewrite E. Qed.

(** The semaphores of a new PCB, and the PCB. *)
Definition new_semaphores (ss : gmap loc Semaphore) : loc * loc * loc * gmap loc Semaphore :=
  let j := fresh (dom ss) in
  let s1 := <[j := mkSem (Lit [106; 111; 105; 110]) 0 []]> ss in
  let e := fresh (dom s1) in
  let s2 := <[e := mkSem (Lit [101; 120; 105; 116]) 0 []]> s1 in
  let m := fresh (dom s2) in
  (j, e, m, <[m := mkSem (Lit [109; 117; 116; 101; 120]) 1 []]> s2).

Lemma new_semaphores_spec ss j e m ss' : new_semaphores ss = (j, e, m, ss') ->
  ss' !! m = Some (mkSem (Lit [109; 117; 116; 101; 120]) 1 []) /\
  (forall a sm, ss !! a = Some sm -> ss' !! a = Some sm /\ a <> m).
Proof.
  unfold new_semaphores. intros [= <- <- <- <-]. split; [apply lookup_insert_eq|]. intros a sm Ha.
  set (s1 := <[_ := mkSem (Lit [106; 111; 105; 110]) 0 []]> ss).
  assert (forall (S : gmap loc Semaphore) x, S !! a = Some sm -> fresh (dom S) <> a /\ <[fresh (dom S) := x]> S !! a = Some sm) as Hf.
  { intros S x HS. assert (fresh (dom S) <> a) as Hne.
    { intros E. apply (is_fresh (dom S)). rewrite E. by apply elem_of_dom_2 in HS. }
    split; [done|]. by rewrite lookup_insert_ne. }
  destruct (Hf ss (mkSem (Lit [106; 111; 105; 110]) 0 []) Ha) as [_ H1]. fold s1 in H1.
  destruct (Hf s1 (mkSem (Lit [101; 120; 105; 116]) 0 []) H1) as [_ H2].
  destruct (Hf _ (mkSem (Lit [109; 117; 116; 101; 120]) 1 []) H2) as [H3 H4]. split; [exact H4|congruence].
Qed.

Lemma PCB_new_run s garbage id j e m ss : id <> -1 -> new_semaphores (semaphores (rest s)) = (j, e, m, ss) ->
  let a := fresh (dom (pcbs (user (rest s)))) in
  PCB_new garbage id s = Ok (a, on_rest (fun k => in_os (fun o =>
    set_pcbs (<[a := mkPCB j e m 0 None garbage 0 id]> (pcbs o)) o) (set_semaphores ss k)) s).
Proof.
  intros Hid [= <- <- <- <-] a. unfold PCB_new.
  rewrite (bind_Ok _ _ _ _ _ (Semaphore_new_run s _ 0)). set (s1 := on_rest _ s).
  rewrite (bind_Ok _ _ _ _ _ (Semaphore_new_run s1 _ 0)). set (s2 := on_rest _ s1).
  rewrite (bind_Ok _ _ _ _ _ (Semaphore_new_run s2 _ 1)). set (s3 := on_rest _ s2).
  mrun (kernel_run currentThread s3). mrun (os_run pcbs s3). rewrite (proj2 (Z.eqb_neq id (-1))) by done.
  mrun (put_pcb_run s3 (fresh (dom (pcbs (user (rest s3))))) (mkPCB (fresh (dom (semaphores (rest s))))
    (fresh (dom (semaphores (rest s1)))) (fresh (dom (semaphores (rest s2)))) 0 None garbage 0 id)).
  reflexivity.
Qed.

Lemma install_run s garbage id pid l bm j e m ss : id <> -1 ->
  new_semaphores (semaphores (rest s)) = (j, e, m, ss) ->
  let a := fresh (dom (pcbs (user (rest s)))) in
  store pid (Some a) (pcb (pTab (user (rest s)))) = Some l ->
  BitMap_Mark pid (pt_bm (pTab (user (rest s)))) = Ok (tt, bm) ->
  (p <- PCB_new garbage id ;; set_pcb_slot pid (Some p) ;;; on_pt_bm (BitMap_Mark pid)) s =
  Ok (tt, on_rest (fun k => in_os (fun o => set_pTab (mkPTable bm l (bmsem (pTab o)))
    (set_pcbs (<[a := mkPCB j e m 0 None garbage 0 id]> (pcbs o)) o)) (set_semaphores ss k)) s).
Proof.
  intros Hid Hss a Hl Hbm. rewrite (bind_Ok _ _ _ _ _ (PCB_new_run s garbage id j e m ss Hid Hss)). fold a.
  set (s1 := on_rest _ s). rewrite (bind_Ok _ _ _ _ _ (set_pcb_slot_run s1 pid (Some a) l Hl)).
  set (s2 := on_rest _ s1). rewrite (on_pt_bm_run (BitMap_Mark pid) s2 tt bm Hbm). reflexivity.
Qed.

Lemma used_insert tab i e : used (<[i := Some e]> tab) = <[i := true]> (used tab).
Proof. unfold used. by rewrite list_fmap_insert. Qed.

(** The new entry. *)
Lemma table_rep_add k k' tab pid a p nm t th :
  table_rep k tab -> 0 <= pid < zlength tab ->
  pcb (pTab (user k')) = <[Z.to_nat pid := Some a]> (pcb (pTab (user k))) ->
  rep (pt_bm (pTab (user k'))) (zinsert pid true (used tab)) ->
  pcbs (user k') = <[a := p]> (pcbs (user k)) -> pcbs (user k) !! a = None ->
  threads k' = <[t := th]> (threads k) -> threads k !! t = None ->
  pcb_thread p = Some t -> thread_name th = nm ->
  table_rep k' (<[Z.to_nat pid := Some (a, p, nm)]> tab).
Proof.
  intros [[Hlen Hsl He] Hb] Hpid Hs Hbits Hpc Ha Hth Ht Hpt Hnm. split.
  2: { rewrite used_insert. unfold zinsert in Hbits. by rewrite (proj2 (Z.ltb_ge pid 0)) in Hbits by lia. }
  constructor.
  - unfold zlength in *. by rewrite length_insert.
  - by rewrite Hs, Hsl, list_fmap_insert.
  - intros i [[a' p'] n'] Hi. rewrite list_lookup_insert_Some in Hi.
    destruct Hi as [(<- & [= <- <- <-] & _)|[_ Hi]].
    + split; [rewrite Hpc; apply lookup_insert_eq|]. exists t, th. rewrite Hth.
      split; [done|]. split; [apply lookup_insert_eq|done].
    + destruct (He _ _ Hi) as (Hp & t' & th' & Ht' & Hth' & Hn'). split.
      * rewrite Hpc, lookup_insert_ne; [done|]. intros <-. congruence.
      * exists t', th'. split; [done|]. split; [|done]. rewrite Hth, lookup_insert_ne; [done|]. intros <-. congruence.
Qed.

Lemma first_clear_range bs i : is_first_clear bs i -> 0 <= i < zlength bs.
Proof. intros [H _]. by apply zlookup_lt_Some in H. Qed.

(** The steps of ExecUpdate. *)
Lemma quietly_files {A} (m : M F A) sv lv n k a fs : m (fileSystem (user k)) = Ok (a, fs) ->
  quietly (op (on_files m)) sv lv n k a sv lv n (in_os (set_fileSystem fs) k).
Proof.
  intros E. apply quietly_write. intros s Hk. rewrite (on_files_run m s a fs) by by rewrite Hk.
  unfold on_rest. by rewrite Hk.
Qed.

Lemma quietly_pt_bm {A} (m : M BitMap A) sv lv n k a bm : m (pt_bm (pTab (user k))) = Ok (a, bm) ->
  quietly (op (on_pt_bm m)) sv lv n k a sv lv n (in_os (with_bm bm) k).
Proof.
  intros E. apply quietly_write. intros s Hk. rewrite (on_pt_bm_run m s a bm) by by rewrite Hk.
  unfold on_rest. by rewrite Hk.
Qed.

Lemma quietly_os {A B} (f : OS F -> A) (g : A -> prog K B) sv lv n k b sv' lv' n' k' :
  quietly (g (f (user k))) sv lv n k b sv' lv' n' k' ->
  quietly (x <~ op (os f) ;; g x) sv lv n k b sv' lv' n' k'.
Proof.
  intros H. eapply quietly_bind; [|exact H]. apply quietly_read. intros s Hk. by rewrite (os_run f s), Hk.
Qed.

Lemma quietly_PTable_P sv lv n k sm :
  semaphores k !! bmsem (pTab (user k)) = Some sm -> value sm <> 0 ->
  quietly (PTable_P call DL) sv lv (ticks lv + n) k tt sv lv n
    (with_value (bmsem (pTab (user k))) sm (i32 (value sm - 1)) k).
Proof. intros Hsm Hv. apply quietly_os. by apply quietly_P. Qed.

Lemma quietly_PTable_V sv lv n k sm :
  semaphores k !! bmsem (pTab (user k)) = Some sm -> queue sm = [] ->
  quietly PTable_V sv lv (ticks lv + n) k tt sv lv n
    (with_value (bmsem (pTab (user k))) sm (i32 (value sm + 1)) k).
Proof. intros Hsm Hv. apply quietly_os. by apply quietly_V. Qed.

(** Is the file the program of the caller? *)
Lemma quietly_same sv lv n k me nm :
  (thread_name <$> threads k !! currentThread k) = Some me ->
  quietly (op (c <- kernel currentThread ;; th <- get_thread c ;; ret (bool_decide (thread_name th = nm))))
    sv lv n k (bool_decide (me = nm)) sv lv n k.
Proof.
  intros (th & Hth & ->)%fmap_Some. apply quietly_read. intros s Hk. mrun (kernel_run currentThread s).
  rewrite Hk. assert (get_thread (currentThread k) s = Ok (th, s)) as E by (apply get_thread_run; by rewrite Hk).
  by mrun E.
Qed.

Lemma quietly_current_id sv lv n k tab me :
  table_entries k tab -> (thread_name <$> threads k !! currentThread k) = Some me ->
  quietly (op current_id) sv lv n k (named (fun _ p => System.pid p) me tab) sv lv n k.
Proof.
  intros Ht Hme. apply quietly_read. intros s Hk.
  apply (current_id_run s tab me (currentThread k)); by rewrite Hk.
Qed.

(** Allocating the PCB in slot [pid], with its bit. *)
Definition pcb_installed garbage id pid bm k : Kernel (OS F) :=
  let '(j, e, m, ss) := new_semaphores (semaphores k) in
  let a := fresh (dom (pcbs (user k))) in
  in_os (fun o => set_pTab (mkPTable bm (zinsert pid (Some a) (pcb (pTab o))) (bmsem (pTab o)))
    (set_pcbs (<[a := mkPCB j e m 0 None garbage 0 id]> (pcbs o)) o)) (set_semaphores ss k).

Lemma quietly_install garbage id pid bm sv lv n k : id <> -1 ->
  0 <= pid < zlength (pcb (pTab (user k))) ->
  BitMap_Mark pid (pt_bm (pTab (user k))) = Ok (tt, bm) ->
  quietly (op (p <- PCB_new garbage id ;; set_pcb_slot pid (Some p) ;;; on_pt_bm (BitMap_Mark pid)))
    sv lv n k tt sv lv n (pcb_installed garbage id pid bm k).
Proof.
  intros Hid Hp Em. unfold pcb_installed. destruct (new_semaphores (semaphores k)) as [[[j e] m] ss] eqn:Ess.
  apply quietly_write. intros s Hk.
  rewrite (install_run s garbage id pid (zinsert pid (Some (fresh (dom (pcbs (user k))))) (pcb (pTab (user k))))
    bm j e m ss); rewrite ?Hk; try done.
  - unfold on_rest. by rewrite Hk.
  - by apply store_Some.
Qed.

Lemma quietly_pcb_at i sv lv n k a : zlookup (pcb (pTab (user k))) i = Some (Some a) ->
  quietly (op (pcb_at i)) sv lv n k a sv lv n k.
Proof.
  intros E. apply quietly_read. intros s Hk. unfold pcb_at, pcb_slot. rewrite <- bind_assoc.
  mrun (os_run pTab s). by rewrite Hk, E.
Qed.

(** C7: Exec starts a process: when the file exists, is not the caller's own
    program, a slot is free and the caller is a process itself, the new process
    takes the first free slot, which is its id and stays marked, remembers the
    caller as its parent, and its thread, named after the file, is ready behind
    the others and will load and run the program when it gets the CPU. The
    caller goes on; the other processes and threads are untouched. *)
Theorem PTable_ExecUpdate_starts registers garbage nm me tab id pid f fs1 fs2 sm c sv lv n k :
  table_rep k tab -> currentThread k = c -> (thread_name <$> threads k !! c) = Some me -> me <> nm ->
  file_open (File := File) nm (fileSystem (user k)) = Ok (Some f, fs1) -> file_delete f fs1 = Ok (tt, fs2) ->
  is_first_clear (used tab) pid -> named (fun _ p => System.pid p) me tab = id -> id <> -1 ->
  semaphores k !! bmsem (pTab (user k)) = Some sm -> value sm <> 0 -> queue sm = [] ->
  let t := fresh (dom (threads k)) in
  exists a p k', quietly (PTable_ExecUpdate (File := File) call DL registers garbage (Some nm)) sv lv
      (ticks lv + (ticks lv + (ticks lv + (ticks lv + (ticks lv + n))))) k
      pid (<[t := ThreadRoot call DL (Call t (Ret tt))]> sv) lv n k' /\
    table_rep k' (<[Z.to_nat pid := Some (a, p, nm)]> tab) /\
    parentID p = id /\ System.pid p = pid /\ exitcode p = 0 /\ numwait p = 0 /\ pcb_thread p = Some t /\
    threads k' = <[t := started_thread registers nm]> (threads k) /\
    readyList k' = readyList k ++ [t] /\ currentThread k' = c /\ spaces k' = spaces k /\
    fileSystem (user k') = fs2 /\ semTab (user k') = semTab (user k).
Proof.
  intros Htab <- Hme Hne Hopen Hdel Hpid Hid Hid1 Hsm Hv Hq t.
  destruct (BitMap_Find_first _ _ _ (proj2 Htab) Hpid) as (bm1 & Ef & Hrep1).
  assert (0 <= pid < zlength tab) as Hpr.
  { pose proof (first_clear_range _ _ Hpid) as Hr. unfold used, zlength in *. by rewrite length_fmap in Hr. }
  assert (zlength (pcb (pTab (user k))) = zlength tab) as Hsl.
  { rewrite (tr_slots _ _ (proj1 Htab)). unfold zlength. by rewrite length_fmap. }
  destruct (BitMap_Mark_run _ _ Hrep1 pid) as (bm2 & Em & Hrep2).
  { rewrite zlength_zinsert. by apply first_clear_range. }
  set (b := bmsem (pTab (user k))) in *. set (sm1 := mkSem (sem_name sm) (i32 (value sm - 1)) (queue sm)).
  set (k1 := with_value b sm (i32 (value sm - 1)) k).
  set (k3 := in_os (with_bm bm1) (in_os (set_fileSystem fs2) (in_os (set_fileSystem fs1) k1))).
  set (k4 := pcb_installed garbage id pid bm2 k3).
  destruct (new_semaphores (semaphores k3)) as [[[j e] m] ss] eqn:Ess.
  destruct (new_semaphores_spec _ _ _ _ _ Ess) as [Hm Hold].
  set (a := fresh (dom (pcbs (user k)))). set (p0 := mkPCB j e m 0 None garbage 0 id).
  set (k5 := process_started registers nm pid a p0 (mkSem (Lit [109; 117; 116; 101; 120]) 1 []) k4).
  assert (k4 = in_os (fun o => set_pTab (mkPTable bm2 (zinsert pid (Some a) (pcb (pTab o))) (bmsem (pTab o)))
    (set_pcbs (<[a := p0]> (pcbs o)) o)) (set_semaphores ss k3)) as Hk4
    by (unfold k4, pcb_installed; by rewrite Ess).
  assert (semaphores k5 !! b = Some sm1) as Hb5.
  { destruct (Hold b sm1) as [H1 H2]; [apply lookup_insert_eq|].
    unfold k5. rewrite Hk4. cbn. by rewrite lookup_insert_ne by done. }
  exists a, (set_pid pid (set_pcb_thread (Some t) p0)), (with_value b sm1 (i32 (value sm1 + 1)) k5). split.
  - unfold PTable_ExecUpdate.
    eapply quietly_bind; [by eapply quietly_PTable_P|].
    eapply quietly_bind; [by apply quietly_files|]. eapply quietly_bind; [by apply quietly_files|].
    eapply quietly_bind; [by apply quietly_same|]. rewrite bool_decide_false by done.
    eapply quietly_bind; [by apply quietly_pt_bm|]. rewrite (proj2 (Z.eqb_neq pid (-1))) by lia.
    eapply quietly_bind; [apply (quietly_current_id _ _ _ k3 tab me); [|done]; by destruct Htab as [[] _]|].
    rewrite Hid, (proj2 (Z.eqb_neq id (-1))) by done.
    eapply quietly_bind; [apply (quietly_install _ _ _ bm2 _ _ _ k3); [done|by rewrite <- Hsl in Hpr|done]|]. fold k4.
    eapply quietly_bind.
    { apply (quietly_pcb_at pid _ _ _ k4 a). rewrite Hk4. cbn. apply zlookup_zinsert_eq. by rewrite <- Hsl in Hpr. }
    eapply quietly_bind.
    { apply (PCB_Exec_quiet registers nm pid a p0 (mkSem (Lit [109; 117; 116; 101; 120]) 1 [])); try done; try lia;
        rewrite Hk4; [apply lookup_insert_eq|exact Hm]. }
    rewrite (proj2 (Z.eqb_neq pid (-1))) by lia. fold k5.
    assert (bmsem (pTab (user k5)) = b) as Hb by (unfold k5; by rewrite Hk4).
    assert (fresh (dom (threads k4)) = t) as -> by by rewrite Hk4.
    eapply quietly_bind; [|apply quietly_ret]. rewrite <- Hb.
    apply quietly_PTable_V; [by rewrite Hb|exact Hq].
  - unfold k5. rewrite Hk4. split; [|repeat split; try done].
    apply (table_rep_add k _ tab pid a _ nm t (started_thread registers nm)); try done.
    + cbn. unfold zinsert. by rewrite (proj2 (Z.ltb_ge pid 0)) by lia.
    + cbn. unfold zinsert in *. rewrite (proj2 (Z.ltb_ge pid 0)) in * by lia. by rewrite list_insert_insert_eq in Hrep2.
    + cbn. by rewrite insert_insert_eq.
    + apply not_elem_of_dom, is_fresh.
    + apply not_elem_of_dom, is_fresh.
Qed.

(** Why Exec refuses a file, and the bits of the bit map afterwards. *)
Inductive refusal (nm me : list Z) (tab : list (option entry)) (fs : F) : list bool -> Prop :=
| no_file fs1 : file_open (File := File) nm fs = Ok (None, fs1) -> refusal nm me tab fs (used tab)
| own_program f fs1 fs2 : file_open nm fs = Ok (Some f, fs1) -> file_delete f fs1 = Ok (tt, fs2) ->
    me = nm -> refusal nm me tab fs (used tab)
| table_full f fs1 fs2 : file_open nm fs = Ok (Some f, fs1) -> file_delete f fs1 = Ok (tt, fs2) ->
    me <> nm -> count_clear (used tab) = 0 -> refusal nm me tab fs (used tab)
| stranger f fs1 fs2 pid : file_open nm fs = Ok (Some f, fs1) -> file_delete f fs1 = Ok (tt, fs2) ->
    me <> nm -> is_first_clear (used tab) pid -> named (fun _ p => System.pid p) me tab = -1 ->
    refusal nm me tab fs (zinsert pid true (used tab)).

Lemma BitMap_Find_full bm bs : rep bm bs -> count_clear bs = 0 -> BitMap_Find bm = Ok (-1, bm).
Proof.
  intros Hrep H0. destruct (BitMap_Find_run bm bs Hrep) as (r & bm' & E & [(-> & -> & _)|[Hr _]]); [done|].
  pose proof (count_clear_update bs r false true (proj1 Hr)).
  pose proof (count_clear_bounds (zinsert r true bs)). cbn in *. lia.
Qed.

(** What an unsuccessful Exec leaves as it was. *)
Definition same_processes k k' : Prop :=
  threads k' = threads k /\ readyList k' = readyList k /\ currentThread k' = currentThread k /\
  pcbs (user k') = pcbs (user k) /\ pcb (pTab (user k')) = pcb (pTab (user k)).

Lemma quietly_failed sv lv n k k' sm bs :
  semaphores k' !! bmsem (pTab (user k')) = Some sm -> queue sm = [] ->
  same_processes k k' -> rep (pt_bm (pTab (user k'))) bs ->
  exists k2, quietly failed sv lv (ticks lv + n) k' (-1) sv lv n k2 /\
    same_processes k k2 /\ rep (pt_bm (pTab (user k2))) bs.
Proof.
  intros Hsm Hq Hs Hb. eexists. split; [|split].
  - eapply quietly_bind; [by eapply quietly_PTable_V|apply quietly_ret].
  - exact Hs.
  - exact Hb.
Qed.

Lemma quietly_exists {A B} (p : prog K A) (q : A -> prog K B) sv lv n k a lv1 n1 k1 b lv2 n2 (Q : Kernel (OS F) -> Prop) :
  quietly p sv lv n k a sv lv1 n1 k1 ->
  (exists k2, quietly (q a) sv lv1 n1 k1 b sv lv2 n2 k2 /\ Q k2) ->
  exists k2, quietly (pbind p q) sv lv n k b sv lv2 n2 k2 /\ Q k2.
Proof. intros Hp (k2 & Hq & HQ). exists k2. split; [by eapply quietly_bind|done]. Qed.

(** C16: Exec refuses, with the result -1, a file that cannot be opened, the
    caller's own program, and a start when all slots are taken; then the table
    is as it was and nothing was started. A caller that is not a process is
    refused too, but the bit of the slot that had been found stays set: the
    slot is lost. *)
Theorem PTable_ExecUpdate_refuses registers garbage nm me tab bs sm sv lv n k :
  table_rep k tab -> (thread_name <$> threads k !! currentThread k) = Some me ->
  semaphores k !! bmsem (pTab (user k)) = Some sm -> value sm <> 0 -> queue sm = [] ->
  refusal nm me tab (fileSystem (user k)) bs ->
  exists k', quietly (PTable_ExecUpdate (File := File) call DL registers garbage (Some nm)) sv lv
      (ticks lv + (ticks lv + n)) k (-1) sv lv n k' /\
    same_processes k k' /\ rep (pt_bm (pTab (user k'))) bs.
Proof.
  intros [Htab Hbits] Hme Hsm Hv Hq Hr. unfold PTable_ExecUpdate.
  eapply quietly_exists; [by eapply quietly_PTable_P|].
  set (sm1 := mkSem (sem_name sm) (i32 (value sm - 1)) (queue sm)). set (k1 := with_value _ sm _ k).
  assert (semaphores k1 !! bmsem (pTab (user k)) = Some sm1) as Hsm1 by apply lookup_insert_eq.
  destruct Hr as [fs1 E1|f fs1 fs2 E1 E2 <-|f fs1 fs2 E1 E2 Hne H0|f fs1 fs2 pid E1 E2 Hne Hpid Hid];
    (eapply quietly_exists; [by apply quietly_files|]).
  - by apply (quietly_failed _ _ _ k _ sm1).
  - eapply quietly_exists; [by apply quietly_files|].
    eapply quietly_exists; [by apply quietly_same|]. rewrite bool_decide_true by done.
    by apply (quietly_failed _ _ _ k _ sm1).
  - eapply quietly_exists; [by apply quietly_files|].
    eapply quietly_exists; [by apply quietly_same|]. rewrite bool_decide_false by done.
    eapply quietly_exists; [apply quietly_pt_bm; by eapply BitMap_Find_full|]. cbn [Z.eqb].
    by apply (quietly_failed _ _ _ k _ sm1).
  - destruct (BitMap_Find_first _ _ _ Hbits Hpid) as (bm1 & Ef & Hrep1).
    eapply quietly_exists; [by apply quietly_files|].
    eapply quietly_exists; [by apply quietly_same|]. rewrite bool_decide_false by done.
    eapply quietly_exists; [by apply quietly_pt_bm|].
    pose proof (first_clear_range _ _ Hpid). rewrite (proj2 (Z.eqb_neq pid (-1))) by lia.
    eapply quietly_exists; [apply (quietly_current_id _ _ _ _ tab me); [|done]; by destruct Htab|].
    rewrite Hid. cbn [Z.eqb]. by apply (quietly_failed _ _ _ k _ sm1).
Qed.
End Exec.

(** ** A kernel with one process *)

Definition proc_host : Host := mkHost {[ [98] := [1] ]} empty [] [] 0.
Definition proc_os : OS (Stub Host) :=
  mkOS (mkUser (mkMachine [] no_registers None None 0 empty false 0) (mkBitMap 0 0 [])) (mkStub proc_host [] [])
    {[ 0%nat := mkPCB 1 2 3 0 (Some 0) 0 0 (-1) ]}%nat
    (mkPTable (mkBitMap 10 1 [1]) (Some 0%nat :: replicate 9 None) 0%nat)
    (mkSTable (mkBitMap 10 1 [0]) (replicate 10 None)) 0%nat empty empty 0%nat (mkConsoleVars 0 0 0 0 0 0)%nat.
Definition proc_kernel : Kernel (OS (Stub Host)) :=
  mkKernel {[ 0%nat := mkThread [109] None RUNNING no_registers None ]} [] 0%nat None
    {[ 0%nat := mkSem (Lit []) 1 []; 1%nat := mkSem (Lit []) 0 []; 2%nat := mkSem (Lit []) 0 [];
       3%nat := mkSem (Lit []) 1 [] ]} empty proc_os.
Definition proc_table : list (option entry) :=
  Some (0%nat, mkPCB 1 2 3 0 (Some 0%nat) 0 0 (-1), [109]) :: replicate 9 None.

Lemma proc_table_rep : table_rep proc_kernel proc_table.
Proof.
  split; [constructor|].
  - done.
  - done.
  - intros i e Hi. destruct i as [|i].
    + injection Hi as <-. split; [done|]. by eexists _, _.
    + by do 9 (destruct i as [|i]; [done|]).
  - split; [by constructor|]. split; [done|]. intros i Hi.
    assert (Forall (fun i => zlookup (used proc_table) i = Some (marked (mkBitMap 10 1 [1]) i)) (seqZ 0 10)) as HF
      by (vm_compute; repeat constructor).
    rewrite Forall_forall in HF. apply HF. apply elem_of_seqZ. cbn in Hi. lia.
Qed.

Lemma PTable_ExecUpdate_starts_witness :
  exists k', Quiet.quietly (fun _ _ => ret tt) (ret tt) no_code
      (PTable_ExecUpdate (File := nat) (fun _ _ => ret tt) (ret tt) [] 0 (Some [98])) ∅ IntOff 0 proc_kernel
      1 (<[1%nat := ThreadRoot (fun _ _ => ret tt) (ret tt) (Call 1%nat (Ret tt))]> ∅) IntOff 0 k' /\
    readyList k' = [1%nat].
Proof.
  destruct (PTable_ExecUpdate_starts (File := nat) (fun _ _ => ret tt) (ret tt) no_code [] 0 [98] [109] proc_table 0 1 0%nat
    (mkStub (host_set_fd 3 ([98], 0) proc_host) [Some (mkStubFile 3 0 0)] [])
    (mkStub (host_set_fd 3 ([98], 0) proc_host) [None] [])
    (mkSem (Lit []) 1 []) 0%nat ∅ IntOff 0 proc_kernel proc_table_rep) as (a & p & k' & E & _ & _ & _ & _ & _ & _ & _ & Hr & _);
    try done.
  - split; [done|]. intros j Hj. assert (j = 0) as -> by lia. done.
  - exists k'. split; [exact E|exact Hr].
Defined.

Lemma PTable_ExecUpdate_refuses_witness :
  exists k', Quiet.quietly (fun _ _ => ret tt) (ret tt) no_code
      (PTable_ExecUpdate (File := nat) (fun _ _ => ret tt) (ret tt) [] 0 (Some [120])) ∅ IntOff 0 proc_kernel
      (-1) ∅ IntOff 0 k' /\ threads k' = threads proc_kernel.
Proof.
  destruct (PTable_ExecUpdate_refuses (File := nat) (fun _ _ => ret tt) (ret tt) no_code [] 0 [120] [109] proc_table
    (used proc_table) (mkSem (Lit []) 1 []) ∅ IntOff 0 proc_kernel proc_table_rep) as (k' & E & (Ht & _) & _); try done.
  - by eapply no_file.
  - exists k'. split; [exact E|exact Ht].
Defined.
