(* ===== verification/UserProgSpec.v ===== *)
(** * Loading a program

    AddrSpace(char *filename), which takes addrLock while it takes frames, and
    the rest of StartProcess_2 before the program runs: the new thread ends up
    with a private memory that holds the program, or with none when there are
    not enough frames. *)

From stdpp Require Import base tactics list numbers gmap.
From S2P Require Import Prelude Lists Interrupt Machine Mips BitMap AddrSpace Disk OpenFile Directory FileSys SysDep Threads ThreadsInv ThreadsSafe Quiet ThreadsSpec ThreadsRuns UserRun System UserProg Process Host ProcessSpec.

Local Open Scope Z_scope.

Section Loading.
Context {F File : Type} `{HF : FileSystemOps F File}.
Context (contents : F -> File -> option (list Z)) `{!FilesSpec contents}.
Abbreviation K := (Sim (Kernel (OS F))).
Implicit Types (s : K) (k : Kernel (OS F)).
Context (be : bool) (call : VoidFunctionPtr -> Z -> M K unit) (DL : M K unit) (code : loc -> prog K unit).
Abbreviation quietly := (quietly call DL code).

(** ** Operations on the memory and the address spaces *)

Definition with_memory (u : UserMem) (x : F) k : Kernel (OS F) :=
  in_os (fun o => set_fileSystem x (System.set_mem u o)) k.

Lemma quietly_loader {A} (m : M (UserMem * F) A) sv lv n k a u x :
  m (os_mem (user k), fileSystem (user k)) = Ok (a, (u, x)) ->
  quietly (op (on_loader m)) sv lv n k a sv lv n (with_memory u x k).
Proof.
  intros E. apply quietly_write. intros s Hk. unfold on_loader, on_user, zoom. cbn. rewrite Hk.
  unfold lget. cbn. rewrite E. cbn. unfold on_rest, with_memory, in_os. by rewrite Hk.
Qed.

Definition with_spaces (ss : gmap loc AddrSpace) k : Kernel (OS F) :=
  mkKernel (threads k) (readyList k) (currentThread k) (threadToBeDestroyed k) (semaphores k) ss (user k).

Lemma quietly_new_space sp sv lv n k :
  let a := fresh (dom (spaces k)) in
  quietly (op (new_space sp)) sv lv n k a sv lv n (with_spaces (<[a := sp]> (spaces k)) k).
Proof.
  intros a. apply quietly_write. intros s Hk. unfold new_space. mrun (kernel_run spaces s). rewrite Hk. fold a.
  unfold put_space. rewrite (bind_Ok _ _ _ _ _ (on_kernel_run _ s)). unfold ret, on_rest, with_spaces. by rewrite Hk.
Qed.

Lemma on_mem_run {A} (m : M UserMem A) s a u : m (os_mem (user (rest s))) = Ok (a, u) ->
  on_mem m s = Ok (a, on_rest (in_os (System.set_mem u)) s).
Proof. intros E. unfold on_mem, on_user, zoom. cbn. by rewrite E. Qed.

(** Taking the frames, with the object behind [this] updated. *)
Lemma quietly_allocate g h this sp sp' ok u sv lv n k :
  spaces k !! this = Some sp -> AddrSpace_allocate g sp h (os_mem (user k)) = Ok ((sp', ok), u) ->
  quietly (op (sp <- get_space this ;; '(sp, ok) <- on_mem (AddrSpace_allocate g sp h) ;;
               put_space this sp ;;; ret ok)) sv lv n k
    ok sv lv n (with_spaces (<[this := sp']> (spaces k)) (in_os (System.set_mem u) k)).
Proof.
  intros Hsp E. apply quietly_write. intros s Hk.
  assert (get_space this s = Ok (sp, s)) as Eg by (apply get_space_run; by rewrite Hk). mrun Eg.
  rewrite (bind_Ok _ _ _ _ _ (on_mem_run (AddrSpace_allocate g sp h) s (sp', ok) u ltac:(by rewrite Hk))).
  unfold put_space. rewrite (bind_Ok _ _ _ _ _ (on_kernel_run _ _)). unfold ret, on_rest, with_spaces, in_os. cbn.
  by rewrite Hk.
Qed.

(** ** The constructor *)

Context (g : SpaceGarbage) (name : list Z) (f : File) (c rest_ : list Z) (h : NoffHeader).

(** An executable that can be read, with its header. *)
Record readable (x : F) : Prop := {
  rd_contents : contents x f = Some c;
  rd_header : c = noff_bytes h ++ rest_;
  rd_words : AddrSpace.header_i32 h;
  rd_magic : noffMagic h = NOFFMAGIC;
  rd_buffer : zlength (header_mem g) = header_size;
  rd_exec : exec_ok h c
}.

(** The kernel behind the constructor: the object, the memory, the files and
    the lock, which has been taken and given back. *)
Definition space_made (a : loc) (sp : AddrSpace) (u : UserMem) (x : F) (sm : Semaphore) k : Kernel (OS F) :=
  mkKernel (threads k) (readyList k) (currentThread k) (threadToBeDestroyed k)
    (<[addrLock (user k) := take_release sm]> (semaphores k)) (<[a := sp]> (spaces k))
    (set_fileSystem x (System.set_mem u (user k))).

(** What the new address space is in the memory [u], given the memory before:
    the frames [fs], free before and taken now, hold the program, and no other
    frame has changed. *)
Record program_loaded (u0 : UserMem) (bs : list bool) (tbl : loc) (fs : list Z) (u : UserMem) : Prop := {
  pl_fresh : tables (machine u0) !! tbl = None;
  pl_mapped : mapped u0 bs tbl (entry_mem g) (zlength fs) fs u;
  pl_pages : zlength fs = space_pages h;
  pl_image : image fs (mainMemory (machine u)) = loaded_image h c;
  pl_frame : forall p, is_frame p -> p ∉ fs ->
    page_bytes (mainMemory (machine u)) p = page_bytes (mainMemory (machine u0)) p
}.

Lemma AddrSpace_new_quiet bs x1 sm sv lv n k :
  file_open (File := File) name (fileSystem (user k)) = Ok (Some f, x1) -> readable x1 ->
  rep (gPhysPageBitMap (os_mem (user k))) bs -> zlength bs = NumPhysPages -> memory_wf (machine (os_mem (user k))) ->
  semaphores k !! addrLock (user k) = Some sm -> value sm <> 0 -> queue sm = [] ->
  let a := fresh (dom (spaces k)) in
  if decide (space_pages h <= count_clear bs) then
    exists tbl fs u x, quietly (AddrSpace_new be call DL g name) sv lv (ticks lv + (ticks lv + n)) k
        a sv lv n (space_made a (mkSpace (Some tbl) (space_pages h)) u x sm k) /\
      program_loaded (os_mem (user k)) bs tbl fs u
  else
    exists x, quietly (AddrSpace_new be call DL g name) sv lv (ticks lv + (ticks lv + n)) k
        a sv lv n (space_made a (mkSpace (space_pageTable (object_mem g)) 0) (os_mem (user k)) x sm k).
Proof.
  intros Ho [Hx Hc Hw Hmg Hbuf Hex] Hr Hbs Hwf Hsm Hv Hq a.
  set (u0 := os_mem (user k)) in *.
  destruct (read_header_run contents be (header_mem g) f c h rest_ u0 x1 Hx Hc Hbuf Hw Hmg) as (x2 & E2 & Hx2).
  set (k1 := with_spaces (<[a := object_mem g]> (spaces k)) k).
  set (k2 := with_memory u0 x2 (in_os (set_fileSystem x1) k1)).
  set (k3 := with_value (addrLock (user k)) sm (i32 (value sm - 1)) k2).
  assert (forall b k', quietly (
      ok <~ op (sp <- get_space a ;; '(sp, ok) <- on_mem (AddrSpace_allocate (entry_mem g) sp h) ;;
                put_space a sp ;;; ret ok) ;;
      if ok : bool then
        lock <~ op (os addrLock) ;; Semaphore_V lock ;~
        op (sp <- get_space a ;; on_loader (AddrSpace_load (last_mem g) sp h f) ;;; on_files (file_delete f)) ;~ Ret a
      else op (on_files (file_delete f)) ;~ lock <~ op (os addrLock) ;; Semaphore_V lock ;~ Ret a)
      sv lv (ticks lv + n) k3 b sv lv n k' ->
    quietly (AddrSpace_new be call DL g name) sv lv (ticks lv + (ticks lv + n)) k b sv lv n k') as Hpre.
  { intros b k' Htail. unfold AddrSpace_new.
    eapply quietly_bind; [apply quietly_new_space|]. fold a k1.
    eapply quietly_bind; [by apply (quietly_files call DL code (file_open name) sv lv _ k1 (Some f) x1)|]. cbn iota.
    eapply quietly_bind; [by apply (quietly_loader (read_header be (header_mem g) f) sv lv _ _ h u0 x2)|]. fold k2.
    apply quietly_os. eapply quietly_bind; [by apply (quietly_P call DL code sv lv (ticks lv + n) k2 (addrLock (user k)) sm)|].
    exact Htail. }
  pose proof (AddrSpace_allocate_run u0 bs (entry_mem g) Hr Hbs Hwf (object_mem g) h) as Ha. cbv zeta in Ha.
  assert (spaces k3 !! a = Some (object_mem g)) as Hsp by apply lookup_insert_eq.
  case_decide as Hn.
  - destruct Ha as (tbl & fs & u1 & E & [Hfr Hmp Hpg Hz Hoth]). set (sp := mkSpace (Some tbl) (space_pages h)) in *.
    set (k4 := with_spaces (<[a := sp]> (spaces k3)) (in_os (System.set_mem u1) k3)).
    set (sm4 := mkSem (sem_name sm) (i32 (value sm - 1)) (queue sm)).
    set (k5 := with_value (addrLock (user k)) sm4 (i32 (value sm4 + 1)) k4).
    assert (loading contents u0 bs tbl (entry_mem g) fs f c (mainMemory (machine u0))
      (replicate (Z.to_nat (space_pages h * PageSize)) 0) (u1, x2)) as Hld.
    { constructor; try done. by rewrite Hpg. }
    destruct (AddrSpace_load_run contents u0 bs tbl (entry_mem g) fs Hbs f c h Hex Hpg (last_mem g) _ _
      (space_pages h) Hld) as ([u2 x3] & E3 & [Hm3 Hi3 Hf3 Hx3]). cbn [fst snd] in *. fold sp in E3.
    destruct (delete_spec x3 f c Hx3) as (x4 & E4).
    exists tbl, fs, u2, x4. split; [|by constructor]. apply Hpre.
    eapply quietly_bind; [by apply (quietly_allocate _ h a (object_mem g) sp true u1)|]. fold k4. cbn iota.
    apply quietly_os. eapply quietly_bind.
    { apply (quietly_V call DL code sv lv n k4 (addrLock (user k)) sm4); [apply lookup_insert_eq|done]. }
    fold k5. eapply quietly_bind; [|apply quietly_ret].
    eapply (quietly_value _ _ _ _ _ _ _ _ _ _ _ _ (with_memory u2 x4 k5)).
    + apply quietly_write. intros s Hk.
      assert (get_space a s = Ok (sp, s)) as Eg by (apply get_space_run; rewrite Hk; apply lookup_insert_eq). mrun Eg.
      assert (on_loader (AddrSpace_load (last_mem g) sp h f) s = Ok (tt, on_rest (fun _ => with_memory u2 x3 k5) s)) as El.
      { unfold on_loader, on_user, zoom. cbn. rewrite Hk. unfold lget. cbn. rewrite E3. cbn.
        unfold on_rest, with_memory, in_os. by rewrite Hk. }
      mrun El. set (s1 := on_rest _ s). by rewrite (on_files_run (file_delete f) s1 tt x4 E4).
    + unfold with_memory, k5, k4, k3, k2, k1, space_made, with_value, with_spaces, in_os, take_release. cbn.
      f_equal; by rewrite ?insert_insert_eq.
  - set (sp := mkSpace (space_pageTable (object_mem g)) 0) in *.
    set (k4 := with_spaces (<[a := sp]> (spaces k3)) (in_os (System.set_mem u0) k3)).
    destruct (delete_spec x2 f c Hx2) as (x3 & E3). exists x3. apply Hpre.
    eapply quietly_bind; [by apply (quietly_allocate _ h a (object_mem g) sp false u0)|]. fold k4. cbn iota.
    eapply quietly_bind; [by apply (quietly_files call DL code (file_delete f) sv lv _ k4 tt x3)|].
    set (k5 := in_os (set_fileSystem x3) k4).
    set (sm5 := mkSem (sem_name sm) (i32 (value sm - 1)) (queue sm)).
    apply quietly_os. eapply quietly_bind.
    { apply (quietly_V call DL code sv lv n k5 (addrLock (user k)) sm5); [apply lookup_insert_eq|done]. }
    eapply quietly_value; [apply quietly_ret|].
    unfold k5, k4, k3, k2, k1, space_made, with_value, with_memory, with_spaces, in_os, take_release. cbn.
    unfold set_semaphores, set_user. cbn. rewrite !insert_insert_eq. done.
Qed.

(** ** Entering the program *)

Definition in_machine (m : Machine) k : Kernel (OS F) := set_user (lset m (user k)) k.
Definition machine_of k : Machine := machine (os_mem (user k)).

(** The kernel when thread [t] is about to run in the space [sp] at [a]. *)
Definition entered (t : loc) (th : Thread) (a : loc) (sp : AddrSpace) k : Kernel (OS F) :=
  set_threads (<[t := mkThread (thread_name th) (stack th) RUNNING (initial_registers sp) (Some a)]> (threads k))
    (in_machine (set_pageTable (space_pageTable sp) (numPages sp)
      (set_registers (initial_registers sp) (machine_of k))) k).

Lemma zlength_initial sp : zlength (initial_registers sp) = NumTotalRegs.
Proof. unfold initial_registers. by rewrite !zlength_zinsert. Qed.

Lemma quietly_enter_space t a sv lv n k th : threads k !! t = Some th ->
  quietly (op (enter_space t a)) sv lv n k tt sv lv n
    (set_threads (<[t := set_space (Some a) th]> (threads k)) k).
Proof.
  intros Ht. apply quietly_write. intros s Hk. unfold enter_space.
  rewrite (update_thread_run s t th) by by rewrite Hk. do 2 f_equal. unfold on_rest. by rewrite Hk.
Qed.

Lemma quietly_start a sp sv lv n k : spaces k !! a = Some sp -> zlength (registers (machine_of k)) = NumTotalRegs ->
  quietly (op (start_registers a)) sv lv n k tt sv lv n
    (in_machine (set_pageTable (space_pageTable sp) (numPages sp)
      (set_registers (initial_registers sp) (machine_of k))) k).
Proof.
  intros Ha Hr. apply quietly_write. intros s Hk. unfold start_registers.
  mrun (get_space_run s a sp ltac:(by rewrite Hk)).
  mrun (on_cpu_run (AddrSpace_InitRegisters sp) s tt (set_registers (initial_registers sp) (machine_of k))
    ltac:(rewrite Hk; by apply InitRegisters_run)).
  rewrite (on_cpu_run (AddrSpace_RestoreState sp) _ tt _ eq_refl). rewrite on_rest_twice.
  unfold on_rest, in_machine. cbn. by rewrite Hk.
Qed.

(** Switching to oneself keeps the machine. *)
Lemma quietly_self_switch t th a sp sv lv n k :
  currentThread k = t -> threads k !! t = Some th -> thread_space th = Some a -> spaces k !! a = Some sp ->
  threadToBeDestroyed k = None -> thread_ok k th -> sv !! t = None ->
  zlength (registers (machine_of k)) = NumTotalRegs ->
  pageTable (machine_of k) = space_pageTable sp -> pageTableSize (machine_of k) = numPages sp ->
  quietly (Scheduler_Run t) sv lv n k tt sv lv n
    (set_threads (<[t := Thread_setStatus RUNNING (set_userRegisters (registers (machine_of k)) th)]> (threads k)) k).
Proof.
  intros Hc Ht Es Ha Hd Hok Hsv Hr Hpt Hps. set (m := machine_of k) in *.
  set (th1 := set_userRegisters (registers m) th). set (th2 := Thread_setStatus RUNNING th1).
  set (k1 := set_threads (<[t := th1]> (threads k)) k). set (k2 := set_threads (<[t := th2]> (threads k)) k).
  unfold Scheduler_Run.
  eapply quietly_bind; [apply (quietly_read call DL code _ _ _ _ k t); intros s Hk; by rewrite kernel_run, Hk, Hc|].
  eapply quietly_bind; [apply (quietly_write call DL code _ _ _ _ k tt k1)|].
  { intros s Hk. rewrite (leave_user_thread s t th a sp); rewrite ?Hk; try done.
    - unfold with_registers, on_rest, k1, cpu_of. by rewrite Hk.
    - unfold cpu_of. by rewrite Hk. }
  eapply quietly_bind; [apply (quietly_write call DL code _ _ _ _ k1 tt k2)|].
  { intros s Hk. unfold enter_thread. rewrite (bind_Ok _ _ _ _ _ (on_kernel_run _ s)).
    set (s1 := on_rest _ s). rewrite (update_thread_run s1 t th1).
    - unfold s1. rewrite on_rest_twice. unfold on_rest. rewrite Hk. do 3 f_equal.
      unfold k2, k1, set_threads, set_currentThread. cbn. by rewrite insert_insert_eq, Hc.
    - unfold s1. cbn. rewrite Hk. apply lookup_insert_eq. }
  intros s (Hl & Hk & Hqu) f0. exists 2%nat, s. split; [|done].
  assert (resume_thread s = Ok (tt, s)) as Er.
  { rewrite (resume_user_thread s t th2 a sp); rewrite ?Hk; try done.
    - assert (cpu_of s = m) as -> by (unfold cpu_of; by rewrite Hk).
      assert (set_pageTable (space_pageTable sp) (numPages sp) (set_registers (userRegisters th2) m) = m) as ->.
      { rewrite <- Hpt, <- Hps. unfold th2, th1. cbn. by destruct m. }
      change m with (lget (S := Machine) (user k2)). rewrite lset_lget. unfold on_rest, set_user. cbn.
      destruct s as [i0 st r]. cbn in *. subst r. done.
    - apply lookup_insert_eq.
    - unfold cpu_of. by rewrite Hk. }
  cbn [pbind op Threads.run]. unfold step at 1. cbn [cpu saved state].
  rewrite lookup_insert_eq. cbn [obind]. rewrite delete_insert_id by done.
  unfold step. cbn [cpu saved state]. by rewrite Er.
Qed.

(** A program that comes to the program [p'] without being interrupted. *)
Definition leads (p : prog K unit) sv lv n k (p' : prog K unit) lv' n' k' : Prop :=
  forall s, calm lv n k s -> forall q : prog K unit, exists i s',
    run call DL code i (mkConfig (p ;~ q) sv s) = Ok (mkConfig (p' ;~ q) sv s') /\ calm lv' n' k' s'.

Lemma leads_here p sv lv n k : leads p sv lv n k p lv n k.
Proof. intros s Hs q. by exists O, s. Qed.

Lemma leads_bind {A} (p : prog K A) (r : A -> prog K unit) sv lv n k a lv1 n1 k1 p' lv' n' k' :
  quietly p sv lv n k a sv lv1 n1 k1 -> leads (r a) sv lv1 n1 k1 p' lv' n' k' ->
  leads (pbind p r) sv lv n k p' lv' n' k'.
Proof.
  intros Hp Hr s Hs q. destruct (Hp s Hs (fun a => r a ;~ q)) as (i1 & s1 & E1 & Hs1).
  destruct (Hr s1 Hs1 q) as (i2 & s2 & E2 & Hs2). exists (i1 + i2)%nat, s2. split; [|done].
  rewrite pbind_assoc. exact (run_trans call DL code _ _ _ _ _ E1 E2).
Qed.

Lemma leads_value p sv lv n k p' lv' n' k1 k2 :
  leads p sv lv n k p' lv' n' k1 -> k1 = k2 -> leads p sv lv n k p' lv' n' k2.
Proof. by intros H <-. Qed.

Lemma leads_enter p t th a sp sv lv n k :
  currentThread k = t -> threads k !! t = Some th -> spaces k !! a = Some sp ->
  threadToBeDestroyed k = None -> thread_ok k th -> sv !! t = None -> zlength (registers (machine_of k)) = NumTotalRegs ->
  leads (op (enter_space t a) ;~ op (start_registers a) ;~
         c <~ op (kernel currentThread) ;; Scheduler_Run c ;~ Scheduler_Run t ;~ p) sv lv n k
    p lv n (entered t th a sp k).
Proof.
  intros Hc Ht Ha Hd (Hst & Hrg & _) Hsv Hr.
  eapply leads_bind; [by apply (quietly_enter_space t a _ _ _ k th)|]. set (k1 := set_threads _ k).
  eapply leads_bind; [by apply (quietly_start a sp _ _ _ k1)|]. set (k2 := in_machine _ k1).
  eapply leads_bind; [apply (quietly_read call DL code _ _ _ _ k2 t); intros s Hk; rewrite kernel_run, Hk; cbn; by rewrite Hc|].
  assert (forall b, thread_space (set_space (Some a) th) = Some b -> is_Some (spaces k2 !! b)) as Hsp.
  { intros b [= <-]. by exists sp. }
  eapply leads_bind.
  { apply (quietly_self_switch t (set_space (Some a) th) a sp _ _ _ k2); try done. apply lookup_insert_eq. }
  set (th3 := Thread_setStatus _ _). set (k3 := set_threads _ k2).
  eapply leads_bind.
  { apply (quietly_self_switch t th3 a sp _ _ _ k3); try done. apply lookup_insert_eq. }
  eapply leads_value; [apply leads_here|].
  unfold entered, k3, k2, k1, set_threads, in_machine, set_user, th3. cbn. by rewrite !insert_insert_eq.
Qed.

(** C8: a process starts with its program in a memory of its own: when the
    thread that Exec has forked gets the CPU, finds its executable and enough
    free page frames, StartProcess_2 comes to the interpreter of user programs
    with the code, the initialised data and zeroes in the virtual memory, in
    distinct frames that were free, without a change to any other frame, with
    the initial registers and stack pointer, and with addrLock released. When
    there are too few frames the interpreter is started all the same, with no
    pages, on the page table that the uninitialised object happened to contain;
    memory and frames are untouched. *)
Theorem StartProcess_2_loads EH bs x1 sm t th sv lv n k :
  currentThread k = t -> threads k !! t = Some th -> thread_name th = name ->
  threadToBeDestroyed k = None -> thread_ok k th -> sv !! t = None ->
  file_open (File := File) name (fileSystem (user k)) = Ok (Some f, x1) -> readable x1 ->
  rep (gPhysPageBitMap (os_mem (user k))) bs -> zlength bs = NumPhysPages -> memory_wf (machine_of k) ->
  tlb (machine_of k) = None -> zlength (registers (machine_of k)) = NumTotalRegs ->
  semaphores k !! addrLock (user k) = Some sm -> value sm <> 0 -> queue sm = [] ->
  let a := fresh (dom (spaces k)) in
  let starts := leads (StartProcess_2 be call DL EH g t) sv lv (ticks lv + (ticks lv + n)) k (Machine_Run be EH) lv n in
  if decide (space_pages h <= count_clear bs) then
    exists tbl fs k', starts k' /\ running_in (machine_of k') tbl (page_table 0 fs) fs /\
      Forall (fun p => zlookup bs p = Some false) fs /\
      image fs (mainMemory (machine_of k')) = loaded_image h c /\
      (forall p, is_frame p -> p ∉ fs ->
         page_bytes (mainMemory (machine_of k')) p = page_bytes (mainMemory (machine_of k)) p) /\
      registers (machine_of k') = initial_registers (mkSpace (Some tbl) (space_pages h)) /\
      thread_space <$> threads k' !! t = Some (Some a) /\
      semaphores k' = <[addrLock (user k) := take_release sm]> (semaphores k)
  else
    exists k', starts k' /\ pageTable (machine_of k') = space_pageTable (object_mem g) /\
      pageTableSize (machine_of k') = 0 /\ mainMemory (machine_of k') = mainMemory (machine_of k) /\
      gPhysPageBitMap (os_mem (user k')) = gPhysPageBitMap (os_mem (user k)).
Proof.
  intros Hc Ht Hnm Hd Hok Hsv Ho Hrd Hbm Hbs Hwf Htlb Hr Hsm Hv Hq a starts.
  pose proof (AddrSpace_new_quiet bs x1 sm sv lv n k Ho Hrd Hbm Hbs Hwf Hsm Hv Hq) as Hnew. cbv zeta in Hnew. fold a in Hnew.
  assert (forall sp u x, machine u = set_tables (tables (machine u)) (set_mainMemory (mainMemory (machine u)) (machine_of k)) ->
    quietly (AddrSpace_new be call DL g name) sv lv (ticks lv + (ticks lv + n)) k a sv lv n (space_made a sp u x sm k) ->
    starts (entered t th a sp (space_made a sp u x sm k))) as Hst.
  { intros sp u x Hu Hsp. unfold starts, StartProcess_2.
    eapply leads_bind; [apply (quietly_read call DL code _ _ _ _ k name)|].
    { intros s Hk. mrun (get_thread_run s t th ltac:(by rewrite Hk)). by rewrite Hnm. }
    eapply leads_bind; [exact Hsp|]. apply leads_enter; try done.
    - apply lookup_insert_eq.
    - destruct Hok as (H1 & H2 & H3). split; [done|]. split; [done|]. intros b Hb. cbn.
      destruct (decide (b = a)) as [->|Hne]; [rewrite lookup_insert_eq; eauto|].
      rewrite lookup_insert_ne by done. by apply H3.
    - cbn. change (zlength (registers (machine u)) = NumTotalRegs). by rewrite Hu. }
  case_decide as Hn.
  - destruct Hnew as (tbl & fs & u & x & Hqn & [Hfr Hmp Hpg Him Hoth]).
    pose proof (mapped_state _ _ _ _ _ _ _ Hmp) as Hu.
    exists tbl, fs, (entered t th a (mkSpace (Some tbl) (space_pages h)) (space_made a (mkSpace (Some tbl) (space_pages h)) u x sm k)).
    split; [apply Hst; [by rewrite Hu|exact Hqn]|].
    pose proof (mapped_is_frame _ _ _ _ _ Hbs _ _ Hmp) as Hfs.
    split_and!; try done.
    + constructor; try done.
      * constructor; cbn; [by rewrite Hu|done| |by rewrite page_table_length].
        rewrite Hu. cbn. rewrite lookup_insert_eq, Z.sub_diag. cbn. by rewrite app_nil_r.
      * destruct (mapped_mem _ _ _ _ _ _ _ Hmp). by constructor.
      * exact (mapped_nodup _ _ _ _ _ _ _ Hmp).
    + exact (mapped_free _ _ _ _ _ _ _ Hmp).
    + unfold entered. cbn. by rewrite lookup_insert_eq.
  - destruct Hnew as (x & Hqn). eexists. split; [eapply Hst; [|exact Hqn]|done].
    unfold machine_of. by destruct (machine (os_mem (user k))).
Qed.
End Loading.

(** ** A program of two instructions *)

Definition two_bytes : list Z := [12; 0; 0; 0; 8; 0; -32; 3].
Definition two_header : NoffHeader :=
  mkNoff NOFFMAGIC (mkSegment 0 40 8) (mkSegment 0 0 0) (mkSegment 0 0 0).
Definition two_file : list Z := noff_bytes two_header ++ two_bytes.
Definition two_host : Host := mkHost {[ [98] := two_file ]} empty [] [] 0.
Definition two_garbage : SpaceGarbage :=
  mkSpaceGarbage (mkSpace (Some 77%nat) 5) (replicate 40 9) (mkEntry 1 1 false false false false) 3.
Definition two_thread : Thread := mkThread [98] (Some STACK_FENCEPOST) RUNNING no_registers None.
Definition two_kernel (bm : BitMap) : Kernel (OS (Stub Host)) :=
  mkKernel {[ 0%nat := two_thread ]} [] 0%nat None {[ 0%nat := mkSem (Lit []) 1 [] ]} empty
    (mkOS (mkUser (mkMachine (replicate (Z.to_nat MemorySize) 0) no_registers None None 0 empty false 0) bm)
      (mkStub two_host [] []) empty (mkPTable (mkBitMap 10 1 [1]) [] 0%nat)
      (mkSTable (mkBitMap 10 1 [0]) []) 0%nat empty empty 0%nat (mkConsoleVars 0 0 0 0 0 0)%nat).

Lemma count_clear_false n : count_clear (replicate n false) = Z.of_nat n.
Proof. induction n as [|n IH]; [done|]. cbn [replicate count_clear]. rewrite IH. lia. Qed.

Lemma two_readable :
  readable (stub_contents (W := Host) host_desc) two_garbage 0%nat two_file two_bytes two_header
    (mkStub (host_set_fd 3 ([98], 0) two_host) [Some (mkStubFile 3 0 0)] []).
Proof.
  constructor; try done.
  - by repeat constructor.
  - constructor; try done. split; [done|]. by repeat constructor.
Qed.

Lemma StartProcess_2_loads_witness : exists bm fs k',
  leads (fun _ _ => ret tt) (ret tt) no_code
    (StartProcess_2 (File := nat) true (fun _ _ => ret tt) (ret tt) (fun _ => Ret tt) two_garbage 0%nat)
    ∅ IntOff 0 (two_kernel bm) (Machine_Run true (fun _ => Ret tt)) IntOff 0 k' /\
  image fs (mainMemory (machine_of k')) = loaded_image two_header two_file.
Proof.
  destruct (BitMap_new_run NumPhysPages (fun _ => 0)) as (bm & _ & Hbm); [done|]. exists bm.
  pose proof (StartProcess_2_loads (File := nat) (stub_contents host_desc) true (fun _ _ => ret tt) (ret tt) no_code
    two_garbage [98] 0%nat two_file two_bytes two_header (fun _ => Ret tt)
    (replicate (Z.to_nat NumPhysPages) false)
    (mkStub (host_set_fd 3 ([98], 0) two_host) [Some (mkStubFile 3 0 0)] [])
    (mkSem (Lit []) 1 []) 0%nat two_thread ∅ IntOff 0 (two_kernel bm)) as H.
  cbv zeta in H. rewrite decide_True in H by (rewrite count_clear_false; done).
  destruct H as (tbl & fs & k' & H & _ & _ & Him & _); try done.
  - split; [by right|]. by split.
  - apply two_readable.
  - by apply zeroes_wf.
  - by exists fs, k'.
Defined.
