(* ===== verification/STableSpec.v ===== *)
(** * The named semaphores are a map

    What the table of threads/stable.cc promises as long as the names it points
    to are alive: a map from names to semaphores, with room for ten. *)

From stdpp Require Import base tactics list numbers gmap.
From S2P Require Import Prelude Lists Interrupt Machine Mips BitMap AddrSpace Disk OpenFile Directory FileSys SysDep Host Threads ThreadsInv ThreadsSafe Quiet ThreadsSpec UserRun System UserProg Process ProcessSpec.

Local Open Scope Z_scope.

Section STable.
Context {F : Type}.
Abbreviation K := (Sim (Kernel (OS F))).
Implicit Types (s : K) (k : Kernel (OS F)).

(** The pointer [n] points to the C string [nm], which is alive. *)
Definition points_to k (n : charp) (nm : list Z) : Prop :=
  match n with
  | Lit s => nm = s
  | Buf p => exists b, buffers (user k) !! p = Some (Some b) /\ nm = c_string b
  end.

Definition sem_slot (e : option (loc * list Z)) : option loc := match e with Some (a, _) => Some a | None => None end.
Definition taken (tab : list (option (loc * list Z))) : list bool := (fun e => bool_decide (is_Some e)) <$> tab.

(** The table: each slot in use holds a semaphore, whose name can be read. *)
Record stable_rep k (tab : list (option (loc * list Z))) : Prop := {
  sr_length : zlength tab = MAX_SEMAPHORE;
  sr_slots : lockTab (semTab (user k)) = sem_slot <$> tab;
  sr_bits : rep (st_bm (semTab (user k))) (taken tab);
  sr_entries : forall i a nm, tab !! i = Some (Some (a, nm)) ->
    exists sm, semaphores k !! a = Some sm /\ points_to k (sem_name sm) nm
}.

(** The map: the semaphore of a name. *)
Fixpoint sem_of (nm : list Z) (tab : list (option (loc * list Z))) : option loc :=
  match tab with
  | [] => None
  | Some (a, n) :: tab' => if bool_decide (n = nm) then Some a else sem_of nm tab'
  | None :: tab' => sem_of nm tab'
  end.

Lemma sem_of_app nm l1 l2 :
  sem_of nm (l1 ++ l2) = match sem_of nm l1 with Some a => Some a | None => sem_of nm l2 end.
Proof.
  induction l1 as [|[[a n]|] l1 IH]; cbn [sem_of app]; [done| |done]. by destruct (bool_decide (n = nm)).
Qed.

(** Using a free slot for a new name adds the name, and changes no other. *)
Lemma sem_of_insert tab i a nm nm' : tab !! i = Some None -> sem_of nm tab = None ->
  sem_of nm' (<[i := Some (a, nm)]> tab) = if bool_decide (nm' = nm) then Some a else sem_of nm' tab.
Proof.
  intros Hi Hn. pose proof (lookup_lt_Some _ _ _ Hi) as Hlt.
  rewrite (insert_take_drop _ _ _ Hlt), sem_of_app. cbn [sem_of].
  rewrite <- (take_drop_middle tab i None Hi), sem_of_app in Hn. cbn [sem_of] in Hn.
  assert (forall x, sem_of x tab = match sem_of x (take i tab) with Some a => Some a | None => sem_of x (drop (S i) tab) end) as E'.
  { intros x. by rewrite <- (take_drop_middle tab i None Hi) at 1; rewrite sem_of_app. }
  rewrite (E' nm').
  case_bool_decide as E.
  - subst nm'. destruct (sem_of nm (take i tab)) in Hn |- *; [done|]. by rewrite bool_decide_true.
  - rewrite bool_decide_false by congruence. by destruct (sem_of nm' (take i tab)).
Qed.

Lemma chars_run s n nm : points_to (rest s) n nm -> chars n s = Ok (nm, s).
Proof.
  destruct n as [t|p]; [by intros ->|]. intros (b & E & ->). unfold chars. mrun (os_run buffers s). by rewrite E.
Qed.

Lemma STable_find_run s tab name nm : stable_rep (rest s) tab -> points_to (rest s) name nm ->
  STable_find name s = Ok (sem_of nm tab, s).
Proof.
  intros Hr Hn. unfold STable_find.
  loop_ret (fun i s' => s' = s /\ sem_of nm (take (Z.to_nat i) tab) = None)
    (fun (i : Z) v s' => s' = s /\ sem_of nm tab = Some v) as (v & s' & E & HQ).
  2: { done. }
  - intros i s' Hi [-> Hno]. change (0 + Z.of_nat (Z.to_nat MAX_SEMAPHORE)) with MAX_SEMAPHORE in Hi.
    rewrite <- (sr_length _ _ Hr) in Hi.
    destruct (proj2 (zlookup_is_Some tab i) Hi) as [e He]. apply zlookup_Some in He as [_ He].
    mrun (os_run semTab s). rewrite (sr_slots _ _ Hr).
    assert (zlookup (sem_slot <$> tab) i = Some (sem_slot e)) as ->.
    { apply zlookup_Some. split; [lia|]. by rewrite list_lookup_fmap, He. }
    cbn [must]. rewrite (bind_Ok (ret _) _ s (sem_slot e) s) by done.
    pose proof (take_drop_middle tab (Z.to_nat i) e He) as Htd.
    destruct e as [[a n]|]; cbn [sem_slot].
    + destruct (sr_entries _ _ Hr _ _ _ He) as (sm & Ha & Hp).
      mrun (get_semaphore_run s a sm Ha). mrun (chars_run s _ n Hp). mrun (chars_run s name nm Hn).
      case_bool_decide as En; subst.
      * exists (Some a), s. split; [done|]. split; [done|]. rewrite <- Htd, sem_of_app, Hno. cbn.
        by rewrite bool_decide_true.
      * exists None, s. split; [done|]. split; [done|].
        replace (Z.to_nat (i + 1)) with (S (Z.to_nat i)) by lia.
        rewrite (take_S_r _ _ _ He), sem_of_app, Hno. cbn. by rewrite bool_decide_false.
    + exists None, s. split; [done|]. split; [done|].
      replace (Z.to_nat (i + 1)) with (S (Z.to_nat i)) by lia. by rewrite (take_S_r _ _ _ He), sem_of_app, Hno.
  - rewrite E. destruct v as [v|].
    + by destruct HQ as (i & _ & -> & ->).
    + destruct HQ as [-> Hno]. rewrite take_ge in Hno; [by rewrite Hno|].
      pose proof (sr_length _ _ Hr). unfold zlength in *. cbn in *. lia.
Qed.

Definition with_st_bm (bm : BitMap) (o : OS F) : OS F := set_semTab (mkSTable bm (lockTab (semTab o))) o.

Lemma on_st_bm_run {A} (m : M BitMap A) s a bm : m (st_bm (semTab (user (rest s)))) = Ok (a, bm) ->
  on_st_bm m s = Ok (a, on_rest (in_os (with_st_bm bm)) s).
Proof. intros E. unfold on_st_bm, on_user. by rewrite E. Qed.

(** The kernel with a new semaphore in slot [i]. *)
Definition created (i : Z) (a : loc) (name : charp) (v : Z) bm k : Kernel (OS F) :=
  in_os (fun o => set_semTab (mkSTable bm (zinsert i (Some a) (lockTab (semTab o)))) o)
    (set_semaphores (<[a := mkSem name v []]> (semaphores k)) k).

Lemma created_rep k tab i a name nm v bm :
  stable_rep k tab -> 0 <= i < zlength tab -> semaphores k !! a = None -> points_to k name nm ->
  rep bm (zinsert i true (taken tab)) ->
  stable_rep (created i a name v bm k) (<[Z.to_nat i := Some (a, nm)]> tab).
Proof.
  intros [Hl Hs Hb He] Hi Ha Hn Hbm. constructor.
  - unfold zlength in *. by rewrite length_insert.
  - cbn. rewrite Hs, list_fmap_insert. unfold zinsert. by rewrite (proj2 (Z.ltb_ge i 0)) by lia.
  - cbn. unfold taken in *. rewrite list_fmap_insert. unfold zinsert in Hbm.
    by rewrite (proj2 (Z.ltb_ge i 0)) in Hbm by lia.
  - intros j b n Hj. rewrite list_lookup_insert_Some in Hj. destruct Hj as [(_ & [= <- <-] & _)|[_ Hj]].
    + exists (mkSem name v []). split; [apply lookup_insert_eq|]. exact Hn.
    + destruct (He _ _ _ Hj) as (sm & Hb' & Hp). exists sm. split; [|exact Hp].
      cbn. rewrite lookup_insert_ne; [done|]. intros <-. congruence.
Qed.

Lemma STable_Create_run s tab name nm v i : stable_rep (rest s) tab -> points_to (rest s) name nm ->
  sem_of nm tab = None -> is_first_clear (taken tab) i ->
  let a := fresh (dom (semaphores (rest s))) in
  exists bm, STable_Create name v s = Ok (i, on_rest (created i a name v bm) s) /\
    stable_rep (created i a name v bm (rest s)) (<[Z.to_nat i := Some (a, nm)]> tab).
Proof.
  intros Hr Hn Hno Hi a. destruct (BitMap_Find_first _ _ _ (sr_bits _ _ Hr) Hi) as (bm1 & Ef & Hrep1).
  pose proof (first_clear_range _ _ Hi) as Hr0.
  assert (zlength (taken tab) = zlength tab) as Hlt by (unfold taken, zlength; by rewrite length_fmap).
  destruct (BitMap_Mark_run _ _ Hrep1 i) as (bm2 & Em & Hrep2); [by rewrite zlength_zinsert|].
  exists bm2. split.
  - unfold STable_Create. mrun (STable_find_run s tab name nm Hr Hn). rewrite Hno.
    mrun (on_st_bm_run BitMap_Find s i bm1 Ef). rewrite (proj2 (Z.eqb_neq i (-1))) by lia.
    set (s1 := on_rest _ s). mrun (on_st_bm_run (BitMap_Mark i) s1 tt bm2 Em). set (s2 := on_rest _ s1).
    mrun (Semaphore_new_run s2 name v). set (s3 := on_rest _ s2). mrun (os_run semTab s3).
    change (lockTab (semTab (user (rest s3)))) with (lockTab (semTab (user (rest s)))).
    assert (store i (Some (fresh (dom (semaphores (rest s2))))) (lockTab (semTab (user (rest s)))) =
      Some (zinsert i (Some a) (lockTab (semTab (user (rest s)))))) as ->; [|done].
    apply store_Some. split; [|done]. rewrite (sr_slots _ _ Hr). unfold zlength in *. rewrite length_fmap. lia.
  - apply created_rep; [done|lia|apply fresh_semaphore|done|].
    unfold zinsert in *. rewrite (proj2 (Z.ltb_ge i 0)) in * by lia. by rewrite list_insert_insert_eq in Hrep2.
Qed.

(** C10: as long as the names are alive, the table of named semaphores is a map
    of at most ten names. Create adds a new name, with a new semaphore of the
    value given, in the first free slot, and changes no other name; it fails
    with -1, changing nothing, when the name exists or all slots are taken.
    Wait and Signal are P and V on the semaphore of the name, and -1 for an
    unknown name. *)
Theorem STable_refines_map (call : VoidFunctionPtr -> Z -> M K unit) (DL : M K unit) code s tab name nm v :
  stable_rep (rest s) tab -> points_to (rest s) name nm ->
  match sem_of nm tab with
  | Some _ => STable_Create name v s = Ok (-1, s)
  | None =>
      if decide (count_clear (taken tab) = 0) then STable_Create name v s = Ok (-1, s)
      else exists i a s' tab', STable_Create name v s = Ok (i, s') /\ stable_rep (rest s') tab' /\
        0 <= i < MAX_SEMAPHORE /\ semaphores (rest s) !! a = None /\
        semaphores (rest s') = <[a := mkSem name v []]> (semaphores (rest s)) /\
        forall nm', sem_of nm' tab' = if bool_decide (nm' = nm) then Some a else sem_of nm' tab
  end /\
  forall sv f,
    run call DL code 1 (mkConfig (pbind (STable_Wait call DL name) f) sv s) =
      Ok (mkConfig (match sem_of nm tab with Some a => Semaphore_P call DL a ;~ f 0 | None => f (-1) end) sv s) /\
    run call DL code 1 (mkConfig (pbind (STable_Signal name) f) sv s) =
      Ok (mkConfig (match sem_of nm tab with Some a => Semaphore_V a ;~ f 0 | None => f (-1) end) sv s).
Proof.
  intros Hr Hn. pose proof (STable_find_run s tab name nm Hr Hn) as Ef. split.
  - destruct (sem_of nm tab) as [b|] eqn:Es; [unfold STable_Create; by mrun Ef|]. case_decide as H0.
    + unfold STable_Create. mrun Ef.
      by mrun (on_st_bm_run BitMap_Find s _ _ (BitMap_Find_full _ _ (sr_bits _ _ Hr) H0)); destruct s as [? ? [? ? ? ? ? ? [? ? ? ? [] ? ? ? ? ?]]].
    + destruct (first_clear_exists _ H0) as [i Hi].
      destruct (STable_Create_run s tab name nm v i Hr Hn Es Hi) as (bm & E & Hr').
      pose proof (first_clear_range _ _ Hi) as Hr0. unfold taken, zlength in Hr0. rewrite length_fmap in Hr0.
      pose proof (sr_length _ _ Hr) as Hlen. unfold zlength in Hlen.
      exists i, (fresh (dom (semaphores (rest s)))). eexists _, _. split; [exact E|]. split; [exact Hr'|].
      split; [lia|]. split; [apply fresh_semaphore|]. split; [done|]. intros nm'.
      apply sem_of_insert; [|done]. destruct Hi as [Hi _]. apply zlookup_Some in Hi as [_ Hi].
      unfold taken in Hi. rewrite list_lookup_fmap in Hi. apply fmap_Some in Hi as (e & -> & He).
      by destruct e.
  - intros sv f. unfold STable_Wait, STable_Signal. split.
    + rewrite pbind_assoc, (run_op call DL code 0 _ _ sv s _ s Ef). cbn [run].
      destruct (sem_of nm tab); [by rewrite pbind_assoc|done].
    + rewrite pbind_assoc, (run_op call DL code 0 _ _ sv s _ s Ef). cbn [run].
      destruct (sem_of nm tab); [by rewrite pbind_assoc|done].
Qed.
End STable.

Lemma empty_stable_rep : stable_rep proc_kernel (replicate 10 None).
Proof.
  constructor; [done|done| |].
  - split; [by constructor|]. split; [done|]. intros i Hi.
    assert (Forall (fun i => zlookup (taken (replicate 10 None)) i = Some (marked (mkBitMap 10 1 [0]) i)) (seqZ 0 10)) as HF
      by (vm_compute; repeat constructor).
    rewrite Forall_forall in HF. apply HF. apply elem_of_seqZ. cbn in Hi. lia.
  - intros i a nm Hi. by do 10 (destruct i as [|i]; [done|]).
Qed.

Lemma STable_refines_map_witness :
  exists i a s' tab', STable_Create (Lit [115]) 1 (mkSim Interrupt_new Statistics_new proc_kernel) = Ok (i, s') /\
    stable_rep (rest s') tab' /\ sem_of [115] tab' = Some a.
Proof.
  destruct (STable_refines_map (fun _ _ => ret tt) (ret tt) no_code (mkSim Interrupt_new Statistics_new proc_kernel)
    (replicate 10 None) (Lit [115]) [115] 1 empty_stable_rep eq_refl) as [H _].
  destruct H as (i & a & s' & tab' & E & Hr & _ & _ & _ & Hs).
  exists i, a, s', tab'. split; [exact E|]. split; [exact Hr|]. rewrite Hs. reflexivity.
Defined.
