(* ===== verification/Syscall.v ===== *)
(** * userprog/exception.cc: system calls and exceptions

    The exception handler of the kernel: the system calls of user programs,
    one definition per case of the switch, and the copying of strings between
    a program's memory and the kernel's. *)

From stdpp Require Import base tactics list numbers gmap.
From S2P Require Import Prelude Lists Interrupt Machine Mips BitMap AddrSpace Disk OpenFile Directory FileSys SysDep Threads UserRun System Console UserProg Process.

Local Open Scope Z_scope.

(** ** userprog/syscall.h *)

Definition SC_Halt : Z := 1.
Definition SC_ReadNum : Z := 2.
Definition SC_PrintNum : Z := 3.
Definition SC_ReadChar : Z := 4.
Definition SC_PrintChar : Z := 5.
Definition SC_ReadString : Z := 6.
Definition SC_PrintString : Z := 7.
Definition SC_RandomNum : Z := 8.
Definition SC_CreateFile : Z := 9.
Definition SC_Open : Z := 10.
Definition SC_Close : Z := 11.
Definition SC_Read : Z := 12.
Definition SC_Write : Z := 13.
Definition SC_Exit : Z := 14.
Definition SC_Exec : Z := 15.
Definition SC_Join : Z := 16.
Definition SC_CreateSemaphore : Z := 17.
Definition SC_Wait : Z := 18.
Definition SC_Signal : Z := 19.

(** What the handler finds in memory it does not set: characters of new
    arrays, the registers of a new thread, the pid of a new process and what
    the constructor of its address space finds. *)
Record SyscallGarbage := mkSyscallGarbage {
  char_mem : Z -> Z;
  local_char : Z;
  thread_mem : list Z;
  pid_mem : Z;
  space_mem : SpaceGarbage
}.

(** ** Numbers *)

(** The loop of SC_ReadNum over the characters after the sign; [None] when it
    meets one that is no digit. *)
Fixpoint parse_digits (ans : Z) (cs : list Z) : option Z :=
  match cs with
  | [] => Some ans
  | c :: cs' =>
      if (48 <=? c) && (c <=? 57) then parse_digits (i32 (ans * 10 + (c - 48))) cs' else None
  end.

(** [num] are the characters read, at least one. *)
Definition parse_num (num : list Z) : option Z :=
  match num with
  | 45 :: cs => (fun ans => i32 (- ans)) <$> parse_digits 0 cs
  | _ => parse_digits 0 num
  end.

(** The array [out] of SC_PrintNum, of ten characters, and its length. *)
Section PrintNum.
Context {S : Type}.

Definition put_char (out : list Z) (leng c : Z) : M S (list Z * Z) :=
  out <- must (store leng c out) ;; ret (out, leng + 1).

Definition put_digits (out : list Z) (num : Z) : M S (list Z * Z) :=
  r <- while_ 11 (out, 0, num) (fun '(out, leng, num) =>
         if num >? 0 then
           '(out, leng) <- put_char out leng (i8 (Z.rem num 10 + 48)) ;;
           ret (out, leng, Z.quot num 10, true)
         else ret (out, leng, num, false)) ;;
  '(out, leng, _) <- must r ;; ret (out, leng).

Definition reverse_out (out : list Z) (leng : Z) : M S (list Z) :=
  for_acc 0 (Z.to_nat (Z.quot leng 2)) out (fun i out =>
    swap <- must (zlookup out i) ;;
    c <- must (zlookup out (leng - i - 1)) ;;
    out <- must (store i c out) ;;
    must (store (leng - i - 1) swap out)).

(** The characters that are written. *)
Definition format_num (num : Z) : M S (list Z * Z) :=
  let out := replicate 10 0 in
  if num =? 0 then
    out <- must (store 0 48 out) ;; ret (out, 1)
  else
    let sign := if num >? 0 then 1 else -1 in
    '(out, leng) <- put_digits out (i32 (num * sign)) ;;
    '(out, leng) <- (if sign =? -1 then put_char out leng 45 else ret (out, leng)) ;;
    out <- reverse_out out leng ;;
    ret (out, leng).
End PrintNum.

Section Syscall.
Context (be : bool) {W F File : Type} `{HU : Unix W} `{!Lens W F} `{HF : FileSystemOps F File}.
Abbreviation K := (Sim (Kernel (OS F))).
Context (call : VoidFunctionPtr -> Z -> M K unit) (DelayedLoad_0_0 : M K unit).
Context (g : SyscallGarbage).

(** ** User memory *)

(** The arms of ExceptionHandler for an exception that an access to memory
    raises: an access of the kernel to user memory that fails ends here. *)
Definition fault_handler (which : ExceptionType) : M K unit := ASSERT false.

Definition kernel_status (st : MachineStatus) : M K unit := modify (on_intr (set_status st)).
Definition ReadMem (addr size : Z) : M K (option Z) :=
  Machine_ReadMem be kernel_status fault_handler addr size.
Definition WriteMem (addr size value : Z) : M K bool :=
  Machine_WriteMem be kernel_status fault_handler addr size value.

(** The bytes up to the first zero, at most [n]; ReadMem returns only if it
    has read a byte. *)
Fixpoint fetch_string (n : nat) (virtAddr : Z) : M K (list Z) :=
  match n with
  | O => ret []
  | S n' =>
      v <- ReadMem virtAddr 1 ;;
      oneChar <- must v ;;
      if oneChar =? 0 then ret [0]
      else bs <- fetch_string n' (i32 (virtAddr + 1)) ;; ret (i8 oneChar :: bs)
  end.

(** [new char[n]], which fails for a negative [n]. *)
Definition new_chars (n : Z) : M K (list Z) :=
  if n <? 0 then undef else ret ((fun i => i8 (char_mem g i)) <$> seqZ 0 n).

Definition User2System (virtAddr limit : Z) : M K (list Z) :=
  kernelBuf <- new_chars (i32 (limit + 1)) ;;
  bs <- fetch_string (Z.to_nat limit) virtAddr ;;
  ret (splice 0 bs (replicate (length kernelBuf) 0)).

(** The loop of System2User; the result is the number of bytes written. *)
Fixpoint store_string (n : nat) (virtAddr i : Z) (buffer : list Z) : M K Z :=
  match n with
  | O => ret i
  | S n' =>
      oneChar <- must (zlookup buffer i) ;;
      _ <- WriteMem (i32 (virtAddr + i)) 1 oneChar ;;
      if oneChar =? 0 then ret (i + 1) else store_string n' virtAddr (i + 1) buffer
  end.

Definition System2User (virtAddr len : Z) (buffer : list Z) : M K Z :=
  if len <? 0 then ret (-1)
  else if len =? 0 then ret 0
  else store_string (Z.to_nat len) virtAddr 0 buffer.

Definition IncreasePC : M Machine unit :=
  pc <- reg PCReg ;; set_reg PrevPCReg pc ;;;
  next <- reg NextPCReg ;; set_reg PCReg next ;;;
  set_reg NextPCReg (i32 (next + 4)).

Definition argument (n : Z) : prog K Z := op (on_cpu (Machine_ReadRegister n)).
Definition result (v : Z) : prog K unit := op (on_cpu (Machine_WriteRegister 2 v)).
Definition halt_machine : prog K unit := op Interrupt_Halt.

(** A string argument, as a C string. *)
Definition string_argument (n limit : Z) : prog K (list Z) :=
  addr <~ argument n ;; op (User2System addr limit).

Abbreviation Read cons := (SynchConsole_Read call DelayedLoad_0_0 (local_char g) cons).
Abbreviation Write := (SynchConsole_Write call DelayedLoad_0_0).

(** ** The console *)

Definition sys_ReadNum : prog K unit :=
  cons <~ op (os gSynchConsole) ;;
  r <~ Read cons 9 ;;
  let '(leng, num) := r : Z * list Z in
  if leng =? -1 then halt_machine
  else if leng =? 0 then Ret tt
  else
    match parse_num (take (Z.to_nat leng) num) with
    | None => halt_machine
    | Some ans => result ans
    end.

Definition sys_PrintNum : prog K unit :=
  num <~ argument 4 ;;
  r <~ op (format_num num) ;;
  cons <~ op (os gSynchConsole) ;;
  Write cons (r.1 : list Z) (r.2 : Z) ;~ Ret tt.

Definition sys_ReadChar : prog K unit :=
  cons <~ op (os gSynchConsole) ;;
  r <~ Read cons 1 ;;
  let '(ok, bs) := r : Z * list Z in
  if ok =? -1 then halt_machine
  else if ok =? 0 then Ret tt
  else character <~ op (must (zlookup bs 0)) ;; result character.

Definition sys_PrintChar : prog K unit :=
  c <~ argument 4 ;;
  cons <~ op (os gSynchConsole) ;;
  Write cons [i8 c] 1 ;~ Ret tt.

Definition sys_ReadString : prog K unit :=
  virtAddr <~ argument 4 ;;
  leng <~ argument 5 ;;
  if leng <=? 0 then halt_machine
  else
    string <~ op (new_chars (i32 (leng + 1))) ;;
    cons <~ op (os gSynchConsole) ;;
    r <~ Read cons leng ;;
    let '(ok, bs) := r : Z * list Z in
    if ok =? -1 then halt_machine
    else if ok =? 0 then Ret tt
    else
      op (string <- must (store ok 0 (splice 0 bs string)) ;;
          _ <- System2User virtAddr (i32 (leng + 1)) string ;; ret tt).

Definition sys_PrintString : prog K unit :=
  string <~ string_argument 4 255 ;;
  cons <~ op (os gSynchConsole) ;;
  Write cons string 255 ;~ Ret tt.

(** ** Files *)

Definition sys_CreateFile : prog K unit :=
  name <~ string_argument 4 255 ;;
  if bool_decide (c_string name = []) then result (-1)
  else
    ok <~ op (on_files (fs_Create (File := File) (c_string name) 0)) ;;
    if ok : bool then result 0 else result (-1).

Definition first_free_slot : M K (option Z) :=
  for_ret 0 10 (fun i =>
    p <- on_files (fs_slot (File := File) i) ;;
    ret (match p with None => Some i | Some _ => None end)).

Definition sys_Open : prog K unit :=
  name <~ string_argument 4 255 ;;
  type_file <~ argument 5 ;;
  if negb (type_file =? 0) && negb (type_file =? 1) then result (-1)
  else if bool_decide (c_string name = stdin) then result 0
  else if bool_decide (c_string name = stdout) then result 1
  else
    index <~ op first_free_slot ;;
    match index with
    | None => result (-1)
    | Some index =>
        p <~ op (on_files (p <- fs_Open_type (File := File) (c_string name) type_file ;;
                           fs_set_slot index p ;;; ret p)) ;;
        match p with
        | Some _ => result index
        | None => result (-1)
        end
    end.

Definition sys_Close : prog K unit :=
  id <~ argument 4 ;;
  if (id <? 2) || (id >? 9) then result (-1)
  else
    p <~ op (on_files (fs_slot (File := File) id)) ;;
    match p with
    | Some f => op (on_files (file_delete f ;;; fs_set_slot (File := File) id None)) ;~ result 0
    | None => result (-1)
    end.

(** [file[id]] when the test of SC_Read and SC_Write lets it pass. *)
Definition usable_file (id bad : Z) : M K (option File) :=
  if (id <? 0) || (id =? bad) || (id >? 9) then ret None else on_files (fs_slot id).

Definition sys_Read : prog K unit :=
  id <~ argument 6 ;;
  p <~ op (usable_file id 1) ;;
  match p with
  | None => result (-1)
  | Some f =>
      addr <~ argument 4 ;;
      charcount <~ argument 5 ;;
      if charcount <=? 0 then result (-1)
      else
        buff <~ op (new_chars (i32 (charcount + 1))) ;;
        r <~ (if id =? 0 then cons <~ op (os gSynchConsole) ;; Read cons charcount
              else op (on_files (of_Read f charcount))) ;;
        let '(res, bs) := r : Z * list Z in
        if res <? 0 then result (-1)
        else if res =? 0 then result (-2)
        else
          op (buff <- must (store res 0 (splice 0 bs buff)) ;;
              _ <- System2User addr (i32 (charcount + 1)) buff ;; ret tt) ;~
          result res
  end.

Definition sys_Write : prog K unit :=
  id <~ argument 6 ;;
  p <~ op (p <- usable_file id 0 ;;
           match p with
           | None => ret None
           | Some f => t <- on_files (of_type f) ;; ret (if t =? 1 then None else Some f)
           end) ;;
  match p with
  | None => result (-1)
  | Some f =>
      addr <~ argument 4 ;;
      charcount <~ argument 5 ;;
      if charcount <=? 0 then result (-1)
      else
        buff <~ op (User2System addr charcount) ;;
        res <~ (if id =? 1 then cons <~ op (os gSynchConsole) ;; Write cons buff charcount
                else op (on_files (of_Write f buff charcount))) ;;
        if res <? 0 then result (-1)
        else if res =? 0 then result (-2)
        else result res
  end.

(** ** Processes and semaphores *)

Definition sys_Exec : prog K unit :=
  name <~ string_argument 4 255 ;;
  openfile <~ op (on_files (file_open (File := File) (c_string name))) ;;
  match openfile with
  | None => result (-1)
  | Some f =>
      op (on_files (file_delete f)) ;~
      id <~ PTable_ExecUpdate (File := File) call DelayedLoad_0_0 (thread_mem g) (pid_mem g)
              (Some (c_string name)) ;;
      result id
  end.

Definition sys_Join : prog K unit :=
  id <~ argument 4 ;; r <~ PTable_JoinUpdate call DelayedLoad_0_0 id ;; result r.

Definition sys_Exit : prog K unit :=
  exitcode <~ argument 4 ;; r <~ PTable_ExitUpdate call DelayedLoad_0_0 exitcode ;; result r.

(** The name is freed although the new semaphore points to it. *)
Definition sys_CreateSemaphore : prog K unit :=
  name <~ string_argument 4 255 ;;
  name <~ op (new_buffer name) ;;
  semval <~ argument 5 ;;
  r <~ op (STable_Create (Buf name) semval) ;;
  if r =? -1 then result (-1) ;~ op (delete_buffer name)
  else op (delete_buffer name) ;~ result r.

Definition sys_Wait : prog K unit :=
  name <~ string_argument 4 255 ;;
  name <~ op (new_buffer name) ;;
  r <~ STable_Wait call DelayedLoad_0_0 (Buf name) ;;
  op (delete_buffer name) ;~ result r.

Definition sys_Signal : prog K unit :=
  name <~ string_argument 4 255 ;;
  name <~ op (new_buffer name) ;;
  r <~ STable_Signal (Buf name) ;;
  op (delete_buffer name) ;~ result r.

Definition sys_RandomNum : prog K unit :=
  ranNum <~ op (on_unix Random) ;; result ranNum.

(** ** The handler *)

(** [switch (type)]; the default case is ASSERT(FALSE). *)
Definition syscall (type : Z) : prog K unit :=
  if type =? SC_Halt then halt_machine
  else if type =? SC_RandomNum then sys_RandomNum
  else if type =? SC_ReadNum then sys_ReadNum
  else if type =? SC_PrintNum then sys_PrintNum
  else if type =? SC_ReadChar then sys_ReadChar
  else if type =? SC_PrintChar then sys_PrintChar
  else if type =? SC_ReadString then sys_ReadString
  else if type =? SC_PrintString then sys_PrintString
  else if type =? SC_CreateFile then sys_CreateFile
  else if type =? SC_Open then sys_Open
  else if type =? SC_Close then sys_Close
  else if type =? SC_Read then sys_Read
  else if type =? SC_Write then sys_Write
  else if type =? SC_Exec then sys_Exec
  else if type =? SC_Join then sys_Join
  else if type =? SC_Exit then sys_Exit
  else if type =? SC_CreateSemaphore then sys_CreateSemaphore
  else if type =? SC_Wait then sys_Wait
  else if type =? SC_Signal then sys_Signal
  else op (ASSERT false).

Definition ExceptionHandler (which : ExceptionType) : prog K unit :=
  type <~ argument 2 ;;
  match which with
  | NoException => Ret tt
  | SyscallException => syscall type ;~ op (on_cpu IncreasePC)
  | _ => op (fault_handler which)
  end.

(** The procedure that PCB::Exec forks, behind the pointer. *)
Definition user_thread_code (thread : loc) : prog K unit :=
  StartProcess_2 (File := File) be call DelayedLoad_0_0 ExceptionHandler (space_mem g) thread.
End Syscall.
