(* ===== verification/SyscallSpec.v ===== *)
(** * What the system calls promise

    The numbers that PrintNum writes and ReadNum reads. *)

From stdpp Require Import base tactics list numbers gmap.
From S2P Require Import Prelude Lists Interrupt Machine Mips BitMap AddrSpace Disk OpenFile Directory FileSys SysDep Host Threads ThreadsInv ThreadsSafe Quiet ThreadsSpec UserRun System Console ConsoleSpec UserProg Process ProcessSpec UserProgSpec Syscall.

Local Open Scope Z_scope.

(** ** Decimal numbers *)

(** The digits of a positive number, the last one first. *)
Fixpoint dec (fuel : nat) (n : Z) : list Z :=
  match fuel with
  | O => []
  | S f => if n >? 0 then (n mod 10 + 48) :: dec f (n / 10) else []
  end.

Lemma dec_pos fuel n : 0 < n -> dec (S fuel) n = (n mod 10 + 48) :: dec fuel (n / 10).
Proof. intros H. cbn. rewrite Z.gtb_ltb. by destruct (Z.ltb_spec 0 n); [|lia]. Qed.

Lemma dec_length_le fuel n k : 0 <= n < 10 ^ Z.of_nat k -> (length (dec fuel n) <= k)%nat.
Proof.
  revert n k. induction fuel as [|fuel IH]; intros n k Hn; [cbn; lia|].
  destruct (decide (n = 0)) as [->|]; [cbn; lia|]. rewrite dec_pos by lia. cbn [length].
  destruct k as [|k]; [cbn in Hn; lia|]. rewrite Nat2Z.inj_succ, Z.pow_succ_r in Hn by lia.
  assert (length (dec fuel (n / 10)) <= k)%nat; [apply IH; dlia|lia].
Qed.

Lemma dec_length_ge fuel n k : (k < fuel)%nat -> 10 ^ Z.of_nat k <= n -> (k < length (dec fuel n))%nat.
Proof.
  revert n k. induction fuel as [|fuel IH]; intros n k Hk Hn; [lia|].
  assert (0 < 10 ^ Z.of_nat k) by (apply Z.pow_pos_nonneg; lia).
  rewrite dec_pos by lia. cbn [length]. destruct k as [|k]; [lia|].
  rewrite Nat2Z.inj_succ, Z.pow_succ_r in Hn by lia.
  assert (k < length (dec fuel (n / 10)))%nat; [apply IH; [lia|dlia]|lia].
Qed.

Lemma parse_digits_app a l1 l2 : parse_digits a (l1 ++ l2) = parse_digits a l1 ≫= (fun b => parse_digits b l2).
Proof.
  revert a. induction l1 as [|c l1 IH]; intros a; [done|]. cbn [parse_digits app].
  destruct ((48 <=? c) && (c <=? 57)); [apply IH|done].
Qed.

(** Reading the digits in the order they are printed gives the number. *)
Lemma parse_dec fuel n k : 0 <= n < 10 ^ Z.of_nat k -> (k <= fuel)%nat -> n < 2 ^ 31 ->
  parse_digits 0 (rev (dec fuel n)) = Some n.
Proof.
  revert n k. induction fuel as [|fuel IH]; intros n k Hn Hk H31.
  - destruct k; [|lia]. cbn in *. f_equal. lia.
  - destruct (decide (n = 0)) as [->|]; [done|]. rewrite dec_pos by lia. cbn [rev].
    destruct k as [|k]; [cbn in Hn; lia|]. rewrite Nat2Z.inj_succ, Z.pow_succ_r in Hn by lia.
    rewrite parse_digits_app, (IH (n / 10) k) by (lia || dlia). cbn [mbind option_bind parse_digits].
    pose proof (Z.mod_pos_bound n 10 ltac:(lia)).
    rewrite (proj2 (Z.leb_le 48 _)), (proj2 (Z.leb_le _ 57)) by lia. cbn [andb]. f_equal.
    pose proof (Z.div_mod n 10 ltac:(lia)). rewrite i32_id; [lia|]. unfold is_i32. lia.
Qed.

Section PrintNum.
Context {S : Type}.
Implicit Types s : S.

Lemma put_char_run (pre rest : list Z) x c s :
  put_char (pre ++ x :: rest) (zlength pre) c s = Ok (pre ++ c :: rest, zlength pre + 1, s).
Proof.
  unfold put_char. assert (store (zlength pre) c (pre ++ x :: rest) = Some (pre ++ c :: rest)) as ->; [|done].
  apply store_Some. unfold zlength. rewrite length_app. cbn [length]. split; [lia|].
  symmetry. by apply zinsert_middle.
Qed.

(** The loop that divides by ten, when the room [r] is enough. *)
Lemma digits_loop fuel r (pre : list Z) num s : (r < fuel)%nat -> 0 <= num < 10 ^ Z.of_nat r -> num < 2 ^ 31 ->
  while_ fuel (pre ++ replicate r 0, zlength pre, num) (fun '(out, leng, num) =>
    if num >? 0 then
      '(out, leng) <- put_char out leng (i8 (Z.rem num 10 + 48)) ;;
      ret (out, leng, Z.quot num 10, true)
    else ret (out, leng, num, false)) s =
  Ok (Some (pre ++ dec fuel num ++ replicate (r - length (dec fuel num)) 0, zlength (pre ++ dec fuel num), 0), s).
Proof.
  revert r pre num. induction fuel as [|fuel IH]; intros r pre num Hr Hn H31; [lia|].
  cbn [while_]. destruct (decide (num = 0)) as [->|].
  - rewrite (bind_Ok _ _ s (pre ++ replicate r 0, zlength pre, 0, false) s) by done.
    cbn. by rewrite app_nil_r, Nat.sub_0_r.
  - rewrite Z.gtb_ltb, (proj2 (Z.ltb_lt 0 num)) by lia.
    destruct r as [|r]; [cbn in Hn; lia|]. rewrite Nat2Z.inj_succ, Z.pow_succ_r in Hn by lia.
    cbn [replicate]. rewrite <- bind_assoc.
    mrun (put_char_run pre (replicate r 0) 0 (i8 (Z.rem num 10 + 48)) s).
    rewrite (bind_Ok (ret _) _ s _ s) by done.
    assert (i8 (Z.rem num 10 + 48) = num mod 10 + 48) as ->.
    { rewrite Z.rem_mod_nonneg by lia. apply i8_id. unfold is_char. dlia. }
    rewrite Z.quot_div_nonneg by lia.
    replace (pre ++ num mod 10 + 48 :: replicate r 0) with ((pre ++ [num mod 10 + 48]) ++ replicate r 0)
      by by rewrite <- app_assoc.
    replace (zlength pre + 1) with (zlength (pre ++ [num mod 10 + 48]))
      by (unfold zlength; rewrite length_app; cbn; lia).
    rewrite IH by (lia || dlia). rewrite dec_pos by lia. cbn [length Nat.sub].
    by rewrite <- !app_assoc.
Qed.

Lemma put_digits_run num s : 0 <= num < 2 ^ 31 ->
  put_digits (replicate 10 0) num s =
    Ok (dec 11 num ++ replicate (10 - length (dec 11 num)) 0, zlength (dec 11 num), s).
Proof.
  intros Hn. unfold put_digits. by mrun (digits_loop 11 10 [] num s ltac:(lia) ltac:(lia) ltac:(lia)).
Qed.

(** The loop that swaps: all the lengths are tried. *)
Lemma reverse_out_run (out : list Z) leng s : length out = 10%nat -> 0 <= leng <= 10 ->
  reverse_out out leng s = Ok (rev (take (Z.to_nat leng) out) ++ drop (Z.to_nat leng) out, s).
Proof.
  intros Hl Hleng. do 10 (destruct out as [|? out]; [done|]). destruct out; [|done].
  assert (leng ∈ seqZ 0 11) as Hin by (apply elem_of_seqZ; lia). clear Hl Hleng.
  vm_compute in Hin. repeat (apply elem_of_cons in Hin as [->|Hin]; [reflexivity|]). by apply not_elem_of_nil in Hin.
Qed.
End PrintNum.

Section Numbers.
Context {S : Type}.
Implicit Types s : S.

Lemma dec_chars fuel n : Forall (fun c => 48 <= c) (dec fuel n).
Proof.
  revert n. induction fuel as [|fuel IH]; intros n; [constructor|]. cbn. destruct (n >? 0); [|constructor].
  constructor; [|apply IH]. pose proof (Z.mod_pos_bound n 10 ltac:(lia)). lia.
Qed.

Lemma parse_num_digits l : Forall (fun c => 48 <= c) l -> parse_num l = parse_digits 0 l.
Proof.
  intros Hl. destruct l as [|c l]; [done|]. inversion_clear Hl as [|? ? Hc _]. unfold parse_num.
  destruct c as [|p|p]; try done. do 6 (destruct p as [p|p|]; try done).
Qed.

(** The digits, reversed in the array. *)
Lemma reversed (ds : list Z) s : (length ds <= 10)%nat ->
  reverse_out (ds ++ replicate (10 - length ds) 0) (zlength ds) s =
    Ok (rev ds ++ replicate (10 - length ds) 0, s).
Proof.
  intros Hl. rewrite reverse_out_run.
  - unfold zlength. by rewrite Nat2Z.id, take_app_length, drop_app_length.
  - rewrite length_app, length_replicate. lia.
  - unfold zlength. lia.
Qed.

Lemma format_positive n s : 0 < n < 2 ^ 31 ->
  format_num n s = Ok (rev (dec 11 n) ++ replicate (10 - length (dec 11 n)) 0, zlength (dec 11 n), s).
Proof.
  intros Hn. unfold format_num. rewrite (proj2 (Z.eqb_neq n 0)) by lia.
  rewrite Z.gtb_ltb, (proj2 (Z.ltb_lt 0 n)) by lia. rewrite i32_id by (unfold is_i32; lia).
  rewrite Z.mul_1_r. mrun (put_digits_run n s ltac:(lia)). cbn [Z.eqb Pos.eqb].
  rewrite (bind_Ok (ret _) _ s (dec 11 n ++ replicate (10 - length (dec 11 n)) 0, zlength (dec 11 n)) s) by done.
  mrun (reversed (dec 11 n) s (dec_length_le 11 n 10 ltac:(lia))). done.
Qed.

Lemma format_overflows n s : - 2 ^ 31 < n <= - 10 ^ 9 -> format_num n s = Undef.
Proof.
  intros Hn. unfold format_num. rewrite (proj2 (Z.eqb_neq n 0)) by lia.
  rewrite Z.gtb_ltb, (proj2 (Z.ltb_ge 0 n)) by lia. rewrite i32_id by (unfold is_i32; lia).
  replace (n * -1) with (- n) by lia. mrun (put_digits_run (- n) s ltac:(lia)).
  pose proof (dec_length_le 11 (- n) 10 ltac:(lia)). pose proof (dec_length_ge 11 (- n) 9 ltac:(lia) ltac:(lia)).
  assert (length (dec 11 (- n)) = 10%nat) as Hl by lia. cbn [Z.eqb Pos.eqb].
  assert (put_char (dec 11 (- n) ++ replicate (10 - length (dec 11 (- n))) 0) (zlength (dec 11 (- n))) 45 s = Undef) as E.
  { unfold put_char, store, zlength. rewrite length_app, length_replicate, Hl. done. }
  unfold bind at 1. by rewrite E.
Qed.

Lemma format_negative n s : - 10 ^ 9 < n < 0 ->
  exists out, format_num n s = Ok (out, zlength (dec 11 (- n)) + 1, s) /\
    take (Z.to_nat (zlength (dec 11 (- n)) + 1)) out = 45 :: rev (dec 11 (- n)).
Proof.
  intros Hn. pose proof (dec_length_le 11 (- n) 9 ltac:(lia)) as Hl. set (ds := dec 11 (- n)) in *.
  exists (rev (ds ++ [45]) ++ replicate (10 - length (ds ++ [45])) 0). split.
  - unfold format_num. rewrite (proj2 (Z.eqb_neq n 0)) by lia.
    rewrite Z.gtb_ltb, (proj2 (Z.ltb_ge 0 n)) by lia. rewrite i32_id by (unfold is_i32; lia).
    replace (n * -1) with (- n) by lia. mrun (put_digits_run (- n) s ltac:(lia)). fold ds. cbn [Z.eqb Pos.eqb].
    assert (replicate (10 - length ds) 0 = 0 :: replicate (9 - length ds) 0) as ->
      by by replace (10 - length ds)%nat with (Datatypes.S (9 - length ds)) by lia.
    mrun (put_char_run ds (replicate (9 - length ds) 0) 0 45 s).
    assert (reverse_out (ds ++ 45 :: replicate (9 - length ds) 0) (zlength ds + 1) s =
      Ok (rev (ds ++ [45]) ++ replicate (10 - length (ds ++ [45])) 0, s)) as E; [|by mrun E].
    rewrite <- (reversed (ds ++ [45]) s) by (rewrite length_app; cbn [length]; lia).
    f_equal; [|unfold zlength; rewrite length_app; cbn [length]; lia].
    rewrite <- app_assoc, length_app. cbn [length app]. do 3 f_equal. lia.
  - rewrite take_app_length'; [by rewrite rev_app_distr|].
    rewrite length_rev, length_app. unfold zlength. cbn [length]. lia.
Qed.

(** ** What the nine characters of ReadNum give *)

(** The keys of a text and of the end of the line, as far as there is room. *)
Definition keys_for (room : nat) (txt : list Z) : list Z := take room (txt ++ [10]).

Lemma line_of_text room txt : (0 < room)%nat -> Forall ordinary txt ->
  exists last, last <> 1 /\ line room (keys_for room txt) (take room txt) last.
Proof.
  intros Hr Ht. unfold keys_for. revert room Hr. induction Ht as [|ch txt Hc Ht IH]; intros room Hr.
  - exists 10. split; [done|]. destruct room as [|room]; [lia|]. cbn. rewrite take_nil. apply line_end. by left.
  - destruct room as [|[|room]]; [lia| |].
    + exists ch. split; [apply Hc|]. by apply line_full.
    + destruct (IH (Datatypes.S room) ltac:(lia)) as (last & Hl & H). exists last. split; [done|].
      by apply line_char.
Qed.

Lemma dec_ordinary fuel n : Forall ordinary (dec fuel n).
Proof.
  eapply Forall_impl; [apply dec_chars|]. unfold ordinary, EOF. intros c Hc. cbn in Hc. lia.
Qed.

(** The text of a number, and what its first nine characters are as a number. *)
Definition num_text (n : Z) : list Z :=
  if n =? 0 then [48] else if n >? 0 then rev (dec 11 n) else 45 :: rev (dec 11 (- n)).
Definition nine_digits (n : Z) : Z := if decide (- 10 ^ 8 < n < 10 ^ 9) then n else Z.quot n 10.

Lemma format_text n s : - 10 ^ 9 < n < 2 ^ 31 ->
  exists out, format_num n s = Ok (out, zlength (num_text n), s) /\
    take (Z.to_nat (zlength (num_text n))) out = num_text n.
Proof.
  intros Hn. unfold num_text. destruct (Z.eqb_spec n 0) as [->|H0]; [by eexists|].
  rewrite Z.gtb_ltb. destruct (Z.ltb_spec 0 n).
  - eexists. split; [rewrite format_positive by lia; unfold zlength; by rewrite length_rev|].
    unfold zlength. rewrite Nat2Z.id. apply take_app_length'. by rewrite length_rev.
  - destruct (format_negative n s ltac:(lia)) as (out & E & Ht). exists out.
    assert (zlength (45 :: rev (dec 11 (- n))) = zlength (dec 11 (- n)) + 1) as ->
      by (unfold zlength; cbn [length]; rewrite length_rev; lia).
    done.
Qed.

Lemma num_text_ordinary n : Forall ordinary (num_text n).
Proof.
  unfold num_text. destruct (n =? 0); [by repeat constructor|].
  destruct (n >? 0); [|constructor; [done|]]; apply Forall_rev, dec_ordinary.
Qed.

Lemma num_text_length n : - 10 ^ 9 < n < 2 ^ 31 -> 0 < zlength (num_text n) <= 10.
Proof.
  intros Hn. unfold num_text, zlength. destruct (Z.eqb_spec n 0) as [->|H0]; [done|].
  rewrite Z.gtb_ltb. destruct (Z.ltb_spec 0 n); cbn [length]; rewrite length_rev.
  - pose proof (dec_length_le 11 n 10 ltac:(lia)). pose proof (dec_length_ge 11 n 0 ltac:(lia) ltac:(lia)). lia.
  - pose proof (dec_length_le 11 (- n) 9 ltac:(lia)). lia.
Qed.

(** The digits that fit, when [r] do. *)
Lemma parse_fitting n r : 0 < n < 10 ^ (Z.of_nat r + 1) -> n < 2 ^ 31 -> (r <= 9)%nat ->
  parse_digits 0 (take r (rev (dec 11 n))) = Some (if decide (n < 10 ^ Z.of_nat r) then n else n / 10).
Proof.
  intros Hn H31 Hr. case_decide as Hlt.
  - rewrite take_ge by (rewrite length_rev; apply dec_length_le; lia). apply (parse_dec 11 n r); lia.
  - rewrite dec_pos by lia. cbn [rev].
    replace (Z.of_nat r + 1) with (Z.succ (Z.of_nat r)) in Hn by lia. rewrite Z.pow_succ_r in Hn by lia.
    assert (0 < 10 ^ Z.of_nat r) by (apply Z.pow_pos_nonneg; lia).
    assert (length (dec 10 (n / 10)) = r) as Hl.
    { pose proof (dec_length_le 10 (n / 10) r ltac:(dlia)).
      destruct r as [|r]; [lia|]. assert (r < length (dec 10 (n / 10)))%nat; [|lia].
      apply dec_length_ge; [lia|]. rewrite Nat2Z.inj_succ, Z.pow_succ_r in Hlt by lia. dlia. }
    rewrite take_app_length' by by rewrite length_rev.
    apply (parse_dec 10 (n / 10) r); [dlia|lia|dlia].
Qed.

Lemma parse_nine n : - 10 ^ 9 < n < 2 ^ 31 -> parse_num (take 9 (num_text n)) = Some (nine_digits n).
Proof.
  intros Hn. unfold num_text, nine_digits. destruct (Z.eqb_spec n 0) as [->|H0]; [done|].
  rewrite Z.gtb_ltb. destruct (Z.ltb_spec 0 n).
  - rewrite parse_num_digits by apply Forall_take, Forall_rev, dec_chars.
    rewrite (parse_fitting n 9) by (cbn; lia). f_equal. cbn. rewrite Z.quot_div_nonneg by lia.
    repeat case_decide; lia.
  - cbn [take]. unfold parse_num. rewrite (parse_fitting (- n) 8) by (cbn; lia). cbn [fmap option_fmap option_map]. f_equal.
    assert (Z.quot n 10 = - ((- n) / 10)) as ->.
    { rewrite <- (Z.opp_involutive n) at 1. rewrite Z.quot_opp_l by lia. rewrite Z.quot_div_nonneg by lia. done. }
    rewrite i32_id by (unfold is_i32; repeat case_decide; cbn in *; dlia).
    repeat case_decide; cbn in *; lia.
Qed.
End Numbers.

(** ** ReadNum, run by a user thread *)

Section ReadNum.
Context {W F : Type} `{HU : Unix W} `{!Lens W F}.
Abbreviation K := (Sim (Kernel (OS F))).

(** The kernel with [v] in the register of the result. *)
Definition with_result (v : Z) (k : Kernel (OS F)) : Kernel (OS F) :=
  set_user (lset (set_registers (zinsert 2 v (registers (os_machine k))) (os_machine k)) (user k)) k.

Lemma result_run (others : VoidFunctionPtr -> Z -> M K unit) v i st (k : Kernel (OS F)) : zlength (registers (os_machine k)) = NumTotalRegs ->
  on_cpu (Machine_WriteRegister 2 v) (mkSim i st k) = Ok (tt, mkSim i st (with_result v k)).
Proof.
  intros Hr. rewrite (on_cpu_run (Machine_WriteRegister 2 v) (mkSim i st k) tt
    (set_registers (zinsert 2 v (registers (os_machine k))) (os_machine k))); [done|].
  change (Machine_WriteRegister 2 v (os_machine k) =
    Ok (tt, set_registers (zinsert 2 v (registers (os_machine k))) (os_machine k))).
  unfold Machine_WriteRegister, set_reg. munfold. cbn [Z.geb Z.ltb Z.compare andb Pos.compare Pos.compare_cont NumTotalRegs].
  assert (store 2 v (registers (os_machine k)) = Some (zinsert 2 v (registers (os_machine k)))) as ->; [|done].
  apply store_Some. rewrite Hr. done.
Qed.

Lemma ReadNum_text (others : VoidFunctionPtr -> Z -> M K unit) code g k t a th sp cons c nr nl txt ans polls x w st sv
    (f : unit -> prog K unit) Q :
  line_reader k t a th sp cons c nr nl -> gSynchConsole (user k) = cons -> sv !! t = None ->
  Forall ordinary txt -> txt <> [] -> parse_num (take 9 txt) = Some ans ->
  types (readFileNo c) polls (world k) (keys_for 9 txt) x ->
  0 <= totalTicks st -> totalTicks st + SystemTick < w -> w + Z.of_nat polls * ConsoleTime < 2 ^ 31 ->
  let call := console_call others in
  let DL := on_cpu (Machine_DelayedLoad 0 0) in
  (forall st', totalTicks st' = w + (Z.of_nat polls - 1) * ConsoleTime + 2 * SystemTick ->
     runs_to call DL code (mkConfig (f tt) sv (St IntOn (poll cons (w + Z.of_nat polls * ConsoleTime)) st'
       (with_result ans (after_line t th x k)))) Q) ->
  runs_to call DL code (mkConfig (pbind (sys_ReadNum call DL g) f) sv (St IntOn (poll cons w) st k)) Q.
Proof.
  intros Hk Hc Hsv Ht Hne Hp Hty H0 Hw Hr call DL H.
  destruct (line_of_text 9 txt ltac:(lia) Ht) as (last & Hl1 & Hl).
  unfold sys_ReadNum. cbn [pbind op]. eapply runs_to_do; [reflexivity|]. cbn [rest St]. rewrite Hc, pbind_assoc.
  eapply reads_line; [exact Hk|exact Hsv|exact Hl|exact Hty|done|done|done|]. intros st' Hst'.
  rewrite (proj2 (Z.eqb_neq last 1)) by done. cbn beta iota zeta.
  assert (0 < zlength (take 9 txt) <= 9) as Hlen.
  { unfold zlength. rewrite length_take. destruct txt; [done|]. cbn [length]. lia. }
  rewrite (proj2 (Z.eqb_neq _ (-1))), (proj2 (Z.eqb_neq _ 0)) by lia.
  assert (take (Z.to_nat (zlength (take 9 txt))) (take 9 txt ++ replicate (Z.to_nat (9 - zlength (take 9 txt))) 0) = take 9 txt) as ->.
  { unfold zlength. by rewrite Nat2Z.id, take_app_length. }
  rewrite Hp. cbn [pbind op result]. eapply runs_to_do; [|by apply H].
  apply (result_run others). destruct Hk as [_ _ _ _ _ _ Hm _ _ _ _ _ _ _]. apply Hm.
Qed.
End ReadNum.

(** C15: printing and reading a number: PrintNum writes, for every int above
    -10^9, a text of at most ten characters. When it is typed, with the end of
    the line, ReadNum, which reads nine characters, gives the number back if the
    text is no longer than that, between -10^8 and 10^9; of a longer text it
    takes nine characters and gives the number without its last digit, and the
    rest of the line is left for the next reader. This is the system call as
    it runs, in a user thread that waits for every key. The smallest int is
    printed as a minus sign alone, and the other ints with ten digits and a
    minus sign overflow the array of ten characters. *)
Theorem PrintNum_then_ReadNum {W F} `{Unix W} `{!Lens W F} (n : Z) (s : Sim (Kernel (OS F))) : is_i32 n ->
  if decide (- 10 ^ 9 < n) then
    exists out leng, format_num n s = Ok (out, leng, s) /\ 0 < leng <= 10 /\
      let txt := take (Z.to_nat leng) out in
      let ans := if decide (- 10 ^ 8 < n < 10 ^ 9) then n else Z.quot n 10 in
      (forall others code g k t a th sp cons c nr nl polls x w st sv f,
        line_reader k t a th sp cons c nr nl -> gSynchConsole (user k) = cons -> sv !! t = None ->
        types (readFileNo c) polls (world k) (take 9 (txt ++ [10])) x ->
        0 <= totalTicks st -> totalTicks st + SystemTick < w -> w + Z.of_nat polls * ConsoleTime < 2 ^ 31 ->
        let call := console_call others in
        let DL := on_cpu (Machine_DelayedLoad 0 0) in
        runs_to call DL code (mkConfig (pbind (sys_ReadNum call DL g) f) sv (St IntOn (poll cons w) st k))
          (fun c' => exists st', c' = mkConfig (f tt) sv (St IntOn (poll cons (w + Z.of_nat polls * ConsoleTime)) st'
             (with_result ans (after_line t th x k)))))
  else if decide (n = - 2 ^ 31) then exists out, format_num n s = Ok (out, 1, s) /\ take 1 out = [45]
  else format_num n s = Undef.
Proof.
  intros Hn. unfold is_i32 in Hn. case_decide as H9; [|case_decide as Hm].
  - destruct (format_text n s ltac:(lia)) as (out & E & Ht). exists out, (zlength (num_text n)). split; [done|].
    split; [apply num_text_length; lia|]. intros txt ans others code g k t a th sp cons c nr nl polls x w st sv f
      Hk Hc Hsv Hty H0 Hw Hr call DL. unfold txt in Hty. rewrite Ht in Hty.
    eapply (ReadNum_text others code g k t a th sp cons c nr nl (num_text n)); try done.
    + apply num_text_ordinary.
    + intros E0. pose proof (num_text_length n ltac:(lia)) as Hl. rewrite E0 in Hl. unfold zlength in Hl. cbn in Hl. lia.
    + apply parse_nine. lia.
    + intros st' _. apply runs_to_now. by exists st'.
  - subst n. exists (45 :: replicate 9 0). split; by vm_compute.
  - apply format_overflows. lia.
Qed.

Lemma PrintNum_then_ReadNum_witness :
  format_num (-2147483647) (St IntOn [] Statistics_new (typing_kernel [])) = Undef /\
  Quiet.runs_to (console_call (fun _ _ => ret tt)) (on_cpu (Machine_DelayedLoad 0 0)) no_code
    (mkConfig (pbind (sys_ReadNum (console_call (fun _ _ => ret tt)) (on_cpu (Machine_DelayedLoad 0 0))
        (mkSyscallGarbage (fun _ => 0) 0 [] 0 two_garbage)) (fun _ => ptick)) ∅
      (St IntOn (poll 0%nat 100) Statistics_new (typing_kernel [49; 50; 51; 52; 53; 54; 55; 56; 57; 48; 10])))
    (fun c => exists st', c = mkConfig ptick ∅ (St IntOn (poll 0%nat 1000) st'
       (with_result 123456789 (after_line 0%nat typing_thread (typing_host [48; 10])
          (typing_kernel [49; 50; 51; 52; 53; 54; 55; 56; 57; 48; 10]))))).
Proof.
  pose proof (fun n => PrintNum_then_ReadNum (W := Host) (F := Stub Host) n (St IntOn [] Statistics_new (typing_kernel []))) as H.
  split; [exact (H (-2147483647) ltac:(unfold is_i32; lia))|].
  destruct (H 1234567890 ltac:(unfold is_i32; lia)) as (out & leng & E & _ & HR).
  vm_compute in E. injection E as <- <-.
  apply (HR (fun _ _ => ret tt) no_code _ (typing_kernel [49; 50; 51; 52; 53; 54; 55; 56; 57; 48; 10]) 0%nat 0%nat typing_thread
    (mkSpace (Some 0%nat) 1) 0%nat typing_console (Lit []) (Lit []) 9%nat (typing_host [48; 10]) 100 Statistics_new ∅
    (fun _ => ptick) (typing_reader _) eq_refl (lookup_empty _)).
  - exact (host_types [49; 50; 51; 52; 53; 54; 55; 56; 57] [48; 10]).
  - done.
  - done.
  - done.
Defined.
