(* ===== verification/Boot.v ===== *)
(** * threads/system.cc, main.cc: starting Nachos

    The command line, the creation of the global objects, and the procedure
    main of the kernel that runs user programs, which ends by finishing the
    main thread. *)

From stdpp Require Import base tactics list numbers gmap.
From S2P Require Import Prelude Lists Interrupt Machine Mips BitMap AddrSpace Disk OpenFile Directory FileSys SysDep Threads UserRun System Console UserProg Process Syscall.

Local Open Scope Z_scope.

(** ** The command line *)

(** What the flags of Initialize set, without those of the network. *)
Record Options := mkOptions {
  debugArgs : list Z;
  seed : option Z;         (* -rs: RandomInit, and randomYield *)
  debugUserProg : bool;
  format_disk : bool
}.

Definition no_options : Options := mkOptions [] None false false.

(** atoi of the C library: digits after an optional minus sign. *)
Fixpoint atoi_digits (n : Z) (s : list Z) : Z :=
  match s with
  | c :: s' => if (48 <=? c) && (c <=? 57) then atoi_digits (i32 (10 * n + (c - 48))) s' else n
  | [] => n
  end.
Definition atoi (s : list Z) : Z :=
  match s with
  | 45 :: s' => i32 (- atoi_digits 0 s')
  | _ => atoi_digits 0 s
  end.

Definition flag_d : list Z := [45; 100].
Definition flag_rs : list Z := [45; 114; 115].
Definition flag_s : list Z := [45; 115].
Definition flag_f : list Z := [45; 102].
Definition flag_x : list Z := [45; 120].
Definition flag_c : list Z := [45; 99].

Definition is_flag (a f : list Z) : bool := bool_decide (a = f).

(** One turn of the loop of Initialize over the arguments: the options and
    argCount. *)
Definition read_flag (argv : list (list Z)) (o : Options) : outcome (Options * nat) :=
  match argv with
  | [] => Undef
  | a :: rest =>
      obind (if is_flag a flag_d then
               match rest with
               | [] => Ok (mkOptions [43] (seed o) (debugUserProg o) (format_disk o), 1%nat)
               | d :: _ => Ok (mkOptions d (seed o) (debugUserProg o) (format_disk o), 2%nat)
               end
             else if is_flag a flag_rs then
               match rest with
               | [] => Aborted
               | n :: _ => Ok (mkOptions (debugArgs o) (Some (atoi n)) (debugUserProg o) (format_disk o), 2%nat)
               end
             else Ok (o, 1%nat)) (fun '(o, argCount) =>
      let o := if is_flag a flag_s then mkOptions (debugArgs o) (seed o) true (format_disk o) else o in
      let o := if is_flag a flag_f then mkOptions (debugArgs o) (seed o) (debugUserProg o) true else o in
      Ok (o, argCount))
  end.

(** The whole loop: every turn consumes an argument, so the number of
    arguments is enough fuel. *)
Fixpoint read_flags (fuel : nat) (argv : list (list Z)) (o : Options) : outcome Options :=
  match argv, fuel with
  | [], _ => Ok o
  | _, O => Undef
  | _, S n => obind (read_flag argv o) (fun '(o, argCount) => read_flags n (drop argCount argv) o)
  end.

Section Boot.
Context (be : bool) {W F File : Type} `{HU : Unix W} `{!Lens W F} `{HF : FileSystemOps F File}.
Abbreviation K := (Sim (Kernel (OS F))).
Context (call : VoidFunctionPtr -> Z -> M K unit) (DelayedLoad_0_0 : M K unit).
Context (g : SyscallGarbage).
(** [new FileSystem(format)], and what the new bit maps and the entry of the
    TLB contain. *)
Context (new_FileSystem : bool -> M F unit) (map_mem : Z -> Z) (entry_garbage : TranslationEntry).

Definition main_name : list Z := [109; 97; 105; 110].

(** Initialize for a kernel that runs user programs, behind the flags. *)
Definition Initialize (o : Options) : prog K unit :=
  op (match seed o with
      | Some n =>
          on_unix (RandomInit n) ;;;
          r <- on_unix Random ;; Timer_new (mkTimer true) r
      | None => ret tt
      end ;;;
      on_kernel (set_threadToBeDestroyed None) ;;;
      t <- Thread_new (thread_mem g) main_name ;;
      on_kernel (set_currentThread t) ;;;
      update_thread t (Thread_setStatus RUNNING)) ;~
  Enable ;~
  op (on_user (modify (lset (Machine_new (debugUserProg o) false entry_garbage))) ;;;
      _ <- SynchConsole_new None None ;;
      lock <- Semaphore_new (Lit [65; 100; 100; 114; 76; 111; 99; 107]) 1 ;;
      bm <- lift (BitMap_new NumPhysPages map_mem) ;;
      on_os (fun o => mkOS (mkUser (machine (os_mem o)) bm) (fileSystem o) (pcbs o) (pTab o) (semTab o) lock
        (buffers o) (consoles o) (gSynchConsole o) (console_vars o)) ;;;
      STable_new map_mem ;;;
      PTable_new map_mem ;;;
      on_files (new_FileSystem (format_disk o))).

(** The loop of main over the arguments; [-x] and [-c] do not return unless a
    file cannot be opened. *)
Fixpoint main_loop (fuel : nat) (argv : list (list Z)) : prog K unit :=
  match argv, fuel with
  | [], _ => Ret tt
  | _, O => op undef
  | a :: rest, S n =>
      if is_flag a flag_x then
        match rest with
        | [] => op (ASSERT false)
        | file :: rest' =>
            StartProcess (File := File) be (ExceptionHandler (File := File) be call DelayedLoad_0_0 g)
              (space_mem g) file ;~
            main_loop n rest'
        end
      else if is_flag a flag_c then
        match rest with
        | [] => ConsoleTest call DelayedLoad_0_0 None None ;~ op Interrupt_Halt ;~ main_loop n []
        | [_] => op (ASSERT false)
        | i :: o :: rest' =>
            ConsoleTest call DelayedLoad_0_0 (Some i) (Some o) ;~ op Interrupt_Halt ;~ main_loop n rest'
        end
      else main_loop n rest
  end.

(** [argv] are the arguments behind the name of the command. *)
Definition main (argv : list (list Z)) : prog K unit :=
  o <~ op (lift (read_flags (length argv) argv no_options)) ;;
  Initialize o ;~
  main_loop (length argv) argv ;~
  ThreadFinish call DelayedLoad_0_0.
End Boot.

(** Machine::DelayedLoad(0, 0), if there is a machine. *)
Definition kernel_DelayedLoad {F} : M (Sim (Kernel (OS F))) unit := on_cpu (Machine_DelayedLoad 0 0).

(** What the interrupts do in this kernel. *)
Definition kernel_devices {W F} `{Unix W} `{!Lens W F} (randomize : bool) :
    VoidFunctionPtr -> Z -> M (Sim (Kernel (OS F))) unit :=
  console_call (fun h a =>
    match h with
    | TimerHandler => r <- on_unix Random ;; Timer_TimerExpired (mkTimer randomize) r
    | _ => ret tt
    end).
