(* ===== verification/TestPrograms.v ===== *)
(** * The compiled test programs

    The bytes of the executables that the repository ships in code/test/, which
    Whole.v runs on the kernel, and of COFF files they were made of. *)

From stdpp Require Import base list numbers.

Local Open Scope Z_scope.

(** code/test/random. It prints a line after RandomNum (random.c). *)
Definition test_random : list Z := [
  173; 223; 186; 0; 0; 0; 0; 0; 40; 0; 0; 0; 160; 1; 0; 0; 160; 1; 0; 0; 200; 1; 0; 0; 32; 0; 0; 0; 80; 70;
  245; 191; 103; 131; 4; 8; 0; 0; 0; 0; 84; 0; 0; 12; 0; 0; 0; 0; 8; 0; 0; 12; 33; 32; 0; 0; 1; 0; 2; 36; 12;
  0; 0; 0; 8; 0; 224; 3; 0; 0; 0; 0; 14; 0; 2; 36; 12; 0; 0; 0; 8; 0; 224; 3; 0; 0; 0; 0; 15; 0; 2; 36; 12; 0;
  0; 0; 8; 0; 224; 3; 0; 0; 0; 0; 16; 0; 2; 36; 12; 0; 0; 0; 8; 0; 224; 3; 0; 0; 0; 0; 10; 0; 2; 36; 12; 0; 0;
  0; 8; 0; 224; 3; 0; 0; 0; 0; 12; 0; 2; 36; 12; 0; 0; 0; 8; 0; 224; 3; 0; 0; 0; 0; 13; 0; 2; 36; 12; 0; 0; 0;
  8; 0; 224; 3; 0; 0; 0; 0; 11; 0; 2; 36; 12; 0; 0; 0; 8; 0; 224; 3; 0; 0; 0; 0; 2; 0; 2; 36; 12; 0; 0; 0; 8;
  0; 224; 3; 0; 0; 0; 0; 3; 0; 2; 36; 12; 0; 0; 0; 8; 0; 224; 3; 0; 0; 0; 0; 4; 0; 2; 36; 12; 0; 0; 0; 8; 0;
  224; 3; 0; 0; 0; 0; 5; 0; 2; 36; 12; 0; 0; 0; 8; 0; 224; 3; 0; 0; 0; 0; 8; 0; 2; 36; 12; 0; 0; 0; 8; 0; 224;
  3; 0; 0; 0; 0; 6; 0; 2; 36; 12; 0; 0; 0; 8; 0; 224; 3; 0; 0; 0; 0; 7; 0; 2; 36; 12; 0; 0; 0; 8; 0; 224; 3;
  0; 0; 0; 0; 9; 0; 2; 36; 12; 0; 0; 0; 8; 0; 224; 3; 0; 0; 0; 0; 18; 0; 2; 36; 12; 0; 0; 0; 8; 0; 224; 3; 0;
  0; 0; 0; 19; 0; 2; 36; 12; 0; 0; 0; 8; 0; 224; 3; 0; 0; 0; 0; 17; 0; 2; 36; 12; 0; 0; 0; 8; 0; 224; 3; 0; 0;
  0; 0; 8; 0; 224; 3; 0; 0; 0; 0; 0; 0; 0; 0; 0; 0; 0; 0; 232; 255; 189; 39; 20; 0; 191; 175; 16; 0; 190; 175;
  80; 0; 0; 12; 33; 240; 160; 3; 52; 0; 0; 12; 0; 0; 0; 0; 0; 0; 4; 60; 60; 0; 0; 12; 160; 1; 132; 36; 4; 0;
  0; 12; 0; 0; 0; 0; 33; 232; 192; 3; 20; 0; 191; 143; 16; 0; 190; 143; 8; 0; 224; 3; 24; 0; 189; 39; 0; 0; 0;
  0; 0; 0; 0; 0; 0; 0; 0; 0; 10; 82; 97; 110; 100; 111; 109; 32; 116; 104; 97; 110; 104; 32; 99; 111; 110;
  103; 10; 0; 0; 0; 0; 0; 0; 0; 0; 0; 0; 0; 0; 0].

(** code/test/createfile. It reads a name and creates the file (createfile.c). *)
Definition test_createfile : list Z := [
  173; 223; 186; 0; 0; 0; 0; 0; 40; 0; 0; 0; 224; 1; 0; 0; 224; 1; 0; 0; 8; 2; 0; 0; 96; 0; 0; 0; 128; 51;
  159; 191; 103; 131; 4; 8; 0; 0; 0; 0; 84; 0; 0; 12; 0; 0; 0; 0; 8; 0; 0; 12; 33; 32; 0; 0; 1; 0; 2; 36; 12;
  0; 0; 0; 8; 0; 224; 3; 0; 0; 0; 0; 14; 0; 2; 36; 12; 0; 0; 0; 8; 0; 224; 3; 0; 0; 0; 0; 15; 0; 2; 36; 12; 0;
  0; 0; 8; 0; 224; 3; 0; 0; 0; 0; 16; 0; 2; 36; 12; 0; 0; 0; 8; 0; 224; 3; 0; 0; 0; 0; 10; 0; 2; 36; 12; 0; 0;
  0; 8; 0; 224; 3; 0; 0; 0; 0; 12; 0; 2; 36; 12; 0; 0; 0; 8; 0; 224; 3; 0; 0; 0; 0; 13; 0; 2; 36; 12; 0; 0; 0;
  8; 0; 224; 3; 0; 0; 0; 0; 11; 0; 2; 36; 12; 0; 0; 0; 8; 0; 224; 3; 0; 0; 0; 0; 2; 0; 2; 36; 12; 0; 0; 0; 8;
  0; 224; 3; 0; 0; 0; 0; 3; 0; 2; 36; 12; 0; 0; 0; 8; 0; 224; 3; 0; 0; 0; 0; 4; 0; 2; 36; 12; 0; 0; 0; 8; 0;
  224; 3; 0; 0; 0; 0; 5; 0; 2; 36; 12; 0; 0; 0; 8; 0; 224; 3; 0; 0; 0; 0; 8; 0; 2; 36; 12; 0; 0; 0; 8; 0; 224;
  3; 0; 0; 0; 0; 6; 0; 2; 36; 12; 0; 0; 0; 8; 0; 224; 3; 0; 0; 0; 0; 7; 0; 2; 36; 12; 0; 0; 0; 8; 0; 224; 3;
  0; 0; 0; 0; 9; 0; 2; 36; 12; 0; 0; 0; 8; 0; 224; 3; 0; 0; 0; 0; 18; 0; 2; 36; 12; 0; 0; 0; 8; 0; 224; 3; 0;
  0; 0; 0; 19; 0; 2; 36; 12; 0; 0; 0; 8; 0; 224; 3; 0; 0; 0; 0; 17; 0; 2; 36; 12; 0; 0; 0; 8; 0; 224; 3; 0; 0;
  0; 0; 8; 0; 224; 3; 0; 0; 0; 0; 0; 0; 0; 0; 0; 0; 0; 0; 224; 255; 189; 39; 28; 0; 191; 175; 24; 0; 190; 175;
  80; 0; 0; 12; 33; 240; 160; 3; 0; 0; 4; 60; 60; 0; 0; 12; 224; 1; 132; 36; 20; 0; 196; 143; 56; 0; 0; 12;
  100; 0; 5; 36; 20; 0; 196; 143; 64; 0; 0; 12; 0; 0; 0; 0; 16; 0; 194; 175; 16; 0; 194; 143; 0; 0; 0; 0; 6;
  0; 64; 20; 0; 0; 0; 0; 0; 0; 4; 60; 60; 0; 0; 12; 8; 2; 132; 36; 111; 0; 0; 8; 0; 0; 0; 0; 0; 0; 4; 60; 60;
  0; 0; 12; 36; 2; 132; 36; 4; 0; 0; 12; 0; 0; 0; 0; 33; 232; 192; 3; 28; 0; 191; 143; 24; 0; 190; 143; 8; 0;
  224; 3; 32; 0; 189; 39; 0; 0; 0; 0; 0; 0; 0; 0; 80; 108; 101; 97; 115; 101; 32; 101; 110; 116; 101; 114; 32;
  121; 111; 117; 114; 32; 102; 105; 108; 101; 110; 97; 109; 101; 32; 116; 111; 32; 99; 114; 101; 97; 116; 101;
  58; 32; 10; 0; 67; 114; 101; 97; 116; 101; 32; 102; 105; 108; 101; 32; 115; 117; 99; 99; 101; 115; 115; 102;
  117; 108; 108; 121; 33; 32; 10; 0; 67; 114; 101; 97; 116; 101; 32; 102; 105; 108; 101; 32; 102; 97; 105;
  108; 101; 100; 33; 32; 10; 0; 0; 0; 0; 0; 0; 0].

(** code/test/main, whose source is not in the repository: the main program of
    the water dispenser exercise, which creates two semaphores and runs
    test/sinhvien. *)
Definition test_main : list Z := [
  173; 223; 186; 0; 0; 0; 0; 0; 40; 0; 0; 0; 208; 4; 0; 0; 208; 4; 0; 0; 248; 4; 0; 0; 96; 0; 0; 0; 48; 5; 0;
  0; 103; 131; 4; 8; 32; 0; 0; 0; 84; 0; 0; 12; 0; 0; 0; 0; 8; 0; 0; 12; 33; 32; 0; 0; 1; 0; 2; 36; 12; 0; 0;
  0; 8; 0; 224; 3; 0; 0; 0; 0; 14; 0; 2; 36; 12; 0; 0; 0; 8; 0; 224; 3; 0; 0; 0; 0; 15; 0; 2; 36; 12; 0; 0; 0;
  8; 0; 224; 3; 0; 0; 0; 0; 16; 0; 2; 36; 12; 0; 0; 0; 8; 0; 224; 3; 0; 0; 0; 0; 10; 0; 2; 36; 12; 0; 0; 0; 8;
  0; 224; 3; 0; 0; 0; 0; 12; 0; 2; 36; 12; 0; 0; 0; 8; 0; 224; 3; 0; 0; 0; 0; 13; 0; 2; 36; 12; 0; 0; 0; 8; 0;
  224; 3; 0; 0; 0; 0; 11; 0; 2; 36; 12; 0; 0; 0; 8; 0; 224; 3; 0; 0; 0; 0; 2; 0; 2; 36; 12; 0; 0; 0; 8; 0;
  224; 3; 0; 0; 0; 0; 3; 0; 2; 36; 12; 0; 0; 0; 8; 0; 224; 3; 0; 0; 0; 0; 4; 0; 2; 36; 12; 0; 0; 0; 8; 0; 224;
  3; 0; 0; 0; 0; 5; 0; 2; 36; 12; 0; 0; 0; 8; 0; 224; 3; 0; 0; 0; 0; 8; 0; 2; 36; 12; 0; 0; 0; 8; 0; 224; 3;
  0; 0; 0; 0; 6; 0; 2; 36; 12; 0; 0; 0; 8; 0; 224; 3; 0; 0; 0; 0; 7; 0; 2; 36; 12; 0; 0; 0; 8; 0; 224; 3; 0;
  0; 0; 0; 9; 0; 2; 36; 12; 0; 0; 0; 8; 0; 224; 3; 0; 0; 0; 0; 18; 0; 2; 36; 12; 0; 0; 0; 8; 0; 224; 3; 0; 0;
  0; 0; 19; 0; 2; 36; 12; 0; 0; 0; 8; 0; 224; 3; 0; 0; 0; 0; 17; 0; 2; 36; 12; 0; 0; 0; 8; 0; 224; 3; 0; 0; 0;
  0; 8; 0; 224; 3; 0; 0; 0; 0; 0; 0; 0; 0; 0; 0; 0; 0; 192; 255; 189; 39; 60; 0; 191; 175; 56; 0; 190; 175;
  80; 0; 0; 12; 33; 240; 160; 3; 16; 0; 192; 175; 0; 0; 4; 60; 208; 4; 132; 36; 20; 0; 0; 12; 1; 0; 5; 36; 24;
  0; 194; 175; 0; 0; 4; 60; 64; 0; 0; 12; 220; 4; 132; 36; 0; 0; 4; 60; 220; 4; 132; 36; 20; 0; 0; 12; 33; 40;
  0; 0; 32; 0; 194; 175; 107; 0; 0; 8; 0; 0; 0; 0; 142; 0; 0; 8; 0; 0; 0; 0; 0; 0; 4; 60; 50; 5; 132; 36; 1;
  0; 5; 36; 24; 0; 198; 143; 24; 0; 0; 12; 0; 0; 0; 0; 0; 0; 2; 60; 50; 5; 66; 128; 0; 0; 0; 0; 48; 0; 67; 40;
  20; 0; 96; 20; 0; 0; 0; 0; 0; 0; 2; 60; 50; 5; 66; 128; 0; 0; 0; 0; 58; 0; 67; 40; 14; 0; 96; 16; 0; 0; 0;
  0; 16; 0; 194; 143; 0; 0; 0; 0; 33; 32; 64; 0; 128; 24; 4; 0; 33; 24; 98; 0; 64; 16; 3; 0; 0; 0; 3; 60; 50;
  5; 99; 128; 0; 0; 0; 0; 33; 16; 67; 0; 208; 255; 67; 36; 140; 0; 0; 8; 16; 0; 195; 175; 142; 0; 0; 8; 0; 0;
  0; 0; 103; 0; 0; 8; 0; 0; 0; 0; 0; 0; 4; 60; 232; 4; 132; 36; 76; 0; 0; 12; 1; 0; 5; 36; 0; 0; 4; 60; 244;
  4; 132; 36; 76; 0; 0; 12; 1; 0; 5; 36; 20; 0; 192; 175; 20; 0; 194; 143; 16; 0; 195; 143; 0; 0; 0; 0; 42;
  16; 67; 0; 3; 0; 64; 20; 0; 0; 0; 0; 40; 1; 0; 8; 0; 0; 0; 0; 0; 0; 4; 60; 64; 0; 0; 12; 252; 4; 132; 36; 0;
  0; 4; 60; 252; 4; 132; 36; 20; 0; 0; 12; 33; 40; 0; 0; 36; 0; 194; 175; 0; 0; 4; 60; 8; 5; 132; 36; 3; 0; 5;
  36; 36; 0; 198; 143; 28; 0; 0; 12; 0; 0; 0; 0; 36; 0; 196; 143; 32; 0; 0; 12; 0; 0; 0; 0; 180; 0; 0; 8; 0;
  0; 0; 0; 29; 1; 0; 8; 0; 0; 0; 0; 44; 0; 192; 175; 0; 0; 4; 60; 64; 0; 0; 12; 12; 5; 132; 36; 0; 0; 4; 60;
  12; 5; 132; 36; 20; 0; 0; 12; 33; 40; 0; 0; 28; 0; 194; 175; 193; 0; 0; 8; 0; 0; 0; 0; 242; 0; 0; 8; 0; 0;
  0; 0; 0; 0; 4; 60; 50; 5; 132; 36; 1; 0; 5; 36; 24; 0; 198; 143; 24; 0; 0; 12; 0; 0; 0; 0; 48; 0; 194; 175;
  48; 0; 194; 143; 0; 0; 0; 0; 3; 0; 64; 28; 0; 0; 0; 0; 242; 0; 0; 8; 0; 0; 0; 0; 0; 0; 2; 60; 50; 5; 66;
  128; 0; 0; 0; 0; 48; 0; 67; 40; 27; 0; 96; 20; 0; 0; 0; 0; 0; 0; 2; 60; 50; 5; 66; 128; 0; 0; 0; 0; 58; 0;
  67; 40; 21; 0; 96; 16; 0; 0; 0; 0; 44; 0; 194; 143; 0; 0; 0; 0; 33; 32; 64; 0; 128; 24; 4; 0; 33; 24; 98; 0;
  64; 16; 3; 0; 0; 0; 3; 60; 50; 5; 99; 128; 0; 0; 0; 0; 33; 16; 67; 0; 208; 255; 67; 36; 44; 0; 195; 175; 0;
  0; 4; 60; 50; 5; 132; 36; 1; 0; 5; 36; 28; 0; 198; 143; 28; 0; 0; 12; 0; 0; 0; 0; 240; 0; 0; 8; 0; 0; 0; 0;
  242; 0; 0; 8; 0; 0; 0; 0; 189; 0; 0; 8; 0; 0; 0; 0; 0; 0; 4; 60; 12; 0; 0; 12; 24; 5; 132; 36; 40; 0; 194;
  175; 40; 0; 196; 143; 16; 0; 0; 12; 0; 0; 0; 0; 52; 0; 194; 175; 52; 0; 194; 147; 0; 0; 0; 0; 48; 0; 67; 36;
  0; 0; 1; 60; 48; 5; 35; 160; 0; 0; 4; 60; 48; 5; 132; 36; 1; 0; 5; 36; 32; 0; 198; 143; 28; 0; 0; 12; 0; 0;
  0; 0; 28; 0; 196; 143; 32; 0; 0; 12; 0; 0; 0; 0; 0; 0; 2; 60; 50; 5; 66; 128; 32; 0; 3; 36; 7; 0; 67; 20; 0;
  0; 0; 0; 48; 0; 194; 143; 0; 0; 0; 0; 3; 0; 64; 24; 0; 0; 0; 0; 21; 1; 0; 8; 0; 0; 0; 0; 29; 1; 0; 8; 0; 0;
  0; 0; 0; 0; 4; 60; 40; 5; 132; 36; 1; 0; 5; 36; 32; 0; 198; 143; 28; 0; 0; 12; 0; 0; 0; 0; 176; 0; 0; 8; 0;
  0; 0; 0; 0; 0; 4; 60; 44; 5; 132; 36; 1; 0; 5; 36; 32; 0; 198; 143; 28; 0; 0; 12; 0; 0; 0; 0; 20; 0; 194;
  143; 0; 0; 0; 0; 1; 0; 67; 36; 151; 0; 0; 8; 20; 0; 195; 175; 24; 0; 196; 143; 32; 0; 0; 12; 0; 0; 0; 0; 32;
  0; 196; 143; 32; 0; 0; 12; 0; 0; 0; 0; 33; 232; 192; 3; 60; 0; 191; 143; 56; 0; 190; 143; 8; 0; 224; 3; 64;
  0; 189; 39; 0; 0; 0; 0; 105; 110; 112; 117; 116; 46; 116; 120; 116; 0; 0; 0; 111; 117; 116; 112; 117; 116;
  46; 116; 120; 116; 0; 0; 115; 105; 110; 104; 118; 105; 101; 110; 0; 0; 0; 0; 118; 111; 105; 110; 117; 111;
  99; 0; 118; 111; 105; 110; 117; 111; 99; 46; 116; 120; 116; 0; 48; 32; 48; 0; 116; 101; 109; 112; 46; 116;
  120; 116; 0; 0; 0; 0; 116; 101; 115; 116; 47; 115; 105; 110; 104; 118; 105; 101; 110; 0; 0; 0; 32; 0; 0; 0;
  10; 0; 0; 0].

(** code/test/random.coff, of which coff2noff made code/test/random. *)
Definition test_random_coff : list Z := [
  98; 1; 4; 0; 0; 0; 0; 0; 176; 2; 0; 0; 96; 0; 0; 0; 56; 0; 7; 1; 7; 1; 11; 2; 160; 1; 0; 0; 32; 0; 0; 0; 0;
  0; 0; 0; 0; 0; 0; 0; 0; 0; 0; 0; 160; 1; 0; 0; 192; 1; 0; 0; 20; 0; 0; 224; 0; 0; 0; 0; 0; 0; 0; 0; 0; 0; 0;
  0; 0; 0; 0; 0; 0; 0; 0; 0; 46; 116; 101; 120; 116; 0; 0; 0; 0; 0; 0; 0; 0; 0; 0; 0; 160; 1; 0; 0; 240; 0; 0;
  0; 0; 0; 0; 0; 0; 0; 0; 0; 0; 0; 0; 0; 32; 0; 0; 0; 46; 114; 100; 97; 116; 97; 0; 0; 160; 1; 0; 0; 160; 1;
  0; 0; 32; 0; 0; 0; 144; 2; 0; 0; 0; 0; 0; 0; 0; 0; 0; 0; 0; 0; 0; 0; 0; 1; 0; 0; 46; 100; 97; 116; 97; 0; 0;
  0; 192; 1; 0; 0; 192; 1; 0; 0; 0; 0; 0; 0; 176; 2; 0; 0; 0; 0; 0; 0; 0; 0; 0; 0; 0; 0; 0; 0; 64; 0; 0; 0;
  46; 98; 115; 115; 0; 0; 0; 0; 192; 1; 0; 0; 192; 1; 0; 0; 0; 0; 0; 0; 0; 0; 0; 0; 0; 0; 0; 0; 0; 0; 0; 0; 0;
  0; 0; 0; 128; 0; 0; 0; 0; 0; 0; 0; 84; 0; 0; 12; 0; 0; 0; 0; 8; 0; 0; 12; 33; 32; 0; 0; 1; 0; 2; 36; 12; 0;
  0; 0; 8; 0; 224; 3; 0; 0; 0; 0; 14; 0; 2; 36; 12; 0; 0; 0; 8; 0; 224; 3; 0; 0; 0; 0; 15; 0; 2; 36; 12; 0; 0;
  0; 8; 0; 224; 3; 0; 0; 0; 0; 16; 0; 2; 36; 12; 0; 0; 0; 8; 0; 224; 3; 0; 0; 0; 0; 10; 0; 2; 36; 12; 0; 0; 0;
  8; 0; 224; 3; 0; 0; 0; 0; 12; 0; 2; 36; 12; 0; 0; 0; 8; 0; 224; 3; 0; 0; 0; 0; 13; 0; 2; 36; 12; 0; 0; 0; 8;
  0; 224; 3; 0; 0; 0; 0; 11; 0; 2; 36; 12; 0; 0; 0; 8; 0; 224; 3; 0; 0; 0; 0; 2; 0; 2; 36; 12; 0; 0; 0; 8; 0;
  224; 3; 0; 0; 0; 0; 3; 0; 2; 36; 12; 0; 0; 0; 8; 0; 224; 3; 0; 0; 0; 0; 4; 0; 2; 36; 12; 0; 0; 0; 8; 0; 224;
  3; 0; 0; 0; 0; 5; 0; 2; 36; 12; 0; 0; 0; 8; 0; 224; 3; 0; 0; 0; 0; 8; 0; 2; 36; 12; 0; 0; 0; 8; 0; 224; 3;
  0; 0; 0; 0; 6; 0; 2; 36; 12; 0; 0; 0; 8; 0; 224; 3; 0; 0; 0; 0; 7; 0; 2; 36; 12; 0; 0; 0; 8; 0; 224; 3; 0;
  0; 0; 0; 9; 0; 2; 36; 12; 0; 0; 0; 8; 0; 224; 3; 0; 0; 0; 0; 18; 0; 2; 36; 12; 0; 0; 0; 8; 0; 224; 3; 0; 0;
  0; 0; 19; 0; 2; 36; 12; 0; 0; 0; 8; 0; 224; 3; 0; 0; 0; 0; 17; 0; 2; 36; 12; 0; 0; 0; 8; 0; 224; 3; 0; 0; 0;
  0; 8; 0; 224; 3; 0; 0; 0; 0; 0; 0; 0; 0; 0; 0; 0; 0; 232; 255; 189; 39; 20; 0; 191; 175; 16; 0; 190; 175;
  80; 0; 0; 12; 33; 240; 160; 3; 52; 0; 0; 12; 0; 0; 0; 0; 0; 0; 4; 60; 60; 0; 0; 12; 160; 1; 132; 36; 4; 0;
  0; 12; 0; 0; 0; 0; 33; 232; 192; 3; 20; 0; 191; 143; 16; 0; 190; 143; 8; 0; 224; 3; 24; 0; 189; 39; 0; 0; 0;
  0; 0; 0; 0; 0; 0; 0; 0; 0; 10; 82; 97; 110; 100; 111; 109; 32; 116; 104; 97; 110; 104; 32; 99; 111; 110;
  103; 10; 0; 0; 0; 0; 0; 0; 0; 0; 0; 0; 0; 0; 0; 9; 112; 11; 2; 0; 0; 0; 0; 0; 0; 0; 0; 0; 0; 0; 0; 0; 0; 0;
  0; 0; 0; 0; 0; 22; 0; 0; 0; 16; 3; 0; 0; 54; 0; 0; 0; 136; 7; 0; 0; 0; 0; 0; 0; 0; 0; 0; 0; 48; 0; 0; 0; 16;
  10; 0; 0; 12; 1; 0; 0; 208; 10; 0; 0; 232; 0; 0; 0; 220; 11; 0; 0; 4; 0; 0; 0; 196; 12; 0; 0; 4; 0; 0; 0;
  228; 13; 0; 0; 32; 0; 0; 0; 244; 13; 0; 0; 0; 0; 0; 0; 1; 0; 0; 0; 255; 255; 255; 255; 0; 0; 0; 0; 0; 0; 0;
  0; 0; 0; 0; 0; 0; 0; 0; 0; 0; 0; 0; 0; 0; 0; 0; 0; 0; 0; 0; 0; 255; 255; 255; 255; 255; 255; 255; 255; 0; 0;
  0; 0; 16; 0; 0; 0; 3; 0; 0; 0; 255; 255; 255; 255; 0; 0; 0; 0; 0; 0; 0; 0; 0; 0; 0; 0; 0; 0; 0; 0; 0; 0; 0;
  0; 0; 0; 0; 0; 0; 0; 0; 0; 255; 255; 255; 255; 255; 255; 255; 255; 0; 0; 0; 0; 32; 0; 0; 0; 5; 0; 0; 0; 255;
  255; 255; 255; 0; 0; 0; 0; 0; 0; 0; 0; 0; 0; 0; 0; 0; 0; 0; 0; 0; 0; 0; 0; 0; 0; 0; 0; 0; 0; 0; 0; 255; 255;
  255; 255; 255; 255; 255; 255; 0; 0; 0; 0; 48; 0; 0; 0; 7; 0; 0; 0; 255; 255; 255; 255; 0; 0; 0; 0; 0; 0; 0;
  0; 0; 0; 0; 0; 0; 0; 0; 0; 0; 0; 0; 0; 0; 0; 0; 0; 0; 0; 0; 0; 255; 255; 255; 255; 255; 255; 255; 255; 0; 0;
  0; 0; 64; 0; 0; 0; 9; 0; 0; 0; 255; 255; 255; 255; 0; 0; 0; 0; 0; 0; 0; 0; 0; 0; 0; 0; 0; 0; 0; 0; 0; 0; 0;
  0; 0; 0; 0; 0; 0; 0; 0; 0; 255; 255; 255; 255; 255; 255; 255; 255; 0; 0; 0; 0; 80; 0; 0; 0; 11; 0; 0; 0;
  255; 255; 255; 255; 0; 0; 0; 0; 0; 0; 0; 0; 0; 0; 0; 0; 0; 0; 0; 0; 0; 0; 0; 0; 0; 0; 0; 0; 0; 0; 0; 0; 255;
  255; 255; 255; 255; 255; 255; 255; 0; 0; 0; 0; 96; 0; 0; 0; 13; 0; 0; 0; 255; 255; 255; 255; 0; 0; 0; 0; 0;
  0; 0; 0; 0; 0; 0; 0; 0; 0; 0; 0; 0; 0; 0; 0; 0; 0; 0; 0; 0; 0; 0; 0; 255; 255; 255; 255; 255; 255; 255; 255;
  0; 0; 0; 0; 112; 0; 0; 0; 15; 0; 0; 0; 255; 255; 255; 255; 0; 0; 0; 0; 0; 0; 0; 0; 0; 0; 0; 0; 0; 0; 0; 0;
  0; 0; 0; 0; 0; 0; 0; 0; 0; 0; 0; 0; 255; 255; 255; 255; 255; 255; 255; 255; 0; 0; 0; 0; 128; 0; 0; 0; 17; 0;
  0; 0; 255; 255; 255; 255; 0; 0; 0; 0; 0; 0; 0; 0; 0; 0; 0; 0; 0; 0; 0; 0; 0; 0; 0; 0; 0; 0; 0; 0; 0; 0; 0;
  0; 255; 255; 255; 255; 255; 255; 255; 255; 0; 0; 0; 0; 144; 0; 0; 0; 19; 0; 0; 0; 255; 255; 255; 255; 0; 0;
  0; 0; 0; 0; 0; 0; 0; 0; 0; 0; 0; 0; 0; 0; 0; 0; 0; 0; 0; 0; 0; 0; 0; 0; 0; 0; 255; 255; 255; 255; 255; 255;
  255; 255; 0; 0; 0; 0; 160; 0; 0; 0; 21; 0; 0; 0; 255; 255; 255; 255; 0; 0; 0; 0; 0; 0; 0; 0; 0; 0; 0; 0; 0;
  0; 0; 0; 0; 0; 0; 0; 0; 0; 0; 0; 0; 0; 0; 0; 255; 255; 255; 255; 255; 255; 255; 255; 0; 0; 0; 0; 176; 0; 0;
  0; 23; 0; 0; 0; 255; 255; 255; 255; 0; 0; 0; 0; 0; 0; 0; 0; 0; 0; 0; 0; 0; 0; 0; 0; 0; 0; 0; 0; 0; 0; 0; 0;
  0; 0; 0; 0; 255; 255; 255; 255; 255; 255; 255; 255; 0; 0; 0; 0; 192; 0; 0; 0; 25; 0; 0; 0; 255; 255; 255;
  255; 0; 0; 0; 0; 0; 0; 0; 0; 0; 0; 0; 0; 0; 0; 0; 0; 0; 0; 0; 0; 0; 0; 0; 0; 0; 0; 0; 0; 255; 255; 255; 255;
  255; 255; 255; 255; 0; 0; 0; 0; 208; 0; 0; 0; 27; 0; 0; 0; 255; 255; 255; 255; 0; 0; 0; 0; 0; 0; 0; 0; 0; 0;
  0; 0; 0; 0; 0; 0; 0; 0; 0; 0; 0; 0; 0; 0; 0; 0; 0; 0; 255; 255; 255; 255; 255; 255; 255; 255; 0; 0; 0; 0;
  224; 0; 0; 0; 29; 0; 0; 0; 255; 255; 255; 255; 0; 0; 0; 0; 0; 0; 0; 0; 0; 0; 0; 0; 0; 0; 0; 0; 0; 0; 0; 0;
  0; 0; 0; 0; 0; 0; 0; 0; 255; 255; 255; 255; 255; 255; 255; 255; 0; 0; 0; 0; 240; 0; 0; 0; 31; 0; 0; 0; 255;
  255; 255; 255; 0; 0; 0; 0; 0; 0; 0; 0; 0; 0; 0; 0; 0; 0; 0; 0; 0; 0; 0; 0; 0; 0; 0; 0; 0; 0; 0; 0; 255; 255;
  255; 255; 255; 255; 255; 255; 0; 0; 0; 0; 0; 1; 0; 0; 33; 0; 0; 0; 255; 255; 255; 255; 0; 0; 0; 0; 0; 0; 0;
  0; 0; 0; 0; 0; 0; 0; 0; 0; 0; 0; 0; 0; 0; 0; 0; 0; 0; 0; 0; 0; 255; 255; 255; 255; 255; 255; 255; 255; 0; 0;
  0; 0; 16; 1; 0; 0; 35; 0; 0; 0; 255; 255; 255; 255; 0; 0; 0; 0; 0; 0; 0; 0; 0; 0; 0; 0; 0; 0; 0; 0; 0; 0; 0;
  0; 0; 0; 0; 0; 0; 0; 0; 0; 255; 255; 255; 255; 255; 255; 255; 255; 0; 0; 0; 0; 32; 1; 0; 0; 37; 0; 0; 0;
  255; 255; 255; 255; 0; 0; 0; 0; 0; 0; 0; 0; 0; 0; 0; 0; 0; 0; 0; 0; 0; 0; 0; 0; 0; 0; 0; 0; 0; 0; 0; 0; 255;
  255; 255; 255; 255; 255; 255; 255; 0; 0; 0; 0; 48; 1; 0; 0; 39; 0; 0; 0; 255; 255; 255; 255; 0; 0; 0; 0; 0;
  0; 0; 0; 0; 0; 0; 0; 0; 0; 0; 0; 0; 0; 0; 0; 0; 0; 0; 0; 0; 0; 0; 0; 255; 255; 255; 255; 255; 255; 255; 255;
  0; 0; 0; 0; 64; 1; 0; 0; 41; 0; 0; 0; 255; 255; 255; 255; 0; 0; 0; 0; 0; 0; 0; 0; 0; 0; 0; 0; 0; 0; 0; 0; 0;
  0; 0; 0; 0; 0; 0; 0; 0; 0; 0; 0; 255; 255; 255; 255; 255; 255; 255; 255; 0; 0; 0; 0; 0; 0; 0; 0; 1; 0; 0; 0;
  255; 255; 255; 255; 0; 0; 0; 192; 252; 255; 255; 255; 0; 0; 0; 0; 0; 0; 0; 0; 0; 0; 0; 0; 24; 0; 0; 0; 30;
  0; 31; 0; 255; 255; 255; 255; 255; 255; 255; 255; 0; 0; 0; 0; 1; 0; 0; 0; 0; 0; 0; 0; 75; 192; 2; 0; 9; 0;
  0; 0; 0; 0; 0; 0; 70; 16; 0; 0; 9; 0; 0; 0; 16; 0; 0; 0; 72; 16; 0; 0; 17; 0; 0; 0; 16; 0; 0; 0; 70; 48; 0;
  0; 17; 0; 0; 0; 16; 0; 0; 0; 72; 48; 0; 0; 22; 0; 0; 0; 32; 0; 0; 0; 70; 80; 0; 0; 22; 0; 0; 0; 16; 0; 0; 0;
  72; 80; 0; 0; 27; 0; 0; 0; 48; 0; 0; 0; 70; 112; 0; 0; 27; 0; 0; 0; 16; 0; 0; 0; 72; 112; 0; 0; 32; 0; 0; 0;
  64; 0; 0; 0; 70; 144; 0; 0; 32; 0; 0; 0; 16; 0; 0; 0; 72; 144; 0; 0; 37; 0; 0; 0; 80; 0; 0; 0; 70; 176; 0;
  0; 37; 0; 0; 0; 16; 0; 0; 0; 72; 176; 0; 0; 42; 0; 0; 0; 96; 0; 0; 0; 70; 208; 0; 0; 42; 0; 0; 0; 16; 0; 0;
  0; 72; 208; 0; 0; 47; 0; 0; 0; 112; 0; 0; 0; 70; 240; 0; 0; 47; 0; 0; 0; 16; 0; 0; 0; 72; 240; 0; 0; 53; 0;
  0; 0; 128; 0; 0; 0; 70; 16; 1; 0; 53; 0; 0; 0; 16; 0; 0; 0; 72; 16; 1; 0; 59; 0; 0; 0; 144; 0; 0; 0; 70; 48;
  1; 0; 59; 0; 0; 0; 16; 0; 0; 0; 72; 48; 1; 0; 67; 0; 0; 0; 160; 0; 0; 0; 70; 80; 1; 0; 67; 0; 0; 0; 16; 0;
  0; 0; 72; 80; 1; 0; 76; 0; 0; 0; 176; 0; 0; 0; 70; 112; 1; 0; 76; 0; 0; 0; 16; 0; 0; 0; 72; 112; 1; 0; 85;
  0; 0; 0; 192; 0; 0; 0; 70; 144; 1; 0; 85; 0; 0; 0; 16; 0; 0; 0; 72; 144; 1; 0; 95; 0; 0; 0; 208; 0; 0; 0;
  70; 176; 1; 0; 95; 0; 0; 0; 16; 0; 0; 0; 72; 176; 1; 0; 105; 0; 0; 0; 224; 0; 0; 0; 70; 208; 1; 0; 105; 0;
  0; 0; 16; 0; 0; 0; 72; 208; 1; 0; 116; 0; 0; 0; 240; 0; 0; 0; 70; 240; 1; 0; 116; 0; 0; 0; 16; 0; 0; 0; 72;
  240; 1; 0; 128; 0; 0; 0; 0; 1; 0; 0; 70; 16; 2; 0; 128; 0; 0; 0; 16; 0; 0; 0; 72; 16; 2; 0; 139; 0; 0; 0;
  16; 1; 0; 0; 70; 48; 2; 0; 139; 0; 0; 0; 16; 0; 0; 0; 72; 48; 2; 0; 144; 0; 0; 0; 32; 1; 0; 0; 70; 80; 2; 0;
  144; 0; 0; 0; 16; 0; 0; 0; 72; 80; 2; 0; 151; 0; 0; 0; 48; 1; 0; 0; 70; 112; 2; 0; 151; 0; 0; 0; 16; 0; 0;
  0; 72; 112; 2; 0; 167; 0; 0; 0; 64; 1; 0; 0; 70; 144; 2; 0; 167; 0; 0; 0; 8; 0; 0; 0; 72; 144; 2; 0; 1; 0;
  0; 0; 0; 0; 0; 0; 72; 0; 0; 0; 174; 0; 0; 0; 0; 0; 0; 0; 75; 32; 0; 0; 174; 0; 0; 0; 0; 0; 0; 0; 72; 192; 2;
  0; 196; 0; 0; 0; 0; 0; 0; 0; 75; 32; 0; 0; 196; 0; 0; 0; 0; 0; 0; 0; 72; 224; 2; 0; 219; 0; 0; 0; 0; 0; 0;
  0; 75; 96; 0; 0; 228; 0; 0; 0; 80; 1; 0; 0; 70; 16; 0; 0; 228; 0; 0; 0; 68; 0; 0; 0; 72; 16; 0; 0; 233; 0;
  0; 0; 80; 1; 0; 0; 69; 240; 255; 255; 248; 0; 0; 0; 80; 1; 0; 0; 69; 240; 255; 255; 219; 0; 0; 0; 0; 0; 0;
  0; 72; 0; 0; 0; 0; 0; 0; 0; 3; 0; 0; 0; 0; 0; 0; 0; 5; 0; 0; 0; 0; 0; 0; 0; 7; 0; 0; 0; 0; 0; 0; 0; 9; 0; 0;
  0; 0; 0; 0; 0; 11; 0; 0; 0; 0; 0; 0; 0; 13; 0; 0; 0; 0; 0; 0; 0; 15; 0; 0; 0; 0; 0; 0; 0; 17; 0; 0; 0; 0; 0;
  0; 0; 19; 0; 0; 0; 0; 0; 0; 0; 21; 0; 0; 0; 0; 0; 0; 0; 23; 0; 0; 0; 0; 0; 0; 0; 25; 0; 0; 0; 0; 0; 0; 0;
  27; 0; 0; 0; 0; 0; 0; 0; 29; 0; 0; 0; 0; 0; 0; 0; 31; 0; 0; 0; 0; 0; 0; 0; 33; 0; 0; 0; 0; 0; 0; 0; 35; 0;
  0; 0; 0; 0; 0; 0; 37; 0; 0; 0; 0; 0; 0; 0; 39; 0; 0; 0; 0; 0; 0; 0; 41; 0; 0; 0; 0; 0; 0; 0; 43; 0; 0; 0; 0;
  0; 0; 0; 0; 0; 0; 0; 0; 0; 0; 0; 0; 0; 0; 0; 3; 0; 0; 0; 0; 0; 0; 0; 0; 115; 116; 97; 114; 116; 46; 99; 0;
  95; 95; 115; 116; 97; 114; 116; 0; 72; 97; 108; 116; 0; 69; 120; 105; 116; 0; 69; 120; 101; 99; 0; 74; 111;
  105; 110; 0; 79; 112; 101; 110; 0; 82; 101; 97; 100; 0; 87; 114; 105; 116; 101; 0; 67; 108; 111; 115; 101;
  0; 82; 101; 97; 100; 78; 117; 109; 0; 80; 114; 105; 110; 116; 78; 117; 109; 0; 82; 101; 97; 100; 67; 104;
  97; 114; 0; 80; 114; 105; 110; 116; 67; 104; 97; 114; 0; 82; 97; 110; 100; 111; 109; 78; 117; 109; 0; 82;
  101; 97; 100; 83; 116; 114; 105; 110; 103; 0; 80; 114; 105; 110; 116; 83; 116; 114; 105; 110; 103; 0; 67;
  114; 101; 97; 116; 101; 70; 105; 108; 101; 0; 87; 97; 105; 116; 0; 83; 105; 103; 110; 97; 108; 0; 67; 114;
  101; 97; 116; 101; 83; 101; 109; 97; 112; 104; 111; 114; 101; 0; 95; 95; 109; 97; 105; 110; 0; 46; 46; 47;
  117; 115; 101; 114; 112; 114; 111; 103; 47; 115; 121; 115; 99; 97; 108; 108; 46; 104; 0; 46; 46; 47; 116;
  104; 114; 101; 97; 100; 115; 47; 99; 111; 112; 121; 114; 105; 103; 104; 116; 46; 104; 0; 114; 97; 110; 100;
  111; 109; 46; 99; 0; 109; 97; 105; 110; 0; 103; 99; 99; 50; 95; 99; 111; 109; 112; 105; 108; 101; 100; 46;
  0; 95; 95; 103; 110; 117; 95; 99; 111; 109; 112; 105; 108; 101; 100; 95; 99; 0; 0; 0; 0; 95; 95; 109; 97;
  105; 110; 0; 95; 102; 100; 97; 116; 97; 0; 69; 120; 101; 99; 0; 101; 112; 114; 111; 108; 0; 87; 114; 105;
  116; 101; 0; 82; 101; 97; 100; 0; 95; 101; 116; 101; 120; 116; 0; 79; 112; 101; 110; 0; 82; 101; 97; 100;
  67; 104; 97; 114; 0; 74; 111; 105; 110; 0; 101; 100; 97; 116; 97; 0; 80; 114; 105; 110; 116; 78; 117; 109;
  0; 101; 110; 100; 0; 95; 95; 115; 116; 97; 114; 116; 0; 67; 108; 111; 115; 101; 0; 101; 116; 101; 120; 116;
  0; 69; 120; 105; 116; 0; 95; 102; 116; 101; 120; 116; 0; 87; 97; 105; 116; 0; 80; 114; 105; 110; 116; 83;
  116; 114; 105; 110; 103; 0; 82; 101; 97; 100; 83; 116; 114; 105; 110; 103; 0; 72; 97; 108; 116; 0; 82; 97;
  110; 100; 111; 109; 78; 117; 109; 0; 109; 97; 105; 110; 0; 80; 114; 105; 110; 116; 67; 104; 97; 114; 0; 67;
  114; 101; 97; 116; 101; 70; 105; 108; 101; 0; 82; 101; 97; 100; 78; 117; 109; 0; 67; 114; 101; 97; 116; 101;
  83; 101; 109; 97; 112; 104; 111; 114; 101; 0; 83; 105; 103; 110; 97; 108; 0; 95; 101; 100; 97; 116; 97; 0;
  95; 101; 110; 100; 0; 95; 102; 98; 115; 115; 0; 0; 0; 0; 0; 0; 1; 0; 0; 0; 0; 0; 0; 0; 174; 0; 0; 0; 0; 0;
  0; 0; 44; 0; 0; 0; 0; 0; 0; 0; 0; 0; 0; 0; 0; 0; 0; 0; 0; 0; 0; 0; 0; 0; 21; 0; 0; 0; 0; 0; 43; 0; 0; 0; 0;
  0; 0; 0; 3; 0; 0; 0; 0; 0; 0; 0; 0; 0; 0; 0; 0; 0; 0; 0; 0; 0; 0; 0; 174; 0; 0; 0; 0; 0; 0; 0; 196; 0; 0; 0;
  44; 0; 0; 0; 2; 0; 0; 0; 0; 0; 0; 0; 0; 0; 0; 0; 0; 0; 0; 0; 0; 0; 0; 0; 21; 0; 0; 0; 43; 0; 0; 0; 1; 0; 0;
  0; 0; 0; 0; 0; 3; 0; 0; 0; 32; 0; 0; 0; 0; 0; 0; 0; 0; 0; 0; 0; 0; 0; 0; 0; 196; 0; 0; 0; 0; 0; 0; 0; 219;
  0; 0; 0; 46; 0; 0; 0; 2; 0; 0; 0; 0; 0; 0; 0; 0; 0; 0; 0; 0; 0; 0; 0; 0; 0; 0; 0; 21; 0; 0; 0; 44; 0; 0; 0;
  1; 0; 0; 0; 0; 0; 0; 0; 3; 0; 0; 0; 32; 0; 0; 0; 0; 0; 0; 0; 0; 0; 0; 0; 80; 1; 0; 0; 219; 0; 0; 0; 0; 0; 0;
  0; 9; 1; 0; 0; 48; 0; 0; 0; 6; 0; 0; 0; 0; 0; 0; 0; 0; 0; 0; 0; 0; 0; 0; 0; 0; 0; 0; 0; 21; 0; 1; 0; 45; 0;
  0; 0; 3; 0; 0; 0; 3; 0; 0; 0; 1; 0; 0; 0; 0; 0; 0; 0; 0; 0; 0; 0; 0; 0; 0; 0; 0; 0; 0; 0; 1; 0; 0; 0; 2; 0;
  0; 0; 3; 0; 0; 0; 0; 0; 0; 0; 0; 0; 0; 0; 64; 1; 0; 0; 70; 144; 2; 0; 0; 0; 255; 255; 7; 0; 0; 0; 192; 1; 0;
  0; 65; 241; 255; 255; 0; 0; 0; 0; 14; 0; 0; 0; 48; 0; 0; 0; 70; 112; 0; 0; 0; 0; 255; 255; 19; 0; 0; 0; 0;
  0; 0; 0; 65; 240; 255; 255; 0; 0; 0; 0; 25; 0; 0; 0; 112; 0; 0; 0; 70; 240; 0; 0; 0; 0; 0; 0; 31; 0; 0; 0;
  96; 0; 0; 0; 70; 208; 0; 0; 0; 0; 255; 255; 36; 0; 0; 0; 160; 1; 0; 0; 65; 240; 255; 255; 0; 0; 0; 0; 43; 0;
  0; 0; 80; 0; 0; 0; 70; 176; 0; 0; 0; 0; 0; 0; 48; 0; 0; 0; 176; 0; 0; 0; 70; 112; 1; 0; 0; 0; 0; 0; 57; 0;
  0; 0; 64; 0; 0; 0; 70; 144; 0; 0; 0; 0; 255; 255; 62; 0; 0; 0; 192; 1; 0; 0; 65; 241; 255; 255; 0; 0; 0; 0;
  68; 0; 0; 0; 160; 0; 0; 0; 70; 80; 1; 0; 0; 0; 255; 255; 77; 0; 0; 0; 192; 1; 0; 0; 65; 241; 255; 255; 0; 0;
  0; 0; 81; 0; 0; 0; 0; 0; 0; 0; 70; 16; 0; 0; 0; 0; 0; 0; 89; 0; 0; 0; 128; 0; 0; 0; 70; 16; 1; 0; 0; 0; 255;
  255; 95; 0; 0; 0; 160; 1; 0; 0; 65; 240; 255; 255; 0; 0; 0; 0; 101; 0; 0; 0; 32; 0; 0; 0; 70; 80; 0; 0; 0;
  0; 255; 255; 106; 0; 0; 0; 0; 0; 0; 0; 65; 240; 255; 255; 0; 0; 0; 0; 113; 0; 0; 0; 16; 1; 0; 0; 70; 48; 2;
  0; 0; 0; 0; 0; 118; 0; 0; 0; 240; 0; 0; 0; 70; 240; 1; 0; 0; 0; 0; 0; 130; 0; 0; 0; 224; 0; 0; 0; 70; 208;
  1; 0; 0; 0; 0; 0; 141; 0; 0; 0; 16; 0; 0; 0; 70; 48; 0; 0; 0; 0; 0; 0; 146; 0; 0; 0; 208; 0; 0; 0; 70; 176;
  1; 0; 0; 0; 3; 0; 156; 0; 0; 0; 80; 1; 0; 0; 70; 16; 0; 0; 0; 0; 0; 0; 161; 0; 0; 0; 192; 0; 0; 0; 70; 144;
  1; 0; 0; 0; 0; 0; 171; 0; 0; 0; 0; 1; 0; 0; 70; 16; 2; 0; 0; 0; 0; 0; 182; 0; 0; 0; 144; 0; 0; 0; 70; 48; 1;
  0; 0; 0; 0; 0; 190; 0; 0; 0; 48; 1; 0; 0; 70; 112; 2; 0; 0; 0; 0; 0; 206; 0; 0; 0; 32; 1; 0; 0; 70; 80; 2;
  0; 0; 0; 255; 255; 213; 0; 0; 0; 192; 1; 0; 0; 65; 241; 255; 255; 0; 0; 255; 255; 220; 0; 0; 0; 192; 1; 0;
  0; 65; 241; 255; 255; 0; 0; 255; 255; 225; 0; 0; 0; 192; 1; 0; 0; 65; 241; 255; 255].

(** code/test/createfile.coff, of which coff2noff made code/test/createfile. *)
Definition test_createfile_coff : list Z := [
  98; 1; 4; 0; 0; 0; 0; 0; 48; 3; 0; 0; 96; 0; 0; 0; 56; 0; 7; 1; 7; 1; 11; 2; 224; 1; 0; 0; 96; 0; 0; 0; 0;
  0; 0; 0; 0; 0; 0; 0; 0; 0; 0; 0; 224; 1; 0; 0; 64; 2; 0; 0; 52; 0; 0; 224; 0; 0; 0; 0; 0; 0; 0; 0; 0; 0; 0;
  0; 0; 0; 0; 0; 0; 0; 0; 0; 46; 116; 101; 120; 116; 0; 0; 0; 0; 0; 0; 0; 0; 0; 0; 0; 224; 1; 0; 0; 240; 0; 0;
  0; 0; 0; 0; 0; 0; 0; 0; 0; 0; 0; 0; 0; 32; 0; 0; 0; 46; 114; 100; 97; 116; 97; 0; 0; 224; 1; 0; 0; 224; 1;
  0; 0; 96; 0; 0; 0; 208; 2; 0; 0; 0; 0; 0; 0; 0; 0; 0; 0; 0; 0; 0; 0; 0; 1; 0; 0; 46; 100; 97; 116; 97; 0; 0;
  0; 64; 2; 0; 0; 64; 2; 0; 0; 0; 0; 0; 0; 48; 3; 0; 0; 0; 0; 0; 0; 0; 0; 0; 0; 0; 0; 0; 0; 64; 0; 0; 0; 46;
  98; 115; 115; 0; 0; 0; 0; 64; 2; 0; 0; 64; 2; 0; 0; 0; 0; 0; 0; 0; 0; 0; 0; 0; 0; 0; 0; 0; 0; 0; 0; 0; 0; 0;
  0; 128; 0; 0; 0; 0; 0; 0; 0; 84; 0; 0; 12; 0; 0; 0; 0; 8; 0; 0; 12; 33; 32; 0; 0; 1; 0; 2; 36; 12; 0; 0; 0;
  8; 0; 224; 3; 0; 0; 0; 0; 14; 0; 2; 36; 12; 0; 0; 0; 8; 0; 224; 3; 0; 0; 0; 0; 15; 0; 2; 36; 12; 0; 0; 0; 8;
  0; 224; 3; 0; 0; 0; 0; 16; 0; 2; 36; 12; 0; 0; 0; 8; 0; 224; 3; 0; 0; 0; 0; 10; 0; 2; 36; 12; 0; 0; 0; 8; 0;
  224; 3; 0; 0; 0; 0; 12; 0; 2; 36; 12; 0; 0; 0; 8; 0; 224; 3; 0; 0; 0; 0; 13; 0; 2; 36; 12; 0; 0; 0; 8; 0;
  224; 3; 0; 0; 0; 0; 11; 0; 2; 36; 12; 0; 0; 0; 8; 0; 224; 3; 0; 0; 0; 0; 2; 0; 2; 36; 12; 0; 0; 0; 8; 0;
  224; 3; 0; 0; 0; 0; 3; 0; 2; 36; 12; 0; 0; 0; 8; 0; 224; 3; 0; 0; 0; 0; 4; 0; 2; 36; 12; 0; 0; 0; 8; 0; 224;
  3; 0; 0; 0; 0; 5; 0; 2; 36; 12; 0; 0; 0; 8; 0; 224; 3; 0; 0; 0; 0; 8; 0; 2; 36; 12; 0; 0; 0; 8; 0; 224; 3;
  0; 0; 0; 0; 6; 0; 2; 36; 12; 0; 0; 0; 8; 0; 224; 3; 0; 0; 0; 0; 7; 0; 2; 36; 12; 0; 0; 0; 8; 0; 224; 3; 0;
  0; 0; 0; 9; 0; 2; 36; 12; 0; 0; 0; 8; 0; 224; 3; 0; 0; 0; 0; 18; 0; 2; 36; 12; 0; 0; 0; 8; 0; 224; 3; 0; 0;
  0; 0; 19; 0; 2; 36; 12; 0; 0; 0; 8; 0; 224; 3; 0; 0; 0; 0; 17; 0; 2; 36; 12; 0; 0; 0; 8; 0; 224; 3; 0; 0; 0;
  0; 8; 0; 224; 3; 0; 0; 0; 0; 0; 0; 0; 0; 0; 0; 0; 0; 224; 255; 189; 39; 28; 0; 191; 175; 24; 0; 190; 175;
  80; 0; 0; 12; 33; 240; 160; 3; 0; 0; 4; 60; 60; 0; 0; 12; 224; 1; 132; 36; 20; 0; 196; 143; 56; 0; 0; 12;
  100; 0; 5; 36; 20; 0; 196; 143; 64; 0; 0; 12; 0; 0; 0; 0; 16; 0; 194; 175; 16; 0; 194; 143; 0; 0; 0; 0; 6;
  0; 64; 20; 0; 0; 0; 0; 0; 0; 4; 60; 60; 0; 0; 12; 8; 2; 132; 36; 111; 0; 0; 8; 0; 0; 0; 0; 0; 0; 4; 60; 60;
  0; 0; 12; 36; 2; 132; 36; 4; 0; 0; 12; 0; 0; 0; 0; 33; 232; 192; 3; 28; 0; 191; 143; 24; 0; 190; 143; 8; 0;
  224; 3; 32; 0; 189; 39; 0; 0; 0; 0; 0; 0; 0; 0; 80; 108; 101; 97; 115; 101; 32; 101; 110; 116; 101; 114; 32;
  121; 111; 117; 114; 32; 102; 105; 108; 101; 110; 97; 109; 101; 32; 116; 111; 32; 99; 114; 101; 97; 116; 101;
  58; 32; 10; 0; 67; 114; 101; 97; 116; 101; 32; 102; 105; 108; 101; 32; 115; 117; 99; 99; 101; 115; 115; 102;
  117; 108; 108; 121; 33; 32; 10; 0; 67; 114; 101; 97; 116; 101; 32; 102; 105; 108; 101; 32; 102; 97; 105;
  108; 101; 100; 33; 32; 10; 0; 0; 0; 0; 0; 0; 0; 9; 112; 11; 2; 0; 0; 0; 0; 0; 0; 0; 0; 0; 0; 0; 0; 0; 0; 0;
  0; 0; 0; 0; 0; 22; 0; 0; 0; 144; 3; 0; 0; 54; 0; 0; 0; 8; 8; 0; 0; 0; 0; 0; 0; 0; 0; 0; 0; 48; 0; 0; 0; 144;
  10; 0; 0; 16; 1; 0; 0; 80; 11; 0; 0; 232; 0; 0; 0; 96; 12; 0; 0; 4; 0; 0; 0; 72; 13; 0; 0; 4; 0; 0; 0; 104;
  14; 0; 0; 32; 0; 0; 0; 120; 14; 0; 0; 0; 0; 0; 0; 1; 0; 0; 0; 255; 255; 255; 255; 0; 0; 0; 0; 0; 0; 0; 0; 0;
  0; 0; 0; 0; 0; 0; 0; 0; 0; 0; 0; 0; 0; 0; 0; 0; 0; 0; 0; 255; 255; 255; 255; 255; 255; 255; 255; 0; 0; 0; 0;
  16; 0; 0; 0; 3; 0; 0; 0; 255; 255; 255; 255; 0; 0; 0; 0; 0; 0; 0; 0; 0; 0; 0; 0; 0; 0; 0; 0; 0; 0; 0; 0; 0;
  0; 0; 0; 0; 0; 0; 0; 255; 255; 255; 255; 255; 255; 255; 255; 0; 0; 0; 0; 32; 0; 0; 0; 5; 0; 0; 0; 255; 255;
  255; 255; 0; 0; 0; 0; 0; 0; 0; 0; 0; 0; 0; 0; 0; 0; 0; 0; 0; 0; 0; 0; 0; 0; 0; 0; 0; 0; 0; 0; 255; 255; 255;
  255; 255; 255; 255; 255; 0; 0; 0; 0; 48; 0; 0; 0; 7; 0; 0; 0; 255; 255; 255; 255; 0; 0; 0; 0; 0; 0; 0; 0; 0;
  0; 0; 0; 0; 0; 0; 0; 0; 0; 0; 0; 0; 0; 0; 0; 0; 0; 0; 0; 255; 255; 255; 255; 255; 255; 255; 255; 0; 0; 0; 0;
  64; 0; 0; 0; 9; 0; 0; 0; 255; 255; 255; 255; 0; 0; 0; 0; 0; 0; 0; 0; 0; 0; 0; 0; 0; 0; 0; 0; 0; 0; 0; 0; 0;
  0; 0; 0; 0; 0; 0; 0; 255; 255; 255; 255; 255; 255; 255; 255; 0; 0; 0; 0; 80; 0; 0; 0; 11; 0; 0; 0; 255; 255;
  255; 255; 0; 0; 0; 0; 0; 0; 0; 0; 0; 0; 0; 0; 0; 0; 0; 0; 0; 0; 0; 0; 0; 0; 0; 0; 0; 0; 0; 0; 255; 255; 255;
  255; 255; 255; 255; 255; 0; 0; 0; 0; 96; 0; 0; 0; 13; 0; 0; 0; 255; 255; 255; 255; 0; 0; 0; 0; 0; 0; 0; 0;
  0; 0; 0; 0; 0; 0; 0; 0; 0; 0; 0; 0; 0; 0; 0; 0; 0; 0; 0; 0; 255; 255; 255; 255; 255; 255; 255; 255; 0; 0; 0;
  0; 112; 0; 0; 0; 15; 0; 0; 0; 255; 255; 255; 255; 0; 0; 0; 0; 0; 0; 0; 0; 0; 0; 0; 0; 0; 0; 0; 0; 0; 0; 0;
  0; 0; 0; 0; 0; 0; 0; 0; 0; 255; 255; 255; 255; 255; 255; 255; 255; 0; 0; 0; 0; 128; 0; 0; 0; 17; 0; 0; 0;
  255; 255; 255; 255; 0; 0; 0; 0; 0; 0; 0; 0; 0; 0; 0; 0; 0; 0; 0; 0; 0; 0; 0; 0; 0; 0; 0; 0; 0; 0; 0; 0; 255;
  255; 255; 255; 255; 255; 255; 255; 0; 0; 0; 0; 144; 0; 0; 0; 19; 0; 0; 0; 255; 255; 255; 255; 0; 0; 0; 0; 0;
  0; 0; 0; 0; 0; 0; 0; 0; 0; 0; 0; 0; 0; 0; 0; 0; 0; 0; 0; 0; 0; 0; 0; 255; 255; 255; 255; 255; 255; 255; 255;
  0; 0; 0; 0; 160; 0; 0; 0; 21; 0; 0; 0; 255; 255; 255; 255; 0; 0; 0; 0; 0; 0; 0; 0; 0; 0; 0; 0; 0; 0; 0; 0;
  0; 0; 0; 0; 0; 0; 0; 0; 0; 0; 0; 0; 255; 255; 255; 255; 255; 255; 255; 255; 0; 0; 0; 0; 176; 0; 0; 0; 23; 0;
  0; 0; 255; 255; 255; 255; 0; 0; 0; 0; 0; 0; 0; 0; 0; 0; 0; 0; 0; 0; 0; 0; 0; 0; 0; 0; 0; 0; 0; 0; 0; 0; 0;
  0; 255; 255; 255; 255; 255; 255; 255; 255; 0; 0; 0; 0; 192; 0; 0; 0; 25; 0; 0; 0; 255; 255; 255; 255; 0; 0;
  0; 0; 0; 0; 0; 0; 0; 0; 0; 0; 0; 0; 0; 0; 0; 0; 0; 0; 0; 0; 0; 0; 0; 0; 0; 0; 255; 255; 255; 255; 255; 255;
  255; 255; 0; 0; 0; 0; 208; 0; 0; 0; 27; 0; 0; 0; 255; 255; 255; 255; 0; 0; 0; 0; 0; 0; 0; 0; 0; 0; 0; 0; 0;
  0; 0; 0; 0; 0; 0; 0; 0; 0; 0; 0; 0; 0; 0; 0; 255; 255; 255; 255; 255; 255; 255; 255; 0; 0; 0; 0; 224; 0; 0;
  0; 29; 0; 0; 0; 255; 255; 255; 255; 0; 0; 0; 0; 0; 0; 0; 0; 0; 0; 0; 0; 0; 0; 0; 0; 0; 0; 0; 0; 0; 0; 0; 0;
  0; 0; 0; 0; 255; 255; 255; 255; 255; 255; 255; 255; 0; 0; 0; 0; 240; 0; 0; 0; 31; 0; 0; 0; 255; 255; 255;
  255; 0; 0; 0; 0; 0; 0; 0; 0; 0; 0; 0; 0; 0; 0; 0; 0; 0; 0; 0; 0; 0; 0; 0; 0; 0; 0; 0; 0; 255; 255; 255; 255;
  255; 255; 255; 255; 0; 0; 0; 0; 0; 1; 0; 0; 33; 0; 0; 0; 255; 255; 255; 255; 0; 0; 0; 0; 0; 0; 0; 0; 0; 0;
  0; 0; 0; 0; 0; 0; 0; 0; 0; 0; 0; 0; 0; 0; 0; 0; 0; 0; 255; 255; 255; 255; 255; 255; 255; 255; 0; 0; 0; 0;
  16; 1; 0; 0; 35; 0; 0; 0; 255; 255; 255; 255; 0; 0; 0; 0; 0; 0; 0; 0; 0; 0; 0; 0; 0; 0; 0; 0; 0; 0; 0; 0; 0;
  0; 0; 0; 0; 0; 0; 0; 255; 255; 255; 255; 255; 255; 255; 255; 0; 0; 0; 0; 32; 1; 0; 0; 37; 0; 0; 0; 255; 255;
  255; 255; 0; 0; 0; 0; 0; 0; 0; 0; 0; 0; 0; 0; 0; 0; 0; 0; 0; 0; 0; 0; 0; 0; 0; 0; 0; 0; 0; 0; 255; 255; 255;
  255; 255; 255; 255; 255; 0; 0; 0; 0; 48; 1; 0; 0; 39; 0; 0; 0; 255; 255; 255; 255; 0; 0; 0; 0; 0; 0; 0; 0;
  0; 0; 0; 0; 0; 0; 0; 0; 0; 0; 0; 0; 0; 0; 0; 0; 0; 0; 0; 0; 255; 255; 255; 255; 255; 255; 255; 255; 0; 0; 0;
  0; 64; 1; 0; 0; 41; 0; 0; 0; 255; 255; 255; 255; 0; 0; 0; 0; 0; 0; 0; 0; 0; 0; 0; 0; 0; 0; 0; 0; 0; 0; 0; 0;
  0; 0; 0; 0; 0; 0; 0; 0; 255; 255; 255; 255; 255; 255; 255; 255; 0; 0; 0; 0; 0; 0; 0; 0; 1; 0; 0; 0; 255;
  255; 255; 255; 0; 0; 0; 192; 252; 255; 255; 255; 0; 0; 0; 0; 0; 0; 0; 0; 0; 0; 0; 0; 32; 0; 0; 0; 30; 0; 31;
  0; 255; 255; 255; 255; 255; 255; 255; 255; 0; 0; 0; 0; 1; 0; 0; 0; 0; 0; 0; 0; 75; 192; 2; 0; 9; 0; 0; 0; 0;
  0; 0; 0; 70; 16; 0; 0; 9; 0; 0; 0; 16; 0; 0; 0; 72; 16; 0; 0; 17; 0; 0; 0; 16; 0; 0; 0; 70; 48; 0; 0; 17; 0;
  0; 0; 16; 0; 0; 0; 72; 48; 0; 0; 22; 0; 0; 0; 32; 0; 0; 0; 70; 80; 0; 0; 22; 0; 0; 0; 16; 0; 0; 0; 72; 80;
  0; 0; 27; 0; 0; 0; 48; 0; 0; 0; 70; 112; 0; 0; 27; 0; 0; 0; 16; 0; 0; 0; 72; 112; 0; 0; 32; 0; 0; 0; 64; 0;
  0; 0; 70; 144; 0; 0; 32; 0; 0; 0; 16; 0; 0; 0; 72; 144; 0; 0; 37; 0; 0; 0; 80; 0; 0; 0; 70; 176; 0; 0; 37;
  0; 0; 0; 16; 0; 0; 0; 72; 176; 0; 0; 42; 0; 0; 0; 96; 0; 0; 0; 70; 208; 0; 0; 42; 0; 0; 0; 16; 0; 0; 0; 72;
  208; 0; 0; 47; 0; 0; 0; 112; 0; 0; 0; 70; 240; 0; 0; 47; 0; 0; 0; 16; 0; 0; 0; 72; 240; 0; 0; 53; 0; 0; 0;
  128; 0; 0; 0; 70; 16; 1; 0; 53; 0; 0; 0; 16; 0; 0; 0; 72; 16; 1; 0; 59; 0; 0; 0; 144; 0; 0; 0; 70; 48; 1; 0;
  59; 0; 0; 0; 16; 0; 0; 0; 72; 48; 1; 0; 67; 0; 0; 0; 160; 0; 0; 0; 70; 80; 1; 0; 67; 0; 0; 0; 16; 0; 0; 0;
  72; 80; 1; 0; 76; 0; 0; 0; 176; 0; 0; 0; 70; 112; 1; 0; 76; 0; 0; 0; 16; 0; 0; 0; 72; 112; 1; 0; 85; 0; 0;
  0; 192; 0; 0; 0; 70; 144; 1; 0; 85; 0; 0; 0; 16; 0; 0; 0; 72; 144; 1; 0; 95; 0; 0; 0; 208; 0; 0; 0; 70; 176;
  1; 0; 95; 0; 0; 0; 16; 0; 0; 0; 72; 176; 1; 0; 105; 0; 0; 0; 224; 0; 0; 0; 70; 208; 1; 0; 105; 0; 0; 0; 16;
  0; 0; 0; 72; 208; 1; 0; 116; 0; 0; 0; 240; 0; 0; 0; 70; 240; 1; 0; 116; 0; 0; 0; 16; 0; 0; 0; 72; 240; 1; 0;
  128; 0; 0; 0; 0; 1; 0; 0; 70; 16; 2; 0; 128; 0; 0; 0; 16; 0; 0; 0; 72; 16; 2; 0; 139; 0; 0; 0; 16; 1; 0; 0;
  70; 48; 2; 0; 139; 0; 0; 0; 16; 0; 0; 0; 72; 48; 2; 0; 144; 0; 0; 0; 32; 1; 0; 0; 70; 80; 2; 0; 144; 0; 0;
  0; 16; 0; 0; 0; 72; 80; 2; 0; 151; 0; 0; 0; 48; 1; 0; 0; 70; 112; 2; 0; 151; 0; 0; 0; 16; 0; 0; 0; 72; 112;
  2; 0; 167; 0; 0; 0; 64; 1; 0; 0; 70; 144; 2; 0; 167; 0; 0; 0; 8; 0; 0; 0; 72; 144; 2; 0; 1; 0; 0; 0; 0; 0;
  0; 0; 72; 0; 0; 0; 174; 0; 0; 0; 0; 0; 0; 0; 75; 32; 0; 0; 174; 0; 0; 0; 0; 0; 0; 0; 72; 192; 2; 0; 196; 0;
  0; 0; 0; 0; 0; 0; 75; 32; 0; 0; 196; 0; 0; 0; 0; 0; 0; 0; 72; 224; 2; 0; 219; 0; 0; 0; 0; 0; 0; 0; 75; 96;
  0; 0; 232; 0; 0; 0; 80; 1; 0; 0; 70; 16; 0; 0; 232; 0; 0; 0; 136; 0; 0; 0; 72; 16; 0; 0; 237; 0; 0; 0; 80;
  1; 0; 0; 69; 240; 255; 255; 252; 0; 0; 0; 80; 1; 0; 0; 69; 240; 255; 255; 219; 0; 0; 0; 0; 0; 0; 0; 72; 0;
  0; 0; 0; 0; 0; 0; 3; 0; 0; 0; 0; 0; 0; 0; 5; 0; 0; 0; 0; 0; 0; 0; 7; 0; 0; 0; 0; 0; 0; 0; 9; 0; 0; 0; 0; 0;
  0; 0; 11; 0; 0; 0; 0; 0; 0; 0; 13; 0; 0; 0; 0; 0; 0; 0; 15; 0; 0; 0; 0; 0; 0; 0; 17; 0; 0; 0; 0; 0; 0; 0;
  19; 0; 0; 0; 0; 0; 0; 0; 21; 0; 0; 0; 0; 0; 0; 0; 23; 0; 0; 0; 0; 0; 0; 0; 25; 0; 0; 0; 0; 0; 0; 0; 27; 0;
  0; 0; 0; 0; 0; 0; 29; 0; 0; 0; 0; 0; 0; 0; 31; 0; 0; 0; 0; 0; 0; 0; 33; 0; 0; 0; 0; 0; 0; 0; 35; 0; 0; 0; 0;
  0; 0; 0; 37; 0; 0; 0; 0; 0; 0; 0; 39; 0; 0; 0; 0; 0; 0; 0; 41; 0; 0; 0; 0; 0; 0; 0; 43; 0; 0; 0; 0; 0; 0; 0;
  0; 0; 0; 0; 0; 0; 0; 0; 0; 0; 0; 0; 3; 0; 0; 0; 0; 0; 0; 0; 0; 115; 116; 97; 114; 116; 46; 99; 0; 95; 95;
  115; 116; 97; 114; 116; 0; 72; 97; 108; 116; 0; 69; 120; 105; 116; 0; 69; 120; 101; 99; 0; 74; 111; 105;
  110; 0; 79; 112; 101; 110; 0; 82; 101; 97; 100; 0; 87; 114; 105; 116; 101; 0; 67; 108; 111; 115; 101; 0; 82;
  101; 97; 100; 78; 117; 109; 0; 80; 114; 105; 110; 116; 78; 117; 109; 0; 82; 101; 97; 100; 67; 104; 97; 114;
  0; 80; 114; 105; 110; 116; 67; 104; 97; 114; 0; 82; 97; 110; 100; 111; 109; 78; 117; 109; 0; 82; 101; 97;
  100; 83; 116; 114; 105; 110; 103; 0; 80; 114; 105; 110; 116; 83; 116; 114; 105; 110; 103; 0; 67; 114; 101;
  97; 116; 101; 70; 105; 108; 101; 0; 87; 97; 105; 116; 0; 83; 105; 103; 110; 97; 108; 0; 67; 114; 101; 97;
  116; 101; 83; 101; 109; 97; 112; 104; 111; 114; 101; 0; 95; 95; 109; 97; 105; 110; 0; 46; 46; 47; 117; 115;
  101; 114; 112; 114; 111; 103; 47; 115; 121; 115; 99; 97; 108; 108; 46; 104; 0; 46; 46; 47; 116; 104; 114;
  101; 97; 100; 115; 47; 99; 111; 112; 121; 114; 105; 103; 104; 116; 46; 104; 0; 99; 114; 101; 97; 116; 101;
  102; 105; 108; 101; 46; 99; 0; 109; 97; 105; 110; 0; 103; 99; 99; 50; 95; 99; 111; 109; 112; 105; 108; 101;
  100; 46; 0; 95; 95; 103; 110; 117; 95; 99; 111; 109; 112; 105; 108; 101; 100; 95; 99; 0; 0; 0; 0; 95; 95;
  109; 97; 105; 110; 0; 95; 102; 100; 97; 116; 97; 0; 69; 120; 101; 99; 0; 101; 112; 114; 111; 108; 0; 87;
  114; 105; 116; 101; 0; 82; 101; 97; 100; 0; 95; 101; 116; 101; 120; 116; 0; 79; 112; 101; 110; 0; 82; 101;
  97; 100; 67; 104; 97; 114; 0; 74; 111; 105; 110; 0; 101; 100; 97; 116; 97; 0; 80; 114; 105; 110; 116; 78;
  117; 109; 0; 101; 110; 100; 0; 95; 95; 115; 116; 97; 114; 116; 0; 67; 108; 111; 115; 101; 0; 101; 116; 101;
  120; 116; 0; 69; 120; 105; 116; 0; 95; 102; 116; 101; 120; 116; 0; 87; 97; 105; 116; 0; 80; 114; 105; 110;
  116; 83; 116; 114; 105; 110; 103; 0; 82; 101; 97; 100; 83; 116; 114; 105; 110; 103; 0; 72; 97; 108; 116; 0;
  82; 97; 110; 100; 111; 109; 78; 117; 109; 0; 109; 97; 105; 110; 0; 80; 114; 105; 110; 116; 67; 104; 97; 114;
  0; 67; 114; 101; 97; 116; 101; 70; 105; 108; 101; 0; 82; 101; 97; 100; 78; 117; 109; 0; 67; 114; 101; 97;
  116; 101; 83; 101; 109; 97; 112; 104; 111; 114; 101; 0; 83; 105; 103; 110; 97; 108; 0; 95; 101; 100; 97;
  116; 97; 0; 95; 101; 110; 100; 0; 95; 102; 98; 115; 115; 0; 0; 0; 0; 0; 0; 1; 0; 0; 0; 0; 0; 0; 0; 174; 0;
  0; 0; 0; 0; 0; 0; 44; 0; 0; 0; 0; 0; 0; 0; 0; 0; 0; 0; 0; 0; 0; 0; 0; 0; 0; 0; 0; 0; 21; 0; 0; 0; 0; 0; 43;
  0; 0; 0; 0; 0; 0; 0; 3; 0; 0; 0; 0; 0; 0; 0; 0; 0; 0; 0; 0; 0; 0; 0; 0; 0; 0; 0; 174; 0; 0; 0; 0; 0; 0; 0;
  196; 0; 0; 0; 44; 0; 0; 0; 2; 0; 0; 0; 0; 0; 0; 0; 0; 0; 0; 0; 0; 0; 0; 0; 0; 0; 0; 0; 21; 0; 0; 0; 43; 0;
  0; 0; 1; 0; 0; 0; 0; 0; 0; 0; 3; 0; 0; 0; 32; 0; 0; 0; 0; 0; 0; 0; 0; 0; 0; 0; 0; 0; 0; 0; 196; 0; 0; 0; 0;
  0; 0; 0; 219; 0; 0; 0; 46; 0; 0; 0; 2; 0; 0; 0; 0; 0; 0; 0; 0; 0; 0; 0; 0; 0; 0; 0; 0; 0; 0; 0; 21; 0; 0; 0;
  44; 0; 0; 0; 1; 0; 0; 0; 0; 0; 0; 0; 3; 0; 0; 0; 32; 0; 0; 0; 0; 0; 0; 0; 0; 0; 0; 0; 80; 1; 0; 0; 219; 0;
  0; 0; 0; 0; 0; 0; 13; 1; 0; 0; 48; 0; 0; 0; 6; 0; 0; 0; 0; 0; 0; 0; 0; 0; 0; 0; 0; 0; 0; 0; 0; 0; 0; 0; 21;
  0; 1; 0; 45; 0; 0; 0; 3; 0; 0; 0; 3; 0; 0; 0; 1; 0; 0; 0; 0; 0; 0; 0; 0; 0; 0; 0; 0; 0; 0; 0; 0; 0; 0; 0; 1;
  0; 0; 0; 2; 0; 0; 0; 3; 0; 0; 0; 0; 0; 0; 0; 0; 0; 0; 0; 64; 1; 0; 0; 70; 144; 2; 0; 0; 0; 255; 255; 7; 0;
  0; 0; 64; 2; 0; 0; 65; 241; 255; 255; 0; 0; 0; 0; 14; 0; 0; 0; 48; 0; 0; 0; 70; 112; 0; 0; 0; 0; 255; 255;
  19; 0; 0; 0; 0; 0; 0; 0; 65; 240; 255; 255; 0; 0; 0; 0; 25; 0; 0; 0; 112; 0; 0; 0; 70; 240; 0; 0; 0; 0; 0;
  0; 31; 0; 0; 0; 96; 0; 0; 0; 70; 208; 0; 0; 0; 0; 255; 255; 36; 0; 0; 0; 224; 1; 0; 0; 65; 240; 255; 255; 0;
  0; 0; 0; 43; 0; 0; 0; 80; 0; 0; 0; 70; 176; 0; 0; 0; 0; 0; 0; 48; 0; 0; 0; 176; 0; 0; 0; 70; 112; 1; 0; 0;
  0; 0; 0; 57; 0; 0; 0; 64; 0; 0; 0; 70; 144; 0; 0; 0; 0; 255; 255; 62; 0; 0; 0; 64; 2; 0; 0; 65; 241; 255;
  255; 0; 0; 0; 0; 68; 0; 0; 0; 160; 0; 0; 0; 70; 80; 1; 0; 0; 0; 255; 255; 77; 0; 0; 0; 64; 2; 0; 0; 65; 241;
  255; 255; 0; 0; 0; 0; 81; 0; 0; 0; 0; 0; 0; 0; 70; 16; 0; 0; 0; 0; 0; 0; 89; 0; 0; 0; 128; 0; 0; 0; 70; 16;
  1; 0; 0; 0; 255; 255; 95; 0; 0; 0; 224; 1; 0; 0; 65; 240; 255; 255; 0; 0; 0; 0; 101; 0; 0; 0; 32; 0; 0; 0;
  70; 80; 0; 0; 0; 0; 255; 255; 106; 0; 0; 0; 0; 0; 0; 0; 65; 240; 255; 255; 0; 0; 0; 0; 113; 0; 0; 0; 16; 1;
  0; 0; 70; 48; 2; 0; 0; 0; 0; 0; 118; 0; 0; 0; 240; 0; 0; 0; 70; 240; 1; 0; 0; 0; 0; 0; 130; 0; 0; 0; 224; 0;
  0; 0; 70; 208; 1; 0; 0; 0; 0; 0; 141; 0; 0; 0; 16; 0; 0; 0; 70; 48; 0; 0; 0; 0; 0; 0; 146; 0; 0; 0; 208; 0;
  0; 0; 70; 176; 1; 0; 0; 0; 3; 0; 156; 0; 0; 0; 80; 1; 0; 0; 70; 16; 0; 0; 0; 0; 0; 0; 161; 0; 0; 0; 192; 0;
  0; 0; 70; 144; 1; 0; 0; 0; 0; 0; 171; 0; 0; 0; 0; 1; 0; 0; 70; 16; 2; 0; 0; 0; 0; 0; 182; 0; 0; 0; 144; 0;
  0; 0; 70; 48; 1; 0; 0; 0; 0; 0; 190; 0; 0; 0; 48; 1; 0; 0; 70; 112; 2; 0; 0; 0; 0; 0; 206; 0; 0; 0; 32; 1;
  0; 0; 70; 80; 2; 0; 0; 0; 255; 255; 213; 0; 0; 0; 64; 2; 0; 0; 65; 241; 255; 255; 0; 0; 255; 255; 220; 0; 0;
  0; 64; 2; 0; 0; 65; 241; 255; 255; 0; 0; 255; 255; 225; 0; 0; 0; 64; 2; 0; 0; 65; 241; 255; 255].
