(* ===== verification/Coff.v ===== *)
(** * bin/coff2noff.c, bin/coff.h: making NOFF executables

    The converter from the COFF files of the cross compiler to the NOFF files
    that address spaces are loaded from: the sections are copied one behind the
    other behind a header that says where they are. *)

From Stdlib Require Import Ascii String.
From stdpp Require Import base tactics list numbers.
From S2P Require Import Prelude Machine AddrSpace Disk OpenFile Directory Host TestPrograms Text.

Local Open Scope Z_scope.

(** ** The format of COFF files, with the fields that are used *)

Definition MIPSELMAGIC : Z := 0x0162.
Definition OMAGIC : Z := 263 (* 0407 *).

Definition sizeof_filehdr : Z := 20.
Definition sizeof_aouthdr : Z := 56.
Definition sizeof_scnhdr : Z := 40.
Definition sizeof_NoffHeader : Z := 40.

(** [s_name] is the memory from the name on: the name has no terminating zero
    when it fills the eight characters of the array. *)
Record scnhdr := mkScn {
  s_name : list Z;
  s_paddr : Z;
  s_size : Z;
  s_scnptr : Z
}.

(** ** The two files *)

(** The input with the offset of fdIn, the output with the offset of fdOut. *)
Record Tool := mkTool {
  input : list Z;
  in_pos : Z;
  output : list Z;
  out_pos : Z
}.

Section Coff2noff.
(** The byte order of the host; what the header contains before it is filled. *)
Context (be : bool) (mem : NoffHeader).

(** A message, unlink of the output and exit(1). *)
Definition die {A} : M Tool A := abort.

(** A negative number of bytes is no argument for malloc and read. *)
Definition Read (nBytes : Z) : M Tool (list Z) :=
  t <- get ;;
  if nBytes <? 0 then undef
  else
    let bs := slice (in_pos t) nBytes (input t) in
    put (mkTool (input t) (in_pos t + zlength bs) (output t) (out_pos t)) ;;;
    if negb (zlength bs =? nBytes) then die else ret bs.

Definition Write (buf : list Z) : M Tool unit :=
  modify (fun t => mkTool (input t) (in_pos t) (write_at (out_pos t) buf (output t)) (out_pos t + zlength buf)).

(** lseek from the beginning; it does nothing when the offset is negative. *)
Definition lseek_in (pos : Z) : M Tool unit :=
  modify (fun t => mkTool (input t) (if pos <? 0 then in_pos t else pos) (output t) (out_pos t)).
Definition lseek_out (pos : Z) : M Tool unit :=
  modify (fun t => mkTool (input t) (in_pos t) (output t) (if pos <? 0 then out_pos t else pos)).

(** A field of a structure, converted to the byte order of the host. *)
Definition short_at (i : Z) (bs : list Z) : Z := ShortToHost be (host_load be (slice i 2 bs)).
Definition long_at (i : Z) (bs : list Z) : Z := i32 (WordToHost be (host_load be (slice i 4 bs))).

Definition scnhdr_of (bs : list Z) : scnhdr :=
  mkScn bs (long_at 8 bs) (long_at 16 bs) (long_at 20 bs).
Definition sections_of (n : Z) (bs : list Z) : list scnhdr :=
  (fun i => scnhdr_of (drop (Z.to_nat (sizeof_scnhdr * i)) bs)) <$> seqZ 0 n.

(** strcmp(name, lit) == 0 *)
Definition named (name : list Z) (lit : string) : bool :=
  bool_decide (take (S (length (text lit))) name = text lit ++ [0]).

Definition set_code (s : Segment) (h : NoffHeader) := mkNoff (noffMagic h) s (initData h) (uninitData h).
Definition set_initData (s : Segment) (h : NoffHeader) := mkNoff (noffMagic h) (code h) s (uninitData h).
Definition set_uninitData (s : Segment) (h : NoffHeader) := mkNoff (noffMagic h) (code h) (initData h) s.
Definition no_size (s : Segment) : Segment := mkSegment (virtualAddr s) (inFileAddr s) 0.

(** The three lines that copy a section. *)
Definition copy_section (s : scnhdr) : M Tool unit :=
  lseek_in (s_scnptr s) ;;; buffer <- Read (s_size s) ;; Write buffer.

(** One turn of the loop, on the header and [inNoffFile]. *)
Definition section (s : scnhdr) (h : NoffHeader) (inNoffFile : Z) : M Tool (NoffHeader * Z) :=
  if s_size s =? 0 then ret (h, inNoffFile)
  else if named (s_name s) ".text" then
    let h := set_code (mkSegment (s_paddr s) inNoffFile (s_size s)) h in
    copy_section s ;;; ret (h, i32 (inNoffFile + s_size s))
  else if named (s_name s) ".data" || named (s_name s) ".rdata" then
    if negb (size (initData h) =? 0) then die
    else
      let h := set_initData (mkSegment (s_paddr s) inNoffFile (s_size s)) h in
      copy_section s ;;; ret (h, i32 (inNoffFile + s_size s))
  else if named (s_name s) ".bss" || named (s_name s) ".sbss" then
    let u := uninitData h in
    if negb (size u =? 0) then
      if s_paddr s =? i32 (virtualAddr u + size u) then die
      else ret (set_uninitData (mkSegment (virtualAddr u) (inFileAddr u) (i32 (size u + s_size s))) h, inNoffFile)
    else ret (set_uninitData (mkSegment (s_paddr s) (inFileAddr u) (s_size s)) h, inNoffFile)
  else die.

Fixpoint sections_loop (l : list scnhdr) (h : NoffHeader) (inNoffFile : Z) : M Tool NoffHeader :=
  match l with
  | [] => ret h
  | s :: l => '(h, inNoffFile) <- section s h inNoffFile ;; sections_loop l h inNoffFile
  end.

(** The header is written as it is in the memory of the host. *)
Definition header_bytes (h : NoffHeader) : list Z := mjoin (host_store be 4 <$> header_words h).

Definition new_header : NoffHeader :=
  mkNoff NOFFMAGIC (no_size (code mem)) (no_size (initData mem)) (no_size (uninitData mem)).

(** main after the two files were opened. *)
Definition convert : M Tool unit :=
  fileh <- Read sizeof_filehdr ;;
  if negb (short_at 0 fileh =? MIPSELMAGIC) then die
  else
    systemh <- Read sizeof_aouthdr ;;
    if negb (short_at 0 systemh =? OMAGIC) then die
    else
      let numsections := short_at 2 fileh in
      sections <- Read (numsections * sizeof_scnhdr) ;;
      lseek_out sizeof_NoffHeader ;;;
      noffH <- sections_loop (sections_of numsections sections) new_header sizeof_NoffHeader ;;
      lseek_out 0 ;;;
      Write (header_bytes noffH).

(** The NOFF file that is made of a COFF file. *)
Definition coff2noff (coff : list Z) : outcome (list Z) :=
  obind (convert (mkTool coff 0 [] 0)) (fun '(_, t) => Ok (output t)).
End Coff2noff.

(** * Correctness *)

(** What the converter does with a section. *)
Inductive Kind := Empty | Text | Data | Bss | Unknown.
#[export] Instance Kind_eq_dec : EqDecision Kind.
Proof. solve_decision. Defined.

Definition kind (s : scnhdr) : Kind :=
  if s_size s =? 0 then Empty
  else if named (s_name s) ".text" then Text
  else if named (s_name s) ".data" || named (s_name s) ".rdata" then Data
  else if named (s_name s) ".bss" || named (s_name s) ".sbss" then Bss
  else Unknown.

Section Correct.
Context (be : bool) (mem : NoffHeader).
Implicit Types (l : list scnhdr) (s : scnhdr) (h : NoffHeader).

(** The bytes of a section, and those of the sections that are copied. *)
Definition contents (inp : list Z) s : list Z := slice (s_scnptr s) (s_size s) inp.
Definition copied (inp : list Z) s : list Z :=
  match kind s with Text | Data => contents inp s | _ => [] end.
Definition body (inp : list Z) l : list Z := l ≫= copied inp.

(** The only section of a kind. *)
Definition the (k : Kind) l : option scnhdr := head (filter (fun s => kind s = k) l).
Definition segment (k : Kind) h : Segment :=
  match k with Text => code h | Data => initData h | _ => uninitData h end.

Record convertible (inp : list Z) l : Prop := {
  cv_sizes : Forall (fun s => 0 <= s_size s) l;
  cv_known : Forall (fun s => kind s <> Unknown) l;
  cv_inside : Forall (fun s => kind s = Text \/ kind s = Data -> 0 <= s_scnptr s /\ s_scnptr s + s_size s <= zlength inp) l;
  cv_once : forall k, k = Text \/ k = Data \/ k = Bss -> (length (filter (fun s => kind s = k) l) <= 1)%nat
}.

(** The output with the place of the header. *)
Definition padded (out : list Z) : list Z := out ++ replicate (Z.to_nat (40 - zlength out)) 0.

Lemma write_padded out buf pos : zlength (padded out) = pos -> 40 <= pos ->
  padded (write_at pos buf out) = padded out ++ buf.
Proof.
  intros Hl Hp. unfold write_at.
  assert (replicate (Z.to_nat (pos - zlength out)) 0 = replicate (Z.to_nat (40 - zlength out)) 0) as ->.
  { f_equal. unfold padded, zlength in *. rewrite length_app, length_replicate in Hl. lia. }
  fold (padded out). unfold splice. rewrite take_ge, drop_ge, app_nil_r by (unfold zlength in *; lia).
  unfold padded at 1. replace (Z.to_nat (40 - zlength (padded out ++ buf))) with 0%nat; [apply app_nil_r|].
  rewrite zlength_app. pose proof (zlength_nonneg buf). lia.
Qed.

Lemma copy_run s inp ip out pos : 0 <= s_size s -> 0 <= s_scnptr s -> s_scnptr s + s_size s <= zlength inp ->
  zlength (padded out) = pos -> 40 <= pos ->
  exists ip' out', copy_section s (mkTool inp ip out pos) = Ok (tt, mkTool inp ip' out' (pos + s_size s)) /\
    padded out' = padded out ++ contents inp s.
Proof.
  intros Hz Hp Hin Hpos H40. assert (zlength (contents inp s) = s_size s) as Hc by by apply zlength_slice.
  eexists _, _. split; [|apply (write_padded out (contents inp s) pos Hpos H40)].
  unfold copy_section, lseek_in, Read, Write. munfold. cbn [input in_pos output out_pos].
  rewrite (proj2 (Z.ltb_ge (s_scnptr s) 0)), (proj2 (Z.ltb_ge (s_size s) 0)) by lia. fold (contents inp s).
  rewrite Hc, Z.eqb_refl. cbn [negb input in_pos output out_pos]. rewrite Hc. reflexivity.
Qed.

Lemma the_cons k s l : the k (s :: l) = if decide (kind s = k) then Some s else the k l.
Proof. unfold the. rewrite filter_cons. by case_decide. Qed.

Lemma the_once k s l inp : convertible inp (s :: l) -> kind s = k -> k = Text \/ k = Data \/ k = Bss -> the k l = None.
Proof.
  intros [_ _ _ Ho] Hk Hkk. specialize (Ho k Hkk). rewrite filter_cons_True in Ho by done. unfold the.
  destruct (filter _ l); [done|cbn in Ho; lia].
Qed.

Lemma convertible_cons inp s l : convertible inp (s :: l) ->
  0 <= s_size s /\ kind s <> Unknown /\
  (kind s = Text \/ kind s = Data -> 0 <= s_scnptr s /\ s_scnptr s + s_size s <= zlength inp) /\ convertible inp l.
Proof.
  intros [H1 H2 H3 H4]. apply Forall_cons_1 in H1 as [? ?], H2 as [? ?], H3 as [? ?]. repeat (split; [done|]).
  constructor; try done. intros k Hk. specialize (H4 k Hk). rewrite filter_cons in H4. case_decide; cbn in H4; lia.
Qed.

(** The segment of a kind describes the section of that kind. *)
Definition describes (k : Kind) (seg old : Segment) s (inp out : list Z) (pos : Z) : Prop :=
  virtualAddr seg = s_paddr s /\ size seg = s_size s /\
  if decide (k = Bss) then inFileAddr seg = inFileAddr old
  else pos <= inFileAddr seg /\ slice (inFileAddr seg) (s_size s) out = contents inp s.

Lemma section_kind s h pos t :
  section s h pos t =
  match kind s with
  | Empty => Ok (h, pos, t)
  | Text => obind (copy_section s t) (fun '(_, t) => Ok (set_code (mkSegment (s_paddr s) pos (s_size s)) h, i32 (pos + s_size s), t))
  | Data => if size (initData h) =? 0 then
              obind (copy_section s t) (fun '(_, t) => Ok (set_initData (mkSegment (s_paddr s) pos (s_size s)) h, i32 (pos + s_size s), t))
            else Aborted
  | Bss => let u := uninitData h in
           if size u =? 0 then Ok (set_uninitData (mkSegment (s_paddr s) (inFileAddr u) (s_size s)) h, pos, t)
           else if s_paddr s =? i32 (virtualAddr u + size u) then Aborted
           else Ok (set_uninitData (mkSegment (virtualAddr u) (inFileAddr u) (i32 (size u + s_size s))) h, pos, t)
  | Unknown => Aborted
  end.
Proof.
  unfold section, kind. destruct (s_size s =? 0); [done|]. destruct (named (s_name s) ".text"); [done|].
  destruct (named (s_name s) ".data" || named (s_name s) ".rdata"); [by destruct (size (initData h) =? 0)|].
  destruct (named (s_name s) ".bss" || named (s_name s) ".sbss"); [|done]. cbn.
  destruct (size (uninitData h) =? 0); [done|]. by destruct (s_paddr s =? _).
Qed.

(** A segment is as the section of its kind says, or as it was. *)
Definition described (k : Kind) h' h l inp out pos : Prop :=
  match the k l with
  | Some s => describes k (segment k h') (segment k h) s inp out pos
  | None => segment k h' = segment k h
  end.

Lemma described_later k h' h h1 s l inp out pos pos1 : kind s <> k -> segment k h1 = segment k h -> pos <= pos1 ->
  described k h' h1 l inp out pos1 -> described k h' h (s :: l) inp out pos.
Proof.
  intros Hk Hs Hp. unfold described. rewrite the_cons, decide_False by done. rewrite Hs.
  destruct (the k l); [|done]. unfold describes. case_decide; intuition lia.
Qed.

Lemma described_now k h' h h1 s l inp out pos pos1 : kind s = k -> the k l = None ->
  describes k (segment k h1) (segment k h) s inp out pos ->
  described k h' h1 l inp out pos1 -> described k h' h (s :: l) inp out pos.
Proof.
  intros Hk Hn Hd. unfold described. rewrite the_cons, decide_True, Hn by done. by intros ->.
Qed.

Lemma copied_length inp s l : convertible inp (s :: l) -> kind s = Text \/ kind s = Data -> zlength (contents inp s) = s_size s.
Proof. intros (H1 & _ & H3 & _)%convertible_cons Hk. destruct (H3 Hk). apply zlength_slice; lia. Qed.

Abbreviation a_segment k := (k = Text \/ k = Data \/ k = Bss).

(** One turn of the loop: the bytes it copies, and the segment it sets. *)
Lemma turn_run inp s l h pos ip out : convertible inp (s :: l) ->
  (forall k, k = Data \/ k = Bss -> kind s = k -> size (segment k h) = 0) ->
  zlength (padded out) = pos -> 40 <= pos -> pos + zlength (copied inp s) < 2 ^ 31 ->
  exists h1 ip1 out1, section s h pos (mkTool inp ip out pos) =
      Ok (h1, pos + zlength (copied inp s), mkTool inp ip1 out1 (pos + zlength (copied inp s))) /\
    padded out1 = padded out ++ copied inp s /\ noffMagic h1 = noffMagic h /\
    forall k, a_segment k -> if decide (kind s = k)
      then forall rest, describes k (segment k h1) (segment k h) s inp (padded out1 ++ rest) pos
      else segment k h1 = segment k h.
Proof.
  intros Hcv Hz Hpos H40 Hmax. pose proof (convertible_cons _ _ _ Hcv) as (Hsz & Hkn & Hin & _). rewrite section_kind.
  assert (kind s = Text \/ kind s = Data -> exists ip1 out1, zlength (contents inp s) = s_size s /\
    copy_section s (mkTool inp ip out pos) = Ok (tt, mkTool inp ip1 out1 (pos + s_size s)) /\
    padded out1 = padded out ++ contents inp s /\ forall rest, slice pos (s_size s) (padded out1 ++ rest) = contents inp s) as Hcopy.
  { intros Hk. destruct (Hin Hk). pose proof (copied_length inp s l Hcv Hk) as Hcl.
    destruct (copy_run s inp ip out pos) as (ip1 & out1 & E1 & Hb1); [done..|]. exists ip1, out1.
    repeat (split; [done|]). intros rest. rewrite Hb1, <- app_assoc. by apply slice_mid. }
  unfold copied in *. destruct (kind s) eqn:Ek; [| | | |done].
  - change (zlength []) with 0. rewrite Z.add_0_r. eexists h, ip, out. split; [done|]. split; [by rewrite app_nil_r|]. split; [done|].
    intros k Hk. rewrite decide_False; [done|]. by destruct Hk as [->|[->| ->]].
  - destruct Hcopy as (ip1 & out1 & Hcl & E1 & Hb1 & Hs); [by left|]. rewrite E1. cbn [obind]. rewrite Hcl in *.
    rewrite i32_id by (unfold is_i32; lia). eexists _, ip1, out1. split; [done|]. split; [done|]. split; [done|].
    intros k Hk. destruct Hk as [->|[->| ->]]; [|done..]. by rewrite decide_True by done.
  - rewrite (proj2 (Z.eqb_eq (size (initData h)) 0)) by (apply (Hz Data); auto).
    destruct Hcopy as (ip1 & out1 & Hcl & E1 & Hb1 & Hs); [by right|]. rewrite E1. cbn [obind]. rewrite Hcl in *.
    rewrite i32_id by (unfold is_i32; lia). eexists _, ip1, out1. split; [done|]. split; [done|]. split; [done|].
    intros k Hk. destruct Hk as [->|[->| ->]]; [done| |done]. by rewrite decide_True by done.
  - change (zlength []) with 0. rewrite Z.add_0_r. rewrite (proj2 (Z.eqb_eq (size (uninitData h)) 0)) by (apply (Hz Bss); auto).
    eexists _, ip, out. split; [done|]. split; [by rewrite app_nil_r|]. split; [done|].
    intros k Hk. destruct Hk as [->|[->| ->]]; [done..|]. by rewrite decide_True by done.
Qed.

(** The loop over the sections. *)
Lemma loop_run l : forall inp h pos ip out, convertible inp l ->
  (forall k s, k = Data \/ k = Bss -> the k l = Some s -> size (segment k h) = 0) ->
  zlength (padded out) = pos -> 40 <= pos -> pos + zlength (body inp l) < 2 ^ 31 ->
  exists h' ip' out', sections_loop l h pos (mkTool inp ip out pos) = Ok (h', mkTool inp ip' out' (pos + zlength (body inp l))) /\
    padded out' = padded out ++ body inp l /\ noffMagic h' = noffMagic h /\
    forall k, a_segment k -> described k h' h l inp (padded out') pos.
Proof.
  induction l as [|s l IH]; intros inp h pos ip out Hcv Hz Hpos H40 Hmax.
  { exists h, ip, out. cbn. by rewrite app_nil_r, Z.add_0_r. }
  pose proof (convertible_cons _ _ _ Hcv) as (_ & _ & _ & Hcv').
  pose proof (zlength_nonneg (body inp l)). pose proof (zlength_nonneg (copied inp s)).
  change (body inp (s :: l)) with (copied inp s ++ body inp l) in *. rewrite zlength_app in *.
  destruct (turn_run inp s l h pos ip out Hcv) as (h1 & ip1 & out1 & E1 & Hb1 & Hm1 & Hd1); try lia.
  { intros k Hk Hks. apply (Hz k s Hk). by rewrite the_cons, decide_True. }
  cbn [sections_loop]. mrun E1. set (pos1 := pos + zlength (copied inp s)) in *.
  destruct (IH inp h1 pos1 ip1 out1 Hcv') as (h' & ip' & out' & E & Hb & Hm & Hd); try lia.
  { intros k s' Hk Hs'. specialize (Hd1 k ltac:(tauto)). case_decide as Hks.
    - by rewrite (the_once k s l inp) in Hs' by tauto.
    - rewrite Hd1. apply (Hz k s' Hk). by rewrite the_cons, decide_False. }
  { rewrite Hb1, zlength_app. lia. }
  exists h', ip', out'. split; [rewrite E; do 3 f_equal; lia|]. split; [by rewrite Hb, Hb1, app_assoc|].
  split; [by rewrite Hm|]. intros k Hk. specialize (Hd k Hk). specialize (Hd1 k Hk). case_decide as Hks.
  - apply (described_now k h' h h1 s l _ _ pos pos1); [done|by eapply the_once| |done]. rewrite Hb. apply Hd1.
  - apply (described_later k h' h h1 s l _ _ pos pos1); [done|done|lia|done].
Qed.

Lemma slice_behind {A} (x x' b : list A) i n : zlength x = zlength x' -> zlength x <= i ->
  slice i n (x ++ b) = slice i n (x' ++ b).
Proof. intros Hl Hi. unfold slice, zlength in *. rewrite !drop_app_ge by lia. by replace (length x) with (length x') by lia. Qed.

Lemma zlength_header h : zlength (header_bytes be h) = 40.
Proof. unfold header_bytes, header_words, zlength. cbn [fmap list_fmap mjoin list_join]. by rewrite !length_app, !length_host_store. Qed.

Lemma Read_run inp ip n out op : 0 <= n -> 0 <= ip -> ip + n <= zlength inp ->
  Read n (mkTool inp ip out op) = Ok (slice ip n inp, mkTool inp (ip + n) out op).
Proof.
  intros Hn Hi Hl. unfold Read. munfold. cbn [input in_pos output out_pos]. rewrite (proj2 (Z.ltb_ge n 0)) by lia.
  assert (zlength (slice ip n inp) = n) as -> by by apply zlength_slice. by rewrite Z.eqb_refl.
Qed.

(** The COFF file [coff] has the sections [l]. *)
Record coff_file (coff : list Z) l : Prop := {
  cf_magic : short_at be 0 (slice 0 20 coff) = MIPSELMAGIC;
  cf_omagic : short_at be 0 (slice 20 56 coff) = OMAGIC;
  cf_count : 0 <= short_at be 2 (slice 0 20 coff);
  cf_length : 76 + short_at be 2 (slice 0 20 coff) * 40 <= zlength coff;
  cf_sections : l = sections_of be (short_at be 2 (slice 0 20 coff)) (slice 76 (short_at be 2 (slice 0 20 coff) * 40) coff)
}.

(** C19: the converter makes an executable of every COFF file whose nonempty
    sections are known, inside the file, and one of each kind at most: a header
    with the magic number of NOFF, and behind it the bytes of the code and data
    sections, where the header says that they are; each segment has the address
    and the size of its section, and a segment without a section has size 0. *)
Theorem coff2noff_correct coff l : coff_file coff l -> convertible coff l -> 40 + zlength (body coff l) < 2 ^ 31 ->
  exists h, coff2noff be mem coff = Ok (header_bytes be h ++ body coff l) /\ noffMagic h = NOFFMAGIC /\
    forall k, a_segment k ->
      match the k l with
      | Some s => virtualAddr (segment k h) = s_paddr s /\ size (segment k h) = s_size s /\
          (k <> Bss -> slice (inFileAddr (segment k h)) (s_size s) (header_bytes be h ++ body coff l) = contents coff s)
      | None => size (segment k h) = 0
      end.
Proof.
  intros [H1 H2 H3 H4 H5] Hcv Hmax. set (n := short_at be 2 (slice 0 20 coff)) in *.
  destruct (loop_run l coff (new_header mem) 40 (76 + n * 40) [] Hcv) as (h & ip & out & E & Hb & Hm & Hd); try done.
  { by intros k s [->| ->]. }
  exists h. split; [|split; [by rewrite Hm|]].
  - unfold coff2noff, convert, sizeof_filehdr, sizeof_aouthdr, sizeof_scnhdr, sizeof_NoffHeader.
    mrun (Read_run coff 0 20 [] 0 ltac:(lia) ltac:(lia) ltac:(lia)). rewrite H1. cbn [Z.eqb Pos.eqb negb MIPSELMAGIC].
    mrun (Read_run coff (0 + 20) 56 [] 0 ltac:(lia) ltac:(lia) ltac:(lia)). change (0 + 20) with 20. rewrite H2. cbn [Z.eqb Pos.eqb negb OMAGIC].
    fold n. mrun (Read_run coff (20 + 56) (n * 40) [] 0 ltac:(lia) ltac:(lia) ltac:(lia)). change (20 + 56) with 76. rewrite <- H5.
    unfold lseek_out at 1. rewrite (bind_Ok (modify _) _ _ tt (mkTool coff (76 + n * 40) [] 40)) by done. mrun E.
    cbn [obind bind modify lseek_out Write]. unfold bind, lseek_out, Write, modify, obind. cbn [input in_pos output out_pos Z.ltb Z.compare].
    f_equal. unfold write_at, splice. rewrite Nat.add_0_l, take_0. cbn [app]. f_equal.
    assert (Z.to_nat (0 - zlength out) = 0%nat) as -> by (pose proof (zlength_nonneg out); lia). cbn [replicate]. rewrite app_nil_r.
    pose proof (zlength_header h) as Hl. unfold zlength in Hl. replace (length (header_bytes be h)) with 40%nat by lia.
    unfold padded in Hb. cbn [app zlength length] in Hb. destruct (decide (zlength out < 40)) as [Hlt|Hge].
    + assert (length (body coff l) = 0%nat) as Hz.
      { apply (f_equal length) in Hb. rewrite !length_app, !length_replicate in Hb. unfold zlength in *. cbn in Hb. lia. }
      rewrite drop_ge by (unfold zlength in *; lia). symmetry. by apply nil_length_inv.
    + replace (Z.to_nat (40 - zlength out)) with 0%nat in Hb by lia. rewrite app_nil_r in Hb. rewrite Hb. by rewrite drop_app_ge.
  - intros k Hk. specialize (Hd k Hk). unfold described in Hd. destruct (the k l) as [s|] eqn:Es.
    + destruct Hd as (Ha & Hs & Hf). split; [done|]. split; [done|]. intros Hne. rewrite decide_False in Hf by done.
      destruct Hf as [H40 <-]. rewrite Hb. apply slice_behind; rewrite ?zlength_header; done.
    + rewrite Hd. by destruct Hk as [->|[->| ->]].
Qed.
End Correct.

(** What the segments of the header of code/test/random contained. *)
Definition random_mem : NoffHeader := mkNoff 0 (mkSegment 0 0 0) (mkSegment 0 0 0) (mkSegment (-1074444720) 134513511 0).
Definition random_sections : list scnhdr := sections_of false 4 (slice 76 160 test_random_coff).

Lemma coff2noff_correct_witness :
  exists h, coff2noff false random_mem test_random_coff = Ok (header_bytes false h ++ body test_random_coff random_sections) /\
    size (code h) = 416.
Proof.
  destruct (coff2noff_correct false random_mem test_random_coff random_sections) as (h & E & _ & Hs).
  - by constructor; vm_compute.
  - constructor; [apply (bool_decide_unpack _); by vm_compute..|]. intros k [->|[->| ->]]; vm_compute; lia.
  - by vm_compute.
  - exists h. split; [exact E|]. specialize (Hs Text (or_introl eq_refl)).
    assert (s_size <$> the Text random_sections = Some 416) as E2 by by vm_compute.
    destruct (the Text random_sections) as [s|]; [|done]. injection E2 as E2. destruct Hs as (_ & Hs & _). exact (eq_trans Hs E2).
Defined.
