(* ===== verification/Flat.v ===== *)
(** * bin/coff2flat.c: flat memory images

    The other converter of COFF files: it writes the sections one behind the
    other, without a header, and a word behind the stack. The structures of the
    file are those of the system headers of Ultrix; they are a parameter. *)

From Stdlib Require Import Ascii String.
From stdpp Require Import base tactics list numbers.
From S2P Require Import Prelude Text Directory Host TestPrograms Coff.

Local Open Scope Z_scope.

(** The sizes of struct filehdr, aouthdr and scnhdr, the fields that are used
    of the first two, and the array of sections. *)
Record Headers := mkHeaders {
  size_filehdr : Z;
  size_aouthdr : Z;
  size_scnhdr : Z;
  f_magic : list Z -> Z;
  f_nscns : list Z -> Z;
  magic : list Z -> Z;
  section_array : Z -> list Z -> list scnhdr
}.

(** In bytes. *)
Definition StackSize : Z := 1024.

(** The sections that take no bytes of the file. *)
Definition is_bss (s : scnhdr) : bool := named (s_name s) ".bss" || named (s_name s) ".sbss".

(** The loop over the sections; [top] is the end of the memory so far. *)
Fixpoint flat_sections (l : list scnhdr) (top : Z) : M Tool Z :=
  match l with
  | [] => ret top
  | s :: l =>
      let top := if i32 (s_paddr s + s_size s) >? top then i32 (s_paddr s + s_size s) else top in
      (if negb (is_bss s) then
         lseek_in (s_scnptr s) ;;;
         buffer <- Read (s_size s) ;;
         Write buffer
       else ret tt) ;;;
      flat_sections l top
  end.

(** main after the two files were opened. *)
Definition flatten (H : Headers) : M Tool unit :=
  fileh <- Read (size_filehdr H) ;;
  if negb (f_magic H fileh =? MIPSELMAGIC) then die
  else
    systemh <- Read (size_aouthdr H) ;;
    if negb (magic H systemh =? OMAGIC) then die
    else
      let numsections := f_nscns H fileh in
      sections <- Read (numsections * size_scnhdr H) ;;
      top <- flat_sections (section_array H numsections sections) 0 ;;
      lseek_out (i32 (top + StackSize - 4)) ;;;
      Write [0; 0; 0; 0].

Definition coff2flat (H : Headers) (coff : list Z) : outcome (list Z) :=
  obind (flatten H (mkTool coff 0 [] 0)) (fun '(_, t) => Ok (output t)).

(** The structures as bin/coff.h has them, on a little-endian host. *)
Definition coff_h : Headers :=
  mkHeaders sizeof_filehdr sizeof_aouthdr sizeof_scnhdr (short_at false 0) (short_at false 2) (short_at false 0) (sections_of false).

(** ** What is written *)

Definition bytes_of (inp : list Z) (s : scnhdr) : list Z := if is_bss s then [] else slice (s_scnptr s) (s_size s) inp.
Definition image (inp : list Z) (l : list scnhdr) : list Z := l ≫= bytes_of inp.
Definition memory_top (l : list scnhdr) : Z := foldl (fun top s => Z.max top (s_paddr s + s_size s)) 0 l.

(** A section whose bytes are in the file. *)
Definition present (inp : list Z) (s : scnhdr) : Prop :=
  0 <= s_paddr s /\ 0 <= s_size s /\ s_paddr s + s_size s < 2 ^ 31 - 1024 /\
  (is_bss s = false -> 0 <= s_scnptr s /\ s_scnptr s + s_size s <= zlength inp).

Lemma Write_end inp ip out buf : Write buf (mkTool inp ip out (zlength out)) = Ok (tt, mkTool inp ip (out ++ buf) (zlength (out ++ buf))).
Proof.
  unfold Write, modify. cbn [input in_pos output out_pos]. rewrite zlength_app. do 3 f_equal.
  unfold write_at, splice. rewrite Z.sub_diag. cbn [Z.to_nat replicate]. rewrite app_nil_r, take_ge, drop_ge by (unfold zlength; lia).
  by rewrite app_nil_r.
Qed.

Lemma flat_sections_run inp l : Forall (present inp) l -> forall top ip out, 0 <= top ->
  exists ip', flat_sections l top (mkTool inp ip out (zlength out)) =
    Ok (foldl (fun top s => Z.max top (s_paddr s + s_size s)) top l,
        mkTool inp ip' (out ++ image inp l) (zlength (out ++ image inp l))).
Proof.
  induction 1 as [|s l (Hp & Hs & Hmax & Hin) _ IH]; intros top ip out Htop; cbn [flat_sections foldl].
  { exists ip. cbn. by rewrite app_nil_r. }
  rewrite i32_id by (unfold is_i32; lia).
  assert ((if s_paddr s + s_size s >? top then s_paddr s + s_size s else top) = Z.max top (s_paddr s + s_size s)) as ->
    by (rewrite Z.gtb_ltb; case_match eqn:E; [apply Z.ltb_lt in E|apply Z.ltb_ge in E]; lia).
  assert (exists ip1, (if negb (is_bss s) then lseek_in (s_scnptr s) ;;; buffer <- Read (s_size s) ;; Write buffer else ret tt)
    (mkTool inp ip out (zlength out)) = Ok (tt, mkTool inp ip1 (out ++ bytes_of inp s) (zlength (out ++ bytes_of inp s)))) as [ip1 E1].
  { unfold bytes_of. destruct (is_bss s); [exists ip; by rewrite app_nil_r|]. destruct (Hin eq_refl). eexists. cbn [negb].
    unfold lseek_in, Read. unfold modify, get, put, ret. unfold bind. cbn [obind input in_pos output out_pos].
    rewrite (proj2 (Z.ltb_ge (s_scnptr s) 0)), (proj2 (Z.ltb_ge (s_size s) 0)) by lia.
    rewrite zlength_slice, Z.eqb_refl by lia. cbn [negb obind]. apply Write_end. }
  mrun E1. destruct (IH (Z.max top (s_paddr s + s_size s)) ip1 (out ++ bytes_of inp s)) as [ip' E]; [lia|].
  exists ip'. rewrite E. cbn [image mbind list_bind]. by rewrite <- app_assoc.
Qed.

Lemma memory_top_nonneg l : 0 <= memory_top l.
Proof.
  unfold memory_top. assert (forall t, 0 <= t -> 0 <= foldl (fun top s => Z.max top (s_paddr s + s_size s)) t l) as H; [|by apply H].
  induction l as [|s l IH]; intros t Ht; cbn [foldl]; [done|]. apply IH. lia.
Qed.

Lemma memory_top_bound inp l : Forall (present inp) l -> memory_top l < 2 ^ 31 - 1024.
Proof.
  intros Hl. unfold memory_top.
  assert (forall t, t < 2 ^ 31 - 1024 -> foldl (fun top s => Z.max top (s_paddr s + s_size s)) t l < 2 ^ 31 - 1024) as H; [|by apply H].
  induction Hl as [|s l (_ & _ & Hm & _) _ IH]; intros t Ht; cbn [foldl]; [done|]. apply IH. lia.
Qed.

(** The flat file: the bytes of the sections in the order of the section table,
    each behind those before it and not at its address, zeros up to the end of
    the memory of the program, and the stack. A section is where the program
    expects it if and only if its address is the sum of the sizes of the
    sections with bytes before it. *)
Theorem coff2flat_layout (H : Headers) inp n l :
  0 <= size_filehdr H -> 0 <= size_aouthdr H -> 0 <= n * size_scnhdr H ->
  size_filehdr H + size_aouthdr H + n * size_scnhdr H <= zlength inp ->
  f_magic H (slice 0 (size_filehdr H) inp) = MIPSELMAGIC -> f_nscns H (slice 0 (size_filehdr H) inp) = n ->
  magic H (slice (size_filehdr H) (size_aouthdr H) inp) = OMAGIC ->
  section_array H n (slice (size_filehdr H + size_aouthdr H) (n * size_scnhdr H) inp) = l ->
  Forall (present inp) l -> zlength (image inp l) <= memory_top l + 1020 ->
  exists flat, coff2flat H inp = Ok flat /\
    flat = image inp l ++ replicate (Z.to_nat (memory_top l + 1024 - zlength (image inp l))) 0 /\
    forall l1 s l2, l = l1 ++ s :: l2 -> is_bss s = false ->
      slice (zlength (image inp l1)) (s_size s) flat = slice (s_scnptr s) (s_size s) inp.
Proof.
  intros H1 H2 H3 Hlen Hmag Hn Hmag2 Harr Hl Hfit. eexists. split; [|split; [reflexivity|]].
  - pose proof (memory_top_nonneg l) as Ht0. pose proof (memory_top_bound inp l Hl) as Ht1.
    assert (forall p k out op, 0 <= p -> 0 <= k -> p + k <= zlength inp ->
      Read k (mkTool inp p out op) = Ok (slice p k inp, mkTool inp (p + k) out op)) as HRead.
    { intros p k out op Hp Hk Hpk. unfold Read. munfold. cbn [input in_pos output out_pos].
      rewrite (proj2 (Z.ltb_ge k 0)) by lia. by rewrite zlength_slice, Z.eqb_refl by lia. }
    unfold coff2flat, flatten. mrun (HRead 0 (size_filehdr H) [] 0 ltac:(lia) H1 ltac:(lia)). rewrite Hmag, Z.eqb_refl. cbn [negb].
    rewrite Z.add_0_l. mrun (HRead (size_filehdr H) (size_aouthdr H) [] 0 ltac:(lia) H2 ltac:(lia)). rewrite Hmag2, Z.eqb_refl. cbn [negb].
    rewrite Hn. mrun (HRead (size_filehdr H + size_aouthdr H) (n * size_scnhdr H) [] 0 ltac:(lia) H3 ltac:(lia)). rewrite Harr.
    destruct (flat_sections_run inp l Hl 0 (size_filehdr H + size_aouthdr H + n * size_scnhdr H) []) as [ip E]; [lia|].
    change (zlength []) with 0 in E. mrun E. fold (memory_top l). cbn [app].
    unfold lseek_out, Write, modify. unfold bind. cbn [obind input in_pos output out_pos]. unfold StackSize.
    rewrite i32_id by (unfold is_i32; lia). rewrite (proj2 (Z.ltb_ge _ 0)) by lia. f_equal.
    unfold write_at, splice. set (k := Z.to_nat (memory_top l + 1024 - 4 - zlength (image inp l))).
    rewrite take_ge, drop_ge, app_nil_r by (rewrite length_app, length_replicate; unfold k, zlength in *; cbn [length]; lia).
    rewrite <- app_assoc. f_equal. change [0; 0; 0; 0] with (replicate 4 0). rewrite <- replicate_add. f_equal. unfold k. lia.
  - intros l1 s l2 -> Hs. apply Forall_app in Hl as [_ Hl]. apply Forall_cons_1 in Hl as [(_ & Hsz & _ & Hin) _].
    destruct (Hin Hs). unfold image at 2. rewrite bind_app. cbn [mbind list_bind]. unfold bytes_of at 2. rewrite Hs.
    rewrite <- !app_assoc. by apply slice_mid; [|rewrite zlength_slice by lia].
Qed.

(** A shipped file: text and read-only data, contiguous from address 0, and the
    stack. *)
Example coff2flat_random :
  (fun o => match o with Ok flat => (zlength flat, slice 0 448 flat) | _ => (0, []) end) (coff2flat coff_h test_random_coff) =
  (448 + 1024, slice 240 416 test_random_coff ++ slice 656 32 test_random_coff).
Proof. by vm_compute. Qed.
