(* ===== verification/Whole.v ===== *)
(** * Nachos as a whole

    The kernel of the previous files booted on a small UNIX, running user
    programs in the machine code of the simulator. *)

From Stdlib Require Import Ascii String.
From stdpp Require Import base tactics list numbers gmap.
From S2P Require Import Prelude Lists Interrupt Machine Mips BitMap AddrSpace Disk OpenFile Directory FileSys SysDep Threads ThreadsRuns UserRun System Console UserProg Process Syscall Boot Host TestPrograms Coff Text.

Local Open Scope Z_scope.

(** ** Programs in machine code *)

(** addiu r, r0, v; addu d, s, r0; syscall *)
Definition li (r v : Z) : Z := assemble_i 9 0 r v.
Definition mv (d s : Z) : Z := assemble_r s 0 d 0 33.
Definition syscall_ : Z := assemble_r 0 0 0 0 12.

Definition words (l : list Z) : list Z := l ≫= (fun w => le_encode 4 w).

(** An executable with code and initialised data, which follows the code in
    memory and in the file. *)
Definition executable (code data : list Z) : list Z :=
  words [NOFFMAGIC; 0; 40; 4 * zlength code; 4 * zlength code; 40 + 4 * zlength code; zlength data; 0; 0; 0] ++
  words code ++ data.

(** [r2 = sc(r4 = ...)]: one system call. *)
Definition sys (sc : Z) : list Z := [li 2 sc; syscall_].

(** The name "b", at the end of the code of the programs below. *)
Definition name_b : list Z := [98; 0; 0; 0].

(** PrintNum(Join(Exec("b"))); Halt(). *)
Definition program_one : list Z := executable
  ([li 4 48] ++ sys SC_Exec ++ [mv 4 2] ++ sys SC_Join ++ [mv 4 2] ++ sys SC_PrintNum ++ sys SC_Halt ++ [0]) name_b.

(** first = Exec("b"); Exec("b"); PrintNum(Join(first)); Halt(). *)
Definition program_two : list Z := executable
  ([li 4 64] ++ sys SC_Exec ++ [mv 16 2; li 4 64] ++ sys SC_Exec ++ [mv 4 16] ++ sys SC_Join ++ [mv 4 2] ++
   sys SC_PrintNum ++ sys SC_Halt ++ [0]) name_b.

(** The program "b": Exit(42). *)
Definition program_b : list Z := executable ([li 4 42] ++ sys SC_Exit ++ [0]) [].

(** CreateSemaphore("b", 1); Wait("b"); Halt(). *)
Definition program_wait : list Z := executable
  ([li 4 36; li 5 1] ++ sys SC_CreateSemaphore ++ [li 4 36] ++ sys SC_Wait ++ sys SC_Halt) name_b.

(** ** The machine it is booted on *)

Definition host (files : gmap (list Z) (list Z)) (keys : list Z) : Host := mkHost files empty keys [] 0.

Abbreviation OSState := (Sim (Kernel (OS (Stub Host)))).

Definition blank_entry : TranslationEntry := mkEntry 0 0 false false false false.
Definition blank_memory : UserMem := mkUser (Machine_new false false blank_entry) (mkBitMap 0 0 []).
Definition blank_os (h : Host) : OS (Stub Host) :=
  mkOS blank_memory (mkStub h [] []) empty (mkPTable (mkBitMap 0 0 []) [] 0%nat) (mkSTable (mkBitMap 0 0 []) [])
    0%nat empty empty 0%nat (mkConsoleVars 0 0 0 0 0 0)%nat.
Definition blank_sim (h : Host) : OSState :=
  mkSim Interrupt_new Statistics_new (mkKernel empty [] 0%nat None empty empty (blank_os h)).

(** Memory that is not initialised holds zeros. *)
Definition zero_memory : SyscallGarbage :=
  mkSyscallGarbage (fun _ => 0) 0 (replicate (Z.to_nat NumTotalRegs) 0) 0
    (mkSpaceGarbage (mkSpace None 0) (replicate 40 0) blank_entry 0).

Definition devices := kernel_devices (W := Host) (F := Stub Host) false.
Definition user_code := user_thread_code (File := nat) false devices kernel_DelayedLoad zero_memory.
Definition nachos (h : Host) (argv : list (list Z)) : config :=
  mkConfig (main (File := nat) false devices kernel_DelayedLoad zero_memory (fun _ => Stub_new) (fun _ => 0)
              blank_entry argv) ∅ (blank_sim h).
Definition run_nachos (n : nat) (h : Host) (argv : list (list Z)) := run devices kernel_DelayedLoad user_code n (nachos h argv).

(** ** Runs of the whole system *)

(** [nachos -x a] with the program [p] in the file "a" and [program_b] in the
    file "b", and what is observed of it when it halts. *)
Definition at_halt {A} (fuel : Z) (p keys : list Z) (f : Host -> A) : option A :=
  (fun c => f (unix (fileSystem (user (rest (state c)))))) <$>
    last_state devices kernel_DelayedLoad user_code (Z.to_nat fuel)
      (nachos (host {[[97] := p; [98] := program_b]} keys) [flag_x; [97]]).

(** What the last segment of code/test/createfile contained. *)
Definition createfile_mem : NoffHeader := mkNoff 0 (mkSegment 0 0 0) (mkSegment 0 0 0) (mkSegment (-1080085632) 134513511 0).

Definition blanks (n : Z) : list Z := replicate (Z.to_nat n) 0.

(** From boot to halt: a user program that executes another, waits for it
    and prints its exit code prints 42, and the machine halts. With a second
    instance of the same program it prints 0: Exit finds the process by the
    name of the program, and records the exit code of the first instance in the
    slot of the second. *)
Example Exec_Join_Exit_run :
  at_halt 400 program_one [] display = Some (text "42") /\
  at_halt 600 program_two [] display = Some (text "0").
Proof. by vm_compute. Qed.

(** The executables of code/test run on the kernel: random prints its line,
    and createfile asks for a name, reads it from the keyboard, creates the
    file and reports success. Every PrintString writes 255 characters. And
    they are what coff2noff makes of the COFF files beside them, where the part
    of the header it does not set is as in the executables. *)
Example shipped_programs_run :
  at_halt 20000 test_random [] display =
    Some ([10] ++ text "Random thanh cong" ++ [10] ++ blanks 236) /\
  at_halt 20000 test_createfile (text "new" ++ [10]) (fun h => (display h, host_files h !! text "new")) =
    Some (text "Please enter your filename to create: " ++ [10] ++ blanks 216 ++
          text "Create file successfully! " ++ [10] ++ blanks 228, Some []) /\
  match coff2noff false random_mem test_random_coff, coff2noff false createfile_mem test_createfile_coff with
  | Ok out1, Ok out2 => u8 <$> out1 = test_random /\ u8 <$> out2 = test_createfile
  | _, _ => False
  end.
Proof. by vm_compute. Qed.

(** CreateSemaphore deletes the name it gave to the semaphore: the program
    that waits for a semaphore it has just created, and test/main, which
    creates two semaphores, read a deleted name. *)
Theorem CreateSemaphore_dangling :
  run_nachos 100 (host {[[97] := program_wait]} []) [flag_x; [97]] = Undef /\
  run_nachos 2000 (host {[[97] := test_main]} []) [flag_x; [97]] = Undef.
Proof. by vm_compute. Qed.
