(* ===== verification/UserPrograms.v ===== *)
(** * test/sort.c, ascii.c, help.c, random.c, createfile.c: user programs

    What a user program does is the sequence of system calls it makes (the
    prototypes are in userprog/syscall.h), as a function of the answers of the
    kernel. Halt does not return, so it is the last call of a path. The
    compiled forms of random.c and createfile.c run in Whole.v; here are the
    sources, with two ways to sort an array. *)

From Stdlib Require Import Ascii String Sorted.
From stdpp Require Import base tactics list numbers.
From S2P Require Import Prelude Text.

Local Open Scope Z_scope.

(** ** System calls *)

(** The calls with their arguments; those that have one, with their answer. *)
Inductive syscall_event :=
| PrintString_ (s : list Z)
| PrintNum_ (n : Z)
| PrintChar_ (c : Z)
| ReadNum_ (answer : Z)
| RandomNum_ (answer : Z)
| ReadString_ (buffer length : Z)
| CreateFile_ (name answer : Z)
| Halt_.

(** The state of a run: the global array [A] of sort.c, the numbers the kernel
    will answer, and the calls made so far. *)
Record Run := mkRun { A : list Z; answers : list Z; calls : list syscall_event }.
Abbreviation U := (M Run).

Definition call (e : syscall_event) : U unit := modify (fun r => mkRun (A r) (answers r) (calls r ++ [e])).
Definition answer : U Z :=
  r <- get ;;
  match answers r with
  | a :: l => put (mkRun (A r) l (calls r)) ;;; ret a
  | [] => undef
  end.

Definition PrintString (s : list Z) : U unit := call (PrintString_ s).
Definition PrintNum (n : Z) : U unit := call (PrintNum_ n).
Definition PrintChar (c : Z) : U unit := call (PrintChar_ c).
Definition ReadNum : U Z := a <- answer ;; call (ReadNum_ a) ;;; ret a.
Definition RandomNum : U Z := a <- answer ;; call (RandomNum_ a) ;;; ret a.
Definition ReadString (buffer length : Z) : U unit := call (ReadString_ buffer length).
Definition CreateFile (name : Z) : U Z := a <- answer ;; call (CreateFile_ name a) ;;; ret a.
Definition Halt : U unit := call Halt_.

Definition nl (s : string) : list Z := 10 :: text s.

(** ** test/random.c, createfile.c, help.c *)

Definition random_main : U unit :=
  _ <- RandomNum ;;
  PrintString (nl "Random thanh cong" ++ [10]) ;;;
  Halt.

(** [filename] is the value of the variable, which is not initialised. *)
Definition createfile_main (filename : Z) : U unit :=
  PrintString (text "Please enter your filename to create: " ++ [10]) ;;;
  ReadString filename 100 ;;;
  check <- CreateFile filename ;;
  (if check =? 0 then PrintString (text "Create file successfully! " ++ [10])
   else PrintString (text "Create file failed! " ++ [10])) ;;;
  Halt.

Definition rule : list Z := nl "------------------------------------------------------".

Definition help_main : U unit :=
  PrintString (nl "Mon HE DIEU HANH - DO AN 1") ;;;
  PrintString rule ;;;
  PrintString (nl "CAC THANH VIEN NHOM:") ;;;
  PrintString (nl "19120685 - Vo Ngoc Tin - ngoctinvo2001@gmail.com") ;;;
  PrintString (nl "19120390 - Trinh Thi Thuy - trinhthuy210100@gmail.com") ;;;
  PrintString (nl "19120580 - Le Duc Minh - ldminh852001@gmail.com" ++ [10]) ;;;
  PrintString rule ;;;
  PrintString (nl "CHUONG TRINH ASCII") ;;;
  PrintString (nl "Chuong trinh se in cac ky tu theo ma ascii tu 0 - 255 tren tung dong,") ;;;
  PrintString (nl "moi dong gom: ky tu - ma ascii tuong ung") ;;;
  PrintString (nl "Luu y: khong in ra cac ky tu dac biet" ++ [10]) ;;;
  PrintString rule ;;;
  PrintString (nl "CHUONG TRINH SORT") ;;;
  PrintString (nl "Nguoi dung nhap vao chieu dai n cua mang (n la so nguyen < 100),") ;;;
  PrintString (nl "Nguoi dung nhap lan luot n phan tu,") ;;;
  PrintString (nl "Sau do, nguoi dung chon thu tu sap xep mang tang dan (nhap 1) /giam dan (nhap 0)") ;;;
  PrintString (nl "Chuong trinh se in ra man hinh mang n phan tu duoc sap xep theo yeu cau" ++ [10]) ;;;
  Halt.

(** ** test/ascii.c

    [c] is an unsigned char: the condition of the loop always holds, the break
    ends it. The argument of PrintChar is a char. *)

Definition ascii_turn (c : Z) : U (Z * bool) :=
  if c <=? 255 then
    PrintChar (i8 c) ;;;
    PrintString (text " - ") ;;;
    PrintNum c ;;;
    PrintString [10] ;;;
    if c =? 255 then ret (c, false) else ret (u8 (c + 1), true)
  else ret (c, false).

Definition ascii_main : U unit :=
  r <- while_ 256 0 ascii_turn ;;
  _ <- must r ;;
  Halt.

(** One line for every character, each once, and the end. *)
Lemma ascii_main_prints A0 ans :
  ascii_main (mkRun A0 ans []) = Ok (tt, mkRun A0 ans
    ((seqZ 0 256 ≫= (fun c => [PrintChar_ (i8 c); PrintString_ (text " - "); PrintNum_ c; PrintString_ [10]])) ++ [Halt_])).
Proof. by vm_compute. Qed.

(** ** test/sort.c *)

Definition get_A (i : Z) : U Z := r <- get ;; must (zlookup (A r) i).
Definition set_A (i v : Z) : U unit :=
  r <- get ;;
  l <- must (store i v (A r)) ;;
  put (mkRun l (answers r) (calls r)).

Definition read_numbers (n : Z) : U unit :=
  for_ 0 (Z.to_nat n) (fun i =>
    PrintString (text "Nhap A[") ;;;
    PrintNum i ;;;
    PrintString (text "] = ") ;;;
    v <- ReadNum ;;
    set_A i v).

Definition ascending (n : Z) : U unit :=
  for_ 0 (Z.to_nat (n - 1)) (fun i =>
    for_ 0 (Z.to_nat (n - i - 1)) (fun j =>
      a <- get_A j ;; b <- get_A (j + 1) ;;
      if a >? b then
        tmp <- get_A j ;;
        b <- get_A (j + 1) ;;
        set_A j b ;;;
        set_A (j + 1) tmp
      else ret tt)).

Definition descending (n : Z) : U unit :=
  for_ 0 (Z.to_nat (n - 1)) (fun i =>
    for_ (i + 1) (Z.to_nat (n - (i + 1))) (fun j =>
      a <- get_A i ;; b <- get_A j ;;
      if a <? b then
        tmp <- get_A j ;;
        a <- get_A i ;;
        set_A j a ;;;
        set_A i tmp
      else ret tt)).

Definition print_numbers (n : Z) : U unit :=
  for_ 0 (Z.to_nat n) (fun i =>
    a <- get_A i ;;
    PrintNum a ;;;
    PrintString (text "  ")).

(** From the first loop on. *)
Definition sort_numbers (n : Z) : U unit :=
  read_numbers n ;;;
  PrintString (nl "Sap xep mang theo thu tu tang dan (nhap 1) hay giam dan (nhap 0)?:  ") ;;;
  z <- ReadNum ;;
  (if z =? 1 then ascending n else descending n) ;;;
  PrintString (nl "Mang sau khi sap xep: " ++ [10; 32]) ;;;
  print_numbers n ;;;
  PrintString [10] ;;;
  Halt.

Definition sort_main : U unit :=
  PrintString (nl "CHUONG TRINH SORT") ;;;
  PrintString (nl "-------------------------------------------") ;;;
  PrintString (nl "Nhap so nguyen n - so phan tu cua mang (<= 100 ) : ") ;;;
  n <- ReadNum ;;
  if n >? 100 then
    PrintString (nl "Nhap qua gioi han cho phep " ++ [10]) ;;; Halt
  else if n <? 1 then
    PrintString (nl "Nhap nho hon gioi han cho phep " ++ [10]) ;;; Halt
  else sort_numbers n.

Example sort_main_runs :
  (fun o => match o with Ok (_, r) => take 4 (A r) | _ => [] end)
    (sort_main (mkRun (replicate 100 0) [4; 3; -1; 7; 3; 1] [])) = [-1; 3; 3; 7].
Proof. by vm_compute. Qed.

(** ** Exchanging two elements *)

Definition at_ (l : list Z) (i : Z) : Z := default 0 (zlookup l i).
Definition swap (l : list Z) (i j : Z) : list Z := zinsert j (at_ l i) (zinsert i (at_ l j) l).
Definition with_A (l : list Z) (r : Run) : Run := mkRun l (answers r) (calls r).

Lemma with_A_same r : with_A (A r) r = r.
Proof. by destruct r. Qed.

Section Swap.
Context (l : list Z) (i j : Z) (Hi : 0 <= i < zlength l) (Hj : 0 <= j < zlength l) (Hij : i <> j).

Lemma at_lookup k : 0 <= k < zlength l -> zlookup l k = Some (at_ l k).
Proof. intros [x Hx]%zlookup_is_Some. unfold at_. by rewrite Hx. Qed.

Lemma zlength_swap : zlength (swap l i j) = zlength l.
Proof. unfold swap. by rewrite !zlength_zinsert. Qed.

Lemma at_swap k : at_ (swap l i j) k = if decide (k = i) then at_ l j else if decide (k = j) then at_ l i else at_ l k.
Proof using All.
  unfold at_ at 1, swap. rewrite !zlookup_zinsert, zlength_zinsert.
  destruct (decide (k = i)), (decide (k = j)); subst; repeat case_decide; done || lia.
Qed.

Lemma swap_perm : swap l i j ≡ₚ l.
Proof using All.
  assert (forall (m : list Z) (p q : nat) x y, (p < q)%nat -> m !! p = Some x -> m !! q = Some y ->
    <[q := x]> (<[p := y]> m) ≡ₚ m) as Hnat.
  { intros m p q x y Hpq Hp Hq. rewrite <- (take_drop_middle m p x Hp) in Hq |- *.
    set (l1 := take p m) in *. set (l2 := drop (S p) m) in *.
    assert (length l1 = p) as Hl1 by (apply length_take_le; apply lookup_lt_Some in Hp; lia).
    rewrite lookup_app_r in Hq by lia. replace (q - length l1)%nat with (S (q - S p)) in Hq by lia. cbn in Hq.
    rewrite <- (take_drop_middle l2 _ y Hq). set (l3 := take _ l2). set (l4 := drop _ l2).
    assert (length l3 = (q - S p)%nat) as Hl3 by (apply length_take_le; apply lookup_lt_Some in Hq; lia).
    rewrite !insert_app_r_alt by lia. replace (p - length l1)%nat with O by lia.
    replace (q - length l1)%nat with (S (q - S p)) by lia. simpl.
    rewrite insert_app_r_alt by lia. rewrite Hl3, Nat.sub_diag. simpl.
    apply Permutation_app_head. rewrite <- !Permutation_middle. constructor. }
  pose proof (at_lookup i Hi) as Ei. pose proof (at_lookup j Hj) as Ej.
  apply zlookup_Some in Ei as [_ Ei], Ej as [_ Ej]. unfold swap, zinsert.
  rewrite !(proj2 (Z.ltb_ge _ 0)) by lia. destruct (decide (i < j)).
  - apply Hnat; [lia|done|done].
  - rewrite list_insert_insert_ne by lia. apply Hnat; [lia|done|done].
Qed.
End Swap.

Lemma get_A_run r i : 0 <= i < zlength (A r) -> get_A i r = Ok (at_ (A r) i, r).
Proof. intros Hi. unfold get_A. munfold. by rewrite at_lookup. Qed.

Lemma set_A_run r i v : 0 <= i < zlength (A r) -> set_A i v r = Ok (tt, with_A (zinsert i v (A r)) r).
Proof. intros Hi. unfold set_A. munfold. by rewrite (proj2 (store_Some _ _ _ _) (conj Hi eq_refl)). Qed.

(** The exchange in the bodies of the loops. *)
Lemma exchange_run r i j :
  0 <= i < zlength (A r) -> 0 <= j < zlength (A r) ->
  (tmp <- get_A i ;; b <- get_A j ;; set_A i b ;;; set_A j tmp) r = Ok (tt, with_A (swap (A r) i j) r).
Proof.
  intros Hi Hj. mrun (get_A_run r i Hi). mrun (get_A_run r j Hj). mrun (set_A_run r i (at_ (A r) j) Hi).
  by rewrite set_A_run by (cbn; by rewrite zlength_zinsert).
Qed.

(** ** The two sorts *)

(** Only the first [n] elements have changed places. *)
Record arranged (n : Z) (l0 l : list Z) : Prop := {
  ar_length : zlength l = zlength l0;
  ar_perm : l ≡ₚ l0;
  ar_rest : drop (Z.to_nat n) l = drop (Z.to_nat n) l0
}.

Lemma arranged_refl n l : arranged n l l.
Proof. done. Qed.

Lemma arranged_swap n l0 l i j : arranged n l0 l -> 0 <= n <= zlength l0 ->
  0 <= i < n -> 0 <= j < n -> i <> j -> arranged n l0 (swap l i j).
Proof.
  intros [Hl Hp Hr] Hn Hi Hj Hij. constructor.
  - by rewrite zlength_swap.
  - rewrite swap_perm; [done|lia..].
  - rewrite <- Hr. unfold swap, zinsert. rewrite !(proj2 (Z.ltb_ge _ 0)) by lia.
    by rewrite !drop_insert_lt by lia.
Qed.

(** The first [n] elements are a permutation of what they were. *)
Lemma arranged_take n l0 l : arranged n l0 l -> take (Z.to_nat n) l ≡ₚ take (Z.to_nat n) l0.
Proof.
  intros [_ Hp Hr]. apply (Permutation_app_inv_r (drop (Z.to_nat n) l)).
  by rewrite take_drop, Hr, take_drop.
Qed.

Section Sorts.
Context (n : Z) (r : Run) (Hn : 1 <= n <= zlength (A r)).

Lemma arranged_at l i : arranged n (A r) l -> 0 <= i < n -> get_A i (with_A l r) = Ok (at_ l i, with_A l r).
Proof. intros [Hl _ _] Hi. apply get_A_run. cbn. lia. Qed.

Lemma arranged_exchange l i j : arranged n (A r) l -> 0 <= i < n -> 0 <= j < n -> i <> j ->
  (tmp <- get_A i ;; b <- get_A j ;; set_A i b ;;; set_A j tmp) (with_A l r) = Ok (tt, with_A (swap l i j) r) /\
  arranged n (A r) (swap l i j) /\
  forall k, at_ (swap l i j) k = if decide (k = i) then at_ l j else if decide (k = j) then at_ l i else at_ l k.
Proof.
  intros Ha Hi Hj Hij. pose proof (ar_length _ _ _ Ha) as Hl. split_and!.
  - exact (exchange_run (with_A l r) i j ltac:(cbn; lia) ltac:(cbn; lia)).
  - by apply arranged_swap; try lia.
  - intros k. apply at_swap; lia.
Qed.

(** Behind index [n - i] every element is at least as large as those before it. *)
Definition above (i : Z) (l : list Z) : Prop :=
  forall p q, 0 <= p <= q -> q < n -> n - i <= q -> at_ l p <= at_ l q.

Lemma ascending_run : exists l, ascending n r = Ok (tt, with_A l r) /\ arranged n (A r) l /\
  forall p q, 0 <= p <= q -> q < n -> at_ l p <= at_ l q.
Proof.
  unfold ascending.
  loop_for (fun i s => exists l, s = with_A l r /\ arranged n (A r) l /\ above i l)
    as (s & E & l & -> & Ha & Hs).
  2: { exists (A r). split; [symmetry; apply with_A_same|]. split; [apply arranged_refl|]. intros p q. lia. }
  - intros i s Hi (l & -> & Ha & Hs). cbn beta.
    loop_for (fun j s => exists l, s = with_A l r /\ arranged n (A r) l /\ above i l /\
      forall p, 0 <= p <= j -> at_ l p <= at_ l j) as (s & E & l' & -> & Ha' & Hs' & Hm).
    2: { exists l. split; [done|]. split; [done|]. split; [done|]. intros p Hp. by replace p with 0 by lia. }
    + intros j s Hj (m & -> & Hma & Hms & Hmm). cbn beta.
      mrun (arranged_at m j Hma ltac:(lia)). mrun (arranged_at m (j + 1) Hma ltac:(lia)).
      rewrite Z.gtb_ltb. destruct (Z.ltb_spec (at_ m (j + 1)) (at_ m j)) as [Hlt|Hge].
      * destruct (arranged_exchange m j (j + 1) Hma) as (E & Hea & Hat); [lia..|]. rewrite E.
        eexists. split; [done|]. eexists. split; [done|]. split; [done|]. split.
        -- intros p q Hp Hq Hqi. rewrite !Hat. pose proof (Hms j q). pose proof (Hms (j + 1) q). pose proof (Hms p q).
           repeat case_decide; lia.
        -- intros p Hp. rewrite !Hat. pose proof (Hmm p). repeat case_decide; lia.
      * eexists. split; [done|]. exists m. split; [done|]. split; [done|]. split; [done|].
        intros p Hp. destruct (decide (p = j + 1)) as [->|]; [done|]. specialize (Hmm p). lia.
    + exists (with_A l' r). split; [exact E|]. exists l'. split; [done|]. split; [done|].
      intros p q Hp Hq Hqi. destruct (decide (q = n - i - 1)) as [->|]; [|apply Hs'; lia].
      replace (0 + Z.of_nat (Z.to_nat (n - i - 1))) with (n - i - 1) in Hm by lia. apply Hm. lia.
  - exists l. split; [done|]. split; [done|]. intros p q Hp Hq.
    destruct (decide (q = 0)) as [->|]; [by replace p with 0 by lia|]. apply Hs; lia.
Qed.

(** The first [i] elements are at least as large as those behind them. *)
Definition below (i : Z) (l : list Z) : Prop :=
  forall p q, 0 <= p <= q -> q < n -> p < i -> at_ l q <= at_ l p.

Lemma descending_run : exists l, descending n r = Ok (tt, with_A l r) /\ arranged n (A r) l /\
  forall p q, 0 <= p <= q -> q < n -> at_ l q <= at_ l p.
Proof.
  unfold descending.
  loop_for (fun i s => exists l, s = with_A l r /\ arranged n (A r) l /\ below i l)
    as (s & E & l & -> & Ha & Hs).
  2: { exists (A r). split; [symmetry; apply with_A_same|]. split; [apply arranged_refl|]. intros p q. lia. }
  - intros i s Hi (l & -> & Ha & Hs). cbn beta.
    loop_for (fun j s => exists l, s = with_A l r /\ arranged n (A r) l /\ below i l /\
      forall q, i <= q < j -> at_ l q <= at_ l i) as (s & E & l' & -> & Ha' & Hs' & Hm).
    2: { exists l. split; [done|]. split; [done|]. split; [done|]. intros q Hq. by replace q with i by lia. }
    + intros j s Hj (m & -> & Hma & Hms & Hmm). cbn beta.
      mrun (arranged_at m i Hma ltac:(lia)). mrun (arranged_at m j Hma ltac:(lia)).
      destruct (Z.ltb_spec (at_ m i) (at_ m j)) as [Hlt|Hge].
      * destruct (arranged_exchange m j i Hma) as (E & Hea & Hat); [lia..|]. rewrite E.
        eexists. split; [done|]. eexists. split; [done|]. split; [done|]. split.
        -- intros p q Hp Hq Hqi. rewrite !Hat. pose proof (Hms p i). pose proof (Hms p j). pose proof (Hms p q).
           repeat case_decide; lia.
        -- intros q Hq. rewrite !Hat. pose proof (Hmm q). repeat case_decide; lia.
      * eexists. split; [done|]. exists m. split; [done|]. split; [done|]. split; [done|].
        intros q Hq. destruct (decide (q = j)) as [->|]; [done|]. apply Hmm. lia.
    + exists (with_A l' r). split; [exact E|]. exists l'. split; [done|]. split; [done|].
      intros p q Hp Hq Hpi. destruct (decide (p = i)) as [->|]; [apply Hm; lia|apply Hs'; lia].
  - exists l. split; [done|]. split; [done|]. intros p q Hp Hq.
    destruct (decide (p = n - 1)) as [->|]; [by replace q with (n - 1) by lia|]. apply Hs; lia.
Qed.
End Sorts.

(** ** Reading and printing *)

(** The calls that ask for [xs], from index [i] on, and those that show [ys]. *)
Fixpoint asked (i : Z) (xs : list Z) : list syscall_event :=
  match xs with
  | [] => []
  | x :: l => [PrintString_ (text "Nhap A["); PrintNum_ i; PrintString_ (text "] = "); ReadNum_ x] ++ asked (i + 1) l
  end.
Definition shown (ys : list Z) : list syscall_event := ys ≫= (fun y => [PrintNum_ y; PrintString_ (text "  ")]).

Lemma read_loop rest xs : forall lo pre old cs, zlength pre = lo -> (length xs <= length old)%nat ->
  for_ lo (length xs) (fun i =>
    PrintString (text "Nhap A[") ;;;
    PrintNum i ;;;
    PrintString (text "] = ") ;;;
    v <- ReadNum ;;
    set_A i v) (mkRun (pre ++ old) (xs ++ rest) cs) =
  Ok (tt, mkRun (pre ++ xs ++ drop (length xs) old) rest (cs ++ asked lo xs)).
Proof.
  induction xs as [|x xs IH]; intros lo pre old cs Hlo Hold; cbn [length for_ asked].
  { cbn. by rewrite app_nil_r. }
  destruct old as [|o old]; cbn in Hold; [lia|].
  match goal with |- (?b ;;; _) ?s = _ =>
    assert (b s = Ok (tt, mkRun ((pre ++ [x]) ++ old) (xs ++ rest)
      (cs ++ [PrintString_ (text "Nhap A["); PrintNum_ lo; PrintString_ (text "] = "); ReadNum_ x]))) as E end.
  - unfold PrintString, PrintNum, ReadNum, call, answer, set_A. munfold. cbn [app A answers calls].
    assert (store lo x (pre ++ o :: old) = Some ((pre ++ [x]) ++ old)) as ->.
    { apply store_Some. unfold zlength in *. rewrite length_app. cbn [length]. split; [lia|].
      unfold zinsert. rewrite (proj2 (Z.ltb_ge _ 0)) by lia. rewrite insert_app_r_alt by lia.
      replace (Z.to_nat lo - length pre)%nat with O by lia. cbn. by rewrite <- app_assoc. }
    cbn. by rewrite <- !app_assoc.
  - mrun E. rewrite IH; [|unfold zlength in *; rewrite length_app; cbn; lia|lia].
    cbn [drop]. by rewrite <- !app_assoc.
Qed.

Lemma read_numbers_run r xs rest n :
  answers r = xs ++ rest -> zlength xs = n -> n <= zlength (A r) ->
  read_numbers n r = Ok (tt, mkRun (xs ++ drop (Z.to_nat n) (A r)) rest (calls r ++ asked 0 xs)).
Proof.
  destruct r as [l a c]. cbn. intros -> <- Hn. unfold read_numbers, zlength in *. rewrite Nat2Z.id.
  by apply (read_loop rest xs 0 []); [|lia].
Qed.

Lemma print_loop post ys : forall lo pre ans cs, zlength pre = lo ->
  for_ lo (length ys) (fun i => a <- get_A i ;; PrintNum a ;;; PrintString (text "  "))
    (mkRun (pre ++ ys ++ post) ans cs) = Ok (tt, mkRun (pre ++ ys ++ post) ans (cs ++ shown ys)).
Proof.
  induction ys as [|y ys IH]; intros lo pre ans cs Hlo; cbn [length for_].
  { cbn. by rewrite app_nil_r. }
  assert (at_ (pre ++ (y :: ys) ++ post) lo = y) as Hy.
  { unfold at_, zlookup, zlength in *. rewrite (proj2 (Z.ltb_ge _ 0)) by lia.
    by rewrite lookup_app_r, <- Hlo, Nat2Z.id, Nat.sub_diag by lia. }
  rewrite <- bind_assoc. erewrite bind_Ok; [|apply get_A_run; cbn [A]; unfold zlength in *; rewrite !length_app; cbn; lia].
  cbn [A]. rewrite Hy. cbn [app].
  unfold PrintNum at 1, PrintString at 1, call at 1 2. munfold. cbn [A answers calls].
  replace (pre ++ y :: ys ++ post) with ((pre ++ [y]) ++ ys ++ post) by (by rewrite <- app_assoc).
  fold (for_ (S := Run)). rewrite IH by (unfold zlength in *; rewrite length_app; cbn; lia).
  cbn. by rewrite <- !app_assoc.
Qed.

(** ** What the program for sorting does *)

Lemma at_StronglySorted (R : Z -> Z -> Prop) ys :
  (forall p q, 0 <= p <= q -> q < zlength ys -> R (at_ ys p) (at_ ys q)) -> StronglySorted R ys.
Proof.
  assert (forall y ys i, 0 <= i -> at_ (y :: ys) (i + 1) = at_ ys i) as Hcons.
  { intros y l i Hi. unfold at_, zlookup. rewrite !(proj2 (Z.ltb_ge _ 0)) by lia.
    by replace (Z.to_nat (i + 1)) with (S (Z.to_nat i)) by lia. }
  induction ys as [|y ys IH]; intros H; [constructor|]. unfold zlength in H. cbn [length] in H. constructor.
  - apply IH. intros p q Hp Hq. rewrite <- (Hcons y ys p), <- (Hcons y ys q) by lia.
    apply H; unfold zlength in *; lia.
  - apply Forall_lookup. intros k x Hx. specialize (H 0 (Z.of_nat k + 1)).
    rewrite Hcons in H by lia. unfold at_ at 2, zlookup in H. rewrite (proj2 (Z.ltb_ge _ 0)), Nat2Z.id, Hx in H by lia.
    apply H; [lia|]. apply lookup_lt_Some in Hx. unfold zlength. lia.
Qed.

Lemma at_take n l i : 0 <= i < n -> at_ (take (Z.to_nat n) l) i = at_ l i.
Proof. intros Hi. unfold at_, zlookup. rewrite (proj2 (Z.ltb_ge _ 0)), lookup_take_lt by lia. done. Qed.

Definition order (z : Z) : Z -> Z -> Prop := if z =? 1 then Z.le else Z.ge.

(** Either sort, on the numbers [xs] in front of the rest of the array. *)
Lemma sorted_run z xs old r :
  A r = xs ++ old -> 1 <= zlength xs ->
  exists ys, (if z =? 1 then ascending (zlength xs) else descending (zlength xs)) r = Ok (tt, with_A (ys ++ old) r) /\
    ys ≡ₚ xs /\ StronglySorted (order z) ys.
Proof.
  intros HA Hn. set (n := zlength xs) in *.
  assert (zlength (A r) = n + zlength old) as Hlen by (rewrite HA; unfold n, zlength; rewrite length_app; lia).
  assert (exists l, (if z =? 1 then ascending n else descending n) r = Ok (tt, with_A l r) /\ arranged n (A r) l /\
    forall p q, 0 <= p <= q -> q < n -> order z (at_ l p) (at_ l q)) as (l & E & Ha & Hs).
  { unfold order. destruct (z =? 1); [apply ascending_run; unfold zlength in *; lia|].
    destruct (descending_run n r) as (l & E & Ha & Hs); [unfold zlength in *; lia|].
    exists l. split; [done|]. split; [done|]. intros p q Hp Hq. by apply Z.le_ge, Hs. }
  assert (Z.to_nat n = length xs) as Hnat by (unfold n, zlength; lia).
  pose proof (arranged_take _ _ _ Ha) as Hp. pose proof (ar_rest _ _ _ Ha) as Hr.
  rewrite HA, Hnat, take_app_length in Hp. rewrite HA, Hnat, drop_app_length in Hr. rewrite <- Hnat in Hp, Hr.
  exists (take (Z.to_nat n) l). rewrite <- Hr, take_drop. split; [done|]. split; [done|].
  apply at_StronglySorted. apply Permutation_length in Hp. intros p q Hpq Hq. unfold zlength in Hq.
  rewrite !at_take by lia. apply Hs; lia.
Qed.

Definition sort_title : list syscall_event :=
  [PrintString_ (nl "CHUONG TRINH SORT"); PrintString_ (nl "-------------------------------------------");
   PrintString_ (nl "Nhap so nguyen n - so phan tu cua mang (<= 100 ) : ")].
Definition sort_question : list Z := nl "Sap xep mang theo thu tu tang dan (nhap 1) hay giam dan (nhap 0)?:  ".

Lemma sort_start n A0 more :
  sort_main (mkRun A0 (n :: more) []) =
  (if n >? 100 then PrintString (nl "Nhap qua gioi han cho phep " ++ [10]) ;;; Halt
   else if n <? 1 then PrintString (nl "Nhap nho hon gioi han cho phep " ++ [10]) ;;; Halt
   else sort_numbers n) (mkRun A0 more (sort_title ++ [ReadNum_ n])).
Proof. done. Qed.

Lemma sort_numbers_run r xs z rest :
  answers r = xs ++ z :: rest -> 1 <= zlength xs -> zlength xs <= zlength (A r) ->
  exists ys, ys ≡ₚ xs /\ StronglySorted (order z) ys /\
    sort_numbers (zlength xs) r = Ok (tt, mkRun (ys ++ drop (Z.to_nat (zlength xs)) (A r)) rest
      (calls r ++ asked 0 xs ++ [PrintString_ sort_question; ReadNum_ z;
        PrintString_ (nl "Mang sau khi sap xep: " ++ [10; 32])] ++ shown ys ++ [PrintString_ [10]; Halt_])).
Proof.
  intros Hr Hn Hl. unfold sort_numbers. mrun (read_numbers_run r xs (z :: rest) _ Hr eq_refl Hl).
  set (old := drop _ (A r)). set (c := calls r ++ asked 0 xs).
  destruct (sorted_run z xs old (mkRun (xs ++ old) rest ((c ++ [PrintString_ sort_question]) ++ [ReadNum_ z])))
    as (ys & E & Hp & Hs); [done|done|].
  exists ys. split; [done|]. split; [done|].
  rewrite bind_assoc.
  erewrite (bind_Ok _ _ _ z); [|reflexivity]. cbn beta. mrun E. unfold with_A. cbn [answers calls].
  erewrite (bind_Ok _ _ _ tt); [|reflexivity].
  replace (Z.to_nat (zlength xs)) with (length ys) by (rewrite Hp; unfold zlength; lia).
  unfold print_numbers. replace (Z.to_nat (zlength xs)) with (length ys) by (rewrite Hp; unfold zlength; lia).
  mrun (print_loop old ys 0 [] rest ((((c ++ [PrintString_ sort_question]) ++ [ReadNum_ z]) ++
    [PrintString_ (nl "Mang sau khi sap xep: " ++ [10; 32])])) eq_refl).
  unfold c. unfold PrintString, Halt, call. munfold. cbn [A answers calls app]. by rewrite <- !app_assoc.
Qed.

(** C13: test/sort.c asks for a number n and refuses, with a message, one above
    100 or below 1; otherwise it asks for n numbers and for the order, and
    prints the numbers in that order (ascending for 1, descending for any
    other answer), all of them and nothing else, then halts. *)
Theorem sort_program_sorts A0 n xs z rest :
  zlength A0 = 100 ->
  (1 <= n <= 100 -> zlength xs = n ->
   exists ys, ys ≡ₚ xs /\ StronglySorted (order z) ys /\
     sort_main (mkRun A0 (n :: xs ++ z :: rest) []) =
     Ok (tt, mkRun (ys ++ drop (Z.to_nat n) A0) rest
       (sort_title ++ ReadNum_ n :: asked 0 xs ++ [PrintString_ sort_question; ReadNum_ z;
         PrintString_ (nl "Mang sau khi sap xep: " ++ [10; 32])] ++ shown ys ++ [PrintString_ [10]; Halt_]))) /\
  (n > 100 -> sort_main (mkRun A0 (n :: xs) []) = Ok (tt, mkRun A0 xs
     (sort_title ++ [ReadNum_ n; PrintString_ (nl "Nhap qua gioi han cho phep " ++ [10]); Halt_]))) /\
  (n < 1 -> sort_main (mkRun A0 (n :: xs) []) = Ok (tt, mkRun A0 xs
     (sort_title ++ [ReadNum_ n; PrintString_ (nl "Nhap nho hon gioi han cho phep " ++ [10]); Halt_]))).
Proof.
  intros HA. split; [|split; intros Hn; rewrite sort_start].
  - intros Hn Hxs. destruct (sort_numbers_run (mkRun A0 (xs ++ z :: rest) (sort_title ++ [ReadNum_ n])) xs z rest)
      as (ys & Hp & Hs & E); [done|cbn; lia..|].
    exists ys. split; [done|]. split; [done|].
    rewrite sort_start, (Z.gtb_ltb n 100), (proj2 (Z.ltb_ge 100 n)), (proj2 (Z.ltb_ge n 1)) by lia.
    rewrite Hxs in E. rewrite E. cbn [A calls]. by rewrite <- !app_assoc.
  - rewrite Z.gtb_ltb, (proj2 (Z.ltb_lt 100 n)) by lia. done.
  - rewrite Z.gtb_ltb, (proj2 (Z.ltb_ge 100 n)), (proj2 (Z.ltb_lt n 1)) by lia. done.
Qed.

Lemma sort_program_sorts_witness :
  exists ys, ys ≡ₚ [3; -1; 7; 3] /\ StronglySorted (order 1) ys /\
    exists r, sort_main (mkRun (replicate 100 0) [4; 3; -1; 7; 3; 1] []) = Ok (tt, r) /\ take 4 (A r) = ys.
Proof.
  destruct (proj1 (sort_program_sorts (replicate 100 0) 4 [3; -1; 7; 3] 1 [] eq_refl) ltac:(lia) eq_refl)
    as (ys & Hp & Hs & E).
  exists ys. split; [exact Hp|]. split; [exact Hs|]. eexists. split; [exact E|].
  cbn [A]. by rewrite take_app_length' by (by rewrite Hp).
Defined.
