(* ===== verification/Network.v ===== *)
(** * machine/network.cc, network/post.cc, nettest.cc: the network

    The simulated network interface, which sends and receives packets of a
    fixed size through UNIX datagram sockets and loses some of them, the post
    office that delivers the packets to mail boxes, and its test. UNIX is a
    parameter: the classes [Unix] of SysDep.v and [Sockets]. *)

From Stdlib Require Import SpecFloat.
From stdpp Require Import base tactics list numbers gmap.
From S2P Require Import Prelude Lists Interrupt Machine BitMap AddrSpace SysDep Threads Text.

Local Open Scope Z_scope.

(** ** Sockets *)

(** A datagram socket has a descriptor; [unix_bind fd name] gives it a name,
    [unix_recvfrom fd n] and [unix_sendto fd bs name] transfer a datagram. *)
Class Sockets (W : Type) := {
  unix_socket : M W Z;
  unix_bind : Z -> list Z -> M W Z;
  unix_recvfrom : Z -> Z -> M W (Z * list Z);
  unix_sendto : Z -> list Z -> list Z -> M W Z
}.

Section SysDep.
Context {W : Type} `{HU : Unix W} `{HS : Sockets W}.

Definition OpenSocket : M W Z :=
  sockID <- unix_socket ;;
  ASSERT (sockID >=? 0) ;;; ret sockID.

Definition CloseSocket (sockID : Z) : M W unit := _ <- unix_close sockID ;; ret tt.

Definition AssignNameToSocket (socketName : list Z) (sockID : Z) : M W unit :=
  _ <- unix_unlink socketName ;;
  retVal <- unix_bind sockID socketName ;;
  ASSERT (retVal >=? 0).

Definition DeAssignNameToSocket (socketName : list Z) : M W unit := _ <- unix_unlink socketName ;; ret tt.

Definition PollSocket (idle : bool) (sockID : Z) : M W bool := PollFile idle sockID.

Definition ReadFromSocket (sockID packetSize : Z) : M W (list Z) :=
  '(retVal, bs) <- unix_recvfrom sockID packetSize ;;
  ASSERT (retVal =? packetSize) ;;; ret bs.

Definition SendToSocket (sockID : Z) (buffer toName : list Z) : M W unit :=
  retVal <- unix_sendto sockID buffer toName ;;
  ASSERT (retVal =? zlength buffer).
End SysDep.

(** ** Packets *)

Record PacketHeader := mkPkt { pkt_to : Z; pkt_from : Z; pkt_length : Z }.
Record MailHeader := mkMail { mail_to : Z; mail_from : Z; mail_length : Z }.

Definition MaxWireSize : Z := 64.
Definition sizeof_PacketHeader : Z := 12.
Definition sizeof_MailHeader : Z := 12.
Definition MaxPacketSize : Z := MaxWireSize - sizeof_PacketHeader.
Definition MaxMailSize : Z := MaxPacketSize - sizeof_MailHeader.

(** Three words in the memory of the host. *)
Definition three (be : bool) (a b c : Z) : list Z := host_store be 4 a ++ host_store be 4 b ++ host_store be 4 c.
Definition word_at (be : bool) (i : Z) (bs : list Z) : Z := host_load be (slice (4 * i) 4 bs).

Definition packet_bytes (be : bool) (h : PacketHeader) : list Z := three be (pkt_to h) (pkt_from h) (pkt_length h).
Definition packet_of (be : bool) (bs : list Z) : PacketHeader :=
  mkPkt (i32 (word_at be 0 bs)) (i32 (word_at be 1 bs)) (word_at be 2 bs).
Definition mail_bytes (be : bool) (h : MailHeader) : list Z := three be (mail_to h) (mail_from h) (mail_length h).
Definition mail_of (be : bool) (bs : list Z) : MailHeader :=
  mkMail (i32 (word_at be 0 bs)) (i32 (word_at be 1 bs)) (word_at be 2 bs).

(** bcopy(from, to + i, n), when both arrays have the room. *)
Definition bcopy (from to_ : list Z) (i n : Z) : option (list Z) :=
  if (n <=? zlength from) && (i + n <=? zlength to_) then Some (splice i (slice 0 n from) to_) else None.

(** sprintf of "SOCKET_%d". *)
Definition socket_name (addr : Z) : list Z := [83; 79; 67; 75; 69; 84; 95] ++ decimal addr.

(** The host's double. *)
Definition double : Type := spec_float.
Definition double_of (n : Z) : double := binary_normalize 53 1024 n 0 false.
Definition double_mul : double -> double -> double := SFmul 53 1024.

(** ** Data *)

(** The handlers that the post office passes to the network. *)
Inductive NetFunct := ReadAvail | WriteDone.

Record Network := mkNetwork {
  ident : Z;
  chanceToWork : double;
  sock : Z;
  sockName : list Z;
  writeHandler : NetFunct;
  readHandler : NetFunct;
  handlerArg : Z;
  sendBusy : bool;
  inHdr : PacketHeader;
  inbox : list Z
}.

Record Mail := mkMailMsg { pktHdr : PacketHeader; mailHdr : MailHeader; mail_data : list Z }.

(** The lock does nothing (Threads.v). *)
Record PostOffice := mkOffice {
  office_network : loc;
  netAddr : Z;
  boxes : list List;
  numBoxes : Z;
  messageAvailable : loc;
  messageSent : loc
}.

(** The heap: network interfaces, post offices, messages, whose pointers are
    stored in lists and are not NULL, and the buffers of the postal workers. *)
Record Net := mkNet {
  networks : gmap loc Network;
  offices : gmap loc PostOffice;
  mails : gmap positive Mail;
  worker_buffers : gmap loc (list Z);
  postOffice : loc
}.
Definition set_networks v (n : Net) := mkNet v (offices n) (mails n) (worker_buffers n) (postOffice n).
Definition set_offices v (n : Net) := mkNet (networks n) v (mails n) (worker_buffers n) (postOffice n).
Definition set_mails v (n : Net) := mkNet (networks n) (offices n) v (worker_buffers n) (postOffice n).
Definition set_worker_buffers v (n : Net) := mkNet (networks n) (offices n) (mails n) v (postOffice n).
Definition set_postOffice v (n : Net) := mkNet (networks n) (offices n) (mails n) (worker_buffers n) v.

(** What newly allocated memory contains: a network interface, the array for
    a packet on the wire, for the data of a packet, for the data of a message,
    the registers of a thread. *)
Record NetGarbage := mkNetGarbage {
  network_mem : Network;
  wire_mem : list Z;
  packet_mem : list Z;
  mail_mem : list Z;
  header_mem : PacketHeader;
  register_mem : list Z
}.

Section Network.
Context (be : bool) (g : NetGarbage).
Context {X W : Type} `{!Lens Machine X} `{!Lens Net X} `{!Lens W X} `{HU : Unix W} `{HS : Sockets W}.
Abbreviation K := (Sim (Kernel X)).

Definition net {A} (f : Net -> A) : M K A := kernel (fun k => f (lget (S := Net) (user k))).
Definition on_net (f : Net -> Net) : M K unit :=
  on_kernel (fun k => set_user (lset (S := Net) (f (lget (user k))) (user k)) k).
Definition on_unix {A} (m : M W A) : M K A := on_user (zoom m).

(** ** The network interface *)

Definition get_network (this : loc) : M K Network := l <- net networks ;; must (l !! this).
Definition put_network (this : loc) (n : Network) : M K unit :=
  on_net (fun x => set_networks (<[this := n]> (networks x)) x).
Definition get_office (this : loc) : M K PostOffice := l <- net offices ;; must (l !! this).
Definition put_office (this : loc) (po : PostOffice) : M K unit :=
  on_net (fun x => set_offices (<[this := po]> (offices x)) x).

Definition set_sendBusy v n := mkNetwork (ident n) (chanceToWork n) (sock n) (sockName n) (writeHandler n)
  (readHandler n) (handlerArg n) v (inHdr n) (inbox n).
Definition set_inHdr v n := mkNetwork (ident n) (chanceToWork n) (sock n) (sockName n) (writeHandler n)
  (readHandler n) (handlerArg n) (sendBusy n) v (inbox n).
Definition set_inbox v n := mkNetwork (ident n) (chanceToWork n) (sock n) (sockName n) (writeHandler n)
  (readHandler n) (handlerArg n) (sendBusy n) (inHdr n) v.
Definition no_length (h : PacketHeader) : PacketHeader := mkPkt (pkt_to h) (pkt_from h) 0.

(** PostOffice::IncomingPacket and PacketSent, behind the two handlers. *)
Definition PostOffice_IncomingPacket (this : loc) : M K unit :=
  po <- get_office this ;; Semaphore_V_handler (messageAvailable po).
Definition PostOffice_PacketSent (this : loc) : M K unit :=
  po <- get_office this ;; Semaphore_V_handler (messageSent po).
Definition call_handler (h : NetFunct) (arg : Z) : M K unit :=
  match h with
  | ReadAvail => PostOffice_IncomingPacket (Z.to_nat arg)
  | WriteDone => PostOffice_PacketSent (Z.to_nat arg)
  end.

Definition chance (reliability : double) : double :=
  if SFltb reliability (double_of 0) then double_of 0
  else if SFltb (double_of 1) reliability then double_of 1
  else reliability.

Definition Network_new (addr : Z) (reliability : double) (readAvail writeDone : NetFunct) (callArg : Z) : M K loc :=
  l <- net networks ;;
  let this := fresh (dom l) in
  sock <- on_unix OpenSocket ;;
  on_unix (AssignNameToSocket (socket_name addr) sock) ;;;
  put_network this (mkNetwork addr (chance reliability) sock (socket_name addr) writeDone readAvail callArg
    false (no_length (inHdr (network_mem g))) (inbox (network_mem g))) ;;;
  Interrupt_Schedule NetworkReadPoll (Z.of_nat this) NetworkTime NetworkRecvInt ;;;
  ret this.

Definition Network_delete (this : loc) : M K unit :=
  n <- get_network this ;;
  on_unix (CloseSocket (sock n)) ;;;
  on_unix (DeAssignNameToSocket (sockName n)) ;;;
  on_net (fun x => set_networks (delete this (networks x)) x).

Definition count_received (st : Statistics) : Statistics :=
  mkStats (totalTicks st) (idleTicks st) (systemTicks st) (userTicks st) (numDiskReads st) (numDiskWrites st)
    (numConsoleCharsRead st) (numConsoleCharsWritten st) (numPageFaults st)
    (numPacketsSent st) (i32 (numPacketsRecvd st + 1)).
Definition count_sent (st : Statistics) : Statistics :=
  mkStats (totalTicks st) (idleTicks st) (systemTicks st) (userTicks st) (numDiskReads st) (numDiskWrites st)
    (numConsoleCharsRead st) (numConsoleCharsWritten st) (numPageFaults st)
    (i32 (numPacketsSent st + 1)) (numPacketsRecvd st).

Definition Network_CheckPktAvail (this : loc) : M K unit :=
  Interrupt_Schedule NetworkReadPoll (Z.of_nat this) NetworkTime NetworkRecvInt ;;;
  n <- get_network this ;;
  if negb (pkt_length (inHdr n) =? 0) then ret tt
  else
    idle <- gets (fun s => bool_decide (status (intr s) = IdleMode)) ;;
    ready <- on_unix (PollSocket idle (sock n)) ;;
    if negb ready then ret tt
    else
      buffer <- on_unix (ReadFromSocket (sock n) MaxWireSize) ;;
      let h := packet_of be buffer in
      put_network this (set_inHdr h n) ;;;
      ASSERT ((pkt_to h =? ident n) && (pkt_length h <=? MaxPacketSize)) ;;;
      data <- must (bcopy (drop (Z.to_nat sizeof_PacketHeader) buffer) (inbox n) 0 (pkt_length h)) ;;
      put_network this (set_inbox data (set_inHdr h n)) ;;;
      modify (on_stats count_received) ;;;
      call_handler (readHandler n) (handlerArg n).

Definition Network_SendDone (this : loc) : M K unit :=
  n <- get_network this ;;
  put_network this (set_sendBusy false n) ;;;
  modify (on_stats count_sent) ;;;
  call_handler (writeHandler n) (handlerArg n).

Definition Network_Send (this : loc) (hdr : PacketHeader) (data : list Z) : M K unit :=
  n <- get_network this ;;
  ASSERT (negb (sendBusy n) && (pkt_length hdr >? 0) && (pkt_length hdr <=? MaxPacketSize) &&
          (pkt_from hdr =? ident n)) ;;;
  Interrupt_Schedule NetworkSendDone (Z.of_nat this) NetworkTime NetworkSendInt ;;;
  r <- on_unix Random ;;
  if SFleb (double_mul (chanceToWork n) (double_of 100)) (double_of (Z.rem r 100)) then ret tt
  else
    buffer <- must (bcopy (packet_bytes be hdr) (wire_mem g) 0 sizeof_PacketHeader) ;;
    buffer <- must (bcopy data buffer sizeof_PacketHeader (pkt_length hdr)) ;;
    on_unix (SendToSocket (sock n) buffer (socket_name (pkt_to hdr))).

(** [data] is the caller's array, which is changed when there is a packet. *)
Definition Network_Receive (this : loc) (data : list Z) : M K (PacketHeader * list Z) :=
  n <- get_network this ;;
  put_network this (set_inHdr (no_length (inHdr n)) n) ;;;
  data <- (if negb (pkt_length (inHdr n) =? 0) then must (bcopy (inbox n) data 0 (pkt_length (inHdr n)))
           else ret data) ;;
  ret (inHdr n, data).

(** What the network's interrupts do; the other devices are [others]. *)
Definition network_call (others : VoidFunctionPtr -> Z -> M K unit) (h : VoidFunctionPtr) (a : Z) : M K unit :=
  match h with
  | NetworkReadPoll => Network_CheckPktAvail (Z.to_nat a)
  | NetworkSendDone => Network_SendDone (Z.to_nat a)
  | _ => others h a
  end.

(** ** Mail boxes *)

Definition Mail_new (pktH : PacketHeader) (mailH : MailHeader) (msgData : list Z) : M K Z :=
  ASSERT (mail_length mailH <=? MaxMailSize) ;;;
  data <- must (bcopy msgData (mail_mem g) 0 (mail_length mailH)) ;;
  l <- net mails ;;
  let p := fresh (dom l) in
  on_net (set_mails (<[p := mkMailMsg pktH mailH data]> l)) ;;;
  ret (Z.pos p).

Definition MailBox_new : List := SynchList_new empty 0%nat.

(** An operation on the list of a mail box. *)
Definition on_box {A} (this : loc) (box : Z) (m : M List A) : M K A :=
  po <- get_office this ;;
  b <- must (zlookup (boxes po) box) ;;
  r <- (fun s => obind (m b) (fun r => Ok (r, s))) ;;
  let '(a, b) := r : A * List in
  put_office this (mkOffice (office_network po) (netAddr po) (zinsert box b (boxes po)) (numBoxes po)
    (messageAvailable po) (messageSent po)) ;;;
  ret a.

Definition MailBox_delete (this : loc) (box : Z) : M K unit := on_box this box SynchList_delete.

Definition MailBox_Put (this : loc) (box : Z) (pkt : PacketHeader) (mail : MailHeader) (data : list Z) : M K unit :=
  it <- Mail_new pkt mail data ;; on_box this box (SynchList_Append it).

(** [data] is the caller's array. *)
Definition MailBox_Get (this : loc) (box : Z) (data : list Z) : M K (PacketHeader * MailHeader * list Z) :=
  it <- on_box this box SynchList_Remove ;;
  match it with
  | Z.pos p =>
      l <- net mails ;; mail <- must (l !! p) ;;
      data <- must (bcopy (mail_data mail) data 0 (mail_length (mailHdr mail))) ;;
      on_net (fun x => set_mails (delete p (mails x)) x) ;;;
      ret (pktHdr mail, mailHdr mail, data)
  | _ => undef
  end.

(** ** The post office *)

Context (call : VoidFunctionPtr -> Z -> M K unit) (DelayedLoad_0_0 : M K unit).

Definition valid_box (po : PostOffice) (box : Z) : bool := (0 <=? box) && (box <? numBoxes po).

(** One turn of the loop of PostalDelivery after the wait. *)
Definition deliver (this b : loc) : M K unit :=
  po <- get_office this ;;
  l <- net worker_buffers ;; buffer <- must (l !! b) ;;
  '(pkt, buffer) <- Network_Receive (office_network po) buffer ;;
  on_net (fun x => set_worker_buffers (<[b := buffer]> (worker_buffers x)) x) ;;;
  let mail := mail_of be buffer in
  ASSERT (valid_box po (mail_to mail)) ;;;
  ASSERT (mail_length mail <=? MaxMailSize) ;;;
  MailBox_Put this (mail_to mail) pkt mail (drop (Z.to_nat sizeof_MailHeader) buffer).

Definition PostOffice_PostalDelivery (this : loc) : prog K unit :=
  b <~ op (l <- net worker_buffers ;;
           let b := fresh (dom l) in
           on_net (set_worker_buffers (<[b := packet_mem g]> l)) ;;; ret b) ;;
  Until (ret (None : option Empty_set))
    (po <~ op (get_office this) ;;
     Semaphore_P call DelayedLoad_0_0 (messageAvailable po) ;~
     op (deliver this b))
    (fun e => match e with end).

Definition PostOffice_new (addr : Z) (reliability : double) (nBoxes : Z) : prog K loc :=
  this <~ op (
    l <- net offices ;;
    let this := fresh (dom l) in
    a <- Semaphore_new (Lit [109; 101; 115; 115; 97; 103; 101; 32; 97; 118; 97; 105; 108; 97; 98; 108; 101]) 0 ;;
    s <- Semaphore_new (Lit [109; 101; 115; 115; 97; 103; 101; 32; 115; 101; 110; 116]) 0 ;;
    n <- Network_new addr reliability ReadAvail WriteDone (Z.of_nat this) ;;
    put_office this (mkOffice n addr (replicate (Z.to_nat nBoxes) MailBox_new) nBoxes a s) ;;;
    ret this) ;;
  t <~ op (Thread_new (register_mem g) [112; 111; 115; 116; 97; 108; 32; 119; 111; 114; 107; 101; 114]) ;;
  Thread_Fork call DelayedLoad_0_0 t (PostOffice_PostalDelivery this) ;~
  Ret this.

Definition PostOffice_delete (this : loc) : M K unit :=
  po <- get_office this ;;
  Network_delete (office_network po) ;;;
  for_ 0 (length (boxes po)) (fun i => MailBox_delete this i) ;;;
  Semaphore_delete (messageAvailable po) ;;;
  Semaphore_delete (messageSent po) ;;;
  on_net (fun x => set_offices (delete this (offices x)) x).

Definition PostOffice_Send (this : loc) (pkt : PacketHeader) (mail : MailHeader) (data : list Z) : prog K unit :=
  po <~ op (get_office this) ;;
  op (ASSERT (mail_length mail <=? MaxMailSize) ;;; ASSERT (valid_box po (mail_to mail))) ;~
  let pkt := mkPkt (pkt_to pkt) (netAddr po) (u32 (mail_length mail + sizeof_MailHeader)) in
  buffer <~ op (buffer <- must (bcopy (mail_bytes be mail) (packet_mem g) 0 sizeof_MailHeader) ;;
                must (bcopy data buffer sizeof_MailHeader (mail_length mail))) ;;
  op Lock_Acquire ;~
  op (Network_Send (office_network po) pkt buffer) ;~
  Semaphore_P call DelayedLoad_0_0 (messageSent po) ;~
  op Lock_Release.

(** [data] is the caller's array. It does not wait: Get of an empty box aborts. *)
Definition PostOffice_Receive (this : loc) (box : Z) (data : list Z) : M K (PacketHeader * MailHeader * list Z) :=
  po <- get_office this ;;
  ASSERT (valid_box po box) ;;;
  r <- MailBox_Get this box data ;;
  ASSERT (mail_length (r.1.2) <=? MaxMailSize) ;;;
  ret r.

(** ** network/nettest.cc

    [print buffer from box] is its printf. *)

Context (print : list Z -> Z -> Z -> M K unit).

Definition hello : list Z := [72; 101; 108; 108; 111; 32; 116; 104; 101; 114; 101; 33; 0].
Definition ack : list Z := [71; 111; 116; 32; 105; 116; 33; 0].

Definition MailTest (farAddr : Z) : prog K unit :=
  po <~ op (net postOffice) ;;
  let outPktHdr := mkPkt farAddr (pkt_from (header_mem g)) (pkt_length (header_mem g)) in
  PostOffice_Send po outPktHdr (mkMail 0 1 (zlength hello)) hello ;~
  r <~ op (PostOffice_Receive po 0 (mail_mem g)) ;;
  let '(inPktHdr, inMailHdr, buffer) := r : PacketHeader * MailHeader * list Z in
  op (print buffer (pkt_from inPktHdr) (mail_from inMailHdr)) ;~
  PostOffice_Send po (mkPkt (pkt_from inPktHdr) (pkt_from outPktHdr) (pkt_length outPktHdr))
    (mkMail (mail_from inMailHdr) 1 (zlength ack)) ack ;~
  r <~ op (PostOffice_Receive po 1 buffer) ;;
  let '(inPktHdr, inMailHdr, buffer) := r : PacketHeader * MailHeader * list Z in
  op (print buffer (pkt_from inPktHdr) (mail_from inMailHdr)) ;~
  op Interrupt_Halt.
End Network.
