(* ===== verification/NetworkSpec.v ===== *)
(** * The network delivers packets in order

    What the network interface and the post office promise, on a UNIX whose
    datagram sockets are queues: no packet that has arrived is lost, overwritten
    or reordered, and a message that is sent and not dropped reaches the mail
    box it is addressed to. *)

From Stdlib Require Import SpecFloat.
From stdpp Require Import base tactics list numbers gmap.
From S2P Require Import Prelude Lists Interrupt Machine BitMap AddrSpace Disk OpenFile Directory SysDep Threads ThreadsInv ThreadsSafe ThreadsSpec ThreadsRuns Network Text.

Local Open Scope Z_scope.

(** ** The contract of UNIX

    [bound w fd] is the name of the socket [fd], [datagrams w name] are the
    datagrams that wait at the socket with that name, the first one first. *)

Class SocketsSpec {W} `{Unix W} `{Sockets W} (bound : W -> Z -> option (list Z))
    (datagrams : W -> list Z -> option (list (list Z))) : Prop := {
  select_spec : forall w fd name q t, bound w fd = Some name -> datagrams w name = Some q -> 0 <= fd < 31 ->
    exists w', unix_select (i32 (Z.shiftl 1 fd)) t w = Ok (if bool_decide (q = []) then 0 else 1, w') /\
      bound w' = bound w /\ datagrams w' = datagrams w;
  recvfrom_spec : forall w fd name n d q, bound w fd = Some name -> datagrams w name = Some (d :: q) ->
    zlength d <= n ->
    exists w', unix_recvfrom fd n w = Ok (zlength d, d, w') /\ bound w' = bound w /\
      forall x, datagrams w' x = if bool_decide (x = name) then Some q else datagrams w x;
  sendto_spec : forall w fd name bs to_ q, bound w fd = Some name -> datagrams w to_ = Some q ->
    exists w', unix_sendto fd bs to_ w = Ok (zlength bs, w') /\ bound w' = bound w /\
      forall x, datagrams w' x = if bool_decide (x = to_) then Some (q ++ [bs]) else datagrams w x;
  rand_spec : forall w, exists r w', unix_rand w = Ok (r, w') /\ 0 <= r < 2 ^ 31 /\
      bound w' = bound w /\ datagrams w' = datagrams w
}.

(** ** The machine of the network *)

Record NetOS (W : Type) := mkNetOS { net_machine : Machine; net_state : Net; net_unix : W }.
Arguments mkNetOS {W} _ _ _.
Arguments net_machine {W} _.
Arguments net_state {W} _.
Arguments net_unix {W} _.

#[export, refine] Instance lens_net_machine {W} : Lens Machine (NetOS W) :=
  {| lget := net_machine; lset m x := mkNetOS m (net_state x) (net_unix x) |}.
Proof. all: by repeat intros []. Defined.
#[export, refine] Instance lens_net_state {W} : Lens Net (NetOS W) :=
  {| lget := net_state; lset n x := mkNetOS (net_machine x) n (net_unix x) |}.
Proof. all: by repeat intros []. Defined.
#[export, refine] Instance lens_net_unix {W} : Lens W (NetOS W) :=
  {| lget := net_unix; lset w x := mkNetOS (net_machine x) (net_state x) w |}.
Proof. all: by repeat intros []. Defined.

(** ** Packets as bytes *)

Section Packets.
Context (be : bool).

Lemma word_three a b c rest : 
  word_at be 0 (three be a b c ++ rest) = u32 a /\ word_at be 1 (three be a b c ++ rest) = u32 b /\
  word_at be 2 (three be a b c ++ rest) = u32 c.
Proof.
  assert (forall z, zlength (host_store be 4 z) = 4) as Hl by (intros z; unfold zlength; by rewrite length_host_store).
  unfold word_at, three. rewrite <- !app_assoc. split; [|split].
  - pose proof (slice_mid [] (host_store be 4 a) (host_store be 4 b ++ host_store be 4 c ++ rest) (4 * 0) 4 eq_refl (Hl a)) as E.
    cbn [app] in E. by rewrite E, host_load_store.
  - by rewrite (slice_mid (host_store be 4 a) (host_store be 4 b)) by done; rewrite host_load_store.
  - rewrite (app_assoc (host_store be 4 a)). rewrite (slice_mid _ (host_store be 4 c)); [by rewrite host_load_store| |done].
    by rewrite zlength_app, !Hl.
Qed.

Definition packet_wf (h : PacketHeader) : Prop := is_i32 (pkt_to h) /\ is_i32 (pkt_from h) /\ is_u32 (pkt_length h).
Definition mail_wf (h : MailHeader) : Prop := is_i32 (mail_to h) /\ is_i32 (mail_from h) /\ is_u32 (mail_length h).

Lemma packet_of_bytes h rest : packet_wf h -> packet_of be (packet_bytes be h ++ rest) = h.
Proof.
  intros (H1 & H2 & H3). unfold packet_of, packet_bytes.
  destruct (word_three (pkt_to h) (pkt_from h) (pkt_length h) rest) as (-> & -> & ->).
  rewrite !i32_u32, !i32_id, u32_id by done. by destruct h.
Qed.

Lemma mail_of_bytes h rest : mail_wf h -> mail_of be (mail_bytes be h ++ rest) = h.
Proof.
  intros (H1 & H2 & H3). unfold mail_of, mail_bytes.
  destruct (word_three (mail_to h) (mail_from h) (mail_length h) rest) as (-> & -> & ->).
  rewrite !i32_u32, !i32_id, u32_id by done. by destruct h.
Qed.

Lemma zlength_three a b c : zlength (three be a b c) = 12.
Proof. unfold three, zlength. by rewrite !length_app, !length_host_store. Qed.

Lemma bcopy_run from to_ i n : 0 <= i -> 0 <= n <= zlength from -> i + n <= zlength to_ ->
  bcopy from to_ i n = Some (splice i (slice 0 n from) to_).
Proof.
  intros Hi Hn Hl. unfold bcopy. by rewrite (proj2 (Z.leb_le n _)), (proj2 (Z.leb_le (i + n) _)) by lia.
Qed.

(** A header and data copied one behind the other. *)
Lemma header_and_data (hd data mem : list Z) n :
  0 <= n <= zlength data -> zlength hd + n <= zlength mem ->
  exists rest, splice (zlength hd) (slice 0 n data) (splice 0 hd mem) = hd ++ slice 0 n data ++ rest /\
    zlength (hd ++ slice 0 n data ++ rest) = zlength mem.
Proof.
  intros Hn Hl. assert (zlength (slice 0 n data) = n) as Hs by (apply zlength_slice; lia).
  exists (drop (length hd + length (slice 0 n data)) mem). split.
  - apply splice_at_end. lia.
  - rewrite !zlength_app, Hs. unfold zlength in *. rewrite length_drop. lia.
Qed.
End Packets.

(** ** Runs of the operations *)

Section Runs.
Context {W : Type}.
Abbreviation K := (Sim (Kernel (NetOS W))).
Implicit Types (s : K) (k : Kernel (NetOS W)).

Definition nst s : Net := net_state (user (rest s)).
Definition unx s : W := net_unix (user (rest s)).
Definition in_net (f : Net -> Net) s : K :=
  on_rest (fun k => set_user (mkNetOS (net_machine (user k)) (f (net_state (user k))) (net_unix (user k))) k) s.
Definition in_unix (w : W) s : K :=
  on_rest (fun k => set_user (mkNetOS (net_machine (user k)) (net_state (user k)) w) k) s.

Lemma on_net_run f s : on_net f s = Ok (tt, in_net f s).
Proof. done. Qed.

Lemma net_unix_run {A} (m : M W A) s a w : m (unx s) = Ok (a, w) -> on_unix m s = Ok (a, in_unix w s).
Proof. intros E. unfold on_unix, on_user, zoom. cbn. fold (unx s). by rewrite E. Qed.

Lemma get_network_run s this n : networks (nst s) !! this = Some n -> get_network this s = Ok (n, s).
Proof. intros E. unfold get_network, net, kernel. munfold. cbn. fold (nst s). by rewrite E. Qed.

Lemma get_office_run s this po : offices (nst s) !! this = Some po -> get_office this s = Ok (po, s).
Proof. intros E. unfold get_office, net, kernel. munfold. cbn. fold (nst s). by rewrite E. Qed.

Definition scheduled (h : VoidFunctionPtr) (a : Z) (ty : IntType) s : K :=
  on_intr (set_pending (sorted_insert (mkPending h a (i32 (now s + NetworkTime)) ty) (i32 (now s + NetworkTime))
    (pending (intr s)))) s.

Lemma Schedule_run h a ty s : Interrupt_Schedule h a NetworkTime ty s = Ok (tt, scheduled h a ty s).
Proof. done. Qed.

(** What V does to the kernel. *)
Definition woken (a : loc) (sm : Semaphore) k : Kernel (NetOS W) :=
  match queue sm with
  | [] => set_semaphores (<[a := mkSem (sem_name sm) (i32 (value sm + 1)) []]> (semaphores k)) k
  | t :: q => match threads k !! t with
              | Some th => wake a t th (mkSem (sem_name sm) (i32 (value sm + 1)) q) k
              | None => k
              end
  end.

Record awaited (a : loc) (sm : Semaphore) k : Prop := {
  aw_sem : semaphores k !! a = Some sm;
  aw_threads : forall t, t ∈ queue sm -> is_Some (threads k !! t)
}.

Lemma V_handler_woken a sm s : level (intr s) = IntOff -> awaited a sm (rest s) ->
  Semaphore_V_handler a s = Ok (tt, on_rest (woken a sm) s).
Proof.
  intros Hl [Ha Ht].
  assert (forall s : K, level (intr s) = IntOff -> change_level IntOff s = Ok (IntOff, s)) as Hc.
  { intros s1 H1. unfold change_level, Interrupt_ChangeLevel. munfold. rewrite H1.
    do 2 f_equal. destruct s1 as [[] b k]. cbn in *. by subst. }
  unfold Semaphore_V_handler. mrun (Hc s Hl).
  assert (release a s = Ok (tt, on_rest (woken a sm) s)) as E.
  { unfold release, woken. mrun (get_semaphore_run s a sm Ha). destruct (queue sm) as [|t q] eqn:Hq.
    - rewrite (bind_Ok (ret tt) _ s tt s) by done. mrun (get_semaphore_run s a sm Ha). by rewrite Hq.
    - destruct (Ht t) as [th Hth]; [by left|]. rewrite <- bind_assoc.
      rewrite (bind_Ok _ _ _ _ _ (put_semaphore_run s a (mkSem (sem_name sm) (value sm) q))).
      set (s2 := on_rest _ s). mrun (ReadyToRun_run s2 t th Hth). set (s3 := on_rest _ s2).
      assert (semaphores (rest s3) !! a = Some (mkSem (sem_name sm) (value sm) q)) as Ha3 by apply lookup_insert_eq.
      mrun (get_semaphore_run s3 a _ Ha3). rewrite put_semaphore_run. cbn [sem_name value queue].
      do 2 f_equal. unfold s3, s2, on_rest. cbn. rewrite Hth. unfold wake, make_ready, set_readyList, set_threads, set_semaphores. cbn.
      by rewrite insert_insert_eq. }
  mrun E. by mrun (Hc (on_rest (woken a sm) s) Hl).
Qed.

Lemma woken_user a sm k : user (woken a sm k) = user k.
Proof. unfold woken. destruct (queue sm) as [|t q]; [done|]. by destruct (threads k !! t). Qed.

Lemma woken_semaphores a sm k : awaited a sm k ->
  semaphores (woken a sm k) = <[a := mkSem (sem_name sm) (i32 (value sm + 1)) (tail (queue sm))]> (semaphores k).
Proof.
  intros [Ha Ht]. unfold woken. destruct (queue sm) as [|t q] eqn:Hq; [done|].
  destruct (Ht t) as [th Hth]; [by left|]. by rewrite Hth.
Qed.
End Runs.

(** ** The interface is a queue *)

Section Interface.
Context (be : bool) (g : NetGarbage) {W : Type} `{HU : Unix W} `{HS : Sockets W}.
Context (bound : W -> Z -> option (list Z)) (datagrams : W -> list Z -> option (list (list Z))).
Context `{HC : !SocketsSpec bound datagrams}.
Abbreviation K := (Sim (Kernel (NetOS W))).
Implicit Types (s : K).

(** A packet: its header and its data. *)
Definition packet_read (d : list Z) : PacketHeader * list Z :=
  (packet_of be d, slice 12 (pkt_length (packet_of be d)) d).

(** A datagram that the machine [id] accepts. *)
Definition acceptable (id : Z) (d : list Z) : Prop :=
  zlength d = MaxWireSize /\ pkt_to (packet_of be d) = id /\ 0 < pkt_length (packet_of be d) <= MaxPacketSize.

(** The interface [n], with the datagrams [q] waiting at its socket. *)
Record attached (w : W) (n : Network) (q : list (list Z)) : Prop := {
  at_sock : 0 <= sock n < 31;
  at_bound : bound w (sock n) = Some (sockName n);
  at_queue : datagrams w (sockName n) = Some q;
  at_acceptable : Forall (acceptable (ident n)) q;
  at_inbox : zlength (inbox n) = MaxPacketSize;
  at_length : 0 <= pkt_length (inHdr n) <= MaxPacketSize
}.

(** The packets that have arrived: the one in the interface, then the others. *)
Definition buffered (n : Network) : list (PacketHeader * list Z) :=
  if pkt_length (inHdr n) =? 0 then [] else [(inHdr n, slice 0 (pkt_length (inHdr n)) (inbox n))].
Definition arrived (n : Network) (q : list (list Z)) : list (PacketHeader * list Z) :=
  buffered n ++ (packet_read <$> q).

Definition put_net (this : loc) (n : Network) : Net -> Net := fun x => set_networks (<[this := n]> (networks x)) x.

(** The interface after it has taken the datagram [d]. *)
Definition took (d : list Z) (n : Network) : Network :=
  set_inbox (splice 0 (slice 12 (pkt_length (packet_of be d)) d) (inbox n)) (set_inHdr (packet_of be d) n).

(** The state after CheckPktAvail took a datagram, before it calls the handler. *)
Definition taken (this : loc) (d : list Z) (n : Network) (w : W) s : K :=
  on_stats count_received (in_net (put_net this (took d n)) (in_net (put_net this (set_inHdr (packet_of be d) n))
    (in_unix w (scheduled NetworkReadPoll (Z.of_nat this) NetworkRecvInt s)))).

Lemma PollSocket_run w fd name q idle : bound w fd = Some name -> datagrams w name = Some q -> 0 <= fd < 31 ->
  exists w', PollSocket idle fd w = Ok (negb (bool_decide (q = [])), w') /\ bound w' = bound w /\ datagrams w' = datagrams w.
Proof.
  intros Hb Hq Hfd. unfold PollSocket, PollFile.
  destruct (select_spec w fd name q (if idle then 20000 else 0) Hb Hq Hfd) as (w' & E & H1 & H2).
  exists w'. mrun E. by case_bool_decide.
Qed.

Lemma took_arrived d q n : pkt_length (inHdr n) = 0 -> zlength (inbox n) = MaxPacketSize -> acceptable (ident n) d ->
  arrived (took d n) q = arrived n (d :: q) /\ zlength (inbox (took d n)) = MaxPacketSize.
Proof.
  intros H0 Hi (Hl & _ & Hd). unfold MaxWireSize, MaxPacketSize in *. unfold sizeof_PacketHeader, MaxWireSize in *.
  assert (zlength (slice 12 (pkt_length (packet_of be d)) d) = pkt_length (packet_of be d)) as Hs by (apply zlength_slice; lia).
  split; [|cbn [inbox took set_inbox]; rewrite zlength_splice; lia].
  unfold arrived, buffered. rewrite (proj2 (Z.eqb_eq _ _) H0). cbn [inHdr inbox took set_inbox set_inHdr].
  rewrite (proj2 (Z.eqb_neq _ _)) by lia. cbn [fmap list_fmap app]. do 2 f_equal. unfold packet_read. f_equal.
  rewrite <- Hs at 1. apply slice_splice_same; lia.
Qed.

(** What CheckPktAvail does when a datagram waits and the interface is free. *)
Lemma CheckPktAvail_takes s this n d q : networks (nst s) !! this = Some n -> attached (unx s) n (d :: q) ->
  pkt_length (inHdr n) = 0 ->
  exists w, Network_CheckPktAvail be this s = call_handler (readHandler n) (handlerArg n) (taken this d n w s) /\
    attached w (took d n) q /\ bound w = bound (unx s) /\
    forall x, datagrams w x = if bool_decide (x = sockName n) then Some q else datagrams (unx s) x.
Proof.
  intros Hn [A1 A2 A3 A4 A5 A6] H0. apply Forall_cons in A4 as [Hd Hq].
  unfold Network_CheckPktAvail. mrun (Schedule_run NetworkReadPoll (Z.of_nat this) NetworkRecvInt s).
  set (s1 := scheduled _ _ _ s). mrun (get_network_run s1 this n Hn). rewrite H0. cbn [Z.eqb negb].
  rewrite (bind_Ok (gets _) _ s1 (bool_decide (status (intr s1) = IdleMode)) s1) by done.
  destruct (PollSocket_run (unx s) (sock n) (sockName n) (d :: q) (bool_decide (status (intr s1) = IdleMode)) A2 A3 A1)
    as (w1 & E1 & B1 & D1).
  mrun (net_unix_run _ s1 _ w1 E1). rewrite (bool_decide_false (d :: q = [])) by done. cbn [negb]. set (s2 := in_unix w1 s1).
  pose proof Hd as (Hl & Hto & Hlen).
  destruct (recvfrom_spec w1 (sock n) (sockName n) MaxWireSize d q) as (w2 & E2 & B2 & D2); [by rewrite B1|by rewrite D1|lia|].
  assert (ReadFromSocket (sock n) MaxWireSize w1 = Ok (d, w2)) as E3.
  { unfold ReadFromSocket. mrun E2. by rewrite Hl. }
  mrun (net_unix_run _ s2 _ w2 E3). set (s3 := in_unix w2 s2).
  unfold put_network. mrun (on_net_run (put_net this (set_inHdr (packet_of be d) n)) s3). set (s4 := in_net _ s3).
  rewrite Hto, Z.eqb_refl, (proj2 (Z.leb_le _ MaxPacketSize)) by lia. cbn [andb ASSERT].
  rewrite (bind_Ok (ret tt) _ s4 tt s4) by done.
  change (drop (Z.to_nat sizeof_PacketHeader) d) with (drop 12 d).
  unfold MaxWireSize, MaxPacketSize, sizeof_PacketHeader in *. unfold MaxWireSize in *.
  assert (zlength (drop 12 d) = 52) as Hdr by (unfold zlength in *; rewrite length_drop; lia).
  rewrite bcopy_run by lia. cbn [must].
  assert (slice 0 (pkt_length (packet_of be d)) (drop 12 d) = slice 12 (pkt_length (packet_of be d)) d) as -> by done.
  rewrite (bind_Ok (ret _) _ s4 (splice 0 (slice 12 (pkt_length (packet_of be d)) d) (inbox n)) s4) by done.
  mrun (on_net_run (put_net this (took d n)) s4).
  exists w2. split; [|split; [|split]].
  - reflexivity.
  - destruct (took_arrived d q n H0 A5 Hd) as [_ Hi]. constructor; try done.
    + by rewrite B2, B1.
    + rewrite D2. by rewrite bool_decide_true.
    + cbn [inHdr took set_inbox set_inHdr]. unfold MaxPacketSize, MaxWireSize, sizeof_PacketHeader. lia.
  - by rewrite B2, B1.
  - intros x. by rewrite D2, D1.
Qed.

(** What CheckPktAvail does when nothing waits or the interface is full. *)
Lemma CheckPktAvail_leaves s this n q : networks (nst s) !! this = Some n -> attached (unx s) n q ->
  pkt_length (inHdr n) <> 0 \/ q = [] ->
  exists w, Network_CheckPktAvail be this s = Ok (tt, in_unix w (scheduled NetworkReadPoll (Z.of_nat this) NetworkRecvInt s)) /\
    attached w n q.
Proof.
  intros Hn A Hor. pose proof A as [A1 A2 A3 A4 A5 A6].
  unfold Network_CheckPktAvail. mrun (Schedule_run NetworkReadPoll (Z.of_nat this) NetworkRecvInt s).
  set (s1 := scheduled _ _ _ s). mrun (get_network_run s1 this n Hn).
  destruct (Z.eqb_spec (pkt_length (inHdr n)) 0) as [H0|H0]; cbn [negb].
  - destruct Hor as [?| ->]; [done|].
    rewrite (bind_Ok (gets _) _ s1 (bool_decide (status (intr s1) = IdleMode)) s1) by done.
    destruct (PollSocket_run (unx s) (sock n) (sockName n) [] (bool_decide (status (intr s1) = IdleMode)) A2 A3 A1)
      as (w1 & E1 & B1 & D1).
    mrun (net_unix_run _ s1 _ w1 E1). exists w1. split; [done|]. constructor; try done; by rewrite ?B1, ?D1.
  - exists (unx s). split; [|done]. unfold ret. do 2 f_equal. by destruct s as [? ? [? ? ? ? ? ? [? ? ?]]].
Qed.

Lemma Network_Receive_run s this n data : networks (nst s) !! this = Some n ->
  0 <= pkt_length (inHdr n) <= zlength (inbox n) -> zlength (inbox n) <= zlength data ->
  Network_Receive this data s =
    Ok (inHdr n, splice 0 (slice 0 (pkt_length (inHdr n)) (inbox n)) data, in_net (put_net this (set_inHdr (no_length (inHdr n)) n)) s).
Proof.
  intros Hn Hl Hd. unfold Network_Receive. mrun (get_network_run s this n Hn).
  unfold put_network. mrun (on_net_run (put_net this (set_inHdr (no_length (inHdr n)) n)) s). set (s1 := in_net _ s).
  destruct (Z.eqb_spec (pkt_length (inHdr n)) 0) as [H0|H0]; cbn [negb].
  - rewrite H0. by change (slice 0 0 (inbox n)) with (@nil Z).
  - rewrite bcopy_run by lia. done.
Qed.

(** C12: the network interface is a first-in first-out queue of packets: polling
    takes at most one datagram off the socket, never into an interface that
    still holds a packet, schedules the next poll, and signals the post office
    once for each packet; Receive returns the packets in the order in which
    they arrived, and a header of length 0 when there is none. None is lost,
    overwritten or changed. *)
Theorem Network_is_queue s this n q po sm :
  networks (nst s) !! this = Some n -> attached (unx s) n q -> readHandler n = ReadAvail ->
  offices (nst s) !! Z.to_nat (handlerArg n) = Some po -> awaited (messageAvailable po) sm (rest s) ->
  level (intr s) = IntOff ->
  (exists s' n' q', Network_CheckPktAvail be this s = Ok (tt, s') /\
     networks (nst s') = <[this := n']> (networks (nst s)) /\ attached (unx s') n' q' /\
     arrived n' q' = arrived n q /\ (arrived n q <> [] -> buffered n' <> []) /\
     (pending (intr s') ≡ₚ (mkPending NetworkReadPoll (Z.of_nat this) (i32 (now s + NetworkTime)) NetworkRecvInt,
        i32 (now s + NetworkTime)) :: pending (intr s)) /\
     value <$> semaphores (rest s') !! messageAvailable po =
       Some (if decide (buffered n = [] /\ q <> []) then i32 (value sm + 1) else value sm)) /\
  (forall data, MaxPacketSize <= zlength data ->
   exists hdr data' s' n', Network_Receive this data s = Ok (hdr, data', s') /\
     networks (nst s') = <[this := n']> (networks (nst s)) /\ attached (unx s') n' q /\
     match buffered n with
     | [] => pkt_length hdr = 0 /\ data' = data /\ arrived n' q = arrived n q
     | (h, bs) :: _ => hdr = h /\ slice 0 (zlength bs) data' = bs /\ arrived n q = (h, bs) :: arrived n' q
     end).
Proof.
  intros Hn A Hr Hpo Hsm Hlv. split.
  - assert (forall w, exists l, scheduled NetworkReadPoll (Z.of_nat this) NetworkRecvInt (in_unix w s) =
      on_intr (set_pending l) (in_unix w s) /\ (l ≡ₚ (mkPending NetworkReadPoll (Z.of_nat this) (i32 (now s + NetworkTime)) NetworkRecvInt,
        i32 (now s + NetworkTime)) :: pending (intr s))) as Hp by (intros w; eexists; split; [reflexivity|apply sorted_insert_perm]).
    destruct (decide (buffered n = [] /\ q <> [])) as [[Hb Hq]|Hno].
    + assert (pkt_length (inHdr n) = 0) as H0 by (unfold buffered in Hb; by destruct (Z.eqb_spec (pkt_length (inHdr n)) 0)).
      destruct q as [|d q]; [done|]. destruct (CheckPktAvail_takes s this n d q Hn A H0) as (w & E & A' & _ & _).
      rewrite E, Hr. unfold call_handler, PostOffice_IncomingPacket.
      mrun (get_office_run (taken this d n w s) (Z.to_nat (handlerArg n)) po Hpo).
      assert (awaited (messageAvailable po) sm (rest (taken this d n w s))) as Hsm' by (destruct Hsm; by constructor).
      rewrite (V_handler_woken _ sm) by done. set (s1 := taken this d n w s) in *.
      pose proof A as [_ _ _ Hacc Hi _]. apply Forall_cons in Hacc as [Hd _].
      destruct (took_arrived d q n H0 Hi Hd) as [Ha _].
      eexists _, (took d n), q. split; [reflexivity|].
      assert (user (rest (on_rest (woken (messageAvailable po) sm) s1)) = user (rest s1)) as Hu by apply woken_user.
      unfold nst, unx. rewrite Hu. split; [|split; [exact A'|split; [exact Ha|split]]].
      * cbn. by rewrite insert_insert_eq.
      * intros _. unfold buffered. cbn [inHdr took set_inbox set_inHdr]. destruct Hd as (_ & _ & Hd).
        by rewrite (proj2 (Z.eqb_neq _ _)) by lia.
      * split; [apply sorted_insert_perm|]. cbn [rest on_rest]. rewrite woken_semaphores by done.
        by rewrite lookup_insert_eq.
    + destruct (CheckPktAvail_leaves s this n q Hn A) as (w & E & A').
      { unfold buffered in Hno. destruct (Z.eqb_spec (pkt_length (inHdr n)) 0); [|by left]. right. destruct q; [done|].
        by destruct Hno. }
      rewrite E. eexists _, n, q. split; [reflexivity|]. unfold nst, unx. split; [by rewrite insert_id|].
      split; [exact A'|]. split; [done|]. split.
      * intros Ha Hb. destruct q; [|by destruct Hno]. unfold arrived in Ha. by rewrite Hb in Ha.
      * split; [apply sorted_insert_perm|]. cbn. by rewrite (aw_sem _ _ _ Hsm).
  - intros data Hdata. pose proof A as [A1 A2 A3 A4 A5 A6].
    rewrite (Network_Receive_run s this n data) by (done || lia).
    set (n' := set_inHdr (no_length (inHdr n)) n). eexists _, _, _, n'. split; [reflexivity|]. split; [done|].
    split; [constructor; [done..|by unfold n']|].
    unfold arrived, buffered. destruct (Z.eqb_spec (pkt_length (inHdr n)) 0) as [H0|H0].
    + rewrite H0. split; [done|]. split; [|done]. apply splice_empty.
    + assert (zlength (slice 0 (pkt_length (inHdr n)) (inbox n)) = pkt_length (inHdr n)) as Hs by (apply zlength_slice; lia).
      split; [done|]. split; [|done]. apply slice_splice_same; lia.
Qed.
End Interface.

(** ** Sending *)

Section Send.
Context (be : bool) (g : NetGarbage) {W : Type} `{HU : Unix W} `{HS : Sockets W}.
Context (bound : W -> Z -> option (list Z)) (datagrams : W -> list Z -> option (list (list Z))).
Context `{HC : !SocketsSpec bound datagrams}.
Abbreviation K := (Sim (Kernel (NetOS W))).
Implicit Types (s : K).

(** The random number [r] drops the packet. *)
Definition dropped (c : double) (r : Z) : bool := SFleb (double_mul c (double_of 100)) (double_of (Z.rem r 100)).

Lemma all_percent (P : Z -> bool) r : forallb P (seqZ 0 100) = true -> 0 <= r -> P (Z.rem r 100) = true.
Proof.
  intros Hf Hr. rewrite Z.rem_mod_nonneg by lia. apply Is_true_true in Hf. apply forallb_True in Hf.
  rewrite Forall_forall in Hf. apply Is_true_true, Hf, elem_of_seqZ. dlia.
Qed.

Lemma reliable_keeps r : 0 <= r -> dropped (double_of 1) r = false.
Proof.
  intros Hr. apply negb_true_iff.
  apply (all_percent (fun z => negb (SFleb (double_mul (double_of 1) (double_of 100)) (double_of z)))); [by vm_compute|done].
Qed.

Lemma unreliable_drops r : 0 <= r -> dropped (double_of 0) r = true.
Proof.
  apply (all_percent (fun z => SFleb (double_mul (double_of 0) (double_of 100)) (double_of z))). by vm_compute.
Qed.

(** The state after Send. *)
Definition sent (this : loc) (w : W) s : K := in_unix w (scheduled NetworkSendDone (Z.of_nat this) NetworkSendInt s).

Lemma Network_Send_run s this n hdr data name q :
  networks (nst s) !! this = Some n -> sendBusy n = false -> packet_wf hdr -> pkt_from hdr = ident n ->
  0 < pkt_length hdr <= MaxPacketSize -> pkt_length hdr <= zlength data -> zlength (wire_mem g) = MaxWireSize ->
  bound (unx s) (sock n) = Some name -> datagrams (unx s) (socket_name (pkt_to hdr)) = Some q ->
  exists w r d, Network_Send be g this hdr data s = Ok (tt, sent this w s) /\ 0 <= r /\ bound w = bound (unx s) /\
    acceptable be (pkt_to hdr) d /\ packet_read be d = (hdr, slice 0 (pkt_length hdr) data) /\
    forall x, datagrams w x = if bool_decide (x = socket_name (pkt_to hdr)) && negb (dropped (chanceToWork n) r)
                              then Some (q ++ [d]) else datagrams (unx s) x.
Proof.
  intros Hn Hb Hwf Hf Hlen Hd Hw Hbd Hq. unfold Network_Send. mrun (get_network_run s this n Hn).
  rewrite Hb, Hf, Z.eqb_refl, Z.gtb_ltb, (proj2 (Z.ltb_lt 0 _)), (proj2 (Z.leb_le _ _)) by lia. cbn [negb andb ASSERT].
  rewrite (bind_Ok (ret tt) _ s tt s) by done.
  mrun (Schedule_run NetworkSendDone (Z.of_nat this) NetworkSendInt s). set (s1 := scheduled _ _ _ s).
  destruct (rand_spec (unx s)) as (r & w1 & E1 & Hr & B1 & D1).
  mrun (net_unix_run unix_rand s1 r w1 E1). set (s2 := in_unix w1 s1). fold (dropped (chanceToWork n) r).
  unfold MaxWireSize, MaxPacketSize, sizeof_PacketHeader in *. unfold MaxWireSize in *.
  destruct (header_and_data (packet_bytes be hdr) data (wire_mem g) (pkt_length hdr)) as (fill & Ed & El).
  { lia. } { unfold packet_bytes. rewrite zlength_three. lia. }
  set (d := packet_bytes be hdr ++ slice 0 (pkt_length hdr) data ++ fill) in *.
  unfold packet_bytes at 1 in Ed. rewrite zlength_three in Ed. fold (packet_bytes be hdr) in Ed.
  assert (zlength (slice 0 (pkt_length hdr) data) = pkt_length hdr) as Hs by (apply zlength_slice; lia).
  assert (packet_of be d = hdr) as Hp by by apply packet_of_bytes.
  assert (acceptable be (pkt_to hdr) d /\ packet_read be d = (hdr, slice 0 (pkt_length hdr) data)) as [Hacc Hrd].
  { unfold acceptable, packet_read, MaxWireSize. rewrite Hp. split; [split; [lia|done]|]. f_equal.
    apply (slice_mid (packet_bytes be hdr)); [apply zlength_three|done]. }
  destruct (dropped (chanceToWork n) r) eqn:Edr.
  - exists w1, r, d. rewrite Edr. split; [done|]. split; [lia|]. split; [done|]. split; [done|]. split; [done|].
    intros x. by rewrite andb_false_r, D1.
  - assert (zlength (packet_bytes be hdr) = 12) as H12 by apply zlength_three.
    rewrite bcopy_run by lia. cbn [must]. rewrite (bind_Ok (ret _) _ s2 (splice 0 (packet_bytes be hdr) (wire_mem g)) s2)
      by (unfold ret; do 3 f_equal; by apply slice_whole; lia).
    rewrite bcopy_run by (rewrite ?zlength_splice by lia; lia). rewrite Ed. cbn [must].
    rewrite (bind_Ok (ret d) _ s2 d s2) by done.
    destruct (sendto_spec w1 (sock n) name d (socket_name (pkt_to hdr)) q) as (w2 & E2 & B2 & D2); [by rewrite B1|by rewrite D1|].
    assert (SendToSocket (sock n) d (socket_name (pkt_to hdr)) w1 = Ok (tt, w2)) as E3.
    { unfold SendToSocket. mrun E2. by rewrite Z.eqb_refl. }
    rewrite (net_unix_run _ s2 _ w2 E3). exists w2, r, d. rewrite Edr. split; [done|]. split; [lia|]. split; [by rewrite B2, B1|].
    split; [done|]. split; [done|]. intros x. rewrite D2, D1. by rewrite andb_true_r.
Qed.
End Send.

(** ** From the interface to the mail box *)

Section Delivery.
Context (be : bool) (g : NetGarbage) {W : Type}.
Abbreviation K := (Sim (Kernel (NetOS W))).
Implicit Types (s : K).

Definition set_box (box : Z) (l : List) (po : PostOffice) : PostOffice :=
  mkOffice (office_network po) (netAddr po) (zinsert box l (boxes po)) (numBoxes po) (messageAvailable po) (messageSent po).
Definition put_po (this : loc) (po : PostOffice) : Net -> Net := fun x => set_offices (<[this := po]> (offices x)) x.

Lemma on_box_run {A} this box (m : M List A) s po l a l' : offices (nst s) !! this = Some po ->
  zlookup (boxes po) box = Some l -> m l = Ok (a, l') ->
  on_box this box m s = Ok (a, in_net (put_po this (set_box box l' po)) s).
Proof.
  intros Hpo Hl E. unfold on_box. mrun (get_office_run s this po Hpo). rewrite Hl. cbn [must].
  rewrite (bind_Ok (ret l) _ s l s) by done. unfold bind at 1, obind at 2. by rewrite E.
Qed.

(** The contents of a mail box. *)
Definition letters (ms : list positive) : list (Z * Z) := (fun p => (Z.pos p, 0)) <$> ms.
Definition box_holds (x : Net) (this : loc) (box : Z) (ms : list positive) : Prop :=
  exists po l, offices x !! this = Some po /\ zlookup (boxes po) box = Some l /\ represents l (letters ms).

Lemma Put_run s this box ms pkt mail data : box_holds (nst s) this box ms ->
  0 <= mail_length mail <= MaxMailSize -> mail_length mail <= zlength data -> zlength (mail_mem g) = MaxMailSize ->
  exists p s' bs, MailBox_Put g this box pkt mail data s = Ok (tt, s') /\ mails (nst s) !! p = None /\
    mails (nst s') = <[p := mkMailMsg pkt mail bs]> (mails (nst s)) /\ zlength bs = MaxMailSize /\
    slice 0 (mail_length mail) bs = slice 0 (mail_length mail) data /\
    box_holds (nst s') this box (ms ++ [p]) /\ numBoxes <$> offices (nst s') !! this = numBoxes <$> offices (nst s) !! this.
Proof.
  intros (po & l & Hpo & Hl & Hrep) Hlen Hd Hm. unfold MailBox_Put, Mail_new.
  rewrite (proj2 (Z.leb_le _ _)) by lia. cbn [ASSERT]. rewrite <- bind_assoc, (bind_Ok (ret tt) _ s tt s) by done.
  rewrite bcopy_run by lia. cbn [must]. set (bs := splice 0 (slice 0 (mail_length mail) data) (mail_mem g)).
  rewrite <- bind_assoc, (bind_Ok (ret bs) _ s bs s) by done.
  rewrite <- bind_assoc, (bind_Ok (net mails) _ s (mails (nst s)) s) by done.
  set (p := fresh (dom (mails (nst s)))). rewrite <- bind_assoc.
  mrun (on_net_run (set_mails (<[p := mkMailMsg pkt mail bs]> (mails (nst s)))) s). set (s1 := in_net _ s).
  rewrite (bind_Ok (ret _) _ s1 (Z.pos p) s1) by done.
  destruct (SynchList_Append_run l (letters ms) (Z.pos p) Hrep) as (l' & E & Hrep').
  rewrite (on_box_run this box _ s1 po l tt l' Hpo Hl E).
  assert (zlength (slice 0 (mail_length mail) data) = mail_length mail) as Hs by (apply zlength_slice; lia).
  exists p. eexists _, bs. split; [reflexivity|]. split. { apply not_elem_of_dom, is_fresh. }
  split; [done|]. split. { unfold bs. rewrite zlength_splice; lia. }
  split. { rewrite <- Hs at 1. apply slice_splice_same; lia. }
  split. 2: { cbn. by rewrite Hpo, lookup_insert_eq. }
  exists (set_box box l' po), l'. split; [apply lookup_insert_eq|]. apply zlookup_lt_Some in Hl.
  split; [by apply zlookup_zinsert_eq|]. unfold letters. rewrite fmap_app. exact Hrep'.
Qed.

Lemma Get_run s this box p ms m data : box_holds (nst s) this box (p :: ms) -> mails (nst s) !! p = Some m ->
  0 <= mail_length (mailHdr m) <= zlength (mail_data m) -> mail_length (mailHdr m) <= zlength data ->
  exists s', MailBox_Get this box data s =
      Ok (pktHdr m, mailHdr m, splice 0 (slice 0 (mail_length (mailHdr m)) (mail_data m)) data, s') /\
    mails (nst s') = delete p (mails (nst s)) /\ box_holds (nst s') this box ms.
Proof.
  intros (po & l & Hpo & Hl & Hrep) Hm Hlen Hd. unfold MailBox_Get.
  destruct (SynchList_Remove_run l (Z.pos p) 0 (letters ms)) as (l' & E & Hrep'); [done|exact Hrep|].
  rewrite (bind_Ok _ _ _ _ _ (on_box_run this box SynchList_Remove s po l (Z.pos p) l' Hpo Hl E)). set (s1 := in_net _ s).
  rewrite (bind_Ok (net mails) _ s1 (mails (nst s)) s1) by done. rewrite Hm. cbn [must].
  rewrite (bind_Ok (ret m) _ s1 m s1) by done. rewrite bcopy_run by lia. cbn [must].
  rewrite (bind_Ok (ret _) _ s1 (splice 0 (slice 0 (mail_length (mailHdr m)) (mail_data m)) data) s1) by done.
  mrun (on_net_run (fun x => set_mails (delete p (mails x)) x) s1).
  eexists. split; [reflexivity|]. split; [done|]. exists (set_box box l' po), l'. split; [apply lookup_insert_eq|].
  apply zlookup_lt_Some in Hl. split; [by apply zlookup_zinsert_eq|done].
Qed.
End Delivery.

(** ** From one machine to another *)

Section Mail.
Context (be : bool) (g : NetGarbage) {W : Type} `{HU : Unix W} `{HS : Sockets W}.
Context (bound : W -> Z -> option (list Z)) (datagrams : W -> list Z -> option (list (list Z))).
Context `{HC : !SocketsSpec bound datagrams}.
Context (call : VoidFunctionPtr -> Z -> M (Sim (Kernel (NetOS W))) unit) (DL : M (Sim (Kernel (NetOS W))) unit).
Context (code : loc -> prog (Sim (Kernel (NetOS W))) unit).
Abbreviation K := (Sim (Kernel (NetOS W))).
Implicit Types (s : K).

(** The message as the data of a packet. *)
Definition carries (bs : list Z) (mail : MailHeader) (data : list Z) : Prop :=
  exists rest, bs = mail_bytes be mail ++ slice 0 (mail_length mail) data ++ rest.

(** The postal worker takes the packet in the interface to its box. *)
Lemma deliver_run s this b po n buffer pkt bs mail data ms :
  offices (nst s) !! this = Some po -> networks (nst s) !! office_network po = Some n ->
  worker_buffers (nst s) !! b = Some buffer -> zlength buffer = MaxPacketSize ->
  buffered n = [(pkt, bs)] -> zlength bs = pkt_length pkt -> zlength bs <= zlength (inbox n) -> zlength (inbox n) = MaxPacketSize ->
  carries bs mail data -> mail_wf mail -> mail_length mail <= MaxMailSize -> mail_length mail <= zlength data ->
  valid_box po (mail_to mail) = true -> box_holds (nst s) this (mail_to mail) ms -> zlength (mail_mem g) = MaxMailSize ->
  exists p s' md, deliver be g this b s = Ok (tt, s') /\ mails (nst s) !! p = None /\
    mails (nst s') = <[p := mkMailMsg pkt mail md]> (mails (nst s)) /\ zlength md = MaxMailSize /\
    slice 0 (mail_length mail) md = slice 0 (mail_length mail) data /\
    box_holds (nst s') this (mail_to mail) (ms ++ [p]) /\
    numBoxes <$> offices (nst s') !! this = Some (numBoxes po).
Proof.
  intros Hpo Hn Hb Hbl Hbuf Hbs Hbi Hi [rest Ec] Hwf Hm40 Hmd Hv Hbox Hmem.
  unfold buffered in Hbuf. destruct (Z.eqb_spec (pkt_length (inHdr n)) 0) as [|H0]; [done|].
  injection Hbuf as Eh Es. pose proof (zlength_nonneg bs). assert (0 <= mail_length mail) as Hml by (destruct Hwf as (_ & _ & [? _]); lia).
  unfold deliver. mrun (get_office_run s this po Hpo).
  rewrite (bind_Ok (net worker_buffers) _ s (worker_buffers (nst s)) s) by done. rewrite Hb. cbn [must].
  rewrite (bind_Ok (ret buffer) _ s buffer s) by done.
  mrun (Network_Receive_run s (office_network po) n buffer Hn ltac:(subst; lia) ltac:(lia)). set (s1 := in_net _ s).
  rewrite Es. assert (splice 0 bs buffer = bs ++ drop (length bs) buffer) as -> by (unfold splice; by rewrite take_0).
  set (buffer' := bs ++ _). mrun (on_net_run (fun x => set_worker_buffers (<[b := buffer']> (worker_buffers x)) x) s1).
  set (s2 := in_net _ s1).
  assert (buffer' = mail_bytes be mail ++ (slice 0 (mail_length mail) data ++ rest ++ drop (length bs) buffer)) as Eb
    by (unfold buffer'; rewrite Ec at 1; by rewrite <- !app_assoc).
  rewrite Eb, mail_of_bytes, Hv, (proj2 (Z.leb_le _ _)) by done. cbn [ASSERT].
  rewrite (bind_Ok (ret tt) _ s2 tt s2), (bind_Ok (ret tt) _ s2 tt s2) by done.
  assert (length (mail_bytes be mail) = 12%nat) as H12.
  { apply Nat2Z.inj. change (Z.of_nat (length (mail_bytes be mail))) with (zlength (mail_bytes be mail)). apply zlength_three. }
  rewrite drop_app_length' by done. set (tl := slice 0 (mail_length mail) data ++ _).
  assert (zlength (slice 0 (mail_length mail) data) = mail_length mail) as Hsl by (apply zlength_slice; lia).
  assert (slice 0 (mail_length mail) tl = slice 0 (mail_length mail) data) as Htl.
  { pose proof (slice_mid [] (slice 0 (mail_length mail) data) (rest ++ drop (length bs) buffer) 0 (mail_length mail) eq_refl Hsl) as E.
    exact E. }
  assert (mail_length mail <= zlength tl) as Hlt.
  { unfold tl. rewrite !zlength_app, Hsl. pose proof (zlength_nonneg rest). pose proof (zlength_nonneg (drop (length bs) buffer)). lia. }
  destruct (Put_run g s2 this (mail_to mail) ms (inHdr n) mail tl Hbox ltac:(lia) Hlt Hmem)
    as (p & s' & md & E & Hfr & Hms & Hmdl & Hsame & Hbox' & Hnb).
  exists p, s', md. rewrite <- Eh. split; [exact E|]. split; [exact Hfr|]. split; [exact Hms|]. split; [done|].
  split; [by rewrite Hsame|]. split; [done|]. rewrite Hnb. change (offices (nst s2)) with (offices (nst s)). by rewrite Hpo.
Qed.

(** PostOffice::Send up to its wait for the end of the transmission. *)
Lemma PostOffice_Send_run s this po n pkt mail data name q p sv :
  offices (nst s) !! this = Some po -> networks (nst s) !! office_network po = Some n ->
  ident n = netAddr po -> is_i32 (netAddr po) -> is_i32 (pkt_to pkt) -> sendBusy n = false ->
  mail_wf mail -> mail_length mail <= MaxMailSize -> mail_length mail <= zlength data -> valid_box po (mail_to mail) = true ->
  zlength (packet_mem g) = MaxPacketSize -> zlength (wire_mem g) = MaxWireSize ->
  bound (unx s) (sock n) = Some name -> datagrams (unx s) (socket_name (pkt_to pkt)) = Some q ->
  let hdr := mkPkt (pkt_to pkt) (netAddr po) (mail_length mail + sizeof_MailHeader) in
  exists w r d bs, 0 <= r /\ acceptable be (pkt_to pkt) d /\ packet_read be d = (hdr, bs) /\ zlength bs = pkt_length hdr /\ carries bs mail data /\
    run call DL code 5 (mkConfig (PostOffice_Send be g call DL this pkt mail data ;~ p) sv s) =
      Ok (mkConfig (Semaphore_P call DL (messageSent po) ;~ op Lock_Release ;~ p) sv (sent (office_network po) w s)) /\
    forall x, datagrams w x = if bool_decide (x = socket_name (pkt_to pkt)) && negb (dropped (chanceToWork n) r)
                              then Some (q ++ [d]) else datagrams (unx s) x.
Proof.
  intros Hpo Hn Hid Ha Hto Hsb Hwf Hm40 Hmd Hv Hpm Hwm Hbd Hq hdr.
  unfold MaxMailSize, MaxPacketSize, MaxWireSize, sizeof_PacketHeader, sizeof_MailHeader in *.
  unfold MaxPacketSize, MaxWireSize, sizeof_PacketHeader in *. unfold MaxWireSize in *.
  pose proof Hwf as (_ & _ & [Hml _]).
  assert (zlength (mail_bytes be mail) = 12) as H12 by apply zlength_three.
  destruct (header_and_data (mail_bytes be mail) data (packet_mem g) (mail_length mail)) as (fill & Ed & El); [lia..|].
  rewrite H12 in Ed. set (buffer := mail_bytes be mail ++ slice 0 (mail_length mail) data ++ fill) in *.
  assert (zlength (slice 0 (mail_length mail) data) = mail_length mail) as Hsl by (apply zlength_slice; lia).
  assert (u32 (mail_length mail + 12) = mail_length mail + 12) as Hu by (apply u32_id; unfold is_u32; lia).
  destruct (Network_Send_run be g bound datagrams s (office_network po) n hdr buffer name q) as (w & r & d & E & Hr & _ & Hacc & Hrd & Hdg).
  { done. } { done. } { split; [done|]. split; [done|]. unfold is_u32, hdr. cbn. lia. } { by rewrite Hid. }
  { unfold hdr, MaxPacketSize, MaxWireSize, sizeof_PacketHeader. cbn [pkt_length]. lia. }
  { unfold hdr. cbn [pkt_length]. rewrite El. lia. } { done. } { done. } { done. }
  exists w, r, d, (slice 0 (pkt_length hdr) buffer). split; [done|]. split; [done|]. split; [done|].
  split; [apply zlength_slice; cbn [pkt_length hdr]; lia|]. split.
  { exists []. unfold hdr. cbn [pkt_length]. unfold buffer. rewrite app_assoc, app_nil_r.
    pose proof (slice_mid [] (mail_bytes be mail ++ slice 0 (mail_length mail) data) fill 0 (mail_length mail + 12) eq_refl) as Hs.
    apply Hs. rewrite zlength_app. lia. }
  split; [|done]. unfold PostOffice_Send. rewrite pbind_assoc.
  rewrite (run_op call DL code 4 _ _ sv s po s (get_office_run s this po Hpo)). rewrite pbind_assoc.
  rewrite (run_op call DL code 3 _ _ sv s tt s).
  2: { rewrite (proj2 (Z.leb_le _ _)) by (unfold MaxMailSize, MaxPacketSize, MaxWireSize, sizeof_PacketHeader, sizeof_MailHeader; lia). by rewrite Hv. }
  rewrite pbind_assoc. unfold sizeof_MailHeader. rewrite (run_op call DL code 2 _ _ sv s buffer s).
  2: { rewrite bcopy_run by lia. cbn [must]. rewrite (bind_Ok (ret _) _ s (splice 0 (mail_bytes be mail) (packet_mem g)) s)
         by (unfold ret; do 3 f_equal; by apply slice_whole; lia).
       rewrite bcopy_run by (rewrite ?zlength_splice by lia; lia). by rewrite Ed. }
  rewrite pbind_assoc, (run_op call DL code 1 _ _ sv s tt s) by done. rewrite pbind_assoc, Hu.
  rewrite (run_op call DL code 0 _ _ sv s tt (sent (office_network po) w s) E). cbn [run]. by rewrite pbind_assoc.
Qed.

(** C11: a message that is sent without being dropped arrives: on a reliable
    network Send puts one datagram behind those that wait at the receiver's
    socket, and disturbs no other socket; once the interface of the receiver
    holds it, the postal worker puts the message behind the others in the box
    it is addressed to, and Receive from that box gives the reader the same
    mail header, the sender's address and the bytes that were sent. *)
Theorem mail_delivered s this po n pkt mail data name q p sv :
  offices (nst s) !! this = Some po -> networks (nst s) !! office_network po = Some n ->
  chanceToWork n = double_of 1 -> ident n = netAddr po -> is_i32 (netAddr po) -> is_i32 (pkt_to pkt) -> sendBusy n = false ->
  mail_wf mail -> mail_length mail <= MaxMailSize -> mail_length mail <= zlength data -> valid_box po (mail_to mail) = true ->
  zlength (packet_mem g) = MaxPacketSize -> zlength (wire_mem g) = MaxWireSize -> zlength (mail_mem g) = MaxMailSize ->
  bound (unx s) (sock n) = Some name -> datagrams (unx s) (socket_name (pkt_to pkt)) = Some q ->
  let hdr := mkPkt (pkt_to pkt) (netAddr po) (mail_length mail + sizeof_MailHeader) in
  exists s1 d, run call DL code 5 (mkConfig (PostOffice_Send be g call DL this pkt mail data ;~ p) sv s) =
      Ok (mkConfig (Semaphore_P call DL (messageSent po) ;~ op Lock_Release ;~ p) sv s1) /\
    acceptable be (pkt_to pkt) d /\ (packet_read be d).1 = hdr /\
    (forall x, datagrams (unx s1) x = if bool_decide (x = socket_name (pkt_to pkt)) then Some (q ++ [d]) else datagrams (unx s) x) /\
    forall (r : K) this2 b po2 n2 buffer ms,
      offices (nst r) !! this2 = Some po2 -> networks (nst r) !! office_network po2 = Some n2 ->
      worker_buffers (nst r) !! b = Some buffer -> zlength buffer = MaxPacketSize -> zlength (inbox n2) = MaxPacketSize ->
      buffered n2 = [packet_read be d] -> valid_box po2 (mail_to mail) = true -> box_holds (nst r) this2 (mail_to mail) ms ->
      exists l r1, deliver be g this2 b r = Ok (tt, r1) /\ box_holds (nst r1) this2 (mail_to mail) (ms ++ [l]) /\
        (forall l', is_Some (mails (nst r) !! l') -> mails (nst r1) !! l' = mails (nst r) !! l') /\
        (ms = [] -> forall out, MaxMailSize <= zlength out ->
         exists out' r2, PostOffice_Receive this2 (mail_to mail) out r1 = Ok (hdr, mail, out', r2) /\
           slice 0 (mail_length mail) out' = slice 0 (mail_length mail) data /\ box_holds (nst r2) this2 (mail_to mail) []).
Proof.
  intros Hpo Hn Hc Hid Ha Hto Hsb Hwf Hm40 Hmd Hv Hpm Hwm Hmm Hbd Hq hdr.
  destruct (PostOffice_Send_run s this po n pkt mail data name q p sv) as (w & rnd & d & bs & Hr & Hacc & Hrd & Hbs & Hcar & E & Hdg); [done..|].
  fold hdr in Hrd, Hbs. exists (sent (office_network po) w s), d. split; [exact E|]. split; [done|]. split; [by rewrite Hrd|]. split.
  { intros x. change (unx (sent (office_network po) w s)) with w. rewrite Hdg, Hc, reliable_keeps by done. by rewrite andb_true_r. }
  intros r this2 b po2 n2 buffer ms Hpo2 Hn2 Hb Hbl Hi Hbuf Hv2 Hbox. rewrite Hrd in Hbuf.
  destruct Hacc as (_ & _ & Hl). assert (packet_of be d = hdr) as Hp by (unfold packet_read in Hrd; congruence). rewrite Hp in Hl.
  destruct (deliver_run r this2 b po2 n2 buffer hdr bs mail data ms) as (l & r1 & md & E1 & Hfr & Hms & Hmdl & Hsame & Hbox1 & Hnb); [first [done|lia]..|].
  exists l, r1. split; [exact E1|]. split; [done|]. split.
  { intros l' [m Hm]. rewrite Hms, lookup_insert_ne; [done|congruence]. }
  intros -> out Hout. pose proof Hwf as (_ & _ & [Hml _]). cbn [app] in Hbox1.
  destruct (Get_run r1 this2 (mail_to mail) l [] (mkMailMsg hdr mail md) out Hbox1) as (r2 & E2 & _ & Hbox2);
    [by rewrite Hms, lookup_insert_eq|cbn [mailHdr mail_data]; lia|cbn [mailHdr]; lia|].
  cbn [pktHdr mailHdr mail_data] in E2. eexists _, r2. split; [|split; [|exact Hbox2]].
  - unfold PostOffice_Receive. destruct (offices (nst r1) !! this2) as [po3|] eqn:Hpo3; [|done]. injection Hnb as Hnb.
    mrun (get_office_run r1 this2 po3 Hpo3). unfold valid_box in *. rewrite Hnb, Hv2. cbn [ASSERT].
    rewrite (bind_Ok (ret tt) _ r1 tt r1) by done. mrun E2. cbn [fst snd]. by rewrite (proj2 (Z.leb_le _ _)) by lia.
  - rewrite <- Hsame. assert (zlength (slice 0 (mail_length mail) md) = mail_length mail) as Hsl by (apply zlength_slice; lia).
    rewrite <- Hsl at 1. apply slice_splice_same; lia.
Qed.
End Mail.
