(* ===== verification/NetworkRuns.v ===== *)
(** * Two machines on a network

    A small UNIX with datagram sockets, which keeps the contract of
    NetworkSpec.v, and runs of the mail test on two machines that share it. *)

From Stdlib Require Import Ascii String SpecFloat.
From stdpp Require Import base tactics list numbers gmap.
From S2P Require Import Prelude Lists Interrupt Machine BitMap AddrSpace Directory SysDep Threads ThreadsSpec ThreadsRuns Network NetworkSpec TestPrograms Text.

Local Open Scope Z_scope.

(** ** A UNIX with sockets *)

(** The sockets with their names, the datagrams that wait at a name, and what
    the mail tests have printed. *)
Record Wire := mkWire {
  ports : gmap Z (option (list Z));
  wires : gmap (list Z) (list (list Z));
  wire_random : Z;
  printed : list (list Z * Z * Z)
}.
Definition set_wires v (w : Wire) := mkWire (ports w) v (wire_random w) (printed w).

Definition wire_bound (w : Wire) (fd : Z) : option (list Z) := mjoin (ports w !! fd).
Definition wire_datagrams (w : Wire) (name : list Z) : option (list (list Z)) := wires w !! name.

Definition no_call_of_unix {A} (a : A) : M Wire A := ret a.

#[export] Instance Wire_unix : Unix Wire := {|
  unix_open _ _ := no_call_of_unix (-1);
  unix_read _ _ := no_call_of_unix (-1, []);
  unix_write _ _ := no_call_of_unix (-1);
  unix_lseek _ _ _ := no_call_of_unix (-1);
  unix_close _ := no_call_of_unix 0;
  unix_unlink name := fun w => Ok (0, set_wires (delete name (wires w)) w);
  unix_select mask _ := fun w =>
    Ok (match wire_bound w (Z.log2 mask) ≫= wire_datagrams w with Some (_ :: _) => 1 | _ => 0 end, w);
  unix_rand := fun w => Ok (wire_random w mod 2 ^ 31, w);
  unix_srand _ := no_call_of_unix tt
|}.

#[export] Instance Wire_sockets : Sockets Wire := {|
  unix_socket := fun w =>
    let fd := 3 + Z.of_nat (base.size (ports w)) in
    Ok (fd, mkWire (<[fd := None]> (ports w)) (wires w) (wire_random w) (printed w));
  unix_bind fd name := fun w =>
    Ok (0, mkWire (<[fd := Some name]> (ports w)) (<[name := []]> (wires w)) (wire_random w) (printed w));
  unix_recvfrom fd n := fun w =>
    match wire_bound w fd with
    | Some name =>
        match wires w !! name with
        | Some (d :: q) => let d := slice 0 n d in Ok (zlength d, d, set_wires (<[name := q]> (wires w)) w)
        | _ => Ok (-1, [], w)
        end
    | None => Ok (-1, [], w)
    end;
  unix_sendto fd bs name := fun w =>
    match wires w !! name with
    | Some q => Ok (zlength bs, set_wires (<[name := q ++ [bs]]> (wires w)) w)
    | None => Ok (-1, w)
    end
|}.

#[export] Instance Wire_spec : SocketsSpec wire_bound wire_datagrams.
Proof.
  constructor.
  - intros w fd name q t Hb Hq Hfd. exists w. split; [|done]. cbn.
    rewrite i32_id by (unfold is_i32; rewrite Z.shiftl_1_l; pose proof (Z.pow_lt_mono_r 2 fd 31); pose proof (Z.pow_pos_nonneg 2 fd); lia).
    rewrite Z.shiftl_1_l, Z.log2_pow2, Hb by lia. cbn. rewrite Hq. by destruct q.
  - intros w fd name n d q Hb Hq Hl. unfold wire_datagrams in Hq. cbn. rewrite Hb, Hq.
    assert (slice 0 n d = d) as -> by (unfold slice, zlength in *; cbn; apply take_ge; lia).
    eexists. split; [reflexivity|]. split; [done|]. intros x. unfold wire_datagrams. cbn.
    case_bool_decide as E; [by rewrite E, lookup_insert_eq|by rewrite lookup_insert_ne].
  - intros w fd name bs to_ q _ Hq. unfold wire_datagrams in Hq. cbn. rewrite Hq.
    eexists. split; [reflexivity|]. split; [done|]. intros x. unfold wire_datagrams. cbn.
    case_bool_decide as E; [by rewrite E, lookup_insert_eq|by rewrite lookup_insert_ne].
  - intros w. exists (wire_random w mod 2 ^ 31), w. cbn. pose proof (Z.mod_pos_bound (wire_random w) (2 ^ 31)). auto with lia.
Qed.

(** ** Two machines *)

Abbreviation State := (Sim (Kernel (NetOS Wire))).

Definition zeros (n : Z) : list Z := replicate (Z.to_nat n) 0.
Definition no_network : Network :=
  mkNetwork 0 (double_of 0) 0 [] WriteDone ReadAvail 0 false (mkPkt 0 0 0) (zeros MaxPacketSize).
Definition zero_mem : NetGarbage :=
  mkNetGarbage no_network (zeros MaxWireSize) (zeros MaxPacketSize) (zeros MaxMailSize) (mkPkt 0 0 0) (zeros NumTotalRegs).

Definition net_devices : VoidFunctionPtr -> Z -> M State unit := network_call false (fun _ _ => ret tt).

(** printf: the text up to its zero, the sender, the box to reply to. *)
Definition print_mail (buffer : list Z) (from box : Z) : M State unit :=
  on_user (modify (fun x => mkNetOS (net_machine x) (net_state x)
    (mkWire (ports (net_unix x)) (wires (net_unix x)) (wire_random (net_unix x))
       (printed (net_unix x) ++ [(c_string buffer, from, box)])))).

(** [nachos -m id -o far]: the end of Initialize, and main. *)
Definition net_main (id far : Z) : prog State unit :=
  Enable ;~
  po <~ PostOffice_new false zero_mem net_devices (ret tt) id (double_of 1) 10 ;;
  op (on_net (set_postOffice po)) ;~
  MailTest false zero_mem net_devices (ret tt) print_mail far ;~
  ThreadFinish net_devices (ret tt).

Definition net_boot (id far : Z) : config :=
  mkConfig (net_main id far) ∅
    (mkSim Interrupt_new Statistics_new
      (mkKernel {[ 0%nat := main_thread ]} [] 0%nat None empty empty
        (mkNetOS small_machine (mkNet empty empty empty empty 0%nat) (mkWire empty empty 0 [])))).

Definition net_step : config -> outcome config := step net_devices (ret tt) no_code.

(** The UNIX of a machine, and a machine on another UNIX. *)
Definition unix_of (c : config) : Wire := net_unix (user (rest (state c))).
Definition on_wire (w : Wire) (c : config) : config :=
  mkConfig (cpu c) (saved c) (on_rest (fun k => set_user
    (mkNetOS (net_machine (user k)) (net_state (user k)) w) k) (state c)).

(** What two machines do that share a UNIX, when they are given the CPU in
    turns [t1] and [t2] steps long, the first one first: [Ok] with what was
    printed when both have halted. A machine that has halted is [None]. *)
Fixpoint turn (t : nat) (w : Wire) (m : option config) : outcome (Wire * option config) :=
  match t, m with
  | S n, Some c =>
      match net_step (on_wire w c) with
      | Ok c' => turn n (unix_of c') (Some c')
      | Halted => Ok (w, None)
      | Aborted => Aborted
      | Undef => Undef
      end
  | _, _ => Ok (w, m)
  end.
Fixpoint two_machines (fuel t1 t2 : nat) (w : Wire) (m1 m2 : option config) : outcome (list (list Z * Z * Z)) :=
  match fuel with
  | O => Undef
  | S n =>
      match m1, m2 with
      | None, None => Ok (printed w)
      | _, _ =>
          obind (turn t1 w m1) (fun '(w, m1) =>
          obind (turn t2 w m2) (fun '(w, m2) => two_machines n t1 t2 w m1 m2))
      end
  end.
Definition mail_test (fuel t1 t2 : nat) : outcome (list (list Z * Z * Z)) :=
  two_machines fuel t1 t2 (mkWire empty empty 0 []) (Some (net_boot 0 1)) (Some (net_boot 1 0)).

(** ** Runs *)

(** The mail test on two machines: in lock step both greet, acknowledge and
    halt, and the two messages of each are printed with the sender's address
    and box. When machine 0 runs three times as fast it looks into its mail box
    before the other machine has sent anything: instead of waiting, Receive
    aborts, as condition variables are not implemented. *)
Theorem MailTest_run :
  mail_test 200 1 1 =
    Ok [(text "Hello there!", 1, 1); (text "Hello there!", 0, 1); (text "Got it!", 1, 1); (text "Got it!", 0, 1)] /\
  mail_test 200 3 1 = Aborted.
Proof. by vm_compute. Qed.

(** Machine 0 with a datagram from machine 1 at its socket. *)
Definition some_datagram : list Z := three false 0 1 5 ++ [1; 2; 3; 4; 5] ++ zeros 47.
Definition some_network (id : Z) : Network :=
  mkNetwork id (double_of 1) 3 (socket_name id) WriteDone ReadAvail 0 false (mkPkt 0 0 0) (zeros MaxPacketSize).
Definition some_office (id : Z) : PostOffice := mkOffice 0%nat id [MailBox_new] 1 0%nat 1%nat.
Definition some_machine (id : Z) (queues : gmap (list Z) (list (list Z))) : State :=
  mkSim Interrupt_new Statistics_new
    (mkKernel {[ 0%nat := main_thread ]} [] 0%nat None
      {[ 0%nat := mkSem (Lit []) 0 []; 1%nat := mkSem (Lit []) 0 [] ]} empty
      (mkNetOS small_machine
        (mkNet {[ 0%nat := some_network id ]} {[ 0%nat := some_office id ]} empty {[ 0%nat := zeros MaxPacketSize ]} 0%nat)
        (mkWire {[ 3 := Some (socket_name id) ]} queues 0 []))).

Lemma Network_is_queue_witness :
  exists s', Network_CheckPktAvail false 0%nat (some_machine 0 {[ socket_name 0 := [some_datagram] ]}) = Ok (tt, s') /\
    value <$> semaphores (rest s') !! 0%nat = Some 1.
Proof.
  destruct (Network_is_queue false wire_bound wire_datagrams (some_machine 0 {[ socket_name 0 := [some_datagram] ]})
    0%nat (some_network 0) [some_datagram] (some_office 0) (mkSem (Lit []) 0 [])) as [(s' & n' & q' & E & _ & _ & _ & _ & _ & Hv) _].
  - reflexivity.
  - constructor; try (reflexivity || done). by repeat constructor.
  - reflexivity.
  - reflexivity.
  - constructor; [reflexivity|]. intros t Ht. by apply not_elem_of_nil in Ht.
  - reflexivity.
  - exists s'. split; [exact E|exact Hv].
Defined.

Lemma mail_delivered_witness :
  exists s1 d, run net_devices (ret tt) no_code 5
      (mkConfig (PostOffice_Send false zero_mem net_devices (ret tt) 0%nat (mkPkt 0 0 0) (mkMail 0 1 13) hello ;~ Ret tt) ∅
        (some_machine 1 {[ socket_name 0 := [] ]})) =
      Ok (mkConfig (Semaphore_P net_devices (ret tt) 1%nat ;~ op Lock_Release ;~ Ret tt) ∅ s1) /\
    wire_datagrams (unx s1) (socket_name 0) = Some [d].
Proof.
  destruct (mail_delivered false zero_mem wire_bound wire_datagrams net_devices (ret tt) no_code
    (some_machine 1 {[ socket_name 0 := [] ]}) 0%nat (some_office 1) (some_network 1) (mkPkt 0 0 0) (mkMail 0 1 13) hello
    (socket_name 1) [] (Ret tt) ∅) as (s1 & d & E & _ & _ & Hd & _);
    try (reflexivity || done || (unfold is_i32; cbn; lia)).
  - exists s1, d. split; [exact E|]. exact (Hd (socket_name 0)).
Defined.
